(* ===== verification/_CoqProject ===== *)
-Q . S2P
Prelude.v
KeyOrder.v
Utils.v
Libspdm.v
IniFile.v
IniSpec.v
Results.v
TestConfig.v
Engine.v
Stops.v
TestLib.v
Prepare.v
ConfigDump.v
ConfigParse.v
ConfigWf.v
Pipeline.v
DumpTotal.v
ParseTotal.v
Hardware.v
PcieIde.v
PcieIdeSpec.v
Kcbar.v
KcbarSpec.v
IdeKm.v
IdeKmSpec.v
Doe.v
DoeSpec.v
Ports.v
PortsSpec.v
Spdm.v
Tests.v
TestsSpec.v
PcieTests.v
PcieGroup.v
PcieCode.v
PcieTestsSpec.v
PcieCodeSpec.v
PcieRun.v
CxlIde.v
CxlIdeSpec.v
CxlKm.v
CxlKmSpec.v
CxlTests.v
CxlGroup.v
CxlCodeSpec.v
Typed.v
Tdisp.v
TdispSpec.v
TdispDevice.v
Tsp.v
TspSpec.v
Libraries.v
SpdmTests.v
GroupSpec.v
Layout.v
Registers.v
Clean.v
Report.v
Cmdline.v
Main.v
Files.v
Tools.v
