(* ===== verification/Prelude.v ===== *)
(** * A verification of the TEE-IO validator

    The TEE-IO validator tests whether the devices of a PCIe or CXL fabric
    keep to the security protocols (IDE, IDE_KM, TSP, TDISP, SPDM).  It reads
    an INI file, looks its names up in the tables of the test libraries,
    builds lists of test suites, groups and cases, runs them against the
    devices, and reports a tree of results.  All paths below are relative to
    src/teeio-validator/.

    ** The files, in the order of a run

    - The program.  [Cmdline] is teeio_validator/cmdline.c, [Main] the main
      function of teeio_validator.c and [run] of ide_test.c, which compose
      everything below; [Report] prints the results, [Clean] frees the tests, which
      [Clean.lay_suites] lays out on a heap for it, and [Files] is the log and the packet file (library/debuglib/,
      library/helperlib/pcap.c).
    - Reading the file.  [IniFile] is the INI reader of
      teeio_validator/ide_test_ini.c ([OpenIniFile] to [CloseIniFile]); [Utils]
      holds the character and number helpers of library/helperlib/utils.c and
      the BDF parsing and device table of library/helperlib/pcie_helper.c.
      [IniSpec] has a grammar of INI files with its meaning, and shows that
      the reader computes it, and which blocks closing a file frees.
    - The configuration.  [TestConfig] is the data of include/ide_test.h with
      the look-ups of library/helperlib/ide_ini_helper.c; [TestLib] the
      registry and the tables of the test libraries
      (library/*_test_lib/*_common.c); [ConfigParse] the section parsers up to
      [parse_ide_test_init]; [ConfigDump] the log of the result.  [ConfigWf]
      proves the invariant of the configuration, [DumpTotal] and
      [ParseTotal] that log and parser return.
    - Preparing and running.  [Prepare] builds the suites from a
      configuration (teeio_validator/ide_test.c up to [prepare_tests_data]);
      [Engine] runs them; [Results] is the tree of results of
      library/helperlib/teeio_common.c with its counters.  [Stops] shows that a run of the engine ends or stops
      where one of its calls or asserts stops.  [Pipeline]
      composes parser, preparation and engine.
    - The hardware.  [Hardware] gives the accesses of pcie_helper.c over a
      machine that is a parameter; [PcieIde] the capability walks, stream
      registers and the choice of free streams of
      library/pcie_ide_lib/pcie_ide.c; [Kcbar] the KEYP table, the root
      complex registers of intel_rp_pcie.c and the register dumps; [Doe] the mailbox of
      library/spdmlib/pci_doe.c; [Ports] the opening and closing of ports and
      the scan of scan_pcie.c; [IdeKm] the key management of
      library/pcie_ide_test_lib/test_case/ide_km_common.c; [KeyOrder] the byte
      order of keys and IVs; [Spdm] the connection and sessions of
      library/spdmlib/spdm.c; [CxlIde] and [CxlKm] the registers
      (library/cxl_ide_lib/) and the key management of CXL.
      [Layout] is the layout of C structures with bit fields, and [Registers] the
      declarations of include/pcie.h, intel_keyp.h and cxl.h in it.
    - The test libraries.  [Tests] is what all tests share: a computation
      with the context of a group and the variables of a library, and its reports.
      [PcieTests] and [PcieGroup] are library/pcie_ide_test_lib/ (cases;
      group and configurations), [CxlTests] and [CxlGroup]
      library/cxl_ide_test_lib/, [Tdisp] library/tdisp_test_lib/, [Tsp]
      library/cxl_tsp_test_lib/, [SpdmTests] library/spdm_test_lib/.
      [PcieCode] gives every function name in the tables of the PCIe
      library its definition, and so an instance of the class
      [Engine.TestCode]; the files of CXL IDE, TDISP and TSP do it at their end.
      [Libraries] has the class of what such a library promises to the engine, with
      four instances.
    - The tools.  [Tools] is tools/lside.c, setide.c and ide_common.c.
    The theorems about a file are in it or in the file of that name with Spec at its end;
    [TestsSpec], [Typed], [PcieRun], [PcieCodeSpec], [CxlCodeSpec], [TdispDevice] and
    [GroupSpec] prove what the functions of the tables have in common and what
    their runs report.

    ** How C is modelled

    A function is a function here.  [res] below says how a C function may
    fail to come back: a failed assert never returns, undefined behaviour is a
    value of its own, and so is a used-up loop bound.  Functions that write
    through pointers return what they wrote; functions that work on the
    devices run in the state monad [io] of [Hardware], whose state is a
    machine about which nothing is assumed: the class [Bus] gives its
    register accesses, [Clock] its waiting, [Os] its files and mappings, and
    the requester classes what libspdm does.  Machine integers are Z with
    their wrap-around written out ([u8], [u16], [u32], [get_bits],
    [set_bits]).  Shared port objects are a finite map from addresses, and the
    device table and other globals are the record [process] of [Ports].  The blocks that are
    freed at the end of a run are a heap of their own in [Clean].
    libspdm is a git submodule: its status codes, messages and random numbers
    are class parameters with documented laws ([Libspdm], [IdeKmRequester],
    [DoeDiscovery]); every theorem that assumes something of them has a
    witness with a concrete instance.

    ** Bounds

    - [while] takes a number of rounds.  Walks of the PCI capability lists get
      256 and of the extended lists 4096, one more than the aligned offsets there are, so
      only a circular list uses them up; the KEYP table gets 4097 for its 4096 bytes;
      the readers of strings, of the INI file and of the command line get a bound from the length of
      their input; the loops over the entries of the configuration get 64
      or 1024, more than the arrays they fill have room for.
    - DOE polling gets the number of polls the code computes itself.
    - The search for the port index of the device gets 256 rounds, one for every value of
      its counter, a byte.
    - Waiting for a free key slot and refreshing keys ask the user again and again, and the
      interface report of TDISP is asked for as long as the device says that bytes remain,
      so there the number of rounds is an argument.
    Where a loop ends it is proved that it ends within its bound; where it
    does not, a theorem says so.

    ** What the theorems show

    - End to end: with a command line that names an accepted file, the program runs
      the selected suites or the one case, reports every case, prints both
      reports, frees the tests and ends with 0, or stops in a test function; an accepted file is well-formed, its tests can be
      prepared, the calls follow the protocol of a test run, counters and verdicts agree
      with the assertions recorded, the summary with the details, and the tests are
      freed once, all but the switch connections ([Main], [Pipeline], [ConfigWf], [ParseTotal],
      [Prepare], [Engine], [Stops], [Results], [Report], [Clean]).
    - The readers: the grammar's meaning, the last definition of a key wins,
      the blocks freed when the file is closed, the damage a bad value does anywhere in a file, the options of the usage, packets that
      come back from their file ([IniSpec], [IniFile], [Cmdline], [Files]).
    - Helpers: number lists, BDF strings, device table, key byte order
      ([Utils], [KeyOrder]).
    - Registers: capability walks find what is there, control registers
      change only their own bits, free streams are free, key slots are free when the slots of
      every stream follow each other, the KEYP look-up inverts the encoding of the table; the members of a packed
      structure do not overlap and the accessors used are those of the declarations
      ([PcieIdeSpec], [KcbarSpec], [CxlIdeSpec], [Layout], [Registers]).
    - Protocols: the set-up of a stream is its plan of steps, device and root
      port get the same key, a data object goes through the mailbox dword by
      dword in a bounded number of polls, a scan follows the bus numbers of the bridges
      ([IdeKmSpec], [CxlKmSpec], [DoeSpec], [PortsSpec]).
    - Tests: every registered function has a definition of the type its
      table asks for, and reports only under the case, the configuration or the group it is
      called for, in the four libraries whose cases are in the repository
      ([Typed], [Libraries], [GroupSpec]); verdicts are those of the answers
      ([PcieTestsSpec], [TdispSpec], [TspSpec], with the departures from the documented
      assertions), and every TDISP case ends with its verdict against a device that
      follows the protocol ([TdispDevice]).
    - Tools: what lside prints and what setide clears ([Tools]).

    ** Not modelled

    The test cases of the SPDM responder library, a submodule; the functions
    that make file names of the calendar time, and the opening of /dev/mem, which are
    arguments; [DumpIniSection] and [decimal_str_to_array], which nothing calls;
    [spdm_test_lib_clean], at the end of the process; prototypes, and constants of the headers that
    no code uses (include/spdm_lib_config.h configures libspdm).  What goes to
    the log is left out where no result depends on it.  malloc succeeds, except in [Spdm] and
    [SpdmTests], where the class [Alloc] says what it returns.

    ** Plan

    The code of the repository is covered.  What could still be added are devices for the
    other protocols as [TdispDevice] has one, and laws of the submodule
    for the responder tests. *)
From Stdlib Require Import ZArith Lia Ascii String.
From stdpp Require Import prelude.

Open Scope Z_scope.

(** ** Outcomes of C code *)

(** How a C function may fail to come back.  A failed [TEEIO_ASSERT] never
    returns ([teeio_assert] spins in [debug_lib_assert]); [Undefined] is C
    undefined behaviour (out-of-range access, null or freed pointer);
    [NoFuel] says that the bound given to a loop of the model was used up. *)
Inductive stop : Type := AssertHang | Undefined | NoFuel.

Inductive res (A : Type) : Type :=
| Ok (a : A)
| Stop (s : stop).
Arguments Ok {A} a.
Arguments Stop {A} s.

#[export] Instance stop_eq_dec : EqDecision stop.
Proof. solve_decision. Defined.

#[export] Instance res_eq_dec {A} `{EqDecision A} : EqDecision (res A).
Proof. solve_decision. Defined.

Definition res_bind {A B} (r : res A) (k : A → res B) : res B :=
  match r with Ok a => k a | Stop s => Stop s end.

Declare Scope teeio_scope.
Delimit Scope teeio_scope with teeio.
Open Scope teeio_scope.

Notation "'let*' p := c 'in' k" :=
  (res_bind c (λ x, match x with p => k end))
  (at level 10, p pattern, c at level 200, k at level 200, only parsing) : teeio_scope.

(** [TEEIO_ASSERT(b)] *)
Definition TEEIO_ASSERT (b : bool) : res unit := if b then Ok tt else Stop AssertHang.

(** A dereference: [None] is a pointer that may not be followed. *)
Definition deref {A} (o : option A) : res A :=
  match o with Some a => Ok a | None => Stop Undefined end.

Lemma res_bind_Ok {A B} (r : res A) (k : A → res B) b :
  res_bind r k = Ok b ↔ ∃ a, r = Ok a ∧ k a = Ok b.
Proof.
  destruct r as [a|s]; simpl; split.
  - eauto.
  - intros (a' & [= ->] & H); exact H.
  - discriminate.
  - intros (a' & H & _); discriminate.
Qed.

Lemma TEEIO_ASSERT_Ok b u : TEEIO_ASSERT b = Ok u ↔ b = true.
Proof. destruct b, u; simpl; split; congruence. Qed.

Lemma deref_Ok {A} (o : option A) a : deref o = Ok a ↔ o = Some a.
Proof. destruct o; simpl; split; congruence. Qed.

(** ** Loops *)

(** [iter_until p f s] runs the loop body [f] at most [p] times; [inl] is
    "go round again", [inr] leaves the loop.  The bound is a binary number,
    so that counters of millions of iterations cost nothing when the loop
    leaves early. *)
Section iter_until.
Context {S A : Type} (f : S → res (S + A)).

Definition again (r : res (S + A)) (k : S → res (S + A)) : res (S + A) :=
  match r with Ok (inl s) => k s | _ => r end.

Fixpoint iter_until (p : positive) (s : S) : res (S + A) :=
  match p with
  | xH => f s
  | xO q => again (iter_until q s) (iter_until q)
  | xI q => again (f s) (λ s, again (iter_until q s) (iter_until q))
  end.

(** A [while] loop with a bound; running out of the bound is [NoFuel]. *)
Definition while (p : positive) (s : S) : res A :=
  match iter_until p s with
  | Ok (inr a) => Ok a
  | Ok (inl _) => Stop NoFuel
  | Stop e => Stop e
  end.

(** Invariant rule: [I] holds at every loop head, [Q] of every result. *)
Lemma iter_until_inv (I : S → Prop) (Q : A → Prop) p s :
  (∀ s, I s → match f s with Ok (inl s') => I s' | Ok (inr a) => Q a | Stop _ => True end) →
  I s →
  match iter_until p s with Ok (inl s') => I s' | Ok (inr a) => Q a | Stop _ => True end.
Proof.
  intros Hf. revert s. induction p as [q IH|q IH|]; intros s Hs; simpl.
  - specialize (Hf s Hs). destruct (f s) as [[s1|a]|e]; simpl; auto.
    specialize (IH s1 Hf) as IH1. destruct (iter_until q s1) as [[s2|a]|e]; simpl; auto.
    apply (IH s2 IH1).
  - specialize (IH s Hs) as IH1. destruct (iter_until q s) as [[s2|a]|e]; simpl; auto.
    apply (IH s2 IH1).
  - apply Hf, Hs.
Qed.

Lemma while_inv (I : S → Prop) (Q : A → Prop) p s a :
  (∀ s, I s → match f s with Ok (inl s') => I s' | Ok (inr a) => Q a | Stop _ => True end) →
  I s → while p s = Ok a → Q a.
Proof.
  intros Hf Hs. unfold while. pose proof (iter_until_inv I Q p s Hf Hs) as H.
  destruct (iter_until p s) as [[s'|a']|e]; [discriminate|intros [= ->]; exact H|discriminate].
Qed.

(** Termination rule: a natural measure that every further round lowers. *)
Lemma iter_until_measure (I : S → Prop) (μ : S → Z) p s :
  (∀ s, I s → match f s with
              | Ok (inl s') => I s' ∧ 0 ≤ μ s' < μ s
              | Ok (inr _) => True
              | Stop _ => False end) →
  I s →
  match iter_until p s with
  | Ok (inl s') => I s' ∧ 0 ≤ μ s' ∧ μ s' + Zpos p ≤ μ s
  | Ok (inr _) => True
  | Stop _ => False end.
Proof.
  intros Hf. revert s. induction p as [q IH|q IH|]; intros s Hs; simpl.
  - specialize (Hf s Hs). destruct (f s) as [[s1|a]|e]; simpl; auto.
    destruct Hf as [H1 Hm1].
    specialize (IH s1 H1) as IH1. destruct (iter_until q s1) as [[s2|a]|e]; simpl; auto.
    destruct IH1 as (H2 & Hm2 & Hq2).
    specialize (IH s2 H2) as IH2. destruct (iter_until q s2) as [[s3|a]|e]; simpl; auto.
    destruct IH2 as (H3 & Hm3 & Hq3). split; [done|]. lia.
  - specialize (IH s Hs) as IH1. destruct (iter_until q s) as [[s2|a]|e]; simpl; auto.
    destruct IH1 as (H2 & Hm2 & Hq2).
    specialize (IH s2 H2) as IH2. destruct (iter_until q s2) as [[s3|a]|e]; simpl; auto.
    destruct IH2 as (H3 & Hm3 & Hq3). split; [done|]. lia.
  - specialize (Hf s Hs). destruct (f s) as [[s1|a]|e]; simpl; auto.
    destruct Hf as [H1 Hm1]. split; [done|]. lia.
Qed.

Lemma while_total (I : S → Prop) (μ : S → Z) p s :
  (∀ s, I s → match f s with
              | Ok (inl s') => I s' ∧ 0 ≤ μ s' < μ s
              | Ok (inr _) => True
              | Stop _ => False end) →
  I s → μ s < Zpos p → ∃ a, while p s = Ok a.
Proof.
  intros Hf Hs Hp. unfold while.
  pose proof (iter_until_measure I μ p s Hf Hs) as H.
  destruct (iter_until p s) as [[s'|a']|e]; [lia|eauto|done].
Qed.

(** A body that always goes round again never leaves the loop. *)
Lemma while_diverges (I : S → Prop) p s :
  (∀ s, I s → ∃ s', f s = Ok (inl s') ∧ I s') → I s → while p s = Stop NoFuel.
Proof.
  intros Hf Hs.
  assert (H : ∃ s', iter_until p s = Ok (inl s') ∧ I s').
  { revert s Hs. induction p as [q IH|q IH|]; intros s Hs; simpl.
    - destruct (Hf s Hs) as (s1 & -> & H1); simpl.
      destruct (IH s1 H1) as (s2 & -> & H2); simpl. apply IH, H2.
    - destruct (IH s Hs) as (s2 & -> & H2); simpl. apply IH, H2.
    - apply Hf, Hs. }
  destruct H as (s' & H & _). unfold while. by rewrite H.
Qed.

(** The binary counter agrees with unary counting. *)
Fixpoint iter_nat (n : nat) (s : S) : res (S + A) :=
  match n with O => Ok (inl s) | Datatypes.S n => again (f s) (iter_nat n) end.

Lemma iter_nat_add n m s : iter_nat (n + m) s = again (iter_nat n s) (iter_nat m).
Proof.
  revert s. induction n as [|n IH]; intros s; simpl; [done|].
  by destruct (f s) as [[s1|a]|e]; simpl.
Qed.

Lemma iter_until_nat p s : iter_until p s = iter_nat (Pos.to_nat p) s.
Proof.
  revert s. induction p as [q IH|q IH|]; intros s; cbn [iter_until].
  - rewrite Pos2Nat.inj_xI, Nat.mul_succ_l, Nat.mul_1_l. simpl.
    destruct (f s) as [[s1|a]|e]; simpl; try done.
    rewrite iter_nat_add, IH. by destruct (iter_nat _ s1) as [[s2|a]|e]; simpl.
  - rewrite Pos2Nat.inj_xO, Nat.mul_succ_l, Nat.mul_1_l, iter_nat_add, IH.
    by destruct (iter_nat _ s) as [[s2|a]|e]; simpl.
  - simpl. by destruct (f s) as [[s1|a]|e].
Qed.

Lemma while_succ p s :
  while (Pos.succ p) s = match f s with
                         | Ok (inl s') => while p s'
                         | Ok (inr a) => Ok a
                         | Stop e => Stop e end.
Proof.
  unfold while. rewrite !iter_until_nat, Pos2Nat.inj_succ. simpl.
  destruct (f s) as [[s'|a]|e]; simpl; try done. by rewrite iter_until_nat.
Qed.

(** More fuel never changes a result. *)
Lemma while_mono p s a : while p s = Ok a → while (Pos.succ p) s = Ok a.
Proof.
  revert s. induction p as [|p IH] using Pos.peano_ind; intros s.
  - rewrite while_succ. unfold while at 1; simpl.
    destruct (f s) as [[s'|a']|e]; congruence.
  - intros H. rewrite while_succ in H |- *.
    destruct (f s) as [[s'|a']|e]; auto.
Qed.
End iter_until.

(** [for] loops over the values of the counter (or the cells of an array);
    [inr] is a [return] or [break] that carries its value. *)
Section for_loops.
Context {T S R : Type}.

Fixpoint for_each (body : T → S → res (S + R)) (l : list T) (s : S) : res (S + R) :=
  match l with
  | [] => Ok (inl s)
  | x :: l => match body x s with
              | Ok (inl s') => for_each body l s'
              | r => r
              end
  end.

Fixpoint fold_res (body : T → S → res S) (l : list T) (s : S) : res S :=
  match l with
  | [] => Ok s
  | x :: l => let* s' := body x s in fold_res body l s'
  end.

Lemma fold_res_app body l k s :
  fold_res body (l ++ k) s = let* s' := fold_res body l s in fold_res body k s'.
Proof.
  revert s. induction l as [|x l IH]; intros s; simpl; [done|].
  destruct (body x s); simpl; auto.
Qed.

Lemma fold_res_inv (I : S → Prop) body l s s' :
  (∀ x s s', x ∈ l → I s → body x s = Ok s' → I s') →
  I s → fold_res body l s = Ok s' → I s'.
Proof.
  revert s. induction l as [|x l IH]; intros s Hb Hs; simpl.
  - by intros [= <-].
  - rewrite res_bind_Ok. intros (s1 & H1 & H2).
    eapply (IH s1); [| |exact H2].
    + intros y t t' Hy. apply Hb. by right.
    + eapply Hb; [by left|exact Hs|exact H1].
Qed.
End for_loops.

(** An invariant of a counting loop, indexed by the counter. *)
Lemma fold_res_seqZ {S} (I : Z → S → Prop) (body : Z → S → res S) lo n s s' :
  0 ≤ n →
  (∀ k s s', lo ≤ k < lo + n → I k s → body k s = Ok s' → I (k + 1) s') →
  I lo s → fold_res body (seqZ lo n) s = Ok s' → I (lo + n) s'.
Proof.
  intros Hn. rewrite <- (Z2Nat.id n Hn). clear Hn. revert lo s.
  induction (Z.to_nat n) as [|m IH]; intros lo s Hb Hs.
  - intros [= <-]. by rewrite Z.add_0_r.
  - rewrite seqZ_cons by lia. cbn [fold_res]. rewrite res_bind_Ok. intros (s1 & H1 & H2).
    replace (Z.pred (Z.of_nat (Datatypes.S m))) with (Z.of_nat m) in H2 by lia. rewrite <- Z.add_1_r in H2.
    replace (lo + Z.of_nat (Datatypes.S m)) with (lo + 1 + Z.of_nat m) by lia.
    eapply IH; [|eapply Hb; [|exact Hs|exact H1]; lia|exact H2]. intros k t t' Hk. apply Hb. lia.
Qed.

(** ** Byte arrays in memory

    An object is the list of its bytes; reading or writing outside of it is
    undefined. *)
Definition in_object (m : list Z) (off n : Z) : bool :=
  (0 <=? off) && (0 <=? n) && (off + n <=? Z.of_nat (length m)).

Definition load (m : list Z) (off n : Z) : res (list Z) :=
  if in_object m off n then Ok (take (Z.to_nat n) (drop (Z.to_nat off) m)) else Stop Undefined.

Definition store (m : list Z) (off : Z) (w : list Z) : res (list Z) :=
  if in_object m off (Z.of_nat (length w))
  then Ok (take (Z.to_nat off) m ++ w ++ drop (Z.to_nat off + length w) m)
  else Stop Undefined.

Lemma in_object_true m off n :
  in_object m off n = true ↔ 0 ≤ off ∧ 0 ≤ n ∧ off + n ≤ Z.of_nat (length m).
Proof. unfold in_object. rewrite !andb_true_iff, !Z.leb_le. tauto. Qed.

Lemma load_app pre w post off n :
  off = Z.of_nat (length pre) → n = Z.of_nat (length w) → load (pre ++ w ++ post) off n = Ok w.
Proof.
  intros -> ->. unfold load.
  rewrite (proj2 (in_object_true _ _ _)) by (rewrite !length_app; lia).
  rewrite !Nat2Z.id, drop_app_length, take_app_length. done.
Qed.

Lemma store_app pre w w' post off :
  off = Z.of_nat (length pre) → length w = length w' →
  store (pre ++ w ++ post) off w' = Ok (pre ++ w' ++ post).
Proof.
  intros -> Hw. unfold store.
  rewrite (proj2 (in_object_true _ _ _)) by (rewrite !length_app; lia).
  rewrite Nat2Z.id, take_app_length.
  rewrite <- Hw, <- length_app, (app_assoc pre w post), drop_app_length. done.
Qed.

Lemma store_length m off w m' : store m off w = Ok m' → length m' = length m.
Proof.
  unfold store. destruct (in_object _ _ _) eqn:E; [|discriminate].
  apply in_object_true in E as (? & ? & ?). intros [= <-].
  rewrite !length_app, length_take, length_drop. lia.
Qed.

(** ** Arrays of records

    An array is the list of its cells; an access outside of it is undefined. *)
Section arrays.
Context {A : Type}.

Definition array_get (l : list A) (i : Z) : res A :=
  if i <? 0 then Stop Undefined else deref (l !! Z.to_nat i).

Definition array_set (l : list A) (i : Z) (x : A) : res (list A) :=
  if (0 <=? i) && (i <? Z.of_nat (length l)) then Ok (<[Z.to_nat i := x]> l) else Stop Undefined.

(** [for (i = 0; i < n; i++) if (P(a[i])) return a + i; return NULL;] *)
Fixpoint find_cell (P : A → bool) (n : nat) (l : list A) : res (option A) :=
  match n, l with
  | O, _ => Ok None
  | S _, [] => Stop Undefined
  | S n, x :: l => if P x then Ok (Some x) else find_cell P n l
  end.

Lemma array_get_Ok l i x : array_get l i = Ok x ↔ 0 ≤ i ∧ l !! Z.to_nat i = Some x.
Proof.
  unfold array_get. destruct (Z.ltb_spec i 0); [split; [done|lia]|].
  rewrite deref_Ok. split; [by split|by intros [_ ?]].
Qed.

Lemma array_get_nat l i x : l !! i = Some x → array_get l (Z.of_nat i) = Ok x.
Proof. intros H. apply array_get_Ok. split; [lia|]. by rewrite Nat2Z.id. Qed.

Lemma array_set_Ok l i x l' :
  array_set l i x = Ok l' ↔ 0 ≤ i < Z.of_nat (length l) ∧ l' = <[Z.to_nat i := x]> l.
Proof.
  unfold array_set.
  destruct (Z.leb_spec 0 i), (Z.ltb_spec i (Z.of_nat (length l))); simpl; split;
    try discriminate; try (intros [? _]; lia).
  - by intros [= <-].
  - by intros [_ ->].
Qed.

Lemma find_cell_find P n l :
  (n ≤ length l)%nat → find_cell P n l = Ok (List.find P (take n l)).
Proof.
  revert n. induction l as [|x l IH]; intros [|n] Hn; simpl in *; try done; [lia|].
  destruct (P x); [done|]. apply IH. lia.
Qed.

Lemma find_cell_Some P n l x :
  find_cell P n l = Ok (Some x) → P x = true ∧ ∃ i, (i < n)%nat ∧ l !! i = Some x.
Proof.
  revert n. induction l as [|y l IH]; intros [|n]; simpl; try done.
  destruct (P y) eqn:E; [intros [= <-]; split; [done|]; exists 0%nat; split; [lia|done]|].
  intros (HP & i & Hi & Hl)%IH. split; [done|]. exists (S i). split; [lia|done].
Qed.
End arrays.

(** ** Computations that return *)

Definition returns {A} (r : res A) : Prop := ∃ a, r = Ok a.

Lemma returns_ret {A} (a : A) : returns (Ok a).
Proof. by exists a. Qed.

Lemma returns_bind {A B} (m : res A) (k : A → res B) :
  returns m → (∀ a, m = Ok a → returns (k a)) → returns (res_bind m k).
Proof. intros [a ->] Hk. simpl. by apply Hk. Qed.

Lemma returns_assert b : b = true → returns (TEEIO_ASSERT b).
Proof. intros ->. by eexists. Qed.

Lemma returns_get {A} (l : list A) i : 0 ≤ i < Z.of_nat (length l) → returns (array_get l i).
Proof.
  intros Hi. destruct (lookup_lt_is_Some_2 l (Z.to_nat i)) as [x Hx]; [lia|]. exists x. by apply array_get_Ok; split; [lia|].
Qed.

Lemma returns_set {A} (l : list A) i x : 0 ≤ i < Z.of_nat (length l) → returns (array_set l i x).
Proof. intros Hi. eexists. by apply array_set_Ok. Qed.

Lemma returns_find {A} (P : A → bool) n l : (n ≤ length l)%nat → returns (find_cell P n l).
Proof. intros Hn. rewrite find_cell_find by done. by eexists. Qed.

Lemma returns_fold {T S} (I : S → Prop) (body : T → S → res S) l s :
  (∀ x s, x ∈ l → I s → ∃ s', body x s = Ok s' ∧ I s') → I s → ∃ s', fold_res body l s = Ok s' ∧ I s'.
Proof.
  revert s. induction l as [|x l IH]; intros s Hb Hs; [by exists s|]. cbn [fold_res].
  destruct (Hb x s ltac:(left) Hs) as (s1 & -> & H1). cbn [res_bind]. apply IH; [|done].
  intros y t Hy. apply Hb. by right.
Qed.

Create HintDb returns.
#[export] Hint Resolve returns_ret returns_assert : returns.

(** The counting loops of the parser, with an invariant at the counter. *)
Lemma returns_seqZ {S} (I : Z → S → Prop) (body : Z → S → res S) lo n s :
  0 ≤ n → (∀ k s, lo ≤ k < lo + n → I k s → ∃ s', body k s = Ok s' ∧ I (k + 1) s') →
  I lo s → ∃ s', fold_res body (seqZ lo n) s = Ok s' ∧ I (lo + n) s'.
Proof.
  intros Hn. rewrite <- (Z2Nat.id n Hn). clear Hn. revert lo s.
  induction (Z.to_nat n) as [|m IH]; intros lo s Hb Hs.
  - exists s. by rewrite Z.add_0_r.
  - rewrite seqZ_cons by lia. cbn [fold_res]. destruct (Hb lo s ltac:(lia) Hs) as (s1 & -> & H1). cbn [res_bind].
    replace (Z.pred (Z.of_nat (Datatypes.S m))) with (Z.of_nat m) by lia. rewrite <- Z.add_1_r.
    replace (lo + Z.of_nat (Datatypes.S m)) with (lo + 1 + Z.of_nat m) by lia.
    apply IH; [|done]. intros k t Hk. apply Hb. lia.
Qed.

(** ** Lists *)

Definition nonempty {A} (l : list A) : bool := match l with [] => false | _ :: _ => true end.

(** A test that holds on a range of integers, by evaluation. *)
Lemma forallb_range (P : Z → bool) lo n :
  forallb P (seqZ lo n) = true → ∀ c, lo ≤ c < lo + n → P c = true.
Proof.
  rewrite forallb_forall. intros H c Hc. apply H.
  apply list_elem_of_In, elem_of_seqZ. lia.
Qed.

(** ** Byte strings *)

(** A C string is the list of its bytes up to, and without, the NUL. *)
Abbreviation bytes := (list Z).

Definition bs (s : string) : bytes := map (λ a, Z.of_nat (nat_of_ascii a)) (list_ascii_of_string s).

(** [strcmp(a, b) == 0] *)
Definition streq (a b : bytes) : bool := bool_decide (a = b).

Lemma streq_true a b : streq a b = true ↔ a = b.
Proof. apply bool_decide_eq_true. Qed.

Lemma streq_refl a : streq a a = true.
Proof. by apply streq_true. Qed.

Definition strlen (s : bytes) : Z := Z.of_nat (List.length s).

Definition char (c : string) : Z := match bs c with x :: _ => x | [] => 0 end.

(** [sprintf(buf, "%d", n)]; twenty digits are enough for 64 bits. *)
Fixpoint dec_digits (fuel : nat) (n : Z) (acc : bytes) : bytes :=
  match fuel with
  | O => acc
  | S fuel => let acc := (char "0" + n mod 10) :: acc in
              if n <? 10 then acc else dec_digits fuel (n / 10) acc
  end.

Definition dec (n : Z) : bytes :=
  if n <? 0 then char "-" :: dec_digits 20 (- n) [] else dec_digits 20 n [].

(** ** Bit fields of registers *)

(** The field of width [w] at bit [lo] of a register, and the register with
    that field replaced, the value being cut to the width of the field. *)
Definition get_bits (lo w raw : Z) : Z := Z.land (Z.shiftr raw lo) (Z.ones w).

Definition set_bits (lo w v raw : Z) : Z :=
  Z.lor (Z.ldiff raw (Z.shiftl (Z.ones w) lo)) (Z.shiftl (Z.land v (Z.ones w)) lo).

Definition u8 (x : Z) : Z := x mod 2 ^ 8.
Definition u16 (x : Z) : Z := x mod 2 ^ 16.
Definition u32 (x : Z) : Z := x mod 2 ^ 32.
Definition u64 (x : Z) : Z := x mod 2 ^ 64.

(** The conversion to [int]. *)
Definition s32 (x : Z) : Z := let y := u32 x in if y <? 2 ^ 31 then y else y - 2 ^ 32.

Lemma s32_small x : 0 ≤ x < 2 ^ 31 → s32 x = x.
Proof.
  intros Hx. unfold s32, u32. rewrite Z.mod_small by lia. cbv zeta. by rewrite (proj2 (Z.ltb_lt _ _)) by lia.
Qed.

Lemma ones_testbit w i : 0 ≤ w → 0 ≤ i → Z.testbit (Z.ones w) i = bool_decide (i < w).
Proof.
  intros Hw Hi. case_bool_decide.
  - apply Z.ones_spec_low. lia.
  - apply Z.ones_spec_high. lia.
Qed.

Lemma get_bits_testbit lo w raw i :
  0 ≤ lo → 0 ≤ w → 0 ≤ i →
  Z.testbit (get_bits lo w raw) i = Z.testbit raw (i + lo) && bool_decide (i < w).
Proof.
  intros. unfold get_bits. rewrite Z.land_spec, Z.shiftr_spec, ones_testbit by lia. done.
Qed.

Lemma set_bits_testbit lo w v raw i :
  0 ≤ lo → 0 ≤ w → 0 ≤ i →
  Z.testbit (set_bits lo w v raw) i =
  if bool_decide (lo ≤ i < lo + w) then Z.testbit v (i - lo) else Z.testbit raw i.
Proof.
  intros. unfold set_bits. rewrite Z.lor_spec, Z.ldiff_spec, !Z.shiftl_spec by lia.
  destruct (decide (i < lo)).
  - rewrite !(Z.testbit_neg_r _ (i - lo)) by lia. rewrite bool_decide_eq_false_2 by lia.
    by rewrite orb_false_r, andb_true_r.
  - rewrite Z.land_spec, ones_testbit by lia.
    destruct (decide (i < lo + w)).
    + rewrite (bool_decide_eq_true_2 (i - lo < w)), (bool_decide_eq_true_2 (lo ≤ i < lo + w)) by lia.
      by destruct (Z.testbit raw i), (Z.testbit v (i - lo)).
    + rewrite (bool_decide_eq_false_2 (i - lo < w)), (bool_decide_eq_false_2 (lo ≤ i < lo + w)) by lia.
      by destruct (Z.testbit raw i), (Z.testbit v (i - lo)).
Qed.

Lemma get_set_bits_eq lo w v raw :
  0 ≤ lo → 0 ≤ w → get_bits lo w (set_bits lo w v raw) = v mod 2 ^ w.
Proof.
  intros. rewrite <- Z.land_ones by lia. apply Z.bits_inj'. intros i Hi.
  rewrite get_bits_testbit, set_bits_testbit, Z.land_spec, ones_testbit by lia.
  destruct (decide (i < w)).
  - rewrite !bool_decide_eq_true_2 by lia. by replace (i + lo - lo) with i by lia.
  - by rewrite (bool_decide_eq_false_2 (i < w)), !andb_false_r by lia.
Qed.

Lemma get_set_bits_ne lo w v lo' w' raw :
  0 ≤ lo → 0 ≤ w → 0 ≤ lo' → 0 ≤ w' → lo' + w' ≤ lo ∨ lo + w ≤ lo' →
  get_bits lo' w' (set_bits lo w v raw) = get_bits lo' w' raw.
Proof.
  intros. apply Z.bits_inj'. intros i Hi.
  rewrite !get_bits_testbit by lia. destruct (decide (i < w')).
  - by rewrite set_bits_testbit, (bool_decide_eq_false_2 (lo ≤ i + lo' < lo + w)) by lia.
  - by rewrite (bool_decide_eq_false_2 (i < w')), !andb_false_r by lia.
Qed.

Lemma get_bits_mod lo w raw : 0 ≤ lo → 0 ≤ w → get_bits lo w raw = (raw / 2 ^ lo) mod 2 ^ w.
Proof. intros. unfold get_bits. by rewrite Z.land_ones, Z.shiftr_div_pow2 by lia. Qed.

Lemma get_bits_range lo w raw : 0 ≤ lo → 0 ≤ w → 0 ≤ get_bits lo w raw < 2 ^ w.
Proof. intros. rewrite get_bits_mod by lia. apply Z.mod_pos_bound. lia. Qed.

Lemma in_range_testbit n x :
  0 ≤ n → 0 ≤ x → (∀ i, n ≤ i → Z.testbit x i = false) → x < 2 ^ n.
Proof.
  intros Hn Hx H. replace x with (x mod 2 ^ n); [apply Z.mod_pos_bound; lia|].
  apply Z.bits_inj'. intros i Hi. destruct (decide (i < n)).
  - apply Z.mod_pow2_bits_low. lia.
  - rewrite Z.mod_pow2_bits_high by lia. symmetry. apply H. lia.
Qed.

Lemma set_bits_range n lo w v raw :
  0 ≤ lo → 0 ≤ w → lo + w ≤ n → 0 ≤ raw < 2 ^ n → 0 ≤ set_bits lo w v raw < 2 ^ n.
Proof.
  intros Hlo Hw Hn Hraw.
  assert (0 ≤ set_bits lo w v raw).
  { unfold set_bits. apply Z.lor_nonneg. split.
    - apply Z.ldiff_nonneg. lia.
    - apply Z.shiftl_nonneg, Z.land_nonneg. right. rewrite Z.ones_equiv.
      pose proof (Z.pow_pos_nonneg 2 w). lia. }
  split; [done|]. apply in_range_testbit; [lia|done|].
  intros i Hi. rewrite set_bits_testbit, bool_decide_eq_false_2 by lia.
  rewrite <- (Z.mod_small raw (2 ^ n)) by lia. apply Z.mod_pow2_bits_high. lia.
Qed.

(** ** Automation *)

(** Unfolds the error plumbing and takes hypotheses of the form
    [... = Ok _] apart. *)
Ltac inv_ok :=
  repeat match goal with
  | H : res_bind _ _ = Ok _ |- _ => apply res_bind_Ok in H as (? & ? & ?)
  | H : TEEIO_ASSERT _ = Ok _ |- _ => apply TEEIO_ASSERT_Ok in H
  | H : deref _ = Ok _ |- _ => apply deref_Ok in H
  | H : array_get _ _ = Ok _ |- _ => apply array_get_Ok in H as [? H]
  | H : array_set _ _ _ = Ok _ |- _ => apply array_set_Ok in H as [? H]
  | H : Ok _ = Ok _ |- _ => injection H as H
  | H : Stop _ = Ok _ |- _ => discriminate H
  | H : _ && _ = true |- _ => apply andb_true_iff in H as [? ?]
  | H : negb _ = true |- _ => apply negb_true_iff in H
  end; subst.

Create HintDb teeio.
Create Rewrite HintDb teeio.
#[export] Hint Rewrite @get_set_bits_eq @get_set_bits_ne using lia : teeio.
#[export] Hint Resolve get_bits_range set_bits_range streq_refl : teeio.
