(* ===== verification/KeyOrder.v ===== *)
(** * Byte order of the IDE keys and IVs (library/helperlib/utils.c)

    [pcie_construct_rp_keys], [cxl_construct_rp_keys] and
    [cxl_construct_rp_iv] turn the key material of a KEY_PROG message into
    what the root complex registers take.  Memory is modelled byte by byte: a
    [uint32_t] access moves four bytes, so no endianness is assumed.  The
    specification is the mapping of doc/key_byte_order.md: both sides are
    described from the AES-GCM key and IV. *)
From Stdlib Require Import ZArith Lia.
From stdpp Require Import prelude.
From S2P Require Import Prelude.

Open Scope Z_scope.
Open Scope teeio_scope.

Module KeyOrder.

(** ** The code *)

(** [*((uint32_t * )dst + j) = *((uint32_t * )src + i)] *)
Definition copy_dw (src : bytes) (i : Z) (dst : bytes) (j : Z) : res bytes :=
  let* w := load src (4 * i) 4 in store dst (4 * j) w.

(** The guard the two key functions share; the remainder is C's [%]. *)
Definition bad_args (key_prog_keys rp_keys : option bytes) (key_prog_keys_size rp_keys_size : Z) : bool :=
  bool_decide (key_prog_keys = None) || bool_decide (rp_keys = None)
  || (key_prog_keys_size =? 0) || negb (key_prog_keys_size =? rp_keys_size)
  || negb (Z.rem key_prog_keys_size 4 =? 0).

(** Each function returns its value and the new content of the destination. *)
Definition pcie_construct_rp_keys (key_prog_keys : option bytes) (key_prog_keys_size : Z)
    (rp_keys : option bytes) (rp_keys_size : Z) : res (bool * bytes) :=
  if bad_args key_prog_keys rp_keys key_prog_keys_size rp_keys_size then
    let* _ := TEEIO_ASSERT false in let* d := deref rp_keys in Ok (false, d)
  else
    let* src := deref key_prog_keys in
    let* dst := deref rp_keys in
    let size_in_dw := Z.quot key_prog_keys_size 4 in
    let* dst := fold_res (λ i dst, copy_dw src (size_in_dw - i - 1) dst i) (seqZ 0 size_in_dw) dst in
    Ok (true, dst).

(** Swaps bytes [i] and [3 - i] of the dword at [off], for [i] = 0, 1. *)
Definition revert_bytes_inside_dw (m : bytes) (off : Z) : res bytes :=
  fold_res (λ i m,
    let* tmp := load m (off + i) 1 in
    let* x := load m (off + 3 - i) 1 in
    let* m := store m (off + i) x in
    store m (off + 3 - i) tmp) [0; 1] m.

Definition cxl_construct_rp_keys (key_prog_keys : option bytes) (key_prog_keys_size : Z)
    (rp_keys : option bytes) (rp_keys_size : Z) : res (bool * bytes) :=
  if bad_args key_prog_keys rp_keys key_prog_keys_size rp_keys_size then
    let* _ := TEEIO_ASSERT false in let* d := deref rp_keys in Ok (false, d)
  else
    let* src := deref key_prog_keys in
    let* dst := deref rp_keys in
    let size_in_dw := Z.quot key_prog_keys_size 4 in
    let* dst := fold_res (λ i dst,
        let* dst := copy_dw src i dst i in
        revert_bytes_inside_dw dst (4 * i)) (seqZ 0 size_in_dw) dst in
    Ok (true, dst).

Definition cxl_construct_rp_iv (key_prog_iv : bytes) (key_prog_iv_size : Z)
    (rp_iv : bytes) (rp_iv_size : Z) : res (bool * bytes) :=
  let* _ := TEEIO_ASSERT (key_prog_iv_size =? 3 * 4) in
  let* _ := TEEIO_ASSERT (rp_iv_size =? 2 * 4) in
  let* rp_iv := copy_dw key_prog_iv 2 rp_iv 0 in
  let* rp_iv := copy_dw key_prog_iv 1 rp_iv 1 in
  Ok (true, rp_iv).

(** ** The specification of doc/key_byte_order.md

    "KEY_PROG message": row [r] of the table is the dword at offset [4 * r];
    its bits [31:24] are byte [4 * r] of the AES-GCM key.  So the message
    holds the key with the bytes of each dword reversed. *)
Fixpoint rev_in_dws (k : bytes) : bytes :=
  match k with
  | a :: b :: c :: d :: k => d :: c :: b :: a :: rev_in_dws k
  | k => k
  end.

(** "PCIE Key/IV register": Key_Slot_DW0[7:0] is the last byte of the key. *)
Definition pcie_rp_keys_of_aes (k : bytes) : bytes := reverse k.
(** "CXL Key/IV register": Link_Enc_Key_0[7:0] is the first byte of the key. *)
Definition cxl_rp_keys_of_aes (k : bytes) : bytes := k.
(** Link_Enc_IV[7:0] is the last byte of the IV, Link_Enc_IV[63:56] byte 4. *)
Definition cxl_rp_iv_of_aes (iv : bytes) : bytes := reverse (drop 4 iv).

(** ** Lemmas *)

(** Induction by whole dwords. *)
Lemma dws_ind (P : bytes → Prop) :
  P [] → (∀ a b c d k, P k → P (a :: b :: c :: d :: k)) →
  ∀ n k, length k = (4 * n)%nat → P k.
Proof.
  intros H0 H4 n. induction n as [|n IH]; intros k Hk.
  - by destruct k.
  - destruct k as [|a [|b [|c [|d k]]]]; simpl in Hk; try lia.
    apply H4, IH. lia.
Qed.

Lemma length_rev_in_dws n k : length k = (4 * n)%nat → length (rev_in_dws k) = length k.
Proof. revert n k. apply dws_ind; [done|]. intros a b c d k IH. simpl. by rewrite IH. Qed.

Lemma rev_in_dws_involutive n k : length k = (4 * n)%nat → rev_in_dws (rev_in_dws k) = k.
Proof. revert n k. apply dws_ind; [done|]. intros a b c d k IH. simpl. by rewrite IH. Qed.

Lemma rev_in_dws_app n k l :
  length k = (4 * n)%nat → rev_in_dws (k ++ l) = rev_in_dws k ++ rev_in_dws l.
Proof. revert n k. apply dws_ind; [done|]. intros a b c d k IH. simpl. by rewrite IH. Qed.

Ltac mem_side := rewrite <- ?app_assoc, ?length_app; simpl; auto with lia.

Lemma load_at m i n pre w post :
  m = pre ++ w ++ post → i = Z.of_nat (length pre) → n = Z.of_nat (length w) → load m i n = Ok w.
Proof. intros -> -> ->. by apply load_app. Qed.

Lemma store_at m i w' pre w post :
  m = pre ++ w ++ post → i = Z.of_nat (length pre) → length w = length w' →
  store m i w' = Ok (pre ++ w' ++ post).
Proof. intros -> -> Hw. by apply store_app. Qed.

Lemma copy_dw_spec src i dst j spre w spost dpre w' dpost :
  src = spre ++ w ++ spost → dst = dpre ++ w' ++ dpost →
  4 * i = Z.of_nat (length spre) → 4 * j = Z.of_nat (length dpre) →
  length w = 4%nat → length w' = 4%nat →
  copy_dw src i dst j = Ok (dpre ++ w ++ dpost).
Proof.
  intros Hs Hd Hi Hj Hw Hw'. unfold copy_dw.
  rewrite (load_at _ _ _ _ _ _ Hs Hi) by lia. simpl.
  apply (store_at _ _ _ _ _ _ Hd Hj). lia.
Qed.

Lemma revert_bytes_inside_dw_spec pre a b c d post off :
  off = Z.of_nat (length pre) →
  revert_bytes_inside_dw (pre ++ [a; b; c; d] ++ post) off = Ok (pre ++ [d; c; b; a] ++ post).
Proof.
  intros ->. unfold revert_bytes_inside_dw, fold_res.
  rewrite (load_at _ _ 1 pre [a] ([b; c; d] ++ post)) by mem_side. simpl res_bind.
  rewrite (load_at _ _ 1 (pre ++ [a; b; c]) [d] post) by mem_side. simpl res_bind.
  rewrite (store_at _ _ _ pre [a] ([b; c; d] ++ post)) by mem_side. simpl res_bind.
  rewrite (store_at _ _ _ (pre ++ [d; b; c]) [d] post) by mem_side. simpl res_bind.
  rewrite <- !app_assoc; simpl.
  rewrite (load_at _ _ 1 (pre ++ [d]) [b] ([c; a] ++ post)) by mem_side. simpl res_bind.
  rewrite (load_at _ _ 1 (pre ++ [d; b]) [c] (a :: post)) by mem_side. simpl res_bind.
  rewrite (store_at _ _ _ (pre ++ [d]) [b] ([c; a] ++ post)) by mem_side. simpl res_bind.
  rewrite <- !app_assoc; simpl.
  rewrite (store_at _ _ _ (pre ++ [d; c]) [c] (a :: post)) by mem_side. simpl res_bind.
  by rewrite <- !app_assoc.
Qed.

Lemma bad_args_false src dst n :
  0 < Z.of_nat n → bad_args (Some src) (Some dst) (4 * Z.of_nat n) (4 * Z.of_nat n) = false.
Proof.
  intros Hn. unfold bad_args. rewrite !bool_decide_eq_false_2 by done.
  rewrite Z.eqb_refl, Z.mul_comm, Z.rem_mul by lia.
  rewrite (proj2 (Z.eqb_neq _ _)) by lia. done.
Qed.

Lemma split_last_dw n (k : bytes) :
  length k = (4 * S n)%nat → ∃ k' w, k = k' ++ w ∧ length k' = (4 * n)%nat ∧ length w = 4%nat.
Proof.
  intros H. exists (take (4 * n) k), (drop (4 * n) k).
  rewrite take_drop, length_take, length_drop. repeat split; lia.
Qed.

Lemma split_first_dw n (k : bytes) :
  length k = (4 * S n)%nat → ∃ a b c d k', k = a :: b :: c :: d :: k' ∧ length k' = (4 * n)%nat.
Proof.
  destruct k as [|a [|b [|c [|d k']]]]; simpl; try lia. intros H.
  exists a, b, c, d, k'. split; [done|lia].
Qed.

(** The PCIe copy loop from round [i] on: the source is left to the first
    [n] dwords, the destination's first [i] dwords are done. *)
Lemma pcie_loop n i N k t front rest :
  length k = (4 * n)%nat → length rest = (4 * n)%nat → Z.of_nat (length front) = 4 * i →
  N = i + Z.of_nat n →
  fold_res (λ i dst, copy_dw (rev_in_dws k ++ t) (N - i - 1) dst i) (seqZ i (Z.of_nat n)) (front ++ rest)
  = Ok (front ++ reverse k).
Proof.
  revert i k t front rest. induction n as [|n IH]; intros i k t front rest Hk Hr Hf HN.
  { destruct k; [|simpl in Hk; lia]. destruct rest; [done|simpl in Hr; lia]. }
  rewrite Nat2Z.inj_succ, seqZ_cons by lia. simpl.
  destruct (split_last_dw n k Hk) as (k' & w & -> & Hk' & Hw).
  destruct (split_first_dw n rest Hr) as (x0 & x1 & x2 & x3 & rest' & -> & Hr').
  rewrite (rev_in_dws_app n) by done.
  assert (Hrw : rev_in_dws w = reverse w) by (by destruct w as [|? [|? [|? [|? [|]]]]]).
  rewrite (copy_dw_spec _ _ _ _ (rev_in_dws k') (rev_in_dws w) t front [x0; x1; x2; x3] rest');
    try rewrite (length_rev_in_dws n k') by done;
    try rewrite (length_rev_in_dws 1 w) by lia; try (simpl; lia); try done.
  2: by rewrite <- app_assoc.
  simpl. rewrite Z.pred_succ, app_assoc, <- (app_assoc (rev_in_dws k')), IH; try done.
  - by rewrite Hrw, reverse_app, app_assoc.
  - rewrite length_app, Hrw, length_reverse. lia.
  - lia.
Qed.

Lemma cxl_loop n i k t front rest :
  length k = (4 * n)%nat → length rest = (4 * n)%nat →
  Z.of_nat (length front) = 4 * i → Z.of_nat (length t) = 4 * i →
  fold_res (λ i dst, let* dst := copy_dw (t ++ rev_in_dws k) i dst i in
                     revert_bytes_inside_dw dst (4 * i)) (seqZ i (Z.of_nat n)) (front ++ rest)
  = Ok (front ++ k).
Proof.
  revert i k t front rest. induction n as [|n IH]; intros i k t front rest Hk Hr Hf Ht.
  { destruct k; [|simpl in Hk; lia]. destruct rest; [done|simpl in Hr; lia]. }
  rewrite Nat2Z.inj_succ, seqZ_cons by lia. simpl.
  destruct (split_first_dw n k Hk) as (a & b & c & d & k' & -> & Hk').
  destruct (split_first_dw n rest Hr) as (x0 & x1 & x2 & x3 & rest' & -> & Hr').
  simpl rev_in_dws.
  rewrite (copy_dw_spec _ _ _ _ t [d; c; b; a] (rev_in_dws k') front [x0; x1; x2; x3] rest')
    by (done || lia).
  simpl. rewrite (revert_bytes_inside_dw_spec front d c b a rest') by lia. simpl.
  specialize (IH (Z.succ i) k' (t ++ [d; c; b; a]) (front ++ [a; b; c; d]) rest').
  rewrite Z.pred_succ. rewrite <- !app_assoc in IH. simpl in IH. apply IH; try done.
  all: rewrite length_app; simpl; lia.
Qed.

Lemma pcie_construct_rp_keys_aes n k rp :
  (0 < n)%nat → length k = (4 * n)%nat → length rp = (4 * n)%nat →
  pcie_construct_rp_keys (Some (rev_in_dws k)) (4 * Z.of_nat n) (Some rp) (4 * Z.of_nat n)
  = Ok (true, pcie_rp_keys_of_aes k).
Proof.
  intros Hn Hk Hr. unfold pcie_construct_rp_keys. rewrite bad_args_false by lia. simpl deref. simpl res_bind.
  rewrite (Z.mul_comm 4), Z.quot_mul by lia.
  pose proof (pcie_loop n 0 (Z.of_nat n) k [] [] rp Hk Hr eq_refl eq_refl) as Hp. simpl app in Hp.
  rewrite app_nil_r in Hp. by rewrite Hp.
Qed.

Lemma cxl_construct_rp_keys_aes n k rp :
  (0 < n)%nat → length k = (4 * n)%nat → length rp = (4 * n)%nat →
  cxl_construct_rp_keys (Some (rev_in_dws k)) (4 * Z.of_nat n) (Some rp) (4 * Z.of_nat n)
  = Ok (true, cxl_rp_keys_of_aes k).
Proof.
  intros Hn Hk Hr. unfold cxl_construct_rp_keys. rewrite bad_args_false by lia. simpl deref. simpl res_bind.
  rewrite (Z.mul_comm 4), Z.quot_mul by lia.
  pose proof (cxl_loop n 0 k [] [] rp Hk Hr eq_refl eq_refl) as Hc. simpl app in Hc. by rewrite Hc.
Qed.

Lemma cxl_construct_rp_iv_aes iv rp :
  length iv = 12%nat → length rp = 8%nat →
  cxl_construct_rp_iv (rev_in_dws iv) 12 rp 8 = Ok (true, cxl_rp_iv_of_aes iv).
Proof.
  intros Hiv Hrp. do 12 (destruct iv as [|? iv]; [done|]). destruct iv; [|done].
  do 8 (destruct rp as [|? rp]; [done|]). by destruct rp.
Qed.

(** ** Properties *)

(** Whatever the AES-GCM key, of any positive number of dwords: from the
    key bytes as a KEY_PROG message holds them, the PCIe function fills the
    root port key registers, whatever they held, with the bytes
    doc/key_byte_order.md asks for, and the CXL function with those of the CXL table. *)
Theorem rp_keys_follow_doc n k rp :
  (0 < n)%nat → length k = (4 * n)%nat → length rp = (4 * n)%nat →
  pcie_construct_rp_keys (Some (rev_in_dws k)) (4 * Z.of_nat n) (Some rp) (4 * Z.of_nat n)
  = Ok (true, pcie_rp_keys_of_aes k) ∧
  cxl_construct_rp_keys (Some (rev_in_dws k)) (4 * Z.of_nat n) (Some rp) (4 * Z.of_nat n)
  = Ok (true, cxl_rp_keys_of_aes k).
Proof. intros. split; [by apply pcie_construct_rp_keys_aes|by apply cxl_construct_rp_keys_aes]. Qed.

(** The IV: from a CXL KEY_PROG message that holds the 12 IV bytes,
    [cxl_construct_rp_iv] writes the registers of the table: the last eight bytes
    of the IV, the last one first; other sizes stop at an assertion. *)
Theorem rp_iv_follows_doc iv rp n m :
  length iv = 12%nat → length rp = 8%nat →
  cxl_construct_rp_iv (rev_in_dws iv) n rp m =
  if bool_decide (n = 12 ∧ m = 8) then Ok (true, cxl_rp_iv_of_aes iv) else Stop AssertHang.
Proof.
  intros Hiv Hrp. case_bool_decide as Hnm.
  - destruct Hnm as [-> ->]. by apply cxl_construct_rp_iv_aes.
  - unfold cxl_construct_rp_iv, TEEIO_ASSERT.
    destruct (Z.eqb_spec n (3 * 4)); [|done]. destruct (Z.eqb_spec m (2 * 4)); [lia|done].
Qed.

(** ** Witnesses *)

(** The key of the document's example. *)
Definition doc_key : bytes :=
  [0xdf; 0x25; 0x41; 0x52; 0x05; 0x6e; 0x02; 0xe0; 0xef; 0x8b; 0x7f; 0xeb; 0x97; 0x39; 0xd4; 0xd9;
   0x6a; 0x4e; 0xb8; 0x01; 0x03; 0x24; 0x1d; 0xf7; 0xcd; 0x5e; 0x24; 0xb4; 0x9c; 0xcd; 0x27; 0x20].

Lemma rp_keys_follow_doc_witness :
  pcie_construct_rp_keys (Some (rev_in_dws doc_key)) 32 (Some (replicate 32 0)) 32
  = Ok (true, pcie_rp_keys_of_aes doc_key) ∧
  cxl_construct_rp_keys (Some (rev_in_dws doc_key)) 32 (Some (replicate 32 0)) 32
  = Ok (true, cxl_rp_keys_of_aes doc_key).
Proof. apply (rp_keys_follow_doc 8); [lia|reflexivity|reflexivity]. Defined.

Lemma rp_iv_follows_doc_witness :
  cxl_construct_rp_iv (rev_in_dws [0x80; 0; 0; 0; 0; 0; 0; 0; 0; 0; 0; 1]) 12 (replicate 8 0xff) 8
  = Ok (true, [1; 0; 0; 0; 0; 0; 0; 0]).
Proof.
  apply (rp_iv_follows_doc [0x80; 0; 0; 0; 0; 0; 0; 0; 0; 0; 0; 1] (replicate 8 0xff) 12 8);
    reflexivity.
Defined.

End KeyOrder.
