(* ===== verification/Utils.v ===== *)
(** * String and number helpers (library/helperlib/utils.c, pcie_helper.c)

    Strings are byte lists without their NUL; a [char *] argument that may be
    null is an [option].  Functions that write through a pointer return the
    new content with their value.  String lengths fit an [int], as the code
    assumes when it assigns [strlen] to one. *)
From Stdlib Require Import ZArith Lia Ascii String.
From stdpp Require Import prelude.
From S2P Require Import Prelude.

Open Scope Z_scope.
Open Scope teeio_scope.

(** ** The C library functions the helpers call *)
Module CLib.

Definition ULONG_MAX : Z := 2 ^ 64 - 1.

(** [isspace] and [isxdigit] of the C locale. *)
Definition isspace (c : Z) : bool := (c =? 32) || ((9 <=? c) && (c <=? 13)).

Definition digit_val (c : Z) : Z :=
  if (48 <=? c) && (c <=? 57) then c - 48
  else if (97 <=? c) && (c <=? 122) then c - 87
  else if (65 <=? c) && (c <=? 90) then c - 55
  else 99.

Definition isxdigit (c : Z) : bool := digit_val c <? 16.

Fixpoint drop_spaces (s : bytes) : bytes :=
  match s with c :: s' => if isspace c then drop_spaces s' else s | [] => [] end.

(** The longest prefix of digits of a base, and what follows. *)
Fixpoint span_digits (base : Z) (s : bytes) : bytes * bytes :=
  match s with
  | c :: s' => if digit_val c <? base then let '(d, r) := span_digits base s' in (c :: d, r)
               else ([], s)
  | [] => ([], [])
  end.

Definition digits_value (base : Z) (ds : bytes) : Z :=
  fold_left (λ acc c, acc * base + digit_val c) ds 0.

(** An optional "0x" before a hexadecimal digit, for bases 16 and 0. *)
Definition hex_prefix (s : bytes) : option bytes :=
  match s with
  | z :: x :: c :: s => if (z =? 48) && ((x =? 120) || (x =? 88)) && isxdigit c then Some (c :: s) else None
  | _ => None
  end.

(** An optional sign: is it a minus, and what follows. *)
Definition split_sign (s : bytes) : bool * bytes :=
  match s with
  | c :: s' => if c =? 45 then (true, s') else if c =? 43 then (false, s') else (false, s)
  | [] => (false, [])
  end.

(** The base the number is read in, and the digits that follow the prefix. *)
Definition strtoul_base (base : Z) (s : bytes) : Z * bytes :=
  if base =? 0 then
    match hex_prefix s with
    | Some s => (16, s)
    | None => (match s with c :: _ => if c =? 48 then 8 else 10 | [] => 10 end, s)
    end
  else if base =? 16 then (16, from_option id s (hex_prefix s))
  else (base, s).

(** [strtoul]: the value and the string [end_ptr] is left at.  Without digits
    [end_ptr] is the start of the string. *)
Definition strtoul (str : bytes) (base : Z) : Z * bytes :=
  let s := drop_spaces str in
  let '(neg, s) := split_sign s in
  let '(base, s) := strtoul_base base s in
  match span_digits base s with
  | ([], _) => (0, str)
  | (ds, rest) =>
      let v := digits_value base ds in
      (if ULONG_MAX <? v then ULONG_MAX else if neg then u64 (- v) else v, rest)
  end.

(** [sscanf(s, "%x", &res)]: the new value of [res], kept on a matching
    failure ("0x" without a digit is one). *)
Definition sscanf_x (s : bytes) (res : Z) : Z :=
  let t := snd (split_sign (drop_spaces s)) in
  let bare_prefix := match t with
                     | z :: x :: _ => (z =? 48) && ((x =? 120) || (x =? 88)) && bool_decide (hex_prefix t = None)
                     | _ => false end in
  let digits := fst (span_digits 16 (from_option id t (hex_prefix t))) in
  if bare_prefix || bool_decide (digits = []) then res else u32 (fst (strtoul s 16)).

(** [strtok] with one delimiter: the next token and the rest it keeps. *)
Fixpoint drop_char (d : Z) (s : bytes) : bytes :=
  match s with c :: s' => if c =? d then drop_char d s' else s | [] => [] end.

Fixpoint span_not (d : Z) (s : bytes) : bytes * bytes :=
  match s with
  | c :: s' => if c =? d then ([], s) else let '(t, r) := span_not d s' in (c :: t, r)
  | [] => ([], [])
  end.

Definition strtok (d : Z) (s : bytes) : option (bytes * bytes) :=
  match drop_char d s with
  | [] => None
  | s => let '(t, r) := span_not d s in Some (t, tail r)
  end.

(** *** Lemmas *)

(** The pieces between the delimiters, the empty ones left out. *)
Fixpoint pieces (d : Z) (s : bytes) : list bytes :=
  match s with
  | [] => [[]]
  | c :: s => if c =? d then [] :: pieces d s
              else match pieces d s with t :: ts => (c :: t) :: ts | [] => [[c]] end
  end.

Definition tokens (d : Z) (s : bytes) : list bytes := filter (λ t, t ≠ []) (pieces d s).

Lemma span_not_pieces d s t r :
  span_not d s = (t, r) → pieces d s = t :: match r with [] => [] | _ :: r => pieces d r end.
Proof.
  revert t r. induction s as [|c s IH]; intros t r; simpl.
  - by intros [= <- <-].
  - destruct (c =? d) eqn:E; [by intros [= <- <-]|].
    destruct (span_not d s) as [t' r'] eqn:Es. intros [= <- <-].
    by rewrite (IH t' r').
Qed.

Lemma span_not_length d s t r : span_not d s = (t, r) → length s = (length t + length r)%nat.
Proof.
  revert t r. induction s as [|c s IH]; intros t r; simpl.
  - by intros [= <- <-].
  - destruct (c =? d); [by intros [= <- <-]|].
    destruct (span_not d s) as [t' r']. intros [= <- <-]. simpl. by rewrite (IH t' r').
Qed.

Lemma strtok_tokens d s :
  match strtok d s with
  | None => tokens d s = []
  | Some (t, r) => tokens d s = t :: tokens d r ∧ (length r < length s)%nat ∧ t ≠ []
  end.
Proof.
  unfold strtok. induction s as [|c s IH]; [done|].
  cbn [drop_char length]. destruct (c =? d) eqn:E.
  - assert (H : tokens d (c :: s) = tokens d s) by (unfold tokens; simpl; by rewrite E).
    rewrite H. destruct (drop_char d s) as [|c' s']; [done|].
    destruct (span_not d (c' :: s')) as [t r]. destruct IH as (-> & Hl & Ht).
    simpl in *. split_and!; [done|lia|done].
  - destruct (span_not d (c :: s)) as [t r] eqn:Es.
    pose proof (span_not_length _ _ _ _ Es) as Hl.
    pose proof (span_not_pieces _ _ _ _ Es) as Hp.
    assert (Ht : t ≠ []) by (simpl in Es; rewrite E in Es; destruct (span_not d s); by inversion Es).
    unfold tokens. rewrite Hp, filter_cons_True by done.
    split_and!; [|destruct t; [done|]; destruct r; simpl in *; lia|done].
    f_equal. by destruct r.
Qed.

Lemma digits_value_nonneg base ds acc :
  0 ≤ base → 0 ≤ acc → Forall (λ c, 0 ≤ digit_val c) ds →
  0 ≤ fold_left (λ acc c, acc * base + digit_val c) ds acc.
Proof. intros Hb. revert acc. induction ds as [|c ds IH]; intros acc Ha; inversion 1; simpl; [done|]. apply IH; [nia|done]. Qed.

Lemma digit_val_nonneg c : 0 ≤ digit_val c.
Proof. unfold digit_val. repeat case_match; rewrite ?andb_true_iff, ?Z.leb_le in *; lia. Qed.

Lemma span_digits_all base s :
  forallb (λ c, digit_val c <? base) s = true → span_digits base s = (s, []).
Proof.
  induction s as [|c s IH]; simpl; [done|]. intros [Hc Hs]%andb_true_iff.
  by rewrite Hc, IH.
Qed.

(** [strtoul] of a nonempty string of digits of a given base. *)
Lemma strtoul_digits base s :
  s ≠ [] → 2 ≤ base ≤ 10 → forallb (λ c, (48 <=? c) && (c <? 48 + base)) s = true →
  strtoul s base = (if ULONG_MAX <? digits_value base s then ULONG_MAX else digits_value base s, []).
Proof.
  intros Hne Hb Hall.
  assert (Hd : forallb (λ c, digit_val c <? base) s = true).
  { rewrite forallb_forall in Hall |- *. intros c Hc. specialize (Hall c Hc).
    rewrite andb_true_iff, Z.leb_le, Z.ltb_lt in Hall. unfold digit_val.
    rewrite (proj2 (andb_true_iff _ _)) by (rewrite !Z.leb_le; lia). apply Z.ltb_lt. lia. }
  destruct s as [|c s]; [done|].
  assert (Hc : 48 ≤ c < 48 + base).
  { simpl in Hall. rewrite !andb_true_iff, Z.leb_le, Z.ltb_lt in Hall. lia. }
  unfold strtoul.
  replace (drop_spaces (c :: s)) with (c :: s).
  2: { simpl. unfold isspace. rewrite (proj2 (Z.eqb_neq c 32)), (proj2 (Z.leb_gt c 13)) by lia. by rewrite andb_false_r. }
  replace (split_sign (c :: s)) with (false, c :: s).
  2: { simpl. by rewrite (proj2 (Z.eqb_neq c 45)), (proj2 (Z.eqb_neq c 43)) by lia. }
  unfold strtoul_base.
  rewrite (proj2 (Z.eqb_neq base 0)), (proj2 (Z.eqb_neq base 16)) by lia.
  by rewrite span_digits_all.
Qed.

End CLib.
Import CLib.

(** ** utils.c *)
Module Utils.

Definition UINT8_MAX : Z := 2 ^ 8 - 1.
Definition UINT16_MAX : Z := 2 ^ 16 - 1.
Definition UINT32_MAX : Z := 2 ^ 32 - 1.

(** [uint8_t sum] wraps at every addition. *)
Definition calculate_checksum (table : bytes) : Z := fold_left (λ sum b, u8 (sum + b)) table 0.

Fixpoint find_loop (c : Z) (s : bytes) (i : Z) : Z :=
  match s with x :: s => if x =? c then i else find_loop c s (i + 1) | [] => i end.

Definition find_char_in_str (str : option bytes) (c : Z) : Z :=
  match str with
  | None => -1
  | Some s => let i := find_loop c s 0 in if i =? strlen s then -1 else i
  end.

(** Goes down from [str[size]], the NUL, to [str[0]]. *)
Fixpoint revert_find_loop (c : Z) (s : bytes) (i : Z) : Z :=
  match s with x :: s => if x =? c then i else revert_find_loop c s (i - 1) | [] => i end.

Definition revert_find_char_in_str (str : option bytes) (c : Z) : Z :=
  match str with
  | None => -1
  | Some s => let i := revert_find_loop c (0 :: reverse s) (strlen s) in if i <? 0 then -1 else i
  end.

Definition IsValidDigitalChar (c : Z) (IncludeHex : bool) : bool :=
  if (char "0" <=? c) && (c <=? char "9") then true
  else if IncludeHex then
    if (char "a" <=? c) && (c <=? char "f") then true
    else if (char "A" <=? c) && (c <=? char "F") then true
    else false
  else false.

(** The callers pass the length of the string as [Length]. *)
Definition IsValidDigital (s : bytes) (IncludeHex : bool) : bool :=
  forallb (λ c, IsValidDigitalChar c IncludeHex) s.

Definition IsValidDecimalString (s : bytes) : bool := IsValidDigital s false.

Definition IsValidHexString (s : bytes) : bool :=
  if strlen s <=? 2 then false else
  match s with
  | a :: b :: s =>
      if negb (a =? char "0") then false
      else if negb (b =? char "x") && negb (b =? char "X") then false
      else IsValidDigital s true
  | _ => false
  end.

(** [convert_hex_str_to_uint16] and [_uint8] differ in the bound and the cast
    only; the second component is the new content of the output. *)
Definition convert_hex_str (max : Z) (str : option bytes) (data : option Z) : bool * option Z :=
  match str, data with
  | Some s, Some _ =>
      if negb (IsValidHexString s) then (false, data) else
      let '(result, end_ptr) := strtoul s 0 in
      if negb (bool_decide (end_ptr = [])) then (false, data)
      else if max <? result then (false, data)
      else (true, Some (result mod (max + 1)))
  | _, _ => (false, data)
  end.

Definition convert_hex_str_to_uint16 := convert_hex_str UINT16_MAX.
Definition convert_hex_str_to_uint8 := convert_hex_str UINT8_MAX.

Definition get_max_from_uint32_array (array : list Z) (size : Z) : res Z :=
  let* _ := TEEIO_ASSERT (0 <? size) in
  let* max := deref (array !! 0%nat) in
  fold_res (λ i max,
    let* x := deref (array !! Z.to_nat i) in
    Ok (if max <? x then x else max)) (seqZ 1 (size - 1)) max.

(** The body of the [while (token != NULL)] loop.  The state is the current
    token with the string [strtok] keeps, the cells of [array], [count] and
    [ret]; leaving the loop gives [array], [count] and [ret]. *)
Definition token_step (array_size : Z)
    (st : option (bytes * bytes) * option (list Z) * Z * bool)
    : res ((option (bytes * bytes) * option (list Z) * Z * bool) + (option (list Z) * Z * bool)) :=
  let '(token, array, count, ret) := st in
  match token with
  | None => Ok (inr (array, count, ret))
  | Some (token, saved) =>
      if negb (IsValidDecimalString token) then Ok (inr (array, count, false)) else
      let '(result, end_ptr) := strtoul token 10 in
      if negb (bool_decide (end_ptr = [])) then Ok (inr (array, count, false))
      else if UINT32_MAX <? result then Ok (inr (array, count, false))
      else match array with
           | None => Ok (inl (strtok 44 saved, None, count + 1, true))
           | Some cells =>
               if count =? array_size then Ok (inr (array, count, false))
               else if (Z.to_nat count <? length cells)%nat
               then Ok (inl (strtok 44 saved, Some (<[Z.to_nat count := u32 result]> cells), count + 1, true))
               else Stop Undefined
           end
  end.

(** Returns the value, the new cells of [array] and the new [*array_size].
    [malloc] is taken to succeed. *)
Definition get_uint32_array_from_string (array : option (list Z)) (array_size : option Z)
    (string : option bytes) : res (bool * option (list Z) * option Z) :=
  let* _ := TEEIO_ASSERT (negb (bool_decide (string = None)) || negb (bool_decide (array_size = None))) in
  let* s := deref string in
  if strlen s =? 0 then Ok (false, array, array_size) else
  let* size := match array with None => Ok 0 | Some _ => deref array_size end in
  let* out := while (token_step size) (Pos.of_succ_nat (S (length s))) (strtok 44 s, array, 0, false) in
  let '(array, count, ret) := out in
  if ret then let* _ := deref array_size in Ok (true, array, Some (u32 count))
  else Ok (false, array, array_size).

Definition is_power_of_two (x : Z) : bool := negb (x =? 0) && (Z.land x (x - 1) =? 0).

(** [dst + i * 4] is written for [i < dst_bytes >> 2]. *)
Definition reg_memcpy_dw (dst : bytes) (dst_bytes : Z) (src : bytes) (nbytes : Z) : res bytes :=
  let* _ := TEEIO_ASSERT (dst_bytes =? nbytes) in
  let* _ := TEEIO_ASSERT (dst_bytes mod 4 =? 0) in
  fold_res (λ i dst, let* w := load src (i * 4) 4 in store dst (i * 4) w)
           (seqZ 0 (Z.shiftr dst_bytes 2)) dst.

(** *** Lemmas *)

Lemma decimal_digit c : IsValidDigitalChar c false = (48 <=? c) && (c <? 48 + 10).
Proof.
  unfold IsValidDigitalChar. change (char "0") with 48. change (char "9") with 57.
  destruct (48 <=? c); simpl; [|done].
  destruct (Z.leb_spec c 57), (Z.ltb_spec c 58); simpl; done || lia.
Qed.

Lemma IsValidDecimalString_forallb s :
  IsValidDecimalString s = forallb (λ c, (48 <=? c) && (c <? 48 + 10)) s.
Proof.
  unfold IsValidDecimalString, IsValidDigital. induction s as [|c s IH]; simpl; [done|].
  by rewrite decimal_digit, IH.
Qed.

(** What the code takes for one number of a list. *)
Definition token_ok (t : bytes) : bool := IsValidDecimalString t && (digits_value 10 t <=? UINT32_MAX).

(** [strtoul] and the check against [UINT32_MAX], on a decimal string. *)
Lemma decimal_u32 t :
  t ≠ [] → IsValidDecimalString t = true →
  ∃ r, strtoul t 10 = (r, []) ∧ (UINT32_MAX <? r) = negb (digits_value 10 t <=? UINT32_MAX) ∧
       (digits_value 10 t ≤ UINT32_MAX → u32 r = digits_value 10 t).
Proof.
  intros Hne Ht. rewrite strtoul_digits by (rewrite <- ?IsValidDecimalString_forallb; done).
  eexists. split; [done|].
  assert (0 ≤ digits_value 10 t) by (apply digits_value_nonneg; [lia|lia|]; apply Forall_true, digit_val_nonneg).
  rewrite Z.leb_antisym, negb_involutive. unfold UINT32_MAX, ULONG_MAX, u32.
  destruct (Z.ltb_spec (2 ^ 64 - 1) (digits_value 10 t)); split.
  - rewrite !(proj2 (Z.ltb_lt _ _)) by lia. done.
  - lia.
  - done.
  - intros. rewrite Z.mod_small; lia.
Qed.

Lemma token_step_ok size t r array count ret :
  t ≠ [] →
  token_step size (Some (t, r), array, count, ret) =
  if token_ok t then
    match array with
    | None => Ok (inl (strtok 44 r, None, count + 1, true))
    | Some cells =>
        if count =? size then Ok (inr (array, count, false))
        else if (Z.to_nat count <? length cells)%nat
        then Ok (inl (strtok 44 r, Some (<[Z.to_nat count := digits_value 10 t]> cells), count + 1, true))
        else Stop Undefined
    end
  else Ok (inr (array, count, false)).
Proof.
  intros Hne. unfold token_step, token_ok.
  destruct (IsValidDecimalString t) eqn:E; simpl; [|done].
  destruct (decimal_u32 t Hne E) as (v & -> & -> & Hv).
  rewrite bool_decide_eq_true_2 by done. simpl.
  destruct (Z.leb_spec (digits_value 10 t) UINT32_MAX); simpl; [|done]. by rewrite Hv.
Qed.

(** The loop, as recursion over the tokens. *)
Fixpoint scan (size : Z) (ts : list bytes) (array : option (list Z)) (count : Z) (ret : bool)
    : res (option (list Z) * Z * bool) :=
  match ts with
  | [] => Ok (array, count, ret)
  | t :: ts =>
      if token_ok t then
        match array with
        | None => scan size ts None (count + 1) true
        | Some cells =>
            if count =? size then Ok (array, count, false)
            else if (Z.to_nat count <? length cells)%nat
            then scan size ts (Some (<[Z.to_nat count := digits_value 10 t]> cells)) (count + 1) true
            else Stop Undefined
        end
      else Ok (array, count, false)
  end.

Lemma token_loop size n s array count ret :
  (length s < n)%nat →
  while (token_step size) (Pos.of_succ_nat n) (strtok 44 s, array, count, ret)
  = scan size (tokens 44 s) array count ret.
Proof.
  revert s array count ret. induction n as [|n IH]; intros s array count ret Hn; [lia|].
  change (Pos.of_succ_nat (S n)) with (Pos.succ (Pos.of_succ_nat n)). rewrite while_succ.
  pose proof (strtok_tokens 44 s) as Ht. destruct (strtok 44 s) as [[t r]|].
  - destruct Ht as (-> & Hl & Hne). rewrite token_step_ok by done. simpl scan.
    destruct (token_ok t); [|done]. destruct array as [cells|]; [|apply IH; lia].
    destruct (count =? size); [done|].
    destruct (Z.to_nat count <? length cells)%nat; [|done]. apply IH. lia.
  - by rewrite Ht.
Qed.

Lemma scan_None size ts count ret :
  ∃ c, scan size ts None count ret =
       Ok (None, c, forallb token_ok ts && (ret || nonempty ts)) ∧
       (forallb token_ok ts = true → c = count + Z.of_nat (length ts)).
Proof.
  revert count ret. induction ts as [|t ts IH]; intros count ret; simpl.
  - exists count. rewrite orb_false_r. split; [done|lia].
  - destruct (token_ok t); [|exists count; by split].
    destruct (IH (count + 1) true) as (c & -> & Hc). exists c.
    rewrite orb_true_r. split; [done|].
    intros H. rewrite Hc by done. lia.
Qed.

(** [pre] holds the numbers stored so far. *)
Lemma scan_Some size ts pre rest ret :
  Z.of_nat (length pre) ≤ size ≤ Z.of_nat (length (pre ++ rest)) →
  ∃ cells c b, scan size ts (Some (pre ++ rest)) (Z.of_nat (length pre)) ret = Ok (Some cells, c, b) ∧
    length cells = length (pre ++ rest) ∧
    b = forallb token_ok ts && (Z.of_nat (length pre + length ts) <=? size) && (ret || nonempty ts) ∧
    (b = true → cells = pre ++ map (digits_value 10) ts ++ drop (length ts) rest ∧
                c = Z.of_nat (length pre) + Z.of_nat (length ts)).
Proof.
  revert pre rest ret. induction ts as [|t ts IH]; intros pre rest ret Hs; simpl.
  - exists (pre ++ rest), (Z.of_nat (length pre)), ret.
    rewrite orb_false_r, Nat.add_0_r, (proj2 (Z.leb_le _ _)) by lia.
    split_and!; try done. intros _. split; [done|]. lia.
  - destruct (token_ok t); simpl.
    2: { exists (pre ++ rest), (Z.of_nat (length pre)), false. by split_and!. }
    destruct (Z.eqb_spec (Z.of_nat (length pre)) size) as [He|Hne].
    + exists (pre ++ rest), (Z.of_nat (length pre)), false. split_and!; try done.
      rewrite (proj2 (Z.leb_gt _ _)) by lia.
      by rewrite andb_false_r.
    + rewrite Nat2Z.id. rewrite length_app in Hs.
      destruct rest as [|x rest]; [simpl in Hs; lia|].
      rewrite (proj2 (Nat.ltb_lt _ _)) by (rewrite length_app; simpl; lia).
      rewrite insert_app_r_alt, Nat.sub_diag by lia. simpl.
      destruct (IH (pre ++ [digits_value 10 t]) rest true) as (cells & c & b & Hscan & Hlen & Hb & Hc).
      { rewrite !length_app in *; simpl in *. lia. }
      rewrite <- app_assoc, length_app in Hscan. simpl in Hscan.
      replace (Z.of_nat (length pre) + 1) with (Z.of_nat (length pre + 1)) by lia.
      exists cells, c, b. split_and!; [done| | |].
      * rewrite Hlen, !length_app; simpl. lia.
      * rewrite Hb, !orb_true_r, length_app. simpl.
        by replace (length pre + 1 + length ts)%nat with (length pre + S (length ts))%nat by lia.
      * intros H. destruct (Hc H) as [-> ->]. rewrite <- app_assoc, length_app. split; [done|simpl; lia].
Qed.

Lemma tokens_length d s : (length (tokens d s) ≤ length s)%nat.
Proof.
  remember (length s) as n eqn:Hn. revert s Hn.
  induction n as [n IH] using (well_founded_induction lt_wf). intros s ->.
  pose proof (strtok_tokens d s) as H. destruct (strtok d s) as [[t r]|].
  - destruct H as (-> & Hl & _). simpl. specialize (IH (length r) Hl r eq_refl). lia.
  - rewrite H. simpl. lia.
Qed.

(** ** Properties *)

(** The whole behaviour of the number-list parser, for its clients. *)
Lemma get_uint32_array_exact s cells size :
  s ≠ [] → strlen s < 2 ^ 31 → 0 ≤ size ≤ Z.of_nat (length cells) →
  let ts := tokens (char ",") s in
  let valid := forallb token_ok ts && nonempty ts in
  let fits := Z.of_nat (length ts) <=? size in
  get_uint32_array_from_string None (Some size) (Some s) =
    Ok (valid, None, Some (if valid then Z.of_nat (length ts) else size)) ∧
  ∃ cells',
    get_uint32_array_from_string (Some cells) (Some size) (Some s) =
      Ok (valid && fits, Some cells', Some (if valid && fits then Z.of_nat (length ts) else size)) ∧
    length cells' = length cells ∧
    (valid && fits = true →
     cells' = map (digits_value 10) ts ++ drop (length ts) cells).
Proof.
  intros Hne Hlen Hsize ts valid fits. change (char ",") with 44 in *.
  assert (Hnil : (strlen s =? 0) = false) by (apply Z.eqb_neq; destruct s; unfold strlen; simpl in *; [done|lia]).
  pose proof (tokens_length 44 s) as Htl. fold ts in Htl. unfold strlen in Hlen.
  assert (Hu : u32 (Z.of_nat (length ts)) = Z.of_nat (length ts)) by (unfold u32; rewrite Z.mod_small; lia).
  unfold get_uint32_array_from_string. cbn [TEEIO_ASSERT deref res_bind]. rewrite Hnil. cbv beta iota.
  cbn [res_bind bool_decide negb orb]. rewrite !token_loop by lia. fold ts. split.
  - destruct (scan_None 0 ts 0 false) as (c & -> & Hc). simpl. fold valid.
    destruct valid eqn:Ev; [|done]. apply andb_true_iff in Ev as [Hok _].
    by rewrite Hc, Z.add_0_l, Hu by done.
  - destruct (scan_Some size ts [] cells false ltac:(simpl; lia)) as (cells' & c & b & Hscan & Hl & Hb & Hc).
    simpl in Hl, Hb, Hc. change (Z.of_nat (length [])) with 0 in Hscan. simpl in Hscan. rewrite Hscan. simpl.
    assert (b = valid && fits) as ->.
    { rewrite Hb. unfold valid, fits. destruct (forallb _ _), (_ <=? _), (nonempty _); done. }
    exists cells'. destruct (valid && fits); [|done].
    destruct (Hc eq_refl) as [-> ->]. change (Z.of_nat 0) with 0. rewrite Z.add_0_l, Hu. by split_and!.
Qed.

(** [get_uint32_array_from_string] accepts exactly the comma-separated lists of
    decimal numbers up to [UINT32_MAX] (empty pieces are skipped, at least
    one number is needed) that fit the array, and then stores their values, in
    order, in the first cells, leaves the others alone, and reports their number; otherwise it returns
    [false] and keeps [*array_size].  Without an array it accepts a list
    of any length and only counts.  It never writes out of the array and
    always returns. *)
Theorem get_uint32_array_from_string_spec s cells size :
  s ≠ [] → strlen s < 2 ^ 31 → 0 ≤ size ≤ Z.of_nat (length cells) →
  let ts := tokens (char ",") s in
  let valid := forallb token_ok ts && nonempty ts in
  let fits := Z.of_nat (length ts) <=? size in
  get_uint32_array_from_string None (Some size) (Some s) =
    Ok (valid, None, Some (if valid then Z.of_nat (length ts) else size)) ∧
  ∃ cells',
    get_uint32_array_from_string (Some cells) (Some size) (Some s) =
      Ok (valid && fits, Some cells', Some (if valid && fits then Z.of_nat (length ts) else size)) ∧
    length cells' = length cells ∧
    (valid && fits = true →
     cells' = map (digits_value 10) ts ++ drop (length ts) cells).
Proof. apply get_uint32_array_exact. Qed.

Lemma get_uint32_array_from_string_spec_witness :
  ∃ cells', get_uint32_array_from_string (Some [7; 7; 7; 7]) (Some 4) (Some (bs "1,20,,4294967295"))
            = Ok (true, Some cells', Some 3) ∧ cells' = [1; 20; 4294967295; 7].
Proof.
  destruct (get_uint32_array_from_string_spec (bs "1,20,,4294967295") [7; 7; 7; 7] 4) as
    (_ & cells' & H1 & _ & H2); [done|reflexivity|simpl; lia|].
  exists cells'. split; [exact H1|apply H2; reflexivity].
Defined.

(** The reference for the hexadecimal conversions. *)
Definition hex_value (max : Z) (s : bytes) : option Z :=
  match s with
  | z :: x :: ds =>
      let v := digits_value 16 ds in
      if (z =? char "0") && ((x =? char "x") || (x =? char "X"))
         && nonempty ds && forallb isxdigit ds && (v <=? max)
      then Some v else None
  | _ => None
  end.

Lemma hex_digit c : IsValidDigitalChar c true = isxdigit c.
Proof.
  unfold IsValidDigitalChar, isxdigit, digit_val.
  change (char "0") with 48. change (char "9") with 57. change (char "a") with 97.
  change (char "f") with 102. change (char "A") with 65. change (char "F") with 70.
  repeat match goal with |- context [?a <=? ?b] => destruct (Z.leb_spec a b) end; simpl; try lia;
    symmetry; (apply Z.ltb_lt; lia) || (apply Z.ltb_ge; lia).
Qed.

Lemma IsValidDigital_hex s : IsValidDigital s true = forallb isxdigit s.
Proof. unfold IsValidDigital. induction s as [|c s IH]; simpl; [done|]. by rewrite hex_digit, IH. Qed.

Lemma strtoul_hex x ds :
  (x =? 120) || (x =? 88) = true → ds ≠ [] → forallb isxdigit ds = true →
  strtoul (48 :: x :: ds) 0 =
  (if ULONG_MAX <? digits_value 16 ds then ULONG_MAX else digits_value 16 ds, []).
Proof.
  intros Hx Hne Hds. destruct ds as [|c ds]; [done|]. unfold strtoul.
  change (split_sign (drop_spaces (48 :: x :: c :: ds))) with (false, 48 :: x :: c :: ds).
  cbv beta iota zeta.
  assert (strtoul_base 0 (48 :: x :: c :: ds) = (16, c :: ds)) as ->.
  { unfold strtoul_base, hex_prefix. simpl in Hds. apply andb_true_iff in Hds as [-> _]. by rewrite Hx. }
  by rewrite span_digits_all.
Qed.

(** [strtoul] and a check against a bound, on a hexadecimal string. *)
Lemma hex_bounded max str :
  0 ≤ max < ULONG_MAX → IsValidHexString str = true →
  ∃ r, strtoul str 0 = (r, []) ∧
       (if max <? r then None else Some (r mod (max + 1))) = hex_value max str.
Proof.
  intros Hmax. unfold IsValidHexString, hex_value.
  destruct str as [|z [|x ds]]; [done|done|].
  change (char "0") with 48 in *. change (char "x") with 120 in *. change (char "X") with 88 in *.
  assert (Hl : (strlen (z :: x :: ds) <=? 2) = negb (nonempty ds)).
  { unfold strlen. destruct ds; [done|]. simpl. apply Z.leb_gt. lia. }
  rewrite Hl, IsValidDigital_hex. destruct (nonempty ds) eqn:Ene; simpl; [|done].
  assert (ds ≠ []) by (by destruct ds).
  destruct (Z.eqb_spec z 48) as [->|]; simpl; [|done].
  rewrite <- negb_orb. destruct ((x =? 120) || (x =? 88)) eqn:Ex; simpl; [|done].
  intros Hd. rewrite Hd, strtoul_hex by done. eexists. split; [done|]. simpl.
  assert (0 ≤ digits_value 16 ds) by (apply digits_value_nonneg; [lia|lia|]; apply Forall_true, digit_val_nonneg).
  rewrite Z.leb_antisym. destruct (Z.ltb_spec ULONG_MAX (digits_value 16 ds)).
  - rewrite !(proj2 (Z.ltb_lt _ _)) by lia. done.
  - destruct (Z.ltb_spec max (digits_value 16 ds)); simpl; [done|]. rewrite Z.mod_small by lia. done.
Qed.

Lemma hex_value_invalid max str : IsValidHexString str = false → hex_value max str = None.
Proof.
  unfold IsValidHexString, hex_value. destruct str as [|z [|x ds]]; [done|done|].
  rewrite IsValidDigital_hex. unfold strlen. destruct ds as [|c ds]; [by rewrite !andb_false_r|].
  rewrite (proj2 (Z.leb_gt _ _)) by (simpl; lia).
  destruct (z =? char "0"); cbn [negb]; [|done]. rewrite <- negb_orb.
  destruct ((x =? char "x") || (x =? char "X")); cbn [negb]; [|done].
  intros ->. by rewrite andb_false_r.
Qed.

(** [convert_hex_str_to_uint16] and [_uint8] accept exactly "0x" or "0X" followed
    by at least one hexadecimal digit, with a value that fits the type; then they store that
    value, and otherwise they leave the output alone.  A null argument is
    refused. *)
Theorem convert_hex_str_spec str d :
  convert_hex_str_to_uint16 (Some str) (Some d) =
    (match hex_value UINT16_MAX str with Some v => (true, Some v) | None => (false, Some d) end) ∧
  convert_hex_str_to_uint8 (Some str) (Some d) =
    (match hex_value UINT8_MAX str with Some v => (true, Some v) | None => (false, Some d) end) ∧
  (∀ o, convert_hex_str_to_uint16 None o = (false, o) ∧ convert_hex_str_to_uint8 (Some str) None = (false, None)).
Proof.
  assert (H : ∀ max, 0 ≤ max < ULONG_MAX → convert_hex_str max (Some str) (Some d) =
    match hex_value max str with Some v => (true, Some v) | None => (false, Some d) end).
  2: { split_and!; [apply H; unfold UINT16_MAX, ULONG_MAX; lia|apply H; unfold UINT8_MAX, ULONG_MAX; lia|done]. }
  intros max Hmax. unfold convert_hex_str. destruct (IsValidHexString str) eqn:E; cbn [negb].
  - destruct (hex_bounded max str Hmax E) as (r & -> & <-). by destruct (max <? r).
  - by rewrite hex_value_invalid.
Qed.

(** The first occurrence. *)
Lemma find_char_in_str_spec s c :
  let r := find_char_in_str (Some s) c in
  (r = -1 ∧ c ∉ s) ∨
  (∃ pre post, s = pre ++ c :: post ∧ (c ∉ pre) ∧ r = Z.of_nat (length pre)).
Proof.
  assert (H : ∀ i, (find_loop c s i = i + strlen s ∧ c ∉ s) ∨
    (∃ pre post, s = pre ++ c :: post ∧ (c ∉ pre) ∧ find_loop c s i = i + Z.of_nat (length pre))).
  { unfold strlen. induction s as [|x s IH]; intros i; simpl.
    - left. split; [lia|apply not_elem_of_nil].
    - destruct (Z.eqb_spec x c) as [->|Hne].
      + right. exists [], s. split_and!; [done|apply not_elem_of_nil|simpl; lia].
      + destruct (IH (i + 1)) as [(-> & Hn)|(pre & post & -> & Hn & ->)].
        * left. split; [lia|]. apply not_elem_of_cons. by split.
        * right. exists (x :: pre), post. split_and!; [done| |simpl; lia].
          apply not_elem_of_cons. by split. }
  simpl. unfold strlen in *. destruct (H 0) as [(-> & Hn)|(pre & post & Hs & Hn & ->)].
  - left. by rewrite Z.add_0_l, Z.eqb_refl.
  - right. exists pre, post. split_and!; [done|done|].
    rewrite (proj2 (Z.eqb_neq _ _)); [lia|]. subst s. rewrite length_app. simpl. lia.
Qed.

End Utils.

(** ** pcie_helper.c *)
Module PcieHelper.
Import Utils.

Definition BDF_LENGTH : Z := 13.
Definition DF_LENGTH : Z := 5.
Definition MAX_NAME_LENGTH : Z := 128.
Definition MAX_SUPPORT_DEVICE_NUM : nat := 32.

(** [s[i]] of a string whose length was checked before. *)
Definition at_ (s : bytes) (i : nat) : Z := nth i s 0.

Definition is_valid_bdf (bdf : bytes) : bool :=
  if negb (strlen bdf =? BDF_LENGTH - 1) || negb (at_ bdf 4 =? char ":")
     || negb (at_ bdf 7 =? char ":") || negb (at_ bdf 10 =? char ".") then false
  else if negb (isxdigit (at_ bdf 0)) || negb (isxdigit (at_ bdf 1)) || negb (isxdigit (at_ bdf 2))
     || negb (isxdigit (at_ bdf 3)) || negb (isxdigit (at_ bdf 5)) || negb (isxdigit (at_ bdf 6))
     || negb (isxdigit (at_ bdf 8)) || negb (isxdigit (at_ bdf 9)) || negb (isxdigit (at_ bdf 11)) then false
  else true.

Definition is_valid_dev_func (df : bytes) : bool :=
  if negb (strlen df =? DF_LENGTH - 1) || negb (at_ df 2 =? char ".") then false
  else if negb (isxdigit (at_ df 0)) || negb (isxdigit (at_ df 1)) || negb (isxdigit (at_ df 3)) then false
  else true.

(** The string from position [i] up to the NUL written at [j]. *)
Definition substr (s : bytes) (i j : nat) : bytes := take (j - i) (drop i s).

(** [None] is [return false] (the output pointers are not null at the call
    sites); otherwise segment, bus, device and function. *)
Definition parse_bdf_string (bdf : option bytes) : option (Z * Z * Z * Z) :=
  match bdf with
  | None => None
  | Some s =>
      if negb (strlen s =? BDF_LENGTH - 1) then None else
      let res := sscanf_x (substr s 0 4) 0 in
      let segment := u16 res in
      let res := sscanf_x (substr s 5 7) res in
      let bus := u8 res in
      let res := sscanf_x (substr s 8 10) res in
      let device := u8 res in
      let res := sscanf_x (substr s 11 12) res in
      let function := u8 res in
      Some (segment, bus, device, function)
  end.

(** The table of open configuration spaces. *)
Record IDE_TEST_DEVICES_INFO := { fd : Z; device_name : bytes }.

(** [strncpy(dst, src, strlen(src))]: no NUL is written. *)
Definition strncpy_len (dst src : bytes) : bytes := src ++ drop (length src) dst.

Definition empty_slot : IDE_TEST_DEVICES_INFO := {| fd := 0; device_name := [] |}.

Fixpoint unset_loop (f : Z) (devices : list IDE_TEST_DEVICES_INFO) : list IDE_TEST_DEVICES_INFO :=
  match devices with
  | [] => []
  | d :: ds => if fd d =? f then empty_slot :: ds else d :: unset_loop f ds
  end.

Definition unset_device_info (f : Z) (devices : list IDE_TEST_DEVICES_INFO)
    : res (bool * list IDE_TEST_DEVICES_INFO) :=
  if f <=? 0 then let* _ := TEEIO_ASSERT false in Ok (false, devices)
  else Ok (true, unset_loop f devices).

Fixpoint set_loop (f : Z) (name : bytes) (devices : list IDE_TEST_DEVICES_INFO)
    : res (bool * list IDE_TEST_DEVICES_INFO) :=
  match devices with
  | [] => Ok (false, [])
  | d :: ds =>
      if fd d =? f then
        let* _ := TEEIO_ASSERT (streq (device_name d) name) in Ok (true, d :: ds)
      else if fd d =? 0 then
        Ok (true, {| fd := f; device_name := strncpy_len (device_name d) name |} :: ds)
      else let* r := set_loop f name ds in Ok (fst r, d :: snd r)
  end.

Definition set_deivce_info (f : Z) (name : option bytes) (devices : list IDE_TEST_DEVICES_INFO)
    : res (bool * list IDE_TEST_DEVICES_INFO) :=
  match name with
  | Some name =>
      if (f <=? 0) || (MAX_NAME_LENGTH - 1 <? strlen name) then
        let* _ := TEEIO_ASSERT false in Ok (false, devices)
      else set_loop f name devices
  | None => let* _ := TEEIO_ASSERT false in Ok (false, devices)
  end.

Definition get_device_info_by_fd (f : Z) (devices : list IDE_TEST_DEVICES_INFO)
    : res (option IDE_TEST_DEVICES_INFO) :=
  if f <=? 0 then let* _ := TEEIO_ASSERT false in Ok None
  else Ok (List.find (λ d, fd d =? f) devices).

(** The table as the specification sees it: the open descriptors, with
    their names. *)
Definition table_of (devices : list IDE_TEST_DEVICES_INFO) : list (Z * bytes) :=
  omap (λ d, if fd d =? 0 then None else Some (fd d, device_name d)) devices.

(** Free slots are zeroed and no descriptor is registered twice. *)
Definition table_wf (devices : list IDE_TEST_DEVICES_INFO) : Prop :=
  Forall (λ d, 0 ≤ fd d ∧ (fd d = 0 → device_name d = [])) devices ∧
  NoDup (map fst (table_of devices)).

(** ** Lemmas *)

(** [%0<w>x] *)
Definition hex_char (n : Z) : Z := if n <? 10 then 48 + n else 87 + n.

Fixpoint hex_fixed (w : nat) (n : Z) : bytes :=
  match w with O => [] | S w => hex_fixed w (n / 16) ++ [hex_char (n mod 16)] end.

(** "%04x:%02x:%02x.%x", the form of a BDF in sysfs paths. *)
Definition print_bdf (segment bus device function : Z) : bytes :=
  hex_fixed 4 segment ++ bs ":" ++ hex_fixed 2 bus ++ bs ":" ++ hex_fixed 2 device ++ bs "." ++ hex_fixed 1 function.

Lemma digit_val_hex_char n : 0 ≤ n < 16 → digit_val (hex_char n) = n.
Proof.
  intros Hn. assert (Hin : n ∈ seqZ 0 16) by (apply elem_of_seqZ; lia). clear Hn.
  repeat (apply elem_of_cons in Hin as [->|Hin]; [done|]). by apply elem_of_nil in Hin.
Qed.

Lemma hex_fixed_length w n : length (hex_fixed w n) = w.
Proof. revert n. induction w as [|w IH]; intros n; simpl; [done|]. rewrite length_app, IH. simpl. lia. Qed.

Lemma hex_fixed_value w n :
  forallb isxdigit (hex_fixed w n) = true ∧
  digits_value 16 (hex_fixed w n) = n mod 16 ^ Z.of_nat w.
Proof.
  revert n. induction w as [|w IH]; intros n; simpl; [by rewrite Z.mod_1_r|].
  destruct (IH (n / 16)) as [Hd Hv].
  assert (Hm : 0 ≤ n mod 16 < 16) by (apply Z.mod_pos_bound; lia).
  split.
  - rewrite forallb_app, Hd. simpl. unfold isxdigit. rewrite digit_val_hex_char by done.
    by rewrite (proj2 (Z.ltb_lt _ _)) by lia.
  - unfold digits_value in *. rewrite fold_left_app, Hv. simpl. rewrite digit_val_hex_char by done.
    replace (Z.of_nat (S w)) with (1 + Z.of_nat w) by lia.
    rewrite Z.pow_add_r, Z.pow_1_r, Z.rem_mul_r by lia. lia.
Qed.

(** Hexadecimal digits are neither spaces, nor signs, nor an "x". *)
Lemma isxdigit_not_special c :
  isxdigit c = true →
  isspace c = false ∧ (c =? 45) = false ∧ (c =? 43) = false ∧ (c =? 120) = false ∧ (c =? 88) = false.
Proof.
  intros Hc. assert (48 ≤ c < 48 + 55).
  { unfold isxdigit, digit_val in Hc. rewrite Z.ltb_lt in Hc.
    repeat match goal with H : context [?a <=? ?b] |- _ => destruct (Z.leb_spec a b) end; simpl in *; lia. }
  assert (H' : implb (isxdigit c)
    (negb (isspace c) && negb (c =? 45) && negb (c =? 43) && negb (c =? 120) && negb (c =? 88)) = true).
  { revert c Hc H. intros c _. revert c. apply (forallb_range (λ c, implb (isxdigit c)
      (negb (isspace c) && negb (c =? 45) && negb (c =? 43) && negb (c =? 120) && negb (c =? 88)))).
    vm_compute. done. }
  rewrite Hc in H'. simpl in H'. rewrite !andb_true_iff, !negb_true_iff in H'. tauto.
Qed.

Lemma digits_value_app base s c : digits_value base (s ++ [c]) = digits_value base s * base + digit_val c.
Proof. unfold digits_value. by rewrite fold_left_app. Qed.

Lemma digits_value_bound base s :
  0 ≤ base → forallb (λ c, digit_val c <? base) s = true →
  0 ≤ digits_value base s < base ^ Z.of_nat (length s).
Proof.
  intros Hb. induction s as [|c s IH] using rev_ind; intros Hd; [done|].
  rewrite forallb_app in Hd. apply andb_true_iff in Hd as [Hs Hc]. simpl in Hc.
  rewrite andb_true_r, Z.ltb_lt in Hc. specialize (IH Hs).
  rewrite digits_value_app, length_app, Nat2Z.inj_add, Z.pow_add_r by lia. simpl (Z.of_nat _).
  pose proof (digit_val_nonneg c). change (Z.of_nat 1) with 1. rewrite Z.pow_1_r. nia.
Qed.

Lemma hex_prefix_digits s : forallb isxdigit s = true → hex_prefix s = None.
Proof.
  destruct s as [|a [|b [|c s]]]; try done. simpl. intros Hd. rewrite !andb_true_iff in Hd.
  destruct Hd as (_ & Hb & _). destruct (isxdigit_not_special b Hb) as (_ & _ & _ & -> & ->).
  by rewrite andb_false_r.
Qed.

Lemma strip_digits s : forallb isxdigit s = true → split_sign (drop_spaces s) = (false, s).
Proof.
  destruct s as [|a s]; [done|]. simpl. intros [Ha _]%andb_true_iff.
  destruct (isxdigit_not_special a Ha) as (-> & H1 & H2 & _). simpl. by rewrite H1, H2.
Qed.

(** "%x" reads a few hexadecimal digits as their value. *)
Lemma sscanf_x_digits s r :
  s ≠ [] → (length s ≤ 8)%nat → forallb isxdigit s = true → sscanf_x s r = digits_value 16 s.
Proof.
  intros Hne Hl Hd. pose proof (hex_prefix_digits s Hd) as Hp. pose proof (strip_digits s Hd) as Hs.
  pose proof (span_digits_all 16 s Hd) as Hsp.
  pose proof (digits_value_bound 16 s ltac:(lia) Hd) as Hv.
  assert (16 ^ Z.of_nat (length s) ≤ 16 ^ 8) by (apply Z.pow_le_mono_r; lia).
  assert (Hst : strtoul s 16 = (digits_value 16 s, [])).
  { unfold strtoul. rewrite Hs. unfold strtoul_base. simpl (16 =? 0). simpl (16 =? 16). cbv iota.
    rewrite Hp. simpl from_option. unfold id. rewrite Hsp. destruct s; [done|].
    rewrite (proj2 (Z.ltb_ge _ _)); [done|]. unfold ULONG_MAX. lia. }
  unfold sscanf_x. rewrite Hs, Hst. cbv zeta. simpl snd. rewrite Hp. simpl from_option. unfold id. rewrite Hsp. simpl fst.
  rewrite (bool_decide_eq_false_2 (s = [])), orb_false_r by done.
  replace (match s with z :: x :: _ => _ | _ => false end) with false.
  - unfold u32. rewrite Z.mod_small; lia.
  - destruct s as [|a [|b s]]; try done. simpl in Hd. rewrite !andb_true_iff in Hd.
    destruct Hd as (_ & Hb & _). destruct (isxdigit_not_special b Hb) as (_ & _ & _ & -> & ->).
    by rewrite andb_false_r.
Qed.

(** A BDF printed as "%04x:%02x:%02x.%x" is valid and parses back to the
    segment, bus, device and function it was printed from. *)
Theorem parse_print_bdf segment bus device function :
  0 ≤ segment < 2 ^ 16 → 0 ≤ bus < 2 ^ 8 → 0 ≤ device < 2 ^ 8 → 0 ≤ function < 2 ^ 4 →
  is_valid_bdf (print_bdf segment bus device function) = true ∧
  parse_bdf_string (Some (print_bdf segment bus device function)) = Some (segment, bus, device, function).
Proof.
  intros Hs Hb Hd Hf.
  destruct (hex_fixed_value 4 segment) as [Hs1 Hs2]. destruct (hex_fixed_value 2 bus) as [Hb1 Hb2].
  destruct (hex_fixed_value 2 device) as [Hd1 Hd2]. destruct (hex_fixed_value 1 function) as [Hf1 Hf2].
  unfold print_bdf.
  pose proof (hex_fixed_length 4 segment) as Ls. pose proof (hex_fixed_length 2 bus) as Lb.
  pose proof (hex_fixed_length 2 device) as Ld. pose proof (hex_fixed_length 1 function) as Lf.
  destruct (hex_fixed 4 segment) as [|s0 [|s1 [|s2 [|s3 [|]]]]]; try discriminate Ls.
  destruct (hex_fixed 2 bus) as [|b0 [|b1 [|]]]; try discriminate Lb.
  destruct (hex_fixed 2 device) as [|d0 [|d1 [|]]]; try discriminate Ld.
  destruct (hex_fixed 1 function) as [|f0 [|]]; try discriminate Lf.
  change (bs ":") with [58]. change (bs ".") with [46]. cbn [app].
  split.
  - unfold is_valid_bdf, at_. cbn [nth]. cbn [forallb] in *. rewrite !andb_true_r, ?andb_true_iff in *.
    destruct Hs1 as (-> & -> & -> & ->), Hb1 as [-> ->], Hd1 as [-> ->]. by rewrite Hf1.
  - unfold parse_bdf_string, strlen. simpl (negb _). cbv iota.
    unfold substr. cbn [Nat.sub take drop].
    rewrite !sscanf_x_digits by (done || simpl; lia).
    rewrite Hs2, Hb2, Hd2, Hf2. simpl Z.of_nat. unfold u16, u8. rewrite !Z.mod_small; try done.
    all: rewrite ?Z.mod_small; lia.
Qed.

Lemma parse_print_bdf_witness :
  print_bdf 1 0x2a 0 0 = bs "0001:2a:00.0" ∧
  parse_bdf_string (Some (print_bdf 1 0x2a 0 0)) = Some (1, 0x2a, 0, 0).
Proof. split; [reflexivity|]. apply (parse_print_bdf 1 0x2a 0 0); lia. Defined.

Lemma table_of_cons d ds :
  table_of (d :: ds) = if fd d =? 0 then table_of ds else (fd d, device_name d) :: table_of ds.
Proof. unfold table_of. simpl. by destruct (fd d =? 0). Qed.

(** Where a descriptor that is not registered goes. *)
Lemma set_loop_fresh f name ds :
  f ≠ 0 → Forall (λ d, 0 ≤ fd d ∧ (fd d = 0 → device_name d = [])) ds → Forall (λ d, fd d ≠ f) ds →
  (Forall (λ d, fd d ≠ 0) ds ∧ set_loop f name ds = Ok (false, ds)) ∨
  (∃ pre post, ds = pre ++ empty_slot :: post ∧ Forall (λ d, fd d ≠ 0) pre ∧
     set_loop f name ds = Ok (true, pre ++ {| fd := f; device_name := name |} :: post)).
Proof.
  intros Hf. induction ds as [|d ds IH]; intros Hwf Hfr; [by left|].
  apply Forall_cons in Hwf as [[Hd0 Hd] Hwf]. apply Forall_cons in Hfr as [Hdf Hfr].
  simpl. rewrite (proj2 (Z.eqb_neq _ _) Hdf). destruct (Z.eqb_spec (fd d) 0) as [E|E].
  - right. exists [], ds. rewrite (Hd E). unfold strncpy_len. rewrite drop_nil, app_nil_r.
    split_and!; try done. destruct d as [x n]; simpl in *. by rewrite E, (Hd E).
  - destruct (IH Hwf Hfr) as [(Hn & ->)|(pre & post & -> & Hn & ->)].
    + left. split; [by constructor|done].
    + right. exists (d :: pre), post. split_and!; [done|by constructor|done].
Qed.

Lemma fresh_Forall f ds : f ≠ 0 → (f ∉ map fst (table_of ds)) → Forall (λ d, fd d ≠ f) ds.
Proof.
  intros Hf. induction ds as [|d ds IH]; intros Hn; constructor.
  - intros <-. apply Hn. rewrite table_of_cons, (proj2 (Z.eqb_neq _ _)) by done. by left.
  - apply IH. intros H. apply Hn. rewrite table_of_cons. destruct (fd d =? 0); [done|by right].
Qed.

Lemma table_of_app ds es : table_of (ds ++ es) = table_of ds ++ table_of es.
Proof. unfold table_of. apply omap_app. Qed.

Lemma length_table_of ds : (length (table_of ds) ≤ length ds)%nat.
Proof.
  induction ds as [|d ds IH]; [done|]. rewrite table_of_cons. destruct (fd d =? 0); simpl; lia.
Qed.

Lemma length_table_of_full ds : Forall (λ d, fd d ≠ 0) ds → length (table_of ds) = length ds.
Proof.
  induction 1 as [|d ds Hd _ IH]; [done|]. rewrite table_of_cons, (proj2 (Z.eqb_neq _ _) Hd). simpl. by rewrite IH.
Qed.

Lemma unset_loop_middle f name pre post :
  Forall (λ d, fd d ≠ f) pre →
  unset_loop f (pre ++ {| fd := f; device_name := name |} :: post) = pre ++ empty_slot :: post.
Proof.
  induction 1 as [|d pre Hd _ IH]; simpl; [by rewrite Z.eqb_refl|].
  by rewrite (proj2 (Z.eqb_neq _ _) Hd), IH.
Qed.

Lemma find_middle f g name pre post :
  Forall (λ d, fd d ≠ f) pre → g ≠ 0 →
  List.find (λ d, fd d =? g) (pre ++ {| fd := f; device_name := name |} :: post) =
  if g =? f then Some {| fd := f; device_name := name |}
  else List.find (λ d, fd d =? g) (pre ++ empty_slot :: post).
Proof.
  intros Hp Hg. induction Hp as [|d pre Hd _ IH]; cbn [app List.find fd empty_slot].
  - rewrite (Z.eqb_sym f g), (proj2 (Z.eqb_neq 0 g)) by done. done.
  - rewrite IH. destruct (Z.eqb_spec (fd d) g) as [<-|]; [|done].
    by rewrite (proj2 (Z.eqb_neq _ _) Hd).
Qed.

(** The device table: registering a new descriptor succeeds exactly when a slot is
    free, keeps the table well-formed, makes the name retrievable under the
    descriptor, does not disturb the other descriptors, and is undone by unregistering; when
    the table is full it changes nothing. *)
Theorem device_table_spec devices f name :
  table_wf devices → 0 < f → strlen name ≤ MAX_NAME_LENGTH - 1 → (f ∉ map fst (table_of devices)) →
  ∃ devices',
    let free := (length (table_of devices) <? length devices)%nat in
    set_deivce_info f (Some name) devices = Ok (free, devices') ∧
    table_wf devices' ∧
    (if free then
       get_device_info_by_fd f devices' = Ok (Some {| fd := f; device_name := name |}) ∧
       (∀ g, 0 < g → g ≠ f → get_device_info_by_fd g devices' = get_device_info_by_fd g devices) ∧
       unset_device_info f devices' = Ok (true, devices)
     else devices' = devices).
Proof.
  intros [Hwf Hnd] Hf Hl Hn. pose proof (fresh_Forall f devices ltac:(lia) Hn) as Hfr.
  unfold set_deivce_info, get_device_info_by_fd, unset_device_info.
  rewrite (proj2 (Z.leb_gt f 0)), (proj2 (Z.ltb_ge _ _)) by lia. simpl orb. cbv iota.
  destruct (set_loop_fresh f name devices ltac:(lia) Hwf Hfr) as [(Hfull & ->)|(pre & post & -> & Hpre & ->)].
  - rewrite length_table_of_full by done. rewrite Nat.ltb_irrefl. exists devices. by repeat split.
  - apply Forall_app in Hwf as [Hw1 Hw2]. apply Forall_cons in Hw2 as [_ Hw2].
    apply Forall_app in Hfr as [Hf1 Hf2].
    assert (Hfree : (length (table_of (pre ++ empty_slot :: post)) < length (pre ++ empty_slot :: post))%nat).
    { rewrite table_of_app, !length_app, length_table_of_full by done.
      pose proof (length_table_of post). rewrite table_of_cons. simpl. lia. }
    apply Nat.ltb_lt in Hfree. rewrite Hfree. exists (pre ++ {| fd := f; device_name := name |} :: post).
    split_and!; [done| | | |].
    + split.
      * apply Forall_app. split; [done|]. constructor; [simpl; lia|done].
      * rewrite table_of_app, table_of_cons, map_app in Hnd, Hn |- *. simpl in *.
        rewrite (proj2 (Z.eqb_neq f 0)) by lia. simpl.
        rewrite <- Permutation_middle. constructor; done.
    + by rewrite find_middle, Z.eqb_refl by (done || lia).
    + intros g Hg Hgf. rewrite (proj2 (Z.leb_gt g 0)) by lia.
      by rewrite find_middle, (proj2 (Z.eqb_neq g f)) by (done || lia).
    + by rewrite unset_loop_middle.
Qed.

Lemma device_table_spec_witness :
  let devices := {| fd := 3; device_name := bs "rp" |} :: replicate 31 empty_slot in
  table_wf devices ∧
  ∃ devices', set_deivce_info 5 (Some (bs "ep")) devices = Ok (true, devices') ∧
    get_device_info_by_fd 5 devices' = Ok (Some {| fd := 5; device_name := bs "ep" |}).
Proof.
  intros devices. assert (Hwf : table_wf devices).
  { split; [|apply NoDup_singleton].
    constructor; [split; [done|discriminate]|]. apply Forall_replicate. split; [done|reflexivity]. }
  split; [exact Hwf|].
  destruct (device_table_spec devices 5 (bs "ep") Hwf) as (d' & H1 & _ & H2); [done|done| |].
  - change (map fst (table_of devices)) with [3]. rewrite list_elem_of_singleton. discriminate.
  - assert (Hfree : (length (table_of devices) <? length devices)%nat = true) by reflexivity.
    cbv zeta in H1, H2. rewrite Hfree in H1, H2. exists d'. split; [exact H1|apply H2].
Defined.

End PcieHelper.
