(* ===== verification/Libspdm.v ===== *)
(** * The part of libspdm's interface that the validator relies on

    libspdm is a git submodule, so its status codes are a parameter of the
    development: a class with the documented facts as laws.  A status is a
    32-bit word whose bits [31:28] are the severity (8 is an error, 0 a
    success). *)
From Stdlib Require Import ZArith Lia.
From stdpp Require Import prelude.
From S2P Require Import Prelude.

Open Scope Z_scope.

Class Libspdm := {
  LIBSPDM_STATUS_SUCCESS : Z;
  LIBSPDM_STATUS_BUFFER_TOO_SMALL : Z;
  LIBSPDM_STATUS_INVALID_PARAMETER : Z;
  LIBSPDM_STATUS_SEND_FAIL : Z;
  LIBSPDM_STATUS_RECEIVE_FAIL : Z;
  LIBSPDM_STATUS_IS_ERROR : Z → bool;
  (** Only words with the top bit set are errors. *)
  IS_ERROR_severity : ∀ s, 0 ≤ s < 2 ^ 31 → LIBSPDM_STATUS_IS_ERROR s = false;
  SUCCESS_zero : LIBSPDM_STATUS_SUCCESS = 0;
  TOO_SMALL_is_error : LIBSPDM_STATUS_IS_ERROR LIBSPDM_STATUS_BUFFER_TOO_SMALL = true;
  INVALID_PARAMETER_is_error : LIBSPDM_STATUS_IS_ERROR LIBSPDM_STATUS_INVALID_PARAMETER = true;
  SEND_FAIL_is_error : LIBSPDM_STATUS_IS_ERROR LIBSPDM_STATUS_SEND_FAIL = true;
  RECEIVE_FAIL_is_error : LIBSPDM_STATUS_IS_ERROR LIBSPDM_STATUS_RECEIVE_FAIL = true
}.

(** The values of libspdm's spdm_return_status.h. *)
#[export] Instance libspdm_3 : Libspdm.
Proof.
  refine {| LIBSPDM_STATUS_SUCCESS := 0;
            LIBSPDM_STATUS_BUFFER_TOO_SMALL := 0x80010002;
            LIBSPDM_STATUS_INVALID_PARAMETER := 0x80010001;
            LIBSPDM_STATUS_SEND_FAIL := 0x80040000;
            LIBSPDM_STATUS_RECEIVE_FAIL := 0x80040001;
            LIBSPDM_STATUS_IS_ERROR s := Z.land (Z.shiftr s 28) 0xf =? 8 |}; try reflexivity.
  intros s Hs. apply Z.eqb_neq. change 0xf with (Z.ones 4).
  rewrite Z.land_ones, Z.shiftr_div_pow2 by lia.
  assert (0 ≤ s / 2 ^ 28 < 8).
  { split; [apply Z.div_pos; lia|apply Z.div_lt_upper_bound; lia]. }
  rewrite Z.mod_small; lia.
Defined.

Lemma SUCCESS_no_error `{Libspdm} : LIBSPDM_STATUS_IS_ERROR LIBSPDM_STATUS_SUCCESS = false.
Proof. rewrite SUCCESS_zero. apply IS_ERROR_severity. lia. Qed.
