(* ===== verification/IniFile.v ===== *)
(** * The INI file reader (teeio_validator/ide_test_ini.c, the parsing library)

    The section list is newest first, as the code links it.  The strings of
    an item are pointers that are null, live or freed: [ProfileGetEntry]
    links an item before it checks the value and frees its strings when the
    check fails, so later uses of that item are undefined behaviour, and the
    model says so.  A [malloc] succeeds (its failure is an assertion in the code). *)
From Stdlib Require Import ZArith Lia Ascii String.
From stdpp Require Import prelude.
From S2P Require Import Prelude Libspdm Utils.
Import CLib Utils.

Open Scope Z_scope.
Open Scope teeio_scope.

Module Ini.

(** ** Data *)

Inductive ptr : Type := Null | Live (s : bytes) | Freed.

#[export] Instance ptr_eq_dec : EqDecision ptr.
Proof. solve_decision. Defined.

Record SECTION_ITEM := {
  PtrSection : ptr;
  SecNameLen : Z;
  PtrEntry : ptr;
  PtrValue : ptr
}.

Record INI_PARSING_LIB_CONTEXT := {
  SectionHead : list SECTION_ITEM;
  CommentHead : list bytes
}.

(** Both heads null. *)
Definition empty_context : INI_PARSING_LIB_CONTEXT := {| SectionHead := []; CommentHead := [] |}.

(** The string a pointer may be read through. *)
Definition read_str (p : ptr) : res bytes :=
  match p with Live s => Ok s | Null | Freed => Stop Undefined end.

(** A C string inside a block of bytes. *)
Fixpoint cstr (m : bytes) : bytes :=
  match m with c :: m => if c =? 0 then [] else c :: cstr m | [] => [] end.

(** ** Character classes *)

Definition valid_chars : bytes := bs "_:,.-".

Definition IsValidNameChar (c : Z) : bool :=
  if (char "a" <=? c) && (c <=? char "z") then true
  else if (char "A" <=? c) && (c <=? char "Z") then true
  else if (char "0" <=? c) && (c <=? char "9") then true
  else existsb (λ v, c =? v) valid_chars.

Definition IsValidName (s : bytes) : bool := forallb IsValidNameChar s.

Definition sub (s : bytes) (i n : nat) : bytes := take n (drop i s).

Definition IsValidGuid (s : bytes) : bool :=
  let hyphen i := nth i s 0 =? char "-" in
  if negb (strlen s =? 36) then false
  else if negb (hyphen 8%nat) then false
  else if negb (hyphen 13%nat) then false
  else if negb (hyphen 18%nat) then false
  else if negb (hyphen 23%nat) then false
  else if negb (IsValidDigital (sub s 0 8) true) then false
  else if negb (IsValidDigital (sub s 9 4) true) then false
  else if negb (IsValidDigital (sub s 14 4) true) then false
  else if negb (IsValidDigital (sub s 19 4) true) then false
  else if negb (IsValidDigital (sub s 24 12) true) then false
  else true.

(** [token] is never advanced in the loop. *)
Definition IsValidDecimalArray (fuel : positive) (Value : option bytes) : res bool :=
  match Value with
  | None => Ok false
  | Some s =>
      if strlen s =? 0 then Ok false else
      while (λ st : option (bytes * bytes) * bool,
               match st with
               | (None, valid) => Ok (inr valid)
               | (Some (token, saved), valid) =>
                   if negb (IsValidDecimalString token) then Ok (inr false)
                   else Ok (inl (Some (token, saved), true))
               end) fuel (strtok 44 s, false)
  end.

Definition IsValidValue (s : bytes) : bool := IsValidName s || IsValidGuid s.

(** ** Lines *)

Definition is_break (c : Z) : bool := (c =? 0x0d) || (c =? 0x0a).
Definition is_blank (c : Z) : bool := (c =? 0x0d) || (c =? 0x0a) || (c =? 0x20) || (c =? 0x09).

(** The offset of the first CR or LF, or the size of the buffer. *)
Fixpoint break_pos (buf : bytes) : nat :=
  match buf with c :: buf => if is_break c then O else S (break_pos buf) | [] => O end.

Fixpoint drop_blanks (s : bytes) : bytes :=
  match s with c :: s' => if is_blank c then drop_blanks s' else s | [] => [] end.

(** Trims the tail, then the head; the result is what the first [*BufferSize]
    bytes of the buffer hold afterwards. *)
Definition ProfileTrim (s : bytes) : bytes := drop_blanks (reverse (drop_blanks (reverse s))).

Section with_libspdm.
Context `{Libspdm}.

(** Status, new [*LineSize], new content of the line buffer ([None]: left alone). *)
Definition ProfileGetLine (buf : bytes) (LineSize : Z) : Z * Z * option bytes :=
  let BufferSize := length buf in
  let p := break_pos buf in
  let Length :=
    if (BufferSize - 1 <=? p)%nat then BufferSize
    else if nth (S p) buf 0 =? 0x0a then (p + 2)%nat
    else (p + 1)%nat in
  if LineSize <? Z.of_nat Length then (LIBSPDM_STATUS_BUFFER_TOO_SMALL, Z.of_nat Length, None)
  else (LIBSPDM_STATUS_SUCCESS, Z.of_nat Length, Some (take Length buf)).

Definition ProfileGetComments (buf : bytes) (head : list bytes) : bool * list bytes := (true, buf :: head).

Definition ProfileGetSection (buf : bytes) (head : list SECTION_ITEM) : res (bool * list SECTION_ITEM) :=
  let* _ := TEEIO_ASSERT (1 <=? strlen buf) in
  match span_not (char "]") (tail buf) with
  | (_, []) => Ok (false, head)
  | (raw, _ :: _) =>
      if negb (nonempty raw) then Ok (false, head) else
      let name := ProfileTrim raw in
      if negb (nonempty name) then Ok (false, head)
      else if negb (IsValidName name) then Ok (false, head)
      else Ok (true, {| PtrSection := Live name; SecNameLen := strlen name;
                        PtrEntry := Null; PtrValue := Null |} :: head)
  end.

(** What stands before a comment. *)
Fixpoint before_comment (s : bytes) : bytes :=
  match s with
  | c :: s => if (c =? char "#") || (c =? char ";") then [] else c :: before_comment s
  | [] => []
  end.

(** A new item for a section that has been found, with what stands after the "=" as its value. *)
Definition add_entry (sec : SECTION_ITEM) (name after : bytes) (head : list SECTION_ITEM) : res (bool * list SECTION_ITEM) :=
  let* secname := read_str (PtrSection sec) in
  let* copy := load (secname ++ [0]) 0 (SecNameLen sec + 1) in
  let failed := {| PtrSection := Freed; SecNameLen := SecNameLen sec;
                   PtrEntry := Freed; PtrValue := Null |} in
  let raw := before_comment after in
  if negb (nonempty raw) then Ok (false, failed :: head) else
  let value := ProfileTrim raw in
  if negb (nonempty value) then Ok (false, failed :: head)
  else if negb (IsValidValue value) then Ok (false, failed :: head)
  else Ok (true, {| PtrSection := Live (cstr copy); SecNameLen := SecNameLen sec;
                    PtrEntry := Live name; PtrValue := Live value |} :: head).

Definition ProfileGetEntry (buf : bytes) (head : list SECTION_ITEM) : res (bool * list SECTION_ITEM) :=
  match span_not (char "=") buf with
  | (_, []) => Ok (false, head)
  | (raw, _ :: after) =>
      if negb (nonempty raw) then Ok (false, head) else
      let name := ProfileTrim raw in
      if negb (nonempty name) then Ok (false, head)
      else if negb (IsValidName name) then Ok (false, head)
      else match head with
           | [] => Ok (true, head)
           | sec :: _ => add_entry sec name after head
           end
  end.

(** A [bool] assigned to a status word. *)
Definition of_bool (b : bool) : Z := if b then 1 else 0.

(** The part of the loop body that follows [ProfileTrim]: the new status and
    lists. *)
Definition process_line (line : bytes) (ctx : INI_PARSING_LIB_CONTEXT) (Status : Z)
    : res (Z * INI_PARSING_LIB_CONTEXT) :=
  match line with
  | [] => Ok (Status, ctx)
  | c :: _ =>
      if (c =? char "#") || (c =? char ";") then
        let '(st, com) := ProfileGetComments line (CommentHead ctx) in
        Ok (of_bool st, {| SectionHead := SectionHead ctx; CommentHead := com |})
      else if c =? char "[" then
        let* r := ProfileGetSection line (SectionHead ctx) in
        Ok (of_bool (fst r), {| SectionHead := snd r; CommentHead := CommentHead ctx |})
      else
        let* r := ProfileGetEntry line (SectionHead ctx) in
        Ok (of_bool (fst r), {| SectionHead := snd r; CommentHead := CommentHead ctx |})
  end.

Definition MAX_LINE_LENGTH : Z := 512.

(** One round of [while (CurrentPtr < BufferEnd)].  The state is the rest of the
    data, [MaxLineLength], the lists and the status. *)
Definition preprocess_step (st : bytes * Z * INI_PARSING_LIB_CONTEXT * Z)
    : res ((bytes * Z * INI_PARSING_LIB_CONTEXT * Z) + (INI_PARSING_LIB_CONTEXT * Z)) :=
  let '(data, MaxLineLength, ctx, Status) := st in
  let finish Max line Status :=
    let* r := process_line (ProfileTrim line) ctx Status in
    let data := drop (length line) data in
    (* a blank line is a [continue]; otherwise the status is tested *)
    if nonempty (ProfileTrim line) && LIBSPDM_STATUS_IS_ERROR (fst r) then Ok (inr (snd r, fst r))
    else Ok (inl (data, Max, snd r, fst r)) in
  match data with
  | [] => Ok (inr (ctx, Status))
  | _ :: _ =>
      let '(Status, LineLength, line) := ProfileGetLine data MaxLineLength in
      if LIBSPDM_STATUS_IS_ERROR Status then
        if Status =? LIBSPDM_STATUS_BUFFER_TOO_SMALL then
          let '(Status, LineLength, line) := ProfileGetLine (take (Z.to_nat LineLength) data) LineLength in
          if LIBSPDM_STATUS_IS_ERROR Status then Ok (inr (ctx, Status))
          else let* line := deref line in finish LineLength line Status
        else Ok (inr (ctx, Status))
      else let* line := deref line in finish MaxLineLength line Status
  end.

(** [return Status] converts the status word to [bool]. *)
Definition PreProcessDataFile (data : bytes) : res (bool * INI_PARSING_LIB_CONTEXT) :=
  let* r := while preprocess_step (Pos.of_succ_nat (length data))
              (data, MAX_LINE_LENGTH, empty_context, LIBSPDM_STATUS_SUCCESS) in
  Ok (negb (snd r =? 0), fst r).

Definition OpenIniFile (DataBuffer : option bytes) : res (option INI_PARSING_LIB_CONTEXT) :=
  match DataBuffer with
  | None => Ok None
  | Some data =>
      if strlen data =? 0 then Ok None else
      let* r := PreProcessDataFile data in
      if LIBSPDM_STATUS_IS_ERROR (of_bool (fst r)) then Ok None else Ok (Some (snd r))
  end.

End with_libspdm.

(** ** Look-ups *)

Fixpoint IsValidSection_loop (items : list SECTION_ITEM) (SectionName : bytes) : res bool :=
  match items with
  | [] => Ok false
  | it :: items =>
      let* sec := read_str (PtrSection it) in
      if streq sec SectionName && negb (bool_decide (PtrEntry it = Null)) then Ok true
      else IsValidSection_loop items SectionName
  end.

Definition IsValidSection (Context : option INI_PARSING_LIB_CONTEXT) (SectionName : option bytes) : res bool :=
  match Context, SectionName with
  | Some ctx, Some name => IsValidSection_loop (SectionHead ctx) name
  | _, _ => Ok false
  end.

(** The value and [*EntryValue]. *)
Fixpoint UpdateGetProfileString (items : list SECTION_ITEM) (SectionName EntryName : bytes) : res (bool * ptr) :=
  match items with
  | [] => Ok (false, Null)
  | it :: items =>
      let* sec := read_str (PtrSection it) in
      if streq sec SectionName && negb (bool_decide (PtrEntry it = Null)) then
        let* entry := read_str (PtrEntry it) in
        if streq entry EntryName then Ok (true, PtrValue it)
        else UpdateGetProfileString items SectionName EntryName
      else UpdateGetProfileString items SectionName EntryName
  end.

(** The callers pass names and output pointers that are not null. *)
Definition GetStringFromDataFile (Context : option INI_PARSING_LIB_CONTEXT) (SectionName EntryName : bytes)
    : res (bool * ptr) :=
  match Context with
  | None => Ok (false, Null)
  | Some ctx => UpdateGetProfileString (SectionHead ctx) SectionName EntryName
  end.

(** [TEEIO_ASSERT(Value != NULL)], then the string it points to. *)
Definition asserted_str (p : ptr) : res bytes :=
  let* _ := TEEIO_ASSERT (negb (bool_decide (p = Null))) in read_str p.

(** [Some v]: true with [*Data = v]; [None]: false, and [*Data] is not written. *)
Definition GetDecimalUint32FromDataFile (Context : option INI_PARSING_LIB_CONTEXT)
    (SectionName EntryName : bytes) : res (option Z) :=
  let* r := GetStringFromDataFile Context SectionName EntryName in
  if negb (fst r) then Ok None else
  let* value := asserted_str (snd r) in
  if negb (IsValidDecimalString value) then Ok None else
  let '(result, end_ptr) := strtoul value 10 in
  if negb (bool_decide (end_ptr = [])) then Ok None
  else if UINT32_MAX <? result then Ok None
  else Ok (Some (u32 result)).

Definition GetHexUint32FromDataFile (Context : option INI_PARSING_LIB_CONTEXT)
    (SectionName EntryName : bytes) : res (option Z) :=
  let* r := GetStringFromDataFile Context SectionName EntryName in
  if negb (fst r) then Ok None else
  let* value := asserted_str (snd r) in
  if negb (IsValidHexString value) then Ok None else
  let '(result, end_ptr) := strtoul value 0 in
  if negb (bool_decide (end_ptr = [])) then Ok None
  else if UINT32_MAX <? result then Ok None
  else Ok (Some (u32 result)).

(** The value and the new content of [DataArray]. *)
Definition GetUint32ArrayFromDataFile (Context : option INI_PARSING_LIB_CONTEXT)
    (SectionName EntryName : bytes) (DataArray : list Z) (DataArrayLength : Z) : res (bool * list Z) :=
  if DataArrayLength =? 0 then Ok (false, DataArray) else
  let* r := GetStringFromDataFile Context SectionName EntryName in
  if negb (fst r) then Ok (false, DataArray) else
  let* value := asserted_str (snd r) in
  let* out := get_uint32_array_from_string (Some DataArray) (Some DataArrayLength) (Some value) in
  Ok (fst (fst out), from_option id DataArray (snd (fst out))).

(** The value and the new [*DataArrayLength]. *)
Definition GetUint32ArrayLengthFromDataFile (Context : option INI_PARSING_LIB_CONTEXT)
    (SectionName EntryName : bytes) (DataArrayLength : Z) : res (bool * Z) :=
  let* r := GetStringFromDataFile Context SectionName EntryName in
  if negb (fst r) then Ok (false, DataArrayLength) else
  let* value := asserted_str (snd r) in
  let* out := get_uint32_array_from_string None (Some DataArrayLength) (Some value) in
  Ok (fst (fst out), from_option id DataArrayLength (snd out)).

(** ** Closing *)

(** The blocks behind a context: itself, the nodes of its two lists, by their places in them, and their strings. *)
Inductive block :=
| BContext
| BItem (n : nat) | BSection (n : nat) | BEntry (n : nat) | BValue (n : nat)
| BComment (n : nat) | BText (n : nat).

#[export] Instance block_eq_dec : EqDecision block.
Proof. solve_decision. Defined.

(** [free], after the blocks [freed], in their order: a second one of the same block is undefined. *)
Definition free (b : block) (freed : list block) : res (list block) :=
  if bool_decide (b ∈ freed) then Stop Undefined else Ok (freed ++ [b]).

(** [free] of a string that is tested against null first; one that [ProfileGetEntry] has freed is freed again. *)
Definition free_str (p : ptr) (b : block) (freed : list block) : res (list block) :=
  match p with Null => Ok freed | Live _ => free b freed | Freed => Stop Undefined end.

(** The two loops, from the node at the place [n] on. *)
Fixpoint free_items (n : nat) (Section : list SECTION_ITEM) (freed : list block) : res (list block) :=
  match Section with
  | [] => Ok freed
  | it :: Section =>
      let* freed := free_str (PtrEntry it) (BEntry n) freed in
      let* freed := free_str (PtrSection it) (BSection n) freed in
      let* freed := free_str (PtrValue it) (BValue n) freed in
      let* freed := free (BItem n) freed in
      free_items (S n) Section freed
  end.

Fixpoint free_comments (n : nat) (Comment : list bytes) (freed : list block) : res (list block) :=
  match Comment with
  | [] => Ok freed
  | _ :: Comment =>
      let* freed := free (BText n) freed in
      let* freed := free (BComment n) freed in
      free_comments (S n) Comment freed
  end.

(** The blocks it frees. *)
Definition FreeAllList (Section : list SECTION_ITEM) (Comment : list bytes) : res (list block) :=
  let* freed := free_items 0 Section [] in free_comments 0 Comment freed.

(** The block of the context is left. *)
Definition CloseIniFile (Context : option INI_PARSING_LIB_CONTEXT) : res (list block) :=
  match Context with
  | None => Ok []
  | Some ctx => FreeAllList (SectionHead ctx) (CommentHead ctx)
  end.

(** [IsValidDecimalArray] never returns on an array that starts with a
    decimal number, whatever the number of rounds it is given. *)
Lemma IsValidDecimalArray_diverges fuel s t r :
  s ≠ [] → strtok 44 s = Some (t, r) → IsValidDecimalString t = true →
  IsValidDecimalArray fuel (Some s) = Stop NoFuel.
Proof.
  intros Hne Ht Hd. unfold IsValidDecimalArray.
  rewrite (proj2 (Z.eqb_neq _ _)) by (destruct s; [done|unfold strlen; simpl; lia]).
  rewrite Ht. apply (while_diverges _ (λ st, fst st = Some (t, r))); [|done].
  intros [o valid] Hst. simpl in Hst. subst o. rewrite Hd. simpl. by eexists.
Qed.

(** The numeric look-ups, from the string one. *)
Lemma GetDecimal_live ctx sec key v :
  GetStringFromDataFile ctx sec key = Ok (true, Live v) → v ≠ [] →
  GetDecimalUint32FromDataFile ctx sec key = Ok (if token_ok v then Some (digits_value 10 v) else None).
Proof.
  intros Hg Hne. unfold GetDecimalUint32FromDataFile, token_ok. rewrite Hg. simpl.
  destruct (IsValidDecimalString v) eqn:E; simpl; [|done].
  destruct (decimal_u32 v Hne E) as (r & -> & -> & Hv).
  destruct (Z.leb_spec (digits_value 10 v) UINT32_MAX); simpl; [|done]. by rewrite Hv.
Qed.

Lemma GetHex_live ctx sec key v :
  GetStringFromDataFile ctx sec key = Ok (true, Live v) →
  GetHexUint32FromDataFile ctx sec key = Ok (hex_value UINT32_MAX v).
Proof.
  intros Hg. unfold GetHexUint32FromDataFile, asserted_str. rewrite Hg. cbn [res_bind fst snd negb].
  rewrite bool_decide_eq_false_2 by done. cbn [negb TEEIO_ASSERT res_bind read_str].
  destruct (IsValidHexString v) eqn:E; cbn [negb]; [|by rewrite hex_value_invalid].
  destruct (hex_bounded UINT32_MAX v) as (r & -> & <-); [unfold UINT32_MAX, ULONG_MAX; lia|done|].
  rewrite bool_decide_eq_true_2 by done. cbn [negb]. destruct (UINT32_MAX <? r); [done|].
  unfold u32, UINT32_MAX. done.
Qed.

Lemma GetNumber_missing ctx sec key p :
  GetStringFromDataFile ctx sec key = Ok (false, p) →
  GetDecimalUint32FromDataFile ctx sec key = Ok None ∧ GetHexUint32FromDataFile ctx sec key = Ok None.
Proof.
  intros Hg. unfold GetDecimalUint32FromDataFile, GetHexUint32FromDataFile. by rewrite Hg.
Qed.

(** ** Reading line by line

    The reference: the data cut at every CR and LF. *)
Fixpoint lines (d : bytes) : list bytes :=
  match d with
  | [] => [[]]
  | c :: d => if is_break c then [] :: lines d
              else match lines d with l :: ls => (c :: l) :: ls | [] => [[c]] end
  end.

Section reading.
Context `{Libspdm}.

Definition do_line (l : bytes) (ctx : INI_PARSING_LIB_CONTEXT) : res INI_PARSING_LIB_CONTEXT :=
  let* r := process_line (ProfileTrim l) ctx 0 in Ok (snd r).

Definition read_lines (d : bytes) (ctx : INI_PARSING_LIB_CONTEXT) : res INI_PARSING_LIB_CONTEXT :=
  fold_res do_line (lines d) ctx.

Definition unbroken (l : bytes) : Prop := Forall (λ c, is_break c = false) l.

Lemma lines_unbroken l : unbroken l → lines l = [l].
Proof. induction 1 as [|c l Hc _ IH]; simpl; [done|]. by rewrite Hc, IH. Qed.

Lemma lines_break l b d : unbroken l → is_break b = true → lines (l ++ b :: d) = l :: lines d.
Proof.
  intros Hl Hb. induction Hl as [|c l Hc _ IH]; simpl; [by rewrite Hb|].
  by rewrite Hc, IH.
Qed.

(** The line break that ends a line, before the rest of the data. *)
Inductive eol_shape : bytes → bytes → Prop :=
| eol_none : eol_shape [] []
| eol_one b rest : is_break b = true → head rest ≠ Some 0x0a → eol_shape [b] rest
| eol_two b rest : is_break b = true → eol_shape [b; 0x0a] rest.

Lemma first_line d : ∃ l eol rest, d = l ++ eol ++ rest ∧ unbroken l ∧ eol_shape eol rest.
Proof.
  induction d as [|c d (l & eol & rest & -> & Hu & He)].
  { exists [], [], []. split_and!; [done|constructor|constructor]. }
  destruct (is_break c) eqn:E.
  - destruct (l ++ eol ++ rest) as [|x d'] eqn:Ed.
    + exists [], [c], []. split_and!; [done|constructor|by constructor].
    + destruct (decide (x = 0x0a)) as [->|Hx].
      * exists [], [c; 0x0a], d'. split_and!; [done|constructor|by constructor].
      * exists [], [c], (x :: d'). split_and!; [done|constructor|]. constructor; [done|]. by intros [= ->].
  - exists (c :: l), eol, rest. split_and!; [done|by constructor|done].
Qed.

Lemma break_pos_app l d : unbroken l → break_pos (l ++ d) = (length l + break_pos d)%nat.
Proof. induction 1 as [|c l Hc _ IH]; simpl; [done|]. by rewrite Hc, IH. Qed.

Lemma drop_blanks_all l : Forall (λ c, is_blank c = true) l → ∀ k, drop_blanks (l ++ k) = drop_blanks k.
Proof. induction 1 as [|c l Hc _ IH]; intros k; simpl; [done|]. by rewrite Hc, IH. Qed.

Lemma trim_tail_blanks l ws : Forall (λ c, is_blank c = true) ws → ProfileTrim (l ++ ws) = ProfileTrim l.
Proof.
  intros Hws. unfold ProfileTrim. rewrite reverse_app, drop_blanks_all; [done|].
  by apply Forall_reverse.
Qed.

Lemma is_break_blank c : is_break c = true → is_blank c = true.
Proof. unfold is_break, is_blank. intros ->. done. Qed.

Lemma ProfileTrim_nil : ProfileTrim [] = [].
Proof. done. Qed.

Lemma read_lines_nil ctx : read_lines [] ctx = Ok ctx.
Proof. done. Qed.

(** What [ProfileGetLine] takes from the data. *)
Definition line_length (buf : bytes) : nat :=
  let p := break_pos buf in
  if (length buf - 1 <=? p)%nat then length buf
  else if nth (S p) buf 0 =? 0x0a then (p + 2)%nat else (p + 1)%nat.

Lemma ProfileGetLine_spec buf n :
  ProfileGetLine buf n =
  if n <? Z.of_nat (line_length buf)
  then (LIBSPDM_STATUS_BUFFER_TOO_SMALL, Z.of_nat (line_length buf), None)
  else (LIBSPDM_STATUS_SUCCESS, Z.of_nat (line_length buf), Some (take (line_length buf) buf)).
Proof. done. Qed.

Lemma line_length_shape l eol rest :
  unbroken l → eol_shape eol rest → line_length (l ++ eol ++ rest) = length (l ++ eol).
Proof.
  intros Hu He. unfold line_length. rewrite break_pos_app by done.
  destruct He as [|b rest Hb Hr|b rest Hb]; simpl; rewrite ?Hb, !length_app; simpl.
  - by rewrite (proj2 (Nat.leb_le _ _)) by lia.
  - destruct rest as [|c rest]; simpl; [by rewrite (proj2 (Nat.leb_le _ _)) by lia|].
    rewrite (proj2 (Nat.leb_gt _ _)), app_nth2 by lia.
    replace (S (length l + 0) - length l)%nat with 1%nat by lia. simpl nth.
    rewrite (proj2 (Z.eqb_neq c 0x0a)) by (intros ->; by apply Hr). lia.
  - rewrite (proj2 (Nat.leb_gt _ _)), app_nth2 by lia.
    replace (S (length l + 0) - length l)%nat with 1%nat by lia. simpl. lia.
Qed.

Lemma take_line l eol rest :
  unbroken l → eol_shape eol rest →
  let d := l ++ eol ++ rest in
  take (line_length d) d = l ++ eol ∧ drop (line_length d) d = rest ∧
  line_length (l ++ eol) = length (l ++ eol).
Proof.
  intros Hu He d. unfold d. rewrite line_length_shape by done.
  rewrite app_assoc, take_app_length, drop_app_length. split_and!; [done|done|].
  rewrite <- (app_nil_r (l ++ eol)) at 1. rewrite <- app_assoc. apply line_length_shape; [done|].
  by destruct He; constructor.
Qed.

(** Cutting at every break comes to the same as taking a line at a time. *)
Lemma read_lines_shape l eol rest ctx :
  unbroken l → eol_shape eol rest →
  read_lines (l ++ eol ++ rest) ctx = let* ctx' := do_line (l ++ eol) ctx in read_lines rest ctx'.
Proof.
  intros Hu He. unfold read_lines.
  assert (Ht : do_line (l ++ eol) ctx = do_line l ctx).
  { unfold do_line. rewrite trim_tail_blanks; [done|]. destruct He; repeat constructor; auto using is_break_blank. }
  rewrite Ht. destruct He as [|b rest Hb Hr|b rest Hb]; simpl.
  - rewrite !app_nil_r, lines_unbroken by done. simpl. by destruct (do_line l ctx).
  - by rewrite lines_break.
  - rewrite lines_break by done. simpl. by destruct (do_line l ctx).
Qed.

Lemma of_bool_range b : 0 ≤ of_bool b ≤ 1.
Proof. destruct b; simpl; lia. Qed.

(** The status is one of a success or a boolean, and has no effect on the lists. *)
Lemma process_line_status l ctx s :
  0 ≤ s ≤ 1 →
  match do_line l ctx with
  | Ok ctx' => ∃ s', 0 ≤ s' ≤ 1 ∧ process_line (ProfileTrim l) ctx s = Ok (s', ctx')
  | Stop e => process_line (ProfileTrim l) ctx s = Stop e
  end.
Proof.
  intros Hs. unfold do_line, process_line. destruct (ProfileTrim l) as [|c l']; simpl; [by exists s|].
  destruct ((c =? char "#") || (c =? char ";")); simpl; [exists 1; by split; [lia|]|].
  destruct (c =? char "[").
  - destruct (ProfileGetSection _ _) as [[b ss]|e]; simpl; [|done].
    exists (of_bool b). split; [apply of_bool_range|done].
  - destruct (ProfileGetEntry _ _) as [[b ss]|e]; simpl; [|done].
    exists (of_bool b). split; [apply of_bool_range|done].
Qed.

Lemma status_not_error s : 0 ≤ s ≤ 1 → LIBSPDM_STATUS_IS_ERROR s = false.
Proof. intros Hs. apply IS_ERROR_severity. lia. Qed.

(** A round of the loop takes a line and handles it. *)
Lemma preprocess_step_spec d M ctx s :
  d ≠ [] → 0 ≤ s ≤ 1 →
  match do_line (take (line_length d) d) ctx with
  | Ok ctx' => ∃ M' s', 0 ≤ s' ≤ 1 ∧
      preprocess_step (d, M, ctx, s) = Ok (inl (drop (line_length d) d, M', ctx', s'))
  | Stop e => preprocess_step (d, M, ctx, s) = Stop e
  end.
Proof.
  intros Hne Hs. destruct (first_line d) as (l & eol & rest & -> & Hu & He).
  destruct (take_line l eol rest Hu He) as (Ht & Hdr & Hid). cbv zeta in Ht, Hdr.
  pose proof (process_line_status (l ++ eol) ctx LIBSPDM_STATUS_SUCCESS) as Hp.
  rewrite SUCCESS_zero in Hp. specialize (Hp ltac:(lia)).
  unfold preprocess_step. destruct (l ++ eol ++ rest) as [|x d'] eqn:Ed; [done|].
  rewrite <- Ed in *. rewrite ProfileGetLine_spec.
  destruct (M <? Z.of_nat (line_length (l ++ eol ++ rest))).
  - rewrite TOO_SMALL_is_error, Z.eqb_refl, Nat2Z.id, Ht, ProfileGetLine_spec, Hid.
    rewrite (line_length_shape l eol rest) by done.
    rewrite Z.ltb_irrefl, SUCCESS_zero, status_not_error by lia. cbn [res_bind deref].
    rewrite firstn_all. destruct (do_line (l ++ eol) ctx) as [ctx'|e].
    + destruct Hp as (s' & Hs' & ->). cbn [res_bind fst snd]. rewrite status_not_error, andb_false_r by done.
      exists (Z.of_nat (length (l ++ eol))), s'. split; [done|].
      by rewrite <- (line_length_shape l eol rest) by done.
    + by rewrite Hp.
  - rewrite SUCCESS_zero, status_not_error by lia. cbn [res_bind deref]. rewrite Ht.
    destruct (do_line (l ++ eol) ctx) as [ctx'|e].
    + destruct Hp as (s' & Hs' & ->). cbn [res_bind fst snd]. rewrite status_not_error, andb_false_r by done.
      exists M, s'. split; [done|]. by rewrite (line_length_shape l eol rest) by done.
    + by rewrite Hp.
Qed.

Lemma preprocess_loop n d M ctx s :
  (length d ≤ n)%nat → 0 ≤ s ≤ 1 →
  match read_lines d ctx with
  | Ok ctx' => ∃ s', 0 ≤ s' ≤ 1 ∧
      while preprocess_step (Pos.of_succ_nat n) (d, M, ctx, s) = Ok (ctx', s')
  | Stop e => while preprocess_step (Pos.of_succ_nat n) (d, M, ctx, s) = Stop e
  end.
Proof.
  revert d M ctx s. induction n as [|n IH]; intros d M ctx s Hn Hs.
  { destruct d; [|simpl in Hn; lia]. by exists s. }
  destruct d as [|x d].
  { exists s. split; [done|]. change (Pos.of_succ_nat (S n)) with (Pos.succ (Pos.of_succ_nat n)).
    by rewrite while_succ. }
  change (Pos.of_succ_nat (S n)) with (Pos.succ (Pos.of_succ_nat n)). rewrite while_succ.
  pose proof (preprocess_step_spec (x :: d) M ctx s ltac:(done) Hs) as Hst.
  destruct (first_line (x :: d)) as (l & eol & rest & Hd & Hu & He). rewrite Hd in Hst |- *.
  destruct (take_line l eol rest Hu He) as (Ht & Hdr & _). cbv zeta in Ht, Hdr.
  rewrite Ht, Hdr in Hst. rewrite read_lines_shape by done.
  destruct (do_line (l ++ eol) ctx) as [ctx'|e]; cbn [res_bind].
  - destruct Hst as (M' & s' & Hs' & ->). apply IH; [|done].
    assert (length (x :: d) = length (l ++ eol ++ rest)) as Hlen by (by rewrite Hd).
    rewrite !length_app in Hlen. simpl in Hlen, Hn.
    assert (l ++ eol ≠ []).
    { intros Hnil. apply app_nil in Hnil as [-> ->]. inversion He; subst. done. }
    assert (length (l ++ eol) ≠ 0%nat) by (by rewrite length_zero_iff_nil).
    rewrite length_app in *. lia.
  - by rewrite Hst.
Qed.

Lemma OpenIniFile_lines data :
  data ≠ [] → OpenIniFile (Some data) =
              let* ctx := fold_res do_line (lines data) empty_context in Ok (Some ctx).
Proof.
  intros Hne. unfold OpenIniFile, PreProcessDataFile.
  rewrite (proj2 (Z.eqb_neq _ _)) by (destruct data; [done|unfold strlen; simpl; lia]).
  pose proof (preprocess_loop (length data) data MAX_LINE_LENGTH empty_context 0 ltac:(done) ltac:(lia)) as Hl.
  rewrite SUCCESS_zero. unfold read_lines in Hl.
  destruct (fold_res do_line (lines data) empty_context) as [ctx'|e]; cbn [res_bind].
  - destruct Hl as (s' & Hs' & ->). cbn [res_bind fst snd].
    by rewrite status_not_error by apply of_bool_range.
  - by rewrite Hl.
Qed.

(** C21: the INI reader, with its line buffer that is re-allocated when a line does not
    fit and its three kinds of line break, handles any data as the reference
    does that cuts the data at every CR and LF and handles the trimmed pieces one by one; no
    malformed line makes it stop early or fail, so it only gives no context for missing or
    empty data. *)
Theorem OpenIniFile_refines_lines data :
  OpenIniFile None = Ok None ∧ OpenIniFile (Some []) = Ok None ∧
  (data ≠ [] → OpenIniFile (Some data) =
               let* ctx := fold_res do_line (lines data) empty_context in Ok (Some ctx)).
Proof. split_and!; [done|done|apply OpenIniFile_lines]. Qed.

End reading.

Lemma OpenIniFile_refines_lines_witness :
  OpenIniFile (Some (bs "[A]" ++ [0x0d; 0x0a] ++ bs "b=1")) =
  let* ctx := fold_res do_line [bs "[A]"; []; bs "b=1"] empty_context in Ok (Some ctx).
Proof.
  apply (OpenIniFile_refines_lines (bs "[A]" ++ [0x0d; 0x0a] ++ bs "b=1")). discriminate.
Defined.

End Ini.
