(* ===== verification/IniSpec.v ===== *)
(** * What an INI file means

    A grammar of INI files with all the freedom the reader allows (blanks,
    comments, the three line breaks, lines it ignores), its meaning as the list of
    entries of the file, and the proof that opening a file of the grammar
    and looking entries up gives that meaning.  The last part shows what an entry with
    an unacceptable value does to the reader. *)
From Stdlib Require Import ZArith Lia Ascii String.
From stdpp Require Import prelude.
From S2P Require Import Prelude Libspdm Utils IniFile.
Import CLib Utils Ini.

Open Scope Z_scope.
Open Scope teeio_scope.

Module IniSpec.

(** ** The grammar *)

Inductive src_line :=
| SBlank (ws : bytes)
| SComment (ws : bytes) (mark : Z) (text : bytes)
| SSection (ws1 ws2 name ws3 trail : bytes)
| SEntry (ws1 key ws2 ws3 value ws4 comment : bytes)
| SIgnored (text : bytes).

Definition render_line (l : src_line) : bytes :=
  match l with
  | SBlank ws => ws
  | SComment ws mark text => ws ++ mark :: text
  | SSection ws1 ws2 name ws3 trail => ws1 ++ char "[" :: ws2 ++ name ++ ws3 ++ char "]" :: trail
  | SEntry ws1 key ws2 ws3 value ws4 comment =>
      ws1 ++ key ++ ws2 ++ char "=" :: ws3 ++ value ++ ws4 ++ comment
  | SIgnored text => text
  end.

Definition is_mark (c : Z) : bool := (c =? char "#") || (c =? char ";").
Definition is_sep (c : Z) : bool := (c =? 0x20) || (c =? 0x09).
Definition unbroken_b (s : bytes) : bool := forallb (λ c, negb (is_break c)) s.

Definition name_ok (n : bytes) : bool := nonempty n && IsValidName n.

(** A line the reader passes over: a section without a usable name or an
    entry without a usable key. *)
Definition ignored (t : bytes) : bool :=
  match t with
  | [] => false
  | c :: t' =>
      if is_mark c then false
      else if c =? char "[" then
        match span_not (char "]") t' with
        | (_, []) => true
        | (raw, _) => negb (name_ok (ProfileTrim raw))
        end
      else match span_not (char "=") t with
           | (_, []) => true
           | (raw, _) => negb (name_ok (ProfileTrim raw))
           end
  end.

Definition wf_line (l : src_line) : bool :=
  match l with
  | SBlank ws => forallb is_sep ws
  | SComment ws mark text => forallb is_sep ws && is_mark mark && unbroken_b text
  | SSection ws1 ws2 name ws3 trail =>
      forallb is_sep ws1 && forallb is_sep ws2 && name_ok name && forallb is_sep ws3 && unbroken_b trail
  | SEntry ws1 key ws2 ws3 value ws4 comment =>
      forallb is_sep ws1 && name_ok key && forallb is_sep ws2 && forallb is_sep ws3 && name_ok value
      && forallb is_sep ws4 && unbroken_b comment
      && match comment with [] => true | c :: _ => is_mark c end
  | SIgnored text => unbroken_b text && ignored (ProfileTrim text)
  end.

Inductive eol := LF | CRLF | CR.
Definition eol_bytes (e : eol) : bytes :=
  match e with LF => [0x0a] | CRLF => [0x0d; 0x0a] | CR => [0x0d] end.

(** Lines with their breaks, and a last line without one. *)
Record src_file := { body : list (src_line * eol); last_line : src_line }.

Definition render_file (f : src_file) : bytes :=
  concat (map (λ le, render_line (fst le) ++ eol_bytes (snd le)) (body f)) ++ render_line (last_line f).

Definition src_lines (f : src_file) : list src_line := map fst (body f) ++ [last_line f].

Definition wf_file (f : src_file) : bool := forallb wf_line (src_lines f) && nonempty (render_file f).

(** ** The meaning *)

(** The entries in the order of the file, each with the section it is in;
    entries before the first section count for nothing. *)
Fixpoint file_entries (cur : option bytes) (ls : list src_line) : list (bytes * bytes * bytes) :=
  match ls with
  | [] => []
  | SSection _ _ name _ _ :: ls => file_entries (Some name) ls
  | SEntry _ key _ _ value _ _ :: ls =>
      match cur with
      | Some sec => (sec, key, value) :: file_entries cur ls
      | None => file_entries cur ls
      end
  | _ :: ls => file_entries cur ls
  end.

Definition lookup_in (es : list (bytes * bytes * bytes)) (sec key : bytes) : option bytes :=
  (λ e, snd e) <$> List.find (λ e, streq (fst (fst e)) sec && streq (snd (fst e)) key) es.

(** The last entry of that name in that section. *)
Definition ini_lookup (f : src_file) (sec key : bytes) : option bytes :=
  lookup_in (reverse (file_entries None (src_lines f))) sec key.

(** ** The reader on one line *)

(** The section list, newest first: an item is a section head or an entry. *)
Definition item_of (a : bytes * option (bytes * bytes)) : SECTION_ITEM :=
  match a with
  | (sec, None) => {| PtrSection := Live sec; SecNameLen := strlen sec; PtrEntry := Null; PtrValue := Null |}
  | (sec, Some (k, v)) =>
      {| PtrSection := Live sec; SecNameLen := strlen sec; PtrEntry := Live k; PtrValue := Live v |}
  end.

Definition denote_line (l : src_line) (st : list (bytes * option (bytes * bytes)))
    : list (bytes * option (bytes * bytes)) :=
  match l with
  | SSection _ _ name _ _ => (name, None) :: st
  | SEntry _ key _ _ value _ _ =>
      match st with [] => [] | (sec, _) :: _ => (sec, Some (key, value)) :: st end
  | _ => st
  end.

(** Characters of names have none of the special roles. *)
Definition plain (c : Z) : bool :=
  negb (is_blank c) && negb (is_mark c) && negb (c =? char "=") && negb (c =? char "[")
  && negb (c =? char "]") && negb (c =? 0).

Lemma name_char_plain c : IsValidNameChar c = true → plain c = true.
Proof.
  intros Hc. assert (44 ≤ c < 44 + 79).
  { unfold IsValidNameChar in Hc. revert Hc.
    change (char "a") with 97. change (char "z") with 122. change (char "A") with 65.
    change (char "Z") with 90. change (char "0") with 48. change (char "9") with 57.
    destruct ((97 <=? c) && (c <=? 122)) eqn:E1; [rewrite andb_true_iff, !Z.leb_le in E1; lia|].
    destruct ((65 <=? c) && (c <=? 90)) eqn:E2; [rewrite andb_true_iff, !Z.leb_le in E2; lia|].
    destruct ((48 <=? c) && (c <=? 57)) eqn:E3; [rewrite andb_true_iff, !Z.leb_le in E3; lia|].
    change valid_chars with [95; 58; 44; 46; 45]. cbn [existsb].
    rewrite !orb_true_iff, !Z.eqb_eq. intuition lia. }
  assert (Hi : implb (IsValidNameChar c) (plain c) = true).
  { clear Hc. revert c H. apply (forallb_range (λ c, implb (IsValidNameChar c) (plain c))). vm_compute. done. }
  by rewrite Hc in Hi.
Qed.

Lemma plain_spec c :
  plain c = true ↔ is_blank c = false ∧ is_mark c = false ∧ c ≠ char "=" ∧ c ≠ char "[" ∧ c ≠ char "]" ∧ c ≠ 0.
Proof. unfold plain. rewrite !andb_true_iff, !negb_true_iff, !Z.eqb_neq. tauto. Qed.

Lemma name_ok_plain n : name_ok n = true → n ≠ [] ∧ IsValidName n = true ∧ Forall (λ c, plain c = true) n.
Proof.
  unfold name_ok. rewrite andb_true_iff. intros [Hn Hv]. split_and!; [by destruct n|done|].
  unfold IsValidName in Hv. rewrite forallb_forall in Hv. apply Forall_forall.
  intros c Hc. apply name_char_plain, Hv. by apply list_elem_of_In.
Qed.

Lemma sep_blanks ws : forallb is_sep ws = true → Forall (λ c, is_blank c = true) ws.
Proof.
  rewrite forallb_forall. intros Hf. apply Forall_forall. intros c Hc.
  specialize (Hf c ltac:(by apply list_elem_of_In)). unfold is_sep in Hf. unfold is_blank.
  apply orb_true_iff in Hf as [-> | ->]; by rewrite ?orb_true_r.
Qed.

Lemma sep_unbroken ws : forallb is_sep ws = true → unbroken_b ws = true.
Proof.
  unfold unbroken_b. rewrite !forallb_forall. intros Hf c Hc. specialize (Hf c Hc).
  unfold is_sep in Hf. rewrite orb_true_iff, !Z.eqb_eq in Hf. by destruct Hf as [->| ->].
Qed.

(** *** Trimming *)

Definition rtrim (s : bytes) : bytes := reverse (drop_blanks (reverse s)).

Lemma drop_blanks_stop a c b : is_blank c = false → drop_blanks (a ++ c :: b) = drop_blanks a ++ c :: b.
Proof.
  intros Hc. induction a as [|x a IH]; simpl; [by rewrite Hc|]. destruct (is_blank x); [done|]. done.
Qed.

Lemma rtrim_stop a c b : is_blank c = false → rtrim (a ++ c :: b) = a ++ c :: rtrim b.
Proof.
  intros Hc. unfold rtrim. rewrite reverse_app, reverse_cons, <- app_assoc.
  simpl. rewrite drop_blanks_stop, reverse_app, reverse_cons, reverse_involutive by done.
  by rewrite <- app_assoc.
Qed.

Lemma rtrim_stop3 a b d c e : is_blank c = false → rtrim (a ++ b ++ d ++ c :: e) = a ++ b ++ d ++ c :: rtrim e.
Proof.
  intros Hc. pose proof (rtrim_stop (a ++ b ++ d) c e Hc) as Hr. by rewrite <- !app_assoc in Hr.
Qed.

Lemma rtrim_blanks ws : Forall (λ c, is_blank c = true) ws → rtrim ws = [].
Proof.
  intros Hws. unfold rtrim. apply Forall_reverse in Hws.
  rewrite <- (app_nil_r (reverse ws)), drop_blanks_all by done. done.
Qed.

Lemma ProfileTrim_front ws c s :
  Forall (λ x, is_blank x = true) ws → is_blank c = false →
  ProfileTrim (ws ++ c :: s) = c :: rtrim s.
Proof.
  intros Hws Hc. change (drop_blanks (rtrim (ws ++ c :: s)) = c :: rtrim s).
  rewrite rtrim_stop, drop_blanks_all by done. simpl. by rewrite Hc.
Qed.

(** A name between blanks. *)
Lemma ProfileTrim_name ws n ws' :
  Forall (λ x, is_blank x = true) ws → Forall (λ x, is_blank x = true) ws' →
  Forall (λ c, plain c = true) n → ProfileTrim (ws ++ n ++ ws') = n.
Proof.
  intros Hws Hws' Hn. rewrite app_assoc, trim_tail_blanks by done.
  destruct n as [|c n].
  { rewrite app_nil_r. rewrite <- (app_nil_l ws), trim_tail_blanks by done. done. }
  apply Forall_cons in Hn as [Hc Hn]. apply plain_spec in Hc as (Hc & _).
  rewrite ProfileTrim_front by done. f_equal.
  destruct (list_eq_nil_dec n) as [->|Hne]; [done|].
  destruct (exists_last Hne) as (n' & x & ->). apply Forall_app in Hn as [_ Hx].
  apply Forall_cons in Hx as [Hx _]. apply plain_spec in Hx as (Hx & _).
  by rewrite rtrim_stop.
Qed.

Lemma span_not_stop d a b : Forall (λ c, c ≠ d) a → span_not d (a ++ d :: b) = (a, d :: b).
Proof.
  induction 1 as [|c a Hc _ IH]; simpl; [by rewrite Z.eqb_refl|].
  by rewrite (proj2 (Z.eqb_neq _ _) Hc), IH.
Qed.

Lemma before_comment_app a b : Forall (λ c, is_mark c = false) a → before_comment (a ++ b) = a ++ before_comment b.
Proof. induction 1 as [|c a Hc _ IH]; simpl; [done|]. unfold is_mark in Hc. by rewrite Hc, IH. Qed.

Lemma blank_facts c : is_blank c = true → is_mark c = false ∧ c ≠ char "=" ∧ c ≠ char "]" ∧ c ≠ char "[".
Proof.
  unfold is_blank. rewrite !orb_true_iff, !Z.eqb_eq. intros [[[-> | ->] | ->] | ->]; done.
Qed.

Lemma Forall_impl_b (P : Z → Prop) (Q : Z → bool) (l : bytes) :
  Forall (λ c, Q c = true) l → (∀ c, Q c = true → P c) → Forall P l.
Proof. intros Hl HQ. eapply Forall_impl; [exact Hl|]. simpl. auto. Qed.

(** The shape of an entry's right-hand side after the line was trimmed. *)
Lemma entry_tail ws3 value ws4 comment :
  Forall (λ x, is_blank x = true) ws3 → Forall (λ x, is_blank x = true) ws4 →
  value ≠ [] → Forall (λ c, plain c = true) value →
  match comment with [] => true | c :: _ => is_mark c end = true →
  ∃ ws', Forall (λ x, is_blank x = true) ws' ∧
    before_comment (ws3 ++ value ++ rtrim (ws4 ++ comment)) = ws3 ++ value ++ ws'.
Proof.
  intros H3 H4 Hne Hv Hc.
  assert (M3 : Forall (λ c, is_mark c = false) ws3) by (eapply Forall_impl_b; [exact H3|]; by intros c (? & _)%blank_facts).
  assert (M4 : Forall (λ c, is_mark c = false) ws4) by (eapply Forall_impl_b; [exact H4|]; by intros c (? & _)%blank_facts).
  assert (Mv : Forall (λ c, is_mark c = false) value) by (eapply Forall_impl_b; [exact Hv|]; by intros c (_ & ? & _)%plain_spec).
  rewrite (before_comment_app ws3), (before_comment_app value) by done.
  destruct comment as [|c comment].
  - exists []. rewrite app_nil_r, rtrim_blanks by done. done.
  - exists ws4. split; [done|]. rewrite rtrim_stop.
    + rewrite before_comment_app by done. simpl. unfold is_mark in Hc. rewrite Hc. by rewrite app_nil_r.
    + destruct (is_blank c) eqn:E; [|done]. apply blank_facts in E as (E & _). congruence.
Qed.

Lemma cstr_plain n : Forall (λ c, plain c = true) n → cstr (n ++ [0]) = n.
Proof.
  induction 1 as [|c n Hc _ IH]; simpl; [done|]. apply plain_spec in Hc as (_ & _ & _ & _ & _ & Hc).
  by rewrite (proj2 (Z.eqb_neq _ _) Hc), IH.
Qed.

Lemma copy_name n : load (n ++ [0]) 0 (strlen n + 1) = Ok (n ++ [0]).
Proof.
  pose proof (load_app [] (n ++ [0]) [] 0 (strlen n + 1)) as Hl. rewrite app_nil_r in Hl. simpl in Hl.
  apply Hl; [done|]. rewrite length_app. unfold strlen. simpl. lia.
Qed.

Lemma ProfileGetSection_name ws2 name ws3 trail head :
  Forall (λ x, is_blank x = true) ws2 → Forall (λ x, is_blank x = true) ws3 → name_ok name = true →
  ProfileGetSection (char "[" :: ws2 ++ name ++ ws3 ++ char "]" :: trail) head
  = Ok (true, item_of (name, None) :: head).
Proof.
  intros H2 H3 Hn. apply name_ok_plain in Hn as (Hne & Hv & Hp). unfold ProfileGetSection.
  rewrite (proj2 (Z.leb_le _ _)) by (unfold strlen; simpl; lia). simpl tail.
  rewrite (app_assoc ws2), (app_assoc (ws2 ++ name)), span_not_stop.
  2: { repeat apply Forall_app_2;
       [eapply Forall_impl_b; [exact H2|]; by intros c (_ & _ & ? & _)%blank_facts
       |eapply Forall_impl_b; [exact Hp|]; by intros c (_ & _ & _ & _ & ? & _)%plain_spec
       |eapply Forall_impl_b; [exact H3|]; by intros c (_ & _ & ? & _)%blank_facts]. }
  rewrite <- app_assoc, ProfileTrim_name, Hv by done. simpl.
  replace (nonempty (ws2 ++ name ++ ws3)) with true by (by destruct ws2, name).
  by destruct name.
Qed.

(** The item an entry with an unacceptable value leaves behind. *)
Definition failed_item (sec : bytes) : SECTION_ITEM :=
  {| PtrSection := Freed; SecNameLen := strlen sec; PtrEntry := Freed; PtrValue := Null |}.

Lemma span_key key ws2 after :
  Forall (λ x, is_blank x = true) ws2 → Forall (λ c, plain c = true) key →
  span_not (char "=") (key ++ ws2 ++ char "=" :: after) = (key ++ ws2, char "=" :: after).
Proof.
  intros H2 Hp. rewrite (app_assoc key). apply span_not_stop, Forall_app_2.
  - eapply Forall_impl_b; [exact Hp|]. by intros c (_ & _ & ? & _)%plain_spec.
  - eapply Forall_impl_b; [exact H2|]. by intros c (_ & ? & _)%blank_facts.
Qed.

(** An entry goes to the section of the newest item, if its value is good. *)
Lemma ProfileGetEntry_entry key ws2 after sec o head :
  Forall (λ x, is_blank x = true) ws2 → name_ok key = true → Forall (λ c, plain c = true) sec →
  ProfileGetEntry (key ++ ws2 ++ char "=" :: after) (item_of (sec, o) :: head) =
  let value := ProfileTrim (before_comment after) in
  if nonempty value && IsValidValue value
  then Ok (true, item_of (sec, Some (key, value)) :: item_of (sec, o) :: head)
  else Ok (false, failed_item sec :: item_of (sec, o) :: head).
Proof.
  intros H2 Hk Hs. apply name_ok_plain in Hk as (Hne & Hv & Hp). unfold ProfileGetEntry, add_entry.
  rewrite span_key by done. pose proof (ProfileTrim_name [] key ws2) as Ht. simpl in Ht.
  rewrite Ht, Hv by done. clear Ht.
  replace (nonempty (key ++ ws2)) with true by (by destruct key).
  replace (nonempty key) with true by (by destruct key). cbn [negb].
  destruct o as [[k v]|]; cbn [item_of PtrSection SecNameLen read_str res_bind];
    rewrite copy_name; cbn [res_bind]; rewrite cstr_plain by done;
    (destruct (before_comment after) as [|x raw]; [done|]); cbn [nonempty negb];
    destruct (nonempty (ProfileTrim (x :: raw))), (IsValidValue (ProfileTrim (x :: raw))); done.
Qed.

Lemma ProfileGetEntry_no_section key ws2 after :
  Forall (λ x, is_blank x = true) ws2 → name_ok key = true →
  ProfileGetEntry (key ++ ws2 ++ char "=" :: after) [] = Ok (true, []).
Proof.
  intros H2 Hk. apply name_ok_plain in Hk as (Hne & Hv & Hp). unfold ProfileGetEntry.
  rewrite span_key by done. pose proof (ProfileTrim_name [] key ws2) as Ht. simpl in Ht.
  rewrite Ht, Hv by done. replace (nonempty (key ++ ws2)) with true by (by destruct key).
  by destruct key.
Qed.

Lemma ignored_line t ctx :
  ignored t = true → ∃ s, process_line t ctx 0 = Ok (s, ctx).
Proof.
  destruct t as [|c t]; [done|]. unfold ignored, process_line. unfold is_mark.
  destruct ((c =? char "#") || (c =? char ";")); [done|]. destruct ctx as [secs coms]. cbn [SectionHead CommentHead].
  destruct (c =? char "[") eqn:E.
  - unfold ProfileGetSection. rewrite (proj2 (Z.leb_le _ _)) by (unfold strlen; simpl; lia). simpl.
    destruct (span_not (char "]") t) as [raw [|x rest]]; [by eexists|].
    unfold name_ok. intros Hn. destruct (nonempty raw); simpl; [|by eexists].
    destruct (nonempty (ProfileTrim raw)); simpl; [|by eexists]. simpl in Hn. rewrite Hn. by eexists.
  - unfold ProfileGetEntry. destruct (span_not (char "=") (c :: t)) as [raw [|x rest]]; [by eexists|].
    unfold name_ok. intros Hn. destruct (nonempty raw); simpl; [|by eexists].
    destruct (nonempty (ProfileTrim raw)); simpl; [|by eexists]. simpl in Hn. rewrite Hn. by eexists.
Qed.

Definition sections_plain (st : list (bytes * option (bytes * bytes))) : Prop :=
  Forall (λ a, Forall (λ c, plain c = true) (fst a)) st.

Ltac split_wf :=
  repeat match goal with H : _ && _ = true |- _ => apply andb_true_iff in H as [? ?] end;
  repeat match goal with H : forallb is_sep _ = true |- _ => apply sep_blanks in H end.

(** The trimmed entry line, up to the value. *)
Lemma trim_entry ws1 key ws2 ws3 value ws4 comment :
  Forall (λ x, is_blank x = true) ws1 → name_ok key = true → name_ok value = true →
  ProfileTrim (render_line (SEntry ws1 key ws2 ws3 value ws4 comment)) =
  key ++ ws2 ++ char "=" :: ws3 ++ value ++ rtrim (ws4 ++ comment).
Proof.
  intros H1 Hk Hv. apply name_ok_plain in Hk as (Hne & _ & Hp). apply name_ok_plain in Hv as (Hne' & _ & Hp').
  destruct key as [|c key]; [done|]. apply Forall_cons in Hp as [(Hc & _)%plain_spec _].
  simpl. rewrite ProfileTrim_front by done. f_equal.
  destruct (exists_last Hne') as (v' & x & ->). apply Forall_app in Hp' as [_ [(Hx & _)%plain_spec _]%Forall_cons].
  replace (key ++ ws2 ++ char "=" :: ws3 ++ (v' ++ [x]) ++ ws4 ++ comment)
    with ((key ++ ws2 ++ char "=" :: ws3 ++ v') ++ x :: (ws4 ++ comment)).
  - rewrite rtrim_stop by done. rewrite <- !app_assoc. simpl. by rewrite <- !app_assoc.
  - rewrite <- !app_assoc. simpl. by rewrite <- !app_assoc.
Qed.

Lemma name_is_value v : name_ok v = true → nonempty v && IsValidValue v = true.
Proof. unfold name_ok, IsValidValue. intros [-> ->]%andb_true_iff. done. Qed.

(** [process_line] tells the three kinds of line apart by the first character. *)
Lemma process_entry c l ctx :
  plain c = true →
  process_line (c :: l) ctx 0 =
  let* r := ProfileGetEntry (c :: l) (SectionHead ctx) in
  Ok (of_bool (fst r), {| SectionHead := snd r; CommentHead := CommentHead ctx |}).
Proof.
  intros (_ & Hm & _ & Hb & _)%plain_spec. unfold is_mark in Hm. simpl. rewrite Hm.
  by rewrite (proj2 (Z.eqb_neq _ _) Hb).
Qed.

Definition is_entry (l : src_line) : bool := match l with SEntry _ _ _ _ _ _ _ => true | _ => false end.

(** A line whose entry, if it is one, has a section: [st] on top of the items [base]. *)
Lemma do_line_denotes l st base coms :
  wf_line l = true → sections_plain st → (is_entry l = true → st = [] → base = []) →
  ∃ coms', do_line (render_line l) {| SectionHead := map item_of st ++ base; CommentHead := coms |}
           = Ok {| SectionHead := map item_of (denote_line l st) ++ base; CommentHead := coms' |} ∧
           sections_plain (denote_line l st).
Proof.
  intros Hw Hst Hbase. unfold do_line. destruct l as [ws|ws mark text|ws1 ws2 name ws3 trail|ws1 key ws2 ws3 value ws4 com|text].
  - simpl in Hw. split_wf. exists coms. simpl. pose proof (ProfileTrim_name ws [] [] Hw) as Ht.
    rewrite app_nil_r in Ht. rewrite Ht by constructor. done.
  - simpl in Hw. split_wf. simpl. rewrite ProfileTrim_front; [|done|].
    + simpl. unfold is_mark in *. rewrite H1. simpl. by eexists.
    + destruct (is_blank mark) eqn:E; [|done]. apply blank_facts in E as (E & _). congruence.
  - simpl in Hw. split_wf. exists coms. cbn [render_line]. rewrite ProfileTrim_front by done.
    rewrite rtrim_stop3 by done.
    cbn [process_line]. simpl ((char "[" =? _) || _). simpl (char "[" =? char "["). cbv iota.
    rewrite ProfileGetSection_name by done. cbn [res_bind fst snd SectionHead CommentHead denote_line map app].
    split; [done|]. constructor; [|done]. by apply name_ok_plain.
  - simpl in Hw. split_wf. exists coms. rewrite trim_entry by done.
    pose proof (name_ok_plain key ltac:(done)) as (Hne & _ & Hp).
    pose proof (name_ok_plain value ltac:(done)) as (Hne' & _ & Hp').
    assert (He : ∃ c l, key ++ ws2 ++ char "=" :: ws3 ++ value ++ rtrim (ws4 ++ com) = c :: l ∧ plain c = true).
    { destruct key as [|c key]; [done|]. apply Forall_cons in Hp as [? _]. by eexists _, _. }
    destruct He as (c & l & He & Hc). rewrite He, process_entry, <- He by done.
    cbn [SectionHead CommentHead]. destruct st as [|[sec o] st].
    + rewrite Hbase by done. cbn [map app]. rewrite ProfileGetEntry_no_section by done. done.
    + apply Forall_cons in Hst as [Hsec Hst]. cbn [map app].
      rewrite ProfileGetEntry_entry by done.
      destruct (entry_tail ws3 value ws4 com) as (ws' & Hws' & ->); try done.
      rewrite ProfileTrim_name by done. cbv zeta. rewrite name_is_value by done.
      cbn [res_bind fst snd denote_line map app]. split; [done|]. constructor; [done|]. by constructor.
  - simpl in Hw. split_wf. exists coms. simpl. destruct (ignored_line (ProfileTrim text)
      {| SectionHead := map item_of st ++ base; CommentHead := coms |}) as (s & ->); done.
Qed.

(** ** The reader on a file *)

Lemma unbroken_b_spec s : unbroken_b s = true → unbroken s.
Proof.
  unfold unbroken_b, unbroken. rewrite forallb_forall. intros Hf. apply Forall_forall.
  intros c Hc. apply negb_true_iff, Hf. by apply list_elem_of_In.
Qed.

Lemma sep_unbroken' ws : forallb is_sep ws = true → unbroken ws.
Proof. intros. by apply unbroken_b_spec, sep_unbroken. Qed.

Lemma name_unbroken n : name_ok n = true → unbroken n.
Proof.
  intros (_ & _ & Hp)%name_ok_plain. eapply Forall_impl_b; [exact Hp|].
  intros c (Hc & _)%plain_spec. unfold is_blank, is_break in *. by destruct ((c =? 13) || (c =? 10)).
Qed.

Lemma wf_line_unbroken l : wf_line l = true → unbroken (render_line l).
Proof.
  destruct l; simpl; intros Hw;
    repeat match goal with H : _ && _ = true |- _ => apply andb_true_iff in H as [? ?] end;
    unfold unbroken in *; repeat (apply Forall_app_2 || apply Forall_cons_2);
    auto using sep_unbroken', name_unbroken, unbroken_b_spec; try done.
  all: try (by apply sep_unbroken'); try (by apply name_unbroken); try (by apply unbroken_b_spec).
  destruct (is_break mark) eqn:E; [|done]. apply is_break_blank, blank_facts in E as [E _]. congruence.
Qed.

Lemma lines_eol l e rest ctx :
  unbroken l →
  fold_res do_line (lines ((l ++ eol_bytes e) ++ rest)) ctx = let* ctx' := do_line l ctx in fold_res do_line (lines rest) ctx'.
Proof.
  intros Hu. rewrite <- app_assoc. destruct e; simpl; rewrite lines_break by done; simpl; by destruct (do_line l ctx).
Qed.

Definition render_body (ls : list (src_line * eol)) : bytes :=
  concat (map (λ le, render_line (fst le) ++ eol_bytes (snd le)) ls).

(** An entry before any section. *)
Fixpoint entry_before_section (ls : list src_line) : bool :=
  match ls with
  | [] | SSection _ _ _ _ _ :: _ => false
  | SEntry _ _ _ _ _ _ _ :: _ => true
  | _ :: ls => entry_before_section ls
  end.

Lemma before_section_denote l ls (st : list (bytes * option (bytes * bytes))) (base : list SECTION_ITEM) :
  (st = [] → base = [] ∨ entry_before_section (l :: ls) = false) →
  (is_entry l = true → st = [] → base = []) ∧ (denote_line l st = [] → base = [] ∨ entry_before_section ls = false).
Proof.
  intros Hb. split.
  - intros Hl Hst. destruct (Hb Hst) as [|Hb']; [done|]. by destruct l.
  - intros Hd. destruct st as [|a st]; [|by destruct l, a]. destruct (Hb eq_refl) as [|Hb']; [by left|right]. by destruct l.
Qed.

(** Lines of the grammar are read one by one into the items they stand for. *)
Lemma read_body_denotes ls rest st base coms :
  forallb wf_line (map fst ls) = true → sections_plain st →
  (st = [] → base = [] ∨ entry_before_section (map fst ls) = false) →
  let st' := fold_left (λ st l, denote_line l st) (map fst ls) st in
  sections_plain st' ∧
  ∃ coms',
    fold_res do_line (lines (render_body ls ++ rest)) {| SectionHead := map item_of st ++ base; CommentHead := coms |}
    = fold_res do_line (lines rest) {| SectionHead := map item_of st' ++ base; CommentHead := coms' |}.
Proof.
  revert st coms. induction ls as [|[l e] ls IH]; intros st coms; cbn [map fst forallb fold_left]; [by eauto|].
  intros [Hl Hls]%andb_true_iff Hst Hbase.
  destruct (before_section_denote l (map fst ls) st base Hbase) as [Hb Hb'].
  destruct (do_line_denotes l st base coms Hl Hst Hb) as (coms' & Hd & Hst').
  unfold render_body. simpl. rewrite <- app_assoc, lines_eol, Hd by (by apply wf_line_unbroken). by apply IH.
Qed.

(** And a whole file of them. *)
Lemma read_file_denotes f st base coms :
  forallb wf_line (src_lines f) = true → sections_plain st →
  (st = [] → base = [] ∨ entry_before_section (src_lines f) = false) →
  let st' := fold_left (λ st l, denote_line l st) (src_lines f) st in
  sections_plain st' ∧
  ∃ coms',
    fold_res do_line (lines (render_file f)) {| SectionHead := map item_of st ++ base; CommentHead := coms |}
    = Ok {| SectionHead := map item_of st' ++ base; CommentHead := coms' |}.
Proof.
  destruct f as [ls l]. unfold src_lines, render_file. cbn [body last_line]. fold (render_body ls). intros Hw Hst Hbase.
  revert st coms Hst Hbase. induction ls as [|[l' e] ls IH]; intros st coms Hst Hbase; cbn [map fst app forallb fold_left] in *.
  - rewrite andb_true_r in Hw. destruct (before_section_denote l [] st base Hbase) as [Hb _]. unfold render_body. cbn [map concat app].
    rewrite lines_unbroken by (by apply wf_line_unbroken). destruct (do_line_denotes l st base coms Hw Hst Hb) as (coms' & Hd & Hst').
    cbn [fold_res]. rewrite Hd. by eauto.
  - apply andb_true_iff in Hw as [Hl Hls]. destruct (before_section_denote l' _ st base Hbase) as [Hb Hb'].
    destruct (do_line_denotes l' st base coms Hl Hst Hb) as (coms' & Hd & Hst').
    unfold render_body. cbn [map concat fst snd]. rewrite <- app_assoc, lines_eol, Hd by (by apply wf_line_unbroken). by apply IH.
Qed.

(** *** Looking entries up *)

Definition entries (st : list (bytes * option (bytes * bytes))) : list (bytes * bytes * bytes) :=
  omap (λ a, match a with (sec, Some (k, v)) => Some (sec, k, v) | (_, None) => None end) st.

Lemma entries_denote ls st :
  entries (fold_left (λ st l, denote_line l st) ls st) =
  reverse (file_entries (fst <$> head st) ls) ++ entries st.
Proof.
  revert st. induction ls as [|l ls IH]; intros st; simpl; [done|]. rewrite IH.
  destruct l as [| |? ? name ? ?|? key ? ? value ? ?|]; simpl; try done.
  destruct st as [|[sec o] st]; simpl; [done|].
  rewrite reverse_cons, <- app_assoc. done.
Qed.

Lemma get_string_on st base sec key :
  UpdateGetProfileString (map item_of st ++ base) sec key =
  match lookup_in (entries st) sec key with Some v => Ok (true, Live v) | None => UpdateGetProfileString base sec key end.
Proof.
  unfold lookup_in. induction st as [|[s [[k v]|]] st IH]; [done| |];
    cbn [map item_of app UpdateGetProfileString PtrSection PtrEntry PtrValue read_str res_bind].
  - change (entries ((s, Some (k, v)) :: st)) with ((s, k, v) :: entries st).
    cbn [List.find fst snd]. rewrite bool_decide_eq_false_2 by done. cbn [negb].
    rewrite andb_true_r. destruct (streq s sec); cbn [andb]; [|done]. by destruct (streq k key).
  - change (entries ((s, None) :: st)) with (entries st).
    rewrite bool_decide_eq_true_2 by done. cbn [negb]. by rewrite andb_false_r.
Qed.

Lemma valid_section_on st base sec :
  IsValidSection_loop (map item_of st ++ base) sec =
  if existsb (λ e, streq (fst (fst e)) sec) (entries st) then Ok true else IsValidSection_loop base sec.
Proof.
  induction st as [|[s [[k v]|]] st IH]; [done| |]; cbn [map item_of app IsValidSection_loop PtrSection PtrEntry read_str res_bind].
  - change (entries ((s, Some (k, v)) :: st)) with ((s, k, v) :: entries st).
    cbn [existsb fst snd]. rewrite bool_decide_eq_false_2 by done. cbn [negb].
    rewrite andb_true_r. by destruct (streq s sec).
  - change (entries ((s, None) :: st)) with (entries st).
    rewrite bool_decide_eq_true_2 by done. cbn [negb]. by rewrite andb_false_r.
Qed.

Lemma get_string_lookup st coms sec key :
  GetStringFromDataFile (Some {| SectionHead := map item_of st; CommentHead := coms |}) sec key =
  Ok (match lookup_in (entries st) sec key with Some v => (true, Live v) | None => (false, Null) end).
Proof.
  unfold GetStringFromDataFile. cbn [SectionHead]. rewrite <- (app_nil_r (map item_of st)), get_string_on.
  by destruct (lookup_in _ _ _).
Qed.

Lemma valid_section_lookup st coms sec :
  IsValidSection (Some {| SectionHead := map item_of st; CommentHead := coms |}) (Some sec) =
  Ok (existsb (λ e, streq (fst (fst e)) sec) (entries st)).
Proof.
  unfold IsValidSection. cbn [SectionHead]. rewrite <- (app_nil_r (map item_of st)), valid_section_on. by destruct (existsb _ _).
Qed.

Lemma existsb_reverse {A} (f : A → bool) l : existsb f (reverse l) = existsb f l.
Proof.
  apply eq_true_iff_eq. rewrite !existsb_exists. setoid_rewrite <- list_elem_of_In. by setoid_rewrite elem_of_reverse.
Qed.

(** *** Closing *)

(** The blocks a context is made of. *)
Inductive owns (ctx : INI_PARSING_LIB_CONTEXT) : block → Prop :=
| owns_context : owns ctx BContext
| owns_item n it : SectionHead ctx !! n = Some it → owns ctx (BItem n)
| owns_section n it s : SectionHead ctx !! n = Some it → PtrSection it = Live s → owns ctx (BSection n)
| owns_entry n it s : SectionHead ctx !! n = Some it → PtrEntry it = Live s → owns ctx (BEntry n)
| owns_value n it s : SectionHead ctx !! n = Some it → PtrValue it = Live s → owns ctx (BValue n)
| owns_comment n c : CommentHead ctx !! n = Some c → owns ctx (BComment n)
| owns_text n c : CommentHead ctx !! n = Some c → owns ctx (BText n).

Definition live (p : ptr) (b : block) : list block := match p with Live _ => [b] | _ => [] end.
Definition item_blocks (n : nat) (it : SECTION_ITEM) : list block :=
  live (PtrEntry it) (BEntry n) ++ live (PtrSection it) (BSection n) ++ live (PtrValue it) (BValue n) ++ [BItem n].
Definition comment_blocks (n : nat) (_ : bytes) : list block := [BText n; BComment n].

Definition unfreed (it : SECTION_ITEM) : Prop := PtrSection it ≠ Freed ∧ PtrEntry it ≠ Freed ∧ PtrValue it ≠ Freed.

(** The blocks of the nodes from the place [n] on. *)
Fixpoint blocks_from {A} (f : nat → A → list block) (n : nat) (l : list A) : list block :=
  match l with [] => [] | x :: l => f n x ++ blocks_from f (S n) l end.

Lemma elem_of_blocks {A} (f : nat → A → list block) n l b :
  b ∈ blocks_from f n l ↔ ∃ i x, l !! i = Some x ∧ b ∈ f (n + i)%nat x.
Proof.
  revert n. induction l as [|x l IH]; intros n; cbn [blocks_from].
  - split; [by intros ?%elem_of_nil|]. by intros (i & x & Hi & _).
  - rewrite elem_of_app, IH. split.
    + intros [Hb|(i & y & Hi & Hb)]; [exists 0%nat, x; by rewrite Nat.add_0_r|exists (S i), y].
      split; [done|]. by rewrite <- plus_n_Sm.
    + intros ([|i] & y & Hi & Hb); simpl in Hi.
      * injection Hi as ->. left. by rewrite Nat.add_0_r in Hb.
      * right. exists i, y. split; [done|]. by rewrite <- plus_n_Sm in Hb.
Qed.

Lemma NoDup_blocks {A} (f : nat → A → list block) n l :
  (∀ n x, NoDup (f n x)) → (∀ n m x y b, b ∈ f n x → b ∈ f m y → n = m) → NoDup (blocks_from f n l).
Proof.
  intros Hf Hplace. revert n. induction l as [|x l IH]; intros n; cbn [blocks_from]; [constructor|].
  apply NoDup_app. split; [apply Hf|]. split; [|apply IH]. intros b Hb (i & y & _ & Hb')%elem_of_blocks.
  specialize (Hplace _ _ _ _ _ Hb Hb'). lia.
Qed.

Definition context_blocks (ctx : INI_PARSING_LIB_CONTEXT) : list block :=
  blocks_from item_blocks 0 (SectionHead ctx) ++ blocks_from comment_blocks 0 (CommentHead ctx).

(** The place of a block in its list. *)
Definition place (b : block) : nat :=
  match b with BContext => 0 | BItem n | BSection n | BEntry n | BValue n | BComment n | BText n => n end.

Lemma elem_of_live b p c : b ∈ live p c ↔ b = c ∧ ∃ s, p = Live s.
Proof.
  destruct p as [|s|]; cbn [live]; rewrite ?list_elem_of_singleton, ?elem_of_nil; [naive_solver| |naive_solver].
  split; [by eauto|by intros [-> _]].
Qed.

Lemma item_blocks_spec n it b :
  b ∈ item_blocks n it ↔
  b = BItem n ∨ (b = BSection n ∧ ∃ s, PtrSection it = Live s) ∨ (b = BEntry n ∧ ∃ s, PtrEntry it = Live s) ∨
  (b = BValue n ∧ ∃ s, PtrValue it = Live s).
Proof.
  unfold item_blocks. rewrite !elem_of_app, !elem_of_live, list_elem_of_singleton. tauto.
Qed.

Lemma context_blocks_NoDup ctx : NoDup (context_blocks ctx).
Proof.
  apply NoDup_app. split; [|split].
  - apply NoDup_blocks.
    + intros n it. unfold item_blocks, live. destruct (PtrEntry it), (PtrSection it), (PtrValue it);
        apply (bool_decide_unpack _); simpl; repeat constructor; set_solver.
    + intros n m x y b Hx Hy. assert (∀ n x, b ∈ item_blocks n x → place b = n) as Hp; [|by rewrite <- (Hp _ _ Hx), <- (Hp _ _ Hy)].
      clear. intros n x. rewrite item_blocks_spec. naive_solver.
  - intros b (i & x & _ & Hb)%elem_of_blocks (i' & x' & _ & Hb')%elem_of_blocks.
    apply item_blocks_spec in Hb. set_unfold in Hb'. naive_solver.
  - apply NoDup_blocks.
    + intros n x. unfold comment_blocks. repeat constructor; set_solver.
    + intros n m x y b Hx Hy. unfold comment_blocks in *. set_unfold. naive_solver.
Qed.

Lemma context_blocks_owned ctx b : b ∈ context_blocks ctx ↔ owns ctx b ∧ b ≠ BContext.
Proof.
  unfold context_blocks. rewrite elem_of_app, !elem_of_blocks. setoid_rewrite item_blocks_spec. unfold comment_blocks. simpl. split.
  - intros [(i & it & Hi & Hb)|(i & c & Hi & Hb)].
    + destruct Hb as [->|[[-> [s Hs]]|[[-> [s Hs]]|[-> [s Hs]]]]]; (split; [by econstructor|done]).
    + set_unfold in Hb. destruct Hb as [->|[->|[]]]; (split; [by econstructor|done]).
  - intros [[] Hne]; [done|left; naive_solver..| |]; right; eexists _, _; (split; [done|set_solver]).
Qed.

(** Freeing blocks one after the other. *)
Lemma free_all bs freed : NoDup (freed ++ bs) → fold_res free bs freed = Ok (freed ++ bs).
Proof.
  revert freed. induction bs as [|b bs IH]; intros freed Hnd; cbn [fold_res]; [by rewrite app_nil_r|].
  unfold free at 1. rewrite bool_decide_eq_false_2; cbn [res_bind].
  - rewrite (IH (freed ++ [b])); by rewrite <- app_assoc.
  - apply NoDup_app in Hnd as (_ & Hnd & _). intros Hb. apply (Hnd b Hb). by left.
Qed.

Lemma free_str_fold p b freed : p ≠ Freed → free_str p b freed = fold_res free (live p b) freed.
Proof. destruct p as [|s|]; cbn [free_str live fold_res]; [done| |done]. by destruct (free b freed). Qed.

Lemma free_items_fold n items freed :
  Forall unfreed items → free_items n items freed = fold_res free (blocks_from item_blocks n items) freed.
Proof.
  intros Hu. revert n freed. induction Hu as [|it items (Hs & He & Hv) _ IH]; intros n freed; cbn [free_items blocks_from]; [done|].
  change (item_blocks n it) with (live (PtrEntry it) (BEntry n) ++ live (PtrSection it) (BSection n) ++ live (PtrValue it) (BValue n) ++ [BItem n]).
  rewrite <- !app_assoc, free_str_fold, !fold_res_app by done.
  destruct (fold_res free _ freed) as [f1|]; cbn [res_bind]; [|done].
  rewrite free_str_fold, !fold_res_app by done. destruct (fold_res free _ f1) as [f2|]; cbn [res_bind]; [|done].
  rewrite free_str_fold, !fold_res_app by done. destruct (fold_res free _ f2) as [f3|]; cbn [res_bind]; [|done].
  cbn [app fold_res]. destruct (free (BItem n) f3) as [f4|]; cbn [res_bind]; [apply IH|done].
Qed.

Lemma free_comments_fold n coms freed : free_comments n coms freed = fold_res free (blocks_from comment_blocks n coms) freed.
Proof.
  revert n freed. induction coms as [|c coms IH]; intros n freed; cbn [free_comments blocks_from comment_blocks app fold_res]; [done|].
  destruct (free (BText n) freed) as [f1|]; cbn [res_bind]; [|done]. destruct (free (BComment n) f1); cbn [res_bind]; [apply IH|done].
Qed.

(** Closing a context without freed strings. *)
Lemma close_unfreed ctx : Forall unfreed (SectionHead ctx) → CloseIniFile (Some ctx) = Ok (context_blocks ctx).
Proof.
  intros Hu. unfold CloseIniFile, FreeAllList, context_blocks. rewrite free_items_fold by done.
  pose proof (context_blocks_NoDup ctx) as Hnd. unfold context_blocks in Hnd.
  rewrite (free_all _ []) by (apply NoDup_app in Hnd; apply Hnd). cbn [res_bind app].
  rewrite free_comments_fold. by apply free_all.
Qed.

Lemma free_outcome b freed : (∃ freed', free b freed = Ok freed') ∨ free b freed = Stop Undefined.
Proof. unfold free. case_bool_decide; [by right|left; by eexists]. Qed.

Lemma free_str_outcome p b freed : (∃ freed', free_str p b freed = Ok freed') ∨ free_str p b freed = Stop Undefined.
Proof. destruct p; cbn [free_str]; [left; by eexists|apply free_outcome|by right]. Qed.

(** Closing one with an item whose strings are freed. *)
Lemma close_freed items bad base coms :
  PtrEntry bad = Freed → CloseIniFile (Some {| SectionHead := items ++ bad :: base; CommentHead := coms |}) = Stop Undefined.
Proof.
  intros Hbad. unfold CloseIniFile, FreeAllList. cbn [SectionHead].
  enough (∀ n freed, free_items n (items ++ bad :: base) freed = Stop Undefined) as -> by done.
  induction items as [|it items IH]; intros n freed; cbn [app free_items]; [by rewrite Hbad|].
  destruct (free_str_outcome (PtrEntry it) (BEntry n) freed) as [[f1 ->]| ->]; cbn [res_bind]; [|done].
  destruct (free_str_outcome (PtrSection it) (BSection n) f1) as [[f2 ->]| ->]; cbn [res_bind]; [|done].
  destruct (free_str_outcome (PtrValue it) (BValue n) f2) as [[f3 ->]| ->]; cbn [res_bind]; [|done].
  destruct (free_outcome (BItem n) f3) as [[f4 ->]| ->]; cbn [res_bind]; [|done]. apply IH.
Qed.

Lemma items_unfreed st : Forall unfreed (map item_of st).
Proof. apply Forall_fmap, Forall_forall. by intros [s [[k v]|]] _. Qed.

Lemma close_items st coms :
  let ctx := {| SectionHead := map item_of st; CommentHead := coms |} in CloseIniFile (Some ctx) = Ok (context_blocks ctx).
Proof. apply close_unfreed, items_unfreed. Qed.

Section files.
Context `{Libspdm}.

Lemma open_file f :
  wf_file f = true →
  ∃ st coms, OpenIniFile (Some (render_file f)) = Ok (Some {| SectionHead := map item_of st; CommentHead := coms |}) ∧
             entries st = reverse (file_entries None (src_lines f)).
Proof.
  intros [Hw Hne]%andb_true_iff. rewrite OpenIniFile_lines by (by destruct (render_file f)).
  destruct (read_file_denotes f [] [] [] Hw) as (_ & coms & Hr); [constructor|by left|].
  change empty_context with {| SectionHead := map item_of [] ++ []; CommentHead := [] |}. rewrite Hr. cbn [res_bind].
  rewrite app_nil_r. eexists _, _. split; [done|]. by rewrite entries_denote, app_nil_r.
Qed.

(** C20: opening any file of the grammar succeeds; a look-up then finds exactly the last
    entry of that name in that section (in particular no entry of the file is lost,
    and blanks, comments, line breaks and ignored lines make no
    difference); a section is valid exactly when it has an entry; and
    closing the file frees every string and every node of the two lists, each of them
    once and nothing else: of the blocks of the context only its own is left. *)
Theorem ini_last_definition_wins f :
  wf_file f = true →
  ∃ ctx, OpenIniFile (Some (render_file f)) = Ok (Some ctx) ∧
    (∀ sec key, GetStringFromDataFile (Some ctx) sec key =
       Ok (match ini_lookup f sec key with Some v => (true, Live v) | None => (false, Null) end)) ∧
    (∀ sec, IsValidSection (Some ctx) (Some sec) =
       Ok (existsb (λ e, streq (fst (fst e)) sec) (file_entries None (src_lines f)))) ∧
    ∃ freed, CloseIniFile (Some ctx) = Ok freed ∧ NoDup freed ∧ ∀ b, b ∈ freed ↔ owns ctx b ∧ b ≠ BContext.
Proof.
  intros Hw. destruct (open_file f Hw) as (st & coms & Ho & He). eexists. split; [exact Ho|].
  split_and!; [|intros sec|eexists; split_and!; [apply close_items|apply context_blocks_NoDup|apply context_blocks_owned]].
  - intros sec key. rewrite get_string_lookup, He. done.
  - by rewrite valid_section_lookup, He, existsb_reverse.
Qed.

Lemma file_entries_values cur ls e :
  forallb wf_line ls = true → e ∈ file_entries cur ls → name_ok (snd e) = true.
Proof.
  revert cur. induction ls as [|l ls IH]; intros cur; simpl; [by intros _ ?%elem_of_nil|].
  intros [Hl Hls]%andb_true_iff.
  destruct l as [| |? ? name ? ?|ws1 k ws2 ws3 value ws4 com|]; try by apply IH.
  destruct cur; [|by apply IH]. rewrite elem_of_cons. intros [->|He]; [|by eapply IH].
  simpl in *. by inv_ok.
Qed.

Lemma ini_lookup_value f sec key v : wf_file f = true → ini_lookup f sec key = Some v → v ≠ [].
Proof.
  unfold wf_file. intros [Hw _]%andb_true_iff. unfold ini_lookup, lookup_in.
  intros (e & He & ->)%fmap_Some. apply List.find_some in He as [He _].
  apply list_elem_of_In, elem_of_reverse, (file_entries_values _ _ _ Hw) in He.
  by apply name_ok_plain in He as (? & _).
Qed.

(** The numeric look-ups of a file of the grammar: a decimal look-up gives the value of
    the last definition when that is a decimal number up to [UINT32_MAX], a hexadecimal look-up
    when it is "0x" and hexadecimal digits up to [UINT32_MAX]; otherwise, and for a missing
    entry, they fail and leave the caller's variable alone. *)
Theorem ini_numbers f :
  wf_file f = true →
  ∃ ctx, OpenIniFile (Some (render_file f)) = Ok (Some ctx) ∧ ∀ sec key,
    GetDecimalUint32FromDataFile (Some ctx) sec key =
      Ok (v ← ini_lookup f sec key; if token_ok v then Some (digits_value 10 v) else None) ∧
    GetHexUint32FromDataFile (Some ctx) sec key = Ok (v ← ini_lookup f sec key; hex_value UINT32_MAX v).
Proof.
  intros Hw. destruct (open_file f Hw) as (st & coms & Ho & He). eexists. split; [exact Ho|]. intros sec key.
  pose proof (get_string_lookup st coms sec key) as Hg. rewrite He in Hg. fold (ini_lookup f sec key) in Hg.
  destruct (ini_lookup f sec key) as [v|] eqn:Hv.
  - split; [apply GetDecimal_live|apply GetHex_live]; try done. by eapply ini_lookup_value.
  - by eapply GetNumber_missing.
Qed.

(** A section head comes before any entry can be stored. *)
Definition has_section (ls : list src_line) : bool :=
  existsb (λ l, match l with SSection _ _ _ _ _ => true | _ => false end) ls.

Lemma denote_nonempty ls st :
  has_section ls || nonempty st = true → nonempty (fold_left (λ st l, denote_line l st) ls st) = true.
Proof.
  revert st. induction ls as [|l ls IH]; intros st; simpl; [by destruct st|].
  intros Hh. apply IH. destruct l, st as [|[s o] st]; simpl in *; rewrite ?orb_true_r in *; done.
Qed.

(** *** An entry whose value is not acceptable *)

Definition bad_line (ws1 key ws2 after : bytes) : bytes := ws1 ++ key ++ ws2 ++ char "=" :: after.

(** Nothing, or nothing acceptable, between the "=" and the comment. *)
Definition bad_value (after : bytes) : bool :=
  let value := ProfileTrim (before_comment (rtrim after)) in negb (nonempty value && IsValidValue value).

(** What follows the line: the end of the file, or a break and more lines. *)
Definition continued (rest : option (eol * src_file)) : bytes :=
  match rest with None => [] | Some (e, f) => eol_bytes e ++ render_file f end.
Definition continued_lines (rest : option (eol * src_file)) : list src_line :=
  match rest with None => [] | Some (_, f) => src_lines f end.

Lemma bad_line_trim ws1 key ws2 after :
  Forall (λ x, is_blank x = true) ws1 → name_ok key = true →
  ∃ c l, ProfileTrim (bad_line ws1 key ws2 after) = c :: l ∧ plain c = true ∧ c :: l = key ++ ws2 ++ char "=" :: rtrim after.
Proof.
  intros H1 Hk. apply name_ok_plain in Hk as (Hne & _ & Hp). destruct key as [|c key]; [done|].
  apply Forall_cons in Hp as [Hc _]. exists c, (key ++ ws2 ++ char "=" :: rtrim after). split; [|done].
  unfold bad_line. simpl. rewrite ProfileTrim_front by (done || by apply plain_spec in Hc as (? & _)). f_equal.
  rewrite (app_assoc key), rtrim_stop by done. by rewrite <- app_assoc.
Qed.

Lemma bad_line_read ws1 key ws2 after sec o base coms :
  Forall (λ x, is_blank x = true) ws1 → Forall (λ x, is_blank x = true) ws2 → name_ok key = true → bad_value after = true →
  Forall (λ c, plain c = true) sec →
  do_line (bad_line ws1 key ws2 after) {| SectionHead := item_of (sec, o) :: base; CommentHead := coms |} =
  Ok {| SectionHead := failed_item sec :: item_of (sec, o) :: base; CommentHead := coms |}.
Proof.
  intros H1 H2 Hk Hbad Hs. unfold do_line. destruct (bad_line_trim ws1 key ws2 after H1 Hk) as (c & l & -> & Hc & Hl).
  rewrite process_entry, Hl by done. cbn [SectionHead CommentHead]. rewrite ProfileGetEntry_entry by done. cbv zeta.
  by rewrite (proj1 (negb_true_iff _) Hbad).
Qed.

(** An entry under an item whose section name is freed reads it. *)
Lemma entry_under_failed ws1 key ws2 ws3 value ws4 com sec base coms :
  wf_line (SEntry ws1 key ws2 ws3 value ws4 com) = true →
  do_line (render_line (SEntry ws1 key ws2 ws3 value ws4 com)) {| SectionHead := failed_item sec :: base; CommentHead := coms |} =
  Stop Undefined.
Proof.
  intros Hw. simpl in Hw. split_wf. unfold do_line. cbn [render_line].
  destruct (bad_line_trim ws1 key ws2 (ws3 ++ value ++ ws4 ++ com)) as (c & l & Ht & Hc & Hl); [done..|].
  unfold bad_line in Ht. rewrite Ht, process_entry, Hl by done. cbn [SectionHead]. unfold ProfileGetEntry.
  pose proof (name_ok_plain key ltac:(done)) as (Hne & Hv & Hp). rewrite span_key by done.
  pose proof (ProfileTrim_name [] key ws2) as Hn. simpl in Hn. rewrite Hn, Hv by done.
  replace (nonempty (key ++ ws2)) with true by (by destruct key). by destruct key.
Qed.

Lemma file_under_failed f sec base coms :
  forallb wf_line (src_lines f) = true → entry_before_section (src_lines f) = true →
  fold_res do_line (lines (render_file f)) {| SectionHead := failed_item sec :: base; CommentHead := coms |} = Stop Undefined.
Proof.
  destruct f as [ls l]. unfold src_lines, render_file. cbn [body last_line]. fold (render_body ls). intros Hw He.
  assert (Hlast : ∀ l ls coms, wf_line l = true → entry_before_section (l :: ls) = true →
    do_line (render_line l) {| SectionHead := failed_item sec :: base; CommentHead := coms |} = Stop Undefined ∨
    entry_before_section ls = true ∧ ∃ coms', do_line (render_line l) {| SectionHead := failed_item sec :: base; CommentHead := coms |}
      = Ok {| SectionHead := failed_item sec :: base; CommentHead := coms' |}).
  { clear. intros l ls coms Hw He. destruct (is_entry l) eqn:El.
    - left. destruct l; try done. by apply entry_under_failed.
    - right. destruct (do_line_denotes l [] (failed_item sec :: base) coms Hw) as (coms' & Hd & _); [constructor|by rewrite El|].
      split; [by destruct l|]. exists coms'. destruct l; try done; exact Hd. }
  revert coms. induction ls as [|[l' e] ls IH]; intros coms; cbn [map fst app forallb] in *.
  - rewrite andb_true_r in Hw. unfold render_body. cbn [map concat app]. rewrite lines_unbroken by (by apply wf_line_unbroken).
    cbn [fold_res]. by destruct (Hlast l [] coms Hw He) as [->|[? _]].
  - apply andb_true_iff in Hw as [Hl Hls]. unfold render_body. cbn [map concat fst snd].
    rewrite <- app_assoc, lines_eol by (by apply wf_line_unbroken).
    destruct (Hlast l' _ coms Hl He) as [->|[He' [coms' ->]]]; cbn [res_bind]; [done|]. by apply IH.
Qed.

(** C22: one entry of a section, wherever it is in a file that is otherwise of the grammar, whose value is missing or not
    acceptable is not reported, but the reader keeps an item whose strings it has freed.  If another
    entry follows before the next section, the reader copies its freed section name while
    it opens the file.  Otherwise the file opens; then the look-ups that are answered by the sections after it
    succeed, every other look-up of an entry or of a section reads freed memory, and closing the
    file frees the strings a second time. *)
Theorem bad_value_poisons_context ls ws1 key ws2 after rest :
  forallb wf_line (map fst ls) = true → has_section (map fst ls) = true →
  forallb is_sep ws1 = true → forallb is_sep ws2 = true → name_ok key = true → unbroken_b after = true → bad_value after = true →
  forallb wf_line (continued_lines rest) = true →
  let newer := file_entries None (continued_lines rest) in
  let opened := OpenIniFile (Some (render_body ls ++ bad_line ws1 key ws2 after ++ continued rest)) in
  if entry_before_section (continued_lines rest) then opened = Stop Undefined
  else ∃ ctx, opened = Ok (Some ctx) ∧
    (∀ sec k, GetStringFromDataFile (Some ctx) sec k =
       match lookup_in (reverse newer) sec k with Some v => Ok (true, Live v) | None => Stop Undefined end) ∧
    (∀ sec, IsValidSection (Some ctx) (Some sec) =
       if existsb (λ e, streq (fst (fst e)) sec) newer then Ok true else Stop Undefined) ∧
    CloseIniFile (Some ctx) = Stop Undefined.
Proof.
  intros Hls Hsec H1 H2 Hk Hu Hbad Hrest. cbv zeta.
  rewrite OpenIniFile_lines by (by destruct (render_body ls), ws1, key).
  change empty_context with {| SectionHead := map item_of [] ++ []; CommentHead := [] |}.
  destruct (read_body_denotes ls (bad_line ws1 key ws2 after ++ continued rest) [] [] [] Hls) as (Hst & coms & ->);
    [constructor|by left|].
  pose proof (denote_nonempty (map fst ls) []) as Hne. rewrite Hsec in Hne. specialize (Hne eq_refl).
  destruct (fold_left _ (map fst ls) []) as [|[sec o] st]; [done|]. clear Hne. apply Forall_cons in Hst as [Hsp _].
  rewrite app_nil_r. cbn [map].
  pose proof (bad_line_read ws1 key ws2 after sec o (map item_of st) coms (sep_blanks _ H1) (sep_blanks _ H2) Hk Hbad Hsp) as Hread.
  assert (Hub : unbroken (bad_line ws1 key ws2 after)).
  { unfold bad_line. repeat apply Forall_app_2; [by apply sep_unbroken'|by apply name_unbroken|by apply sep_unbroken'|].
    constructor; [done|by apply unbroken_b_spec]. }
  destruct rest as [[e f]|]; cbn [continued continued_lines] in *.
  - rewrite app_assoc, lines_eol, Hread by done. cbn [res_bind].
    destruct (entry_before_section (src_lines f)) eqn:Hf; [by rewrite file_under_failed|].
    destruct (read_file_denotes f [] (failed_item sec :: item_of (sec, o) :: map item_of st) coms Hrest) as (_ & coms' & Hr);
      [constructor|by right|]. cbn [map app] in Hr. rewrite Hr. cbn [res_bind]. eexists. split; [done|].
    split_and!; [intros s k|intros s|by apply close_freed].
    + unfold GetStringFromDataFile. cbn [SectionHead]. by rewrite get_string_on, entries_denote, app_nil_r.
    + unfold IsValidSection. cbn [SectionHead]. by rewrite valid_section_on, entries_denote, app_nil_r, existsb_reverse.
  - rewrite app_nil_r, lines_unbroken by done. cbn [fold_res]. rewrite Hread. cbn [res_bind].
    eexists. split; [done|]. by split_and!.
Qed.

End files.

(** ** Witnesses *)

Definition example_file : src_file :=
  {| body := [(SComment [] (char "#") (bs " ports"), LF);
              (SSection [] (bs " ") (bs "Ports") [] (bs "  ; all ports"), CRLF);
              (SEntry (bs "  ") (bs "rootport_1") (bs " ") (bs " ") (bs "0000:0a:01.0") (bs " ") (bs "# first"), CR);
              (SIgnored (bs "no equals sign here"), LF);
              (SBlank [], LF)];
     last_line := SEntry [] (bs "rootport_1") [] [] (bs "0000:2a:01.0") [] [] |}.

Lemma ini_last_definition_wins_witness :
  ∃ ctx, OpenIniFile (Some (render_file example_file)) = Ok (Some ctx) ∧
    GetStringFromDataFile (Some ctx) (bs "Ports") (bs "rootport_1") = Ok (true, Live (bs "0000:2a:01.0")).
Proof.
  destruct (ini_last_definition_wins example_file ltac:(reflexivity)) as (ctx & Ho & Hg & _).
  exists ctx. split; [exact Ho|]. rewrite Hg. reflexivity.
Defined.

Lemma ini_numbers_witness :
  let f := {| body := [(SSection [] [] (bs "Topology_1") [] [], LF);
                       (SEntry [] (bs "enabled") [] [] (bs "1") [] [], LF)];
              last_line := SEntry [] (bs "stream_id") [] [] (bs "0x1f") [] [] |} in
  ∃ ctx, OpenIniFile (Some (render_file f)) = Ok (Some ctx) ∧
    GetDecimalUint32FromDataFile (Some ctx) (bs "Topology_1") (bs "enabled") = Ok (Some 1) ∧
    GetHexUint32FromDataFile (Some ctx) (bs "Topology_1") (bs "stream_id") = Ok (Some 31).
Proof.
  intros f. destruct (ini_numbers f ltac:(reflexivity)) as (ctx & Ho & Hg).
  exists ctx. split; [exact Ho|]. split.
  - destruct (Hg (bs "Topology_1") (bs "enabled")) as [-> _]. reflexivity.
  - destruct (Hg (bs "Topology_1") (bs "stream_id")) as [_ ->]. reflexivity.
Defined.

(** A bad value in the middle of a file: the section after it is found, the one it is in is not; and with a second
    entry behind the bad one the file does not open. *)
Definition poisoned_rest : option (eol * src_file) :=
  Some (LF, {| body := [(SSection [] [] (bs "Ports") [] [], LF)]; last_line := SEntry [] (bs "rootport_1") [] [] (bs "1.0") [] [] |}).

Lemma bad_value_poisons_context_witness :
  (∃ ctx, OpenIniFile (Some (bs "[Main]" ++ [0x0a] ++ bs "pci_log= a b" ++ continued poisoned_rest)) = Ok (Some ctx) ∧
    GetStringFromDataFile (Some ctx) (bs "Ports") (bs "rootport_1") = Ok (true, Live (bs "1.0")) ∧
    GetStringFromDataFile (Some ctx) (bs "Main") (bs "pci_log") = Stop Undefined) ∧
  OpenIniFile (Some (bs "[Main]" ++ [0x0a] ++ bs "pci_log= a b" ++ [0x0a] ++ bs "debug_level=warn")) = Stop Undefined.
Proof.
  split.
  - destruct (bad_value_poisons_context [(SSection [] [] (bs "Main") [] [], LF)] [] (bs "pci_log") [] (bs " a b") poisoned_rest)
      as (ctx & Ho & Hg & _); try reflexivity.
    exists ctx. split; [exact Ho|]. split; rewrite Hg; reflexivity.
  - exact (bad_value_poisons_context [(SSection [] [] (bs "Main") [] [], LF)] [] (bs "pci_log") [] (bs " a b")
      (Some (LF, {| body := []; last_line := SEntry [] (bs "debug_level") [] [] (bs "warn") [] [] |}))
      eq_refl eq_refl eq_refl eq_refl eq_refl eq_refl eq_refl eq_refl).
Defined.

End IniSpec.
