(* ===== verification/Results.v ===== *)
(** * Test results (library/helperlib/teeio_common.c, result part of ide_test.c)

    The results of a run are a tree: suites, configurations, groups, cases,
    assertions.  The code's global pointers [g_current_config_result],
    [g_current_group_result] and [g_current_case_result] are paths into it.
    Counters are [int]s; they are modelled without overflow (2^31 assertions).
    [malloc] succeeds. *)
From Stdlib Require Import ZArith Lia Ascii String.
From stdpp Require Import prelude.
From S2P Require Import Prelude Utils IniFile.

Open Scope Z_scope.
Open Scope teeio_scope.

Module Results.

(** ** Data *)

Inductive teeio_test_result_t :=
  TEEIO_TEST_RESULT_NOT_TESTED | TEEIO_TEST_RESULT_PASS | TEEIO_TEST_RESULT_FAILED.

#[export] Instance result_eq_dec : EqDecision teeio_test_result_t.
Proof. solve_decision. Defined.

Inductive ide_common_test_case_assertion_type_t :=
  IDE_COMMON_TEST_CASE_ASSERTION_TYPE_NA
| IDE_COMMON_TEST_CASE_ASSERTION_TYPE_TEST
| IDE_COMMON_TEST_CASE_ASSERTION_TYPE_SEPARATOR.

#[export] Instance assertion_type_eq_dec : EqDecision ide_common_test_case_assertion_type_t.
Proof. solve_decision. Defined.

Inductive teeio_test_config_func_t :=
  TEEIO_TEST_CONFIG_FUNC_SUPPORT | TEEIO_TEST_CONFIG_FUNC_ENABLE
| TEEIO_TEST_CONFIG_FUNC_DISABLE | TEEIO_TEST_CONFIG_FUNC_CHECK.

Inductive teeio_test_group_func_t := TEEIO_TEST_GROUP_FUNC_SETUP | TEEIO_TEST_GROUP_FUNC_TEARDOWN.

Record ide_run_test_case_assertion_result_t := {
  ar_type : ide_common_test_case_assertion_type_t;
  ar_class_id : Z; ar_case_id : Z; ar_assertion_id : Z;
  ar_result : teeio_test_result_t;
  ar_extra_data : bytes
}.

Record ide_run_test_config_item_result_t := {
  config_item_id : Z;
  results : list teeio_test_result_t  (* TEEIO_TEST_CONFIG_FUNC_MAX cells *)
}.

Record ide_run_test_case_result_t := {
  case_class_name : bytes; case_name : bytes;
  class_id : Z; case_id : Z;
  case_passed : Z; case_failed : Z;
  config_item_result : list ide_run_test_config_item_result_t;
  assertion_result : list ide_run_test_case_assertion_result_t
}.

Record teeio_test_group_func_result_t := { func_result : teeio_test_result_t; func_extra_data : bytes }.

Record ide_run_test_group_result_t := {
  group_name : bytes;
  group_passed : Z; group_failed : Z;
  func_results : list teeio_test_group_func_result_t;  (* TEEIO_TEST_GROUP_FUNC_MAX cells *)
  case_result : list ide_run_test_case_result_t
}.

Record ide_run_test_config_result_t := {
  config_name : bytes; config_id : Z;
  config_passed : Z; config_failed : Z;
  group_result : list ide_run_test_group_result_t
}.

(** The trees of the suites ([suite_context->result]) and the three global pointers. *)
Record state := {
  suites : list (list ide_run_test_config_result_t);
  g_current_config_result : option (nat * nat);
  g_current_group_result : option (nat * nat * nat);
  g_current_case_result : option (nat * nat * nat * nat)
}.

(** ** Access through the pointers *)

Definition get_config (p : nat * nat) (st : state) : option ide_run_test_config_result_t :=
  let '(s, c) := p in cs ← suites st !! s; cs !! c.

Definition get_group (p : nat * nat * nat) (st : state) : option ide_run_test_group_result_t :=
  let '(q, g) := p in cr ← get_config q st; group_result cr !! g.

Definition get_case (p : nat * nat * nat * nat) (st : state) : option ide_run_test_case_result_t :=
  let '(q, k) := p in gr ← get_group q st; case_result gr !! k.

Definition with_suites (f : list (list ide_run_test_config_result_t) → list (list ide_run_test_config_result_t))
    (st : state) : state :=
  {| suites := f (suites st); g_current_config_result := g_current_config_result st;
     g_current_group_result := g_current_group_result st; g_current_case_result := g_current_case_result st |}.

Definition on_config (p : nat * nat) (f : ide_run_test_config_result_t → ide_run_test_config_result_t) (st : state) : state :=
  let '(s, c) := p in with_suites (alter (alter f c) s) st.

Definition on_group (p : nat * nat * nat) (f : ide_run_test_group_result_t → ide_run_test_group_result_t) (st : state) : state :=
  let '(q, g) := p in
  on_config q (λ cr, {| config_name := config_name cr; config_id := config_id cr;
                        config_passed := config_passed cr; config_failed := config_failed cr;
                        group_result := alter f g (group_result cr) |}) st.

Definition on_case (p : nat * nat * nat * nat) (f : ide_run_test_case_result_t → ide_run_test_case_result_t) (st : state) : state :=
  let '(q, k) := p in
  on_group q (λ gr, {| group_name := group_name gr; group_passed := group_passed gr; group_failed := group_failed gr;
                       func_results := func_results gr; case_result := alter f k (case_result gr) |}) st.

Definition append_assertion (ar : ide_run_test_case_assertion_result_t) (cr : ide_run_test_case_result_t) :=
  {| case_class_name := case_class_name cr; case_name := case_name cr; class_id := class_id cr; case_id := case_id cr;
     case_passed := case_passed cr; case_failed := case_failed cr; config_item_result := config_item_result cr;
     assertion_result := assertion_result cr ++ [ar] |}.

Definition set_config_items (l : list ide_run_test_config_item_result_t) (cr : ide_run_test_case_result_t) :=
  {| case_class_name := case_class_name cr; case_name := case_name cr; class_id := class_id cr; case_id := case_id cr;
     case_passed := case_passed cr; case_failed := case_failed cr; config_item_result := l;
     assertion_result := assertion_result cr |}.

(** [total_passed++] or [total_failed++] of the three records. *)
Definition count_case (r : teeio_test_result_t) (cr : ide_run_test_case_result_t) :=
  {| case_class_name := case_class_name cr; case_name := case_name cr; class_id := class_id cr; case_id := case_id cr;
     case_passed := case_passed cr + (if decide (r = TEEIO_TEST_RESULT_PASS) then 1 else 0);
     case_failed := case_failed cr + (if decide (r = TEEIO_TEST_RESULT_FAILED) then 1 else 0);
     config_item_result := config_item_result cr; assertion_result := assertion_result cr |}.

Definition count_group (r : teeio_test_result_t) (gr : ide_run_test_group_result_t) :=
  {| group_name := group_name gr;
     group_passed := group_passed gr + (if decide (r = TEEIO_TEST_RESULT_PASS) then 1 else 0);
     group_failed := group_failed gr + (if decide (r = TEEIO_TEST_RESULT_FAILED) then 1 else 0);
     func_results := func_results gr; case_result := case_result gr |}.

Definition count_config (r : teeio_test_result_t) (cr : ide_run_test_config_result_t) :=
  {| config_name := config_name cr; config_id := config_id cr;
     config_passed := config_passed cr + (if decide (r = TEEIO_TEST_RESULT_PASS) then 1 else 0);
     config_failed := config_failed cr + (if decide (r = TEEIO_TEST_RESULT_FAILED) then 1 else 0);
     group_result := group_result cr |}.

(** ** The operations of teeio_common.c *)

Definition teeio_test_case_result (cls id : Z) (st : state) : res teeio_test_result_t :=
  match g_current_case_result st with
  | None => Ok TEEIO_TEST_RESULT_NOT_TESTED
  | Some p =>
      let* cr := deref (get_case p st) in
      if negb (class_id cr =? cls) || negb (case_id cr =? id) then
        let* _ := TEEIO_ASSERT false in Ok TEEIO_TEST_RESULT_NOT_TESTED
      else
        let '(pass, failed) := fold_left (λ '(pass, failed) a,
          if decide (ar_type a = IDE_COMMON_TEST_CASE_ASSERTION_TYPE_TEST) then
            if decide (ar_result a = TEEIO_TEST_RESULT_PASS) then (pass + 1, failed)
            else if decide (ar_result a = TEEIO_TEST_RESULT_FAILED) then (pass, failed + 1)
            else (pass, failed)
          else (pass, failed)) (assertion_result cr) (0, 0) in
        Ok (if 0 <? failed then TEEIO_TEST_RESULT_FAILED
            else if (0 <? pass) && (failed =? 0) then TEEIO_TEST_RESULT_PASS
            else TEEIO_TEST_RESULT_NOT_TESTED)
  end.

(** [vsnprintf] into [extra_data[MAX_LINE_LENGTH]]; the message is the
    formatted text, [None] when the format is null. *)
Definition vsnprintf_line (message : bytes) : bytes := take (Z.to_nat (Ini.MAX_LINE_LENGTH - 1)) message.

Definition teeio_record_assertion_result (cls id assertion_id : Z)
    (assertion_type : ide_common_test_case_assertion_type_t) (result : teeio_test_result_t)
    (message : option bytes) (st : state) : res (bool * state) :=
  match g_current_case_result st with
  | None => let* _ := TEEIO_ASSERT false in Ok (false, st)
  | Some p =>
      let* cr := deref (get_case p st) in
      if negb (class_id cr =? cls) || negb (case_id cr =? id) then
        let* _ := TEEIO_ASSERT false in Ok (false, st)
      else
        let ar := {| ar_type := assertion_type; ar_class_id := cls; ar_case_id := id;
                     ar_assertion_id := assertion_id; ar_result := result;
                     ar_extra_data := from_option vsnprintf_line [] message |} in
        let st := on_case p (append_assertion ar) st in
        match result with
        | TEEIO_TEST_RESULT_NOT_TESTED => Ok (true, st)
        | _ =>
            let* pc := deref (g_current_config_result st) in
            let* _ := deref (get_config pc st) in
            let st := on_config pc (count_config result) st in
            let* pg := deref (g_current_group_result st) in
            let* _ := deref (get_group pg st) in
            let st := on_group pg (count_group result) st in
            let st := on_case p (count_case result) st in
            Ok (true, st)
        end
  end.

Definition func_index (f : teeio_test_config_func_t) : nat :=
  match f with
  | TEEIO_TEST_CONFIG_FUNC_SUPPORT => 0 | TEEIO_TEST_CONFIG_FUNC_ENABLE => 1
  | TEEIO_TEST_CONFIG_FUNC_DISABLE => 2 | TEEIO_TEST_CONFIG_FUNC_CHECK => 3
  end.

Definition set_item_result (f : teeio_test_config_func_t) (r : teeio_test_result_t)
    (it : ide_run_test_config_item_result_t) :=
  {| config_item_id := config_item_id it; results := <[func_index f := r]> (results it) |}.

(** Updates the first item of that id, or appends a fresh one. *)
Fixpoint record_item (id : Z) (f : teeio_test_config_func_t) (r : teeio_test_result_t)
    (l : list ide_run_test_config_item_result_t) : list ide_run_test_config_item_result_t :=
  match l with
  | [] => [set_item_result f r {| config_item_id := id; results := replicate 4 TEEIO_TEST_RESULT_NOT_TESTED |}]
  | it :: l => if config_item_id it =? id then set_item_result f r it :: l else it :: record_item id f r l
  end.

Definition teeio_record_config_item_result (id : Z) (func : teeio_test_config_func_t)
    (result : teeio_test_result_t) (st : state) : res (bool * state) :=
  match g_current_case_result st with
  | None => Ok (false, st)
  | Some p =>
      let* cr := deref (get_case p st) in
      Ok (true, on_case p (set_config_items (record_item id func result (config_item_result cr))) st)
  end.

Definition group_func_index (f : teeio_test_group_func_t) : nat :=
  match f with TEEIO_TEST_GROUP_FUNC_SETUP => 0 | TEEIO_TEST_GROUP_FUNC_TEARDOWN => 1 end.

Definition set_func_result (f : teeio_test_group_func_t) (r : teeio_test_result_t) (message : option bytes)
    (gr : ide_run_test_group_result_t) :=
  {| group_name := group_name gr; group_passed := group_passed gr; group_failed := group_failed gr;
     func_results := alter (λ fr, {| func_result := r;
                                     func_extra_data := from_option vsnprintf_line (func_extra_data fr) message |})
                           (group_func_index f) (func_results gr);
     case_result := case_result gr |}.

(** The parameter is of the enumeration, so [func >= TEEIO_TEST_GROUP_FUNC_MAX] is false. *)
Definition teeio_record_group_result (func : teeio_test_group_func_t) (result : teeio_test_result_t)
    (message : option bytes) (st : state) : res (bool * state) :=
  match g_current_group_result st with
  | None => Ok (false, st)
  | Some p => let* _ := deref (get_group p st) in Ok (true, on_group p (set_func_result func result message) st)
  end.

(** ** The result tree of ide_test.c *)

(** [strncpy] into [name[MAX_NAME_LENGTH]] of a zeroed record, read back as
    a string: names are shorter than the field. *)
Definition alloc_run_test_case_result (pg : nat * nat * nat) (cname cclass : bytes) (cls id : Z) (st : state)
    : res (nat * nat * nat * nat * state) :=
  let* gr := deref (get_group pg st) in
  let cr := {| case_class_name := cclass; case_name := cname; class_id := cls; case_id := id;
               case_passed := 0; case_failed := 0; config_item_result := []; assertion_result := [] |} in
  Ok ((pg, length (case_result gr)),
      on_group pg (λ gr, {| group_name := group_name gr; group_passed := group_passed gr;
                            group_failed := group_failed gr; func_results := func_results gr;
                            case_result := case_result gr ++ [cr] |}) st).

Definition alloc_run_test_group_result (pc : nat * nat) (name : bytes) (st : state) : res (nat * nat * nat * state) :=
  let* cr := deref (get_config pc st) in
  let gr := {| group_name := name; group_passed := 0; group_failed := 0;
               func_results := replicate 2 {| func_result := TEEIO_TEST_RESULT_NOT_TESTED; func_extra_data := [] |};
               case_result := [] |} in
  Ok ((pc, length (group_result cr)),
      on_config pc (λ cr, {| config_name := config_name cr; config_id := config_id cr;
                             config_passed := config_passed cr; config_failed := config_failed cr;
                             group_result := group_result cr ++ [gr] |}) st).

(** The list of a suite is reached through its context. *)
Definition append_config_result (s : nat) (cr : ide_run_test_config_result_t) (st : state) : state :=
  with_suites (alter (λ cs, cs ++ [cr]) s) st.

Definition alloc_run_test_config_result (s : nat) (id : Z) (name : bytes) (st : state) : res (nat * nat * state) :=
  let* cs := deref (suites st !! s) in
  let cr := {| config_name := name; config_id := id; config_passed := 0; config_failed := 0; group_result := [] |} in
  Ok ((s, length cs), append_config_result s cr st).

(** The sums over the configurations of one suite. *)
Definition test_suite_cases_statics (cs : list ide_run_test_config_result_t) : Z * Z :=
  fold_left (λ '(passed, failed) cr, (passed + config_passed cr, failed + config_failed cr)) cs (0, 0).

(** The verdict [print_test_results] prints for a case. *)
Definition printed_case_result (cr : ide_run_test_case_result_t) : teeio_test_result_t :=
  if (case_failed cr =? 0) && (case_passed cr =? 0) then TEEIO_TEST_RESULT_NOT_TESTED
  else if (case_failed cr =? 0) && (0 <? case_passed cr) then TEEIO_TEST_RESULT_PASS
  else TEEIO_TEST_RESULT_FAILED.

Definition set_current_config (p : option (nat * nat)) (st : state) : state :=
  {| suites := suites st; g_current_config_result := p;
     g_current_group_result := g_current_group_result st; g_current_case_result := g_current_case_result st |}.
Definition set_current_group (p : option (nat * nat * nat)) (st : state) : state :=
  {| suites := suites st; g_current_config_result := g_current_config_result st;
     g_current_group_result := p; g_current_case_result := g_current_case_result st |}.
Definition set_current_case (p : option (nat * nat * nat * nat)) (st : state) : state :=
  {| suites := suites st; g_current_config_result := g_current_config_result st;
     g_current_group_result := g_current_group_result st; g_current_case_result := p |}.

(** ** The counters agree with the assertions *)

Definition count (r : teeio_test_result_t) (l : list ide_run_test_case_assertion_result_t) : Z :=
  Z.of_nat (length (filter (λ a, ar_result a = r) l)).

Fixpoint sumZ {A} (f : A → Z) (l : list A) : Z :=
  match l with [] => 0 | x :: l => f x + sumZ f l end.

Definition case_ok (cr : ide_run_test_case_result_t) : Prop :=
  case_passed cr = count TEEIO_TEST_RESULT_PASS (assertion_result cr) ∧
  case_failed cr = count TEEIO_TEST_RESULT_FAILED (assertion_result cr).

Definition group_ok (gr : ide_run_test_group_result_t) : Prop :=
  Forall case_ok (case_result gr) ∧
  group_passed gr = sumZ case_passed (case_result gr) ∧
  group_failed gr = sumZ case_failed (case_result gr).

Definition config_ok (cr : ide_run_test_config_result_t) : Prop :=
  Forall group_ok (group_result cr) ∧
  config_passed cr = sumZ group_passed (group_result cr) ∧
  config_failed cr = sumZ group_failed (group_result cr).

Definition counters_ok (st : state) : Prop := Forall (Forall config_ok) (suites st).

(** The pointers are null or point to existing records, each below the next. *)
Definition pointers_ok (st : state) : Prop :=
  match g_current_config_result st with
  | None => g_current_group_result st = None
  | Some pc => is_Some (get_config pc st) ∧
               match g_current_group_result st with Some pg => fst pg = pc | None => True end
  end ∧
  match g_current_group_result st with
  | None => g_current_case_result st = None
  | Some pg => is_Some (get_group pg st) ∧
               match g_current_case_result st with Some pk => fst pk = pg | None => True end
  end ∧
  match g_current_case_result st with
  | None => True
  | Some pk => is_Some (get_case pk st)
  end.

Definition wf (st : state) : Prop := counters_ok st ∧ pointers_ok st.

(** *** Sums and updates *)

Lemma sumZ_app {A} (f : A → Z) l k : sumZ f (l ++ k) = sumZ f l + sumZ f k.
Proof. induction l as [|x l IH]; simpl; [done|]. rewrite IH. lia. Qed.

Lemma sumZ_alter {A} (f : A → Z) (h : A → A) (l : list A) i d :
  (∀ x, l !! i = Some x → f (h x) = f x + d) → is_Some (l !! i) → sumZ f (alter h i l) = sumZ f l + d.
Proof.
  revert i. induction l as [|x l IH]; intros [|i] Hh [y Hi]; try discriminate; simpl.
  - rewrite (Hh x eq_refl). lia.
  - change (f x + sumZ f (alter h i l) = f x + sumZ f l + d). rewrite (IH i); eauto. lia.
Qed.

Lemma Forall_alter_ok {A} (P : A → Prop) (h : A → A) (l : list A) i :
  Forall P l → (∀ x, l !! i = Some x → P x → P (h x)) → Forall P (alter h i l).
Proof. intros Hl Hh. by apply Forall_alter. Qed.

Lemma on_config_twice p f g st : on_config p f (on_config p g st) = on_config p (f ∘ g) st.
Proof.
  destruct p as [s c]. unfold on_config, with_suites. simpl. f_equal.
  rewrite list_alter_alter_eq. apply (list_alter_ext _ _ _ _ s); [|done].
  intros x _. simpl. apply list_alter_alter_eq.
Qed.

Lemma on_config_ext p f g st :
  (∀ cr, get_config p st = Some cr → f cr = g cr) → on_config p f st = on_config p g st.
Proof.
  destruct p as [s c]. intros Hfg. unfold on_config, with_suites. f_equal.
  apply (list_alter_ext _ _ _ _ s); [|done]. intros cs Hs. apply (list_alter_ext _ _ _ _ c); [|done].
  intros cr Hc. apply Hfg. simpl. by rewrite Hs.
Qed.

Lemma get_config_on p q f st :
  get_config q (on_config p f st) = if decide (p = q) then f <$> get_config q st else get_config q st.
Proof.
  destruct p as [s c], q as [s' c']. unfold get_config, on_config, with_suites. simpl.
  rewrite list_lookup_alter. case_decide as Hs.
  - subst s'. destruct (suites st !! s) as [cs|]; simpl; [|by case_decide].
    rewrite list_lookup_alter. case_decide as Hc.
    + subst c'. by rewrite decide_True.
    + rewrite decide_False by congruence. done.
  - rewrite decide_False by congruence. done.
Qed.

Lemma counters_on_config p f st :
  counters_ok st → (∀ cr, get_config p st = Some cr → config_ok cr → config_ok (f cr)) →
  counters_ok (on_config p f st).
Proof.
  destruct p as [s c]. unfold counters_ok, on_config, with_suites. simpl. intros Hst Hf.
  apply Forall_alter_ok; [done|]. intros cs Hs Hcs. apply Forall_alter_ok; [done|].
  intros cr Hc Hcr. apply Hf; [|done]. by rewrite Hs.
Qed.

(** *** Updates that keep every record in place *)

Definition group_le (gr gr' : ide_run_test_group_result_t) : Prop :=
  (length (case_result gr) ≤ length (case_result gr'))%nat.

Definition config_le (cr cr' : ide_run_test_config_result_t) : Prop :=
  ∀ g gr, group_result cr !! g = Some gr → ∃ gr', group_result cr' !! g = Some gr' ∧ group_le gr gr'.

Definition same_pointers (st st' : state) : Prop :=
  g_current_config_result st' = g_current_config_result st ∧
  g_current_group_result st' = g_current_group_result st ∧
  g_current_case_result st' = g_current_case_result st.

(** Every record of [st] is still there in [st']. *)
Definition tree_le (st st' : state) : Prop :=
  ∀ p cr, get_config p st = Some cr → ∃ cr', get_config p st' = Some cr' ∧ config_le cr cr'.

Lemma config_le_refl cr : config_le cr cr.
Proof. intros g gr Hg. exists gr. split; [done|]. unfold group_le. lia. Qed.

Lemma config_le_trans a b c : config_le a b → config_le b c → config_le a c.
Proof.
  intros Hab Hbc g gr Hg. destruct (Hab g gr Hg) as (gr' & Hg' & Hl).
  destruct (Hbc g gr' Hg') as (gr'' & Hg'' & Hl'). exists gr''. split; [done|]. unfold group_le in *. lia.
Qed.

#[export] Instance tree_le_preorder : PreOrder tree_le.
Proof.
  split.
  - intros st p cr Hp. eauto using config_le_refl.
  - intros a b c Hab Hbc p cr Hp. destruct (Hab p cr Hp) as (cr' & Hp' & Hl).
    destruct (Hbc p cr' Hp') as (cr'' & Hp'' & Hl'). eauto using config_le_trans.
Qed.

#[export] Instance same_pointers_preorder : PreOrder same_pointers.
Proof.
  split; [done|]. unfold same_pointers. intros a b c (? & ? & ?) (? & ? & ?). split_and!; congruence.
Qed.

Lemma tree_le_on_config p f st :
  (∀ cr, get_config p st = Some cr → config_le cr (f cr)) → tree_le st (on_config p f st).
Proof.
  intros Hf q cr Hq. rewrite get_config_on. case_decide as E.
  - subst q. rewrite Hq. simpl. eauto.
  - eauto using config_le_refl.
Qed.

Lemma live_config st st' p : tree_le st st' → is_Some (get_config p st) → is_Some (get_config p st').
Proof. intros Hle [cr Hp]. destruct (Hle p cr Hp) as (cr' & Hp' & _). eauto. Qed.

Lemma live_group st st' p : tree_le st st' → is_Some (get_group p st) → is_Some (get_group p st').
Proof.
  destruct p as [q g]. intros Hle [gr Hg]. simpl in *.
  destruct (get_config q st) as [cr|] eqn:Hq; [|done]. simpl in Hg.
  destruct (Hle q cr Hq) as (cr' & -> & Hl). simpl. destruct (Hl g gr Hg) as (gr' & ? & _). eauto.
Qed.

Lemma live_case st st' p : tree_le st st' → is_Some (get_case p st) → is_Some (get_case p st').
Proof.
  destruct p as [[q g] k]. intros Hle [cr Hk]. simpl in *.
  destruct (get_config q st) as [co|] eqn:Hq; [|done]. simpl in Hk.
  destruct (group_result co !! g) as [gr|] eqn:Hg; [|done]. simpl in Hk.
  destruct (Hle q co Hq) as (co' & -> & Hl). simpl. destruct (Hl g gr Hg) as (gr' & -> & Hlen). simpl.
  apply lookup_lt_Some in Hk. apply lookup_lt_is_Some. unfold group_le in Hlen. lia.
Qed.

Lemma pointers_ok_le st st' : tree_le st st' → same_pointers st st' → pointers_ok st → pointers_ok st'.
Proof.
  unfold pointers_ok. intros Hle (-> & -> & ->) (H1 & H2 & H3).
  destruct (g_current_config_result st) as [pc|]; destruct (g_current_group_result st) as [pg|];
    destruct (g_current_case_result st) as [pk|]; intuition eauto using live_config, live_group, live_case.
Qed.

(** *** The updates the operations make *)

Lemma on_group_config p f st :
  on_group p f st = on_config (fst p)
    (λ cr, {| config_name := config_name cr; config_id := config_id cr; config_passed := config_passed cr;
              config_failed := config_failed cr; group_result := alter f (snd p) (group_result cr) |}) st.
Proof. by destruct p. Qed.

Lemma config_le_alter f g cr :
  (∀ gr, group_result cr !! g = Some gr → group_le gr (f gr)) →
  config_le cr {| config_name := config_name cr; config_id := config_id cr; config_passed := config_passed cr;
                  config_failed := config_failed cr; group_result := alter f g (group_result cr) |}.
Proof.
  intros Hf g' gr Hg. simpl. rewrite list_lookup_alter. case_decide as E.
  - subst g'. rewrite Hg. simpl. eauto.
  - exists gr. split; [done|]. unfold group_le. lia.
Qed.

Lemma tree_le_on_group p f st : (∀ gr, group_le gr (f gr)) → tree_le st (on_group p f st).
Proof.
  intros Hf. rewrite on_group_config. apply tree_le_on_config. intros cr _. apply config_le_alter. auto.
Qed.

Lemma tree_le_on_case p f st : tree_le st (on_case p f st).
Proof.
  destruct p as [q k]. unfold on_case. apply tree_le_on_group. intros gr. unfold group_le. simpl.
  by rewrite length_alter.
Qed.

Lemma same_pointers_on_config p f st : same_pointers st (on_config p f st).
Proof. by destruct p. Qed.
Lemma same_pointers_on_group p f st : same_pointers st (on_group p f st).
Proof. by destruct p as [[] ?]. Qed.
Lemma same_pointers_on_case p f st : same_pointers st (on_case p f st).
Proof. by destruct p as [[[] ?] ?]. Qed.

#[export] Hint Resolve tree_le_on_case same_pointers_on_config same_pointers_on_group same_pointers_on_case : teeio.

(** A record of the tree updated so that its counters grow by [dp] and [df]. *)
Lemma group_ok_alter f gr k dp df :
  group_ok gr → is_Some (case_result gr !! k) →
  (∀ cr, case_result gr !! k = Some cr → case_ok cr →
         case_ok (f cr) ∧ case_passed (f cr) = case_passed cr + dp ∧ case_failed (f cr) = case_failed cr + df) →
  group_ok {| group_name := group_name gr; group_passed := group_passed gr + dp; group_failed := group_failed gr + df;
              func_results := func_results gr; case_result := alter f k (case_result gr) |}.
Proof.
  intros (Hc & Hp & Hf) Hk Hu. assert (Hl : ∀ x, case_result gr !! k = Some x → case_ok x) by (intros; by eapply Forall_lookup_1).
  split_and!; simpl.
  - apply Forall_alter_ok; [done|]. intros x Hx Hok. by apply (Hu x Hx Hok).
  - rewrite Hp. symmetry. apply sumZ_alter; [|done]. intros x Hx. apply (Hu x Hx). eauto.
  - rewrite Hf. symmetry. apply sumZ_alter; [|done]. intros x Hx. apply (Hu x Hx). eauto.
Qed.

Lemma config_ok_alter f cr g dp df :
  config_ok cr → is_Some (group_result cr !! g) →
  (∀ gr, group_result cr !! g = Some gr → group_ok gr →
         group_ok (f gr) ∧ group_passed (f gr) = group_passed gr + dp ∧ group_failed (f gr) = group_failed gr + df) →
  config_ok {| config_name := config_name cr; config_id := config_id cr; config_passed := config_passed cr + dp;
               config_failed := config_failed cr + df; group_result := alter f g (group_result cr) |}.
Proof.
  intros (Hc & Hp & Hf) Hk Hu. assert (Hl : ∀ x, group_result cr !! g = Some x → group_ok x) by (intros; by eapply Forall_lookup_1).
  split_and!; simpl.
  - apply Forall_alter_ok; [done|]. intros x Hx Hok. by apply (Hu x Hx Hok).
  - rewrite Hp. symmetry. apply sumZ_alter; [|done]. intros x Hx. apply (Hu x Hx). eauto.
  - rewrite Hf. symmetry. apply sumZ_alter; [|done]. intros x Hx. apply (Hu x Hx). eauto.
Qed.

(** All that recording one assertion does, as one update of a configuration. *)
Definition passes (r : teeio_test_result_t) : Z := if decide (r = TEEIO_TEST_RESULT_PASS) then 1 else 0.
Definition fails (r : teeio_test_result_t) : Z := if decide (r = TEEIO_TEST_RESULT_FAILED) then 1 else 0.

Definition assert_case ar (cr : ide_run_test_case_result_t) :=
  count_case (ar_result ar) (append_assertion ar cr).
Definition assert_group ar k (gr : ide_run_test_group_result_t) :=
  {| group_name := group_name gr; group_passed := group_passed gr + passes (ar_result ar);
     group_failed := group_failed gr + fails (ar_result ar); func_results := func_results gr;
     case_result := alter (assert_case ar) k (case_result gr) |}.
Definition assert_config ar g k (cr : ide_run_test_config_result_t) :=
  {| config_name := config_name cr; config_id := config_id cr; config_passed := config_passed cr + passes (ar_result ar);
     config_failed := config_failed cr + fails (ar_result ar);
     group_result := alter (assert_group ar k) g (group_result cr) |}.

Lemma assert_case_ok ar cr :
  case_ok cr → case_ok (assert_case ar cr) ∧
               case_passed (assert_case ar cr) = case_passed cr + passes (ar_result ar) ∧
               case_failed (assert_case ar cr) = case_failed cr + fails (ar_result ar).
Proof.
  intros [Hp Hf]. split; [|done]. unfold case_ok, assert_case. simpl. unfold count.
  rewrite !filter_app, !length_app, Hp, Hf. unfold count.
  rewrite !filter_cons, !filter_nil. split; case_decide; simpl; lia.
Qed.

Lemma assert_config_ok ar g k cr gr :
  config_ok cr → group_result cr !! g = Some gr → is_Some (case_result gr !! k) →
  config_ok (assert_config ar g k cr).
Proof.
  intros Hcr Hg Hk. apply config_ok_alter; [done|eauto|]. intros gr' Hg' Hok.
  split; [|done]. apply group_ok_alter; [done|congruence|]. intros c _ Hc. by apply assert_case_ok.
Qed.

(** *** Recording an assertion *)

Lemma record_assertion_update cls id aid ty r msg st s c g k cr :
  g_current_case_result st = Some (s, c, g, k) → g_current_group_result st = Some (s, c, g) →
  g_current_config_result st = Some (s, c) → get_case (s, c, g, k) st = Some cr →
  class_id cr = cls → case_id cr = id →
  teeio_record_assertion_result cls id aid ty r msg st =
  Ok (true, on_config (s, c)
    (assert_config {| ar_type := ty; ar_class_id := cls; ar_case_id := id; ar_assertion_id := aid; ar_result := r;
                      ar_extra_data := from_option vsnprintf_line [] msg |} g k) st).
Proof.
  intros Hk Hg Hc Hcr <- <-. unfold teeio_record_assertion_result. rewrite Hk, Hcr. cbn [deref res_bind].
  rewrite !Z.eqb_refl. cbn [negb orb]. cbv zeta.
  set (ar := {| ar_type := ty; ar_class_id := class_id cr; ar_case_id := case_id cr; ar_assertion_id := aid;
                ar_result := r; ar_extra_data := from_option vsnprintf_line [] msg |}).
  assert (Hlive : ∀ st', tree_le st st' → (∃ x, get_config (s, c) st' = Some x) ∧ (∃ y, get_group (s, c, g) st' = Some y)).
  { intros st' Hle. split; [apply (live_config st)|apply (live_group st)]; try done;
      simpl in Hcr |- *; destruct (suites st !! s) as [cs|]; simpl in *; try done;
      destruct (cs !! c) as [co|]; simpl in *; try done. by destruct (group_result co !! g). }
  set (st1 := on_case (s, c, g, k) (append_assertion ar) st).
  assert (H1 : tree_le st st1) by apply tree_le_on_case.
  assert (Hcnt : on_case (s, c, g, k) (count_case r) (on_group (s, c, g) (count_group r) (on_config (s, c) (count_config r) st1))
                 = on_config (s, c) (assert_config ar g k) st).
  { unfold st1. unfold on_case. rewrite !on_group_config. simpl fst. simpl snd. rewrite !on_config_twice.
    apply on_config_ext. intros co _. unfold assert_config, count_config. simpl. f_equal.
    rewrite !list_alter_alter_eq. apply (list_alter_ext _ _ _ _ g); [|done]. intros gr _. simpl.
    unfold assert_group. simpl. f_equal. rewrite list_alter_alter_eq. done. }
  assert (P1 : g_current_config_result st1 = Some (s, c)) by done.
  assert (P2 : g_current_group_result (on_config (s, c) (count_config r) st1) = Some (s, c, g)) by done.
  assert (H2 : tree_le st (on_config (s, c) (count_config r) st1)).
  { transitivity st1; [done|]. apply tree_le_on_config. intros co _ g' gr' Hg'. exists gr'.
    split; [done|]. unfold group_le. lia. }
  destruct (decide (r = TEEIO_TEST_RESULT_NOT_TESTED)) as [->|Hr].
  - do 2 f_equal. rewrite <- Hcnt. unfold st1, on_case. rewrite !on_group_config. simpl fst. simpl snd.
    rewrite !on_config_twice. apply on_config_ext. intros co _. unfold count_config. simpl. rewrite !Z.add_0_r. f_equal.
    rewrite !list_alter_alter_eq. apply (list_alter_ext _ _ _ _ g); [|done]. intros gr _. simpl.
    rewrite !Z.add_0_r. f_equal. rewrite list_alter_alter_eq. apply (list_alter_ext _ _ _ _ k); [|done].
    intros x _. unfold count_case, append_assertion. simpl. by rewrite !Z.add_0_r.
  - assert (Hm : match r with TEEIO_TEST_RESULT_NOT_TESTED => Ok (true, st1)
                 | _ => let* pc := deref (g_current_config_result st1) in
                        let* _ := deref (get_config pc st1) in
                        let st := on_config pc (count_config r) st1 in
                        let* pg := deref (g_current_group_result st) in
                        let* _ := deref (get_group pg st) in
                        let st := on_group pg (count_group r) st in
                        let st := on_case (s, c, g, k) (count_case r) st in
                        Ok (true, st) end = Ok (true, on_config (s, c) (assert_config ar g k) st)); [|exact Hm].
    rewrite <- Hcnt, P1. cbn [deref res_bind].
    destruct (Hlive st1 H1) as [[x ->] _]. cbn [deref res_bind]. cbv zeta. rewrite P2. cbn [deref res_bind].
    destruct (Hlive _ H2) as [_ [y ->]]. cbn [deref res_bind]. by destruct r.
Qed.

(** The pointers of a well-formed state with a current case. *)
Lemma current_path st p :
  pointers_ok st → g_current_case_result st = Some p →
  ∃ s c g k cr, p = (s, c, g, k) ∧ g_current_group_result st = Some (s, c, g) ∧
                g_current_config_result st = Some (s, c) ∧ get_case (s, c, g, k) st = Some cr.
Proof.
  unfold pointers_ok. intros (H1 & H2 & H3) Hp. rewrite Hp in H2, H3. destruct p as [[[s c] g] k].
  destruct H3 as [cr Hcr]. exists s, c, g, k, cr.
  destruct (g_current_group_result st) as [pg|]; [|done]. destruct H2 as [_ H2]. simpl in H2. subst pg.
  destruct (g_current_config_result st) as [pc|]; [|done]. destruct H1 as [_ H1]. simpl in H1. by subst pc.
Qed.

Lemma get_case_group s c g k st cr :
  get_case (s, c, g, k) st = Some cr →
  ∃ co gr, get_config (s, c) st = Some co ∧ group_result co !! g = Some gr ∧ case_result gr !! k = Some cr.
Proof.
  simpl. destruct (suites st !! s) as [cs|]; simpl; [|done]. destruct (cs !! c) as [co|]; simpl; [|done].
  destruct (group_result co !! g) as [gr|] eqn:E; simpl; [|done]. eauto.
Qed.

Definition keeps (st st' : state) : Prop := wf st' ∧ tree_le st st' ∧ same_pointers st st'.

Lemma keeps_refl st : wf st → keeps st st.
Proof. intros Hw. split; [done|]. split; reflexivity. Qed.

Lemma keeps_trans a b c : keeps a b → keeps b c → keeps a c.
Proof.
  intros (_ & Hab & Pab) (Hw & Hbc & Pbc). split; [done|]. split; by transitivity b.
Qed.

Lemma config_le_assert ar g k cr : config_le cr (assert_config ar g k cr).
Proof.
  intros g' gr Hg. unfold assert_config. simpl. rewrite list_lookup_alter. case_decide as E.
  - subst g'. rewrite Hg. simpl. eexists. split; [done|]. unfold group_le. simpl. by rewrite length_alter.
  - exists gr. split; [done|]. unfold group_le. lia.
Qed.

(** Recording an assertion keeps the counters right; it goes through exactly when the
    class and case ids are those of the current case. *)
Lemma record_assertion_keeps cls id aid ty r msg st b st' :
  wf st → teeio_record_assertion_result cls id aid ty r msg st = Ok (b, st') → b = true ∧ keeps st st'.
Proof.
  intros [Hc Hp] Hr. destruct (g_current_case_result st) as [p|] eqn:E.
  2: { unfold teeio_record_assertion_result in Hr. by rewrite E in Hr. }
  destruct (current_path st p Hp E) as (s & c & g & k & cr & -> & Hg & Hco & Hcr).
  assert (class_id cr = cls ∧ case_id cr = id) as [H1 H2].
  { unfold teeio_record_assertion_result in Hr. rewrite E, Hcr in Hr. cbn [deref res_bind] in Hr.
    destruct (Z.eqb_spec (class_id cr) cls), (Z.eqb_spec (case_id cr) id); cbn in Hr; done. }
  rewrite (record_assertion_update _ _ _ _ _ _ _ s c g k cr) in Hr by done. injection Hr as <- <-.
  split; [done|]. destruct (get_case_group _ _ _ _ _ _ Hcr) as (co & gr & Hgc & Hgg & Hgk).
  set (ar := {| ar_type := ty |}).
  assert (Hle : tree_le st (on_config (s, c) (assert_config ar g k) st)).
  { apply tree_le_on_config. intros x _. apply config_le_assert. }
  split; [split|split; [done|apply (same_pointers_on_config (s, c))]].
  - apply (counters_on_config (s, c)); [done|]. intros x Hx Hok. rewrite Hgc in Hx. injection Hx as <-.
    eapply assert_config_ok; eauto.
  - eapply pointers_ok_le; [exact Hle|apply (same_pointers_on_config (s, c))|done].
Qed.

(** *** The other operations: no counter changes *)

Lemma sumZ_alter0 {A} (f : A → Z) (h : A → A) (l : list A) i :
  (∀ x, f (h x) = f x) → sumZ f (alter h i l) = sumZ f l.
Proof.
  intros Hh. revert i. induction l as [|x l IH]; intros [|i]; simpl; [done|done|by rewrite Hh|].
  change (f x + sumZ f (alter h i l) = f x + sumZ f l). by rewrite IH.
Qed.

Lemma counters_on_group p f st :
  (∀ gr, (group_ok gr → group_ok (f gr)) ∧ group_passed (f gr) = group_passed gr ∧
         group_failed (f gr) = group_failed gr) →
  counters_ok st → counters_ok (on_group p f st).
Proof.
  intros Hf Hst. rewrite on_group_config. apply counters_on_config; [done|].
  intros cr _ (Hg & Hp & Hfl). split_and!; simpl.
  - apply Forall_alter_ok; [done|]. intros gr _ Hgr. by apply Hf.
  - rewrite sumZ_alter0; [done|]. intros x. by destruct (Hf x) as (_ & ? & _).
  - rewrite sumZ_alter0; [done|]. intros x. by destruct (Hf x) as (_ & _ & ?).
Qed.

Lemma counters_on_case p f st :
  (∀ cr, (case_ok cr → case_ok (f cr)) ∧ case_passed (f cr) = case_passed cr ∧
         case_failed (f cr) = case_failed cr) →
  counters_ok st → counters_ok (on_case p f st).
Proof.
  destruct p as [q k]. intros Hf. apply counters_on_group. intros gr. split; [|done].
  intros (Hc & Hp & Hfl). split_and!; simpl.
  - apply Forall_alter_ok; [done|]. intros cr _ Hcr. by apply Hf.
  - rewrite sumZ_alter0; [done|]. intros x. by destruct (Hf x) as (_ & ? & _).
  - rewrite sumZ_alter0; [done|]. intros x. by destruct (Hf x) as (_ & _ & ?).
Qed.

Lemma keeps_intro st st' :
  wf st → counters_ok st' → tree_le st st' → same_pointers st st' → keeps st st'.
Proof.
  intros [_ Hp] Hc Hle Hsp. split; [|by split]. split; [done|]. by eapply pointers_ok_le.
Qed.

Lemma record_config_item_keeps id f r st b st' :
  wf st → teeio_record_config_item_result id f r st = Ok (b, st') → keeps st st'.
Proof.
  intros Hw. unfold teeio_record_config_item_result.
  destruct (g_current_case_result st) as [p|] eqn:E; [|intros [= <- <-]; by apply keeps_refl].
  rewrite res_bind_Ok. intros (cr & _ & [= <- <-]). apply keeps_intro; auto with teeio.
  destruct Hw as [Hc _]. by apply counters_on_case.
Qed.

Lemma record_group_keeps f r msg st b st' :
  wf st → teeio_record_group_result f r msg st = Ok (b, st') → keeps st st'.
Proof.
  intros Hw. unfold teeio_record_group_result.
  destruct (g_current_group_result st) as [p|] eqn:E; [|intros [= <- <-]; by apply keeps_refl].
  rewrite res_bind_Ok. intros (cr & _ & [= <- <-]). apply keeps_intro; auto with teeio.
  - destruct Hw as [Hc _]. by apply counters_on_group.
  - apply tree_le_on_group. intros gr. unfold group_le. simpl. lia.
Qed.

(** They never go wrong on a well-formed state. *)
Lemma record_config_item_total id f r st :
  wf st → ∃ b st', teeio_record_config_item_result id f r st = Ok (b, st').
Proof.
  intros [_ (_ & _ & Hp)]. unfold teeio_record_config_item_result.
  destruct (g_current_case_result st) as [p|]; [|eauto]. destruct Hp as [cr ->]. simpl. eauto.
Qed.

Lemma record_group_total f r msg st :
  wf st → ∃ b st', teeio_record_group_result f r msg st = Ok (b, st').
Proof.
  intros [_ (_ & Hp & _)]. unfold teeio_record_group_result.
  destruct (g_current_group_result st) as [p|]; [|eauto]. destruct Hp as [[gr ->] _]. simpl. eauto.
Qed.

(** *** Growing the tree *)

Lemma alloc_case_spec s c g gr nm cl cls id st :
  wf st → get_group (s, c, g) st = Some gr →
  g_current_config_result st = Some (s, c) → g_current_group_result st = Some (s, c, g) →
  ∃ st', alloc_run_test_case_result (s, c, g) nm cl cls id st = Ok ((s, c, g, length (case_result gr)), st') ∧
    tree_le st st' ∧ same_pointers st st' ∧ wf (set_current_case (Some (s, c, g, length (case_result gr))) st') ∧
    ∃ cr, get_case (s, c, g, length (case_result gr)) st' = Some cr ∧ class_id cr = cls ∧ case_id cr = id ∧
          case_name cr = nm ∧ assertion_result cr = [].
Proof.
  intros Hw Hg Hpc Hpg. unfold alloc_run_test_case_result. rewrite Hg. cbn [deref res_bind].
  eexists. split; [done|].
  set (f := λ gr0, {| group_name := _ |}).
  assert (Hle : tree_le st (on_group (s, c, g) f st)).
  { apply tree_le_on_group. intros x. unfold group_le. simpl. rewrite length_app. lia. }
  assert (Hgc : ∃ co, get_config (s, c) st = Some co ∧ group_result co !! g = Some gr).
  { simpl in Hg |- *. destruct (suites st !! s) as [cs|]; simpl in *; [|done].
    destruct (cs !! c); simpl in *; [|done]. eauto. }
  destruct Hgc as (co & Hco & Hgr).
  set (cr := {| case_class_name := cl; case_name := nm; class_id := cls; case_id := id; case_passed := 0;
                case_failed := 0; config_item_result := []; assertion_result := [] |}).
  assert (Hcase : get_case (s, c, g, length (case_result gr)) (on_group (s, c, g) f st) = Some cr).
  { unfold get_case, get_group. rewrite on_group_config, get_config_on, decide_True, Hco by done.
    simpl. rewrite list_lookup_alter_eq, Hgr. simpl. by rewrite list_lookup_middle. }
  split; [exact Hle|]. split; [apply (same_pointers_on_group (s, c, g))|]. split.
  2: { exists cr. by split. }
  split.
  - change (counters_ok (on_group (s, c, g) f st)). apply counters_on_group; [|apply Hw].
    intros x. split; [|done]. intros (H1 & H2 & H3). split_and!; simpl.
    + apply Forall_app_2; [done|]. by repeat constructor.
    + rewrite sumZ_app. simpl. lia.
    + rewrite sumZ_app. simpl. lia.
  - unfold pointers_ok. cbn [set_current_case g_current_config_result g_current_group_result g_current_case_result].
    change (g_current_config_result (on_group (s, c, g) f st)) with (g_current_config_result st).
    change (g_current_group_result (on_group (s, c, g) f st)) with (g_current_group_result st).
    rewrite Hpc, Hpg. split_and!; [|done| |done|].
    + apply (live_config st); [done|eauto].
    + apply (live_group st); [done|eauto].
    + eexists. exact Hcase.
Qed.

Lemma alloc_group_spec s c co nm st :
  wf st → get_config (s, c) st = Some co →
  g_current_config_result st = Some (s, c) → g_current_case_result st = None →
  ∃ st', alloc_run_test_group_result (s, c) nm st = Ok ((s, c, length (group_result co)), st') ∧
    tree_le st st' ∧ same_pointers st st' ∧ wf (set_current_group (Some (s, c, length (group_result co))) st') ∧
    ∃ gr, get_group (s, c, length (group_result co)) st' = Some gr ∧ case_result gr = [] ∧ group_name gr = nm.
Proof.
  intros Hw Hco Hpc Hpk. unfold alloc_run_test_group_result. rewrite Hco. cbn [deref res_bind].
  eexists. split; [done|].
  set (f := λ cr0, {| config_name := _ |}).
  assert (Hle : tree_le st (on_config (s, c) f st)).
  { apply tree_le_on_config. intros x _ g gr Hg. exists gr. simpl. split; [by apply lookup_app_l_Some|].
    unfold group_le. lia. }
  set (gr := {| group_name := nm; group_passed := 0; group_failed := 0;
                func_results := replicate 2 {| func_result := TEEIO_TEST_RESULT_NOT_TESTED; func_extra_data := [] |};
                case_result := [] |}).
  assert (Hgrp : get_group (s, c, length (group_result co)) (on_config (s, c) f st) = Some gr).
  { unfold get_group. rewrite get_config_on, decide_True, Hco by done. simpl. by rewrite list_lookup_middle. }
  split; [exact Hle|]. split; [apply (same_pointers_on_config (s, c))|]. split; [|by exists gr].
  split.
  - change (counters_ok (on_config (s, c) f st)). apply counters_on_config; [apply Hw|].
    intros x _ (H1 & H2 & H3). split_and!; simpl.
    + apply Forall_app_2; [done|]. by repeat constructor.
    + rewrite sumZ_app. simpl. lia.
    + rewrite sumZ_app. simpl. lia.
  - unfold pointers_ok. cbn [set_current_group g_current_config_result g_current_group_result g_current_case_result].
    change (g_current_config_result (on_config (s, c) f st)) with (g_current_config_result st).
    change (g_current_case_result (on_config (s, c) f st)) with (g_current_case_result st).
    rewrite Hpc, Hpk. split_and!; [|done| |done|done].
    + apply (live_config st); [done|eauto].
    + eexists. exact Hgrp.
Qed.

Lemma alloc_config_spec s cs id nm st :
  wf st → suites st !! s = Some cs → g_current_group_result st = None → g_current_case_result st = None →
  ∃ st', alloc_run_test_config_result s id nm st = Ok ((s, length cs), st') ∧
    tree_le st st' ∧ same_pointers st st' ∧ wf (set_current_config (Some (s, length cs)) st') ∧
    length (suites st') = length (suites st) ∧
    ∃ co, get_config (s, length cs) st' = Some co ∧ group_result co = [] ∧ config_id co = id.
Proof.
  intros Hw Hs Hpg Hpk. unfold alloc_run_test_config_result, append_config_result. rewrite Hs. cbn [deref res_bind].
  eexists. split; [done|]. set (co := {| config_name := nm |}). set (st' := with_suites _ st).
  assert (Hget : ∀ s' c', get_config (s', c') st' =
            if decide (s' = s) then (cs ++ [co]) !! c' else get_config (s', c') st).
  { intros s' c'. unfold st', with_suites, get_config. cbn [suites]. rewrite list_lookup_alter.
    destruct (decide (s = s')) as [<-|Hne]; [rewrite decide_True, Hs by done; done|].
    by rewrite decide_False by congruence. }
  assert (Hle : tree_le st st').
  { intros [s' c'] x Hx. rewrite Hget. case_decide as E; [|eauto using config_le_refl].
    subst s'. simpl in Hx. rewrite Hs in Hx. simpl in Hx. exists x. split; [by apply lookup_app_l_Some|].
    apply config_le_refl. }
  assert (Hnew : get_config (s, length cs) st' = Some co) by (by rewrite Hget, decide_True, list_lookup_middle).
  split; [exact Hle|]. split; [done|]. split_and!.
  - split.
    + change (counters_ok st'). unfold counters_ok, st', with_suites. cbn [suites]. destruct Hw as [Hc _].
      apply Forall_alter_ok; [done|]. intros x _ Hx. apply Forall_app_2; [done|]. by repeat constructor.
    + unfold pointers_ok. cbn [set_current_config g_current_config_result g_current_group_result g_current_case_result].
      change (g_current_group_result st') with (g_current_group_result st).
      change (g_current_case_result st') with (g_current_case_result st). rewrite Hpg, Hpk.
      split_and!; [|done|done|done]. by eexists.
  - unfold st', with_suites. cbn [suites]. by rewrite length_alter.
  - by exists co.
Qed.

Lemma clear_case_wf st : wf st → wf (set_current_case None st).
Proof.
  intros [Hc (H1 & H2 & H3)]. split; [done|]. unfold pointers_ok. simpl. split_and!; [done| |done].
  destruct (g_current_group_result st); [|done]. by destruct H2 as [? _].
Qed.

Lemma clear_group_wf st : wf st → g_current_case_result st = None → wf (set_current_group None st).
Proof.
  intros [Hc (H1 & H2 & H3)] Hk. split; [done|]. unfold pointers_ok. simpl. rewrite Hk. split_and!; [|done|done].
  destruct (g_current_config_result st); [|done]. by destruct H1 as [? _].
Qed.

Lemma clear_config_wf st :
  wf st → g_current_group_result st = None → g_current_case_result st = None → wf (set_current_config None st).
Proof.
  intros [Hc (H1 & H2 & H3)] Hg Hk. split; [done|]. unfold pointers_ok. simpl. by rewrite Hg, Hk.
Qed.

(** ** The shape of the tree

    Which configurations, groups and cases have a record, in order. *)
Definition case_shape (cr : ide_run_test_case_result_t) : Z * Z := (class_id cr, case_id cr).
Definition group_shape (gr : ide_run_test_group_result_t) : list (Z * Z) := map case_shape (case_result gr).
Definition config_shape (co : ide_run_test_config_result_t) : Z * list (list (Z * Z)) :=
  (config_id co, map group_shape (group_result co)).
Definition shape (st : state) : list (list (Z * list (list (Z * Z)))) := map (map config_shape) (suites st).

Lemma map_alter {A B} (g : A → B) (f : A → A) (h : B → B) (l : list A) i :
  (∀ x, g (f x) = h (g x)) → map g (alter f i l) = alter h i (map g l).
Proof.
  intros Hg. revert i. induction l as [|x l IH]; intros [|i]; simpl; [done|done|by rewrite Hg|].
  change (g x :: map g (alter f i l) = g x :: alter h i (map g l)). by rewrite IH.
Qed.

Lemma shape_on_config s c f F st :
  (∀ co, config_shape (f co) = F (config_shape co)) →
  shape (on_config (s, c) f st) = alter (alter F c) s (shape st).
Proof.
  intros Hf. unfold shape, on_config, with_suites. simpl.
  apply map_alter. intros cs. by apply map_alter.
Qed.

Lemma alter_id {A} (f : A → A) (l : list A) i : (∀ x, f x = x) → alter f i l = l.
Proof. apply list_alter_id. Qed.

Lemma shape_on_config_id p f st :
  (∀ co, config_shape (f co) = config_shape co) → shape (on_config p f st) = shape st.
Proof.
  destruct p as [s c]. intros Hf. rewrite (shape_on_config s c f id) by done.
  apply alter_id. intros x. by apply alter_id.
Qed.

Lemma shape_on_group_id p f st :
  (∀ gr, group_shape (f gr) = group_shape gr) → shape (on_group p f st) = shape st.
Proof.
  intros Hf. rewrite on_group_config. apply shape_on_config_id. intros co. unfold config_shape. simpl. f_equal.
  rewrite (map_alter group_shape f id) by done. by apply alter_id.
Qed.

Lemma shape_on_case_id p f st :
  (∀ cr, case_shape (f cr) = case_shape cr) → shape (on_case p f st) = shape st.
Proof.
  destruct p as [q k]. intros Hf. apply shape_on_group_id. intros gr. unfold group_shape. simpl.
  rewrite (map_alter case_shape f id) by done. by apply alter_id.
Qed.

(** Recording leaves the shape alone. *)
Lemma record_assertion_shape cls id aid ty r msg st b st' :
  wf st → teeio_record_assertion_result cls id aid ty r msg st = Ok (b, st') → shape st' = shape st.
Proof.
  intros _ Hr. unfold teeio_record_assertion_result in Hr.
  destruct (g_current_case_result st) as [p|]; [|done].
  apply res_bind_Ok in Hr as (cr & _ & Hr). destruct (negb _ || negb _); [done|].
  set (st1 := on_case p _ st) in *.
  assert (H1 : shape st1 = shape st) by (by apply shape_on_case_id).
  destruct r; [injection Hr as <- <-; done| |]; inv_ok;
    rewrite shape_on_case_id, shape_on_group_id, shape_on_config_id by done; done.
Qed.

Lemma record_config_item_shape id f r st b st' :
  teeio_record_config_item_result id f r st = Ok (b, st') → shape st' = shape st.
Proof.
  unfold teeio_record_config_item_result. destruct (g_current_case_result st) as [p|]; [|by intros [= _ <-]].
  rewrite res_bind_Ok. intros (cr & _ & [= _ <-]). by apply shape_on_case_id.
Qed.

Lemma record_group_shape f r msg st b st' :
  teeio_record_group_result f r msg st = Ok (b, st') → shape st' = shape st.
Proof.
  unfold teeio_record_group_result. destruct (g_current_group_result st) as [p|]; [|by intros [= _ <-]].
  rewrite res_bind_Ok. intros (cr & _ & [= _ <-]). by apply shape_on_group_id.
Qed.

Lemma alloc_case_shape s c g nm cl cls id st p st' :
  alloc_run_test_case_result (s, c, g) nm cl cls id st = Ok (p, st') →
  shape st' = alter (alter (λ x, (fst x, alter (λ l, l ++ [(cls, id)]) g (snd x))) c) s (shape st).
Proof.
  unfold alloc_run_test_case_result. rewrite res_bind_Ok. intros (gr & _ & [= _ <-]).
  apply (shape_on_config s c). intros co. unfold config_shape. simpl. f_equal.
  apply map_alter. intros x. unfold group_shape. simpl. by rewrite map_app.
Qed.

Lemma alloc_group_shape s c nm st p st' :
  alloc_run_test_group_result (s, c) nm st = Ok (p, st') →
  shape st' = alter (alter (λ x, (fst x, snd x ++ [[]])) c) s (shape st).
Proof.
  unfold alloc_run_test_group_result. rewrite res_bind_Ok. intros (gr & _ & [= _ <-]).
  apply (shape_on_config s c). intros co. unfold config_shape. simpl. by rewrite map_app.
Qed.

Lemma alloc_config_shape s id nm st p st' :
  alloc_run_test_config_result s id nm st = Ok (p, st') →
  shape st' = alter (λ cs, cs ++ [(id, [])]) s (shape st).
Proof.
  unfold alloc_run_test_config_result, append_config_result. rewrite res_bind_Ok. intros (cs & _ & [= _ <-]).
  unfold shape. simpl. apply map_alter. intros x. by rewrite map_app.
Qed.

(** The shape fixes the ids under a path. *)
Lemma get_case_shape st s c g k :
  (case_shape <$> get_case (s, c, g, k) st) = (cs ← shape st !! s; co ← cs !! c; gr ← snd co !! g; gr !! k).
Proof.
  simpl. unfold shape. rewrite list_lookup_fmap. destruct (suites st !! s) as [cs|]; simpl; [|done].
  rewrite list_lookup_fmap. destruct (cs !! c) as [co|]; simpl; [|done].
  rewrite list_lookup_fmap. destruct (group_result co !! g) as [gr|]; simpl; [|done].
  unfold group_shape. by rewrite list_lookup_fmap.
Qed.

(** ** Properties *)

Definition suite_assertions (cs : list ide_run_test_config_result_t) : list ide_run_test_case_assertion_result_t :=
  flat_map (λ co, flat_map (λ gr, flat_map assertion_result (case_result gr)) (group_result co)) cs.

Lemma count_app r l k : count r (l ++ k) = count r l + count r k.
Proof. unfold count. rewrite filter_app, length_app. lia. Qed.

Lemma sumZ_flat_map {A} (P : A → Prop) (f : A → Z) (h : A → list ide_run_test_case_assertion_result_t) r l :
  Forall P l → (∀ x, P x → f x = count r (h x)) → sumZ f l = count r (flat_map h l).
Proof.
  intros Hl Hf. induction Hl as [|x l Hx _ IH]; simpl; [done|]. rewrite count_app, IH, Hf by done. done.
Qed.

Lemma config_count co :
  config_ok co →
  let l := flat_map (λ gr, flat_map assertion_result (case_result gr)) (group_result co) in
  config_passed co = count TEEIO_TEST_RESULT_PASS l ∧ config_failed co = count TEEIO_TEST_RESULT_FAILED l.
Proof.
  intros (Hg & -> & ->). simpl. split; apply (sumZ_flat_map group_ok); try done;
    intros gr (Hc & Hp & Hf); rewrite ?Hp, ?Hf; apply (sumZ_flat_map case_ok); try done; by intros cr [? ?].
Qed.

(** The totals of a suite are the numbers of its assertions. *)
Lemma statics_count st s cs :
  wf st → suites st !! s = Some cs →
  test_suite_cases_statics cs =
  (count TEEIO_TEST_RESULT_PASS (suite_assertions cs), count TEEIO_TEST_RESULT_FAILED (suite_assertions cs)).
Proof.
  intros [Hc _] Hs. pose proof (Forall_lookup_1 _ _ _ _ Hc Hs) as Hcs. clear Hc Hs.
  assert (H : ∀ p f, fold_left (λ '(passed, failed) cr, (passed + config_passed cr, failed + config_failed cr)) cs (p, f)
    = (p + count TEEIO_TEST_RESULT_PASS (suite_assertions cs), f + count TEEIO_TEST_RESULT_FAILED (suite_assertions cs))).
  2: { apply H. }
  induction Hcs as [|co cs Hco _ IH]; intros p f; simpl; [by rewrite !Z.add_0_r|].
  destruct (config_count co Hco) as [-> ->]. rewrite IH, !count_app, !Z.add_assoc. done.
Qed.

(** C12: the verdict printed for a case is the verdict of its assertions: failed when one failed,
    else passed when one passed, else not tested, provided that only
    assertions of type TEST are recorded as passed or failed (separators are not). *)
Theorem printed_verdict_is_assertion_verdict st p cr :
  wf st → g_current_case_result st = Some p → get_case p st = Some cr →
  Forall (λ a, ar_type a = IDE_COMMON_TEST_CASE_ASSERTION_TYPE_TEST ∨ ar_result a = TEEIO_TEST_RESULT_NOT_TESTED)
         (assertion_result cr) →
  teeio_test_case_result (class_id cr) (case_id cr) st = Ok (printed_case_result cr).
Proof.
  intros [Hc _] Hp Hcr Hty. unfold teeio_test_case_result. rewrite Hp, Hcr. cbn [deref res_bind].
  rewrite !Z.eqb_refl. cbn [negb orb].
  assert (Hok : case_ok cr).
  { destruct p as [[[s c] g] k]. destruct (get_case_group _ _ _ _ _ _ Hcr) as (co & gr & Hco & Hgr & Hk).
    simpl in Hco. destruct (suites st !! s) as [cs|] eqn:Hs; [|done]. simpl in Hco.
    pose proof (Forall_lookup_1 _ _ _ _ Hc Hs) as Hcs. destruct (Forall_lookup_1 _ _ _ _ Hcs Hco) as (Hgs & _).
    destruct (Forall_lookup_1 _ _ _ _ Hgs Hgr) as (Hks & _). by apply (Forall_lookup_1 _ _ _ _ Hks Hk). }
  assert (Hfold : ∀ a b, fold_left (λ '(pass, failed) a,
          if decide (ar_type a = IDE_COMMON_TEST_CASE_ASSERTION_TYPE_TEST) then
            if decide (ar_result a = TEEIO_TEST_RESULT_PASS) then (pass + 1, failed)
            else if decide (ar_result a = TEEIO_TEST_RESULT_FAILED) then (pass, failed + 1)
            else (pass, failed)
          else (pass, failed)) (assertion_result cr) (a, b)
    = (a + count TEEIO_TEST_RESULT_PASS (assertion_result cr), b + count TEEIO_TEST_RESULT_FAILED (assertion_result cr))).
  { clear Hok. induction Hty as [|x l Hx _ IH]; intros a b; [by rewrite !Z.add_0_r|].
    cbn [fold_left]. unfold count in *. rewrite !filter_cons.
    destruct (decide (ar_type x = IDE_COMMON_TEST_CASE_ASSERTION_TYPE_TEST)) as [_|Hn].
    - destruct (ar_result x) eqn:E; repeat case_decide; try discriminate; rewrite IH; simpl; f_equal; lia.
    - destruct Hx as [Hx|Hx]; [done|]. rewrite Hx, !decide_False by done. apply IH. }
  rewrite Hfold, !Z.add_0_l. destruct Hok as [Hpa Hfa]. unfold printed_case_result. rewrite Hpa, Hfa. f_equal.
  assert (0 ≤ count TEEIO_TEST_RESULT_PASS (assertion_result cr)) by (unfold count; lia).
  assert (0 ≤ count TEEIO_TEST_RESULT_FAILED (assertion_result cr)) by (unfold count; lia).
  destruct (Z.ltb_spec 0 (count TEEIO_TEST_RESULT_FAILED (assertion_result cr))),
           (Z.eqb_spec (count TEEIO_TEST_RESULT_FAILED (assertion_result cr)) 0),
           (Z.eqb_spec (count TEEIO_TEST_RESULT_PASS (assertion_result cr)) 0),
           (Z.ltb_spec 0 (count TEEIO_TEST_RESULT_PASS (assertion_result cr))); done || lia.
Qed.

(** ** Witnesses *)

Definition example_case : ide_run_test_case_result_t :=
  {| case_class_name := bs "Query"; case_name := bs "Query.1"; class_id := 0; case_id := 1;
     case_passed := 1; case_failed := 0; config_item_result := [];
     assertion_result := [{| ar_type := IDE_COMMON_TEST_CASE_ASSERTION_TYPE_TEST; ar_class_id := 0;
       ar_case_id := 1; ar_assertion_id := 1; ar_result := TEEIO_TEST_RESULT_PASS; ar_extra_data := [] |}] |}.

Definition example_state : state :=
  {| suites := [[{| config_name := bs "default"; config_id := 1; config_passed := 1; config_failed := 0;
       group_result := [{| group_name := bs "SelectiveIDE"; group_passed := 1; group_failed := 0;
         func_results := [];
         case_result := [example_case] |}] |}]];
     g_current_config_result := Some (0, 0)%nat; g_current_group_result := Some (0, 0, 0)%nat;
     g_current_case_result := Some (0, 0, 0, 0)%nat |}.

Lemma example_state_wf : wf example_state.
Proof.
  split; [repeat constructor|]. unfold pointers_ok. simpl. split_and!; try done; by eexists.
Qed.

Lemma printed_verdict_is_assertion_verdict_witness :
  teeio_test_case_result 0 1 example_state = Ok TEEIO_TEST_RESULT_PASS.
Proof.
  apply (printed_verdict_is_assertion_verdict example_state (0, 0, 0, 0)%nat example_case);
    [apply example_state_wf|reflexivity|reflexivity|].
  constructor; [by left|constructor].
Defined.

End Results.
