(* ===== verification/TestConfig.v ===== *)
(** * The test configuration and its look-ups (include/ide_test.h,
    library/helperlib/ide_ini_helper.c)

    What the INI file says, as the program keeps it: ports, switches,
    topologies, configurations and suites in arrays of fixed size.  An
    enumeration is the integer the program computes it from; a fixed-size array is a
    list; a [char] array is the string it holds. *)
From Stdlib Require Import ZArith Lia Ascii String.
From stdpp Require Import prelude.
From S2P Require Import Prelude.

Open Scope Z_scope.
Open Scope teeio_scope.

Module TestConfig.

(** ** Bounds and enumerations *)

Definition MAX_SUPPORTED_PORTS_NUM : Z := 16.
Definition MAX_SUPPORTED_SWITCHES_NUM : Z := 16.
Definition MAX_SUPPORTED_SWITCH_PORTS_NUM : Z := 16.
Definition PORT_NAME_LENGTH : Z := 32.
Definition MAX_TOPOLOGY_NUM : Z := 16.
Definition MAX_CONFIGURATION_NUM : Z := 32.
Definition MAX_TEST_SUITE_NUM : Z := 32.
Definition MAX_NAME_LENGTH : Z := 128.
Definition MAX_STREAM_ID : Z := 255.
Definition MAX_CASE_ID : Z := 32.
Definition MAX_TEST_CASE_NUM : Z := 32.
Definition INVALID_PORT_ID : Z := 0.
Definition INVALID_SCAN_SEGMENT : Z := 0xFFFF.
Definition INVALID_SCAN_BUS : Z := 0xFF.

Definition TEEIO_TEST_CATEGORY_PCIE_IDE : Z := 0.
Definition TEEIO_TEST_CATEGORY_CXL_IDE : Z := 1.
Definition TEEIO_TEST_CATEGORY_CXL_TSP : Z := 2.
Definition TEEIO_TEST_CATEGORY_TDISP : Z := 3.
Definition TEEIO_TEST_CATEGORY_SPDM : Z := 4.
Definition TEEIO_TEST_CATEGORY_MAX : Z := 5.

Definition TEST_IDE_TYPE_SEL_IDE : Z := 0.
Definition TEST_IDE_TYPE_LNK_IDE : Z := 1.
Definition TEST_IDE_TYPE_NA : Z := 2.

Definition IDE_PORT_TYPE_ROOTPORT : Z := 0.
Definition IDE_PORT_TYPE_ENDPOINT : Z := 1.
Definition IDE_PORT_TYPE_SWITCH : Z := 2.

Definition IDE_TEST_CONNECT_DIRECT : Z := 0.
Definition IDE_TEST_CONNECT_SWITCH : Z := 1.
Definition IDE_TEST_CONNECT_P2P : Z := 2.
Definition IDE_TEST_CONNECT_NUM : Z := 3.

Definition IDE_TEST_TOPOLOGY_TYPE_SEL_IDE : Z := 0.
Definition IDE_TEST_TOPOLOGY_TYPE_LINK_IDE : Z := 1.
Definition IDE_TEST_TOPOLOGY_TYPE_SEL_LINK_IDE : Z := 2.
Definition IDE_TEST_TOPOLOGY_TYPE_NUM : Z := 3.

Definition IDE_COMMON_TEST_CASE_NUM : Z := 6.

Definition IDE_PORT_TYPE_NAMES : list bytes := [bs "rootport"; bs "endpoint"].
Definition IDE_TEST_CONNECT_TYPE_NAMES : list bytes := [bs "direct"; bs "switch"; bs "peer2peer"].
Definition IDE_TEST_TOPOLOGY_TYPE_NAMES : list bytes :=
  [bs "selective_ide"; bs "link_ide"; bs "selective_and_link_ide"].
Definition TEEIO_TEST_CATEGORY_NAMES : list bytes :=
  [bs "pcie-ide"; bs "cxl-ide"; bs "cxl-tsp"; bs "tdisp"; bs "spdm"].

(** ** Data *)

Record IDE_PORT := {
  port_id : Z;
  port_enabled : bool;
  port_type : Z;
  port_name : bytes;
  port_bdf : bytes;
  port_segment : Z;
  port_bus : Z;
  port_device : Z;
  port_function : Z;
  port_index : Z
}.

Record IDE_TEST_PORTS_CONFIG := { ports_cnt : Z; ports : list IDE_PORT }.

Record IDE_SWITCH := {
  sw_id : Z;
  sw_enabled : bool;
  sw_name : bytes;
  sw_ports_cnt : Z;
  sw_ports : list IDE_PORT
}.

Record IDE_TEST_SWITCHES_CONFIG := { switches_cnt : Z; switches : list IDE_SWITCH }.

(** The chain through [next] is a list; [NULL] is the empty one. *)
Record IDE_SWITCH_INTERNAL_CONNECTION := { conn_switch_id : Z; conn_ups_port : Z; conn_dps_port : Z }.

Record IDE_TEST_MAIN_CONFIG := {
  pci_log : bool;
  debug_level : Z;
  libspdm_log : bool;
  doe_log : bool;
  wo_tdisp : bool;
  pcap_enable : bool;
  spdm_version : Z
}.

Record IDE_TEST_TOPOLOGY := {
  top_id : Z;
  top_enabled : bool;
  top_type : Z;
  top_connection : Z;
  top_root_port : Z;
  top_upper_port : Z;
  top_lower_port : Z;
  top_sw_conn1 : list IDE_SWITCH_INTERNAL_CONNECTION;
  top_sw_conn2 : list IDE_SWITCH_INTERNAL_CONNECTION;
  top_segment : Z;
  top_bus : Z;
  top_stream_id : Z
}.

Record IDE_TEST_TOPOLOGYS := { topologies_cnt : Z; topologies : list IDE_TEST_TOPOLOGY }.

Record IDE_TEST_CONFIGURATION := {
  cfg_id : Z;
  cfg_enabled : bool;
  cfg_type : Z;
  cfg_category : Z;
  cfg_bit_map : Z;
  cfg_ide_mode : Z       (* priv_data.cxl_ide.ide_mode *)
}.

Record IDE_TEST_CONFIGURATIONS := { configurations_cnt : Z; configurations : list IDE_TEST_CONFIGURATION }.

Record IDE_TEST_CASE := { cases_cnt : Z; cases_id : list Z }.

Record IDE_TEST_SUITE := {
  suite_id : Z;
  suite_enabled : bool;
  suite_type : Z;
  suite_topology_id : Z;
  suite_configuration_id : Z;
  suite_category : Z;
  suite_cases : list IDE_TEST_CASE
}.

Record IDE_TEST_SUITES := { suites_cnt : Z; test_suites : list IDE_TEST_SUITE }.

Record IDE_TEST_CONFIG := {
  main_config : IDE_TEST_MAIN_CONFIG;
  ports_config : IDE_TEST_PORTS_CONFIG;
  switches_config : IDE_TEST_SWITCHES_CONFIG;
  topologies_config : IDE_TEST_TOPOLOGYS;
  configurations_config : IDE_TEST_CONFIGURATIONS;
  suites_config : IDE_TEST_SUITES
}.

(** [= {0}] *)
Definition zero_port : IDE_PORT :=
  {| port_id := 0; port_enabled := false; port_type := 0; port_name := []; port_bdf := [];
     port_segment := 0; port_bus := 0; port_device := 0; port_function := 0; port_index := 0 |}.
Definition zero_switch : IDE_SWITCH :=
  {| sw_id := 0; sw_enabled := false; sw_name := []; sw_ports_cnt := 0; sw_ports := replicate 16 zero_port |}.
Definition zero_topology : IDE_TEST_TOPOLOGY :=
  {| top_id := 0; top_enabled := false; top_type := 0; top_connection := 0; top_root_port := 0;
     top_upper_port := 0; top_lower_port := 0; top_sw_conn1 := []; top_sw_conn2 := [];
     top_segment := 0; top_bus := 0; top_stream_id := 0 |}.
Definition zero_configuration : IDE_TEST_CONFIGURATION :=
  {| cfg_id := 0; cfg_enabled := false; cfg_type := 0; cfg_category := 0; cfg_bit_map := 0; cfg_ide_mode := 0 |}.
Definition zero_case : IDE_TEST_CASE := {| cases_cnt := 0; cases_id := replicate 32 0 |}.
Definition zero_suite : IDE_TEST_SUITE :=
  {| suite_id := 0; suite_enabled := false; suite_type := 0; suite_topology_id := 0;
     suite_configuration_id := 0; suite_category := 0; suite_cases := replicate 32 zero_case |}.
Definition zero_config : IDE_TEST_CONFIG :=
  {| main_config := {| pci_log := false; debug_level := 0; libspdm_log := false; doe_log := false;
                       wo_tdisp := false; pcap_enable := false; spdm_version := 0 |};
     ports_config := {| ports_cnt := 0; ports := replicate 16 zero_port |};
     switches_config := {| switches_cnt := 0; switches := replicate 16 zero_switch |};
     topologies_config := {| topologies_cnt := 0; topologies := replicate 16 zero_topology |};
     configurations_config := {| configurations_cnt := 0; configurations := replicate 32 zero_configuration |};
     suites_config := {| suites_cnt := 0; test_suites := replicate 32 zero_suite |} |}.

(** ** Names of enumerations *)

(** [for (i = 0; i < NUM; i++) if (strcmp(NAMES[i], name) == 0) return i; return NUM;] *)
Fixpoint name_index (i : Z) (names : list bytes) (name : bytes) : Z :=
  match names with
  | [] => i
  | n :: names => if streq n name then i else name_index (i + 1) names name
  end.

Definition is_valid_topology_connection (connection : option bytes) : bool :=
  match connection with
  | None => false
  | Some c => existsb (λ n, streq n c) IDE_TEST_CONNECT_TYPE_NAMES
  end.

Definition get_connection_from_name (name : option bytes) : Z :=
  match name with
  | None => IDE_TEST_CONNECT_NUM
  | Some n => name_index 0 IDE_TEST_CONNECT_TYPE_NAMES n
  end.

Definition is_valid_test_category (test_category : option bytes) : bool :=
  match test_category with
  | None => false
  | Some c => existsb (λ n, streq c n) TEEIO_TEST_CATEGORY_NAMES
  end.

Definition get_test_category_from_name (name : option bytes) : Z :=
  match name with
  | None => TEEIO_TEST_CATEGORY_MAX
  | Some n => name_index 0 TEEIO_TEST_CATEGORY_NAMES n
  end.

Definition is_valid_topology_type (type : option bytes) : bool :=
  match type with
  | None => false
  | Some t => existsb (λ n, streq t n) IDE_TEST_TOPOLOGY_TYPE_NAMES
  end.

Definition get_topology_type_from_name (name : option bytes) : Z :=
  match name with
  | None => IDE_TEST_TOPOLOGY_TYPE_NUM
  | Some n => name_index 0 IDE_TEST_TOPOLOGY_TYPE_NAMES n
  end.

(** ** Look-ups

    A returned pointer into an array is the cell it points to. *)

Definition find_port_name (pc : IDE_TEST_PORTS_CONFIG) (name : bytes) : res (option IDE_PORT) :=
  find_cell (λ p, streq (port_name p) name) (Z.to_nat (ports_cnt pc)) (ports pc).

Definition is_valid_port (pc : option IDE_TEST_PORTS_CONFIG) (port : option bytes) : res bool :=
  match pc, port with
  | Some pc, Some name =>
      let* p := find_port_name pc name in
      Ok (match p with Some p => port_enabled p | None => false end)
  | _, _ => Ok false
  end.

Definition get_port_id_from_name (pc : option IDE_TEST_PORTS_CONFIG) (port : option bytes) : res Z :=
  match pc, port with
  | Some pc, Some name =>
      let* p := find_port_name pc name in
      Ok (match p with
          | Some p => if port_enabled p then port_id p else INVALID_PORT_ID
          | None => INVALID_PORT_ID end)
  | _, _ => Ok INVALID_PORT_ID
  end.

Definition get_configuration_by_id (test_config : option IDE_TEST_CONFIG) (id : Z)
    : res (option IDE_TEST_CONFIGURATION) :=
  match test_config with
  | None => Ok None
  | Some c =>
      if id <=? 0 then Ok None else
      find_cell (λ x, (cfg_id x =? id) && cfg_enabled x) (Z.to_nat MAX_CONFIGURATION_NUM)
        (configurations (configurations_config c))
  end.

Definition get_topology_by_id (test_config : option IDE_TEST_CONFIG) (id : Z) : res (option IDE_TEST_TOPOLOGY) :=
  match test_config with
  | None => Ok None
  | Some c =>
      if id <=? 0 then Ok None else
      find_cell (λ x, (top_id x =? id) && top_enabled x) (Z.to_nat MAX_TOPOLOGY_NUM)
        (topologies (topologies_config c))
  end.

Definition get_port_by_id (test_config : option IDE_TEST_CONFIG) (id : Z) : res (option IDE_PORT) :=
  match test_config with
  | None => Ok None
  | Some c =>
      if id <=? 0 then Ok None else
      find_cell (λ x, (port_id x =? id) && port_enabled x) (Z.to_nat (ports_cnt (ports_config c)))
        (ports (ports_config c))
  end.

Definition get_port_by_name (test_config : option IDE_TEST_CONFIG) (portname : option bytes) : res (option IDE_PORT) :=
  match test_config, portname with
  | Some c, Some name =>
      find_cell (λ x, streq (port_name x) name && port_enabled x) (Z.to_nat (ports_cnt (ports_config c)))
        (ports (ports_config c))
  | _, _ => Ok None
  end.

Definition get_switch_by_id (test_config : option IDE_TEST_CONFIG) (switch_id : Z) : res (option IDE_SWITCH) :=
  match test_config with
  | None => Ok None
  | Some c =>
      if switch_id <=? 0 then Ok None else
      find_cell (λ x, (sw_id x =? switch_id) && sw_enabled x) (Z.to_nat (switches_cnt (switches_config c)))
        (switches (switches_config c))
  end.

Definition get_switch_by_name (test_config : option IDE_TEST_CONFIG) (name : option bytes) : res (option IDE_SWITCH) :=
  match test_config, name with
  | Some c, Some n =>
      find_cell (λ x, streq (sw_name x) n && sw_enabled x) (Z.to_nat (switches_cnt (switches_config c)))
        (switches (switches_config c))
  | _, _ => Ok None
  end.

Definition is_some {A} (o : option A) : bool := match o with Some _ => true | None => false end.

Definition is_valid_switch_by_id (test_config : option IDE_TEST_CONFIG) (switch_id : Z) : res bool :=
  let* sw := get_switch_by_id test_config switch_id in Ok (is_some sw).

Definition get_port_from_switch_by_id (sw : option IDE_SWITCH) (id : Z) : res (option IDE_PORT) :=
  match sw with
  | None => Ok None
  | Some s =>
      if id <=? 0 then Ok None else
      find_cell (λ x, port_enabled x && (port_id x =? id)) (Z.to_nat (sw_ports_cnt s)) (sw_ports s)
  end.

Definition is_valid_port_in_switch (sw : option IDE_SWITCH) (id : Z) : res bool :=
  let* p := get_port_from_switch_by_id sw id in Ok (is_some p).

Definition get_port_from_switch_by_name (sw : option IDE_SWITCH) (name : option bytes) : res (option IDE_PORT) :=
  match sw, name with
  | Some s, Some n =>
      find_cell (λ x, port_enabled x && streq (port_name x) n) (Z.to_nat (sw_ports_cnt s)) (sw_ports s)
  | _, _ => Ok None
  end.

(** [NOT_IMPLEMENTED] is a failed assertion. *)
Definition map_top_type_to_ide_type (type : Z) : res Z :=
  if type =? IDE_TEST_TOPOLOGY_TYPE_LINK_IDE then Ok TEST_IDE_TYPE_LNK_IDE
  else if type =? IDE_TEST_TOPOLOGY_TYPE_SEL_LINK_IDE then
    let* _ := TEEIO_ASSERT false in Ok TEST_IDE_TYPE_NA
  else Ok TEST_IDE_TYPE_SEL_IDE.

End TestConfig.
