(* ===== verification/Engine.v ===== *)
(** * The test engine (teeio_validator/ide_test.c, from the prepared suites on)

    [run] walks suites, configurations, groups and cases, and calls the
    functions of the test libraries through pointers.  A function pointer is the name
    of the function ([None] is a null pointer); what the functions do is a
    class parameter: given the context, the results so far and the state of the
    devices, a function makes a sequence of calls of the recording interface, may ask for
    the case to be skipped, and returns.  The model keeps a trace of these calls. *)
From Stdlib Require Import ZArith Lia Ascii String.
From stdpp Require Import prelude.
From S2P Require Import Prelude Utils Results TestConfig.
Import Results.

Open Scope Z_scope.
Open Scope teeio_scope.

Module Engine.

(** ** Prepared tests *)

Definition fptr : Type := option string.

Definition SIGNATURE_16 (A B : Z) : Z := Z.lor A (Z.shiftl B 8).
Definition SIGNATURE_32 (A B C D : Z) : Z := Z.lor (SIGNATURE_16 A B) (Z.shiftl (SIGNATURE_16 C D) 16).
Definition SUITE_CONTEXT_SIGNATURE : Z := SIGNATURE_32 (char "S") (char "U") (char "I") (char "T").
Definition GROUP_CONTEXT_SIGNATURE : Z := SIGNATURE_32 (char "G") (char "R") (char "O") (char "P").
Definition CASE_CONTEXT_SIGNATURE : Z := SIGNATURE_32 (char "C") (char "A") (char "S") (char "E").
Definition CONFIG_CONTEXT_SIGNATURE : Z := SIGNATURE_32 (char "C") (char "N") (char "F") (char "G").

Record ide_run_test_config_item_t := {
  item_category : Z;
  item_type : Z;
  enable_func : fptr;
  disable_func : fptr;
  support_func : fptr;
  check_func : fptr
}.

Record ide_run_test_config_t := {
  rtc_config_id : Z;
  rtc_name : bytes;
  rtc_signature : Z;      (* of its context *)
  rtc_top_type : Z;
  config_item : list ide_run_test_config_item_t
}.

Record ide_run_test_case_t := {
  tc_class : bytes;
  tc_name : bytes;
  tc_class_id : Z;
  tc_case_id : Z;
  tc_signature : Z;       (* of its context *)
  tc_skip : bool;         (* context->action is SKIP; cleared when allocated *)
  config_check_required : bool;
  run_func : fptr;
  setup_func : fptr;
  teardown_func : fptr
}.

(** A connection through a switch, with the ports it was resolved to. *)
Record ide_common_test_switch_internal_conn_context_t := {
  sc_switch_id : Z;
  sc_ups : TestConfig.IDE_PORT;
  sc_dps : TestConfig.IDE_PORT
}.

(** The fields of [teeio_common_test_group_context_t] that are set when the tests are prepared. *)
Record teeio_common_test_group_context_t := {
  gc_top : TestConfig.IDE_TEST_TOPOLOGY;
  gc_root_port : TestConfig.IDE_PORT;
  gc_upper_port : TestConfig.IDE_PORT;
  gc_lower_port : TestConfig.IDE_PORT;
  gc_sw_conn1 : list ide_common_test_switch_internal_conn_context_t;
  gc_sw_conn2 : list ide_common_test_switch_internal_conn_context_t
}.

Record ide_run_test_group_t := {
  tg_name : bytes;
  tg_signature : Z;       (* of its context *)
  tg_case_class : Z;
  tg_context : teeio_common_test_group_context_t;
  test_case : list ide_run_test_case_t;
  group_setup_func : fptr;
  group_teardown_func : fptr
}.

Record ide_run_test_suite_t := {
  ts_name : bytes;
  ts_signature : Z;       (* of its context *)
  ts_suite_id : Z;
  ts_category : Z;
  test_group : list ide_run_test_group_t;
  test_config : list ide_run_test_config_t
}.

(** ** The code behind the pointers *)

(** The calls of helperlib by which a test function reports. *)
Inductive record_op :=
| RecAssertion (cls id aid : Z) (ty : ide_common_test_case_assertion_type_t) (r : teeio_test_result_t) (msg : option bytes)
| RecConfigItem (id : Z) (f : teeio_test_config_func_t) (r : teeio_test_result_t)
| RecGroup (f : teeio_test_group_func_t) (r : teeio_test_result_t) (msg : option bytes).

Definition run_op (op : record_op) (st : state) : res (bool * state) :=
  match op with
  | RecAssertion cls id aid ty r msg => teeio_record_assertion_result cls id aid ty r msg st
  | RecConfigItem id f r => teeio_record_config_item_result id f r st
  | RecGroup f r msg => teeio_record_group_result f r msg st
  end.

(** What is passed to a function. *)
Inductive context :=
| CtxConfig (config_id case_class : Z)
| CtxGroup (config_id case_class : Z)
| CtxCase (class_id case_id : Z)
| CtxSpdm (class_id case_id : Z).

Record outcome (W : Type) := {
  out_ops : list record_op;
  out_ret : bool;
  out_skip : bool;        (* case_context->action = IDE_COMMON_TEST_ACTION_SKIP *)
  out_world : W
}.
Arguments out_ops {W}. Arguments out_ret {W}. Arguments out_skip {W}. Arguments out_world {W}.

Class TestCode (W : Type) := call_func : string → context → state → W → res (outcome W).

(** ** The engine *)

Inductive event :=
| EvConfig (f : teeio_test_config_func_t) (item : Z) (ret : bool)
| EvGroupSetup (ret : bool)
| EvGroupTeardown
| EvCaseSetup (cls id : Z) (ret : bool)
| EvCaseRun (cls id : Z)
| EvCaseTeardown (cls id : Z).

Section engine.
Context {W : Type} `{TestCode W}.

Record est := { es_world : W; es_results : state; es_trace : list event }.

Definition M (A : Type) : Type := est → res (A * est).
Definition ret {A} (a : A) : M A := λ e, Ok (a, e).
Definition bind {A B} (m : M A) (k : A → M B) : M B := λ e, let* r := m e in k (fst r) (snd r).
Definition lift {A} (r : res A) : M A := λ e, let* a := r in Ok (a, e).
Definition get_results : M state := λ e, Ok (es_results e, e).
Definition put_results (st : state) : M unit :=
  λ e, Ok (tt, {| es_world := es_world e; es_results := st; es_trace := es_trace e |}).

Local Notation "x ⇐ m ;; k" := (bind m (λ x, k)) (at level 100, m at next level, right associativity).
Local Notation "m ;;; k" := (bind m (λ _, k)) (at level 100, right associativity).

(** A function and its reports, in order: the value it returned and the skip request. *)
Definition invoke (f : string) (ctx : context) : M (bool * bool) := λ e,
  let* o := call_func f ctx (es_results e) (es_world e) in
  let* st := fold_res (λ op st, let* r := run_op op st in Ok (snd r)) (out_ops o) (es_results e) in
  Ok ((out_ret o, out_skip o), {| es_world := out_world o; es_results := st; es_trace := es_trace e |}).

Definition log (ev : event) : M unit :=
  λ e, Ok (tt, {| es_world := es_world e; es_results := es_results e; es_trace := es_trace e ++ [ev] |}).

(** A call through a pointer that is not null, with an event for the value returned. *)
Definition call (f : string) (ctx : context) (ev : bool → event) : M (bool * bool) :=
  r ⇐ invoke f ctx ;; log (ev (fst r)) ;;; ret r.

(** A direct call of the SPDM library, which asserts that the group of the case has an SPDM context. *)
Definition spdm_test_get_spdm_context_from_test_context (ctx : context) : M unit :=
  invoke "spdm_test_get_spdm_context_from_test_context" ctx ;;; ret tt.

(** [do { TEEIO_ASSERT(func); ret = func(context); item = item->next; } while (ret && item)] *)
Fixpoint run_config_items (kind : teeio_test_config_func_t) (func : ide_run_test_config_item_t → fptr)
    (ctx : context) (items : list ide_run_test_config_item_t) : M bool :=
  match items with
  | [] => lift (Stop Undefined)
  | it :: items =>
      match func it with
      | None => _ ⇐ lift (TEEIO_ASSERT false) ;; ret false
      | Some f =>
          r ⇐ call f ctx (EvConfig kind (item_type it)) ;;
          match items with
          | [] => ret (fst r)
          | _ => if fst r then run_config_items kind func ctx items else ret false
          end
      end
  end.

Definition do_run_test_config_support (rtc : ide_run_test_config_t) (ctx : context) : M bool :=
  run_config_items TEEIO_TEST_CONFIG_FUNC_SUPPORT support_func ctx (config_item rtc).
Definition do_run_test_config_enable (rtc : ide_run_test_config_t) (ctx : context) : M bool :=
  run_config_items TEEIO_TEST_CONFIG_FUNC_ENABLE enable_func ctx (config_item rtc).
Definition do_run_test_config_disable (rtc : ide_run_test_config_t) (ctx : context) : M bool :=
  run_config_items TEEIO_TEST_CONFIG_FUNC_DISABLE disable_func ctx (config_item rtc).
Definition do_run_test_config_check (rtc : ide_run_test_config_t) (ctx : context) : M bool :=
  run_config_items TEEIO_TEST_CONFIG_FUNC_CHECK check_func ctx (config_item rtc).

(** The label [TestCaseDone]. *)
Definition test_case_done (tc : ide_run_test_case_t) (rtc : ide_run_test_config_t) (ctx cctx : context) : M bool :=
  (match teardown_func tc with
   | Some f => _ ⇐ call f ctx (λ _, EvCaseTeardown (tc_class_id tc) (tc_case_id tc)) ;; ret tt
   | None => ret tt
   end) ;;;
  _ ⇐ do_run_test_config_disable rtc cctx ;;
  ret true.

(** From the setup on, when the configuration is enabled.  A SPDM test case
    gets a context of its own, so it cannot reach the action field. *)
Definition case_body (tc : ide_run_test_case_t) (rtc : ide_run_test_config_t) (spdm : bool) (ctx cctx : context) : M bool :=
  r ⇐ (match setup_func tc with
       | Some f => call f ctx (EvCaseSetup (tc_class_id tc) (tc_case_id tc))
       | None => ret (true, false)
       end) ;;
  if negb (fst r) then test_case_done tc rtc ctx cctx
  else if snd r && negb spdm then test_case_done tc rtc ctx cctx
  else
    (match run_func tc with
     | Some f => _ ⇐ call f ctx (λ _, EvCaseRun (tc_class_id tc) (tc_case_id tc)) ;; ret tt
     | None => ret tt
     end) ;;;
    (if config_check_required tc then _ ⇐ do_run_test_config_check rtc cctx ;; ret tt else ret tt) ;;;
    test_case_done tc rtc ctx cctx.

Definition do_run_test_case (tc : ide_run_test_case_t) (rtc : ide_run_test_config_t) (test_category : Z)
    (cctx : context) : M bool :=
  lift (TEEIO_ASSERT (tc_signature tc =? CASE_CONTEXT_SIGNATURE)) ;;;
  let spdm := test_category =? TestConfig.TEEIO_TEST_CATEGORY_SPDM in
  let ctx := if spdm then CtxSpdm (tc_class_id tc) (tc_case_id tc) else CtxCase (tc_class_id tc) (tc_case_id tc) in
  (if spdm then spdm_test_get_spdm_context_from_test_context (CtxCase (tc_class_id tc) (tc_case_id tc)) else ret tt) ;;;
  if tc_skip tc then ret true else
  supported ⇐ do_run_test_config_support rtc cctx ;;
  if negb supported then ret true else
  enabled ⇐ do_run_test_config_enable rtc cctx ;;
  if negb enabled then ret true else
  case_body tc rtc spdm ctx cctx.

(** One round of the loop over the cases of a group. *)
Definition run_one_case (tc : ide_run_test_case_t) (setup_result : bool) (rtc : ide_run_test_config_t)
    (pg : nat * nat * nat) (test_category : Z) (cctx : context) : M unit :=
  st ⇐ get_results ;;
  r ⇐ lift (alloc_run_test_case_result pg (tc_name tc) (tc_class tc) (tc_class_id tc) (tc_case_id tc) st) ;;
  put_results (set_current_case (Some (fst r)) (snd r)) ;;;
  (if setup_result then _ ⇐ do_run_test_case tc rtc test_category cctx ;; ret tt else ret tt) ;;;
  st ⇐ get_results ;;
  put_results (set_current_case None st).

Fixpoint run_cases (tcs : list ide_run_test_case_t) (setup_result : bool) (rtc : ide_run_test_config_t)
    (pg : nat * nat * nat) (test_category : Z) (cctx : context) : M unit :=
  match tcs with
  | [] => ret tt
  | tc :: tcs =>
      run_one_case tc setup_result rtc pg test_category cctx ;;;
      run_cases tcs setup_result rtc pg test_category cctx
  end.

Definition do_run_test_group (tg : ide_run_test_group_t) (rtc : ide_run_test_config_t)
    (pg : nat * nat * nat) (test_category : Z) : M bool :=
  lift (TEEIO_ASSERT (tg_signature tg =? GROUP_CONTEXT_SIGNATURE)) ;;;
  lift (TEEIO_ASSERT (rtc_signature rtc =? CONFIG_CONTEXT_SIGNATURE)) ;;;
  let gctx := CtxGroup (rtc_config_id rtc) (tg_case_class tg) in
  let cctx := CtxConfig (rtc_config_id rtc) (tg_case_class tg) in
  match test_case tg with
  | [] => ret true
  | _ =>
      setup ⇐ lift (match group_setup_func tg with Some f => Ok f | None => Stop AssertHang end) ;;
      r ⇐ call setup gctx EvGroupSetup ;;
      run_cases (test_case tg) (fst r) rtc pg test_category cctx ;;;
      (if fst r then
         f ⇐ lift (deref (group_teardown_func tg)) ;;
         _ ⇐ call f gctx (λ _, EvGroupTeardown) ;; ret tt
       else ret tt) ;;;
      ret true
  end.

(** One round of the inner loop of [do_run_test_suite]. *)
Definition run_one_group (tg : ide_run_test_group_t) (rtc : ide_run_test_config_t) (pc : nat * nat)
    (test_category : Z) : M unit :=
  st ⇐ get_results ;;
  r ⇐ lift (alloc_run_test_group_result pc (tg_name tg) st) ;;
  put_results (set_current_group (Some (fst r)) (snd r)) ;;;
  _ ⇐ do_run_test_group tg rtc (fst r) test_category ;;
  st ⇐ get_results ;;
  put_results (set_current_group None st).

Fixpoint run_groups (tgs : list ide_run_test_group_t) (rtc : ide_run_test_config_t) (pc : nat * nat)
    (test_category : Z) : M unit :=
  match tgs with
  | [] => ret tt
  | tg :: tgs => run_one_group tg rtc pc test_category ;;; run_groups tgs rtc pc test_category
  end.

(** One round of the outer loop, with what is left of the groups. *)
Definition run_one_config (rtc : ide_run_test_config_t) (tgs : list ide_run_test_group_t) (s : nat)
    (test_category : Z) : M unit :=
  st ⇐ get_results ;;
  r ⇐ lift (alloc_run_test_config_result s (rtc_config_id rtc) (rtc_name rtc) st) ;;
  put_results (set_current_config (Some (fst r)) (snd r)) ;;;
  run_groups tgs rtc (fst r) test_category ;;;
  st ⇐ get_results ;;
  put_results (set_current_config None st).

(** [run_test_group] is not set back to the first group: the
    configurations after the first one find it null. *)
Fixpoint run_configs (rtcs : list ide_run_test_config_t) (tgs : list ide_run_test_group_t) (s : nat)
    (test_category : Z) : M unit :=
  match rtcs with
  | [] => ret tt
  | rtc :: rtcs => run_one_config rtc tgs s test_category ;;; run_configs rtcs [] s test_category
  end.

Definition do_run_test_suite (s : nat) (ts : ide_run_test_suite_t) : M bool :=
  lift (TEEIO_ASSERT (ts_signature ts =? SUITE_CONTEXT_SIGNATURE)) ;;;
  run_configs (test_config ts) (test_group ts) s (ts_category ts) ;;;
  ret true.

Fixpoint run_suites (s : nat) (tss : list ide_run_test_suite_t) : M unit :=
  match tss with
  | [] => ret tt
  | ts :: tss => _ ⇐ do_run_test_suite s ts ;; run_suites (S s) tss
  end.

(** The results and globals before the first suite. *)
Definition initial_results (tss : list ide_run_test_suite_t) : state :=
  {| suites := replicate (length tss) []; g_current_config_result := None;
     g_current_group_result := None; g_current_case_result := None |}.

(** ** What a run may call

    The calls of one pass over the configuration items: they stop at the
    first that returns false. *)
Inductive items_trace (kind : teeio_test_config_func_t) :
  list ide_run_test_config_item_t → bool → list event → Prop :=
| items_last it b : items_trace kind [it] b [EvConfig kind (item_type it) b]
| items_stop it its : its ≠ [] → items_trace kind (it :: its) false [EvConfig kind (item_type it) false]
| items_more it its b tr :
    items_trace kind its b tr → items_trace kind (it :: its) b (EvConfig kind (item_type it) true :: tr).

Definition opt_event (f : fptr) (ev : event) : list event := match f with Some _ => [ev] | None => [] end.

(** What follows [TestCaseDone]: the teardown, then the configuration is disabled. *)
Inductive done_trace (tc : ide_run_test_case_t) (rtc : ide_run_test_config_t) : list event → Prop :=
| done_intro b tr :
    items_trace TEEIO_TEST_CONFIG_FUNC_DISABLE (config_item rtc) b tr →
    done_trace tc rtc (opt_event (teardown_func tc) (EvCaseTeardown (tc_class_id tc) (tc_case_id tc)) ++ tr).

Inductive case_trace (tc : ide_run_test_case_t) (rtc : ide_run_test_config_t) : list event → Prop :=
| case_skipped : tc_skip tc = true → case_trace tc rtc []
| case_unsupported t1 :
    items_trace TEEIO_TEST_CONFIG_FUNC_SUPPORT (config_item rtc) false t1 → case_trace tc rtc t1
| case_not_enabled t1 t2 :
    items_trace TEEIO_TEST_CONFIG_FUNC_SUPPORT (config_item rtc) true t1 →
    items_trace TEEIO_TEST_CONFIG_FUNC_ENABLE (config_item rtc) false t2 →
    case_trace tc rtc (t1 ++ t2)
| case_not_run t1 t2 b t3 :
    items_trace TEEIO_TEST_CONFIG_FUNC_SUPPORT (config_item rtc) true t1 →
    items_trace TEEIO_TEST_CONFIG_FUNC_ENABLE (config_item rtc) true t2 →
    setup_func tc ≠ None → done_trace tc rtc t3 →
    case_trace tc rtc (t1 ++ t2 ++ [EvCaseSetup (tc_class_id tc) (tc_case_id tc) b] ++ t3)
| case_ran t1 t2 t3 t4 :
    items_trace TEEIO_TEST_CONFIG_FUNC_SUPPORT (config_item rtc) true t1 →
    items_trace TEEIO_TEST_CONFIG_FUNC_ENABLE (config_item rtc) true t2 →
    (if config_check_required tc
     then ∃ b, items_trace TEEIO_TEST_CONFIG_FUNC_CHECK (config_item rtc) b t3 else t3 = []) →
    done_trace tc rtc t4 →
    case_trace tc rtc
      (t1 ++ t2 ++ opt_event (setup_func tc) (EvCaseSetup (tc_class_id tc) (tc_case_id tc) true)
          ++ opt_event (run_func tc) (EvCaseRun (tc_class_id tc) (tc_case_id tc)) ++ t3 ++ t4).

Inductive cases_trace (rtc : ide_run_test_config_t) : list ide_run_test_case_t → list event → Prop :=
| cases_nil : cases_trace rtc [] []
| cases_cons tc tcs t1 t2 : case_trace tc rtc t1 → cases_trace rtc tcs t2 → cases_trace rtc (tc :: tcs) (t1 ++ t2).

Inductive group_trace (rtc : ide_run_test_config_t) (tg : ide_run_test_group_t) : list event → Prop :=
| group_empty : test_case tg = [] → group_trace rtc tg []
| group_setup_failed : test_case tg ≠ [] → group_trace rtc tg [EvGroupSetup false]
| group_ran t :
    test_case tg ≠ [] → cases_trace rtc (test_case tg) t →
    group_trace rtc tg ([EvGroupSetup true] ++ t ++ [EvGroupTeardown]).

Inductive groups_trace (rtc : ide_run_test_config_t) : list ide_run_test_group_t → list event → Prop :=
| groups_nil : groups_trace rtc [] []
| groups_cons tg tgs t1 t2 : group_trace rtc tg t1 → groups_trace rtc tgs t2 → groups_trace rtc (tg :: tgs) (t1 ++ t2).

(** Only the first configuration of a suite sees the groups. *)
Definition suite_trace (ts : ide_run_test_suite_t) (tr : list event) : Prop :=
  match test_config ts with [] => tr = [] | rtc :: _ => groups_trace rtc (test_group ts) tr end.

Inductive suites_trace : list ide_run_test_suite_t → list event → Prop :=
| suites_nil : suites_trace [] []
| suites_cons ts tss t1 t2 : suite_trace ts t1 → suites_trace tss t2 → suites_trace (ts :: tss) (t1 ++ t2).

(** ** What the engine needs of its environment *)

(** A reported assertion names the current case. *)
Definition op_ok (st : state) (op : record_op) : Prop :=
  match op with
  | RecAssertion cls id _ _ _ _ =>
      ∃ p cr, g_current_case_result st = Some p ∧ get_case p st = Some cr ∧ class_id cr = cls ∧ case_id cr = id
  | _ => True
  end.

(** Only assertions of type TEST pass or fail. *)
Definition op_typed (op : record_op) : Prop :=
  match op with
  | RecAssertion _ _ _ ty r _ => r = TEEIO_TEST_RESULT_NOT_TESTED ∨ ty = IDE_COMMON_TEST_CASE_ASSERTION_TYPE_TEST
  | _ => True
  end.

Definition well_behaved : Prop :=
  ∀ f ctx st w, wf st → ∃ o, call_func f ctx st w = Ok o ∧ Forall (op_ok st) (out_ops o).

(** The prepared data the asserts and dereferences rely on. *)
Definition config_ready (rtc : ide_run_test_config_t) : Prop :=
  rtc_signature rtc = CONFIG_CONTEXT_SIGNATURE ∧ config_item rtc ≠ [] ∧
  Forall (λ it, support_func it ≠ None ∧ enable_func it ≠ None ∧ disable_func it ≠ None) (config_item rtc).

Definition case_ready (rtc : ide_run_test_config_t) (tc : ide_run_test_case_t) : Prop :=
  tc_signature tc = CASE_CONTEXT_SIGNATURE ∧
  (config_check_required tc = true → Forall (λ it, check_func it ≠ None) (config_item rtc)).

Definition group_ready (rtc : ide_run_test_config_t) (tg : ide_run_test_group_t) : Prop :=
  tg_signature tg = GROUP_CONTEXT_SIGNATURE ∧ group_setup_func tg ≠ None ∧ group_teardown_func tg ≠ None ∧
  Forall (case_ready rtc) (test_case tg).

Definition suite_ready (ts : ide_run_test_suite_t) : Prop :=
  ts_signature ts = SUITE_CONTEXT_SIGNATURE ∧
  match test_config ts with [] => True | rtc :: _ => config_ready rtc ∧ Forall (group_ready rtc) (test_group ts) end.

(** ** Lemmas *)

(** Nothing but reports and calls happened. *)
Definition quiet (e e' : est) (tr : list event) : Prop :=
  keeps (es_results e) (es_results e') ∧ shape (es_results e') = shape (es_results e) ∧
  es_trace e' = es_trace e ++ tr.

Lemma quiet_refl e : wf (es_results e) → quiet e e [].
Proof. intros Hw. split; [by apply keeps_refl|]. by rewrite app_nil_r. Qed.

Lemma quiet_trans e1 e2 e3 t1 t2 : quiet e1 e2 t1 → quiet e2 e3 t2 → quiet e1 e3 (t1 ++ t2).
Proof.
  intros (K1 & S1 & T1) (K2 & S2 & T2). split; [by eapply keeps_trans|]. split; [congruence|].
  by rewrite T2, T1, app_assoc.
Qed.

Lemma quiet_wf e e' tr : quiet e e' tr → wf (es_results e').
Proof. by intros ((? & _) & _). Qed.

Lemma op_ok_keeps st st' op : keeps st st' → shape st' = shape st → op_ok st op → op_ok st' op.
Proof.
  intros (_ & Hle & (_ & _ & Hk)) Hs. destruct op; simpl; try done.
  intros (p & cr & Hp & Hcr & Hc & Hi). exists p.
  destruct (live_case st st' p Hle) as [cr' Hcr']; [eauto|]. exists cr'.
  rewrite Hk. split_and!; try done.
  all: destruct p as [[[s c] g] k]; pose proof (get_case_shape st s c g k) as E1;
    pose proof (get_case_shape st' s c g k) as E2; rewrite Hs, <- E1, Hcr, Hcr' in E2; simpl in E2;
    unfold case_shape in E2; congruence.
Qed.

Lemma run_op_keeps op st :
  wf st → op_ok st op → ∃ b st', run_op op st = Ok (b, st') ∧ keeps st st' ∧ shape st' = shape st.
Proof.
  intros Hw Hop. destruct op as [cls id aid ty r msg|id f r|f r msg]; simpl.
  - destruct Hop as (p & cr & Hp & Hcr & Hc & Hi). destruct (current_path st p) as (s & c & g & k & cr' & -> & Hg & Hco & Hk).
    { apply Hw. } { done. }
    rewrite Hcr in Hk. injection Hk as ->.
    pose proof (record_assertion_update cls id aid ty r msg st s c g k cr' Hp Hg Hco Hcr Hc Hi) as Hr.
    eexists _, _. split; [exact Hr|]. split; [by eapply record_assertion_keeps|by eapply record_assertion_shape].
  - destruct (record_config_item_total id f r st Hw) as (b & st' & Hr). eexists _, _. split; [exact Hr|].
    split; [by eapply record_config_item_keeps|by eapply record_config_item_shape].
  - destruct (record_group_total f r msg st Hw) as (b & st' & Hr). eexists _, _. split; [exact Hr|].
    split; [by eapply record_group_keeps|by eapply record_group_shape].
Qed.

Lemma run_ops_keeps ops st :
  wf st → Forall (op_ok st) ops →
  ∃ st', fold_res (λ op st, let* r := run_op op st in Ok (snd r)) ops st = Ok st' ∧
         keeps st st' ∧ shape st' = shape st.
Proof.
  revert st. induction ops as [|op ops IH]; intros st Hw Hops; simpl.
  - exists st. split; [done|]. split; [by apply keeps_refl|done].
  - apply Forall_cons in Hops as [Hop Hops].
    destruct (run_op_keeps op st Hw Hop) as (b & st1 & -> & K1 & S1). simpl.
    destruct (IH st1) as (st2 & -> & K2 & S2).
    { apply K1. }
    { eapply Forall_impl; [exact Hops|]. intros o. by apply op_ok_keeps. }
    exists st2. split; [done|]. split; [by eapply keeps_trans|congruence].
Qed.

Hypothesis Hwb : well_behaved.

Lemma invoke_spec f ctx e :
  wf (es_results e) → ∃ b sk e', invoke f ctx e = Ok ((b, sk), e') ∧ quiet e e' [].
Proof.
  intros Hw. unfold invoke. destruct (Hwb f ctx (es_results e) (es_world e) Hw) as (o & -> & Hops). simpl.
  destruct (run_ops_keeps _ _ Hw Hops) as (st' & -> & K & S). simpl. eexists _, _, _. split; [done|].
  split; [done|]. split; [done|]. by rewrite app_nil_r.
Qed.

Lemma call_spec f ctx ev e :
  wf (es_results e) → ∃ b sk e', call f ctx ev e = Ok ((b, sk), e') ∧ quiet e e' [ev b].
Proof.
  intros Hw. unfold call, bind at 1. destruct (invoke_spec f ctx e Hw) as (b & sk & e' & -> & K & S & T).
  cbn [res_bind fst snd]. unfold bind, log, ret. cbn [res_bind fst snd]. eexists _, _, _. split; [done|].
  split; [exact K|]. split; [exact S|]. cbn. by rewrite T, app_nil_r.
Qed.

Lemma spdm_context_spec (spdm : bool) ctx e :
  wf (es_results e) →
  ∃ e', (if spdm then spdm_test_get_spdm_context_from_test_context ctx else ret tt) e = Ok (tt, e') ∧ quiet e e' [].
Proof.
  intros Hw. destruct spdm; [|exists e; split; [done|by apply quiet_refl]].
  unfold spdm_test_get_spdm_context_from_test_context, bind, ret.
  destruct (invoke_spec "spdm_test_get_spdm_context_from_test_context" ctx e Hw) as (b & sk & e' & -> & Q). by exists e'.
Qed.

Lemma run_config_items_spec kind func ctx items e :
  wf (es_results e) → items ≠ [] → Forall (λ it, func it ≠ None) items →
  ∃ b e' tr, run_config_items kind func ctx items e = Ok (b, e') ∧ quiet e e' tr ∧ items_trace kind items b tr.
Proof.
  revert e. induction items as [|it items IH]; intros e Hw Hne Hf; [done|].
  apply Forall_cons in Hf as [Hit Hf]. simpl. destruct (func it) as [f|]; [|done].
  unfold bind. destruct (call_spec f ctx (EvConfig kind (item_type it)) e Hw) as (b & sk & e1 & -> & Q1). simpl.
  destruct items as [|it2 items]; [eexists _, _, _; split; [done|]; split; [exact Q1|constructor]|].
  destruct b.
  - destruct (IH e1 (quiet_wf _ _ _ Q1)) as (b & e2 & tr & -> & Q2 & T); [done|done|].
    eexists _, _, _. split; [done|]. split; [by eapply quiet_trans|]. by constructor.
  - eexists _, _, _. split; [done|]. split; [exact Q1|by constructor].
Qed.

(** A call through a pointer that may be null. *)
Lemma opt_call_spec (f : fptr) ctx ev e :
  wf (es_results e) →
  ∃ e', (match f with Some f => _ ⇐ call f ctx (λ _, ev) ;; ret tt | None => ret tt end) e = Ok (tt, e') ∧
        quiet e e' (opt_event f ev).
Proof.
  intros Hw. destruct f as [f|]; [|eexists; split; [done|by apply quiet_refl]].
  unfold bind. destruct (call_spec f ctx (λ _, ev) e Hw) as (b & sk & e1 & -> & Q). simpl. eauto.
Qed.

Lemma test_case_done_spec tc rtc ctx cctx e :
  wf (es_results e) → config_ready rtc →
  ∃ e' tr, test_case_done tc rtc ctx cctx e = Ok (true, e') ∧ quiet e e' tr ∧ done_trace tc rtc tr.
Proof.
  intros Hw (_ & Hne & Hf). unfold test_case_done. unfold bind at 1.
  destruct (opt_call_spec (teardown_func tc) ctx (EvCaseTeardown (tc_class_id tc) (tc_case_id tc)) e Hw)
    as (e1 & -> & Q1). simpl. unfold bind, do_run_test_config_disable.
  destruct (run_config_items_spec TEEIO_TEST_CONFIG_FUNC_DISABLE disable_func cctx (config_item rtc) e1)
    as (b & e2 & tr & -> & Q2 & T2); [by eapply quiet_wf|done| |].
  { eapply Forall_impl; [exact Hf|]. by intros it (_ & _ & ?). }
  simpl. eexists _, _. split; [done|]. split; [by eapply quiet_trans|]. by econstructor.
Qed.

(** The setup function, if there is one. *)
Lemma setup_spec tc ctx e :
  wf (es_results e) →
  ∃ b sk e', (match setup_func tc with
      | Some f => call f ctx (EvCaseSetup (tc_class_id tc) (tc_case_id tc)) | None => ret (true, false) end) e
      = Ok ((b, sk), e') ∧
    quiet e e' (opt_event (setup_func tc) (EvCaseSetup (tc_class_id tc) (tc_case_id tc) b)) ∧
    (setup_func tc = None → b = true ∧ sk = false).
Proof.
  intros Hw. destruct (setup_func tc) as [f|].
  - destruct (call_spec f ctx (EvCaseSetup (tc_class_id tc) (tc_case_id tc)) e Hw) as (b & sk & e3 & Hc & Q).
    by eexists _, _, _.
  - eexists _, _, _. split; [done|]. split; [|done]. by apply quiet_refl.
Qed.

(** The check of the configuration, if the case asks for it. *)
Lemma check_spec tc rtc cctx e :
  wf (es_results e) → config_ready rtc → case_ready rtc tc →
  ∃ e' t, (if config_check_required tc then _ ⇐ do_run_test_config_check rtc cctx ;; ret tt else ret tt) e
       = Ok (tt, e') ∧ quiet e e' t ∧
       (if config_check_required tc
        then ∃ b, items_trace TEEIO_TEST_CONFIG_FUNC_CHECK (config_item rtc) b t else t = []).
Proof.
  intros Hw (_ & Hne & _) [_ Hchk]. destruct (config_check_required tc).
  - unfold bind, do_run_test_config_check.
    destruct (run_config_items_spec TEEIO_TEST_CONFIG_FUNC_CHECK check_func cctx (config_item rtc) e)
      as (b & e5 & t5 & -> & Q5 & T5); auto. simpl. eauto 10.
  - eexists _, _. split; [done|]. split; [|done]. by apply quiet_refl.
Qed.

Lemma case_body_spec tc rtc spdm ctx cctx e t1 t2 :
  wf (es_results e) → config_ready rtc → case_ready rtc tc →
  items_trace TEEIO_TEST_CONFIG_FUNC_SUPPORT (config_item rtc) true t1 →
  items_trace TEEIO_TEST_CONFIG_FUNC_ENABLE (config_item rtc) true t2 →
  ∃ e' tr, case_body tc rtc spdm ctx cctx e = Ok (true, e') ∧ quiet e e' tr ∧ case_trace tc rtc (t1 ++ t2 ++ tr).
Proof.
  intros Hw Hcfg Hcase T1 T2. unfold case_body. unfold bind at 1.
  destruct (setup_spec tc ctx e Hw) as (b3 & sk & e3 & -> & Q3 & Hnone). cbn [res_bind fst snd].
  assert (Hdone : setup_func tc ≠ None → ∃ e' tr, test_case_done tc rtc ctx cctx e3 = Ok (true, e') ∧
                                                  quiet e e' tr ∧ case_trace tc rtc (t1 ++ t2 ++ tr)).
  { intros Hs. destruct (test_case_done_spec tc rtc ctx cctx e3 (quiet_wf _ _ _ Q3) Hcfg) as (e4 & t4 & -> & Q4 & T4).
    eexists _, _. split; [done|]. split; [exact (quiet_trans _ _ _ _ _ Q3 Q4)|].
    destruct (setup_func tc) eqn:E; [|done]. apply (case_not_run tc rtc t1 t2 b3 t4); [done|done|congruence|done]. }
  destruct b3; cbn [negb]; [|apply Hdone; intros E; by destruct (Hnone E)].
  destruct (sk && _) eqn:Eskip; [apply Hdone; intros E; destruct (Hnone E) as [_ ->]; done|].
  unfold bind at 1.
  destruct (opt_call_spec (run_func tc) ctx (EvCaseRun (tc_class_id tc) (tc_case_id tc)) e3 (quiet_wf _ _ _ Q3))
    as (e4 & -> & Q4). cbn [res_bind fst snd]. unfold bind at 1.
  destruct (check_spec tc rtc cctx e4 (quiet_wf _ _ _ Q4) Hcfg Hcase) as (e5 & t5 & -> & Q5 & T5). cbn [res_bind fst snd].
  destruct (test_case_done_spec tc rtc ctx cctx e5 (quiet_wf _ _ _ Q5) Hcfg) as (e6 & t6 & -> & Q6 & T6).
  eexists _, _. split; [done|]. split.
  - exact (quiet_trans _ _ _ _ _ Q3 (quiet_trans _ _ _ _ _ Q4 (quiet_trans _ _ _ _ _ Q5 Q6))).
  - by apply case_ran.
Qed.

Lemma do_run_test_case_spec tc rtc cat cctx e :
  wf (es_results e) → config_ready rtc → case_ready rtc tc →
  ∃ e' tr, do_run_test_case tc rtc cat cctx e = Ok (true, e') ∧ quiet e e' tr ∧ case_trace tc rtc tr.
Proof.
  intros Hw Hcfg Hcase. pose proof Hcfg as (_ & Hne & Hf). pose proof Hcase as [Hsig _].
  unfold do_run_test_case. unfold bind at 1, lift. rewrite Hsig, Z.eqb_refl. cbn [TEEIO_ASSERT res_bind fst snd].
  set (ctx := if _ =? _ then CtxSpdm _ _ else _). unfold bind at 1.
  destruct (spdm_context_spec (cat =? TestConfig.TEEIO_TEST_CATEGORY_SPDM) (CtxCase (tc_class_id tc) (tc_case_id tc)) e Hw)
    as (e0 & -> & Q0). cbn [res_bind fst snd].
  destruct (tc_skip tc) eqn:Esk; [eexists _, _; split; [done|]; split; [exact Q0|by constructor]|].
  unfold bind at 1, do_run_test_config_support.
  destruct (run_config_items_spec TEEIO_TEST_CONFIG_FUNC_SUPPORT support_func cctx (config_item rtc) e0 (quiet_wf _ _ _ Q0) Hne)
    as (b1 & e1 & t1 & -> & Q1' & T1); [eapply Forall_impl; [exact Hf|]; by intros it (? & _ & _)|].
  pose proof (quiet_trans _ _ _ _ _ Q0 Q1') as Q1. cbn [app] in Q1.
  cbn [res_bind fst snd]. destruct b1; cbn [negb]; [|eexists _, _; split; [done|]; split; [done|by apply case_unsupported]].
  unfold bind at 1, do_run_test_config_enable.
  destruct (run_config_items_spec TEEIO_TEST_CONFIG_FUNC_ENABLE enable_func cctx (config_item rtc) e1)
    as (b2 & e2 & t2 & -> & Q2 & T2); [by eapply quiet_wf|done|eapply Forall_impl; [exact Hf|]; by intros it (_ & ? & _)|].
  cbn [res_bind fst snd]. pose proof (quiet_trans _ _ _ _ _ Q1 Q2) as Q12.
  destruct b2; cbn [negb]; [|eexists _, _; split; [done|]; split; [exact Q12|by apply case_not_enabled]].
  destruct (case_body_spec tc rtc (cat =? TestConfig.TEEIO_TEST_CATEGORY_SPDM) ctx cctx e2 t1 t2)
    as (e3 & t3 & Hb & Q3 & T3); [by eapply quiet_wf|done|done|done|done|].
  exists e3, ((t1 ++ t2) ++ t3). split; [exact Hb|]. split; [by eapply quiet_trans|]. by rewrite <- app_assoc.
Qed.

(** *** Loops *)

Definition case_ids (tc : ide_run_test_case_t) : Z * Z := (tc_class_id tc, tc_case_id tc).

(** The state between two cases of the group [(s, c, g)]. *)
Definition at_group (st : state) (s c g : nat) : Prop :=
  wf st ∧ g_current_config_result st = Some (s, c) ∧ g_current_group_result st = Some (s, c, g) ∧
  g_current_case_result st = None.

Lemma tree_le_current st st' p : tree_le (set_current_case p st) st' ↔ tree_le st st'.
Proof. done. Qed.

Lemma run_one_case_spec tc setup rtc s c g cat cctx e :
  at_group (es_results e) s c g → config_ready rtc → case_ready rtc tc →
  ∃ e' tr, run_one_case tc setup rtc (s, c, g) cat cctx e = Ok (tt, e') ∧
    at_group (es_results e') s c g ∧ tree_le (es_results e) (es_results e') ∧
    shape (es_results e') =
      alter (alter (λ x, (fst x, alter (λ l, l ++ [case_ids tc]) g (snd x))) c) s (shape (es_results e)) ∧
    es_trace e' = es_trace e ++ tr ∧ (if setup then case_trace tc rtc tr else tr = []).
Proof.
  intros (Hw & Hpc & Hpg & Hpk) Hcfg Hc.
  assert (Hgr : ∃ gr, get_group (s, c, g) (es_results e) = Some gr).
  { destruct Hw as [_ (_ & Hg & _)]. rewrite Hpg in Hg. apply Hg. }
  destruct Hgr as (gr & Hgr). unfold run_one_case.
  unfold bind at 1, get_results. cbn [res_bind fst snd]. unfold bind at 1, lift.
  destruct (alloc_case_spec s c g gr (tc_name tc) (tc_class tc) (tc_class_id tc) (tc_case_id tc) (es_results e) Hw Hgr Hpc Hpg)
    as (st1 & Ha & Hle1 & (Hs1 & Hs2 & Hs3) & Hw1 & _). rewrite Ha. cbn [res_bind fst snd].
  apply alloc_case_shape in Ha as Hsh1. unfold bind at 1, put_results. cbn [res_bind fst snd].
  set (e1 := {| es_world := es_world e |}).
  assert (Hrun : ∃ e2 t, (if setup then _ ⇐ do_run_test_case tc rtc cat cctx ;; ret tt else ret tt) e1 = Ok (tt, e2) ∧
            quiet e1 e2 t ∧ (if setup then case_trace tc rtc t else t = [])).
  { destruct setup; [|eexists _, _; split; [done|]; split; [by apply quiet_refl|done]].
    unfold bind. destruct (do_run_test_case_spec tc rtc cat cctx e1 Hw1 Hcfg Hc) as (e2 & t & -> & Q & T).
    simpl. eauto. }
  destruct Hrun as (e2 & t & Hr & ((Hw2 & Hle2 & (Hp1 & Hp2 & _)) & Hsh2 & Htr) & T).
  unfold bind at 1. rewrite Hr. cbn. simpl in Hp1, Hp2. eexists _, t. split; [done|]. cbn [es_results es_trace].
  split_and!; [| |transitivity (shape (es_results e2)); [done|by rewrite Hsh2]|done|done].
  - split; [by apply clear_case_wf|]. simpl. rewrite Hp1, Hp2, Hs1, Hs2. done.
  - transitivity st1; [done|]. exact Hle2.
Qed.

Lemma run_cases_spec tcs setup rtc s c g cat cctx e :
  at_group (es_results e) s c g → config_ready rtc → Forall (case_ready rtc) tcs →
  ∃ e' tr, run_cases tcs setup rtc (s, c, g) cat cctx e = Ok (tt, e') ∧
    at_group (es_results e') s c g ∧ tree_le (es_results e) (es_results e') ∧
    shape (es_results e') =
      alter (alter (λ x, (fst x, alter (λ l, l ++ map case_ids tcs) g (snd x))) c) s (shape (es_results e)) ∧
    es_trace e' = es_trace e ++ tr ∧ (if setup then cases_trace rtc tcs tr else tr = []).
Proof.
  revert e. induction tcs as [|tc tcs IH]; intros e Hat Hcfg Hcs; simpl.
  { exists e, []. split; [done|]. split; [done|]. split; [done|]. split.
    - symmetry. apply alter_id. intros x. apply alter_id. intros [i gs]. simpl. f_equal.
      apply alter_id. intros l. by rewrite app_nil_r.
    - rewrite app_nil_r. split; [done|]. destruct setup; [constructor|done]. }
  apply Forall_cons in Hcs as [Hc Hcs].
  destruct (run_one_case_spec tc setup rtc s c g cat cctx e Hat Hcfg Hc) as (e1 & t1 & Hr1 & Hat1 & Hle1 & Hsh1 & Htr1 & T1).
  destruct (IH e1 Hat1 Hcfg Hcs) as (e2 & t2 & Hr2 & Hat2 & Hle2 & Hsh2 & Htr2 & T2).
  exists e2, (t1 ++ t2). unfold bind. rewrite Hr1. cbn [res_bind fst snd]. split; [done|].
  split; [done|]. split; [by transitivity (es_results e1)|]. split; [|split].
  - rewrite Hsh2, Hsh1, list_alter_alter_eq. apply (list_alter_ext _ _ _ _ s); [|done]. intros cs _. simpl.
    rewrite list_alter_alter_eq. apply (list_alter_ext _ _ _ _ c); [|done]. intros [i gs] _. simpl. f_equal.
    rewrite list_alter_alter_eq. apply (list_alter_ext _ _ _ _ g); [|done]. intros l _. simpl. by rewrite <- app_assoc.
  - by rewrite Htr2, Htr1, app_assoc.
  - destruct setup; [by constructor|by subst].
Qed.

Lemma do_run_test_group_spec tg rtc s c g cat e :
  at_group (es_results e) s c g → config_ready rtc → group_ready rtc tg →
  ∃ e' tr, do_run_test_group tg rtc (s, c, g) cat e = Ok (true, e') ∧
    at_group (es_results e') s c g ∧ tree_le (es_results e) (es_results e') ∧
    shape (es_results e') =
      alter (alter (λ x, (fst x, alter (λ l, l ++ map case_ids (test_case tg)) g (snd x))) c) s (shape (es_results e)) ∧
    es_trace e' = es_trace e ++ tr ∧ group_trace rtc tg tr.
Proof.
  intros Hat Hcfg (Hsig & Hset & Htd & Hcs). unfold do_run_test_group. destruct Hcfg as [Hcs' Hcfg'].
  unfold bind at 1, lift. rewrite Hsig, Z.eqb_refl. cbn [TEEIO_ASSERT res_bind fst snd].
  unfold bind at 1. rewrite Hcs', Z.eqb_refl. cbn [TEEIO_ASSERT res_bind fst snd].
  destruct (test_case tg) as [|tc tcs] eqn:Etc.
  { exists e, []. split; [done|]. split; [done|]. split; [done|]. split.
    - symmetry. apply alter_id. intros x. apply alter_id. intros [i gs]. simpl. f_equal.
      apply alter_id. intros l. by rewrite app_nil_r.
    - rewrite app_nil_r. split; [done|by constructor]. }
  destruct (group_setup_func tg) as [f|]; [|done]. unfold bind at 1. cbn [res_bind fst snd]. unfold bind at 1.
  destruct (call_spec f (CtxGroup (rtc_config_id rtc) (tg_case_class tg)) EvGroupSetup e ltac:(apply Hat))
    as (b & sk & e1 & -> & ((Hw1 & Hle1 & (Hp1 & Hp2 & Hp3)) & Hsh1 & Htr1)). cbn [res_bind fst snd].
  assert (Hat1 : at_group (es_results e1) s c g).
  { destruct Hat as (_ & H1 & H2 & H3). split; [done|]. by rewrite Hp1, Hp2, Hp3. }
  unfold bind at 1.
  destruct (run_cases_spec (tc :: tcs) b rtc s c g cat (CtxConfig (rtc_config_id rtc) (tg_case_class tg)) e1 Hat1
              (conj Hcs' Hcfg') Hcs) as (e2 & t2 & -> & Hat2 & Hle2 & Hsh2 & Htr2 & T2). cbn [res_bind fst snd].
  destruct b.
  - destruct (group_teardown_func tg) as [h|]; [|done]. unfold bind. cbn [res_bind deref fst snd].
    destruct (call_spec h (CtxGroup (rtc_config_id rtc) (tg_case_class tg)) (λ _, EvGroupTeardown) e2 ltac:(apply Hat2))
      as (b & sk' & e3 & -> & ((Hw3 & Hle3 & (Hq1 & Hq2 & Hq3)) & Hsh3 & Htr3)). cbn [res_bind fst snd].
    exists e3, ([EvGroupSetup true] ++ t2 ++ [EvGroupTeardown]). split; [done|]. split_and!.
    + destruct Hat2 as (_ & H1 & H2 & H3). split; [done|]. by rewrite Hq1, Hq2, Hq3.
    + transitivity (es_results e1); [done|]. by transitivity (es_results e2).
    + by rewrite Hsh3, Hsh2, Hsh1.
    + by rewrite Htr3, Htr2, Htr1, <- !app_assoc.
    + rewrite <- Etc in T2. apply group_ran; [by rewrite Etc|done].
  - subst t2. exists e2, [EvGroupSetup false]. split; [done|]. split_and!; [done| | | |].
    + by transitivity (es_results e1).
    + by rewrite Hsh2, Hsh1.
    + by rewrite Htr2, Htr1, app_nil_r.
    + apply group_setup_failed. by rewrite Etc.
Qed.

(** The state between two groups of the configuration [(s, c)]. *)
Definition at_config (st : state) (s c : nat) : Prop :=
  wf st ∧ g_current_config_result st = Some (s, c) ∧ g_current_group_result st = None ∧
  g_current_case_result st = None.

Lemma shape_lookup st s c co cs x :
  get_config (s, c) st = Some co → shape st !! s = Some cs → cs !! c = Some x → x = config_shape co.
Proof.
  simpl. unfold shape. rewrite list_lookup_fmap. destruct (suites st !! s) as [l|]; simpl; [|done].
  intros Hc [= <-]. rewrite list_lookup_fmap, Hc. by intros [= <-].
Qed.

Lemma run_one_group_spec tg rtc s c cat e :
  at_config (es_results e) s c → config_ready rtc → group_ready rtc tg →
  ∃ e' tr, run_one_group tg rtc (s, c) cat e = Ok (tt, e') ∧
    at_config (es_results e') s c ∧ tree_le (es_results e) (es_results e') ∧
    shape (es_results e') =
      alter (alter (λ x, (fst x, snd x ++ [map case_ids (test_case tg)])) c) s (shape (es_results e)) ∧
    es_trace e' = es_trace e ++ tr ∧ group_trace rtc tg tr.
Proof.
  intros (Hw & Hpc & Hpg & Hpk) Hcfg Hg.
  assert (Hco : ∃ co, get_config (s, c) (es_results e) = Some co).
  { destruct Hw as [_ (Hp & _)]. rewrite Hpc in Hp. apply Hp. }
  destruct Hco as (co & Hco). unfold run_one_group.
  unfold bind at 1, get_results. cbn [res_bind fst snd]. unfold bind at 1, lift.
  destruct (alloc_group_spec s c co (tg_name tg) (es_results e) Hw Hco Hpc Hpk)
    as (st1 & Ha & Hle1 & (Hs1 & Hs2 & Hs3) & Hw1 & _). rewrite Ha. cbn [res_bind fst snd].
  apply alloc_group_shape in Ha as Hsh1. unfold bind at 1, put_results. cbn [res_bind fst snd].
  set (e1 := {| es_world := es_world e |}). unfold bind at 1.
  assert (Hat1 : at_group (es_results e1) s c (length (group_result co))).
  { split; [done|]. simpl. rewrite Hs1, Hs3. done. }
  destruct (do_run_test_group_spec tg rtc s c (length (group_result co)) cat e1 Hat1 Hcfg Hg)
    as (e2 & t & -> & (Hw2 & Hq1 & Hq2 & Hq3) & Hle2 & Hsh2 & Htr2 & T2).
  cbn. eexists _, t. split; [done|]. cbn [es_results es_trace]. split_and!; [| | |done|done].
  - split; [by apply clear_group_wf|]. simpl. by rewrite Hq1, Hq3.
  - by transitivity st1.
  - transitivity (shape (es_results e2)); [done|]. rewrite Hsh2.
    change (shape (es_results e1)) with (shape st1). rewrite Hsh1, list_alter_alter_eq.
    apply (list_alter_ext _ _ _ _ s); [|done]. intros cs Hcs. simpl. rewrite list_alter_alter_eq.
    apply (list_alter_ext _ _ _ _ c); [|done]. intros x Hx.
    rewrite (shape_lookup _ _ _ _ _ _ Hco Hcs Hx). simpl. f_equal.
    rewrite alter_app_r_alt, length_map, Nat.sub_diag by (rewrite length_map; lia). done.
Qed.

Lemma run_groups_spec tgs rtc s c cat e :
  at_config (es_results e) s c → config_ready rtc ∨ tgs = [] → Forall (group_ready rtc) tgs →
  ∃ e' tr, run_groups tgs rtc (s, c) cat e = Ok (tt, e') ∧
    at_config (es_results e') s c ∧ tree_le (es_results e) (es_results e') ∧
    shape (es_results e') =
      alter (alter (λ x, (fst x, snd x ++ map (λ tg, map case_ids (test_case tg)) tgs)) c) s (shape (es_results e)) ∧
    es_trace e' = es_trace e ++ tr ∧ groups_trace rtc tgs tr.
Proof.
  revert e. induction tgs as [|tg tgs IH]; intros e Hat Hcfg Hgs; simpl.
  { exists e, []. split; [done|]. split; [done|]. split; [done|]. split.
    - symmetry. apply alter_id. intros x. apply alter_id. intros [i gs]. simpl. by rewrite app_nil_r.
    - rewrite app_nil_r. split; [done|constructor]. }
  apply Forall_cons in Hgs as [Hg Hgs]. destruct Hcfg as [Hcfg|]; [|done].
  destruct (run_one_group_spec tg rtc s c cat e Hat Hcfg Hg) as (e1 & t1 & Hr1 & Hat1 & Hle1 & Hsh1 & Htr1 & T1).
  destruct (IH e1 Hat1 (or_introl Hcfg) Hgs) as (e2 & t2 & Hr2 & Hat2 & Hle2 & Hsh2 & Htr2 & T2).
  exists e2, (t1 ++ t2). unfold bind. rewrite Hr1. cbn [res_bind fst snd]. split; [done|].
  split; [done|]. split; [by transitivity (es_results e1)|]. split; [|split].
  - rewrite Hsh2, Hsh1, list_alter_alter_eq. apply (list_alter_ext _ _ _ _ s); [|done]. intros cs _. simpl.
    rewrite list_alter_alter_eq. apply (list_alter_ext _ _ _ _ c); [|done]. intros [i gs] _. simpl. f_equal.
    by rewrite <- app_assoc.
  - by rewrite Htr2, Htr1, app_assoc.
  - by constructor.
Qed.

(** The state between two configurations. *)
Definition idle (st : state) (n : nat) : Prop :=
  wf st ∧ g_current_config_result st = None ∧ g_current_group_result st = None ∧
  g_current_case_result st = None ∧ length (suites st) = n.

Lemma length_shape st : length (shape st) = length (suites st).
Proof. unfold shape. by rewrite length_map. Qed.

Lemma run_one_config_spec rtc tgs s cat e n :
  idle (es_results e) n → (s < n)%nat → config_ready rtc ∨ tgs = [] → Forall (group_ready rtc) tgs →
  ∃ e' tr, run_one_config rtc tgs s cat e = Ok (tt, e') ∧ idle (es_results e') n ∧
    shape (es_results e') =
      alter (λ cs, cs ++ [(rtc_config_id rtc, map (λ tg, map case_ids (test_case tg)) tgs)]) s (shape (es_results e)) ∧
    es_trace e' = es_trace e ++ tr ∧ groups_trace rtc tgs tr.
Proof.
  intros (Hw & Hpc & Hpg & Hpk & Hn) Hs Hcfg Hgs.
  destruct (lookup_lt_is_Some_2 (suites (es_results e)) s ltac:(lia)) as [cs Hcs]. unfold run_one_config.
  unfold bind at 1, get_results. cbn [res_bind fst snd]. unfold bind at 1, lift.
  destruct (alloc_config_spec s cs (rtc_config_id rtc) (rtc_name rtc) (es_results e) Hw Hcs Hpg Hpk)
    as (st1 & Ha & Hle1 & (Hs1 & Hs2 & Hs3) & Hw1 & Hl1 & _). rewrite Ha. cbn [res_bind fst snd].
  apply alloc_config_shape in Ha as Hsh1. unfold bind at 1, put_results. cbn [res_bind fst snd].
  set (e1 := {| es_world := es_world e |}). unfold bind at 1.
  assert (Hat1 : at_config (es_results e1) s (length cs)).
  { split; [done|]. simpl. by rewrite Hs2, Hs3. }
  destruct (run_groups_spec tgs rtc s (length cs) cat e1 Hat1 Hcfg Hgs)
    as (e2 & t & -> & (Hw2 & Hq1 & Hq2 & Hq3) & Hle2 & Hsh2 & Htr2 & T2).
  assert (Hshape : shape (es_results e2) =
    alter (λ cs, cs ++ [(rtc_config_id rtc, map (λ tg, map case_ids (test_case tg)) tgs)]) s (shape (es_results e))).
  { rewrite Hsh2. change (shape (es_results e1)) with (shape st1). rewrite Hsh1, list_alter_alter_eq.
    apply (list_alter_ext _ _ _ _ s); [|done]. intros l Hl. unfold shape in Hl. rewrite list_lookup_fmap, Hcs in Hl.
    injection Hl as <-. simpl. rewrite alter_app_r_alt, length_map, Nat.sub_diag by (rewrite length_map; lia). done. }
  cbn. eexists _, t. split; [done|]. cbn [es_results es_trace]. split_and!; [|done|done|done].
  split; [by apply clear_config_wf|]. simpl. rewrite Hq2, Hq3. split_and!; try done.
  rewrite <- length_shape, Hshape, length_alter, length_shape. done.
Qed.

(** What a suite leaves in the tree. *)
Definition expected_configs (rtcs : list ide_run_test_config_t) (tgs : list ide_run_test_group_t)
    : list (Z * list (list (Z * Z))) :=
  match rtcs with
  | [] => []
  | rtc :: rtcs => (rtc_config_id rtc, map (λ tg, map case_ids (test_case tg)) tgs)
                   :: map (λ rtc, (rtc_config_id rtc, [])) rtcs
  end.

Lemma run_configs_spec rtcs tgs s cat e n :
  idle (es_results e) n → (s < n)%nat →
  match rtcs with [] => True | rtc :: _ => (config_ready rtc ∨ tgs = []) ∧ Forall (group_ready rtc) tgs end →
  ∃ e' tr, run_configs rtcs tgs s cat e = Ok (tt, e') ∧ idle (es_results e') n ∧
    shape (es_results e') = alter (λ cs, cs ++ expected_configs rtcs tgs) s (shape (es_results e)) ∧
    es_trace e' = es_trace e ++ tr ∧
    match rtcs with [] => tr = [] | rtc :: _ => groups_trace rtc tgs tr end.
Proof.
  revert tgs e. induction rtcs as [|rtc rtcs IH]; intros tgs e Hi Hs Hr; simpl.
  { exists e, []. split; [done|]. split; [done|]. rewrite app_nil_r. split; [|done].
    symmetry. apply alter_id. intros x. apply app_nil_r. }
  destruct Hr as [Hcfg Hgs].
  destruct (run_one_config_spec rtc tgs s cat e n Hi Hs Hcfg Hgs) as (e1 & t1 & Hr1 & Hi1 & Hsh1 & Htr1 & T1).
  destruct (IH [] e1 Hi1 Hs) as (e2 & t2 & Hr2 & Hi2 & Hsh2 & Htr2 & T2).
  { destruct rtcs; [done|]. split; [by right|constructor]. }
  unfold bind. rewrite Hr1. cbn [res_bind fst snd].
  assert (t2 = []) as -> by (destruct rtcs; [done|by inversion T2]).
  exists e2, t1. split; [done|]. split; [done|]. split; [|split].
  - rewrite Hsh2, Hsh1, list_alter_alter_eq. apply (list_alter_ext _ _ _ _ s); [|done]. intros cs _. simpl.
    rewrite <- app_assoc. do 2 f_equal. by destruct rtcs.
  - by rewrite Htr2, Htr1, app_nil_r.
  - done.
Qed.

Lemma do_run_test_suite_spec s ts e n :
  idle (es_results e) n → (s < n)%nat → suite_ready ts →
  ∃ e' tr, do_run_test_suite s ts e = Ok (true, e') ∧ idle (es_results e') n ∧
    shape (es_results e') = alter (λ cs, cs ++ expected_configs (test_config ts) (test_group ts)) s (shape (es_results e)) ∧
    es_trace e' = es_trace e ++ tr ∧ suite_trace ts tr.
Proof.
  intros Hi Hs [Hsig Hr]. unfold do_run_test_suite. unfold bind at 1, lift.
  rewrite Hsig, Z.eqb_refl. cbn [TEEIO_ASSERT res_bind fst snd]. unfold bind.
  destruct (run_configs_spec (test_config ts) (test_group ts) s (ts_category ts) e n Hi Hs) as
    (e1 & tr & -> & Hi1 & Hsh & Htr & T).
  { destruct (test_config ts); [done|]. destruct Hr. split; [by left|done]. }
  simpl. by exists e1, tr.
Qed.

Lemma run_suites_spec tss s e n :
  idle (es_results e) n → (s + length tss ≤ n)%nat → Forall suite_ready tss →
  ∃ e' tr, run_suites s tss e = Ok (tt, e') ∧ idle (es_results e') n ∧
    (∀ i, shape (es_results e') !! i =
       (λ cs, cs ++ from_option (λ ts, expected_configs (test_config ts) (test_group ts)) []
                      (if decide (s ≤ i)%nat then tss !! (i - s)%nat else None)) <$> shape (es_results e) !! i) ∧
    es_trace e' = es_trace e ++ tr ∧ suites_trace tss tr.
Proof.
  revert s e. induction tss as [|ts tss IH]; intros s e Hi Hn Hr; simpl.
  { exists e, []. split; [done|]. split; [done|]. rewrite app_nil_r. split; [|split; [done|constructor]].
    intros i. destruct (shape (es_results e) !! i); simpl; [|done]. f_equal.
    case_decide; simpl; by rewrite ?lookup_nil, app_nil_r. }
  apply Forall_cons in Hr as [Ht Hr]. simpl in Hn.
  destruct (do_run_test_suite_spec s ts e n Hi ltac:(lia) Ht) as (e1 & t1 & Hr1 & Hi1 & Hsh1 & Htr1 & T1).
  destruct (IH (S s) e1 Hi1 ltac:(lia) Hr) as (e2 & t2 & Hr2 & Hi2 & Hsh2 & Htr2 & T2).
  unfold bind. rewrite Hr1. cbn [res_bind fst snd]. exists e2, (t1 ++ t2).
  split; [done|]. split; [done|]. split; [|split; [by rewrite Htr2, Htr1, app_assoc|by constructor]].
  intros i. rewrite Hsh2, Hsh1, list_lookup_alter. destruct (decide (s = i)) as [->|Hne].
  - rewrite decide_False, (decide_True (P := (i ≤ i)%nat)), Nat.sub_diag by lia. simpl.
    destruct (shape (es_results e) !! i); simpl; [|done]. by rewrite app_nil_r.
  - destruct (decide (S s ≤ i)%nat) as [Hle|Hle].
    + rewrite decide_True by lia. replace (i - s)%nat with (S (i - S s)) by lia. done.
    + by rewrite decide_False by lia.
Qed.

(** ** Properties *)

Definition start (w : W) (tss : list ide_run_test_suite_t) : est :=
  {| es_world := w; es_results := initial_results tss; es_trace := [] |}.

Lemma start_idle w tss : idle (es_results (start w tss)) (length tss).
Proof.
  split_and!; [split|done|done|done|by apply length_replicate].
  - unfold counters_ok. simpl. apply Forall_replicate. constructor.
  - done.
Qed.

Lemma start_shape w tss i : shape (es_results (start w tss)) !! i = (λ _, []) <$> tss !! i.
Proof.
  unfold shape. simpl. rewrite list_lookup_fmap. revert i.
  induction tss as [|ts tss IH]; intros [|i]; simpl; [done|done|done|apply IH].
Qed.

(** C9: with prepared tests that satisfy the asserts of the engine and test functions that
    return and report under the current case, the engine runs all suites to the end; the results
    then hold, for every suite, one record per configuration, and in the first
    configuration one record per group with one record per test case, in order, whether
    or not the case could run; the later configurations of a suite get no group; no current
    record is left over. *)
Theorem run_reports_every_case w tss :
  Forall suite_ready tss →
  ∃ e, run_suites 0 tss (start w tss) = Ok (tt, e) ∧
    shape (es_results e) = map (λ ts, expected_configs (test_config ts) (test_group ts)) tss ∧
    g_current_config_result (es_results e) = None ∧ g_current_group_result (es_results e) = None ∧
    g_current_case_result (es_results e) = None.
Proof.
  intros Hr. destruct (run_suites_spec tss 0 (start w tss) (length tss) (start_idle w tss) ltac:(lia) Hr)
    as (e & tr & Hrun & (_ & H1 & H2 & H3 & _) & Hsh & _ & _).
  exists e. split; [done|]. split; [|done]. apply list_eq. intros i.
  rewrite Hsh, start_shape, list_lookup_fmap, decide_True, Nat.sub_0_r by lia.
  by destruct (tss !! i).
Qed.

(** C10: the calls of the test functions in a run follow the protocol of a test run: per group
    the setup first, and only if it succeeded the cases in order and then the teardown; per
    case the support functions, only if all agree the enable functions, only if all
    succeed the setup; the run function only after a successful setup, then
    the checks if required; and whenever the configuration was enabled the teardown and the
    disable functions. *)
Theorem run_follows_protocol w tss :
  Forall suite_ready tss →
  ∃ e, run_suites 0 tss (start w tss) = Ok (tt, e) ∧ suites_trace tss (es_trace e).
Proof.
  intros Hr. destruct (run_suites_spec tss 0 (start w tss) (length tss) (start_idle w tss) ltac:(lia) Hr)
    as (e & tr & Hrun & _ & _ & Htr & T). exists e. split; [done|]. by rewrite Htr.
Qed.

(** C11: after a run the totals of every suite are the numbers of its passed and of
    its failed assertions, and the totals of each configuration, group and case are those of
    the records below it. *)
Theorem run_counts_assertions w tss :
  Forall suite_ready tss →
  ∃ e, run_suites 0 tss (start w tss) = Ok (tt, e) ∧ counters_ok (es_results e) ∧
    ∀ s cs, suites (es_results e) !! s = Some cs →
      test_suite_cases_statics cs =
      (count TEEIO_TEST_RESULT_PASS (suite_assertions cs), count TEEIO_TEST_RESULT_FAILED (suite_assertions cs)).
Proof.
  intros Hr. destruct (run_suites_spec tss 0 (start w tss) (length tss) (start_idle w tss) ltac:(lia) Hr)
    as (e & tr & Hrun & (Hw & _) & _). exists e. split; [done|]. split; [apply Hw|].
  intros s cs Hs. by eapply statics_count.
Qed.

End engine.
(** *** Consequences of the protocol *)

Lemma items_trace_kind kind items b tr ev :
  items_trace kind items b tr → ev ∈ tr → ∃ i r, ev = EvConfig kind i r.
Proof.
  induction 1 as [it b|it its _|it its b tr _ IH].
  - intros ->%list_elem_of_singleton. eauto.
  - intros ->%list_elem_of_singleton. eauto.
  - intros [->|He]%elem_of_cons; eauto.
Qed.

Lemma items_trace_true kind items tr i :
  items_trace kind items true tr → ¬ (EvConfig kind i false ∈ tr).
Proof.
  remember true as b. induction 1 as [it b|it its _|it its b tr _ IH]; subst; [|done|].
  - by intros ?%list_elem_of_singleton.
  - intros [?|?]%elem_of_cons; [done|]. by apply IH.
Qed.

Lemma opt_event_config f ev kind i r :
  (∀ k j b, ev ≠ EvConfig k j b) → EvConfig kind i r ∈ opt_event f ev → False.
Proof.
  intros Hev. destruct f; simpl; [|by intros ?%elem_of_nil].
  intros He%list_elem_of_singleton. by eapply Hev.
Qed.

Lemma done_trace_kind tc rtc tr kind i r :
  done_trace tc rtc tr → EvConfig kind i r ∈ tr → kind = TEEIO_TEST_CONFIG_FUNC_DISABLE.
Proof.
  intros [b t T] [He|He]%elem_of_app; [by apply opt_event_config in He|].
  destruct (items_trace_kind _ _ _ _ _ T He) as (? & ? & [= ? _ _]). done.
Qed.

Lemma items_trace_nonempty kind items b tr :
  items_trace kind items b tr → (∃ i r, EvConfig kind i r ∈ tr) ∧ (b = false → ∃ i, EvConfig kind i false ∈ tr).
Proof.
  induction 1 as [it b|it its _|it its b tr _ [IH1 IH2]].
  - split; [by eexists _, _; left|intros ->; by eexists; left].
  - split; [by eexists _, _; left|intros _; by eexists; left].
  - split; [by eexists _, _; left|]. intros Hb. destruct (IH2 Hb) as [i Hi]. exists i. by right.
Qed.

(** The configuration was disabled; enabling was tried; it failed. *)
Definition disabled (tr : list event) : Prop := ∃ i r, EvConfig TEEIO_TEST_CONFIG_FUNC_DISABLE i r ∈ tr.
Definition enable_tried (tr : list event) : Prop := ∃ i r, EvConfig TEEIO_TEST_CONFIG_FUNC_ENABLE i r ∈ tr.
Definition enable_failed (tr : list event) : Prop := ∃ i, EvConfig TEEIO_TEST_CONFIG_FUNC_ENABLE i false ∈ tr.

Lemma no_config_event rtc kind b t k i r :
  items_trace kind (config_item rtc) b t → EvConfig k i r ∈ t → k = kind.
Proof. intros T He. by destruct (items_trace_kind _ _ _ _ _ T He) as (? & ? & [= ? _ _]). Qed.

(** The enabling part and what comes after it, when all items were enabled. *)
Lemma enabled_case tc rtc t1 t2 t3 t4 :
  items_trace TEEIO_TEST_CONFIG_FUNC_SUPPORT (config_item rtc) true t1 →
  items_trace TEEIO_TEST_CONFIG_FUNC_ENABLE (config_item rtc) true t2 →
  (∀ i r, ¬ (EvConfig TEEIO_TEST_CONFIG_FUNC_ENABLE i r ∈ t3)) → done_trace tc rtc t4 →
  let tr := t1 ++ t2 ++ t3 ++ t4 in disabled tr ∧ enable_tried tr ∧ ¬ enable_failed tr.
Proof.
  intros T1 T2 H3 T4 tr. split_and!.
  - inversion T4 as [b t T E]; subst. destruct (items_trace_nonempty _ _ _ _ T) as [(i & r & Hi) _].
    exists i, r. unfold tr. rewrite !elem_of_app. tauto.
  - destruct (items_trace_nonempty _ _ _ _ T2) as [(i & r & Hi) _]. exists i, r. unfold tr. rewrite !elem_of_app. tauto.
  - intros [i Hi]. unfold tr in Hi. rewrite !elem_of_app in Hi. destruct Hi as [Hi|[Hi|[Hi|Hi]]].
    + by pose proof (no_config_event _ _ _ _ _ _ _ T1 Hi).
    + by apply (items_trace_true _ _ _ _ T2 Hi).
    + by eapply H3.
    + by pose proof (done_trace_kind _ _ _ _ _ _ T4 Hi).
Qed.

Lemma case_trace_disabled tc rtc tr :
  case_trace tc rtc tr → disabled tr ↔ enable_tried tr ∧ ¬ enable_failed tr.
Proof.
  destruct 1 as [_|t1 T1|t1 t2 T1 T2|t1 t2 b t3 T1 T2 _ T3|t1 t2 t3 t4 T1 T2 T3 T4].
  - split; [intros (? & ? & []%elem_of_nil)|intros [(? & ? & []%elem_of_nil) _]].
  - split; [intros (i & r & Hi)|intros [(i & r & Hi) _]]; by pose proof (no_config_event _ _ _ _ _ _ _ T1 Hi).
  - split.
    + intros (i & r & [Hi|Hi]%elem_of_app);
        [by pose proof (no_config_event _ _ _ _ _ _ _ T1 Hi)|by pose proof (no_config_event _ _ _ _ _ _ _ T2 Hi)].
    + intros [_ Hn]. destruct Hn. destruct (items_trace_nonempty _ _ _ _ T2) as [_ Hf].
      destruct (Hf eq_refl) as [i Hi]. exists i. apply elem_of_app. by right.
  - pose proof (enabled_case tc rtc t1 t2 [EvCaseSetup (tc_class_id tc) (tc_case_id tc) b] t3 T1 T2) as (H1 & H2 & H3).
    { by intros i r ?%list_elem_of_singleton. } { done. } tauto.
  - pose proof (enabled_case tc rtc t1 t2 (opt_event (setup_func tc) (EvCaseSetup (tc_class_id tc) (tc_case_id tc) true)
      ++ opt_event (run_func tc) (EvCaseRun (tc_class_id tc) (tc_case_id tc)) ++ t3) t4 T1 T2) as (H1 & H2 & H3).
    { intros i r. rewrite !elem_of_app. intros [Hi|[Hi|Hi]]; try (by apply opt_event_config in Hi).
      destruct (config_check_required tc); [|subst; by apply elem_of_nil in Hi].
      destruct T3 as [b T3]. by pose proof (no_config_event _ _ _ _ _ _ _ T3 Hi). }
    { done. }
    rewrite <- !app_assoc in *. tauto.
Qed.

(** Running a test case disables the configuration exactly when the configuration was enabled
    completely: if an enable function fails, no disable function is called, so the
    items enabled before it stay enabled. *)
Theorem case_disables_iff_enabled {W} `{TestCode W} tc rtc cat cctx (e : est (W := W)) :
  well_behaved (W := W) → wf (es_results e) → config_ready rtc → case_ready rtc tc →
  ∃ e' tr, do_run_test_case tc rtc cat cctx e = Ok (true, e') ∧ es_trace e' = es_trace e ++ tr ∧
           (disabled tr ↔ enable_tried tr ∧ ¬ enable_failed tr).
Proof.
  intros Hwb Hw Hcfg Hcase. destruct (do_run_test_case_spec Hwb tc rtc cat cctx e Hw Hcfg Hcase) as
    (e' & tr & Hr & (_ & _ & Ht) & T). exists e', tr. split; [done|]. split; [done|]. by eapply case_trace_disabled.
Qed.

(** ** Witnesses *)

(** Test functions that all succeed; a run function reports one passed assertion. *)
#[local] Instance example_code : TestCode unit := λ f ctx st w,
  Ok {| out_ops := match ctx, g_current_case_result st with
                   | CtxCase _ _, Some p =>
                       match get_case p st with
                       | Some cr => if String.eqb f "run" then
                           [RecAssertion (class_id cr) (case_id cr) 1 IDE_COMMON_TEST_CASE_ASSERTION_TYPE_TEST
                              TEEIO_TEST_RESULT_PASS None] else []
                       | None => []
                       end
                   | _, _ => [] end;
        out_ret := true; out_skip := false; out_world := w |}.

Lemma example_code_well_behaved : well_behaved (W := unit).
Proof.
  intros f ctx st w Hw. eexists. split; [reflexivity|]. cbn [out_ops]. destruct ctx; try constructor.
  destruct (g_current_case_result st) as [p|] eqn:Ep; [|constructor].
  destruct (get_case p st) as [cr|] eqn:Ec; [|constructor]. destruct (String.eqb f "run"); [|constructor].
  constructor; [|constructor]. by exists p, cr.
Qed.

Definition example_item : ide_run_test_config_item_t :=
  {| item_category := 0; item_type := 0; enable_func := Some "enable"%string; disable_func := Some "disable"%string;
     support_func := Some "support"%string; check_func := Some "check"%string |}.

Definition example_config (id : Z) : ide_run_test_config_t :=
  {| rtc_config_id := id; rtc_name := bs "default"; rtc_signature := CONFIG_CONTEXT_SIGNATURE; rtc_top_type := 0;
     config_item := [example_item] |}.

Definition example_test (id : Z) : ide_run_test_case_t :=
  {| tc_class := bs "Query"; tc_name := bs "Query"; tc_class_id := 0; tc_case_id := id;
     tc_signature := CASE_CONTEXT_SIGNATURE; tc_skip := false; config_check_required := true;
     run_func := Some "run"%string; setup_func := Some "setup"%string; teardown_func := Some "teardown"%string |}.

Definition example_context : teeio_common_test_group_context_t :=
  {| gc_top := TestConfig.zero_topology; gc_root_port := TestConfig.zero_port; gc_upper_port := TestConfig.zero_port;
     gc_lower_port := TestConfig.zero_port; gc_sw_conn1 := []; gc_sw_conn2 := [] |}.

Definition example_suite : ide_run_test_suite_t :=
  {| ts_name := bs "TestSuite_1"; ts_signature := SUITE_CONTEXT_SIGNATURE; ts_suite_id := 1; ts_category := 0;
     test_group := [{| tg_name := bs "SelectiveIDE"; tg_signature := GROUP_CONTEXT_SIGNATURE; tg_case_class := 0;
                       tg_context := example_context;
                       test_case := [example_test 1; example_test 2];
                       group_setup_func := Some "gsetup"%string; group_teardown_func := Some "gteardown"%string |}];
     test_config := [example_config 1; example_config 2] |}.

Lemma example_ready : Forall suite_ready [example_suite].
Proof.
  constructor; [|constructor]. split; [done|]. split.
  - split; [done|]. split; [done|]. by constructor.
  - constructor; [|constructor]. split_and!; try done. by repeat constructor.
Qed.

Lemma run_reports_every_case_witness :
  ∃ e, run_suites 0 [example_suite] (start tt [example_suite]) = Ok (tt, e) ∧
       shape (es_results e) = [[(1, [[(0, 1); (0, 2)]]); (2, [])]].
Proof.
  destruct (run_reports_every_case example_code_well_behaved tt [example_suite] example_ready) as (e & Hr & Hs & _).
  exists e. split; [exact Hr|exact Hs].
Defined.

Lemma run_follows_protocol_witness :
  ∃ e, run_suites 0 [example_suite] (start tt [example_suite]) = Ok (tt, e) ∧ suites_trace [example_suite] (es_trace e).
Proof. apply (run_follows_protocol example_code_well_behaved tt [example_suite] example_ready). Defined.

Lemma run_counts_assertions_witness :
  ∃ e, run_suites 0 [example_suite] (start tt [example_suite]) = Ok (tt, e) ∧
       (∃ cs, suites (es_results e) !! 0%nat = Some cs ∧ test_suite_cases_statics cs = (2, 0)) ∧
       counters_ok (es_results e).
Proof.
  destruct (run_counts_assertions example_code_well_behaved tt [example_suite] example_ready) as (e & Hr & Hc & _).
  exists e. split; [exact Hr|]. split; [|exact Hc].
  vm_compute in Hr. injection Hr as <-. eexists. split; [reflexivity|reflexivity].
Defined.

Lemma case_disables_iff_enabled_witness :
  let e := {| es_world := tt; es_results := example_state; es_trace := [] |} in
  ∃ e' tr, do_run_test_case (example_test 1) (example_config 1) 0 (CtxConfig 1 0) e = Ok (true, e') ∧
           es_trace e' = tr ∧ (disabled tr ↔ enable_tried tr ∧ ¬ enable_failed tr).
Proof.
  intros e.
  apply (case_disables_iff_enabled (example_test 1) (example_config 1) 0 (CtxConfig 1 0) e).
  - exact example_code_well_behaved.
  - apply example_state_wf.
  - split; [done|]. split; [done|]. by constructor.
  - split; [done|]. intros _. by constructor.
Defined.

End Engine.
