(* ===== verification/Stops.v ===== *)
(** * Runs that may be stopped

    A test function may be stopped at an assertion, by undefined behaviour or in a
    loop that does not end, and so may a report of it.  Then the run is stopped
    with it: otherwise it is a run as the engine promises it, whatever the
    functions are.  The proof compares the run with one in which the
    calls that stop do nothing ([guarded]). *)
From Stdlib Require Import ZArith Lia Ascii String.
From stdpp Require Import prelude.
From S2P Require Import Prelude TestConfig Results Engine.

Open Scope Z_scope.
Open Scope teeio_scope.

Module Stops.
Import Results Engine.

(** ** Reports that go through name the current case *)

Definition replay (ops : list record_op) (st : Results.state) : res Results.state :=
  fold_res (λ op st, let* r := run_op op st in Ok (snd r)) ops st.

(** The events of [e'] start with those of [e]. *)
Definition extends {W} (e e' : est (W := W)) : Prop := es_trace e `prefix_of` es_trace e'.

Lemma extends_refl {W} (e : est (W := W)) : extends e e.
Proof. unfold extends. done. Qed.

Lemma run_op_inv op st b st' :
  wf st → run_op op st = Ok (b, st') → op_ok st op ∧ keeps st st' ∧ shape st' = shape st.
Proof.
  intros Hw. destruct op as [cls id aid ty r msg|id f r|f r msg]; cbn [run_op op_ok]; intros Hr.
  - split; [|split; [by eapply record_assertion_keeps|by eapply record_assertion_shape]].
    unfold teeio_record_assertion_result in Hr. destruct (g_current_case_result st) as [p|]; [|done].
    apply res_bind_Ok in Hr as (cr & Hcr & Hr). destruct (get_case p st) as [cr'|] eqn:E; [|done]. injection Hcr as ->.
    exists p, cr. destruct (Z.eqb_spec (class_id cr) cls), (Z.eqb_spec (case_id cr) id); cbn in Hr; done.
  - split; [done|]. split; [by eapply record_config_item_keeps|by eapply record_config_item_shape].
  - split; [done|]. split; [by eapply record_group_keeps|by eapply record_group_shape].
Qed.

Lemma op_ok_back st st' op : keeps st st' → shape st' = shape st → wf st → op_ok st' op → op_ok st op.
Proof.
  intros (_ & _ & (_ & _ & Hk)) Hs Hw. destruct op as [cls id aid ty r msg| |]; cbn [op_ok]; try done.
  intros (p & cr & Hp & Hcr & Hc & Hi). rewrite Hk in Hp.
  destruct (current_path st p (proj2 Hw) Hp) as (s & c & g & k & cr' & -> & _ & _ & Hcr').
  exists (s, c, g, k), cr'. split_and!; [done|done|..];
    pose proof (get_case_shape st s c g k) as E1; pose proof (get_case_shape st' s c g k) as E2;
    rewrite Hs, <- E1, Hcr, Hcr' in E2; unfold case_shape in E2; cbn in E2; congruence.
Qed.

Lemma replay_ops_ok ops st st' : wf st → replay ops st = Ok st' → Forall (op_ok st) ops.
Proof.
  revert st. induction ops as [|op ops IH]; intros st Hw; [constructor|].
  unfold replay. cbn [fold_res]. destruct (run_op op st) as [[b s1]|e] eqn:E; cbn [res_bind snd]; [|done]. intros Hr.
  destruct (run_op_inv _ _ _ _ Hw E) as (Ho & K & S). constructor; [done|].
  eapply Forall_impl; [by eapply IH; [apply K|]|]. intros o. by apply op_ok_back.
Qed.

(** ** Calls that may stop *)
Section guarded.
Context {W : Type} (code : TestCode W).

(** A call that does nothing. *)
Definition idle (w : W) : outcome W := {| out_ops := []; out_ret := false; out_skip := false; out_world := w |}.

Definition guarded : TestCode W := λ f ctx st w,
  match code f ctx st w with
  | Ok o => match replay (out_ops o) st with Ok _ => Ok o | Stop _ => Ok (idle w) end
  | Stop _ => Ok (idle w)
  end.

Lemma guarded_well_behaved : well_behaved (H := guarded).
Proof.
  intros f ctx st w Hw. unfold call_func, guarded.
  destruct (code f ctx st w) as [o|e]; [|eexists; split; [done|constructor]].
  destruct (replay (out_ops o) st) as [st'|e] eqn:E; [|eexists; split; [done|constructor]].
  exists o. split; [done|]. by eapply replay_ops_ok.
Qed.

Definition grows {A} (m : M (W := W) A) : Prop := ∀ e a e', m e = Ok (a, e') → extends e e'.

(** [m] does what [m'] does, or a call is stopped and [m] with it, at a point that [m'] passes. *)
Definition guards {A} (m m' : M (W := W) A) : Prop :=
  grows m' ∧ ∀ e, m e = m' e ∨
    ∃ f ctx e1 stop, m e = Stop stop ∧ invoke (H := code) f ctx e1 = Stop stop ∧ ∀ a e', m' e = Ok (a, e') → extends e1 e'.

Lemma guards_refl {A} (m : M (W := W) A) : grows m → guards m m.
Proof. intros Hg. split; [done|]. intros e. by left. Qed.

Lemma grows_bind {A B} (m : M (W := W) A) (k : A → M B) : grows m → (∀ a, grows (k a)) → grows (Engine.bind m k).
Proof.
  intros Hm Hk e b e' Hb. apply res_bind_Ok in Hb as ([a e1] & E1 & E2). cbn [fst snd] in E2.
  unfold extends. etransitivity; [by eapply Hm|by eapply Hk].
Qed.

Lemma guards_ret {A} (a : A) : guards (ret a) (ret a).
Proof. apply guards_refl. intros e b e' [= _ <-]. apply extends_refl. Qed.
Lemma guards_lift {A} (r : res A) : guards (lift r) (lift r).
Proof. apply guards_refl. intros e a e' (b & _ & [= _ <-])%res_bind_Ok. apply extends_refl. Qed.
Lemma guards_get : guards get_results get_results.
Proof. apply guards_refl. intros e a e' [= _ <-]. apply extends_refl. Qed.
Lemma guards_put st : guards (put_results st) (put_results st).
Proof. apply guards_refl. intros e a e' [= _ <-]. unfold extends. done. Qed.
Lemma guards_log ev : guards (log ev) (log ev).
Proof. apply guards_refl. intros e a e' [= _ <-]. unfold extends. cbn. by exists [ev]. Qed.

Lemma guards_bind {A B} (m m' : M (W := W) A) (k k' : A → M B) :
  guards m m' → (∀ a, guards (k a) (k' a)) → guards (Engine.bind m k) (Engine.bind m' k').
Proof.
  intros [Hgm Hm] Hk. split; [apply grows_bind; [done|]; intros a; apply Hk|]. intros e. unfold Engine.bind.
  destruct (Hm e) as [->|(f & ctx & e1 & stop & -> & Hc & He)].
  - destruct (m' e) as [[a e1]|s]; cbn [res_bind fst snd]; [apply (Hk a)|by left].
  - right. exists f, ctx, e1, stop. split; [done|]. split; [done|]. intros b e' Hb.
    apply res_bind_Ok in Hb as ([a e2] & E1 & E2). cbn [fst snd] in E2.
    unfold extends. etransitivity; [by eapply He|by eapply (Hk a)].
Qed.

Lemma invoke_trace `{TestCode W} f ctx e r e' : invoke f ctx e = Ok (r, e') → extends e e'.
Proof.
  unfold invoke. intros (o & _ & Hr)%res_bind_Ok. apply res_bind_Ok in Hr as (st & _ & Hr). injection Hr as _ <-. unfold extends. done.
Qed.

Lemma guards_invoke f ctx : guards (invoke (H := code) f ctx) (invoke (H := guarded) f ctx).
Proof.
  split.
  - intros e r e'. apply invoke_trace.
  - intros e. destruct (invoke (H := code) f ctx e) as [r|stop] eqn:E.
    + left. rewrite <- E. unfold invoke, call_func, guarded in E |- *.
      apply res_bind_Ok in E as (o & Ho & E). apply res_bind_Ok in E as (st & Hst & _).
      rewrite Ho. unfold replay. cbn [res_bind]. rewrite Hst. cbn [res_bind]. by rewrite Hst.
    + right. exists f, ctx, e, stop. split; [done|]. split; [done|]. intros r e'. apply invoke_trace.
Qed.

Lemma guards_call f ctx ev : guards (call (H := code) f ctx ev) (call (H := guarded) f ctx ev).
Proof.
  apply guards_bind; [apply guards_invoke|intros r]. apply guards_bind; [apply guards_log|intros _; apply guards_ret].
Qed.
End guarded.

Create HintDb guards.
#[export] Hint Resolve guards_ret guards_lift guards_get guards_put guards_invoke guards_call : guards.

(** Follows the structure of two runs that differ in their calls only. *)
Ltac guards_step :=
  lazymatch goal with
  | |- guards _ (Engine.bind _ _) (Engine.bind _ _) => apply guards_bind; [|intros ?]
  | |- guards _ (match ?x with _ => _ end) _ => destruct x
  | |- _ => solve [eauto with guards]
  end.
Ltac guards := intros; repeat guards_step.

Section run.
Context {W : Type} (code : TestCode W).

#[local] Abbreviation G := (guarded code).

Lemma items_guarded kind func ctx items :
  guards code (run_config_items (H := code) kind func ctx items) (run_config_items (H := G) kind func ctx items).
Proof. induction items as [|it items IH]; cbn [run_config_items]; guards. Qed.
Hint Resolve items_guarded : guards.

Lemma case_guarded tc rtc cat cctx :
  guards code (do_run_test_case (H := code) tc rtc cat cctx) (do_run_test_case (H := G) tc rtc cat cctx).
Proof.
  unfold do_run_test_case, spdm_test_get_spdm_context_from_test_context, do_run_test_config_support,
    do_run_test_config_enable, case_body, test_case_done, do_run_test_config_check, do_run_test_config_disable. guards.
Qed.
Hint Resolve case_guarded : guards.

Lemma cases_guarded tcs b rtc pg cat cctx :
  guards code (run_cases (H := code) tcs b rtc pg cat cctx) (run_cases (H := G) tcs b rtc pg cat cctx).
Proof. induction tcs as [|tc tcs IH]; cbn [run_cases]; unfold run_one_case; guards. Qed.
Hint Resolve cases_guarded : guards.

Lemma groups_guarded tgs rtc pc cat :
  guards code (run_groups (H := code) tgs rtc pc cat) (run_groups (H := G) tgs rtc pc cat).
Proof. induction tgs as [|tg tgs IH]; cbn [run_groups]; unfold run_one_group, do_run_test_group; guards. Qed.
Hint Resolve groups_guarded : guards.

Lemma configs_guarded rtcs tgs s cat :
  guards code (run_configs (H := code) rtcs tgs s cat) (run_configs (H := G) rtcs tgs s cat).
Proof. revert tgs. induction rtcs as [|rtc rtcs IH]; intros tgs; cbn [run_configs]; unfold run_one_config; guards. Qed.
Hint Resolve configs_guarded : guards.

Lemma suites_guarded s tss : guards code (run_suites (H := code) s tss) (run_suites (H := G) s tss).
Proof. revert s. induction tss as [|ts tss IH]; intros s; cbn [run_suites]; unfold do_run_test_suite; guards. Qed.

(** A run of the suites ends, its calls as the protocol has them, with one record for each
    planned case and totals that agree with the assertions; or it is stopped by a
    call of a test function, after calls with which such a run starts. *)
Inductive ends_or_stops (tss : list ide_run_test_suite_t) : res (unit * est (W := W)) → Prop :=
| run_ends e :
    suites_trace tss (es_trace e) →
    shape (es_results e) = map (λ ts, expected_configs (test_config ts) (test_group ts)) tss →
    counters_ok (es_results e) → ends_or_stops tss (Ok (tt, e))
| run_stops f ctx e stop tr :
    invoke (H := code) f ctx e = Stop stop → suites_trace tss tr → es_trace e `prefix_of` tr → ends_or_stops tss (Stop stop).

Lemma suites_end_or_stop tss (w : W) :
  Forall suite_ready tss → ends_or_stops tss (run_suites (H := code) 0 tss (start w tss)).
Proof.
  intros Hr. destruct (run_suites_spec (guarded_well_behaved code) tss 0 (start w tss) (length tss) (start_idle w tss) ltac:(lia) Hr)
    as (e & tr & Hrun & ((Hc & _) & _) & Hsh & Htr & T). cbn in Htr.
  destruct (proj2 (suites_guarded 0 tss) (start w tss)) as [->|(f & ctx & e1 & stop & -> & Hcall & He)].
  - rewrite Hrun. apply run_ends; [by rewrite Htr| |done].
    apply list_eq. intros i. rewrite Hsh, start_shape, list_lookup_fmap, decide_True, Nat.sub_0_r by lia. by destruct (tss !! i).
  - eapply run_stops; [exact Hcall|exact T|]. rewrite <- Htr. by apply (He tt e).
Qed.

(** What holds of a run that ended. *)
Lemma ended tss r e :
  ends_or_stops tss r → r = Ok (tt, e) →
  suites_trace tss (es_trace e) ∧
  shape (es_results e) = map (λ ts, expected_configs (test_config ts) (test_group ts)) tss ∧ counters_ok (es_results e).
Proof. intros [e' Ht Hs Hc|]; [|done]. by intros [= ->]. Qed.
End run.
End Stops.
