(* ===== verification/TestLib.v ===== *)
(** * The test libraries behind the engine (library/*_test_lib/*_common.c,
    library/spdm_test_lib/spdm_test_case.c, and the registry of
    teeio_validator/ide_test.c)

    Each library registers its tables: names and functions of its
    configuration items, of its test groups and of its test cases.  A
    function pointer is the name of the C function.  The test cases of the
    SPDM library come from the responder conformance test library, which is not part of
    the repository; they are a class parameter. *)
From Stdlib Require Import ZArith Lia Ascii String.
From stdpp Require Import prelude.
From S2P Require Import Prelude Utils IniFile TestConfig Engine.
Import TestConfig.

Open Scope Z_scope.
Open Scope teeio_scope.

Module TestLib.
Import Engine(fptr).
Import Utils.Utils(find_char_in_str, find_char_in_str_spec).
Import Ini(MAX_LINE_LENGTH).

(** ** Interface of a test library *)

Record ide_test_config_funcs_t := {
  cf_enable : fptr; cf_disable : fptr; cf_support : fptr; cf_check : fptr
}.

Record ide_test_group_funcs_t := { gf_setup : fptr; gf_teardown : fptr }.

Record ide_test_case_funcs_t := {
  tf_setup : fptr; tf_run : fptr; tf_teardown : fptr; tf_config_check_required : bool
}.

(** [NULL] names are [None]. *)
Record ide_test_case_name_t := {
  tn_class : option bytes;
  tn_names : option bytes;
  tn_class_id : Z
}.

Record TEEIO_TEST_CASES := { tcs_funcs : list ide_test_case_funcs_t; tcs_cnt : Z }.

(** A [NULL] function pointer is [None]; a group context is represented by its signature. *)
Record teeio_test_funcs_t := {
  get_configuration_name_func : option (Z → res (option bytes));
  get_configuration_priv_names_func : option (list bytes);
  parse_configuration_priv_name_func :
    option (option bytes → option bytes → IDE_TEST_CONFIGURATION → bool * IDE_TEST_CONFIGURATION);
  get_configuration_bitmask_func : option (Z → res Z);
  get_configuration_funcs_func : option (Z → Z → res ide_test_config_funcs_t);
  get_group_funcs_func : option (Z → res ide_test_group_funcs_t);
  get_case_funcs_func : option (Z → Z → res ide_test_case_funcs_t);
  get_case_name_func : option (Z → res ide_test_case_name_t);
  alloc_test_group_context_func : option Z;
  check_configuration_bitmap_func : option (Z → bool * Z)
}.

Definition config_funcs (enable disable support check : string) : ide_test_config_funcs_t :=
  {| cf_enable := Some enable; cf_disable := Some disable; cf_support := Some support; cf_check := Some check |}.
Definition null_config_funcs : ide_test_config_funcs_t :=
  {| cf_enable := None; cf_disable := None; cf_support := None; cf_check := None |}.
Definition group_funcs (setup teardown : string) : ide_test_group_funcs_t :=
  {| gf_setup := Some setup; gf_teardown := Some teardown |}.
Definition case_funcs (setup run teardown : string) (check : bool) : ide_test_case_funcs_t :=
  {| tf_setup := Some setup; tf_run := Some run; tf_teardown := Some teardown; tf_config_check_required := check |}.
Definition case_name (class names : string) (id : Z) : ide_test_case_name_t :=
  {| tn_class := Some (bs class); tn_names := Some (bs names); tn_class_id := id |}.
Definition end_of_names (id : Z) : ide_test_case_name_t := {| tn_class := None; tn_names := None; tn_class_id := id |}.

(** ** Configuration bits *)

Definition IDE_TEST_CONFIGURATION_TYPE_DEFAULT : Z := 0.
Definition IDE_TEST_CONFIGURATION_TYPE_SWITCH : Z := 1.
Definition IDE_TEST_CONFIGURATION_TYPE_PARTIAL_HEADER_ENC : Z := 2.
Definition IDE_TEST_CONFIGURATION_TYPE_PCRC : Z := 3.
Definition IDE_TEST_CONFIGURATION_TYPE_AGGGEG : Z := 4.
Definition IDE_TEST_CONFIGURATION_TYPE_SELECTIVE_IDE_FOR_CONFIG : Z := 5.
Definition IDE_TEST_CONFIGURATION_TYPE_TEE_LIMITED_STREAM : Z := 6.
Definition IDE_TEST_CONFIGURATION_TYPE_FLIT_MODE_DISABLE : Z := 7.
Definition IDE_TEST_CONFIGURATION_TYPE_NUM : Z := 8.

Definition BIT_MASK (n : Z) : Z := u32 (Z.shiftl 1 n).
Definition bit_masks (l : list Z) : Z := foldr (λ n m, Z.lor (BIT_MASK n) m) 0 l.

Definition SELECTIVE_IDE_CONFIGURATION_BITMASK : Z := bit_masks
  [IDE_TEST_CONFIGURATION_TYPE_DEFAULT; IDE_TEST_CONFIGURATION_TYPE_SWITCH;
   IDE_TEST_CONFIGURATION_TYPE_PARTIAL_HEADER_ENC; IDE_TEST_CONFIGURATION_TYPE_PCRC;
   IDE_TEST_CONFIGURATION_TYPE_AGGGEG; IDE_TEST_CONFIGURATION_TYPE_SELECTIVE_IDE_FOR_CONFIG;
   IDE_TEST_CONFIGURATION_TYPE_TEE_LIMITED_STREAM; IDE_TEST_CONFIGURATION_TYPE_FLIT_MODE_DISABLE].
Definition LINK_IDE_CONFIGURATION_BITMASK : Z := bit_masks
  [IDE_TEST_CONFIGURATION_TYPE_DEFAULT; IDE_TEST_CONFIGURATION_TYPE_SWITCH;
   IDE_TEST_CONFIGURATION_TYPE_PARTIAL_HEADER_ENC; IDE_TEST_CONFIGURATION_TYPE_PCRC;
   IDE_TEST_CONFIGURATION_TYPE_AGGGEG; IDE_TEST_CONFIGURATION_TYPE_FLIT_MODE_DISABLE].
Definition SELECTIVE_LINK_IDE_CONFIGURATION_BITMASK : Z := bit_masks
  [IDE_TEST_CONFIGURATION_TYPE_DEFAULT; IDE_TEST_CONFIGURATION_TYPE_PARTIAL_HEADER_ENC;
   IDE_TEST_CONFIGURATION_TYPE_PCRC; IDE_TEST_CONFIGURATION_TYPE_SELECTIVE_IDE_FOR_CONFIG;
   IDE_TEST_CONFIGURATION_TYPE_AGGGEG; IDE_TEST_CONFIGURATION_TYPE_FLIT_MODE_DISABLE].

(** ** Code the libraries have in common *)

(** [if (i > sizeof(names)/sizeof(char* )) return NULL; return names[i];]
    The comparison is unsigned, and lets [i] be the size of the array. *)
Definition name_at (names : list (option bytes)) (i : Z) : res (option bytes) :=
  if (i <? 0) || (Z.of_nat (length names) <? i) then Ok None else array_get names i.

Definition case_funcs_at (num : Z) (table : list TEEIO_TEST_CASES) (case_class case_id : Z) : res ide_test_case_funcs_t :=
  let* _ := TEEIO_ASSERT (case_class <? num) in
  let* test_cases := array_get table case_class in
  let* _ := TEEIO_ASSERT (case_id <? tcs_cnt test_cases) in
  array_get (tcs_funcs test_cases) case_id.

Definition case_name_at (num : Z) (table : list ide_test_case_name_t) (case_class : Z) : res ide_test_case_name_t :=
  let* _ := TEEIO_ASSERT (case_class <? num + 1) in array_get table case_class.

Definition cases_of (funcs : list ide_test_case_funcs_t) (cnt : Z) : TEEIO_TEST_CASES :=
  {| tcs_funcs := funcs; tcs_cnt := cnt |}.

(** ** PCIE-IDE *)

Definition m_ide_test_configuration_name : list (option bytes) :=
  [Some (bs "default"); Some (bs "switch"); Some (bs "partial_header_encryption"); Some (bs "pcrc");
   Some (bs "aggregation"); Some (bs "selective_ide_for_configuration"); Some (bs "tee_limited_stream");
   Some (bs "flit_mode_disable"); None].

Definition m_top_config_bitmasks : list Z :=
  [SELECTIVE_IDE_CONFIGURATION_BITMASK; LINK_IDE_CONFIGURATION_BITMASK; SELECTIVE_LINK_IDE_CONFIGURATION_BITMASK].

Definition m_config_funcs : list (list ide_test_config_funcs_t) :=
  [[config_funcs "pcie_ide_test_config_default_enable_common" "pcie_ide_test_config_default_disable_common" "pcie_ide_test_config_default_support_common" "pcie_ide_test_config_default_check_common";
    null_config_funcs;
    null_config_funcs;
    config_funcs "pcie_ide_test_config_pcrc_enable_sel" "pcie_ide_test_config_pcrc_disable_sel" "pcie_ide_test_config_pcrc_support_sel" "pcie_ide_test_config_pcrc_check_sel";
    null_config_funcs;
    config_funcs "pcie_ide_test_config_enable_sel_ide_for_cfg_req" "pcie_ide_test_config_disable_sel_ide_for_cfg_req" "pcie_ide_test_config_support_sel_ide_for_cfg_req" "pcie_ide_test_config_check_sel_ide_for_cfg_req";
    null_config_funcs;
    config_funcs "pcie_ide_test_config_flit_mode_disable_enable_sel" "pcie_ide_test_config_flit_mode_disable_disable_sel" "pcie_ide_test_config_flit_mode_disable_support_sel" "pcie_ide_test_config_flit_mode_disable_check_sel"];
   [config_funcs "pcie_ide_test_config_default_enable_common" "pcie_ide_test_config_default_disable_common" "pcie_ide_test_config_default_support_common" "pcie_ide_test_config_default_check_common";
    null_config_funcs;
    null_config_funcs;
    config_funcs "pcie_ide_test_config_pcrc_enable_link" "pcie_ide_test_config_pcrc_disable_link" "pcie_ide_test_config_pcrc_support_link" "pcie_ide_test_config_pcrc_check_link";
    null_config_funcs;
    null_config_funcs;
    null_config_funcs;
    config_funcs "pcie_ide_test_config_flit_mode_disable_enable_link" "pcie_ide_test_config_flit_mode_disable_disable_link" "pcie_ide_test_config_flit_mode_disable_support_link" "pcie_ide_test_config_flit_mode_disable_check_link"];
   [config_funcs "pcie_ide_test_config_default_enable_sel_link" "pcie_ide_test_config_default_disable_sel_link" "pcie_ide_test_config_default_support_sel_link" "pcie_ide_test_config_default_check_sel_link";
    null_config_funcs;
    null_config_funcs;
    config_funcs "pcie_ide_test_config_pcrc_enable_sel_link" "pcie_ide_test_config_pcrc_disable_sel_link" "pcie_ide_test_config_pcrc_support_sel_link" "pcie_ide_test_config_pcrc_check_sel_link";
    null_config_funcs;
    null_config_funcs;
    null_config_funcs;
    config_funcs "pcie_ide_test_config_flit_mode_disable_enable_sel_link" "pcie_ide_test_config_flit_mode_disable_disable_sel_link" "pcie_ide_test_config_flit_mode_disable_support_sel_link" "pcie_ide_test_config_flit_mode_disable_check_sel_link"]].

Definition m_group_funcs : list ide_test_group_funcs_t :=
  [group_funcs "pcie_ide_test_group_setup_sel" "pcie_ide_test_group_teardown_sel";
   group_funcs "pcie_ide_test_group_setup_link" "pcie_ide_test_group_teardown_link";
   group_funcs "pcie_ide_test_group_setup_sel_link" "pcie_ide_test_group_teardown_sel_link"].

Definition m_test_case_names : list ide_test_case_name_t :=
  [case_name "Query" "1,2" 0; case_name "KeyProg" "1,2,3,4,5,6" 1; case_name "KSetGo" "1,2,3,4" 2;
   case_name "KSetStop" "1,2,3,4" 3; case_name "SpdmSession" "1,2" 4;
   case_name "Test" "IdeStream,KeyRefresh,KeyRefreshKs1" 5; end_of_names IDE_COMMON_TEST_CASE_NUM].

Definition m_pcie_ide_query_cases : list ide_test_case_funcs_t :=
  [case_funcs "pcie_ide_test_query_1_setup" "pcie_ide_test_query_1_run" "pcie_ide_test_query_1_teardown" false;
   case_funcs "pcie_ide_test_query_2_setup" "pcie_ide_test_query_2_run" "pcie_ide_test_query_2_teardown" false].
Definition m_pcie_ide_key_prog_cases : list ide_test_case_funcs_t :=
  [case_funcs "pcie_ide_test_keyprog_1_setup" "pcie_ide_test_keyprog_1_run" "pcie_ide_test_keyprog_1_teardown" false;
   case_funcs "pcie_ide_test_keyprog_2_setup" "pcie_ide_test_keyprog_2_run" "pcie_ide_test_keyprog_2_teardown" false;
   case_funcs "pcie_ide_test_keyprog_3_setup" "pcie_ide_test_keyprog_3_run" "pcie_ide_test_keyprog_3_teardown" false;
   case_funcs "pcie_ide_test_keyprog_4_setup" "pcie_ide_test_keyprog_4_run" "pcie_ide_test_keyprog_4_teardown" false;
   case_funcs "pcie_ide_test_keyprog_5_setup" "pcie_ide_test_keyprog_5_run" "pcie_ide_test_keyprog_5_teardown" false;
   case_funcs "pcie_ide_test_keyprog_6_setup" "pcie_ide_test_keyprog_6_run" "pcie_ide_test_keyprog_6_teardown" false].
Definition m_pcie_ide_kset_go_cases : list ide_test_case_funcs_t :=
  [case_funcs "pcie_ide_test_ksetgo_1_setup" "pcie_ide_test_ksetgo_1_run" "pcie_ide_test_ksetgo_1_teardown" true;
   case_funcs "pcie_ide_test_ksetgo_2_setup" "pcie_ide_test_ksetgo_2_run" "pcie_ide_test_ksetgo_2_teardown" true;
   case_funcs "pcie_ide_test_ksetgo_3_setup" "pcie_ide_test_ksetgo_3_run" "pcie_ide_test_ksetgo_3_teardown" true;
   case_funcs "pcie_ide_test_ksetgo_4_setup" "pcie_ide_test_ksetgo_4_run" "pcie_ide_test_ksetgo_4_teardown" true].
Definition m_pcie_ide_kset_stop_cases : list ide_test_case_funcs_t :=
  [case_funcs "pcie_ide_test_ksetstop_1_setup" "pcie_ide_test_ksetstop_1_run" "pcie_ide_test_ksetstop_1_teardown" false;
   case_funcs "pcie_ide_test_ksetstop_2_setup" "pcie_ide_test_ksetstop_2_run" "pcie_ide_test_ksetstop_2_teardown" false;
   case_funcs "pcie_ide_test_ksetstop_3_setup" "pcie_ide_test_ksetstop_3_run" "pcie_ide_test_ksetstop_3_teardown" false;
   case_funcs "pcie_ide_test_ksetstop_4_setup" "pcie_ide_test_ksetstop_4_run" "pcie_ide_test_ksetstop_4_teardown" false].
Definition m_pcie_ide_spdm_session_cases : list ide_test_case_funcs_t :=
  [case_funcs "pcie_ide_test_spdm_session_1_setup" "pcie_ide_test_spdm_session_1_run" "pcie_ide_test_spdm_session_1_teardown" false;
   case_funcs "pcie_ide_test_spdm_session_2_setup" "pcie_ide_test_spdm_session_2_run" "pcie_ide_test_spdm_session_2_teardown" false].
Definition m_pcie_ide_test_full_cases : list ide_test_case_funcs_t :=
  [case_funcs "pcie_ide_test_full_1_setup" "pcie_ide_test_full_1_run" "pcie_ide_test_full_1_teardown" false;
   case_funcs "pcie_ide_test_full_keyrefresh_ks0_setup" "pcie_ide_test_full_keyrefresh_ks0_run" "pcie_ide_test_full_keyrefresh_ks0_teardown" false;
   case_funcs "pcie_ide_test_full_keyrefresh_ks1_setup" "pcie_ide_test_full_keyrefresh_ks1_run" "pcie_ide_test_full_keyrefresh_ks1_teardown" false].

Definition m_pcie_ide_test_case_funcs : list TEEIO_TEST_CASES :=
  [cases_of m_pcie_ide_query_cases 2; cases_of m_pcie_ide_key_prog_cases 6; cases_of m_pcie_ide_kset_go_cases 4;
   cases_of m_pcie_ide_kset_stop_cases 4; cases_of m_pcie_ide_spdm_session_cases 2;
   cases_of m_pcie_ide_test_full_cases 3].

Definition pcie_get_test_configuration_name (configuration_type : Z) : res (option bytes) :=
  name_at m_ide_test_configuration_name configuration_type.

Definition pcie_get_test_configuration_bitmask (type : Z) : res Z :=
  let* _ := TEEIO_ASSERT (type <? IDE_TEST_TOPOLOGY_TYPE_NUM) in array_get m_top_config_bitmasks type.

Definition pcie_get_test_configuration_funcs (type configuration_type : Z) : res ide_test_config_funcs_t :=
  let* _ := TEEIO_ASSERT ((type <? IDE_TEST_TOPOLOGY_TYPE_NUM) && (configuration_type <? IDE_TEST_CONFIGURATION_TYPE_NUM)) in
  let* row := array_get m_config_funcs type in array_get row configuration_type.

Definition pcie_get_test_group_funcs (type : Z) : res ide_test_group_funcs_t :=
  let* _ := TEEIO_ASSERT (type <? IDE_TEST_TOPOLOGY_TYPE_NUM) in array_get m_group_funcs type.

Definition pcie_get_test_case_funcs (case_class case_id : Z) : res ide_test_case_funcs_t :=
  case_funcs_at IDE_COMMON_TEST_CASE_NUM m_pcie_ide_test_case_funcs case_class case_id.

Definition pcie_get_test_case_name (case_class : Z) : res ide_test_case_name_t :=
  case_name_at IDE_COMMON_TEST_CASE_NUM m_test_case_names case_class.

Definition alloc_pcie_ide_test_group_context : Z := Engine.GROUP_CONTEXT_SIGNATURE.

Definition pcie_ide_check_configuration_bitmap (bitmap : Z) : bool * Z :=
  (true, Z.lor bitmap (BIT_MASK IDE_TEST_CONFIGURATION_TYPE_DEFAULT)).

Definition pcie_ide_test_lib_register_test_suite_funcs : teeio_test_funcs_t :=
  {| get_configuration_name_func := Some pcie_get_test_configuration_name;
     get_configuration_priv_names_func := None;
     parse_configuration_priv_name_func := None;
     get_configuration_bitmask_func := Some pcie_get_test_configuration_bitmask;
     get_configuration_funcs_func := Some pcie_get_test_configuration_funcs;
     get_group_funcs_func := Some pcie_get_test_group_funcs;
     get_case_funcs_func := Some pcie_get_test_case_funcs;
     get_case_name_func := Some pcie_get_test_case_name;
     alloc_test_group_context_func := Some alloc_pcie_ide_test_group_context;
     check_configuration_bitmap_func := Some pcie_ide_check_configuration_bitmap |}.

(** ** CXL-IDE *)

Definition CXL_MEM_IDE_TEST_CASE_NUM : Z := 6.
Definition CXL_IDE_CONFIGURATION_TYPE_NUM : Z := 4.
Definition CXL_LINK_IDE_CONFIGURATION_BITMASK : Z := bit_masks [0; 1; 2; 3].

Definition m_cxl_ide_test_configuration_name : list (option bytes) :=
  [Some (bs "default"); Some (bs "pcrc_disable"); Some (bs "ide_stop"); Some (bs "cxl_get_key"); None].
Definition m_cxl_ide_test_configuration_priv_name : list bytes := [bs "cxl_ide_mode"].
Definition m_cxl_ide_mode_names : list bytes := [bs "containment"; bs "skid"].

Definition m_cxl_ide_config_funcs : list ide_test_config_funcs_t :=
  [config_funcs "cxl_ide_test_config_default_enable" "cxl_ide_test_config_default_disable"
     "cxl_ide_test_config_default_support" "cxl_ide_test_config_default_check";
   config_funcs "cxl_ide_test_config_set_pcrc_disable" "cxl_ide_test_config_unset_pcrc_disable"
     "cxl_ide_test_config_pcrc_disable_support" "cxl_ide_test_config_pcrc_disable_check";
   config_funcs "cxl_ide_test_config_ide_stop_enable" "cxl_ide_test_config_ide_stop_disable"
     "cxl_ide_test_config_ide_stop_support" "cxl_ide_test_config_ide_stop_check";
   config_funcs "cxl_ide_test_config_get_key_enable" "cxl_ide_test_config_get_key_disable"
     "cxl_ide_test_config_get_key_support" "cxl_ide_test_config_get_key_check"].

Definition m_cxl_ide_group_funcs : ide_test_group_funcs_t :=
  group_funcs "cxl_ide_test_group_setup" "cxl_ide_test_group_teardown".

Definition m_cxl_ide_test_case_names : list ide_test_case_name_t :=
  [case_name "Query" "1,2" 0; case_name "KeyProg" "1,2,3,4,5,6,7,8,9" 1; case_name "KSetGo" "1" 2;
   case_name "KSetStop" "1" 3; case_name "GetKey" "1" 4; case_name "Test" "IdeStream,KeyRefresh" 5;
   end_of_names CXL_MEM_IDE_TEST_CASE_NUM].

Definition m_cxl_ide_query_cases : list ide_test_case_funcs_t :=
  [case_funcs "cxl_ide_test_query_1_setup" "cxl_ide_test_query_1_run" "cxl_ide_test_query_1_teardown" false;
   case_funcs "cxl_ide_test_query_2_setup" "cxl_ide_test_query_2_run" "cxl_ide_test_query_2_teardown" false].
Definition m_cxl_ide_key_prog_cases : list ide_test_case_funcs_t :=
  [case_funcs "cxl_ide_test_key_prog_1_setup" "cxl_ide_test_key_prog_1_run" "cxl_ide_test_key_prog_1_teardown" false;
   case_funcs "cxl_ide_test_key_prog_2_setup" "cxl_ide_test_key_prog_2_run" "cxl_ide_test_key_prog_2_teardown" false;
   case_funcs "cxl_ide_test_key_prog_3_setup" "cxl_ide_test_key_prog_3_run" "cxl_ide_test_key_prog_3_teardown" false;
   case_funcs "cxl_ide_test_key_prog_4_setup" "cxl_ide_test_key_prog_4_run" "cxl_ide_test_key_prog_4_teardown" false;
   case_funcs "cxl_ide_test_key_prog_5_setup" "cxl_ide_test_key_prog_5_run" "cxl_ide_test_key_prog_5_teardown" false;
   case_funcs "cxl_ide_test_key_prog_6_setup" "cxl_ide_test_key_prog_6_run" "cxl_ide_test_key_prog_6_teardown" false;
   case_funcs "cxl_ide_test_key_prog_7_setup" "cxl_ide_test_key_prog_7_run" "cxl_ide_test_key_prog_7_teardown" false;
   case_funcs "cxl_ide_test_key_prog_8_setup" "cxl_ide_test_key_prog_8_run" "cxl_ide_test_key_prog_8_teardown" false;
   case_funcs "cxl_ide_test_key_prog_9_setup" "cxl_ide_test_key_prog_9_run" "cxl_ide_test_key_prog_9_teardown" false].
Definition m_cxl_ide_kset_go_cases : list ide_test_case_funcs_t :=
  [case_funcs "cxl_ide_test_kset_go_1_setup" "cxl_ide_test_kset_go_1_run" "cxl_ide_test_kset_go_1_teardown" true].
Definition m_cxl_ide_kset_stop_cases : list ide_test_case_funcs_t :=
  [case_funcs "cxl_ide_test_kset_stop_1_setup" "cxl_ide_test_kset_stop_1_run" "cxl_ide_test_kset_stop_1_teardown" false].
Definition m_cxl_ide_get_key_cases : list ide_test_case_funcs_t :=
  [case_funcs "cxl_ide_test_get_key_1_setup" "cxl_ide_test_get_key_1_run" "cxl_ide_test_get_key_1_teardown" false].
Definition m_cxl_ide_test_full_cases : list ide_test_case_funcs_t :=
  [case_funcs "cxl_ide_test_full_ide_stream_setup" "cxl_ide_test_full_ide_stream_run" "cxl_ide_test_full_ide_stream_teardown" false;
   case_funcs "cxl_ide_test_keyrefresh_setup" "cxl_ide_test_keyrefresh_run" "cxl_ide_test_keyrefresh_teardown" false].

Definition m_cxl_ide_test_case_funcs : list TEEIO_TEST_CASES :=
  [cases_of m_cxl_ide_query_cases 2; cases_of m_cxl_ide_key_prog_cases 9; cases_of m_cxl_ide_kset_go_cases 1;
   cases_of m_cxl_ide_kset_stop_cases 1; cases_of m_cxl_ide_get_key_cases 1; cases_of m_cxl_ide_test_full_cases 2].

Definition cxl_get_test_configuration_name (configuration_type : Z) : res (option bytes) :=
  name_at m_cxl_ide_test_configuration_name configuration_type.

(** [None] is [return false]. *)
Definition parse_cxl_ide_mode_from_string (string : option bytes) : option Z :=
  match string with
  | None => None
  | Some s => let i := name_index 0 m_cxl_ide_mode_names s in
              if i =? Z.of_nat (length m_cxl_ide_mode_names) then None else Some i
  end.

Definition parse_test_configuration_priv_name (key value : option bytes) (config : IDE_TEST_CONFIGURATION)
    : bool * IDE_TEST_CONFIGURATION :=
  match key, value with
  | Some k, Some v =>
      if streq k (bs "cxl_ide_mode") then
        match parse_cxl_ide_mode_from_string (Some v) with
        | None => (false, config)
        | Some ide_mode =>
            (true, {| cfg_id := cfg_id config; cfg_enabled := cfg_enabled config; cfg_type := cfg_type config;
                      cfg_category := cfg_category config; cfg_bit_map := cfg_bit_map config;
                      cfg_ide_mode := ide_mode |})
        end
      else (false, config)
  | _, _ => (false, config)
  end.

Definition cxl_get_test_configuration_bitmask (type : Z) : res Z :=
  let* _ := TEEIO_ASSERT (type =? IDE_TEST_TOPOLOGY_TYPE_LINK_IDE) in Ok CXL_LINK_IDE_CONFIGURATION_BITMASK.

Definition cxl_get_test_configuration_funcs (type configuration_type : Z) : res ide_test_config_funcs_t :=
  let* _ := TEEIO_ASSERT ((type =? IDE_TEST_TOPOLOGY_TYPE_LINK_IDE) && (configuration_type <? CXL_IDE_CONFIGURATION_TYPE_NUM)) in
  array_get m_cxl_ide_config_funcs configuration_type.

Definition cxl_get_test_group_funcs (type : Z) : res ide_test_group_funcs_t :=
  let* _ := TEEIO_ASSERT (type =? IDE_TEST_TOPOLOGY_TYPE_LINK_IDE) in Ok m_cxl_ide_group_funcs.

Definition cxl_get_test_case_funcs (case_class case_id : Z) : res ide_test_case_funcs_t :=
  case_funcs_at CXL_MEM_IDE_TEST_CASE_NUM m_cxl_ide_test_case_funcs case_class case_id.

Definition cxl_get_test_case_name (case_class : Z) : res ide_test_case_name_t :=
  case_name_at CXL_MEM_IDE_TEST_CASE_NUM m_cxl_ide_test_case_names case_class.

Definition alloc_cxl_ide_test_group_context : Z := Engine.GROUP_CONTEXT_SIGNATURE.

Definition cxl_ide_check_configuration_bitmap (bitmap : Z) : bool * Z := (true, Z.lor bitmap (BIT_MASK 0)).

Definition cxl_ide_test_lib_register_test_suite_funcs : teeio_test_funcs_t :=
  {| get_configuration_name_func := Some cxl_get_test_configuration_name;
     get_configuration_priv_names_func := Some m_cxl_ide_test_configuration_priv_name;
     parse_configuration_priv_name_func := Some parse_test_configuration_priv_name;
     get_configuration_bitmask_func := Some cxl_get_test_configuration_bitmask;
     get_configuration_funcs_func := Some cxl_get_test_configuration_funcs;
     get_group_funcs_func := Some cxl_get_test_group_funcs;
     get_case_funcs_func := Some cxl_get_test_case_funcs;
     get_case_name_func := Some cxl_get_test_case_name;
     alloc_test_group_context_func := Some alloc_cxl_ide_test_group_context;
     check_configuration_bitmap_func := Some cxl_ide_check_configuration_bitmap |}.

(** ** CXL-TSP *)

Definition CXL_TSP_TEST_CASE_MAX : Z := 6.
Definition CXL_TSP_CONFIGURATION_BITMASK : Z := 0x1.

Definition m_cxl_tsp_test_configuration_name : list (option bytes) := [Some (bs "default"); None].

Definition m_cxl_tsp_config_funcs : ide_test_config_funcs_t :=
  config_funcs "cxl_tsp_test_config_common_enable" "cxl_tsp_test_config_common_disable"
    "cxl_tsp_test_config_common_support" "cxl_tsp_test_config_common_check".

Definition m_cxl_tsp_group_funcs : ide_test_group_funcs_t :=
  group_funcs "cxl_tsp_test_group_setup" "cxl_tsp_test_group_teardown".

Definition m_cxl_tsp_test_case_names : list ide_test_case_name_t :=
  [case_name "GetVersion" "1" 0; case_name "GetCapabilities" "1" 1; case_name "SetConfiguration" "1" 2;
   case_name "GetConfiguration" "1" 3; case_name "GetConfigurationReport" "1" 4;
   case_name "LockConfiguration" "1,2" 5; end_of_names CXL_TSP_TEST_CASE_MAX].

Definition m_cxl_tsp_get_version_cases : list ide_test_case_funcs_t :=
  [case_funcs "cxl_tsp_test_get_version_setup" "cxl_tsp_test_get_version_run" "cxl_tsp_test_get_version_teardown" false].
Definition m_cxl_tsp_get_caps_cases : list ide_test_case_funcs_t :=
  [case_funcs "cxl_tsp_test_get_caps_setup" "cxl_tsp_test_get_caps_run" "cxl_tsp_test_get_caps_teardown" false].
Definition m_cxl_tsp_set_configuration_cases : list ide_test_case_funcs_t :=
  [case_funcs "cxl_tsp_test_set_configuration_setup" "cxl_tsp_test_set_configuration_run" "cxl_tsp_test_set_configuration_teardown" false].
Definition m_cxl_tsp_get_configuration_cases : list ide_test_case_funcs_t :=
  [case_funcs "cxl_tsp_test_get_configuration_setup" "cxl_tsp_test_get_configuration_run" "cxl_tsp_test_get_configuration_teardown" false].
Definition m_cxl_tsp_get_configuration_report_cases : list ide_test_case_funcs_t :=
  [case_funcs "cxl_tsp_test_get_configuration_report_setup" "cxl_tsp_test_get_configuration_report_run" "cxl_tsp_test_get_configuration_report_teardown" false].
Definition m_cxl_tsp_lock_configuration_cases : list ide_test_case_funcs_t :=
  [case_funcs "cxl_tsp_test_lock_configuration_1_setup" "cxl_tsp_test_lock_configuration_1_run" "cxl_tsp_test_lock_configuration_1_teardown" false;
   case_funcs "cxl_tsp_test_lock_configuration_2_setup" "cxl_tsp_test_lock_configuration_2_run" "cxl_tsp_test_lock_configuration_2_teardown" false].

Definition m_cxl_tsp_test_case_funcs : list TEEIO_TEST_CASES :=
  [cases_of m_cxl_tsp_get_version_cases 1; cases_of m_cxl_tsp_get_caps_cases 1;
   cases_of m_cxl_tsp_set_configuration_cases 1; cases_of m_cxl_tsp_get_configuration_cases 1;
   cases_of m_cxl_tsp_get_configuration_report_cases 1; cases_of m_cxl_tsp_lock_configuration_cases 2].

Definition tsp_get_test_configuration_name (configuration_type : Z) : res (option bytes) :=
  name_at m_cxl_tsp_test_configuration_name configuration_type.
Definition tsp_get_test_configuration_bitmask (type : Z) : res Z := Ok CXL_TSP_CONFIGURATION_BITMASK.
Definition tsp_get_test_configuration_funcs (type configuration_type : Z) : res ide_test_config_funcs_t :=
  Ok m_cxl_tsp_config_funcs.
Definition tsp_get_test_group_funcs (type : Z) : res ide_test_group_funcs_t := Ok m_cxl_tsp_group_funcs.
Definition tsp_get_test_case_funcs (case_class case_id : Z) : res ide_test_case_funcs_t :=
  case_funcs_at CXL_TSP_TEST_CASE_MAX m_cxl_tsp_test_case_funcs case_class case_id.
Definition tsp_get_test_case_name (case_class : Z) : res ide_test_case_name_t :=
  case_name_at CXL_TSP_TEST_CASE_MAX m_cxl_tsp_test_case_names case_class.
Definition alloc_cxl_tsp_test_group_context : Z := Engine.GROUP_CONTEXT_SIGNATURE.
Definition cxl_tsp_check_configuration_bitmap (bitmap : Z) : bool * Z :=
  (true, Z.lor bitmap CXL_TSP_CONFIGURATION_BITMASK).

Definition cxl_tsp_test_lib_register_test_suite_funcs : teeio_test_funcs_t :=
  {| get_configuration_name_func := Some tsp_get_test_configuration_name;
     get_configuration_priv_names_func := None;
     parse_configuration_priv_name_func := None;
     get_configuration_bitmask_func := Some tsp_get_test_configuration_bitmask;
     get_configuration_funcs_func := Some tsp_get_test_configuration_funcs;
     get_group_funcs_func := Some tsp_get_test_group_funcs;
     get_case_funcs_func := Some tsp_get_test_case_funcs;
     get_case_name_func := Some tsp_get_test_case_name;
     alloc_test_group_context_func := Some alloc_cxl_tsp_test_group_context;
     check_configuration_bitmap_func := Some cxl_tsp_check_configuration_bitmap |}.

(** ** TDISP *)

Definition TDISP_TEST_CASE_NUM : Z := 7.

Definition m_tdisp_test_configuration_name : list (option bytes) := [Some (bs "default"); None].

Definition m_tdisp_config_func : ide_test_config_funcs_t :=
  config_funcs "tdisp_test_config_default_enable_common" "tdisp_test_config_default_disable_common"
    "tdisp_test_config_default_support_common" "tdisp_test_config_default_check_common".

Definition m_tdisp_group_func : ide_test_group_funcs_t :=
  group_funcs "tdisp_test_group_setup_sel" "tdisp_test_group_teardown_sel".

Definition m_tdisp_test_case_names : list ide_test_case_name_t :=
  [case_name "Version" "1" 0; case_name "Capabilities" "1" 1; case_name "LockInterface" "1,2,3,4" 2;
   case_name "DeviceReport" "1,2,3,4,5" 3; case_name "DeviceState" "1,2,3,4" 4;
   case_name "StartInterface" "1,2,3,4" 5; case_name "StopInterface" "1,2,3" 6; end_of_names TDISP_TEST_CASE_NUM].

Definition m_tdisp_test_version_cases : list ide_test_case_funcs_t :=
  [case_funcs "tdisp_test_version_1_setup" "tdisp_test_version_1_run" "tdisp_test_version_1_teardown" true].
Definition m_tdisp_test_capabilities_cases : list ide_test_case_funcs_t :=
  [case_funcs "tdisp_test_capabilities_1_setup" "tdisp_test_capabilities_1_run" "tdisp_test_capabilities_1_teardown" true].
Definition m_tdisp_test_lock_interface_cases : list ide_test_case_funcs_t :=
  [case_funcs "tdisp_test_lock_interface_1_setup" "tdisp_test_lock_interface_1_run" "tdisp_test_lock_interface_1_teardown" true;
   case_funcs "tdisp_test_lock_interface_2_setup" "tdisp_test_lock_interface_2_run" "tdisp_test_lock_interface_2_teardown" true;
   case_funcs "tdisp_test_lock_interface_3_setup" "tdisp_test_lock_interface_3_run" "tdisp_test_lock_interface_3_teardown" true;
   case_funcs "tdisp_test_lock_interface_4_setup" "tdisp_test_lock_interface_4_run" "tdisp_test_lock_interface_4_teardown" true].
Definition m_tdisp_test_interface_report_cases : list ide_test_case_funcs_t :=
  [case_funcs "tdisp_test_interface_report_1_setup" "tdisp_test_interface_report_1_run" "tdisp_test_interface_report_1_teardown" true;
   case_funcs "tdisp_test_interface_report_2_setup" "tdisp_test_interface_report_2_run" "tdisp_test_interface_report_2_teardown" true;
   case_funcs "tdisp_test_interface_report_3_setup" "tdisp_test_interface_report_3_run" "tdisp_test_interface_report_3_teardown" true;
   case_funcs "tdisp_test_interface_report_4_setup" "tdisp_test_interface_report_4_run" "tdisp_test_interface_report_4_teardown" true;
   case_funcs "tdisp_test_interface_report_5_setup" "tdisp_test_interface_report_5_run" "tdisp_test_interface_report_5_teardown" true].
Definition m_tdisp_test_interface_state_cases : list ide_test_case_funcs_t :=
  [case_funcs "tdisp_test_interface_state_1_setup" "tdisp_test_interface_state_1_run" "tdisp_test_interface_state_1_teardown" true;
   case_funcs "tdisp_test_interface_state_2_setup" "tdisp_test_interface_state_2_run" "tdisp_test_interface_state_2_teardown" true;
   case_funcs "tdisp_test_interface_state_3_setup" "tdisp_test_interface_state_3_run" "tdisp_test_interface_state_3_teardown" true;
   case_funcs "tdisp_test_interface_state_4_setup" "tdisp_test_interface_state_4_run" "tdisp_test_interface_state_4_teardown" true].
Definition m_tdisp_test_start_interface_cases : list ide_test_case_funcs_t :=
  [case_funcs "tdisp_test_start_interface_1_setup" "tdisp_test_start_interface_1_run" "tdisp_test_start_interface_1_teardown" true;
   case_funcs "tdisp_test_start_interface_2_setup" "tdisp_test_start_interface_2_run" "tdisp_test_start_interface_2_teardown" true;
   case_funcs "tdisp_test_start_interface_3_setup" "tdisp_test_start_interface_3_run" "tdisp_test_start_interface_3_teardown" true;
   case_funcs "tdisp_test_start_interface_4_setup" "tdisp_test_start_interface_4_run" "tdisp_test_start_interface_4_teardown" true].
Definition m_tdisp_test_stop_interface_cases : list ide_test_case_funcs_t :=
  [case_funcs "tdisp_test_stop_interface_1_setup" "tdisp_test_stop_interface_1_run" "tdisp_test_stop_interface_1_teardown" true;
   case_funcs "tdisp_test_stop_interface_2_setup" "tdisp_test_stop_interface_2_run" "tdisp_test_stop_interface_2_teardown" true;
   case_funcs "tdisp_test_stop_interface_3_setup" "tdisp_test_stop_interface_3_run" "tdisp_test_stop_interface_3_teardown" true].

Definition m_tdisp_test_case_funcs : list TEEIO_TEST_CASES :=
  [cases_of m_tdisp_test_version_cases 1; cases_of m_tdisp_test_capabilities_cases 1;
   cases_of m_tdisp_test_lock_interface_cases 4; cases_of m_tdisp_test_interface_report_cases 5;
   cases_of m_tdisp_test_interface_state_cases 4; cases_of m_tdisp_test_start_interface_cases 4;
   cases_of m_tdisp_test_stop_interface_cases 3].

Definition tdisp_get_test_configuration_name (configuration_type : Z) : res (option bytes) :=
  name_at m_tdisp_test_configuration_name configuration_type.

Definition tdisp_get_test_configuration_bitmask (type : Z) : res Z :=
  let* _ := TEEIO_ASSERT (type =? IDE_TEST_TOPOLOGY_TYPE_SEL_IDE) in Ok SELECTIVE_IDE_CONFIGURATION_BITMASK.

Definition tdisp_get_test_configuration_funcs (type configuration_type : Z) : res ide_test_config_funcs_t :=
  let* _ := TEEIO_ASSERT ((type =? IDE_TEST_TOPOLOGY_TYPE_SEL_IDE)
                          && (configuration_type =? IDE_TEST_CONFIGURATION_TYPE_DEFAULT)) in
  Ok m_tdisp_config_func.

Definition tdisp_get_test_group_funcs (type : Z) : res ide_test_group_funcs_t :=
  let* _ := TEEIO_ASSERT (type =? IDE_TEST_TOPOLOGY_TYPE_SEL_IDE) in Ok m_tdisp_group_func.

Definition tdisp_get_test_case_funcs (case_class case_id : Z) : res ide_test_case_funcs_t :=
  case_funcs_at TDISP_TEST_CASE_NUM m_tdisp_test_case_funcs case_class case_id.

Definition tdisp_get_test_case_name (case_class : Z) : res ide_test_case_name_t :=
  case_name_at TDISP_TEST_CASE_NUM m_tdisp_test_case_names case_class.

Definition alloc_tdisp_test_group_context : Z := Engine.GROUP_CONTEXT_SIGNATURE.

Definition tdisp_check_configuration_bitmap (bitmap : Z) : bool * Z :=
  (true, Z.lor bitmap (BIT_MASK IDE_TEST_CONFIGURATION_TYPE_DEFAULT)).

Definition tdisp_test_lib_register_test_suite_funcs : teeio_test_funcs_t :=
  {| get_configuration_name_func := Some tdisp_get_test_configuration_name;
     get_configuration_priv_names_func := None;
     parse_configuration_priv_name_func := None;
     get_configuration_bitmask_func := Some tdisp_get_test_configuration_bitmask;
     get_configuration_funcs_func := Some tdisp_get_test_configuration_funcs;
     get_group_funcs_func := Some tdisp_get_test_group_funcs;
     get_case_funcs_func := Some tdisp_get_test_case_funcs;
     get_case_name_func := Some tdisp_get_test_case_name;
     alloc_test_group_context_func := Some alloc_tdisp_test_group_context;
     check_configuration_bitmap_func := Some tdisp_check_configuration_bitmap |}.

(** ** SPDM *)

(** A test case of the responder conformance test library; the terminating entry is the end of the list. *)
Record common_test_case_t := {
  case_id : Z;
  case_func : fptr;
  case_setup_func : fptr;
  case_teardown_func : fptr
}.

(** The external tables, in the order of [m_teeio_map_spdm_responder_test_groups]:
    the id of the responder group and its test cases. *)
Class SpdmResponder := {
  responder_groups : list (Z * list common_test_case_t);
  responder_groups_length : length responder_groups = 12%nat
}.

Definition SPDM_TEST_CASE_NUM : Z := 12.
Definition SPDM_TEST_CONFIGURATION_BITMASK : Z := 1.

Definition m_spdm_test_configuration_name : list (option bytes) := [Some (bs "default")].

Definition m_spdm_test_config_funcs : list ide_test_config_funcs_t :=
  [config_funcs "spdm_test_config_default_enable" "spdm_test_config_default_disable"
     "spdm_test_config_default_support" "spdm_test_config_default_check"].

Definition m_spdm_test_group_funcs : ide_test_group_funcs_t :=
  group_funcs "spdm_test_group_setup" "spdm_test_group_teardown".

(** The second column is filled in by [spdm_test_lib_init_test_cases]. *)
Definition spdm_class_names : list bytes :=
  [bs "Version"; bs "Capabilities"; bs "Algorithms"; bs "Digests"; bs "Certificate"; bs "ChallengeAuth";
   bs "Measurements"; bs "KeyExchangeRsp"; bs "FinishRsp"; bs "HeartbeatAck"; bs "KeyUpdateAck";
   bs "EndSessionAck"].

Definition spdm_case_funcs (r : common_test_case_t) : ide_test_case_funcs_t :=
  {| tf_setup := case_setup_func r; tf_run := case_func r; tf_teardown := case_teardown_func r;
     tf_config_check_required := false |}.

(** One round of the second loop: [buf] and [max_val]. *)
Definition gen_step (r : common_test_case_t) (st : bytes * Z) : res (bytes * Z) :=
  let '(buf, max_val) := st in
  let max_val := if max_val <? case_id r then case_id r else max_val in
  let* _ := TEEIO_ASSERT (negb (MAX_LINE_LENGTH <? strlen buf + strlen buf + 4 + 1)) in
  Ok (buf ++ dec (case_id r) ++ bs ",", max_val).

(** [case_ids], [max_case_id] and the functions. *)
Definition gen_teeio_spdm_test_case_from_responder_test_case (rs : list common_test_case_t)
    : res (bytes * Z * list ide_test_case_funcs_t) :=
  let* _ := TEEIO_ASSERT (nonempty rs) in
  let* st := fold_res gen_step rs ([], 0) in
  Ok (take (length (fst st) - 1) (fst st), snd st, map spdm_case_funcs rs).

Record spdm_tables := {
  m_spdm_test_case_names : list ide_test_case_name_t;
  m_spdm_test_case_funcs : list TEEIO_TEST_CASES
}.

Section spdm.
Context `{SpdmResponder}.

Definition init_one_class (row : bytes * (Z * list common_test_case_t)) (t : spdm_tables) : res spdm_tables :=
  let* r := gen_teeio_spdm_test_case_from_responder_test_case (snd (snd row)) in
  let '(case_ids, max_case_id, funcs) := r in
  Ok {| m_spdm_test_case_names := m_spdm_test_case_names t ++
          [{| tn_class := Some (fst row); tn_names := Some case_ids;
              tn_class_id := Z.of_nat (length (m_spdm_test_case_names t)) |}];
        m_spdm_test_case_funcs := m_spdm_test_case_funcs t ++ [cases_of funcs max_case_id] |}.

Definition spdm_test_lib_init_test_cases : res spdm_tables :=
  let* t := fold_res init_one_class (zip spdm_class_names responder_groups)
              {| m_spdm_test_case_names := []; m_spdm_test_case_funcs := [] |} in
  Ok {| m_spdm_test_case_names := m_spdm_test_case_names t ++ [end_of_names SPDM_TEST_CASE_NUM];
        m_spdm_test_case_funcs := m_spdm_test_case_funcs t |}.

Definition spdm_test_lib_get_case_class (responder_group_id : Z) : Z :=
  match list_find (λ g, fst g = responder_group_id) responder_groups with
  | Some (i, _) => Z.of_nat i
  | None => SPDM_TEST_CASE_NUM
  end.

Definition spdm_get_test_configuration_name (configuration_type : Z) : res (option bytes) :=
  name_at m_spdm_test_configuration_name configuration_type.
Definition spdm_get_test_configuration_bitmask (type : Z) : res Z := Ok SPDM_TEST_CONFIGURATION_BITMASK.
Definition spdm_get_test_configuration_funcs (type configuration_type : Z) : res ide_test_config_funcs_t :=
  array_get m_spdm_test_config_funcs configuration_type.
Definition spdm_get_test_group_funcs (type : Z) : res ide_test_group_funcs_t := Ok m_spdm_test_group_funcs.
Definition spdm_get_test_case_funcs (t : spdm_tables) (case_class id : Z) : res ide_test_case_funcs_t :=
  case_funcs_at SPDM_TEST_CASE_NUM (m_spdm_test_case_funcs t) case_class id.
Definition spdm_get_test_case_name (t : spdm_tables) (case_class : Z) : res ide_test_case_name_t :=
  case_name_at SPDM_TEST_CASE_NUM (m_spdm_test_case_names t) case_class.
Definition alloc_spdm_test_group_context : Z := Engine.GROUP_CONTEXT_SIGNATURE.
Definition spdm_test_check_configuration_bitmap (bitmap : Z) : bool * Z := (true, Z.lor bitmap (BIT_MASK 0)).

Definition spdm_test_lib_register_test_suite_funcs : res teeio_test_funcs_t :=
  let* t := spdm_test_lib_init_test_cases in
  Ok {| get_configuration_name_func := Some spdm_get_test_configuration_name;
        get_configuration_priv_names_func := None;
        parse_configuration_priv_name_func := None;
        get_configuration_bitmask_func := Some spdm_get_test_configuration_bitmask;
        get_configuration_funcs_func := Some spdm_get_test_configuration_funcs;
        get_group_funcs_func := Some spdm_get_test_group_funcs;
        get_case_funcs_func := Some (spdm_get_test_case_funcs t);
        get_case_name_func := Some (spdm_get_test_case_name t);
        alloc_test_group_context_func := Some alloc_spdm_test_group_context;
        check_configuration_bitmap_func := Some spdm_test_check_configuration_bitmap |}.

(** ** The registry *)

(** [m_teeio_test_funcs] after initialisation. *)
Definition teeio_init_test_funcs : res (list teeio_test_funcs_t) :=
  let* spdm := spdm_test_lib_register_test_suite_funcs in
  Ok [pcie_ide_test_lib_register_test_suite_funcs; cxl_ide_test_lib_register_test_suite_funcs;
      cxl_tsp_test_lib_register_test_suite_funcs; tdisp_test_lib_register_test_suite_funcs; spdm].

End spdm.

Section registry.
Context (m_teeio_test_funcs : list teeio_test_funcs_t).

Definition get_test_configuration_name (configuration_type test_category : Z) : res (option bytes) :=
  let* test_funcs := array_get m_teeio_test_funcs test_category in
  match get_configuration_name_func test_funcs with None => Ok None | Some f => f configuration_type end.

Definition parse_test_configuration_priv_names (key : bytes) (value : option bytes) (test_category : Z)
    (config : IDE_TEST_CONFIGURATION) : res (bool * IDE_TEST_CONFIGURATION) :=
  let* test_funcs := array_get m_teeio_test_funcs test_category in
  Ok (match parse_configuration_priv_name_func test_funcs with
      | None => (true, config)
      | Some f => f (Some key) value config end).

Definition get_test_configuration_priv_names (test_category : Z) : res (option (list bytes)) :=
  let* test_funcs := array_get m_teeio_test_funcs test_category in
  Ok (get_configuration_priv_names_func test_funcs).

Definition teeio_check_configuration_bitmap (bitmap test_category : Z) : res (bool * Z) :=
  let* test_funcs := array_get m_teeio_test_funcs test_category in
  Ok (match check_configuration_bitmap_func test_funcs with None => (false, bitmap) | Some f => f bitmap end).

(** [None] is [NULL]. *)
Definition get_test_case_name (case_class test_category : Z) : res (option ide_test_case_name_t) :=
  let* test_funcs := array_get m_teeio_test_funcs test_category in
  match get_case_name_func test_funcs with
  | None => Ok None
  | Some f => let* n := f case_class in Ok (Some n)
  end.

(** [strncpy] into a zeroed buffer of the same size: a longer string is left without its NUL. *)
Definition line_buffer (s : bytes) : res bytes :=
  if strlen s <? MAX_LINE_LENGTH then Ok s else Stop Undefined.

(** The loop over the names of the class: hit and [j]. *)
Fixpoint name_loop (fuel : nat) (ptr1 ptr2 : bytes) (j : Z) : res (bool * Z) :=
  match fuel with
  | O => Stop NoFuel
  | S fuel =>
      let pos := find_char_in_str (Some ptr2) (char ",") in
      let piece := if pos =? -1 then ptr2 else take (Z.to_nat pos) ptr2 in
      if streq ptr1 piece then Ok (true, j)
      else if pos =? -1 then Ok (false, j)
      else name_loop fuel ptr1 (drop (Z.to_nat (pos + 1)) ptr2) (j + 1)
  end.

(** The class loop; the class table ends, so its bound is never reached. *)
Definition class_step (get_name : Z → res ide_test_case_name_t) (class : bytes) (i : Z)
    : res (Z + option ide_test_case_name_t) :=
  let* test_case := get_name i in
  match tn_class test_case with
  | None => Ok (inr None)
  | Some c => if streq class c then Ok (inr (Some test_case)) else Ok (inl (i + 1))
  end.

(** The value, and [*index] when it is written. *)
Definition get_test_case_from_string (test_case_name : option bytes) (test_category : Z)
    : res (option ide_test_case_name_t * option Z) :=
  match test_case_name with
  | None => Ok (None, None)
  | Some name =>
      let* test_funcs := array_get m_teeio_test_funcs test_category in
      match get_case_name_func test_funcs with
      | None => Ok (None, None)
      | Some get_name =>
          let* buf1 := line_buffer name in
          let pos := find_char_in_str (Some buf1) (char ".") in
          if pos =? -1 then Ok (None, None) else
          let class := take (Z.to_nat pos) buf1 in
          let ptr1 := drop (Z.to_nat (pos + 1)) buf1 in
          let* o := while (class_step get_name class) 1024 0 in
          match o with
          | None => Ok (None, None)
          | Some test_case =>
              let* names := deref (tn_names test_case) in
              let* buf2 := line_buffer names in
              let* r := name_loop (S (length buf2)) ptr1 buf2 0 in
              Ok (if fst r then Some test_case else None, Some (snd r))
          end
      end
  end.

Definition is_valid_test_case (test_case_name : option bytes) (test_category : Z) : res bool :=
  let* r := get_test_case_from_string test_case_name test_category in Ok (is_some (fst r)).

End registry.

(** ** Case strings *)

(** The reference: the pieces between separators. *)
Fixpoint split_at (c : Z) (s : bytes) : list bytes :=
  match s with
  | [] => [[]]
  | x :: s => if x =? c then [] :: split_at c s
              else match split_at c s with l :: ls => (x :: l) :: ls | [] => [[x]] end
  end.

Lemma split_at_app c pre s :
  c ∉ pre → split_at c (pre ++ s) = match split_at c s with l :: ls => (pre ++ l) :: ls | [] => [pre] end.
Proof.
  induction pre as [|x pre IH]; simpl; intros Hn.
  - destruct s as [|y s]; simpl; [done|]. destruct (y =? c); [done|]. by destruct (split_at c s).
  - apply not_elem_of_cons in Hn as [Hx Hn]. rewrite (proj2 (Z.eqb_neq x c)) by congruence.
    rewrite IH by done. by destruct (split_at c s).
Qed.

Lemma split_at_none c s : c ∉ s → split_at c s = [s].
Proof. intros Hn. pose proof (split_at_app c s [] Hn) as H. simpl in H. by rewrite !app_nil_r in H. Qed.

Lemma split_at_cons c pre post : c ∉ pre → split_at c (pre ++ c :: post) = pre :: split_at c post.
Proof.
  intros Hn. rewrite split_at_app by done. simpl. rewrite Z.eqb_refl. by rewrite app_nil_r.
Qed.

Lemma first_sep_unique (c : Z) a b a' b' : c ∉ a → c ∉ a' → a ++ c :: b = a' ++ c :: b' → a = a' ∧ b = b'.
Proof.
  revert a'. induction a as [|x a IH]; intros [|y a'] Ha Ha' H; simpl in H; simplify_eq.
  - done.
  - exfalso. apply Ha'. left.
  - exfalso. apply Ha. left.
  - apply not_elem_of_cons in Ha as [_ Ha], Ha' as [_ Ha']. by destruct (IH a' Ha Ha') as [-> ->].
Qed.

(** The position of the first equal name. *)
Fixpoint position (x : bytes) (l : list bytes) : option nat :=
  match l with [] => None | y :: l => if streq x y then Some O else S <$> position x l end.

Lemma position_Some x l i : position x l = Some i → l !! i = Some x.
Proof.
  revert i. induction l as [|y l IH]; intros i; simpl; [done|].
  destruct (streq x y) eqn:E; [apply streq_true in E as ->; by intros [= <-]|].
  destruct (position x l) as [k|]; [|done]. intros [= <-]. by apply IH.
Qed.

Lemma position_None x l : position x l = None → x ∉ l.
Proof.
  induction l as [|y l IH]; simpl; [intros _; apply not_elem_of_nil|].
  destruct (streq x y) eqn:E; [done|]. destruct (position x l); [done|].
  intros _. apply not_elem_of_cons. split; [|by apply IH]. intros ->. by rewrite streq_refl in E.
Qed.

Lemma name_loop_spec fuel p s j :
  (length s < fuel)%nat →
  name_loop fuel p s j =
  Ok (match position p (split_at 44 s) with
      | Some i => (true, j + Z.of_nat i)
      | None => (false, j + Z.of_nat (length (split_at 44 s)) - 1) end).
Proof.
  revert s j. induction fuel as [|fuel IH]; intros s j Hf; [lia|]. cbn [name_loop].
  change (char ",") with 44.
  destruct (find_char_in_str_spec s 44) as [(Hr & Hn)|(pre & post & -> & Hn & Hr)]; cbv zeta in Hr; rewrite Hr.
  - rewrite Z.eqb_refl, split_at_none by done. simpl.
    destruct (streq p s); repeat f_equal; lia.
  - rewrite (proj2 (Z.eqb_neq _ _)) by lia. rewrite split_at_cons by done. simpl position.
    rewrite Nat2Z.id, take_app_length. destruct (streq p pre); [do 2 f_equal; lia|].
    replace (Z.to_nat (Z.of_nat (length pre) + 1)) with (S (length pre)) by lia.
    replace (drop (S (length pre)) (pre ++ 44 :: post)) with post
      by (rewrite drop_app_ge by lia; by replace (S (length pre) - length pre)%nat with 1%nat by lia).
    rewrite IH by (rewrite length_app in Hf; simpl in Hf; lia).
    destruct (position p (split_at 44 post)); cbn [fmap option_fmap option_map length]; do 2 f_equal; lia.
Qed.

(** A function that reads a table of names ended by an entry without class. *)
Definition class_table (get_name : Z → res ide_test_case_name_t) (tbl : list ide_test_case_name_t) (e : ide_test_case_name_t) : Prop :=
  (∀ i x, (tbl ++ [e]) !! i = Some x → get_name (Z.of_nat i) = Ok x) ∧
  tn_class e = None ∧ Forall (λ x, tn_class x ≠ None) tbl.

Definition class_is (class : bytes) (x : ide_test_case_name_t) : bool := bool_decide (tn_class x = Some class).

Lemma class_loop_spec get_name tbl e class n :
  class_table get_name tbl e → (length tbl < Pos.to_nat n)%nat →
  while (class_step get_name class) n 0 = Ok (List.find (class_is class) tbl).
Proof.
  intros (Hget & He & Htbl) Hn.
  assert (H : ∀ post pre n, tbl = pre ++ post → (length post < Pos.to_nat n)%nat →
    while (class_step get_name class) n (Z.of_nat (length pre)) = Ok (List.find (class_is class) post)).
  { intros post. induction post as [|x post IH]; intros pre m -> Hm.
    - unfold while. rewrite iter_until_nat. destruct (Pos2Nat.is_succ m) as [k ->]. simpl.
      unfold class_step. rewrite (Hget (length pre) e); [|by rewrite app_nil_r, lookup_app_r, Nat.sub_diag by lia].
      simpl. by rewrite He.
    - destruct (decide (m = 1%positive)) as [->|Hm1]; [simpl in Hm; lia|].
      rewrite <- (Pos.succ_pred m) by done. rewrite while_succ. unfold class_step at 1.
      rewrite (Hget (length pre) x) by (by rewrite <- app_assoc, lookup_app_r, Nat.sub_diag by lia). simpl.
      apply Forall_app in Htbl as [_ [Hx _]%Forall_cons]. unfold class_is at 1.
      destruct (tn_class x) as [c|]; [|done]. destruct (streq class c) eqn:E.
      + apply streq_true in E as ->. by rewrite bool_decide_eq_true_2.
      + rewrite bool_decide_eq_false_2 by (intros [= ->]; by rewrite streq_refl in E).
        replace (Z.of_nat (length pre) + 1) with (Z.of_nat (length (pre ++ [x]))) by (rewrite length_app; simpl; lia).
        apply IH; [by rewrite <- app_assoc|]. simpl in Hm. lia. }
  exact (H tbl [] n eq_refl Hn).
Qed.

Definition no_entry : option ide_test_case_name_t * option Z := (None, None).

(** What a string resolves to in a table. *)
Definition resolve (tbl : list ide_test_case_name_t) (class name : bytes) : option ide_test_case_name_t * option Z :=
  match List.find (class_is class) tbl with
  | None => no_entry
  | Some e => let names := split_at 44 (from_option id [] (tn_names e)) in
              match position name names with
              | Some i => (Some e, Some (Z.of_nat i))
              | None => (None, Some (Z.of_nat (length names) - 1))
              end
  end.

Definition names_fit (x : ide_test_case_name_t) : Prop := ∃ n, tn_names x = Some n ∧ strlen n < MAX_LINE_LENGTH.

Lemma get_test_case_from_string_resolve fs cat lib get_name tbl e class name :
  array_get fs cat = Ok lib → get_case_name_func lib = Some get_name → class_table get_name tbl e →
  (length tbl < 1024)%nat → Forall names_fit tbl →
  char "." ∉ class → strlen (class ++ bs "." ++ name) < MAX_LINE_LENGTH →
  get_test_case_from_string fs (Some (class ++ bs "." ++ name)) cat = Ok (resolve tbl class name).
Proof.
  intros Hlib Hget Htbl Hlen Hfit Hdot Hs. unfold get_test_case_from_string.
  rewrite Hlib. cbn [res_bind]. rewrite Hget. unfold line_buffer at 1.
  rewrite (proj2 (Z.ltb_lt _ _)) by done. cbn [res_bind].
  destruct (find_char_in_str_spec (class ++ bs "." ++ name) (char ".")) as [(_ & Hn)|(pre & post & Hp & Hn & Hr)].
  { exfalso. apply Hn. apply elem_of_app. right. by left. }
  destruct (first_sep_unique (char ".") pre post class name Hn Hdot) as [-> ->]; [by symmetry|].
  cbv zeta in Hr |- *. rewrite Hr, (proj2 (Z.eqb_neq _ _)) by lia.
  rewrite Nat2Z.id, take_app_length.
  replace (drop (Z.to_nat (Z.of_nat (length class) + 1)) (class ++ bs "." ++ name)) with name.
  2: { replace (Z.to_nat (Z.of_nat (length class) + 1)) with (length class + 1)%nat by lia.
       rewrite <- drop_drop, drop_app_length. done. }
  rewrite (class_loop_spec _ tbl e) by (done || (simpl; lia)). cbn [res_bind]. unfold resolve.
  destruct (List.find _ tbl) as [x|] eqn:Ef; [|done].
  apply List.find_some in Ef as [Hx _]. apply list_elem_of_In in Hx.
  rewrite Forall_forall in Hfit. destruct (Hfit x Hx) as (n & Hnm & Hn'). rewrite Hnm. cbn [deref res_bind].
  unfold line_buffer. rewrite (proj2 (Z.ltb_lt _ _)) by done. cbn [res_bind]. rewrite name_loop_spec by lia.
  simpl. destruct (position name (split_at 44 n)); cbn [fst snd]; done.
Qed.

Lemma get_test_case_no_dot fs cat lib get_name s :
  array_get fs cat = Ok lib → get_case_name_func lib = Some get_name → char "." ∉ s → strlen s < MAX_LINE_LENGTH →
  get_test_case_from_string fs (Some s) cat = Ok no_entry.
Proof.
  intros Hlib Hget Hn Hs. unfold get_test_case_from_string. rewrite Hlib. cbn [res_bind]. rewrite Hget.
  unfold line_buffer. rewrite (proj2 (Z.ltb_lt _ _)) by done. cbn [res_bind].
  destruct (find_char_in_str_spec s (char ".")) as [(Hr & _)|(pre & post & -> & _)]; cbv zeta in Hr || idtac.
  - by rewrite Hr, Z.eqb_refl.
  - exfalso. apply Hn, elem_of_app. right. left.
Qed.

(** The libraries whose tables are part of the repository, with their class tables. *)
Definition own_libs : list (teeio_test_funcs_t * list ide_test_case_name_t * ide_test_case_name_t) :=
  [(pcie_ide_test_lib_register_test_suite_funcs, take 6 m_test_case_names, end_of_names IDE_COMMON_TEST_CASE_NUM);
   (cxl_ide_test_lib_register_test_suite_funcs, take 6 m_cxl_ide_test_case_names, end_of_names CXL_MEM_IDE_TEST_CASE_NUM);
   (cxl_tsp_test_lib_register_test_suite_funcs, take 6 m_cxl_tsp_test_case_names, end_of_names CXL_TSP_TEST_CASE_MAX);
   (tdisp_test_lib_register_test_suite_funcs, take 7 m_tdisp_test_case_names, end_of_names TDISP_TEST_CASE_NUM)].

(** The names of the cases of a class, and whether a case has all its functions. *)
Definition case_names (x : ide_test_case_name_t) : list bytes := split_at 44 (from_option id [] (tn_names x)).
Definition all_set (f : ide_test_case_funcs_t) : bool :=
  is_some (tf_setup f) && is_some (tf_run f) && is_some (tf_teardown f).

(** Checks of the tables, by evaluation. *)
Definition entry_ok (lib : teeio_test_funcs_t) (x : ide_test_case_name_t) : bool :=
  match tn_class x, tn_names x, get_case_funcs_func lib with
  | Some class, Some names, Some get_funcs =>
      bool_decide (char "." ∉ class) && (strlen names <? MAX_LINE_LENGTH)
      && forallb (λ j, match get_funcs (tn_class_id x) j with Ok f => all_set f | Stop _ => false end)
           (seqZ 0 (Z.of_nat (length (case_names x))))
  | _, _, _ => false
  end.

Lemma class_table_at tbl e :
  tn_class e = None → Forall (λ x, tn_class x ≠ None) tbl →
  class_table (case_name_at (Z.of_nat (length tbl)) (tbl ++ [e])) tbl e.
Proof.
  intros He Ht. split; [|by split]. intros i x Hi. pose proof (lookup_lt_Some _ _ _ Hi) as Hlt.
  rewrite length_app in Hlt. simpl in Hlt.
  unfold case_name_at. rewrite (proj2 (Z.ltb_lt _ _)) by lia. simpl.
  apply array_get_Ok. split; [lia|]. by rewrite Nat2Z.id.
Qed.

Definition lib_ok (l : teeio_test_funcs_t * list ide_test_case_name_t * ide_test_case_name_t) : bool :=
  let '(lib, tbl, e) := l in
  bool_decide (NoDup (map tn_class tbl)) && (Z.of_nat (length tbl) <? 1024) && forallb (entry_ok lib) tbl.

Lemma own_libs_ok : Forall (λ l, lib_ok l = true) own_libs.
Proof. repeat constructor; vm_compute; reflexivity. Qed.

Lemma own_libs_tables :
  Forall (λ '(lib, tbl, e), ∃ get_name, get_case_name_func lib = Some get_name ∧ class_table get_name tbl e) own_libs.
Proof.
  repeat constructor; (eexists; split; [reflexivity|]); (apply class_table_at; [done|]); repeat constructor; done.
Qed.

Lemma own_libs_registered `{SpdmResponder} fs :
  teeio_init_test_funcs = Ok fs → ∀ cat l, own_libs !! cat = Some l → array_get fs (Z.of_nat cat) = Ok (fst (fst l)).
Proof.
  unfold teeio_init_test_funcs. intros Hi cat l Hl. inv_ok.
  destruct cat as [|[|[|[|cat]]]]; simpl in Hl; simplify_eq; reflexivity.
Qed.

Lemma entry_ok_spec lib x class :
  entry_ok lib x = true → tn_class x = Some class →
  (char "." ∉ class) ∧ names_fit x ∧
  ∃ get_funcs, get_case_funcs_func lib = Some get_funcs ∧
    ∀ j n, case_names x !! j = Some n → ∃ f, get_funcs (tn_class_id x) (Z.of_nat j) = Ok f ∧ all_set f = true.
Proof.
  unfold entry_ok. intros Hok Hc. rewrite Hc in Hok. destruct (tn_names x) as [names|] eqn:En; [|done].
  destruct (get_case_funcs_func lib) as [gf|]; [|done]. inv_ok.
  match goal with H : bool_decide _ = true |- _ => apply bool_decide_eq_true in H end.
  split_and!; [done|exists names; split; [done|lia]|]. exists gf. split; [done|]. intros j n Hj.
  match goal with H : forallb _ _ = true |- _ => pose proof (forallb_range _ _ _ H (Z.of_nat j)) as Hf end.
  cbv beta in Hf. apply lookup_lt_Some in Hj. destruct (gf _ _) as [f|]; [|lia || (specialize (Hf ltac:(lia)); done)].
  exists f. split; [done|]. apply Hf. lia.
Qed.

(** What a case string of the command line resolves to. *)
Lemma case_strings_resolved `{SpdmResponder} fs cat lib tbl e s :
  teeio_init_test_funcs = Ok fs → own_libs !! cat = Some (lib, tbl, e) → strlen s < MAX_LINE_LENGTH →
  ∃ o idx, get_test_case_from_string fs (Some s) (Z.of_nat cat) = Ok (o, idx) ∧
  match o with
  | Some x => ∃ class name j f get_funcs,
      s = class ++ bs "." ++ name ∧ x ∈ tbl ∧ tn_class x = Some class ∧
      idx = Some (Z.of_nat j) ∧ case_names x !! j = Some name ∧
      get_case_funcs_func lib = Some get_funcs ∧
      get_funcs (tn_class_id x) (Z.of_nat j) = Ok f ∧ all_set f = true
  | None => ∀ x class name, x ∈ tbl → tn_class x = Some class → name ∈ case_names x → s ≠ class ++ bs "." ++ name
  end.
Proof.
  intros Hi Hl Hs. pose proof (own_libs_registered fs Hi cat _ Hl) as Hreg. simpl in Hreg.
  pose proof (proj1 (Forall_lookup _ _) own_libs_ok cat _ Hl) as Hok.
  pose proof (proj1 (Forall_lookup _ _) own_libs_tables cat _ Hl) as (get_name & Hg & Ht). clear Hl.
  apply andb_true_iff in Hok as [[Hnd%bool_decide_eq_true Hlen]%andb_true_iff Hall].
  rewrite forallb_forall in Hall.
  assert (Hent : ∀ x, x ∈ tbl → entry_ok lib x = true) by (intros x Hx; by apply Hall, list_elem_of_In).
  assert (Hfit : Forall names_fit tbl).
  { apply Forall_forall. intros x Hx. pose proof Ht as (_ & _ & Hsome). rewrite Forall_forall in Hsome.
    specialize (Hsome x Hx). destruct (tn_class x) as [c|] eqn:Ec; [|done].
    by apply (entry_ok_spec lib x c (Hent x Hx) Ec). }
  destruct (find_char_in_str_spec s (char ".")) as [(_ & Hn)|(class & name & -> & Hn & _)].
  { exists None, None. split; [by apply (get_test_case_no_dot fs _ lib get_name)|]. intros x class name _ _ _ ->.
    apply Hn, elem_of_app. right. left. }
  change (char "." :: name) with (bs "." ++ name) in *.
  rewrite (get_test_case_from_string_resolve fs (Z.of_nat cat) lib get_name tbl e) by (done || lia).
  destruct (resolve tbl class name) as [o idx] eqn:Er. exists o, idx. split; [done|].
  unfold resolve in Er. destruct (List.find _ tbl) as [x|] eqn:Ef.
  - apply List.find_some in Ef as [Hx Hc]. apply list_elem_of_In in Hx. apply bool_decide_eq_true in Hc.
    destruct (entry_ok_spec lib x class (Hent x Hx) Hc) as (_ & _ & gf & Hgf & Hfs).
    fold (case_names x) in Er. destruct (position name (case_names x)) as [j|] eqn:Ep; injection Er as <- <-.
    + apply position_Some in Ep. destruct (Hfs j name Ep) as (f & Hf & Hset). by exists class, name, j, f, gf.
    + apply position_None in Ep. intros y class' name' Hy Hc' Hin Heq.
      destruct (entry_ok_spec lib y class' (Hent y Hy) Hc') as (Hdot & _ & _).
      destruct (first_sep_unique (char ".") class name class' name' Hn Hdot Heq) as [<- <-].
      apply Ep. assert (x = y) as ->; [|done].
      apply list_elem_of_lookup in Hx as [i Hx], Hy as [k Hy].
      assert (i = k) as ->; [|by simplify_eq].
      eapply NoDup_lookup; [exact Hnd|by rewrite list_lookup_fmap, Hx; simpl; rewrite Hc|].
      by rewrite list_lookup_fmap, Hy; simpl; rewrite Hc'.
  - unfold no_entry in Er. injection Er as <- <-. intros y class' name' Hy Hc' _ Heq.
    destruct (entry_ok_spec lib y class' (Hent y Hy) Hc') as (Hdot & _ & _).
    destruct (first_sep_unique (char ".") class name class' name' Hn Hdot Heq) as [<- _].
    apply list_elem_of_In in Hy. pose proof (List.find_none _ _ Ef y Hy) as Hno. unfold class_is in Hno.
    by rewrite bool_decide_eq_true_2 in Hno.
Qed.

(** With the libraries of the repository registered, a string of the command line resolves
    exactly when it is "Class.name" for a class of the library and a
    name in the list of that class; the index is the position of the name, and the case it
    selects has its setup, run and teardown functions.  No other string
    resolves, and the resolution always returns. *)
Theorem registered_case_strings `{SpdmResponder} fs cat lib tbl e s :
  teeio_init_test_funcs = Ok fs → own_libs !! cat = Some (lib, tbl, e) → strlen s < MAX_LINE_LENGTH →
  ∃ o idx, get_test_case_from_string fs (Some s) (Z.of_nat cat) = Ok (o, idx) ∧
  match o with
  | Some x => ∃ class name j f get_funcs,
      s = class ++ bs "." ++ name ∧ x ∈ tbl ∧ tn_class x = Some class ∧
      idx = Some (Z.of_nat j) ∧ case_names x !! j = Some name ∧
      get_case_funcs_func lib = Some get_funcs ∧
      get_funcs (tn_class_id x) (Z.of_nat j) = Ok f ∧ all_set f = true
  | None => ∀ x class name, x ∈ tbl → tn_class x = Some class → name ∈ case_names x → s ≠ class ++ bs "." ++ name
  end.
Proof. apply case_strings_resolved. Qed.

(** A responder library with one test case per group, for the witnesses. *)
#[local] Instance one_case_each : SpdmResponder :=
  {| responder_groups := map (λ g, (g, [{| case_id := 1; case_func := Some "run"%string;
                                           case_setup_func := None; case_teardown_func := None |}])) (seqZ 1 12);
     responder_groups_length := eq_refl |}.

Definition example_registry : list teeio_test_funcs_t :=
  match teeio_init_test_funcs with Ok fs => fs | Stop _ => [] end.

Lemma example_registry_eq : teeio_init_test_funcs = Ok example_registry.
Proof.
  assert (H : match teeio_init_test_funcs with Ok _ => true | Stop _ => false end = true) by (vm_compute; reflexivity).
  unfold example_registry. by destruct teeio_init_test_funcs.
Qed.

Definition resolved (r : res (option ide_test_case_name_t * option Z)) : option (option Z * option Z) :=
  match r with Ok (o, idx) => Some (tn_class_id <$> o, idx) | Stop _ => None end.

Lemma registered_case_strings_witness :
  ∃ o idx, get_test_case_from_string example_registry (Some (bs "Test.KeyRefresh")) 0 = Ok (o, idx) ∧
           tn_class_id <$> o = Some 5 ∧ idx = Some 1.
Proof.
  destruct (registered_case_strings example_registry 0 _ _ _ (bs "Test.KeyRefresh") example_registry_eq eq_refl
              ltac:(reflexivity)) as (o & idx & Hg & Ho).
  exists o, idx. split; [exact Hg|].
  assert (H : resolved (get_test_case_from_string example_registry (Some (bs "Test.KeyRefresh")) 0)
              = Some (Some 5, Some 1)) by (vm_compute; reflexivity).
  change (Z.of_nat 0) with 0 in Hg. rewrite Hg in H. cbn [resolved] in H. injection H as H1 H2.
  split; [exact H1|exact H2].
Defined.

(** What the generated table of a class depends on: the ids alone. *)
Definition gen_ids (ids : list Z) : res (bytes * Z) :=
  fold_res (λ i, gen_step {| case_id := i; case_func := None; case_setup_func := None; case_teardown_func := None |})
    ids ([], 0).

Lemma gen_ids_spec rs : fold_res gen_step rs ([], 0) = gen_ids (map case_id rs).
Proof.
  unfold gen_ids. generalize (@nil Z, 0). induction rs as [|r rs IH]; intros st; simpl; [done|].
  destruct st as [buf m]. unfold gen_step at 1 3. cbn [case_id].
  destruct (TEEIO_ASSERT _); simpl; [apply IH|done].
Qed.

(** The largest number of cases of a group that is sure to fit the line buffer. *)
Definition MAX_SPDM_CASES : Z := 80.

Lemma gen_ids_dense n :
  1 ≤ n ≤ MAX_SPDM_CASES →
  ∃ buf, gen_ids (seqZ 1 n) = Ok (buf, n) ∧
    map (CLib.digits_value 10) (CLib.tokens 44 (take (length buf - 1) buf)) = seqZ 1 n.
Proof.
  intros Hn.
  pose (chk n := match gen_ids (seqZ 1 n) with
                 | Ok (buf, m) => (m =? n) && bool_decide
                     (map (CLib.digits_value 10) (CLib.tokens 44 (take (length buf - 1) buf)) = seqZ 1 n)
                 | Stop _ => false end).
  assert (Hc : chk n = true).
  { apply (forallb_range chk 1 80); [vm_compute; reflexivity|unfold MAX_SPDM_CASES in Hn; lia]. }
  unfold chk in Hc. destruct (gen_ids (seqZ 1 n)) as [[buf m]|]; [|done].
  apply andb_true_iff in Hc as [->%Z.eqb_eq Hb%bool_decide_eq_true]. by exists buf.
Qed.

(** The cases of a group are numbered from 1 without gaps. *)
Definition dense_group (g : Z * list common_test_case_t) : Prop :=
  ∃ n, 1 ≤ n ≤ MAX_SPDM_CASES ∧ map case_id (snd g) = seqZ 1 n.

Lemma gen_dense g :
  dense_group g →
  ∃ ids, gen_teeio_spdm_test_case_from_responder_test_case (snd g)
         = Ok (ids, Z.of_nat (length (snd g)), map spdm_case_funcs (snd g)) ∧
         map (CLib.digits_value 10) (CLib.tokens 44 ids) = map case_id (snd g).
Proof.
  intros (n & Hn & Hids). unfold gen_teeio_spdm_test_case_from_responder_test_case.
  rewrite gen_ids_spec, Hids. destruct (gen_ids_dense n Hn) as (buf & -> & Ht).
  assert (Z.of_nat (length (snd g)) = n) as ->.
  { apply (f_equal length) in Hids. rewrite length_map, length_seqZ in Hids. lia. }
  destruct (snd g) as [|r rs]; [|by eexists].
  apply (f_equal length) in Hids. rewrite length_seqZ in Hids. simpl in Hids. lia.
Qed.

(** The tables after some classes: row by row what the group says. *)
Definition class_row (row : bytes * (Z * list common_test_case_t)) (i : nat) (nm : ide_test_case_name_t) (cs : TEEIO_TEST_CASES) : Prop :=
  tn_class nm = Some (fst row) ∧ tn_class_id nm = Z.of_nat i ∧
  (∃ ids, tn_names nm = Some ids ∧ map (CLib.digits_value 10) (CLib.tokens 44 ids) = map case_id (snd (snd row))) ∧
  cs = cases_of (map spdm_case_funcs (snd (snd row))) (Z.of_nat (length (snd (snd row)))).

Lemma init_rows rows done t :
  Forall (λ row, dense_group (snd row)) rows →
  length (m_spdm_test_case_names t) = length done → length (m_spdm_test_case_funcs t) = length done →
  (∀ i row, done !! i = Some row → ∃ nm cs, m_spdm_test_case_names t !! i = Some nm ∧
     m_spdm_test_case_funcs t !! i = Some cs ∧ class_row row i nm cs) →
  ∃ t', fold_res init_one_class rows t = Ok t' ∧
    length (m_spdm_test_case_names t') = length (done ++ rows) ∧
    length (m_spdm_test_case_funcs t') = length (done ++ rows) ∧
    (∀ i row, (done ++ rows) !! i = Some row → ∃ nm cs, m_spdm_test_case_names t' !! i = Some nm ∧
       m_spdm_test_case_funcs t' !! i = Some cs ∧ class_row row i nm cs).
Proof.
  intros Hd. revert done t. induction Hd as [|row rows Hrow _ IH]; intros dn t Hl1 Hl2 Hinv; simpl.
  { exists t. by rewrite app_nil_r. }
  destruct (gen_dense _ Hrow) as (ids & Hg & Hids). unfold init_one_class at 1. rewrite Hg. cbn [res_bind].
  rewrite (cons_middle row dn rows), app_assoc. apply IH; cbn [m_spdm_test_case_names m_spdm_test_case_funcs].
  1,2: rewrite !length_app; simpl; lia.
  intros i r Hi. apply lookup_app_Some in Hi as [Hi|[Hge Hi]].
  - destruct (Hinv i r Hi) as (nm & cs & Hn & Hc & Hr). exists nm, cs.
    split_and!; [by apply lookup_app_l_Some|by apply lookup_app_l_Some|done].
  - apply list_lookup_singleton_Some in Hi as [Hi ->]. assert (i = length dn) as -> by lia.
    eexists _, _. rewrite <- Hl1 at 1. rewrite <- Hl2 at 1. rewrite !lookup_app_r, !Nat.sub_diag by done.
    split_and!; [done|done|]. split_and!; simpl; [done|by rewrite Hl1|by eexists|done].
Qed.

(** When the cases of every responder group are numbered from 1 without gaps, the
    SPDM library initialises; each class then lists exactly the ids
    of its group, and looking a case up by its id gives that case's own functions. *)
Theorem spdm_cases_follow_responder `{SpdmResponder} :
  Forall dense_group responder_groups →
  ∃ t, spdm_test_lib_init_test_cases = Ok t ∧
  ∀ i g, responder_groups !! i = Some g →
  ∃ nm, spdm_get_test_case_name t (Z.of_nat i) = Ok nm ∧ tn_class nm = spdm_class_names !! i ∧
    (∃ ids, tn_names nm = Some ids ∧ map (CLib.digits_value 10) (CLib.tokens 44 ids) = map case_id (snd g)) ∧
    ∀ r, r ∈ snd g → spdm_get_test_case_funcs t (Z.of_nat i) (case_id r - 1) = Ok (spdm_case_funcs r).
Proof.
  intros Hd. pose proof responder_groups_length as Hlen.
  set (rows := zip spdm_class_names responder_groups).
  assert (Hrows : ∀ i g, responder_groups !! i = Some g → ∃ c, spdm_class_names !! i = Some c ∧ rows !! i = Some (c, g)).
  { intros i g Hi. pose proof (lookup_lt_Some _ _ _ Hi) as Hlt. rewrite Hlen in Hlt.
    destruct (spdm_class_names !! i) as [c|] eqn:Ec; [|apply lookup_ge_None in Ec; simpl in Ec; lia].
    exists c. split; [done|]. apply lookup_zip_Some. done. }
  destruct (init_rows rows [] {| m_spdm_test_case_names := []; m_spdm_test_case_funcs := [] |})
    as (t & Ht & Hl1 & Hl2 & Hinv); [|done|done|by intros i row Hi|].
  { apply Forall_forall. intros [c g] Hin. apply elem_of_zip_r in Hin. rewrite Forall_forall in Hd. by apply Hd. }
  unfold spdm_test_lib_init_test_cases. fold rows. rewrite Ht. cbn [res_bind]. eexists. split; [done|].
  intros i g Hi. pose proof (lookup_lt_Some _ _ _ Hi) as Hlt. rewrite Hlen in Hlt.
  destruct (Hrows i g Hi) as (c & Hc & Hrow).
  destruct (Hinv i _ Hrow) as (nm & cs & Hnm & Hcs & Hcl & _ & Hids & ->). exists nm.
  split; [|split; [by rewrite Hc|split; [done|]]].
  - unfold spdm_get_test_case_name, case_name_at, SPDM_TEST_CASE_NUM. rewrite (proj2 (Z.ltb_lt _ _)) by lia. simpl.
    apply array_get_Ok. split; [lia|]. rewrite Nat2Z.id. by apply lookup_app_l_Some.
  - intros r Hr. unfold spdm_get_test_case_funcs, case_funcs_at, SPDM_TEST_CASE_NUM.
    rewrite (proj2 (Z.ltb_lt _ _)) by lia. cbn [TEEIO_ASSERT res_bind m_spdm_test_case_funcs].
    rewrite (array_get_nat _ i _ Hcs).
    cbn [res_bind tcs_cnt cases_of tcs_funcs fst snd].
    rewrite Forall_forall in Hd. destruct (Hd g (list_elem_of_lookup_2 _ _ _ Hi)) as (n & Hn & Hg).
    apply list_elem_of_lookup in Hr as [k Hr]. pose proof (lookup_lt_Some _ _ _ Hr) as Hk.
    assert (Hid : case_id r = 1 + Z.of_nat k).
    { assert (Hm : map case_id (snd g) !! k = Some (case_id r)) by (by rewrite list_lookup_fmap, Hr).
      rewrite Hg in Hm. by apply lookup_seqZ in Hm as [-> _]. }
    rewrite Hid, (proj2 (Z.ltb_lt _ _)) by lia. cbn [TEEIO_ASSERT res_bind].
    apply array_get_Ok. split; [lia|]. replace (Z.to_nat (1 + Z.of_nat k - 1)) with k by lia.
    by rewrite list_lookup_fmap, Hr.
Qed.

Lemma spdm_cases_follow_responder_witness :
  ∃ t, spdm_test_lib_init_test_cases = Ok t ∧
       spdm_get_test_case_funcs t 3 0 = Ok {| tf_setup := None; tf_run := Some "run"%string; tf_teardown := None;
                                              tf_config_check_required := false |}.
Proof.
  destruct spdm_cases_follow_responder as (t & Ht & Hc).
  - repeat constructor; exists 1; (split; [unfold MAX_SPDM_CASES; lia|reflexivity]).
  - exists t. split; [exact Ht|]. destruct (Hc 3%nat _ eq_refl) as (nm & _ & _ & _ & Hf).
    exact (Hf _ (list_elem_of_here _ _)).
Defined.

End TestLib.
