(* ===== verification/Prepare.v ===== *)
(** * Preparing the tests (teeio_validator/ide_test.c, up to [prepare_tests_data])

    From the configuration and the registered test libraries to the suites
    the engine runs.  A prepared object is built as a value: the C code links
    a group into its suite before it adds the cases, here the group is
    linked in with its cases. *)
From Stdlib Require Import ZArith Lia Ascii String.
From stdpp Require Import prelude.
From S2P Require Import Prelude TestConfig Results Engine TestLib.
Import TestConfig Engine TestLib.

Open Scope Z_scope.
Open Scope teeio_scope.

Module Prepare.

Definition m_ide_test_topology_name : list bytes := [bs "SelectiveIDE"; bs "LinkIDE"; bs "SelectiveAndLinkIDE"].

(** A pointer the code asserts before it uses it. *)
Definition asserted {A} (o : option A) : res A := match o with Some a => Ok a | None => Stop AssertHang end.

Section prepare.
Context (m_teeio_test_funcs : list teeio_test_funcs_t).

Definition alloc_run_test_suite (suite : IDE_TEST_SUITE) : ide_run_test_suite_t :=
  {| ts_name := bs "TestSuite_" ++ dec (suite_id suite); ts_signature := SUITE_CONTEXT_SIGNATURE;
     ts_suite_id := suite_id suite; ts_category := suite_category suite; test_group := []; test_config := [] |}.

(** The value and the items of the configuration. *)
Definition alloc_run_test_config_item (items : list ide_run_test_config_item_t) (config_type type category : Z)
    : res (bool * list ide_run_test_config_item_t) :=
  let* _ := TEEIO_ASSERT (type <? IDE_TEST_TOPOLOGY_TYPE_NUM) in
  let* _ := TEEIO_ASSERT (config_type <? IDE_TEST_CONFIGURATION_TYPE_NUM) in
  let* test_funcs := array_get m_teeio_test_funcs category in
  match get_configuration_funcs_func test_funcs with
  | None => Ok (false, items)
  | Some get_funcs =>
      let* config_func := get_funcs type config_type in
      Ok (true, items ++ [{| item_category := category; item_type := u8 config_type;
                             enable_func := cf_enable config_func; disable_func := cf_disable config_func;
                             support_func := cf_support config_func; check_func := cf_check config_func |}])
  end.

(** One round of the loop over the 32 configuration bits: the items and [name_buf]. *)
Definition config_bit_step (get_name : Z → res (option bytes)) (config_bits type category i : Z)
    (st : list ide_run_test_config_item_t * bytes) : res (list ide_run_test_config_item_t * bytes) :=
  let '(items, name_buf) := st in
  if Z.land config_bits (BIT_MASK i) =? 0 then Ok st else
  let* r := alloc_run_test_config_item items i type category in
  let* o := get_name i in
  let* configuration_name := deref o in
  let* _ := TEEIO_ASSERT (strlen name_buf + strlen configuration_name + 1 <? MAX_NAME_LENGTH) in
  Ok (snd r, name_buf ++ configuration_name ++ bs "+").

(** The value and the suite. *)
Definition alloc_run_test_config (rts : ide_run_test_suite_t) (test_config : IDE_TEST_CONFIG) (topid config_id : Z)
    : res (bool * ide_run_test_suite_t) :=
  let* o := get_configuration_by_id (Some test_config) config_id in
  let* configuration := asserted o in
  let* _ := TEEIO_ASSERT (cfg_enabled configuration) in
  let* _ := TEEIO_ASSERT (negb (cfg_bit_map configuration =? 0)) in
  let* _ := TEEIO_ASSERT (cfg_type configuration <? IDE_TEST_TOPOLOGY_TYPE_NUM) in
  let* o := get_topology_by_id (Some test_config) topid in
  let* top := asserted o in
  let* _ := TEEIO_ASSERT (top_enabled top) in
  let* _ := TEEIO_ASSERT (top_type top =? cfg_type configuration) in
  let test_category := ts_category rts in
  let* test_funcs := array_get m_teeio_test_funcs test_category in
  match get_configuration_bitmask_func test_funcs, get_configuration_name_func test_funcs with
  | Some get_bitmask, Some get_name =>
      let* config_bitmask := get_bitmask (cfg_type configuration) in
      let config_bits := Z.land (cfg_bit_map configuration) config_bitmask in
      let* st := fold_res (config_bit_step get_name config_bits (top_type top) test_category) (seqZ 0 32) ([], []) in
      let '(items, name_buf) := st in
      let* _ := TEEIO_ASSERT (1 <? strlen name_buf) in
      let run_test_config :=
        {| rtc_config_id := config_id; rtc_name := take (length name_buf - 1) name_buf;
           rtc_signature := CONFIG_CONTEXT_SIGNATURE; rtc_top_type := top_type top; config_item := items |} in
      Ok (true, {| ts_name := ts_name rts; ts_signature := ts_signature rts; ts_suite_id := ts_suite_id rts;
                   ts_category := ts_category rts; test_group := test_group rts;
                   Engine.test_config := Engine.test_config rts ++ [run_test_config] |})
  | _, _ => Ok (false, rts)
  end.

Fixpoint alloc_switch_internal_conn_context (test_config : IDE_TEST_CONFIG) (conns : list IDE_SWITCH_INTERNAL_CONNECTION)
    : res (list ide_common_test_switch_internal_conn_context_t) :=
  match conns with
  | [] => Ok []
  | conn :: conns =>
      let* sw := get_switch_by_id (Some test_config) (conn_switch_id conn) in
      let* _ := TEEIO_ASSERT (is_some sw) in
      let* ups := get_port_from_switch_by_id sw (conn_ups_port conn) in
      let* dps := get_port_from_switch_by_id sw (conn_dps_port conn) in
      match ups, dps with
      | Some ups_port, Some dps_port =>
          let* rest := alloc_switch_internal_conn_context test_config conns in
          Ok ({| sc_switch_id := conn_switch_id conn; sc_ups := ups_port; sc_dps := dps_port |} :: rest)
      | _, _ => Stop AssertHang
      end
  end.

(** [None] is [NULL]. *)
Definition alloc_run_test_group (test_category : Z) (test_config : IDE_TEST_CONFIG) (topid case_class : Z)
    : res (option ide_run_test_group_t) :=
  let* o := get_topology_by_id (Some test_config) topid in
  let* top := asserted o in
  let* _ := TEEIO_ASSERT (top_type top <? IDE_TEST_TOPOLOGY_TYPE_NUM) in
  let* root := get_port_by_id (Some test_config) (top_root_port top) in
  let* upper := get_port_by_id (Some test_config) (top_upper_port top) in
  let* lower := get_port_by_id (Some test_config) (top_lower_port top) in
  let* root_port := asserted root in
  let* upper_port := asserted upper in
  let* lower_port := asserted lower in
  let* name := array_get m_ide_test_topology_name (top_type top) in
  let* test_funcs := array_get m_teeio_test_funcs test_category in
  match get_group_funcs_func test_funcs, alloc_test_group_context_func test_funcs with
  | Some get_funcs, Some signature =>
      let* group_funcs := get_funcs (top_type top) in
      let via_switch := (top_connection top =? IDE_TEST_CONNECT_SWITCH) || (top_connection top =? IDE_TEST_CONNECT_P2P) in
      let* conn1 := if via_switch then alloc_switch_internal_conn_context test_config (top_sw_conn1 top) else Ok [] in
      let* conn2 := if top_connection top =? IDE_TEST_CONNECT_P2P
                    then alloc_switch_internal_conn_context test_config (top_sw_conn2 top) else Ok [] in
      Ok (Some {| tg_name := name; tg_signature := signature; tg_case_class := case_class;
                  tg_context := {| gc_top := top; gc_root_port := root_port; gc_upper_port := upper_port;
                                   gc_lower_port := lower_port; gc_sw_conn1 := conn1; gc_sw_conn2 := conn2 |};
                  test_case := []; group_setup_func := gf_setup group_funcs;
                  group_teardown_func := gf_teardown group_funcs |})
  | _, _ => Ok None
  end.

Definition add_case (tg : ide_run_test_group_t) (tc : ide_run_test_case_t) : ide_run_test_group_t :=
  {| tg_name := tg_name tg; tg_signature := tg_signature tg; tg_case_class := tg_case_class tg;
     tg_context := tg_context tg; test_case := test_case tg ++ [tc];
     group_setup_func := group_setup_func tg; group_teardown_func := group_teardown_func tg |}.

(** The value and the group. *)
Definition alloc_run_test_case (test_category : Z) (tg : ide_run_test_group_t) (case_class id : Z)
    : res (bool * ide_run_test_group_t) :=
  let* _ := TEEIO_ASSERT (case_class <? MAX_TEST_CASE_NUM) in
  let* _ := TEEIO_ASSERT (id <=? MAX_CASE_ID) in
  let* test_funcs := array_get m_teeio_test_funcs test_category in
  match get_case_name_func test_funcs, get_case_funcs_func test_funcs with
  | Some get_name, Some get_funcs =>
      let* nm := get_name case_class in
      let* class := deref (tn_class nm) in
      let* case_funcs := get_funcs case_class (s32 (id - 1)) in
      Ok (true, add_case tg
        {| tc_class := class; tc_name := class ++ bs "." ++ dec id; tc_class_id := case_class; tc_case_id := id;
           tc_signature := CASE_CONTEXT_SIGNATURE; tc_skip := false;
           config_check_required := tf_config_check_required case_funcs; run_func := tf_run case_funcs;
           setup_func := tf_setup case_funcs; teardown_func := tf_teardown case_funcs |})
  | _, _ => Ok (false, tg)
  end.

(** One class of the suite; the value of [alloc_run_test_case] is ignored. *)
Definition alloc_class (test_config : IDE_TEST_CONFIG) (suite : IDE_TEST_SUITE) (topid i : Z)
    (rts : ide_run_test_suite_t) : res ide_run_test_suite_t :=
  let* tc := array_get (suite_cases suite) i in
  if cases_cnt tc =? 0 then Ok rts else
  let* o := alloc_run_test_group (suite_category suite) test_config topid i in
  let* tg := asserted o in
  let* tg := fold_res (λ j tg,
      let* id := array_get (cases_id tc) j in
      let* r := alloc_run_test_case (suite_category suite) tg i id in Ok (snd r))
    (seqZ 0 (cases_cnt tc)) tg in
  Ok {| ts_name := ts_name rts; ts_signature := ts_signature rts; ts_suite_id := ts_suite_id rts;
        ts_category := ts_category rts; test_group := test_group rts ++ [tg];
        Engine.test_config := Engine.test_config rts |}.

Definition alloc_run_test_cases (rts : ide_run_test_suite_t) (test_config : IDE_TEST_CONFIG)
    (suite : IDE_TEST_SUITE) (top : IDE_TEST_TOPOLOGY) : res (bool * ide_run_test_suite_t) :=
  let* rts := fold_res (alloc_class test_config suite (top_id top)) (seqZ 0 MAX_TEST_CASE_NUM) rts in
  Ok (true, rts).

(** One round over the suites: the chain so far. *)
Definition prepare_suite (test_config : IDE_TEST_CONFIG) (i : Z) (chain : list ide_run_test_suite_t)
    : res (list ide_run_test_suite_t) :=
  let* suite := array_get (test_suites (suites_config test_config)) i in
  if (suite_id suite =? 0) || negb (suite_enabled suite) then Ok chain else
  let* o := get_topology_by_id (Some test_config) (suite_topology_id suite) in
  match o with
  | None => Ok chain
  | Some top =>
      let rts := alloc_run_test_suite suite in
      let* r := alloc_run_test_config rts test_config (suite_topology_id suite) (suite_configuration_id suite) in
      let* _ := TEEIO_ASSERT (fst r) in
      let* r := alloc_run_test_cases (snd r) test_config suite top in
      let* _ := TEEIO_ASSERT (fst r) in
      Ok (chain ++ [snd r])
  end.

Definition prepare_tests_data (test_config : IDE_TEST_CONFIG) : res (list ide_run_test_suite_t) :=
  fold_res (prepare_suite test_config) (seqZ 0 MAX_TEST_SUITE_NUM) [].

End prepare.

(** ** What a suite needs to be prepared *)

(** The configuration bits a library is asked for, and whether it serves them. *)
Definition bit_set (bits i : Z) : bool := Z.testbit bits i.
Definition set_bits_of (bits : Z) : list Z := filter (λ i, bit_set bits i = true) (seqZ 0 32).

Definition name_length (get_name : Z → res (option bytes)) (i : Z) : Z :=
  match get_name i with Ok (Some n) => strlen n + 1 | _ => 0 end.

Record serves_config (lib : teeio_test_funcs_t) (type bit_map : Z) (bits : Z) : Prop := {
  sc_mask : ∃ get_bitmask mask, get_configuration_bitmask_func lib = Some get_bitmask ∧
              get_bitmask type = Ok mask ∧ bits = Z.land bit_map mask;
  sc_some : set_bits_of bits ≠ [];
  sc_items : ∃ get_funcs get_name,
    get_configuration_funcs_func lib = Some get_funcs ∧ get_configuration_name_func lib = Some get_name ∧
    (∀ i, i ∈ set_bits_of bits → i < IDE_TEST_CONFIGURATION_TYPE_NUM ∧
       (∃ f, get_funcs type i = Ok f ∧ is_some (cf_enable f) && is_some (cf_disable f) && is_some (cf_support f)
             && is_some (cf_check f) = true) ∧
       (∃ n, get_name i = Ok (Some n) ∧ n ≠ [])) ∧
    Results.sumZ (name_length get_name) (set_bits_of bits) < MAX_NAME_LENGTH
}.

Definition serves_group (lib : teeio_test_funcs_t) (type : Z) : Prop :=
  ∃ get_funcs f, get_group_funcs_func lib = Some get_funcs ∧ get_funcs type = Ok f ∧
    is_some (gf_setup f) && is_some (gf_teardown f) = true ∧
    alloc_test_group_context_func lib = Some GROUP_CONTEXT_SIGNATURE.

Definition serves_case (lib : teeio_test_funcs_t) (case_class id : Z) : Prop :=
  ∃ get_name get_funcs nm class f,
    get_case_name_func lib = Some get_name ∧ get_case_funcs_func lib = Some get_funcs ∧
    get_name case_class = Ok nm ∧ tn_class nm = Some class ∧ get_funcs case_class (id - 1) = Ok f.

Definition item_ready (it : ide_run_test_config_item_t) : Prop :=
  support_func it ≠ None ∧ enable_func it ≠ None ∧ disable_func it ≠ None ∧ check_func it ≠ None.

(** *** Configuration items *)

Lemma land_BIT_MASK bits i : 0 ≤ i < 32 → (Z.land bits (BIT_MASK i) =? 0) = negb (bit_set bits i).
Proof.
  intros Hi. unfold BIT_MASK, u32, bit_set. rewrite Z.shiftl_mul_pow2, Z.mul_1_l by lia.
  rewrite Z.mod_small by (split; [lia|apply Z.pow_lt_mono_r; lia]).
  destruct (Z.testbit bits i) eqn:E; simpl.
  - apply Z.eqb_neq. intros H. apply (f_equal (λ x, Z.testbit x i)) in H.
    by rewrite Z.land_spec, E, Z.pow2_bits_true, Z.bits_0 in H by lia.
  - apply Z.eqb_eq, Z.bits_inj'. intros k Hk. rewrite Z.land_spec, Z.bits_0.
    destruct (decide (k = i)) as [->|Hne]; [by rewrite E|].
    by rewrite Z.pow2_bits_false, andb_false_r by lia.
Qed.

Section config_loop.
Context (fs : list teeio_test_funcs_t) (lib : teeio_test_funcs_t) (category type bits : Z)
  (get_funcs : Z → Z → res ide_test_config_funcs_t) (get_name : Z → res (option bytes)).
Context (Hlib : array_get fs category = Ok lib) (Hfuncs : get_configuration_funcs_func lib = Some get_funcs)
  (Htype : type < IDE_TEST_TOPOLOGY_TYPE_NUM).

Definition bit_served (i : Z) : Prop :=
  i < IDE_TEST_CONFIGURATION_TYPE_NUM ∧
  (∃ f, get_funcs type i = Ok f ∧ is_some (cf_enable f) && is_some (cf_disable f) && is_some (cf_support f)
        && is_some (cf_check f) = true) ∧
  (∃ n, get_name i = Ok (Some n) ∧ n ≠ []).

Lemma config_bit_served i items buf :
  0 ≤ i < 32 → bit_set bits i = true → bit_served i → strlen buf + name_length get_name i < MAX_NAME_LENGTH →
  ∃ it n, config_bit_step fs get_name bits type category i (items, buf) = Ok (items ++ [it], buf ++ n) ∧
    item_type it = i ∧ item_category it = category ∧ item_ready it ∧ strlen n = name_length get_name i ∧ 1 < strlen n.
Proof.
  intros Hi Hb (Hnum & (f & Hf & Hset) & (n & Hn & Hne)) Hlen.
  unfold config_bit_step. rewrite land_BIT_MASK, Hb by done. cbn [negb].
  unfold alloc_run_test_config_item. rewrite (proj2 (Z.ltb_lt _ _) Htype), (proj2 (Z.ltb_lt _ _) Hnum).
  cbn [TEEIO_ASSERT res_bind]. rewrite Hlib. cbn [res_bind]. rewrite Hfuncs, Hf. cbn [res_bind snd].
  rewrite Hn. cbn [res_bind deref]. unfold name_length in *. rewrite Hn in *.
  rewrite (proj2 (Z.ltb_lt _ _)) by lia. cbn [TEEIO_ASSERT res_bind].
  eexists _, _. split; [reflexivity|]. unfold item_ready.
  cbn [item_type item_category support_func enable_func disable_func check_func].
  unfold u8, IDE_TEST_CONFIGURATION_TYPE_NUM in *. rewrite Z.mod_small by lia. inv_ok.
  assert (strlen (n ++ bs "+") = strlen n + 1) as -> by (unfold strlen; rewrite length_app; simpl; lia).
  destruct (cf_enable f), (cf_disable f), (cf_support f), (cf_check f); try done.
  assert (0 < strlen n) by (destruct n; [done|unfold strlen; simpl; lia]). split_and!; (done || lia).
Qed.

(** The loop keeps the set bits, in order. *)
Lemma config_loop l items buf :
  Forall (λ i, 0 ≤ i < 32) l →
  Forall bit_served (filter (λ i, bit_set bits i = true) l) →
  strlen buf + Results.sumZ (name_length get_name) (filter (λ i, bit_set bits i = true) l) < MAX_NAME_LENGTH →
  ∃ its names,
    fold_res (config_bit_step fs get_name bits type category) l (items, buf) = Ok (items ++ its, buf ++ names) ∧
    map item_type its = filter (λ i, bit_set bits i = true) l ∧
    Forall (λ it, item_category it = category ∧ item_ready it) its ∧
    (filter (λ i, bit_set bits i = true) l ≠ [] → 1 < strlen names).
Proof.
  intros Hl. revert items buf. induction Hl as [|i l Hi _ IH]; intros items buf Hs Hlen.
  { exists [], []. rewrite !app_nil_r. by split_and!. }
  cbn [fold_res]. destruct (bit_set bits i) eqn:Hb.
  - rewrite filter_cons_True in Hs, Hlen |- * by done. apply Forall_cons in Hs as [Hi1 Hs]. cbn [Results.sumZ] in Hlen.
    assert (Hsum : 0 ≤ Results.sumZ (name_length get_name) (filter (λ i, bit_set bits i = true) l)).
    { clear. induction (filter _ l) as [|k r IH]; simpl; [lia|]. unfold name_length at 1.
      destruct (get_name k) as [[n|]|]; unfold strlen; lia. }
    destruct (config_bit_served i items buf Hi Hb Hi1) as (it & n & -> & Hty & Hcat & Hr & Hn & Hn1); [lia|].
    cbn [res_bind].
    destruct (IH (items ++ [it]) (buf ++ n)) as (its & names & -> & Hm & Hf & _); [done| |].
    { assert (strlen (buf ++ n) = strlen buf + strlen n) as -> by (unfold strlen; rewrite length_app; lia). lia. }
    exists (it :: its), (n ++ names). rewrite <- !app_assoc. split_and!; [done|by simpl; rewrite Hm, Hty|by constructor|].
    intros _. unfold strlen in *. rewrite length_app. lia.
  - rewrite filter_cons_False in Hs, Hlen |- * by (by rewrite Hb). unfold config_bit_step at 1.
    rewrite land_BIT_MASK, Hb by done. cbn [negb res_bind]. by apply IH.
Qed.

End config_loop.

(** *** A suite *)

Definition conn_ok (c : IDE_TEST_CONFIG) (conn : IDE_SWITCH_INTERNAL_CONNECTION) : Prop :=
  ∃ sw ups dps, get_switch_by_id (Some c) (conn_switch_id conn) = Ok (Some sw) ∧
    get_port_from_switch_by_id (Some sw) (conn_ups_port conn) = Ok (Some ups) ∧
    get_port_from_switch_by_id (Some sw) (conn_dps_port conn) = Ok (Some dps).

Definition port_ok (c : IDE_TEST_CONFIG) (id : Z) : Prop := ∃ p, get_port_by_id (Some c) id = Ok (Some p).

(** The ports and switches a topology names are there. *)
Record topology_ok (c : IDE_TEST_CONFIG) (top : IDE_TEST_TOPOLOGY) : Prop := {
  to_type : 0 ≤ top_type top < IDE_TEST_TOPOLOGY_TYPE_NUM;
  to_root : port_ok c (top_root_port top);
  to_upper : port_ok c (top_upper_port top);
  to_lower : port_ok c (top_lower_port top);
  to_conn1 : top_connection top ≠ IDE_TEST_CONNECT_DIRECT → Forall (conn_ok c) (top_sw_conn1 top);
  to_conn2 : top_connection top = IDE_TEST_CONNECT_P2P → Forall (conn_ok c) (top_sw_conn2 top)
}.

(** The case ids of a class that were selected. *)
Definition selected (tc : IDE_TEST_CASE) : list Z := take (Z.to_nat (cases_cnt tc)) (cases_id tc).

Record suite_plan (fs : list teeio_test_funcs_t) (c : IDE_TEST_CONFIG) (s : IDE_TEST_SUITE)
    (top : IDE_TEST_TOPOLOGY) (bits : Z) : Prop := {
  sp_top : get_topology_by_id (Some c) (suite_topology_id s) = Ok (Some top);
  sp_top_ok : topology_ok c top;
  sp_cfg : ∃ cfg lib,
    get_configuration_by_id (Some c) (suite_configuration_id s) = Ok (Some cfg) ∧
    cfg_type cfg = top_type top ∧ cfg_bit_map cfg ≠ 0 ∧
    array_get fs (suite_category s) = Ok lib ∧
    serves_config lib (top_type top) (cfg_bit_map cfg) bits ∧ serves_group lib (top_type top) ∧
    (∀ i tc id, suite_cases s !! i = Some tc → id ∈ selected tc →
       1 ≤ id ≤ MAX_CASE_ID ∧ serves_case lib (Z.of_nat i) id);
  sp_cases : Z.of_nat (length (suite_cases s)) = MAX_TEST_CASE_NUM;
  sp_counts : Forall (λ tc, 0 ≤ cases_cnt tc ≤ Z.of_nat (length (cases_id tc))) (suite_cases s)
}.

(** The groups of a suite: the classes with selected cases, with their ids. *)
Definition plan_of (x : Z * IDE_TEST_CASE) : option (Z * list Z) :=
  if cases_cnt (snd x) =? 0 then None else Some (fst x, selected (snd x)).

Definition planned_groups (s : IDE_TEST_SUITE) : list (Z * list Z) :=
  omap plan_of (zip (seqZ 0 (Z.of_nat (length (suite_cases s)))) (suite_cases s)).

Definition group_plan (tg : ide_run_test_group_t) : Z * list Z := (tg_case_class tg, map tc_case_id (test_case tg)).

(** What the prepared suite holds. *)
Definition prepared_config (s : IDE_TEST_SUITE) (top : IDE_TEST_TOPOLOGY) (bits : Z) (rtc : ide_run_test_config_t) : Prop :=
  rtc_config_id rtc = suite_configuration_id s ∧ rtc_signature rtc = CONFIG_CONTEXT_SIGNATURE ∧
  rtc_top_type rtc = top_type top ∧
  map item_type (config_item rtc) = set_bits_of bits ∧ config_item rtc ≠ [] ∧
  Forall (λ it, item_category it = suite_category s ∧ item_ready it) (config_item rtc).

Definition prepared_group (top : IDE_TEST_TOPOLOGY) (tg : ide_run_test_group_t) : Prop :=
  tg_signature tg = GROUP_CONTEXT_SIGNATURE ∧ group_setup_func tg ≠ None ∧ group_teardown_func tg ≠ None ∧
  gc_top (tg_context tg) = top ∧
  Forall (λ tc, tc_signature tc = CASE_CONTEXT_SIGNATURE ∧ tc_skip tc = false ∧ tc_class_id tc = tg_case_class tg)
    (test_case tg).

Record prepared (s : IDE_TEST_SUITE) (top : IDE_TEST_TOPOLOGY) (bits : Z) (ts : ide_run_test_suite_t) : Prop := {
  pr_id : ts_suite_id ts = suite_id s;
  pr_category : ts_category ts = suite_category s;
  pr_signature : ts_signature ts = SUITE_CONTEXT_SIGNATURE;
  pr_config : ∃ rtc, Engine.test_config ts = [rtc] ∧ prepared_config s top bits rtc;
  pr_groups : map group_plan (test_group ts) = planned_groups s;
  pr_group : Forall (prepared_group top) (test_group ts)
}.

Lemma get_topology_by_id_found c id top :
  get_topology_by_id (Some c) id = Ok (Some top) → top_id top = id ∧ top_enabled top = true.
Proof.
  unfold get_topology_by_id. destruct (id <=? 0); [done|]. intros [H _]%find_cell_Some.
  apply andb_true_iff in H as [H1%Z.eqb_eq H2]. done.
Qed.

Lemma get_configuration_by_id_found c id cfg :
  get_configuration_by_id (Some c) id = Ok (Some cfg) → cfg_id cfg = id ∧ cfg_enabled cfg = true.
Proof.
  unfold get_configuration_by_id. destruct (id <=? 0); [done|]. intros [H _]%find_cell_Some.
  apply andb_true_iff in H as [H1%Z.eqb_eq H2]. done.
Qed.

Section suite.
Context (fs : list teeio_test_funcs_t) (c : IDE_TEST_CONFIG) (s : IDE_TEST_SUITE) (top : IDE_TEST_TOPOLOGY) (bits : Z).
Context (Hplan : suite_plan fs c s top bits).

Lemma alloc_run_test_config_planned rts :
  ts_category rts = suite_category s →
  ∃ rtc, alloc_run_test_config fs rts c (suite_topology_id s) (suite_configuration_id s) =
      Ok (true, {| ts_name := ts_name rts; ts_signature := ts_signature rts; ts_suite_id := ts_suite_id rts;
                   ts_category := ts_category rts; test_group := test_group rts;
                   Engine.test_config := Engine.test_config rts ++ [rtc] |}) ∧
    prepared_config s top bits rtc.
Proof.
  intros Hcat. destruct Hplan as [Htop [Hty _ _ _ _ _] (cfg & lib & Hcfg & Htc & Hbm & Hlib & Hserve & _) _ _].
  destruct (get_topology_by_id_found _ _ _ Htop) as [_ Hte].
  destruct (get_configuration_by_id_found _ _ _ Hcfg) as [_ Hce].
  destruct Hserve as [(get_bitmask & mask & Hgb & Hmask & Hbits) Hsome (gf & gn & Hgf & Hgn & Hitems & Hlen)].
  unfold alloc_run_test_config. rewrite Hcfg. cbn [res_bind asserted]. rewrite Hce. cbn [TEEIO_ASSERT res_bind].
  rewrite (proj2 (Z.eqb_neq _ _) Hbm). cbn [negb TEEIO_ASSERT res_bind].
  rewrite Htc, (proj2 (Z.ltb_lt _ _)) by lia. cbn [TEEIO_ASSERT res_bind].
  rewrite Htop. cbn [res_bind asserted]. rewrite Hte. cbn [TEEIO_ASSERT res_bind].
  rewrite Z.eqb_refl. cbn [TEEIO_ASSERT res_bind]. rewrite Hcat, Hlib. cbn [res_bind].
  rewrite Hgb, Hgn, Hmask. cbn [res_bind]. rewrite <- Hbits.
  destruct (config_loop fs lib (suite_category s) (top_type top) bits gf gn Hlib Hgf (proj2 Hty)
              (seqZ 0 32) [] []) as (its & names & -> & Hm & Hr & Hn).
  - apply Forall_forall. intros i Hi%elem_of_seqZ. lia.
  - apply Forall_forall. exact Hitems.
  - exact Hlen.
  - cbn [app res_bind]. rewrite (proj2 (Z.ltb_lt _ _)) by (by apply Hn). cbn [TEEIO_ASSERT res_bind].
    eexists. split; [done|]. split_and!; try done. simpl. intros ->. by destruct Hsome.
Qed.

Lemma alloc_conns conns : Forall (conn_ok c) conns → ∃ l, alloc_switch_internal_conn_context c conns = Ok l.
Proof.
  induction 1 as [|conn conns (sw & ups & dps & Hsw & Hu & Hd) _ [l IH]]; [by eexists|].
  cbn [alloc_switch_internal_conn_context]. rewrite Hsw. cbn [res_bind is_some TEEIO_ASSERT].
  rewrite Hu, Hd, IH. cbn [res_bind]. by eexists.
Qed.

Lemma alloc_run_test_group_planned lib i :
  array_get fs (suite_category s) = Ok lib → serves_group lib (top_type top) →
  ∃ tg, alloc_run_test_group fs (suite_category s) c (suite_topology_id s) i = Ok (Some tg) ∧
    prepared_group top tg ∧ tg_case_class tg = i ∧ test_case tg = [].
Proof.
  intros Hlib (gf & f & Hgf & Hf & Hset & Hctx).
  destruct Hplan as [Htop [Hty (rp & Hr) (up & Hu) (lp & Hl) Hc1 Hc2] _ _ _].
  unfold alloc_run_test_group. rewrite Htop. cbn [res_bind asserted].
  rewrite (proj2 (Z.ltb_lt _ _)) by lia. cbn [TEEIO_ASSERT res_bind].
  rewrite Hr, Hu, Hl. cbn [res_bind asserted].
  assert (∃ n, array_get m_ide_test_topology_name (top_type top) = Ok n) as [n ->].
  { unfold IDE_TEST_TOPOLOGY_TYPE_NUM in Hty.
    assert (top_type top = 0 ∨ top_type top = 1 ∨ top_type top = 2) as [-> | [-> | ->]] by lia; by eexists. }
  cbn [res_bind]. rewrite Hlib. cbn [res_bind]. rewrite Hgf, Hctx, Hf. cbn [res_bind].
  assert (∃ l, (if (top_connection top =? IDE_TEST_CONNECT_SWITCH) || (top_connection top =? IDE_TEST_CONNECT_P2P)
                then alloc_switch_internal_conn_context c (top_sw_conn1 top) else Ok []) = Ok l) as [l1 ->].
  { destruct (_ || _) eqn:E; [|by eexists]. apply alloc_conns, Hc1.
    unfold IDE_TEST_CONNECT_SWITCH, IDE_TEST_CONNECT_P2P, IDE_TEST_CONNECT_DIRECT in *. lia. }
  assert (∃ l, (if top_connection top =? IDE_TEST_CONNECT_P2P
                then alloc_switch_internal_conn_context c (top_sw_conn2 top) else Ok []) = Ok l) as [l2 ->].
  { destruct (Z.eqb_spec (top_connection top) IDE_TEST_CONNECT_P2P); [|by eexists]. by apply alloc_conns, Hc2. }
  cbn [res_bind]. eexists. split; [done|]. inv_ok.
  destruct (gf_setup f) eqn:E1, (gf_teardown f) eqn:E2; try done.
Qed.

Lemma alloc_run_test_case_planned lib i id tg :
  array_get fs (suite_category s) = Ok lib → i < MAX_TEST_CASE_NUM → 1 ≤ id ≤ MAX_CASE_ID → serves_case lib i id →
  prepared_group top tg → tg_case_class tg = i →
  ∃ tg', alloc_run_test_case fs (suite_category s) tg i id = Ok (true, tg') ∧
    prepared_group top tg' ∧ tg_case_class tg' = i ∧ map tc_case_id (test_case tg') = map tc_case_id (test_case tg) ++ [id].
Proof.
  intros Hlib Hi Hid (gn & gf & nm & class & f & Hgn & Hgf & Hnm & Hcl & Hf) (H1 & H2 & H3 & H4 & H5) Hc.
  unfold alloc_run_test_case, MAX_CASE_ID in *. rewrite (proj2 (Z.ltb_lt _ _)), (proj2 (Z.leb_le _ _)) by lia.
  cbn [TEEIO_ASSERT res_bind]. rewrite Hlib. cbn [res_bind]. rewrite Hgn, Hgf, Hnm. cbn [res_bind].
  rewrite Hcl. cbn [deref res_bind]. rewrite s32_small, Hf by lia. cbn [res_bind].
  eexists. split; [done|]. split; [|split; [done|by simpl; rewrite map_app]].
  split_and!; try done. simpl. apply Forall_app_2; [done|]. by repeat constructor.
Qed.

Lemma case_loop lib i (tc : IDE_TEST_CASE) n k tg :
  array_get fs (suite_category s) = Ok lib → i < MAX_TEST_CASE_NUM →
  (∀ id, id ∈ selected tc → 1 ≤ id ≤ MAX_CASE_ID ∧ serves_case lib i id) →
  (k + n)%nat = length (selected tc) → prepared_group top tg → tg_case_class tg = i →
  map tc_case_id (test_case tg) = take k (selected tc) →
  ∃ tg', fold_res (λ j tg, let* id := array_get (cases_id tc) j in
                           let* r := alloc_run_test_case fs (suite_category s) tg i id in Ok (snd r))
           (seqZ (Z.of_nat k) (Z.of_nat n)) tg = Ok tg' ∧
    prepared_group top tg' ∧ tg_case_class tg' = i ∧ map tc_case_id (test_case tg') = selected tc.
Proof.
  intros Hlib Hi Hsel. revert k tg. induction n as [|n IH]; intros k tg Hk Hg Hc Hm.
  { rewrite Nat.add_0_r in Hk. subst k. exists tg. rewrite firstn_all in Hm. done. }
  rewrite seqZ_cons by lia. cbn [fold_res].
  destruct (selected tc !! k) as [id|] eqn:Eid; [|apply lookup_ge_None in Eid; lia].
  assert (Hget : cases_id tc !! k = Some id) by (unfold selected in Eid; by apply lookup_take_Some in Eid as [? _]).
  rewrite (array_get_nat _ _ _ Hget). cbn [res_bind].
  destruct (Hsel id (list_elem_of_lookup_2 _ _ _ Eid)) as [Hid Hserve].
  destruct (alloc_run_test_case_planned lib i id tg Hlib Hi Hid Hserve Hg Hc) as (tg' & -> & Hg' & Hc' & Hm').
  cbn [res_bind snd]. replace (Z.succ (Z.of_nat k)) with (Z.of_nat (S k)) by lia.
  replace (Z.pred (Z.of_nat (S n))) with (Z.of_nat n) by lia. apply IH; [lia|done|done|].
  by rewrite Hm', Hm, (take_S_r _ _ _ Eid).
Qed.

Definition with_groups (rts : ide_run_test_suite_t) (tgs : list ide_run_test_group_t) : ide_run_test_suite_t :=
  {| ts_name := ts_name rts; ts_signature := ts_signature rts; ts_suite_id := ts_suite_id rts;
     ts_category := ts_category rts; test_group := test_group rts ++ tgs;
     Engine.test_config := Engine.test_config rts |}.

Lemma alloc_class_planned k tc rts :
  suite_cases s !! k = Some tc →
  ∃ tgs, alloc_class fs c s (suite_topology_id s) (Z.of_nat k) rts = Ok (with_groups rts tgs) ∧
    map group_plan tgs = option_list (plan_of (Z.of_nat k, tc)) ∧ Forall (prepared_group top) tgs.
Proof.
  intros Hk. pose proof Hplan as [_ _ (cfg & lib & _ & _ & _ & Hlib & _ & Hg & Hcases) Hlen Hcnt].
  unfold alloc_class, plan_of. rewrite (array_get_nat _ _ _ Hk). cbn [res_bind fst snd].
  destruct (cases_cnt tc =? 0) eqn:E.
  { exists []. unfold with_groups. rewrite app_nil_r. split_and!; [by destruct rts|done|constructor]. }
  destruct (alloc_run_test_group_planned lib (Z.of_nat k) Hlib Hg) as (tg & -> & Hp & Hc & Hnil).
  cbn [res_bind asserted]. rewrite Forall_lookup in Hcnt. specialize (Hcnt k tc Hk) as Hct.
  pose proof (lookup_lt_Some _ _ _ Hk) as Hlt.
  assert (Hsl : length (selected tc) = Z.to_nat (cases_cnt tc)).
  { unfold selected. rewrite length_take. lia. }
  destruct (case_loop lib (Z.of_nat k) tc (length (selected tc)) 0 tg Hlib) as (tg' & Hl & Hp' & Hc' & Hm).
  - lia.
  - intros id Hid. by apply (Hcases k tc id Hk).
  - done.
  - done.
  - done.
  - by rewrite Hnil.
  - rewrite Hsl, Z2Nat.id in Hl by lia. change (Z.of_nat 0) with 0 in Hl. rewrite Hl. cbn [res_bind].
    exists [tg']. split; [done|]. split; [|by constructor]. simpl. unfold group_plan. by rewrite Hc', Hm.
Qed.

Lemma class_loop n k rts :
  (k + n)%nat = length (suite_cases s) →
  ∃ tgs, fold_res (alloc_class fs c s (suite_topology_id s)) (seqZ (Z.of_nat k) (Z.of_nat n)) rts = Ok (with_groups rts tgs) ∧
    map group_plan tgs = omap plan_of (zip (seqZ (Z.of_nat k) (Z.of_nat n)) (drop k (suite_cases s))) ∧
    Forall (prepared_group top) tgs.
Proof.
  revert k rts. induction n as [|n IH]; intros k rts Hk.
  { exists []. unfold with_groups. rewrite app_nil_r. split_and!; [by destruct rts|done|constructor]. }
  rewrite seqZ_cons by lia. cbn [fold_res].
  destruct (suite_cases s !! k) as [tc|] eqn:Etc; [|apply lookup_ge_None in Etc; lia].
  destruct (alloc_class_planned k tc rts Etc) as (tgs & -> & Hm & Hf). cbn [res_bind].
  replace (Z.succ (Z.of_nat k)) with (Z.of_nat (S k)) by lia. replace (Z.pred (Z.of_nat (S n))) with (Z.of_nat n) by lia.
  destruct (IH (S k) (with_groups rts tgs)) as (tgs' & -> & Hm' & Hf'); [lia|].
  exists (tgs ++ tgs'). unfold with_groups. cbn. rewrite <- app_assoc. split; [done|].
  split; [|by apply Forall_app_2]. rewrite map_app, Hm, Hm', (drop_S _ _ _ Etc). cbn [zip zip_with].
  simpl. by destruct (plan_of (Z.of_nat k, tc)).
Qed.

(** A planned suite is prepared as planned. *)
Lemma prepare_planned i chain :
  array_get (test_suites (suites_config c)) i = Ok s → suite_id s ≠ 0 → suite_enabled s = true →
  ∃ ts, prepare_suite fs c i chain = Ok (chain ++ [ts]) ∧ prepared s top bits ts.
Proof.
  intros Hs Hid Hen. unfold prepare_suite. rewrite Hs. cbn [res_bind].
  rewrite (proj2 (Z.eqb_neq _ _) Hid), Hen. cbn [orb negb].
  pose proof Hplan as [Htop _ _ Hlen _]. rewrite Htop. cbn [res_bind].
  destruct (alloc_run_test_config_planned (alloc_run_test_suite s) eq_refl) as (rtc & -> & Hrtc).
  cbn [res_bind fst snd TEEIO_ASSERT]. unfold alloc_run_test_cases.
  destruct (get_topology_by_id_found _ _ _ Htop) as [-> _].
  match goal with |- context [fold_res _ _ ?r] => destruct (class_loop (length (suite_cases s)) 0 r) as (tgs & Hf & Hm & Hp) end;
    [done|]. change (Z.of_nat 0) with 0 in *. rewrite Hlen in Hf. rewrite Hf. cbn [res_bind fst snd TEEIO_ASSERT].
  eexists. split; [done|]. split; [done|done|done|by exists rtc|exact Hm|exact Hp].
Qed.

End suite.

(** ** The chain of prepared suites *)

(** The suites that are run: those that are enabled and whose topology is there. *)
Definition runnable (c : IDE_TEST_CONFIG) (s : IDE_TEST_SUITE) : bool :=
  negb (suite_id s =? 0) && suite_enabled s
  && match get_topology_by_id (Some c) (suite_topology_id s) with Ok (Some _) => true | _ => false end.

Definition plan_ok (fs : list teeio_test_funcs_t) (c : IDE_TEST_CONFIG) : Prop :=
  Z.of_nat (length (test_suites (suites_config c))) = MAX_TEST_SUITE_NUM ∧
  length (topologies (topologies_config c)) = 16%nat ∧
  ∀ s, s ∈ test_suites (suites_config c) → runnable c s = true → ∃ top bits, suite_plan fs c s top bits.

Lemma prepare_skips fs c i s chain :
  length (topologies (topologies_config c)) = 16%nat →
  array_get (test_suites (suites_config c)) i = Ok s → runnable c s = false → prepare_suite fs c i chain = Ok chain.
Proof.
  intros Hlen Hs Hr. unfold prepare_suite. rewrite Hs. cbn [res_bind]. unfold runnable in Hr.
  destruct (suite_id s =? 0), (suite_enabled s); try done. cbn [orb negb andb] in *.
  unfold get_topology_by_id in *. destruct (suite_topology_id s <=? 0); [done|].
  rewrite find_cell_find in Hr |- * by (rewrite Hlen; unfold MAX_TOPOLOGY_NUM; lia).
  cbn [res_bind]. by destruct (List.find _ _).
Qed.

Lemma prepare_loop fs c (l : list IDE_TEST_SUITE) k chain :
  plan_ok fs c → drop k (test_suites (suites_config c)) = l →
  ∃ tss, fold_res (prepare_suite fs c) (seqZ (Z.of_nat k) (Z.of_nat (length l))) chain = Ok (chain ++ tss) ∧
    Forall2 (λ s ts, ∃ top bits, suite_plan fs c s top bits ∧ prepared s top bits ts)
      (filter (λ s, runnable c s = true) l) tss.
Proof.
  intros (Hlen & Htl & Hplan). revert k chain. induction l as [|s l IH]; intros k chain Hd.
  { exists []. rewrite app_nil_r. by split. }
  assert (Hk : test_suites (suites_config c) !! k = Some s).
  { rewrite <- (Nat.add_0_r k), <- lookup_drop, Hd. done. }
  cbn [length]. rewrite seqZ_cons by lia. cbn [fold_res].
  replace (Z.succ (Z.of_nat k)) with (Z.of_nat (S k)) by lia.
  replace (Z.pred (Z.of_nat (S (length l)))) with (Z.of_nat (length l)) by lia.
  assert (Hd' : drop (S k) (test_suites (suites_config c)) = l).
  { rewrite <- Nat.add_1_r, <- drop_drop, Hd. done. }
  pose proof (array_get_nat _ _ _ Hk) as Hget. destruct (runnable c s) eqn:Er.
  - destruct (Hplan s (list_elem_of_lookup_2 _ _ _ Hk) Er) as (top & bits & Hp).
    pose proof Er as [[Hid Hen]%andb_true_iff _]%andb_true_iff.
    destruct (prepare_planned fs c s top bits Hp (Z.of_nat k) chain) as (ts & -> & Hts); [done|lia|done|].
    cbn [res_bind]. destruct (IH (S k) (chain ++ [ts]) Hd') as (tss & -> & Hf).
    exists (ts :: tss). rewrite <- app_assoc. split; [done|]. rewrite filter_cons_True by done.
    constructor; [by exists top, bits|done].
  - rewrite (prepare_skips fs c _ s chain Htl Hget Er). cbn [res_bind].
    destruct (IH (S k) chain Hd') as (tss & -> & Hf). exists tss. split; [done|].
    by rewrite filter_cons_False by (by rewrite Er).
Qed.

Lemma prepared_ready s top bits ts : prepared s top bits ts → suite_ready ts.
Proof.
  intros [_ _ Hsig (rtc & Hrtc & (_ & Hrs & _ & _ & Hne & Hit)) _ Hg]. split; [done|]. rewrite Hrtc.
  assert (Hr : Forall item_ready (config_item rtc)) by (eapply Forall_impl; [exact Hit|]; by intros it [_ ?]).
  split.
  - split_and!; [done|done|]. eapply Forall_impl; [exact Hr|]. by intros it (? & ? & ? & ?).
  - eapply Forall_impl; [exact Hg|]. intros tg (H1 & H2 & H3 & _ & H5). split_and!; try done.
    eapply Forall_impl; [exact H5|]. intros tc (H6 & _). split; [done|]. intros _.
    eapply Forall_impl; [exact Hr|]. by intros it (? & ? & ? & ?).
Qed.

(** C8: when every suite that will run names an enabled topology and configuration of the same
    type, with ports and switches that exist, and a library that serves its
    configuration items and test cases, preparation succeeds: it makes one prepared suite per
    runnable suite, in order, with one item per requested configuration bit, one group per class
    with cases, exactly the selected case ids in order, and nothing that the
    asserts of the engine would stop at. *)
Theorem prepare_tests_data_spec fs c :
  plan_ok fs c →
  ∃ tss, prepare_tests_data fs c = Ok tss ∧ Forall suite_ready tss ∧
    Forall2 (λ s ts, ∃ top bits, suite_plan fs c s top bits ∧ prepared s top bits ts)
      (filter (λ s, runnable c s = true) (test_suites (suites_config c))) tss.
Proof.
  intros Hp. destruct (prepare_loop fs c (test_suites (suites_config c)) 0 [] Hp eq_refl) as (tss & Hf & Hall).
  destruct Hp as (Hlen & _). exists tss. unfold prepare_tests_data. rewrite <- Hlen. split; [exact Hf|]. split; [|done].
  apply Forall_forall. intros ts Hts. apply list_elem_of_lookup in Hts as [i Hi].
  destruct (Forall2_lookup_r _ _ _ _ _ Hall Hi) as (s & _ & top & bits & _ & Hpr). by eapply prepared_ready.
Qed.

(** ** Witness *)

Definition example_port (id : Z) (name : bytes) : IDE_PORT :=
  {| port_id := id; port_enabled := true; port_type := 0; port_name := name; port_bdf := []; port_segment := 0;
     port_bus := 0; port_device := 0; port_function := 0; port_index := 0 |}.
Definition example_top : IDE_TEST_TOPOLOGY :=
  {| top_id := 1; top_enabled := true; top_type := IDE_TEST_TOPOLOGY_TYPE_SEL_IDE;
     top_connection := IDE_TEST_CONNECT_DIRECT; top_root_port := 1; top_upper_port := 1; top_lower_port := 2;
     top_sw_conn1 := []; top_sw_conn2 := []; top_segment := 0; top_bus := 0x2a; top_stream_id := 1 |}.
Definition example_cfg : IDE_TEST_CONFIGURATION :=
  {| cfg_id := 1; cfg_enabled := true; cfg_type := 0; cfg_category := 0; cfg_bit_map := 1; cfg_ide_mode := 0 |}.
Definition example_suite : IDE_TEST_SUITE :=
  {| suite_id := 1; suite_enabled := true; suite_type := 0; suite_topology_id := 1; suite_configuration_id := 1;
     suite_category := 0;
     suite_cases := {| cases_cnt := 2; cases_id := 1 :: 2 :: replicate 30 0 |} :: replicate 31 zero_case |}.
Definition example_test_config : IDE_TEST_CONFIG :=
  {| main_config := main_config zero_config;
     ports_config := {| ports_cnt := 2; ports := example_port 1 (bs "rootport_1") :: example_port 2 (bs "endpoint_1")
                                                 :: replicate 14 zero_port |};
     switches_config := switches_config zero_config;
     topologies_config := {| topologies_cnt := 1; topologies := example_top :: replicate 15 zero_topology |};
     configurations_config := {| configurations_cnt := 1; configurations := example_cfg :: replicate 31 zero_configuration |};
     suites_config := {| suites_cnt := 1; test_suites := example_suite :: replicate 31 zero_suite |} |}.

Lemma example_served :
  serves_config pcie_ide_test_lib_register_test_suite_funcs 0 1 1 ∧
  serves_group pcie_ide_test_lib_register_test_suite_funcs 0 ∧
  ∀ id, id ∈ [1; 2] → serves_case pcie_ide_test_lib_register_test_suite_funcs 0 id.
Proof.
  split_and!.
  - split; [|done|].
    + by eexists _, _.
    + eexists _, _. split; [reflexivity|]. split; [reflexivity|]. split; [|reflexivity].
      intros i Hi. assert (Hb : set_bits_of 1 = [0]) by reflexivity. rewrite Hb in Hi.
      apply list_elem_of_singleton in Hi as ->. split; [done|]. split; eexists; by split.
  - eexists _, _. by split_and!.
  - intros id Hid. repeat (apply elem_of_cons in Hid as [->|Hid]); [| |by apply elem_of_nil in Hid];
      (eexists _, _, _, _, _; by split_and!).
Qed.

Lemma example_plan : plan_ok example_registry example_test_config.
Proof.
  split_and!; [done|done|]. intros s Hs Hr.
  assert (s = example_suite) as ->.
  { apply elem_of_cons in Hs as [->|Hs]; [done|]. apply elem_of_replicate in Hs as [-> _]. done. }
  destruct example_served as (H1 & H2 & H3).
  exists example_top, 1. split; [done| | |done|].
  - by split; [done|eexists|eexists|eexists|..].
  - exists example_cfg, pcie_ide_test_lib_register_test_suite_funcs. split_and!; try done.
    intros i tc id Htc Hid. destruct i as [|i].
    + simpl in Htc. injection Htc as <-. change (selected _) with [1; 2] in Hid. split; [|by apply H3].
      repeat (apply elem_of_cons in Hid as [->|Hid]); [done|done|by apply elem_of_nil in Hid].
    + cbn [suite_cases example_suite lookup list_lookup] in Htc.
      apply lookup_replicate in Htc as [-> _]. by apply elem_of_nil in Hid.
  - constructor; [done|]. apply Forall_replicate. done.
Qed.

Lemma prepare_tests_data_spec_witness :
  ∃ tss, prepare_tests_data example_registry example_test_config = Ok tss ∧ Forall suite_ready tss ∧
         length tss = 1%nat.
Proof.
  destruct (prepare_tests_data_spec example_registry example_test_config example_plan) as (tss & Hp & Hr & Hf).
  exists tss. split; [exact Hp|]. split; [exact Hr|]. apply Forall2_length in Hf. rewrite <- Hf. reflexivity.
Defined.

End Prepare.
