(* ===== verification/ConfigDump.v ===== *)
(** * The log of the parsed configuration (teeio_validator/ide_test_ini.c,
    [dump_test_config]; the level names of library/debuglib/teeio_debug.c)

    The messages are built whether or not the log level lets them out, so the
    look-ups behind them happen on every run.  The result is the
    list of messages; the time stamp and the output itself are left out. *)
From Stdlib Require Import ZArith Lia Ascii String.
From stdpp Require Import prelude.
From S2P Require Import Prelude Utils IniFile TestConfig.
Import Utils.PcieHelper Ini TestConfig.

Open Scope Z_scope.
Open Scope teeio_scope.

Module ConfigDump.

(** ** Log levels *)

Definition TEEIO_DEBUG_WARN : Z := 1.
Definition TEEIO_DEBUG_NUM : Z := 4.
Definition m_ide_log_level : list bytes := [bs "error"; bs "warn"; bs "info"; bs "verbose"].

Definition get_ide_log_level_from_string (debug_level : option bytes) : Z :=
  match debug_level with
  | None => TEEIO_DEBUG_WARN
  | Some s => let i := name_index 0 m_ide_log_level s in if i =? TEEIO_DEBUG_NUM then TEEIO_DEBUG_WARN else i
  end.

(** The test lets the number of levels through. *)
Definition get_ide_log_level_string (debug_level : Z) : res bytes :=
  if TEEIO_DEBUG_NUM <? debug_level then Ok (bs "na") else array_get m_ide_log_level debug_level.

(** ** Numbers in messages *)

Fixpoint hex_digits (fuel : nat) (n : Z) (acc : bytes) : bytes :=
  match fuel with
  | O => acc
  | S fuel => let acc := hex_char (n mod 16) :: acc in
              if n <? 16 then acc else hex_digits fuel (n / 16) acc
  end.

(** [%x] and [%02x] of an [unsigned int]. *)
Definition hex (n : Z) : bytes := hex_digits 8 n [].
Definition hex02 (n : Z) : bytes := if strlen (hex n) <? 2 then bs "0" ++ hex n else hex n.
(** [%d] of a [bool]. *)
Definition dec_bool (b : bool) : bytes := if b then bs "1" else bs "0".

(** ** Buffers *)

(** [sprintf] of [s] at [offset] of a buffer of [size] bytes: text and NUL must fit. *)
Definition print_at (size offset : Z) (s : bytes) : res bytes :=
  if offset + strlen s <? size then Ok s else Stop Undefined.

(** The loop of [print_array_to_buffer]: the text so far. *)
Definition array_item (buffer_size : Z) (array : list Z) (i : Z) (text : bytes) : res bytes :=
  let* x := array_get array i in
  let temp := dec (s32 x) in
  let* _ := TEEIO_ASSERT (negb (buffer_size <? strlen temp + 1 + strlen text)) in
  let* s := print_at buffer_size (strlen text) (temp ++ bs ",") in
  Ok (text ++ s).

(** The array is not [NULL]. *)
Definition print_array_to_buffer (buffer_size : Z) (array : list Z) (array_size : Z) : res bytes :=
  let* _ := TEEIO_ASSERT (negb (buffer_size =? 0)) in
  if array_size =? 0 then Ok [] else
  let* text := fold_res (array_item buffer_size array) (seqZ 0 array_size) [] in
  Ok (take (length text - 1) text).

Definition conn_item (c : IDE_TEST_CONFIG) (buffer_size : Z) (itr : IDE_SWITCH_INTERNAL_CONNECTION) (text : bytes) : res bytes :=
  let* sw := get_switch_by_id (Some c) (conn_switch_id itr) in
  let* _ := TEEIO_ASSERT (is_some sw) in
  let* port1 := get_port_from_switch_by_id sw (conn_ups_port itr) in
  let* port2 := get_port_from_switch_by_id sw (conn_dps_port itr) in
  let* _ := TEEIO_ASSERT (is_some port1) in
  let* _ := TEEIO_ASSERT (is_some port2) in
  let* s := deref sw in
  let* p1 := deref port1 in
  let* p2 := deref port2 in
  let* t := print_at buffer_size (strlen text) (sw_name s ++ bs ":" ++ port_name p1 ++ bs "-" ++ port_name p2 ++ bs ",") in
  Ok (text ++ t).

(** [buffer] is returned as it is for [NULL]. *)
Definition print_switch_conn_to_string (buffer : bytes) (buffer_size : Z) (c : IDE_TEST_CONFIG)
    (switch_conn : list IDE_SWITCH_INTERNAL_CONNECTION) : res bytes :=
  match switch_conn with
  | [] => Ok buffer
  | _ => let* text := fold_res (conn_item c buffer_size) switch_conn [] in Ok (take (length text - 1) text)
  end.

(** ** The messages *)

(** Messages one after the other. *)
Definition messages := res (list bytes).
Definition say (parts : list bytes) : messages := Ok [concat parts ++ [10]].
Definition andthen (m1 m2 : messages) : messages := let* a := m1 in let* b := m2 in Ok (a ++ b).
Fixpoint sayall (l : list messages) : messages := match l with [] => Ok [] | m :: l => andthen m (sayall l) end.

Definition yes_no (b : bool) : bytes := if b then bs "true" else bs "false".

Definition dump_main (m : IDE_TEST_MAIN_CONFIG) : messages :=
  sayall
    [say [bs "[Main]"];
     say [bs "  pci_log="; yes_no (pci_log m)];
     (let* level := get_ide_log_level_string (debug_level m) in say [bs "  debug_level="; level]);
     say [bs "  libspdm_log="; yes_no (libspdm_log m)];
     say [bs "  doe_log="; yes_no (doe_log m)];
     say [bs "  pcap_enable="; yes_no (pcap_enable m)];
     (if spdm_version m =? 0 then say [bs "  spdm_version=auto"]
      else say [bs "  spdm_version="; dec (Z.shiftr (spdm_version m) 4); bs "."; dec (Z.land (spdm_version m) 0x0f)]);
     say []].

Definition dump_port (p : IDE_PORT) : messages :=
  sayall
    [say [bs "[Port_"; dec (port_id p); bs "]"];
     say [bs "  id      = "; dec (port_id p)];
     say [bs "  enabled = "; dec_bool (port_enabled p)];
     say [bs "  bdf     = "; port_bdf p];
     say [bs "  name    = "; port_name p];
     (let* n := array_get IDE_PORT_TYPE_NAMES (port_type p) in say [bs "  type    = "; n]);
     say []].

Definition dump_switch (sw : IDE_SWITCH) : messages :=
  sayall
    [say [bs "[Switch_"; dec (sw_id sw); bs "]"];
     say [bs "  id      = "; dec (sw_id sw)];
     say [bs "  name    = "; sw_name sw];
     say [bs "  enabled = "; dec_bool (sw_enabled sw)];
     sayall (map (λ j, let* p := array_get (sw_ports sw) j in say [bs "  "; port_name p; bs "  = "; drop 3 (port_bdf p)])
               (seqZ 0 (sw_ports_cnt sw)));
     say []].

Definition port_name_of (c : IDE_TEST_CONFIG) (id : Z) : res bytes :=
  let* o := get_port_by_id (Some c) id in let* p := deref o in Ok (port_name p).

(** [buffer] is shared by the two paths of a topology. *)
Definition dump_paths (c : IDE_TEST_CONFIG) (top : IDE_TEST_TOPOLOGY) : messages :=
  if top_connection top =? IDE_TEST_CONNECT_DIRECT then
    let* r := port_name_of c (top_root_port top) in
    let* l := port_name_of c (top_lower_port top) in
    say [bs "  path1     = "; r; bs ","; l]
  else if top_connection top =? IDE_TEST_CONNECT_SWITCH then
    let* r := port_name_of c (top_root_port top) in
    let* s := print_switch_conn_to_string [] MAX_LINE_LENGTH c (top_sw_conn1 top) in
    let* l := port_name_of c (top_lower_port top) in
    say [bs "  path1     = "; r; bs ","; s; bs ","; l]
  else if top_connection top =? IDE_TEST_CONNECT_P2P then
    let* r := port_name_of c (top_root_port top) in
    let* s1 := print_switch_conn_to_string [] MAX_LINE_LENGTH c (top_sw_conn1 top) in
    let* u := port_name_of c (top_upper_port top) in
    let* s2 := print_switch_conn_to_string s1 MAX_LINE_LENGTH c (top_sw_conn2 top) in
    let* l := port_name_of c (top_lower_port top) in
    sayall [say [bs "  path1     = "; r; bs ","; s1; bs ","; u]; say [bs "  path2     = "; r; bs ","; s2; bs ","; l]]
  else Ok [].

Definition dump_topology (c : IDE_TEST_CONFIG) (top : IDE_TEST_TOPOLOGY) : messages :=
  if top_id top =? 0 then Ok [] else
  sayall
    [say [bs "[Topology_"; dec (top_id top); bs "]"];
     say [bs "  id        = "; dec (top_id top)];
     say [bs "  enabled   = "; dec_bool (top_enabled top)];
     (let* n := array_get IDE_TEST_TOPOLOGY_TYPE_NAMES (top_type top) in say [bs "  type      = "; n]);
     (let* n := array_get IDE_TEST_CONNECT_TYPE_NAMES (top_connection top) in say [bs "  connection= "; n]);
     say [bs "  bus       = 0x"; hex02 (top_bus top)];
     say [bs "  segment   = 0x"; hex02 (top_segment top)];
     (let* n := port_name_of c (top_root_port top) in say [bs "  rootport  = "; n]);
     (let* n := port_name_of c (top_upper_port top) in say [bs "  upper     = "; n]);
     (let* n := port_name_of c (top_lower_port top) in say [bs "  lower     = "; n]);
     say [bs "  stream_id = "; dec (top_stream_id top)];
     dump_paths c top;
     say []].

Definition dump_configuration (g : IDE_TEST_CONFIGURATION) : messages :=
  if cfg_id g =? 0 then Ok [] else
  sayall
    [say [bs "[Configuration_"; dec (cfg_id g); bs "]"];
     say [bs "  id        = "; dec (cfg_id g)];
     say [bs "  enabled   = "; dec_bool (cfg_enabled g)];
     (let* n := array_get IDE_TEST_TOPOLOGY_TYPE_NAMES (cfg_type g) in say [bs "  type      = "; n]);
     say [bs "  bit_map   = "; hex (cfg_bit_map g)];
     say []].

(** The selected cases of one class. *)
Definition dump_cases (label : string) (cases : list IDE_TEST_CASE) (class : Z) : messages :=
  let* tc := array_get cases class in
  let* text := print_array_to_buffer MAX_LINE_LENGTH (cases_id tc) (s32 (cases_cnt tc)) in
  say [bs label; text; bs "]"].

Definition dump_suite (i : Z) (s : IDE_TEST_SUITE) : messages :=
  if suite_id s =? 0 then Ok [] else
  sayall
    [say [bs "[TestSuite_"; dec (i + 1); bs "]"];
     say [bs "  id        = "; dec (suite_id s)];
     say [bs "  enabled   = "; dec_bool (suite_enabled s)];
     (let* n := array_get IDE_TEST_TOPOLOGY_TYPE_NAMES (suite_type s) in say [bs "  type      = "; n]);
     (let* n := array_get TEEIO_TEST_CATEGORY_NAMES (suite_category s) in say [bs "  category  = "; n]);
     say [bs "  top_id    = "; dec (suite_topology_id s)];
     say [bs "  configuration_id  = ["; dec (suite_configuration_id s); bs "]"];
     dump_cases "  query        = [" (suite_cases s) 0;
     dump_cases "  keyprog      = [" (suite_cases s) 1;
     dump_cases "  ksetgo       = [" (suite_cases s) 2;
     dump_cases "  ksetstop     = [" (suite_cases s) 3;
     dump_cases "  spdmsessioin = [" (suite_cases s) 4;
     say []].

(** The cells of an array by index, as the loops visit them. *)
Definition dump_cells {A} (dump : Z → A → messages) (l : list A) (cnt : Z) : messages :=
  sayall (map (λ i, let* x := array_get l i in dump i x) (seqZ 0 cnt)).

Definition dump_test_config (c : IDE_TEST_CONFIG) : messages :=
  sayall
    [say [bs "Dump test_ini:"];
     dump_main (main_config c);
     dump_cells (λ _, dump_port) (ports (ports_config c)) (ports_cnt (ports_config c));
     dump_cells (λ _, dump_switch) (switches (switches_config c)) (switches_cnt (switches_config c));
     dump_cells (λ _, dump_topology c) (topologies (topologies_config c)) MAX_TOPOLOGY_NUM;
     dump_cells (λ _, dump_configuration) (configurations (configurations_config c)) MAX_CONFIGURATION_NUM;
     dump_cells dump_suite (test_suites (suites_config c)) MAX_TEST_SUITE_NUM].

End ConfigDump.
