(* ===== verification/ConfigParse.v ===== *)
(** * From the INI file to the test configuration (teeio_validator/ide_test_ini.c,
    [ParseMainSection] to [parse_ide_test_init])

    The sections of the file are read through the INI reader into the
    arrays of the configuration.  A function that fails half-way leaves what
    it has already written, so every parser returns the configuration together with its
    value.  Log output is left out, except the dump at the end and where producing a message
    reads an invalid pointer. *)
From Stdlib Require Import ZArith Lia Ascii String.
From stdpp Require Import prelude.
From S2P Require Import Prelude Utils Libspdm IniFile TestConfig Engine TestLib ConfigDump.
Import Utils.Utils Utils.PcieHelper Ini TestConfig TestLib ConfigDump.

Open Scope Z_scope.
Open Scope teeio_scope.

Module ConfigParse.

Abbreviation ini := (option INI_PARSING_LIB_CONTEXT).

(** A string the caller passes on: a freed one may not be read, [NULL] is passed as such. *)
Definition ptr_str (p : ptr) : res (option bytes) :=
  match p with Null => Ok None | Live s => Ok (Some s) | Freed => Stop Undefined end.

(** [None]: the look-up returned false; otherwise the value. *)
Definition get_string (ctx : ini) (sec key : bytes) : res (option (option bytes)) :=
  let* r := GetStringFromDataFile ctx sec key in
  if fst r then let* s := ptr_str (snd r) in Ok (Some s) else Ok None.

(** [sprintf(entry_name, "%s", s)] into [MAX_ENTRY_NAME_LENGTH] bytes. *)
Definition entry_buffer (s : bytes) : res bytes := if strlen s <? 32 then Ok s else Stop Undefined.

(** ** Updates of the configuration *)

Definition set_main (c : IDE_TEST_CONFIG) (m : IDE_TEST_MAIN_CONFIG) : IDE_TEST_CONFIG :=
  {| main_config := m; ports_config := ports_config c; switches_config := switches_config c;
     topologies_config := topologies_config c; configurations_config := configurations_config c;
     suites_config := suites_config c |}.
Definition set_ports (c : IDE_TEST_CONFIG) (p : IDE_TEST_PORTS_CONFIG) : IDE_TEST_CONFIG :=
  {| main_config := main_config c; ports_config := p; switches_config := switches_config c;
     topologies_config := topologies_config c; configurations_config := configurations_config c;
     suites_config := suites_config c |}.
Definition set_switches (c : IDE_TEST_CONFIG) (s : IDE_TEST_SWITCHES_CONFIG) : IDE_TEST_CONFIG :=
  {| main_config := main_config c; ports_config := ports_config c; switches_config := s;
     topologies_config := topologies_config c; configurations_config := configurations_config c;
     suites_config := suites_config c |}.
Definition set_topologies (c : IDE_TEST_CONFIG) (t : IDE_TEST_TOPOLOGYS) : IDE_TEST_CONFIG :=
  {| main_config := main_config c; ports_config := ports_config c; switches_config := switches_config c;
     topologies_config := t; configurations_config := configurations_config c; suites_config := suites_config c |}.
Definition set_configurations (c : IDE_TEST_CONFIG) (x : IDE_TEST_CONFIGURATIONS) : IDE_TEST_CONFIG :=
  {| main_config := main_config c; ports_config := ports_config c; switches_config := switches_config c;
     topologies_config := topologies_config c; configurations_config := x; suites_config := suites_config c |}.
Definition set_suites (c : IDE_TEST_CONFIG) (s : IDE_TEST_SUITES) : IDE_TEST_CONFIG :=
  {| main_config := main_config c; ports_config := ports_config c; switches_config := switches_config c;
     topologies_config := topologies_config c; configurations_config := configurations_config c;
     suites_config := s |}.

(** ** [Main] *)

Definition TEEIO_SPDM_VERSION_AUTO : Z := 0.
(** [None] is [return false]. *)
Definition parse_spdm_version (value : bytes) : option Z :=
  if streq value (bs "auto") then Some TEEIO_SPDM_VERSION_AUTO
  else if streq value (bs "1.0") then Some 0x10
  else if streq value (bs "1.1") then Some 0x11
  else if streq value (bs "1.2") then Some 0x12
  else if streq value (bs "1.3") then Some 0x13
  else if streq value (bs "1.4") then Some 0x14
  else None.

Definition flag_or (o : option Z) (old : bool) : bool := match o with Some d => d =? 1 | None => old end.

Definition ParseMainSection (ctx : ini) (c : IDE_TEST_CONFIG) : res (bool * IDE_TEST_CONFIG) :=
  let sec := bs "Main" in
  let m := main_config c in
  let* o_pci := GetDecimalUint32FromDataFile ctx sec (bs "pci_log") in
  let* o_spdm := GetDecimalUint32FromDataFile ctx sec (bs "libspdm_log") in
  let* o_doe := GetDecimalUint32FromDataFile ctx sec (bs "doe_log") in
  let* o_level := get_string ctx sec (bs "debug_level") in
  let level := match o_level with None => TEEIO_DEBUG_WARN | Some v => get_ide_log_level_from_string v end in
  let* o_pcap := GetDecimalUint32FromDataFile ctx sec (bs "pcap_enable") in
  let m' v := {| pci_log := flag_or o_pci (pci_log m); debug_level := level;
                 libspdm_log := flag_or o_spdm (libspdm_log m); doe_log := flag_or o_doe (doe_log m);
                 wo_tdisp := wo_tdisp m; pcap_enable := flag_or o_pcap (pcap_enable m); spdm_version := v |} in
  let* o_ver := get_string ctx sec (bs "spdm_version") in
  match o_ver with
  | None => Ok (true, set_main c (m' TEEIO_SPDM_VERSION_AUTO))
  | Some v =>
      let* value := deref v in
      match parse_spdm_version value with
      | None => Ok (false, set_main c (m' TEEIO_SPDM_VERSION_AUTO))
      | Some ver => Ok (true, set_main c (m' ver))
      end
  end.

(** ** [Ports] *)

(** The fields written for a port; [port_index] is left alone. *)
Definition write_port (old : IDE_PORT) (type id : Z) (name df : bytes) : IDE_PORT :=
  let bdf := bs "0000:00:" ++ df in
  let '(seg, bus, dev, func) :=
    match parse_bdf_string (Some bdf) with
    | Some r => r
    | None => (port_segment old, port_bus old, port_device old, port_function old)
    end in
  {| port_id := id; port_enabled := true; port_type := type; port_name := take (Z.to_nat PORT_NAME_LENGTH) name;
     port_bdf := bdf; port_segment := seg; port_bus := bus; port_device := dev; port_function := func;
     port_index := port_index old |}.

(** One round: the next index and the configuration, or out of the loop. *)
Definition ports_step (ctx : ini) (type : Z) (st : Z * IDE_TEST_CONFIG) : res ((Z * IDE_TEST_CONFIG) + IDE_TEST_CONFIG) :=
  let '(index, c) := st in
  let* type_name := array_get IDE_PORT_TYPE_NAMES type in
  let entry_name := type_name ++ bs "_" ++ dec index in
  let* o := get_string ctx (bs "Ports") entry_name in
  match o with
  | None => Ok (inr c)
  | Some v =>
      let* df := deref v in
      let* _ := TEEIO_ASSERT (is_valid_dev_func df) in
      let pc := ports_config c in
      let* old := array_get (ports pc) (ports_cnt pc) in
      let* ps := array_set (ports pc) (ports_cnt pc) (write_port old type (ports_cnt pc + 1) entry_name df) in
      Ok (inl (index + 1, set_ports c {| ports_cnt := ports_cnt pc + 1; ports := ps |}))
  end.

(** At most 16 ports can be written, so the bound is never reached. *)
Definition ParsePortsSection (ctx : ini) (c : IDE_TEST_CONFIG) (type : Z) : res IDE_TEST_CONFIG :=
  while (ports_step ctx type) 64 (1, c).

(** ** [Switch_x] *)

Definition switch_port_step (ctx : ini) (sec : bytes) (i : Z) (sw : IDE_SWITCH) : res IDE_SWITCH :=
  let entry_name := bs "port_" ++ dec (i + 1) in
  let* o := get_string ctx sec entry_name in
  match o with
  | None => Ok sw
  | Some v =>
      let* df := deref v in
      let* _ := TEEIO_ASSERT (is_valid_dev_func df) in
      let* old := array_get (sw_ports sw) (sw_ports_cnt sw) in
      let* ps := array_set (sw_ports sw) (sw_ports_cnt sw) (write_port old IDE_PORT_TYPE_SWITCH (i + 1) entry_name df) in
      Ok {| sw_id := sw_id sw; sw_enabled := sw_enabled sw; sw_name := sw_name sw;
            sw_ports_cnt := sw_ports_cnt sw + 1; sw_ports := ps |}
  end.

Definition ParseSwitchesSection (ctx : ini) (c : IDE_TEST_CONFIG) (index : Z) : res (bool * IDE_TEST_CONFIG) :=
  if index <=? 0 then Ok (false, c) else
  let sec := bs "Switch_" ++ dec index in
  let* valid := IsValidSection ctx (Some sec) in
  if negb valid then Ok (false, c) else
  let sc := switches_config c in
  let* sw := array_get (switches sc) (switches_cnt sc) in
  let* o := GetDecimalUint32FromDataFile ctx sec (bs "enabled") in
  let sw := {| sw_id := sw_id sw; sw_enabled := flag_or o true; sw_name := sw_name sw;
               sw_ports_cnt := sw_ports_cnt sw; sw_ports := sw_ports sw |} in
  let* sw := fold_res (switch_port_step ctx sec) (seqZ 0 MAX_SUPPORTED_SWITCH_PORTS_NUM) sw in
  let sw := {| sw_id := index; sw_enabled := sw_enabled sw; sw_name := bs "switch_" ++ dec index;
               sw_ports_cnt := sw_ports_cnt sw; sw_ports := sw_ports sw |} in
  let* sws := array_set (switches sc) (switches_cnt sc) sw in
  Ok (true, set_switches c {| switches_cnt := switches_cnt sc + 1; switches := sws |}).

(** ** [Topology_x] *)

(** [None] is [return false]. *)
Definition ParseSwitchString (c : IDE_TEST_CONFIG) (str : bytes) : res (option IDE_SWITCH_INTERNAL_CONNECTION) :=
  let pos := find_char_in_str (Some str) (char ":") in
  if pos =? -1 then Ok None else
  let* sw := get_switch_by_name (Some c) (Some (take (Z.to_nat pos) str)) in
  match sw with
  | None => Ok None
  | Some s =>
      let str := drop (Z.to_nat (pos + 1)) str in
      let pos := find_char_in_str (Some str) (char "-") in
      if pos =? -1 then Ok None else
      let port1 := take (Z.to_nat pos) str in
      let port2 := drop (Z.to_nat (pos + 1)) str in
      let* p1 := get_port_from_switch_by_name sw (Some port1) in
      let* p2 := get_port_from_switch_by_name sw (Some port2) in
      match p1, p2 with
      | Some p1, Some p2 =>
          Ok (Some {| conn_switch_id := sw_id s; conn_ups_port := port_id p1; conn_dps_port := port_id p2 |})
      | _, _ => Ok None
      end
  end.

(** The release of the connections after a failure: [header] is freed, then replaced by
    [itr], and [itr] by [itr->next] without a test. *)
Fixpoint free_conns (itr : list IDE_SWITCH_INTERNAL_CONNECTION) : res unit :=
  match itr with [] => Stop Undefined | _ :: itr => free_conns itr end.

Fixpoint conns_loop (fuel : nat) (c : IDE_TEST_CONFIG) (str_header : bytes) (header : list IDE_SWITCH_INTERNAL_CONNECTION)
    : res (list IDE_SWITCH_INTERNAL_CONNECTION) :=
  match fuel with
  | O => Stop NoFuel
  | S fuel =>
      let pos := find_char_in_str (Some str_header) (char ",") in
      let str_buf := if pos =? -1 then str_header else take (Z.to_nat pos) str_header in
      let* conn := ParseSwitchString c str_buf in
      match conn with
      | None => match header with
                | [] => Ok []
                | _ :: itr => let* _ := free_conns itr in Ok []
                end
      | Some conn =>
          if pos =? -1 then Ok (header ++ [conn])
          else conns_loop fuel c (drop (Z.to_nat (pos + 1)) str_header) (header ++ [conn])
      end
  end.

(** [NULL] is the empty list. *)
Definition ParseSwConnsString (c : IDE_TEST_CONFIG) (sw_conns : bytes) : res (list IDE_SWITCH_INTERNAL_CONNECTION) :=
  conns_loop (S (length sw_conns)) c sw_conns [].

Definition set_root (t : IDE_TEST_TOPOLOGY) (p : Z) : IDE_TEST_TOPOLOGY :=
  {| top_id := top_id t; top_enabled := top_enabled t; top_type := top_type t; top_connection := top_connection t;
     top_root_port := p; top_upper_port := top_upper_port t; top_lower_port := top_lower_port t;
     top_sw_conn1 := top_sw_conn1 t; top_sw_conn2 := top_sw_conn2 t; top_segment := top_segment t;
     top_bus := top_bus t; top_stream_id := top_stream_id t |}.
Definition set_conns (t : IDE_TEST_TOPOLOGY) (path1or2 : bool) (l : list IDE_SWITCH_INTERNAL_CONNECTION) : IDE_TEST_TOPOLOGY :=
  {| top_id := top_id t; top_enabled := top_enabled t; top_type := top_type t; top_connection := top_connection t;
     top_root_port := top_root_port t; top_upper_port := top_upper_port t; top_lower_port := top_lower_port t;
     top_sw_conn1 := if path1or2 then l else top_sw_conn1 t; top_sw_conn2 := if path1or2 then top_sw_conn2 t else l;
     top_segment := top_segment t; top_bus := top_bus t; top_stream_id := top_stream_id t |}.
Definition set_upper_lower (t : IDE_TEST_TOPOLOGY) (upper lower : Z) : IDE_TEST_TOPOLOGY :=
  {| top_id := top_id t; top_enabled := top_enabled t; top_type := top_type t; top_connection := top_connection t;
     top_root_port := top_root_port t; top_upper_port := upper; top_lower_port := lower;
     top_sw_conn1 := top_sw_conn1 t; top_sw_conn2 := top_sw_conn2 t; top_segment := top_segment t;
     top_bus := top_bus t; top_stream_id := top_stream_id t |}.

(** The last part of the path: [endpoint_x]. *)
Definition path_endpoint (c : IDE_TEST_CONFIG) (root : IDE_PORT) (ptr : bytes) (path1or2 : bool) (top : IDE_TEST_TOPOLOGY)
    : res (bool * IDE_TEST_TOPOLOGY) :=
  if strlen ptr <? strlen (bs "endpoint_x") then Ok (false, top) else
  let* o := get_port_by_name (Some c) (Some ptr) in
  match o with
  | None => Ok (false, top)
  | Some lower_port =>
      if (top_connection top =? IDE_TEST_CONNECT_SWITCH) || (top_connection top =? IDE_TEST_CONNECT_DIRECT) then
        Ok (true, set_upper_lower top (port_id root) (port_id lower_port))
      else if top_connection top =? IDE_TEST_CONNECT_P2P then
        Ok (true, if path1or2 then set_upper_lower top (port_id lower_port) (top_lower_port top)
                  else set_upper_lower top (top_upper_port top) (port_id lower_port))
      else let* _ := TEEIO_ASSERT false in Ok (true, top)
  end.

(** The value and the topology. *)
Definition ParsePathInTopologySection (ctx : ini) (sec entry_name : bytes) (top : IDE_TEST_TOPOLOGY)
    (path1or2 : bool) (c : IDE_TEST_CONFIG) : res (bool * IDE_TEST_TOPOLOGY) :=
  let* o := get_string ctx sec entry_name in
  match o with
  | None => Ok (false, top)
  | Some v =>
      let* value := deref v in
      let* ptr := line_buffer value in
      let pos := find_char_in_str (Some ptr) (char ",") in
      if (pos =? -1) || (pos <? strlen (bs "rootport_x")) then Ok (false, top) else
      let* o := get_port_by_name (Some c) (Some (take (Z.to_nat pos) ptr)) in
      match o with
      | None => Ok (false, top)
      | Some rootport =>
          let top := set_root top (port_id rootport) in
          let ptr := drop (Z.to_nat (pos + 1)) ptr in
          if (top_connection top =? IDE_TEST_CONNECT_SWITCH) || (top_connection top =? IDE_TEST_CONNECT_P2P) then
            let pos := revert_find_char_in_str (Some ptr) (char ",") in
            if pos =? -1 then Ok (false, top) else
            let* conn := ParseSwConnsString c (take (Z.to_nat pos) ptr) in
            match conn with
            | [] => Ok (false, top)
            | _ => path_endpoint c rootport (drop (Z.to_nat (pos + 1)) ptr) path1or2 (set_conns top path1or2 conn)
            end
          else path_endpoint c rootport ptr path1or2 top
      end
  end.

(** The globals the parser uses besides the configuration. *)
Record parse_env := { g_scan_segment : Z; g_scan_bus : Z; g_run_test_suite : bool }.

Definition set_head (t : IDE_TEST_TOPOLOGY) (enabled : bool) (type connection : Z) : IDE_TEST_TOPOLOGY :=
  {| top_id := top_id t; top_enabled := enabled; top_type := type; top_connection := connection;
     top_root_port := top_root_port t; top_upper_port := top_upper_port t; top_lower_port := top_lower_port t;
     top_sw_conn1 := top_sw_conn1 t; top_sw_conn2 := top_sw_conn2 t; top_segment := top_segment t;
     top_bus := top_bus t; top_stream_id := top_stream_id t |}.
Definition set_place (t : IDE_TEST_TOPOLOGY) (segment bus stream_id : Z) : IDE_TEST_TOPOLOGY :=
  {| top_id := top_id t; top_enabled := top_enabled t; top_type := top_type t; top_connection := top_connection t;
     top_root_port := top_root_port t; top_upper_port := top_upper_port t; top_lower_port := top_lower_port t;
     top_sw_conn1 := top_sw_conn1 t; top_sw_conn2 := top_sw_conn2 t; top_segment := segment;
     top_bus := bus; top_stream_id := stream_id |}.
Definition set_id (t : IDE_TEST_TOPOLOGY) (id : Z) : IDE_TEST_TOPOLOGY :=
  {| top_id := id; top_enabled := top_enabled t; top_type := top_type t; top_connection := top_connection t;
     top_root_port := top_root_port t; top_upper_port := top_upper_port t; top_lower_port := top_lower_port t;
     top_sw_conn1 := top_sw_conn1 t; top_sw_conn2 := top_sw_conn2 t; top_segment := top_segment t;
     top_bus := top_bus t; top_stream_id := top_stream_id t |}.

(** What the caller sees: [*Data] is written only when the look-up returns true. *)
Definition data_or (o : option Z) (data32 : Z) : Z := match o with Some d => d | None => data32 end.

(** [enabled], [type] and [connection]: the value, the topology and [data32]. *)
Definition topology_head (ctx : ini) (sec : bytes) (t : IDE_TEST_TOPOLOGY) : res (bool * IDE_TEST_TOPOLOGY * Z) :=
  let* o := GetDecimalUint32FromDataFile ctx sec (bs "enabled") in
  let data32 := data_or o 0 in
  let t := set_head t (flag_or o true) (top_type t) (top_connection t) in
  let* o := get_string ctx sec (bs "type") in
  match o with
  | None => Ok (false, t, data32)
  | Some type =>
      if negb (is_valid_topology_type type) then Ok (false, t, data32) else
      let t := set_head t (top_enabled t) (get_topology_type_from_name type) (top_connection t) in
      let* o := get_string ctx sec (bs "connection") in
      match o with
      | None => Ok (false, t, data32)
      | Some connection =>
          if negb (is_valid_topology_connection connection) then Ok (false, t, data32) else
          Ok (true, set_head t (top_enabled t) (top_type t) (get_connection_from_name connection), data32)
      end
  end.

(** [stream_id], [tdisp_function_id], [segment] and [bus]: the value, the
    topology and the global function id. *)
Definition topology_place (env : parse_env) (ctx : ini) (sec : bytes) (t : IDE_TEST_TOPOLOGY) (data32 tdisp : Z)
    : res (bool * IDE_TEST_TOPOLOGY * Z) :=
  let* o := GetDecimalUint32FromDataFile ctx sec (bs "stream_id") in
  let data32 := data_or o data32 in
  let t := set_place t (top_segment t) (top_bus t) (u8 data32) in
  let* o := GetHexUint32FromDataFile ctx sec (bs "tdisp_function_id") in
  let data32 := data_or o data32 in
  if is_some o && (0x1ffffff <? data32) then Ok (false, t, tdisp) else
  let tdisp := data_or o tdisp in
  let* seg := if negb (g_scan_segment env =? INVALID_SCAN_SEGMENT) then Ok (Some (g_scan_segment env), data32)
              else let* o := GetHexUint32FromDataFile ctx sec (bs "segment") in
                   let data32 := data_or o data32 in
                   Ok (match o with
                       | None => (Some 0, data32)
                       | Some d => (if 0xffff <? d then None else Some d, data32) end) in
  match fst seg with
  | None => Ok (false, t, tdisp)
  | Some segment =>
      let t := set_place t segment (top_bus t) (top_stream_id t) in
      let* bus := if negb (g_scan_bus env =? INVALID_SCAN_BUS) then Ok (g_scan_bus env)
                  else let* o := GetHexUint32FromDataFile ctx sec (bs "bus") in Ok (u8 (data_or o (snd seg))) in
      Ok (true, set_place t (top_segment t) bus (top_stream_id t), tdisp)
  end.

(** The paths, and the test that the ports differ. *)
Definition topology_paths (ctx : ini) (sec : bytes) (t : IDE_TEST_TOPOLOGY) (c : IDE_TEST_CONFIG)
    : res (bool * IDE_TEST_TOPOLOGY) :=
  let* r := ParsePathInTopologySection ctx sec (bs "path1") t true c in
  if negb (fst r) then Ok (false, snd r) else
  let* r := if top_connection (snd r) =? IDE_TEST_CONNECT_P2P
            then ParsePathInTopologySection ctx sec (bs "path2") (snd r) false c else Ok r in
  if negb (fst r) then Ok (false, snd r) else
  Ok (negb (top_lower_port (snd r) =? top_upper_port (snd r)), snd r).

Definition put_topology (c : IDE_TEST_CONFIG) (cnt : Z) (t : IDE_TEST_TOPOLOGY) : res IDE_TEST_CONFIG :=
  let tc := topologies_config c in
  let* ts := array_set (topologies tc) (topologies_cnt tc) t in
  Ok (set_topologies c {| topologies_cnt := cnt; topologies := ts |}).

(** The value, the configuration and the global TDISP function id.  The topology is
    built in the slot after the last good one, also when the parser then fails. *)
Definition ParseTopologySection (env : parse_env) (ctx : ini) (c : IDE_TEST_CONFIG) (tdisp index : Z)
    : res (bool * IDE_TEST_CONFIG * Z) :=
  if index <=? 0 then Ok (false, c, tdisp) else
  let sec := bs "Topology_" ++ dec index in
  let* valid := IsValidSection ctx (Some sec) in
  if negb valid then Ok (false, c, tdisp) else
  let cnt := topologies_cnt (topologies_config c) in
  let* t := array_get (topologies (topologies_config c)) cnt in
  let* h := topology_head ctx sec t in
  let '(ok, t, data32) := h in
  if negb ok then let* c := put_topology c cnt t in Ok (false, c, tdisp) else
  let* p := topology_place env ctx sec t data32 tdisp in
  let '(ok, t, tdisp) := p in
  if negb ok then let* c := put_topology c cnt t in Ok (false, c, tdisp) else
  let* r := topology_paths ctx sec t c in
  if negb (fst r) then let* c := put_topology c cnt (snd r) in Ok (false, c, tdisp) else
  let* c := put_topology c (cnt + 1) (set_id (snd r) index) in
  Ok (true, c, tdisp).

(** ** [Configuration_x] *)

Definition set_bit_map (g : IDE_TEST_CONFIGURATION) (b : Z) : IDE_TEST_CONFIGURATION :=
  {| cfg_id := cfg_id g; cfg_enabled := cfg_enabled g; cfg_type := cfg_type g; cfg_category := cfg_category g;
     cfg_bit_map := b; cfg_ide_mode := cfg_ide_mode g |}.

Section libs.
Context (fs : list teeio_test_funcs_t).

(** The category and type of a section; [None] is [return false].  In the sections of
    configurations the message about an invalid type prints a character as a string. *)
Definition parse_category (ctx : ini) (sec : bytes) : res (option Z) :=
  let* o := get_string ctx sec (bs "category") in
  match o with
  | None => Ok (Some TEEIO_TEST_CATEGORY_PCIE_IDE)
  | Some v => Ok (if is_valid_test_category v then Some (get_test_category_from_name v) else None)
  end.

Definition parse_type (ctx : ini) (sec : bytes) (category : Z) (invalid : res (option Z)) : res (option Z) :=
  if (category =? TEEIO_TEST_CATEGORY_PCIE_IDE) || (category =? TEEIO_TEST_CATEGORY_TDISP) then
    let* o := get_string ctx sec (bs "type") in
    match o with
    | None => Ok None
    | Some v => if is_valid_topology_type v then Ok (Some (get_topology_type_from_name v)) else invalid
    end
  else Ok (Some IDE_TEST_TOPOLOGY_TYPE_LINK_IDE).

Definition priv_step (ctx : ini) (sec : bytes) (name : bytes) (g : IDE_TEST_CONFIGURATION) : res IDE_TEST_CONFIGURATION :=
  let* entry_name := entry_buffer name in
  let* o := get_string ctx sec entry_name in
  match o with
  | None => Ok g
  | Some v => let* r := parse_test_configuration_priv_names fs entry_name v (cfg_category g) g in Ok (snd r)
  end.

(** One round over the names of the configuration items. *)
Definition bit_step (ctx : ini) (sec : bytes) (st : Z * IDE_TEST_CONFIGURATION)
    : res ((Z * IDE_TEST_CONFIGURATION) + IDE_TEST_CONFIGURATION) :=
  let '(i, g) := st in
  let* name := get_test_configuration_name fs i (cfg_category g) in
  match name with
  | None => Ok (inr g)
  | Some n =>
      let* entry_name := entry_buffer n in
      let* o := GetDecimalUint32FromDataFile ctx sec entry_name in
      let g := match o with
               | Some 1 => set_bit_map g (Z.lor (cfg_bit_map g) (BIT_MASK i))
               | _ => g end in
      Ok (inl (i + 1, g))
  end.

Definition ParseConfigurationSection (ctx : ini) (c : IDE_TEST_CONFIG) (index : Z) : res (bool * IDE_TEST_CONFIG) :=
  if index <=? 0 then Ok (false, c) else
  let sec := bs "Configuration_" ++ dec index in
  let* valid := IsValidSection ctx (Some sec) in
  if negb valid then Ok (false, c) else
  let* o := GetDecimalUint32FromDataFile ctx sec (bs "enabled") in
  let* cat := parse_category ctx sec in
  match cat with
  | None => Ok (false, c)
  | Some category =>
      let* ty := parse_type ctx sec category (Stop Undefined) in
      match ty with
      | None => Ok (false, c)
      | Some type =>
          let g := {| cfg_id := 0; cfg_enabled := flag_or o true; cfg_type := type; cfg_category := category;
                      cfg_bit_map := 0; cfg_ide_mode := 0 |} in
          let* priv := get_test_configuration_priv_names fs category in
          let names := match priv with None => [] | Some l => l end in
          let* g := fold_res (priv_step ctx sec) names g in
          let* g := while (bit_step ctx sec) 1024 (Z.of_nat (length names), g) in
          let* b := teeio_check_configuration_bitmap fs (cfg_bit_map g) category in
          if negb (fst b) then Ok (false, c) else
          let gs := configurations_config c in
          if existsb (λ x, cfg_id x =? index) (configurations gs) then Ok (false, c) else
          let g := {| cfg_id := index; cfg_enabled := cfg_enabled g; cfg_type := cfg_type g;
                      cfg_category := cfg_category g; cfg_bit_map := snd b; cfg_ide_mode := cfg_ide_mode g |} in
          let* l := array_set (configurations gs) (index - 1) g in
          Ok (true, set_configurations c {| configurations_cnt := configurations_cnt gs + 1; configurations := l |})
      end
  end.

(** ** [TestSuite_x] *)

(** The value, the content of [cases_id] and [*cases_cnt]. *)
Definition ParseTestSuiteCaseEntry (ctx : ini) (sec entry_name : bytes) (ids : list Z) (cnt max_case_id : Z)
    : res (bool * list Z * Z) :=
  let* r := GetUint32ArrayLengthFromDataFile ctx sec entry_name 0 in
  if negb (fst r) then Ok (false, ids, cnt) else
  let array_size := snd r in
  if cnt <? array_size then Ok (false, ids, cnt) else
  let* r := GetUint32ArrayFromDataFile ctx sec entry_name ids array_size in
  let ids := snd r in
  if negb (fst r) then Ok (false, ids, cnt) else
  let* o := for_each (λ i _, let* x := array_get ids i in
                             Ok (if max_case_id <? x then inr tt else inl tt)) (seqZ 0 array_size) tt in
  match o with
  | inr _ => Ok (false, ids, cnt)
  | inl _ => Ok (true, ids, array_size)
  end.

(** The number of cases of a class and their largest id; [None] when its names are no numbers. *)
Definition class_limits (names : option bytes) : res (option (Z * Z)) :=
  let* r := get_uint32_array_from_string None (Some 0) names in
  if negb (fst (fst r)) then Ok None else
  let cnt := from_option id 0 (snd r) in
  let* r := get_uint32_array_from_string (Some (replicate (Z.to_nat cnt) 0)) (Some cnt) names in
  let cnt := from_option id 0 (snd r) in
  let* max_case_id := get_max_from_uint32_array (from_option id [] (snd (fst r))) cnt in
  Ok (Some (cnt, max_case_id)).

(** One round over the classes of the library: the next class and the cases so far. *)
Definition suite_class_step (ctx : ini) (sec : bytes) (category : Z) (st : Z * list IDE_TEST_CASE)
    : res ((Z * list IDE_TEST_CASE) + list IDE_TEST_CASE) :=
  let '(i, cases) := st in
  let* o := get_test_case_name fs i category in
  let* test_case := deref o in
  match tn_class test_case with
  | None => Ok (inr cases)
  | Some class =>
      let* limits := class_limits (tn_names test_case) in
      match limits with
      | None => Ok (inl (i + 1, cases))
      | Some (max_cnt, max_case_id) =>
          let* entry_name := entry_buffer class in
          let* e := ParseTestSuiteCaseEntry ctx sec entry_name (replicate 32 0) max_cnt max_case_id in
          let '(ok, ids, cnt) := e in
          let cnt := if ok then cnt else 0 in
          let* old := array_get cases i in
          let* cases := array_set cases i
            {| cases_cnt := cnt; cases_id := take (Z.to_nat cnt) ids ++ drop (Z.to_nat cnt) (cases_id old) |} in
          Ok (inl (i + 1, cases))
      end
  end.

Definition ParseTestSuiteSection (ctx : ini) (c : IDE_TEST_CONFIG) (index : Z) : res (bool * IDE_TEST_CONFIG) :=
  if index <=? 0 then Ok (false, c) else
  let sec := bs "TestSuite_" ++ dec index in
  let* valid := IsValidSection ctx (Some sec) in
  if negb valid then Ok (false, c) else
  let* o_enabled := GetDecimalUint32FromDataFile ctx sec (bs "enabled") in
  let* cat := parse_category ctx sec in
  match cat with
  | None => Ok (false, c)
  | Some category =>
      let* ty := parse_type ctx sec category (Ok None) in
      match ty with
      | None => Ok (false, c)
      | Some type =>
          let* o := GetDecimalUint32FromDataFile ctx sec (bs "topology") in
          match o with
          | None => Ok (false, c)
          | Some topid =>
              let* o := get_topology_by_id (Some c) (s32 topid) in
              match o with
              | None => Ok (false, c)
              | Some top =>
                  if negb (top_type top =? type) then Ok (false, c) else
                  let* o := GetDecimalUint32FromDataFile ctx sec (bs "configuration") in
                  match o with
                  | None => Ok (false, c)
                  | Some cfgid =>
                      let* o := get_configuration_by_id (Some c) (s32 cfgid) in
                      match o with
                      | None => Ok (false, c)
                      | Some config =>
                          if negb (cfg_type config =? type) then Ok (false, c) else
                          if negb (cfg_category config =? category) then Ok (false, c) else
                          let* cases := while (suite_class_step ctx sec category) 1024 (0, replicate 32 zero_case) in
                          let ss := suites_config c in
                          let* l := array_set (test_suites ss) (index - 1)
                            {| suite_id := index; suite_enabled := flag_or o_enabled true; suite_type := type;
                               suite_topology_id := s32 topid; suite_configuration_id := s32 cfgid;
                               suite_category := category; suite_cases := cases |} in
                          Ok (true, set_suites c {| suites_cnt := suites_cnt ss + 1; test_suites := l |})
                      end
                  end
              end
          end
      end
  end.

(** ** The command line may replace the suites by one case *)

Fixpoint clear_suites (n : nat) (l : list IDE_TEST_SUITE) : res (list IDE_TEST_SUITE) :=
  match n, l with
  | O, _ => Ok l
  | S _, [] => Stop Undefined
  | S n, s :: l =>
      let* r := clear_suites n l in
      Ok ({| suite_id := 0; suite_enabled := false; suite_type := 0; suite_topology_id := suite_topology_id s;
             suite_configuration_id := 0; suite_category := suite_category s;
             suite_cases := map (λ tc, {| cases_cnt := 0; cases_id := cases_id tc |})
                              (take (Z.to_nat IDE_COMMON_TEST_CASE_NUM) (suite_cases s))
                            ++ drop (Z.to_nat IDE_COMMON_TEST_CASE_NUM) (suite_cases s) |} :: r)
  end.

Definition update_test_config_with_given_top_config_id (c : IDE_TEST_CONFIG) (topid config_id : Z)
    (test_case : option bytes) (test_category : Z) : res (bool * IDE_TEST_CONFIG) :=
  let* config := get_configuration_by_id (Some c) config_id in
  let* o := get_topology_by_id (Some c) topid in
  match config, o with
  | Some _, Some top =>
      let* r := get_test_case_from_string fs test_case test_category in
      match r with
      | (Some tcn, index) =>
          let ss := suites_config c in
          let* l := clear_suites (Z.to_nat (suites_cnt ss)) (test_suites ss) in
          let* s := array_get l 0 in
          let* tc := array_get (suite_cases s) (tn_class_id tcn) in
          let* ids := array_set (cases_id tc) 0 (from_option id 0 index + 1) in
          let* cases := array_set (suite_cases s) (tn_class_id tcn) {| cases_cnt := 1; cases_id := ids |} in
          let* l := array_set l 0
            {| suite_id := 1; suite_enabled := true; suite_type := top_type top; suite_topology_id := topid;
               suite_configuration_id := config_id; suite_category := test_category; suite_cases := cases |} in
          Ok (true, set_suites c {| suites_cnt := 1; test_suites := l |})
      | (None, _) => Ok (false, c)
      end
  | _, _ => Ok (false, c)
  end.

(** ** The whole file *)

Context `{Libspdm}.

(** Up to the dump of the configuration. *)
Definition parse_sections (env : parse_env) (ctx : ini) (c : IDE_TEST_CONFIG) (tdisp : Z)
    : res (bool * IDE_TEST_CONFIG * Z) :=
  let* r := ParseMainSection ctx c in
  if negb (fst r) then Ok (false, snd r, tdisp) else
  let* c := ParsePortsSection ctx (snd r) IDE_PORT_TYPE_ROOTPORT in
  let* c := ParsePortsSection ctx c IDE_PORT_TYPE_ENDPOINT in
  let* c := fold_res (λ index c, let* r := ParseSwitchesSection ctx c (index + 1) in Ok (snd r))
              (seqZ 0 MAX_SUPPORTED_SWITCHES_NUM) c in
  let* st := fold_res (λ index st, let* r := ParseTopologySection env ctx (fst st) (snd st) (index + 1) in
                                   Ok (snd (fst r), snd r))
               (seqZ 0 MAX_TOPOLOGY_NUM) (c, tdisp) in
  let '(c, tdisp) := st in
  if topologies_cnt (topologies_config c) =? 0 then Ok (false, c, tdisp) else
  let* c := fold_res (λ index c, let* r := ParseConfigurationSection ctx c (index + 1) in Ok (snd r))
              (seqZ 0 MAX_CONFIGURATION_NUM) c in
  if configurations_cnt (configurations_config c) =? 0 then Ok (false, c, tdisp) else
  let* c := if g_run_test_suite env then
              fold_res (λ index c, let* r := ParseTestSuiteSection ctx c (index + 1) in Ok (snd r))
                (seqZ 0 MAX_TEST_SUITE_NUM) c
            else Ok c in
  if g_run_test_suite env && (suites_cnt (suites_config c) =? 0) then Ok (false, c, tdisp) else
  Ok (true, c, tdisp).

(** [raw_data] is the content of the file, [None] when it cannot be opened. *)
Definition parse_ide_test_init (env : parse_env) (c : IDE_TEST_CONFIG) (tdisp : Z) (raw_data : option bytes)
    : res (bool * IDE_TEST_CONFIG * Z) :=
  match raw_data with
  | None => Ok (false, c, tdisp)
  | Some data =>
      let* ctx := OpenIniFile (Some data) in
      let* _ := TEEIO_ASSERT (is_some ctx) in
      let* r := parse_sections env ctx c tdisp in
      let* _ := if fst (fst r) then dump_test_config (snd (fst r)) else Ok [] in
      let* _ := CloseIniFile ctx in
      Ok r
  end.

End libs.

End ConfigParse.
