(* ===== verification/ConfigWf.v ===== *)
(** * What a parsed configuration satisfies

    The invariant of the configuration, and that every parser of [ConfigParse] keeps
    it, whatever the INI file holds.  The preparation of the tests relies on it. *)
From Stdlib Require Import ZArith Lia Ascii String.
From stdpp Require Import prelude.
From S2P Require Import Prelude Utils Libspdm IniFile TestConfig Results Engine TestLib Prepare ConfigParse.
Import Utils.PcieHelper Ini TestConfig TestLib Prepare ConfigParse.

Open Scope Z_scope.
Open Scope teeio_scope.

Module ConfigWf.

(** ** Arrays filled from the front *)

(** The first [cnt] of the [size] cells satisfy [P], with their position; the others are [rest]. *)
Definition filled {A} (size : nat) (cnt : Z) (P : nat → A → Prop) (rest : A → Prop) (l : list A) : Prop :=
  length l = size ∧ 0 ≤ cnt ≤ Z.of_nat size ∧
  ∀ i x, l !! i = Some x → if decide (Z.of_nat i < cnt) then P i x else rest x.

Lemma filled_push {A} size cnt (P P' : nat → A → Prop) rest l x l' :
  filled size cnt P rest l → array_set l cnt x = Ok l' →
  (∀ i y, l !! i = Some y → P i y → P' i y) → P' (Z.to_nat cnt) x →
  filled size (cnt + 1) P' rest l'.
Proof.
  intros (Hl & Hc & Hi) Hs HP Hx. inv_ok. split_and!; [by rewrite length_insert|lia|lia|].
  intros i y Hy. destruct (decide (i = Z.to_nat cnt)) as [->|Hne].
  - rewrite list_lookup_insert_eq in Hy by lia. injection Hy as <-. by rewrite decide_True by lia.
  - rewrite list_lookup_insert_ne in Hy by done. specialize (Hi i y Hy).
    destruct (decide (Z.of_nat i < cnt)); [rewrite decide_True by lia; eauto|by rewrite decide_False by lia].
Qed.

Lemma filled_next {A} size cnt (P : nat → A → Prop) rest l x :
  filled size cnt P rest l → array_get l cnt = Ok x → rest x.
Proof.
  intros (_ & Hc & Hi) Hg. inv_ok. specialize (Hi _ _ Hg). by rewrite decide_False in Hi by lia.
Qed.

Lemma filled_find {A} size cnt (P : nat → A → Prop) rest l (Q : A → bool) x :
  filled size cnt P rest l → find_cell Q (Z.to_nat cnt) l = Ok (Some x) → Q x = true ∧ ∃ i, l !! i = Some x ∧ P i x.
Proof.
  intros (Hl & Hc & Hi) Hf. apply find_cell_Some in Hf as (HQ & i & Hlt & Hx). split; [done|].
  exists i. split; [done|]. specialize (Hi i x Hx). by rewrite decide_True in Hi by lia.
Qed.

(** A look-up that has a match finds one. *)
Lemma filled_found {A} size cnt (P : nat → A → Prop) rest l (Q : A → bool) i x :
  filled size cnt P rest l → l !! i = Some x → Z.of_nat i < cnt → Q x = true →
  ∃ y, find_cell Q (Z.to_nat cnt) l = Ok (Some y).
Proof.
  intros (Hl & Hc & _) Hx Hlt HQ. rewrite find_cell_find by lia.
  destruct (List.find Q (take (Z.to_nat cnt) l)) as [y|] eqn:E; [by exists y|].
  exfalso. apply (List.find_none _ _) with (x := x) in E; [congruence|].
  apply list_elem_of_In, (list_elem_of_lookup_2 _ i). rewrite lookup_take_lt by lia. done.
Qed.

(** ** Ports *)

(** The text [df] ("xx.x") as the port's address: segment and bus 0, and the device and function that its digits write. *)
Definition at_dev_func (df : bytes) (p : IDE_PORT) : Prop :=
  port_bdf p = bs "0000:00:" ++ df ∧ port_segment p = 0 ∧ port_bus p = 0 ∧
  ∃ d1 d2 f, df = [d1; d2; char "."; f] ∧ Forall (λ c, CLib.isxdigit c = true) [d1; d2; f] ∧
    port_device p = 16 * CLib.digit_val d1 + CLib.digit_val d2 ∧ port_function p = CLib.digit_val f.

(** The type of the port at position [i] and its number among those of the type, when [r] root ports come first. *)
Definition port_entry (r i : nat) : Z * Z :=
  if (i <? r)%nat then (IDE_PORT_TYPE_ROOTPORT, Z.of_nat i + 1) else (IDE_PORT_TYPE_ENDPOINT, Z.of_nat (i - r) + 1).
Definition port_type_name (ty : Z) : bytes := if ty =? IDE_PORT_TYPE_ROOTPORT then bs "rootport" else bs "endpoint".

(** A port is numbered by its position, named by its type and its number in the section, and enabled. *)
Definition wf_port (r i : nat) (p : IDE_PORT) : Prop :=
  port_id p = Z.of_nat i + 1 ∧ port_enabled p = true ∧
  port_type p = fst (port_entry r i) ∧
  port_name p = port_type_name (fst (port_entry r i)) ++ bs "_" ++ dec (snd (port_entry r i)) ∧
  ∃ df, at_dev_func df p.

Definition wf_ports_of (r : nat) (pc : IDE_TEST_PORTS_CONFIG) : Prop :=
  filled 16 (ports_cnt pc) (wf_port r) (λ _, True) (ports pc).
Definition wf_ports (pc : IDE_TEST_PORTS_CONFIG) : Prop := ∃ r, wf_ports_of r pc.

(** Only the ports change. *)
Definition ports_only (c c' : IDE_TEST_CONFIG) : Prop := c' = set_ports c (ports_config c').

Lemma dec_digits_length fuel n acc : strlen (dec_digits fuel n acc) ≤ Z.of_nat fuel + strlen acc.
Proof.
  unfold strlen. revert n acc. induction fuel as [|fuel IH]; intros n acc; cbn [dec_digits]; [lia|].
  destruct (n <? 10); [simpl; lia|]. etransitivity; [apply IH|]. simpl. lia.
Qed.

Lemma dec_length n : strlen (dec n) ≤ 21.
Proof.
  unfold dec. destruct (n <? 0).
  - pose proof (dec_digits_length 20 (- n) []) as H. revert H. generalize (dec_digits 20 (- n) []). intros l H.
    unfold strlen in *. cbn [length] in *. lia.
  - pose proof (dec_digits_length 20 n []) as H. revert H. generalize (dec_digits 20 n []). intros l H.
    unfold strlen in *. cbn [length] in *. lia.
Qed.

(** The names of ports are short enough to be kept whole. *)
Lemma numbered_name (name : bytes) k : strlen name ≤ 10 → take (Z.to_nat PORT_NAME_LENGTH) (name ++ dec k) = name ++ dec k.
Proof.
  intros Hn. pose proof (dec_length k). unfold strlen, PORT_NAME_LENGTH in *. apply take_ge. rewrite length_app. lia.
Qed.

Lemma dev_func_digits df :
  is_valid_dev_func df = true →
  ∃ d1 d2 f, df = [d1; d2; char "."; f] ∧ Forall (λ c, CLib.isxdigit c = true) [d1; d2; f].
Proof.
  unfold is_valid_dev_func, strlen, at_. intros H.
  destruct df as [|d1 [|d2 [|p [|f [|]]]]]; try done; cbn [length nth] in H.
  - change (Z.of_nat 4 =? DF_LENGTH - 1) with true in H. cbn [negb orb] in H. exists d1, d2, f.
    destruct (Z.eqb_spec p (char ".")) as [->|]; [|done]. cbn [negb] in H. split; [done|].
    destruct (CLib.isxdigit d1) eqn:?, (CLib.isxdigit d2) eqn:?, (CLib.isxdigit f) eqn:?; try done. by repeat constructor.
  - destruct (Z.eqb_spec (Z.of_nat (S (S (S (S (S (length l))))))) (DF_LENGTH - 1)) as [E|]; [|done]. unfold DF_LENGTH in E. lia.
Qed.

Lemma digit_val_small c : CLib.isxdigit c = true → 0 ≤ CLib.digit_val c < 16.
Proof. intros Hc%Z.ltb_lt. pose proof (CLib.digit_val_nonneg c). lia. Qed.

Lemma parse_dev_func d1 d2 f :
  Forall (λ c, CLib.isxdigit c = true) [d1; d2; f] →
  parse_bdf_string (Some (bs "0000:00:" ++ [d1; d2; char "."; f])) =
  Some (0, 0, 16 * CLib.digit_val d1 + CLib.digit_val d2, CLib.digit_val f).
Proof.
  intros [H1 [H2 [H3 _]%Forall_cons]%Forall_cons]%Forall_cons.
  pose proof (digit_val_small _ H1). pose proof (digit_val_small _ H2). pose proof (digit_val_small _ H3).
  change (bs "0000:00:") with [48; 48; 48; 48; 58; 48; 48; 58]. cbn [app].
  unfold parse_bdf_string, strlen. simpl (negb _). cbv iota. unfold substr. cbn [Nat.sub take drop].
  rewrite !sscanf_x_digits by (done || (simpl; lia) || (cbn [forallb]; by rewrite ?H1, ?H2, ?H3)).
  unfold CLib.digits_value. cbn [fold_left]. change (CLib.digit_val 48) with 0. unfold u16, u8.
  repeat f_equal; rewrite Z.mod_small; lia.
Qed.

Lemma write_port_fields old ty id name df :
  is_valid_dev_func df = true →
  let p := write_port old ty id name df in
  port_id p = id ∧ port_enabled p = true ∧ port_type p = ty ∧ at_dev_func df p ∧
  port_name p = take (Z.to_nat PORT_NAME_LENGTH) name.
Proof.
  intros (d1 & d2 & f & -> & Hd)%dev_func_digits. unfold write_port. rewrite parse_dev_func by done.
  cbv zeta. split; [done|]. split; [done|]. split; [done|]. split; [|done].
  split; [done|]. split; [done|]. split; [done|]. by exists d1, d2, f.
Qed.

Lemma get_string_deref ctx sec key v : get_string ctx sec key = Ok (Some (Some v)) → GetStringFromDataFile ctx sec key = Ok (true, Live v).
Proof.
  unfold get_string. destruct (GetStringFromDataFile ctx sec key) as [[[] p]|]; [|done|done]. simpl.
  destruct p; simpl; intros; simplify_eq; done.
Qed.

(** How far the loop over the ports of a type is: the next port is the one at [cnt]. *)
Definition ports_progress (r : nat) (ty idx cnt : Z) : Prop :=
  ty = IDE_PORT_TYPE_ROOTPORT ∧ r = 16%nat ∧ idx = cnt + 1 ∨
  ty = IDE_PORT_TYPE_ENDPOINT ∧ Z.of_nat r ≤ cnt ∧ idx = cnt - Z.of_nat r + 1.

Lemma progress_entry r ty idx cnt :
  0 ≤ cnt < 16 → ports_progress r ty idx cnt → port_entry r (Z.to_nat cnt) = (ty, idx).
Proof.
  intros Hc. unfold port_entry. intros [(-> & -> & ->)|(-> & Hr & ->)].
  - rewrite (proj2 (Nat.ltb_lt _ _)) by lia. f_equal. lia.
  - rewrite (proj2 (Nat.ltb_ge _ _)) by lia. f_equal. lia.
Qed.

Lemma ports_step_wf ctx r ty idx c idx' c' :
  ports_progress r ty idx (ports_cnt (ports_config c)) →
  ports_step ctx ty (idx, c) = Ok (inl (idx', c')) → wf_ports_of r (ports_config c) →
  (wf_ports_of r (ports_config c') ∧ ports_only c c') ∧ ports_progress r ty idx' (ports_cnt (ports_config c')).
Proof.
  intros Hty E Hd. unfold ports_step in E. apply res_bind_Ok in E as (name & Hname & E). apply res_bind_Ok in E as (o & _ & E).
  destruct o as [v|]; [|done]. apply res_bind_Ok in E as (df & _ & E). apply res_bind_Ok in E as (u & Hdf & E).
  apply res_bind_Ok in E as (old & Hold & E). apply res_bind_Ok in E as (ps & Hps & [= <- <-]).
  assert (Hv : is_valid_dev_func df = true) by (by destruct (is_valid_dev_func df)). clear u Hdf.
  apply array_get_Ok in Hold as [Hc0 Hold]. apply lookup_lt_Some in Hold. pose proof Hd as (Hl & Hc & _).
  pose proof (progress_entry r ty idx (ports_cnt (ports_config c)) ltac:(lia) Hty) as He.
  assert (Hn : name = port_type_name ty).
  { destruct Hty as [(-> & _)|(-> & _)]; by injection Hname as <-. }
  split; [split; [|done]|destruct Hty as [(-> & -> & ->)|(-> & ? & ->)]; [left|right]; cbn; lia].
  eapply filled_push; [exact Hd|exact Hps|done|]. unfold wf_port. rewrite He. cbn [fst snd].
  destruct (write_port_fields old ty (ports_cnt (ports_config c) + 1) (name ++ bs "_" ++ dec idx) df Hv) as (-> & -> & -> & Ha & ->).
  split_and!; [lia|done|done| |by exists df].
  rewrite Hn, app_assoc. apply numbered_name. unfold port_type_name. destruct (_ =? _); vm_compute; discriminate.
Qed.

Lemma ParsePortsSection_wf ctx r c ty c' :
  ports_progress r ty 1 (ports_cnt (ports_config c)) →
  ParsePortsSection ctx c ty = Ok c' → wf_ports_of r (ports_config c) → wf_ports_of r (ports_config c') ∧ ports_only c c'.
Proof.
  intros Hty Hp Hw. unfold ParsePortsSection in Hp.
  refine (while_inv (ports_step ctx ty) (λ st, (wf_ports_of r (ports_config (snd st)) ∧ ports_only c (snd st)) ∧
      ports_progress r ty (fst st) (ports_cnt (ports_config (snd st))))
    (λ c', wf_ports_of r (ports_config c') ∧ ports_only c c') _ (1, c) c' _ _ Hp).
  2: { split; [|done]. split; [exact Hw|]. unfold ports_only. simpl. by destruct c. }
  intros [idx d] [[Hd Ho] Hg]. cbn [fst snd] in Hd, Ho, Hg |- *. destruct (ports_step ctx ty (idx, d)) as [[[idx' d']|d']|] eqn:E; [| |done].
  - eapply ports_step_wf in E as [[? E] ?]; [|done|done]. split; [|done]. split; [done|]. unfold ports_only in *. cbn [snd]. by rewrite E, Ho.
  - unfold ports_step in E. inv_ok. destruct x0 as [v|]; inv_ok; simplify_eq. done.
Qed.

(** The root ports, then the endpoints. *)
Lemma root_ports_wf ctx c c' :
  length (ports (ports_config c)) = 16%nat → ports_cnt (ports_config c) = 0 →
  ParsePortsSection ctx c IDE_PORT_TYPE_ROOTPORT = Ok c' → wf_ports_of 16 (ports_config c') ∧ ports_only c c'.
Proof.
  intros Hl Hc Hp. eapply ParsePortsSection_wf; [|exact Hp|].
  - left. by rewrite Hc.
  - unfold wf_ports_of. rewrite Hc. split_and!; [done|lia|lia|]. intros i p _. by rewrite decide_False by lia.
Qed.

Lemma endpoint_ports_wf ctx c c' :
  wf_ports_of 16 (ports_config c) → ParsePortsSection ctx c IDE_PORT_TYPE_ENDPOINT = Ok c' →
  wf_ports (ports_config c') ∧ ports_only c c'.
Proof.
  intros Hw Hp. pose proof Hw as (Hl & Hc & Hi). set (r := Z.to_nat (ports_cnt (ports_config c))).
  assert (Hr : wf_ports_of r (ports_config c)).
  { split_and!; [done|lia|lia|]. intros i p Hx. specialize (Hi i p Hx). destruct (decide _); [|done].
    unfold wf_port in *. replace (port_entry r i) with (port_entry 16 i); [done|].
    unfold port_entry. rewrite !(proj2 (Nat.ltb_lt _ _)) by lia. done. }
  destruct (ParsePortsSection_wf ctx r c IDE_PORT_TYPE_ENDPOINT c') as [Hw' Ho]; [right; split_and!; [done|lia|lia]|done|done|].
  split; [by exists r|done].
Qed.

(** ** Switches *)

(** A port of a switch is named by its number, and enabled. *)
Definition wf_switch_port (p : IDE_PORT) : Prop :=
  port_enabled p = true ∧ 0 < port_id p ∧ port_type p = IDE_PORT_TYPE_SWITCH ∧ port_name p = bs "port_" ++ dec (port_id p) ∧
  ∃ df, at_dev_func df p.

Definition wf_switch (sw : IDE_SWITCH) : Prop := filled 16 (sw_ports_cnt sw) (λ _, wf_switch_port) (λ _, True) (sw_ports sw).

(** The switches are numbered in increasing order, up to [bound]. *)
Definition wf_switches (bound : Z) (sc : IDE_TEST_SWITCHES_CONFIG) : Prop :=
  filled 16 (switches_cnt sc) (λ _ sw, wf_switch sw ∧ 0 < sw_id sw ≤ bound ∧ sw_name sw = bs "switch_" ++ dec (sw_id sw)) (λ sw, sw = zero_switch) (switches sc) ∧
  ∀ i j x y, (i < j)%nat → Z.of_nat j < switches_cnt sc → switches sc !! i = Some x → switches sc !! j = Some y →
    sw_id x < sw_id y.

Definition switches_only (c c' : IDE_TEST_CONFIG) : Prop := c' = set_switches c (switches_config c').

Lemma wf_zero_switch_ports : wf_switch zero_switch.
Proof.
  split_and!; [done|done|done|]. intros i x Hx. by rewrite decide_False by (simpl; lia).
Qed.

Lemma write_switch_port_wf old id df :
  0 < id → is_valid_dev_func df = true → wf_switch_port (write_port old IDE_PORT_TYPE_SWITCH id (bs "port_" ++ dec id) df).
Proof.
  intros Hid Hv. unfold wf_switch_port.
  destruct (write_port_fields old IDE_PORT_TYPE_SWITCH id (bs "port_" ++ dec id) df Hv) as (-> & -> & -> & Ha & ->).
  split_and!; [done|lia|done| |by exists df]. apply numbered_name. vm_compute. discriminate.
Qed.

Lemma switch_port_step_wf ctx sec i sw sw' :
  0 ≤ i → wf_switch sw → switch_port_step ctx sec i sw = Ok sw' →
  wf_switch sw' ∧ sw_id sw' = sw_id sw ∧ sw_enabled sw' = sw_enabled sw.
Proof.
  intros Hi Hw Hs. unfold switch_port_step in Hs. apply res_bind_Ok in Hs as (o & _ & Hs).
  destruct o as [v|]; [|by injection Hs as <-]. apply res_bind_Ok in Hs as (df & _ & Hs). apply res_bind_Ok in Hs as (u & Hdf & Hs).
  apply res_bind_Ok in Hs as (old & _ & Hs). apply res_bind_Ok in Hs as (ps & Hps & [= <-]).
  assert (Hv : is_valid_dev_func df = true) by (by destruct (is_valid_dev_func df)). clear u Hdf.
  split; [|done]. eapply filled_push; [exact Hw|exact Hps|done|]. by apply write_switch_port_wf; [lia|].
Qed.

(** Their names are short. *)
Lemma switch_port_name p : wf_switch_port p → strlen (port_name p) ≤ PORT_NAME_LENGTH.
Proof.
  intros (_ & _ & _ & -> & _). pose proof (dec_length (port_id p)). unfold strlen, PORT_NAME_LENGTH in *.
  rewrite length_app. change (length (bs "port_")) with 5%nat. lia.
Qed.

Lemma ParseSwitchesSection_wf ctx c index b c' :
  ParseSwitchesSection ctx c index = Ok (b, c') → wf_switches (index - 1) (switches_config c) →
  wf_switches index (switches_config c') ∧ switches_only c c'.
Proof.
  intros Hp [Hf Hord].
  assert (Hkeep : wf_switches index (switches_config c) ∧ switches_only c c).
  { split; [|by destruct c]. split; [|done]. destruct Hf as (H1 & H2 & H3). split_and!; [done|lia|lia|].
    intros i x Hx. specialize (H3 i x Hx). destruct (decide _); [|done]. destruct H3 as (? & ? & ?). split_and!; [done|lia|lia|done]. }
  unfold ParseSwitchesSection in Hp. destruct (Z.leb_spec index 0); [by simplify_eq|].
  apply res_bind_Ok in Hp as (valid & _ & Hp). destruct valid; [|by simplify_eq/=]. cbn [negb] in Hp.
  apply res_bind_Ok in Hp as (sw & Hsw & Hp). apply res_bind_Ok in Hp as (o & _ & Hp).
  apply res_bind_Ok in Hp as (sw' & Hloop & Hp). apply res_bind_Ok in Hp as (sws & Hset & Hp).
  injection Hp as <- <-. split; [|done]. pose proof (filled_next _ _ _ _ _ _ Hf Hsw) as ->.
  assert (Hw : wf_switch sw').
  { apply (fold_res_seqZ (λ _, wf_switch)) in Hloop; [exact Hloop|done| |exact wf_zero_switch_ports].
    intros k s s' Hk Hs Hb. by apply (switch_port_step_wf ctx _ k s s') in Hb as [? _]; [|lia|]. }
  split.
  - eapply filled_push; [exact Hf|exact Hset| |].
    + intros i y _ (? & ? & ?). split_and!; [done|lia|lia|done].
    + split; [exact Hw|]. cbn [sw_id sw_name]. split; [lia|done].
  - simpl. pose proof Hf as (Hl & Hc & Hi). inv_ok.
    intros i j x y Hij Hj. destruct (decide (j = Z.to_nat (switches_cnt (switches_config c)))) as [->|Hne].
    + rewrite list_lookup_insert_ne, list_lookup_insert_eq by lia. intros Hx [= <-]. simpl.
      specialize (Hi i x Hx). rewrite decide_True in Hi by lia. destruct Hi as [_ ?]. lia.
    + rewrite !list_lookup_insert_ne by lia. apply Hord; lia.
Qed.

(** ** Topologies *)

Lemma port_found c i p :
  wf_ports (ports_config c) → ports (ports_config c) !! i = Some p → Z.of_nat i < ports_cnt (ports_config c) →
  port_ok c (port_id p).
Proof.
  intros [r Hw] Hp Hi. unfold port_ok, get_port_by_id. pose proof Hw as (_ & _ & Hall).
  specialize (Hall i p Hp). rewrite decide_True in Hall by done. destruct Hall as (Hid & Hen & _).
  rewrite (proj2 (Z.leb_gt _ _)) by lia. eapply filled_found; [exact Hw|exact Hp|done|].
  by rewrite Z.eqb_refl, Hen.
Qed.

Lemma get_port_by_name_ok c name p :
  wf_ports (ports_config c) → get_port_by_name (Some c) name = Ok (Some p) → port_ok c (port_id p).
Proof.
  intros Hw Hf. unfold get_port_by_name in Hf. destruct name as [n|]; [|done].
  pose proof Hf as (_ & i & Hi & Hx)%find_cell_Some. eapply port_found; [done|exact Hx|lia].
Qed.

Lemma get_switch_by_name_id c bound name sw :
  wf_switches bound (switches_config c) → get_switch_by_name (Some c) name = Ok (Some sw) →
  wf_switch sw ∧ get_switch_by_id (Some c) (sw_id sw) = Ok (Some sw).
Proof.
  intros [Hf Hord] Hn. unfold get_switch_by_name in Hn. destruct name as [n|]; [|done].
  apply find_cell_Some in Hn as (HQ & i & Hi & Hx). apply andb_true_iff in HQ as [_ Hen].
  pose proof Hf as (_ & _ & Hall). specialize (Hall i sw Hx) as Hsw. rewrite decide_True in Hsw by lia.
  destruct Hsw as [Hw Hid]. split; [done|]. unfold get_switch_by_id. rewrite (proj2 (Z.leb_gt _ _)) by lia.
  destruct (filled_found _ _ _ _ _ (λ x, (sw_id x =? sw_id sw) && sw_enabled x) i sw Hf Hx) as [y Hy];
    [lia|by rewrite Z.eqb_refl, Hen|].
  rewrite Hy. repeat f_equal. apply find_cell_Some in Hy as (HQ & j & Hj & Hy).
  apply andb_true_iff in HQ as [Heq%Z.eqb_eq _].
  destruct (Nat.lt_trichotomy i j) as [Hlt|[->|Hlt]]; [|congruence|].
  - pose proof (Hord i j sw y Hlt ltac:(lia) Hx Hy). lia.
  - pose proof (Hord j i y sw Hlt ltac:(lia) Hy Hx). lia.
Qed.

Lemma switch_port_by_name_id sw name p :
  wf_switch sw → get_port_from_switch_by_name (Some sw) name = Ok (Some p) →
  ∃ q, get_port_from_switch_by_id (Some sw) (port_id p) = Ok (Some q).
Proof.
  intros Hw Hn. unfold get_port_from_switch_by_name in Hn. destruct name as [n|]; [|done].
  apply find_cell_Some in Hn as (HQ & i & Hi & Hx). pose proof Hw as (_ & _ & Hall).
  specialize (Hall i p Hx) as Hp. rewrite decide_True in Hp by lia. destruct Hp as (Hen & Hid & _).
  unfold get_port_from_switch_by_id. rewrite (proj2 (Z.leb_gt _ _)) by lia.
  eapply filled_found; [exact Hw|exact Hx|lia|]. by rewrite Hen, Z.eqb_refl.
Qed.

Lemma ParseSwitchString_ok c bound str conn :
  wf_switches bound (switches_config c) → ParseSwitchString c str = Ok (Some conn) → conn_ok c conn.
Proof.
  intros Hw Hp. unfold ParseSwitchString in Hp. destruct (_ =? -1) in Hp; [done|].
  apply res_bind_Ok in Hp as (sw & Hsw & Hp). destruct sw as [s|]; [|done].
  destruct (_ =? -1) in Hp; [done|]. apply res_bind_Ok in Hp as (p1 & Hp1 & Hp). apply res_bind_Ok in Hp as (p2 & Hp2 & Hp).
  destruct p1 as [p1|]; [|done]. destruct p2 as [p2|]; [|done]. injection Hp as <-.
  destruct (get_switch_by_name_id c bound _ s Hw Hsw) as [Hws Hid].
  destruct (switch_port_by_name_id s _ p1 Hws Hp1) as [u Hu]. destruct (switch_port_by_name_id s _ p2 Hws Hp2) as [d Hd].
  by exists s, u, d.
Qed.

Lemma conns_loop_ok c bound fuel str header l :
  wf_switches bound (switches_config c) → Forall (conn_ok c) header →
  conns_loop fuel c str header = Ok l → Forall (conn_ok c) l.
Proof.
  intros Hw. revert str header. induction fuel as [|fuel IH]; intros str header Hh Hl; [done|]. cbn [conns_loop] in Hl.
  apply res_bind_Ok in Hl as (conn & Hc & Hl). destruct conn as [conn|].
  - apply (ParseSwitchString_ok c bound) in Hc; [|done].
    assert (Forall (conn_ok c) (header ++ [conn])) by (apply Forall_app_2; [done|by constructor]).
    destruct (_ =? -1); [by simplify_eq|]. eauto.
  - destruct header as [|h itr]; [by simplify_eq|]. apply res_bind_Ok in Hl as (_ & _ & Hl). by simplify_eq.
Qed.

(** What a parser of one path keeps of the topology. *)
Definition same_head (t t' : IDE_TEST_TOPOLOGY) : Prop :=
  top_id t' = top_id t ∧ top_enabled t' = top_enabled t ∧ top_type t' = top_type t ∧ top_connection t' = top_connection t.

Definition via_switch (t : IDE_TEST_TOPOLOGY) : Prop :=
  top_connection t = IDE_TEST_CONNECT_SWITCH ∨ top_connection t = IDE_TEST_CONNECT_P2P.

Definition path_result (c : IDE_TEST_CONFIG) (path1or2 : bool) (t t' : IDE_TEST_TOPOLOGY) : Prop :=
  port_ok c (top_root_port t') ∧
  (if path1or2 then top_sw_conn2 t' = top_sw_conn2 t ∧ port_ok c (top_upper_port t') ∧
                    (via_switch t → Forall (conn_ok c) (top_sw_conn1 t'))
   else top_sw_conn1 t' = top_sw_conn1 t ∧ port_ok c (top_lower_port t') ∧
        (top_connection t = IDE_TEST_CONNECT_P2P → top_upper_port t' = top_upper_port t) ∧
        (via_switch t → Forall (conn_ok c) (top_sw_conn2 t'))) ∧
  (top_connection t ≠ IDE_TEST_CONNECT_P2P → port_ok c (top_lower_port t')).

Lemma path_endpoint_ok c root ptr path t0 t r :
  wf_ports (ports_config c) → path_endpoint c root ptr path t = Ok r →
  port_ok c (port_id root) → top_root_port t = port_id root → same_head t0 t →
  (if path then top_sw_conn2 t = top_sw_conn2 t0 ∧
                (via_switch t → Forall (conn_ok c) (top_sw_conn1 t))
   else top_sw_conn1 t = top_sw_conn1 t0 ∧ top_upper_port t = top_upper_port t0 ∧
        (via_switch t → Forall (conn_ok c) (top_sw_conn2 t))) →
  same_head t0 (snd r) ∧ (fst r = true → path_result c path t0 (snd r)).
Proof.
  intros Hw Hp Hroot Hrp (H1 & H2 & H3 & H4) Hconn. unfold path_endpoint in Hp.
  destruct (_ <? _) in Hp; [by simplify_eq|]. apply res_bind_Ok in Hp as (o & Ho & Hp).
  destruct o as [lp|]; [|by simplify_eq]. apply (get_port_by_name_ok c) in Ho; [|done].
  assert (Hvia : via_switch t0 → via_switch t) by (unfold via_switch; by rewrite H4).
  assert (Hp2p : top_connection t0 = IDE_TEST_CONNECT_P2P → top_connection t = IDE_TEST_CONNECT_P2P) by (by rewrite H4).
  destruct ((_ =? _) || (_ =? _)) eqn:E in Hp.
  - injection Hp as <-. split; [done|]. intros _. unfold path_result. cbn. rewrite Hrp. destruct path.
    + destruct Hconn as [Hc2 Hc1]. split_and!; auto.
    + destruct Hconn as (Hc1 & Hu & Hc2). split_and!; auto.
      intros HP%Hp2p. unfold IDE_TEST_CONNECT_SWITCH, IDE_TEST_CONNECT_DIRECT, IDE_TEST_CONNECT_P2P in *. lia.
  - destruct (top_connection t =? IDE_TEST_CONNECT_P2P) eqn:E2; [|inv_ok; done]. injection Hp as <-.
    split; [by destruct path|]. intros _. unfold path_result. destruct path; cbn; rewrite Hrp.
    + destruct Hconn as [Hc2 Hc1]. split_and!; auto. intros HP. exfalso. apply HP. lia.
    + destruct Hconn as (Hc1 & Hu & Hc2). split_and!; auto.
Qed.

Lemma ParsePath_ok ctx sec key t path c bound r :
  wf_ports (ports_config c) → wf_switches bound (switches_config c) →
  ParsePathInTopologySection ctx sec key t path c = Ok r →
  same_head t (snd r) ∧ (fst r = true → path_result c path t (snd r)).
Proof.
  intros Hw Hs Hp. unfold ParsePathInTopologySection in Hp.
  apply res_bind_Ok in Hp as (o & _ & Hp). destruct o as [v|]; [|by simplify_eq].
  apply res_bind_Ok in Hp as (value & _ & Hp). apply res_bind_Ok in Hp as (ptr & _ & Hp).
  destruct (_ || _) in Hp; [by simplify_eq|]. apply res_bind_Ok in Hp as (o & Ho & Hp).
  destruct o as [rp|]; [|by simplify_eq]. apply (get_port_by_name_ok c) in Ho; [|done].
  cbn [set_root top_connection] in Hp. destruct (_ || _) eqn:E in Hp.
  - destruct (_ =? -1) in Hp; [by simplify_eq|]. apply res_bind_Ok in Hp as (conns & Hc & Hp).
    unfold ParseSwConnsString in Hc. apply (conns_loop_ok c bound) in Hc; [|done|constructor].
    destruct conns as [|cn conns]; [by simplify_eq|].
    eapply path_endpoint_ok; [done|exact Hp|done|done|done|]. by destruct path.
  - eapply path_endpoint_ok; [done|exact Hp|done|done|done|]. apply orb_false_iff in E as [E1 E2].
    unfold via_switch. simpl. destruct path; split_and!; try done; intros [?|?]; lia.
Qed.

Lemma topology_paths_ok ctx sec t c bound r :
  wf_ports (ports_config c) → wf_switches bound (switches_config c) →
  0 ≤ top_type t < IDE_TEST_TOPOLOGY_TYPE_NUM → 0 ≤ top_connection t < IDE_TEST_CONNECT_NUM →
  topology_paths ctx sec t c = Ok r →
  same_head t (snd r) ∧ (fst r = true → topology_ok c (snd r) ∧ top_lower_port (snd r) ≠ top_upper_port (snd r)).
Proof.
  intros Hw Hs Hty Hcn Hp. unfold topology_paths in Hp.
  apply res_bind_Ok in Hp as ([ok1 t1] & Hp1 & Hp). apply (ParsePath_ok _ _ _ _ _ c bound) in Hp1 as [Hh1 Hr1]; [|done|done].
  cbn [fst snd] in *. destruct ok1; [|by simplify_eq/=]. specialize (Hr1 eq_refl) as (R1 & (C2 & U1 & C1) & L1).
  pose proof Hh1 as (I1 & E1 & T1 & N1).
  cbn [negb] in Hp. apply res_bind_Ok in Hp as ([ok2 t2] & Hp2 & Hp). cbn [fst snd] in Hp.
  unfold via_switch, IDE_TEST_CONNECT_SWITCH, IDE_TEST_CONNECT_P2P, IDE_TEST_CONNECT_NUM in *.
  destruct (Z.eqb_spec (top_connection t1) 2) as [E|E].
  - apply (ParsePath_ok _ _ _ _ _ c bound) in Hp2 as [Hh2 Hr2]; [|done|done]. cbn [fst snd] in *.
    assert (Hh : same_head t t2) by (destruct Hh2 as (? & ? & ? & ?); split_and!; congruence).
    destruct ok2; [|by simplify_eq/=]. cbn [negb] in Hp. injection Hp as <-. cbn [fst snd]. split; [done|].
    intros Hne. specialize (Hr2 eq_refl) as (R2 & (C1' & L2 & U2 & C2') & _).
    pose proof Hh as (_ & _ & T & N). unfold via_switch, IDE_TEST_CONNECT_SWITCH, IDE_TEST_CONNECT_P2P in *.
    split; [|lia]. split; [lia|done|by rewrite U2|done| |].
    + intros _. rewrite C1'. apply C1. lia.
    + intros _. apply C2'. lia.
  - injection Hp2 as <- <-. cbn [negb] in Hp. injection Hp as <-. cbn [fst snd]. split; [done|]. intros Hne.
    split; [|lia]. split; [lia|done|done|apply L1; lia| |].
    + intros Hd. apply C1. unfold IDE_TEST_CONNECT_DIRECT in Hd. lia.
    + unfold IDE_TEST_CONNECT_P2P. lia.
Qed.

Lemma name_index_range i names n :
  existsb (λ x, streq x n) names = true → i ≤ name_index i names n < i + Z.of_nat (length names).
Proof.
  revert i. induction names as [|x names IH]; intros i; simpl; [done|].
  destruct (streq x n) eqn:E; simpl; [intros _; lia|]. intros H%(IH (i + 1)). lia.
Qed.

Lemma existsb_streq_sym n names : existsb (λ x, streq n x) names = existsb (λ x, streq x n) names.
Proof.
  induction names as [|x names IH]; simpl; [done|]. rewrite IH. f_equal. unfold streq.
  by apply bool_decide_ext; split.
Qed.

Lemma topology_type_range v :
  is_valid_topology_type v = true → 0 ≤ get_topology_type_from_name v < IDE_TEST_TOPOLOGY_TYPE_NUM.
Proof.
  destruct v as [n|]; [|done]. unfold is_valid_topology_type, get_topology_type_from_name.
  rewrite existsb_streq_sym. apply (name_index_range 0).
Qed.

Lemma connection_range v :
  is_valid_topology_connection v = true → 0 ≤ get_connection_from_name v < IDE_TEST_CONNECT_NUM.
Proof. destruct v as [n|]; [|done]. apply (name_index_range 0). Qed.

Lemma category_range v :
  is_valid_test_category v = true → 0 ≤ get_test_category_from_name v < TEEIO_TEST_CATEGORY_MAX.
Proof.
  destruct v as [n|]; [|done]. unfold is_valid_test_category, get_test_category_from_name.
  rewrite existsb_streq_sym. apply (name_index_range 0).
Qed.

(** A stored topology; the slots after the last one have no id. *)
Definition wf_topology (c : IDE_TEST_CONFIG) (bound : Z) (t : IDE_TEST_TOPOLOGY) : Prop :=
  topology_ok c t ∧ top_lower_port t ≠ top_upper_port t ∧ 0 < top_id t ≤ bound ∧ 0 ≤ top_connection t < IDE_TEST_CONNECT_NUM.

Definition wf_topologies (c : IDE_TEST_CONFIG) (bound : Z) (tc : IDE_TEST_TOPOLOGYS) : Prop :=
  filled 16 (topologies_cnt tc) (λ _, wf_topology c bound) (λ t, top_id t = 0) (topologies tc).

Definition topologies_only (c c' : IDE_TEST_CONFIG) : Prop := c' = set_topologies c (topologies_config c').

Lemma topology_head_ok ctx sec t ok t' d :
  topology_head ctx sec t = Ok (ok, t', d) →
  top_id t' = top_id t ∧
  (ok = true → 0 ≤ top_type t' < IDE_TEST_TOPOLOGY_TYPE_NUM ∧ 0 ≤ top_connection t' < IDE_TEST_CONNECT_NUM).
Proof.
  unfold topology_head. intros Hp. apply res_bind_Ok in Hp as (o & _ & Hp). apply res_bind_Ok in Hp as (ty & _ & Hp).
  destruct ty as [ty|]; [|by simplify_eq]. destruct (is_valid_topology_type ty) eqn:Ety; [|by simplify_eq/=].
  cbn [negb] in Hp. apply res_bind_Ok in Hp as (cn & _ & Hp). destruct cn as [cn|]; [|by simplify_eq].
  destruct (is_valid_topology_connection cn) eqn:Ecn; [|by simplify_eq/=]. cbn [negb] in Hp. simplify_eq/=.
  split; [done|]. intros _. split; [by apply topology_type_range|by apply connection_range].
Qed.

Lemma topology_place_ok env ctx sec t d tdisp ok t' tdisp' :
  topology_place env ctx sec t d tdisp = Ok (ok, t', tdisp') →
  top_id t' = top_id t ∧ top_type t' = top_type t ∧ top_connection t' = top_connection t.
Proof.
  unfold topology_place. intros Hp. apply res_bind_Ok in Hp as (o & _ & Hp). apply res_bind_Ok in Hp as (o2 & _ & Hp).
  destruct (_ && _) in Hp; [by simplify_eq|]. apply res_bind_Ok in Hp as ([seg d2] & _ & Hp). cbn [fst snd] in Hp.
  destruct seg as [seg|]; [|by simplify_eq]. apply res_bind_Ok in Hp as (bus & _ & Hp). by simplify_eq.
Qed.

(** Writing a topology that has no id keeps the others. *)
Lemma put_topology_fail c bound bound' t c' :
  wf_topologies c bound (topologies_config c) → bound ≤ bound' → top_id t = 0 →
  put_topology c (topologies_cnt (topologies_config c)) t = Ok c' →
  wf_topologies c' bound' (topologies_config c') ∧ topologies_only c c'.
Proof.
  intros (Hl & Hc & Hi) Hb Ht Hp. unfold put_topology in Hp. inv_ok. split; [|done].
  split_and!; [by simpl; rewrite length_insert|simpl; lia|simpl; lia|]. cbn [topologies topologies_cnt topologies_config set_topologies].
  intros i x Hx. destruct (decide (i = Z.to_nat (topologies_cnt (topologies_config c)))) as [->|Hne].
  - rewrite list_lookup_insert_eq in Hx by lia. injection Hx as <-. by rewrite decide_False by lia.
  - rewrite list_lookup_insert_ne in Hx by done. specialize (Hi i x Hx). destruct (decide _); [|done].
    destruct Hi as ([] & ? & ?). split_and!; (by split) || done || lia.
Qed.

Lemma ParseTopologySection_wf env ctx c tdisp index b c' tdisp' sb :
  wf_ports (ports_config c) → wf_switches sb (switches_config c) →
  wf_topologies c (index - 1) (topologies_config c) →
  ParseTopologySection env ctx c tdisp index = Ok (b, c', tdisp') →
  wf_topologies c' index (topologies_config c') ∧ topologies_only c c'.
Proof.
  intros Hw Hs Ht Hp.
  assert (Hkeep : wf_topologies c index (topologies_config c) ∧ topologies_only c c).
  { split; [|by destruct c]. destruct Ht as (H1 & H2 & H3). split_and!; [done|lia|lia|]. intros i x Hx.
    specialize (H3 i x Hx). destruct (decide _); [|done]. destruct H3 as (? & ? & ?). split_and!; done || lia. }
  unfold ParseTopologySection in Hp. destruct (Z.leb_spec index 0); [by simplify_eq|].
  apply res_bind_Ok in Hp as (valid & _ & Hp). destruct valid; [|by simplify_eq/=]. cbn [negb] in Hp.
  apply res_bind_Ok in Hp as (t & Hget & Hp). pose proof (filled_next _ _ _ _ _ _ Ht Hget) as Hid0.
  apply res_bind_Ok in Hp as ([[ok t1] d] & Hh & Hp). apply topology_head_ok in Hh as [Hid1 Hr1].
  assert (Hfail : ∀ t' c2, top_id t' = top_id t →
    put_topology c (topologies_cnt (topologies_config c)) t' = Ok c2 →
    wf_topologies c2 index (topologies_config c2) ∧ topologies_only c c2).
  { intros t' c2 Hid Hput. eapply put_topology_fail; [exact Ht|lia| |exact Hput]. congruence. }
  destruct ok; cbn [negb] in Hp; [|apply res_bind_Ok in Hp as (c2 & Hput & Hp); simplify_eq; by eapply Hfail].
  apply res_bind_Ok in Hp as ([[ok t2] td] & Hpl & Hp). apply topology_place_ok in Hpl as (Hid2 & Hty2 & Hcn2).
  destruct ok; cbn [negb] in Hp; [|apply res_bind_Ok in Hp as (c2 & Hput & Hp); simplify_eq; eapply Hfail; [|done]; congruence].
  specialize (Hr1 eq_refl) as [Hty Hcn]. apply res_bind_Ok in Hp as ([ok t3] & Hpath & Hp).
  apply (topology_paths_ok _ _ _ _ sb) in Hpath as [(Hid3 & _ & _ & Hcn3) Hok]; [|done|done|lia|lia]. cbn [fst snd] in *.
  destruct ok; cbn [negb] in Hp; apply res_bind_Ok in Hp as (c2 & Hput & Hp); simplify_eq; [|eapply Hfail; [|done]; congruence].
  destruct (Hok eq_refl) as [Htop Hne]. unfold put_topology in Hput. apply res_bind_Ok in Hput as (ts & Hset & Hput).
  injection Hput as <-. split; [|done]. eapply filled_push; [exact Ht|exact Hset| |].
  - intros i y _ ([] & ? & ?). split_and!; (by split) || done || lia.
  - destruct Htop. split_and!; (by split) || done || (simpl; lia).
Qed.

(** ** Configurations *)

Section libs.
Context (fs : list teeio_test_funcs_t).

(** What the bit check of a registered library does. *)
Definition sets_default_bit : Prop :=
  ∀ cat bm b, teeio_check_configuration_bitmap fs bm cat = Ok b → b = (true, Z.lor bm 1).

(** Every set bit is the default one or has a name in the library. *)
Definition named_bits (category bit_map : Z) : Prop :=
  Z.testbit bit_map 0 = true ∧ 0 ≤ bit_map ∧
  ∀ i, 0 ≤ i → Z.testbit bit_map i = true → i = 0 ∨ ∃ n, get_test_configuration_name fs i category = Ok (Some n).

Definition wf_configuration (i : nat) (g : IDE_TEST_CONFIGURATION) : Prop :=
  cfg_id g ≠ 0 →
  cfg_id g = Z.of_nat i + 1 ∧ 0 ≤ cfg_type g < IDE_TEST_TOPOLOGY_TYPE_NUM ∧
  0 ≤ cfg_category g < TEEIO_TEST_CATEGORY_MAX ∧ cfg_category g ≠ TEEIO_TEST_CATEGORY_SPDM ∧
  (cfg_category g = TEEIO_TEST_CATEGORY_PCIE_IDE ∨ cfg_category g = TEEIO_TEST_CATEGORY_TDISP ∨
   cfg_type g = IDE_TEST_TOPOLOGY_TYPE_LINK_IDE) ∧
  named_bits (cfg_category g) (cfg_bit_map g).

Definition wf_configurations (gs : IDE_TEST_CONFIGURATIONS) : Prop :=
  length (configurations gs) = 32%nat ∧ ∀ i g, configurations gs !! i = Some g → wf_configuration i g.

Definition configurations_only (c c' : IDE_TEST_CONFIG) : Prop := c' = set_configurations c (configurations_config c').

Lemma BIT_MASK_testbit i k : 0 ≤ i → 0 ≤ k → Z.testbit (BIT_MASK i) k = true → k = i.
Proof.
  intros Hi Hk. unfold BIT_MASK, u32. destruct (decide (k < 32)).
  - rewrite Z.mod_pow2_bits_low, Z.shiftl_spec by lia. intros H.
    destruct (decide (k < i)); [by rewrite Z.testbit_neg_r in H by lia|].
    destruct (decide (k = i)); [done|]. by rewrite Z.bits_above_log2 in H by (simpl; lia).
  - by rewrite Z.mod_pow2_bits_high by lia.
Qed.

Lemma BIT_MASK_nonneg i : 0 ≤ BIT_MASK i.
Proof. unfold BIT_MASK, u32. apply Z.mod_pos_bound. lia. Qed.

(** The bits collected so far. *)
Definition bits_so_far (category bit_map : Z) : Prop :=
  0 ≤ bit_map ∧ ∀ i, 0 ≤ i → Z.testbit bit_map i = true → ∃ n, get_test_configuration_name fs i category = Ok (Some n).

Definition same_cfg (g g' : IDE_TEST_CONFIGURATION) : Prop :=
  cfg_enabled g' = cfg_enabled g ∧ cfg_type g' = cfg_type g ∧ cfg_category g' = cfg_category g.

Lemma bit_loop_ok ctx sec i g g' :
  0 ≤ i → bits_so_far (cfg_category g) (cfg_bit_map g) →
  while (bit_step fs ctx sec) 1024 (i, g) = Ok g' →
  same_cfg g g' ∧ bits_so_far (cfg_category g') (cfg_bit_map g').
Proof.
  intros Hi Hb Hw. refine (while_inv (bit_step fs ctx sec)
    (λ st, 0 ≤ fst st ∧ same_cfg g (snd st) ∧ bits_so_far (cfg_category (snd st)) (cfg_bit_map (snd st)))
    (λ g', same_cfg g g' ∧ bits_so_far (cfg_category g') (cfg_bit_map g')) _ (i, g) g' _ _ Hw); [|by split_and!].
  clear. intros [i h] (Hi & Hs & Hb). cbn [fst snd] in *.
  destruct (bit_step fs ctx sec (i, h)) as [[[i' h']|h']|] eqn:E; [| |done]; unfold bit_step in E;
    apply res_bind_Ok in E as (name & Hn & E); destruct name as [n|];
    try (by simplify_eq); apply res_bind_Ok in E as (en & _ & E); apply res_bind_Ok in E as (o & _ & E).
  - injection E as <- <-. cbn [fst snd]. split; [lia|].
    assert (Hset : bits_so_far (cfg_category h) (Z.lor (cfg_bit_map h) (BIT_MASK i))).
    { destruct Hb as [Hb0 Hb]. split; [apply Z.lor_nonneg; split; [done|apply BIT_MASK_nonneg]|].
      intros k Hk. rewrite Z.lor_spec. intros [Hk1|Hk1]%orb_true_iff; [by apply Hb|].
      apply BIT_MASK_testbit in Hk1 as ->; [by exists n|done|done]. }
    by destruct o as [[|[]|]|].
  - done.
Qed.

Lemma priv_step_ok ctx sec name g g' :
  (∀ k v cat g r, parse_test_configuration_priv_names fs k v cat g = Ok r →
     same_cfg g (snd r) ∧ cfg_bit_map (snd r) = cfg_bit_map g) →
  priv_step fs ctx sec name g = Ok g' → same_cfg g g' ∧ cfg_bit_map g' = cfg_bit_map g.
Proof.
  intros Hpriv Hp. unfold priv_step in Hp. apply res_bind_Ok in Hp as (en & _ & Hp).
  apply res_bind_Ok in Hp as (o & _ & Hp). destruct o as [v|]; [|by simplify_eq].
  apply res_bind_Ok in Hp as (r & Hr & Hp). simplify_eq. by eapply Hpriv.
Qed.

Lemma parse_category_range ctx sec cat :
  parse_category ctx sec = Ok (Some cat) → 0 ≤ cat < TEEIO_TEST_CATEGORY_MAX.
Proof.
  unfold parse_category. intros Hp. apply res_bind_Ok in Hp as (o & _ & Hp). destruct o as [v|]; [|by simplify_eq].
  destruct (is_valid_test_category v) eqn:E; [|done]. injection Hp as <-. by apply category_range.
Qed.

Lemma parse_type_range ctx sec cat inv ty :
  parse_type ctx sec cat inv = Ok (Some ty) → (∀ x, inv ≠ Ok (Some x)) →
  0 ≤ ty < IDE_TEST_TOPOLOGY_TYPE_NUM ∧
  (cat = TEEIO_TEST_CATEGORY_PCIE_IDE ∨ cat = TEEIO_TEST_CATEGORY_TDISP ∨ ty = IDE_TEST_TOPOLOGY_TYPE_LINK_IDE).
Proof.
  unfold parse_type. intros Hp Hinv. destruct (_ || _) eqn:E in Hp.
  - apply res_bind_Ok in Hp as (o & _ & Hp). destruct o as [v|]; [|done].
    destruct (is_valid_topology_type v) eqn:Ev; [|by apply Hinv in Hp]. injection Hp as <-.
    split; [by apply topology_type_range|]. apply orb_true_iff in E as [->%Z.eqb_eq | ->%Z.eqb_eq]; auto.
  - injection Hp as <-. split; [done|auto].
Qed.

Definition priv_keeps : Prop :=
  ∀ k v cat g r, parse_test_configuration_priv_names fs k v cat g = Ok r →
     same_cfg g (snd r) ∧ cfg_bit_map (snd r) = cfg_bit_map g.

(** The names of a library that end without a NULL: reading them leaves the array. *)
Definition overruns (category : Z) : Prop :=
  get_test_configuration_priv_names fs category = Ok None ∧
  (∃ n, get_test_configuration_name fs 0 category = Ok (Some n)) ∧
  ∃ e, get_test_configuration_name fs 1 category = Stop e.

Lemma bit_loop_overrun ctx sec g g' :
  overruns (cfg_category g) → while (bit_step fs ctx sec) 1024 (0, g) = Ok g' → False.
Proof.
  intros (_ & (n & Hn) & e & He) Hw. refine (while_inv (bit_step fs ctx sec)
    (λ st, (fst st = 0 ∨ fst st = 1) ∧ cfg_category (snd st) = cfg_category g) (λ _, False) _ _ _ _ _ Hw); [|by split; [left|]].
  clear Hw. intros [i h] [Hi Hc]. cbn [fst snd] in *.
  destruct (bit_step fs ctx sec (i, h)) as [[[i' h']|h']|] eqn:E; [| |done]; unfold bit_step in E; rewrite Hc in E;
    (destruct Hi as [-> | ->]; [rewrite Hn in E|by rewrite He in E]); cbn [res_bind] in E;
    apply res_bind_Ok in E as (en & _ & E); apply res_bind_Ok in E as (o & _ & E); [|done].
  injection E as <- <-. split; [by right|]. by destruct o as [[|[]|]|].
Qed.

Lemma ParseConfigurationSection_wf ctx c index b c' :
  sets_default_bit → priv_keeps → overruns TEEIO_TEST_CATEGORY_SPDM →
  ParseConfigurationSection fs ctx c index = Ok (b, c') →
  wf_configurations (configurations_config c) →
  wf_configurations (configurations_config c') ∧ configurations_only c c'.
Proof.
  intros Hdef Hpriv Hover Hp Hw.
  assert (Hkeep : wf_configurations (configurations_config c) ∧ configurations_only c c) by (split; [done|by destruct c]).
  unfold ParseConfigurationSection in Hp. destruct (Z.leb_spec index 0); [by simplify_eq|].
  apply res_bind_Ok in Hp as (valid & _ & Hp). destruct valid; [|by simplify_eq/=]. cbn [negb] in Hp.
  apply res_bind_Ok in Hp as (o & _ & Hp). apply res_bind_Ok in Hp as (cat & Hcat & Hp).
  destruct cat as [cat|]; [|by simplify_eq]. apply parse_category_range in Hcat.
  apply res_bind_Ok in Hp as (ty & Hty & Hp). destruct ty as [ty|]; [|by simplify_eq].
  apply parse_type_range in Hty as [Hty Htc]; [|done].
  apply res_bind_Ok in Hp as (priv & Hnames & Hp). apply res_bind_Ok in Hp as (g1 & Hg1 & Hp).
  apply res_bind_Ok in Hp as (g2 & Hg2 & Hp). apply res_bind_Ok in Hp as (bm & Hbm & Hp). apply Hdef in Hbm as ->.
  cbn [fst snd negb] in Hp. destruct (existsb _ _) in Hp; [by simplify_eq|].
  apply res_bind_Ok in Hp as (l & Hset & Hp). injection Hp as <- <-. split; [|done].
  apply (fold_res_inv (λ g, cfg_type g = ty ∧ cfg_category g = cat ∧ cfg_bit_map g = 0)) in Hg1 as (T1 & C1 & B1);
    [|intros x s s' _ (S1 & S2 & S3) Hs; apply priv_step_ok in Hs as [(_ & ? & ?) ?]; [split_and!; congruence|exact Hpriv]|done].
  assert (Hns : cat ≠ TEEIO_TEST_CATEGORY_SPDM).
  { intros ->. destruct (Hover) as (Hnone & _). rewrite Hnone in Hnames. injection Hnames as <-.
    eapply bit_loop_overrun; [|exact Hg2]. by rewrite C1. }
  apply bit_loop_ok in Hg2 as [(_ & T2 & C2) [B2 N2]]; [|lia|].
  2: { split; [lia|]. intros i Hi Hbit. rewrite B1, Z.bits_0 in Hbit. done. }
  destruct Hw as [Hl Hi]. apply array_set_Ok in Hset as [Hlt ->]. split; [by simpl; rewrite length_insert|].
  intros i g Hg. simpl in Hg. destruct (decide (i = Z.to_nat (index - 1))) as [->|Hne].
  - rewrite list_lookup_insert_eq in Hg by lia. injection Hg as <-. intros _. cbn [cfg_id cfg_type cfg_category cfg_bit_map].
    rewrite T2, T1, C2, C1. split_and!; try done; try lia.
    split; [by rewrite Z.lor_spec, orb_true_r|]. split; [apply Z.lor_nonneg; split; [done|lia]|].
    intros k Hk. rewrite Z.lor_spec. intros [Hb|Hb]%orb_true_iff.
    + right. rewrite <- C1, <- C2. by apply N2.
    + left. by apply (BIT_MASK_testbit 0).
  - rewrite list_lookup_insert_ne in Hg by done. by apply Hi.
Qed.

End libs.

(** ** Suites *)

Definition u32_cells (n : nat) (a : option (list Z)) : Prop :=
  match a with Some l => length l = n ∧ Forall (λ x, 0 ≤ x) l | None => True end.

Lemma u32_nonneg x : 0 ≤ u32 x.
Proof. unfold u32. apply Z.mod_pos_bound. lia. Qed.

Lemma get_uint32_array_keeps n a sz str b a' o :
  Utils.get_uint32_array_from_string a sz str = Ok (b, a', o) → u32_cells n a →
  u32_cells n a' ∧ (b = true → ∃ c, o = Some c ∧ 0 ≤ c).
Proof.
  unfold Utils.get_uint32_array_from_string. intros Hp Ha. apply res_bind_Ok in Hp as (_ & _ & Hp).
  apply res_bind_Ok in Hp as (s & _ & Hp). destruct (_ =? 0) in Hp; [by simplify_eq|].
  apply res_bind_Ok in Hp as (size & _ & Hp). apply res_bind_Ok in Hp as ([[arr cnt] ret] & Hw & Hp).
  assert (Harr : u32_cells n arr).
  { refine (while_inv (Utils.token_step size) (λ st, u32_cells n (snd (fst (fst st)))) (λ out, u32_cells n (fst (fst out))) _ _ _ _ _ Hw);
      [|exact Ha]. clear. intros [[[tok l] c] r] Hl. cbn [fst snd] in *.
    destruct (Utils.token_step size (tok, l, c, r)) as [[st|out]|] eqn:E; [| |done]; unfold Utils.token_step in E;
      destruct tok as [[t saved]|]; try (by simplify_eq);
      destruct (negb _) in E; try (by simplify_eq); destruct (CLib.strtoul t 10) as [v e];
      destruct (negb _) in E; try (by simplify_eq); destruct (_ <? _) in E; try (by simplify_eq);
      destruct l as [cells|]; try (by simplify_eq); destruct (_ =? _) in E; try (by simplify_eq);
      destruct (_ <? _)%nat in E; try (by simplify_eq).
    injection E as <-. cbn [fst snd]. destruct Hl as [Hl Hf]. split; [by rewrite length_insert|].
    apply Forall_insert; [done|apply u32_nonneg]. }
  destruct ret; [|simplify_eq; by split].
  apply res_bind_Ok in Hp as (_ & _ & Hp). simplify_eq. split; [done|]. intros _. eexists. split; [done|apply u32_nonneg].
Qed.

Lemma for_each_inl {R} (body : Z → unit → res (unit + R)) lo n u u' :
  for_each body (seqZ lo n) u = Ok (inl u') → ∀ i, lo ≤ i < lo + n → body i tt = Ok (inl tt).
Proof.
  intros Hf i Hi. destruct u, u'. assert (Hin : i ∈ seqZ lo n) by (apply elem_of_seqZ; lia).
  revert Hf Hin. clear Hi. induction (seqZ lo n) as [|x l IH]; intros Hf Hin; [by apply elem_of_nil in Hin|].
  cbn [for_each] in Hf. destruct (body x tt) as [[[]|]|] eqn:E; try done.
  apply elem_of_cons in Hin as [->|Hin]; [done|by apply IH].
Qed.

Lemma ParseTestSuiteCaseEntry_ok ctx sec en cnt mx ids n :
  ParseTestSuiteCaseEntry ctx sec en (replicate 32 0) cnt mx = Ok (true, ids, n) →
  length ids = 32%nat ∧ 0 ≤ n ≤ 32 ∧ ∀ id, id ∈ take (Z.to_nat n) ids → 0 ≤ id ≤ mx.
Proof.
  unfold ParseTestSuiteCaseEntry. intros Hp. apply res_bind_Ok in Hp as ([b n1] & Hlen & Hp). cbn [fst snd] in Hp.
  destruct b; [|done]. cbn [negb] in Hp. destruct (_ <? _) in Hp; [done|].
  assert (Hn : 0 ≤ n1).
  { unfold GetUint32ArrayLengthFromDataFile in Hlen. apply res_bind_Ok in Hlen as (r & _ & Hlen).
    destruct (negb _) in Hlen; [done|]. apply res_bind_Ok in Hlen as (v & _ & Hlen).
    apply res_bind_Ok in Hlen as ([[b a] o] & Hg & Hlen). cbn [fst snd] in Hlen. simplify_eq.
    apply (get_uint32_array_keeps 0) in Hg as [_ Hg]; [|done]. destruct (Hg eq_refl) as (k & -> & Hk). exact Hk. }
  apply res_bind_Ok in Hp as ([b ids1] & Harr & Hp). cbn [fst snd] in Hp. destruct b; [|done]. cbn [negb] in Hp.
  apply res_bind_Ok in Hp as (o & Hall & Hp). destruct o as [u|u]; [|done]. simplify_eq.
  assert (Hids : length ids = 32%nat ∧ Forall (λ x, 0 ≤ x) ids).
  { unfold GetUint32ArrayFromDataFile in Harr. destruct (_ =? 0) in Harr; [done|].
    apply res_bind_Ok in Harr as (r & _ & Harr). destruct (negb _) in Harr; [done|].
    apply res_bind_Ok in Harr as (v & _ & Harr). apply res_bind_Ok in Harr as ([[b a] o] & Hg & Harr). cbn [fst snd] in Harr.
    simplify_eq. apply (get_uint32_array_keeps 32) in Hg as [Hg _]; [|by split; [|apply Forall_replicate]].
    destruct a as [l|]; [done|]. split; [done|]. cbn [default from_option]. by repeat constructor. }
  destruct Hids as [Hl Hpos].
  assert (Hget : ∀ i, 0 ≤ i < n → ∃ x, ids !! Z.to_nat i = Some x ∧ x ≤ mx).
  { intros i Hi. pose proof (for_each_inl _ 0 n _ _ Hall i ltac:(lia)) as Hb. cbv beta in Hb.
    apply res_bind_Ok in Hb as (x & Hx & Hb). apply array_get_Ok in Hx as [_ Hx]. exists x. split; [done|].
    destruct (Z.ltb_spec mx x); [done|lia]. }
  assert (Hn32 : n ≤ 32).
  { destruct (decide (n ≤ 32)); [done|]. destruct (Hget 32) as (x & Hx & _); [lia|].
    apply lookup_lt_Some in Hx. lia. }
  split_and!; [done|done|done|]. intros id Hid. apply list_elem_of_lookup in Hid as [k Hk].
  apply lookup_take_Some in Hk as [Hk Hlt]. destruct (Hget (Z.of_nat k)) as (x & Hx & Hle); [lia|].
  rewrite Nat2Z.id in Hx. simplify_eq. rewrite Forall_lookup in Hpos. split; [by eapply Hpos|done].
Qed.

Section suites.
Context (fs : list teeio_test_funcs_t).

(** The selected ids of a class are within the limits of the class. *)
Definition wf_case_ids (category : Z) (k : nat) (tc : IDE_TEST_CASE) : Prop :=
  length (cases_id tc) = 32%nat ∧ 0 ≤ cases_cnt tc ≤ 32 ∧
  (cases_cnt tc ≠ 0 → ∃ nm class m mx,
     get_test_case_name fs (Z.of_nat k) category = Ok (Some nm) ∧ tn_class nm = Some class ∧
     class_limits (tn_names nm) = Ok (Some (m, mx)) ∧ ∀ id, id ∈ selected tc → 0 ≤ id ≤ mx).

Definition wf_cases (category : Z) (cases : list IDE_TEST_CASE) : Prop :=
  length cases = 32%nat ∧ ∀ k tc, cases !! k = Some tc → wf_case_ids category k tc.

Lemma wf_zero_cases category : wf_cases category (replicate 32 zero_case).
Proof.
  split; [done|]. intros k tc [-> _]%lookup_replicate. split_and!; [done|done|done|done].
Qed.

Lemma suite_class_loop_ok ctx sec category cases :
  while (suite_class_step fs ctx sec category) 1024 (0, replicate 32 zero_case) = Ok cases → wf_cases category cases.
Proof.
  intros Hw. refine (while_inv (suite_class_step fs ctx sec category)
    (λ st, 0 ≤ fst st ∧ wf_cases category (snd st)) (wf_cases category) _ _ _ _ _ Hw); [|by split; [|apply wf_zero_cases]].
  clear. intros [i cs] [Hi [Hl Hc]]. cbn [fst snd] in *.
  destruct (suite_class_step fs ctx sec category (i, cs)) as [[[i' cs']|cs']|] eqn:E; [| |done]; unfold suite_class_step in E;
    apply res_bind_Ok in E as (o & Hnm & E); apply res_bind_Ok in E as (nm & Ho & E); apply deref_Ok in Ho as ->;
    destruct (tn_class nm) as [class|] eqn:Ecl; try done; [| |by simplify_eq].
  - apply res_bind_Ok in E as (lim & Hlim & E). destruct lim as [[m mx]|].
    2: { injection E as <- <-. cbn [fst snd]. split; [lia|by split]. }
    apply res_bind_Ok in E as (en & _ & E). apply res_bind_Ok in E as ([[ok ids] cnt] & He & E).
    apply res_bind_Ok in E as (old & Hold & E). apply res_bind_Ok in E as (cs2 & Hset & E). injection E as <- <-.
    cbn [fst snd]. split; [lia|]. apply array_get_Ok in Hold as [_ Hold]. apply array_set_Ok in Hset as [Hlt ->].
    split; [by rewrite length_insert|]. intros k tc Hk.
    destruct (decide (k = Z.to_nat i)) as [->|Hne]; [|by rewrite list_lookup_insert_ne in Hk by done; apply Hc].
    rewrite list_lookup_insert_eq in Hk by lia. injection Hk as <-.
    destruct (Hc _ _ Hold) as (Hol & _). unfold wf_case_ids, selected. cbn [cases_cnt cases_id].
    destruct ok.
    + apply ParseTestSuiteCaseEntry_ok in He as (Hil & Hcnt & Hids).
      assert (Htk : length (take (Z.to_nat cnt) ids) = Z.to_nat cnt) by (rewrite length_take; lia).
      split; [rewrite length_app, Htk, length_drop, Hol; lia|]. split; [lia|]. intros _.
      exists nm, class, m, mx. rewrite Z2Nat.id by lia. split_and!; [done|done|done|].
      rewrite take_app_le, take_take, Nat.min_id by lia. exact Hids.
    + simpl. split_and!; [done|lia|lia|done].
  - apply res_bind_Ok in E as (lim & Hlim & E). destruct lim as [[m mx]|]; [|done].
    apply res_bind_Ok in E as (en & _ & E). apply res_bind_Ok in E as ([[ok ids] cnt] & He & E).
    apply res_bind_Ok in E as (old & Hold & E). by apply res_bind_Ok in E as (cs2 & Hset & E).
Qed.

(** A stored suite refers to a topology and a configuration of its type and category. *)
Definition wf_suite (c : IDE_TEST_CONFIG) (i : nat) (s : IDE_TEST_SUITE) : Prop :=
  suite_id s ≠ 0 →
  suite_id s = Z.of_nat i + 1 ∧
  (∃ top cfg, get_topology_by_id (Some c) (suite_topology_id s) = Ok (Some top) ∧
     get_configuration_by_id (Some c) (suite_configuration_id s) = Ok (Some cfg) ∧
     top_type top = suite_type s ∧ cfg_type cfg = suite_type s ∧ cfg_category cfg = suite_category s) ∧
  wf_cases (suite_category s) (suite_cases s).

Definition wf_suites (c : IDE_TEST_CONFIG) (ss : IDE_TEST_SUITES) : Prop :=
  length (test_suites ss) = 32%nat ∧ ∀ i s, test_suites ss !! i = Some s → wf_suite c i s.

Definition suites_only (c c' : IDE_TEST_CONFIG) : Prop := c' = set_suites c (suites_config c').

Lemma ParseTestSuiteSection_wf ctx c index b c' :
  ParseTestSuiteSection fs ctx c index = Ok (b, c') →
  wf_suites c (suites_config c) → wf_suites c (suites_config c') ∧ suites_only c c'.
Proof.
  intros Hp Hw. assert (Hkeep : wf_suites c (suites_config c) ∧ suites_only c c) by (split; [done|by destruct c]).
  unfold ParseTestSuiteSection in Hp. destruct (Z.leb_spec index 0); [by simplify_eq|].
  apply res_bind_Ok in Hp as (valid & _ & Hp). destruct valid; [|by simplify_eq/=]. cbn [negb] in Hp.
  apply res_bind_Ok in Hp as (o & _ & Hp). apply res_bind_Ok in Hp as (cat & _ & Hp). destruct cat as [cat|]; [|by simplify_eq].
  apply res_bind_Ok in Hp as (ty & _ & Hp). destruct ty as [ty|]; [|by simplify_eq].
  apply res_bind_Ok in Hp as (topid & _ & Hp). destruct topid as [topid|]; [|by simplify_eq].
  apply res_bind_Ok in Hp as (top & Htop & Hp). destruct top as [top|]; [|by simplify_eq].
  destruct (Z.eqb_spec (top_type top) ty) as [Ht|]; [|by simplify_eq/=]. cbn [negb] in Hp.
  apply res_bind_Ok in Hp as (cfgid & _ & Hp). destruct cfgid as [cfgid|]; [|by simplify_eq].
  apply res_bind_Ok in Hp as (cfg & Hcfg & Hp). destruct cfg as [cfg|]; [|by simplify_eq].
  destruct (Z.eqb_spec (cfg_type cfg) ty) as [Hg|]; [|by simplify_eq/=]. cbn [negb] in Hp.
  destruct (Z.eqb_spec (cfg_category cfg) cat) as [Hc|]; [|by simplify_eq/=]. cbn [negb] in Hp.
  apply res_bind_Ok in Hp as (cases & Hcases & Hp). apply res_bind_Ok in Hp as (l & Hset & Hp).
  injection Hp as <- <-. split; [|done]. apply suite_class_loop_ok in Hcases.
  destruct Hw as [Hl Hi]. apply array_set_Ok in Hset as [Hlt ->]. split; [by simpl; rewrite length_insert|].
  intros i s Hs. simpl in Hs. destruct (decide (i = Z.to_nat (index - 1))) as [->|Hne].
  - rewrite list_lookup_insert_eq in Hs by lia. injection Hs as <-. intros _.
    split; [simpl; lia|]. split; [by exists top, cfg|exact Hcases].
  - rewrite list_lookup_insert_ne in Hs by done. by apply Hi.
Qed.

End suites.

End ConfigWf.
