(* ===== verification/Pipeline.v ===== *)
(** * From the INI file to the results

    The parser, the preparation and the engine composed: what a parsed
    configuration satisfies, when its tests can be prepared, and what the run
    then reports. *)
From Stdlib Require Import ZArith Lia Ascii String.
From stdpp Require Import prelude.
From S2P Require Import Prelude Utils Libspdm IniFile TestConfig Results Engine Stops TestLib Prepare ConfigParse ConfigWf.
Import Utils.PcieHelper Ini TestConfig TestLib Prepare ConfigParse ConfigWf.

Open Scope Z_scope.
Open Scope teeio_scope.

Module Pipeline.

(** ** What the registered libraries promise the parser *)

Section registered.
Context `{SpdmResponder} (fs : list teeio_test_funcs_t) (Hinit : teeio_init_test_funcs = Ok fs).

(** The libraries of the repository come first, the one of SPDM is the fifth. *)
Lemma registered_inv cat lib :
  array_get fs cat = Ok lib →
  (∃ l, 0 ≤ cat ∧ own_libs !! Z.to_nat cat = Some l ∧ lib = fst (fst l)) ∨
  (cat = TEEIO_TEST_CATEGORY_SPDM ∧ spdm_test_lib_register_test_suite_funcs = Ok lib).
Proof.
  unfold teeio_init_test_funcs in Hinit. apply res_bind_Ok in Hinit as (spdm & Hs & Hf).
  injection Hf as <-. intros [Hc Hg]%array_get_Ok. pose proof (lookup_lt_Some _ _ _ Hg) as Hlt. simpl in Hlt.
  assert (cat = 0 ∨ cat = 1 ∨ cat = 2 ∨ cat = 3 ∨ cat = 4) as [->|[->|[->|[->| ->]]]] by lia;
    injection Hg as <-; [left..|right; by split]; by eexists.
Qed.

Lemma registered_default_bit : sets_default_bit fs.
Proof.
  intros cat bm b Hb. unfold teeio_check_configuration_bitmap in Hb. apply res_bind_Ok in Hb as (lib & Hl & Hb).
  injection Hb as <-. apply registered_inv in Hl as [(l & _ & Hl & ->)|[_ Hs]].
  - destruct (Z.to_nat cat) as [|[|[|[|k]]]]; simpl in Hl; [..|done]; injection Hl as <-; reflexivity.
  - unfold spdm_test_lib_register_test_suite_funcs in Hs. apply res_bind_Ok in Hs as (t & _ & Hs). by injection Hs as <-.
Qed.

Lemma registered_priv_keeps : priv_keeps fs.
Proof.
  intros k v cat g r Hr. unfold parse_test_configuration_priv_names in Hr. apply res_bind_Ok in Hr as (lib & Hl & Hr).
  injection Hr as <-. apply registered_inv in Hl as [(l & _ & Hl & ->)|[_ Hs]].
  - destruct (Z.to_nat cat) as [|[|[|[|j]]]]; simpl in Hl; [..|done]; injection Hl as <-; try done.
    cbn [fst parse_configuration_priv_name_func cxl_ide_test_lib_register_test_suite_funcs].
    unfold parse_test_configuration_priv_name. destruct v as [v|]; [|done]. destruct (streq _ _); [|done].
    by destruct (parse_cxl_ide_mode_from_string _).
  - unfold spdm_test_lib_register_test_suite_funcs in Hs. apply res_bind_Ok in Hs as (t & _ & Hs). by injection Hs as <-.
Qed.

(** The library of SPDM has one name and no terminating NULL. *)
Lemma registered_spdm_overruns : overruns fs TEEIO_TEST_CATEGORY_SPDM.
Proof.
  unfold teeio_init_test_funcs in Hinit. apply res_bind_Ok in Hinit as (spdm & Hs & Hf).
  unfold spdm_test_lib_register_test_suite_funcs in Hs. apply res_bind_Ok in Hs as (t & _ & Hs).
  injection Hs as <-. injection Hf as <-. split; [done|]. split; by eexists.
Qed.

End registered.

(** ** The invariant of a parsed configuration *)

Record wf_config (fs : list teeio_test_funcs_t) (c : IDE_TEST_CONFIG) : Prop := {
  wc_ports : wf_ports (ports_config c);
  wc_switches : wf_switches MAX_SUPPORTED_SWITCHES_NUM (switches_config c);
  wc_topologies : wf_topologies c MAX_TOPOLOGY_NUM (topologies_config c);
  wc_configurations : wf_configurations fs (configurations_config c);
  wc_suites : wf_suites fs c (suites_config c)
}.

Lemma filled_replicate {A} size (P : nat → A → Prop) (rest : A → Prop) x : rest x → filled size 0 P rest (replicate size x).
Proof.
  intros Hx. split_and!; [by rewrite length_replicate|lia|lia|]. intros i y [-> _]%lookup_replicate. by rewrite decide_False by lia.
Qed.

Lemma switches_loop ctx c c' :
  fold_res (λ index c, let* r := ParseSwitchesSection ctx c (index + 1) in Ok (snd r)) (seqZ 0 MAX_SUPPORTED_SWITCHES_NUM) c = Ok c' →
  wf_switches 0 (switches_config c) → wf_switches MAX_SUPPORTED_SWITCHES_NUM (switches_config c') ∧ switches_only c c'.
Proof.
  intros Hf Hw. refine (fold_res_seqZ (λ k d, wf_switches k (switches_config d) ∧ switches_only c d) _ 0 _ _ _ _ _ _ Hf);
    [done| |split; [done|by destruct c]].
  intros k d d' Hk [Hd Ho] Hb. apply res_bind_Ok in Hb as ([b d2] & Hp & Hb). injection Hb as <-.
  apply ParseSwitchesSection_wf in Hp as [Hw2 Ho2]; [|by replace (k + 1 - 1) with k by lia].
  split; [done|]. unfold switches_only in *. cbn [snd]. rewrite Ho2, Ho. by destruct c.
Qed.

Lemma topologies_loop env ctx sb c tdisp st :
  fold_res (λ index st, let* r := ParseTopologySection env ctx (fst st) (snd st) (index + 1) in Ok (snd (fst r), snd r))
    (seqZ 0 MAX_TOPOLOGY_NUM) (c, tdisp) = Ok st →
  wf_ports (ports_config c) → wf_switches sb (switches_config c) → wf_topologies c 0 (topologies_config c) →
  wf_topologies (fst st) MAX_TOPOLOGY_NUM (topologies_config (fst st)) ∧ topologies_only c (fst st).
Proof.
  intros Hf Hp Hs Ht. refine (fold_res_seqZ (λ k st, wf_topologies (fst st) k (topologies_config (fst st)) ∧ topologies_only c (fst st))
    _ 0 _ _ _ _ _ _ Hf); [done| |split; [done|by destruct c]].
  intros k [d t] st' Hk [Hd Ho] Hb. cbn [fst snd] in *. apply res_bind_Ok in Hb as ([[b d2] t2] & Hps & Hb). injection Hb as <-.
  apply (ParseTopologySection_wf _ _ _ _ _ _ _ _ sb) in Hps as [Hw2 Ho2]; try by (rewrite Ho).
  - split; [done|]. unfold topologies_only in *. cbn [fst snd]. rewrite Ho2, Ho. by destruct c.
  - by replace (k + 1 - 1) with k by lia.
Qed.

Lemma configurations_loop fs ctx c c' :
  sets_default_bit fs → priv_keeps fs → overruns fs TEEIO_TEST_CATEGORY_SPDM →
  fold_res (λ index c, let* r := ParseConfigurationSection fs ctx c (index + 1) in Ok (snd r)) (seqZ 0 MAX_CONFIGURATION_NUM) c = Ok c' →
  wf_configurations fs (configurations_config c) → wf_configurations fs (configurations_config c') ∧ configurations_only c c'.
Proof.
  intros Hd Hk Hov Hf Hw. refine (fold_res_inv (λ d, wf_configurations fs (configurations_config d) ∧ configurations_only c d) _ _ _ _ _ _ Hf);
    [|split; [done|by destruct c]].
  intros k d d' _ [Hw1 Ho1] Hb. apply res_bind_Ok in Hb as ([b d2] & Hp & Hb). injection Hb as <-.
  apply ParseConfigurationSection_wf in Hp as [Hw2 Ho2]; [|done..].
  split; [done|]. unfold configurations_only in *. cbn [snd]. rewrite Ho2, Ho1. by destruct c.
Qed.

Lemma wf_topologies_ext c c' bound tc :
  ports_config c' = ports_config c → switches_config c' = switches_config c →
  wf_topologies c bound tc → wf_topologies c' bound tc.
Proof.
  intros Hp Hs (Hl & Hc & Hi). split_and!; [done|lia|lia|]. intros i t Ht. specialize (Hi i t Ht).
  destruct (decide _); [|done]. destruct Hi as ([T R U L C1 C2] & Hne & Hid). split; [|done].
  assert (Hport : ∀ id, port_ok c id → port_ok c' id) by (intros id; unfold port_ok, get_port_by_id; by rewrite Hp).
  assert (Hconn : ∀ l, Forall (conn_ok c) l → Forall (conn_ok c') l).
  { intros l' Hl'. eapply Forall_impl; [exact Hl'|]. intros cn. unfold conn_ok, get_switch_by_id. by rewrite Hs. }
  split; auto.
Qed.

(** The suites refer to the topologies and configurations, which stay. *)
Lemma suites_loop fs ctx c c' :
  fold_res (λ index c, let* r := ParseTestSuiteSection fs ctx c (index + 1) in Ok (snd r)) (seqZ 0 MAX_TEST_SUITE_NUM) c = Ok c' →
  wf_suites fs c (suites_config c) → wf_suites fs c' (suites_config c') ∧ suites_only c c'.
Proof.
  intros Hf Hw. refine (fold_res_inv (λ d, wf_suites fs d (suites_config d) ∧ suites_only c d) _ _ _ _ _ _ Hf);
    [|split; [done|by destruct c]].
  intros k d d' _ [Hw1 Ho1] Hb. apply res_bind_Ok in Hb as ([b d2] & Hp & Hb). injection Hb as <-.
  apply ParseTestSuiteSection_wf in Hp as [Hw2 Ho2]; [|done].
  unfold suites_only in *. cbn [snd]. split; [by rewrite Ho2|]. rewrite Ho2, Ho1. by destruct c.
Qed.

Lemma ParseMainSection_only ctx c b c' : ParseMainSection ctx c = Ok (b, c') → c' = set_main c (main_config c').
Proof.
  intros Hm. unfold ParseMainSection in Hm. repeat (apply res_bind_Ok in Hm as (? & _ & Hm)).
  match type of Hm with match ?o with _ => _ end = _ => destruct o end; [|by injection Hm as _ <-].
  apply res_bind_Ok in Hm as (? & _ & Hm). destruct (parse_spdm_version _); by injection Hm as _ <-.
Qed.

Section parsed.
Context `{SpdmResponder} `{Libspdm} (fs : list teeio_test_funcs_t) (Hinit : teeio_init_test_funcs = Ok fs).

Lemma parse_sections_inv env ctx tdisp c tdisp' :
  parse_sections fs env ctx zero_config tdisp = Ok (true, c, tdisp') →
  (wf_config fs c ∧ topologies_cnt (topologies_config c) ≠ 0) ∧
  (g_run_test_suite env = false → suites_config c = suites_config zero_config).
Proof.
  intros Hp. unfold parse_sections in Hp. apply res_bind_Ok in Hp as ([ok c0] & Hm & Hp). cbn [fst snd] in Hp.
  destruct ok; [|done]. cbn [negb] in Hp.
  apply ParseMainSection_only in Hm as Hz.
  clear Hm. apply res_bind_Ok in Hp as (c1 & Hp1 & Hp). apply root_ports_wf in Hp1 as [Hw1' Ho1]; [|by rewrite Hz..].
  apply res_bind_Ok in Hp as (c2 & Hp2 & Hp). apply endpoint_ports_wf in Hp2 as [Hw2 Ho2]; [|done].
  apply res_bind_Ok in Hp as (c3 & Hp3 & Hp). apply switches_loop in Hp3 as [Hw3 Ho3].
  2: { rewrite Ho2, Ho1, Hz. split; [by apply filled_replicate|]. simpl. lia. }
  apply res_bind_Ok in Hp as ([c4 t4] & Hp4 & Hp).
  apply (topologies_loop _ _ MAX_SUPPORTED_SWITCHES_NUM) in Hp4 as [Hw4 Ho4]; [|by rewrite Ho3|done|].
  2: { rewrite Ho3, Ho2, Ho1, Hz. by apply filled_replicate. }
  cbn [fst] in *. destruct (Z.eqb_spec (topologies_cnt (topologies_config c4)) 0) as [|Hcnt]; [done|].
  apply res_bind_Ok in Hp as (c5 & Hp5 & Hp).
  apply configurations_loop in Hp5 as [Hw5 Ho5]; [|by apply registered_default_bit|by apply registered_priv_keeps|by apply registered_spdm_overruns|].
  2: { rewrite Ho4, Ho3, Ho2, Ho1, Hz. split; [done|]. intros i g [-> _]%lookup_replicate. done. }
  destruct (_ =? _) in Hp; [done|]. apply res_bind_Ok in Hp as (c6 & Hp6 & Hp).
  destruct (_ && _) in Hp; [done|]. injection Hp as <- <-.
  assert (H6 : wf_suites fs c6 (suites_config c6) ∧ suites_only c5 c6).
  { assert (wf_suites fs c5 (suites_config c5)).
    { rewrite Ho5, Ho4, Ho3, Ho2, Ho1, Hz. split; [done|]. intros i g [-> _]%lookup_replicate. done. }
    destruct (g_run_test_suite env); [by apply (suites_loop fs ctx)|]. injection Hp6 as <-. split; [done|by destruct c5]. }
  assert (Hns : g_run_test_suite env = false → suites_config c6 = suites_config zero_config).
  { intros E. rewrite E in Hp6. injection Hp6 as <-. by rewrite Ho5, Ho4, Ho3, Ho2, Ho1, Hz. }
  destruct H6 as [Hw6 Ho6]. split; [|exact Hns]. split; [split|]; [..|rewrite Ho6, Ho5; exact Hcnt]; try done.
  - rewrite Ho6, Ho5, Ho4, Ho3. exact Hw2.
  - rewrite Ho6, Ho5, Ho4. exact Hw3.
  - assert (topologies_config c6 = topologies_config c4) as -> by (by rewrite Ho6, Ho5). eapply wf_topologies_ext; [| |exact Hw4]; by rewrite Ho6, Ho5.
  - rewrite Ho6. exact Hw5.
Qed.

Lemma parse_sections_wf env ctx tdisp c tdisp' :
  parse_sections fs env ctx zero_config tdisp = Ok (true, c, tdisp') →
  wf_config fs c ∧ topologies_cnt (topologies_config c) ≠ 0.
Proof. by intros [Hw _]%parse_sections_inv. Qed.

End parsed.

(** ** When a parsed configuration can be prepared *)

(** A configuration item with all its functions and a name. *)
Definition item_served (lib : teeio_test_funcs_t) (type i : Z) : bool :=
  (i <? IDE_TEST_CONFIGURATION_TYPE_NUM) &&
  match get_configuration_funcs_func lib, get_configuration_name_func lib with
  | Some get_funcs, Some get_name =>
      match get_funcs type i with
      | Ok f => is_some (cf_enable f) && is_some (cf_disable f) && is_some (cf_support f) && is_some (cf_check f)
      | Stop _ => false
      end && match get_name i with Ok (Some n) => nonempty n | _ => false end
  | _, _ => false
  end.

(** The bits of a configuration that are asked of its library. *)
Definition requested_bits (lib : teeio_test_funcs_t) (type bit_map : Z) : option Z :=
  match get_configuration_bitmask_func lib with
  | Some get_bitmask => match get_bitmask type with Ok mask => Some (Z.land bit_map mask) | Stop _ => None end
  | None => None
  end.

Definition configuration_served (lib : teeio_test_funcs_t) (type bit_map : Z) : bool :=
  match requested_bits lib type bit_map with
  | Some bits => forallb (item_served lib type) (set_bits_of bits)
  | None => false
  end.

(** A suite asks for no case 0 and for configuration items its library serves. *)
Definition suite_servable (fs : list teeio_test_funcs_t) (c : IDE_TEST_CONFIG) (s : IDE_TEST_SUITE) : bool :=
  match array_get fs (suite_category s), get_configuration_by_id (Some c) (suite_configuration_id s) with
  | Ok lib, Ok (Some g) => configuration_served lib (cfg_type g) (cfg_bit_map g)
  | _, _ => false
  end && forallb (λ tc, forallb (λ id, negb (id =? 0)) (selected tc)) (suite_cases s).

Definition servable (fs : list teeio_test_funcs_t) (c : IDE_TEST_CONFIG) : bool :=
  forallb (λ s, negb (runnable c s) || suite_servable fs c s) (test_suites (suites_config c)).

(** What the tables of a library hold, checked by evaluation: per type, the default item is
    asked for, the names of the items fit, the group has its functions; per class,
    every id up to the limit has its functions. *)
Definition type_check (lib : teeio_test_funcs_t) (type : Z) : bool :=
  match get_configuration_bitmask_func lib, get_configuration_name_func lib, get_configuration_funcs_func lib,
        get_group_funcs_func lib, alloc_test_group_context_func lib with
  | Some get_bitmask, Some get_name, Some _, Some get_group, Some sig =>
      match get_bitmask type with
      | Ok mask =>
          Z.testbit mask 0 && (sig =? Engine.GROUP_CONTEXT_SIGNATURE)
          && (Results.sumZ (name_length get_name) (filter (λ i, item_served lib type i = true) (seqZ 0 32)) <? MAX_NAME_LENGTH)
          && match get_group type with Ok f => is_some (gf_setup f) && is_some (gf_teardown f) | Stop _ => false end
      | Stop _ => true
      end
  | _, _, _, _, _ => false
  end.

Definition class_check (lib : teeio_test_funcs_t) (k : Z) : bool :=
  match get_case_name_func lib, get_case_funcs_func lib with
  | Some get_name, Some get_funcs =>
      match get_name k with
      | Ok nm =>
          match tn_class nm, class_limits (tn_names nm) with
          | Some _, Ok (Some (_, mx)) =>
              (mx <=? MAX_CASE_ID)
              && forallb (λ id, match get_funcs k (id - 1) with Ok _ => true | Stop _ => false end) (seqZ 1 mx)
          | _, _ => true
          end
      | Stop _ => true
      end
  | _, _ => false
  end.

Definition lib_check (lib : teeio_test_funcs_t) : bool :=
  forallb (type_check lib) (seqZ 0 IDE_TEST_TOPOLOGY_TYPE_NUM) && forallb (class_check lib) (seqZ 0 MAX_TEST_CASE_NUM).

Lemma own_libs_checked : Forall (λ l, lib_check (fst (fst l)) = true) own_libs.
Proof. repeat constructor; vm_compute; reflexivity. Qed.

Lemma sumZ_filter_le (f : Z → Z) (P Q : Z → bool) l :
  (∀ i, 0 ≤ f i) → (∀ i, i ∈ l → P i = true → Q i = true) →
  Results.sumZ f (filter (λ i, P i = true) l) ≤ Results.sumZ f (filter (λ i, Q i = true) l).
Proof.
  intros Hf. induction l as [|x l IH]; [done|]. intros HPQ.
  specialize (IH (λ i Hi, HPQ i (list_elem_of_further _ _ _ Hi))). destruct (P x) eqn:EP.
  - rewrite !filter_cons_True by (done || by apply HPQ; [left|]). simpl. lia.
  - rewrite filter_cons_False by (by rewrite EP). destruct (Q x) eqn:EQ.
    + rewrite filter_cons_True by done. simpl. pose proof (Hf x). lia.
    + by rewrite filter_cons_False by (by rewrite EQ).
Qed.

Lemma name_length_nonneg get_name i : 0 ≤ name_length get_name i.
Proof. unfold name_length, strlen. destruct (get_name i) as [[n|]|]; lia. Qed.

Lemma item_served_spec lib type i gf gn :
  get_configuration_funcs_func lib = Some gf → get_configuration_name_func lib = Some gn →
  item_served lib type i = true →
  i < IDE_TEST_CONFIGURATION_TYPE_NUM ∧
  (∃ f, gf type i = Ok f ∧ is_some (cf_enable f) && is_some (cf_disable f) && is_some (cf_support f)
        && is_some (cf_check f) = true) ∧
  (∃ n, gn i = Ok (Some n) ∧ n ≠ []).
Proof.
  unfold item_served. intros -> -> [Hi [Hf Hn]%andb_true_iff]%andb_true_iff. split; [lia|].
  split; [destruct (gf type i) as [f|]; [by exists f|done]|].
  destruct (gn i) as [[n|]|]; [|done..]. exists n. split; [done|]. by destruct n.
Qed.

Lemma set_bits_of_in bits i : i ∈ set_bits_of bits ↔ 0 ≤ i < 32 ∧ Z.testbit bits i = true.
Proof. unfold set_bits_of, bit_set. rewrite list_elem_of_filter, elem_of_seqZ. tauto. Qed.

Lemma lib_serves lib type bit_map :
  type_check lib type = true → configuration_served lib type bit_map = true → Z.testbit bit_map 0 = true →
  (∃ bits, serves_config lib type bit_map bits) ∧ serves_group lib type.
Proof.
  unfold type_check, configuration_served, requested_bits. intros Ht Hc H0.
  destruct (get_configuration_bitmask_func lib) as [gb|] eqn:Egb; [|done].
  destruct (get_configuration_name_func lib) as [gn|] eqn:Egn; [|done].
  destruct (get_configuration_funcs_func lib) as [gf|] eqn:Egf; [|done].
  destruct (get_group_funcs_func lib) as [gg|] eqn:Egg; [|done].
  destruct (alloc_test_group_context_func lib) as [sig|] eqn:Esig; [|done].
  destruct (gb type) as [mask|] eqn:Emask; [|done].
  apply andb_true_iff in Ht as [[[Hm0 Hsig%Z.eqb_eq]%andb_true_iff Hsum]%andb_true_iff Hg].
  rewrite forallb_forall in Hc.
  assert (Hitem : ∀ i, i ∈ set_bits_of (Z.land bit_map mask) → item_served lib type i = true).
  { intros i Hi. by apply Hc, list_elem_of_In. }
  split.
  - exists (Z.land bit_map mask). split.
    + by exists gb, mask.
    + intros Hnil. assert (Hin : 0 ∈ set_bits_of (Z.land bit_map mask)).
      { apply set_bits_of_in. split; [lia|]. by rewrite Z.land_spec, H0, Hm0. }
      rewrite Hnil in Hin. by apply elem_of_nil in Hin.
    + exists gf, gn. split; [done|]. split; [done|]. split.
      * intros i Hi. apply (item_served_spec lib type i gf gn Egf Egn), Hitem, Hi.
      * eapply Z.le_lt_trans; [|apply Z.ltb_lt, Hsum]. unfold set_bits_of, bit_set.
        apply sumZ_filter_le; [intros; apply name_length_nonneg|].
        intros i Hi Hb. apply Hitem, set_bits_of_in. rewrite elem_of_seqZ in Hi. split; [lia|done].
  - destruct (gg type) as [f|] eqn:Ef; [|done]. exists gg, f. rewrite Esig, Hsig. done.
Qed.

Lemma lib_serves_case lib k gn nm class m mx id :
  class_check lib k = true → get_case_name_func lib = Some gn → gn k = Ok nm → tn_class nm = Some class →
  class_limits (tn_names nm) = Ok (Some (m, mx)) → 0 ≤ id ≤ mx → id ≠ 0 →
  1 ≤ id ≤ MAX_CASE_ID ∧ serves_case lib k id.
Proof.
  unfold class_check. intros Hc Hgn Hnm Hcl Hlim Hid Hne. rewrite Hgn in Hc.
  destruct (get_case_funcs_func lib) as [gf|] eqn:Egf; [|done]. rewrite Hnm, Hcl, Hlim in Hc.
  apply andb_true_iff in Hc as [Hmx Hall]. split; [lia|].
  pose proof (proj1 (forallb_forall _ _) Hall id) as Hf. cbv beta in Hf.
  rewrite <- list_elem_of_In, elem_of_seqZ in Hf. specialize (Hf ltac:(lia)).
  destruct (gf k (id - 1)) as [f|] eqn:Ef; [|done]. by exists gn, gf, nm, class, f.
Qed.

Lemma get_test_case_name_lib fs lib k cat nm :
  array_get fs cat = Ok lib → get_test_case_name fs k cat = Ok (Some nm) →
  ∃ gn, get_case_name_func lib = Some gn ∧ gn k = Ok nm.
Proof.
  unfold get_test_case_name. intros -> Hn. cbn [res_bind] in Hn. destruct (get_case_name_func lib) as [gn|]; [|done].
  apply res_bind_Ok in Hn as (n & Hg & Hn). injection Hn as <-. by exists gn.
Qed.

Section plan.
Context `{SpdmResponder} (fs : list teeio_test_funcs_t) (Hinit : teeio_init_test_funcs = Ok fs).
Context (c : IDE_TEST_CONFIG) (Hwf : wf_config fs c).

Lemma found_topology id top : get_topology_by_id (Some c) id = Ok (Some top) → topology_ok c top.
Proof.
  unfold get_topology_by_id. destruct (Z.leb_spec id 0); [done|]. intros Hf.
  destruct (find_cell_Some _ _ _ _ Hf) as (Hq & i & Hi & Hx). destruct Hwf as [_ _ (_ & _ & Ht) _ _].
  specialize (Ht i top Hx). destruct (decide _); [by destruct Ht|].
  exfalso. apply andb_true_iff in Hq as [Hq%Z.eqb_eq _]. lia.
Qed.

Lemma found_configuration id g :
  get_configuration_by_id (Some c) id = Ok (Some g) → ∃ i, wf_configuration fs i g ∧ cfg_id g ≠ 0.
Proof.
  unfold get_configuration_by_id. destruct (Z.leb_spec id 0); [done|]. intros Hf.
  destruct (find_cell_Some _ _ _ _ Hf) as (Hq & i & Hi & Hx). destruct Hwf as [_ _ _ (_ & Hg) _].
  exists i. split; [by apply Hg|]. apply andb_true_iff in Hq as [Hq%Z.eqb_eq _]. lia.
Qed.

Lemma servable_suite i s :
  test_suites (suites_config c) !! i = Some s → suite_id s ≠ 0 → suite_servable fs c s = true →
  ∃ top bits, suite_plan fs c s top bits.
Proof.
  intros Hs Hid Hserv. pose proof Hwf as [_ _ _ _ [_ Hsuites]].
  destruct (Hsuites i s Hs Hid) as (_ & (top & cfg & Htop & Hcfg & Htt & Hct & Hcc) & Hlen & Hcases).
  destruct (found_configuration _ _ Hcfg) as (j & Hg & Hgid).
  destruct (Hg Hgid) as (_ & Hty & Hcat & Hnspdm & _ & H0 & _ & _).
  unfold suite_servable in Hserv. apply andb_true_iff in Hserv as [Hserv Hzero].
  destruct (array_get fs (suite_category s)) as [lib|] eqn:Elib; [|done]. rewrite Hcfg in Hserv.
  assert (Hcheck : lib_check lib = true).
  { destruct (registered_inv fs Hinit _ _ Elib) as [(l & _ & Hl & ->)|[Hsp _]]; [|by rewrite Hcc in Hnspdm].
    by apply (proj1 (Forall_lookup _ _) own_libs_checked _ _ Hl). }
  apply andb_true_iff in Hcheck as [Htypes Hclasses].
  pose proof (forallb_range _ _ _ Htypes (cfg_type cfg) ltac:(lia)) as Htype.
  destruct (lib_serves lib (cfg_type cfg) (cfg_bit_map cfg) Htype Hserv H0) as [(bits & Hbits) Hgroup].
  exists top, bits. split; [done|by eapply found_topology| |by rewrite Hlen|].
  - exists cfg, lib. rewrite Htt, <- Hct. split_and!; try done.
    + intros Hz. by rewrite Hz, Z.bits_0 in H0.
    + intros k tc id Htc Hsel. destruct (Hcases k tc Htc) as (_ & Hcnt & Hids).
      destruct Hids as (nm & class & m & mx & Hnm & Hcl & Hlim & Hin).
      { intros Hc0. unfold selected in Hsel. rewrite Hc0 in Hsel. by apply elem_of_nil in Hsel. }
      destruct (get_test_case_name_lib fs lib _ _ _ Elib Hnm) as (gn & Hgn & Hgk).
      pose proof (lookup_lt_Some _ _ _ Htc) as Hk. rewrite Hlen in Hk.
      apply (lib_serves_case lib (Z.of_nat k) gn nm class m mx); try done.
      * apply (forallb_range _ _ _ Hclasses). unfold MAX_TEST_CASE_NUM. lia.
      * by apply Hin.
      * rewrite forallb_forall in Hzero. specialize (Hzero tc). rewrite <- list_elem_of_In in Hzero.
        specialize (Hzero (list_elem_of_lookup_2 _ _ _ Htc)). rewrite forallb_forall in Hzero.
        specialize (Hzero id). rewrite <- list_elem_of_In in Hzero. specialize (Hzero Hsel). lia.
  - apply Forall_lookup. intros k tc Htc. destruct (Hcases k tc Htc) as (Hl & Hcnt & _). lia.
Qed.

(** The ids of a class are at most [MAX_CASE_ID]. *)
Lemma class_limit_bound cat k nm class m mx :
  0 ≤ cat < TEEIO_TEST_CATEGORY_MAX → cat ≠ TEEIO_TEST_CATEGORY_SPDM → 0 ≤ k < MAX_TEST_CASE_NUM →
  get_test_case_name fs k cat = Ok (Some nm) → tn_class nm = Some class →
  class_limits (tn_names nm) = Ok (Some (m, mx)) → mx ≤ MAX_CASE_ID.
Proof.
  intros Hcat Hns Hk Hnm Hcl Hlim. pose proof Hnm as Hl. unfold get_test_case_name in Hl.
  apply res_bind_Ok in Hl as (lib & Hlib & _). destruct (registered_inv fs Hinit _ _ Hlib) as [(l & _ & Hl & ->)|[? _]]; [|done].
  pose proof (proj1 (Forall_lookup _ _) own_libs_checked _ _ Hl) as Hcheck. cbv beta in Hcheck.
  apply andb_true_iff in Hcheck as [_ Hclasses]. pose proof (forallb_range _ _ _ Hclasses k ltac:(lia)) as Hc.
  destruct (get_test_case_name_lib fs _ _ _ _ Hlib Hnm) as (gn & Hgn & Hgk).
  unfold class_check in Hc. rewrite Hgn in Hc. destruct (get_case_funcs_func _); [|done]. rewrite Hgk, Hcl, Hlim in Hc.
  apply andb_true_iff in Hc as [Hmx _]. lia.
Qed.

Lemma servable_plan : servable fs c = true → plan_ok fs c.
Proof.
  intros Hserv. pose proof Hwf as [_ _ (Htl & _ & _) _ [Hsl _]].
  split; [by rewrite Hsl|]. split; [done|]. intros s Hs Hrun.
  unfold servable in Hserv. rewrite forallb_forall in Hserv. specialize (Hserv s). rewrite <- list_elem_of_In in Hserv.
  specialize (Hserv Hs). rewrite Hrun in Hserv. cbn [negb orb] in Hserv.
  apply list_elem_of_lookup in Hs as [i Hi]. apply (servable_suite i); [done| |done].
  unfold runnable in Hrun. apply andb_true_iff in Hrun as [[Hne _]%andb_true_iff _]. lia.
Qed.

End plan.

(** ** The whole run *)

(** The report a suite calls for: one record of its configuration, with a group
    per class that has cases and a record per selected case. *)
Definition planned_report (s : IDE_TEST_SUITE) : list (Z * list (list (Z * Z))) :=
  [(suite_configuration_id s, map (λ g, map (λ id, (fst g, id)) (snd g)) (planned_groups s))].

Lemma prepared_report s top bits ts :
  prepared s top bits ts → Engine.expected_configs (Engine.test_config ts) (Engine.test_group ts) = planned_report s.
Proof.
  intros [_ _ _ (rtc & -> & (Hid & _)) Hg Hgs]. unfold Engine.expected_configs, planned_report. simpl. rewrite Hid.
  f_equal. f_equal. rewrite <- Hg. clear Hg. induction Hgs as [|tg tgs (_ & _ & _ & _ & Hcs) _ IH]; [done|].
  simpl. f_equal; [|exact IH]. unfold group_plan. cbn [fst snd].
  induction Hcs as [|tc tcs (_ & _ & Hc) _ IHc]; [done|]. simpl. rewrite IHc. unfold Engine.case_ids. by rewrite Hc.
Qed.

Section whole.
Context `{SpdmResponder} `{Libspdm} {W : Type} `{code : Engine.TestCode W}.

Lemma parse_file_wf fs env tdisp data c tdisp' :
  teeio_init_test_funcs = Ok fs → parse_ide_test_init fs env zero_config tdisp (Some data) = Ok (true, c, tdisp') →
  wf_config fs c ∧ topologies_cnt (topologies_config c) ≠ 0.
Proof.
  intros Hi Hp. unfold parse_ide_test_init in Hp. apply res_bind_Ok in Hp as (ctx & _ & Hp).
  apply res_bind_Ok in Hp as (_ & _ & Hp). apply res_bind_Ok in Hp as (r & Hr & Hp). do 2 apply res_bind_Ok in Hp as (_ & _ & Hp).
  injection Hp as ->. by eapply parse_sections_wf.
Qed.

(** Without the suites, for a single case. *)
Lemma parse_file_no_suites fs env tdisp data c tdisp' :
  teeio_init_test_funcs = Ok fs → parse_ide_test_init fs env zero_config tdisp (Some data) = Ok (true, c, tdisp') →
  g_run_test_suite env = false → suites_config c = suites_config zero_config.
Proof.
  intros Hi Hp. unfold parse_ide_test_init in Hp. apply res_bind_Ok in Hp as (ctx & _ & Hp).
  apply res_bind_Ok in Hp as (_ & _ & Hp). apply res_bind_Ok in Hp as (r & Hr & Hp). do 2 apply res_bind_Ok in Hp as (_ & _ & Hp).
  injection Hp as ->. by eapply parse_sections_inv.
Qed.


(** A configuration with a plan is prepared. *)
Lemma plan_is_prepared fs c :
  plan_ok fs c →
  ∃ tss, prepare_tests_data fs c = Ok tss ∧ Forall Engine.suite_ready tss ∧
    Forall2 (λ s ts, ∃ top bits, suite_plan fs c s top bits ∧ prepared s top bits ts)
      (filter (λ s, runnable c s = true) (test_suites (suites_config c))) tss ∧
    map (λ ts, Engine.expected_configs (Engine.test_config ts) (Engine.test_group ts)) tss =
      map planned_report (filter (λ s, runnable c s = true) (test_suites (suites_config c))).
Proof.
  intros Hplan.
  destruct (prepare_loop fs c (test_suites (suites_config c)) 0 [] Hplan eq_refl) as (tss & Hprep & Hall).
  exists tss. destruct Hplan as (Hlen & _). split; [unfold prepare_tests_data; by rewrite <- Hlen|]. split; [|split; [done|]].
  - apply Forall_forall. intros ts Hts. apply list_elem_of_lookup in Hts as [i Hits].
    destruct (Forall2_lookup_r _ _ _ _ _ Hall Hits) as (s & _ & top & bits & _ & Hpr). by eapply prepared_ready.
  - clear -Hall. induction Hall as [|s ts ss tss (top & bits & _ & Hpr) _ IH]; [done|]. simpl.
    by rewrite IH, (prepared_report s top bits ts Hpr).
Qed.

(** C1: An accepted file whose suites select no case 0 and ask only for configuration items their
    library serves is prepared, and the run of its suites, whatever the test functions do, has one of two ends.
    Either it goes to the end with every assert of the engine holding, with calls that
    follow the protocol, and the results hold one record per runnable suite of the file, in order, with its
    configuration and, per class of cases it names, a group with one record for
    every selected case, in the order of the file; or it is stopped by a call of a test function, after
    calls with which a run of these suites starts.  With test functions that always return
    and report only the current case ([Engine.well_behaved]) it goes to the end. *)
Theorem accepted_file_is_run fs env tdisp data c tdisp' (w : W) :
  teeio_init_test_funcs = Ok fs → parse_ide_test_init fs env zero_config tdisp (Some data) = Ok (true, c, tdisp') →
  servable fs c = true →
  ∃ tss, let result := Engine.run_suites 0 tss (Engine.start w tss) in
    prepare_tests_data fs c = Ok tss ∧
    Stops.ends_or_stops code tss result ∧
    (∀ e, result = Ok (tt, e) →
       Results.shape (Engine.es_results e) =
         map planned_report (filter (λ s, runnable c s = true) (test_suites (suites_config c)))) ∧
    (Engine.well_behaved (W := W) → ∃ e, result = Ok (tt, e)).
Proof.
  intros Hi Hp Hserv. destruct (parse_file_wf _ _ _ _ _ _ Hi Hp) as [Hwf _].
  destruct (plan_is_prepared fs c (servable_plan fs Hi c Hwf Hserv)) as (tss & Hprep & Hready & _ & Hsh).
  pose proof (Stops.suites_end_or_stop code tss w Hready) as Hrun.
  exists tss. cbv zeta. split; [done|]. split; [done|]. split.
  - intros e E. rewrite <- Hsh. by apply (Stops.ended _ _ _ e Hrun).
  - intros Hwb. destruct (Engine.run_suites_spec Hwb tss 0 (Engine.start w tss) (length tss) (Engine.start_idle w tss)
      ltac:(lia) Hready) as (e & _ & E & _). by exists e.
Qed.

End whole.

(** ** Witnesses *)

Definition example_ini : bytes := bs
"[Main]
debug_level = info
[Ports]
rootport_1 = 02.0
endpoint_1 = 00.0
[Switch_1]
port_1 = 00.0
port_2 = 01.0
[Topology_1]
type = selective_ide
connection = switch
bus = 0xd9
path1 = rootport_1,switch_1:port_1-port_2,endpoint_1
stream_id = 1
[Configuration_1]
type = selective_ide
pcrc = 1
[TestSuite_1]
type = selective_ide
topology = 1
configuration = 1
Query = 1,2
KSetGo = 4
".

Definition example_env : parse_env := {| g_scan_segment := 0xffff; g_scan_bus := 0xff; g_run_test_suite := true |}.

#[local] Existing Instance one_case_each.
#[local] Existing Instance Engine.example_code.

Definition example_parsed : IDE_TEST_CONFIG :=
  match parse_ide_test_init example_registry example_env zero_config 0 (Some example_ini) with
  | Ok (_, c, _) => c
  | Stop _ => zero_config
  end.

Lemma example_accepted :
  parse_ide_test_init example_registry example_env zero_config 0 (Some example_ini) = Ok (true, example_parsed, 0).
Proof. vm_compute. reflexivity. Qed.


Lemma accepted_file_is_run_witness :
  ∃ tss e, prepare_tests_data example_registry example_parsed = Ok tss ∧
    Engine.run_suites 0 tss (Engine.start tt tss) = Ok (tt, e) ∧
    Results.shape (Engine.es_results e) = [[(1, [[(0, 1); (0, 2)]; [(2, 4)]])]].
Proof.
  destruct (accepted_file_is_run example_registry example_env 0 example_ini example_parsed 0 tt
              example_registry_eq example_accepted) as (tss & Hp & _ & Hs & Hr).
  - vm_compute. reflexivity.
  - destruct (Hr Engine.example_code_well_behaved) as [e He]. exists tss, e. split; [exact Hp|]. split; [exact He|].
    rewrite (Hs e He). vm_compute. reflexivity.
Defined.

(** With test functions that stop at an assertion the same file is stopped at its first call. *)
Example asserting_code_stops :
  (let* tss := prepare_tests_data example_registry example_parsed in
   Engine.run_suites (H := λ _ _ _ _, Stop AssertHang) 0 tss (Engine.start tt tss)) = Stop AssertHang.
Proof. vm_compute. reflexivity. Qed.

End Pipeline.
