(* ===== verification/DumpTotal.v ===== *)
(** * The log of a well-formed configuration

    Building the messages of [dump_test_config] never follows a null pointer,
    fails an assert or overruns a buffer, when the configuration is
    well-formed and its paths are short. *)
From Stdlib Require Import ZArith Lia Ascii String.
From stdpp Require Import prelude.
From S2P Require Import Prelude Utils Libspdm IniFile TestConfig Results Engine TestLib Prepare ConfigDump ConfigParse ConfigWf Pipeline.
Import Utils.Utils Utils.PcieHelper Ini TestConfig TestLib Prepare ConfigDump ConfigParse ConfigWf Pipeline.

Open Scope Z_scope.
Open Scope teeio_scope.

Module DumpTotal.

Lemma say_returns l : returns (say l).
Proof. apply returns_ret. Qed.

Lemma sayall_returns l : Forall returns l → returns (sayall l).
Proof.
  induction 1 as [|m l [a ->] _ [b IH]]; [apply returns_ret|]. cbn [sayall]. unfold andthen. cbn [res_bind].
  rewrite IH. apply returns_ret.
Qed.

(** The messages of a cell are there when the cell is. *)
Lemma dump_cells_returns {A} (dump : Z → A → messages) l cnt :
  0 ≤ cnt ≤ Z.of_nat (length l) → (∀ i x, l !! i = Some x → Z.of_nat i < cnt → returns (dump (Z.of_nat i) x)) →
  returns (dump_cells dump l cnt).
Proof.
  intros Hc Hd. apply sayall_returns, Forall_forall. intros m Hm. apply list_elem_of_fmap in Hm as (i & -> & Hi%elem_of_seqZ).
  destruct (returns_get l i) as [x Hx]; [lia|]. rewrite Hx. cbn [res_bind]. apply array_get_Ok in Hx as [_ Hx].
  specialize (Hd _ _ Hx). rewrite Z2Nat.id in Hd by lia. apply Hd. lia.
Qed.

Lemma name_returns (names : list bytes) i (k : bytes → list bytes) :
  0 ≤ i < Z.of_nat (length names) → returns (let* n := array_get names i in say (k n)).
Proof. intros Hi. apply returns_bind; [by apply returns_get|]. intros; apply say_returns. Qed.

#[local] Hint Resolve say_returns : returns.

(** Splits a list of messages. *)
Ltac each_message := apply sayall_returns; repeat (apply Forall_cons; split); [..|apply Forall_nil; exact I]; eauto with returns.

Lemma dump_main_returns m : 0 ≤ debug_level m < TEEIO_DEBUG_NUM → returns (dump_main m).
Proof.
  intros Hl. unfold dump_main. each_message; [|by destruct (spdm_version m =? 0); apply say_returns].
  unfold get_ide_log_level_string. rewrite (proj2 (Z.ltb_ge _ _)) by lia. by apply name_returns.
Qed.

Lemma dump_port_returns r i p : wf_port r i p → returns (dump_port p).
Proof.
  intros (_ & _ & Hty & _). unfold dump_port. each_message. apply name_returns. rewrite Hty.
  unfold port_entry, IDE_PORT_TYPE_ROOTPORT, IDE_PORT_TYPE_ENDPOINT. destruct (_ <? _)%nat; simpl; lia.
Qed.

Lemma dump_switch_returns sw : wf_switch sw → returns (dump_switch sw).
Proof.
  intros (Hl & Hc & _). unfold dump_switch. each_message. apply sayall_returns, Forall_forall.
  intros m Hm. apply list_elem_of_fmap in Hm as (j & -> & Hj%elem_of_seqZ).
  apply returns_bind; [apply returns_get; lia|]. intros; apply say_returns.
Qed.

Lemma dump_configuration_returns fs i g : wf_configuration fs i g → returns (dump_configuration g).
Proof.
  intros Hg. unfold dump_configuration. destruct (Z.eqb_spec (cfg_id g) 0); [apply returns_ret|].
  destruct (Hg ltac:(done)) as (_ & Hty & _). each_message. by apply name_returns.
Qed.

(** ** Topologies *)

Section topology.
Context (c : IDE_TEST_CONFIG).

Lemma port_name_of_returns id : port_ok c id → returns (port_name_of c id).
Proof. intros [p Hp]. unfold port_name_of. rewrite Hp. cbn [res_bind deref]. apply returns_ret. Qed.

(** One connection takes at most 96 bytes. *)
Lemma conn_item_returns bound cn text :
  wf_switches bound (switches_config c) → conn_ok c cn → strlen text + 96 < MAX_LINE_LENGTH →
  ∃ text', conn_item c MAX_LINE_LENGTH cn text = Ok text' ∧ strlen text' ≤ strlen text + 96.
Proof.
  intros [Hf _] (sw & u & d & Hsw & Hu & Hd) Hlen. unfold conn_item. rewrite Hsw. cbn [res_bind is_some TEEIO_ASSERT].
  rewrite Hu, Hd. cbn [res_bind is_some TEEIO_ASSERT deref].
  assert (Hs : wf_switch sw ∧ strlen (sw_name sw) ≤ 28).
  { unfold get_switch_by_id in Hsw. destruct (Z.leb_spec (conn_switch_id cn) 0); [done|].
    apply (filled_find _ _ _ _ _ _ _ Hf) in Hsw as (_ & _ & _ & ? & _ & ->). split; [done|].
    pose proof (dec_length (sw_id sw)). unfold strlen in *. rewrite length_app. change (length (bs "switch_")) with 7%nat. lia. }
  destruct Hs as [Hw Hn].
  assert (Hport : ∀ id p, get_port_from_switch_by_id (Some sw) id = Ok (Some p) → strlen (port_name p) ≤ PORT_NAME_LENGTH).
  { intros id p Hp. unfold get_port_from_switch_by_id in Hp. destruct (id <=? 0); [done|].
    apply (filled_find _ _ _ _ _ _ _ Hw) in Hp as (_ & _ & _ & ?). by apply switch_port_name. }
  pose proof (Hport _ _ Hu) as Hlu. pose proof (Hport _ _ Hd) as Hld. unfold PORT_NAME_LENGTH in *.
  unfold print_at. set (s := sw_name sw ++ _).
  assert (Hsl : strlen s ≤ 96).
  { unfold s, strlen in *. rewrite !length_app. change (length (bs ":")) with 1%nat. change (length (bs "-")) with 1%nat.
    change (length (bs ",")) with 1%nat. lia. }
  rewrite (proj2 (Z.ltb_lt _ _)) by lia. cbn [res_bind]. eexists. split; [done|].
  unfold strlen in *. rewrite length_app. lia.
Qed.

Lemma print_conns_returns bound buffer conns :
  wf_switches bound (switches_config c) → Forall (conn_ok c) conns → (length conns ≤ 4)%nat →
  returns (print_switch_conn_to_string buffer MAX_LINE_LENGTH c conns).
Proof.
  intros Hw Hc Hlen. destruct conns as [|cn conns]; [apply returns_ret|]. unfold print_switch_conn_to_string.
  apply returns_bind; [|intros; apply returns_ret]. revert Hc Hlen. generalize (cn :: conns) as l. clear cn conns. intros l Hc Hlen.
  assert (Hb : strlen [] + 96 * Z.of_nat (length l) < MAX_LINE_LENGTH).
  { unfold MAX_LINE_LENGTH, strlen. simpl. lia. }
  clear Hlen. revert Hb. generalize (@nil Z) as text. induction Hc as [|cn l Hcn _ IH]; intros text Hb; [apply returns_ret|].
  cbn [fold_res length] in *. destruct (conn_item_returns bound cn text Hw Hcn ltac:(lia)) as (text' & -> & Hl).
  cbn [res_bind]. apply IH. lia.
Qed.

Definition short_paths (t : IDE_TEST_TOPOLOGY) : Prop :=
  (length (top_sw_conn1 t) ≤ 4)%nat ∧ (length (top_sw_conn2 t) ≤ 4)%nat.

Lemma dump_topology_returns bound sb t :
  wf_switches sb (switches_config c) → wf_topology c bound t → short_paths t → returns (dump_topology c t).
Proof.
  intros Hw ([Hty Hr Hu Hl Hc1 Hc2] & _ & Hid & Hcn) [Hs1 Hs2]. unfold dump_topology.
  destruct (_ =? 0); [apply returns_ret|].
  assert (Hname : ∀ id (k : bytes → list bytes), port_ok c id → returns (let* n := port_name_of c id in say (k n))).
  { intros id k Hp. apply returns_bind; [by apply port_name_of_returns|]. intros; apply say_returns. }
  each_message; try (by apply name_returns); try (by apply Hname). unfold dump_paths.
  repeat match goal with |- returns (if ?b then _ else _) => destruct b eqn:?E end; [| | |apply returns_ret];
    repeat (apply returns_bind; [by apply port_name_of_returns|intros ? _]).
  - apply say_returns.
  - apply returns_bind; [eapply print_conns_returns; [done|apply Hc1|done]|].
    { unfold IDE_TEST_CONNECT_DIRECT in *. lia. }
    intros s1 _. apply returns_bind; [by apply port_name_of_returns|]. intros; apply say_returns.
  - apply returns_bind; [eapply print_conns_returns; [done|apply Hc1|done]|].
    { unfold IDE_TEST_CONNECT_DIRECT in *. lia. }
    intros s1 _. apply returns_bind; [by apply port_name_of_returns|]. intros u _.
    apply returns_bind; [eapply print_conns_returns; [done|apply Hc2; lia|done]|].
    intros s2 _. apply returns_bind; [by apply port_name_of_returns|]. intros l _. each_message.
Qed.

End topology.

(** ** Suites *)

Lemma dec_small k : 0 ≤ k ≤ 32 → strlen (dec (s32 k)) ≤ 2.
Proof.
  intros Hk. rewrite s32_small by lia.
  pose proof (forallb_range (λ k, strlen (dec k) <=? 2) 0 33 ltac:(vm_compute; reflexivity) k ltac:(lia)) as H.
  cbv beta in H. lia.
Qed.

Lemma array_loop_returns array n k text :
  (k + n ≤ 32)%nat → (k + n ≤ length array)%nat → (∀ i x, array !! i = Some x → (i < k + n)%nat → 0 ≤ x ≤ 32) →
  strlen text ≤ 3 * Z.of_nat k →
  returns (fold_res (array_item MAX_LINE_LENGTH array) (seqZ (Z.of_nat k) (Z.of_nat n)) text).
Proof.
  revert k text. induction n as [|n IH]; intros k text H32 Hl Hx Ht; [apply returns_ret|].
  rewrite seqZ_cons by lia. cbn [fold_res]. replace (Z.succ (Z.of_nat k)) with (Z.of_nat (S k)) by lia.
  replace (Z.pred (Z.of_nat (S n))) with (Z.of_nat n) by lia.
  destruct (lookup_lt_is_Some_2 array k) as [x Hxk]; [lia|]. unfold array_item at 1. rewrite (array_get_nat _ _ _ Hxk). cbn [res_bind].
  pose proof (dec_small x (Hx k x Hxk ltac:(lia))) as Hd. unfold MAX_LINE_LENGTH in *.
  destruct (Z.ltb_spec 512 (strlen (dec (s32 x)) + 1 + strlen text)); [lia|]. cbn [negb TEEIO_ASSERT res_bind].
  unfold print_at. assert (Ha : strlen (dec (s32 x) ++ bs ",") = strlen (dec (s32 x)) + 1) by (unfold strlen; rewrite length_app; simpl; lia).
  rewrite Ha, (proj2 (Z.ltb_lt _ _)) by lia. cbn [res_bind]. apply IH; [lia|lia|intros i y Hy Hi; apply (Hx i); [done|lia]|].
  unfold strlen in *. rewrite length_app. lia.
Qed.

Lemma dump_cases_returns label cases class tc :
  cases !! Z.to_nat class = Some tc → 0 ≤ class → length (cases_id tc) = 32%nat → 0 ≤ cases_cnt tc ≤ 32 →
  (∀ id, id ∈ selected tc → 0 ≤ id ≤ 32) → returns (dump_cases label cases class).
Proof.
  intros Htc Hc Hl Hn Hids. unfold dump_cases. rewrite (proj2 (array_get_Ok _ _ tc)) by done. cbn [res_bind].
  apply returns_bind; [|intros; apply say_returns]. unfold print_array_to_buffer.
  change (MAX_LINE_LENGTH =? 0) with false. cbn [negb TEEIO_ASSERT res_bind].
  rewrite s32_small by lia. destruct (Z.eqb_spec (cases_cnt tc) 0); [apply returns_ret|].
  apply returns_bind; [|intros; apply returns_ret].
  pose proof (array_loop_returns (cases_id tc) (Z.to_nat (cases_cnt tc)) 0 []) as H.
  rewrite Z2Nat.id in H by lia. apply H; [lia|lia| |done]. intros i x Hx Hi. apply Hids.
  unfold selected. apply (list_elem_of_lookup_2 _ i). by rewrite lookup_take_lt by lia.
Qed.

Section config.
Context `{SpdmResponder} (fs : list teeio_test_funcs_t) (Hinit : teeio_init_test_funcs = Ok fs).
Context (c : IDE_TEST_CONFIG) (Hwf : wf_config fs c).

Lemma dump_suite_returns i s :
  test_suites (suites_config c) !! i = Some s → returns (dump_suite (Z.of_nat i) s).
Proof.
  intros Hs. unfold dump_suite. destruct (Z.eqb_spec (suite_id s) 0) as [|Hid]; [apply returns_ret|].
  pose proof Hwf as [_ _ _ _ [_ Hsuites]].
  destruct (Hsuites i s Hs Hid) as (_ & (top & cfg & Htop & Hcfg & Htt & Hct & Hcc) & Hlen & Hcases).
  destruct (found_configuration fs c Hwf _ _ Hcfg) as (j & Hg & Hgid).
  destruct (Hg Hgid) as (_ & Hty & Hcat & Hns & _). rewrite Hct in Hty. rewrite Hcc in Hcat, Hns.
  assert (Hall : ∀ label class, 0 ≤ class < 32 → returns (dump_cases label (suite_cases s) class)).
  { intros label class Hk. destruct (lookup_lt_is_Some_2 (suite_cases s) (Z.to_nat class)) as [tc Htc]; [lia|].
    destruct (Hcases _ _ Htc) as (Hl & Hn & Hids). apply (dump_cases_returns label _ class tc); try done; [lia|].
    intros id Hsel. destruct Hids as (nm & cl & m & mx & Hnm & Hcl & Hlim & Hin).
    { intros Hz. unfold selected in Hsel. rewrite Hz in Hsel. by apply elem_of_nil in Hsel. }
    rewrite Z2Nat.id in Hnm by lia. specialize (Hin id Hsel).
    pose proof (class_limit_bound fs Hinit (suite_category s) class nm cl m mx Hcat Hns ltac:(unfold MAX_TEST_CASE_NUM; lia) Hnm Hcl Hlim).
    unfold MAX_CASE_ID in *. lia. }
  each_message; try (by apply name_returns); by apply Hall.
Qed.

(** Whatever level the log has, its messages can be built. *)
Lemma dump_returns :
  0 ≤ debug_level (main_config c) < TEEIO_DEBUG_NUM → Forall short_paths (topologies (topologies_config c)) →
  returns (dump_test_config c).
Proof.
  intros Hlevel Hshort. pose proof Hwf as [(r & Hpl & Hpc & Hp) [(Hswl & Hswc & Hsw) Hord] (Htl & Htc & Ht) [Hgl Hg] [Hsl _]].
  unfold dump_test_config. each_message.
  - by apply dump_main_returns.
  - apply dump_cells_returns; [lia|]. intros i p Hi Hlt. specialize (Hp i p Hi). rewrite decide_True in Hp by done.
    exact (dump_port_returns r i p Hp).
  - apply dump_cells_returns; [lia|]. intros i sw Hi Hlt. specialize (Hsw i sw Hi). rewrite decide_True in Hsw by done.
    exact (dump_switch_returns sw (proj1 Hsw)).
  - apply dump_cells_returns; [rewrite Htl; done|]. intros i t Hi _. specialize (Ht i t Hi).
    destruct (decide _); [|cbv beta; unfold dump_topology; rewrite Ht; apply returns_ret].
    rewrite Forall_lookup in Hshort. exact (dump_topology_returns c _ _ t (wc_switches _ _ Hwf) Ht (Hshort i t Hi)).
  - apply dump_cells_returns; [rewrite Hgl; done|]. intros i g Hi _. exact (dump_configuration_returns fs i g (Hg i g Hi)).
  - apply dump_cells_returns; [rewrite Hsl; done|]. intros i s Hi _. by apply dump_suite_returns.
Qed.

End config.

End DumpTotal.
