(* ===== verification/ParseTotal.v ===== *)
(** * The parser returns

    Whatever an INI file holds, as long as its entries keep off the places where
    the code would assert, overrun an array or free a freed object, the
    parser of [ConfigParse] comes back with an answer.  The INI reader is used
    through an interface, which the files of the grammar of [IniSpec] provide. *)
From Stdlib Require Import ZArith Lia Ascii String.
From stdpp Require Import prelude.
From S2P Require Import Prelude Utils Libspdm IniFile IniSpec TestConfig Results Engine TestLib Prepare ConfigDump ConfigParse ConfigWf Pipeline DumpTotal.
Import Utils.Utils Utils.PcieHelper Ini IniSpec TestConfig TestLib Prepare ConfigDump ConfigParse ConfigWf Pipeline DumpTotal.

Open Scope Z_scope.
Open Scope teeio_scope.

Module ParseTotal.

(** ** What the parser needs of the reader *)

(** An open file whose look-ups are a function, and all of whose values are short and not empty. *)
Class IniReader (ctx : ini) (look : bytes → bytes → option bytes) := {
  reader_string : ∀ sec key, GetStringFromDataFile ctx sec key =
    Ok (match look sec key with Some v => (true, Live v) | None => (false, Null) end);
  reader_section : ∀ sec, ∃ b, IsValidSection ctx (Some sec) = Ok b;
  reader_value : ∀ sec key v, look sec key = Some v → v ≠ [] ∧ strlen v < MAX_LINE_LENGTH
}.

(** ** Separators *)

(** How often a character occurs. *)
Definition occurrences (c : Z) (s : bytes) : nat := length (filter (λ x, x = c) s).

Lemma occurrences_app c a b : occurrences c (a ++ b) = (occurrences c a + occurrences c b)%nat.
Proof. unfold occurrences. by rewrite filter_app, length_app. Qed.

Lemma occurrences_sep c a b : occurrences c (a ++ c :: b) = S (occurrences c a + occurrences c b).
Proof. rewrite occurrences_app. unfold occurrences. rewrite filter_cons_True by done. simpl. lia. Qed.

Lemma occurrences_0 c s : occurrences c s = 0%nat → c ∉ s.
Proof.
  unfold occurrences. intros H Hin. apply length_zero_iff_nil in H.
  assert (Hf : c ∈ filter (λ x, x = c) s) by (by apply list_elem_of_filter). rewrite H in Hf. by apply elem_of_nil in Hf.
Qed.

Lemma revert_find_loop_spec c s i :
  revert_find_loop c s i = i - Z.of_nat (length s) ∨
  ∃ pre post, s = pre ++ c :: post ∧ revert_find_loop c s i = i - Z.of_nat (length pre).
Proof.
  revert i. induction s as [|x s IH]; intros i; simpl; [left; lia|].
  destruct (Z.eqb_spec x c) as [->|Hne]; [right; exists [], s; split; [done|simpl; lia]|].
  destruct (IH (i - 1)) as [->|(pre & post & -> & ->)]; [left; lia|]. right. exists (x :: pre), post. split; [done|simpl; lia].
Qed.

(** The search from the end stops at an occurrence. *)
Lemma revert_find_char_split s c :
  c ≠ 0 → revert_find_char_in_str (Some s) c ≠ -1 →
  ∃ pre post, s = pre ++ c :: post ∧ revert_find_char_in_str (Some s) c = Z.of_nat (length pre).
Proof.
  intros Hc. unfold revert_find_char_in_str. cbv zeta.
  destruct (revert_find_loop_spec c (0 :: reverse s) (strlen s)) as [->|(pre & post & Hs & ->)].
  - simpl. rewrite length_reverse. unfold strlen. destruct (Z.ltb_spec (Z.of_nat (length s) - Z.of_nat (S (length s))) 0); [done|lia].
  - destruct pre as [|x pre]; simpl in Hs; [by simplify_eq|]. injection Hs as <- Hs.
    assert (Heq : s = reverse post ++ c :: reverse pre).
    { rewrite <- (reverse_involutive s), Hs, reverse_app, reverse_cons, <- app_assoc. done. }
    intros _. exists (reverse post), (reverse pre). split; [done|].
    rewrite Heq. unfold strlen. rewrite !length_app, !length_reverse. cbn [length]. rewrite !length_reverse.
    destruct (Z.ltb_spec (Z.of_nat (length post + S (length pre)) - Z.of_nat (S (length pre))) 0); lia.
Qed.

(** ** The look-ups *)

Section reader.
Context (ctx : ini) (look : bytes → bytes → option bytes) `{!IniReader ctx look}.

Lemma get_string_look sec key : get_string ctx sec key = Ok (Some <$> look sec key).
Proof. unfold get_string. rewrite reader_string. by destruct (look sec key). Qed.

Lemma decimal_returns sec key : returns (GetDecimalUint32FromDataFile ctx sec key).
Proof.
  pose proof (reader_string sec key) as Hs. destruct (look sec key) as [v|] eqn:E.
  - destruct (reader_value sec key v E) as [Hne _]. eexists. by apply GetDecimal_live.
  - eexists. by apply GetNumber_missing in Hs as [-> _].
Qed.

Lemma hex_returns sec key : returns (GetHexUint32FromDataFile ctx sec key).
Proof.
  pose proof (reader_string sec key) as Hs. destruct (look sec key) as [v|] eqn:E.
  - eexists. by apply GetHex_live.
  - eexists. by apply GetNumber_missing in Hs as [_ ->].
Qed.

(** ** [Main] *)

Lemma ParseMainSection_returns c : returns (ParseMainSection ctx c).
Proof.
  unfold ParseMainSection.
  repeat ((apply returns_bind; [apply decimal_returns|intros ? _]) || (rewrite get_string_look; cbn [res_bind])).
  destruct (look _ (bs "spdm_version")) as [v|]; [|apply returns_ret]. cbn [fmap option_fmap option_map deref res_bind].
  destruct (parse_spdm_version v); apply returns_ret.
Qed.

(** ** Ports *)

Definition entry_ok (P : bytes → bool) (sec key : bytes) : bool :=
  match look sec key with Some v => P v | None => true end.

(** The number of ports of a type: the entries numbered from [i] on, without a gap. *)
Fixpoint ports_in_a_row (n : nat) (type_name : bytes) (i : Z) : Z :=
  match n with
  | O => 0
  | S n => match look (bs "Ports") (type_name ++ bs "_" ++ dec i) with
           | Some _ => 1 + ports_in_a_row n type_name (i + 1)
           | None => 0
           end
  end.

Definition ports_valid (type_name : bytes) : bool :=
  forallb (λ i, entry_ok is_valid_dev_func (bs "Ports") (type_name ++ bs "_" ++ dec i)) (seqZ 1 17).

(** The addresses are valid, and there are at most 16 ports. *)
Definition safe_ports : bool :=
  ports_valid (bs "rootport") && ports_valid (bs "endpoint")
  && (ports_in_a_row 17 (bs "rootport") 1 + ports_in_a_row 17 (bs "endpoint") 1 <=? 16).

Lemma ports_in_a_row_nonneg n type_name i : 0 ≤ ports_in_a_row n type_name i.
Proof. revert i. induction n as [|n IH]; intros i; simpl; [lia|]. destruct (look _ _); [|lia]. specialize (IH (i + 1)). lia. Qed.

Definition sized_ports (pc : IDE_TEST_PORTS_CONFIG) : Prop := length (ports pc) = 16%nat ∧ 0 ≤ ports_cnt pc ≤ 16.

(** Where the loop over the ports is: [n] indices are left. *)
Definition ports_at (type_name : bytes) (total : Z) (st : Z * IDE_TEST_CONFIG) : Prop :=
  ∃ n, fst st = 18 - Z.of_nat n ∧ (n ≤ 17)%nat ∧ ports_in_a_row n type_name (fst st) < Z.of_nat n ∧
       sized_ports (ports_config (snd st)) ∧ ports_cnt (ports_config (snd st)) + ports_in_a_row n type_name (fst st) = total.

Lemma ports_step_returns ty type_name total st :
  array_get IDE_PORT_TYPE_NAMES ty = Ok type_name → ty = IDE_PORT_TYPE_ROOTPORT ∨ ty = IDE_PORT_TYPE_ENDPOINT →
  ports_valid type_name = true → total ≤ 16 → ports_at type_name total st →
  match ports_step ctx ty st with
  | Ok (inl st') => ports_at type_name total st' ∧ fst st' = fst st + 1
  | Ok (inr c) => sized_ports (ports_config c) ∧ ports_cnt (ports_config c) = total
  | Stop _ => False
  end.
Proof.
  intros Hname Hty Hval Htot. destruct st as [idx c]. intros (n & Hidx & Hn & Hrow & Hw & Hcnt). cbn [fst snd] in *.
  destruct n as [|n]; [simpl in Hrow; lia|]. unfold ports_step. rewrite Hname. cbn [res_bind].
  rewrite get_string_look. cbn [res_bind]. cbn [ports_in_a_row] in Hrow, Hcnt.
  pose proof (forallb_range _ _ _ Hval idx ltac:(lia)) as Hv. cbv beta in Hv. unfold entry_ok in Hv.
  destruct (look _ _) as [v|] eqn:El; cbn [fmap option_fmap option_map]; [|split; [done|lia]].
  cbn [deref res_bind]. rewrite Hv. cbn [TEEIO_ASSERT res_bind].
  pose proof Hw as (Hl & Hc). pose proof (ports_in_a_row_nonneg n type_name (idx + 1)) as Hr0.
  destruct (returns_get (ports (ports_config c)) (ports_cnt (ports_config c))) as [old Hold]; [lia|].
  rewrite Hold. cbn [res_bind].
  destruct (returns_set (ports (ports_config c)) (ports_cnt (ports_config c))
    (write_port old ty (ports_cnt (ports_config c) + 1) (type_name ++ bs "_" ++ dec idx) v)) as [ps Hps]; [lia|].
  rewrite Hps. cbn [res_bind]. split; [|done]. exists n. cbn [fst snd].
  split; [lia|]. split; [lia|]. split; [lia|]. split; [|cbn; lia].
  apply array_set_Ok in Hps as [_ ->]. split; cbn; [by rewrite length_insert|lia].
Qed.

Lemma ParsePortsSection_returns c ty type_name :
  array_get IDE_PORT_TYPE_NAMES ty = Ok type_name → ty = IDE_PORT_TYPE_ROOTPORT ∨ ty = IDE_PORT_TYPE_ENDPOINT →
  ports_valid type_name = true → sized_ports (ports_config c) →
  ports_cnt (ports_config c) + ports_in_a_row 17 type_name 1 ≤ 16 →
  ∃ c', ParsePortsSection ctx c ty = Ok c' ∧
    ports_cnt (ports_config c') = ports_cnt (ports_config c) + ports_in_a_row 17 type_name 1.
Proof.
  intros Hname Hty Hval Hw Hle. unfold ParsePortsSection.
  set (total := ports_cnt (ports_config c) + ports_in_a_row 17 type_name 1) in *.
  assert (H0 : ports_at type_name total (1, c)).
  { exists 17%nat. split; [done|]. split; [lia|]. split; [|by split]. cbn [fst].
    destruct Hw as (_ & ?). lia. }
  destruct (while_total (ports_step ctx ty) (ports_at type_name total) (λ st, 18 - fst st) 64 (1, c)) as [c' Hc']; [|done|simpl; lia|].
  - intros st Hst. pose proof (ports_step_returns ty type_name total st Hname Hty Hval Hle Hst) as Hs.
    destruct (ports_step ctx ty st) as [[st'|c']|]; [|done|done]. destruct Hs as [Hs Hf]. split; [done|].
    destruct Hs as (n & Hi & Hn & _), Hst as (m & Hi' & Hm & _). lia.
  - exists c'. split; [exact Hc'|].
    refine (proj2 (while_inv (ports_step ctx ty) (ports_at type_name total)
      (λ c', sized_ports (ports_config c') ∧ ports_cnt (ports_config c') = total) _ _ _ _ H0 Hc')).
    intros st Hst. pose proof (ports_step_returns ty type_name total st Hname Hty Hval Hle Hst) as Hs.
    destruct (ports_step ctx ty st) as [[st'|d]|]; [by destruct Hs|done|done].
Qed.

(** ** Switches *)

Definition switch_section (index : Z) : bytes := bs "Switch_" ++ dec index.

Definition safe_switches : bool :=
  forallb (λ k, forallb (λ j, entry_ok is_valid_dev_func (switch_section k) (bs "port_" ++ dec j))
                  (seqZ 1 MAX_SUPPORTED_SWITCH_PORTS_NUM)) (seqZ 1 MAX_SUPPORTED_SWITCHES_NUM).

Lemma switch_port_step_returns k i sw :
  safe_switches = true → 1 ≤ k ≤ 16 → 0 ≤ i < 16 → wf_switch sw → sw_ports_cnt sw ≤ i →
  ∃ sw', switch_port_step ctx (switch_section k) i sw = Ok sw' ∧ wf_switch sw' ∧ sw_ports_cnt sw' ≤ i + 1.
Proof.
  intros Hsafe Hk Hi Hw Hc. pose proof (forallb_range _ _ _ Hsafe k ltac:(unfold MAX_SUPPORTED_SWITCHES_NUM; lia)) as Hv.
  apply (forallb_range _ _ _) with (c := i + 1) in Hv; [|unfold MAX_SUPPORTED_SWITCH_PORTS_NUM; lia]. cbv beta in Hv.
  destruct (switch_port_step ctx (switch_section k) i sw) as [sw'|e] eqn:E; unfold switch_port_step in E;
    rewrite get_string_look in E; cbn [res_bind] in E; unfold entry_ok in Hv;
    (destruct (look _ _) as [v|] eqn:El; cbn [fmap option_fmap option_map deref res_bind] in E;
       [rewrite Hv in E; cbn [TEEIO_ASSERT res_bind] in E|]).
  - exists sw'. split; [done|]. assert (Hstep : switch_port_step ctx (switch_section k) i sw = Ok sw').
    { unfold switch_port_step. rewrite get_string_look, El. cbn [fmap option_fmap option_map deref res_bind].
      rewrite Hv. exact E. }
    apply switch_port_step_wf in Hstep as (? & _); [|lia|done]. split; [done|].
    apply res_bind_Ok in E as (old & _ & E). apply res_bind_Ok in E as (ps & _ & E). injection E as <-. simpl. lia.
  - injection E as <-. exists sw. split; [done|]. split; [done|lia].
  - exfalso. pose proof Hw as (Hl & Hcn & _).
    destruct (returns_get (sw_ports sw) (sw_ports_cnt sw)) as [old Hold]; [lia|]. rewrite Hold in E. cbn [res_bind] in E.
    destruct (returns_set (sw_ports sw) (sw_ports_cnt sw) (write_port old IDE_PORT_TYPE_SWITCH (i + 1) (bs "port_" ++ dec (i + 1)) v))
      as [ps Hps]; [lia|]. by rewrite Hps in E.
  - done.
Qed.

Lemma ParseSwitchesSection_returns c index :
  safe_switches = true → 1 ≤ index ≤ 16 → wf_switches (index - 1) (switches_config c) →
  switches_cnt (switches_config c) ≤ index - 1 →
  ∃ b c', ParseSwitchesSection ctx c index = Ok (b, c') ∧ switches_cnt (switches_config c') ≤ index.
Proof.
  intros Hsafe Hi Hw Hc. pose proof Hw as [(Hl & Hcn & _) _]. unfold ParseSwitchesSection.
  destruct (Z.leb_spec index 0); [lia|]. destruct (reader_section (switch_section index)) as [valid Hv].
  unfold switch_section in *. rewrite Hv. cbn [res_bind]. destruct valid; cbn [negb]; [|exists false, c; split; [done|lia]].
  destruct (returns_get (switches (switches_config c)) (switches_cnt (switches_config c))) as [sw Hsw]; [lia|].
  pose proof (filled_next _ _ _ _ _ _ (proj1 Hw) Hsw) as ->. rewrite Hsw. cbn [res_bind].
  destruct (decimal_returns (bs "Switch_" ++ dec index) (bs "enabled")) as [o ->]. cbn [res_bind].
  match goal with |- context [fold_res ?body (seqZ 0 ?n) ?s] =>
    destruct (returns_seqZ (λ i sw, wf_switch sw ∧ sw_ports_cnt sw ≤ i) body 0 n s) as (sw' & -> & _) end.
  - unfold MAX_SUPPORTED_SWITCH_PORTS_NUM. lia.
  - intros i sw Hik [Hws Hcs]. apply switch_port_step_returns; (done || unfold MAX_SUPPORTED_SWITCH_PORTS_NUM in *; lia).
  - split; [exact wf_zero_switch_ports|]. simpl. lia.
  - cbn [res_bind]. match goal with |- context [array_set ?l ?i ?x] => destruct (returns_set l i x) as [l' ->] end; [lia|].
    cbn [res_bind]. eexists _, _. split; [done|]. simpl. lia.
Qed.

(** ** Topologies *)

(** A path has at most one switch connection. *)
Definition one_connection (path : bytes) : bool := (occurrences (char ",") path <=? 2)%nat.

Definition topology_section (index : Z) : bytes := bs "Topology_" ++ dec index.

Definition safe_topologies : bool :=
  forallb (λ k, entry_ok one_connection (topology_section k) (bs "path1")
                && entry_ok one_connection (topology_section k) (bs "path2")) (seqZ 1 MAX_TOPOLOGY_NUM).

Section paths.
Context (c : IDE_TEST_CONFIG) (bound : Z).
Context (Hports : wf_ports (ports_config c)) (Hswitches : wf_switches bound (switches_config c)).

Lemma get_port_by_name_returns name : returns (get_port_by_name (Some c) (Some name)).
Proof using Hports. apply returns_find. destruct Hports as (r & -> & Hc & _). lia. Qed.

Lemma ParseSwitchString_returns str : returns (ParseSwitchString c str).
Proof using Hswitches.
  unfold ParseSwitchString. destruct (_ =? -1); [apply returns_ret|]. pose proof Hswitches as [Hf _].
  apply returns_bind; [apply returns_find; destruct Hf as (-> & Hc & _); lia|].
  intros [s|] Hs; [|apply returns_ret]. destruct (_ =? -1); [apply returns_ret|].
  apply (filled_find _ _ _ _ _ _ _ Hf) in Hs as (_ & i & _ & (Hl & Hc & _) & _).
  apply returns_bind; [apply returns_find; rewrite Hl; lia|]. intros o1 _.
  apply returns_bind; [apply returns_find; rewrite Hl; lia|]. intros o2 _.
  destruct o1, o2; apply returns_ret.
Qed.

Lemma ParseSwConnsString_returns str : char "," ∉ str → returns (ParseSwConnsString c str).
Proof using Hswitches.
  intros Hn. unfold ParseSwConnsString. cbn [conns_loop].
  destruct (find_char_in_str_spec str (char ",")) as [[-> _]|(pre & post & -> & _)].
  - cbn [Z.eqb Pos.eqb]. apply returns_bind; [apply ParseSwitchString_returns|]. intros [cn|] _; apply returns_ret.
  - exfalso. apply Hn, elem_of_app. right. left.
Qed.

Lemma path_endpoint_returns root ptr path t :
  0 ≤ top_connection t < IDE_TEST_CONNECT_NUM → returns (path_endpoint c root ptr path t).
Proof using Hports.
  intros Hc. unfold path_endpoint. destruct (_ <? _); [apply returns_ret|].
  apply returns_bind; [apply get_port_by_name_returns|]. intros [p|] _; [|apply returns_ret].
  destruct (_ || _) eqn:E; [apply returns_ret|]. destruct (_ =? IDE_TEST_CONNECT_P2P) eqn:E2; [apply returns_ret|].
  unfold IDE_TEST_CONNECT_SWITCH, IDE_TEST_CONNECT_DIRECT, IDE_TEST_CONNECT_P2P, IDE_TEST_CONNECT_NUM in *. lia.
Qed.

Lemma ParsePath_returns sec key t path :
  entry_ok one_connection sec key = true → 0 ≤ top_connection t < IDE_TEST_CONNECT_NUM →
  returns (ParsePathInTopologySection ctx sec key t path c).
Proof using Hports Hswitches IniReader0.
  intros Hone Hc. unfold ParsePathInTopologySection. rewrite get_string_look. cbn [res_bind]. unfold entry_ok in Hone.
  destruct (look sec key) as [v|] eqn:El; cbn [fmap option_fmap option_map]; [|apply returns_ret].
  cbn [deref res_bind]. destruct (reader_value sec key v El) as [_ Hlen]. unfold line_buffer.
  rewrite (proj2 (Z.ltb_lt _ _) Hlen). cbn [res_bind]. apply Nat.leb_le in Hone.
  destruct (find_char_in_str_spec v (char ",")) as [[-> _]|(pre & post & Hv & _ & ->)]; [apply returns_ret|].
  destruct (_ || _); [apply returns_ret|]. apply returns_bind; [apply get_port_by_name_returns|].
  intros [rp|] _; [|apply returns_ret]. cbn [set_root top_connection].
  assert (Hdrop : drop (Z.to_nat (Z.of_nat (length pre) + 1)) v = post).
  { replace (Z.to_nat (Z.of_nat (length pre) + 1)) with (length (pre ++ [char ","])) by (rewrite length_app; simpl; lia).
    by rewrite Hv, (cons_middle (char ",") pre post), (app_assoc pre [char ","] post), drop_app_length. }
  rewrite Hdrop. destruct (_ || _); [|by apply path_endpoint_returns].
  destruct (Z.eqb_spec (revert_find_char_in_str (Some post) (char ",")) (-1)) as [|Hr]; [apply returns_ret|].
  apply returns_bind; [|intros [|cn conns] _; [apply returns_ret|by apply path_endpoint_returns]].
  apply ParseSwConnsString_returns, occurrences_0.
  destruct (revert_find_char_split post (char ",") ltac:(done) Hr) as (a & b & -> & ->).
  rewrite Nat2Z.id, take_app_length. rewrite Hv, !occurrences_sep in Hone. lia.
Qed.

Lemma topology_paths_returns k t :
  safe_topologies = true → 1 ≤ k ≤ 16 → 0 ≤ top_type t < IDE_TEST_TOPOLOGY_TYPE_NUM → 0 ≤ top_connection t < IDE_TEST_CONNECT_NUM →
  returns (topology_paths ctx (topology_section k) t c).
Proof using Hports Hswitches IniReader0.
  intros Hsafe Hk Hty Hc. pose proof (forallb_range _ _ _ Hsafe k ltac:(unfold MAX_TOPOLOGY_NUM; lia)) as Hs.
  apply andb_true_iff in Hs as [Hs1 Hs2]. unfold topology_paths.
  apply returns_bind; [by apply ParsePath_returns|]. intros [ok t1] Hp1. cbn [fst snd].
  destruct ok; cbn [negb]; [|apply returns_ret].
  apply (ParsePath_ok _ _ _ _ _ c bound) in Hp1 as [(_ & _ & _ & Hc1) _]; [|done|done]. cbn [snd] in Hc1.
  apply returns_bind.
  - destruct (_ =? _); [|apply returns_ret]. apply ParsePath_returns; [done|lia].
  - intros [ok2 t2] _. cbn [fst snd]. destruct ok2; apply returns_ret.
Qed.

(** A path without a comma among its connections has one at most. *)
Lemma ParseSwConnsString_short str conns :
  char "," ∉ str → ParseSwConnsString c str = Ok conns → (length conns ≤ 4)%nat.
Proof.
  intros Hn. unfold ParseSwConnsString. cbn [conns_loop].
  destruct (find_char_in_str_spec str (char ",")) as [[-> _]|(pre & post & -> & _)].
  - cbn [Z.eqb Pos.eqb]. intros Hp. apply res_bind_Ok in Hp as ([cn|] & _ & Hp); injection Hp as <-; simpl; lia.
  - exfalso. apply Hn, elem_of_app. right. left.
Qed.

Lemma path_endpoint_conns root ptr path t r :
  path_endpoint c root ptr path t = Ok r → top_sw_conn1 (snd r) = top_sw_conn1 t ∧ top_sw_conn2 (snd r) = top_sw_conn2 t.
Proof.
  unfold path_endpoint. intros Hp. destruct (_ <? _) in Hp; [by injection Hp as <-|].
  apply res_bind_Ok in Hp as ([p|] & _ & Hp); [|by injection Hp as <-]. destruct (_ || _) in Hp; [by injection Hp as <-|].
  destruct (_ =? _) in Hp; [by injection Hp as <-; destruct path|]. done.
Qed.

Lemma ParsePath_short sec key t path r :
  entry_ok one_connection sec key = true → short_paths t →
  ParsePathInTopologySection ctx sec key t path c = Ok r → short_paths (snd r).
Proof using IniReader0.
  intros Hone Ht Hp. unfold ParsePathInTopologySection in Hp. rewrite get_string_look in Hp. cbn [res_bind] in Hp.
  unfold entry_ok in Hone. destruct (look sec key) as [v|] eqn:El; cbn [fmap option_fmap option_map] in Hp; [|by injection Hp as <-].
  cbn [deref res_bind] in Hp. apply Nat.leb_le in Hone.
  apply res_bind_Ok in Hp as (ptr & Hptr & Hp). unfold line_buffer in Hptr. destruct (_ <? _) in Hptr; [|done]. injection Hptr as <-.
  destruct (find_char_in_str_spec v (char ",")) as [[Hf _]|(pre & post & Hv & _ & Hf)]; rewrite Hf in Hp; [by injection Hp as <-|].
  destruct (_ || _) in Hp; [by injection Hp as <-|]. apply res_bind_Ok in Hp as ([rp|] & _ & Hp); [|by injection Hp as <-].
  cbn [set_root top_connection] in Hp.
  assert (Hdrop : drop (Z.to_nat (Z.of_nat (length pre) + 1)) v = post).
  { replace (Z.to_nat (Z.of_nat (length pre) + 1)) with (length (pre ++ [char ","])) by (rewrite length_app; simpl; lia).
    by rewrite Hv, (cons_middle (char ",") pre post), (app_assoc pre [char ","] post), drop_app_length. }
  rewrite Hdrop in Hp. destruct (_ || _) in Hp; [|apply path_endpoint_conns in Hp as [H1 H2]; unfold short_paths; by rewrite H1, H2].
  destruct (Z.eqb_spec (revert_find_char_in_str (Some post) (char ",")) (-1)) as [|Hr]; [by injection Hp as <-|].
  apply res_bind_Ok in Hp as (conns & Hc & Hp).
  assert (Hs : (length conns ≤ 4)%nat).
  { apply ParseSwConnsString_short in Hc; [done|]. apply occurrences_0.
    destruct (revert_find_char_split post (char ",") ltac:(done) Hr) as (a & b & -> & ->).
    rewrite Nat2Z.id, take_app_length. rewrite Hv, !occurrences_sep in Hone. lia. }
  destruct conns as [|cn conns]; [by injection Hp as <-|]. apply path_endpoint_conns in Hp as [H1 H2].
  unfold short_paths. rewrite H1, H2. destruct Ht. by destruct path.
Qed.

Lemma topology_paths_short k t r :
  safe_topologies = true → 1 ≤ k ≤ 16 → short_paths t →
  topology_paths ctx (topology_section k) t c = Ok r → short_paths (snd r).
Proof using IniReader0.
  intros Hsafe Hk Ht Hp. pose proof (forallb_range _ _ _ Hsafe k ltac:(unfold MAX_TOPOLOGY_NUM; lia)) as Hs.
  apply andb_true_iff in Hs as [Hs1 Hs2]. unfold topology_paths in Hp.
  apply res_bind_Ok in Hp as ([ok t1] & H1 & Hp). apply ParsePath_short in H1; [|done|done]. cbn [fst snd] in *.
  destruct ok; cbn [negb] in Hp; [|by injection Hp as <-].
  apply res_bind_Ok in Hp as ([ok t2] & H2 & Hp). cbn [fst snd] in *.
  assert (H2' : short_paths t2) by (destruct (_ =? _) in H2; [by apply ParsePath_short in H2|by injection H2 as _ <-]).
  destruct ok; cbn [negb] in Hp; by injection Hp as <-.
Qed.

End paths.

Lemma topology_head_returns sec t : returns (topology_head ctx sec t).
Proof.
  unfold topology_head. apply returns_bind; [apply decimal_returns|]. intros o _. rewrite !get_string_look. cbn [res_bind].
  destruct (look sec (bs "type")) as [ty|]; [|apply returns_ret]. cbn [fmap option_fmap option_map].
  destruct (is_valid_topology_type _); [|apply returns_ret]. cbn [negb].
  destruct (look sec (bs "connection")) as [cn|]; [|apply returns_ret]. cbn [fmap option_fmap option_map].
  destruct (is_valid_topology_connection _); apply returns_ret.
Qed.

Lemma topology_place_returns env sec t d tdisp : returns (topology_place env ctx sec t d tdisp).
Proof.
  unfold topology_place. apply returns_bind; [apply decimal_returns|]. intros o _.
  apply returns_bind; [apply hex_returns|]. intros o2 _. destruct (_ && _); [apply returns_ret|].
  apply returns_bind.
  - destruct (negb _); [apply returns_ret|]. apply returns_bind; [apply hex_returns|]. intros; apply returns_ret.
  - intros [seg d2] _. cbn [fst snd]. destruct seg; [|apply returns_ret]. apply returns_bind; [|intros; apply returns_ret].
    destruct (negb _); [apply returns_ret|]. apply returns_bind; [apply hex_returns|]. intros; apply returns_ret.
Qed.

Lemma put_topology_returns c cnt t :
  0 ≤ topologies_cnt (topologies_config c) < Z.of_nat (length (topologies (topologies_config c))) →
  ∃ c', put_topology c cnt t = Ok c' ∧ topologies_cnt (topologies_config c') = cnt.
Proof.
  intros Hc. unfold put_topology. destruct (returns_set (topologies (topologies_config c)) (topologies_cnt (topologies_config c)) t Hc) as [l ->].
  eexists. split; [reflexivity|done].
Qed.

Lemma ParseTopologySection_returns env c tdisp index sb :
  safe_topologies = true → 1 ≤ index ≤ 16 → wf_ports (ports_config c) → wf_switches sb (switches_config c) →
  wf_topologies c (index - 1) (topologies_config c) → topologies_cnt (topologies_config c) ≤ index - 1 →
  ∃ b c' t', ParseTopologySection env ctx c tdisp index = Ok (b, c', t') ∧ topologies_cnt (topologies_config c') ≤ index.
Proof.
  intros Hsafe Hi Hp Hs (Hl & Hc0 & _) Hc. unfold ParseTopologySection.
  destruct (Z.leb_spec index 0); [lia|]. destruct (reader_section (topology_section index)) as [valid Hv].
  unfold topology_section in Hv. rewrite Hv. cbn [res_bind]. destruct valid; cbn [negb]; [|eexists _, _, _; split; [done|lia]].
  assert (Hslot : 0 ≤ topologies_cnt (topologies_config c) < Z.of_nat (length (topologies (topologies_config c)))) by lia.
  destruct (returns_get _ _ Hslot) as [t ->]. cbn [res_bind].
  assert (Hput : ∀ cnt t' (td : Z), cnt ≤ index →
    ∃ b c' td', (let* c := put_topology c cnt t' in Ok (false, c, td)) = Ok (b, c', td') ∧ topologies_cnt (topologies_config c') ≤ index).
  { intros cnt t' td Hle. destruct (put_topology_returns c cnt t' Hslot) as (c' & -> & Hcc). cbn [res_bind]. eexists _, _, _. split; [done|lia]. }
  destruct (topology_head_returns (bs "Topology_" ++ dec index) t) as [[[ok t1] d] Hh]. rewrite Hh. cbn [res_bind].
  apply topology_head_ok in Hh as [_ Hr]. destruct ok; cbn [negb]; [|apply Hput; lia]. specialize (Hr eq_refl) as [Hty Hcn].
  destruct (topology_place_returns env (bs "Topology_" ++ dec index) t1 d tdisp) as [[[ok t2] td] Hpl]. rewrite Hpl. cbn [res_bind].
  apply topology_place_ok in Hpl as (_ & Hty2 & Hcn2). destruct ok; cbn [negb]; [|apply Hput; lia].
  destruct (topology_paths_returns c sb Hp Hs index t2 Hsafe Hi ltac:(lia) ltac:(lia)) as [[ok t3] Hpath].
  unfold topology_section in Hpath. rewrite Hpath. cbn [res_bind fst snd]. destruct ok; cbn [negb]; [|apply Hput; lia].
  destruct (put_topology_returns c (topologies_cnt (topologies_config c) + 1) (set_id t3 index) Hslot) as (c' & -> & Hcc).
  cbn [res_bind]. eexists _, _, _. split; [done|lia].
Qed.

Lemma topology_head_conns sec t ok t' d :
  topology_head ctx sec t = Ok (ok, t', d) → short_paths t → short_paths t'.
Proof.
  unfold topology_head. intros Hp Ht. apply res_bind_Ok in Hp as (o & _ & Hp). apply res_bind_Ok in Hp as (ty & _ & Hp).
  destruct ty as [ty|]; [|injection Hp as _ <- _; exact Ht]. destruct (is_valid_topology_type ty); [|injection Hp as _ <- _; exact Ht].
  cbn [negb] in Hp. apply res_bind_Ok in Hp as (cn & _ & Hp). destruct cn as [cn|]; [|injection Hp as _ <- _; exact Ht].
  destruct (is_valid_topology_connection cn); injection Hp as _ <- _; exact Ht.
Qed.

Lemma topology_place_conns env sec t d tdisp ok t' tdisp' :
  topology_place env ctx sec t d tdisp = Ok (ok, t', tdisp') → short_paths t → short_paths t'.
Proof.
  unfold topology_place. intros Hp Ht. apply res_bind_Ok in Hp as (o & _ & Hp). apply res_bind_Ok in Hp as (o2 & _ & Hp).
  destruct (_ && _) in Hp; [injection Hp as _ <- _; exact Ht|]. apply res_bind_Ok in Hp as ([seg d2] & _ & Hp). cbn [fst snd] in Hp.
  destruct seg as [seg|]; [|injection Hp as _ <- _; exact Ht]. apply res_bind_Ok in Hp as (bus & _ & Hp). injection Hp as _ <- _; exact Ht.
Qed.

Lemma ParseTopologySection_short env c tdisp index b c' tdisp' :
  safe_topologies = true → 1 ≤ index ≤ 16 → Forall short_paths (topologies (topologies_config c)) →
  ParseTopologySection env ctx c tdisp index = Ok (b, c', tdisp') → Forall short_paths (topologies (topologies_config c')).
Proof.
  intros Hsafe Hi Hs Hp. unfold ParseTopologySection in Hp. destruct (_ <=? _) in Hp; [by injection Hp as _ <- _|].
  apply res_bind_Ok in Hp as (valid & _ & Hp). destruct valid; [|by injection Hp as _ <- _]. cbn [negb] in Hp.
  apply res_bind_Ok in Hp as (t & Hget & Hp).
  assert (Ht : short_paths t) by (apply array_get_Ok in Hget as [_ Hget]; rewrite Forall_lookup in Hs; by eapply Hs).
  assert (Hput : ∀ cnt t' c2, short_paths t' → put_topology c cnt t' = Ok c2 → Forall short_paths (topologies (topologies_config c2))).
  { intros cnt t' c2 Ht' Hput. unfold put_topology in Hput. apply res_bind_Ok in Hput as (ts & Hset & Hput). injection Hput as <-.
    apply array_set_Ok in Hset as [_ ->]. by apply Forall_insert. }
  apply res_bind_Ok in Hp as ([[ok t1] d] & Hh & Hp). apply topology_head_conns in Hh as Ht1; [|done].
  destruct ok; cbn [negb] in Hp; [|apply res_bind_Ok in Hp as (c2 & H2 & Hp); injection Hp as _ <- _; by eapply Hput].
  apply res_bind_Ok in Hp as ([[ok t2] td] & Hpl & Hp). apply topology_place_conns in Hpl as Ht2; [|done].
  destruct ok; cbn [negb] in Hp; [|apply res_bind_Ok in Hp as (c2 & H2 & Hp); injection Hp as _ <- _; by eapply Hput].
  apply res_bind_Ok in Hp as ([ok t3] & Hpath & Hp). apply topology_paths_short in Hpath; [|done..]. cbn [fst snd] in *.
  destruct ok; cbn [negb] in Hp; apply res_bind_Ok in Hp as (c2 & H2 & Hp); injection Hp as _ <- _; (eapply Hput; [|exact H2]; exact Hpath).
Qed.

Lemma ParseMainSection_level c c' b : ParseMainSection ctx c = Ok (b, c') → 0 ≤ debug_level (main_config c') < TEEIO_DEBUG_NUM.
Proof.
  intros Hm. unfold ParseMainSection in Hm. repeat (apply res_bind_Ok in Hm as (? & _ & Hm)).
  assert (Hlevel : ∀ v, 0 ≤ match v with None => TEEIO_DEBUG_WARN | Some v => get_ide_log_level_from_string v end < TEEIO_DEBUG_NUM).
  { intros [[v|]|]; [|done..]. unfold get_ide_log_level_from_string.
    cbn [name_index m_ide_log_level]. repeat destruct (streq _ v); done. }
  match type of Hm with match ?o with _ => _ end = _ => destruct o end; [|injection Hm as _ <-; apply Hlevel].
  apply res_bind_Ok in Hm as (? & _ & Hm). destruct (parse_spdm_version _); injection Hm as _ <-; apply Hlevel.
Qed.

(** ** Configurations *)

Definition configuration_section (index : Z) : bytes := bs "Configuration_" ++ dec index.

Definition not_spdm (category : bytes) : bool :=
  negb (get_test_category_from_name (Some category) =? TEEIO_TEST_CATEGORY_SPDM).

Definition safe_configurations : bool :=
  forallb (λ k, entry_ok (λ v, is_valid_topology_type (Some v)) (configuration_section k) (bs "type")
                && entry_ok not_spdm (configuration_section k) (bs "category")) (seqZ 1 MAX_CONFIGURATION_NUM).

(** The names of a library: [N] of them, short enough for the buffer, then NULL. *)
Definition names_end (get_name : Z → res (option bytes)) (N : Z) : bool :=
  (0 <=? N) && (N <? 1000)
  && forallb (λ i, match get_name i with Ok (Some n) => strlen n <? 32 | _ => false end) (seqZ 0 N)
  && match get_name N with Ok None => true | _ => false end.

Definition named (lib : teeio_test_funcs_t) (N : Z) : bool :=
  match get_configuration_name_func lib with Some gn => names_end gn N | None => false end
  && match get_configuration_priv_names_func lib with
     | None => true
     | Some l => forallb (λ n, strlen n <? 32) l && (Z.of_nat (length l) <=? N)
     end
  && is_some (check_configuration_bitmap_func lib).

Lemma own_libs_named : Forall2 (λ l N, named (fst (fst l)) N = true) own_libs [8; 4; 1; 1].
Proof. repeat constructor; vm_compute; reflexivity. Qed.

Section registry.
Context (fs : list teeio_test_funcs_t) (cat : Z) (lib : teeio_test_funcs_t) (N : Z).
Context (Hlib : array_get fs cat = Ok lib) (Hnamed : named lib N = true) (Hpriv : priv_keeps fs).

Lemma named_inv :
  ∃ gn, get_configuration_name_func lib = Some gn ∧ 0 ≤ N < 1000 ∧ gn N = Ok None ∧
    ∀ i, 0 ≤ i < N → ∃ n, gn i = Ok (Some n) ∧ strlen n < 32.
Proof using Hnamed.
  unfold named in Hnamed. apply andb_true_iff in Hnamed as [[Hn _]%andb_true_iff _].
  destruct (get_configuration_name_func lib) as [gn|]; [|done]. exists gn. split; [done|].
  unfold names_end in Hn. apply andb_true_iff in Hn as [[[H0 H1]%andb_true_iff Hall]%andb_true_iff HN]. split; [lia|].
  split; [by destruct (gn N) as [[|]|]|]. intros i Hi. pose proof (forallb_range _ _ _ Hall i ltac:(lia)) as Hf. cbv beta in Hf.
  destruct (gn i) as [[n|]|]; [|done..]. exists n. split; [done|lia].
Qed.

Lemma bit_loop_returns sec i g :
  cfg_category g = cat → 0 ≤ i ≤ N → returns (while (bit_step fs ctx sec) 1024 (i, g)).
Proof using Hlib Hnamed IniReader0.
  intros Hc Hi. destruct named_inv as (gn & Hgn & HN & Hend & Hsome).
  assert (Hname : ∀ j, get_test_configuration_name fs j cat = gn j).
  { intros j. unfold get_test_configuration_name. rewrite Hlib. cbn [res_bind]. by rewrite Hgn. }
  destruct (while_total (bit_step fs ctx sec) (λ st, cfg_category (snd st) = cat ∧ 0 ≤ fst st ≤ N) (λ st, N - fst st) 1024 (i, g))
    as [g' Hg']; [|by split|simpl; lia|by exists g'].
  clear i g Hc Hi. intros [j h] [Hc Hj]. cbn [fst snd] in *.
  destruct (bit_step fs ctx sec (j, h)) as [[[j' h']|h']|] eqn:E; unfold bit_step in E; rewrite Hc, Hname in E.
  - destruct (decide (j = N)) as [->|Hne]; [by rewrite Hend in E|].
    apply res_bind_Ok in E as (o & Ho & E). destruct o as [n|]; [|done].
    apply res_bind_Ok in E as (en & _ & E). apply res_bind_Ok in E as (d & _ & E). injection E as <- <-.
    cbn [fst snd]. split; [|lia]. split; [by destruct d as [[|[]|]|]|lia].
  - done.
  - destruct (decide (j = N)) as [->|Hne]; [by rewrite Hend in E|]. destruct (Hsome j) as (n & Hn & Hlen); [lia|].
    rewrite Hn in E. cbn [res_bind] in E. unfold entry_buffer in E. rewrite (proj2 (Z.ltb_lt _ _) Hlen) in E.
    cbn [res_bind] in E. destruct (decimal_returns sec n) as [d Hd]. by rewrite Hd in E.
Qed.

Lemma priv_loop_returns sec g :
  cfg_category g = cat →
  let names := match get_configuration_priv_names_func lib with None => [] | Some l => l end in
  returns (fold_res (priv_step fs ctx sec) names g) ∧ 0 ≤ Z.of_nat (length names) ≤ N.
Proof using Hlib Hnamed Hpriv IniReader0.
  intros Hc. cbv zeta. destruct named_inv as (_ & _ & HN & _). unfold named in Hnamed.
  apply andb_true_iff in Hnamed as [[_ Hp]%andb_true_iff _].
  destruct (get_configuration_priv_names_func lib) as [l|]; [|split; [by exists g|simpl; lia]].
  apply andb_true_iff in Hp as [Hl Hlen]. split; [|lia].
  destruct (returns_fold (λ h, cfg_category h = cat) (priv_step fs ctx sec) l g) as (g' & Hg' & _); [|done|by exists g'].
  intros n h Hn Hh. rewrite forallb_forall in Hl. specialize (Hl n). rewrite <- list_elem_of_In in Hl. specialize (Hl Hn).
  unfold priv_step, entry_buffer. rewrite Hl. cbn [res_bind]. rewrite get_string_look. cbn [res_bind].
  destruct (look sec n) as [v|]; cbn [fmap option_fmap option_map]; [|by exists h].
  unfold parse_test_configuration_priv_names. rewrite Hh, Hlib. cbn [res_bind]. eexists. split; [done|].
  destruct (Hpriv n (Some v) cat h _ ltac:(unfold parse_test_configuration_priv_names; by rewrite Hlib)) as [(_ & _ & Hk) _].
  cbn [fst snd] in Hk |- *. congruence.
Qed.

End registry.

Lemma category_ok_own sec cat :
  entry_ok not_spdm sec (bs "category") = true → parse_category ctx sec = Ok (Some cat) → 0 ≤ cat < 4.
Proof.
  intros Hok Hp. pose proof (parse_category_range _ _ _ Hp) as Hr. unfold parse_category in Hp. rewrite get_string_look in Hp.
  cbn [res_bind] in Hp. unfold entry_ok, not_spdm in Hok. destruct (look sec _) as [v|]; cbn [fmap option_fmap option_map] in Hp;
    [|injection Hp as <-; done]. destruct (is_valid_test_category _); [|done].
  assert (Hc : cat = get_test_category_from_name (Some v)) by congruence. rewrite <- Hc in Hok. clear Hp Hc.
  unfold TEEIO_TEST_CATEGORY_SPDM, TEEIO_TEST_CATEGORY_MAX in *. lia.
Qed.

Lemma parse_category_returns sec : returns (parse_category ctx sec).
Proof. unfold parse_category. rewrite get_string_look. cbn [res_bind]. destruct (look sec _); apply returns_ret. Qed.

Lemma parse_type_returns sec cat invalid :
  entry_ok (λ v, is_valid_topology_type (Some v)) sec (bs "type") = true ∨ returns invalid → returns (parse_type ctx sec cat invalid).
Proof.
  intros Hok. unfold parse_type. destruct (_ || _); [|apply returns_ret]. rewrite get_string_look. cbn [res_bind]. unfold entry_ok in Hok.
  destruct (look sec _) as [v|]; cbn [fmap option_fmap option_map]; [|apply returns_ret].
  destruct (is_valid_topology_type (Some v)); [apply returns_ret|]. by destruct Hok.
Qed.

Section registered.
Context `{SpdmResponder} (fs : list teeio_test_funcs_t) (Hinit : teeio_init_test_funcs = Ok fs).

Lemma own_named cat : 0 ≤ cat < 4 → ∃ lib N, array_get fs cat = Ok lib ∧ named lib N = true.
Proof using Hinit.
  intros Hc. destruct (lookup_lt_is_Some_2 own_libs (Z.to_nat cat)) as [l Hl]; [simpl; lia|].
  pose proof (own_libs_registered fs Hinit _ _ Hl) as Hreg. rewrite Z2Nat.id in Hreg by lia.
  destruct (Forall2_lookup_l _ _ _ _ _ own_libs_named Hl) as (N & _ & HN). by exists (fst (fst l)), N.
Qed.

Lemma ParseConfigurationSection_returns c index :
  safe_configurations = true → 1 ≤ index ≤ 32 → wf_configurations fs (configurations_config c) →
  ∃ b c', ParseConfigurationSection fs ctx c index = Ok (b, c').
Proof using Hinit IniReader0.
  intros Hsafe Hi [Hlen _]. pose proof (forallb_range _ _ _ Hsafe index ltac:(unfold MAX_CONFIGURATION_NUM; lia)) as Hs.
  apply andb_true_iff in Hs as [Htype Hcat]. unfold ParseConfigurationSection, configuration_section in *.
  destruct (Z.leb_spec index 0); [lia|]. destruct (reader_section (bs "Configuration_" ++ dec index)) as [valid ->].
  cbn [res_bind]. destruct valid; cbn [negb]; [|by eexists _, _].
  destruct (decimal_returns (bs "Configuration_" ++ dec index) (bs "enabled")) as [o ->]. cbn [res_bind].
  destruct (parse_category_returns (bs "Configuration_" ++ dec index)) as [cat Hpc]. rewrite Hpc. cbn [res_bind].
  destruct cat as [cat|]; [|by eexists _, _]. apply category_ok_own in Hpc; [|done].
  destruct (parse_type_returns (bs "Configuration_" ++ dec index) cat (Stop Undefined) ltac:(by left)) as [ty ->]. cbn [res_bind].
  destruct ty as [ty|]; [|by eexists _, _].
  destruct (own_named cat Hpc) as (lib & N & Hlib & Hnamed). unfold get_test_configuration_priv_names. rewrite Hlib. cbn [res_bind].
  match goal with |- context [fold_res (priv_step _ _ _) _ ?g] => set (g0 := g) end.
  pose proof (registered_priv_keeps fs Hinit) as Hpriv.
  destruct (priv_loop_returns fs cat lib N Hlib Hnamed Hpriv (bs "Configuration_" ++ dec index) g0 eq_refl) as [[g1 Hg1] Hn].
  rewrite Hg1. cbn [res_bind].
  assert (Hc1 : cfg_category g1 = cat).
  { apply (fold_res_inv (λ g, cfg_category g = cat)) in Hg1; [done| |done]. intros x s s' _ Hx Hst.
    apply (priv_step_ok fs) in Hst as [(_ & _ & ?) _]; [congruence|exact Hpriv]. }
  destruct (bit_loop_returns fs cat lib N Hlib Hnamed (bs "Configuration_" ++ dec index) _ g1 Hc1 Hn) as [g2 ->].
  cbn [res_bind]. unfold teeio_check_configuration_bitmap. rewrite Hlib. cbn [res_bind].
  destruct (check_configuration_bitmap_func lib) as [chk|]; [|by eexists _, _].
  destruct (negb _); [by eexists _, _|]. destruct (existsb _ _); [by eexists _, _|].
  match goal with |- context [array_set ?l ?i ?x] => destruct (returns_set l i x) as [l' ->] end; [lia|]. by eexists _, _.
Qed.

End registered.

(** ** Suites *)

(** The classes of a library: [M] of them, whose names are as [class_limits] wants them, then the end. *)
Definition classes_end (lib : teeio_test_funcs_t) (M : Z) : bool :=
  match get_case_name_func lib with
  | Some gn =>
      (0 <=? M) && (M <=? 32)
      && forallb (λ i, match gn i with
                       | Ok nm => match tn_class nm, class_limits (tn_names nm) with
                                  | Some class, Ok (Some (m, _)) => (strlen class <? 32) && (0 <=? m) && (m <=? 32)
                                  | Some _, Ok None => true
                                  | _, _ => false
                                  end
                       | Stop _ => false end) (seqZ 0 M)
      && match gn M with Ok nm => negb (is_some (tn_class nm)) | Stop _ => false end
  | None => false
  end.

Lemma own_libs_classes : Forall2 (λ l M, classes_end (fst (fst l)) M = true) own_libs [6; 6; 6; 7].
Proof. repeat constructor; vm_compute; reflexivity. Qed.

Lemma for_each_returns {T S R} (body : T → S → res (S + R)) l s :
  (∀ x s, x ∈ l → returns (body x s)) → returns (for_each body l s).
Proof.
  revert s. induction l as [|x l IH]; intros s Hb; [by eexists|]. cbn [for_each].
  destruct (Hb x s ltac:(left)) as [[s'|r] ->]; [|by eexists]. apply IH. intros y t Hy. apply Hb. by right.
Qed.

(** The array of an entry: its length, and its numbers. *)
Lemma array_entry_returns sec key :
  ∃ b n, GetUint32ArrayLengthFromDataFile ctx sec key 0 = Ok (b, n) ∧
    (b = true → 0 ≤ n) ∧
    ∀ cells, 0 ≤ n ≤ Z.of_nat (length cells) → b = true →
      ∃ b' cells', GetUint32ArrayFromDataFile ctx sec key cells n = Ok (b', cells') ∧ length cells' = length cells.
Proof.
  unfold GetUint32ArrayLengthFromDataFile, GetUint32ArrayFromDataFile. rewrite reader_string.
  destruct (look sec key) as [v|] eqn:El; [|exists false, 0; by split_and!]. cbn [res_bind fst snd negb].
  destruct (reader_value sec key v El) as [Hne Hlen]. unfold asserted_str. rewrite bool_decide_eq_false_2 by done.
  cbn [negb TEEIO_ASSERT res_bind read_str].
  assert (Hbig : strlen v < 2 ^ 31) by (unfold MAX_LINE_LENGTH in Hlen; lia).
  destruct (get_uint32_array_exact v [] 0 Hne Hbig ltac:(simpl; lia)) as (-> & _). cbn [res_bind fst snd].
  set (ts := CLib.tokens (char ",") v). set (valid := forallb token_ok ts && nonempty ts).
  exists valid. eexists. split; [reflexivity|]. split; [intros ->; cbn; lia|]. intros cells Hn ->. cbn [from_option id] in *.
  destruct (_ =? 0); [by exists false, cells|].
  destruct (get_uint32_array_exact v cells (Z.of_nat (length ts)) Hne Hbig Hn) as (_ & cells' & -> & Hl & _).
  cbn [res_bind fst snd]. eexists _, cells'. by split.
Qed.

Lemma ParseTestSuiteCaseEntry_returns sec en cnt mx :
  0 ≤ cnt ≤ 32 → returns (ParseTestSuiteCaseEntry ctx sec en (replicate 32 0) cnt mx).
Proof.
  intros Hc. unfold ParseTestSuiteCaseEntry. destruct (array_entry_returns sec en) as (b & n & -> & Hn & Harr).
  cbn [res_bind fst snd]. destruct b; cbn [negb]; [|apply returns_ret]. specialize (Hn eq_refl).
  destruct (Z.ltb_spec cnt n); [apply returns_ret|].
  destruct (Harr (replicate 32 0)) as (b' & cells & -> & Hl); [simpl; lia|done|]. cbn [res_bind fst snd].
  destruct b'; cbn [negb]; [|apply returns_ret]. apply returns_bind.
  - apply for_each_returns. intros i [] Hi%elem_of_seqZ. apply returns_bind; [|intros; apply returns_ret].
    apply returns_get. rewrite Hl. simpl. lia.
  - intros [u|u] _; apply returns_ret.
Qed.

Section suites.
Context (fs : list teeio_test_funcs_t) (cat : Z) (lib : teeio_test_funcs_t) (M : Z).
Context (Hlib : array_get fs cat = Ok lib) (Hends : classes_end lib M = true).

Lemma classes_inv :
  ∃ gn, get_case_name_func lib = Some gn ∧ 0 ≤ M ≤ 32 ∧ (∃ nm, gn M = Ok nm ∧ tn_class nm = None) ∧
    ∀ i, 0 ≤ i < M → ∃ nm class lim, gn i = Ok nm ∧ tn_class nm = Some class ∧ class_limits (tn_names nm) = Ok lim ∧
      ∀ m mx, lim = Some (m, mx) → strlen class < 32 ∧ 0 ≤ m ≤ 32.
Proof using Hends.
  unfold classes_end in Hends. destruct (get_case_name_func lib) as [gn|]; [|done]. exists gn. split; [done|].
  apply andb_true_iff in Hends as [[[H0 H1]%andb_true_iff Hall]%andb_true_iff HM]. split; [lia|]. split.
  { destruct (gn M) as [nm|]; [|done]. exists nm. split; [done|]. by destruct (tn_class nm). }
  intros i Hi. pose proof (forallb_range _ _ _ Hall i ltac:(lia)) as Hf. cbv beta in Hf.
  destruct (gn i) as [nm|]; [|done]. destruct (tn_class nm) as [class|] eqn:Ec; [|done].
  destruct (class_limits (tn_names nm)) as [[[m mx]|]|] eqn:El; [| |done]; exists nm, class; eexists; split_and!; try done.
  intros m' mx' [= <- <-]. lia.
Qed.

Lemma suite_class_loop_returns sec : returns (while (suite_class_step fs ctx sec cat) 1024 (0, replicate 32 zero_case)).
Proof using Hlib Hends IniReader0.
  destruct classes_inv as (gn & Hgn & HM & (nmM & HnM & HcM) & Hcl).
  assert (Hname : ∀ i nm, gn i = Ok nm → get_test_case_name fs i cat = Ok (Some nm)).
  { intros i nm Hi. unfold get_test_case_name. rewrite Hlib. cbn [res_bind]. by rewrite Hgn, Hi. }
  destruct (while_total (suite_class_step fs ctx sec cat) (λ st, 0 ≤ fst st ≤ M ∧ length (snd st) = 32%nat) (λ st, M - fst st) 1024
    (0, replicate 32 zero_case)) as [cs Hcs]; [|split; [simpl; lia|done]|simpl; lia|by exists cs].
  intros [i cs] [Hi Hl]. cbn [fst snd] in *. unfold suite_class_step.
  destruct (decide (i = M)) as [->|Hne].
  { rewrite (Hname _ _ HnM). cbn [res_bind deref]. by rewrite HcM. }
  destruct (Hcl i) as (nm & class & lim & Hnm & Hc & Hlim & Hfit); [lia|].
  rewrite (Hname _ _ Hnm). cbn [res_bind deref]. rewrite Hc, Hlim. cbn [res_bind].
  destruct lim as [[m mx]|]; [|cbn [fst snd]; split; [split; [lia|done]|lia]].
  destruct (Hfit m mx eq_refl) as [Hlen Hm]. unfold entry_buffer. rewrite (proj2 (Z.ltb_lt _ _) Hlen). cbn [res_bind].
  destruct (ParseTestSuiteCaseEntry_returns sec class m mx Hm) as [[[ok ids] cnt] ->]. cbn [res_bind].
  destruct (returns_get cs i) as [old ->]; [lia|]. cbn [res_bind].
  match goal with |- context [array_set ?l ?i ?x] => destruct (returns_set l i x) as [l' Hl'] end; [lia|].
  rewrite Hl'. cbn [res_bind fst snd]. apply array_set_Ok in Hl' as [_ ->]. rewrite length_insert. split; [split; [lia|done]|lia].
Qed.

End suites.

Section whole.
Context `{SpdmResponder} `{Libspdm} (fs : list teeio_test_funcs_t) (Hinit : teeio_init_test_funcs = Ok fs).

Lemma own_classes cat : 0 ≤ cat < 4 → ∃ lib M, array_get fs cat = Ok lib ∧ classes_end lib M = true.
Proof using Hinit.
  intros Hc. destruct (lookup_lt_is_Some_2 own_libs (Z.to_nat cat)) as [l Hl]; [simpl; lia|].
  pose proof (own_libs_registered fs Hinit _ _ Hl) as Hreg. rewrite Z2Nat.id in Hreg by lia.
  destruct (Forall2_lookup_l _ _ _ _ _ own_libs_classes Hl) as (M & _ & HM). by exists (fst (fst l)), M.
Qed.

Lemma ParseTestSuiteSection_returns c index :
  1 ≤ index ≤ 32 → length (topologies (topologies_config c)) = 16%nat →
  wf_configurations fs (configurations_config c) → length (test_suites (suites_config c)) = 32%nat →
  ∃ b c', ParseTestSuiteSection fs ctx c index = Ok (b, c').
Proof using Hinit IniReader0.
  intros Hi Htl [Hgl Hg] Hsl. unfold ParseTestSuiteSection. destruct (Z.leb_spec index 0); [lia|].
  destruct (reader_section (bs "TestSuite_" ++ dec index)) as [valid ->]. cbn [res_bind].
  destruct valid; cbn [negb]; [|by eexists _, _].
  set (sec := bs "TestSuite_" ++ dec index). destruct (decimal_returns sec (bs "enabled")) as [o ->]. cbn [res_bind].
  destruct (parse_category_returns sec) as [cat Hpc]. rewrite Hpc. cbn [res_bind]. destruct cat as [cat|]; [|by eexists _, _].
  destruct (parse_type_returns sec cat (Ok None) ltac:(right; apply returns_ret)) as [ty ->]. cbn [res_bind].
  destruct ty as [ty|]; [|by eexists _, _]. destruct (decimal_returns sec (bs "topology")) as [tid ->]. cbn [res_bind].
  destruct tid as [tid|]; [|by eexists _, _].
  assert (Htop : returns (get_topology_by_id (Some c) (s32 tid))).
  { unfold get_topology_by_id. destruct (_ <=? 0); [apply returns_ret|]. apply returns_find. rewrite Htl. done. }
  destruct Htop as [top ->]. cbn [res_bind]. destruct top as [top|]; [|by eexists _, _].
  destruct (negb _); [by eexists _, _|]. destruct (decimal_returns sec (bs "configuration")) as [cid ->]. cbn [res_bind].
  destruct cid as [cid|]; [|by eexists _, _].
  assert (Hcfg : returns (get_configuration_by_id (Some c) (s32 cid))).
  { unfold get_configuration_by_id. destruct (_ <=? 0); [apply returns_ret|]. apply returns_find. by rewrite Hgl. }
  destruct Hcfg as [cfg Hcfg]. rewrite Hcfg. cbn [res_bind]. destruct cfg as [cfg|]; [|by eexists _, _].
  destruct (negb _); [by eexists _, _|]. destruct (Z.eqb_spec (cfg_category cfg) cat) as [Hcc|]; cbn [negb]; [|by eexists _, _].
  assert (Hown : 0 ≤ cat < 4).
  { unfold get_configuration_by_id in Hcfg. destruct (Z.leb_spec (s32 cid) 0); [done|].
    destruct (find_cell_Some _ _ _ _ Hcfg) as (Hq & i & _ & Hx). apply andb_true_iff in Hq as [Hq%Z.eqb_eq _].
    destruct (Hg i cfg Hx ltac:(lia)) as (_ & _ & Hr & Hns & _). rewrite Hcc in Hr, Hns.
    unfold TEEIO_TEST_CATEGORY_MAX, TEEIO_TEST_CATEGORY_SPDM in *. lia. }
  destruct (own_classes cat Hown) as (lib & M & Hlib & HM).
  destruct (suite_class_loop_returns fs cat lib M Hlib HM sec) as [cases ->]. cbn [res_bind].
  match goal with |- context [array_set ?l ?i ?x] => destruct (returns_set l i x) as [l' ->] end; [lia|]. by eexists _, _.
Qed.

Lemma ports_returns c :
  safe_ports = true → length (ports (ports_config c)) = 16%nat → ports_cnt (ports_config c) = 0 →
  ∃ c1 c2, ParsePortsSection ctx c IDE_PORT_TYPE_ROOTPORT = Ok c1 ∧ ParsePortsSection ctx c1 IDE_PORT_TYPE_ENDPOINT = Ok c2 ∧
    wf_ports (ports_config c2) ∧ ports_only c c2.
Proof using IniReader0.
  intros [[Hr He]%andb_true_iff Hle%Z.leb_le]%andb_true_iff Hw Hc.
  pose proof (ports_in_a_row_nonneg 17 (bs "endpoint") 1) as Hnn.
  destruct (ParsePortsSection_returns c IDE_PORT_TYPE_ROOTPORT (bs "rootport")) as (c1 & H1 & Hc1);
    [done|by left|done|by split; [|lia]|lia|].
  destruct (root_ports_wf ctx c c1 Hw Hc H1) as [Hw1 Ho1]. pose proof Hw1 as (Hl1 & Hb1 & _).
  destruct (ParsePortsSection_returns c1 IDE_PORT_TYPE_ENDPOINT (bs "endpoint")) as (c2 & H2 & _);
    [done|by right|done|done|lia|].
  destruct (endpoint_ports_wf ctx c1 c2 Hw1 H2) as [Hw2 Ho2].
  exists c1, c2. split_and!; try done. unfold ports_only in *. rewrite Ho2, Ho1. by destruct c.
Qed.

Lemma switches_returns c :
  safe_switches = true → wf_switches 0 (switches_config c) → switches_cnt (switches_config c) = 0 →
  returns (fold_res (λ index c, let* r := ParseSwitchesSection ctx c (index + 1) in Ok (snd r)) (seqZ 0 MAX_SUPPORTED_SWITCHES_NUM) c).
Proof using IniReader0.
  intros Hs Hw Hc. destruct (returns_seqZ (λ k d, wf_switches k (switches_config d) ∧ switches_cnt (switches_config d) ≤ k)
    (λ index c, let* r := ParseSwitchesSection ctx c (index + 1) in Ok (snd r)) 0 MAX_SUPPORTED_SWITCHES_NUM c) as (c' & -> & _);
    [done| |split; [done|lia]|by eexists].
  intros k d Hk [Hd Hcd]. unfold MAX_SUPPORTED_SWITCHES_NUM in Hk.
  destruct (ParseSwitchesSection_returns d (k + 1)) as (b & d' & Hp & Hc'); [done|lia|by replace (k + 1 - 1) with k by lia|lia|].
  rewrite Hp. cbn [res_bind snd]. exists d'. split; [done|]. split; [|done].
  apply ParseSwitchesSection_wf in Hp as [? _]; [done|by replace (k + 1 - 1) with k by lia].
Qed.

Lemma topologies_returns env c tdisp sb :
  safe_topologies = true → wf_ports (ports_config c) → wf_switches sb (switches_config c) →
  wf_topologies c 0 (topologies_config c) → topologies_cnt (topologies_config c) = 0 →
  returns (fold_res (λ index st, let* r := ParseTopologySection env ctx (fst st) (snd st) (index + 1) in Ok (snd (fst r), snd r))
    (seqZ 0 MAX_TOPOLOGY_NUM) (c, tdisp)).
Proof using IniReader0.
  intros Hsafe Hp Hs Ht Hc.
  destruct (returns_seqZ (λ k st, wf_topologies (fst st) k (topologies_config (fst st)) ∧ topologies_only c (fst st) ∧
                                   topologies_cnt (topologies_config (fst st)) ≤ k)
    (λ index st, let* r := ParseTopologySection env ctx (fst st) (snd st) (index + 1) in Ok (snd (fst r), snd r))
    0 MAX_TOPOLOGY_NUM (c, tdisp)) as (st & -> & _); [done| |split_and!; [done|by destruct c|simpl; lia]|by eexists].
  intros k [d td] Hk (Hd & Ho & Hcd). cbn [fst snd] in *. unfold MAX_TOPOLOGY_NUM in Hk.
  assert (Hpd : wf_ports (ports_config d)) by (by rewrite Ho). assert (Hsd : wf_switches sb (switches_config d)) by (by rewrite Ho).
  assert (Htd : wf_topologies d (k + 1 - 1) (topologies_config d)) by (by replace (k + 1 - 1) with k by lia).
  destruct (ParseTopologySection_returns env d td (k + 1) sb) as (b & d' & td' & Hps & Hc'); [done|lia|done|done|done|lia|].
  rewrite Hps. cbn [res_bind]. eexists. split; [done|]. cbn [fst snd].
  apply (ParseTopologySection_wf _ _ _ _ _ _ _ _ sb) in Hps as [? Ho']; [|done..]. split; [done|]. split; [|done].
  unfold topologies_only in *. rewrite Ho', Ho. by destruct c.
Qed.

(** Entries that keep off the assertions, overruns and double frees of the parser. *)
Definition safe_entries : bool := safe_ports && safe_switches && safe_topologies && safe_configurations.

Lemma parse_sections_returns env tdisp : safe_entries = true → returns (parse_sections fs env ctx zero_config tdisp).
Proof using Hinit IniReader0.
  intros [[[Hsp Hss]%andb_true_iff Hst]%andb_true_iff Hsc]%andb_true_iff. unfold parse_sections.
  apply returns_bind; [apply ParseMainSection_returns|]. intros [ok c0] Hz%ParseMainSection_only. cbn [fst snd].
  destruct ok; cbn [negb]; [|apply returns_ret].
  assert (Hw0 : length (ports (ports_config c0)) = 16%nat) by (by rewrite Hz).
  destruct (ports_returns c0 Hsp Hw0) as (c1 & c2 & -> & H2 & Hw2 & Ho2); [by rewrite Hz|]. cbn [res_bind]. rewrite H2. cbn [res_bind].
  assert (Hsw : wf_switches 0 (switches_config c2)).
  { rewrite Ho2, Hz. split; [by apply filled_replicate|]. simpl. lia. }
  apply returns_bind; [apply switches_returns; [done|done|by rewrite Ho2, Hz]|].
  intros c3 [Hw3 Ho3]%switches_loop; [|done].
  assert (Hp3 : wf_ports (ports_config c3)) by (by rewrite Ho3).
  assert (Ht3 : topologies_config c3 = topologies_config zero_config) by (by rewrite Ho3, Ho2, Hz).
  apply returns_bind.
  { eapply topologies_returns; [done|done|exact Hw3| |by rewrite Ht3]. rewrite Ht3. by apply filled_replicate. }
  intros [c4 td] Hf. apply (topologies_loop _ _ MAX_SUPPORTED_SWITCHES_NUM) in Hf as [(Htl & _) Ho4]; [|done|done|rewrite Ht3; by apply filled_replicate].
  cbn [fst] in *. destruct (_ =? 0); [apply returns_ret|].
  assert (Hg4 : wf_configurations fs (configurations_config c4)).
  { rewrite Ho4, Ho3, Ho2, Hz. split; [done|]. intros i g [-> _]%lookup_replicate. done. }
  assert (Hs4 : suites_config c4 = suites_config zero_config) by (by rewrite Ho4, Ho3, Ho2, Hz).
  apply returns_bind.
  { destruct (returns_fold (λ d, wf_configurations fs (configurations_config d))
      (λ index c, let* r := ParseConfigurationSection fs ctx c (index + 1) in Ok (snd r)) (seqZ 0 MAX_CONFIGURATION_NUM) c4)
      as (c5 & -> & _); [|done|apply returns_ret].
    intros k d Hk%elem_of_seqZ Hd. unfold MAX_CONFIGURATION_NUM in Hk.
    destruct (ParseConfigurationSection_returns fs Hinit d (k + 1)) as (b & d' & Hp); [done|lia|done|].
    rewrite Hp. cbn [res_bind snd]. exists d'. split; [done|].
    apply ParseConfigurationSection_wf in Hp as [? _]; [done|by apply registered_default_bit|by apply registered_priv_keeps
      |by apply registered_spdm_overruns|done]. }
  intros c5 Hf5. apply configurations_loop in Hf5 as [Hg5 Ho5]; [|by apply registered_default_bit|by apply registered_priv_keeps
    |by apply registered_spdm_overruns|done].
  destruct (_ =? 0); [apply returns_ret|].
  apply returns_bind; [|intros c6 _; destruct (_ && _); apply returns_ret].
  destruct (g_run_test_suite env); [|apply returns_ret].
  destruct (returns_fold (λ d, wf_suites fs d (suites_config d) ∧ suites_only c5 d)
    (λ index c, let* r := ParseTestSuiteSection fs ctx c (index + 1) in Ok (snd r)) (seqZ 0 MAX_TEST_SUITE_NUM) c5)
    as (c6 & -> & _); [| |apply returns_ret].
  2: { split; [|by destruct c5]. assert (suites_config c5 = suites_config zero_config) as -> by (by rewrite Ho5). split; [done|]. intros i g [-> _]%lookup_replicate. done. }
  intros k d Hk%elem_of_seqZ [Hwd Hod]. unfold MAX_TEST_SUITE_NUM in Hk.
  destruct (ParseTestSuiteSection_returns d (k + 1)) as (b & d' & Hp);
    [lia|by rewrite Hod, Ho5|by rewrite Hod|by destruct Hwd|].
  rewrite Hp. cbn [res_bind snd]. exists d'. split; [done|].
  apply ParseTestSuiteSection_wf in Hp as [Hw' Ho']; [|done]. split; [by rewrite Ho'|].
  unfold suites_only in *. rewrite Ho', Hod. by destruct c5.
Qed.

(** What the dump needs besides the invariant. *)
Lemma parse_sections_dumps env tdisp c tdisp' :
  safe_topologies = true → parse_sections fs env ctx zero_config tdisp = Ok (true, c, tdisp') →
  0 ≤ debug_level (main_config c) < TEEIO_DEBUG_NUM ∧ Forall short_paths (topologies (topologies_config c)).
Proof using Hinit IniReader0.
  intros Hsafe Hp. unfold parse_sections in Hp. apply res_bind_Ok in Hp as ([ok c0] & Hm & Hp). cbn [fst snd] in Hp.
  destruct ok; [|done]. cbn [negb] in Hp. pose proof (ParseMainSection_level _ _ _ Hm) as Hlevel. apply ParseMainSection_only in Hm as Hz.
  apply res_bind_Ok in Hp as (c1 & Hp1 & Hp). apply root_ports_wf in Hp1 as [Hw1' Ho1]; [|by rewrite Hz..].
  apply res_bind_Ok in Hp as (c2 & Hp2 & Hp). apply endpoint_ports_wf in Hp2 as [Hw2 Ho2]; [|done].
  apply res_bind_Ok in Hp as (c3 & Hp3 & Hp). apply switches_loop in Hp3 as [Hw3 Ho3].
  2: { rewrite Ho2, Ho1, Hz. split; [by apply filled_replicate|]. simpl. lia. }
  apply res_bind_Ok in Hp as ([c4 t4] & Hp4 & Hp).
  assert (Hshort : Forall short_paths (topologies (topologies_config c4))).
  { apply (fold_res_inv (λ st, Forall short_paths (topologies (topologies_config (fst st))))) in Hp4; [exact Hp4| |].
    - intros k [d td] st' Hk%elem_of_seqZ Hd Hb. apply res_bind_Ok in Hb as ([[b d2] td2] & Hps & Hb). injection Hb as <-.
      unfold MAX_TOPOLOGY_NUM in Hk. by apply ParseTopologySection_short in Hps; [|done|lia|].
    - cbn [fst]. assert (topologies_config c3 = topologies_config zero_config) as -> by (by rewrite Ho3, Ho2, Ho1, Hz).
      apply Forall_replicate. split; simpl; lia. }
  apply (topologies_loop _ _ MAX_SUPPORTED_SWITCHES_NUM) in Hp4 as [Hw4 Ho4]; [|by rewrite Ho3|done|].
  2: { rewrite Ho3, Ho2, Ho1, Hz. by apply filled_replicate. }
  cbn [fst] in *. destruct (_ =? 0) in Hp; [done|].
  apply res_bind_Ok in Hp as (c5 & Hp5 & Hp).
  apply configurations_loop in Hp5 as [Hw5 Ho5]; [|by apply registered_default_bit|by apply registered_priv_keeps|by apply registered_spdm_overruns|].
  2: { rewrite Ho4, Ho3, Ho2, Ho1, Hz. split; [done|]. intros i g [-> _]%lookup_replicate. done. }
  destruct (_ =? _) in Hp; [done|]. apply res_bind_Ok in Hp as (c6 & Hp6 & Hp).
  destruct (_ && _) in Hp; [done|]. injection Hp as <- <-.
  assert (Ho6 : suites_only c5 c6).
  { assert (wf_suites fs c5 (suites_config c5)).
    { rewrite Ho5, Ho4, Ho3, Ho2, Ho1, Hz. split; [done|]. intros i g [-> _]%lookup_replicate. done. }
    destruct (g_run_test_suite env); [by apply (suites_loop fs ctx)|]. injection Hp6 as <-. by destruct c5. }
  split.
  - assert (main_config c6 = main_config c0) as -> by (by rewrite Ho6, Ho5, Ho4, Ho3, Ho2, Ho1). exact Hlevel.
  - assert (topologies_config c6 = topologies_config c4) as -> by (by rewrite Ho6, Ho5). exact Hshort.
Qed.

End whole.

End reader.

(** ** Files of the grammar *)

Definition values_short (f : src_file) : bool :=
  forallb (λ e, strlen (snd e) <? MAX_LINE_LENGTH) (file_entries None (src_lines f)).

(** The reader keeps its promises on a file of the grammar. *)
Lemma file_reader st coms f :
  wf_file f = true → values_short f = true → entries st = reverse (file_entries None (src_lines f)) →
  IniReader (Some {| SectionHead := map item_of st; CommentHead := coms |}) (ini_lookup f).
Proof.
  intros Hw Hs He. split.
  - intros sec key. by rewrite get_string_lookup, He.
  - intros sec. rewrite valid_section_lookup. by eexists.
  - intros sec key v Hv. split; [by eapply ini_lookup_value|]. unfold ini_lookup, lookup_in in Hv.
    apply fmap_Some in Hv as (e & Hf & ->). apply List.find_some in Hf as [Hin _].
    rewrite <- list_elem_of_In, elem_of_reverse in Hin. unfold values_short in Hs. rewrite forallb_forall in Hs.
    specialize (Hs e). rewrite <- list_elem_of_In in Hs. specialize (Hs Hin). lia.
Qed.

(** C2: the parser comes back on every file of the grammar whose values are shorter than the
    line buffer and whose entries are safe: at most 16 ports, with valid device and function
    numbers, as the switch ports; at most one switch connection per path; in configurations a
    valid type and a category other than spdm.  All loops end, no assert fails and no
    array is overrun; and what it accepts is well-formed. *)
Theorem safe_file_is_parsed `{SpdmResponder} `{Libspdm} fs env tdisp f :
  teeio_init_test_funcs = Ok fs →
  wf_file f = true → values_short f = true → safe_entries (ini_lookup f) = true →
  ∃ b c tdisp', parse_ide_test_init fs env zero_config tdisp (Some (render_file f)) = Ok (b, c, tdisp') ∧
    (b = true → wf_config fs c ∧ topologies_cnt (topologies_config c) ≠ 0).
Proof.
  intros Hi Hw Hs Hsafe. destruct (open_file f Hw) as (st & coms & Ho & He).
  pose proof (file_reader st coms f Hw Hs He) as Hr.
  destruct (parse_sections_returns _ _ fs Hi env tdisp Hsafe) as [[[b c] t'] Hp].
  exists b, c, t'. assert (Hparse : parse_ide_test_init fs env zero_config tdisp (Some (render_file f)) = Ok (b, c, t')).
  { unfold parse_ide_test_init. rewrite Ho. cbn [res_bind is_some TEEIO_ASSERT]. rewrite Hp. cbn [res_bind fst snd].
    assert (Hdump : returns (if b then dump_test_config c else Ok [])).
    { destruct b; [|apply returns_ret]. destruct (parse_sections_wf fs Hi _ _ _ _ _ Hp) as [Hwf _].
      apply andb_true_iff in Hsafe as [[_ Hst]%andb_true_iff _].
      destruct (parse_sections_dumps _ _ fs Hi env tdisp c t' Hst Hp) as [Hl Hsh]. by apply (dump_returns fs Hi c Hwf). }
    destruct Hdump as [text ->]. cbn [res_bind]. by rewrite close_items. }
  split; [exact Hparse|]. intros ->. by eapply parse_file_wf.
Qed.

(** ** Witness *)

Definition section_line (name : string) : src_line * eol := (SSection [] [] (bs name) [] [], LF).
Definition entry_line (key value : string) : src_line * eol := (SEntry [] (bs key) (bs " ") (bs " ") (bs value) [] [], CRLF).

Definition example_file : src_file :=
  {| body := [section_line "Ports"; entry_line "rootport_1" "02.0"; entry_line "endpoint_1" "00.0";
              section_line "Switch_1"; entry_line "port_1" "00.0"; entry_line "port_2" "01.0";
              section_line "Topology_1"; entry_line "type" "selective_ide"; entry_line "connection" "switch";
              entry_line "path1" "rootport_1,switch_1:port_1-port_2,endpoint_1";
              section_line "Configuration_1"; entry_line "type" "selective_ide";
              section_line "TestSuite_1"; entry_line "type" "selective_ide"; entry_line "topology" "1";
              entry_line "configuration" "1"];
     last_line := SEntry [] (bs "Query") [] [] (bs "1,2") [] [] |}.

#[local] Existing Instance one_case_each.

Lemma safe_file_is_parsed_witness :
  ∃ b c tdisp', parse_ide_test_init example_registry example_env zero_config 0 (Some (render_file example_file)) = Ok (b, c, tdisp') ∧
    (b = true → wf_config example_registry c ∧ topologies_cnt (topologies_config c) ≠ 0).
Proof.
  apply (safe_file_is_parsed example_registry example_env 0 example_file).
  - exact example_registry_eq.
  - vm_compute. reflexivity.
  - vm_compute. reflexivity.
  - vm_compute. reflexivity.
Defined.

(** ** The switch connections of a path *)

Lemma free_conns_undefined l : free_conns l = Stop Undefined.
Proof. by induction l. Qed.

Definition resolves (c : IDE_TEST_CONFIG) (piece : bytes) (conn : IDE_SWITCH_INTERNAL_CONNECTION) : Prop :=
  ParseSwitchString c piece = Ok (Some conn).

(** The loop on the pieces between the commas, after the connections [header]. *)
Lemma conns_loop_pieces c bound fuel str header :
  wf_switches bound (switches_config c) → (length str < fuel)%nat →
  (∃ conns, Forall2 (resolves c) (split_at (char ",") str) conns ∧ conns_loop fuel c str header = Ok (header ++ conns)) ∨
  (∃ good bad rest conns, split_at (char ",") str = good ++ bad :: rest ∧ Forall2 (resolves c) good conns ∧
     ParseSwitchString c bad = Ok None ∧
     conns_loop fuel c str header = if nonempty (header ++ conns) then Stop Undefined else Ok []).
Proof.
  intros Hw. revert str header. induction fuel as [|fuel IH]; intros str header Hf; [lia|]. cbn [conns_loop].
  assert (Hbad : ∀ header, match header with [] => Ok [] | _ :: itr => let* _ := free_conns itr in Ok [] end
                 = if nonempty header then Stop Undefined else Ok ([] : list IDE_SWITCH_INTERNAL_CONNECTION)).
  { intros [|x h]; [done|]. by rewrite free_conns_undefined. }
  destruct (find_char_in_str_spec str (char ",")) as [[-> Hn]|(pre & post & -> & Hn & ->)].
  - rewrite split_at_none by done. cbn [Z.eqb Pos.eqb].
    destruct (ParseSwitchString_returns c bound Hw str) as [[cn|] Hcn]; rewrite Hcn; cbn [res_bind].
    + left. exists [cn]. split; [by repeat constructor|done].
    + right. exists [], str, [], []. split; [done|]. split; [constructor|]. split; [done|]. by rewrite app_nil_r, Hbad.
  - rewrite split_at_cons by done. destruct (Z.eqb_spec (Z.of_nat (length pre)) (-1)); [lia|].
    rewrite Nat2Z.id, take_app_length.
    assert (Hd : drop (Z.to_nat (Z.of_nat (length pre) + 1)) (pre ++ char "," :: post) = post).
    { replace (Z.to_nat (Z.of_nat (length pre) + 1)) with (length (pre ++ [char ","])) by (rewrite length_app; simpl; lia).
      by rewrite (cons_middle (char ",") pre post), (app_assoc pre [char ","] post), drop_app_length. }
    rewrite Hd. rewrite length_app in Hf. simpl in Hf.
    destruct (ParseSwitchString_returns c bound Hw pre) as [[cn|] Hcn]; rewrite Hcn; cbn [res_bind].
    + destruct (IH post (header ++ [cn]) ltac:(lia)) as [(conns & Hall & ->)|(good & bad & rest & conns & -> & Hg & Hb & ->)].
      * left. exists (cn :: conns). split; [by constructor|]. by rewrite <- app_assoc.
      * right. exists (pre :: good), bad, rest, (cn :: conns). split; [done|]. split; [by constructor|]. split; [done|].
        by rewrite <- app_assoc.
    + right. exists [], pre, (split_at (char ",") post), []. split; [done|]. split; [constructor|]. split; [done|].
      by rewrite app_nil_r, Hbad.
Qed.

(** The switch connections of a path: if every piece between the commas names two ports of a
    switch, the result is the list of these connections, in order; if the first piece does not, the path is
    rejected; and if a later piece does not, the release of the earlier connections runs
    past the end of their list. *)
Theorem switch_connections c bound str :
  wf_switches bound (switches_config c) →
  let pieces := split_at (char ",") str in
  (∃ conns, Forall2 (resolves c) pieces conns ∧ conns ≠ [] ∧ ParseSwConnsString c str = Ok conns) ∨
  (∃ bad rest, pieces = bad :: rest ∧ ParseSwitchString c bad = Ok None ∧ ParseSwConnsString c str = Ok []) ∨
  (∃ good bad rest conns, pieces = good ++ bad :: rest ∧ good ≠ [] ∧ Forall2 (resolves c) good conns ∧
     ParseSwitchString c bad = Ok None ∧ ParseSwConnsString c str = Stop Undefined).
Proof.
  intros Hw pieces. unfold ParseSwConnsString.
  destruct (conns_loop_pieces c bound (S (length str)) str [] Hw ltac:(lia)) as [(conns & Hall & ->)|(good & bad & rest & conns & Hp & Hg & Hb & ->)].
  - left. exists conns. split; [done|]. split; [|done]. intros ->. apply Forall2_nil_inv_r in Hall.
    destruct (find_char_in_str_spec str (char ",")) as [[_ Hn]|(pre & post & -> & Hn & _)];
      [by rewrite split_at_none in Hall|by rewrite split_at_cons in Hall].
  - right. destruct good as [|g good]; [left; exists bad, rest; apply Forall2_nil_inv_l in Hg as ->; by split_and!|].
    right. exists (g :: good), bad, rest, conns. apply Forall2_cons_inv_l in Hg as (cn & cns & ? & ? & ->).
    split_and!; (done || by constructor).
Qed.

Definition example_switch : IDE_SWITCH :=
  {| sw_id := 1; sw_enabled := true; sw_name := bs "switch_1"; sw_ports_cnt := 2;
     sw_ports := write_port zero_port IDE_PORT_TYPE_SWITCH 1 (bs "port_1") (bs "00.0")
                 :: write_port zero_port IDE_PORT_TYPE_SWITCH 2 (bs "port_2") (bs "01.0") :: replicate 14 zero_port |}.
Definition example_switches : IDE_TEST_CONFIG :=
  set_switches zero_config {| switches_cnt := 1; switches := example_switch :: replicate 15 zero_switch |}.

Lemma example_switches_wf : wf_switches 1 (switches_config example_switches).
Proof.
  split.
  - split_and!; [done|done|done|]. intros [|i] x Hx; simpl in Hx.
    + injection Hx as <-. rewrite decide_True by done. split; [|done]. split_and!; [done|done|done|].
      intros [|[|j]] p Hp; simpl in Hp.
      * injection Hp as <-. by apply (write_switch_port_wf zero_port 1 (bs "00.0")).
      * injection Hp as <-. by apply (write_switch_port_wf zero_port 2 (bs "01.0")).
      * by rewrite decide_False by (simpl; lia).
    + rewrite decide_False by (simpl; lia). by apply (lookup_replicate 15) in Hx as [-> _].
  - simpl. lia.
Qed.

Lemma switch_connections_witness :
  (∃ conns, conns ≠ [] ∧ ParseSwConnsString example_switches (bs "switch_1:port_1-port_2,switch_1:port_2-port_1") = Ok conns) ∧
  ParseSwConnsString example_switches (bs "switch_1:port_1-port_2,switch_9:port_2-port_1") = Stop Undefined.
Proof.
  split.
  - destruct (switch_connections example_switches 1 (bs "switch_1:port_1-port_2,switch_1:port_2-port_1") example_switches_wf)
      as [(conns & _ & Hne & Hc)|[(bad & rest & _ & _ & Hc)|(good & bad & rest & conns & _ & _ & _ & _ & Hc)]].
    + exists conns. split; [exact Hne|exact Hc].
    + vm_compute in Hc. discriminate.
    + vm_compute in Hc. discriminate.
  - vm_compute. reflexivity.
Defined.

End ParseTotal.
