(* ===== verification/Hardware.v ===== *)
(** * Access to the hardware (library/helperlib/pcie_helper.c, the register
    unions of include/pcie.h and include/intel_keyp.h)

    What the validator knows of a machine is what its registers answer.  The machine is a
    parameter: a state with a read and a write for the configuration space
    behind a file descriptor and for mapped registers; nothing is assumed about it, a
    read may have effects.  The accesses run in a state monad over the machine.
    Logging of the accesses is left out. *)
From Stdlib Require Import ZArith Lia.
From stdpp Require Import prelude.
From S2P Require Import Prelude.

Open Scope Z_scope.
Open Scope teeio_scope.

Module Hardware.

(** ** The machine *)

(** Where an access goes: an offset of the configuration space open as [fd], or an
    address of the process. *)
Inductive reg : Type := Cfg (fd off : Z) | Mmio (addr : Z).

#[export] Instance reg_eq_dec : EqDecision reg.
Proof. solve_decision. Defined.

(** [bus_read r n d] reads [n] bytes; what a read answers is cut to that
    width where it is used. *)
Class Bus (D : Type) := {
  bus_read : reg → Z → D → Z * D;
  bus_write : reg → Z → Z → D → D
}.

(** Waiting ([libspdm_sleep]) lets the machine go on by itself. *)
Class Clock (D : Type) := { sleep_for : Z → D → D }.

(** ** Computations on a machine *)
Section io.
Context {D : Type}.

Definition io (A : Type) : Type := D → res (A * D).

Definition ret {A} (a : A) : io A := λ d, Ok (a, d).

Definition bind {A B} (m : io A) (k : A → io B) : io B :=
  λ d, let* (a, d) := m d in k a d.

Definition lift {A} (r : res A) : io A := λ d, let* a := r in Ok (a, d).

(** Loops: with a bound, over the values of a counter with early exit, and
    over all of them. *)
Definition io_while {S A} (p : positive) (body : S → io (S + A)) (s : S) : io A :=
  λ d, while (λ '(s, d), let* (r, d) := body s d in
                         Ok (match r with inl s => inl (s, d) | inr a => inr (a, d) end)) p (s, d).

Fixpoint io_for {T S R} (body : T → S → io (S + R)) (l : list T) (s : S) : io (S + R) :=
  match l with
  | [] => ret (inl s)
  | x :: l => bind (body x s) (λ r, match r with inl s => io_for body l s | inr _ => ret r end)
  end.

Fixpoint io_fold {T S} (body : T → S → io S) (l : list T) (s : S) : io S :=
  match l with
  | [] => ret s
  | x :: l => bind (body x s) (io_fold body l)
  end.

Lemma bind_Ok {A B} (m : io A) (k : A → io B) d a d' :
  m d = Ok (a, d') → bind m k d = k a d'.
Proof. intros H. unfold bind. by rewrite H. Qed.

Lemma bind_lift_Ok {A B} (r : res A) (k : A → io B) d a :
  r = Ok a → bind (lift r) k d = k a d.
Proof. intros ->. done. Qed.

Lemma bind_lift_Stop {A B} (r : res A) (k : A → io B) d e :
  r = Stop e → bind (lift r) k d = Stop e.
Proof. intros ->. done. Qed.

Lemma bind_Stop {A B} (m : io A) (k : A → io B) d e : m d = Stop e → bind m k d = Stop e.
Proof. intros H. unfold bind. by rewrite H. Qed.

Lemma bind_ret {A B} (a : A) (k : A → io B) d : bind (ret a) k d = k a d.
Proof. done. Qed.

Lemma bind_assoc {A B C} (m : io A) (k : A → io B) (j : B → io C) d :
  bind (bind m k) j d = bind m (λ a, bind (k a) j) d.
Proof. unfold bind. by destruct (m d) as [[a d']|e]. Qed.

Lemma bind_inv {A B} (m : io A) (k : A → io B) d r :
  bind m k d = Ok r → ∃ a d', m d = Ok (a, d') ∧ k a d' = Ok r.
Proof. unfold bind. destruct (m d) as [[a d']|e]; [|done]. cbn. intros ?. by exists a, d'. Qed.

Lemma io_while_succ {S A} p (body : S → io (S + A)) s d :
  io_while (Pos.succ p) body s d =
  match body s d with
  | Ok (inl s', d') => io_while p body s' d'
  | Ok (inr a, d') => Ok (a, d')
  | Stop e => Stop e
  end.
Proof.
  unfold io_while. rewrite while_succ. by destruct (body s d) as [[[s'|a] d']|e].
Qed.

Lemma io_while_one {S A} (body : S → io (S + A)) s d :
  io_while 1 body s d =
  match body s d with
  | Ok (inl s', d') => Stop NoFuel
  | Ok (inr a, d') => Ok (a, d')
  | Stop e => Stop e
  end.
Proof. unfold io_while, while. simpl. by destruct (body s d) as [[[s'|a] d']|e]. Qed.

Lemma io_while_exit {S A} p (body : S → io (S + A)) s d a d' :
  body s d = Ok (inr a, d') → io_while p body s d = Ok (a, d').
Proof.
  intros E. destruct (Pos.succ_pred_or p) as [->|<-].
  - by rewrite io_while_one, E.
  - by rewrite io_while_succ, E.
Qed.
End io.
Arguments io D A : clear implicits.

Notation "'let+' p := c 'in' k" :=
  (bind c (λ x, match x with p => k end))
  (at level 10, p pattern, c at level 200, k at level 200, only parsing) : teeio_scope.

(** [if (!m) return false; k] *)
Notation "'ok+' m 'in' k" :=
  (bind m (λ ok : bool, if negb ok then ret false else k))
  (at level 10, m at level 200, k at level 200, only parsing) : teeio_scope.

Definition io_assert {D} (b : bool) : io D unit := lift (TEEIO_ASSERT b).

Definition libspdm_sleep {D} `{Clock D} (microseconds : Z) : io D unit := λ d, Ok (tt, sleep_for microseconds d).

(** [for (i = lo; i < hi; i++)] *)
Definition range (lo hi : Z) : list Z := seqZ lo (hi - lo).

(** ** Multi-byte values in byte arrays

    The supported platforms are little-endian. *)
Definition le (l : bytes) : Z := foldr (λ b acc, b + 256 * acc) 0 l.

(** [n] little-endian bytes at an offset of an object. *)
Definition load_le (m : bytes) (off n : Z) : res Z := let* w := load m off n in Ok (le w).

(** The [n] bytes of a value. *)
Fixpoint le_bytes (n : nat) (v : Z) : bytes :=
  match n with O => [] | S n => v mod 256 :: le_bytes n (v / 256) end.

Lemma length_le_bytes n v : length (le_bytes n v) = n.
Proof. revert v. induction n as [|n IH]; intros v; simpl; [done|]. by rewrite IH. Qed.

Lemma le_le_bytes n v : 0 ≤ v < 2 ^ (8 * Z.of_nat n) → le (le_bytes n v) = v.
Proof.
  revert v. induction n as [|n IH]; intros v Hv.
  - simpl in *. lia.
  - cbn [le_bytes]. unfold le in *. cbn [foldr]. rewrite IH; [pose proof (Z.div_mod v 256); lia|].
    replace (8 * Z.of_nat (S n)) with (8 + 8 * Z.of_nat n) in Hv by lia.
    rewrite Z.pow_add_r in Hv by lia. split; [apply Z.div_pos; lia|].
    apply Z.div_lt_upper_bound; lia.
Qed.

(** ** The accesses of pcie_helper.c *)
Section access.
Context {D : Type} `{Bus D}.

Definition read_reg (r : reg) (n : Z) : io D Z :=
  λ d, let (v, d') := bus_read r n d in Ok (v mod 2 ^ (8 * n), d').

Definition write_reg (r : reg) (n v : Z) : io D unit := λ d, Ok (tt, bus_write r n v d).

Definition device_pci_read_32 (off fd : Z) : io D Z :=
  let+ _ := io_assert (0 <? fd) in read_reg (Cfg fd off) 4.

Definition device_pci_write_32 (off value fd : Z) : io D unit :=
  let+ _ := io_assert (0 <? fd) in write_reg (Cfg fd off) 4 value.

Definition device_pci_read_16 (off fd : Z) : io D Z :=
  let+ _ := io_assert (0 <? fd) in read_reg (Cfg fd off) 2.

Definition device_pci_write_16 (off value fd : Z) : io D unit :=
  let+ _ := io_assert (0 <? fd) in write_reg (Cfg fd off) 2 value.

Definition mmio_read_reg32 (reg_ptr : Z) : io D Z := read_reg (Mmio reg_ptr) 4.
Definition mmio_write_reg32 (reg_ptr reg_val : Z) : io D unit := write_reg (Mmio reg_ptr) 4 reg_val.
Definition mmio_read_reg64 (reg_ptr : Z) : io D Z := read_reg (Mmio reg_ptr) 8.
Definition mmio_write_reg64 (reg_ptr reg_val : Z) : io D unit := write_reg (Mmio reg_ptr) 8 reg_val.

(** ** What a register of the machine holds

    [reads d r n v]: reading [n] bytes of [r] now answers [v] and has no
    effect.  This is what the specifications below say of the registers they mention. *)
Definition reads (d : D) (r : reg) (n v : Z) : Prop :=
  bus_read r n d = (v, d) ∧ 0 ≤ v < 2 ^ (8 * n).

Lemma reads_fun d r n v w : reads d r n v → reads d r n w → v = w.
Proof. intros [E _] [F _]. congruence. Qed.

Lemma read_reg_reads d r n v : reads d r n v → read_reg r n d = Ok (v, d).
Proof. intros [E Hv]. unfold read_reg. rewrite E. by rewrite Z.mod_small by lia. Qed.

Lemma bind_read32 {A} (k : Z → io D A) d fd off v :
  0 < fd → reads d (Cfg fd off) 4 v → bind (device_pci_read_32 off fd) k d = k v d.
Proof.
  intros Hfd Hv. apply bind_Ok. unfold device_pci_read_32, io_assert.
  rewrite (bind_lift_Ok _ _ _ tt) by (apply TEEIO_ASSERT_Ok; by apply Z.ltb_lt).
  by apply read_reg_reads.
Qed.

Lemma bind_read16 {A} (k : Z → io D A) d fd off v :
  0 < fd → reads d (Cfg fd off) 2 v → bind (device_pci_read_16 off fd) k d = k v d.
Proof.
  intros Hfd Hv. apply bind_Ok. unfold device_pci_read_16, io_assert.
  rewrite (bind_lift_Ok _ _ _ tt) by (apply TEEIO_ASSERT_Ok; by apply Z.ltb_lt).
  by apply read_reg_reads.
Qed.

Lemma bind_mmio_read {A} (k : Z → io D A) d a v :
  reads d (Mmio a) 4 v → bind (mmio_read_reg32 a) k d = k v d.
Proof. intros Hv. by apply bind_Ok, read_reg_reads. Qed.

Lemma read32_reads d fd off v :
  0 < fd → reads d (Cfg fd off) 4 v → device_pci_read_32 off fd d = Ok (v, d).
Proof.
  intros Hfd Hv. unfold device_pci_read_32, io_assert.
  rewrite (bind_lift_Ok _ _ _ tt) by (apply TEEIO_ASSERT_Ok; by apply Z.ltb_lt).
  by apply read_reg_reads.
Qed.

Lemma write32_writes d fd off v :
  0 < fd → device_pci_write_32 off v fd d = Ok (tt, bus_write (Cfg fd off) 4 v d).
Proof.
  intros Hfd. unfold device_pci_write_32, io_assert.
  by rewrite (bind_lift_Ok _ _ _ tt) by (apply TEEIO_ASSERT_Ok; by apply Z.ltb_lt).
Qed.

Lemma bind_write32 {A} (k : unit → io D A) d fd off v :
  0 < fd → bind (device_pci_write_32 off v fd) k d = k tt (bus_write (Cfg fd off) 4 v d).
Proof. intros Hfd. by apply bind_Ok, write32_writes. Qed.

(** [reg_memcpy_dw] with registers as the destination. *)
Definition reg_memcpy_dw_mmio (dst dst_bytes : Z) (src : bytes) (nbytes : Z) : io D unit :=
  let+ _ := io_assert (dst_bytes =? nbytes) in
  let+ _ := io_assert (dst_bytes mod 4 =? 0) in
  io_fold (λ i _, let+ w := lift (load_le src (i * 4) 4) in mmio_write_reg32 (dst + i * 4) w)
          (seqZ 0 (Z.shiftr dst_bytes 2)) tt.

Lemma bind_mmio_write {A} (k : unit → io D A) d a v :
  bind (mmio_write_reg32 a v) k d = k tt (bus_write (Mmio a) 4 v d).
Proof. done. Qed.
End access.

Lemma bind_assert {D A} (k : unit → io D A) d b :
  bind (io_assert b) k d = if b then k tt d else Stop AssertHang.
Proof. by destruct b. Qed.

(** ** A machine of plain memory

    An instance for concrete runs: every register keeps what was written to
    it, registers never written are 0. *)
Definition memory : Type := list (reg * Z).

Definition mem_peek (m : memory) (r : reg) : Z :=
  match List.find (λ p, bool_decide (p.1 = r)) m with Some p => p.2 | None => 0 end.

Definition reg_dword (r : reg) : reg * Z :=
  match r with
  | Cfg fd off => (Cfg fd (4 * (off / 4)), off mod 4)
  | Mmio a => (Mmio (4 * (a / 4)), a mod 4)
  end.

#[export] Instance memory_bus : Bus memory := {|
  bus_read r n m := let (r', b) := reg_dword r in (get_bits (8 * b) (8 * n) (mem_peek m r'), m);
  bus_write r n v m := let (r', b) := reg_dword r in
                       (r', set_bits (8 * b) (8 * n) v (mem_peek m r')) :: m
|}.

#[export] Instance memory_clock : Clock memory := {| sleep_for _ m := m |}.

(** ** Register layouts

    The bit-field members of the unions, as the compiler of the supported
    platform lays them out: from the least significant bit up. *)

(* PCIE_CAP_ID *)
Definition cap_id (raw : Z) : Z := get_bits 0 16 raw.
Definition cap_version (raw : Z) : Z := get_bits 16 4 raw.
Definition cap_next (raw : Z) : Z := get_bits 20 12 raw.

(* PCIE_CAP_LIST *)
Definition list_id (raw : Z) : Z := get_bits 0 8 raw.
Definition list_next (raw : Z) : Z := get_bits 8 8 raw.

(* PCIE_IDE_CAP *)
Definition lnk_ide_supported (raw : Z) : Z := get_bits 0 1 raw.
Definition sel_ide_supported (raw : Z) : Z := get_bits 1 1 raw.
Definition ide_ft_supported (raw : Z) : Z := get_bits 2 1 raw.
Definition pcrc_supported (raw : Z) : Z := get_bits 5 1 raw.
Definition sel_ide_cfg_req_supported (raw : Z) : Z := get_bits 7 1 raw.
Definition num_lnk_ide (raw : Z) : Z := get_bits 13 3 raw.
Definition num_sel_ide (raw : Z) : Z := get_bits 16 8 raw.

(* PCIE_LNK_IDE_STREAM_CTRL, PCIE_SEL_IDE_STREAM_CTRL *)
Definition ctrl_enabled (raw : Z) : Z := get_bits 0 1 raw.
Definition ctrl_pcrc_en (raw : Z) : Z := get_bits 8 1 raw.
Definition ctrl_cfg_sel_ide (raw : Z) : Z := get_bits 9 1 raw.
Definition ctrl_stream_id (raw : Z) : Z := get_bits 24 8 raw.

(* PCIE_SEL_IDE_STREAM_CAP, PCIE_SEL_IDE_STREAM_STATUS *)
Definition num_addr_assoc_reg_blocks (raw : Z) : Z := get_bits 0 4 raw.
Definition status_state (raw : Z) : Z := get_bits 0 4 raw.

(* INTEL_KEYP_PCIE_STREAM_CAP *)
Definition num_stream_supported (raw : Z) : Z := get_bits 0 8 raw.
Definition num_tx_key_slots (raw : Z) : Z := get_bits 10 10 raw.
Definition num_rx_key_slots (raw : Z) : Z := get_bits 20 10 raw.

(* INTEL_KEYP_STREAM_CONTROL *)
Definition stream_en (raw : Z) : Z := get_bits 0 1 raw.
Definition stream_stream_id (raw : Z) : Z := get_bits 24 8 raw.

(* INTEL_KEYP_STREAM_TXRX_CONTROL *)
Definition key_set_select (raw : Z) : Z := get_bits 0 2 raw.
Definition prime_key_set_0 (raw : Z) : Z := get_bits 8 1 raw.
Definition prime_key_set_1 (raw : Z) : Z := get_bits 16 1 raw.

(* INTEL_KEYP_STREAM_KEYSET_SLOT_ID *)
Definition slot_pr (raw : Z) : Z := get_bits 0 10 raw.
Definition slot_npr (raw : Z) : Z := get_bits 10 10 raw.
Definition slot_cpl (raw : Z) : Z := get_bits 20 10 raw.

End Hardware.
