(* ===== verification/PcieIde.v ===== *)
(** * The IDE extended capability (library/pcie_ide_lib/pcie_ide.c)

    Finding capabilities in configuration space, finding the register block
    of a stream, the control registers, and the choice of free register
    blocks.  Offsets kept in an [int] are below 2^31 since a
    configuration space has 4096 bytes; offsets kept in a [uint32_t] wrap. *)
From Stdlib Require Import ZArith Lia.
From stdpp Require Import prelude.
From S2P Require Import Prelude TestConfig Hardware.

Open Scope Z_scope.
Open Scope teeio_scope.

Module PcieIde.
Import TestConfig Hardware.

(** ** Constants *)

Definition PCIE_CAPABILITY_ID : Z := 0x10.
Definition PCIE_EXT_CAP_START : Z := 0x100.
Definition PCI_DOE_EXT_CAPABILITY_ID : Z := 0x2E.
Definition PCI_IDE_EXT_CAPABILITY_ID : Z := 0x30.
Definition PCI_AER_EXT_CAPABILITY_ID : Z := 0x01.
Definition PCI_DEVICE3_EXT_CAPABILITY_ID : Z := 0x2F.
Definition IDE_STREAM_CTRL_ENABLE : Z := 0x1.
Definition LINK_IDE_REGISTER_BLOCK_SIZE : Z := 8.
Definition sizeof_PCIE_SEL_IDE_STREAM_REG_BLOCK : Z := 20.
Definition sizeof_PCIE_SEL_IDE_ADDR_ASSOC_REG_BLOCK : Z := 12.
Definition sizeof_INTEL_KEYP_STREAM_CONFIG_REG_BLOCK : Z := 36.

Definition MEMORY_BASE_OFFSET : Z := 0x20.
Definition PREFETCH_MEMORY_BASE_OFFSET : Z := 0x24.
Definition PREFETCH_MEMORY_BASE_UPPER_OFFSET : Z := 0x28.
Definition PREFETCH_MEMORY_LIMIT_UPPER_OFFSET : Z := 0x2c.

(** ** Data *)

(** What a test group keeps of an open port ([cxl_data] belongs to CXL). *)
Record ide_common_test_port_context_t := {
  port : IDE_PORT;
  cfg_space_fd : Z;
  ecap_offset : Z;
  doe_offset : Z;
  ide_cap : Z;
  mapped_kcbar_addr : Z;
  kcbar_fd : Z;
  stream_cap : Z;
  ide_id : Z;
  rid_assoc1 : Z;
  rid_assoc2 : Z;
  addr_assoc1 : Z;
  addr_assoc2 : Z;
  addr_assoc3 : Z
}.

(** Fields of the registers that are written. *)
Definition rid_assoc1_of (rid_limit : Z) : Z := set_bits 8 16 rid_limit 0.
Definition rid_assoc2_of (rid_base valid segment_base : Z) : Z :=
  set_bits 24 8 segment_base (set_bits 0 1 valid (set_bits 8 16 rid_base 0)).
Definition addr_assoc1_of (mem_base_lower mem_limit_lower valid : Z) : Z :=
  set_bits 0 1 valid (set_bits 20 12 mem_limit_lower (set_bits 8 12 mem_base_lower 0)).

Section machine.
Context {D : Type} `{Bus D}.

(** ** Walking the capability lists

    A list that runs in a circle keeps the code walking for ever.  The
    pointers have 8 and 12 bits, so 256 and 4096 rounds are enough for any
    other list. *)
Definition get_cap_offset (fd id : Z) : io D Z :=
  let+ data16 := device_pci_read_16 0x34 fd in
  let walker := Z.land data16 0xFF in
  if negb (id =? PCIE_CAPABILITY_ID) then ret 0 else
  io_while 256 (λ walker,
    if (walker <? PCIE_EXT_CAP_START) && negb (walker =? 0) then
      let+ cap_header := device_pci_read_32 walker fd in
      if list_id cap_header =? id then ret (inr walker)
      else ret (inl (list_next cap_header))
    else ret (inr 0)) walker.

Definition get_extended_cap_offset (fd ext_id : Z) : io D Z :=
  if negb (ext_id =? PCI_DOE_EXT_CAPABILITY_ID) && negb (ext_id =? PCI_IDE_EXT_CAPABILITY_ID)
     && negb (ext_id =? PCI_AER_EXT_CAPABILITY_ID) && negb (ext_id =? PCI_DEVICE3_EXT_CAPABILITY_ID)
  then ret 0 else
  io_while 4096 (λ walker,
    if (walker <? 0x1000) && negb (walker =? 0) then
      let+ cap_ext_header := device_pci_read_32 walker fd in
      if cap_id cap_ext_header =? ext_id then ret (inr walker)
      else ret (inl (cap_next cap_ext_header))
    else ret (inr 0)) 0x100.

(** One round of the walk: an offset found is stored in the array, when
    there is one; [size] is its length on entry. *)
Definition doe_cap_found (doe_offsets : option (list Z)) (cnt size walker : Z)
    : res (option (list Z) * Z) :=
  match doe_offsets with
  | Some a => let* _ := TEEIO_ASSERT (cnt <? size) in
              let* a := array_set a cnt walker in Ok (Some a, cnt + 1)
  | None => Ok (None, cnt + 1)
  end.

(** The body of the walk: pointer, array, count. *)
Definition doe_walk_step (fd size : Z) (s : Z * option (list Z) * Z)
    : io D (Z * option (list Z) * Z + option (list Z) * Z) :=
  let '(walker, doe_offsets, cnt) := s in
  if (walker <? 0x1000) && negb (walker =? 0) then
    let+ cap_ext_header := device_pci_read_32 walker fd in
    let+ (doe_offsets, cnt) :=
      (if cap_id cap_ext_header =? PCI_DOE_EXT_CAPABILITY_ID
       then lift (doe_cap_found doe_offsets cnt size walker)
       else ret (doe_offsets, cnt)) in
    ret (inl (cap_next cap_ext_header, doe_offsets, cnt))
  else ret (inr (doe_offsets, cnt)).

(** Returns its value, the array and the number of capabilities stored to
    [*size] ([size] itself is not null at the call sites). *)
Definition get_doe_extended_cap_offset (fd : Z) (doe_offsets : option (list Z)) (size : Z)
    : io D (bool * option (list Z) * Z) :=
  let+ (doe_offsets, cnt) := io_while 4096 (doe_walk_step fd size) (0x100, doe_offsets, 0) in
  ret (0 <? cnt, doe_offsets, cnt).

(** ** The register block of a stream *)

(** [lnk_ide_supported ? num_lnk_ide + 1 : 0] *)
Definition lnk_count (cap : Z) : Z := if lnk_ide_supported cap =? 1 then num_lnk_ide cap + 1 else 0.
Definition sel_count (cap : Z) : Z := if sel_ide_supported cap =? 1 then num_sel_ide cap + 1 else 0.

(** The body of the loop over the selective blocks before the wanted one. *)
Definition skip_sel_block (fd : Z) (_ off : Z) : io D Z :=
  let+ ide_stream_cap := device_pci_read_32 off fd in
  let+ _ := io_assert (num_addr_assoc_reg_blocks ide_stream_cap =? 1) in
  let size_of_assoc_block :=
    sizeof_PCIE_SEL_IDE_ADDR_ASSOC_REG_BLOCK * num_addr_assoc_reg_blocks ide_stream_cap in
  let off := u32 (off + sizeof_PCIE_SEL_IDE_STREAM_REG_BLOCK) in
  ret (u32 (off + size_of_assoc_block)).

Definition get_ide_reg_block_offset (fd ide_type id ide_ecap_offset : Z) : io D Z :=
  let+ cap := device_pci_read_32 (u32 (ide_ecap_offset + 4)) fd in
  let num_lnk := lnk_count cap in
  if ide_type =? TEST_IDE_TYPE_LNK_IDE then
    let+ _ := io_assert (id <? num_lnk) in
    let+ _ := io_assert (lnk_ide_supported cap =? 1) in
    ret (u32 (ide_ecap_offset + 4 + 4 + 4 + LINK_IDE_REGISTER_BLOCK_SIZE * id))
  else
    let+ _ := io_assert (sel_ide_supported cap =? 1) in
    let+ _ := io_assert ((num_lnk <=? id) && (id <=? num_sel_ide cap + num_lnk)) in
    io_fold (skip_sel_block fd) (range num_lnk id)
            (u32 (ide_ecap_offset + 4 + 4 + 4 + LINK_IDE_REGISTER_BLOCK_SIZE * num_lnk)).

(** [offset] of the control register: "For sel_ide, ide_ctrl is preceded by ide_cap." *)
Definition ctrl_reg_offset (fd ide_type id ide_ecap_offset : Z) : io D Z :=
  let+ offset := get_ide_reg_block_offset fd ide_type id ide_ecap_offset in
  ret (if ide_type =? TEST_IDE_TYPE_SEL_IDE then u32 (offset + 4) else offset).

Definition set_pcrc_in_ecap (fd ide_type id ide_ecap_offset : Z) (enable : bool) : io D bool :=
  let+ offset := ctrl_reg_offset fd ide_type id ide_ecap_offset in
  let+ ide_stream_ctrl := device_pci_read_32 offset fd in
  let+ _ := device_pci_write_32 offset (set_bits 8 1 (if enable then 1 else 0) ide_stream_ctrl) fd in
  ret true.

Definition set_sel_ide_for_cfg_req_in_ecap (fd ide_type id ide_ecap_offset : Z) (enable : bool) : io D bool :=
  let+ offset := ctrl_reg_offset fd ide_type id ide_ecap_offset in
  let+ ide_stream_ctrl := device_pci_read_32 offset fd in
  let+ _ := device_pci_write_32 offset (set_bits 9 1 (if enable then 1 else 0) ide_stream_ctrl) fd in
  ret true.

Definition enable_ide_stream_in_ecap (cfg_space_fd ecap_offset ide_type id : Z) (enable : bool) : io D bool :=
  let+ offset := ctrl_reg_offset cfg_space_fd ide_type id ecap_offset in
  let+ data := device_pci_read_32 offset cfg_space_fd in
  let data := if enable then Z.lor data IDE_STREAM_CTRL_ENABLE
              else Z.land data (u32 (Z.lnot IDE_STREAM_CTRL_ENABLE)) in
  let+ _ := device_pci_write_32 offset data cfg_space_fd in
  ret true.

Definition read_ide_stream_ctrl_in_ecap (fd ide_type id ide_ecap_offset : Z) : io D Z :=
  let+ offset := ctrl_reg_offset fd ide_type id ide_ecap_offset in
  device_pci_read_32 offset fd.

Definition read_ide_stream_status_in_ecap (fd ide_type id ide_ecap_offset : Z) : io D Z :=
  let+ offset := get_ide_reg_block_offset fd ide_type id ide_ecap_offset in
  let offset := u32 (offset + 4) in
  device_pci_read_32 (if ide_type =? TEST_IDE_TYPE_SEL_IDE then u32 (offset + 4) else offset) fd.

Definition read_stream_status_in_rp_ecap (cfg_space_fd ecap_offset ide_type id : Z) : io D Z :=
  let+ offset := get_ide_reg_block_offset cfg_space_fd ide_type id ecap_offset in
  let+ offset :=
    (if ide_type =? TEST_IDE_TYPE_SEL_IDE then ret (u32 (offset + 8))
     else if ide_type =? TEST_IDE_TYPE_LNK_IDE then ret (u32 (offset + 4))
     else let+ _ := io_assert false in ret offset) in
  device_pci_read_32 offset cfg_space_fd.

Definition is_ide_enabled (cfg_space_fd ide_type id ecap_offset : Z) : io D bool :=
  let+ offset := ctrl_reg_offset cfg_space_fd ide_type id ecap_offset in
  let+ stream_ctrl_reg := device_pci_read_32 offset cfg_space_fd in
  ret (Z.land stream_ctrl_reg IDE_STREAM_CTRL_ENABLE =? IDE_STREAM_CTRL_ENABLE).

Definition setup_ide_ecap_regs (fd ide_type id ide_ecap_offset stream_ctrl_reg
    rid_assoc_1 rid_assoc_2 addr_assoc_1 addr_assoc_2 addr_assoc_3 : Z) : io D bool :=
  let+ offset := ctrl_reg_offset fd ide_type id ide_ecap_offset in
  let ctrl_offset := offset in
  let+ _ :=
    (if ide_type =? TEST_IDE_TYPE_SEL_IDE then
       let offset := u32 (offset + 2 * 4) in
       let+ _ := device_pci_write_32 offset rid_assoc_1 fd in
       let offset := u32 (offset + 4) in
       let+ _ := device_pci_write_32 offset rid_assoc_2 fd in
       let offset := u32 (offset + 4) in
       let+ _ := device_pci_write_32 offset addr_assoc_1 fd in
       let offset := u32 (offset + 4) in
       let+ _ := device_pci_write_32 offset addr_assoc_2 fd in
       let offset := u32 (offset + 4) in
       device_pci_write_32 offset addr_assoc_3 fd
     else ret tt) in
  let+ _ := device_pci_write_32 ctrl_offset stream_ctrl_reg fd in
  ret true.

(** ** Free register blocks and streams *)

(** [kcbar->capabilities], [stream_config_reg_block + i]: plain loads from the
    mapped registers. *)
Definition stream_config_reg_block (kcbar i : Z) : Z :=
  kcbar + 4 + sizeof_INTEL_KEYP_STREAM_CONFIG_REG_BLOCK * i.

Definition find_free_lnk (fd i offset : Z) : io D (Z + Z) :=
  let+ lnk_ide_stream_ctrl := device_pci_read_32 offset fd in
  let+ lnk_ide_stream_status := device_pci_read_32 (offset + 4) fd in
  ret (if ctrl_enabled lnk_ide_stream_ctrl =? 0 then inr i
       else inl (offset + LINK_IDE_REGISTER_BLOCK_SIZE)).

Definition find_free_sel (fd i offset : Z) : io D (Z + Z) :=
  let+ sel_ide_stream_cap := device_pci_read_32 offset fd in
  let offset := offset + 4 in
  let+ sel_ide_stream_ctrl := device_pci_read_32 offset fd in
  let offset := offset + 4 in
  let+ sel_ide_stream_status := device_pci_read_32 offset fd in
  let offset := offset + 4 in
  ret (if ctrl_enabled sel_ide_stream_ctrl =? 0 then inr i
       else inl (offset + (2 * 4 + num_addr_assoc_reg_blocks sel_ide_stream_cap * 3 * 4))).

Definition find_free_stream (kcbar i : Z) (_ : unit) : io D (unit + Z) :=
  let+ control := mmio_read_reg32 (stream_config_reg_block kcbar i) in
  ret (if stream_en control =? 0 then inr i else inl tt).

(** The pointer arguments: [rp_stream_index] may be null, the values are
    returned with the result. *)
Definition find_free_rp_stream_index_and_ide_id (port_context : ide_common_test_port_context_t)
    (rp_stream_index : option Z) (id : Z) (top_type : Z) (rp_or_dev : bool)
    : io D (bool * option Z * Z) :=
  let fd := cfg_space_fd port_context in
  let+ ide_type :=
    (if top_type =? IDE_TEST_TOPOLOGY_TYPE_LINK_IDE then ret TEST_IDE_TYPE_LNK_IDE
     else if top_type =? IDE_TEST_TOPOLOGY_TYPE_SEL_LINK_IDE
     then let+ _ := io_assert false in ret TEST_IDE_TYPE_NA
     else ret TEST_IDE_TYPE_SEL_IDE) in
  let cap := ide_cap port_context in
  let num_lnk := lnk_count cap in
  let num_sel := sel_count cap in
  let offset := ecap_offset port_context + 4 + 4 + 4 in
  let+ found :=
    (if ide_type =? TEST_IDE_TYPE_LNK_IDE then
       if lnk_ide_supported cap =? 0 then ret (inl offset)
       else io_for (find_free_lnk fd) (range 0 num_lnk) offset
     else
       if sel_ide_supported cap =? 0 then ret (inl offset)
       else io_for (find_free_sel fd) (range num_lnk (num_lnk + num_sel))
                   (offset + num_lnk * LINK_IDE_REGISTER_BLOCK_SIZE)) in
  match found with
  | inl _ => ret (false, rp_stream_index, id)
  | inr i =>
      let id := u8 i in
      if rp_or_dev then
        let kcbar := mapped_kcbar_addr port_context in
        let+ capabilities := mmio_read_reg32 kcbar in
        let+ found := io_for (find_free_stream kcbar) (range 0 (num_stream_supported capabilities + 1)) tt in
        match found with
        | inl _ => ret (false, rp_stream_index, id)
        | inr i => let+ _ := lift (deref rp_stream_index) in ret (true, Some (u8 i), id)
        end
      else ret (true, rp_stream_index, id)
  end.

(** To check if the stream_id is used in rootport. *)
Definition stream_used (stream_id kcbar i : Z) (_ : unit) : io D (unit + unit) :=
  let+ control := mmio_read_reg32 (stream_config_reg_block kcbar i) in
  ret (if (stream_en control =? 1) && (stream_stream_id control =? stream_id) then inr tt else inl tt).

Definition lnk_used (stream_id fd _i offset : Z) : io D (Z + unit) :=
  let+ lnk_ide_stream_ctrl := device_pci_read_32 offset fd in
  ret (if (ctrl_enabled lnk_ide_stream_ctrl =? 1) && (ctrl_stream_id lnk_ide_stream_ctrl =? stream_id)
       then inr tt else inl (u32 (offset + LINK_IDE_REGISTER_BLOCK_SIZE))).

Definition sel_used (stream_id fd _i offset : Z) : io D (Z + unit) :=
  let+ sel_ide_stream_cap := device_pci_read_32 offset fd in
  let+ sel_ide_stream_ctrl := device_pci_read_32 (u32 (offset + 4)) fd in
  ret (if (ctrl_enabled sel_ide_stream_ctrl =? 1) && (ctrl_stream_id sel_ide_stream_ctrl =? stream_id)
       then inr tt
       else inl (u32 (offset + (3 * 4 + 2 * 4 + num_addr_assoc_reg_blocks sel_ide_stream_cap * 3 * 4)))).

Definition check_stream_id_used_in_rootport (stream_id : Z)
    (root_port_context : ide_common_test_port_context_t) : io D bool :=
  let kcbar := mapped_kcbar_addr root_port_context in
  let+ capabilities := mmio_read_reg32 kcbar in
  let+ used := io_for (stream_used stream_id kcbar) (range 0 (num_stream_supported capabilities + 1)) tt in
  match used with
  | inr _ => ret true
  | inl _ =>
      let fd := cfg_space_fd root_port_context in
      let offset := u32 (ecap_offset root_port_context + 4) in
      let+ cap := device_pci_read_32 offset fd in
      let num_lnk := lnk_count cap in
      let num_sel := sel_count cap in
      let offset := u32 (offset + 4) in
      let+ used :=
        (if 0 <? num_lnk then
           io_for (lnk_used stream_id fd) (range 0 num_lnk) (u32 (offset + 4))
         else ret (inl offset)) in
      match used with
      | inr _ => ret true
      | inl offset =>
          if 0 <? num_sel then
            let+ used := io_for (sel_used stream_id fd) (range 0 num_sel) offset in
            match used with inr _ => ret true | inl _ => ret false end
          else ret false
      end
  end.

(** ** Contents of the association registers *)

Definition populate_rid_assoc_reg_block (segment bus device func : Z) : Z * Z :=
  let rid_base := u16 (u16 (Z.shiftl bus 8) + device) in
  let rid_limit := u16 (rid_base + func + 1) in
  let segment_base := u8 (Z.land segment 0xff) in
  (rid_assoc1_of rid_limit, rid_assoc2_of rid_base 1 segment_base).

(** ** Flit mode and captured segment *)

Definition pcie_check_flit_mode_enabled (port_context : ide_common_test_port_context_t) : io D bool :=
  let fd := cfg_space_fd port_context in
  let+ pcie_cap_offset := get_cap_offset fd PCIE_CAPABILITY_ID in
  let+ pcie_cap := device_pci_read_16 (u32 (pcie_cap_offset + 0x02)) fd in
  if negb (get_bits 15 1 pcie_cap =? 0) then
    let+ pcie_link_status2 := device_pci_read_16 (u32 (pcie_cap_offset + 0x32)) fd in
    ret (negb (get_bits 10 1 pcie_link_status2 =? 0))
  else ret false.

Definition pcie_check_segment_captured (port_context : ide_common_test_port_context_t) : io D bool :=
  let fd := cfg_space_fd port_context in
  let+ ecap_offset := get_extended_cap_offset fd PCI_DEVICE3_EXT_CAPABILITY_ID in
  if ecap_offset =? 0 then ret true else
  let+ device_status3 := device_pci_read_32 (u32 (ecap_offset + 0x0C)) fd in
  ret (negb (get_bits 3 1 device_status3 =? 0)).

End machine.
End PcieIde.
