(* ===== verification/PcieIdeSpec.v ===== *)
(** * What the IDE extended capability looks like, and that the code agrees

    Configuration space is described by what its registers read: chains of
    capabilities, and the IDE capability as a header and lists of register
    blocks.  The walks, the offsets, the control register updates and the
    choice of free blocks of [PcieIde] are proved against that. *)
From Stdlib Require Import ZArith Lia Ascii String.
From stdpp Require Import prelude.
From S2P Require Import Prelude TestConfig Hardware PcieIde.

Open Scope Z_scope.
Open Scope teeio_scope.

Module PcieIdeSpec.
Import TestConfig Hardware PcieIde.

Lemma u32_id x : 0 ≤ x < 2 ^ 32 → u32 x = x.
Proof. apply Z.mod_small. Qed.

(** Removes the wrap-around of sums that stay below 2^32. *)
Ltac u32_small := repeat (rewrite u32_id; [|lia]).

(** ** Capability chains *)
Section chains.
Context {D : Type} `{Bus D}.

(** The list of the capabilities that starts at an offset: their offsets
    and headers.  It ends at a pointer outside of [(0, limit)]. *)
Inductive chain (limit : Z) (next : Z → Z) (fd : Z) (d : D) : Z → list (Z * Z) → Prop :=
| chain_end w : ¬ (w < limit ∧ w ≠ 0) → chain limit next fd d w []
| chain_cap w h l : w < limit → w ≠ 0 → reads d (Cfg fd w) 4 h →
    chain limit next fd d (next h) l → chain limit next fd d w ((w, h) :: l).

(** The first capability with a header that fits. *)
Definition first_cap (P : Z → bool) (l : list (Z * Z)) : Z :=
  match List.find (λ c, P c.2) l with Some c => c.1 | None => 0 end.

Lemma chain_fun limit next fd d w l k :
  chain limit next fd d w l → chain limit next fd d w k → l = k.
Proof.
  intros Hl. revert k. induction Hl as [w Hw|w h l Hlt H0 Hr Hl IH]; intros k Hk.
  - inversion Hk; subst; [done|tauto].
  - inversion Hk as [|? h' k' ? ? Hr' Hk']; subst; [tauto|].
    assert (h' = h) as -> by eauto using reads_fun. f_equal. by apply IH.
Qed.

Lemma chain_suffix limit next fd d w l k j :
  chain limit next fd d w l → l = k ++ j → ∃ v, chain limit next fd d v j.
Proof.
  revert w l. induction k as [|c k IH]; intros w l Hl ->; [eauto|].
  inversion Hl; subst. eauto.
Qed.

Lemma chain_head limit next fd d w c l : chain limit next fd d w (c :: l) → w = c.1.
Proof. by inversion 1. Qed.

(** Reading the list once determines it, so no offset comes twice. *)
Lemma chain_NoDup limit next fd d w l : chain limit next fd d w l → NoDup l.*1.
Proof.
  induction 1 as [|w h l Hlt H0 Hr Hl IH]; [constructor|]. cbn [fmap list_fmap].
  constructor; [|done]. intros Hin.
  apply list_elem_of_fmap in Hin as ([w' h'] & Hw & Hin). simpl in Hw. subst w'.
  apply list_elem_of_split in Hin as (k & j & E).
  destruct (chain_suffix _ _ _ _ _ _ _ _ Hl E) as [v Hv].
  pose proof (chain_head _ _ _ _ _ _ _ Hv) as Ev. simpl in Ev. subst v.
  assert (Hc : chain limit next fd d w ((w, h) :: l)) by by constructor.
  pose proof (f_equal length (chain_fun _ _ _ _ _ _ _ Hc Hv)) as Hlen.
  rewrite E in Hlen. simpl in Hlen. rewrite length_app in Hlen. simpl in Hlen. lia.
Qed.

Lemma chain_range limit next fd d w l :
  (∀ h, 0 ≤ next h) → 0 ≤ w → chain limit next fd d w l → Forall (λ v, v ∈ seqZ 1 (limit - 1)) l.*1.
Proof.
  intros Hn Hw. induction 1 as [|w h l Hlt H0 Hr Hl IH]; [constructor|]. constructor; [|by apply IH].
  apply elem_of_seqZ. simpl. lia.
Qed.

(** Pointers below [limit] make chains shorter than [limit]. *)
Lemma chain_length limit next fd d w l :
  1 ≤ limit → (∀ h, 0 ≤ next h) → 0 ≤ w → chain limit next fd d w l → Z.of_nat (length l) < limit.
Proof.
  intros Hlim Hn Hw Hl. pose proof (chain_range _ _ _ _ _ _ Hn Hw Hl) as Hr.
  assert (l.*1 ⊆+ seqZ 1 (limit - 1)) as Hsub.
  { apply NoDup_submseteq; [eauto using chain_NoDup|]. intros v Hv.
    rewrite Forall_forall in Hr. by apply Hr. }
  apply submseteq_length in Hsub. rewrite length_fmap, length_seqZ in Hsub. lia.
Qed.

Lemma walk_guard limit w : w < limit → w ≠ 0 → (w <? limit) && negb (w =? 0) = true.
Proof. intros. apply andb_true_iff. rewrite negb_true_iff, Z.eqb_neq, Z.ltb_lt. lia. Qed.

Lemma walk_guard_end limit w : ¬ (w < limit ∧ w ≠ 0) → (w <? limit) && negb (w =? 0) = false.
Proof. intros. apply andb_false_iff. rewrite negb_false_iff, Z.eqb_eq, Z.ltb_ge. lia. Qed.

Lemma fuel_succ {A} (x : A) l p :
  Z.of_nat (length (x :: l)) < Zpos p → ∃ q, p = Pos.succ q ∧ Z.of_nat (length l) < Zpos q.
Proof. intros Hp. exists (Pos.pred p). simpl in Hp. split; lia. Qed.

(** The loop of the two walks. *)
Lemma walk_chain limit next fd d (P : Z → bool) w l p :
  0 < fd → chain limit next fd d w l → Z.of_nat (length l) < Zpos p →
  io_while p (λ walker,
    if (walker <? limit) && negb (walker =? 0) then
      let+ h := device_pci_read_32 walker fd in
      if P h then ret (inr walker) else ret (inl (next h))
    else ret (inr 0)) w d = Ok (first_cap P l, d).
Proof.
  intros Hfd Hl. revert p. induction Hl as [w Hw|w h l Hlt H0 Hr Hl IH]; intros p Hp.
  - apply io_while_exit. cbv beta. by rewrite walk_guard_end.
  - apply fuel_succ in Hp as (q & -> & Hq). rewrite io_while_succ. cbv beta.
    rewrite walk_guard, (bind_read32 _ _ _ _ h) by done. unfold first_cap. cbn [List.find snd fst].
    destruct (P h); [done|]. cbn [ret]. by apply IH.
Qed.

(** The offsets of all capabilities of one kind. *)
Definition all_caps (P : Z → bool) (l : list (Z * Z)) : list Z :=
  map fst (List.filter (λ c, P c.2) l).

Definition is_doe (h : Z) : bool := cap_id h =? PCI_DOE_EXT_CAPABILITY_ID.

(** The loop stores the offsets of the chain one by one. *)
Lemma doe_walk fd d w l s cnt p size :
  0 < fd → chain 0x1000 cap_next fd d w l → Z.of_nat (length l) < Zpos p →
  io_while p (doe_walk_step fd size) (w, s, cnt) d =
  lift (fold_res (λ w '(s, cnt), doe_cap_found s cnt size w) (all_caps is_doe l) (s, cnt)) d.
Proof.
  intros Hfd Hl. revert p s cnt. induction Hl as [w Hw|w h l Hlt H0 Hr Hl IH]; intros p s cnt Hp.
  - apply io_while_exit. unfold doe_walk_step. by rewrite walk_guard_end.
  - apply fuel_succ in Hp as (q & -> & Hq). rewrite io_while_succ. unfold doe_walk_step at 1.
    rewrite walk_guard, (bind_read32 _ _ _ _ h) by done.
    unfold all_caps. cbn [List.filter snd]. unfold is_doe at 1.
    destruct (cap_id h =? PCI_DOE_EXT_CAPABILITY_ID); cbn [map fst fold_res].
    + destruct (doe_cap_found s cnt size w) as [[s' cnt']|e]; [|done].
      rewrite (bind_lift_Ok _ _ _ (s', cnt')) by done. cbn [ret res_bind]. by apply IH.
    + rewrite bind_ret. cbn [ret]. by apply IH.
Qed.

Lemma doe_store_all size offs a b :
  Z.of_nat (length a + length offs) ≤ size → size ≤ Z.of_nat (length (a ++ b)) →
  fold_res (λ w '(s, cnt), doe_cap_found s cnt size w) offs (Some (a ++ b), Z.of_nat (length a)) =
  Ok (Some (a ++ offs ++ drop (length offs) b), Z.of_nat (length (a ++ offs))).
Proof.
  revert a b. induction offs as [|w offs IH]; intros a b Ha Hb; cbn [fold_res].
  { by rewrite app_nil_r, drop_0. }
  rewrite length_app in Hb. cbn [length] in Ha. destruct b as [|y b]; [simpl in Hb; lia|].
  unfold doe_cap_found at 1. rewrite (proj2 (Z.ltb_lt _ _)) by lia. cbn [TEEIO_ASSERT res_bind].
  unfold array_set. rewrite length_app. cbn [length].
  rewrite (proj2 (Z.leb_le _ _)), (proj2 (Z.ltb_lt _ _)) by lia. cbn [andb res_bind].
  rewrite Nat2Z.id, insert_app_r_alt, Nat.sub_diag by lia. cbn [insert list_insert].
  replace (a ++ w :: b) with ((a ++ [w]) ++ b) by by rewrite <- app_assoc.
  replace (Z.of_nat (length a) + 1) with (Z.of_nat (length (a ++ [w]))) by (rewrite length_app; simpl; lia).
  rewrite IH.
  - rewrite <- !app_assoc. done.
  - rewrite length_app. simpl. lia.
  - rewrite !length_app in *. simpl in *. lia.
Qed.

Lemma doe_store_overflow size offs a b :
  Z.of_nat (length a) ≤ size → size < Z.of_nat (length a + length offs) → size ≤ Z.of_nat (length (a ++ b)) →
  fold_res (λ w '(s, cnt), doe_cap_found s cnt size w) offs (Some (a ++ b), Z.of_nat (length a)) =
  Stop AssertHang.
Proof.
  revert a b. induction offs as [|w offs IH]; intros a b Ha Ho Hb; cbn [fold_res]; cbn [length] in Ho; [lia|].
  unfold doe_cap_found at 1. destruct (Z.ltb_spec (Z.of_nat (length a)) size) as [Hlt|]; [|done].
  rewrite length_app in Hb. destruct b as [|y b]; [simpl in Hb; lia|].
  cbn [TEEIO_ASSERT res_bind]. unfold array_set. rewrite length_app. cbn [length].
  rewrite (proj2 (Z.leb_le _ _)), (proj2 (Z.ltb_lt _ _)) by lia. cbn [andb res_bind].
  rewrite Nat2Z.id, insert_app_r_alt, Nat.sub_diag by lia. cbn [insert list_insert].
  replace (a ++ w :: b) with ((a ++ [w]) ++ b) by by rewrite <- app_assoc.
  replace (Z.of_nat (length a) + 1) with (Z.of_nat (length (a ++ [w]))) by (rewrite length_app; simpl; lia).
  apply IH; rewrite ?length_app; simpl; rewrite ?length_app in *; simpl in *; lia.
Qed.

Lemma doe_count_all size offs n :
  fold_res (λ w '(s, cnt), doe_cap_found s cnt size w) offs (None, n) = Ok (None, n + Z.of_nat (length offs)).
Proof.
  revert n. induction offs as [|w offs IH]; intros n; cbn [fold_res].
  { by rewrite Z.add_0_r. }
  cbn [doe_cap_found res_bind]. rewrite IH. cbn [length].
  by replace (n + 1 + Z.of_nat (length offs)) with (n + Z.of_nat (S (length offs))) by lia.
Qed.
End chains.

(** ** The IDE capability *)

Record lnk_block := { lb_ctrl : Z; lb_status : Z }.
Record sel_block := { sb_cap : Z; sb_ctrl : Z; sb_status : Z }.

(** A selective block: capability, control and status registers, two RID association
    registers, and three registers for each address association block. *)
Definition sel_size (b : sel_block) : Z := 20 + 12 * num_addr_assoc_reg_blocks (sb_cap b).

Fixpoint sel_sizes (l : list sel_block) : Z :=
  match l with [] => 0 | b :: l => sel_size b + sel_sizes l end.

Definition one_addr_block (b : sel_block) : bool := num_addr_assoc_reg_blocks (sb_cap b) =? 1.

Lemma sel_size_ge b : 20 ≤ sel_size b.
Proof. unfold sel_size, num_addr_assoc_reg_blocks. pose proof (get_bits_range 0 4 (sb_cap b)). lia. Qed.

Lemma sel_sizes_nonneg l : 0 ≤ sel_sizes l.
Proof. induction l as [|b l IH]; simpl; [lia|]. pose proof (sel_size_ge b). lia. Qed.

Lemma sel_sizes_app l k : sel_sizes (l ++ k) = sel_sizes l + sel_sizes k.
Proof. induction l as [|b l IH]; simpl; [done|]. lia. Qed.

Lemma sel_sizes_ones l : forallb one_addr_block l = true → sel_sizes l = 32 * Z.of_nat (length l).
Proof.
  induction l as [|b l IH]; simpl; [lia|]. intros [Hb Hl]%andb_true_iff.
  unfold one_addr_block in Hb. unfold sel_size. apply Z.eqb_eq in Hb. rewrite Hb, IH by done. lia.
Qed.

Section ecap.
Context {D : Type} `{Bus D}.

Fixpoint lnk_at (d : D) (fd off : Z) (l : list lnk_block) : Prop :=
  match l with
  | [] => True
  | b :: l => reads d (Cfg fd off) 4 (lb_ctrl b) ∧ reads d (Cfg fd (off + 4)) 4 (lb_status b) ∧
              lnk_at d fd (off + 8) l
  end.

Fixpoint sel_at (d : D) (fd off : Z) (l : list sel_block) : Prop :=
  match l with
  | [] => True
  | b :: l => reads d (Cfg fd off) 4 (sb_cap b) ∧ reads d (Cfg fd (off + 4)) 4 (sb_ctrl b) ∧
              reads d (Cfg fd (off + 8)) 4 (sb_status b) ∧ sel_at d fd (off + sel_size b) l
  end.

(** The capability at offset [e] of the configuration space open as [fd]:
    the capability register, then the link blocks, then the selective ones,
    within the 4096 bytes. *)
Record ide_ecap_at (d : D) (fd e cap : Z) (lnks : list lnk_block) (sels : list sel_block) : Prop := {
  ecap_fd : 0 < fd;
  ecap_low : 0 ≤ e;
  ecap_cap : reads d (Cfg fd (e + 4)) 4 cap;
  ecap_lnks : Z.of_nat (length lnks) = lnk_count cap;
  ecap_sels : Z.of_nat (length sels) = sel_count cap;
  ecap_lnk_regs : lnk_at d fd (e + 12) lnks;
  ecap_sel_regs : sel_at d fd (e + 12 + 8 * Z.of_nat (length lnks)) sels;
  ecap_end : e + 12 + 8 * Z.of_nat (length lnks) + sel_sizes sels ≤ 4096
}.

(** Where the blocks of a link or selective stream start, counting the
    streams through: link streams first. *)
Definition block_offset (e : Z) (lnks : list lnk_block) (sels : list sel_block) (ide_type id : Z) : Z :=
  if ide_type =? TEST_IDE_TYPE_LNK_IDE then e + 12 + 8 * id
  else e + 12 + 8 * Z.of_nat (length lnks) + sel_sizes (take (Z.to_nat (id - Z.of_nat (length lnks))) sels).

(** The streams [get_ide_reg_block_offset] can address: a selective block
    is reached only over blocks with one address association block. *)
Definition addressable (lnks : list lnk_block) (sels : list sel_block) (ide_type id : Z) : bool :=
  if ide_type =? TEST_IDE_TYPE_LNK_IDE then id <? Z.of_nat (length lnks)
  else (Z.of_nat (length lnks) <=? id) && (id <? Z.of_nat (length lnks) + Z.of_nat (length sels)) &&
       forallb one_addr_block (take (Z.to_nat (id - Z.of_nat (length lnks))) sels).

(** The control and status registers of such a stream. *)
Definition stream_regs (lnks : list lnk_block) (sels : list sel_block) (ide_type id : Z) : option (Z * Z) :=
  if ide_type =? TEST_IDE_TYPE_LNK_IDE
  then (λ b, (lb_ctrl b, lb_status b)) <$> lnks !! Z.to_nat id
  else (λ b, (sb_ctrl b, sb_status b)) <$> sels !! Z.to_nat (id - Z.of_nat (length lnks)).

(** The offset of the control register in the block. *)
Definition ctrl_pos (ide_type : Z) : Z := if ide_type =? TEST_IDE_TYPE_SEL_IDE then 4 else 0.

Lemma sel_at_app d fd off l k :
  sel_at d fd off (l ++ k) ↔ sel_at d fd off l ∧ sel_at d fd (off + sel_sizes l) k.
Proof.
  revert off. induction l as [|b l IH]; intros off; simpl.
  - rewrite Z.add_0_r. tauto.
  - rewrite IH. replace (off + sel_size b + sel_sizes l) with (off + (sel_size b + sel_sizes l)) by lia. tauto.
Qed.

Lemma lnk_at_lookup d fd off l i b :
  lnk_at d fd off l → l !! i = Some b →
  reads d (Cfg fd (off + 8 * Z.of_nat i)) 4 (lb_ctrl b) ∧ reads d (Cfg fd (off + 8 * Z.of_nat i + 4)) 4 (lb_status b).
Proof.
  revert off i. induction l as [|c l IH]; intros off i; simpl; [done|]. intros (Hc & Hs & Hl).
  destruct i as [|i]; simpl.
  - intros [= <-]. by rewrite Z.add_0_r.
  - intros Hi. replace (off + 8 * Z.of_nat (S i)) with (off + 8 + 8 * Z.of_nat i) by lia. by apply IH.
Qed.

Lemma sel_at_lookup d fd off l i b :
  sel_at d fd off l → l !! i = Some b →
  let o := off + sel_sizes (take i l) in
  reads d (Cfg fd (o + 4)) 4 (sb_ctrl b) ∧ reads d (Cfg fd (o + 8)) 4 (sb_status b).
Proof.
  intros Hl Hi. rewrite <- (take_drop i l), sel_at_app in Hl. destruct Hl as [_ Hl].
  rewrite (drop_S _ _ _ Hi) in Hl. simpl in Hl. cbv zeta. destruct Hl as (_ & ? & ? & _). done.
Qed.

(** The loop over the selective blocks before the wanted one. *)
Lemma skip_sel_blocks d fd off l k lo :
  0 < fd → 0 ≤ off → sel_at d fd off l → off + sel_sizes l ≤ 4096 → (k ≤ length l)%nat →
  io_fold (skip_sel_block fd) (seqZ lo (Z.of_nat k)) off d =
  if forallb one_addr_block (take k l) then Ok (off + sel_sizes (take k l), d) else Stop AssertHang.
Proof.
  intros Hfd. revert off l lo. induction k as [|k IH]; intros off l lo Hoff Hl He Hk.
  { simpl. by rewrite Z.add_0_r. }
  destruct l as [|b l]; simpl in Hk; [lia|]. destruct Hl as (Hc & _ & _ & Hl). simpl in He.
  pose proof (sel_size_ge b). pose proof (sel_sizes_nonneg l).
  rewrite seqZ_cons by lia. cbn [io_fold take forallb sel_sizes].
  replace (Z.pred (Z.of_nat (S k))) with (Z.of_nat k) by lia.
  unfold skip_sel_block at 1. rewrite bind_assoc, (bind_read32 _ _ _ _ _ Hfd Hc), bind_assoc, bind_assert.
  unfold one_addr_block at 1. destruct (num_addr_assoc_reg_blocks (sb_cap b) =? 1) eqn:E; [|done].
  cbv zeta. rewrite bind_ret. cbn [andb]. apply Z.eqb_eq in E. rewrite E.
  assert (Hs : sel_size b = 32) by (unfold sel_size; lia).
  unfold sizeof_PCIE_SEL_IDE_STREAM_REG_BLOCK, sizeof_PCIE_SEL_IDE_ADDR_ASSOC_REG_BLOCK.
  rewrite (u32_id (off + 20)), u32_id by lia.
  replace (off + 20 + 12 * 1) with (off + sel_size b) by lia.
  rewrite (IH _ l) by (done || lia). destruct (forallb one_addr_block (take k l)); [|done].
  by rewrite Z.add_assoc.
Qed.

(** The offset of a stream's block, and the hang for the others. *)
Lemma reg_block_offset d fd e cap lnks sels ide_type id :
  ide_ecap_at d fd e cap lnks sels → 0 ≤ id →
  get_ide_reg_block_offset fd ide_type id e d =
  if addressable lnks sels ide_type id then Ok (block_offset e lnks sels ide_type id, d) else Stop AssertHang.
Proof.
  intros [Hfd He Hcap Hl Hs Hla Hsa Hend] Hid. pose proof (sel_sizes_nonneg sels).
  unfold get_ide_reg_block_offset. rewrite u32_id by lia. rewrite (bind_read32 _ _ _ _ cap) by done.
  unfold addressable, block_offset, LINK_IDE_REGISTER_BLOCK_SIZE. rewrite <- Hl. unfold lnk_count in Hl.
  destruct (ide_type =? TEST_IDE_TYPE_LNK_IDE).
  - rewrite bind_assert. destruct (Z.ltb_spec id (Z.of_nat (length lnks))); [|done].
    rewrite bind_assert. destruct (lnk_ide_supported cap =? 1); [|lia].
    unfold ret. repeat f_equal. u32_small. lia.
  - rewrite !bind_assert. unfold sel_count in Hs. pose proof (get_bits_range 16 8 cap) as Hr.
    fold (num_sel_ide cap) in Hr.
    destruct (sel_ide_supported cap =? 1); [|].
    2:{ replace (Z.of_nat (length sels)) with 0 by lia. destruct (Z.leb_spec (Z.of_nat (length lnks)) id); [|done].
        by destruct (Z.ltb_spec id (Z.of_nat (length lnks) + 0)); [lia|]. }
    destruct (Z.leb_spec (Z.of_nat (length lnks)) id); [|done].
    replace (id <=? num_sel_ide cap + Z.of_nat (length lnks))
      with (id <? Z.of_nat (length lnks) + Z.of_nat (length sels))
      by (apply Bool.eq_iff_eq_true; rewrite Z.ltb_lt, Z.leb_le; lia).
    destruct (Z.ltb_spec id (Z.of_nat (length lnks) + Z.of_nat (length sels))); [|done]. cbn [andb].
    unfold range. rewrite <- (Z2Nat.id (id - Z.of_nat (length lnks))) at 1 by lia.
    rewrite u32_id by lia.
    replace (e + 4 + 4 + 4 + 8 * Z.of_nat (length lnks)) with (e + 12 + 8 * Z.of_nat (length lnks)) by lia.
    apply skip_sel_blocks; [done|lia|done|lia|lia].
Qed.

(** A stream that can be addressed, and where its control register is. *)
Record stream_at (d : D) (fd e : Z) (lnks : list lnk_block) (sels : list sel_block)
    (ide_type id o ctrl status : Z) : Prop := {
  stream_offset : o = block_offset e lnks sels ide_type id + ctrl_pos ide_type;
  stream_found : stream_regs lnks sels ide_type id = Some (ctrl, status);
  stream_pos : ctrl_reg_offset fd ide_type id e d = Ok (o, d);
  stream_ctrl : reads d (Cfg fd o) 4 ctrl;
  stream_status : reads d (Cfg fd (o + 4)) 4 status;
  stream_bounds : 0 ≤ o < 4096
}.

Lemma addressable_stream d fd e cap lnks sels ide_type id :
  ide_ecap_at d fd e cap lnks sels → 0 ≤ id →
  ide_type = TEST_IDE_TYPE_SEL_IDE ∨ ide_type = TEST_IDE_TYPE_LNK_IDE →
  addressable lnks sels ide_type id = true →
  ∃ ctrl status, stream_at d fd e lnks sels ide_type id
                   (block_offset e lnks sels ide_type id + ctrl_pos ide_type) ctrl status.
Proof.
  intros He Hid Hty Ha. pose proof (reg_block_offset _ _ _ _ _ _ ide_type id He Hid) as Hoff.
  rewrite Ha in Hoff. destruct He as [Hfd H0 Hcap Hl Hs Hla Hsa Hend].
  assert (Hpos : ctrl_reg_offset fd ide_type id e d =
    Ok (if ide_type =? TEST_IDE_TYPE_SEL_IDE then u32 (block_offset e lnks sels ide_type id + 4)
        else block_offset e lnks sels ide_type id, d)).
  { unfold ctrl_reg_offset. by rewrite (bind_Ok _ _ _ _ _ Hoff). }
  unfold addressable in Ha. pose proof (sel_sizes_nonneg sels).
  destruct Hty as [-> | ->]; unfold block_offset, ctrl_pos in *; cbn [Z.eqb TEST_IDE_TYPE_SEL_IDE TEST_IDE_TYPE_LNK_IDE Pos.eqb] in *.
  - apply andb_true_iff in Ha as [[Ha1%Z.leb_le Ha2%Z.ltb_lt]%andb_true_iff Ha].
    set (i := Z.to_nat (id - Z.of_nat (length lnks))) in *.
    assert (i < length sels)%nat as Hi by lia. apply lookup_lt_is_Some in Hi as [b Hb].
    destruct (sel_at_lookup _ _ _ _ _ _ Hsa Hb) as [Hc Hst].
    pose proof (sel_sizes_nonneg (take i sels)). pose proof (sel_sizes_nonneg (drop (S i) sels)).
    pose proof (sel_size_ge b).
    assert (E : sel_sizes sels = sel_sizes (take i sels) + (sel_size b + sel_sizes (drop (S i) sels))).
    { rewrite <- (take_drop_middle sels i b Hb) at 1. by rewrite sel_sizes_app. }
    exists (sb_ctrl b), (sb_status b). rewrite u32_id in Hpos by lia. constructor; try done; try lia.
    + unfold stream_regs. simpl. fold i. by rewrite Hb.
    + by rewrite <- Z.add_assoc.
  - apply Z.ltb_lt in Ha. assert (Z.to_nat id < length lnks)%nat as Hi by lia.
    apply lookup_lt_is_Some in Hi as [b Hb]. destruct (lnk_at_lookup _ _ _ _ _ _ Hla Hb) as [Hc Hst].
    rewrite Z2Nat.id in Hc, Hst by lia. rewrite Z.add_0_r in *.
    exists (lb_ctrl b), (lb_status b). constructor; try done; try lia.
    + by rewrite Z.add_0_r.
    + unfold stream_regs. simpl. by rewrite Hb.
Qed.
End ecap.

(** Setting and clearing bit 0 with the mask is the update of the field. *)
Lemma or_enable x : Z.lor x IDE_STREAM_CTRL_ENABLE = set_bits 0 1 1 x.
Proof.
  apply Z.bits_inj'. intros i Hi. rewrite Z.lor_spec, set_bits_testbit by lia.
  unfold IDE_STREAM_CTRL_ENABLE. destruct (decide (i = 0)) as [->|].
  - by rewrite bool_decide_eq_true_2, orb_true_r by lia.
  - rewrite bool_decide_eq_false_2 by lia. rewrite (Z.bits_above_log2 1) by (simpl; lia). apply orb_false_r.
Qed.

Lemma and_disable x :
  0 ≤ x < 2 ^ 32 → Z.land x (u32 (Z.lnot IDE_STREAM_CTRL_ENABLE)) = set_bits 0 1 0 x.
Proof.
  intros Hx. apply Z.bits_inj'. intros i Hi. rewrite Z.land_spec, set_bits_testbit by lia.
  unfold u32, IDE_STREAM_CTRL_ENABLE. destruct (decide (i < 32)).
  - rewrite Z.mod_pow2_bits_low, Z.lnot_spec by lia. destruct (decide (i = 0)) as [->|].
    + by rewrite bool_decide_eq_true_2, andb_false_r by lia.
    + rewrite bool_decide_eq_false_2 by lia. rewrite (Z.bits_above_log2 1) by (simpl; lia). apply andb_true_r.
  - rewrite Z.mod_pow2_bits_high, bool_decide_eq_false_2, andb_false_r by lia.
    rewrite <- (Z.mod_small x (2 ^ 32)) by lia. by rewrite Z.mod_pow2_bits_high by lia.
Qed.

Lemma land_enable x : Z.land x IDE_STREAM_CTRL_ENABLE = get_bits 0 1 x.
Proof. unfold get_bits. by rewrite Z.shiftr_0_r. Qed.

Section control.
Context {D : Type} `{Bus D}.
Context (d : D) (fd e cap : Z) (lnks : list lnk_block) (sels : list sel_block) (ide_type id : Z).
Context (Hecap : ide_ecap_at d fd e cap lnks sels) (Hid : 0 ≤ id).

(** For a stream that can be addressed, each control function reads
    the stream's own control register and writes it back with one bit changed: the
    enable bit, the PCRC bit or the bit for configuration requests; the
    status and enable queries read that block.  For any other
    stream they stop at an assertion before any write. *)
Theorem control_register_updates (enable : bool) :
  ide_type = TEST_IDE_TYPE_SEL_IDE ∨ ide_type = TEST_IDE_TYPE_LNK_IDE →
  let b := if enable then 1 else 0 in
  match stream_regs lnks sels ide_type id, addressable lnks sels ide_type id with
  | Some (ctrl, status), true =>
      let r := Cfg fd (block_offset e lnks sels ide_type id + ctrl_pos ide_type) in
      enable_ide_stream_in_ecap fd e ide_type id enable d = Ok (true, bus_write r 4 (set_bits 0 1 b ctrl) d) ∧
      set_pcrc_in_ecap fd ide_type id e enable d = Ok (true, bus_write r 4 (set_bits 8 1 b ctrl) d) ∧
      set_sel_ide_for_cfg_req_in_ecap fd ide_type id e enable d = Ok (true, bus_write r 4 (set_bits 9 1 b ctrl) d) ∧
      read_ide_stream_ctrl_in_ecap fd ide_type id e d = Ok (ctrl, d) ∧
      is_ide_enabled fd ide_type id e d = Ok (ctrl_enabled ctrl =? 1, d) ∧
      read_ide_stream_status_in_ecap fd ide_type id e d = Ok (status, d) ∧
      read_stream_status_in_rp_ecap fd e ide_type id d = Ok (status, d)
  | _, _ =>
      enable_ide_stream_in_ecap fd e ide_type id enable d = Stop AssertHang ∧
      set_pcrc_in_ecap fd ide_type id e enable d = Stop AssertHang ∧
      set_sel_ide_for_cfg_req_in_ecap fd ide_type id e enable d = Stop AssertHang ∧
      read_ide_stream_ctrl_in_ecap fd ide_type id e d = Stop AssertHang ∧
      is_ide_enabled fd ide_type id e d = Stop AssertHang ∧
      read_ide_stream_status_in_ecap fd ide_type id e d = Stop AssertHang ∧
      read_stream_status_in_rp_ecap fd e ide_type id d = Stop AssertHang
  end.
Proof.
  intros Hty b. pose proof (reg_block_offset _ _ _ _ _ _ ide_type id Hecap Hid) as Hoff.
  pose proof (ecap_fd _ _ _ _ _ _ Hecap) as Hfd.
  destruct (addressable lnks sels ide_type id) eqn:Ha.
  - destruct (addressable_stream _ _ _ _ _ _ _ _ Hecap Hid Hty Ha) as (ctrl & status & [_ Hf Hp Hc Hs Hb]).
    rewrite Hf. cbv zeta. set (o := block_offset e lnks sels ide_type id + ctrl_pos ide_type) in *.
    assert (Hcr : 0 ≤ ctrl < 2 ^ 32) by (destruct Hc; lia).
    split_and!; unfold enable_ide_stream_in_ecap, set_pcrc_in_ecap, set_sel_ide_for_cfg_req_in_ecap,
      read_ide_stream_ctrl_in_ecap, is_ide_enabled, read_ide_stream_status_in_ecap, read_stream_status_in_rp_ecap;
      try rewrite (bind_Ok _ _ _ _ _ Hp), ?(bind_read32 _ _ _ _ _ Hfd Hc), ?(bind_write32 _ _ _ _ _ Hfd).
    + unfold b, ret. destruct enable; by rewrite ?or_enable, ?and_disable.
    + done.
    + done.
    + by apply read32_reads.
    + unfold ret. rewrite land_enable. done.
    + rewrite (bind_Ok _ _ _ _ _ Hoff). destruct Hty as [-> | ->]; unfold ctrl_pos in *; simpl in *.
      * unfold o in Hb, Hs. rewrite (u32_id (block_offset _ _ _ _ _ + 4)), u32_id by lia. by apply read32_reads.
      * unfold o in Hb, Hs. rewrite Z.add_0_r in Hb, Hs. rewrite u32_id by lia. by apply read32_reads.
    + rewrite (bind_Ok _ _ _ _ _ Hoff). destruct Hty as [-> | ->]; unfold ctrl_pos in *; simpl in *.
      * unfold o in Hb, Hs. rewrite bind_ret, u32_id by lia. apply read32_reads; [done|].
        by rewrite <- Z.add_assoc in Hs.
      * unfold o in Hb, Hs. rewrite Z.add_0_r in Hb, Hs. rewrite bind_ret, u32_id by lia.
        by apply read32_reads.
  - assert (Hp : ctrl_reg_offset fd ide_type id e d = Stop AssertHang).
    { unfold ctrl_reg_offset. by apply bind_Stop. }
    destruct (stream_regs lnks sels ide_type id) as [[? ?]|]; split_and!; apply bind_Stop; done.
Qed.

(** The registers of a selective stream are written in the order of their
    offsets, the control register last; of a link stream only the control
    register is. *)
Lemma setup_ide_ecap_regs_writes ctrl_reg rid1 rid2 addr1 addr2 addr3 :
  ide_type = TEST_IDE_TYPE_SEL_IDE ∨ ide_type = TEST_IDE_TYPE_LNK_IDE →
  addressable lnks sels ide_type id = true →
  let o := block_offset e lnks sels ide_type id + ctrl_pos ide_type in
  setup_ide_ecap_regs fd ide_type id e ctrl_reg rid1 rid2 addr1 addr2 addr3 d =
  Ok (true, bus_write (Cfg fd o) 4 ctrl_reg
    (if ide_type =? TEST_IDE_TYPE_SEL_IDE then
       bus_write (Cfg fd (o + 24)) 4 addr3 (bus_write (Cfg fd (o + 20)) 4 addr2
         (bus_write (Cfg fd (o + 16)) 4 addr1 (bus_write (Cfg fd (o + 12)) 4 rid2
           (bus_write (Cfg fd (o + 8)) 4 rid1 d))))
     else d)).
Proof.
  intros Hty Ha o. pose proof (ecap_fd _ _ _ _ _ _ Hecap) as Hfd.
  destruct (addressable_stream _ _ _ _ _ _ _ _ Hecap Hid Hty Ha) as (ctrl & status & [_ Hf Hp Hc Hs Hb]).
  fold o in Hp, Hb. unfold setup_ide_ecap_regs. rewrite (bind_Ok _ _ _ _ _ Hp). cbv zeta.
  destruct (ide_type =? TEST_IDE_TYPE_SEL_IDE).
  - rewrite (u32_id (o + 2 * 4)), (u32_id (o + 2 * 4 + 4)), (u32_id (o + 2 * 4 + 4 + 4)),
      (u32_id (o + 2 * 4 + 4 + 4 + 4)), (u32_id (o + 2 * 4 + 4 + 4 + 4 + 4)) by lia.
    rewrite !bind_assoc, (bind_write32 _ _ _ _ _ Hfd), !bind_assoc, (bind_write32 _ _ _ _ _ Hfd), !bind_assoc,
      (bind_write32 _ _ _ _ _ Hfd), !bind_assoc, (bind_write32 _ _ _ _ _ Hfd), (bind_write32 _ _ _ _ _ Hfd),
      (bind_write32 _ _ _ _ _ Hfd).
    unfold ret. by rewrite <- !Z.add_assoc.
  - by rewrite bind_ret, (bind_write32 _ _ _ _ _ Hfd).
Qed.
End control.

(** ** Free and used blocks *)

(** The first element with a property, by number. *)
Definition first_where {A} (P : A → bool) (l : list A) : option nat := fst <$> list_find P l.

Lemma first_where_cons {A} (P : A → bool) x l :
  first_where P (x :: l) = if P x then Some 0%nat else S <$> first_where P l.
Proof.
  unfold first_where. cbn [list_find]. destruct (decide (P x)) as [E|E].
  - by rewrite (Is_true_true_1 _ E).
  - apply Is_true_false in E. rewrite E. by destruct (list_find P l) as [[i y]|].
Qed.

Lemma first_where_Some {A} (P : A → bool) l i :
  first_where P l = Some i → ∃ x, l !! i = Some x ∧ P x = true ∧
    (∀ j y, (j < i)%nat → l !! j = Some y → P y = false).
Proof.
  unfold first_where. destruct (list_find P l) as [[k x]|] eqn:E; [|done].
  intros [= <-]. apply list_find_Some in E as (Hx & HP & Hj). exists x. split_and!; [done|by apply Is_true_true|].
  intros j y Hjk Hy. apply Is_true_false. by eapply Hj.
Qed.

(** A loop over the cells of a register file that leaves at the first one
    with a property. *)
Lemma io_for_first {D A S R} (P : A → bool) (at_ : Z → S → list A → Prop) (next : A → S → S) (out : Z → R)
    (body : Z → S → io D (S + R)) d l :
  (∀ i s x l, at_ i s (x :: l) → at_ (Z.succ i) (next x s) l ∧
     body i s d = Ok (if P x then inr (out i) else inl (next x s), d)) →
  ∀ lo s, at_ lo s l →
  io_for body (seqZ lo (Z.of_nat (length l))) s d =
  Ok (match first_where P l with
      | Some i => inr (out (lo + Z.of_nat i))
      | None => inl (foldl (λ s x, next x s) s l)
      end, d).
Proof.
  intros Hb. induction l as [|x l IH]; intros lo s Hs; [done|].
  destruct (Hb lo s x l Hs) as [Hl E]. cbn [length]. rewrite seqZ_cons by lia.
  replace (Z.pred (Z.of_nat (Datatypes.S (length l)))) with (Z.of_nat (length l)) by lia.
  cbn [io_for]. rewrite (bind_Ok _ _ _ _ _ E), first_where_cons. destruct (P x).
  { unfold ret. by rewrite Z.add_0_r. }
  rewrite (IH _ _ Hl). destruct (first_where P l) as [i|]; cbn [fmap option_fmap option_map]; [|done].
  by replace (lo + Z.of_nat (Datatypes.S i)) with (Z.succ lo + Z.of_nat i) by lia.
Qed.

Lemma first_where_None {A} (P : A → bool) l : first_where P l = None ↔ existsb P l = false.
Proof.
  induction l as [|x l IH]; [done|]. rewrite first_where_cons. simpl. destruct (P x); [done|].
  simpl. rewrite <- IH. by destruct (first_where P l).
Qed.

Lemma first_where_existsb {A} (P : A → bool) l :
  existsb P l = match first_where P l with Some _ => true | None => false end.
Proof.
  destruct (first_where P l) eqn:E; [|by apply first_where_None].
  destruct (existsb P l) eqn:F; [done|]. apply first_where_None in F. congruence.
Qed.

Definition lnk_free (b : lnk_block) : bool := ctrl_enabled (lb_ctrl b) =? 0.
Definition sel_free (b : sel_block) : bool := ctrl_enabled (sb_ctrl b) =? 0.
Definition stream_free (control : Z) : bool := stream_en control =? 0.
Definition ctrl_uses (stream_id control : Z) : bool := (ctrl_enabled control =? 1) && (ctrl_stream_id control =? stream_id).
Definition stream_uses (stream_id control : Z) : bool := (stream_en control =? 1) && (stream_stream_id control =? stream_id).

Section search.
Context {D : Type} `{Bus D}.

(** The register block of the root complex: the capability register and
    the control register of each stream. *)
Record kcbar_at (d : D) (kcbar cap : Z) (streams : list Z) : Prop := {
  kcbar_cap : reads d (Mmio kcbar) 4 cap;
  kcbar_streams : Z.of_nat (length streams) = num_stream_supported cap + 1;
  kcbar_ctrl i control : streams !! i = Some control →
    reads d (Mmio (stream_config_reg_block kcbar (Z.of_nat i))) 4 control
}.

Lemma find_free_lnk_first d fd off l :
  0 < fd → lnk_at d fd off l →
  io_for (find_free_lnk fd) (range 0 (Z.of_nat (length l))) off d =
  Ok (match first_where lnk_free l with Some i => inr (Z.of_nat i) | None => inl (off + 8 * Z.of_nat (length l)) end, d).
Proof.
  intros Hfd Hl. unfold range. rewrite Z.sub_0_r.
  rewrite (io_for_first lnk_free (λ _ s l, lnk_at d fd s l) (λ _ s, s + 8) id).
  - destruct (first_where lnk_free l); [done|]. do 3 f_equal. clear Hl.
    revert off. induction l as [|b l IH]; intros off; simpl; [lia|]. rewrite IH. lia.
  - intros i s x k (Hc & Hs & Hk). split; [done|]. unfold find_free_lnk.
    by rewrite (bind_read32 _ _ _ _ _ Hfd Hc), (bind_read32 _ _ _ _ _ Hfd Hs).
  - done.
Qed.

Lemma find_free_sel_first d fd off l lo :
  0 < fd → sel_at d fd off l →
  io_for (find_free_sel fd) (range lo (lo + Z.of_nat (length l))) off d =
  Ok (match first_where sel_free l with Some i => inr (lo + Z.of_nat i) | None => inl (off + sel_sizes l) end, d).
Proof.
  intros Hfd Hl. unfold range. replace (lo + Z.of_nat (length l) - lo) with (Z.of_nat (length l)) by lia.
  rewrite (io_for_first sel_free (λ _ s l, sel_at d fd s l) (λ b s, s + sel_size b) id).
  - destruct (first_where sel_free l); [done|]. do 3 f_equal. clear Hl.
    revert off. induction l as [|b l IH]; intros off; simpl; [lia|]. rewrite IH. lia.
  - intros i s x k (Hcap & Hc & Hs & Hk). split; [done|]. unfold find_free_sel.
    replace (s + 8) with (s + 4 + 4) in Hs by lia.
    rewrite (bind_read32 _ _ _ _ _ Hfd Hcap). cbv zeta.
    rewrite (bind_read32 _ _ _ _ _ Hfd Hc), (bind_read32 _ _ _ _ _ Hfd Hs). unfold ret, sel_free.
    destruct (ctrl_enabled (sb_ctrl x) =? 0); [done|]. unfold sel_size. do 3 f_equal. lia.
  - done.
Qed.

(** [P] of the control registers of the streams from [i] on. *)
Definition streams_from (d : D) (kcbar i : Z) (l : list Z) : Prop :=
  ∀ j control, l !! j = Some control → reads d (Mmio (stream_config_reg_block kcbar (i + Z.of_nat j))) 4 control.

Lemma streams_from_cons d kcbar i x l :
  streams_from d kcbar i (x :: l) →
  reads d (Mmio (stream_config_reg_block kcbar i)) 4 x ∧ streams_from d kcbar (Z.succ i) l.
Proof.
  intros Hl. split.
  - specialize (Hl 0%nat x eq_refl). by rewrite Z.add_0_r in Hl.
  - intros j c Hj. specialize (Hl (S j) c Hj).
    by replace (Z.succ i + Z.of_nat j) with (i + Z.of_nat (S j)) by lia.
Qed.

Lemma find_free_stream_first d kcbar l :
  streams_from d kcbar 0 l →
  io_for (find_free_stream kcbar) (range 0 (Z.of_nat (length l))) tt d =
  Ok (match first_where stream_free l with Some i => inr (Z.of_nat i) | None => inl tt end, d).
Proof.
  intros Hl. unfold range. rewrite Z.sub_0_r.
  rewrite (io_for_first stream_free (λ i _ l, streams_from d kcbar i l) (λ _ _, tt) id).
  - destruct (first_where stream_free l); [done|]. by destruct (foldl _ _ _).
  - intros i s x k [Hx Hk]%streams_from_cons. split; [done|]. unfold find_free_stream.
    by rewrite (bind_mmio_read _ _ _ _ Hx).
  - done.
Qed.

(** The number of the first free block of the kind a topology asks for. *)
Definition free_ide_id (lnks : list lnk_block) (sels : list sel_block) (top_type : Z) : option Z :=
  if top_type =? IDE_TEST_TOPOLOGY_TYPE_LINK_IDE then Z.of_nat <$> first_where lnk_free lnks
  else (λ i, Z.of_nat (length lnks) + Z.of_nat i) <$> first_where sel_free sels.

Lemma first_where_lt {A} (P : A → bool) l i : first_where P l = Some i → (i < length l)%nat.
Proof. intros (x & Hx & _)%first_where_Some. by eapply lookup_lt_Some. Qed.

Lemma free_ide_id_bounds lnks sels top_type i :
  free_ide_id lnks sels top_type = Some i → 0 ≤ i < Z.of_nat (length lnks + length sels).
Proof.
  unfold free_ide_id. destruct (_ =? _); intros (j & Hj & ->)%fmap_Some; apply first_where_lt in Hj; lia.
Qed.

(** The first half of the search, over the register blocks of the capability. *)
Lemma find_free_block d fd e cap lnks sels top_type :
  ide_ecap_at d fd e cap lnks sels →
  let found := if top_type =? IDE_TEST_TOPOLOGY_TYPE_LINK_IDE then
       if lnk_ide_supported cap =? 0 then ret (inl (e + 4 + 4 + 4))
       else io_for (find_free_lnk fd) (range 0 (lnk_count cap)) (e + 4 + 4 + 4)
     else
       if sel_ide_supported cap =? 0 then ret (inl (e + 4 + 4 + 4))
       else io_for (find_free_sel fd) (range (lnk_count cap) (lnk_count cap + sel_count cap))
                   (e + 4 + 4 + 4 + lnk_count cap * LINK_IDE_REGISTER_BLOCK_SIZE) in
  ∃ off, found d = Ok (match free_ide_id lnks sels top_type with Some i => inr i | None => inl off end, d).
Proof.
  intros [Hfd He Hcap Hl Hs Hla Hsa Hend]. cbv zeta. unfold free_ide_id.
  replace (e + 4 + 4 + 4) with (e + 12) by lia. destruct (top_type =? IDE_TEST_TOPOLOGY_TYPE_LINK_IDE).
  - destruct (Z.eqb_spec (lnk_ide_supported cap) 0) as [E|E].
    + unfold lnk_count in Hl. rewrite E in Hl. destruct lnks; [|simpl in Hl; lia]. by exists (e + 12).
    + rewrite <- Hl, find_free_lnk_first by done. eexists. by destruct (first_where lnk_free lnks).
  - destruct (Z.eqb_spec (sel_ide_supported cap) 0) as [E|E].
    + unfold sel_count in Hs. rewrite E in Hs. destruct sels; [|simpl in Hs; lia]. by exists (e + 12).
    + unfold LINK_IDE_REGISTER_BLOCK_SIZE. rewrite <- Hl, <- Hs, (Z.mul_comm _ 8), find_free_sel_first by done.
      eexists. by destruct (first_where sel_free sels).
Qed.

(** A free block is one the other functions address, and see as disabled. *)
Lemma free_block_is_disabled d fd e cap lnks sels top_type i :
  ide_ecap_at d fd e cap lnks sels → forallb one_addr_block sels = true →
  free_ide_id lnks sels top_type = Some i →
  let ide_type := if top_type =? IDE_TEST_TOPOLOGY_TYPE_LINK_IDE then TEST_IDE_TYPE_LNK_IDE else TEST_IDE_TYPE_SEL_IDE in
  addressable lnks sels ide_type i = true ∧
  (λ '(ctrl, _), ctrl_enabled ctrl) <$> stream_regs lnks sels ide_type i = Some 0.
Proof.
  intros He Hone Hi. unfold free_ide_id in Hi. cbv zeta. unfold addressable, stream_regs.
  destruct (top_type =? IDE_TEST_TOPOLOGY_TYPE_LINK_IDE); apply fmap_Some in Hi as (j & Hj & ->);
    pose proof (first_where_lt _ _ _ Hj); apply first_where_Some in Hj as (x & Hx & HP & _); cbn -[Z.of_nat Z.to_nat].
  - split; [apply Z.ltb_lt; lia|]. rewrite Nat2Z.id, Hx. simpl. by apply Z.eqb_eq in HP as ->.
  - replace (Z.to_nat (Z.of_nat (length lnks) + Z.of_nat j - Z.of_nat (length lnks))) with j by lia.
    rewrite Hx. simpl. apply Z.eqb_eq in HP as ->. split; [|done].
    apply andb_true_iff. split.
    + apply andb_true_iff. rewrite Z.leb_le, Z.ltb_lt. lia.
    + rewrite <- (take_drop j sels), forallb_app in Hone. by apply andb_true_iff in Hone as [-> _].
Qed.

(** The choice of an IDE id takes the first link or selective block that
    is not enabled, numbered behind the link blocks, and for a root port the
    first stream of the root complex that is not enabled; without a free one it fails.
    When every selective block has one address association block, the other
    functions address the chosen block too and see it disabled. *)
Theorem free_block_choice d pc kcap streams lnks sels top_type rp_or_dev rp0 id0 :
  ide_ecap_at d (cfg_space_fd pc) (ecap_offset pc) (ide_cap pc) lnks sels →
  kcbar_at d (mapped_kcbar_addr pc) kcap streams →
  top_type = IDE_TEST_TOPOLOGY_TYPE_SEL_IDE ∨ top_type = IDE_TEST_TOPOLOGY_TYPE_LINK_IDE →
  (length lnks + length sels ≤ 256)%nat →
  let ide_type := if top_type =? IDE_TEST_TOPOLOGY_TYPE_LINK_IDE then TEST_IDE_TYPE_LNK_IDE else TEST_IDE_TYPE_SEL_IDE in
  find_free_rp_stream_index_and_ide_id pc (Some rp0) id0 top_type rp_or_dev d =
    Ok (match free_ide_id lnks sels top_type with
        | None => (false, Some rp0, id0)
        | Some i =>
            if rp_or_dev then
              match first_where stream_free streams with
              | None => (false, Some rp0, i)
              | Some s => (true, Some (Z.of_nat s), i)
              end
            else (true, Some rp0, i)
        end, d) ∧
  (forallb one_addr_block sels = true → ∀ i, free_ide_id lnks sels top_type = Some i →
     is_ide_enabled (cfg_space_fd pc) ide_type i (ecap_offset pc) d = Ok (false, d)).
Proof.
  intros He Hk Hty Hlen ide_type. split.
  - destruct Hk as [Hc Hs Hst]. unfold find_free_rp_stream_index_and_ide_id.
    destruct (find_free_block d _ _ _ _ _ top_type He) as [off Hoff]. cbv zeta in Hoff.
    assert (Hpre : ∀ B (k : Z → io D B),
      bind (if top_type =? IDE_TEST_TOPOLOGY_TYPE_LINK_IDE then ret TEST_IDE_TYPE_LNK_IDE
            else if top_type =? IDE_TEST_TOPOLOGY_TYPE_SEL_LINK_IDE then
              let+ _ := io_assert false in ret TEST_IDE_TYPE_NA else ret TEST_IDE_TYPE_SEL_IDE) k d = k ide_type d).
    { intros B k. unfold ide_type. by destruct Hty as [-> | ->]. }
    rewrite Hpre. cbv zeta.
    replace (ide_type =? TEST_IDE_TYPE_LNK_IDE) with (top_type =? IDE_TEST_TOPOLOGY_TYPE_LINK_IDE)
      by (unfold ide_type; by destruct Hty as [-> | ->]).
    rewrite (bind_Ok _ _ _ _ _ Hoff). destruct (free_ide_id lnks sels top_type) as [i|] eqn:Ei; [|done].
    apply free_ide_id_bounds in Ei. replace (u8 i) with i by (symmetry; apply Z.mod_small; lia).
    destruct rp_or_dev; [|done]. rewrite (bind_mmio_read _ _ _ _ Hc), <- Hs.
    assert (Hf : streams_from d (mapped_kcbar_addr pc) 0 streams) by (intros j c Hj; by apply Hst).
    rewrite (bind_Ok _ _ _ _ _ (find_free_stream_first _ _ _ Hf)).
    destruct (first_where stream_free streams) as [s|] eqn:Es; [|done]. apply first_where_lt in Es.
    cbn [deref lift res_bind]. rewrite (bind_lift_Ok _ _ _ rp0) by done. unfold ret.
    unfold num_stream_supported in Hs. pose proof (get_bits_range 0 8 kcap).
    by replace (u8 (Z.of_nat s)) with (Z.of_nat s) by (symmetry; apply Z.mod_small; lia).
  - intros Hone i Hi. destruct (free_block_is_disabled _ _ _ _ _ _ _ _ He Hone Hi) as [Ha Hr].
    apply free_ide_id_bounds in Hi. fold ide_type in Ha, Hr.
    destruct (addressable_stream d _ _ _ _ _ ide_type i He) as (ctrl & status & [_ Hf Hp Hc _ _]); [lia| |done|].
    { unfold ide_type. destruct (_ =? _); auto. }
    rewrite Hf in Hr. injection Hr as Hr. unfold is_ide_enabled. rewrite (bind_Ok _ _ _ _ _ Hp).
    rewrite (bind_read32 _ _ _ _ _ (ecap_fd _ _ _ _ _ _ He) Hc). unfold ret. rewrite land_enable.
    fold (ctrl_enabled ctrl). by rewrite Hr.
Qed.

Lemma stream_used_first d kcbar id l :
  streams_from d kcbar 0 l →
  io_for (stream_used id kcbar) (range 0 (Z.of_nat (length l))) tt d =
  Ok (if existsb (stream_uses id) l then inr tt else inl tt, d).
Proof.
  intros Hl. unfold range. rewrite Z.sub_0_r.
  rewrite (io_for_first (stream_uses id) (λ i _ l, streams_from d kcbar i l) (λ _ _, tt) (λ _, tt)).
  - rewrite first_where_existsb. destruct (first_where _ l); [done|]. by destruct (foldl _ _ _).
  - intros i s x k [Hx Hk]%streams_from_cons. split; [done|]. unfold stream_used.
    by rewrite (bind_mmio_read _ _ _ _ Hx).
  - done.
Qed.

Lemma lnk_used_first d fd off id l :
  0 < fd → 0 ≤ off → off + 8 * Z.of_nat (length l) ≤ 4096 → lnk_at d fd off l →
  io_for (lnk_used id fd) (range 0 (Z.of_nat (length l))) off d =
  Ok (if existsb (λ b, ctrl_uses id (lb_ctrl b)) l then inr tt else inl (off + 8 * Z.of_nat (length l)), d).
Proof.
  intros Hfd Hoff Hend Hl. unfold range. rewrite Z.sub_0_r.
  rewrite (io_for_first (λ b, ctrl_uses id (lb_ctrl b))
             (λ _ s l, lnk_at d fd s l ∧ 0 ≤ s ∧ s + 8 * Z.of_nat (length l) ≤ 4096)
             (λ _ s, s + 8) (λ _, tt)).
  - rewrite first_where_existsb. destruct (first_where _ l); [done|]. do 3 f_equal. clear Hl Hend Hoff.
    revert off. induction l as [|b l IH]; intros off; simpl; [lia|]. rewrite IH. lia.
  - intros i s x k ((Hc & _ & Hk) & Hs & He). simpl in He. split; [split_and!; [done|lia|lia]|].
    unfold lnk_used. rewrite (bind_read32 _ _ _ _ _ Hfd Hc). unfold ret, ctrl_uses, LINK_IDE_REGISTER_BLOCK_SIZE.
    by rewrite u32_id by lia.
  - done.
Qed.

Lemma sel_used_first d fd off id l :
  0 < fd → 0 ≤ off → off + sel_sizes l ≤ 4096 → sel_at d fd off l →
  io_for (sel_used id fd) (range 0 (Z.of_nat (length l))) off d =
  Ok (if existsb (λ b, ctrl_uses id (sb_ctrl b)) l then inr tt else inl (off + sel_sizes l), d).
Proof.
  intros Hfd Hoff Hend Hl. unfold range. rewrite Z.sub_0_r.
  rewrite (io_for_first (λ b, ctrl_uses id (sb_ctrl b))
             (λ _ s l, sel_at d fd s l ∧ 0 ≤ s ∧ s + sel_sizes l ≤ 4096)
             (λ b s, s + sel_size b) (λ _, tt)).
  - rewrite first_where_existsb. destruct (first_where _ l); [done|]. do 3 f_equal. clear Hl Hend Hoff.
    revert off. induction l as [|b l IH]; intros off; simpl; [lia|]. rewrite IH. lia.
  - intros i s x k ((Hcap & Hc & _ & Hk) & Hs & He). simpl in He.
    pose proof (sel_size_ge x). pose proof (sel_sizes_nonneg k). split; [split_and!; [done|lia|lia]|].
    unfold sel_used. rewrite (bind_read32 _ _ _ _ _ Hfd Hcap), (u32_id (s + 4)) by lia.
    rewrite (bind_read32 _ _ _ _ _ Hfd Hc). unfold ret, ctrl_uses, sel_size in *. rewrite u32_id by lia.
    destruct (_ && _); [done|]. do 3 f_equal. lia.
  - done.
Qed.

(** On a root port that supports link streams (or no selective ones) a
    stream id counts as used exactly when an enabled stream of the root
    complex, or an enabled link or selective block, has it. *)
Theorem stream_id_in_use d pc kcap streams cap lnks sels stream_id :
  ide_ecap_at d (cfg_space_fd pc) (ecap_offset pc) cap lnks sels →
  kcbar_at d (mapped_kcbar_addr pc) kcap streams →
  lnk_ide_supported cap = 1 ∨ sel_ide_supported cap = 0 →
  check_stream_id_used_in_rootport stream_id pc d =
  Ok (existsb (stream_uses stream_id) streams
      || existsb (λ b, ctrl_uses stream_id (lb_ctrl b)) lnks
      || existsb (λ b, ctrl_uses stream_id (sb_ctrl b)) sels, d).
Proof.
  intros [Hfd He Hcap Hl Hs Hla Hsa Hend] [Hc Hns Hst] Hsup. pose proof (sel_sizes_nonneg sels).
  unfold check_stream_id_used_in_rootport. cbv zeta. rewrite (bind_mmio_read _ _ _ _ Hc), <- Hns.
  assert (Hf : streams_from d (mapped_kcbar_addr pc) 0 streams) by (intros j c Hj; by apply Hst).
  rewrite (bind_Ok _ _ _ _ _ (stream_used_first _ _ stream_id _ Hf)).
  destruct (existsb (stream_uses stream_id) streams); [done|]. cbn [orb].
  rewrite !(u32_id (ecap_offset pc + 4)), (u32_id (ecap_offset pc + 4 + 4)) by lia. rewrite (bind_read32 _ _ _ _ _ Hfd Hcap), <- Hl, <- Hs.
  destruct (Z.ltb_spec 0 (Z.of_nat (length lnks))) as [Hpos|Hzero].
  - rewrite u32_id by lia. replace (ecap_offset pc + 4 + 4 + 4) with (ecap_offset pc + 12) by lia.
    rewrite (bind_Ok _ _ _ _ _ (lnk_used_first d _ (ecap_offset pc + 12) stream_id lnks Hfd ltac:(lia) ltac:(lia) Hla)).
    destruct (existsb (λ b, ctrl_uses stream_id (lb_ctrl b)) lnks); [done|]. cbn [orb].
    destruct (Z.ltb_spec 0 (Z.of_nat (length sels))) as [Hpos'|Hzero'].
    + rewrite (bind_Ok _ _ _ _ _ (sel_used_first d _ (ecap_offset pc + 12 + 8 * Z.of_nat (length lnks)) stream_id sels Hfd ltac:(lia) ltac:(lia) Hsa)).
      by destruct (existsb _ sels).
    + by destruct sels; [|simpl in Hzero'; lia].
  - destruct lnks; [|simpl in Hzero; lia]. rewrite bind_ret. cbn [existsb orb].
    assert (sels = []) as ->; [|done].
    unfold lnk_count, sel_count in *. pose proof (get_bits_range 13 3 cap) as Hr. fold (num_lnk_ide cap) in Hr.
    destruct Hsup as [E|E]; rewrite E in *; simpl in *.
    + exfalso. lia.
    + by destruct sels.
Qed.

(** C26: When the capability lists of a configuration space end, the walks
    return: the offset of the first capability with the id that is looked for, or 0;
    and the offsets of all DOE capabilities, in order, in the first cells of the
    array.  More DOE capabilities than the array has cells stop at an
    assertion instead of overrunning it. *)
Theorem capability_walks d fd ptr caps exts a :
  0 < fd → reads d (Cfg fd 0x34) 2 ptr →
  chain 0x100 list_next fd d (Z.land ptr 0xFF) caps → chain 0x1000 cap_next fd d 0x100 exts →
  get_cap_offset fd PCIE_CAPABILITY_ID d =
    Ok (first_cap (λ h, list_id h =? PCIE_CAPABILITY_ID) caps, d) ∧
  (∀ ext_id, ext_id ∈ [PCI_DOE_EXT_CAPABILITY_ID; PCI_IDE_EXT_CAPABILITY_ID; PCI_AER_EXT_CAPABILITY_ID;
                       PCI_DEVICE3_EXT_CAPABILITY_ID] →
     get_extended_cap_offset fd ext_id d = Ok (first_cap (λ h, cap_id h =? ext_id) exts, d)) ∧
  let offs := all_caps is_doe exts in
  get_doe_extended_cap_offset fd (Some a) (Z.of_nat (length a)) d =
    (if decide (length offs ≤ length a)%nat
     then Ok (nonempty offs, Some (offs ++ drop (length offs) a), Z.of_nat (length offs), d)
     else Stop AssertHang) ∧
  get_doe_extended_cap_offset fd None (Z.of_nat (length a)) d = Ok (nonempty offs, None, Z.of_nat (length offs), d).
Proof.
  intros Hfd Hptr Hcaps Hexts.
  assert (Hln : ∀ h, 0 ≤ list_next h) by (intros h; apply get_bits_range; lia).
  assert (Hcn : ∀ h, 0 ≤ cap_next h) by (intros h; apply get_bits_range; lia).
  assert (Hp : 0 ≤ Z.land ptr 0xFF) by (apply Z.land_nonneg; lia).
  pose proof (chain_length 0x100 _ _ _ _ _ ltac:(lia) Hln Hp Hcaps) as Hc.
  pose proof (chain_length 0x1000 _ _ _ 0x100 _ ltac:(lia) Hcn ltac:(lia) Hexts) as He.
  assert (Hpos : ∀ offs : list Z, (0 <? Z.of_nat (length offs)) = nonempty offs).
  { intros [|x l]; [done|]. apply Z.ltb_lt. simpl. lia. }
  cbv zeta. split_and!.
  - unfold get_cap_offset. rewrite (bind_read16 _ _ _ _ _ Hfd Hptr). cbn [Z.eqb Pos.eqb PCIE_CAPABILITY_ID negb].
    apply (walk_chain 0x100 list_next); [done|done|lia].
  - intros ext_id Hid. unfold get_extended_cap_offset.
    assert (E : negb (ext_id =? PCI_DOE_EXT_CAPABILITY_ID) && negb (ext_id =? PCI_IDE_EXT_CAPABILITY_ID)
      && negb (ext_id =? PCI_AER_EXT_CAPABILITY_ID) && negb (ext_id =? PCI_DEVICE3_EXT_CAPABILITY_ID) = false).
    { repeat (apply elem_of_cons in Hid as [->|Hid]; [done|]). by apply elem_of_nil in Hid. }
    rewrite E. apply (walk_chain 0x1000 cap_next); [done|done|lia].
  - unfold get_doe_extended_cap_offset, bind. rewrite (doe_walk _ _ _ _ _ _ _ _ Hfd Hexts) by lia. unfold lift.
    destruct (decide _) as [Hle|Hgt].
    + pose proof (doe_store_all (Z.of_nat (length a)) (all_caps is_doe exts) [] a) as Hst.
      cbn [app length Nat.add] in Hst. change (Z.of_nat 0) with 0 in Hst.
      rewrite Hst by lia. cbn [res_bind]. unfold ret. by rewrite Hpos.
    + pose proof (doe_store_overflow (Z.of_nat (length a)) (all_caps is_doe exts) [] a) as Hst.
      cbn [app length Nat.add] in Hst. change (Z.of_nat 0) with 0 in Hst.
      rewrite Hst by lia. done.
  - unfold get_doe_extended_cap_offset, bind. rewrite (doe_walk _ _ _ _ _ _ _ _ Hfd Hexts) by lia. unfold lift.
    rewrite doe_count_all. cbn [res_bind]. unfold ret. by rewrite Z.add_0_l, Hpos.
Qed.
End search.

(** ** RID association *)

(** The requester id of a function, as PCIe numbers it. *)
Definition requester_id (bus device func : Z) : Z := 256 * bus + 8 * device + func.

(** The RID association registers for a device: valid, with the low
    segment byte, and the range from 256 * bus + device to that plus function + 1.
    The device number is not shifted into its place, so the range holds
    the requester id of the device only when the device number is 0. *)
Theorem rid_association segment bus device func :
  0 ≤ bus < 256 → 0 ≤ device < 32 → 0 ≤ func < 8 →
  let '(rid1, rid2) := populate_rid_assoc_reg_block segment bus device func in
  let rid_base := get_bits 8 16 rid2 in
  let rid_limit := get_bits 8 16 rid1 in
  get_bits 0 1 rid2 = 1 ∧ get_bits 24 8 rid2 = segment mod 256 ∧
  rid_base = 256 * bus + device ∧ rid_limit = 256 * bus + device + func + 1 ∧
  (rid_base ≤ requester_id bus device func ≤ rid_limit ↔ device = 0).
Proof.
  intros Hb Hd Hf. unfold populate_rid_assoc_reg_block.
  assert (E : u16 (Z.shiftl bus 8) = 256 * bus).
  { unfold u16. rewrite Z.shiftl_mul_pow2, Z.mod_small by lia. lia. }
  rewrite E. assert (E1 : u16 (256 * bus + device) = 256 * bus + device) by (apply Z.mod_small; lia).
  rewrite E1. assert (E2 : u16 (256 * bus + device + func + 1) = 256 * bus + device + func + 1) by (apply Z.mod_small; lia).
  rewrite E2. unfold rid_assoc1_of, rid_assoc2_of. cbv zeta.
  rewrite !get_set_bits_eq by lia.
  rewrite (get_set_bits_ne 24 8 _ 0 1), get_set_bits_eq by lia.
  rewrite (get_set_bits_ne 24 8 _ 8 16), (get_set_bits_ne 0 1 _ 8 16), get_set_bits_eq by lia.
  rewrite !(Z.mod_small _ (2 ^ 16)) by lia. unfold requester_id, u8.
  change 0xff with (Z.ones 8). rewrite Z.land_ones by lia. split_and!; [done| |done|done|lia].
  change (2 ^ 8) with 256. by rewrite !Z.mod_mod by lia.
Qed.

(** ** A machine *)

(** A port with a DOE and an IDE capability, one link block and two
    selective ones, the first one in use, and a root complex with two streams, the
    first one in use. *)
Definition example_machine : memory :=
  [(Cfg 3 0x34, 0x40); (Cfg 3 0x40, 0x0010);
   (Cfg 3 0x100, 0x2002002E); (Cfg 3 0x200, 0x00010030); (Cfg 3 0x204, 0x00010003);
   (Cfg 3 0x214, 1); (Cfg 3 0x218, 0x07000001); (Cfg 3 0x21c, 2); (Cfg 3 0x234, 1);
   (Mmio 0x10000, 0x00000001); (Mmio 0x10004, 0x05000001)].

Definition example_lnks : list lnk_block := [{| lb_ctrl := 0; lb_status := 0 |}].
Definition example_sels : list sel_block :=
  [{| sb_cap := 1; sb_ctrl := 0x07000001; sb_status := 2 |}; {| sb_cap := 1; sb_ctrl := 0; sb_status := 0 |}].

Definition example_port : IDE_PORT :=
  {| TestConfig.port_id := 1; port_enabled := true; port_type := IDE_PORT_TYPE_ROOTPORT; port_name := bs "rootport_1";
     port_bdf := bs "0000:00:01.0"; port_segment := 0; port_bus := 0; port_device := 1; port_function := 0; port_index := 0 |}.

Definition example_context : ide_common_test_port_context_t :=
  {| port := example_port; cfg_space_fd := 3; ecap_offset := 0x200; doe_offset := 0; ide_cap := 0x00010003;
     mapped_kcbar_addr := 0x10000; kcbar_fd := 4; stream_cap := 1; ide_id := 0;
     rid_assoc1 := 0; rid_assoc2 := 0; addr_assoc1 := 0; addr_assoc2 := 0; addr_assoc3 := 0 |}.

Ltac solve_reads := split; [reflexivity|lia].

Lemma example_ecap : ide_ecap_at example_machine 3 0x200 0x00010003 example_lnks example_sels.
Proof. constructor; try done; simpl; split_and?; solve_reads. Qed.

Lemma example_kcbar : kcbar_at example_machine 0x10000 1 [0x05000001; 0].
Proof.
  constructor; [solve_reads|done|].
  intros [|[|i]] c Hc; simpl in Hc; simplify_eq; solve_reads.
Qed.

Lemma capability_walks_witness :
  get_doe_extended_cap_offset 3 (Some [0; 0]) 2 example_machine = Ok (true, Some [0x100; 0], 1, example_machine).
Proof.
  refine (proj1 (proj2 (proj2 (capability_walks example_machine 3 0x40 [(0x40, 0x0010)]
    [(0x100, 0x2002002E); (0x200, 0x00010030)] [0; 0] _ _ _ _)))); [lia|solve_reads| | ].
  - apply chain_cap; [done|done|solve_reads|]. apply chain_end. by intros [_ []].
  - apply chain_cap; [done|done|solve_reads|]. apply chain_cap; [done|done|solve_reads|]. apply chain_end. by intros [_ []].
Defined.

Lemma control_register_updates_witness :
  enable_ide_stream_in_ecap 3 0x200 TEST_IDE_TYPE_SEL_IDE 2 true example_machine
  = Ok (true, (Cfg 3 0x238, 1) :: example_machine).
Proof.
  exact (proj1 (control_register_updates example_machine 3 0x200 0x00010003 example_lnks example_sels
    TEST_IDE_TYPE_SEL_IDE 2 example_ecap ltac:(lia) true (or_introl eq_refl))).
Defined.

Lemma free_block_choice_witness :
  find_free_rp_stream_index_and_ide_id example_context (Some 0) 0 IDE_TEST_TOPOLOGY_TYPE_SEL_IDE true example_machine
  = Ok (true, Some 1, 2, example_machine).
Proof.
  exact (proj1 (free_block_choice example_machine example_context 1 [0x05000001; 0] example_lnks example_sels
    IDE_TEST_TOPOLOGY_TYPE_SEL_IDE true 0 0 example_ecap example_kcbar (or_introl eq_refl) ltac:(simpl; lia))).
Defined.

Lemma stream_id_in_use_witness :
  check_stream_id_used_in_rootport 7 example_context example_machine = Ok (true, example_machine).
Proof.
  exact (stream_id_in_use example_machine example_context 1 [0x05000001; 0] 0x00010003 example_lnks example_sels 7
    example_ecap example_kcbar (or_introl eq_refl)).
Defined.

Lemma rid_association_witness :
  let '(rid1, rid2) := populate_rid_assoc_reg_block 0 0x2a 1 0 in get_bits 8 16 rid2 = 0x2a01.
Proof.
  exact (proj1 (proj2 (proj2 (rid_association 0 0x2a 1 0 ltac:(lia) ltac:(lia) ltac:(lia))))).
Defined.

(** On a root port without link streams the scan of the capability starts
    one register early, at the control register, so an enabled selective
    stream that has the id is missed. *)
Lemma stream_id_missed :
  let d : memory := [(Cfg 3 0x204, 0x2); (Cfg 3 0x20c, 1); (Cfg 3 0x210, 0x07000001)] in
  let sels := [{| sb_cap := 1; sb_ctrl := 0x07000001; sb_status := 0 |}] in
  ide_ecap_at d 3 0x200 0x2 [] sels ∧ existsb (λ b, ctrl_uses 7 (sb_ctrl b)) sels = true ∧
  check_stream_id_used_in_rootport 7 example_context d = Ok (false, d).
Proof. split_and!; [|done|done]. constructor; try done; simpl; split_and?; solve_reads. Qed.

End PcieIdeSpec.
