(* ===== verification/Kcbar.v ===== *)
(** * The Intel root complex (library/pcie_ide_lib/intel_rp_pcie.c and the
    root complex part of pcie_ide.c)

    The KEYP table tells which key configuration unit serves a root port;
    the registers of the unit hold the stream controls, the key slots and
    the IV slots.  The file system and the mapping of physical memory are
    arguments of [parse_keyp_table]. *)
From Stdlib Require Import ZArith Lia Ascii String.
From stdpp Require Import prelude.
From S2P Require Import Prelude Utils TestConfig Hardware PcieIde.

Open Scope Z_scope.
Open Scope teeio_scope.

Module Kcbar.
Import TestConfig Hardware PcieIde.

(** ** Constants *)

Definition INTEL_KEYP_PROTOCOL_TYPE_PCIE_CXLIO : Z := 1.
Definition INTEL_KEYP_PROTOCOL_TYPE_CXL_MEMCACHE : Z := 2.
Definition PCIE_IDE_STREAM_RX : Z := 0.
Definition PCIE_IDE_STREAM_TX : Z := 1.
Definition PCIE_IDE_STREAM_KS0 : Z := 0.
Definition PCIE_IDE_STREAM_KS1 : Z := 1.
Definition PCIE_IDE_STREAM_KS_NUM : Z := 2.
Definition PCIE_IDE_SUB_STREAM_PR : Z := 0.
Definition PCIE_IDE_SUB_STREAM_NPR : Z := 1.
Definition PCIE_IDE_SUB_STREAM_CPL : Z := 2.
Definition PCIE_IDE_KEY_SIZE : Z := 32.
Definition PCIE_IDE_IV_SIZE : Z := 8.

Definition sizeof_INTEL_KEYP_ACPI : Z := 40.
Definition sizeof_INTEL_KEYP_KEY_CONFIGURATION_UNIT : Z := 16.
Definition sizeof_INTEL_KEYP_ROOT_PORT_INFORMATION : Z := 4.

(** Offsets in [INTEL_KEYP_STREAM_CONFIG_REG_BLOCK]; [control] is at 0. *)
Definition tx_ctrl : Z := 4.
Definition tx_status : Z := 8.
Definition rx_ctrl : Z := 12.
Definition rx_status : Z := 16.
Definition tx_key_set_0 : Z := 20.
Definition tx_key_set_1 : Z := 24.
Definition rx_key_set_0 : Z := 28.
Definition rx_key_set_1 : Z := 32.

(** [slot_id[direction][substream]] *)
Definition ide_key_set_t : Type := list (list Z).

(** ** The KEYP table *)

Definition KEYP_SIGNATURE : bytes := bs "KEYP".

(** [krpi] names the port: the comparisons of the code in their order. *)
Definition krpi_is_port (buffer : bytes) (krpi : Z) (port : IDE_PORT) : res bool :=
  let* SegmentNumber := load_le buffer krpi 2 in
  if negb (SegmentNumber =? port_segment port) then Ok false else
  let* Bus := load_le buffer (krpi + 2) 1 in
  if negb (Bus =? port_bus port) then Ok false else
  let* Bits := load_le buffer (krpi + 3) 1 in
  Ok ((get_bits 3 5 Bits =? port_device port) && (get_bits 0 3 Bits =? port_function port)).

(** The loop over the root ports of a unit; [inr] is [found]. *)
Definition kcu_has_port (buffer : bytes) (offset RootPortCount : Z) (port : IDE_PORT) : res (unit + unit) :=
  for_each (λ i _,
    let* eq := krpi_is_port buffer
      (offset + sizeof_INTEL_KEYP_KEY_CONFIGURATION_UNIT + i * sizeof_INTEL_KEYP_ROOT_PORT_INFORMATION) port in
    Ok (if eq : bool then inr tt else inl tt)) (seqZ 0 RootPortCount) tt.

(** The loop over the units; it leaves with [kcbar_addr] when the port was found. *)
Definition keyp_step (buffer : bytes) (size keyp_protocol : Z) (port : IDE_PORT) (offset : Z)
    : res (Z + option Z) :=
  if offset <? size then
    let* Length := load_le buffer (offset + 2) 2 in
    let* _ := TEEIO_ASSERT (offset + Length <=? size) in
    let* ProtocolType := load_le buffer (offset + 4) 1 in
    if negb (ProtocolType =? keyp_protocol) then Ok (inl (offset + Length)) else
    let* RootPortCount := load_le buffer (offset + 6) 1 in
    let* found := kcu_has_port buffer offset RootPortCount port in
    match found with
    | inr _ => let* RegisterBaseAddr := load_le buffer (offset + 8) 8 in Ok (inr (Some RegisterBaseAddr))
    | inl _ => Ok (inl (offset + Length))
    end
  else Ok (inr None).

(** From the bytes read to the address of the unit.  A table has at most
    4096 bytes, so 4097 rounds are enough unless a unit has length 0, which the
    code reads again for ever. *)
Definition keyp_kcbar_addr (table : bytes) (keyp_protocol : Z) (port : IDE_PORT) : res (option Z) :=
  let size := Z.of_nat (length table) in
  let* _ := TEEIO_ASSERT (size <=? 4096) in
  let buffer := table ++ replicate (4096 - length table) 0 in
  if negb (bool_decide (take 4 buffer = KEYP_SIGNATURE)) then Ok None
  else if negb (Utils.calculate_checksum table =? 0) then Ok None
  else while (keyp_step buffer size keyp_protocol port) 4097 sizeof_INTEL_KEYP_ACPI.

(** [kcbar_fd] and [mapped_kcbar_addr] of a port context replaced. *)
Definition with_kcbar (pc : ide_common_test_port_context_t) (addr fd : Z) : ide_common_test_port_context_t :=
    {| port := port pc; cfg_space_fd := cfg_space_fd pc; ecap_offset := ecap_offset pc; doe_offset := doe_offset pc;
       ide_cap := ide_cap pc; mapped_kcbar_addr := addr; kcbar_fd := fd; stream_cap := stream_cap pc;
       ide_id := ide_id pc; rid_assoc1 := rid_assoc1 pc; rid_assoc2 := rid_assoc2 pc;
       addr_assoc1 := addr_assoc1 pc; addr_assoc2 := addr_assoc2 pc; addr_assoc3 := addr_assoc3 pc |}.

(** [table] is what reading the ACPI file gives, [None] when it cannot be
    opened; [map_kcbar_addr addr] the mapped address and the descriptor, [None]
    when /dev/mem cannot be opened or mapped. *)
Definition parse_keyp_table (table : option bytes) (map_kcbar_addr : Z → option (Z * Z))
    (pc : ide_common_test_port_context_t) (keyp_protocol : Z) : res (bool * ide_common_test_port_context_t) :=
  let* _ := TEEIO_ASSERT (port_type (port pc) =? IDE_PORT_TYPE_ROOTPORT) in
  match table with
  | None => Ok (false, with_kcbar pc 0 (-1))
  | Some table =>
      let* kcbar_addr := keyp_kcbar_addr table keyp_protocol (port pc) in
      match kcbar_addr with
      | None => Ok (false, with_kcbar pc 0 (-1))
      | Some addr =>
          if addr =? 0 then Ok (false, with_kcbar pc 0 (-1)) else
          match map_kcbar_addr addr with
          | Some (mapped, fd) => Ok (true, with_kcbar pc mapped fd)
          | None => let* _ := TEEIO_ASSERT false in Ok (false, with_kcbar pc 0 (-1))
          end
      end
  end.

(** ** Registers of the unit *)
Section machine.
Context {D : Type} `{Bus D}.

Definition get_stream_cfg_reg_block (kcbar_ptr rp_stream_index : Z) : Z :=
  stream_config_reg_block kcbar_ptr rp_stream_index.

(** The addresses of the key and IV slot 0 that the root port uses for a
    direction of the device; the slots of the transmit side come first. *)
Definition key_iv_slots (kcbar_ptr cap direction : Z) : Z * Z :=
  let key_slot_ptr := stream_config_reg_block kcbar_ptr (num_stream_supported cap + 1) in
  let iv_slot_ptr := key_slot_ptr + PCIE_IDE_KEY_SIZE * (num_tx_key_slots cap + 1) in
  if direction =? PCIE_IDE_STREAM_TX then
    let key_slot_ptr := iv_slot_ptr + PCIE_IDE_IV_SIZE * (num_tx_key_slots cap + 1) in
    let iv_slot_ptr := key_slot_ptr + PCIE_IDE_KEY_SIZE * (num_rx_key_slots cap + 1) in
    (key_slot_ptr, iv_slot_ptr)
  else (key_slot_ptr, iv_slot_ptr).

Definition kcbar_set_key_slot (kcbar_ptr direction slot_id : Z) (key_val iv_val : bytes) : io D unit :=
  let+ kcbar_capabilities := mmio_read_reg32 kcbar_ptr in
  let '(key_slot_ptr, iv_slot_ptr) := key_iv_slots kcbar_ptr kcbar_capabilities direction in
  let key_slot_ptr := key_slot_ptr + PCIE_IDE_KEY_SIZE * slot_id in
  let iv_slot_ptr := iv_slot_ptr + PCIE_IDE_IV_SIZE * slot_id in
  let+ _ := reg_memcpy_dw_mmio key_slot_ptr PCIE_IDE_KEY_SIZE key_val PCIE_IDE_KEY_SIZE in
  reg_memcpy_dw_mmio iv_slot_ptr PCIE_IDE_IV_SIZE iv_val PCIE_IDE_IV_SIZE.

(** The key set register of a direction of the device and a key set. *)
Definition keyset_slot_id_ptr (stream_cfg_reg_block direction key_set_select : Z) : res Z :=
  if direction =? PCIE_IDE_STREAM_TX then
    Ok (stream_cfg_reg_block + (if key_set_select =? PCIE_IDE_STREAM_KS0 then rx_key_set_0 else rx_key_set_1))
  else if direction =? PCIE_IDE_STREAM_RX then
    Ok (stream_cfg_reg_block + (if key_set_select =? PCIE_IDE_STREAM_KS0 then tx_key_set_0 else tx_key_set_1))
  else let* _ := TEEIO_ASSERT false in Ok 0.

(** The slot of a sub-stream replaced in a key set register. *)
Definition set_slot (sub_stream slot_id raw : Z) : res Z :=
  if sub_stream =? PCIE_IDE_SUB_STREAM_PR then Ok (set_bits 0 10 slot_id raw)
  else if sub_stream =? PCIE_IDE_SUB_STREAM_NPR then Ok (set_bits 10 10 slot_id raw)
  else if sub_stream =? PCIE_IDE_SUB_STREAM_CPL then Ok (set_bits 20 10 slot_id raw)
  else let* _ := TEEIO_ASSERT false in Ok raw.

Definition cfg_rootport_ide_keys (kcbar_ptr rp_stream_index direction key_set_select sub_stream slot_id : Z)
    (key_val iv : bytes) : io D unit :=
  let+ _ := kcbar_set_key_slot kcbar_ptr direction slot_id key_val iv in
  let block := get_stream_cfg_reg_block kcbar_ptr rp_stream_index in
  let+ ptr := lift (keyset_slot_id_ptr block direction key_set_select) in
  let+ stream_keyset_slot_id := mmio_read_reg32 ptr in
  let+ stream_keyset_slot_id := lift (set_slot sub_stream slot_id stream_keyset_slot_id) in
  mmio_write_reg32 ptr stream_keyset_slot_id.

Definition is_rp_ide_stream_enabled_in_kcbar (kcbar_ptr rp_stream_index : Z) : io D bool :=
  let+ stream_ctrl := mmio_read_reg32 (get_stream_cfg_reg_block kcbar_ptr rp_stream_index) in
  ret (stream_en stream_ctrl =? 1).

(** Also [set_rp_ide_key_set_select] of pcie_ide.c, which has the same body. *)
Definition set_rc_tx_ide_key_set (kcbar_ptr rp_stream_index sel : Z) : io D unit :=
  let ptr := get_stream_cfg_reg_block kcbar_ptr rp_stream_index + tx_ctrl in
  let+ stream_txrx_control := mmio_read_reg32 ptr in
  let+ stream_txrx_control :=
    (if sel =? PCIE_IDE_STREAM_KS0 then ret (set_bits 0 2 1 stream_txrx_control)
     else if sel =? PCIE_IDE_STREAM_KS1 then ret (set_bits 0 2 2 stream_txrx_control)
     else let+ _ := io_assert false in ret stream_txrx_control) in
  mmio_write_reg32 ptr stream_txrx_control.

Definition set_rp_ide_key_set_select (kcbar_ptr rp_stream_index sel : Z) : io D unit :=
  let ptr := get_stream_cfg_reg_block kcbar_ptr rp_stream_index + tx_ctrl in
  let+ stream_txrx_control := mmio_read_reg32 ptr in
  let+ stream_txrx_control :=
    (if sel =? PCIE_IDE_STREAM_KS0 then ret (set_bits 0 2 1 stream_txrx_control)
     else if sel =? PCIE_IDE_STREAM_KS1 then ret (set_bits 0 2 2 stream_txrx_control)
     else let+ _ := io_assert false in ret stream_txrx_control) in
  mmio_write_reg32 ptr stream_txrx_control.

(** The control and the status register of the root port's side. *)
Definition txrx_ctrl (block direction : Z) : Z := block + (if direction =? PCIE_IDE_STREAM_RX then tx_ctrl else rx_ctrl).
Definition txrx_status (block direction : Z) : Z := block + (if direction =? PCIE_IDE_STREAM_RX then tx_status else rx_status).

(** [prime_rc_ide_keys] leaves the prime bit of the other key set as it is. *)
Definition prime_rc_ide_keys (kcbar_ptr rp_stream_index direction sel : Z) : io D unit :=
  let block := get_stream_cfg_reg_block kcbar_ptr rp_stream_index in
  let+ _ := io_assert (sel <? PCIE_IDE_STREAM_KS_NUM) in
  let+ stream_txrx_control := mmio_read_reg32 (txrx_ctrl block direction) in
  let stream_txrx_control :=
    if sel =? PCIE_IDE_STREAM_KS0 then set_bits 8 1 1 stream_txrx_control
    else if sel =? PCIE_IDE_STREAM_KS1 then set_bits 16 1 1 stream_txrx_control
    else stream_txrx_control in
  let+ _ := mmio_write_reg32 (txrx_ctrl block direction) stream_txrx_control in
  let+ data32 := mmio_read_reg32 (txrx_status block direction) in
  ret tt.

(** [direct_names[direction]] and the like are read for the log. *)
Definition prime_rp_ide_key_set (kcbar_ptr rp_stream_index direction sel : Z) : io D unit :=
  let block := get_stream_cfg_reg_block kcbar_ptr rp_stream_index in
  let+ _ := io_assert (sel <? PCIE_IDE_STREAM_KS_NUM) in
  let+ stream_txrx_control := mmio_read_reg32 (txrx_ctrl block direction) in
  let stream_txrx_control :=
    if sel =? PCIE_IDE_STREAM_KS0 then set_bits 16 1 0 (set_bits 8 1 1 stream_txrx_control)
    else if sel =? PCIE_IDE_STREAM_KS1 then set_bits 16 1 1 (set_bits 8 1 0 stream_txrx_control)
    else stream_txrx_control in
  let+ _ := mmio_write_reg32 (txrx_ctrl block direction) stream_txrx_control in
  let+ stream_txrx_control := mmio_read_reg32 (txrx_ctrl block direction) in
  let+ data32 := mmio_read_reg32 (txrx_status block direction) in
  ret tt.

Definition initialize_kcbar_registers (kcbar stream_id rp_stream_index : Z) : io D bool :=
  let block := stream_config_reg_block kcbar rp_stream_index in
  let+ _ := mmio_write_reg32 (block + tx_ctrl) 0 in
  let+ _ := mmio_write_reg32 (block + rx_ctrl) 0 in
  let+ _ := mmio_write_reg32 (block + tx_key_set_0) 0 in
  let+ _ := mmio_write_reg32 (block + tx_key_set_1) 0 in
  let+ _ := mmio_write_reg32 (block + rx_key_set_0) 0 in
  let+ _ := mmio_write_reg32 (block + rx_key_set_1) 0 in
  let+ _ := mmio_write_reg32 block (set_bits 24 8 stream_id 0) in
  ret true.

Definition enable_ide_stream_in_kcbar (kcbar_ptr rp_stream_index : Z) (enable : bool) : io D unit :=
  let ptr := get_stream_cfg_reg_block kcbar_ptr rp_stream_index in
  let+ stream_ctrl := mmio_read_reg32 ptr in
  mmio_write_reg32 ptr (set_bits 0 1 (if enable then 1 else 0) stream_ctrl).

Definition enable_rootport_ide_stream (cfg_space_fd ecap_offset ide_type ide_id kcbar_addr rp_stream_index : Z)
    (enable : bool) : io D unit :=
  let+ _ := enable_ide_stream_in_kcbar kcbar_addr rp_stream_index enable in
  let+ _ := enable_ide_stream_in_ecap cfg_space_fd ecap_offset ide_type ide_id enable in
  ret tt.

Definition reset_ide_registers (pc : ide_common_test_port_context_t) (top_type stream_id rp_stream_index : Z)
    (reset_kcbar : bool) : io D bool :=
  let+ ide_type :=
    (if top_type =? IDE_TEST_TOPOLOGY_TYPE_SEL_IDE then ret TEST_IDE_TYPE_SEL_IDE
     else if top_type =? IDE_TEST_TOPOLOGY_TYPE_LINK_IDE then ret TEST_IDE_TYPE_LNK_IDE
     else let+ _ := io_assert false in ret TEST_IDE_TYPE_SEL_IDE) in
  let+ ok := (if reset_kcbar then initialize_kcbar_registers (mapped_kcbar_addr pc) stream_id rp_stream_index
              else ret true) in
  if negb ok then ret false else
  setup_ide_ecap_regs (cfg_space_fd pc) ide_type (ide_id pc) (ecap_offset pc) (set_bits 24 8 stream_id 0)
    (rid_assoc1 pc) (rid_assoc2 pc) (addr_assoc1 pc) (addr_assoc2 pc) (addr_assoc3 pc).

(** ** Register dumps

    The reads that a dump makes, with the assertions on the way to the block of the stream; what is printed is left out. *)

Definition dump_ecap (fd ide_id ide_ecap_offset ide_type : Z) : io D unit :=
  let+ cap_id := device_pci_read_32 ide_ecap_offset fd in
  let offset := u32 (ide_ecap_offset + 4) in
  let+ ide_cap := device_pci_read_32 offset fd in
  let offset := u32 (offset + 4) in
  let+ ide_ctrl := device_pci_read_32 offset fd in
  let+ offset := get_ide_reg_block_offset fd ide_type ide_id ide_ecap_offset in
  let+ offset := (if ide_type =? TEST_IDE_TYPE_SEL_IDE then
                    let+ stream_cap := device_pci_read_32 offset fd in ret (u32 (offset + 4))
                  else ret offset) in
  let+ stream_ctrl := device_pci_read_32 offset fd in
  let offset := u32 (offset + 4) in
  let+ stream_status := device_pci_read_32 offset fd in
  if ide_type =? TEST_IDE_TYPE_SEL_IDE then
    let offset := u32 (offset + 4) in
    let+ rid_assoc1 := device_pci_read_32 offset fd in
    let offset := u32 (offset + 4) in
    let+ rid_assoc2 := device_pci_read_32 offset fd in
    let offset := u32 (offset + 4) in
    let+ addr_assoc1 := device_pci_read_32 offset fd in
    let offset := u32 (offset + 4) in
    let+ addr_assoc2 := device_pci_read_32 offset fd in
    let offset := u32 (offset + 4) in
    let+ addr_assoc3 := device_pci_read_32 offset fd in
    ret tt
  else ret tt.

(** A port without the capability gives the offset 0. *)
Definition dump_flit_mode_status (cfg_space_fd : Z) : io D unit :=
  let+ pcie_cap_offset := get_cap_offset cfg_space_fd PCIE_CAPABILITY_ID in
  let+ pcie_cap := device_pci_read_16 (u32 (pcie_cap_offset + 0x02)) cfg_space_fd in
  let+ pcie_link_ctrl := device_pci_read_16 (u32 (pcie_cap_offset + 0x10)) cfg_space_fd in
  let+ pcie_link_status2 := device_pci_read_16 (u32 (pcie_cap_offset + 0x32)) cfg_space_fd in
  ret tt.

Definition dump_kcbar (kcbar_ptr rp_stream_index : Z) : io D unit :=
  let+ stream_cap := mmio_read_reg32 kcbar_ptr in
  let block := get_stream_cfg_reg_block kcbar_ptr rp_stream_index in
  let+ stream_control := mmio_read_reg32 block in
  let+ tx_control := mmio_read_reg32 (block + tx_ctrl) in
  let+ tx_st := mmio_read_reg32 (block + tx_status) in
  let+ rx_control := mmio_read_reg32 (block + rx_ctrl) in
  let+ rx_st := mmio_read_reg32 (block + rx_status) in
  let+ tx_ks0 := mmio_read_reg32 (block + tx_key_set_0) in
  let+ rx_ks0 := mmio_read_reg32 (block + rx_key_set_0) in
  let+ tx_ks1 := mmio_read_reg32 (block + tx_key_set_1) in
  let+ rx_ks1 := mmio_read_reg32 (block + rx_key_set_1) in
  ret tt.

Definition dump_rootport_registers (kcbar_addr rp_stream_index cfg_space_fd ide_id ecap_offset ide_type : Z) : io D unit :=
  let+ _ := dump_kcbar kcbar_addr rp_stream_index in
  let+ _ := dump_ecap cfg_space_fd ide_id ecap_offset ide_type in
  dump_flit_mode_status cfg_space_fd.

Definition dump_dev_registers (cfg_space_fd ide_id ecap_offset ide_type : Z) : io D unit :=
  let+ _ := dump_ecap cfg_space_fd ide_id ecap_offset ide_type in
  dump_flit_mode_status cfg_space_fd.

(** ** Free key and IV slots *)

(** What the walk reads of an enabled stream: the control register of the transmit
    side and the key set it selects. *)
Definition slot_usage_step (kcbar num_key_iv_slots i map : Z) : io D Z :=
  let block := stream_config_reg_block kcbar i in
  let+ stream_ctrl := mmio_read_reg32 block in
  if stream_en stream_ctrl =? 0 then ret map else
  let+ tx := mmio_read_reg32 (block + tx_ctrl) in
  let+ keyset_ptr :=
    (if key_set_select tx =? 1 then ret (block + tx_key_set_0)
     else if key_set_select tx =? 2 then ret (block + tx_key_set_1)
     else let+ _ := io_assert false in ret 0) in
  let+ keyset := mmio_read_reg32 keyset_ptr in
  let+ _ := io_assert (slot_pr keyset <? num_key_iv_slots) in
  let+ _ := io_assert (slot_pr keyset mod 3 =? 0) in
  let+ _ := io_assert (slot_npr keyset <? num_key_iv_slots) in
  let+ _ := io_assert (slot_cpl keyset <? num_key_iv_slots) in
  ret (u8 (Z.lor (Z.shiftl 1 (slot_pr keyset / 3)) map)).

Definition free_slot (map n : Z) : option Z :=
  List.find (λ i, u8 (Z.land (Z.shiftr map i) 0x1) =? 0) (seqZ 0 n).

Definition slots_at (i : Z) : list Z := [u16 (i * 3); u16 (i * 3 + 1); u16 (i * 3 + 2)].

Definition pcie_ide_alloc_slot_ids (pc : ide_common_test_port_context_t) (rp_stream_index : Z) (k_set : ide_key_set_t)
    : io D (bool * ide_key_set_t) :=
  let+ _ := io_assert (port_type (port pc) =? IDE_PORT_TYPE_ROOTPORT) in
  let kcbar := mapped_kcbar_addr pc in
  let+ cap := mmio_read_reg32 kcbar in
  let num_stream := num_stream_supported cap + 1 in
  let num_key_iv_slots := num_tx_key_slots cap + 1 in
  let+ _ := io_assert (num_key_iv_slots mod 3 =? 0) in
  if 1 * 8 * 3 <? num_key_iv_slots then ret (false, k_set) else
  let+ map := io_fold (slot_usage_step kcbar num_key_iv_slots) (seqZ 0 num_stream) 0 in
  match free_slot map (num_key_iv_slots / 3) with
  | Some i => ret (true, [slots_at i; slots_at i])
  | None => ret (false, k_set)
  end.

End machine.
End Kcbar.
