(* ===== verification/KcbarSpec.v ===== *)
(** * The KEYP table and the registers of the root complex, specified

    The ACPI table is described by the key configuration units it lists and
    their encoding; the register unit by its layout of key and IV slots and by what
    the stream registers read. *)
From Stdlib Require Import ZArith Lia Ascii String.
From stdpp Require Import prelude.
From S2P Require Import Prelude Utils TestConfig Hardware PcieIde PcieIdeSpec Kcbar.

Open Scope Z_scope.
Open Scope teeio_scope.

Module KcbarSpec.
Import TestConfig Hardware PcieIde PcieIdeSpec Kcbar.

(** ** The KEYP table *)

Record root_port := { rp_segment : Z; rp_bus : Z; rp_device : Z; rp_function : Z }.

Record key_configuration_unit := {
  kcu_type : Z; kcu_rsvd : Z; kcu_protocol : Z; kcu_version : Z; kcu_flags : Z; kcu_base : Z;
  kcu_ports : list root_port
}.

Definition encode_port (p : root_port) : bytes :=
  le_bytes 2 (rp_segment p) ++ [rp_bus p] ++ [rp_function p + 8 * rp_device p].

Definition kcu_length (k : key_configuration_unit) : Z := 16 + 4 * Z.of_nat (length (kcu_ports k)).

Definition encode_kcu (k : key_configuration_unit) : bytes :=
  [kcu_type k; kcu_rsvd k] ++ le_bytes 2 (kcu_length k) ++ [kcu_protocol k] ++ [kcu_version k] ++
  [Z.of_nat (length (kcu_ports k))] ++ [kcu_flags k] ++ le_bytes 8 (kcu_base k) ++
  flat_map encode_port (kcu_ports k).

Definition port_ok (p : root_port) : Prop :=
  0 ≤ rp_segment p < 2 ^ 16 ∧ 0 ≤ rp_bus p < 256 ∧ 0 ≤ rp_device p < 32 ∧ 0 ≤ rp_function p < 8.

Definition kcu_ok (k : key_configuration_unit) : Prop :=
  (length (kcu_ports k) < 256)%nat ∧ 0 ≤ kcu_base k < 2 ^ 64 ∧ 0 ≤ kcu_protocol k < 256 ∧
  Forall port_ok (kcu_ports k).

#[export] Instance port_ok_dec p : Decision (port_ok p).
Proof. unfold port_ok. apply _. Defined.
#[export] Instance kcu_ok_dec k : Decision (kcu_ok k).
Proof. unfold kcu_ok. apply _. Defined.

Definition is_root_port (port : IDE_PORT) (p : root_port) : bool :=
  (rp_segment p =? port_segment port) && (rp_bus p =? port_bus port) &&
  (rp_device p =? port_device port) && (rp_function p =? port_function port).

Definition kcu_serves (protocol : Z) (port : IDE_PORT) (k : key_configuration_unit) : bool :=
  (kcu_protocol k =? protocol) && existsb (is_root_port port) (kcu_ports k).

(** The header: the signature and 36 more bytes, which make the sum of the table 0. *)
Definition keyp_table (header : bytes) (kcus : list key_configuration_unit) : bytes :=
  bs "KEYP" ++ header ++ flat_map encode_kcu kcus.

Lemma load_le_at m off n pre w post :
  m = pre ++ w ++ post → off = Z.of_nat (length pre) → n = Z.of_nat (length w) → load_le m off n = Ok (le w).
Proof. intros -> -> ->. unfold load_le. by rewrite load_app. Qed.

Lemma le_one x : le [x] = x.
Proof. unfold le. simpl. lia. Qed.

Lemma length_encode_port p : length (encode_port p) = 4%nat.
Proof. unfold encode_port. by rewrite !length_app, length_le_bytes. Qed.

Lemma length_encode_ports l : length (flat_map encode_port l) = (4 * length l)%nat.
Proof. induction l as [|p l IH]; [done|]. simpl. rewrite IH. lia. Qed.

Lemma length_encode_kcu k : Z.of_nat (length (encode_kcu k)) = kcu_length k.
Proof.
  unfold encode_kcu, kcu_length. rewrite !length_app, !length_le_bytes, length_encode_ports. simpl length. lia.
Qed.

(** The fields of an encoded port and of an encoded unit. *)
Lemma krpi_is_port_spec pre p post port :
  port_ok p →
  krpi_is_port (pre ++ encode_port p ++ post) (Z.of_nat (length pre)) port = Ok (is_root_port port p).
Proof.
  intros (Hs & Hb & Hd & Hf). unfold krpi_is_port, encode_port.
  rewrite (load_le_at _ _ 2 pre (le_bytes 2 (rp_segment p)) ([rp_bus p] ++ [rp_function p + 8 * rp_device p] ++ post))
    by (rewrite <- ?app_assoc; done).
  rewrite le_le_bytes by (simpl; lia). cbn [res_bind]. unfold is_root_port.
  destruct (rp_segment p =? port_segment port); [|done]. cbn [negb andb].
  rewrite (load_le_at _ _ 1 (pre ++ le_bytes 2 (rp_segment p)) [rp_bus p] ([rp_function p + 8 * rp_device p] ++ post))
    by (rewrite <- ?app_assoc, ?length_app, ?length_le_bytes; done || lia).
  rewrite le_one. cbn [res_bind]. destruct (rp_bus p =? port_bus port); [|done]. cbn [negb andb].
  rewrite (load_le_at _ _ 1 (pre ++ le_bytes 2 (rp_segment p) ++ [rp_bus p]) [rp_function p + 8 * rp_device p] post)
    by (rewrite <- ?app_assoc, ?length_app, ?length_le_bytes; simpl; done || lia).
  rewrite le_one. cbn [res_bind].
  assert (E1 : get_bits 3 5 (rp_function p + 8 * rp_device p) = rp_device p).
  { rewrite get_bits_mod by lia. change (2 ^ 3) with 8. change (2 ^ 5) with 32.
    rewrite (Z.mul_comm 8), Z.div_add, Z.div_small, Z.mod_small by lia. lia. }
  assert (E0 : get_bits 0 3 (rp_function p + 8 * rp_device p) = rp_function p).
  { rewrite get_bits_mod by lia. change (2 ^ 0) with 1. change (2 ^ 3) with 8. rewrite Z.div_1_r.
    rewrite (Z.mul_comm 8), Z.mod_add, Z.mod_small by lia. lia. }
  by rewrite E1, E0.
Qed.

Lemma kcu_has_port_spec buffer offset pre ps post port lo :
  Forall port_ok ps → buffer = pre ++ flat_map encode_port ps ++ post →
  Z.of_nat (length pre) = offset + 16 + lo * 4 →
  for_each (λ i (_ : unit),
    let* eq := krpi_is_port buffer (offset + 16 + i * 4) port in
    Ok (if eq : bool then inr tt else inl tt)) (seqZ lo (Z.of_nat (length ps))) tt
  = Ok (if existsb (is_root_port port) ps then inr tt else inl tt).
Proof.
  intros Hps. revert lo pre. induction Hps as [|p ps Hp Hps IH]; intros lo pre Hbuf Hpre; [done|].
  cbn [length]. rewrite seqZ_cons by lia. replace (Z.pred (Z.of_nat (S (length ps)))) with (Z.of_nat (length ps)) by lia.
  cbn [for_each existsb]. rewrite <- Hpre. change (flat_map encode_port (p :: ps)) with
    (encode_port p ++ flat_map encode_port ps) in Hbuf. rewrite <- app_assoc in Hbuf. rewrite Hbuf at 1.
  rewrite krpi_is_port_spec by done. cbn [res_bind]. destruct (is_root_port port p); [done|]. cbn [orb].
  apply (IH _ (pre ++ encode_port p)).
  - rewrite Hbuf. by rewrite <- app_assoc.
  - rewrite length_app, length_encode_port. lia.
Qed.

Lemma keyp_step_kcu buffer size protocol port pre k post :
  kcu_ok k → buffer = pre ++ encode_kcu k ++ post →
  Z.of_nat (length pre) + kcu_length k ≤ size → 
  keyp_step buffer size protocol port (Z.of_nat (length pre)) =
  Ok (if kcu_serves protocol port k then inr (Some (kcu_base k)) else inl (Z.of_nat (length pre) + kcu_length k)).
Proof.
  intros (Hn & Hb & Hp & Hps) Hbuf Hsize. unfold keyp_step, kcu_serves.
  assert (Hlen : 16 ≤ kcu_length k < 2 ^ 16) by (unfold kcu_length; lia).
  rewrite (proj2 (Z.ltb_lt _ _)) by lia. unfold encode_kcu in Hbuf.
  set (l2 := le_bytes 2 (kcu_length k)) in *. set (l8 := le_bytes 8 (kcu_base k)) in *.
  set (lp := flat_map encode_port (kcu_ports k)) in *.
  assert (length l2 = 2%nat /\ length l8 = 8%nat) as [H2 H8] by (split; apply length_le_bytes).
  rewrite (load_le_at buffer _ 2 (pre ++ [kcu_type k; kcu_rsvd k]) l2
    ([kcu_protocol k] ++ [kcu_version k] ++ [Z.of_nat (length (kcu_ports k))] ++ [kcu_flags k] ++ l8 ++ lp ++ post))
    by (rewrite ?Hbuf, <- ?app_assoc, ?length_app, ?H2; simpl; done || lia).
  unfold l2 at 1. rewrite le_le_bytes by (simpl; lia). cbn [res_bind].
  rewrite (proj2 (Z.leb_le _ _)) by lia. cbn [TEEIO_ASSERT res_bind].
  rewrite (load_le_at buffer _ 1 (pre ++ [kcu_type k; kcu_rsvd k] ++ l2) [kcu_protocol k]
    ([kcu_version k] ++ [Z.of_nat (length (kcu_ports k))] ++ [kcu_flags k] ++ l8 ++ lp ++ post))
    by (rewrite ?Hbuf, <- ?app_assoc, ?length_app, ?H2; simpl; done || lia).
  rewrite le_one. cbn [res_bind]. destruct (kcu_protocol k =? protocol); [|done]. cbn [negb andb].
  rewrite (load_le_at buffer _ 1 (pre ++ [kcu_type k; kcu_rsvd k] ++ l2 ++ [kcu_protocol k] ++ [kcu_version k])
    [Z.of_nat (length (kcu_ports k))] ([kcu_flags k] ++ l8 ++ lp ++ post))
    by (rewrite ?Hbuf, <- ?app_assoc, ?length_app, ?H2; simpl; done || lia).
  rewrite le_one. cbn [res_bind]. unfold kcu_has_port, sizeof_INTEL_KEYP_KEY_CONFIGURATION_UNIT,
    sizeof_INTEL_KEYP_ROOT_PORT_INFORMATION.
  rewrite (kcu_has_port_spec buffer _ (pre ++ [kcu_type k; kcu_rsvd k] ++ l2 ++ [kcu_protocol k] ++ [kcu_version k] ++
    [Z.of_nat (length (kcu_ports k))] ++ [kcu_flags k] ++ l8) (kcu_ports k) post)
    by (rewrite ?Hbuf, <- ?app_assoc, ?length_app, ?H2, ?H8; simpl; done || lia).
  cbn [res_bind]. destruct (existsb (is_root_port port) (kcu_ports k)); [|done].
  rewrite (load_le_at buffer _ 8 (pre ++ [kcu_type k; kcu_rsvd k] ++ l2 ++ [kcu_protocol k] ++ [kcu_version k] ++
    [Z.of_nat (length (kcu_ports k))] ++ [kcu_flags k]) l8 (lp ++ post))
    by (rewrite ?Hbuf, <- ?app_assoc, ?length_app, ?H2, ?H8; simpl; done || lia).
  unfold l8 at 1. by rewrite le_le_bytes by (simpl; lia).
Qed.

(** The units one after the other: the first that serves the port is taken. *)
Lemma keyp_walk buffer size protocol port pre kcus post p :
  Forall kcu_ok kcus → buffer = pre ++ flat_map encode_kcu kcus ++ post →
  size = Z.of_nat (length (pre ++ flat_map encode_kcu kcus)) → Z.of_nat (length kcus) < Zpos p →
  while (keyp_step buffer size protocol port) p (Z.of_nat (length pre)) =
  Ok (kcu_base <$> List.find (kcu_serves protocol port) kcus).
Proof.
  intros Hk. revert pre p. induction Hk as [|k kcus Hk Hks IH]; intros pre p Hbuf Hsize Hp.
  - assert (E : keyp_step buffer size protocol port (Z.of_nat (length pre)) = Ok (inr None)).
    { unfold keyp_step. rewrite (proj2 (Z.ltb_ge _ _)); [done|]. rewrite Hsize. simpl. by rewrite app_nil_r. }
    destruct (Pos.succ_pred_or p) as [->|<-]; [unfold while; simpl|rewrite while_succ]; by rewrite E.
  - apply fuel_succ in Hp as (q & -> & Hq). rewrite while_succ. cbn [flat_map] in Hbuf, Hsize.
    assert (Hlen : length (pre ++ encode_kcu k ++ flat_map encode_kcu kcus) =
                   length ((pre ++ encode_kcu k) ++ flat_map encode_kcu kcus)) by by rewrite app_assoc.
    pose proof (length_encode_kcu k) as Hl.
    rewrite (keyp_step_kcu _ _ _ _ pre k (flat_map encode_kcu kcus ++ post)); [|done| |].
    + cbn [List.find]. destruct (kcu_serves protocol port k); [done|].
      replace (Z.of_nat (length pre) + kcu_length k) with (Z.of_nat (length (pre ++ encode_kcu k)))
        by (rewrite length_app; lia).
      apply IH; [by rewrite Hbuf, <- !app_assoc|by rewrite Hsize, Hlen|done].
    + by rewrite Hbuf, <- app_assoc.
    + rewrite Hsize, !length_app. lia.
Qed.

Lemma length_kcus kcus : Z.of_nat (16 * length kcus) ≤ Z.of_nat (length (flat_map encode_kcu kcus)).
Proof.
  induction kcus as [|k kcus IH]; [done|]. cbn [flat_map length]. rewrite length_app.
  pose proof (length_encode_kcu k). unfold kcu_length in *. lia.
Qed.

Lemma keyp_kcbar_addr_table header kcus protocol port :
  length header = 36%nat → Forall kcu_ok kcus →
  Utils.calculate_checksum (keyp_table header kcus) = 0 → (length (keyp_table header kcus) ≤ 4096)%nat →
  keyp_kcbar_addr (keyp_table header kcus) protocol port =
  Ok (kcu_base <$> List.find (kcu_serves protocol port) kcus).
Proof.
  intros Hh Hk Hsum Hlen. unfold keyp_kcbar_addr. rewrite (proj2 (Z.leb_le _ _)) by lia.
  cbn [TEEIO_ASSERT res_bind]. rewrite bool_decide_eq_true_2 by done. rewrite Hsum. cbn [negb Z.eqb].
  set (buffer := keyp_table header kcus ++ replicate (4096 - length (keyp_table header kcus)) 0).
  replace sizeof_INTEL_KEYP_ACPI with (Z.of_nat (length (bs "KEYP" ++ header))) by (rewrite length_app, Hh; done).
  apply (keyp_walk _ _ _ _ _ _ (replicate (4096 - length (keyp_table header kcus)) 0)); [done| | |].
  - unfold buffer, keyp_table. by rewrite <- !app_assoc.
  - unfold keyp_table. by rewrite app_assoc.
  - unfold keyp_table in Hlen. rewrite !length_app in Hlen. pose proof (length_kcus kcus). simpl in Hlen. lia.
Qed.

(** C15: In the context of a root port, a KEYP table of well-formed key configuration units, with the signature, a
    zero byte sum and at most 4096 bytes, is searched for the register base
    of the first unit of the protocol that lists the root port.  When there is one, the context gets what mapping
    that base gives, and the program stops at an assertion when it cannot be mapped.  When no unit lists the
    port, when the base is 0, and when the table is missing, mis-signed or mis-summed, the search fails and the
    context has no registers. *)
Theorem keyp_table_lookup header kcus protocol pc map :
  length header = 36%nat → Forall kcu_ok kcus → (length (keyp_table header kcus) ≤ 4096)%nat →
  port_type (port pc) = IDE_PORT_TYPE_ROOTPORT →
  let table := keyp_table header kcus in
  let fails t := parse_keyp_table t map pc protocol = Ok (false, with_kcbar pc 0 (-1)) in
  fails None ∧
  (∀ t, (length t ≤ 4096)%nat → take 4 (t ++ replicate (4096 - length t) 0) ≠ bs "KEYP" → fails (Some t)) ∧
  if decide (Utils.calculate_checksum table = 0) then
    match List.find (kcu_serves protocol (port pc)) kcus with
    | Some k =>
        if decide (kcu_base k = 0) then fails (Some table) else
        parse_keyp_table (Some table) map pc protocol =
          match map (kcu_base k) with
          | Some (mapped, fd) => Ok (true, with_kcbar pc mapped fd)
          | None => Stop AssertHang
          end
    | None => fails (Some table)
    end
  else fails (Some table).
Proof.
  intros Hh Hk Hlen Hty table fails. unfold fails, parse_keyp_table. rewrite Hty. cbn [TEEIO_ASSERT Z.eqb IDE_PORT_TYPE_ROOTPORT res_bind].
  split_and!; [done| |].
  - intros t Ht Hsig. unfold keyp_kcbar_addr. rewrite (proj2 (Z.leb_le _ _)) by lia.
    cbn [TEEIO_ASSERT res_bind]. by rewrite bool_decide_eq_false_2 by done.
  - destruct (decide _) as [Hsum|Hsum].
    + rewrite (keyp_kcbar_addr_table _ _ _ _ Hh Hk Hsum Hlen). cbn [res_bind].
      destruct (List.find _ kcus) as [k|]; cbn [fmap option_fmap option_map]; [|done].
      destruct (decide (kcu_base k = 0)) as [->|Hne]; [done|].
      rewrite (proj2 (Z.eqb_neq _ _)) by done. by destruct (map (kcu_base k)) as [[mapped fd]|].
    + unfold keyp_kcbar_addr. fold table. rewrite (proj2 (Z.leb_le _ _)) by (unfold table; lia).
      cbn [TEEIO_ASSERT res_bind]. rewrite bool_decide_eq_true_2 by done. cbn [negb].
      by rewrite (proj2 (Z.eqb_neq _ _)) by done.
Qed.

(** C27: A unit of another protocol whose length field is 0 keeps the parser
    in its loop for ever: it reads the same unit in every round. *)
Theorem keyp_zero_length_never_ends buffer size protocol port offset :
  0 ≤ offset < size → load_le buffer (offset + 2) 2 = Ok 0 →
  (∃ t, load_le buffer (offset + 4) 1 = Ok t ∧ t ≠ protocol) →
  ∀ rounds, while (keyp_step buffer size protocol port) rounds offset = Stop NoFuel.
Proof.
  intros [H0 Hlt] Hlen (t & Ht & Hne) rounds. apply (while_diverges _ (λ o, o = offset)); [|done].
  intros o ->. exists offset. split; [|done]. unfold keyp_step.
  rewrite (proj2 (Z.ltb_lt _ _)) by lia. rewrite Hlen. cbn [res_bind].
  rewrite (proj2 (Z.leb_le _ _)) by lia. cbn [TEEIO_ASSERT res_bind]. rewrite Ht. cbn [res_bind].
  rewrite (proj2 (Z.eqb_neq _ _)) by done. cbn [negb]. by rewrite Z.add_0_r.
Qed.

(** ** Free key and IV slots *)

(** The registers of a stream that the allocation looks at. *)
Record stream_state := { st_control : Z; st_tx : Z; st_ks0 : Z; st_ks1 : Z }.

(** The key set a stream uses for transmission. *)
Definition selected (s : stream_state) : option Z :=
  if key_set_select (st_tx s) =? 1 then Some (st_ks0 s)
  else if key_set_select (st_tx s) =? 2 then Some (st_ks1 s) else None.

Definition stream_off (s : stream_state) : bool := stream_en (st_control s) =? 0.

(** The asserts of the allocation on an enabled stream: a key set is selected and its slots
    are below [n], the first one of a triple. *)
Definition slots_ok (n : Z) (s : stream_state) : bool :=
  stream_off s ||
  match selected s with
  | Some ks => (slot_pr ks <? n) && (slot_pr ks mod 3 =? 0) && (slot_npr ks <? n) && (slot_cpl ks <? n)
  | None => false
  end.

(** The stream is enabled and the slot of its posted requests is in triple [i]. *)
Definition pr_in_triple (i : Z) (s : stream_state) : bool :=
  negb (stream_off s) && match selected s with Some ks => slot_pr ks / 3 =? i | None => false end.

(** The slots an enabled stream transmits with: posted and non-posted requests, completions. *)
Definition transmits_with (s : stream_state) : list Z :=
  if stream_off s then [] else
  match selected s with Some ks => [slot_pr ks; slot_npr ks; slot_cpl ks] | None => [] end.

(** Its slots follow each other. *)
Definition in_a_row (s : stream_state) : Prop :=
  ∀ ks, stream_off s = false → selected s = Some ks → slot_npr ks = slot_pr ks + 1 ∧ slot_cpl ks = slot_pr ks + 2.

(** Then a triple without its first slot has none of its slots. *)
Lemma other_triple n s i slot :
  slots_ok n s = true → in_a_row s → pr_in_triple i s = false → slot ∈ transmits_with s → slot ∉ [3 * i; 3 * i + 1; 3 * i + 2].
Proof.
  unfold slots_ok, in_a_row, pr_in_triple, transmits_with. destruct (stream_off s); [intros _ _ _ []%elem_of_nil|].
  destruct (selected s) as [ks|]; [|done]. cbn [negb orb andb].
  intros [[[_ Hm%Z.eqb_eq]%andb_true_iff _]%andb_true_iff _]%andb_true_iff Hrow Hne%Z.eqb_neq.
  destruct (Hrow ks eq_refl eq_refl) as [-> ->]. pose proof (Z_div_mod_eq_full (slot_pr ks) 3).
  rewrite !elem_of_cons, !elem_of_nil. lia.
Qed.

Section slots.
Context {D : Type} `{Bus D}.

Definition stream_reads (d : D) (kcbar i : Z) (s : stream_state) : Prop :=
  let block := stream_config_reg_block kcbar i in
  reads d (Mmio block) 4 (st_control s) ∧ reads d (Mmio (block + tx_ctrl)) 4 (st_tx s) ∧
  reads d (Mmio (block + tx_key_set_0)) 4 (st_ks0 s) ∧ reads d (Mmio (block + tx_key_set_1)) 4 (st_ks1 s).

Definition usage (map : Z) (s : stream_state) : Z :=
  if stream_off s then map else
  match selected s with Some ks => u8 (Z.lor (Z.shiftl 1 (slot_pr ks / 3)) map) | None => map end.

Lemma slot_usage_step_spec d kcbar n i s map :
  stream_reads d kcbar i s →
  slot_usage_step kcbar n i map d = if slots_ok n s then Ok (usage map s, d) else Stop AssertHang.
Proof.
  intros (Hc & Ht & H0 & H1). unfold slot_usage_step, slots_ok, usage, stream_off. cbv zeta.
  rewrite (bind_mmio_read _ _ _ _ Hc). destruct (stream_en (st_control s) =? 0); [done|]. cbn [orb].
  rewrite (bind_mmio_read _ _ _ _ Ht). unfold selected.
  assert (Htail : ∀ ptr ks, reads d (Mmio ptr) 4 ks →
    bind (mmio_read_reg32 ptr) (λ keyset,
      let+ _ := io_assert (slot_pr keyset <? n) in
      let+ _ := io_assert (slot_pr keyset mod 3 =? 0) in
      let+ _ := io_assert (slot_npr keyset <? n) in
      let+ _ := io_assert (slot_cpl keyset <? n) in
      ret (u8 (Z.lor (Z.shiftl 1 (slot_pr keyset / 3)) map))) d =
    if (slot_pr ks <? n) && (slot_pr ks mod 3 =? 0) && (slot_npr ks <? n) && (slot_cpl ks <? n)
    then Ok (u8 (Z.lor (Z.shiftl 1 (slot_pr ks / 3)) map), d) else Stop AssertHang).
  { intros ptr ks Hks. rewrite (bind_mmio_read _ _ _ _ Hks), bind_assert.
    destruct (slot_pr ks <? n); [|done]. rewrite bind_assert.
    destruct (slot_pr ks mod 3 =? 0); [|done]. rewrite bind_assert.
    destruct (slot_npr ks <? n); [|done]. rewrite bind_assert. by destruct (slot_cpl ks <? n). }
  destruct (key_set_select (st_tx s) =? 1); [rewrite bind_ret; by apply Htail|].
  destruct (key_set_select (st_tx s) =? 2); [rewrite bind_ret; by apply Htail|done].
Qed.

Lemma slot_usage_fold d kcbar n streams map lo :
  (∀ i s, streams !! i = Some s → stream_reads d kcbar (lo + Z.of_nat i) s) →
  io_fold (slot_usage_step kcbar n) (seqZ lo (Z.of_nat (length streams))) map d =
  if forallb (slots_ok n) streams then Ok (foldl usage map streams, d) else Stop AssertHang.
Proof.
  revert lo map. induction streams as [|s streams IH]; intros lo map Hs; [done|].
  cbn [length]. rewrite seqZ_cons by lia.
  replace (Z.pred (Z.of_nat (S (length streams)))) with (Z.of_nat (length streams)) by lia.
  cbn [io_fold forallb foldl]. pose proof (Hs 0%nat s eq_refl) as H0. rewrite Z.add_0_r in H0.
  pose proof (slot_usage_step_spec d kcbar n lo s map H0) as E. destruct (slots_ok n s); cbn [andb].
  - rewrite (bind_Ok _ _ _ _ _ E). apply IH. intros i t Hi. specialize (Hs (S i) t Hi).
    by replace (Z.succ lo + Z.of_nat i) with (lo + Z.of_nat (S i)) by lia.
  - by apply bind_Stop.
Qed.

(** Bit [i] of the map says whether a stream uses triple [i]. *)
Lemma usage_bits n streams map i :
  n ≤ 24 → 0 ≤ i < 8 → forallb (slots_ok n) streams = true →
  Z.testbit (foldl usage map streams) i = Z.testbit map i || existsb (pr_in_triple i) streams.
Proof.
  intros Hn Hi. revert map. induction streams as [|s streams IH]; intros map; cbn [forallb foldl existsb].
  { by rewrite orb_false_r. }
  intros [Hs Hss]%andb_true_iff. rewrite IH by done. rewrite orb_assoc. f_equal. clear IH Hss.
  unfold usage, pr_in_triple, slots_ok in *. destruct (stream_off s); cbn [negb andb orb] in *; [by rewrite orb_false_r|].
  destruct (selected s) as [ks|]; [|done]. apply andb_true_iff in Hs as [[[Hp Hm]%andb_true_iff _]%andb_true_iff _].
  apply Z.ltb_lt in Hp. pose proof (get_bits_range 0 10 ks) as Hr. fold (slot_pr ks) in Hr.
  assert (0 ≤ slot_pr ks / 3) by (apply Z.div_pos; lia).
  unfold u8. rewrite Z.mod_pow2_bits_low, Z.lor_spec, Z.shiftl_spec by lia. rewrite orb_comm. f_equal.
  destruct (Z.eqb_spec (slot_pr ks / 3) i) as [->|Hne].
  - by rewrite Z.sub_diag.
  - destruct (decide (i < slot_pr ks / 3)); [apply Z.testbit_neg_r; lia|].
    apply Z.bits_above_log2; simpl; lia.
Qed.

Lemma free_slot_spec n streams :
  0 ≤ n ≤ 24 → forallb (slots_ok n) streams = true →
  free_slot (foldl usage 0 streams) (n / 3) =
  List.find (λ i, negb (existsb (pr_in_triple i) streams)) (seqZ 0 (n / 3)).
Proof.
  intros Hn Hok. unfold free_slot.
  assert (Hin : Forall (λ i, 0 ≤ i < 8) (seqZ 0 (n / 3))).
  { apply Forall_forall. intros i Hi%elem_of_seqZ. assert (n / 3 ≤ 8) by (apply Z.div_le_upper_bound; lia). lia. }
  induction Hin as [|i l Hi Hl IH]; [done|]. cbn [List.find]. rewrite IH.
  replace (u8 (Z.land (Z.shiftr (foldl usage 0 streams) i) 0x1) =? 0)
    with (negb (existsb (pr_in_triple i) streams)); [done|].
  pose proof (usage_bits n streams 0 i ltac:(lia) Hi Hok) as E. rewrite Z.bits_0 in E. cbn [orb] in E. rewrite <- E.
  change 0x1 with (Z.ones 1). rewrite Z.land_ones by lia. rewrite <- Z.bit0_mod, Z.shiftr_spec, Z.add_0_l by lia.
  by destruct (Z.testbit _ i).
Qed.

(** C25: Slot allocation for a root port takes the first triple of key and IV
    slots in which no enabled stream has its transmit slot of posted requests, the same for both directions; it
    fails when all triples are taken or the port has more than 24
    transmit slots, and stops at an assertion when their number is not a multiple of three or, for an
    enabled stream, no key set is selected, a slot is too high or the slot of posted requests is not the first of a triple.
    The slots taken are among the transmit slots; when the slots of every enabled stream follow each other,
    as the code assumes, no enabled stream transmits with any of them.  Neither the assumption nor the number and the
    use of the receive slots is looked at: [spread_slots_taken] and [missing_receive_slots_taken] are runs in
    which a slot in use, and a receive slot that does not exist, is handed out. *)
Theorem slot_allocation d pc cap streams k_set rp_stream_index :
  port_type (port pc) = IDE_PORT_TYPE_ROOTPORT →
  reads d (Mmio (mapped_kcbar_addr pc)) 4 cap →
  Z.of_nat (length streams) = num_stream_supported cap + 1 →
  (∀ i s, streams !! i = Some s → stream_reads d (mapped_kcbar_addr pc) (Z.of_nat i) s) →
  let n := num_tx_key_slots cap + 1 in
  let free := List.find (λ i, negb (existsb (pr_in_triple i) streams)) (seqZ 0 (n / 3)) in
  pcie_ide_alloc_slot_ids pc rp_stream_index k_set d =
    (if negb (n mod 3 =? 0) then Stop AssertHang
     else if 24 <? n then Ok (false, k_set, d)
     else if negb (forallb (slots_ok n) streams) then Stop AssertHang
     else match free with
          | Some i => Ok (true, [[3 * i; 3 * i + 1; 3 * i + 2]; [3 * i; 3 * i + 1; 3 * i + 2]], d)
          | None => Ok (false, k_set, d)
          end) ∧
  (n ≤ 24 → ∀ i, free = Some i →
     0 ≤ 3 * i ∧ 3 * i + 2 < n ∧
     Forall (λ s, pr_in_triple i s = false) streams ∧
     (∀ j, 0 ≤ j < i → existsb (pr_in_triple j) streams = true) ∧
     (forallb (slots_ok n) streams = true → Forall in_a_row streams →
        Forall (λ s, Forall (λ slot, slot ∉ [3 * i; 3 * i + 1; 3 * i + 2]) (transmits_with s)) streams)).
Proof.
  intros Hty Hcap Hlen Hst n free. pose proof (get_bits_range 10 10 cap) as Hr. fold (num_tx_key_slots cap) in Hr.
  split.
  - unfold pcie_ide_alloc_slot_ids. rewrite Hty, bind_assert. cbn [Z.eqb IDE_PORT_TYPE_ROOTPORT]. cbv zeta.
    rewrite (bind_mmio_read _ _ _ _ Hcap), bind_assert. fold n.
    destruct (n mod 3 =? 0); [|done]. cbn [negb]. change (1 * 8 * 3) with 24.
    destruct (Z.ltb_spec 24 n) as [|Hn]; [done|]. rewrite <- Hlen.
    pose proof (slot_usage_fold d (mapped_kcbar_addr pc) n streams 0 0 Hst) as E.
    destruct (forallb (slots_ok n) streams) eqn:Hok; cbn [negb].
    + rewrite (bind_Ok _ _ _ _ _ E), free_slot_spec by (done || lia). fold free.
      destruct free as [i|] eqn:Ef; [|done]. apply List.find_some in Ef as [Hi _].
      apply list_elem_of_In, elem_of_seqZ in Hi.
      assert (n / 3 ≤ 8) by (apply Z.div_le_upper_bound; lia).
      unfold ret, slots_at, u16. rewrite !Z.mod_small by lia. by rewrite (Z.mul_comm i 3).
    + by apply bind_Stop.
  - intros Hn i Hf. unfold free in Hf. apply List.find_some in Hf as Hf'. destruct Hf' as [Hi Hu].
    apply list_elem_of_In, elem_of_seqZ in Hi.
    assert (3 * (n / 3) ≤ n) by (apply Z.mul_div_le; lia).
    assert (Hnone : Forall (λ s, pr_in_triple i s = false) streams).
    { apply Forall_forall. intros s Hs. apply negb_true_iff in Hu. destruct (pr_in_triple i s) eqn:E; [|done].
      assert (existsb (pr_in_triple i) streams = true); [|congruence].
      apply existsb_exists. exists s. split; [by apply list_elem_of_In|done]. }
    split; [lia|]. split; [lia|]. split; [exact Hnone|]. split.
    + intros j Hj. assert (Hsplit : seqZ 0 (n / 3) = seqZ 0 i ++ seqZ i (n / 3 - i)).
      { replace (n / 3) with (i + (n / 3 - i)) at 1 by lia. rewrite seqZ_app by lia. by rewrite Z.add_0_l. }
      rewrite Hsplit in Hf. destruct (existsb (pr_in_triple j) streams) eqn:E; [done|]. exfalso.
      assert (Hin : j ∈ seqZ 0 i) by (apply elem_of_seqZ; lia). clear Hsplit.
      assert (Hfj : ∃ k, List.find (λ i, negb (existsb (pr_in_triple i) streams)) (seqZ 0 i) = Some k).
      { destruct (List.find _ (seqZ 0 i)) eqn:En; [eauto|]. eapply List.find_none in En; [|by apply list_elem_of_In].
        simpl in En. by rewrite E in En. }
      destruct Hfj as [k Hk]. assert (Hk' := Hk). apply List.find_some in Hk as [Hk _].
      apply list_elem_of_In, elem_of_seqZ in Hk.
      enough (List.find (λ i, negb (existsb (pr_in_triple i) streams)) (seqZ 0 i ++ seqZ i (n / 3 - i)) = Some k) by (simplify_eq; lia).
      clear -Hk'. induction (seqZ 0 i) as [|x l IH]; [done|]. simpl in *. destruct (negb _); [done|auto].
    + intros Hok Hrow. apply Forall_forall. intros s Hs. apply Forall_forall. intros slot.
      apply (other_triple n); [|by apply (proj1 (Forall_forall _ _) Hrow)|by apply (proj1 (Forall_forall _ _) Hnone)].
      exact (proj1 (forallb_forall _ _) Hok s (proj1 (list_elem_of_In _ _) Hs)).
Qed.
End slots.

(** ** Key slots *)

(** The number of slots the root port has for a direction of the device:
    it transmits what the device receives. *)
Definition slot_count (cap direction : Z) : Z :=
  if direction =? PCIE_IDE_STREAM_TX then num_rx_key_slots cap + 1 else num_tx_key_slots cap + 1.

(** First address and size of a key slot and of an IV slot. *)
Definition key_region (kcbar cap direction slot : Z) : Z * Z :=
  ((key_iv_slots kcbar cap direction).1 + PCIE_IDE_KEY_SIZE * slot, PCIE_IDE_KEY_SIZE).
Definition iv_region (kcbar cap direction slot : Z) : Z * Z :=
  ((key_iv_slots kcbar cap direction).2 + PCIE_IDE_IV_SIZE * slot, PCIE_IDE_IV_SIZE).

(** The end of the registers a unit with these capabilities has. *)
Definition kcbar_end (kcbar cap : Z) : Z :=
  kcbar + 4 + 36 * (num_stream_supported cap + 1) + 40 * (num_tx_key_slots cap + 1) + 40 * (num_rx_key_slots cap + 1).

Definition apart (r1 r2 : Z * Z) : Prop := r1.1 + r1.2 ≤ r2.1 ∨ r2.1 + r2.2 ≤ r1.1.
Definition within (lo hi : Z) (r : Z * Z) : Prop := lo ≤ r.1 ∧ r.1 + r.2 ≤ hi.

(** The key and IV slots of the two directions lie behind the stream
    registers and before the end of the unit, and no two of them overlap:
    programming one slot cannot touch another one or a stream register. *)
Theorem key_slots_do_not_overlap kcbar cap dir slot dir' slot' :
  dir = PCIE_IDE_STREAM_RX ∨ dir = PCIE_IDE_STREAM_TX → dir' = PCIE_IDE_STREAM_RX ∨ dir' = PCIE_IDE_STREAM_TX →
  0 ≤ slot < slot_count cap dir → 0 ≤ slot' < slot_count cap dir' →
  let first := stream_config_reg_block kcbar (num_stream_supported cap + 1) in
  within first (kcbar_end kcbar cap) (key_region kcbar cap dir slot) ∧
  within first (kcbar_end kcbar cap) (iv_region kcbar cap dir slot) ∧
  apart (key_region kcbar cap dir slot) (iv_region kcbar cap dir' slot') ∧
  ((dir, slot) ≠ (dir', slot') →
     apart (key_region kcbar cap dir slot) (key_region kcbar cap dir' slot') ∧
     apart (iv_region kcbar cap dir slot) (iv_region kcbar cap dir' slot')).
Proof.
  intros Hd Hd' Hs Hs' first.
  pose proof (get_bits_range 10 10 cap). fold (num_tx_key_slots cap) in *.
  pose proof (get_bits_range 20 10 cap). fold (num_rx_key_slots cap) in *.
  unfold first, within, apart, key_region, iv_region, kcbar_end, slot_count, key_iv_slots, stream_config_reg_block,
    sizeof_INTEL_KEYP_STREAM_CONFIG_REG_BLOCK, PCIE_IDE_KEY_SIZE, PCIE_IDE_IV_SIZE in *.
  assert (Hne : (dir, slot) ≠ (dir', slot') → dir ≠ dir' ∨ slot ≠ slot').
  { intros Hne. destruct (decide (dir = dir')) as [->|]; [right; congruence|by left]. }
  destruct Hd as [-> | ->], Hd' as [-> | ->]; unfold PCIE_IDE_STREAM_TX, PCIE_IDE_STREAM_RX in *; simpl in *;
    (split_and!; [lia..|intros Hn%Hne; lia]).
Qed.

Section keys.
Context {D : Type} `{Bus D}.

(** A key or IV written dword by dword, upwards. *)
Fixpoint write_dwords (addr : Z) (n : nat) (src : bytes) (d : D) : D :=
  match n with
  | O => d
  | S n => write_dwords (addr + 4) n (drop 4 src) (bus_write (Mmio addr) 4 (le (take 4 src)) d)
  end.

Lemma memcpy_writes dst src n lo d :
  Z.of_nat (length src) = 4 * (lo + Z.of_nat n) → 0 ≤ lo →
  io_fold (λ i _, let+ w := lift (load_le src (i * 4) 4) in mmio_write_reg32 (dst + i * 4) w)
          (seqZ lo (Z.of_nat n)) tt d
  = Ok (tt, write_dwords (dst + lo * 4) n (drop (Z.to_nat (4 * lo)) src) d).
Proof.
  revert lo d. induction n as [|n IH]; intros lo d Hlen Hlo; [done|].
  rewrite seqZ_cons by lia. replace (Z.pred (Z.of_nat (S n))) with (Z.of_nat n) by lia. cbn [io_fold write_dwords].
  rewrite bind_assoc. unfold load_le, load.
  rewrite (proj2 (in_object_true _ _ _)) by lia. cbn [res_bind].
  rewrite (bind_lift_Ok _ _ _ (le (take 4 (drop (Z.to_nat (lo * 4)) src)))) by done.
  rewrite bind_mmio_write, IH by lia.
  replace (dst + Z.succ lo * 4) with (dst + lo * 4 + 4) by lia. rewrite drop_drop.
  replace (Z.to_nat (4 * lo) + 4)%nat with (Z.to_nat (4 * Z.succ lo)) by lia.
  by rewrite (Z.mul_comm 4 lo).
Qed.

Lemma reg_memcpy_dw_mmio_writes dst n src d :
  Z.of_nat (length src) = 4 * Z.of_nat n →
  reg_memcpy_dw_mmio dst (4 * Z.of_nat n) src (4 * Z.of_nat n) d = Ok (tt, write_dwords dst n src d).
Proof.
  intros Hlen. unfold reg_memcpy_dw_mmio. rewrite Z.eqb_refl, bind_assert, bind_assert.
  rewrite (Z.mul_comm 4), Z.mod_mul by lia. cbn [Z.eqb]. rewrite Z.shiftr_div_pow2 by lia.
  change (2 ^ 2) with 4. rewrite Z.div_mul by lia.
  rewrite memcpy_writes by lia. by rewrite Z.add_0_r.
Qed.

(** The register that tells which slots a key set of the root port uses. *)
Definition key_set_reg (block direction ks : Z) : Z :=
  block + (if direction =? PCIE_IDE_STREAM_TX
           then (if ks =? PCIE_IDE_STREAM_KS0 then rx_key_set_0 else rx_key_set_1)
           else (if ks =? PCIE_IDE_STREAM_KS0 then tx_key_set_0 else tx_key_set_1)).

(** The slot of a sub-stream in such a register. *)
Definition slot_of (sub_stream raw : Z) : Z :=
  if sub_stream =? PCIE_IDE_SUB_STREAM_PR then slot_pr raw
  else if sub_stream =? PCIE_IDE_SUB_STREAM_NPR then slot_npr raw else slot_cpl raw.

(** Programming a key for a direction of the device writes the key and
    the IV, dword by dword, to the slot on the opposite side of the root
    port, and then enters the slot for the sub-stream in the key set register of
    that side and key set; the slots of the other sub-streams stay. *)
Lemma root_port_key_programming d kcbar cap rp_stream_index direction ks sub slot key iv raw :
  direction = PCIE_IDE_STREAM_RX ∨ direction = PCIE_IDE_STREAM_TX →
  0 ≤ sub < 3 → 0 ≤ slot < 256 → length key = 32%nat → length iv = 8%nat →
  reads d (Mmio kcbar) 4 cap →
  let d' := write_dwords (iv_region kcbar cap direction slot).1 2 iv
              (write_dwords (key_region kcbar cap direction slot).1 8 key d) in
  let reg := key_set_reg (stream_config_reg_block kcbar rp_stream_index) direction ks in
  reads d' (Mmio reg) 4 raw →
  ∃ v, cfg_rootport_ide_keys kcbar rp_stream_index direction ks sub slot key iv d = Ok (tt, bus_write (Mmio reg) 4 v d') ∧
       slot_of sub v = slot ∧ ∀ sub', 0 ≤ sub' < 3 → sub' ≠ sub → slot_of sub' v = slot_of sub' raw.
Proof.
  intros Hdir Hsub Hslot Hk Hi Hcap d' reg Hraw.
  assert (Hset : ∃ v, set_slot sub slot raw = Ok v ∧ slot_of sub v = slot ∧
            ∀ sub', 0 ≤ sub' < 3 → sub' ≠ sub → slot_of sub' v = slot_of sub' raw).
  { assert (sub = 0 ∨ sub = 1 ∨ sub = 2) as [-> | [-> | ->]] by lia; eexists; (split; [done|]); unfold slot_of;
      cbn [Z.eqb Pos.eqb PCIE_IDE_SUB_STREAM_PR PCIE_IDE_SUB_STREAM_NPR];
      (split; [unfold slot_pr, slot_npr, slot_cpl; rewrite get_set_bits_eq, Z.mod_small by lia; done|]);
      intros sub' Hs' Hne; assert (sub' = 0 ∨ sub' = 1 ∨ sub' = 2) as [-> | [-> | ->]] by lia; try (exfalso; lia);
      unfold PCIE_IDE_SUB_STREAM_PR, PCIE_IDE_SUB_STREAM_NPR; cbn [Z.eqb Pos.eqb]; unfold slot_pr, slot_npr, slot_cpl; by rewrite get_set_bits_ne by lia. }
  destruct Hset as (v & Hv & Hvs). exists v. split; [|done].
  unfold cfg_rootport_ide_keys, kcbar_set_key_slot. rewrite bind_assoc, (bind_mmio_read _ _ _ _ Hcap).
  unfold d', key_region, iv_region in Hraw |- *. destruct (key_iv_slots kcbar cap direction) as [kp ip]. cbn [fst snd] in *.
  pose proof (reg_memcpy_dw_mmio_writes (kp + PCIE_IDE_KEY_SIZE * slot) 8 key d ltac:(rewrite Hk; done)) as E1.
  change (4 * Z.of_nat 8) with PCIE_IDE_KEY_SIZE in E1. rewrite bind_assoc, (bind_Ok _ _ _ _ _ E1).
  pose proof (reg_memcpy_dw_mmio_writes (ip + PCIE_IDE_IV_SIZE * slot) 2 iv
    (write_dwords (kp + PCIE_IDE_KEY_SIZE * slot) 8 key d) ltac:(rewrite Hi; done)) as E2.
  change (4 * Z.of_nat 2) with PCIE_IDE_IV_SIZE in E2. rewrite (bind_Ok _ _ _ _ _ E2).
  rewrite (bind_lift_Ok _ _ _ reg) by (unfold reg, key_set_reg, keyset_slot_id_ptr; by destruct Hdir as [-> | ->]).
  rewrite (bind_mmio_read _ _ _ _ Hraw). by rewrite (bind_lift_Ok _ _ _ v).
Qed.
End keys.

(** ** A table, a unit and streams *)

Definition example_kcus : list key_configuration_unit :=
  [{| kcu_type := 0; kcu_rsvd := 0; kcu_protocol := INTEL_KEYP_PROTOCOL_TYPE_CXL_MEMCACHE; kcu_version := 1;
      kcu_flags := 0; kcu_base := 0xFEDB0000; kcu_ports := [{| rp_segment := 0; rp_bus := 0; rp_device := 1; rp_function := 0 |}] |};
   {| kcu_type := 0; kcu_rsvd := 0; kcu_protocol := INTEL_KEYP_PROTOCOL_TYPE_PCIE_CXLIO; kcu_version := 1;
      kcu_flags := 0; kcu_base := 0xFEDC0000;
      kcu_ports := [{| rp_segment := 0; rp_bus := 0; rp_device := 3; rp_function := 0 |};
                    {| rp_segment := 0; rp_bus := 0; rp_device := 1; rp_function := 0 |}] |}].

Definition example_header : bytes := 184 :: replicate 35 0.

Lemma keyp_table_lookup_witness :
  parse_keyp_table (Some (keyp_table example_header example_kcus)) (λ _, Some (0x7000, 9)) example_context
    INTEL_KEYP_PROTOCOL_TYPE_PCIE_CXLIO = Ok (true, with_kcbar example_context 0x7000 9).
Proof.
  assert (Hok : Forall kcu_ok example_kcus) by (apply (bool_decide_unpack _); vm_compute; exact I).
  assert (Hl : (length (keyp_table example_header example_kcus) ≤ 4096)%nat) by (simpl; lia).
  destruct (keyp_table_lookup example_header example_kcus INTEL_KEYP_PROTOCOL_TYPE_PCIE_CXLIO example_context
    (λ _, Some (0x7000, 9)) eq_refl Hok Hl eq_refl) as (_ & _ & E).
  rewrite decide_True in E by (vm_compute; reflexivity).
  replace (List.find _ _) with (example_kcus !! 1%nat) in E by (vm_compute; reflexivity).
  cbn [example_kcus lookup list_lookup kcu_base] in E. by rewrite decide_False in E by done.
Defined.

Lemma keyp_zero_length_never_ends_witness :
  while (keyp_step (replicate 64 0) 56 INTEL_KEYP_PROTOCOL_TYPE_PCIE_CXLIO example_port) 1000000
    sizeof_INTEL_KEYP_ACPI = Stop NoFuel.
Proof.
  apply (keyp_zero_length_never_ends (replicate 64 0) 56 INTEL_KEYP_PROTOCOL_TYPE_PCIE_CXLIO example_port);
    [unfold sizeof_INTEL_KEYP_ACPI; lia|reflexivity|by exists 0].
Defined.

(** Two streams; the second one transmits with slots 0, 1 and 2. *)
Definition example_unit : memory :=
  [(Mmio 0x10000, 0x00501401); (Mmio 0x10028, 1); (Mmio 0x1002c, 1); (Mmio 0x1003c, 0x00200400)].

Definition example_streams : list stream_state :=
  [{| st_control := 0; st_tx := 0; st_ks0 := 0; st_ks1 := 0 |};
   {| st_control := 1; st_tx := 1; st_ks0 := 0x00200400; st_ks1 := 0 |}].

Lemma slot_allocation_witness :
  pcie_ide_alloc_slot_ids example_context 0 [] example_unit
  = Ok (true, [[3; 4; 5]; [3; 4; 5]], example_unit).
Proof.
  refine (proj1 (slot_allocation example_unit example_context 0x00501401 example_streams [] 0 eq_refl _ eq_refl _));
    [solve_reads|].
  intros [|[|i]] s Hs; simpl in Hs; simplify_eq; split_and!; (split; [reflexivity|simpl; lia]).
Defined.

(** A stream that transmits with slots 0, 4 and 5: slots 3, 4 and 5 are taken. *)
Example spread_slots_taken :
  pcie_ide_alloc_slot_ids example_context 0 []
    [(Mmio 0x10000, 0x00501401); (Mmio 0x10028, 1); (Mmio 0x1002c, 1); (Mmio 0x1003c, 0x00501000)]
  = Ok (true, [[3; 4; 5]; [3; 4; 5]], [(Mmio 0x10000, 0x00501401); (Mmio 0x10028, 1); (Mmio 0x1002c, 1); (Mmio 0x1003c, 0x00501000)]) ∧
  transmits_with {| st_control := 1; st_tx := 1; st_ks0 := 0x00501000; st_ks1 := 0 |} = [0; 4; 5].
Proof. split; vm_compute; reflexivity. Qed.

(** A root port with six transmit slots and three receive slots. *)
Example missing_receive_slots_taken :
  let unit := [(Mmio 0x10000, 0x00201401); (Mmio 0x10028, 1); (Mmio 0x1002c, 1); (Mmio 0x1003c, 0x00200400)] in
  pcie_ide_alloc_slot_ids example_context 0 [] unit = Ok (true, [[3; 4; 5]; [3; 4; 5]], unit) ∧ num_rx_key_slots 0x00201401 + 1 = 3.
Proof. split; vm_compute; reflexivity. Qed.

Lemma key_slots_do_not_overlap_witness :
  apart (key_region 0x10000 0x00501401 PCIE_IDE_STREAM_RX 5) (key_region 0x10000 0x00501401 PCIE_IDE_STREAM_TX 0).
Proof.
  assert (H5 : 0 ≤ 5 < slot_count 0x00501401 PCIE_IDE_STREAM_RX) by (vm_compute; by split).
  assert (H0 : 0 ≤ 0 < slot_count 0x00501401 PCIE_IDE_STREAM_TX) by (vm_compute; by split).
  destruct (key_slots_do_not_overlap 0x10000 0x00501401 PCIE_IDE_STREAM_RX 5 PCIE_IDE_STREAM_TX 0
    (or_introl eq_refl) (or_intror eq_refl) H5 H0) as (_ & _ & _ & Hne).
  apply Hne. discriminate.
Defined.

End KcbarSpec.
