(* ===== verification/IdeKm.v ===== *)
(** * PCIe IDE key management (library/pcie_ide_test_lib/test_case/ide_km_common.c)

    Programming keys into the device and the root port, starting the key
    sets, and the set-up of a stream from the query to the secure state.  The
    IDE_KM messages, random numbers and waiting are libspdm's; they are a class of
    operations on the machine; the handles of the SPDM and DOE contexts, which
    every call passes on, are part of that class, and the session is an argument. *)
From Stdlib Require Import ZArith Lia.
From stdpp Require Import prelude.
From S2P Require Import Prelude KeyOrder Libspdm TestConfig Hardware PcieIde PcieIdeSpec Kcbar KcbarSpec.

Open Scope Z_scope.
Open Scope teeio_scope.

Module IdeKm.
Import TestConfig Hardware PcieIde PcieIdeSpec Kcbar KcbarSpec.

Definition IDE_STREAM_STATUS_SECURE : Z := 2.
Definition PCIE_IDE_STREAM_DIRECTION_NUM : Z := 2.
Definition PCIE_IDE_SUB_STREAM_NUM : Z := 3.
Definition TEEIO_TEST_FIXED_TX_KEY_BYTE_VALUE : Z := 0x11.
Definition TEEIO_TEST_FIXED_RX_KEY_BYTE_VALUE : Z := 0x22.
Definition PCIE_IDE_IV_INIT_VALUE : Z := 1.

(** The fields of the IDE_KM messages.  A request is filled with zeros before
    its fields are set; of a response only the fields of its kind are read. *)
Record ide_km_message := {
  km_object_id : Z;
  km_stream_id : Z;
  km_key_sub_stream : Z;
  km_port_index : Z;
  km_status : Z;
  km_dev_func_num : Z;
  km_bus_num : Z;
  km_segment : Z;
  km_max_port_index : Z;
  km_key : bytes;
  km_iv : bytes
}.

(** A request of the kinds K_SET_GO and K_SET_STOP. *)
Definition k_set_request (object_id stream_id key_sub_stream port_index : Z) : ide_km_message :=
  {| km_object_id := object_id; km_stream_id := stream_id; km_key_sub_stream := key_sub_stream; km_port_index := port_index;
     km_status := 0; km_dev_func_num := 0; km_bus_num := 0; km_segment := 0; km_max_port_index := 0; km_key := []; km_iv := [] |}.

(** What a query answers: function, bus, segment and the last port index. *)
Record query_answer := { answer_dev_func : Z; answer_bus : Z; answer_segment : Z; answer_max_port_index : Z }.

(** What libspdm offers to the key management. *)
Class IdeKmRequester (D : Type) := {
  PCI_IDE_KM_KEY_SET_K0 : Z;
  PCI_IDE_KM_KEY_SET_K1 : Z;
  PCI_IDE_KM_KEY_DIRECTION_RX : Z;
  PCI_IDE_KM_KEY_DIRECTION_TX : Z;
  PCI_IDE_KM_KEY_SUB_STREAM_PR : Z;
  PCI_IDE_KM_KEY_SUB_STREAM_NPR : Z;
  PCI_IDE_KM_KEY_SUB_STREAM_CPL : Z;
  PCI_IDE_KM_OBJECT_ID_K_SET_GO : Z;
  PCI_IDE_KM_OBJECT_ID_K_SET_GOSTOP_ACK : Z;
  PCI_IDE_KM_KP_ACK_STATUS_SUCCESS : Z;
  sizeof_pci_ide_km_k_set_go_t : Z;
  sizeof_pci_ide_km_k_gostop_ack_t : Z;
  LIBSPDM_STATUS_INVALID_MSG_SIZE : Z;
  LIBSPDM_STATUS_INVALID_MSG_FIELD : Z;
  (** whether random numbers were made, and the bytes *)
  libspdm_get_random_number : Z → io D (bool * bytes);
  (** session, port index; the status and the answer *)
  pci_ide_km_query : Z → Z → io D (Z * query_answer);
  (** session, stream id, key set | direction | sub-stream, port index, key and IV as
      they are in memory; status and acknowledge status *)
  pci_ide_km_key_prog : Z → Z → Z → Z → bytes → bytes → io D (Z * Z);
  (** session, request and its size; status, response size and response *)
  pci_ide_km_send_receive_data : Z → ide_km_message → Z → io D (Z * Z * ide_km_message);
  getchar : io D Z
}.

Section key_management.
Context {D : Type} `{Bus D} `{Clock D} `{IdeKmRequester D} `{Libspdm}.
Context (session_id : Z).

(** [k_sets[ks]], [directions[direction]], [substreams[substream]]; the
    indices were checked before. *)
Definition k_sets (ks : Z) : Z := if ks =? 0 then PCI_IDE_KM_KEY_SET_K0 else PCI_IDE_KM_KEY_SET_K1.
Definition directions (direction : Z) : Z :=
  if direction =? 0 then PCI_IDE_KM_KEY_DIRECTION_RX else PCI_IDE_KM_KEY_DIRECTION_TX.
Definition substreams (substream : Z) : Z :=
  if substream =? 0 then PCI_IDE_KM_KEY_SUB_STREAM_PR
  else if substream =? 1 then PCI_IDE_KM_KEY_SUB_STREAM_NPR else PCI_IDE_KM_KEY_SUB_STREAM_CPL.

(** The IV of the message and the one of the root port. *)
Definition key_prog_iv : bytes := le_bytes 4 0 ++ le_bytes 4 PCIE_IDE_IV_INIT_VALUE.
Definition rp_iv : bytes := PCIE_IDE_IV_INIT_VALUE :: replicate 7 0.

(** The key of the message: random, or a fixed byte per direction. *)
Definition choose_key (g_teeio_fixed_key : bool) (direction : Z) : io D (option bytes) :=
  let fixed_key_byte := if direction =? PCIE_IDE_STREAM_RX then TEEIO_TEST_FIXED_RX_KEY_BYTE_VALUE
                        else TEEIO_TEST_FIXED_TX_KEY_BYTE_VALUE in
  if negb g_teeio_fixed_key then
    let+ (result, key) := libspdm_get_random_number PCIE_IDE_KEY_SIZE in
    ret (if result : bool then Some key else None)
  else ret (Some (replicate 32 fixed_key_byte)).

(** [k_set->slot_id[direction][substream]] in a [uint8_t] *)
Definition get_slot_id (k_set : ide_key_set_t) (direction substream : Z) : res Z :=
  let* row := array_get k_set direction in
  let* slot := array_get row substream in
  Ok (u8 slot).

Definition ide_km_key_prog (g_teeio_fixed_key : bool) (ks direction substream port_index stream_id kcbar_addr : Z)
    (k_set : ide_key_set_t) (rp_stream_index : Z) : io D bool :=
  let+ _ := io_assert (ks <? PCIE_IDE_STREAM_KS_NUM) in
  let+ _ := io_assert (direction <? PCIE_IDE_STREAM_DIRECTION_NUM) in
  let+ _ := io_assert (substream <? PCIE_IDE_SUB_STREAM_NUM) in
  let+ key := choose_key g_teeio_fixed_key direction in
  match key with
  | None => ret false
  | Some key =>
      let+ (status, kp_ack_status) :=
        pci_ide_km_key_prog session_id stream_id (Z.lor (Z.lor (k_sets ks) (directions direction)) (substreams substream))
          port_index key key_prog_iv in
      if LIBSPDM_STATUS_IS_ERROR status then ret false else
      if negb (kp_ack_status =? PCI_IDE_KM_KP_ACK_STATUS_SUCCESS) then ret false else
      let+ (_, keys) := lift (KeyOrder.pcie_construct_rp_keys (Some key) PCIE_IDE_KEY_SIZE
                                (Some (replicate 32 0)) PCIE_IDE_KEY_SIZE) in
      let+ slot_id := lift (get_slot_id k_set direction substream) in
      let+ _ := cfg_rootport_ide_keys kcbar_addr rp_stream_index direction ks substream slot_id keys rp_iv in
      ret true
  end.

Definition ide_km_key_set_go (stream_id key_sub_stream port_index : Z) : io D Z :=
  let request := k_set_request PCI_IDE_KM_OBJECT_ID_K_SET_GO stream_id key_sub_stream port_index in
  let+ (status, response_size, response) :=
    pci_ide_km_send_receive_data session_id request sizeof_pci_ide_km_k_set_go_t in
  ret (if LIBSPDM_STATUS_IS_ERROR status then status
       else if negb (response_size =? sizeof_pci_ide_km_k_gostop_ack_t) then LIBSPDM_STATUS_INVALID_MSG_SIZE
       else if negb (km_object_id response =? PCI_IDE_KM_OBJECT_ID_K_SET_GOSTOP_ACK) then LIBSPDM_STATUS_INVALID_MSG_FIELD
       else if negb (km_port_index response =? km_port_index request) then LIBSPDM_STATUS_INVALID_MSG_FIELD
       else if negb (km_stream_id response =? km_stream_id request) then LIBSPDM_STATUS_INVALID_MSG_FIELD
       else if negb (km_key_sub_stream response =? km_key_sub_stream request) then LIBSPDM_STATUS_INVALID_MSG_FIELD
       else LIBSPDM_STATUS_SUCCESS).

Definition is_ide_stream_secure (ide_type rp_cfg_space_fd rp_ecap_offset rp_ide_id
    ep_cfg_space_fd ep_ecap_offset ep_ide_id : Z) : io D bool :=
  let+ stream_status := read_stream_status_in_rp_ecap rp_cfg_space_fd rp_ecap_offset ide_type rp_ide_id in
  if negb (status_state stream_status =? IDE_STREAM_STATUS_SECURE) then ret false else
  let+ stream_status := read_ide_stream_status_in_ecap ep_cfg_space_fd ide_type ep_ide_id ep_ecap_offset in
  ret (status_state stream_status =? IDE_STREAM_STATUS_SECURE).

(** [status = ide_km_key_set_go(...); if (LIBSPDM_STATUS_IS_ERROR(status)) return false;] *)
Definition key_set_go_ok (stream_id key_sub_stream port_index : Z) : io D bool :=
  let+ status := ide_km_key_set_go stream_id key_sub_stream port_index in
  ret (negb (LIBSPDM_STATUS_IS_ERROR status)).

(** The keys of the receive direction and their priming, then those of the transmit direction; [k] is what follows. *)
Definition program_keys (g_teeio_fixed_key : bool) (kcbar_addr stream_id ks : Z) (k_set : ide_key_set_t)
    (rp_stream_index port_index : Z) (k : io D bool) : io D bool :=
  let prog direction substream :=
    ide_km_key_prog g_teeio_fixed_key ks direction substream port_index stream_id kcbar_addr k_set rp_stream_index in
  ok+ prog PCIE_IDE_STREAM_RX PCIE_IDE_SUB_STREAM_PR in
  ok+ prog PCIE_IDE_STREAM_RX PCIE_IDE_SUB_STREAM_NPR in
  ok+ prog PCIE_IDE_STREAM_RX PCIE_IDE_SUB_STREAM_CPL in
  let+ _ := prime_rp_ide_key_set kcbar_addr rp_stream_index PCIE_IDE_STREAM_RX ks in
  ok+ prog PCIE_IDE_STREAM_TX PCIE_IDE_SUB_STREAM_PR in
  ok+ prog PCIE_IDE_STREAM_TX PCIE_IDE_SUB_STREAM_NPR in
  ok+ prog PCIE_IDE_STREAM_TX PCIE_IDE_SUB_STREAM_CPL in
  let+ _ := prime_rp_ide_key_set kcbar_addr rp_stream_index PCIE_IDE_STREAM_TX ks in
  k.

(** The starts of the key set, with the selection in the root port in between. *)
Definition go_key_set (kcbar_addr stream_id ks rp_stream_index port_index : Z) (k : io D bool) : io D bool :=
  let go sub_stream := key_set_go_ok stream_id (Z.lor (Z.lor ks sub_stream.1) sub_stream.2) port_index in
  ok+ go (PCI_IDE_KM_KEY_DIRECTION_RX, PCI_IDE_KM_KEY_SUB_STREAM_PR) in
  ok+ go (PCI_IDE_KM_KEY_DIRECTION_RX, PCI_IDE_KM_KEY_SUB_STREAM_NPR) in
  ok+ go (PCI_IDE_KM_KEY_DIRECTION_RX, PCI_IDE_KM_KEY_SUB_STREAM_CPL) in
  let+ _ := set_rp_ide_key_set_select kcbar_addr rp_stream_index ks in
  ok+ go (PCI_IDE_KM_KEY_DIRECTION_TX, PCI_IDE_KM_KEY_SUB_STREAM_PR) in
  ok+ go (PCI_IDE_KM_KEY_DIRECTION_TX, PCI_IDE_KM_KEY_SUB_STREAM_NPR) in
  ok+ go (PCI_IDE_KM_KEY_DIRECTION_TX, PCI_IDE_KM_KEY_SUB_STREAM_CPL) in
  k.

(** The stream is enabled on both sides and must then be secure. *)
Definition enable_and_check (kcbar_addr rp_stream_index top_type : Z) (upper_port lower_port : ide_common_test_port_context_t)
    : io D bool :=
  let+ ide_type :=
    (if top_type =? IDE_TEST_TOPOLOGY_TYPE_LINK_IDE then ret IDE_TEST_TOPOLOGY_TYPE_LINK_IDE
     else if top_type =? IDE_TEST_TOPOLOGY_TYPE_SEL_LINK_IDE
     then let+ _ := io_assert false in ret TEST_IDE_TYPE_SEL_IDE
     else ret TEST_IDE_TYPE_SEL_IDE) in
  let+ _ := enable_ide_stream_in_ecap (cfg_space_fd lower_port) (ecap_offset lower_port) ide_type (ide_id lower_port) true in
  let+ _ := enable_rootport_ide_stream (cfg_space_fd upper_port) (ecap_offset upper_port) ide_type (ide_id upper_port)
              kcbar_addr rp_stream_index true in
  let+ _ := libspdm_sleep (10 * 1000) in
  is_ide_stream_secure ide_type (cfg_space_fd upper_port) (ecap_offset upper_port) (ide_id upper_port)
    (cfg_space_fd lower_port) (ecap_offset lower_port) (ide_id lower_port).

Definition setup_ide_stream (g_teeio_fixed_key : bool) (kcbar_addr stream_id ks : Z) (k_set : ide_key_set_t)
    (rp_stream_index port_index top_type : Z)
    (upper_port lower_port : ide_common_test_port_context_t) (skip_ksetgo : bool) : io D bool :=
  let+ (status, _) := pci_ide_km_query session_id port_index in
  if LIBSPDM_STATUS_IS_ERROR status then ret false else
  program_keys g_teeio_fixed_key kcbar_addr stream_id ks k_set rp_stream_index port_index
    (if skip_ksetgo then ret true else
     go_key_set kcbar_addr stream_id ks rp_stream_index port_index
       (enable_and_check kcbar_addr rp_stream_index top_type upper_port lower_port)).

(** The loop that waits for free slots asks the user each time; [tries]
    bounds how often.  [inr true] goes on, [inr false] is the user's 'q'. *)
Definition wait_for_slots (tries : positive) (upper_port : ide_common_test_port_context_t) (rp_stream_index : Z)
    (k_set : ide_key_set_t) : io D (bool * ide_key_set_t) :=
  io_while tries (λ k_set,
    let+ (ok, k_set) := pcie_ide_alloc_slot_ids upper_port rp_stream_index k_set in
    if ok : bool then ret (inr (true, k_set)) else
    let+ cmd := getchar in
    ret (if (cmd =? 113) || (cmd =? 81) then inr (false, k_set) else inl k_set)) k_set.

(** Returns its value and the key set. *)
Definition ide_key_switch_to (tries : positive) (g_teeio_fixed_key : bool) (kcbar_addr stream_id : Z)
    (k_set : ide_key_set_t) (rp_stream_index port_index top_type : Z)
    (upper_port lower_port : ide_common_test_port_context_t) (ks : Z) (skip_ksetgo : bool)
    : io D (bool * ide_key_set_t) :=
  let+ ide_type :=
    (if top_type =? IDE_TEST_TOPOLOGY_TYPE_LINK_IDE then ret TEST_IDE_TYPE_LNK_IDE
     else if top_type =? IDE_TEST_TOPOLOGY_TYPE_SEL_LINK_IDE
     then let+ _ := io_assert false in ret TEST_IDE_TYPE_SEL_IDE
     else ret TEST_IDE_TYPE_SEL_IDE) in
  let+ enabled := is_ide_enabled (cfg_space_fd upper_port) ide_type (ide_id upper_port) (ecap_offset upper_port) in
  if negb enabled then ret (false, k_set) else
  let+ enabled := is_ide_enabled (cfg_space_fd lower_port) ide_type (ide_id lower_port) (ecap_offset lower_port) in
  if negb enabled then ret (false, k_set) else
  let+ (ok, k_set) := wait_for_slots tries upper_port rp_stream_index k_set in
  if negb ok then ret (false, k_set) else
  let+ result :=
    program_keys g_teeio_fixed_key kcbar_addr stream_id ks k_set rp_stream_index port_index
      (if skip_ksetgo then ret true else
       go_key_set kcbar_addr stream_id ks rp_stream_index port_index
         (let+ _ := libspdm_sleep (10 * 1000) in
          is_ide_stream_secure ide_type (cfg_space_fd upper_port) (ecap_offset upper_port) (ide_id upper_port)
            (cfg_space_fd lower_port) (ecap_offset lower_port) (ide_id lower_port))) in
  ret (result, k_set).

End key_management.
End IdeKm.
