(* ===== verification/IdeKmSpec.v ===== *)
(** * Key management specified

    The set-up of a stream as a list of steps that is left at the first one
    that fails, and the agreement of device and root port on the key. *)
From Stdlib Require Import ZArith Lia.
From stdpp Require Import prelude.
From S2P Require Import Prelude KeyOrder Libspdm TestConfig Hardware PcieIde PcieIdeSpec Kcbar KcbarSpec IdeKm.

Open Scope Z_scope.
Open Scope teeio_scope.

Module IdeKmSpec.
Import KeyOrder TestConfig Hardware PcieIde PcieIdeSpec Kcbar KcbarSpec IdeKm.

(** ** Steps *)

Inductive action : Type :=
| Query                          (* ask the device for its IDE_KM port *)
| Program (direction sub : Z)    (* a key, into the device and the root port *)
| Prime (direction : Z)          (* the key set, in the root port *)
| Go (direction sub : Z)         (* start the key set in the device *)
| Select                         (* the key set the root port transmits with *)
| CheckTopology                  (* selective and link together is not implemented *)
| EnableDevice
| EnableRootPort
| Wait
| Secure.                        (* both ports report the secure state *)

(** A step that cannot fail. *)
Definition done_ {D} (m : io D unit) : io D bool := let+ _ := m in ret true.

Section plans.
Context {D : Type} `{Bus D} `{Clock D} `{IdeKmRequester D} `{Libspdm}.
Context (session_id : Z) (fixed : bool) (kcbar stream_id ks : Z) (k_set : ide_key_set_t) (rp_stream_index port_index top_type : Z)
        (upper lower : ide_common_test_port_context_t).

Definition ide_type_of : Z :=
  if top_type =? IDE_TEST_TOPOLOGY_TYPE_LINK_IDE then TEST_IDE_TYPE_LNK_IDE else TEST_IDE_TYPE_SEL_IDE.

Definition perform (a : action) : io D bool :=
  match a with
  | Query => let+ (status, _) := pci_ide_km_query session_id port_index in ret (negb (LIBSPDM_STATUS_IS_ERROR status))
  | Program direction sub =>
      ide_km_key_prog session_id fixed ks direction sub port_index stream_id kcbar k_set rp_stream_index
  | Prime direction => done_ (prime_rp_ide_key_set kcbar rp_stream_index direction ks)
  | Go direction sub =>
      key_set_go_ok session_id stream_id (Z.lor (Z.lor ks (directions direction)) (substreams sub)) port_index
  | Select => done_ (set_rp_ide_key_set_select kcbar rp_stream_index ks)
  | CheckTopology => done_ (io_assert (negb (top_type =? IDE_TEST_TOPOLOGY_TYPE_SEL_LINK_IDE)))
  | EnableDevice =>
      let+ _ := enable_ide_stream_in_ecap (cfg_space_fd lower) (ecap_offset lower) ide_type_of (ide_id lower) true in
      ret true
  | EnableRootPort =>
      done_ (enable_rootport_ide_stream (cfg_space_fd upper) (ecap_offset upper) ide_type_of (ide_id upper)
               kcbar rp_stream_index true)
  | Wait => done_ (libspdm_sleep (10 * 1000))
  | Secure =>
      is_ide_stream_secure ide_type_of (cfg_space_fd upper) (ecap_offset upper) (ide_id upper)
        (cfg_space_fd lower) (ecap_offset lower) (ide_id lower)
  end.

Fixpoint run_plan (l : list action) : io D bool :=
  match l with
  | [] => ret true
  | a :: l => ok+ perform a in run_plan l
  end.

(** The key set in both directions: the receiver's side first. *)
Definition program_plan : list action :=
  [Program PCIE_IDE_STREAM_RX 0; Program PCIE_IDE_STREAM_RX 1; Program PCIE_IDE_STREAM_RX 2; Prime PCIE_IDE_STREAM_RX;
   Program PCIE_IDE_STREAM_TX 0; Program PCIE_IDE_STREAM_TX 1; Program PCIE_IDE_STREAM_TX 2; Prime PCIE_IDE_STREAM_TX].

Definition go_plan : list action :=
  [Go PCIE_IDE_STREAM_RX 0; Go PCIE_IDE_STREAM_RX 1; Go PCIE_IDE_STREAM_RX 2; Select;
   Go PCIE_IDE_STREAM_TX 0; Go PCIE_IDE_STREAM_TX 1; Go PCIE_IDE_STREAM_TX 2].

(** Setting a stream up, and changing the key set of one that runs. *)
Definition setup_plan (skip_ksetgo : bool) : list action :=
  Query :: program_plan ++
  if skip_ksetgo then [] else go_plan ++ [CheckTopology; EnableDevice; EnableRootPort; Wait; Secure].

Definition switch_plan (skip_ksetgo : bool) : list action :=
  program_plan ++ if skip_ksetgo then [] else go_plan ++ [Wait; Secure].

(** All steps of a list succeed, from one state of the machine to another. *)
Inductive steps : list action → D → D → Prop :=
| steps_none d : steps [] d d
| steps_more a l d d1 d2 : perform a d = Ok (true, d1) → steps l d1 d2 → steps (a :: l) d d2.

Lemma run_plan_true l d d' : run_plan l d = Ok (true, d') ↔ steps l d d'.
Proof.
  split.
  - revert d. induction l as [|a l IH]; intros d; cbn [run_plan].
    + intros [= ->]. constructor.
    + unfold bind. destruct (perform a d) as [[[] d1]|e] eqn:E; cbn [res_bind negb]; try done.
      intros Hr. econstructor; [exact E|by apply IH].
  - induction 1 as [|a l d d1 d2 E Hl IH]; [done|]. cbn [run_plan]. by rewrite (bind_Ok _ _ _ _ _ E).
Qed.

Lemma run_plan_false l d d' :
  run_plan l d = Ok (false, d') ↔
  ∃ pre a post d1, l = pre ++ a :: post ∧ steps pre d d1 ∧ perform a d1 = Ok (false, d').
Proof.
  split.
  - revert d. induction l as [|a l IH]; intros d; cbn [run_plan]; [done|].
    unfold bind. destruct (perform a d) as [[[] d1]|e] eqn:E; cbn [res_bind negb]; try done.
    + intros (pre & b & post & d2 & -> & Hs & Hb)%IH. exists (a :: pre), b, post, d2.
      split_and!; [done| |done]. by econstructor.
    + intros [= ->]. exists [], a, l, d. split_and!; [done|constructor|done].
  - intros (pre & a & post & d1 & -> & Hs & Ha). induction Hs as [d|b pre d d2 d3 E Hs IH]; cbn [run_plan app].
    + by rewrite (bind_Ok _ _ _ _ _ Ha).
    + rewrite (bind_Ok _ _ _ _ _ E). by apply IH.
Qed.

Lemma bind_ext {A B} (m : io D A) (k j : A → io D B) d : (∀ a d', k a d' = j a d') → bind m k d = bind m j d.
Proof. intros Hk. unfold bind. destruct (m d) as [[a d']|e]; [apply Hk|done]. Qed.

Lemma ok_ext (m : io D bool) (k j : io D bool) d :
  (∀ d', k d' = j d') → (ok+ m in k) d = (ok+ m in j) d.
Proof. intros Hk. apply bind_ext. intros [] d'; cbn [negb]; auto. Qed.

Lemma done_ext (m : io D unit) (k j : io D bool) d :
  (∀ d', k d' = j d') → (let+ _ := m in k) d = (ok+ done_ m in j) d.
Proof. intros Hk. unfold done_. rewrite bind_assoc. apply bind_ext. intros [] d'. rewrite bind_ret. apply Hk. Qed.

Lemma run_plan_one a d : run_plan [a] d = perform a d.
Proof. cbn [run_plan]. unfold bind. by destruct (perform a d) as [[[] d']|e]. Qed.

Ltac plan_step := first [apply ok_ext; intros ? | apply done_ext; intros ? | done].

(** From the choice of the registers on. *)
Lemma secure_tail d :
  (let+ ide_type :=
     (if top_type =? IDE_TEST_TOPOLOGY_TYPE_LINK_IDE then ret IDE_TEST_TOPOLOGY_TYPE_LINK_IDE
      else if top_type =? IDE_TEST_TOPOLOGY_TYPE_SEL_LINK_IDE
      then let+ _ := io_assert false in ret TEST_IDE_TYPE_SEL_IDE
      else ret TEST_IDE_TYPE_SEL_IDE) in
   let+ _ := enable_ide_stream_in_ecap (cfg_space_fd lower) (ecap_offset lower) ide_type (ide_id lower) true in
   let+ _ := enable_rootport_ide_stream (cfg_space_fd upper) (ecap_offset upper) ide_type (ide_id upper)
               kcbar rp_stream_index true in
   let+ _ := libspdm_sleep (10 * 1000) in
   is_ide_stream_secure ide_type (cfg_space_fd upper) (ecap_offset upper) (ide_id upper)
     (cfg_space_fd lower) (ecap_offset lower) (ide_id lower)) d
  = run_plan [CheckTopology; EnableDevice; EnableRootPort; Wait; Secure] d.
Proof.
  assert (Et : ∀ d,
    (let+ _ := enable_ide_stream_in_ecap (cfg_space_fd lower) (ecap_offset lower) ide_type_of (ide_id lower) true in
     let+ _ := enable_rootport_ide_stream (cfg_space_fd upper) (ecap_offset upper) ide_type_of (ide_id upper)
                 kcbar rp_stream_index true in
     let+ _ := libspdm_sleep (10 * 1000) in
     is_ide_stream_secure ide_type_of (cfg_space_fd upper) (ecap_offset upper) (ide_id upper)
       (cfg_space_fd lower) (ecap_offset lower) (ide_id lower)) d
    = run_plan [EnableDevice; EnableRootPort; Wait; Secure] d).
  { intros d0. cbn [run_plan perform]. rewrite bind_assoc. apply bind_ext. intros ok d2. rewrite bind_ret. cbn [negb].
    do 2 plan_step. symmetry. apply (run_plan_one Secure). }
  change (run_plan (CheckTopology :: ?l)) with (ok+ perform CheckTopology in run_plan l).
  cbn [perform]. unfold done_. rewrite bind_assoc. unfold ide_type_of in Et.
  destruct (top_type =? IDE_TEST_TOPOLOGY_TYPE_LINK_IDE) eqn:El.
  - apply Z.eqb_eq in El. rewrite bind_ret, El. apply Et.
  - destruct (top_type =? IDE_TEST_TOPOLOGY_TYPE_SEL_LINK_IDE); [done|]. rewrite bind_ret. apply Et.
Qed.

(** C24: Setting a stream up is the plan: query, three keys and prime for the
    receive direction, the same for the transmit direction, and unless
    they are skipped the starts of the receive keys, the selection in the root
    port, the starts of the transmit keys, enabling the device and then the root port, waiting,
    and the check.  The result is true exactly when every step succeeded, and
    false exactly when one failed; then no later step was taken. *)
Theorem setup_follows_plan skip_ksetgo d :
  let setup := setup_ide_stream session_id fixed kcbar stream_id ks k_set rp_stream_index port_index top_type upper lower skip_ksetgo in
  setup d = run_plan (setup_plan skip_ksetgo) d ∧
  (∀ d', setup d = Ok (true, d') ↔ steps (setup_plan skip_ksetgo) d d') ∧
  (∀ d', setup d = Ok (false, d') ↔
     ∃ pre a post d1, setup_plan skip_ksetgo = pre ++ a :: post ∧ steps pre d d1 ∧ perform a d1 = Ok (false, d')).
Proof.
  intros setup.
  assert (E : setup d = run_plan (setup_plan skip_ksetgo) d).
  { unfold setup, setup_ide_stream, program_keys, go_key_set, enable_and_check, setup_plan, program_plan. cbn [app run_plan perform].
    rewrite bind_assoc. apply bind_ext. intros [status answer] d1. rewrite bind_ret.
    destruct (LIBSPDM_STATUS_IS_ERROR status); [done|]. cbn [negb].
    do 8 plan_step. destruct skip_ksetgo; [done|]. unfold go_plan. cbn [app run_plan perform].
    do 7 plan_step. by rewrite secure_tail. }
  rewrite E. split_and!; [done|intros d'; apply run_plan_true|intros d'; apply run_plan_false].
Qed.
End plans.

(** ** The key that device and root port share *)
Section keys.
Context {D : Type} `{Bus D} `{Clock D} `{IdeKmRequester D} `{Libspdm}.
Context (session_id : Z).

Lemma length_rp_keys key : length key = 32%nat → length (pcie_rp_keys_of_aes (rev_in_dws key)) = 32%nat.
Proof. intros Hk. unfold pcie_rp_keys_of_aes. by rewrite length_reverse, (length_rev_in_dws 8). Qed.

(** The two errors before the root port is touched. *)
Lemma key_prog_refused fixed ks direction sub port_index stream_id kcbar k_set rp_stream_index d key d1 status ack d2 :
  ks < PCIE_IDE_STREAM_KS_NUM → direction < PCIE_IDE_STREAM_DIRECTION_NUM → sub < PCIE_IDE_SUB_STREAM_NUM →
  choose_key fixed direction d = Ok (Some key, d1) →
  pci_ide_km_key_prog session_id stream_id (Z.lor (Z.lor (k_sets ks) (directions direction)) (substreams sub)) port_index
    key key_prog_iv d1 = Ok (status, ack, d2) →
  LIBSPDM_STATUS_IS_ERROR status || negb (ack =? PCI_IDE_KM_KP_ACK_STATUS_SUCCESS) = true →
  ide_km_key_prog session_id fixed ks direction sub port_index stream_id kcbar k_set rp_stream_index d = Ok (false, d2).
Proof.
  intros Hks Hdir Hsub Hkey Hprog Hbad. unfold ide_km_key_prog.
  rewrite !bind_assert, !(proj2 (Z.ltb_lt _ _)) by done. rewrite (bind_Ok _ _ _ _ _ Hkey).
  cbv beta iota. rewrite (bind_Ok _ _ _ _ _ Hprog). apply orb_true_iff in Hbad as [-> | Hbad]; [done|].
  destruct (LIBSPDM_STATUS_IS_ERROR status); [done|]. by rewrite Hbad.
Qed.

(** C23: Programming a key makes the device and the root port agree: when the
    device accepted the KEY_PROG message with a key, the key slot of the root
    port's opposite side is written with the register bytes that
    doc/key_byte_order.md gives for the same AES-GCM key, the IV slot with the
    initial value, and the key set register names the slot for this
    sub-stream and no other.  When no random key could be made, the message
    failed, or it was not acknowledged as successful, the result is
    false and the root port is not written. *)
Theorem key_prog_agreement fixed ks direction sub port_index stream_id kcbar k_set rp_stream_index d :
  0 ≤ ks < PCIE_IDE_STREAM_KS_NUM → direction = PCIE_IDE_STREAM_RX ∨ direction = PCIE_IDE_STREAM_TX →
  0 ≤ sub < PCIE_IDE_SUB_STREAM_NUM →
  let run := ide_km_key_prog session_id fixed ks direction sub port_index stream_id kcbar k_set rp_stream_index d in
  let message := Z.lor (Z.lor (k_sets ks) (directions direction)) (substreams sub) in
  (∀ d1, choose_key fixed direction d = Ok (None, d1) → run = Ok (false, d1)) ∧
  ∀ key d1 status ack d2,
    choose_key fixed direction d = Ok (Some key, d1) →
    pci_ide_km_key_prog session_id stream_id message port_index key key_prog_iv d1 = Ok (status, ack, d2) →
    if LIBSPDM_STATUS_IS_ERROR status || negb (ack =? PCI_IDE_KM_KP_ACK_STATUS_SUCCESS)
    then run = Ok (false, d2)
    else ∀ slot cap raw,
      length key = 32%nat → get_slot_id k_set direction sub = Ok slot → reads d2 (Mmio kcbar) 4 cap →
      let aes := rev_in_dws key in
      let d3 := write_dwords (iv_region kcbar cap direction slot).1 2 rp_iv
                  (write_dwords (key_region kcbar cap direction slot).1 8 (pcie_rp_keys_of_aes aes) d2) in
      let reg := key_set_reg (stream_config_reg_block kcbar rp_stream_index) direction ks in
      reads d3 (Mmio reg) 4 raw →
      key = rev_in_dws aes ∧
      ∃ v, run = Ok (true, bus_write (Mmio reg) 4 v d3) ∧ slot_of sub v = slot ∧
           ∀ sub', 0 ≤ sub' < 3 → sub' ≠ sub → slot_of sub' v = slot_of sub' raw.
Proof.
  intros Hks Hdir Hsub run message.
  assert (Hd : direction < PCIE_IDE_STREAM_DIRECTION_NUM) by (destruct Hdir as [-> | ->]; done).
  assert (Hrun : ∀ r d1, choose_key fixed direction d = Ok (r, d1) →
    run = match r with None => Ok (false, d1) | Some _ => run end).
  { intros [key|] d1 E; [done|]. unfold run, ide_km_key_prog.
    rewrite !bind_assert, !(proj2 (Z.ltb_lt _ _)) by lia. by rewrite (bind_Ok _ _ _ _ _ E). }
  split; [intros d1 E; exact (Hrun None d1 E)|]. intros key d1 status ack d2 Hkey Hprog.
  destruct (_ || _) eqn:Hbad.
  { eapply key_prog_refused; try done; lia. }
  apply orb_false_iff in Hbad as [Hs Ha]. intros slot cap raw Hl Hslot Hcap aes d3 reg Hraw.
  assert (Haes : length aes = 32%nat) by (unfold aes; by rewrite (length_rev_in_dws 8)).
  assert (Hke : key = rev_in_dws aes) by (unfold aes; by rewrite (rev_in_dws_involutive 8)).
  split; [done|].
  assert (Hsl : 0 ≤ slot < 256).
  { unfold get_slot_id in Hslot. destruct (array_get k_set direction) as [row|]; [|done]. cbn [res_bind] in Hslot.
    destruct (array_get row sub) as [x|]; [|done]. injection Hslot as <-. unfold u8. apply Z.mod_pos_bound. lia. }
  destruct (root_port_key_programming d2 kcbar cap rp_stream_index direction ks sub slot (pcie_rp_keys_of_aes aes) rp_iv raw)
    as (v & Hv & Hvs); try done.
  { apply length_rp_keys. done. }
  exists v. split; [|done]. unfold run, ide_km_key_prog.
  rewrite !bind_assert, !(proj2 (Z.ltb_lt _ _)) by lia. rewrite (bind_Ok _ _ _ _ _ Hkey).
  cbv beta iota. rewrite (bind_Ok _ _ _ _ _ Hprog). rewrite Hs, Ha.
  pose proof (pcie_construct_rp_keys_aes 8 aes (replicate 32 0) ltac:(lia) Haes eq_refl) as E.
  change (4 * Z.of_nat 8) with PCIE_IDE_KEY_SIZE in E. rewrite <- Hke in E.
  rewrite (bind_lift_Ok _ _ _ _ E), (bind_lift_Ok _ _ _ _ Hslot). by rewrite (bind_Ok _ _ _ _ _ Hv).
Qed.
End keys.

(** ** A device that answers

    The machine of plain memory with a device that accepts every key and
    acknowledges every start; the values of the IDE_KM constants are those of
    libspdm's pci_idekm.h. *)
#[export] Instance obliging_device : IdeKmRequester memory := {
  PCI_IDE_KM_KEY_SET_K0 := 0;
  PCI_IDE_KM_KEY_SET_K1 := 1;
  PCI_IDE_KM_KEY_DIRECTION_RX := 0;
  PCI_IDE_KM_KEY_DIRECTION_TX := 2;
  PCI_IDE_KM_KEY_SUB_STREAM_PR := 0;
  PCI_IDE_KM_KEY_SUB_STREAM_NPR := 0x10;
  PCI_IDE_KM_KEY_SUB_STREAM_CPL := 0x20;
  PCI_IDE_KM_OBJECT_ID_K_SET_GO := 4;
  PCI_IDE_KM_OBJECT_ID_K_SET_GOSTOP_ACK := 6;
  PCI_IDE_KM_KP_ACK_STATUS_SUCCESS := 0;
  sizeof_pci_ide_km_k_set_go_t := 8;
  sizeof_pci_ide_km_k_gostop_ack_t := 8;
  LIBSPDM_STATUS_INVALID_MSG_SIZE := 0x80010005;
  LIBSPDM_STATUS_INVALID_MSG_FIELD := 0x80010004;
  libspdm_get_random_number n := ret (true, replicate (Z.to_nat n) 0x5a);
  pci_ide_km_query _ _ :=
    ret (0, {| answer_dev_func := 0; answer_bus := 1; answer_segment := 0; answer_max_port_index := 0 |});
  pci_ide_km_key_prog _ _ _ _ _ _ := ret (0, 0);
  pci_ide_km_send_receive_data _ request _ :=
    ret (0, 8, k_set_request 6 (km_stream_id request) (km_key_sub_stream request) (km_port_index request));
  getchar := ret 113
}.

Lemma key_prog_agreement_witness :
  ∃ v d, ide_km_key_prog 1 false 0 PCIE_IDE_STREAM_RX PCIE_IDE_SUB_STREAM_NPR 0 1 0x10000 [[0; 1; 2]; [0; 1; 2]] 1 example_unit
         = Ok (true, bus_write (Mmio 0x1003c) 4 v d) ∧ slot_of PCIE_IDE_SUB_STREAM_NPR v = 1.
Proof.
  destruct (key_prog_agreement 1 false 0 PCIE_IDE_STREAM_RX PCIE_IDE_SUB_STREAM_NPR 0 1 0x10000 [[0; 1; 2]; [0; 1; 2]] 1
    example_unit) as [_ Hp]; [done|by left|done|].
  specialize (Hp (replicate 32 0x5a) example_unit 0 0 example_unit eq_refl eq_refl). cbn [LIBSPDM_STATUS_IS_ERROR] in Hp.
  destruct (Hp 1 0x00501401 0x00200400 eq_refl eq_refl) as (_ & v & Hv & Hs & _).
  - split; [reflexivity|lia].
  - split; [vm_compute; reflexivity|lia].
  - exists v. eexists. split; [exact Hv|exact Hs].
Defined.

End IdeKmSpec.
