(* ===== verification/Doe.v ===== *)
(** * The DOE mailbox (library/spdmlib/pci_doe.c)

    Data objects go to the device and come back a dword at a time through
    two mailbox registers; a control and a status register coordinate.  The
    descriptor [m_dev_fp] and the offset [g_doe_extended_offset] of the
    capability are globals of the code and parameters here.
    [check_pcie_advance_error] does nothing; log and packet file are left
    out. *)
From Stdlib Require Import ZArith Lia.
From stdpp Require Import prelude.
From S2P Require Import Prelude Libspdm Hardware.

Open Scope Z_scope.
Open Scope teeio_scope.

Module Doe.
Import Hardware.

(** ** Constants *)

Definition PCI_EXPRESS_REG_DOE_CONTROL_OFFSET : Z := 0x08.
Definition PCI_EXPRESS_REG_DOE_CONTROL_DOE_ABORT : Z := 0x00000001.
Definition PCI_EXPRESS_REG_DOE_CONTROL_DOE_GO : Z := 0x80000000.
Definition PCI_EXPRESS_REG_DOE_STATUS_OFFSET : Z := 0x0C.
Definition PCI_EXPRESS_REG_DOE_STATUS_DOE_BUSY : Z := 0x00000001.
Definition PCI_EXPRESS_REG_DOE_STATUS_DOE_ERROR : Z := 0x00000004.
Definition PCI_EXPRESS_REG_DOE_STATUS_DOE_READY : Z := 0x80000000.
Definition PCI_EXPRESS_REG_DOE_WRITE_DATA_MAILBOX_OFFSET : Z := 0x10.
Definition PCI_EXPRESS_REG_DOE_READ_DATA_MAILBOX_OFFSET : Z := 0x14.
Definition PCI_EXPRESS_DOE_MAILBOX_TIMEOUT : Z := 300000000.

(** The header of a data object: vendor id, type, a reserved byte, and the
    length in dwords at offset 4. *)
Definition sizeof_pci_doe_data_object_header_t : Z := 8.

(** A state after which a round of polling goes on, or what it ends with. *)
Definition round (S A : Type) : Type := (S + A)%type.

Section doe.
Context {D : Type} `{Bus D} `{Clock D} `{Libspdm}.
Context (m_dev_fp g_doe_extended_offset : Z).

(** ** Registers *)

Definition doe_read_32 (reg : Z) : io D Z :=
  let+ _ := io_assert (negb (g_doe_extended_offset =? 0)) in
  device_pci_read_32 (u32 (g_doe_extended_offset + reg)) m_dev_fp.

Definition doe_write_32 (reg data : Z) : io D unit :=
  let+ _ := io_assert (negb (g_doe_extended_offset =? 0)) in
  device_pci_write_32 (u32 (g_doe_extended_offset + reg)) data m_dev_fp.

Definition device_pci_doe_control_read_32 : io D Z := doe_read_32 PCI_EXPRESS_REG_DOE_CONTROL_OFFSET.
Definition device_pci_doe_control_write_32 (data : Z) : io D unit := doe_write_32 PCI_EXPRESS_REG_DOE_CONTROL_OFFSET data.
Definition device_pci_doe_status_read_32 : io D Z := doe_read_32 PCI_EXPRESS_REG_DOE_STATUS_OFFSET.
Definition device_pci_doe_write_mailbox_write_32 (data : Z) : io D unit :=
  doe_write_32 PCI_EXPRESS_REG_DOE_WRITE_DATA_MAILBOX_OFFSET data.
Definition device_pci_doe_read_mailbox_read_32 : io D Z := doe_read_32 PCI_EXPRESS_REG_DOE_READ_DATA_MAILBOX_OFFSET.
Definition device_pci_doe_read_mailbox_write_32 (data : Z) : io D unit :=
  doe_write_32 PCI_EXPRESS_REG_DOE_READ_DATA_MAILBOX_OFFSET data.

Definition is_doe_error_asserted : io D bool :=
  let+ doe_status := device_pci_doe_status_read_32 in
  ret (negb (Z.land doe_status PCI_EXPRESS_REG_DOE_STATUS_DOE_ERROR =? 0)).

Definition is_doe_busy_asserted : io D bool :=
  let+ doe_status := device_pci_doe_status_read_32 in
  ret (negb (Z.land doe_status PCI_EXPRESS_REG_DOE_STATUS_DOE_BUSY =? 0)).

Definition is_doe_data_object_ready_asserted : io D bool :=
  let+ doe_status := device_pci_doe_status_read_32 in
  ret (negb (Z.land doe_status PCI_EXPRESS_REG_DOE_STATUS_DOE_READY =? 0)).

Definition trigger_doe_abort : io D unit :=
  let+ doe_control := device_pci_doe_control_read_32 in
  let doe_control := Z.lor doe_control PCI_EXPRESS_REG_DOE_CONTROL_DOE_ABORT in
  let doe_control := Z.land doe_control (u32 (Z.lnot PCI_EXPRESS_REG_DOE_CONTROL_DOE_GO)) in
  device_pci_doe_control_write_32 doe_control.

Definition trigger_doe_go : io D unit :=
  let+ doe_control := device_pci_doe_control_read_32 in
  let doe_control := Z.land doe_control (u32 (Z.lnot PCI_EXPRESS_REG_DOE_CONTROL_DOE_ABORT)) in
  let doe_control := Z.lor doe_control PCI_EXPRESS_REG_DOE_CONTROL_DOE_GO in
  device_pci_doe_control_write_32 doe_control.

(** "Write 1b to the DOE Abort bit and wait 1 second." *)
Definition clear_error : io D unit :=
  let+ _ := trigger_doe_abort in libspdm_sleep (1000 * 1000).

(** The check before a message: clear the error bit when it is set. *)
Definition clear_error_if_asserted : io D unit :=
  let+ err := is_doe_error_asserted in if err : bool then clear_error else ret tt.

(** What is left of the round when the mailbox is not ready: stop at an
    error, otherwise wait and count down. *)
Definition poll_again {S A} (delay : Z) (out : Z → A) (next : Z → S) : io D (round S A) :=
  let+ err := is_doe_error_asserted in
  if err : bool then ret (inr (out delay)) else
  let+ _ := libspdm_sleep (30 * 1000) in
  let delay := delay - 1 in
  ret (if delay =? 0 then inr (out delay) else inl (next delay)).

(** After the loop: out of time, error, or success. *)
Definition poll_done (delay failed : Z) : io D Z :=
  if delay =? 0 then ret failed else
  let+ err := is_doe_error_asserted in
  if err : bool then let+ _ := clear_error in ret failed else ret LIBSPDM_STATUS_SUCCESS.

(** ** Sending *)

Definition write_data_object (request : bytes) (data_object_count : Z) : io D unit :=
  io_fold (λ index _, let+ w := lift (load_le request (4 * index) 4) in device_pci_doe_write_mailbox_write_32 w)
          (range 0 data_object_count) tt.

(** The loop ends with the value of [delay]. *)
Definition send_round (request : bytes) (data_object_count delay : Z) : io D (round Z Z) :=
  let+ busy := is_doe_busy_asserted in
  if negb busy then
    let+ _ := write_data_object request data_object_count in
    let+ _ := trigger_doe_go in
    ret (inr delay)
  else poll_again delay id id.

Definition device_doe_send_message (request_size : Z) (request : option bytes) (timeout : Z) : io D Z :=
  match request with
  | None => ret LIBSPDM_STATUS_INVALID_PARAMETER
  | Some request =>
      if request_size =? 0 then ret LIBSPDM_STATUS_INVALID_PARAMETER else
      let+ _ := io_assert (Z.land request_size 3 =? 0) in
      let data_object_count := u32 (request_size / 4) in
      let timeout := if timeout =? 0 then PCI_EXPRESS_DOE_MAILBOX_TIMEOUT else timeout in
      let delay := timeout / 30 + 1 in
      let+ _ := clear_error_if_asserted in
      let+ delay := io_while (Z.to_pos delay) (send_round request data_object_count) delay in
      poll_done delay LIBSPDM_STATUS_SEND_FAIL
  end.

(** ** Receiving *)

(** A dword from the mailbox to the buffer, acknowledged by writing it back. *)
Definition read_data_object_dword (index : Z) (data_object_buffer : bytes) : io D bytes :=
  let+ w := device_pci_doe_read_mailbox_read_32 in
  let+ data_object_buffer := lift (store data_object_buffer (4 * index) (le_bytes 4 w)) in
  let+ _ := device_pci_doe_read_mailbox_write_32 w in
  ret data_object_buffer.

(** The buffer, its size, and what the loop ends with: a [return] of a status
    or the value of [delay]. *)
Definition receive_result : Type := bytes * Z * (Z + Z).

Definition receive_data_object (data_object_buffer : bytes) (response_size delay : Z) : io D receive_result :=
  let+ data_object_buffer := read_data_object_dword 0 data_object_buffer in
  let+ data_object_buffer := read_data_object_dword 1 data_object_buffer in
  let+ length := lift (load_le data_object_buffer 4 4) in
  let data_object_count := if length =? 0 then 0x40000 else length in
  if response_size <? data_object_count * 4 then
    ret (data_object_buffer, data_object_count * 4, inl LIBSPDM_STATUS_BUFFER_TOO_SMALL)
  else
    let+ data_object_buffer :=
      io_fold read_data_object_dword (range (sizeof_pci_doe_data_object_header_t / 4) data_object_count) data_object_buffer in
    ret (data_object_buffer, data_object_count * 4, inr delay).

Definition receive_round (data_object_buffer : bytes) (response_size delay : Z) : io D (round Z receive_result) :=
  let+ ready := is_doe_data_object_ready_asserted in
  if ready : bool then
    let+ r := receive_data_object data_object_buffer response_size delay in ret (inr r)
  else poll_again delay (λ delay, (data_object_buffer, response_size, inr delay)) id.

(** Returns the status, the buffer and its size; the timeout is not used. *)
Definition device_doe_receive_message (response_size : option Z) (response : option bytes) (timeout : Z)
    : io D (Z * option bytes * option Z) :=
  match response, response_size with
  | None, _ | _, None => ret (LIBSPDM_STATUS_INVALID_PARAMETER, response, response_size)
  | Some buffer, Some size =>
      let delay := 0x1000000 / 30 + 1 in
      if size <? sizeof_pci_doe_data_object_header_t then
        ret (LIBSPDM_STATUS_BUFFER_TOO_SMALL, response, Some sizeof_pci_doe_data_object_header_t)
      else
        let+ _ := clear_error_if_asserted in
        let+ (buffer, size, ending) := io_while (Z.to_pos delay) (receive_round buffer size) delay in
        match ending with
        | inl status => ret (status, Some buffer, Some size)
        | inr delay =>
            let+ status := poll_done delay LIBSPDM_STATUS_RECEIVE_FAIL in
            ret (status, Some buffer, Some size)
        end
  end.

(** ** Exchanges *)

Definition pci_doe_send_receive_data (request_size : Z) (request : option bytes)
    (response_size : option Z) (response : option bytes) : io D (Z * option bytes * option Z) :=
  let+ status := device_doe_send_message request_size request 0 in
  if LIBSPDM_STATUS_IS_ERROR status then ret (status, response, response_size) else
  let+ (status, response, response_size) := device_doe_receive_message response_size response 0 in
  ret (if LIBSPDM_STATUS_IS_ERROR status then status else LIBSPDM_STATUS_SUCCESS, response, response_size).

End doe.

(** ** Discovery

    [pci_doe_discovery] is libspdm's; it exchanges data objects through the
    mailbox that the globals select and reports a status and the types of the
    data objects that the instance supports. *)
Class DoeDiscovery (D : Type) := {
  PCI_DOE_DATA_OBJECT_TYPE_DOE_DISCOVERY : Z;
  PCI_DOE_DATA_OBJECT_TYPE_SPDM : Z;
  PCI_DOE_DATA_OBJECT_TYPE_SECURED_SPDM : Z;
  (** descriptor, offset of the capability, discovery version *)
  pci_doe_discovery : Z → Z → Z → io D (Z * list Z)
}.

Section discovery.
Context {D : Type} `{DoeDiscovery D} `{Libspdm}.

(** The must supported pci_doe_data_object_type for TEEIO-Validator *)
Definition m_pci_doe_data_object_type : list Z :=
  [PCI_DOE_DATA_OBJECT_TYPE_DOE_DISCOVERY; PCI_DOE_DATA_OBJECT_TYPE_SPDM; PCI_DOE_DATA_OBJECT_TYPE_SECURED_SPDM].

(** [found] after the loop over the needed types: it stops at the first one
    that is missing. *)
Fixpoint all_found (needed supported : list Z) (found : bool) : bool :=
  match needed with
  | [] => found
  | t :: needed => if existsb (Z.eqb t) supported then all_found needed supported true else false
  end.

Definition pcie_doe_init_request (m_dev_fp g_doe_extended_offset doe_discovery_version : Z) : io D bool :=
  let+ (status, data_object_types) := pci_doe_discovery m_dev_fp g_doe_extended_offset doe_discovery_version in
  if LIBSPDM_STATUS_IS_ERROR status then ret false else
  ret (all_found m_pci_doe_data_object_type data_object_types false).

End discovery.

(** ** The buffer that requests and responses share

    The flag [m_send_receive_buffer_acquired] and the content; the pointer
    handed out is the address of the buffer, so the release functions compare
    whether they get it back. *)
Record buffer_state := { acquired : bool; content : bytes }.

Section buffer.
Context `{Libspdm}.

Definition spdm_device_acquire_sender_buffer (LIBSPDM_RECEIVER_BUFFER_SIZE : Z) (b : buffer_state) : res (Z * buffer_state) :=
  let* _ := TEEIO_ASSERT (negb (acquired b)) in
  Ok (LIBSPDM_STATUS_SUCCESS, {| acquired := true; content := replicate (Z.to_nat LIBSPDM_RECEIVER_BUFFER_SIZE) 0 |}).

Definition spdm_device_release_sender_buffer (same_pointer : bool) (b : buffer_state) : res buffer_state :=
  let* _ := TEEIO_ASSERT (acquired b) in
  let* _ := TEEIO_ASSERT same_pointer in
  Ok {| acquired := false; content := content b |}.

Definition spdm_device_acquire_receiver_buffer (LIBSPDM_RECEIVER_BUFFER_SIZE : Z) (b : buffer_state) : res (Z * buffer_state) :=
  let* _ := TEEIO_ASSERT (negb (acquired b)) in
  Ok (LIBSPDM_STATUS_SUCCESS, {| acquired := true; content := replicate (Z.to_nat LIBSPDM_RECEIVER_BUFFER_SIZE) 0 |}).

Definition spdm_device_release_receiver_buffer (same_pointer : bool) (b : buffer_state) : res buffer_state :=
  let* _ := TEEIO_ASSERT (acquired b) in
  let* _ := TEEIO_ASSERT same_pointer in
  Ok {| acquired := false; content := content b |}.

End buffer.
End Doe.
