(* ===== verification/DoeSpec.v ===== *)
(** * The DOE mailbox specified

    Sending and receiving as runs of the mailbox protocol: an error is
    cleared first, the status is polled a bounded number of times, a data
    object moves dword by dword, and the error bit decides in the end.
    Nothing is assumed about the device but that its registers can be
    reached. *)
From Stdlib Require Import ZArith Lia.
From stdpp Require Import prelude.
From S2P Require Import Prelude Libspdm Hardware Doe.

Open Scope Z_scope.
Open Scope teeio_scope.

Module DoeSpec.
Import Hardware Doe.

(** ** Bits of registers *)

Lemma mask_testbit v k : 0 ≤ k → negb (Z.land v (2 ^ k) =? 0) = Z.testbit v k.
Proof.
  intros Hk. destruct (Z.testbit v k) eqn:E.
  - apply negb_true_iff, Z.eqb_neq. intros H0. apply (f_equal (λ z, Z.testbit z k)) in H0.
    rewrite Z.land_spec, E, Z.pow2_bits_true, Z.bits_0 in H0 by lia. done.
  - apply negb_false_iff, Z.eqb_eq, Z.bits_inj'. intros i Hi. rewrite Z.land_spec, Z.pow2_bits_eqb, Z.bits_0 by lia.
    destruct (Z.eqb_spec k i) as [->|]; [by rewrite E|by rewrite andb_false_r].
Qed.

(** The status register. *)
Definition busy (v : Z) : bool := Z.testbit v 0.
Definition error (v : Z) : bool := Z.testbit v 2.
Definition ready (v : Z) : bool := Z.testbit v 31.

(** The control register with abort or go set and the other one clear. *)
Definition abort_bits (c : Z) : Z := set_bits 31 1 0 (set_bits 0 1 1 c).
Definition go_bits (c : Z) : Z := set_bits 31 1 1 (set_bits 0 1 0 c).

(** The dwords of a data object, and back. *)
Fixpoint dwords (l : bytes) : list Z :=
  match l with
  | a :: b :: c :: d :: l => le [a; b; c; d] :: dwords l
  | _ => []
  end.

Definition undwords (ws : list Z) : bytes := flat_map (le_bytes 4) ws.

Lemma length_undwords ws : length (undwords ws) = (4 * length ws)%nat.
Proof.
  unfold undwords. induction ws as [|w ws IH]; [done|]. cbn [flat_map length]. rewrite length_app, length_le_bytes, IH. lia.
Qed.

Lemma dwords_drop n l : dwords (drop (4 * n) l) = drop n (dwords l).
Proof.
  revert l. induction n as [|n IH]; intros l; [done|]. replace (4 * S n)%nat with (S (S (S (S (4 * n))))) by lia.
  destruct l as [|a [|b [|c [|x l]]]]; cbn [drop dwords]; rewrite ?drop_nil; [done..|apply IH].
Qed.

Lemma bits_32 v i : 0 ≤ v < 2 ^ 32 → 32 ≤ i → Z.testbit v i = false.
Proof.
  intros Hv Hi. destruct (Z.eq_dec v 0) as [->|]; [apply Z.bits_0|].
  apply Z.bits_above_log2; [lia|]. apply Z.lt_le_trans with 32; [apply Z.log2_lt_pow2; lia|done].
Qed.

(** Bit by bit, above and below bits 0 and 31. *)
Ltac control_bits Hc :=
  apply Z.bits_inj'; intros i Hi; pose proof (bits_32 _ i Hc);
  rewrite ?Z.land_spec, ?Z.lor_spec, ?set_bits_testbit by lia;
  rewrite ?Z.land_spec, ?Z.lor_spec, ?set_bits_testbit, ?ones_testbit by lia.

Lemma abort_bits_ok c : 0 ≤ c < 2 ^ 32 →
  Z.land (Z.lor c PCI_EXPRESS_REG_DOE_CONTROL_DOE_ABORT) (u32 (Z.lnot PCI_EXPRESS_REG_DOE_CONTROL_DOE_GO)) = abort_bits c.
Proof.
  intros Hc. change (u32 _) with (Z.ones 31). change PCI_EXPRESS_REG_DOE_CONTROL_DOE_ABORT with (Z.ones 1).
  unfold abort_bits. control_bits Hc.
  destruct (decide (i = 0)) as [->|]; [by destruct (Z.testbit c 0)|].
  destruct (decide (i = 31)) as [->|]; [by destruct (Z.testbit c 31)|].
  rewrite !(bool_decide_eq_false_2 (_ ≤ _ < _)), (bool_decide_eq_false_2 (i < 1)), orb_false_r by lia.
  case_bool_decide; [by rewrite andb_true_r|]. rewrite andb_false_r. symmetry. auto with lia.
Qed.

Lemma go_bits_ok c : 0 ≤ c < 2 ^ 32 →
  Z.lor (Z.land c (u32 (Z.lnot PCI_EXPRESS_REG_DOE_CONTROL_DOE_ABORT))) PCI_EXPRESS_REG_DOE_CONTROL_DOE_GO = go_bits c.
Proof.
  intros Hc. change (u32 _) with (Z.shiftl (Z.ones 31) 1). change PCI_EXPRESS_REG_DOE_CONTROL_DOE_GO with (2 ^ 31).
  unfold go_bits. control_bits Hc.
  rewrite Z.shiftl_spec, Z.pow2_bits_eqb by lia.
  destruct (decide (i = 0)) as [->|]; [by destruct (Z.testbit c 0)|].
  destruct (decide (i = 31)) as [->|]; [by destruct (Z.testbit c 31)|].
  rewrite !(bool_decide_eq_false_2 (_ ≤ _ < _)), (proj2 (Z.eqb_neq 31 i)), orb_false_r by lia.
  rewrite ones_testbit by lia. case_bool_decide; [by rewrite andb_true_r|]. rewrite andb_false_r. symmetry. auto with lia.
Qed.


(** ** The protocol *)
Section doe.
Context {D : Type} `{Bus D} `{Clock D} `{Libspdm}.
Context (fd off : Z).

(** Reading and writing a register of the capability, as functions of the machine. *)
Definition peek (reg : Z) (d : D) : Z * D := let (v, d') := bus_read (Cfg fd (off + reg)) 4 d in (v mod 2 ^ (8 * 4), d').
Definition poke (reg v : Z) (d : D) : D := bus_write (Cfg fd (off + reg)) 4 v d.

Definition status (d : D) : Z * D := peek PCI_EXPRESS_REG_DOE_STATUS_OFFSET d.

Definition abort (d : D) : D :=
  let (c, d) := peek PCI_EXPRESS_REG_DOE_CONTROL_OFFSET d in poke PCI_EXPRESS_REG_DOE_CONTROL_OFFSET (abort_bits c) d.
Definition go (d : D) : D :=
  let (c, d) := peek PCI_EXPRESS_REG_DOE_CONTROL_OFFSET d in poke PCI_EXPRESS_REG_DOE_CONTROL_OFFSET (go_bits c) d.

(** An error that is set is cleared: abort, and wait a second. *)
Inductive cleared : D → D → Prop :=
| cleared_none d v d1 : status d = (v, d1) → error v = false → cleared d d1
| cleared_abort d v d1 : status d = (v, d1) → error v = true → cleared d (sleep_for 1000000 (abort d1)).

(** [n] polls that do not get the answer they wait for and see no error. *)
Inductive waits (answer : Z → bool) : nat → D → D → Prop :=
| waits_none d : waits answer 0 d d
| waits_more n d v d1 v' d2 d3 :
    status d = (v, d1) → answer v = false → status d1 = (v', d2) → error v' = false →
    waits answer n (sleep_for 30000 d2) d3 → waits answer (S n) d d3.

(** A poll that gets its answer, and one that meets an error. *)
Definition answered (answer : Z → bool) (d d' : D) : Prop := ∃ v, status d = (v, d') ∧ answer v = true.
Definition refused (answer : Z → bool) (d d' : D) : Prop :=
  ∃ v d1 v', status d = (v, d1) ∧ answer v = false ∧ status d1 = (v', d') ∧ error v' = true.

(** The check of the error bit that decides in the end. *)
Inductive settles (failed : Z) : D → Z → D → Prop :=
| settles_ok d v d1 : status d = (v, d1) → error v = false → settles failed d LIBSPDM_STATUS_SUCCESS d1
| settles_error d v d1 : status d = (v, d1) → error v = true → settles failed d failed (sleep_for 1000000 (abort d1)).

(** *** The code does these steps *)
Context (Hfd : 0 < fd) (Hoff : 0 < off < 0x1000).

Lemma doe_read_ok reg d : 0 ≤ reg < 0x100 → doe_read_32 fd off reg d = Ok (peek reg d).
Proof.
  intros Hr. unfold doe_read_32, device_pci_read_32, peek, read_reg, u32. rewrite bind_assert, bind_assert.
  rewrite (proj2 (Z.eqb_neq _ _)), (proj2 (Z.ltb_lt _ _)), Z.mod_small by lia. cbn [negb].
  by destruct (bus_read _ _ d).
Qed.

Lemma doe_write_ok reg v d : 0 ≤ reg < 0x100 → doe_write_32 fd off reg v d = Ok (tt, poke reg v d).
Proof.
  intros Hr. unfold doe_write_32, device_pci_write_32, poke, write_reg, u32. rewrite bind_assert, bind_assert.
  rewrite (proj2 (Z.eqb_neq _ _)), (proj2 (Z.ltb_lt _ _)), Z.mod_small by lia. done.
Qed.

Lemma peek_range reg d : 0 ≤ (peek reg d).1 < 2 ^ 32.
Proof. unfold peek. destruct (bus_read _ _ d) as [v d']. cbn [fst]. change (8 * 4) with 32. apply Z.mod_pos_bound. lia. Qed.

(** Any check of the status register. *)
Lemma bind_status {A} (f : Z → bool) (k : bool → io D A) d v d1 :
  status d = (v, d1) →
  bind (let+ doe_status := device_pci_doe_status_read_32 fd off in ret (f doe_status)) k d = k (f v) d1.
Proof.
  intros E. rewrite bind_assoc. unfold device_pci_doe_status_read_32.
  assert (Hr : doe_read_32 fd off PCI_EXPRESS_REG_DOE_STATUS_OFFSET d = Ok (v, d1)) by (rewrite doe_read_ok by (unfold PCI_EXPRESS_REG_DOE_STATUS_OFFSET; lia); exact (f_equal Ok E)).
  by rewrite (bind_Ok _ _ _ _ _ Hr).
Qed.

Lemma bind_error {A} (k : bool → io D A) d v d1 :
  status d = (v, d1) → bind (is_doe_error_asserted fd off) k d = k (error v) d1.
Proof. intros E. unfold is_doe_error_asserted. rewrite (bind_status _ _ _ _ _ E). unfold error. by rewrite <- mask_testbit by lia. Qed.

Lemma bind_busy {A} (k : bool → io D A) d v d1 :
  status d = (v, d1) → bind (is_doe_busy_asserted fd off) k d = k (busy v) d1.
Proof. intros E. unfold is_doe_busy_asserted. rewrite (bind_status _ _ _ _ _ E). unfold busy. by rewrite <- mask_testbit by lia. Qed.

Lemma bind_ready {A} (k : bool → io D A) d v d1 :
  status d = (v, d1) → bind (is_doe_data_object_ready_asserted fd off) k d = k (ready v) d1.
Proof. intros E. unfold is_doe_data_object_ready_asserted. rewrite (bind_status _ _ _ _ _ E). unfold ready. by rewrite <- mask_testbit by lia. Qed.

Lemma trigger_abort_ok d : trigger_doe_abort fd off d = Ok (tt, abort d).
Proof.
  unfold trigger_doe_abort, device_pci_doe_control_read_32, device_pci_doe_control_write_32, abort.
  pose proof (peek_range PCI_EXPRESS_REG_DOE_CONTROL_OFFSET d) as Hr.
  unfold bind. rewrite doe_read_ok by (unfold PCI_EXPRESS_REG_DOE_CONTROL_OFFSET; lia).
  destruct (peek _ d) as [c d1]. cbn [res_bind fst] in *.
  by rewrite abort_bits_ok, doe_write_ok by (unfold PCI_EXPRESS_REG_DOE_CONTROL_OFFSET; lia).
Qed.

Lemma trigger_go_ok d : trigger_doe_go fd off d = Ok (tt, go d).
Proof.
  unfold trigger_doe_go, device_pci_doe_control_read_32, device_pci_doe_control_write_32, go.
  pose proof (peek_range PCI_EXPRESS_REG_DOE_CONTROL_OFFSET d) as Hr.
  unfold bind. rewrite doe_read_ok by (unfold PCI_EXPRESS_REG_DOE_CONTROL_OFFSET; lia).
  destruct (peek _ d) as [c d1]. cbn [res_bind fst] in *.
  by rewrite go_bits_ok, doe_write_ok by (unfold PCI_EXPRESS_REG_DOE_CONTROL_OFFSET; lia).
Qed.

Lemma clear_error_ok d : clear_error fd off d = Ok (tt, sleep_for 1000000 (abort d)).
Proof. unfold clear_error. by rewrite (bind_Ok _ _ _ _ _ (trigger_abort_ok d)). Qed.

Lemma cleared_total d : ∃ d', cleared d d'.
Proof.
  destruct (status d) as [v d1] eqn:E. destruct (error v) eqn:F; eexists; [by eapply cleared_abort|by eapply cleared_none].
Qed.

Lemma cleared_ok {A} (k : unit → io D A) d d' :
  cleared d d' → bind (clear_error_if_asserted fd off) k d = k tt d'.
Proof.
  intros [? v d1 E F|? v d1 E F]; unfold clear_error_if_asserted; rewrite bind_assoc, (bind_error _ _ _ _ E), F; [done|].
  by rewrite (bind_Ok _ _ _ _ _ (clear_error_ok d1)).
Qed.

Lemma settles_total failed d : ∃ st d', settles failed d st d'.
Proof.
  destruct (status d) as [v d1] eqn:E. destruct (error v) eqn:F; eexists _, _; [by eapply settles_error|by eapply settles_ok].
Qed.

Lemma settles_done failed delay d st d' : 0 < delay → settles failed d st d' → poll_done fd off delay failed d = Ok (st, d').
Proof.
  intros Hd Hs. unfold poll_done. rewrite (proj2 (Z.eqb_neq _ _)) by lia.
  destruct Hs as [? v d1 E F|? v d1 E F]; rewrite (bind_error _ _ _ _ E), F; [done|].
  by rewrite (bind_Ok _ _ _ _ _ (clear_error_ok d1)).
Qed.

(** *** Polling

    Any loop that asks the status register, acts when the answer is there,
    and otherwise looks for an error, waits and counts down. *)
Section polling.
Context {A : Type} (answer : Z → bool) (body : Z → io D (round Z A)) (out : Z → A) (act : Z → io D (round Z A)).
Context (Hbody : ∀ delay d v d1, status d = (v, d1) →
           body delay d = if answer v then act delay d1 else poll_again fd off delay out id d1).

Lemma poll_more delay d v d1 v' d2 :
  status d = (v, d1) → answer v = false → status d1 = (v', d2) → error v' = false →
  body delay d = Ok (if delay - 1 =? 0 then inr (out (delay - 1)) else inl (delay - 1), sleep_for 30000 d2).
Proof.
  intros E F E' F'. rewrite (Hbody _ _ _ _ E), F. unfold poll_again. rewrite (bind_error _ _ _ _ E'), F'. done.
Qed.

Lemma poll_rounds n N d d1 :
  waits answer n d d1 → Z.of_nat n < N →
  io_while (Z.to_pos N) body N d = io_while (Z.to_pos (N - Z.of_nat n)) body (N - Z.of_nat n) d1.
Proof.
  intros Hw. revert N. induction Hw as [d|n d v d1 v' d2 d3 E F E' F' Hw IH]; intros N HN; [by rewrite Z.sub_0_r|].
  replace (Z.to_pos N) with (Pos.succ (Z.to_pos (N - 1))) by lia.
  rewrite io_while_succ, (poll_more _ _ _ _ _ _ E F E' F'), (proj2 (Z.eqb_neq _ _)) by lia.
  rewrite IH by lia. replace (N - 1 - Z.of_nat n) with (N - Z.of_nat (S n)) by lia. done.
Qed.

Lemma poll_answered n N d d1 d2 a d' :
  waits answer n d d1 → Z.of_nat n < N → answered answer d1 d2 → act (N - Z.of_nat n) d2 = Ok (inr a, d') →
  io_while (Z.to_pos N) body N d = Ok (a, d').
Proof.
  intros Hw HN (v & E & F) Ha. rewrite (poll_rounds _ _ _ _ Hw HN). apply io_while_exit.
  by rewrite (Hbody _ _ _ _ E), F.
Qed.

Lemma poll_refused n N d d1 d2 :
  waits answer n d d1 → Z.of_nat n < N → refused answer d1 d2 →
  io_while (Z.to_pos N) body N d = Ok (out (N - Z.of_nat n), d2).
Proof.
  intros Hw HN (v & d' & v' & E & F & E' & F'). rewrite (poll_rounds _ _ _ _ Hw HN). apply io_while_exit.
  rewrite (Hbody _ _ _ _ E), F. unfold poll_again. by rewrite (bind_error _ _ _ _ E'), F'.
Qed.

Lemma waits_snoc n d d1 :
  waits answer (S n) d d1 →
  ∃ d0 v d2 v' d3, waits answer n d d0 ∧ status d0 = (v, d2) ∧ answer v = false ∧ status d2 = (v', d3) ∧
                   error v' = false ∧ d1 = sleep_for 30000 d3.
Proof.
  revert d. induction n as [|n IH]; intros d Hw; inversion Hw as [|? ? v d2 v' d3 ? E F E' F' Hw']; subst.
  - inversion Hw'; subst. exists d, v, d2, v', d3. split_and!; [constructor|done..].
  - destruct (IH _ Hw') as (d0 & w & d4 & w' & d5 & Hw0 & Hr). exists d0, w, d4, w', d5.
    split; [by econstructor|done].
Qed.

Lemma poll_timed_out n d d1 :
  waits answer (S n) d d1 →
  io_while (Z.to_pos (Z.of_nat (S n))) body (Z.of_nat (S n)) d = Ok (out 0, d1).
Proof.
  intros (d0 & v & d2 & v' & d3 & Hw & E & F & E' & F' & ->)%waits_snoc.
  rewrite (poll_rounds _ _ _ _ Hw) by lia. replace (Z.of_nat (S n) - Z.of_nat n) with 1 by lia.
  apply io_while_exit. by rewrite (poll_more _ _ _ _ _ _ E F E' F').
Qed.

(** One of the three happens. *)
Lemma poll_cases n d :
  (∃ k d1 d2, (k < n)%nat ∧ waits answer k d d1 ∧ (answered answer d1 d2 ∨ refused answer d1 d2)) ∨
  (∃ d1, waits answer n d d1).
Proof.
  revert d. induction n as [|n IH]; intros d; [right; eexists; constructor|].
  destruct (status d) as [v d1] eqn:E. destruct (answer v) eqn:F.
  { left. exists 0%nat, d, d1. split; [lia|]. split; [constructor|]. left. by exists v. }
  destruct (status d1) as [v' d2] eqn:E'. destruct (error v') eqn:F'.
  { left. exists 0%nat, d, d2. split; [lia|]. split; [constructor|]. right. by exists v, d1, v'. }
  destruct (IH (sleep_for 30000 d2)) as [(k & d3 & d4 & Hk & Hw & Hc)|(d3 & Hw)].
  - left. exists (S k), d3, d4. split; [lia|]. split; [by econstructor|done].
  - right. exists d3. by econstructor.
Qed.
End polling.

(** *** Sending *)

Definition not_busy (v : Z) : bool := negb (busy v).

(** A data object written dword by dword. *)
Fixpoint write_object (ws : list Z) (d : D) : D :=
  match ws with [] => d | w :: ws => write_object ws (poke PCI_EXPRESS_REG_DOE_WRITE_DATA_MAILBOX_OFFSET w d) end.

(** A run with at most [rounds] polls: the whole object is written and
    started; an error shows while the mailbox is busy; or it stays busy. *)
Inductive send_run (request : bytes) (rounds : nat) (d : D) : Z → D → Prop :=
| send_done d0 n d1 d2 st d' :
    cleared d d0 → waits not_busy n d0 d1 → (n < rounds)%nat → answered not_busy d1 d2 →
    settles LIBSPDM_STATUS_SEND_FAIL (go (write_object (dwords request) d2)) st d' → send_run request rounds d st d'
| send_refused d0 n d1 d2 st d' :
    cleared d d0 → waits not_busy n d0 d1 → (n < rounds)%nat → refused not_busy d1 d2 →
    settles LIBSPDM_STATUS_SEND_FAIL d2 st d' → send_run request rounds d st d'
| send_timed_out d0 d1 :
    cleared d d0 → waits not_busy rounds d0 d1 → send_run request rounds d LIBSPDM_STATUS_SEND_FAIL d1.

Lemma send_run_total request rounds d : ∃ st d', send_run request rounds d st d'.
Proof.
  destruct (cleared_total d) as [d0 Hcl].
  destruct (poll_cases not_busy rounds d0) as [(n & d1 & d2 & Hn & Hw & [Ha|Ha])|(d1 & Hw)].
  - destruct (settles_total LIBSPDM_STATUS_SEND_FAIL (go (write_object (dwords request) d2))) as (st & d' & Hs).
    exists st, d'. by eapply send_done.
  - destruct (settles_total LIBSPDM_STATUS_SEND_FAIL d2) as (st & d' & Hs). exists st, d'. by eapply send_refused.
  - eexists _, _. by eapply send_timed_out.
Qed.

Lemma write_object_ok request n lo d :
  Z.of_nat (length request) = 4 * (lo + Z.of_nat n) → 0 ≤ lo →
  io_fold (λ index _, let+ w := lift (load_le request (4 * index) 4) in device_pci_doe_write_mailbox_write_32 fd off w)
          (seqZ lo (Z.of_nat n)) tt d
  = Ok (tt, write_object (dwords (drop (Z.to_nat (4 * lo)) request)) d).
Proof.
  revert lo d. induction n as [|n IH]; intros lo d Hlen Hlo.
  { rewrite drop_ge by lia. done. }
  rewrite seqZ_cons by lia. replace (Z.pred (Z.of_nat (S n))) with (Z.of_nat n) by lia. cbn [io_fold].
  rewrite bind_assoc. unfold load_le, load. rewrite (proj2 (in_object_true _ _ _)) by lia. cbn [res_bind].
  rewrite (bind_lift_Ok _ _ _ (le (take 4 (drop (Z.to_nat (4 * lo)) request)))) by done.
  unfold device_pci_doe_write_mailbox_write_32.
  rewrite (bind_Ok _ _ _ _ _ (doe_write_ok PCI_EXPRESS_REG_DOE_WRITE_DATA_MAILBOX_OFFSET _ d ltac:(done))), IH by lia.
  assert (Hl : (4 ≤ length (drop (Z.to_nat (4 * lo)) request))%nat) by (rewrite length_drop; lia).
  clear IH Hlen.
  replace (Z.to_nat (4 * Z.succ lo)) with (Z.to_nat (4 * lo) + 4)%nat by lia. rewrite <- drop_drop.
  destruct (drop (Z.to_nat (4 * lo)) request) as [|a [|b [|c [|x l]]]]; simpl in Hl; try lia. done.
Qed.

Lemma send_run_sound request timeout d st d' :
  (0 < length request)%nat → Z.of_nat (length request) < 2 ^ 34 → (Z.of_nat (length request)) mod 4 = 0 → 0 ≤ timeout →
  send_run request (Z.to_nat ((if timeout =? 0 then PCI_EXPRESS_DOE_MAILBOX_TIMEOUT else timeout) / 30 + 1)) d st d' →
  device_doe_send_message fd off (Z.of_nat (length request)) (Some request) timeout d = Ok (st, d').
Proof.
  intros Hl Hmax H4 Ht. unfold device_doe_send_message.
  rewrite (proj2 (Z.eqb_neq (Z.of_nat (length request)) 0)) by lia.
  change 3 with (Z.ones 2). rewrite Z.land_ones, bind_assert by lia. change (2 ^ 2) with 4. rewrite H4. cbn [Z.eqb]. cbv zeta.
  set (t := if timeout =? 0 then _ else _).
  assert (0 ≤ t / 30) by (apply Z.div_pos; [unfold t; destruct (timeout =? 0); unfold PCI_EXPRESS_DOE_MAILBOX_TIMEOUT; lia|lia]).
  assert (Hc : u32 (Z.of_nat (length request) / 4) = Z.of_nat (length request) / 4).
  { unfold u32. apply Z.mod_small. split; [apply Z.div_pos; lia|apply Z.div_lt_upper_bound; lia]. }
  rewrite Hc. set (body := send_round fd off request _).
  assert (Hb : ∀ delay d v d1, status d = (v, d1) → body delay d =
     if not_busy v then (let+ _ := write_data_object fd off request (Z.of_nat (length request) / 4) in
                         let+ _ := trigger_doe_go fd off in ret (inr delay)) d1
     else poll_again fd off delay id id d1).
  { intros delay e v d1 E. unfold body, send_round. rewrite (bind_busy _ _ _ _ E). unfold not_busy. by destruct (busy v). }
  assert (Hw : ∀ delay e, (let+ _ := write_data_object fd off request (Z.of_nat (length request) / 4) in
                           let+ _ := trigger_doe_go fd off in ret (inr delay : round Z Z)) e
                          = Ok (inr delay, go (write_object (dwords request) e))).
  { intros delay e. pose proof (write_object_ok request (Z.to_nat (Z.of_nat (length request) / 4)) 0 e) as E.
    rewrite Z2Nat.id in E by (apply Z.div_pos; lia). unfold write_data_object, range. rewrite Z.sub_0_r.
    rewrite (bind_Ok _ _ _ _ _ (E ltac:(pose proof (Z.div_mod (Z.of_nat (length request)) 4); lia) ltac:(lia))).
    by rewrite (bind_Ok _ _ _ _ _ (trigger_go_ok _)). }
  intros [d0 n d1 d2 st' d'' Hcl Hn Hlt Ha Hs|d0 n d1 d2 st' d'' Hcl Hn Hlt Ha Hs|d0 d1 Hcl Hn];
    rewrite (cleared_ok _ _ _ Hcl).
  - rewrite (bind_Ok _ _ _ _ _ (poll_answered _ _ _ _ Hb n (t / 30 + 1) _ _ _ _ _ Hn ltac:(lia) Ha (Hw _ _))).
    apply settles_done; [lia|done].
  - rewrite (bind_Ok _ _ _ _ _ (poll_refused _ _ _ _ Hb n (t / 30 + 1) _ _ _ Hn ltac:(lia) Ha)).
    apply settles_done; [unfold id; lia|done].
  - replace (Z.to_nat (t / 30 + 1)) with (S (Z.to_nat (t / 30))) in Hn by lia.
    pose proof (poll_timed_out _ _ _ _ Hb _ _ _ Hn) as E. replace (Z.of_nat (S (Z.to_nat (t / 30)))) with (t / 30 + 1) in E by lia.
    by rewrite (bind_Ok _ _ _ _ _ E).
Qed.

(** *** Receiving *)

(** The mailbox delivers words, each one acknowledged by writing it back. *)
Inductive delivers : list Z → D → D → Prop :=
| delivers_none d : delivers [] d d
| delivers_more w ws d d1 d2 :
    peek PCI_EXPRESS_REG_DOE_READ_DATA_MAILBOX_OFFSET d = (w, d1) →
    delivers ws (poke PCI_EXPRESS_REG_DOE_READ_DATA_MAILBOX_OFFSET w d1) d2 → delivers (w :: ws) d d2.

(** The length in dwords that a header announces; 0 stands for 2^18. *)
Definition announced (h2 : Z) : Z := if h2 =? 0 then 0x40000 else h2.

(** The buffer with words at its start. *)
Definition filled (ws : list Z) (buffer : bytes) : bytes := undwords ws ++ drop (4 * length ws) buffer.

(** A run: the announced number of words goes to the buffer, or they do not
    fit; an error shows first; or nothing comes. *)
Inductive receive_run (buffer : bytes) (size : Z) (rounds : nat) (d : D) : Z * bytes * Z → D → Prop :=
| receive_done d0 n d1 d2 h1 h2 ws d3 st d' :
    cleared d d0 → waits ready n d0 d1 → (n < rounds)%nat → answered ready d1 d2 →
    delivers (h1 :: h2 :: ws) d2 d3 → length ws = Z.to_nat (announced h2 - 2) → 4 * announced h2 ≤ size →
    settles LIBSPDM_STATUS_RECEIVE_FAIL d3 st d' →
    receive_run buffer size rounds d (st, filled (h1 :: h2 :: ws) buffer, 4 * announced h2) d'
| receive_too_small d0 n d1 d2 h1 h2 d3 :
    cleared d d0 → waits ready n d0 d1 → (n < rounds)%nat → answered ready d1 d2 →
    delivers [h1; h2] d2 d3 → size < 4 * announced h2 →
    receive_run buffer size rounds d (LIBSPDM_STATUS_BUFFER_TOO_SMALL, filled [h1; h2] buffer, 4 * announced h2) d3
| receive_refused d0 n d1 d2 st d' :
    cleared d d0 → waits ready n d0 d1 → (n < rounds)%nat → refused ready d1 d2 →
    settles LIBSPDM_STATUS_RECEIVE_FAIL d2 st d' → receive_run buffer size rounds d (st, buffer, size) d'
| receive_timed_out d0 d1 :
    cleared d d0 → waits ready rounds d0 d1 →
    receive_run buffer size rounds d (LIBSPDM_STATUS_RECEIVE_FAIL, buffer, size) d1.

Lemma delivers_total n d : ∃ ws d', length ws = n ∧ delivers ws d d'.
Proof.
  revert d. induction n as [|n IH]; intros d; [exists [], d; split; [done|constructor]|].
  destruct (peek PCI_EXPRESS_REG_DOE_READ_DATA_MAILBOX_OFFSET d) as [w d1] eqn:E.
  destruct (IH (poke PCI_EXPRESS_REG_DOE_READ_DATA_MAILBOX_OFFSET w d1)) as (ws & d2 & Hl & Hw).
  exists (w :: ws), d2. split; [simpl; lia|by econstructor].
Qed.

Lemma delivers_app ws vs d d1 d2 : delivers ws d d1 → delivers vs d1 d2 → delivers (ws ++ vs) d d2.
Proof. induction 1 as [|w ws d e d1' E Hw IH]; intros Hv; [done|]. cbn [app]. econstructor; [done|by apply IH]. Qed.

Lemma delivers_app_inv ws vs d d2 : delivers (ws ++ vs) d d2 → ∃ d1, delivers ws d d1 ∧ delivers vs d1 d2.
Proof.
  revert d. induction ws as [|w ws IH]; intros d Hd; [exists d; split; [constructor|done]|].
  inversion Hd as [|? ? ? e ? E Hd']; subst. destruct (IH _ Hd') as (d1 & Hw & Hv). exists d1. split; [by econstructor|done].
Qed.

Lemma delivers_range ws d d' : delivers ws d d' → Forall (λ w, 0 ≤ w < 2 ^ 32) ws.
Proof.
  induction 1 as [|w ws d e d' E Hw IH]; constructor; [|done].
  pose proof (peek_range PCI_EXPRESS_REG_DOE_READ_DATA_MAILBOX_OFFSET d) as Hr. by rewrite E in Hr.
Qed.

Lemma receive_run_total buffer size rounds d : ∃ r d', receive_run buffer size rounds d r d'.
Proof.
  destruct (cleared_total d) as [d0 Hcl].
  destruct (poll_cases ready rounds d0) as [(n & d1 & d2 & Hn & Hw & [Ha|Ha])|(d1 & Hw)].
  - destruct (delivers_total 2 d2) as ([|h1 [|h2 [|]]] & d3 & Hl & Hd); try done.
    destruct (decide (4 * announced h2 ≤ size)) as [Hs|Hs].
    + destruct (delivers_total (Z.to_nat (announced h2 - 2)) d3) as (ws & d4 & Hlw & Hdw).
      destruct (settles_total LIBSPDM_STATUS_RECEIVE_FAIL d4) as (st & d' & Hst).
      eexists _, d'. eapply (receive_done buffer size rounds d d0 n d1 d2 h1 h2 ws d4 st d'); try done.
      apply (delivers_app [h1; h2] ws _ _ _ Hd Hdw).
    + eexists _, _. eapply receive_too_small; try done. lia.
  - destruct (settles_total LIBSPDM_STATUS_RECEIVE_FAIL d2) as (st & d' & Hs). eexists _, d'. by eapply receive_refused.
  - eexists _, _. by eapply receive_timed_out.
Qed.

Lemma read_dword_ok i buffer w d d1 :
  (4 * i + 4 ≤ length buffer)%nat → peek PCI_EXPRESS_REG_DOE_READ_DATA_MAILBOX_OFFSET d = (w, d1) →
  read_data_object_dword fd off (Z.of_nat i) buffer d =
  Ok (take (4 * i) buffer ++ le_bytes 4 w ++ drop (4 * i + 4) buffer,
      poke PCI_EXPRESS_REG_DOE_READ_DATA_MAILBOX_OFFSET w d1).
Proof.
  intros Hl E. unfold read_data_object_dword, device_pci_doe_read_mailbox_read_32, device_pci_doe_read_mailbox_write_32.
  assert (Hr : doe_read_32 fd off PCI_EXPRESS_REG_DOE_READ_DATA_MAILBOX_OFFSET d = Ok (w, d1)) by (by rewrite doe_read_ok, E).
  rewrite (bind_Ok _ _ _ _ _ Hr). unfold store.
  rewrite (proj2 (in_object_true _ _ _)) by (rewrite length_le_bytes; lia).
  rewrite length_le_bytes. replace (Z.to_nat (4 * Z.of_nat i)) with (4 * i)%nat by lia.
  rewrite (bind_lift_Ok _ _ _ _ eq_refl). by rewrite (bind_Ok _ _ _ _ _ (doe_write_ok PCI_EXPRESS_REG_DOE_READ_DATA_MAILBOX_OFFSET _ _ ltac:(done))).
Qed.

Lemma read_words_ok ws i buffer d d' :
  delivers ws d d' → (4 * (i + length ws) ≤ length buffer)%nat →
  io_fold (read_data_object_dword fd off) (seqZ (Z.of_nat i) (Z.of_nat (length ws))) buffer d =
  Ok (take (4 * i) buffer ++ undwords ws ++ drop (4 * (i + length ws)) buffer, d').
Proof.
  intros Hd. revert i buffer. induction Hd as [d|w ws d d1 d' E Hd IH]; intros i buffer Hl.
  { cbn [length undwords flat_map app]. rewrite Nat.add_0_r, take_drop. done. }
  cbn [length]. cbn [length] in Hl. rewrite seqZ_cons by lia.
  replace (Z.pred (Z.of_nat (S (length ws)))) with (Z.of_nat (length ws)) by lia. cbn [io_fold].
  rewrite (bind_Ok _ _ _ _ _ (read_dword_ok i buffer w d d1 ltac:(lia) E)).
  replace (Z.succ (Z.of_nat i)) with (Z.of_nat (S i)) by lia. set (pre := take (4 * i) buffer ++ le_bytes 4 w).
  assert (Hp : length pre = (4 * S i)%nat) by (unfold pre; rewrite length_app, length_take, length_le_bytes; lia).
  rewrite (app_assoc (take _ _)). fold pre. rewrite IH by (rewrite length_app, length_drop, Hp; lia).
  rewrite take_app_length' by done.
  rewrite drop_app_ge, drop_drop, Hp by lia.
  replace (4 * i + 4 + (4 * (S i + length ws) - 4 * S i))%nat with (4 * (i + S (length ws)))%nat by lia.
  unfold pre, undwords. cbn [flat_map]. by rewrite <- !app_assoc.
Qed.

Lemma length_filled ws buffer : (4 * length ws ≤ length buffer)%nat → length (filled ws buffer) = length buffer.
Proof. intros Hl. unfold filled. rewrite length_app, length_undwords, length_drop. lia. Qed.

(** What the code reads once an object is ready. *)
Lemma receive_object_ok buffer size delay h1 h2 ws d d1 d' :
  8 ≤ size ≤ Z.of_nat (length buffer) →
  delivers [h1; h2] d d1 → delivers ws d1 d' → length ws = Z.to_nat (announced h2 - 2) →
  receive_data_object fd off buffer size delay d =
  if size <? 4 * announced h2 then Ok (filled [h1; h2] buffer, 4 * announced h2, inl LIBSPDM_STATUS_BUFFER_TOO_SMALL, d1)
  else Ok (filled (h1 :: h2 :: ws) buffer, 4 * announced h2, inr delay, d').
Proof.
  intros Hs Hd Hw Hl. pose proof (delivers_range _ _ _ Hd) as Hr.
  apply Forall_cons in Hr as [_ [Hr _]%Forall_cons].
  inversion Hd as [|? ? ? e1 ? E1 Hd1]; subst. inversion Hd1 as [|? ? ? e2 ? E2 Hd2]; subst. inversion Hd2; subst.
  unfold receive_data_object.
  rewrite (bind_Ok _ _ _ _ _ (read_dword_ok 0 buffer h1 d e1 ltac:(lia) E1)). cbn [Nat.mul take app Nat.add].
  assert (Hb : length (le_bytes 4 h1 ++ drop 4 buffer) = length buffer) by (rewrite length_app, length_le_bytes, length_drop; lia).
  rewrite (bind_Ok _ _ _ _ _ (read_dword_ok 1 (le_bytes 4 h1 ++ drop 4 buffer) h2 _ e2 ltac:(lia) E2)).
  change (4 * 1)%nat with 4%nat. change (4 + 4)%nat with 8%nat.
  rewrite take_app_length' by (by rewrite length_le_bytes).
  rewrite (drop_app_ge _ _ 8) by (rewrite length_le_bytes; lia). rewrite length_le_bytes, drop_drop.
  change (4 + (8 - 4))%nat with 8%nat.
  assert (Hf : filled [h1; h2] buffer = le_bytes 4 h1 ++ le_bytes 4 h2 ++ drop 8 buffer)
    by (unfold filled, undwords; cbn [flat_map]; by rewrite app_nil_r, <- app_assoc).
  rewrite <- Hf. unfold load_le.
  assert (Hload : load (filled [h1; h2] buffer) 4 4 = Ok (le_bytes 4 h2))
    by (rewrite Hf; apply load_app; by rewrite length_le_bytes).
  rewrite Hload. cbn [res_bind]. rewrite (bind_lift_Ok _ _ _ h2) by (by rewrite le_le_bytes). cbv zeta.
  fold (announced h2). rewrite (Z.mul_comm _ 4). destruct (Z.ltb_spec size (4 * announced h2)) as [Hlt|Hge]; [done|].
  unfold range. change (sizeof_pci_doe_data_object_header_t / 4) with (Z.of_nat 2).
  destruct (decide (announced h2 < 2)) as [Hsmall|Hbig].
  - replace (Z.to_nat (announced h2 - 2)) with 0%nat in Hl by lia. apply nil_length_inv in Hl as ->.
    inversion Hw; subst. rewrite seqZ_nil by lia. done.
  - replace (announced h2 - Z.of_nat 2) with (Z.of_nat (length ws)) by lia.
    assert (Hfl : length (filled [h1; h2] buffer) = length buffer) by (apply length_filled; simpl; lia).
    rewrite (bind_Ok _ _ _ _ _ (read_words_ok ws 2 (filled [h1; h2] buffer) _ _ Hw ltac:(lia))).
    assert (Hall : take (4 * 2) (filled [h1; h2] buffer) ++ undwords ws ++ drop (4 * (2 + length ws)) (filled [h1; h2] buffer)
                   = filled (h1 :: h2 :: ws) buffer).
    { rewrite Hf. unfold filled, undwords. cbn [flat_map].
      rewrite (app_assoc (le_bytes 4 h1)), take_app_length' by (by rewrite length_app, !length_le_bytes).
      rewrite drop_app_ge by (rewrite length_app, !length_le_bytes; lia). rewrite length_app, !length_le_bytes, drop_drop.
      rewrite <- !app_assoc. do 4 f_equal. simpl; lia. }
    by rewrite Hall.
Qed.

Definition receive_rounds : nat := Z.to_nat (0x1000000 / 30 + 1).

Lemma receive_rounds_pos : (0 < receive_rounds)%nat.
Proof. unfold receive_rounds. change 0%nat with (Z.to_nat 0). by apply Z2Nat.inj_lt. Qed.

Lemma receive_run_sound buffer size timeout d st buffer' size' d' :
  8 ≤ size ≤ Z.of_nat (length buffer) → receive_run buffer size receive_rounds d (st, buffer', size') d' →
  device_doe_receive_message fd off (Some size) (Some buffer) timeout d = Ok (st, Some buffer', Some size', d').
Proof.
  intros Hs. unfold device_doe_receive_message, sizeof_pci_doe_data_object_header_t.
  rewrite (proj2 (Z.ltb_ge _ _)) by lia. set (body := receive_round fd off buffer size). cbv zeta.
  set (act := λ delay, let+ r := receive_data_object fd off buffer size delay in ret (inr r : round Z receive_result)).
  set (out := λ delay : Z, (buffer, size, inr delay) : receive_result).
  assert (Hb : ∀ delay d v d1, status d = (v, d1) → body delay d =
     if ready v then act delay d1 else poll_again fd off delay out id d1).
  { intros delay e v d1 E. unfold body, receive_round. rewrite (bind_ready _ _ _ _ E). by destruct (ready v). }
  assert (HN : 0x1000000 / 30 + 1 = Z.of_nat receive_rounds) by (unfold receive_rounds; rewrite Z2Nat.id; done).
  assert (Hpos : 0 < Z.of_nat receive_rounds) by (rewrite <- HN; done). rewrite HN. clearbody body. clear HN.
  revert Hpos. generalize receive_rounds as rounds. intros rounds Hpos.
  intros Hr. inversion Hr as
    [d0 n d1 d2 h1 h2 ws d3 st' d'' Hcl Hw Hn Ha Hd Hl Hfit Hst Heq|d0 n d1 d2 h1 h2 d3 Hcl Hw Hn Ha Hd Hfit Heq
    |d0 n d1 d2 st' d'' Hcl Hw Hn Ha Hst Heq|d0 d1 Hcl Hw Heq]; subst; rewrite (cleared_ok _ _ _ Hcl).
  - apply (delivers_app_inv [h1; h2] ws) in Hd as (d4 & Hd & Hws).
    pose proof (receive_object_ok buffer size ((Z.of_nat rounds) - Z.of_nat n) _ _ _ _ _ _ Hs Hd Hws Hl) as E.
    rewrite (proj2 (Z.ltb_ge _ _)) in E by lia.
    assert (Hact : act ((Z.of_nat rounds) - Z.of_nat n) d2 = Ok (inr (filled (h1 :: h2 :: ws) buffer, 4 * announced h2, inr ((Z.of_nat rounds) - Z.of_nat n)), d3))
      by (unfold act; by rewrite (bind_Ok _ _ _ _ _ E)).
    rewrite (bind_Ok _ _ _ _ _ (poll_answered _ _ _ _ Hb n (Z.of_nat rounds) _ _ _ _ _ Hw ltac:(lia) Ha Hact)). cbv beta iota.
    by rewrite (bind_Ok _ _ _ _ _ (settles_done _ ((Z.of_nat rounds) - Z.of_nat n) _ _ _ ltac:(lia) Hst)).
  - destruct (delivers_total (Z.to_nat (announced h2 - 2)) d') as (ws & d4 & Hl & Hws).
    pose proof (receive_object_ok buffer size ((Z.of_nat rounds) - Z.of_nat n) _ _ _ _ _ _ Hs Hd Hws Hl) as E.
    rewrite (proj2 (Z.ltb_lt _ _)) in E by lia.
    assert (Hact : act ((Z.of_nat rounds) - Z.of_nat n) d2 = Ok (inr (filled [h1; h2] buffer, 4 * announced h2, inl LIBSPDM_STATUS_BUFFER_TOO_SMALL), d'))
      by (unfold act; by rewrite (bind_Ok _ _ _ _ _ E)).
    by rewrite (bind_Ok _ _ _ _ _ (poll_answered _ _ _ _ Hb n (Z.of_nat rounds) _ _ _ _ _ Hw ltac:(lia) Ha Hact)).
  - rewrite (bind_Ok _ _ _ _ _ (poll_refused _ _ _ _ Hb n (Z.of_nat rounds) _ _ _ Hw ltac:(lia) Ha)). unfold out. cbv beta iota.
    by rewrite (bind_Ok _ _ _ _ _ (settles_done _ ((Z.of_nat rounds) - Z.of_nat n) _ _ _ ltac:(lia) Hst)).
  - assert (Hr1 : rounds = S (pred rounds)) by lia. rewrite Hr1 in Hw.
    pose proof (poll_timed_out _ _ _ _ Hb _ _ _ Hw) as E. rewrite <- Hr1 in E.
    by rewrite (bind_Ok _ _ _ _ _ E).
Qed.

(** C28: Sending a data object always ends, after at most as many polls as the
    timeout allows, and does exactly one run of the mailbox protocol: an error is
    cleared, a busy mailbox is polled, then the whole object is written dword by dword
    and started; success is reported only when the error bit is clear at the
    end, and a mailbox that stays busy or shows an error there makes it
    fail.  No object or an empty one is refused, and a size that is not a multiple of
    four stops at an assertion. *)
Theorem send_message request timeout d :
  let size := Z.of_nat (length request) in
  0 < size < 2 ^ 34 → 0 ≤ timeout →
  let send := device_doe_send_message fd off size (Some request) timeout in
  let rounds := Z.to_nat ((if timeout =? 0 then PCI_EXPRESS_DOE_MAILBOX_TIMEOUT else timeout) / 30 + 1) in
  (size mod 4 = 0 → (∃ st d', send_run request rounds d st d') ∧
                    ∀ st d', send d = Ok (st, d') ↔ send_run request rounds d st d') ∧
  (size mod 4 ≠ 0 → send d = Stop AssertHang) ∧
  device_doe_send_message fd off size None timeout d = Ok (LIBSPDM_STATUS_INVALID_PARAMETER, d) ∧
  device_doe_send_message fd off 0 (Some request) timeout d = Ok (LIBSPDM_STATUS_INVALID_PARAMETER, d).
Proof.
  intros size Hs Ht send rounds. split_and!; [|intros H4|done|done].
  - intros H4. assert (Hsound : ∀ st d', send_run request rounds d st d' → send d = Ok (st, d'))
      by (intros st d' Hr; apply send_run_sound; [lia|lia|done|done|exact Hr]).
    split; [apply send_run_total|]. intros st d'. split; [|apply Hsound]. intros E.
    destruct (send_run_total request rounds d) as (st1 & d1 & Hr). rewrite (Hsound _ _ Hr) in E.
    injection E as -> ->. done.
  - unfold send, device_doe_send_message. rewrite (proj2 (Z.eqb_neq size 0)) by lia.
    change 3 with (Z.ones 2). rewrite Z.land_ones, bind_assert by lia. change (2 ^ 2) with 4.
    by rewrite (proj2 (Z.eqb_neq _ _)).
Qed.

(** C29: Receiving a data object always ends, after at most a fixed number of
    polls, and does exactly one run of the mailbox protocol: the header tells the number of
    dwords (0 stands for 2^18), and these dwords, acknowledged one
    by one, are the content of the buffer and their number its size.  An
    object that is larger than the buffer is reported as such after the header;
    the buffer keeps its length, and what is behind its size is not written.  A
    buffer smaller than a header or none at all is refused. *)
Theorem receive_message buffer size timeout d :
  size ≤ Z.of_nat (length buffer) →
  let receive := device_doe_receive_message fd off (Some size) (Some buffer) timeout in
  (8 ≤ size →
     (∃ r d', receive_run buffer size receive_rounds d r d') ∧
     (∀ st buffer' size' d', receive d = Ok (st, Some buffer', Some size', d') ↔
                             receive_run buffer size receive_rounds d (st, buffer', size') d') ∧
     ∀ st buffer' size' d', receive d = Ok (st, Some buffer', Some size', d') →
       length buffer' = length buffer ∧ drop (Z.to_nat size) buffer' = drop (Z.to_nat size) buffer) ∧
  (size < 8 → receive d = Ok (LIBSPDM_STATUS_BUFFER_TOO_SMALL, Some buffer, Some 8, d)) ∧
  device_doe_receive_message fd off (Some size) None timeout d = Ok (LIBSPDM_STATUS_INVALID_PARAMETER, None, Some size, d).
Proof.
  intros Hle receive. split_and!; [| |done].
  - intros H8.
    assert (Hsound : ∀ st b s d', receive_run buffer size receive_rounds d (st, b, s) d' →
                                  receive d = Ok (st, Some b, Some s, d')) by (intros; by apply receive_run_sound).
    assert (Hiff : ∀ st b s d', receive d = Ok (st, Some b, Some s, d') ↔ receive_run buffer size receive_rounds d (st, b, s) d').
    { intros st b s d'. split; [|apply Hsound]. intros E.
      destruct (receive_run_total buffer size receive_rounds d) as ([[st1 b1] s1] & d1 & Hr).
      rewrite (Hsound _ _ _ _ Hr) in E. injection E as -> -> -> ->. done. }
    split_and!; [apply receive_run_total|done|].
    assert (Hfill : ∀ ws, 4 * Z.of_nat (length ws) ≤ size →
      length (filled ws buffer) = length buffer ∧ drop (Z.to_nat size) (filled ws buffer) = drop (Z.to_nat size) buffer).
    { intros ws Hw. split; [apply length_filled; lia|]. unfold filled.
      rewrite drop_app_ge, length_undwords, drop_drop by (rewrite length_undwords; lia). f_equal. lia. }
    intros st b s d' Hr%Hiff. inversion Hr as [? ? ? ? h1 h2 ws ? ? ? ? ? ? ? ? Hl|? ? ? ? h1 h2| |]; subst; try done;
      apply Hfill; simpl; lia.
  - intros H8. unfold receive, device_doe_receive_message, sizeof_pci_doe_data_object_header_t.
    by rewrite (proj2 (Z.ltb_lt _ _)) by lia.
Qed.
End doe.

(** ** Runs on plain memory *)

Lemma send_message_witness :
  ∃ d', device_doe_send_message 3 0x100 8 (Some [1; 2; 3; 4; 5; 6; 7; 8]) 60 ([] : memory) = Ok (LIBSPDM_STATUS_SUCCESS, d') ∧
        mem_peek d' (Cfg 3 0x108) = 0x80000000 ∧ mem_peek d' (Cfg 3 0x110) = 0x08070605.
Proof.
  destruct (send_message 3 0x100 ltac:(lia) ltac:(lia) [1; 2; 3; 4; 5; 6; 7; 8] 60 ([] : memory)) as (Hs & _ & _ & _);
    [simpl; lia|lia|].
  destruct (Hs eq_refl) as [_ Hiff]. eexists. split; [apply Hiff|].
  - eapply (send_done _ _ _ _ _ [] 0 []); [by eapply cleared_none|constructor|vm_compute; lia|by eexists|by eapply settles_ok].
  - by vm_compute.
Defined.

Lemma receive_message_witness :
  let d : memory := [(Cfg 3 0x10c, 0x80000000); (Cfg 3 0x114, 2)] in
  ∃ d', device_doe_receive_message 3 0x100 (Some 12) (Some (replicate 12 0xff)) 0 d
        = Ok (LIBSPDM_STATUS_SUCCESS, Some [2; 0; 0; 0; 2; 0; 0; 0; 0xff; 0xff; 0xff; 0xff], Some 8, d').
Proof.
  intros d.
  destruct (receive_message 3 0x100 ltac:(lia) ltac:(lia) (replicate 12 0xff) 12 0 d) as (Hr & _ & _); [simpl; lia|].
  destruct (Hr ltac:(lia)) as (_ & Hiff & _).
  change [2; 0; 0; 0; 2; 0; 0; 0; 0xff; 0xff; 0xff; 0xff] with (filled [2; 2] (replicate 12 0xff)).
  change (Some 8) with (Some (4 * announced 2)). eexists. apply Hiff.
  eapply (receive_done _ _ _ _ _ _ d 0 d d 2 2 []);
    [by eapply cleared_none|apply waits_none|apply receive_rounds_pos|by eexists| |done|vm_compute; discriminate|].
  { do 2 (eapply delivers_more; [reflexivity|]). apply delivers_none. }
  by eapply settles_ok.
Defined.
End DoeSpec.
