(* ===== verification/Ports.v ===== *)
(** * Opening and closing ports (library/pcie_ide_lib/pcie_ide.c,
    scan_pcie.c)

    A computation here runs on the machine and on the globals of the process:
    the device table, the DOE instance in use, and the port objects that the
    contexts and the configuration share.  What the operating system does for the code
    is a class of operations on the machine. *)
From Stdlib Require Import ZArith Lia Ascii String.
From stdpp Require Import prelude gmap.
From S2P Require Import Prelude Utils Libspdm TestConfig Hardware PcieIde Kcbar Doe.

Open Scope Z_scope.
Open Scope teeio_scope.

Module Ports.
Import TestConfig Hardware PcieIde Kcbar Doe Utils.PcieHelper.

(** ** Operating system and process *)

Class Os (D : Type) := {
  (** open of "/sys/bus/pci/devices/<bdf>/config": a descriptor, or -1 *)
  os_open : bytes → D → Z * D;
  (** the size that [lseek] to the end reports *)
  os_size : Z → D → Z * D;
  os_close : Z → D → D;
  (** the content of the KEYP table; the mapping of a physical address *)
  os_keyp : D → option bytes;
  os_map : D → Z → option (Z * Z);
  os_unmap : Z → Z → D → D;
  (** a file of that name is written *)
  os_write_file : bytes → bytes → D → D
}.

Record process := {
  devices : list IDE_TEST_DEVICES_INFO;
  doe_offset_in_use : Z;              (* g_doe_extended_offset *)
  m_dev_fp : Z;
  port_objects : gmap Z IDE_PORT;     (* by address *)
  m_spdm_context : Z;                 (* pointers; 0 is NULL *)
  m_scratch_buffer : Z;
  m_requested_spdm_version : Z
}.

Definition with_devices (l : list IDE_TEST_DEVICES_INFO) (p : process) : process :=
  {| devices := l; doe_offset_in_use := doe_offset_in_use p; m_dev_fp := m_dev_fp p; port_objects := port_objects p;
     m_spdm_context := m_spdm_context p; m_scratch_buffer := m_scratch_buffer p; m_requested_spdm_version :=
     m_requested_spdm_version p |}.
Definition with_doe_in_use (off : Z) (p : process) : process :=
  {| devices := devices p; doe_offset_in_use := off; m_dev_fp := m_dev_fp p; port_objects := port_objects p;
     m_spdm_context := m_spdm_context p; m_scratch_buffer := m_scratch_buffer p; m_requested_spdm_version :=
     m_requested_spdm_version p |}.
Definition with_dev_fp (fd : Z) (p : process) : process :=
  {| devices := devices p; doe_offset_in_use := doe_offset_in_use p; m_dev_fp := fd; port_objects := port_objects p;
     m_spdm_context := m_spdm_context p; m_scratch_buffer := m_scratch_buffer p; m_requested_spdm_version :=
     m_requested_spdm_version p |}.
Definition with_port_objects (m : gmap Z IDE_PORT) (p : process) : process :=
  {| devices := devices p; doe_offset_in_use := doe_offset_in_use p; m_dev_fp := m_dev_fp p; port_objects := m;
     m_spdm_context := m_spdm_context p; m_scratch_buffer := m_scratch_buffer p; m_requested_spdm_version :=
     m_requested_spdm_version p |}.
Definition with_spdm_context (c : Z) (p : process) : process :=
  {| devices := devices p; doe_offset_in_use := doe_offset_in_use p; m_dev_fp := m_dev_fp p; port_objects :=
     port_objects p; m_spdm_context := c; m_scratch_buffer := m_scratch_buffer p; m_requested_spdm_version :=
     m_requested_spdm_version p |}.
Definition with_scratch_buffer (b : Z) (p : process) : process :=
  {| devices := devices p; doe_offset_in_use := doe_offset_in_use p; m_dev_fp := m_dev_fp p; port_objects :=
     port_objects p; m_spdm_context := m_spdm_context p; m_scratch_buffer := b; m_requested_spdm_version :=
     m_requested_spdm_version p |}.
Definition with_requested_version (v : Z) (p : process) : process :=
  {| devices := devices p; doe_offset_in_use := doe_offset_in_use p; m_dev_fp := m_dev_fp p; port_objects :=
     port_objects p; m_spdm_context := m_spdm_context p; m_scratch_buffer := m_scratch_buffer p;
     m_requested_spdm_version := v |}.

(** The machine inside the pair. *)
#[export] Instance process_bus {D} `{Bus D} : Bus (D * process) := {|
  bus_read r n s := let (v, d) := bus_read r n (fst s) in (v, (d, snd s));
  bus_write r n v s := (bus_write r n v (fst s), snd s)
|}.
#[export] Instance process_clock {D} `{Clock D} : Clock (D * process) := {| sleep_for t s := (sleep_for t (fst s), snd s) |}.

(** ** Fields of a port context *)

Definition MAX_PCI_DOE_CNT : Z := 32.
Definition PCIE_BAR0_OFFSET : Z := 0x10.
Definition PCIE_MEM_BASE_ADDR_MASK : Z := 0x6.
Definition PCIE_MEM_BASE_ADDR_64 : Z := 0x4.
Definition PCIE_MEM_BASE_PREFETCHABLE_MASK : Z := 0x8.
Definition PCIE_DOE_ECAP_VERSION2 : Z := 2.
Definition PCIE_DOE_DISCOVERY_VERSION2 : Z := 2.

(** A context with the fields given by functions of it replaced. *)
Definition update (pc : ide_common_test_port_context_t)
    (fd ecap doe cap kcbar kfd scap id rid1 rid2 aa1 aa2 aa3 : Z) : ide_common_test_port_context_t :=
  {| port := port pc; cfg_space_fd := fd; ecap_offset := ecap; doe_offset := doe; ide_cap := cap;
     mapped_kcbar_addr := kcbar; kcbar_fd := kfd; stream_cap := scap; ide_id := id;
     rid_assoc1 := rid1; rid_assoc2 := rid2; addr_assoc1 := aa1; addr_assoc2 := aa2; addr_assoc3 := aa3 |}.

Definition with_cfg_space_fd (fd : Z) (pc : ide_common_test_port_context_t) :=
  update pc fd (ecap_offset pc) (doe_offset pc) (ide_cap pc) (mapped_kcbar_addr pc) (kcbar_fd pc) (stream_cap pc) (ide_id pc)
    (rid_assoc1 pc) (rid_assoc2 pc) (addr_assoc1 pc) (addr_assoc2 pc) (addr_assoc3 pc).
Definition with_ecap_offset (off : Z) (pc : ide_common_test_port_context_t) :=
  update pc (cfg_space_fd pc) off (doe_offset pc) (ide_cap pc) (mapped_kcbar_addr pc) (kcbar_fd pc) (stream_cap pc) (ide_id pc)
    (rid_assoc1 pc) (rid_assoc2 pc) (addr_assoc1 pc) (addr_assoc2 pc) (addr_assoc3 pc).
Definition with_caps (scap cap : Z) (pc : ide_common_test_port_context_t) :=
  update pc (cfg_space_fd pc) (ecap_offset pc) (doe_offset pc) cap (mapped_kcbar_addr pc) (kcbar_fd pc) scap (ide_id pc)
    (rid_assoc1 pc) (rid_assoc2 pc) (addr_assoc1 pc) (addr_assoc2 pc) (addr_assoc3 pc).
Definition with_doe_offset (off : Z) (pc : ide_common_test_port_context_t) :=
  update pc (cfg_space_fd pc) (ecap_offset pc) off (ide_cap pc) (mapped_kcbar_addr pc) (kcbar_fd pc) (stream_cap pc) (ide_id pc)
    (rid_assoc1 pc) (rid_assoc2 pc) (addr_assoc1 pc) (addr_assoc2 pc) (addr_assoc3 pc).
Definition with_ide_id (id : Z) (pc : ide_common_test_port_context_t) :=
  update pc (cfg_space_fd pc) (ecap_offset pc) (doe_offset pc) (ide_cap pc) (mapped_kcbar_addr pc) (kcbar_fd pc) (stream_cap pc) id
    (rid_assoc1 pc) (rid_assoc2 pc) (addr_assoc1 pc) (addr_assoc2 pc) (addr_assoc3 pc).
Definition with_rid_assoc (rid1 rid2 : Z) (pc : ide_common_test_port_context_t) :=
  update pc (cfg_space_fd pc) (ecap_offset pc) (doe_offset pc) (ide_cap pc) (mapped_kcbar_addr pc) (kcbar_fd pc) (stream_cap pc) (ide_id pc)
    rid1 rid2 (addr_assoc1 pc) (addr_assoc2 pc) (addr_assoc3 pc).
Definition with_addr_assoc (aa1 aa2 aa3 : Z) (pc : ide_common_test_port_context_t) :=
  update pc (cfg_space_fd pc) (ecap_offset pc) (doe_offset pc) (ide_cap pc) (mapped_kcbar_addr pc) (kcbar_fd pc) (stream_cap pc) (ide_id pc)
    (rid_assoc1 pc) (rid_assoc2 pc) aa1 aa2 aa3.

Definition with_port (p : IDE_PORT) (pc : ide_common_test_port_context_t) : ide_common_test_port_context_t :=
  {| port := p; cfg_space_fd := cfg_space_fd pc; ecap_offset := ecap_offset pc; doe_offset := doe_offset pc;
     ide_cap := ide_cap pc; mapped_kcbar_addr := mapped_kcbar_addr pc; kcbar_fd := kcbar_fd pc; stream_cap := stream_cap pc;
     ide_id := ide_id pc; rid_assoc1 := rid_assoc1 pc; rid_assoc2 := rid_assoc2 pc; addr_assoc1 := addr_assoc1 pc;
     addr_assoc2 := addr_assoc2 pc; addr_assoc3 := addr_assoc3 pc |}.

(** [m_rid_assoc_reg_block], [m_addr_assoc_reg_block] *)
Definition m_rid_assoc1 : Z := 0xffff00.
Definition m_rid_assoc2 : Z := 0x1.
Definition m_addr_assoc1 : Z := 0xfff00001.
Definition m_addr_assoc2 : Z := 0xffffffff.
Definition m_addr_assoc3 : Z := 0.

(** The fields of a PCIe test group context that the library uses.  A port
    is the address of an object of the process; a port context carries a copy of
    that object, renewed by the functions that write ports.  A connection is the pair of the
    addresses of its upstream and downstream ports. *)
Record pcie_ide_test_group_context_t := {
  top : IDE_TEST_TOPOLOGY;
  root_addr : Z;
  upper_addr : Z;
  lower_addr : Z;
  root_port : IDE_PORT;
  upper_port : ide_common_test_port_context_t;
  lower_port : ide_common_test_port_context_t;
  sw_conn1 : list (Z * Z);
  sw_conn2 : list (Z * Z);
  spdm_context : Z;                   (* pointer; 0 is NULL *)
  session_id : Z;
  stream_id : Z;
  rp_stream_index : Z;
  k_set : ide_key_set_t
}.

Definition with_upper (pc : ide_common_test_port_context_t) (g : pcie_ide_test_group_context_t) : pcie_ide_test_group_context_t :=
  {| top := top g; root_addr := root_addr g; upper_addr := upper_addr g; lower_addr := lower_addr g; root_port :=
     root_port g; upper_port := pc; lower_port := lower_port g; sw_conn1 := sw_conn1 g; sw_conn2 := sw_conn2 g;
     spdm_context := spdm_context g; session_id := session_id g; stream_id := stream_id g; rp_stream_index :=
     rp_stream_index g; k_set := k_set g |}.
Definition with_lower (pc : ide_common_test_port_context_t) (g : pcie_ide_test_group_context_t) : pcie_ide_test_group_context_t :=
  {| top := top g; root_addr := root_addr g; upper_addr := upper_addr g; lower_addr := lower_addr g; root_port :=
     root_port g; upper_port := upper_port g; lower_port := pc; sw_conn1 := sw_conn1 g; sw_conn2 := sw_conn2 g;
     spdm_context := spdm_context g; session_id := session_id g; stream_id := stream_id g; rp_stream_index :=
     rp_stream_index g; k_set := k_set g |}.
Definition with_root (p : IDE_PORT) (g : pcie_ide_test_group_context_t) : pcie_ide_test_group_context_t :=
  {| top := top g; root_addr := root_addr g; upper_addr := upper_addr g; lower_addr := lower_addr g; root_port := p;
     upper_port := upper_port g; lower_port := lower_port g; sw_conn1 := sw_conn1 g; sw_conn2 := sw_conn2 g;
     spdm_context := spdm_context g; session_id := session_id g; stream_id := stream_id g; rp_stream_index :=
     rp_stream_index g; k_set := k_set g |}.
Definition with_session (ctx session : Z) (g : pcie_ide_test_group_context_t) : pcie_ide_test_group_context_t :=
  {| top := top g; root_addr := root_addr g; upper_addr := upper_addr g; lower_addr := lower_addr g; root_port :=
     root_port g; upper_port := upper_port g; lower_port := lower_port g; sw_conn1 := sw_conn1 g; sw_conn2 := sw_conn2
     g; spdm_context := ctx; session_id := session; stream_id := stream_id g; rp_stream_index := rp_stream_index g;
     k_set := k_set g |}.
Definition with_stream (sid rp_index : Z) (ks : ide_key_set_t) (g : pcie_ide_test_group_context_t) : pcie_ide_test_group_context_t :=
  {| top := top g; root_addr := root_addr g; upper_addr := upper_addr g; lower_addr := lower_addr g; root_port :=
     root_port g; upper_port := upper_port g; lower_port := lower_port g; sw_conn1 := sw_conn1 g; sw_conn2 := sw_conn2
     g; spdm_context := spdm_context g; session_id := session_id g; stream_id := sid; rp_stream_index := rp_index; k_set
     := ks |}.

Section ports.
Context {D : Type} `{Bus D} `{Clock D} `{Os D} `{Libspdm} `{DoeDiscovery (D * process)}.

#[local] Abbreviation State := (D * process)%type.

Definition open_file (bdf : bytes) : io State Z := λ s, let (fd, d) := os_open bdf (fst s) in Ok (fd, (d, snd s)).
Definition file_size (fd : Z) : io State Z := λ s, let (n, d) := os_size fd (fst s) in Ok (n, (d, snd s)).
Definition close (fd : Z) : io State unit := λ s, Ok (tt, (os_close fd (fst s), snd s)).
Definition get_process : io State process := λ s, Ok (snd s, s).
Definition set_process (f : process → process) : io State unit := λ s, Ok (tt, (fst s, f (snd s))).

(** The device table; its functions' results are not used. *)
Definition set_device (fd : Z) (name : bytes) : io State unit :=
  let+ p := get_process in
  let+ (_, l) := lift (set_deivce_info fd (Some name) (devices p)) in
  set_process (with_devices l).
Definition unset_device (fd : Z) : io State unit :=
  let+ p := get_process in
  let+ (_, l) := lift (unset_device_info fd (devices p)) in
  set_process (with_devices l).

Definition open_configuration_space (bdf : bytes) : io State Z :=
  let+ fd := open_file bdf in
  if fd =? -1 then ret (-1) else
  let+ size := file_size fd in
  if 0x1000 <? u32 size then let+ _ := close fd in ret (-1) else ret fd.

(** [close(fd); unset_device_info(fd); return false;] *)
Definition fail_port (fd : Z) : io State unit := let+ _ := close fd in unset_device fd.

(** ** Opening *)

(** [parse_keyp_table] on this machine *)
Definition keyp_of_machine (pc : ide_common_test_port_context_t) (keyp_protocol : Z)
    : io State (bool * ide_common_test_port_context_t) :=
  λ s, lift (parse_keyp_table (os_keyp (fst s)) (os_map (fst s)) pc keyp_protocol) s.

Definition open_root_port (pc : ide_common_test_port_context_t) : io State (bool * ide_common_test_port_context_t) :=
  let+ _ := io_assert (port_type (port pc) =? IDE_PORT_TYPE_ROOTPORT) in
  let+ fd := open_configuration_space (port_bdf (port pc)) in
  if fd =? -1 then ret (false, pc) else
  let pc := with_cfg_space_fd fd pc in
  let+ _ := set_device fd (bs "host : " ++ port_bdf (port pc)) in
  let+ ecap := get_extended_cap_offset fd PCI_IDE_EXT_CAPABILITY_ID in
  if ecap =? 0 then let+ _ := fail_port fd in ret (false, pc) else
  let pc := with_ecap_offset ecap pc in
  let+ (ok, pc) := keyp_of_machine pc INTEL_KEYP_PROTOCOL_TYPE_PCIE_CXLIO in
  if negb ok then let+ _ := fail_port fd in ret (false, pc) else
  let+ scap := mmio_read_reg32 (mapped_kcbar_addr pc) in
  let+ cap := device_pci_read_32 (u32 (ecap + 4)) fd in
  ret (true, with_caps scap cap pc).

(** One DOE instance after the other; [doe_discovery_version] is not reset
    between them.  Programs link their own versions of what is called here. *)
Definition try_doe_with (trigger_doe_abort : Z → Z → io State unit) (libspdm_sleep : Z → io State unit)
    (is_doe_error_asserted : Z → Z → io State bool) (pcie_doe_init_request : Z → Z → Z → io State bool)
    (fd offset doe_discovery_version : Z) : io State (Z + unit) :=
  let+ _ := set_process (with_doe_in_use offset) in
  let+ ecap_id := device_pci_read_32 offset fd in
  let doe_discovery_version :=
    if PCIE_DOE_ECAP_VERSION2 <=? cap_version ecap_id then PCIE_DOE_DISCOVERY_VERSION2 else doe_discovery_version in
  let+ p := get_process in
  let+ _ := trigger_doe_abort (m_dev_fp p) offset in
  let+ _ := libspdm_sleep (1000 * 1000) in
  let+ err := is_doe_error_asserted (m_dev_fp p) offset in
  if err : bool then ret (inl doe_discovery_version) else
  let+ ok := pcie_doe_init_request (m_dev_fp p) offset doe_discovery_version in
  ret (if ok : bool then inr tt else inl doe_discovery_version).

Definition try_doe : Z → Z → Z → io State (Z + unit) :=
  try_doe_with trigger_doe_abort libspdm_sleep is_doe_error_asserted pcie_doe_init_request.

Definition init_pci_doe_with (try_doe : Z → Z → Z → io State (Z + unit)) (fd : Z) : io State bool :=
  let+ (found, doe_extended_offsets, doe_cnt) :=
    get_doe_extended_cap_offset fd (Some (replicate (Z.to_nat MAX_PCI_DOE_CNT) 0)) MAX_PCI_DOE_CNT in
  if negb found then ret false else
  let+ offsets := lift (deref doe_extended_offsets) in
  let+ r := io_for (λ i version, let+ off := lift (array_get offsets i) in try_doe fd off version) (range 0 doe_cnt) 0 in
  match r with inr _ => ret true | inl _ => ret false end.

Definition init_pci_doe : Z → io State bool := init_pci_doe_with try_doe.

Definition open_dev_port_with (init_pci_doe : Z → io State bool) (pc : ide_common_test_port_context_t)
    : io State (bool * ide_common_test_port_context_t) :=
  let+ _ := io_assert (port_type (port pc) =? IDE_PORT_TYPE_ENDPOINT) in
  let+ fd := open_configuration_space (port_bdf (port pc)) in
  if fd =? -1 then ret (false, pc) else
  let pc := with_cfg_space_fd fd pc in
  let+ _ := set_device fd (bs "dev : " ++ port_bdf (port pc)) in
  let+ ecap := get_extended_cap_offset fd PCI_IDE_EXT_CAPABILITY_ID in
  if ecap =? 0 then let+ _ := fail_port fd in ret (false, pc) else
  let pc := with_ecap_offset ecap pc in
  let+ _ := set_process (with_dev_fp fd) in
  let+ ok := init_pci_doe fd in
  if negb ok then let+ _ := fail_port fd in ret (false, pc) else
  let+ p := get_process in
  let pc := with_doe_offset (doe_offset_in_use p) pc in
  let+ cap := device_pci_read_32 (u32 (ecap + 4)) fd in
  ret (true, with_caps (stream_cap pc) cap pc).

Definition open_dev_port : ide_common_test_port_context_t → io State (bool * ide_common_test_port_context_t) :=
  open_dev_port_with init_pci_doe.

(** ** Address association *)

Definition check_use_prefetchable (bdf : bytes) : io State bool :=
  let+ fd := open_configuration_space bdf in
  if fd =? -1 then let+ _ := io_assert false in ret false else
  let+ bar0 := device_pci_read_32 PCIE_BAR0_OFFSET fd in
  let use_prefetchable :=
    (Z.land bar0 PCIE_MEM_BASE_ADDR_MASK =? PCIE_MEM_BASE_ADDR_64) &&
    negb (Z.land bar0 PCIE_MEM_BASE_PREFETCHABLE_MASK =? 0) in
  let+ _ := close fd in
  ret use_prefetchable.

(** Returns the three registers. *)
Definition populate_addr_assoc_reg_block (bdf : bytes) (use_prefetch_memory : bool) : io State (bool * (Z * Z * Z)) :=
  let+ fd := open_configuration_space bdf in
  if fd =? -1 then let+ _ := io_assert false in ret (false, (0, 0, 0)) else
  let mem_base_offset := if use_prefetch_memory then PREFETCH_MEMORY_BASE_OFFSET else MEMORY_BASE_OFFSET in
  let+ data32 := device_pci_read_32 mem_base_offset fd in
  let memory_base := Z.shiftr (u16 (Z.land data32 0x0000fff0)) 4 in
  let memory_limit := u16 (Z.shiftr (Z.land data32 0xfff00000) 20) in
  let aa1 := addr_assoc1_of memory_base memory_limit 1 in
  let+ (aa2, aa3) :=
    (if use_prefetch_memory then
       let+ limit := device_pci_read_32 PREFETCH_MEMORY_LIMIT_UPPER_OFFSET fd in
       let+ base := device_pci_read_32 PREFETCH_MEMORY_BASE_UPPER_OFFSET fd in
       ret (limit, base)
     else ret (0, 0)) in
  let+ _ := close fd in
  ret (true, (aa1, aa2, aa3)).

(** [itr->dps.port->bdf] of the last connection *)
Definition last_dps_bdf (conns : list (Z * Z)) : io State bytes :=
  let+ c := lift (deref (last conns)) in
  let+ p := get_process in
  let+ port := lift (deref (port_objects p !! snd c)) in
  ret (port_bdf port).

(** ** Initialisation *)

(** The segment for the association registers of the upper port; in flit
    mode it may also go into those of the lower port. *)
Definition root_port_segment (pc lower : ide_common_test_port_context_t) : io State (Z * ide_common_test_port_context_t) :=
  let+ flit := pcie_check_flit_mode_enabled pc in
  if negb flit then ret (0, lower) else
  let+ captured := pcie_check_segment_captured pc in
  if negb captured then ret (0, lower) else
  let segment := port_segment (port pc) in
  let+ lower_flit := pcie_check_flit_mode_enabled lower in
  let+ lower_ok := (if lower_flit : bool then pcie_check_segment_captured lower else ret false) in
  ret (segment, if lower_ok : bool then lower
                else with_rid_assoc (rid_assoc1 lower) (set_bits 24 8 (u8 segment) (rid_assoc2 lower)) lower).

Definition init_root_port (g : pcie_ide_test_group_context_t) : io State (bool * pcie_ide_test_group_context_t) :=
  let pc := upper_port g in
  let+ _ := io_assert (port_type (port pc) =? IDE_PORT_TYPE_ROOTPORT) in
  let+ _ := io_assert (port_id (port pc) =? port_id (root_port g)) in
  let+ (ok, pc) := open_root_port pc in
  let g := with_upper pc g in
  if negb ok then ret (false, g) else
  let+ used := check_stream_id_used_in_rootport (top_stream_id (top g)) pc in
  if used : bool then let+ _ := fail_port (cfg_space_fd pc) in ret (false, g) else
  let g := with_stream (top_stream_id (top g)) (rp_stream_index g) (k_set g) g in
  let+ (found, rp_index, id) := find_free_rp_stream_index_and_ide_id pc (Some 0) 0 (top_type (top g)) true in
  if negb found then let+ _ := fail_port (cfg_space_fd pc) in ret (false, g) else
  let+ rp_index := lift (deref rp_index) in
  let g := with_stream (stream_id g) rp_index (k_set g) g in
  let pc := with_ide_id id pc in
  let+ (segment, lower) := root_port_segment pc (lower_port g) in
  let g := with_lower lower g in
  let '(rid1, rid2) := populate_rid_assoc_reg_block segment (port_bus (port lower)) (port_device (port lower))
                         (port_function (port lower)) in
  let pc := with_rid_assoc rid1 rid2 pc in
  let g := with_upper pc g in
  let+ dev_bdf :=
    (if top_connection (top g) =? IDE_TEST_CONNECT_SWITCH then last_dps_bdf (sw_conn1 g)
     else if top_connection (top g) =? IDE_TEST_CONNECT_P2P then last_dps_bdf (sw_conn2 g)
     else ret (port_bdf (port pc))) in
  let+ use_prefetch_memory := check_use_prefetchable dev_bdf in
  let+ (ok, (aa1, aa2, aa3)) := populate_addr_assoc_reg_block dev_bdf use_prefetch_memory in
  if negb ok then let+ _ := fail_port (cfg_space_fd pc) in ret (false, g) else
  let pc := with_addr_assoc aa1 aa2 aa3 pc in
  let g := with_upper pc g in
  let+ (ok, ks) := pcie_ide_alloc_slot_ids pc (rp_stream_index g) (k_set g) in
  if negb ok then let+ _ := fail_port (cfg_space_fd pc) in ret (false, g) else
  ret (true, with_stream (stream_id g) (rp_stream_index g) ks g).

Definition init_dev_port (g : pcie_ide_test_group_context_t) : io State (bool * pcie_ide_test_group_context_t) :=
  let+ (ok, pc) := open_dev_port (lower_port g) in
  if negb ok then ret (false, with_lower pc g) else
  let+ (found, _, id) := find_free_rp_stream_index_and_ide_id pc None 0 (top_type (top g)) false in
  if negb found then let+ _ := fail_port (cfg_space_fd pc) in ret (false, with_lower pc g) else
  let pc := with_addr_assoc m_addr_assoc1 m_addr_assoc2 m_addr_assoc3 (with_rid_assoc m_rid_assoc1 m_rid_assoc2 (with_ide_id id pc)) in
  let+ flit := pcie_check_flit_mode_enabled pc in
  let+ captured := (if flit : bool then pcie_check_segment_captured pc else ret false) in
  let segment := if captured : bool then port_segment (port pc) else 0 in
  ret (true, with_lower (with_rid_assoc (rid_assoc1 pc) (set_bits 24 8 (u8 segment) (rid_assoc2 pc)) pc) g).

(** ** Closing *)

(** Only the first two address association registers are cleared in the
    context. *)
Definition cleared_assoc (pc : ide_common_test_port_context_t) : ide_common_test_port_context_t :=
  with_addr_assoc 0 0 (addr_assoc3 pc) (with_rid_assoc 0 0 pc).

Definition unmap_kcbar_addr (kcbar_mem_fd mapped_kcbar_addr : Z) : io State bool :=
  if (0 <? kcbar_mem_fd) && negb (mapped_kcbar_addr =? 0) then
    λ s, Ok (true, (os_close kcbar_mem_fd (os_unmap kcbar_mem_fd mapped_kcbar_addr (fst s)), snd s))
  else ret false.

Definition close_root_port (g : pcie_ide_test_group_context_t) : io State (bool * pcie_ide_test_group_context_t) :=
  let pc := cleared_assoc (upper_port g) in
  let+ _ := reset_ide_registers pc (top_type (top g)) 0 (rp_stream_index g) true in
  let+ _ := (if 0 <? kcbar_fd pc then let+ _ := unmap_kcbar_addr (kcbar_fd pc) (mapped_kcbar_addr pc) in ret tt
             else ret tt) in
  let pc := with_kcbar pc 0 0 in
  let+ _ := (if 0 <? cfg_space_fd pc then fail_port (cfg_space_fd pc) else ret tt) in
  ret (true, with_upper (with_cfg_space_fd 0 pc) g).

Definition close_dev_port (pc : ide_common_test_port_context_t) (top_type : Z) : io State (bool * ide_common_test_port_context_t) :=
  let pc := cleared_assoc pc in
  let+ _ := reset_ide_registers pc top_type 0 0 false in
  let+ _ := (if 0 <? cfg_space_fd pc then fail_port (cfg_space_fd pc) else ret tt) in
  let+ _ := set_process (λ p, with_doe_in_use 0 (with_dev_fp 0 p)) in
  ret (true, with_cfg_space_fd 0 pc).

(** ** Scanning (scan_pcie.c)

    Ports are reached by their addresses.  The numbers of the secondary and
    the subordinate bus are results of the scan of a bridge. *)
Definition get_port (addr : Z) : io State IDE_PORT :=
  let+ p := get_process in lift (deref (port_objects p !! addr)).
Definition set_port (addr : Z) (port : IDE_PORT) : io State unit :=
  set_process (λ p, with_port_objects (<[addr := port]> (port_objects p)) p).

Definition with_location (segment bus : Z) (bdf : bytes) (p : IDE_PORT) : IDE_PORT :=
  {| port_id := port_id p; port_enabled := port_enabled p; port_type := port_type p; port_name := port_name p;
     port_bdf := bdf; port_segment := segment; port_bus := bus; port_device := port_device p;
     port_function := port_function p; port_index := port_index p |}.

(** The "%04x:%02x:%02x.%x" of the port; it fits since no field has more digits. *)
Definition locate_port (addr segment bus : Z) : io State IDE_PORT :=
  let+ p := get_port addr in
  let p := with_location segment bus (print_bdf segment bus (port_device p) (Z.land (port_function p) 0xf)) p in
  let+ _ := set_port addr p in
  ret p.

Definition PCI_HEADER_TYPE0 : Z := 0.
Definition PCI_HEADER_TYPE1 : Z := 1.
Definition PCI_HEADER_LAYOUT_MASK : Z := 0x7f.
Definition data_byte (i data32 : Z) : Z := get_bits (8 * i) 8 data32.

(** The checks of a bridge; [Some] of the bus numbers when they pass. *)
Definition read_bridge (fd bus : Z) : io State (option (Z * Z)) :=
  let+ data32 := device_pci_read_32 0x0c fd in
  if negb (Z.land (data_byte 2 data32) PCI_HEADER_LAYOUT_MASK =? PCI_HEADER_TYPE1) then ret None else
  let+ data32 := device_pci_read_32 0x08 fd in
  if negb (data_byte 3 data32 =? 0x06) && negb (data_byte 2 data32 =? 0x04) then ret None else
  let+ data32 := device_pci_read_32 0x18 fd in
  if negb (data_byte 0 data32 =? bus) then ret None else
  let+ _ := io_assert (data_byte 1 data32 <=? data_byte 2 data32) in
  ret (Some (data_byte 1 data32, data_byte 2 data32)).

Definition close_if_open (fd : Z) : io State unit := if 0 <? fd then close fd else ret tt.

Definition scan_rp_switch_internal_port_at_bus (addr segment bus : Z) : io State (option (Z * Z)) :=
  let+ p := locate_port addr segment bus in
  let+ fd := open_configuration_space (port_bdf p) in
  if fd =? -1 then ret None else
  let+ buses := read_bridge fd bus in
  let+ _ := close_if_open fd in
  ret buses.

Definition scan_switch_internal_conn_at_bus (segment bus ups_port dps_port : Z) : io State (option (Z * Z)) :=
  let+ buses := scan_rp_switch_internal_port_at_bus ups_port segment bus in
  match buses with
  | None => ret None
  | Some (SecBus, _) => scan_rp_switch_internal_port_at_bus dps_port segment SecBus
  end.

Definition scan_endpoint_at_bus (segment bus addr : Z) : io State bool :=
  let+ p := locate_port addr segment bus in
  let+ fd := open_configuration_space (port_bdf p) in
  let+ res :=
    (if fd =? -1 then ret false else
     let+ data32 := device_pci_read_32 0x0c fd in
     ret (Z.land (data_byte 2 data32) PCI_HEADER_LAYOUT_MASK =? PCI_HEADER_TYPE0)) in
  let+ _ := close_if_open fd in
  let+ _ := io_assert res in
  ret res.

(** The chain of switches: the secondary bus behind the last one. *)
Fixpoint scan_conns (segment bus : Z) (conn : list (Z * Z)) : io State (option Z) :=
  match conn with
  | [] => ret (Some bus)
  | (ups, dps) :: conn =>
      let+ buses := scan_switch_internal_conn_at_bus segment bus ups dps in
      match buses with
      | None => ret None
      | Some (SecBus, _) => scan_conns segment SecBus conn
      end
  end.

Definition scan_devices_at_bus (rp ep : Z) (conn : list (Z * Z)) (segment bus : Z) : io State bool :=
  let+ buses := scan_rp_switch_internal_port_at_bus rp segment bus in
  match buses with
  | None => ret false
  | Some (SecBus, _) =>
      let+ bus := scan_conns segment SecBus conn in
      match bus with
      | None => ret false
      | Some bus => scan_endpoint_at_bus segment bus ep
      end
  end.
End ports.
End Ports.
