(* ===== verification/PortsSpec.v ===== *)
(** * Scanning specified

    The scan against a fabric of configuration spaces. *)
From Stdlib Require Import ZArith Lia Ascii String.
From stdpp Require Import prelude gmap.
From S2P Require Import Prelude Utils Libspdm TestConfig Hardware PcieIde PcieIdeSpec Kcbar KcbarSpec Doe DoeSpec Ports.

Open Scope Z_scope.
Open Scope teeio_scope.

Module PortsSpec.
Import TestConfig Hardware PcieIde PcieIdeSpec Kcbar KcbarSpec Doe DoeSpec Ports Utils.PcieHelper.

(** ** The scan

    A fabric: which functions there are, and what their configuration
    spaces hold. *)
Section scan_spec.
Context (present : bytes → bool) (config : bytes → Z → Z).

Definition located (segment bus : Z) (p : IDE_PORT) : IDE_PORT :=
  with_location segment bus (print_bdf segment bus (port_device p) (Z.land (port_function p) 0xf)) p.

Definition place (addr segment bus : Z) (m : gmap Z IDE_PORT) : res (bytes * gmap Z IDE_PORT) :=
  let* p := deref (m !! addr) in
  Ok (port_bdf (located segment bus p), <[addr := located segment bus p]> m).

(** What the header of a bridge on a bus says: secondary and subordinate
    bus. *)
Definition bridge_of (space : Z → Z) (bus : Z) : res (option (Z * Z)) :=
  if negb (Z.land (data_byte 2 (space 0x0c)) PCI_HEADER_LAYOUT_MASK =? 1) then Ok None
  else if negb (data_byte 3 (space 0x08) =? 0x06) && negb (data_byte 2 (space 0x08) =? 0x04) then Ok None
  else if negb (data_byte 0 (space 0x18) =? bus) then Ok None
  else let* _ := TEEIO_ASSERT (data_byte 1 (space 0x18) <=? data_byte 2 (space 0x18)) in
       Ok (Some (data_byte 1 (space 0x18), data_byte 2 (space 0x18))).

Definition bridge_at (addr segment bus : Z) (m : gmap Z IDE_PORT) : res (option (Z * Z) * gmap Z IDE_PORT) :=
  let* (bdf, m) := place addr segment bus m in
  if present bdf then let* b := bridge_of (config bdf) bus in Ok (b, m) else Ok (None, m).

Definition switch_at (segment bus ups dps : Z) (m : gmap Z IDE_PORT) : res (option (Z * Z) * gmap Z IDE_PORT) :=
  let* (b, m) := bridge_at ups segment bus m in
  match b with None => Ok (None, m) | Some (sec, _) => bridge_at dps segment sec m end.

Fixpoint switches_at (segment bus : Z) (conn : list (Z * Z)) (m : gmap Z IDE_PORT) : res (option Z * gmap Z IDE_PORT) :=
  match conn with
  | [] => Ok (Some bus, m)
  | (ups, dps) :: conn =>
      let* (b, m) := switch_at segment bus ups dps m in
      match b with None => Ok (None, m) | Some (sec, _) => switches_at segment sec conn m end
  end.

(** An endpoint must be there and have a header of type 0. *)
Definition endpoint_at (segment bus addr : Z) (m : gmap Z IDE_PORT) : res (bool * gmap Z IDE_PORT) :=
  let* (bdf, m) := place addr segment bus m in
  let* _ := TEEIO_ASSERT (present bdf && (Z.land (data_byte 2 (config bdf 0x0c)) PCI_HEADER_LAYOUT_MASK =? 0)) in
  Ok (true, m).

Definition path_scan (rp ep : Z) (conn : list (Z * Z)) (segment bus : Z) (m : gmap Z IDE_PORT) : res (bool * gmap Z IDE_PORT) :=
  let* (b, m) := bridge_at rp segment bus m in
  match b with
  | None => Ok (false, m)
  | Some (sec, _) =>
      let* (bus, m) := switches_at segment sec conn m in
      match bus with None => Ok (false, m) | Some bus => endpoint_at segment bus ep m end
  end.
End scan_spec.

Section scan.
Context {D : Type} `{Bus D} `{Clock D} `{Os D}.
Context (present : bytes → bool) (config : bytes → Z → Z).

(** The operating system gives access to the fabric: a function that is
    present can be opened, its space has a valid size and is what is read, and
    closing it undoes the opening. *)
Definition fabric : Prop :=
  ∀ bdf d, ∃ fd d', os_open bdf d = (fd, d') ∧
    if present bdf then
      0 < fd ∧ (∃ n, os_size fd d' = (n, d') ∧ 0 ≤ n ≤ 0x1000) ∧
      (∀ off, 0 ≤ off < 0x1000 → reads d' (Cfg fd off) 4 (config bdf off)) ∧ os_close fd d' = d
    else fd = -1 ∧ d' = d.

Context (Hfabric : fabric).

(** A computation that only changes port objects, and how. *)
Definition computes {A} (m : io (D * process) A) (f : gmap Z IDE_PORT → res (A * gmap Z IDE_PORT)) : Prop :=
  ∀ d p, m (d, p) =
    match f (port_objects p) with
    | Ok (a, objects) => Ok (a, (d, with_port_objects objects p))
    | Stop e => Stop e
    end.

Lemma computes_bind {A B} m f (k : A → io (D * process) B) g :
  computes m f → (∀ a, computes (k a) (g a)) →
  computes (bind m k) (λ o, let* (a, o) := f o in g a o).
Proof.
  intros Hm Hk d p. unfold bind. rewrite Hm. destruct (f (port_objects p)) as [[a o]|e]; [|done]. cbn [res_bind].
  rewrite Hk. change (port_objects (with_port_objects o p)) with o. by destruct (g a o) as [[b o']|e].
Qed.

Lemma computes_ret {A} (a : A) : computes (ret a) (λ o, Ok (a, o)).
Proof. by intros d []. Qed.

Lemma computes_ext {A} (m : io (D * process) A) f g : (∀ o, f o = g o) → computes m f → computes m g.
Proof. intros E Hm d p. by rewrite Hm, E. Qed.

Lemma locate_computes {B} addr segment bus (k : IDE_PORT → io (D * process) B) g :
  (∀ p, computes (k (located segment bus p)) (g (port_bdf (located segment bus p)))) →
  computes (bind (locate_port addr segment bus) k) (λ o, let* (bdf, o) := place addr segment bus o in g bdf o).
Proof.
  intros Hk d p. unfold locate_port, place. rewrite bind_assoc.
  assert (E : get_port addr (d, p) = match deref (port_objects p !! addr) with Ok q => Ok (q, (d, p)) | Stop e => Stop e end)
    by (unfold get_port, get_process, bind, lift; cbn [res_bind snd]; by destruct (port_objects p !! addr)).
  destruct (deref (port_objects p !! addr)) as [q|e]; cbn [res_bind]; [|by rewrite (bind_Stop _ _ _ _ E)].
  rewrite (bind_Ok _ _ _ _ _ E), bind_assoc. fold (located segment bus q).
  rewrite (bind_Ok _ _ _ tt (d, with_port_objects (<[addr := located segment bus q]> (port_objects p)) p)) by done.
  rewrite bind_ret, Hk. change (port_objects (with_port_objects ?o p)) with o. by destruct (g _ _) as [[b o]|e].
Qed.

Lemma read_space {A} (k : Z → io (D * process) A) off fd d p w :
  0 < fd → reads d (Cfg fd off) 4 w → bind (device_pci_read_32 off fd) k (d, p) = k w (d, p).
Proof. intros Hfd [E Hw]. apply bind_read32; [done|]. split; [|done]. cbn [bus_read process_bus fst snd]. by rewrite E. Qed.

Lemma read_bridge_spec bdf fd bus d p :
  0 < fd → (∀ off, 0 ≤ off < 0x1000 → reads d (Cfg fd off) 4 (config bdf off)) →
  read_bridge fd bus (d, p) = match bridge_of (config bdf) bus with Ok a => Ok (a, (d, p)) | Stop e => Stop e end.
Proof.
  intros Hfd Hr. unfold read_bridge, bridge_of.
  rewrite (read_space _ _ _ _ _ _ Hfd (Hr 0x0c ltac:(lia))). change PCI_HEADER_TYPE1 with 1.
  destruct (negb _); [done|]. rewrite (read_space _ _ _ _ _ _ Hfd (Hr 0x08 ltac:(lia))).
  destruct (negb _ && negb _); [done|]. rewrite (read_space _ _ _ _ _ _ Hfd (Hr 0x18 ltac:(lia))).
  destruct (negb _); [done|]. rewrite bind_assert. by destruct (data_byte 1 _ <=? data_byte 2 _).
Qed.

Lemma open_present bdf d p :
  present bdf = true →
  ∃ fd d', 0 < fd ∧ open_configuration_space bdf (d, p) = Ok (fd, (d', p)) ∧
           (∀ off, 0 ≤ off < 0x1000 → reads d' (Cfg fd off) 4 (config bdf off)) ∧
           close fd (d', p) = Ok (tt, (d, p)).
Proof.
  intros Hp. destruct (Hfabric bdf d) as (fd & d' & E & Hd). rewrite Hp in Hd.
  destruct Hd as (Hfd & (n & Hn & Hn0) & Hr & Hc). exists fd, d'. split_and!; [done| |done|].
  - unfold open_configuration_space, open_file, bind. cbn [fst snd]. rewrite E. cbn [res_bind].
    rewrite (proj2 (Z.eqb_neq _ _)) by lia. unfold file_size. cbn [fst snd]. rewrite Hn. cbn [res_bind].
    unfold u32. by rewrite Z.mod_small, (proj2 (Z.ltb_ge _ _)) by lia.
  - unfold close. cbn [fst snd]. by rewrite Hc.
Qed.

Lemma open_absent bdf d p : present bdf = false → open_configuration_space bdf (d, p) = Ok (-1, (d, p)).
Proof.
  intros Hp. destruct (Hfabric bdf d) as (fd & d' & E & Hd). rewrite Hp in Hd. destruct Hd as [-> ->].
  unfold open_configuration_space, open_file, bind. cbn [fst snd]. by rewrite E.
Qed.

Lemma scan_bridge_spec addr segment bus :
  computes (scan_rp_switch_internal_port_at_bus addr segment bus) (bridge_at present config addr segment bus).
Proof.
  apply locate_computes with (g := λ bdf o, if present bdf then let* b := bridge_of (config bdf) bus in Ok (b, o) else Ok (None, o)).
  intros q d p. set (bdf := port_bdf (located segment bus q)).
  assert (Hp : p = with_port_objects (port_objects p) p) by by destruct p.
  destruct (present bdf) eqn:E.
  - destruct (open_present bdf d p E) as (fd & d' & Hfd & Ho & Hr & Hc).
    rewrite (bind_Ok _ _ _ _ _ Ho), (proj2 (Z.eqb_neq _ _)) by lia.
    pose proof (read_bridge_spec bdf fd bus d' p Hfd Hr) as Eb.
    destruct (bridge_of (config bdf) bus) as [b|e]; cbn [res_bind].
    + rewrite (bind_Ok _ _ _ _ _ Eb). unfold close_if_open. rewrite (proj2 (Z.ltb_lt _ _)) by done.
      rewrite (bind_Ok _ _ _ _ _ Hc). unfold ret. by rewrite <- Hp.
    + by rewrite (bind_Stop _ _ _ _ Eb).
  - rewrite (bind_Ok _ _ _ _ _ (open_absent bdf d p E)). cbn [Z.eqb Pos.eqb]. unfold ret. by rewrite <- Hp.
Qed.

Lemma scan_switch_spec segment bus ups dps :
  computes (scan_switch_internal_conn_at_bus segment bus ups dps) (switch_at present config segment bus ups dps).
Proof.
  apply computes_bind with (g := λ b o, match b with None => Ok (None, o) | Some (sec, _) => bridge_at present config dps segment sec o end);
    [apply scan_bridge_spec|].
  intros [[sec sub]|]; [apply scan_bridge_spec|apply computes_ret].
Qed.

Lemma scan_conns_spec segment bus conn : computes (scan_conns segment bus conn) (switches_at present config segment bus conn).
Proof.
  revert bus. induction conn as [|[ups dps] conn IH]; intros bus; [apply computes_ret|].
  apply computes_bind with (g := λ b o, match b with None => Ok (None, o) | Some (sec, _) => switches_at present config segment sec conn o end);
    [apply scan_switch_spec|].
  intros [[sec sub]|]; [apply IH|apply computes_ret].
Qed.

Lemma scan_endpoint_spec segment bus addr :
  computes (scan_endpoint_at_bus segment bus addr) (endpoint_at present config segment bus addr).
Proof.
  apply locate_computes with (g := λ bdf o,
    let* _ := TEEIO_ASSERT (present bdf && (Z.land (data_byte 2 (config bdf 0x0c)) PCI_HEADER_LAYOUT_MASK =? 0)) in Ok (true, o)).
  intros q d p. set (bdf := port_bdf (located segment bus q)).
  assert (Hp : p = with_port_objects (port_objects p) p) by by destruct p.
  destruct (present bdf) eqn:E.
  - destruct (open_present bdf d p E) as (fd & d' & Hfd & Ho & Hr & Hc).
    rewrite (bind_Ok _ _ _ _ _ Ho), (proj2 (Z.eqb_neq _ _)), bind_assoc by lia.
    rewrite (read_space _ _ _ _ _ _ Hfd (Hr 0x0c ltac:(lia))), bind_ret. cbn [andb]. change PCI_HEADER_TYPE0 with 0.
    unfold close_if_open. rewrite (proj2 (Z.ltb_lt _ _)) by done. rewrite (bind_Ok _ _ _ _ _ Hc), bind_assert.
    destruct (_ =? 0); cbn [TEEIO_ASSERT res_bind]; [|done]. unfold ret. by rewrite <- Hp.
  - rewrite (bind_Ok _ _ _ _ _ (open_absent bdf d p E)). done.
Qed.

Lemma scan_path_spec rp ep conn segment bus :
  computes (scan_devices_at_bus rp ep conn segment bus) (path_scan present config rp ep conn segment bus).
Proof.
  apply computes_bind with (g := λ b o, match b with
    | None => Ok (false, o)
    | Some (sec, _) => let* (bus, o) := switches_at present config segment sec conn o in
        match bus with None => Ok (false, o) | Some bus => endpoint_at present config segment bus ep o end end);
    [apply scan_bridge_spec|].
  intros [[sec sub]|]; [|apply computes_ret].
  apply computes_bind with (g := λ bus o, match bus with None => Ok (false, o) | Some bus => endpoint_at present config segment bus ep o end);
    [apply scan_conns_spec|].
  intros [b|]; [apply scan_endpoint_spec|apply computes_ret].
Qed.

(** *** What a successful scan leaves in the ports *)

(** A port with the address of a function that is there. *)
Definition found_at (segment : Z) (m : gmap Z IDE_PORT) (addr : Z) : Prop :=
  ∃ q, m !! addr = Some q ∧ port_segment q = segment ∧ present (port_bdf q) = true ∧
       port_bdf q = print_bdf segment (port_bus q) (port_device q) (Z.land (port_function q) 0xf).

Lemma place_found addr segment bus m bdf m' :
  place addr segment bus m = Ok (bdf, m') → present bdf = true →
  found_at segment m' addr ∧ ∀ a, found_at segment m a → found_at segment m' a.
Proof.
  unfold place. destruct (m !! addr) as [q|]; [|done]. intros [= <- <-] Hp.
  assert (Hf : found_at segment (<[addr:=located segment bus q]> m) addr)
    by (exists (located segment bus q); by rewrite lookup_insert_eq).
  split; [done|]. intros a (r & Ha & Hr). destruct (decide (addr = a)) as [<-|Hne]; [done|].
  exists r. by rewrite lookup_insert_ne.
Qed.

Lemma bridge_found addr segment bus m b m' :
  bridge_at present config addr segment bus m = Ok (Some b, m') →
  found_at segment m' addr ∧ ∀ a, found_at segment m a → found_at segment m' a.
Proof.
  unfold bridge_at. destruct (place addr segment bus m) as [[bdf o]|e] eqn:E; [|done]. cbn [res_bind].
  destruct (present bdf) eqn:Ep; [|done]. destruct (bridge_of _ _) as [b'|e]; [|done]. cbn [res_bind].
  intros [= -> ->]. by eapply place_found.
Qed.

Lemma switches_found segment bus conn m bus' m' :
  switches_at present config segment bus conn m = Ok (Some bus', m') →
  (∀ c, c ∈ conn → found_at segment m' c.1 ∧ found_at segment m' c.2) ∧
  ∀ a, found_at segment m a → found_at segment m' a.
Proof.
  revert bus m. induction conn as [|[ups dps] conn IH]; intros bus m; cbn [switches_at].
  { intros [= -> ->]. split; [by intros c Hc%elem_of_nil|done]. }
  unfold switch_at. destruct (bridge_at _ _ ups _ _ m) as [[[[s1 s2]|] m1]|e] eqn:E1; cbn [res_bind]; try done.
  destruct (bridge_at _ _ dps _ _ m1) as [[[[s3 s4]|] m2]|e] eqn:E2; cbn [res_bind]; try done.
  apply bridge_found in E1 as [F1 K1]. apply bridge_found in E2 as [F2 K2]. intros E. apply IH in E as [F K].
  split; [|auto]. intros c [->|Hc]%elem_of_cons; [cbn [fst snd]; auto|auto].
Qed.

(** C30: Scanning a topology computes, from the configuration spaces of the
    fabric alone, the path from the root port over the switches to the endpoint: each
    bridge must be on the secondary bus of the one before it, and gives the
    next bus.  The machine is left as it was, with every configuration space
    closed again; on success every port of the path has the complete address
    of a function that is there. *)
Theorem scan_follows_buses rp ep conn segment bus d p :
  (scan_devices_at_bus rp ep conn segment bus (d, p) =
     match path_scan present config rp ep conn segment bus (port_objects p) with
     | Ok (ok, m') => Ok (ok, (d, with_port_objects m' p))
     | Stop e => Stop e
     end) ∧
  ∀ m', path_scan present config rp ep conn segment bus (port_objects p) = Ok (true, m') →
    found_at segment m' rp ∧ found_at segment m' ep ∧
    ∀ c, c ∈ conn → found_at segment m' c.1 ∧ found_at segment m' c.2.
Proof.
  split; [apply scan_path_spec|]. intros m'. unfold path_scan.
  destruct (bridge_at _ _ rp _ _ _) as [[[[s1 s2]|] m1]|e] eqn:E1; cbn [res_bind]; try done.
  destruct (switches_at _ _ _ _ _ _) as [[[b|] m2]|e] eqn:E2; cbn [res_bind]; try done.
  unfold endpoint_at. destruct (place ep segment b m2) as [[bdf m3]|e] eqn:E3; cbn [res_bind]; [|done].
  destruct (present bdf) eqn:Ep; cbn [andb TEEIO_ASSERT res_bind]; [|done].
  destruct (_ =? 0); cbn [TEEIO_ASSERT res_bind]; [|done]. intros [= <-].
  apply bridge_found in E1 as [F1 K1]. apply switches_found in E2 as [F2 K2].
  destruct (place_found _ _ _ _ _ _ E3 Ep) as [F3 K3]. split_and!; [auto|done|].
  intros c Hc. destruct (F2 c Hc). auto.
Qed.
End scan.

(** ** A small machine

    Configuration spaces by name; the open ones are a stack, and the
    descriptor is the place in it. *)
Definition example_spaces : list (bytes * (Z → Z)) :=
  [(bs "0000:00:01.0", λ off, if off =? 0x0c then 0x00010000 else if off =? 0x08 then 0x06040000 else if off =? 0x18 then 0x00020100 else 0);
   (bs "0000:01:00.0", λ off, 0)].

Definition example_space (bdf : bytes) : option (Z → Z) :=
  snd <$> List.find (λ s, streq (fst s) bdf) example_spaces.

Definition stack : Type := list bytes.

#[export] Instance stack_bus : Bus stack := {|
  bus_read r n d :=
    (match r with
     | Cfg fd off => match d !! Z.to_nat (fd - 3) with
                     | Some bdf => match example_space bdf with Some f => f off | None => 0 end
                     | None => 0
                     end
     | Mmio _ => 0
     end, d);
  bus_write _ _ _ d := d
|}.
#[export] Instance stack_clock : Clock stack := {| sleep_for _ d := d |}.
#[export] Instance stack_os : Os stack := {|
  os_open bdf d := match example_space bdf with Some _ => (3 + Z.of_nat (length d), d ++ [bdf]) | None => (-1, d) end;
  os_size _ d := (0x1000, d);
  os_close fd d := take (Z.to_nat (fd - 3)) d;
  os_keyp _ := None;
  os_map _ _ := None;
  os_unmap _ _ d := d;
  os_write_file _ _ d := d
|}.

Lemma example_fabric :
  fabric (λ bdf, bool_decide (is_Some (example_space bdf)))
         (λ bdf off, match example_space bdf with Some f => f off | None => 0 end).
Proof.
  intros bdf d. cbn [os_open stack_os].
  assert (Hr : ∀ f, example_space bdf = Some f → ∀ off, 0 ≤ f off < 2 ^ 32).
  { unfold example_space, example_spaces. cbn [List.find fst]. intros f.
    destruct (streq _ _); [|destruct (streq _ _)]; cbn [fmap option_fmap option_map snd]; intros [= <-] off; [|lia].
    repeat destruct (_ =? _); lia. }
  destruct (example_space bdf) as [f|] eqn:E; [|by exists (-1), d].
  eexists _, _. split; [reflexivity|]. split_and!; [lia|by exists 0x1000| |].
  - intros off _. split; [|by apply Hr]. unfold bus_read, stack_bus.
    replace (3 + Z.of_nat (length d) - 3) with (Z.of_nat (length d)) by lia.
    assert (El : (d ++ [bdf] : list bytes) !! Z.to_nat (Z.of_nat (length d)) = Some bdf)
      by (by rewrite Nat2Z.id, list_lookup_middle).
    match goal with |- context [lookup ?a ?b] => replace (lookup a b) with (Some bdf) end.
    by rewrite E.
  - cbn [os_close stack_os]. by rewrite Z.add_simpl_l, Nat2Z.id, take_app_length.
Qed.

Definition example_ports : gmap Z IDE_PORT :=
  let port typ dev := {| port_id := 1; port_enabled := true; port_type := typ; port_name := []; port_bdf := []; port_segment := 0;
                         port_bus := 0; port_device := dev; port_function := 0; port_index := 0 |} in
  {[ 1 := port IDE_PORT_TYPE_ROOTPORT 1; 2 := port IDE_PORT_TYPE_ENDPOINT 0 ]}.
Definition example_process : process :=
  {| devices := []; doe_offset_in_use := 0; m_dev_fp := 0; port_objects := example_ports; m_spdm_context := 0;
     m_scratch_buffer := 0; m_requested_spdm_version := 0 |}.

Lemma scan_follows_buses_witness :
  ∃ p, scan_devices_at_bus 1 2 [] 0 0 ([] : stack, example_process) = Ok (true, ([], p)) ∧
       port_bdf <$> port_objects p !! 2 = Some (bs "0000:01:00.0").
Proof.
  pose proof (scan_follows_buses _ _ example_fabric 1 2 [] 0 0 [] example_process) as [E _].
  eexists. split; [etransitivity; [exact E|vm_compute; reflexivity]|vm_compute; reflexivity].
Defined.
End PortsSpec.
