(* ===== verification/Spdm.v ===== *)
(** * The SPDM client (library/spdmlib/spdm.c)

    Set-up of the libspdm context and of the connection, sessions and
    measurements.  The calls of libspdm and the allocator are classes of operations; what is
    passed on unread is left out (the callbacks registered, the measurement summary and
    challenge options).  An enumerator that is only passed on is a constructor. *)
From Stdlib Require Import ZArith Lia Ascii String.
From stdpp Require Import prelude.
From S2P Require Import Prelude Utils Libspdm Hardware Ports.

Open Scope Z_scope.
Open Scope teeio_scope.

Module Spdm.
Import Hardware Ports.

(** ** libspdm and the allocator *)

Class Alloc (D : Type) := {
  (** the size; the address, or 0 *)
  malloc : Z → io D Z;
  free : Z → io D unit
}.

Inductive libspdm_data_type_t :=
  LIBSPDM_DATA_SPDM_VERSION | LIBSPDM_DATA_CAPABILITY_CT_EXPONENT | LIBSPDM_DATA_CAPABILITY_FLAGS
| LIBSPDM_DATA_MEASUREMENT_SPEC | LIBSPDM_DATA_BASE_ASYM_ALGO | LIBSPDM_DATA_BASE_HASH_ALGO | LIBSPDM_DATA_PQC_ASYM_ALGO
| LIBSPDM_DATA_DHE_NAME_GROUP | LIBSPDM_DATA_AEAD_CIPHER_SUITE | LIBSPDM_DATA_REQ_BASE_ASYM_ALG
| LIBSPDM_DATA_KEY_SCHEDULE | LIBSPDM_DATA_OTHER_PARAMS_SUPPORT | LIBSPDM_DATA_KEM_ALG.

Inductive libspdm_data_location_t := LIBSPDM_DATA_LOCATION_LOCAL | LIBSPDM_DATA_LOCATION_CONNECTION.

#[export] Instance data_type_eq_dec : EqDecision libspdm_data_type_t.
Proof. solve_decision. Defined.

(** What one GET_MEASUREMENTS answers: status, number of blocks, length and
    record as they are left behind. *)
Record measurement := { m_status : Z; m_number : Z; m_length : Z; m_record : bytes }.

Class SpdmRequester (D : Type) := {
  SPDM_MESSAGE_VERSION_10 : Z;
  SPDM_MESSAGE_VERSION_14 : Z;
  SPDM_VERSION_NUMBER_SHIFT_BIT : Z;
  SPDM_GET_CAPABILITIES_REQUEST_FLAGS_CERT_CAP : Z;
  SPDM_GET_CAPABILITIES_REQUEST_FLAGS_ENCRYPT_CAP : Z;
  SPDM_GET_CAPABILITIES_REQUEST_FLAGS_MAC_CAP : Z;
  SPDM_GET_CAPABILITIES_REQUEST_FLAGS_KEY_EX_CAP : Z;
  SPDM_GET_CAPABILITIES_REQUEST_FLAGS_ENCAP_CAP : Z;
  SPDM_GET_CAPABILITIES_REQUEST_FLAGS_KEY_UPD_CAP : Z;
  SPDM_GET_CAPABILITIES_REQUEST_FLAGS_CHUNK_CAP : Z;
  SPDM_GET_CAPABILITIES_RESPONSE_FLAGS_MEAS_CAP : Z;
  SPDM_MEASUREMENT_SPECIFICATION_DMTF : Z;
  SPDM_ALGORITHMS_BASE_ASYM_ALGO_TPM_ALG_ECDSA_ECC_NIST_P384 : Z;
  SPDM_ALGORITHMS_BASE_ASYM_ALGO_TPM_ALG_ECDSA_ECC_NIST_P256 : Z;
  SPDM_ALGORITHMS_BASE_ASYM_ALGO_TPM_ALG_RSASSA_3072 : Z;
  SPDM_ALGORITHMS_BASE_HASH_ALGO_TPM_ALG_SHA_384 : Z;
  SPDM_ALGORITHMS_BASE_HASH_ALGO_TPM_ALG_SHA_256 : Z;
  SPDM_ALGORITHMS_PQC_ASYM_ALGO_ML_DSA_87 : Z;
  SPDM_ALGORITHMS_DHE_NAMED_GROUP_SECP_384_R1 : Z;
  SPDM_ALGORITHMS_DHE_NAMED_GROUP_SECP_256_R1 : Z;
  SPDM_ALGORITHMS_AEAD_CIPHER_SUITE_AES_256_GCM : Z;
  SPDM_ALGORITHMS_KEY_SCHEDULE_SPDM : Z;
  SPDM_ALGORITHMS_OPAQUE_DATA_FORMAT_1 : Z;
  SPDM_ALGORITHMS_KEM_ALG_ML_KEM_1024 : Z;
  SPDM_GET_MEASUREMENTS_REQUEST_ATTRIBUTES_GENERATE_SIGNATURE : Z;
  SPDM_GET_MEASUREMENTS_REQUEST_MEASUREMENT_OPERATION_ALL_MEASUREMENTS : Z;
  SPDM_GET_MEASUREMENTS_REQUEST_MEASUREMENT_OPERATION_TOTAL_NUMBER_OF_MEASUREMENTS : Z;
  SPDM_MAX_SLOT_COUNT : Z;
  LIBSPDM_MAX_CERT_CHAIN_SIZE : Z;
  LIBSPDM_MAX_MEASUREMENT_RECORD_SIZE : Z;
  LIBSPDM_STATUS_INVALID_STATE_PEER : Z;
  libspdm_get_context_size : Z;
  libspdm_init_context : Z → io D unit;
  (** device functions, transport layer and device buffers are registered *)
  libspdm_register_functions : Z → io D unit;
  libspdm_get_sizeof_required_scratch_buffer : Z → io D Z;
  libspdm_set_scratch_buffer : Z → Z → Z → io D unit;
  (** context, type, location, value and its size; the status *)
  libspdm_set_data : Z → libspdm_data_type_t → libspdm_data_location_t → Z → Z → io D Z;
  (** context, type, location and size of the value; status, value and size *)
  libspdm_get_data : Z → libspdm_data_type_t → libspdm_data_location_t → Z → io D (Z * Z * Z);
  libspdm_init_connection : Z → io D Z;
  (** context, session, slot and size of the buffer; status and chain *)
  libspdm_get_certificate : Z → option Z → Z → Z → io D (Z * bytes);
  (** context, whether a pre-shared key is used, and its hint; status and session *)
  libspdm_start_session : Z → bool → option bytes → io D (Z * Z);
  libspdm_stop_session : Z → Z → io D Z;
  (** context, session, attributes, operation, slot, length and record *)
  libspdm_get_measurement : Z → Z → Z → Z → Z → option (Z * bytes) → io D measurement
}.

Section spdm.
Context {D : Type} `{Os D} `{Alloc (D * process)} `{SpdmRequester (D * process)} `{Libspdm}.

#[local] Abbreviation State := (D * process)%type.

Definition is_error (status : Z) : bool := LIBSPDM_STATUS_IS_ERROR status.
Definition libspdm_write_output_file (name data : bytes) : io State unit :=
  λ s, Ok (tt, (os_write_file name data (fst s), snd s)).

(** ** The version *)

Definition teeio_spdm_set_version (spdm_version : Z) : io State unit := set_process (with_requested_version spdm_version).

Definition teeio_spdm_apply_version_override (ctx : Z) : io State bool :=
  let+ p := get_process in
  let requested := m_requested_spdm_version p in
  if requested =? 0 then ret true else
  if (requested <? SPDM_MESSAGE_VERSION_10) || (SPDM_MESSAGE_VERSION_14 <? requested) then ret false else
  let spdm_version := u16 (Z.shiftl requested SPDM_VERSION_NUMBER_SHIFT_BIT) in
  let+ status := libspdm_set_data ctx LIBSPDM_DATA_SPDM_VERSION LIBSPDM_DATA_LOCATION_LOCAL spdm_version 2 in
  ret (negb (is_error status)).

(** Only reads; what it reads goes to the log. *)
Definition teeio_spdm_log_negotiated_version (ctx : Z) : io State unit :=
  let+ _ := libspdm_get_data ctx LIBSPDM_DATA_SPDM_VERSION LIBSPDM_DATA_LOCATION_CONNECTION 2 in ret tt.

(** ** The context and the connection *)

(** The parameters of the client, in the order in which they are set: type,
    value and size. *)
Definition client_data : list (libspdm_data_type_t * Z * Z) :=
  [(LIBSPDM_DATA_CAPABILITY_CT_EXPONENT, 0, 1);
   (LIBSPDM_DATA_CAPABILITY_FLAGS,
    Z.lor SPDM_GET_CAPABILITIES_REQUEST_FLAGS_CERT_CAP (Z.lor SPDM_GET_CAPABILITIES_REQUEST_FLAGS_ENCRYPT_CAP
      (Z.lor SPDM_GET_CAPABILITIES_REQUEST_FLAGS_MAC_CAP (Z.lor SPDM_GET_CAPABILITIES_REQUEST_FLAGS_KEY_EX_CAP
      (Z.lor SPDM_GET_CAPABILITIES_REQUEST_FLAGS_ENCAP_CAP (Z.lor SPDM_GET_CAPABILITIES_REQUEST_FLAGS_KEY_UPD_CAP
        SPDM_GET_CAPABILITIES_REQUEST_FLAGS_CHUNK_CAP))))), 4);
   (LIBSPDM_DATA_MEASUREMENT_SPEC, SPDM_MEASUREMENT_SPECIFICATION_DMTF, 1);
   (LIBSPDM_DATA_BASE_ASYM_ALGO,
    Z.lor (Z.lor SPDM_ALGORITHMS_BASE_ASYM_ALGO_TPM_ALG_ECDSA_ECC_NIST_P384
                 SPDM_ALGORITHMS_BASE_ASYM_ALGO_TPM_ALG_ECDSA_ECC_NIST_P256)
          SPDM_ALGORITHMS_BASE_ASYM_ALGO_TPM_ALG_RSASSA_3072, 4);
   (LIBSPDM_DATA_BASE_HASH_ALGO,
    Z.lor SPDM_ALGORITHMS_BASE_HASH_ALGO_TPM_ALG_SHA_384 SPDM_ALGORITHMS_BASE_HASH_ALGO_TPM_ALG_SHA_256, 4);
   (LIBSPDM_DATA_PQC_ASYM_ALGO, SPDM_ALGORITHMS_PQC_ASYM_ALGO_ML_DSA_87, 4);
   (LIBSPDM_DATA_DHE_NAME_GROUP,
    Z.lor SPDM_ALGORITHMS_DHE_NAMED_GROUP_SECP_384_R1 SPDM_ALGORITHMS_DHE_NAMED_GROUP_SECP_256_R1, 2);
   (LIBSPDM_DATA_AEAD_CIPHER_SUITE, SPDM_ALGORITHMS_AEAD_CIPHER_SUITE_AES_256_GCM, 2);
   (LIBSPDM_DATA_REQ_BASE_ASYM_ALG, 0, 2);
   (LIBSPDM_DATA_KEY_SCHEDULE, SPDM_ALGORITHMS_KEY_SCHEDULE_SPDM, 2);
   (LIBSPDM_DATA_OTHER_PARAMS_SUPPORT, SPDM_ALGORITHMS_OPAQUE_DATA_FORMAT_1, 1);
   (LIBSPDM_DATA_KEM_ALG, SPDM_ALGORITHMS_KEM_ALG_ML_KEM_1024, 4)].

(** The statuses of these calls are not looked at. *)
Definition set_client_data (ctx : Z) : io State unit :=
  io_fold (λ '(type, value, size) _,
             let+ _ := libspdm_set_data ctx type LIBSPDM_DATA_LOCATION_LOCAL value size in ret tt) client_data tt.

Definition free_context : io State unit :=
  let+ p := get_process in
  let+ _ := free (m_spdm_context p) in
  set_process (with_spdm_context 0).

Definition free_scratch_buffer : io State unit :=
  let+ p := get_process in
  let+ _ := free (m_scratch_buffer p) in
  set_process (with_scratch_buffer 0).

(** Returns the context, or 0. *)
Definition spdm_client_init : io State Z :=
  let+ ctx := malloc libspdm_get_context_size in
  let+ _ := set_process (with_spdm_context ctx) in
  if ctx =? 0 then ret 0 else
  let+ _ := libspdm_init_context ctx in
  let+ _ := libspdm_register_functions ctx in
  let+ scratch_buffer_size := libspdm_get_sizeof_required_scratch_buffer ctx in
  let+ scratch := malloc scratch_buffer_size in
  let+ _ := set_process (with_scratch_buffer scratch) in
  if scratch =? 0 then let+ _ := free_context in ret 0 else
  let+ _ := libspdm_set_scratch_buffer ctx scratch scratch_buffer_size in
  let+ ok := teeio_spdm_apply_version_override ctx in
  if negb ok then let+ _ := free_scratch_buffer in let+ _ := free_context in ret 0 else
  let+ _ := set_client_data ctx in
  let+ status := libspdm_init_connection ctx in
  if is_error status then let+ _ := free_context in ret 0 else
  let+ _ := teeio_spdm_log_negotiated_version ctx in
  let+ p := get_process in
  ret (m_spdm_context p).

(** ** Measurements *)

(** What the walk over the blocks keeps: blocks received, offset, record and
    the attributes of the requests. *)
Record block_walk := { received : Z; record_offset : Z; record_so_far : bytes; attributes : Z }.

(** One index; [inr (inl _)] is a [return] with the record so far, [inr (inr _)] leaves the
    loop. *)
Definition measurement_step (ctx session slot number_of_blocks record_length : Z) (index : Z) (w : block_walk)
    : io State (block_walk + (Z * bytes + block_walk)) :=
  if received w =? number_of_blocks then ret (inr (inr w)) else
  let attributes := if received w =? number_of_blocks - 1
                    then SPDM_GET_MEASUREMENTS_REQUEST_ATTRIBUTES_GENERATE_SIGNATURE else attributes w in
  let+ m := libspdm_get_measurement ctx session attributes index slot
              (Some (LIBSPDM_MAX_MEASUREMENT_RECORD_SIZE, [])) in
  if is_error (m_status m) then
    ret (inl {| received := received w; record_offset := record_offset w; record_so_far := record_so_far w;
                attributes := attributes |})
  else
    let received := u8 (received w + 1) in
    let+ _ := io_assert (record_offset w <=? record_length) in
    if m_length m <? record_length - record_offset w then
      let+ record := lift (store (record_so_far w) (record_offset w) (take (Z.to_nat (m_length m)) (m_record m))) in
      ret (inl {| received := received; record_offset := record_offset w + m_length m; record_so_far := record;
                  attributes := attributes |})
    else ret (inr (inl (LIBSPDM_STATUS_BUFFER_TOO_SMALL, record_so_far w))).

(** Returns the status, the length and the record. *)
Definition spdm_send_receive_get_measurement (ctx session slot : Z) (measurement_record_length : Z)
    (measurement_record : bytes) : io State (Z * Z * bytes) :=
  let+ m := libspdm_get_measurement ctx session SPDM_GET_MEASUREMENTS_REQUEST_ATTRIBUTES_GENERATE_SIGNATURE
              SPDM_GET_MEASUREMENTS_REQUEST_MEASUREMENT_OPERATION_ALL_MEASUREMENTS slot
              (Some (measurement_record_length, measurement_record)) in
  if m_status m =? LIBSPDM_STATUS_SUCCESS then ret (m_status m, m_length m, m_record m) else
  let record_length := m_length m in
  let+ total := libspdm_get_measurement ctx session 0
                  SPDM_GET_MEASUREMENTS_REQUEST_MEASUREMENT_OPERATION_TOTAL_NUMBER_OF_MEASUREMENTS slot None in
  if is_error (m_status total) then ret (m_status total, record_length, m_record m) else
  let number_of_blocks := m_number total in
  let+ r := io_for (measurement_step ctx session slot number_of_blocks record_length) (range 1 0xff)
              {| received := 0; record_offset := 0; record_so_far := m_record m; attributes := 0 |} in
  match r with
  | inr (inl (status, record)) => ret (status, record_length, record)
  | inl w | inr (inr w) =>
      if negb (received w =? number_of_blocks)
      then ret (LIBSPDM_STATUS_INVALID_STATE_PEER, record_length, record_so_far w)
      else ret (LIBSPDM_STATUS_SUCCESS, record_offset w, record_so_far w)
  end.

(** ** Sessions *)

(** "device_cert_chain_<slot>.bin" *)
Definition cert_chain_name (slot : Z) : bytes := bs "device_cert_chain_" ++ [slot + 48] ++ bs ".bin".

(** The chains of the other slots; one that cannot be read gives an empty
    file. *)
Definition write_cert_chain (ctx session slot : Z) : io State unit :=
  let+ (status, cert_chain) := libspdm_get_certificate ctx (Some session) slot LIBSPDM_MAX_CERT_CHAIN_SIZE in
  libspdm_write_output_file (cert_chain_name slot) (if is_error status then [] else cert_chain).

(** Returns its value and the session. *)
Definition spdm_connect (ctx session_id : Z) : io State (bool * Z) :=
  let+ (status, cert_chain) := libspdm_get_certificate ctx None 0 LIBSPDM_MAX_CERT_CHAIN_SIZE in
  if is_error status then ret (false, session_id) else
  let+ _ := libspdm_write_output_file (cert_chain_name 0) cert_chain in
  let+ (status, session_id) := libspdm_start_session ctx false None in
  if is_error status then ret (false, session_id) else
  let+ (status, data32, _) := libspdm_get_data ctx LIBSPDM_DATA_CAPABILITY_FLAGS LIBSPDM_DATA_LOCATION_CONNECTION 4 in
  let+ _ := io_assert (negb (is_error status)) in
  let+ ok :=
    (if negb (Z.land data32 SPDM_GET_CAPABILITIES_RESPONSE_FLAGS_MEAS_CAP =? 0) then
       let+ (status, length, record) :=
         spdm_send_receive_get_measurement ctx session_id 0 LIBSPDM_MAX_MEASUREMENT_RECORD_SIZE
           (replicate (Z.to_nat LIBSPDM_MAX_MEASUREMENT_RECORD_SIZE) 0) in
       if is_error status then ret false else
       let+ _ := libspdm_write_output_file (bs "device_measurement.bin") (take (Z.to_nat length) record) in
       ret true
     else ret true) in
  if negb ok then ret (false, session_id) else
  let+ _ := io_fold (λ slot _, write_cert_chain ctx session_id slot) (range 1 SPDM_MAX_SLOT_COUNT) tt in
  ret (true, session_id).

Definition spdm_stop (ctx session_id : Z) : io State bool :=
  let+ status := libspdm_stop_session ctx session_id in ret (negb (is_error status)).

(** Returns its value and the session. *)
Definition spdm_start_session (ctx session_id : Z) : io State (bool * Z) :=
  let+ (status, session_id) := libspdm_start_session ctx false None in ret (negb (is_error status), session_id).

Definition spdm_start_psk_session (ctx : Z) (psk_hint : bytes) (session_id : Z) : io State (bool * Z) :=
  let+ (status, session_id) := libspdm_start_session ctx true (Some psk_hint) in ret (negb (is_error status), session_id).

Definition spdm_end_session (ctx session_id : Z) : io State bool := spdm_stop ctx session_id.

End spdm.
End Spdm.
