(* ===== verification/Tests.v ===== *)
(** * Test functions (the interface of the test libraries, include/ide_test.h, include/helperlib.h)

    A test function runs on the machine and the process, and on what its
    library keeps: the context of the group, the results, the reports made so
    far, and the variables that hand values from a setup to its run function.
    The type [G] of the group's context and the type [V] of the variables are the library's.
    The contexts are values, so the asserts that they are not null and
    carry their signature are left out.

    A library registers its functions in tables; a function pointer is the name
    of the C function.  With a definition for every name the engine gets the
    code it calls, for the tests of one group. *)
From Stdlib Require Import ZArith Lia Ascii String.
From stdpp Require Import prelude gmap.
From S2P Require Import Prelude Libspdm Utils TestConfig Results Engine Hardware Ports.

Open Scope Z_scope.
Open Scope teeio_scope.

Module Tests.
Import TestConfig Results Engine Hardware Ports Utils.PcieHelper.

(** ** The state of a test *)
Record test_state (G V : Type) := {
  group : G;
  test_results : Results.state;
  reports : list record_op;
  skip_case : bool;                     (* case_context->action *)
  vars : V
}.
Arguments group {G V}. Arguments test_results {G V}. Arguments reports {G V}. Arguments skip_case {G V}.
Arguments vars {G V}.

Definition with_group {G V} (g : G) (t : test_state G V) : test_state G V :=
  {| group := g; test_results := test_results t; reports := reports t; skip_case := skip_case t; vars := vars t |}.
Definition with_report {G V} (op : record_op) (st : Results.state) (t : test_state G V) : test_state G V :=
  {| group := group t; test_results := st; reports := reports t ++ [op]; skip_case := skip_case t; vars := vars t |}.
Definition with_skip {G V} (t : test_state G V) : test_state G V :=
  {| group := group t; test_results := test_results t; reports := reports t; skip_case := true; vars := vars t |}.
Definition with_vars {G V} (v : V) (t : test_state G V) : test_state G V :=
  {| group := group t; test_results := test_results t; reports := reports t; skip_case := skip_case t; vars := v |}.

(** ** Messages *)

(** "%x", "%08x" and "%02x" of an unsigned number *)
Fixpoint hex_digits (fuel : nat) (n : Z) (acc : bytes) : bytes :=
  match fuel with
  | O => acc
  | S fuel => let acc := hex_char (n mod 16) :: acc in if n <? 16 then acc else hex_digits fuel (n / 16) acc
  end.
Definition hex (n : Z) : bytes := hex_digits 16 n [].
Definition hex8 (n : Z) : bytes := let h := hex n in replicate (8 - length h) (char "0") ++ h.
Definition hex2 (n : Z) : bytes := if n <? 16 then char "0" :: hex n else hex n.

Section tests.
Context {D G V : Type}.

#[local] Abbreviation State := (D * process)%type.
Definition test (A : Type) : Type := io (State * test_state G V) A.

(** A computation on the machine and the process. *)
Definition machine {A} (m : io State A) : test A := λ s, let* (a, d) := m (fst s) in Ok (a, (d, snd s)).
Definition get_test : test (test_state G V) := λ s, Ok (snd s, s).
Definition get_group : test G := λ s, Ok (group (snd s), s).
Definition get_vars : test V := λ s, Ok (vars (snd s), s).
Definition modify (f : test_state G V → test_state G V) : test unit := λ s, Ok (tt, (fst s, f (snd s))).
Definition put_group (g : G) : test unit := modify (with_group g).
Definition set_vars (f : V → V) : test unit := modify (λ t, with_vars (f (vars t)) t).

(** A computation on the context of the group; what it leaves of the
    context is kept. *)
Definition on_group (m : G → io State (bool * G)) : test bool :=
  let+ g := get_group in
  let+ (ok, g) := machine (m g) in
  let+ _ := put_group g in
  ret ok.

(** A call of the recording interface; its result is not used. *)
Definition record (op : record_op) : test unit :=
  let+ t := get_test in
  let+ (_, st) := lift (run_op op (test_results t)) in
  modify (with_report op st).

Definition verdict (b : bool) : teeio_test_result_t := if b then TEEIO_TEST_RESULT_PASS else TEEIO_TEST_RESULT_FAILED.

Definition record_test (cls id aid : Z) (ok : bool) (message : bytes) : test unit :=
  record (RecAssertion cls id aid IDE_COMMON_TEST_CASE_ASSERTION_TYPE_TEST (verdict ok) (Some message)).
Definition record_separator (cls id : Z) (case_info : bytes) : test unit :=
  record (RecAssertion cls id 0 IDE_COMMON_TEST_CASE_ASSERTION_TYPE_SEPARATOR TEEIO_TEST_RESULT_NOT_TESTED (Some case_info)).
Definition record_group (f : teeio_test_group_func_t) (r : teeio_test_result_t) (message : bytes) : test unit :=
  record (RecGroup f r (Some message)).
Definition record_config (type : Z) (f : teeio_test_config_func_t) (ok : bool) : test unit :=
  record (RecConfigItem type f (verdict ok)).

Definition setup_failed (message : bytes) : test bool :=
  let+ _ := record_group TEEIO_TEST_GROUP_FUNC_SETUP TEEIO_TEST_RESULT_FAILED message in ret false.

Definition case_result_of (cls id : Z) : test teeio_test_result_t :=
  let+ t := get_test in lift (teeio_test_case_result cls id (test_results t)).

(** [NOT_IMPLEMENTED(...); return b;] *)
Definition not_implemented (b : bool) : test bool := let+ _ := io_assert false in ret b.

Definition sleep `{Clock D} (microseconds : Z) : test unit := machine (libspdm_sleep microseconds).

(** ** Functions and pointers *)

(** The pointer types of ide_test.h; a run function knows the case's ids from
    its context. *)
Inductive code :=
| Config (f : test bool)
| Group (f : test bool)
| Setup (f : test bool)
| Run (f : Z → Z → test unit)
| Teardown (f : test unit).

Definition no_teardown : test unit := ret tt.

Fixpoint find_code (f : string) (l : list (string * code)) : option code :=
  match l with
  | [] => None
  | (g, c) :: l => if decide (f = g) then Some c else find_code f l
  end.

(** What is run for a pointer and what is passed to it; a context of another
    kind is a wrong cast. *)
Definition run_code (c : code) (ctx : context) : option (test bool) :=
  let void (m : test unit) : test bool := bind m (λ _, ret true) in
  match c, ctx with
  | Config f, CtxConfig _ _ => Some f
  | Group f, CtxGroup _ _ => Some f
  | Setup f, CtxCase _ _ => Some f
  | Run f, CtxCase cls id => Some (void (f cls id))
  | Teardown f, CtxCase _ _ => Some (void f)
  | _, _ => None
  end.

Definition world : Type := State * test_state G V.

(** A call starts on the results as they are.  [enter] is what the engine
    has put into the context of the group: the ids of configuration and class. *)
Definition begin_call (enter : context → G → G) (ctx : context) (st : Results.state) (t : test_state G V) : test_state G V :=
  {| group := enter ctx (group t); test_results := st; reports := []; skip_case := false; vars := vars t |}.

Definition call_code (m : test bool) (start : test_state G V → test_state G V) (w : world) : res (outcome world) :=
  let* (b, w) := m (fst w, start (snd w)) in
  Ok {| out_ops := reports (snd w); out_ret := b; out_skip := skip_case (snd w); out_world := w |}.

Definition table_code (table : list (string * code)) (enter : context → G → G) : TestCode world := λ f ctx st w,
  let* c := deref (find_code f table) in
  let* m := deref (run_code c ctx) in
  call_code m (begin_call enter ctx st) w.

End tests.
Arguments test : clear implicits.
Arguments code : clear implicits.
Arguments world : clear implicits.
End Tests.
