(* ===== verification/TestsSpec.v ===== *)
(** * Test functions: their reports, their verdicts, their runs

    Ways to reason about a test function whatever machine it runs on:
    the verdict of its case ([at_test], [simulates]), what it may report
    ([reports_only]), and the rules for tables of functions, with the types of the pointers. *)
From Stdlib Require Import ZArith Lia Ascii String.
From stdpp Require Import prelude gmap.
From S2P Require Import Prelude Libspdm TestConfig Results Engine Stops TestLib Hardware Ports Tests.

Open Scope Z_scope.
Open Scope teeio_scope.

Module TestsSpec.
Import TestConfig Results Engine Stops Hardware Ports Tests.

(** ** The verdict of the current case *)

Definition failed (a : ide_run_test_case_assertion_result_t) : bool :=
  bool_decide (ar_type a = IDE_COMMON_TEST_CASE_ASSERTION_TYPE_TEST) && bool_decide (ar_result a = TEEIO_TEST_RESULT_FAILED).
Definition passed (a : ide_run_test_case_assertion_result_t) : bool :=
  bool_decide (ar_type a = IDE_COMMON_TEST_CASE_ASSERTION_TYPE_TEST) && bool_decide (ar_result a = TEEIO_TEST_RESULT_PASS).

(** The current case is [id] of class [cls]; [ok]: no assertion failed so far;
    [tested]: one passed or failed. *)
Definition at_case (cls id : Z) (ok tested : bool) (st : Results.state) : Prop :=
  wf st ∧ ∃ p cr, g_current_case_result st = Some p ∧ get_case p st = Some cr ∧ class_id cr = cls ∧ case_id cr = id ∧
    ok = negb (existsb failed (assertion_result cr)) ∧
    tested = existsb (λ a, failed a || passed a) (assertion_result cr).

Definition verdict_of (ok tested : bool) : teeio_test_result_t :=
  if negb ok then TEEIO_TEST_RESULT_FAILED else if tested then TEEIO_TEST_RESULT_PASS else TEEIO_TEST_RESULT_NOT_TESTED.

Lemma count_passed_failed l a b :
  fold_left (λ '(pass, fail) a,
    if decide (ar_type a = IDE_COMMON_TEST_CASE_ASSERTION_TYPE_TEST) then
      if decide (ar_result a = TEEIO_TEST_RESULT_PASS) then (pass + 1, fail)
      else if decide (ar_result a = TEEIO_TEST_RESULT_FAILED) then (pass, fail + 1)
      else (pass, fail)
    else (pass, fail)) l (a, b) =
  (a + Z.of_nat (length (List.filter passed l)), b + Z.of_nat (length (List.filter failed l))).
Proof.
  revert a b. induction l as [|x l IH]; intros a b; cbn [fold_left List.filter]; [by rewrite !Z.add_0_r|].
  unfold passed at 1, failed at 1.
  destruct (decide (ar_type x = IDE_COMMON_TEST_CASE_ASSERTION_TYPE_TEST)) as [E|E].
  - rewrite bool_decide_true by done. cbn [andb].
    destruct (ar_result x); repeat case_decide; try done; rewrite IH; repeat case_bool_decide; try done;
      cbn [length]; f_equal; lia.
  - rewrite bool_decide_false by done. apply IH.
Qed.

Lemma existsb_filter {A} (f : A → bool) l : existsb f l = (0 <? Z.of_nat (length (List.filter f l))).
Proof. induction l as [|x l IH]; [done|]. cbn. destruct (f x); [done|]. cbn. exact IH. Qed.

Lemma existsb_or {A} (f g : A → bool) l : existsb (λ a, f a || g a) l = existsb f l || existsb g l.
Proof. induction l as [|x l IH]; [done|]. cbn. rewrite IH. by destruct (f x), (g x), (existsb f l). Qed.

Lemma case_result_at cls id ok tested st :
  at_case cls id ok tested st → teeio_test_case_result cls id st = Ok (verdict_of ok tested).
Proof.
  intros (_ & p & cr & Hp & Hcr & <- & <- & -> & ->). unfold teeio_test_case_result. rewrite Hp, Hcr.
  cbn [deref res_bind]. rewrite !Z.eqb_refl. cbn [negb orb]. rewrite count_passed_failed, existsb_or, !existsb_filter.
  unfold verdict_of. rewrite negb_involutive, !Z.add_0_l.
  destruct (Z.ltb_spec 0 (Z.of_nat (length (List.filter failed (assertion_result cr))))); [done|].
  assert (Z.of_nat (length (List.filter failed (assertion_result cr))) = 0) as -> by lia. cbn [orb Z.eqb].
  by rewrite andb_true_r.
Qed.

Lemma record_at cls id ok tested aid ty r msg st :
  at_case cls id ok tested st →
  ∃ st', teeio_record_assertion_result cls id aid ty r msg st = Ok (true, st') ∧
    let is_test := bool_decide (ty = IDE_COMMON_TEST_CASE_ASSERTION_TYPE_TEST) in
    at_case cls id (ok && negb (is_test && bool_decide (r = TEEIO_TEST_RESULT_FAILED)))
      (tested || is_test && bool_decide (r ≠ TEEIO_TEST_RESULT_NOT_TESTED)) st'.
Proof.
  intros (Hw & p & cr & Hp & Hcr & Hc & Hi & -> & ->).
  destruct (current_path st p (proj2 Hw) Hp) as (s & c & g & k & cr' & -> & Hg & Hco & Hk).
  rewrite Hcr in Hk. injection Hk as <-.
  pose proof (record_assertion_update cls id aid ty r msg st s c g k cr Hp Hg Hco Hcr Hc Hi) as E.
  eexists. split; [exact E|]. cbv zeta. pose proof (record_assertion_keeps _ _ _ _ _ _ _ _ _ Hw E) as (_ & Hw' & _).
  split; [exact Hw'|]. set (ar := {| ar_type := ty |}).
  exists (s, c, g, k), (assert_case ar cr). split_and!; try done.
  - destruct (get_case_group _ _ _ _ _ _ Hcr) as (co & gr & Hgc & Hgg & Hgk).
    unfold get_case, Results.get_group. rewrite get_config_on, decide_True, Hgc by done. cbn.
    rewrite list_lookup_alter, decide_True, Hgg by done. cbn. by rewrite list_lookup_alter, decide_True, Hgk.
  - cbn. rewrite existsb_app, negb_orb. cbn. by rewrite orb_false_r.
  - cbn. rewrite existsb_app. cbn. unfold failed, passed. cbn. by destruct (bool_decide (ty = _)), r.
Qed.

(** ** Tests that follow a plan for the machine *)
Section simulation.
Context {D G V : Type}.

#[local] Abbreviation State := (D * process)%type.
#[local] Abbreviation test := (Tests.test D G V).
#[local] Abbreviation test_state := (test_state G V).

(** A test state of the group [g], at a case. *)
Definition at_test (g : G) (cls id : Z) (ok tested : bool) (t : test_state) : Prop :=
  group t = g ∧ at_case cls id ok tested (test_results t).

(** [m] does to the machine what [plan] does, and ends at the case with
    the [ok] that [outcome] reads off the plan's result. *)
Definition simulates {A B} (g : G) (cls id : Z) (m : test A) (plan : io State B)
    (d : State) (t : test_state) (post : B → A → bool → bool → Prop) : Prop :=
  match plan d with
  | Stop e => m (d, t) = Stop e
  | Ok (b, d') => ∃ a t' ok tested, m (d, t) = Ok (a, (d', t')) ∧ at_test g cls id ok tested t' ∧ post b a ok tested
  end.

Lemma simulates_bind {A B A' B'} g cls id (m : test A) (k : A → test A') (plan : io State B) (j : B → io State B') d t post post' :
  simulates g cls id m plan d t post →
  (∀ a b d' t' ok tested, at_test g cls id ok tested t' → post b a ok tested → simulates g cls id (k a) (j b) d' t' post') →
  simulates g cls id (Hardware.bind m k) (Hardware.bind plan j) d t post'.
Proof.
  unfold simulates. intros Hm Hk. unfold Hardware.bind. destruct (plan d) as [[b d']|e]; cbn [res_bind].
  - destruct Hm as (a & t' & ok & tested & -> & Hat & Hp). cbn [res_bind]. by apply (Hk a b d' t' ok tested).
  - by rewrite Hm.
Qed.

(** A step of the test that leaves the machine alone. *)
Lemma simulates_quiet {A A' B'} g cls id (m : test A) (k : A → test A') (j : io State B') d t a t' post' :
  m (d, t) = Ok (a, (d, t')) → simulates g cls id (k a) j d t' post' →
  simulates g cls id (Hardware.bind m k) j d t post'.
Proof.
  unfold simulates. intros Hm Hk. unfold Hardware.bind. rewrite Hm. cbn [res_bind]. done.
Qed.

Lemma simulates_machine {A} g cls id (m : io State A) d t ok tested :
  at_test g cls id ok tested t → simulates g cls id (machine m) m d t (λ b a ok' tested', a = b ∧ ok' = ok ∧ tested' = tested).
Proof.
  unfold simulates, machine. intros Hat. cbn [fst snd]. destruct (m d) as [[b d']|e]; cbn [res_bind]; [|done].
  exists b, t, ok, tested. done.
Qed.

Lemma simulates_ret {A B} g cls id (a : A) (b : B) d t ok tested (post : B → A → bool → bool → Prop) :
  at_test g cls id ok tested t → post b a ok tested → simulates g cls id (Hardware.ret a) (Hardware.ret b) d t post.
Proof. intros Hat Hp. exists a, t, ok, tested. done. Qed.

Lemma simulates_weaken {A B} g cls id (m : test A) (plan : io State B) d t (post post' : B → A → bool → bool → Prop) :
  simulates g cls id m plan d t post → (∀ b a ok tested, post b a ok tested → post' b a ok tested) →
  simulates g cls id m plan d t post'.
Proof.
  unfold simulates. intros Hm Hp. destruct (plan d) as [[b d']|e]; [|done].
  destruct Hm as (a & t' & ok & tested & E & Hat & Hb). exists a, t', ok, tested. auto.
Qed.

Lemma simulates_map {A B C} g cls id (m : test A) (plan : io State B) (f : B → C) d t post :
  simulates g cls id m plan d t (λ b, post (f b)) →
  simulates g cls id m (Hardware.bind plan (λ b, Hardware.ret (f b))) d t post.
Proof. unfold simulates, Hardware.bind. by destruct (plan d) as [[b d']|e]. Qed.

(** *** Reports of a case *)

Lemma record_assertion_at g cls id ok tested aid ty r msg (d : State) t :
  at_test g cls id ok tested t →
  ∃ t', record (RecAssertion cls id aid ty r msg) (d, t) = Ok (tt, (d, t')) ∧
    let is_test := bool_decide (ty = IDE_COMMON_TEST_CASE_ASSERTION_TYPE_TEST) in
    at_test g cls id (ok && negb (is_test && bool_decide (r = TEEIO_TEST_RESULT_FAILED)))
      (tested || is_test && bool_decide (r ≠ TEEIO_TEST_RESULT_NOT_TESTED)) t'.
Proof.
  intros [Hg Hat]. destruct (record_at cls id ok tested aid ty r msg _ Hat) as (st' & E & Hat').
  exists (with_report (RecAssertion cls id aid ty r msg) st' t). split; [|split; [exact Hg|exact Hat']].
  unfold record, Hardware.bind, get_test, lift, modify. cbn [res_bind fst snd run_op]. by rewrite E.
Qed.

Lemma record_test_at g cls id ok tested aid b msg (d : State) t :
  at_test g cls id ok tested t →
  ∃ t', record_test cls id aid b msg (d, t) = Ok (tt, (d, t')) ∧ at_test g cls id (ok && b) true t'.
Proof.
  intros Hat. destruct (record_assertion_at g cls id ok tested aid IDE_COMMON_TEST_CASE_ASSERTION_TYPE_TEST (verdict b)
    (Some msg) d t Hat) as (t' & E & Hat'). exists t'. split; [exact E|].
  by destruct b, ok, tested.
Qed.

Lemma record_separator_at g cls id ok tested info (d : State) t :
  at_test g cls id ok tested t →
  ∃ t', record_separator cls id info (d, t) = Ok (tt, (d, t')) ∧ at_test g cls id ok tested t'.
Proof.
  intros Hat. destruct (record_assertion_at g cls id ok tested 0 IDE_COMMON_TEST_CASE_ASSERTION_TYPE_SEPARATOR
    TEEIO_TEST_RESULT_NOT_TESTED (Some info) d t Hat) as (t' & E & Hat'). exists t'. split; [exact E|].
  by destruct ok, tested.
Qed.

Lemma case_result_of_at g cls id ok tested (d : State) t :
  at_test g cls id ok tested t → case_result_of cls id (d, t) = Ok (verdict_of ok tested, (d, t)).
Proof.
  intros [_ Hat]. unfold case_result_of, Hardware.bind, get_test, lift. cbn [res_bind fst snd].
  by rewrite (case_result_at _ _ _ _ _ Hat).
Qed.

End simulation.

(** ** Computations that report only what [P] allows *)
Section reports.
Context {D G V : Type}.
#[local] Abbreviation State := (D * process)%type.
#[local] Abbreviation test := (Tests.test D G V).
#[local] Abbreviation test_state := (test_state G V).

(** Between [t] and [t'] exactly [ops] were reported. *)
Definition reported (P : record_op → Prop) (t t' : test_state) : Prop :=
  ∃ ops, reports t' = reports t ++ ops ∧ Forall P ops ∧ replay ops (test_results t) = Ok (test_results t').

Definition reports_only (P : record_op → Prop) {A} (m : test A) : Prop :=
  ∀ d t a d' t', m (d, t) = Ok (a, (d', t')) → reported P t t'.

Lemma replay_app ops ops' st st' : replay ops st = Ok st' → replay (ops ++ ops') st = replay ops' st'.
Proof.
  revert st. induction ops as [|op ops IH]; intros st; cbn; [by intros [= ->]|].
  destruct (run_op op st) as [[b s]|e]; cbn; [apply IH|done].
Qed.

Lemma reported_same P t t' : reports t' = reports t → test_results t' = test_results t → reported P t t'.
Proof. intros E1 E2. exists []. by rewrite E1, E2, app_nil_r. Qed.

Lemma reported_trans P a b c : reported P a b → reported P b c → reported P a c.
Proof.
  intros (l1 & E1 & F1 & R1) (l2 & E2 & F2 & R2). exists (l1 ++ l2). rewrite E2, E1, app_assoc.
  split_and!; [done|by apply Forall_app|]. by rewrite (replay_app _ _ _ _ R1).
Qed.

Lemma reports_ret P {A} (a : A) : reports_only P (Hardware.ret a).
Proof. intros d t b d' t' [= <- <- <-]. by apply reported_same. Qed.

Lemma reports_bind P {A B} (m : test A) (k : A → test B) :
  reports_only P m → (∀ a, reports_only P (k a)) → reports_only P (Hardware.bind m k).
Proof.
  intros Hm Hk d t b d' t'. unfold Hardware.bind.
  destruct (m (d, t)) as [[a [d1 t1]]|e] eqn:E; cbn [res_bind]; [|done]. intros F.
  eapply reported_trans; [by eapply Hm|by eapply Hk].
Qed.

Lemma reports_lift P {A} (r : res A) : reports_only P (Hardware.lift r).
Proof. intros d t a d' t'. unfold Hardware.lift. destruct r; [|done]. intros [= <- <- <-]. by apply reported_same. Qed.

Lemma reports_assert P b : reports_only P (io_assert b).
Proof. apply reports_lift. Qed.

Lemma reports_machine P {A} (m : io State A) : reports_only P (machine m).
Proof.
  intros d t a d' t'. unfold machine. cbn [fst snd]. destruct (m d) as [[b d1]|e]; [|done]. cbn.
  intros [= <- <- <-]. by apply reported_same.
Qed.

Lemma reports_get_test P : reports_only P get_test.
Proof. intros d t a d' t' [= <- <- <-]. by apply reported_same. Qed.

Lemma reports_get_group P : reports_only P get_group.
Proof. intros d t a d' t' [= <- <- <-]. by apply reported_same. Qed.

Lemma reports_get_vars P : reports_only P get_vars.
Proof. intros d t a d' t' [= <- <- <-]. by apply reported_same. Qed.

(** Updates of the group's context and of the library's variables. *)
Lemma reports_modify P f :
  (∀ t, reports (f t) = reports t ∧ test_results (f t) = test_results t) → reports_only P (modify f).
Proof. intros Hf d t a d' t' [= <- <- <-]. destruct (Hf t). by apply reported_same. Qed.

Lemma reports_record (P : record_op → Prop) op : P op → reports_only P (record op).
Proof.
  intros HP d t a d' t'. unfold record, Hardware.bind, get_test, Hardware.lift, modify. cbn [res_bind fst snd].
  destruct (run_op op (test_results t)) as [[b st]|e] eqn:E; cbn [res_bind snd]; [|done]. intros [= <- <- <-].
  exists [op]. split; [done|]. split; [by repeat constructor|]. cbn. by rewrite E.
Qed.

Lemma reports_fold P {T S} (body : T → S → test S) l s :
  (∀ x s, reports_only P (body x s)) → reports_only P (io_fold body l s).
Proof.
  intros Hb. revert s. induction l as [|x l IH]; intros s; [apply reports_ret|].
  apply reports_bind; [apply Hb|apply IH].
Qed.

Lemma reports_while P {S A} p (body : S → test (S + A)) s :
  (∀ s, reports_only P (body s)) → reports_only P (io_while p body s).
Proof.
  intros Hb. revert s. induction p as [|p IH] using Pos.peano_ind; intros s d t a d' t'.
  - rewrite io_while_one. destruct (body s (d, t)) as [[[s'|b] [d1 t1]]|e] eqn:E; try done.
    intros [= <- <- <-]. by eapply Hb.
  - rewrite io_while_succ. destruct (body s (d, t)) as [[[s'|b] [d1 t1]]|e] eqn:E; try done.
    + intros F. eapply reported_trans; [by eapply Hb|by eapply IH].
    + intros [= <- <- <-]. by eapply Hb.
Qed.
End reports.

Create HintDb reports.
#[export] Hint Resolve reports_ret reports_lift reports_assert reports_machine reports_get_test reports_get_group reports_get_vars : reports.

(** Follows the structure of a computation; a definition without a lemma is
    unfolded. *)
Ltac head_of t := lazymatch t with ?f _ => head_of f | _ => t end.
Ltac reports :=
  intros; cbv beta zeta;
  lazymatch goal with
  | |- reports_only _ (Hardware.bind _ _) => apply reports_bind; [|intros ?]; reports
  | |- reports_only _ (record _) => apply reports_record; first [done | split; [done|]; split; [done|]; first [by left | by right]]
  | |- reports_only _ (modify _) => apply reports_modify; done
  | |- reports_only _ (io_fold _ _ _) => apply reports_fold; reports
  | |- reports_only _ (io_while _ _ _) => apply reports_while; reports
  | |- reports_only _ ?m =>
      let h := head_of m in
      lazymatch h with
      | match ?x with _ => _ end => destruct x; reports
      | _ => first [solve [eauto 1 with reports] | progress unfold h; reports]
      end
  end.

(** ** Tables of functions *)
Section tables.
Context {D G V : Type}.

#[local] Abbreviation code := (Tests.code D G V).
#[local] Abbreviation table := (list (string * code)).

(** Assertions of a case; results of a configuration; results of a group. *)
Definition of_case (cls id : Z) (op : record_op) : Prop :=
  match op with RecAssertion c i _ _ _ _ => c = cls ∧ i = id ∧ op_typed op | _ => False end.
Definition of_config (op : record_op) : Prop := match op with RecConfigItem _ _ _ => True | _ => False end.
Definition of_group (op : record_op) : Prop := match op with RecGroup _ _ _ => True | _ => False end.
Definition nothing (op : record_op) : Prop := False.

(** What failed stays failed. *)
Lemma failed_stays cls id tested ops st st' :
  Forall (of_case cls id) ops → at_case cls id false tested st → replay ops st = Ok st' →
  ∃ tested', at_case cls id false tested' st'.
Proof.
  revert st tested. induction ops as [|op ops IH]; intros st tested Hf Hat; [intros [= <-]; by exists tested|].
  apply Forall_cons in Hf as [Hop Hf]. unfold replay. cbn [fold_res].
  destruct op as [c i aid ty r msg| |]; cbn [of_case] in Hop; [|done..]. destruct Hop as (-> & -> & _). cbn [run_op].
  destruct (record_at cls id false tested aid ty r msg st Hat) as (st1 & -> & A). cbn [res_bind snd]. by apply (IH _ _ Hf A).
Qed.

Lemma failed_verdict {A} cls id (m : Tests.test D G V A) (g : G) tested d t a d' t' :
  reports_only (of_case cls id) m → at_test g cls id false tested t → m (d, t) = Ok (a, (d', t')) →
  teeio_test_case_result cls id (test_results t') = Ok TEEIO_TEST_RESULT_FAILED.
Proof.
  intros Hm [_ Hat] E. destruct (Hm _ _ _ _ _ E) as (ops & _ & Hf & Hr).
  destruct (failed_stays _ _ _ _ _ _ Hf Hat Hr) as [tested' A']. by rewrite (case_result_at _ _ _ _ _ A').
Qed.

Definition code_ok (c : code) : Prop :=
  match c with
  | Config f => reports_only of_config f
  | Tests.Group f => reports_only of_group f
  | Setup f => reports_only nothing f
  | Run f => ∀ cls id, reports_only (of_case cls id) (f cls id)
  | Teardown f => reports_only nothing f
  end.

Lemma find_code_ok f (l : table) c :
  find_code f l = Some c → Forall (λ e, code_ok (snd e)) l → code_ok c.
Proof.
  induction l as [|[g c'] l IH]; cbn [find_code]; [done|]. intros Hf [Hc Hl]%Forall_cons.
  case_decide; [by injection Hf as <-|by apply IH].
Qed.

(** An entry of a table without repeated names is found. *)
Lemma find_code_lookup n f c (l : table) : NoDup l.*1 → l !! n = Some (f, c) → find_code f l = Some c.
Proof.
  revert n. induction l as [|[f' c'] l IH]; intros n Hn Hl; [done|].
  apply NoDup_cons in Hn as [Hf Hn]. cbn [find_code]. destruct n as [|n]; [injection Hl as -> ->; by rewrite decide_True|].
  rewrite decide_False; [by apply (IH n)|]. intros ->. apply Hf, list_elem_of_fmap. exists (f', c). split; [done|].
  by eapply list_elem_of_lookup_2.
Qed.

(** What a function may report when it is called in a context. *)
Definition may_report (c : code) (ctx : context) (op : record_op) : Prop :=
  match c, ctx with
  | Config _, CtxConfig _ _ => of_config op
  | Tests.Group _, CtxGroup _ _ => of_group op
  | Run _, CtxCase cls id => of_case cls id op
  | _, _ => False
  end.

Lemma may_report_case c cls id op : may_report c (CtxCase cls id) op → of_case cls id op.
Proof. by destruct c. Qed.

Lemma may_report_typed c ctx op : may_report c ctx op → op_typed op.
Proof. destruct c, ctx, op; cbn; tauto. Qed.

Lemma run_code_reports c ctx m : code_ok c → run_code c ctx = Some m → reports_only (may_report c ctx) m.
Proof.
  intros Hc. destruct c, ctx; cbn [run_code]; intros [= <-]; cbn [code_ok] in Hc; try exact Hc.
  - apply reports_bind; [apply Hc|intros _; apply reports_ret].
  - apply reports_bind; [apply Hc|intros _; apply reports_ret].
Qed.

(** *** A table whose functions report what they may *)
Section reporting.
Context (table : list (string * code)) (enter : context → G → G).
Context (table_ok : Forall (λ e, code_ok (snd e)) table).

#[local] Abbreviation the_code := (table_code table enter).

Lemma code_call f ctx st w o :
  the_code f ctx st w = Ok o →
  ∃ c, find_code f table = Some c ∧ Forall (may_report c ctx) (out_ops o) ∧
       replay (out_ops o) st = Ok (test_results (snd (out_world o))).
Proof.
  unfold table_code. destruct (find_code _ _) as [c|] eqn:Hc; [|done]. cbn [deref res_bind].
  destruct (run_code c ctx) as [m|] eqn:Hm; [|done]. cbn [deref res_bind]. unfold call_code.
  destruct (m _) as [[b [d t]]|e] eqn:E; cbn [res_bind]; [|done]. intros [= <-]. cbn [out_ops out_world snd].
  destruct (run_code_reports c ctx m (find_code_ok _ _ _ Hc table_ok) Hm _ _ _ _ _ E) as (ops & Hr & Hf & Hp).
  cbn in Hr. subst ops. by exists c.
Qed.

Lemma code_replays f ctx st w o :
  the_code f ctx st w = Ok o → replay (out_ops o) st = Ok (test_results (snd (out_world o))).
Proof. intros Ho. by destruct (code_call f ctx st w o Ho) as (_ & _ & _ & Hp). Qed.

End reporting.

(** *** The types of the pointers *)
Inductive pointer_type := ConfigFunc | GroupFunc | SetupFunc | RunFunc | TeardownFunc.

#[export] Instance pointer_type_eq_dec : EqDecision pointer_type.
Proof. solve_decision. Defined.

Definition pointer_type_of (c : code) : pointer_type :=
  match c with
  | Config _ => ConfigFunc | Tests.Group _ => GroupFunc | Setup _ => SetupFunc | Run _ => RunFunc
  | Teardown _ => TeardownFunc
  end.

Definition pointers (k : pointer_type) (f : fptr) : list (string * pointer_type) :=
  match f with Some name => [(name, k)] | None => [] end.

(** The functions of a library's tables, with the type of their pointer. *)
Definition registered (configs : list TestLib.ide_test_config_funcs_t) (groups : list TestLib.ide_test_group_funcs_t)
    (cases : list TestLib.TEEIO_TEST_CASES) : list (string * pointer_type) :=
  flat_map (λ fs, flat_map (pointers ConfigFunc)
              [TestLib.cf_enable fs; TestLib.cf_disable fs; TestLib.cf_support fs; TestLib.cf_check fs]) configs ++
  flat_map (λ fs, flat_map (pointers GroupFunc) [TestLib.gf_setup fs; TestLib.gf_teardown fs]) groups ++
  flat_map (λ fs, pointers SetupFunc (TestLib.tf_setup fs) ++ pointers RunFunc (TestLib.tf_run fs) ++
                  pointers TeardownFunc (TestLib.tf_teardown fs))
           (flat_map TestLib.tcs_funcs cases).

(** Every registered function has a definition of the type of its pointer. *)
Definition well_typed (reg : list (string * pointer_type)) (table : list (string * code)) : bool :=
  forallb (λ '(f, k), match find_code f table with Some c => bool_decide (pointer_type_of c = k) | None => false end) reg.

Lemma well_typed_find reg (table : list (string * code)) f k :
  well_typed reg table = true → (f, k) ∈ reg → ∃ c, find_code f table = Some c ∧ pointer_type_of c = k.
Proof.
  intros Hall Hf. pose proof (proj1 (forallb_forall _ _) Hall (f, k) (proj1 (list_elem_of_In _ _) Hf)) as E.
  cbv beta iota in E. destruct (find_code f _) as [c|]; [|done]. exists c. split; [done|]. by case_bool_decide.
Qed.

(** The context that is passed through a pointer of the type. *)
Definition passed_to (k : pointer_type) (ctx : context) : bool :=
  match k, ctx with
  | ConfigFunc, CtxConfig _ _ | GroupFunc, CtxGroup _ _ | (SetupFunc | RunFunc | TeardownFunc), CtxCase _ _ => true
  | _, _ => false
  end.

Lemma run_code_typed (c : code) ctx : passed_to (pointer_type_of c) ctx = true → ∃ m, run_code c ctx = Some m.
Proof. destruct c, ctx; cbn; intros H; try done; by eexists. Qed.

(** A call through a registered pointer runs a definition. *)
Lemma typed_call reg (table : list (string * code)) enter f k ctx st w :
  well_typed reg table = true → (f, k) ∈ reg → passed_to k ctx = true →
  ∃ m, table_code table enter f ctx st w = call_code m (begin_call enter ctx st) w.
Proof.
  intros Ht Hf Hc. destruct (well_typed_find _ _ _ _ Ht Hf) as (c & E & <-).
  destruct (run_code_typed c ctx Hc) as [m Em]. exists m. unfold table_code. by rewrite E; cbn; rewrite Em.
Qed.
End tables.

(** Finds the entry of a name in a table; [H] says that no name is repeated. *)
Fixpoint position (f : string) (names : list string) : nat :=
  match names with [] => O | g :: names => if String.eqb f g then O else S (position f names) end.
Ltac in_table H :=
  lazymatch goal with
  | |- find_code ?f ?l = _ => let n := eval vm_compute in (position f l.*1) in apply (find_code_lookup n); [apply H|reflexivity]
  end.

End TestsSpec.
