(* ===== verification/PcieTests.v ===== *)
(** * The PCIe IDE test cases (library/pcie_ide_test_lib/test_case/)

    A test case sends IDE_KM messages and reports what it finds of the
    answers.  Computations are those of Tests.v with the group's context of PCIe and the
    variables below; the buffers of the IDE registers in a query are never
    read. *)
From Stdlib Require Import ZArith Lia Ascii String.
From stdpp Require Import prelude gmap.
From S2P Require Import Prelude Utils KeyOrder Libspdm TestConfig Results Engine Hardware PcieIde Kcbar IdeKm Ports Spdm Tests.

Open Scope Z_scope.
Open Scope teeio_scope.

Module PcieTests.
Import TestConfig Results Engine Hardware PcieIde Kcbar IdeKm Ports Spdm Utils.PcieHelper Tests.

(** ** What libspdm adds for the tests *)
Class IdeKmTester (D : Type) := {
  PCI_IDE_KM_OBJECT_ID_QUERY : Z;
  PCI_IDE_KM_OBJECT_ID_QUERY_RESP : Z;
  PCI_IDE_KM_OBJECT_ID_KEY_PROG : Z;
  PCI_IDE_KM_OBJECT_ID_KP_ACK : Z;
  PCI_IDE_KM_OBJECT_ID_K_SET_STOP : Z;
  PCI_IDE_KM_KP_ACK_STATUS_INCORRECT_LENGTH : Z;
  PCI_IDE_KM_KP_ACK_STATUS_UNSUPPORTED_PORT_INDEX : Z;
  PCI_IDE_KM_KP_ACK_STATUS_UNSUPPORTED_VALUE : Z;
  PCI_IDE_KM_KEY_SET_MASK : Z;
  PCI_IDE_KM_KEY_DIRECTION_MASK : Z;
  PCI_IDE_KM_KEY_SUB_STREAM_MASK : Z;
  sizeof_pci_ide_km_query_t : Z;
  sizeof_pci_ide_km_query_resp_t : Z;
  sizeof_test_pci_ide_km_query_resp_t : Z;
  sizeof_test_pci_ide_km_key_prog_t : Z;
  sizeof_pci_ide_km_kp_ack_t : Z;
  sizeof_pci_ide_km_k_set_stop_t : Z
}.

(** ** The variables of the library *)
Record pcie_vars := {
  m_keyprog_max_port : Z;
  mMaxPortIndex : Z;
  mKeySet : Z;
  m_spdm_session_1_session_y : Z
}.

Definition with_keyprog_max (v : Z) (t : pcie_vars) : pcie_vars :=
  {| m_keyprog_max_port := v; mMaxPortIndex := mMaxPortIndex t; mKeySet := mKeySet t;
     m_spdm_session_1_session_y := m_spdm_session_1_session_y t |}.
Definition with_query_max (v : Z) (t : pcie_vars) : pcie_vars :=
  {| m_keyprog_max_port := m_keyprog_max_port t; mMaxPortIndex := v; mKeySet := mKeySet t;
     m_spdm_session_1_session_y := m_spdm_session_1_session_y t |}.
Definition with_keyset (v : Z) (t : pcie_vars) : pcie_vars :=
  {| m_keyprog_max_port := m_keyprog_max_port t; mMaxPortIndex := mMaxPortIndex t; mKeySet := v;
     m_spdm_session_1_session_y := m_spdm_session_1_session_y t |}.
Definition with_session_y (v : Z) (t : pcie_vars) : pcie_vars :=
  {| m_keyprog_max_port := m_keyprog_max_port t; mMaxPortIndex := mMaxPortIndex t; mKeySet := mKeySet t;
     m_spdm_session_1_session_y := v |}.

Abbreviation pcie_test_state := (test_state pcie_ide_test_group_context_t pcie_vars).

(** ** The messages' parts *)

Definition stream_names : list (Z * Z * bytes) :=
  [(PCIE_IDE_STREAM_RX, PCIE_IDE_SUB_STREAM_PR, bs "RX|PR"); (PCIE_IDE_STREAM_RX, PCIE_IDE_SUB_STREAM_NPR, bs "RX|NPR");
   (PCIE_IDE_STREAM_RX, PCIE_IDE_SUB_STREAM_CPL, bs "RX|CPL"); (PCIE_IDE_STREAM_TX, PCIE_IDE_SUB_STREAM_PR, bs "TX|PR");
   (PCIE_IDE_STREAM_TX, PCIE_IDE_SUB_STREAM_NPR, bs "TX|NPR"); (PCIE_IDE_STREAM_TX, PCIE_IDE_SUB_STREAM_CPL, bs "TX|CPL")].
Definition rx_streams : list (Z * Z * bytes) := take 3 stream_names.
Definition tx_streams : list (Z * Z * bytes) := drop 3 stream_names.

(** "K0|" or "K1|" and the name of a stream *)
Definition case_name_of (ks : Z) (stream : bytes) : bytes := bs "K" ++ dec ks ++ bs "|" ++ stream.

Section tests.
Context {D : Type} `{Bus D} `{Clock D} `{Os D} `{Alloc (D * process)} `{Libspdm}.
Context `{IdeKmRequester (D * process)} `{IdeKmTester (D * process)} `{SpdmRequester (D * process)}.
Context (g_teeio_fixed_key : bool) (tries : positive).

#[local] Abbreviation State := (D * process)%type.
#[local] Abbreviation test := (Tests.test D pcie_ide_test_group_context_t pcie_vars).

Definition send_failed (cls id status : Z) : test unit :=
  record_test cls id 0 false (bs "pci_ide_km_send_receive_data failed with 0x" ++ hex status).

(** [PCI_IDE_KM_KEY_SET_K0], or K1, with direction and sub-stream *)
Definition sub_stream_of (ks direction substream : Z) : Z :=
  Z.lor (Z.lor (k_sets ks) (directions direction)) (substreams substream).

Definition message_size (size : Z) : bytes := bs "sizeof(IdeKmMessage) = 0x" ++ hex size.
Definition message_object (object : Z) : bytes := bs "IdeKmMessage.ObjectID = 0x" ++ hex object.
Definition message_port (port : Z) : bytes := bs "IdeKmMessage.PortIndex = 0x" ++ hex port.
Definition message_stream (sid : Z) : bytes := bs "IdeKmMessage.StreamID = 0x" ++ hex sid.
Definition message_sub_stream (key_sub_stream : Z) : bytes :=
  bs "IdeKmMessage.KeySet = 0x" ++ hex2 (Z.land key_sub_stream PCI_IDE_KM_KEY_SET_MASK) ++
  bs " && IdeKmMessage.RxTx = 0x" ++ hex2 (Z.land key_sub_stream PCI_IDE_KM_KEY_DIRECTION_MASK) ++
  bs " && IdeKmMessage.SubStream = 0x" ++ hex2 (Z.land key_sub_stream PCI_IDE_KM_KEY_SUB_STREAM_MASK).

(** The last checks of every acknowledgement: port, stream, sub-stream. *)
Definition check_echo (cls id base : Z) (request response : ide_km_message) : test unit :=
  let+ _ := record_test cls id base (km_port_index response =? km_port_index request) (message_port (km_port_index response)) in
  let+ _ := record_test cls id (base + 1) (km_stream_id response =? km_stream_id request)
              (message_stream (km_stream_id response)) in
  record_test cls id (base + 2) (km_key_sub_stream response =? km_key_sub_stream request)
    (message_sub_stream (km_key_sub_stream response)).

(** ** Query (test_case_query_1.c, test_case_query_2.c) *)

Definition query_request (port_index : Z) : ide_km_message := k_set_request PCI_IDE_KM_OBJECT_ID_QUERY 0 0 port_index.

Definition pcie_ide_test_query (session port_index cls id : Z) : test unit :=
  let request := query_request port_index in
  let+ (status, response_size, response) :=
    machine (pci_ide_km_send_receive_data session request sizeof_pci_ide_km_query_t) in
  if LIBSPDM_STATUS_IS_ERROR status then send_failed cls id status else
  let ide_reg_count := u32 (response_size - sizeof_pci_ide_km_query_resp_t) / 4 in
  let res := response_size =? sizeof_pci_ide_km_query_resp_t + ide_reg_count * 4 in
  let+ _ := record_test cls id 1 res (message_size response_size) in
  if negb res then ret tt else
  let+ _ := record_test cls id 2 (km_object_id response =? PCI_IDE_KM_OBJECT_ID_QUERY_RESP)
              (message_object (km_object_id response)) in
  let+ _ := record_test cls id 3 (km_port_index response =? km_port_index request) (message_port (km_port_index response)) in
  record_test cls id 4 (km_port_index request <=? km_max_port_index response)
    (bs "IdeKmMessage.MaxPortIndex = 0x" ++ hex (km_max_port_index response)).

(** [TEEIO_ASSERT] of the SPDM context and the session *)
Definition assert_session (g : pcie_ide_test_group_context_t) : test unit :=
  let+ _ := io_assert (negb (spdm_context g =? 0)) in
  io_assert (negb (session_id g =? 0)).

Definition pcie_ide_test_query_1_setup : test bool := ret true.

Definition pcie_ide_test_query_1_run (cls id : Z) : test unit :=
  let+ g := get_group in
  let+ _ := assert_session g in
  pcie_ide_test_query (session_id g) 0 cls id.

Definition pcie_ide_test_query_2_setup : test bool :=
  let+ g := get_group in
  let+ _ := assert_session g in
  let+ (status, answer) := machine (pci_ide_km_query (session_id g) 0) in
  if LIBSPDM_STATUS_IS_ERROR status then ret false else
  if answer_max_port_index answer =? 0 then let+ _ := modify with_skip in ret true else
  let+ _ := set_vars (with_query_max (answer_max_port_index answer)) in
  ret true.

Definition pcie_ide_test_query_2_run (cls id : Z) : test unit :=
  let+ g := get_group in
  let+ _ := assert_session g in
  let+ v := get_vars in
  pcie_ide_test_query (session_id g) (mMaxPortIndex v) cls id.

Definition pcie_ide_test_query_2_teardown : test unit := set_vars (with_query_max 0).

(** ** KeyProg (test_case_keyprog_1.c to _6.c) *)

Definition key_prog_request (sid key_sub_stream port_index : Z) (key iv : bytes) : ide_km_message :=
  {| km_object_id := PCI_IDE_KM_OBJECT_ID_KEY_PROG; km_stream_id := sid; km_key_sub_stream := key_sub_stream;
     km_port_index := port_index; km_status := 0; km_dev_func_num := 0; km_bus_num := 0; km_segment := 0;
     km_max_port_index := 0; km_key := key; km_iv := iv |}.

(** The six functions differ in the size they announce, the status they
    expect and the formats of two messages. *)
Definition test_ide_km_key_prog (request_size expected : Z) (object_format status_format : Z → bytes)
    (session sid key_sub_stream port_index : Z) (key iv : bytes) (case_info : bytes) (cls id : Z) : test unit :=
  let+ _ := record_separator cls id case_info in
  let request := key_prog_request sid key_sub_stream port_index key iv in
  let+ (status, response_size, response) := machine (pci_ide_km_send_receive_data session request request_size) in
  if LIBSPDM_STATUS_IS_ERROR status then send_failed cls id status else
  let res := response_size =? sizeof_pci_ide_km_kp_ack_t in
  let+ _ := record_test cls id 1 res (message_size response_size) in
  if negb res then ret tt else
  let+ _ := record_test cls id 2 (km_object_id response =? PCI_IDE_KM_OBJECT_ID_KP_ACK)
              (bs "IdeKmMessage.ObjectID = 0x" ++ object_format (km_object_id response)) in
  let+ _ := record_test cls id 3 (km_status response =? expected)
              (bs "IdeKmMessage.Status = 0x" ++ status_format (km_status response)) in
  check_echo cls id 4 request response.

Definition test_ide_km_key_prog_case1 :=
  test_ide_km_key_prog sizeof_test_pci_ide_km_key_prog_t PCI_IDE_KM_KP_ACK_STATUS_SUCCESS hex hex2.
Definition test_ide_km_key_prog_case2 (request_size : Z) :=
  test_ide_km_key_prog request_size PCI_IDE_KM_KP_ACK_STATUS_INCORRECT_LENGTH hex hex2.
Definition test_ide_km_key_prog_case3 :=
  test_ide_km_key_prog sizeof_test_pci_ide_km_key_prog_t PCI_IDE_KM_KP_ACK_STATUS_UNSUPPORTED_PORT_INDEX hex2 hex.
Definition test_ide_km_key_prog_case4 :=
  test_ide_km_key_prog sizeof_test_pci_ide_km_key_prog_t PCI_IDE_KM_KP_ACK_STATUS_UNSUPPORTED_VALUE hex hex2.
Definition test_ide_km_key_prog_case5 := test_ide_km_key_prog_case4.
Definition test_ide_km_key_prog_case6 := test_ide_km_key_prog_case4.

Definition test_keyprog_setup_common : test bool :=
  let+ g := get_group in
  let+ _ := assert_session g in
  let+ (status, answer) := machine (pci_ide_km_query (session_id g) 0) in
  if LIBSPDM_STATUS_IS_ERROR status then let+ _ := io_assert false in ret false else
  let+ _ := set_vars (with_keyprog_max (answer_max_port_index answer)) in
  ret true.

(** A fresh key; without random numbers the test stops. *)
Definition random_key : test bytes :=
  let+ (result, key) := machine (libspdm_get_random_number PCIE_IDE_KEY_SIZE) in
  let+ _ := io_assert result in
  ret key.

(** The IV of the message in memory: iv[0] is 0. *)
Definition message_iv (iv1 : Z) : bytes := le_bytes 4 0 ++ le_bytes 4 iv1.

(** The port index of the device, [lower_port.port->port_index] *)
Definition device_port (g : pcie_ide_test_group_context_t) : Z := port_index (port (lower_port g)).
Definition kcbar (g : pcie_ide_test_group_context_t) : Z := mapped_kcbar_addr (upper_port g).

(** "program key in root port kcbar registers" *)
Definition program_root_port (g : pcie_ide_test_group_context_t) (ks direction substream : Z) (key : bytes) : test unit :=
  let+ (_, keys) := lift (KeyOrder.pcie_construct_rp_keys (Some key) PCIE_IDE_KEY_SIZE (Some (replicate 32 0)) PCIE_IDE_KEY_SIZE) in
  let+ slot_id := lift (get_slot_id (k_set g) direction substream) in
  machine (cfg_rootport_ide_keys (kcbar g) (rp_stream_index g) direction ks substream slot_id keys rp_iv).

Definition keyprog_1_stream (g : pcie_ide_test_group_context_t) (cls id : Z) (s : Z * Z * bytes) : test unit :=
  let '(direction, substream, name) := s in
  let+ key := random_key in
  let+ _ := test_ide_km_key_prog_case1 (session_id g) (stream_id g) (sub_stream_of PCIE_IDE_STREAM_KS0 direction substream)
              (device_port g) key (message_iv 1) (case_name_of 0 name) cls id in
  program_root_port g PCIE_IDE_STREAM_KS0 direction substream key.

Definition pcie_ide_test_keyprog_1_setup : test bool := test_keyprog_setup_common.

Definition pcie_ide_test_keyprog_1_run (cls id : Z) : test unit :=
  let+ g := get_group in
  let+ _ := random_key in
  let+ _ := io_fold (λ s _, keyprog_1_stream g cls id s) rx_streams tt in
  let+ _ := machine (prime_rp_ide_key_set (kcbar g) (rp_stream_index g) PCIE_IDE_STREAM_RX PCIE_IDE_STREAM_KS0) in
  let+ _ := io_fold (λ s _, keyprog_1_stream g cls id s) tx_streams tt in
  machine (prime_rp_ide_key_set (kcbar g) (rp_stream_index g) PCIE_IDE_STREAM_TX PCIE_IDE_STREAM_KS0).

(** The other cases go through the streams with the number of the
    stream, counted from 1, in what makes the request wrong. *)
Definition keyprog_streams (f : Z → Z * Z * bytes → bytes → test unit) : test unit :=
  let+ _ := random_key in
  io_fold (λ '(i, s) _, let+ key := random_key in f i s key) (zip (seqZ 1 6) stream_names) tt.

Definition pcie_ide_test_keyprog_2_setup : test bool := test_keyprog_setup_common.

(** The announced size is too small, by 4 to 24 bytes. *)
Definition pcie_ide_test_keyprog_2_run (cls id : Z) : test unit :=
  let+ g := get_group in
  keyprog_streams (λ i '(direction, substream, name) key,
    test_ide_km_key_prog_case2 (s32 (sizeof_test_pci_ide_km_key_prog_t - 4 * i)) (session_id g) (stream_id g)
      (sub_stream_of PCIE_IDE_STREAM_KS0 direction substream) (device_port g) key (message_iv 1) (case_name_of 0 name) cls id).

Definition pcie_ide_test_keyprog_3_setup : test bool :=
  let+ g := get_group in
  let+ _ := assert_session g in
  let+ res := test_keyprog_setup_common in
  let+ v := get_vars in
  let+ _ := (if res && (m_keyprog_max_port v =? 0xff) then modify with_skip else ret tt) in
  ret res.

(** Port indices behind the last one, in eight bits. *)
Definition pcie_ide_test_keyprog_3_run (cls id : Z) : test unit :=
  let+ g := get_group in
  keyprog_streams (λ i '(direction, substream, name) key,
    let+ v := get_vars in
    test_ide_km_key_prog_case3 (session_id g) (stream_id g)
      (sub_stream_of PCIE_IDE_STREAM_KS0 direction substream) (u8 (m_keyprog_max_port v + i)) key (message_iv 1)
      (case_name_of 0 name) cls id).

Definition pcie_ide_test_keyprog_4_setup : test bool := test_keyprog_setup_common.

(** The sub-streams 3, 4 and 5. *)
Definition pcie_ide_test_keyprog_4_run (cls id : Z) : test unit :=
  let+ g := get_group in
  keyprog_streams (λ i '(direction, substream, name) key,
    let+ bad := lift (array_get [0x30; 0x40; 0x50] substream) in
    test_ide_km_key_prog_case4 (session_id g) (stream_id g)
      (Z.lor (Z.lor (k_sets PCIE_IDE_STREAM_KS0) (directions direction)) bad) (device_port g) key (message_iv 1)
      (case_name_of 0 name) cls id).

Definition pcie_ide_test_keyprog_5_setup : test bool := test_keyprog_setup_common.

(** Initial values 2 to 7. *)
Definition pcie_ide_test_keyprog_5_run (cls id : Z) : test unit :=
  let+ g := get_group in
  keyprog_streams (λ i '(direction, substream, name) key,
    test_ide_km_key_prog_case5 (session_id g) (stream_id g)
      (sub_stream_of PCIE_IDE_STREAM_KS0 direction substream) (device_port g) key (message_iv (1 + i)) (case_name_of 0 name) cls id).

Definition pcie_ide_test_keyprog_6_setup : test bool := test_keyprog_setup_common.

(** Other stream ids, in eight bits. *)
Definition pcie_ide_test_keyprog_6_run (cls id : Z) : test unit :=
  let+ g := get_group in
  keyprog_streams (λ i '(direction, substream, name) key,
    test_ide_km_key_prog_case6 (session_id g) (u8 (stream_id g + i))
      (sub_stream_of PCIE_IDE_STREAM_KS0 direction substream) (device_port g) key (message_iv 1) (case_name_of 0 name) cls id).

(** ** Starting and stopping key sets: the exchange and its checks *)

(** K_SET_GO and K_SET_STOP are checked alike; the first check compares with
    the size of another acknowledgement. *)
Definition test_k_set (object_id request_size base session sid key_sub_stream port_index : Z) (case_info : bytes)
    (cls id : Z) : test unit :=
  let+ _ := record_separator cls id case_info in
  let request := k_set_request object_id sid key_sub_stream port_index in
  let+ (status, response_size, response) := machine (pci_ide_km_send_receive_data session request request_size) in
  if LIBSPDM_STATUS_IS_ERROR status then send_failed cls id status else
  let res := response_size =? sizeof_pci_ide_km_kp_ack_t in
  let+ _ := record_test cls id (base + 1) res (message_size response_size) in
  if negb res then ret tt else
  let+ _ := record_test cls id (base + 2) (km_object_id response =? PCI_IDE_KM_OBJECT_ID_K_SET_GOSTOP_ACK)
              (message_object (km_object_id response)) in
  check_echo cls id (base + 3) request response.

Definition test_ide_km_key_set_go (session sid key_sub_stream port_index : Z) (phase1 : bool) :=
  test_k_set PCI_IDE_KM_OBJECT_ID_K_SET_GO sizeof_pci_ide_km_k_set_go_t (if phase1 then 0 else 5) session sid key_sub_stream
    port_index.

Definition test_pci_ide_km_key_set_stop (session sid key_sub_stream port_index : Z) :=
  test_k_set PCI_IDE_KM_OBJECT_ID_K_SET_STOP sizeof_pci_ide_km_k_set_stop_t 0 session sid key_sub_stream port_index.

(** The type of the stream registers; both kinds at once are not implemented. *)
Definition ide_type_of_group {V} (g : pcie_ide_test_group_context_t) : Tests.test D pcie_ide_test_group_context_t V Z :=
  if top_type (top g) =? IDE_TEST_TOPOLOGY_TYPE_LINK_IDE then ret IDE_TEST_TOPOLOGY_TYPE_LINK_IDE
  else if top_type (top g) =? IDE_TEST_TOPOLOGY_TYPE_SEL_LINK_IDE then let+ _ := io_assert false in ret TEST_IDE_TYPE_SEL_IDE
  else ret TEST_IDE_TYPE_SEL_IDE.

(** The stream switched on or off, in the device and then in the root port. *)
Definition enable_stream (g : pcie_ide_test_group_context_t) (ide_type : Z) (enable : bool) : test unit :=
  let up := upper_port g in
  let low := lower_port g in
  let+ _ := machine (enable_ide_stream_in_ecap (cfg_space_fd low) (ecap_offset low) ide_type (ide_id low) enable) in
  machine (enable_rootport_ide_stream (cfg_space_fd up) (ecap_offset up) ide_type (ide_id up) (kcbar g) (rp_stream_index g) enable).

Definition stream_secure (g : pcie_ide_test_group_context_t) (ide_type : Z) : test bool :=
  let up := upper_port g in
  let low := lower_port g in
  machine (is_ide_stream_secure ide_type (cfg_space_fd up) (ecap_offset up) (ide_id up)
             (cfg_space_fd low) (ecap_offset low) (ide_id low)).

(** [setup_ide_stream] and [ide_key_switch_to] with the fields of the group *)
Definition setup_stream (ks : Z) (skip_ksetgo : bool) : test bool :=
  let+ g := get_group in
  machine (setup_ide_stream (session_id g) g_teeio_fixed_key (kcbar g) (stream_id g) ks (k_set g) (rp_stream_index g)
             (device_port g) (top_type (top g)) (upper_port g) (lower_port g) skip_ksetgo).

Definition switch_stream (ks : Z) (skip_ksetgo : bool) : test bool :=
  let+ g := get_group in
  let+ (res, keys) :=
    machine (ide_key_switch_to (session_id g) tries g_teeio_fixed_key (kcbar g) (stream_id g) (k_set g) (rp_stream_index g)
               (device_port g) (top_type (top g)) (upper_port g) (lower_port g) ks skip_ksetgo) in
  let+ _ := modify (λ t, with_group (with_stream (stream_id g) (rp_stream_index g) keys (group t)) t) in
  ret res.

(** ** KSetGo (test_case_ksetgo_1.c to _4.c) *)

(** The query and the six keys, all of which must succeed. *)
Definition test_ksetgo_setup_common (ks : Z) : test bool :=
  let+ g := get_group in
  let prog '(direction, substream, _) :=
    let+ result := machine (ide_km_key_prog (session_id g) g_teeio_fixed_key ks direction substream (device_port g) (stream_id g)
                              (kcbar g) (k_set g) (rp_stream_index g)) in
    io_assert result in
  let+ (status, _) := machine (pci_ide_km_query (session_id g) (device_port g)) in
  if LIBSPDM_STATUS_IS_ERROR status then let+ _ := io_assert false in ret false else
  let+ _ := io_fold (λ (s : Z * Z * bytes) _, prog s) rx_streams tt in
  let+ _ := machine (prime_rp_ide_key_set (kcbar g) (rp_stream_index g) PCIE_IDE_STREAM_RX ks) in
  let+ _ := io_fold (λ (s : Z * Z * bytes) _, prog s) tx_streams tt in
  let+ _ := machine (prime_rp_ide_key_set (kcbar g) (rp_stream_index g) PCIE_IDE_STREAM_TX ks) in
  ret true.

(** The six starts; from the middle on the root port transmits with the key
    set [select], if nothing failed so far. *)
Definition ksetgo_starts (g : pcie_ide_test_group_context_t) (ks select : Z) (phase1 : bool) (cls id : Z) : test unit :=
  let go '(direction, substream, name) :=
    test_ide_km_key_set_go (session_id g) (stream_id g) (sub_stream_of ks direction substream) (device_port g) phase1
      (case_name_of ks name) cls id in
  let+ _ := io_fold (λ (s : Z * Z * bytes) _, go s) rx_streams tt in
  let+ result := case_result_of cls id in
  let+ _ := (if decide (result = TEEIO_TEST_RESULT_PASS)
             then machine (set_rp_ide_key_set_select (kcbar g) (rp_stream_index g) select) else ret tt) in
  io_fold (λ (s : Z * Z * bytes) _, go s) tx_streams tt.

(** Only after all starts passed the stream is enabled; false if not. *)
Definition ksetgo_enable (g : pcie_ide_test_group_context_t) (cls id : Z) : test (option Z) :=
  let+ result := case_result_of cls id in
  if decide (result = TEEIO_TEST_RESULT_PASS) then
    let+ ide_type := ide_type_of_group g in
    let+ _ := enable_stream g ide_type true in
    let+ _ := sleep (10 * 1000) in
    ret (Some ide_type)
  else ret None.

(** [test_full_ide_km_key_set_stop] *)
Definition test_full_ide_km_key_set_stop (session sid key_sub_stream port_index : Z) : test bool :=
  let request := k_set_request PCI_IDE_KM_OBJECT_ID_K_SET_STOP sid key_sub_stream port_index in
  let+ (status, response_size, response) :=
    machine (pci_ide_km_send_receive_data session request sizeof_pci_ide_km_k_set_stop_t) in
  ret (negb (LIBSPDM_STATUS_IS_ERROR status) &&
       (response_size =? sizeof_pci_ide_km_k_gostop_ack_t) &&
       (km_object_id response =? PCI_IDE_KM_OBJECT_ID_K_SET_GOSTOP_ACK) &&
       (km_port_index response =? km_port_index request) &&
       (km_stream_id response =? km_stream_id request) &&
       (km_key_sub_stream response =? km_key_sub_stream request)).

(** The stops until one fails. *)
Fixpoint stop_streams (g : pcie_ide_test_group_context_t) (ks : Z) (streams : list (Z * Z * bytes)) (res : bool) : test bool :=
  match streams with
  | [] => ret res
  | (direction, substream, _) :: streams =>
      let+ res := test_full_ide_km_key_set_stop (session_id g) (stream_id g) (Z.lor (Z.lor ks (directions direction)) (substreams substream))
                    (device_port g) in
      if negb res then ret false else stop_streams g ks streams res
  end.

Definition pcie_ide_teardown_common (ks : Z) : test bool :=
  let+ g := get_group in
  let+ ide_type := ide_type_of_group g in
  let+ _ := enable_stream g ide_type false in
  stop_streams g ks stream_names false.

Definition pcie_ide_test_ksetgo_1_setup : test bool :=
  let+ g := get_group in let+ _ := assert_session g in test_ksetgo_setup_common PCIE_IDE_STREAM_KS0.

Definition pcie_ide_test_ksetgo_1_run (cls id : Z) : test unit :=
  let+ g := get_group in
  let+ _ := ksetgo_starts g 0 PCIE_IDE_STREAM_KS0 true cls id in
  let+ enabled := ksetgo_enable g cls id in
  match enabled with
  | None => ret tt
  | Some ide_type =>
      let+ secure := stream_secure g ide_type in
      record_test cls id 6 secure (bs "ide_stream status is " ++ (if secure then bs "SECURE" else bs "INSECURE") ++ [10])
  end.

Definition pcie_ide_test_ksetgo_1_teardown : test unit :=
  let+ _ := pcie_ide_teardown_common PCI_IDE_KM_KEY_SET_K0 in ret tt.

Definition pcie_ide_test_ksetgo_2_setup : test bool :=
  let+ g := get_group in let+ _ := assert_session g in test_ksetgo_setup_common PCIE_IDE_STREAM_KS1.

(** As case 1, but the state of the stream is not checked. *)
Definition pcie_ide_test_ksetgo_2_run (cls id : Z) : test unit :=
  let+ g := get_group in
  let+ _ := ksetgo_starts g 1 PCIE_IDE_STREAM_KS1 true cls id in
  let+ _ := ksetgo_enable g cls id in
  ret tt.

Definition pcie_ide_test_ksetgo_2_teardown : test unit :=
  let+ _ := pcie_ide_teardown_common PCI_IDE_KM_KEY_SET_K1 in ret tt.

(** Start one key set, enable the stream; its state is read from the root port alone. *)
Definition ksetgo_run_phase1 (ks select cls id : Z) : test bool :=
  let+ g := get_group in
  let+ _ := ksetgo_starts g ks select true cls id in
  let+ enabled := ksetgo_enable g cls id in
  match enabled with
  | None => ret false
  | Some ide_type =>
      let+ stream_status :=
        machine (read_stream_status_in_rp_ecap (cfg_space_fd (upper_port g)) (ecap_offset (upper_port g)) ide_type
                   (ide_id (upper_port g))) in
      ret (status_state stream_status =? IDE_STREAM_STATUS_SECURE)
  end.

(** Start the other key set; the stream runs already. *)
Definition ksetgo_run_phase2 (ks select cls id : Z) : test bool :=
  let+ g := get_group in
  let+ _ := ksetgo_starts g ks select false cls id in
  let+ result := case_result_of cls id in
  let+ _ := (if decide (result = TEEIO_TEST_RESULT_PASS) then sleep (10 * 1000) else ret tt) in
  ret true.

Definition test_ksetgo_3_run_phase1 := ksetgo_run_phase1 0 PCI_IDE_KM_KEY_SET_K0.
Definition test_ksetgo_3_run_phase2 := ksetgo_run_phase2 1 PCIE_IDE_STREAM_KS1.
Definition test_ksetgo_4_run_phase1 := ksetgo_run_phase1 1 PCI_IDE_KM_KEY_SET_K1.
(** The device starts key set 0, but key set 1 is what the root port gets
    selected. *)
Definition test_ksetgo_4_run_phase2 := ksetgo_run_phase2 0 PCIE_IDE_STREAM_KS1.

Definition pcie_ide_test_ksetgo_3_setup : test bool := setup_stream PCI_IDE_KM_KEY_SET_K0 true.

Definition pcie_ide_test_ksetgo_3_run (cls id : Z) : test unit :=
  let+ res := test_ksetgo_3_run_phase1 cls id in
  if negb res then ret tt else
  let+ res := switch_stream PCIE_IDE_STREAM_KS1 true in
  if negb res then ret tt else
  let+ _ := test_ksetgo_3_run_phase2 cls id in ret tt.

Definition pcie_ide_test_ksetgo_3_teardown : test unit :=
  let+ _ := pcie_ide_teardown_common PCI_IDE_KM_KEY_SET_K1 in ret tt.

Definition pcie_ide_test_ksetgo_4_setup : test bool := setup_stream PCI_IDE_KM_KEY_SET_K1 true.

Definition pcie_ide_test_ksetgo_4_run (cls id : Z) : test unit :=
  let+ res := test_ksetgo_4_run_phase1 cls id in
  if negb res then ret tt else
  let+ res := switch_stream PCIE_IDE_STREAM_KS0 true in
  if negb res then ret tt else
  let+ _ := test_ksetgo_4_run_phase2 cls id in ret tt.

Definition pcie_ide_test_ksetgo_4_teardown : test unit :=
  let+ _ := pcie_ide_teardown_common PCI_IDE_KM_KEY_SET_K0 in ret tt.

(** ** KSetStop (test_case_ksetstop_1.c to _4.c) *)

(** The stream is disabled, then the six key streams are stopped and the
    answers checked. *)
Definition ksetstop_run (ks cls id : Z) : test unit :=
  let+ g := get_group in
  let+ ide_type := ide_type_of_group g in
  let+ _ := enable_stream g ide_type false in
  io_fold (λ '(direction, substream, name) _,
    test_pci_ide_km_key_set_stop (session_id g) (stream_id g) (sub_stream_of ks direction substream) (device_port g)
      (case_name_of ks name) cls id) stream_names tt.

Definition pcie_ide_test_ksetstop_1_setup : test bool := setup_stream PCI_IDE_KM_KEY_SET_K0 false.
Definition pcie_ide_test_ksetstop_1_run : Z → Z → test unit := ksetstop_run 0.

Definition pcie_ide_test_ksetstop_2_setup : test bool := setup_stream PCI_IDE_KM_KEY_SET_K1 false.
Definition pcie_ide_test_ksetstop_2_run : Z → Z → test unit := ksetstop_run 1.

Definition pcie_ide_test_ksetstop_3_setup : test bool :=
  let+ res := setup_stream PCI_IDE_KM_KEY_SET_K0 false in
  if negb res then ret false else switch_stream PCIE_IDE_STREAM_KS1 false.
Definition pcie_ide_test_ksetstop_3_run : Z → Z → test unit := ksetstop_run 1.

Definition pcie_ide_test_ksetstop_4_setup : test bool :=
  let+ res := setup_stream PCI_IDE_KM_KEY_SET_K1 false in
  if negb res then ret false else switch_stream PCI_IDE_KM_KEY_SET_K0 false.
Definition pcie_ide_test_ksetstop_4_run : Z → Z → test unit := ksetstop_run 0.

(** ** A second session (test_case_spdm_session_1.c, _2.c) *)

(** The message of the cases: a key of zeros for the first stream. *)
Definition session_key_prog (session sid port_index : Z) : test (Z * Z) :=
  machine (pci_ide_km_key_prog session sid
             (Z.lor (Z.lor PCI_IDE_KM_KEY_SET_K0 PCI_IDE_KM_KEY_DIRECTION_RX) PCI_IDE_KM_KEY_SUB_STREAM_PR)
             port_index (replicate 32 0) (message_iv PCIE_IDE_IV_INIT_VALUE)).

(** Query and key on the first session; false if one fails. *)
Definition bind_session_x (g : pcie_ide_test_group_context_t) (port_index : Z) : test bool :=
  let+ (status, _) := machine (pci_ide_km_query (session_id g) 0) in
  if LIBSPDM_STATUS_IS_ERROR status then ret false else
  let+ (status, kp_ack_status) := session_key_prog (session_id g) (stream_id g) port_index in
  if LIBSPDM_STATUS_IS_ERROR status then ret false else
  ret (kp_ack_status =? PCI_IDE_KM_KP_ACK_STATUS_SUCCESS).

Definition pcie_ide_test_spdm_session_1_setup : test bool :=
  let+ g := get_group in
  let+ _ := assert_session g in
  let+ ok := bind_session_x g 0 in
  if negb ok then ret false else
  let+ (started, session_id_y) := machine (spdm_start_session (spdm_context g) 0) in
  if negb started then ret false else
  let+ _ := set_vars (with_session_y session_id_y) in
  ret true.

(** Both messages on the second session must be discarded. *)
Definition pcie_ide_test_spdm_session_1_run (cls id : Z) : test unit :=
  let+ g := get_group in
  let+ v := get_vars in
  let session_id_y := m_spdm_session_1_session_y v in
  let+ (status, _) := machine (pci_ide_km_query session_id_y 0) in
  let+ _ := record_test cls id 1 (status =? LIBSPDM_STATUS_RECEIVE_FAIL)
              (bs "IdeKmMessage == NULL (QUERY on Session-y), status = 0x" ++ hex status) in
  let+ (status, _) := session_key_prog session_id_y (stream_id g) 0 in
  record_test cls id 2 (status =? LIBSPDM_STATUS_RECEIVE_FAIL)
    (bs "IdeKmMessage == NULL (KEY_PROG on Session-y), status = 0x" ++ hex status).

Definition pcie_ide_test_spdm_session_1_teardown : test unit :=
  let+ g := get_group in
  let+ v := get_vars in
  if negb (m_spdm_session_1_session_y v =? 0) then
    let+ _ := machine (spdm_end_session (spdm_context g) (m_spdm_session_1_session_y v)) in
    set_vars (with_session_y 0)
  else ret tt.

(** The first session is ended and the second becomes the group's; the
    group keeps the old number when it cannot be started. *)
Definition pcie_ide_test_spdm_session_2_setup : test bool :=
  let+ g := get_group in
  let+ _ := assert_session g in
  let+ ok := bind_session_x g (device_port g) in
  if negb ok then ret false else
  let+ ended := machine (spdm_end_session (spdm_context g) (session_id g)) in
  if negb ended then ret false else
  let+ (started, session_id_y) := machine (spdm_start_session (spdm_context g) 0) in
  if negb started then ret false else
  let+ _ := modify (λ t, with_group (with_session (spdm_context g) session_id_y (group t)) t) in
  ret true.

(** Function, bus and segment of the device, as a query should answer. *)
Definition expected_dev_func (p : IDE_PORT) : Z :=
  Z.lor (Z.shiftl (Z.land (port_device p) 0x1f) 3) (Z.land (port_function p) 7).

(** The query on the second session; false when the function returns early. *)
Definition session_2_query (g : pcie_ide_test_group_context_t) (cls id : Z) : test bool :=
  let p := port (lower_port g) in
  let request := query_request (device_port g) in
  let+ (status, response_size, response) :=
    machine (pci_ide_km_send_receive_data (session_id g) request sizeof_pci_ide_km_query_t) in
  if LIBSPDM_STATUS_IS_ERROR status then
    let+ _ := record_test cls id 0 false (bs "QUERY on Session-y failed with 0x" ++ hex status) in ret false
  else
  let res := (sizeof_pci_ide_km_query_resp_t <=? response_size) && (response_size <=? sizeof_test_pci_ide_km_query_resp_t) &&
             ((response_size - sizeof_pci_ide_km_query_resp_t) mod 4 =? 0) in
  let+ _ := record_test cls id 1 res (message_size response_size) in
  if negb res then ret false else
  let+ _ := record_test cls id 2 (km_object_id response =? PCI_IDE_KM_OBJECT_ID_QUERY_RESP)
              (message_object (km_object_id response)) in
  let+ _ := record_test cls id 3 (km_port_index response =? km_port_index request) (message_port (km_port_index response)) in
  let+ _ := record_test cls id 4 (device_port g <=? km_max_port_index response)
              (bs "IdeKmMessage.MaxPortIndex = 0x" ++ hex (km_max_port_index response)) in
  let+ _ := record_test cls id 5
              ((km_dev_func_num response =? expected_dev_func p) && (km_bus_num response =? port_bus p) &&
               (km_segment response =? u8 (port_segment p)))
              (bs "IdeKmMessage.DevFunc = 0x" ++ hex (km_dev_func_num response) ++ bs ", Bus = 0x" ++ hex (km_bus_num response) ++
               bs ", Segment = 0x" ++ hex (km_segment response)) in
  ret true.

Definition session_2_key_prog (g : pcie_ide_test_group_context_t) (cls id : Z) : test unit :=
  let request := key_prog_request (stream_id g)
                   (Z.lor (Z.lor PCI_IDE_KM_KEY_SET_K0 PCI_IDE_KM_KEY_DIRECTION_RX) PCI_IDE_KM_KEY_SUB_STREAM_PR)
                   (device_port g) (replicate 32 0) (message_iv PCIE_IDE_IV_INIT_VALUE) in
  let+ (status, response_size, response) :=
    machine (pci_ide_km_send_receive_data (session_id g) request sizeof_test_pci_ide_km_key_prog_t) in
  if LIBSPDM_STATUS_IS_ERROR status then
    record_test cls id 0 false (bs "KEY_PROG on Session-y failed with 0x" ++ hex status)
  else
  let res := response_size =? sizeof_pci_ide_km_kp_ack_t in
  let+ _ := record_test cls id 6 res (message_size response_size) in
  if negb res then ret tt else
  let+ _ := record_test cls id 7 (km_object_id response =? PCI_IDE_KM_OBJECT_ID_KP_ACK) (message_object (km_object_id response)) in
  let+ _ := record_test cls id 8 (km_status response =? PCI_IDE_KM_KP_ACK_STATUS_SUCCESS)
              (bs "IdeKmMessage.Status = 0x" ++ hex2 (km_status response)) in
  let+ _ := record_test cls id 9 (km_port_index response =? km_port_index request) (message_port (km_port_index response)) in
  let+ _ := record_test cls id 10 (km_stream_id response =? km_stream_id request) (message_stream (km_stream_id response)) in
  record_test cls id 11 (km_key_sub_stream response =? km_key_sub_stream request)
    (bs "IdeKmMessage.KeySubStream = 0x" ++ hex (km_key_sub_stream response)).

Definition pcie_ide_test_spdm_session_2_run (cls id : Z) : test unit :=
  let+ g := get_group in
  let+ go_on := session_2_query g cls id in
  if negb go_on then ret tt else session_2_key_prog g cls id.

(** ** A stream until a key is pressed, key refresh (test_case_full.c,
    test_case_full_keyrefresh.c) *)

Definition pcie_ide_test_full_1_setup : test bool := setup_stream PCI_IDE_KM_KEY_SET_K0 false.

(** The registers of both ports are read to be shown. *)
Definition dump_registers (g : pcie_ide_test_group_context_t) (ide_type : Z) : test unit :=
  let up := upper_port g in
  let low := lower_port g in
  let+ _ := machine (dump_rootport_registers (kcbar g) (rp_stream_index g) (cfg_space_fd up) (ide_id up) (ecap_offset up) ide_type) in
  machine (dump_dev_registers (cfg_space_fd low) (ide_id low) (ecap_offset low) ide_type).

Definition pcie_ide_test_full_1_run (cls id : Z) : test unit :=
  let+ g := get_group in
  let+ ide_type := ide_type_of_group g in
  let+ _ := dump_registers g ide_type in
  let+ _ := machine getchar in
  record_test cls id 1 true (bs "PCIE-IDE Stream is setup.").

Definition pcie_ide_test_full_1_teardown : test unit :=
  let+ _ := pcie_ide_teardown_common PCI_IDE_KM_KEY_SET_K0 in ret tt.

Definition pcie_ide_keyrefresh_setup_common : test bool :=
  let+ v := get_vars in setup_stream (mKeySet v) false.

(** What the next round does: the user's key, or, when rounds and interval
    are given, 'q' after the last round and 'c' after the interval. *)
Definition keyrefresh_command (g_test_rounds g_test_interval rounds : Z) : test Z :=
  if (0 <? g_test_rounds) && (0 <? g_test_interval) then
    if g_test_rounds <=? rounds then ret (char "q")
    else
      let+ _ := lift (if 1000 * 1000 * g_test_interval <? 2 ^ 31 then Ok tt else Stop Undefined) in
      let+ _ := sleep (1000 * 1000 * g_test_interval) in
      ret (char "c")
  else machine getchar.

(** The number of rounds; [inr] is the value of [res] at the end. *)
Definition keyrefresh_round (ide_type g_test_rounds g_test_interval rounds : Z) : test (Z + bool) :=
  let+ g := get_group in
  let+ _ := dump_registers g ide_type in
  let+ cmd := keyrefresh_command g_test_rounds g_test_interval rounds in
  if (cmd =? char "q") || (cmd =? char "Q") then ret (inr true) else
  let+ v := get_vars in
  let ks := if mKeySet v =? PCI_IDE_KM_KEY_SET_K0 then PCI_IDE_KM_KEY_SET_K1 else PCI_IDE_KM_KEY_SET_K0 in
  let+ res := switch_stream ks false in
  if negb res then ret (inr false) else
  let+ _ := set_vars (with_keyset ks) in
  ret (inl (rounds + 1)).

(** [presses] bounds the rounds that a user asks for. *)
Definition pcie_ide_keyrefresh_run_common (presses : positive) (g_test_rounds g_test_interval cls id : Z) : test unit :=
  let+ g := get_group in
  let+ ide_type := ide_type_of_group g in
  let+ res := io_while presses (keyrefresh_round ide_type g_test_rounds g_test_interval) 0 in
  record_test cls id 1 res (if res then bs "PCIE-IDE KeyRefresh succeeded." else bs "PCIE-IDE KeyRefresh failed.").

Definition keyrefresh_teardown : test unit :=
  let+ v := get_vars in let+ _ := pcie_ide_teardown_common (mKeySet v) in ret tt.

Definition pcie_ide_test_full_keyrefresh_ks0_setup : test bool :=
  let+ _ := set_vars (with_keyset PCI_IDE_KM_KEY_SET_K0) in pcie_ide_keyrefresh_setup_common.
Definition pcie_ide_test_full_keyrefresh_ks1_setup : test bool :=
  let+ _ := set_vars (with_keyset PCI_IDE_KM_KEY_SET_K1) in pcie_ide_keyrefresh_setup_common.

End tests.
End PcieTests.
