(* ===== verification/PcieGroup.v ===== *)
(** * The PCIe IDE test group and test configurations
    (library/pcie_ide_test_lib/test_group/, test_config/) *)
From Stdlib Require Import ZArith Lia Ascii String.
From stdpp Require Import prelude gmap.
From S2P Require Import Prelude Utils Libspdm TestConfig Results Engine TestLib Hardware PcieIde Kcbar Doe IdeKm Ports Spdm Tests PcieTests.

Open Scope Z_scope.
Open Scope teeio_scope.

Module PcieGroup.
Import TestConfig Results Engine Hardware PcieIde Kcbar Doe IdeKm Ports Spdm Tests PcieTests.

(* PCIE_IDE_CTRL, PCIE_LINK_CAP, PCIE_LINK_STATUS *)
Definition ide_ctrl_ft_supported (raw : Z) : Z := get_bits 2 1 raw.
Definition dll_active_reporting (raw : Z) : Z := get_bits 20 1 raw.
Definition data_link_layer_active (raw : Z) : Z := get_bits 13 1 raw.

Section pcie_group.
Context {D : Type} `{Bus D} `{Clock D} `{Os D} `{Alloc (D * process)} `{Libspdm}.
Context `{IdeKmRequester (D * process)} `{IdeKmTester (D * process)} `{SpdmRequester (D * process)} `{DoeDiscovery (D * process)}.

(** The functions are shared by libraries with this context of the group. *)
Context {V : Type}.
#[local] Abbreviation State := (D * process)%type.
#[local] Abbreviation test := (Tests.test D pcie_ide_test_group_context_t V).

(** ** The group (test_group.c) *)

(** The copies of the ports in the context follow the port objects. *)
Definition renew_ports (g : pcie_ide_test_group_context_t) : io State pcie_ide_test_group_context_t :=
  let+ root := get_port (root_addr g) in
  let+ upper := get_port (upper_addr g) in
  let+ lower := get_port (lower_addr g) in
  ret (with_root root (with_upper (with_port upper (upper_port g)) (with_lower (with_port lower (lower_port g)) g))).

Definition with_bus_and_bdf (from p : IDE_PORT) : IDE_PORT :=
  {| port_id := port_id p; port_enabled := port_enabled p; port_type := port_type p; port_name := port_name p;
     port_bdf := port_bdf from; port_segment := port_segment p; port_bus := port_bus from; port_device := port_device p;
     port_function := port_function p; port_index := port_index p |}.
Definition with_port_index (i : Z) (p : IDE_PORT) : IDE_PORT :=
  {| port_id := port_id p; port_enabled := port_enabled p; port_type := port_type p; port_name := port_name p;
     port_bdf := port_bdf p; port_segment := port_segment p; port_bus := port_bus p; port_device := port_device p;
     port_function := port_function p; port_index := i |}.

Definition direct_or_switch (g : pcie_ide_test_group_context_t) : bool :=
  (top_connection (top g) =? IDE_TEST_CONNECT_DIRECT) || (top_connection (top g) =? IDE_TEST_CONNECT_SWITCH).
Definition peer2peer (g : pcie_ide_test_group_context_t) : bool := top_connection (top g) =? IDE_TEST_CONNECT_P2P.

Definition scan_devices (g : pcie_ide_test_group_context_t) : io State (bool * pcie_ide_test_group_context_t) :=
  let scan port conn := scan_devices_at_bus (root_addr g) port conn (top_segment (top g)) (top_bus (top g)) in
  let+ res :=
    (if direct_or_switch g then
       let+ res := scan (lower_addr g) (sw_conn1 g) in
       if negb res then ret false else
       let+ root := get_port (root_addr g) in
       let+ upper := get_port (upper_addr g) in
       let+ _ := set_port (upper_addr g) (with_bus_and_bdf root upper) in
       ret true
     else if peer2peer g then
       let+ res := scan (upper_addr g) (sw_conn1 g) in
       if negb res then ret false else scan (lower_addr g) (sw_conn2 g)
     else ret false) in
  let+ g := renew_ports g in
  ret (res, g).

(** The answer names the lower port. *)
Definition answers_for (p : IDE_PORT) (a : query_answer) : bool :=
  (expected_dev_func p =? answer_dev_func a) && (port_bus p =? answer_bus a) && (u8 (port_segment p) =? answer_segment a).

Definition set_port_index (addr i : Z) : io State unit :=
  let+ p := get_port addr in set_port addr (with_port_index i p).

(** The other port indices, in eight bits; the bound of the loop is what the
    last answer says, so it does not end while that is 255. *)
Definition query_round (g : pcie_ide_test_group_context_t) (p : IDE_PORT) (s : Z * Z * bool)
    : io State (Z * Z * bool + bool) :=
  let '(port_index, max_port_index, found) := s in
  if negb (port_index <? max_port_index + 1) then ret (inr found) else
  let+ (status, answer) := pci_ide_km_query (session_id g) port_index in
  if LIBSPDM_STATUS_IS_ERROR status then ret (inr false) else
  let+ found := (if answers_for p answer then let+ _ := set_port_index (lower_addr g) port_index in ret true else ret found) in
  ret (inl (u8 (port_index + 1), answer_max_port_index answer, found)).

Definition ide_query_port_index (g : pcie_ide_test_group_context_t) : io State (bool * pcie_ide_test_group_context_t) :=
  let p := port (lower_port g) in
  let+ (status, answer) := pci_ide_km_query (session_id g) 0 in
  if LIBSPDM_STATUS_IS_ERROR status then ret (false, g) else
  let+ found :=
    (if answers_for p answer then let+ _ := set_port_index (lower_addr g) 0 in ret true
     else if 0 <? answer_max_port_index answer then
       io_while 256 (query_round g p) (1, answer_max_port_index answer, false)
     else ret false) in
  let+ g := renew_ports g in
  ret (found, g).

(** The root port of the topology. *)
Definition open_upstream (g : pcie_ide_test_group_context_t) : io State (bool * pcie_ide_test_group_context_t) :=
  if direct_or_switch g then init_root_port g
  else let+ _ := io_assert (negb (peer2peer g)) in ret (false, g).

Definition common_test_group_setup : test bool :=
  let+ ok := on_group scan_devices in
  if negb ok then setup_failed (bs "Scan device failed.") else
  let+ ok := on_group init_dev_port in
  if negb ok then setup_failed (bs "Initialize device port failed.") else
  let+ ok := on_group open_upstream in
  if negb ok then setup_failed (bs "Initialize root port failed.") else
  let+ ctx := machine spdm_client_init in
  if ctx =? 0 then setup_failed (bs "Initialize spdm failed.") else
  let+ (ok, session) := machine (spdm_connect ctx 0) in
  if negb ok then setup_failed (bs "Spdm connect failed.") else
  let+ g := get_group in
  let+ _ := put_group (with_session ctx session g) in
  let+ ok := on_group ide_query_port_index in
  if negb ok then setup_failed (bs "Query port_index for lower_port failed.") else
  let+ _ := record_group TEEIO_TEST_GROUP_FUNC_SETUP TEEIO_TEST_RESULT_PASS [] in
  ret true.

(** The session and the context go, if there are any. *)
Definition close_session (g : pcie_ide_test_group_context_t) : io State (bool * pcie_ide_test_group_context_t) :=
  if spdm_context g =? 0 then ret (true, g) else
  let+ _ := spdm_stop (spdm_context g) (session_id g) in
  let+ _ := free (spdm_context g) in
  ret (true, with_session 0 0 g).

Definition close_device (g : pcie_ide_test_group_context_t) : io State (bool * pcie_ide_test_group_context_t) :=
  let+ (ok, pc) := close_dev_port (lower_port g) (top_type (top g)) in ret (ok, with_lower pc g).

Definition close_upstream (g : pcie_ide_test_group_context_t) : io State (bool * pcie_ide_test_group_context_t) :=
  if direct_or_switch g then close_root_port g
  else let+ _ := io_assert (negb (peer2peer g)) in ret (true, g).

Definition common_test_group_teardown : test bool :=
  let+ _ := on_group close_session in
  let+ _ := on_group close_device in
  let+ _ := on_group close_upstream in
  let+ _ := record_group TEEIO_TEST_GROUP_FUNC_TEARDOWN TEEIO_TEST_RESULT_PASS [] in
  ret true.

Definition pcie_ide_test_group_setup_sel : test bool := common_test_group_setup.
Definition pcie_ide_test_group_teardown_sel : test bool := common_test_group_teardown.
Definition pcie_ide_test_group_setup_link : test bool := common_test_group_setup.
Definition pcie_ide_test_group_teardown_link : test bool := common_test_group_teardown.
Definition pcie_ide_test_group_setup_sel_link : test bool := not_implemented true.
Definition pcie_ide_test_group_teardown_sel_link : test bool := not_implemented true.

(** ** Default configuration (test_config_common.c, test_config_default.c) *)

(** The state of the stream in one port. *)
Definition port_secure (pc : ide_common_test_port_context_t) (ide_type : Z) : io State bool :=
  let+ data := read_stream_status_in_rp_ecap (cfg_space_fd pc) (ecap_offset pc) ide_type (ide_id pc) in
  ret (status_state data =? IDE_STREAM_STATUS_SECURE).

Definition test_config_check_common : test bool :=
  let+ g := get_group in
  let+ ide_type := ide_type_of_group g in
  let+ upper_secure := machine (port_secure (upper_port g) ide_type) in
  let+ lower_secure := machine (port_secure (lower_port g) ide_type) in
  let res := upper_secure && lower_secure in
  let+ _ := record_config TestLib.IDE_TEST_CONFIGURATION_TYPE_DEFAULT TEEIO_TEST_CONFIG_FUNC_CHECK res in
  ret res.

(** What set_ft_supported_in_switch and check_ft_supported_in_switch_port
    share: the configuration space is opened, its IDE capability found, [k]
    run on its offset, and everything closed again. *)
Definition with_ide_capability (bdf : bytes) (k : Z → Z → io State bool) : io State bool :=
  let+ fd := open_configuration_space bdf in
  if fd =? -1 then ret false else
  let+ _ := set_device fd (bs "switch-port: " ++ bdf) in
  let+ ecap_offset := get_extended_cap_offset fd PCI_IDE_EXT_CAPABILITY_ID in
  let+ res := (if ecap_offset =? 0 then ret false else k fd ecap_offset) in
  let+ _ := fail_port fd in
  ret res.

Definition set_ft_supported_in_switch (port_bdf : bytes) : io State bool :=
  with_ide_capability port_bdf (λ fd ecap_offset,
    let offset := u32 (ecap_offset + 8) in
    let+ ide_ctrl := device_pci_read_32 offset fd in
    let+ _ := (if ide_ctrl_ft_supported ide_ctrl =? 0 then device_pci_write_32 offset (set_bits 2 1 1 ide_ctrl) fd else ret tt) in
    ret true).

Definition check_ft_supported_in_switch_port (bdf : bytes) : io State bool :=
  with_ide_capability bdf (λ fd ecap_offset,
    let+ _ := io_assert (0 <? fd) in
    let+ cap := device_pci_read_32 (u32 (ecap_offset + 4)) fd in
    ret (ide_ft_supported cap =? 1)).

(** [f(dps) && f(ups)] for the connections of a path, until one is false;
    a path without connections fails an assert. *)
Fixpoint all_conns (f : bytes → io State bool) (conns : list (Z * Z)) : io State bool :=
  match conns with
  | [] => ret true
  | (ups, dps) :: conns =>
      let+ d := get_port dps in
      let+ ok := f (port_bdf d) in
      if negb ok then ret false else
      let+ u := get_port ups in
      let+ ok := f (port_bdf u) in
      if negb ok then ret false else all_conns f conns
  end.
Definition on_path (f : bytes → io State bool) (conns : list (Z * Z)) : io State bool :=
  let+ _ := io_assert (match conns with [] => false | _ => true end) in all_conns f conns.

Definition has_switches (g : pcie_ide_test_group_context_t) : bool :=
  (top_connection (top g) =? IDE_TEST_CONNECT_SWITCH) || (top_connection (top g) =? IDE_TEST_CONNECT_P2P).

(** The switches of both paths. *)
Definition on_switches (f : bytes → io State bool) (g : pcie_ide_test_group_context_t) : io State bool :=
  let+ ok := (if has_switches g then on_path f (sw_conn1 g) else ret true) in
  if negb ok then ret false else
  if peer2peer g then on_path f (sw_conn2 g) else ret true.

(** [res = reset_ide_registers(...); if(!res) { TEEIO_ASSERT(false); return false; }] *)
Definition must_reset (pc : ide_common_test_port_context_t) (g : pcie_ide_test_group_context_t) (reset_kcbar : bool)
    : io State bool :=
  let+ res := reset_ide_registers pc (top_type (top g)) (stream_id g) (rp_stream_index g) reset_kcbar in
  let+ _ := io_assert res in
  ret res.

Definition test_config_reset_ide_registers (g : pcie_ide_test_group_context_t) : io State bool :=
  let+ _ := must_reset (upper_port g) g true in
  must_reset (lower_port g) g false.

Definition test_config_enable_common : test bool :=
  let+ g := get_group in
  let+ res := machine (on_switches set_ft_supported_in_switch g) in
  let+ res := (if negb res then ret false else machine (test_config_reset_ide_registers g)) in
  let+ _ := record_config TestLib.IDE_TEST_CONFIGURATION_TYPE_DEFAULT TEEIO_TEST_CONFIG_FUNC_ENABLE res in
  ret res.

Definition stream_type_supported (g : pcie_ide_test_group_context_t) : bool :=
  let host_cap := ide_cap (upper_port g) in
  let dev_cap := ide_cap (lower_port g) in
  let sel := (sel_ide_supported host_cap =? 1) && (sel_ide_supported dev_cap =? 1) in
  let lnk := (lnk_ide_supported host_cap =? 1) && (lnk_ide_supported dev_cap =? 1) in
  let type := top_type (top g) in
  if type =? IDE_TEST_TOPOLOGY_TYPE_SEL_IDE then sel
  else if type =? IDE_TEST_TOPOLOGY_TYPE_LINK_IDE then lnk
  else if type =? IDE_TEST_TOPOLOGY_TYPE_SEL_LINK_IDE then sel && lnk
  else false.

Definition test_config_support_common : test bool :=
  let+ g := get_group in
  let+ supported :=
    (if negb (stream_type_supported g) then ret false
     else machine (on_switches check_ft_supported_in_switch_port g)) in
  let+ _ := record_config TestLib.IDE_TEST_CONFIGURATION_TYPE_DEFAULT TEEIO_TEST_CONFIG_FUNC_SUPPORT supported in
  ret supported.

Definition pcie_ide_test_config_default_enable_common : test bool := test_config_enable_common.
Definition pcie_ide_test_config_default_disable_common : test bool := ret true.
Definition pcie_ide_test_config_default_support_common : test bool := test_config_support_common.
Definition pcie_ide_test_config_default_check_common : test bool := test_config_check_common.

(** ** PCRC (test_config_pcrc.c) *)

(** Both ports, the upper one first. *)
Definition on_ports (f : ide_common_test_port_context_t → io State bool) (g : pcie_ide_test_group_context_t) : io State unit :=
  let+ _ := f (upper_port g) in
  let+ _ := f (lower_port g) in
  ret tt.

Definition test_config_set_pcrc_common (enable : bool) : test bool :=
  let+ g := get_group in
  let+ ide_type := ide_type_of_group g in
  let+ _ := machine (on_ports (λ pc, set_pcrc_in_ecap (cfg_space_fd pc) ide_type (ide_id pc) (ecap_offset pc) enable) g) in
  let+ _ := record_config TestLib.IDE_TEST_CONFIGURATION_TYPE_PCRC
              (if enable then TEEIO_TEST_CONFIG_FUNC_ENABLE else TEEIO_TEST_CONFIG_FUNC_DISABLE) true in
  ret true.

(** Returns true also when PCRC is not supported. *)
Definition test_config_check_pcrc_support_common : test bool :=
  let+ g := get_group in
  let res := negb (pcrc_supported (ide_cap (upper_port g)) =? 0) && negb (pcrc_supported (ide_cap (lower_port g)) =? 0) in
  let+ _ := record_config TestLib.IDE_TEST_CONFIGURATION_TYPE_PCRC TEEIO_TEST_CONFIG_FUNC_SUPPORT res in
  ret true.

(** ** Selective IDE for configuration requests
    (test_config_sel_ide_for_cfg_req.c) *)

Definition test_config_set_sel_ide_for_cfg_req (enable : bool) : test bool :=
  let+ g := get_group in
  let+ ide_type := lift (map_top_type_to_ide_type (top_type (top g))) in
  let+ _ := machine (on_ports (λ pc,
              set_sel_ide_for_cfg_req_in_ecap (cfg_space_fd pc) ide_type (ide_id pc) (ecap_offset pc) enable) g) in
  let+ _ := record_config TestLib.IDE_TEST_CONFIGURATION_TYPE_SELECTIVE_IDE_FOR_CONFIG
              (if enable then TEEIO_TEST_CONFIG_FUNC_ENABLE else TEEIO_TEST_CONFIG_FUNC_DISABLE) true in
  ret true.

Definition test_config_check_sel_ide_for_cfg_req_support : test bool :=
  let+ g := get_group in
  let+ ide_type := lift (map_top_type_to_ide_type (top_type (top g))) in
  let supported :=
    if negb (ide_type =? TEST_IDE_TYPE_SEL_IDE) then false
    else negb (sel_ide_cfg_req_supported (ide_cap (upper_port g)) =? 0) &&
         negb (sel_ide_cfg_req_supported (ide_cap (lower_port g)) =? 0) in
  let+ _ := record_config TestLib.IDE_TEST_CONFIGURATION_TYPE_SELECTIVE_IDE_FOR_CONFIG TEEIO_TEST_CONFIG_FUNC_SUPPORT supported in
  ret supported.

Definition pcie_ide_test_config_check_sel_ide_for_cfg_req : test bool :=
  let+ g := get_group in
  let+ ide_type := lift (map_top_type_to_ide_type (top_type (top g))) in
  let+ _ := io_assert (ide_type =? TEST_IDE_TYPE_SEL_IDE) in
  let read pc := read_ide_stream_ctrl_in_ecap (cfg_space_fd pc) ide_type (ide_id pc) (ecap_offset pc) in
  let+ data1 := machine (read (upper_port g)) in
  let+ data2 := machine (read (lower_port g)) in
  let pass := (ctrl_cfg_sel_ide data1 =? 1) && negb (ctrl_cfg_sel_ide data2 =? 0) in
  let+ _ := record_config TestLib.IDE_TEST_CONFIGURATION_TYPE_SELECTIVE_IDE_FOR_CONFIG TEEIO_TEST_CONFIG_FUNC_CHECK pass in
  ret pass.

(** ** Disabling flit mode (test_config_flit_mode_disable.c) *)

Definition check_flit_mode_disable_supported (pc : ide_common_test_port_context_t) (is_upper_port : bool) : io State bool :=
  let+ enabled := pcie_check_flit_mode_enabled pc in
  if negb enabled then ret false else
  if is_upper_port then
    let fd := cfg_space_fd pc in
    let+ pcie_cap_offset := get_cap_offset fd PCIE_CAPABILITY_ID in
    let+ upper_link_cap := device_pci_read_32 (u32 (pcie_cap_offset + 0x0C)) fd in
    ret (negb (dll_active_reporting upper_link_cap =? 0))
  else ret true.

(** The lower port only decides what is logged. *)
Definition test_config_flit_mode_disable_support_common : test bool :=
  let+ g := get_group in
  if direct_or_switch g then
    let+ result := machine (check_flit_mode_disable_supported (upper_port g) true) in
    if negb result then ret false else
    let+ _ := machine (check_flit_mode_disable_supported (lower_port g) false) in
    ret true
  else if peer2peer g then not_implemented true
  else ret false.

(** Waits until the link layer has changed, ten times at most. *)
Fixpoint wait_for_link (fd offset is_disable : Z) (max_wait_loop : nat) (pcie_link_status : Z) : io State Z :=
  match max_wait_loop with
  | O => ret pcie_link_status
  | S max_wait_loop =>
      if data_link_layer_active pcie_link_status =? is_disable then
        let+ _ := libspdm_sleep (10 * 1000) in
        let+ pcie_link_status := device_pci_read_16 offset fd in
        wait_for_link fd offset is_disable max_wait_loop pcie_link_status
      else ret pcie_link_status
  end.

(** A bit of the link control register is written and, after a wait, read back; false
    if it did not take the value. *)
Definition set_link_ctrl_bit (fd pcie_cap_offset lo value : Z) : io State bool :=
  let offset := u32 (pcie_cap_offset + 0x10) in
  let+ pcie_link_ctrl := device_pci_read_16 offset fd in
  let+ _ := device_pci_write_16 offset (set_bits lo 1 value pcie_link_ctrl) fd in
  let+ _ := libspdm_sleep (10 * 1000) in
  let+ pcie_link_ctrl := device_pci_read_16 offset fd in
  ret (get_bits lo 1 pcie_link_ctrl =? value).

Definition set_link_disable (pc : ide_common_test_port_context_t) (is_disable : bool) : io State bool :=
  let fd := cfg_space_fd pc in
  let+ pcie_cap_offset := get_cap_offset fd PCIE_CAPABILITY_ID in
  let+ ok := set_link_ctrl_bit fd pcie_cap_offset 4 (Z.b2z is_disable) in
  if negb ok then ret false else
  let offset := u32 (pcie_cap_offset + 0x12) in
  let+ pcie_link_status := device_pci_read_16 offset fd in
  let+ pcie_link_status := wait_for_link fd offset (Z.b2z is_disable) 10 pcie_link_status in
  ret (negb (data_link_layer_active pcie_link_status =? Z.b2z is_disable)).

Definition set_flit_mode_disable (pc : ide_common_test_port_context_t) (is_disable : bool) : io State bool :=
  let fd := cfg_space_fd pc in
  let+ pcie_cap_offset := get_cap_offset fd PCIE_CAPABILITY_ID in
  let+ ok := set_link_ctrl_bit fd pcie_cap_offset 13 (Z.b2z is_disable) in
  if negb ok then ret false else
  let+ result := set_link_disable pc true in
  if negb result then ret result else
  let+ result := set_link_disable pc false in
  if negb result then ret result else
  let+ enabled := pcie_check_flit_mode_enabled pc in
  ret (negb (Bool.eqb enabled is_disable)).

Definition test_config_flit_mode_disable_common (is_enable : bool) : test bool :=
  let+ g := get_group in
  let+ result := machine (set_flit_mode_disable (upper_port g) is_enable) in
  if negb result then ret false else
  machine (reset_ide_registers (lower_port g) (top_type (top g)) (stream_id g) (rp_stream_index g) false).

(** ** The functions of the tables *)

Definition pcie_ide_test_config_pcrc_enable_sel : test bool := test_config_set_pcrc_common true.
Definition pcie_ide_test_config_pcrc_disable_sel : test bool := test_config_set_pcrc_common false.
Definition pcie_ide_test_config_pcrc_support_sel : test bool := test_config_check_pcrc_support_common.
Definition pcie_ide_test_config_pcrc_check_sel : test bool := ret true.
Definition pcie_ide_test_config_pcrc_enable_link : test bool := test_config_set_pcrc_common true.
Definition pcie_ide_test_config_pcrc_disable_link : test bool := test_config_set_pcrc_common false.
Definition pcie_ide_test_config_pcrc_support_link : test bool := test_config_check_pcrc_support_common.
Definition pcie_ide_test_config_pcrc_check_link : test bool := ret true.

Definition pcie_ide_test_config_enable_sel_ide_for_cfg_req : test bool := test_config_set_sel_ide_for_cfg_req true.
Definition pcie_ide_test_config_disable_sel_ide_for_cfg_req : test bool := test_config_set_sel_ide_for_cfg_req false.
Definition pcie_ide_test_config_support_sel_ide_for_cfg_req : test bool := test_config_check_sel_ide_for_cfg_req_support.

Definition pcie_ide_test_config_flit_mode_disable_enable_sel : test bool := test_config_flit_mode_disable_common true.
Definition pcie_ide_test_config_flit_mode_disable_disable_sel : test bool := test_config_flit_mode_disable_common false.
Definition pcie_ide_test_config_flit_mode_disable_support_sel : test bool := test_config_flit_mode_disable_support_common.
Definition pcie_ide_test_config_flit_mode_disable_check_sel : test bool := ret true.
Definition pcie_ide_test_config_flit_mode_disable_enable_link : test bool := test_config_flit_mode_disable_common true.
Definition pcie_ide_test_config_flit_mode_disable_disable_link : test bool := test_config_flit_mode_disable_common false.
Definition pcie_ide_test_config_flit_mode_disable_support_link : test bool := test_config_flit_mode_disable_support_common.
Definition pcie_ide_test_config_flit_mode_disable_check_link : test bool := ret true.

(** Both kinds of streams at once: no function of these is implemented. *)
Definition pcie_ide_test_config_default_sel_link : test bool := not_implemented false.
Definition pcie_ide_test_config_pcrc_sel_link : test bool := not_implemented false.
Definition pcie_ide_test_config_flit_mode_disable_sel_link : test bool := not_implemented false.

End pcie_group.
End PcieGroup.
