(* ===== verification/PcieCode.v ===== *)
(** * The functions behind the pointers of the PCIe IDE tests

    The test library registers its functions in tables
    (library/pcie_ide_test_lib/pcie_ide_common.c); TestLib.v has the tables with the
    functions' names.  Here every name gets its definition. *)
From Stdlib Require Import ZArith Lia Ascii String.
From stdpp Require Import prelude gmap.
From S2P Require Import Prelude Utils Libspdm TestConfig Results Engine Hardware PcieIde Kcbar Doe IdeKm Ports Spdm Tests PcieTests PcieGroup.

Open Scope Z_scope.
Open Scope teeio_scope.

Module PcieCode.
Import TestConfig Results Engine Hardware PcieIde Kcbar Doe IdeKm Ports Spdm Tests PcieTests PcieGroup.

Section pcie_code.
Context {D : Type} `{Bus D} `{Clock D} `{Os D} `{Alloc (D * process)} `{Libspdm}.
Context `{IdeKmRequester (D * process)} `{IdeKmTester (D * process)} `{SpdmRequester (D * process)} `{DoeDiscovery (D * process)}.
Context (g_teeio_fixed_key : bool) (tries presses : positive) (g_test_rounds g_test_interval : Z).

#[local] Abbreviation code := (code D pcie_ide_test_group_context_t pcie_vars).

Open Scope string_scope.

Definition config_code : list (string * code) :=
  [("pcie_ide_test_config_default_enable_common", Config pcie_ide_test_config_default_enable_common);
   ("pcie_ide_test_config_default_disable_common", Config pcie_ide_test_config_default_disable_common);
   ("pcie_ide_test_config_default_support_common", Config pcie_ide_test_config_default_support_common);
   ("pcie_ide_test_config_default_check_common", Config pcie_ide_test_config_default_check_common);
   ("pcie_ide_test_config_pcrc_enable_sel", Config pcie_ide_test_config_pcrc_enable_sel);
   ("pcie_ide_test_config_pcrc_disable_sel", Config pcie_ide_test_config_pcrc_disable_sel);
   ("pcie_ide_test_config_pcrc_support_sel", Config pcie_ide_test_config_pcrc_support_sel);
   ("pcie_ide_test_config_pcrc_check_sel", Config pcie_ide_test_config_pcrc_check_sel);
   ("pcie_ide_test_config_enable_sel_ide_for_cfg_req", Config pcie_ide_test_config_enable_sel_ide_for_cfg_req);
   ("pcie_ide_test_config_disable_sel_ide_for_cfg_req", Config pcie_ide_test_config_disable_sel_ide_for_cfg_req);
   ("pcie_ide_test_config_support_sel_ide_for_cfg_req", Config pcie_ide_test_config_support_sel_ide_for_cfg_req);
   ("pcie_ide_test_config_check_sel_ide_for_cfg_req", Config pcie_ide_test_config_check_sel_ide_for_cfg_req);
   ("pcie_ide_test_config_flit_mode_disable_enable_sel", Config pcie_ide_test_config_flit_mode_disable_enable_sel);
   ("pcie_ide_test_config_flit_mode_disable_disable_sel", Config pcie_ide_test_config_flit_mode_disable_disable_sel);
   ("pcie_ide_test_config_flit_mode_disable_support_sel", Config pcie_ide_test_config_flit_mode_disable_support_sel);
   ("pcie_ide_test_config_flit_mode_disable_check_sel", Config pcie_ide_test_config_flit_mode_disable_check_sel);
   ("pcie_ide_test_config_pcrc_enable_link", Config pcie_ide_test_config_pcrc_enable_link);
   ("pcie_ide_test_config_pcrc_disable_link", Config pcie_ide_test_config_pcrc_disable_link);
   ("pcie_ide_test_config_pcrc_support_link", Config pcie_ide_test_config_pcrc_support_link);
   ("pcie_ide_test_config_pcrc_check_link", Config pcie_ide_test_config_pcrc_check_link);
   ("pcie_ide_test_config_flit_mode_disable_enable_link", Config pcie_ide_test_config_flit_mode_disable_enable_link);
   ("pcie_ide_test_config_flit_mode_disable_disable_link", Config pcie_ide_test_config_flit_mode_disable_disable_link);
   ("pcie_ide_test_config_flit_mode_disable_support_link", Config pcie_ide_test_config_flit_mode_disable_support_link);
   ("pcie_ide_test_config_flit_mode_disable_check_link", Config pcie_ide_test_config_flit_mode_disable_check_link);
   ("pcie_ide_test_config_default_enable_sel_link", Config pcie_ide_test_config_default_sel_link);
   ("pcie_ide_test_config_default_disable_sel_link", Config pcie_ide_test_config_default_sel_link);
   ("pcie_ide_test_config_default_support_sel_link", Config pcie_ide_test_config_default_sel_link);
   ("pcie_ide_test_config_default_check_sel_link", Config pcie_ide_test_config_default_sel_link);
   ("pcie_ide_test_config_pcrc_enable_sel_link", Config pcie_ide_test_config_pcrc_sel_link);
   ("pcie_ide_test_config_pcrc_disable_sel_link", Config pcie_ide_test_config_pcrc_sel_link);
   ("pcie_ide_test_config_pcrc_support_sel_link", Config pcie_ide_test_config_pcrc_sel_link);
   ("pcie_ide_test_config_pcrc_check_sel_link", Config pcie_ide_test_config_pcrc_sel_link);
   ("pcie_ide_test_config_flit_mode_disable_enable_sel_link", Config pcie_ide_test_config_flit_mode_disable_sel_link);
   ("pcie_ide_test_config_flit_mode_disable_disable_sel_link", Config pcie_ide_test_config_flit_mode_disable_sel_link);
   ("pcie_ide_test_config_flit_mode_disable_support_sel_link", Config pcie_ide_test_config_flit_mode_disable_sel_link);
   ("pcie_ide_test_config_flit_mode_disable_check_sel_link", Config pcie_ide_test_config_flit_mode_disable_sel_link)].

Definition group_code : list (string * code) :=
  [("pcie_ide_test_group_setup_sel", Group pcie_ide_test_group_setup_sel);
   ("pcie_ide_test_group_teardown_sel", Group pcie_ide_test_group_teardown_sel);
   ("pcie_ide_test_group_setup_link", Group pcie_ide_test_group_setup_link);
   ("pcie_ide_test_group_teardown_link", Group pcie_ide_test_group_teardown_link);
   ("pcie_ide_test_group_setup_sel_link", Group pcie_ide_test_group_setup_sel_link);
   ("pcie_ide_test_group_teardown_sel_link", Group pcie_ide_test_group_teardown_sel_link)].

Definition case_code : list (string * code) :=
  [("pcie_ide_test_query_1_setup", Setup pcie_ide_test_query_1_setup);
   ("pcie_ide_test_query_1_run", Run pcie_ide_test_query_1_run);
   ("pcie_ide_test_query_1_teardown", Teardown no_teardown);
   ("pcie_ide_test_query_2_setup", Setup pcie_ide_test_query_2_setup);
   ("pcie_ide_test_query_2_run", Run pcie_ide_test_query_2_run);
   ("pcie_ide_test_query_2_teardown", Teardown pcie_ide_test_query_2_teardown);
   ("pcie_ide_test_keyprog_1_setup", Setup pcie_ide_test_keyprog_1_setup);
   ("pcie_ide_test_keyprog_1_run", Run pcie_ide_test_keyprog_1_run);
   ("pcie_ide_test_keyprog_1_teardown", Teardown no_teardown);
   ("pcie_ide_test_keyprog_2_setup", Setup pcie_ide_test_keyprog_2_setup);
   ("pcie_ide_test_keyprog_2_run", Run pcie_ide_test_keyprog_2_run);
   ("pcie_ide_test_keyprog_2_teardown", Teardown no_teardown);
   ("pcie_ide_test_keyprog_3_setup", Setup pcie_ide_test_keyprog_3_setup);
   ("pcie_ide_test_keyprog_3_run", Run pcie_ide_test_keyprog_3_run);
   ("pcie_ide_test_keyprog_3_teardown", Teardown no_teardown);
   ("pcie_ide_test_keyprog_4_setup", Setup pcie_ide_test_keyprog_4_setup);
   ("pcie_ide_test_keyprog_4_run", Run pcie_ide_test_keyprog_4_run);
   ("pcie_ide_test_keyprog_4_teardown", Teardown no_teardown);
   ("pcie_ide_test_keyprog_5_setup", Setup pcie_ide_test_keyprog_5_setup);
   ("pcie_ide_test_keyprog_5_run", Run pcie_ide_test_keyprog_5_run);
   ("pcie_ide_test_keyprog_5_teardown", Teardown no_teardown);
   ("pcie_ide_test_keyprog_6_setup", Setup pcie_ide_test_keyprog_6_setup);
   ("pcie_ide_test_keyprog_6_run", Run pcie_ide_test_keyprog_6_run);
   ("pcie_ide_test_keyprog_6_teardown", Teardown no_teardown);
   ("pcie_ide_test_ksetgo_1_setup", Setup (pcie_ide_test_ksetgo_1_setup g_teeio_fixed_key));
   ("pcie_ide_test_ksetgo_1_run", Run pcie_ide_test_ksetgo_1_run);
   ("pcie_ide_test_ksetgo_1_teardown", Teardown pcie_ide_test_ksetgo_1_teardown);
   ("pcie_ide_test_ksetgo_2_setup", Setup (pcie_ide_test_ksetgo_2_setup g_teeio_fixed_key));
   ("pcie_ide_test_ksetgo_2_run", Run pcie_ide_test_ksetgo_2_run);
   ("pcie_ide_test_ksetgo_2_teardown", Teardown pcie_ide_test_ksetgo_2_teardown);
   ("pcie_ide_test_ksetgo_3_setup", Setup (pcie_ide_test_ksetgo_3_setup g_teeio_fixed_key));
   ("pcie_ide_test_ksetgo_3_run", Run (pcie_ide_test_ksetgo_3_run g_teeio_fixed_key tries));
   ("pcie_ide_test_ksetgo_3_teardown", Teardown pcie_ide_test_ksetgo_3_teardown);
   ("pcie_ide_test_ksetgo_4_setup", Setup (pcie_ide_test_ksetgo_4_setup g_teeio_fixed_key));
   ("pcie_ide_test_ksetgo_4_run", Run (pcie_ide_test_ksetgo_4_run g_teeio_fixed_key tries));
   ("pcie_ide_test_ksetgo_4_teardown", Teardown pcie_ide_test_ksetgo_4_teardown);
   ("pcie_ide_test_ksetstop_1_setup", Setup (pcie_ide_test_ksetstop_1_setup g_teeio_fixed_key));
   ("pcie_ide_test_ksetstop_1_run", Run pcie_ide_test_ksetstop_1_run);
   ("pcie_ide_test_ksetstop_1_teardown", Teardown no_teardown);
   ("pcie_ide_test_ksetstop_2_setup", Setup (pcie_ide_test_ksetstop_2_setup g_teeio_fixed_key));
   ("pcie_ide_test_ksetstop_2_run", Run pcie_ide_test_ksetstop_2_run);
   ("pcie_ide_test_ksetstop_2_teardown", Teardown no_teardown);
   ("pcie_ide_test_ksetstop_3_setup", Setup (pcie_ide_test_ksetstop_3_setup g_teeio_fixed_key tries));
   ("pcie_ide_test_ksetstop_3_run", Run pcie_ide_test_ksetstop_3_run);
   ("pcie_ide_test_ksetstop_3_teardown", Teardown no_teardown);
   ("pcie_ide_test_ksetstop_4_setup", Setup (pcie_ide_test_ksetstop_4_setup g_teeio_fixed_key tries));
   ("pcie_ide_test_ksetstop_4_run", Run pcie_ide_test_ksetstop_4_run);
   ("pcie_ide_test_ksetstop_4_teardown", Teardown no_teardown);
   ("pcie_ide_test_spdm_session_1_setup", Setup pcie_ide_test_spdm_session_1_setup);
   ("pcie_ide_test_spdm_session_1_run", Run pcie_ide_test_spdm_session_1_run);
   ("pcie_ide_test_spdm_session_1_teardown", Teardown pcie_ide_test_spdm_session_1_teardown);
   ("pcie_ide_test_spdm_session_2_setup", Setup pcie_ide_test_spdm_session_2_setup);
   ("pcie_ide_test_spdm_session_2_run", Run pcie_ide_test_spdm_session_2_run);
   ("pcie_ide_test_spdm_session_2_teardown", Teardown no_teardown);
   ("pcie_ide_test_full_1_setup", Setup (pcie_ide_test_full_1_setup g_teeio_fixed_key));
   ("pcie_ide_test_full_1_run", Run pcie_ide_test_full_1_run);
   ("pcie_ide_test_full_1_teardown", Teardown pcie_ide_test_full_1_teardown);
   ("pcie_ide_test_full_keyrefresh_ks0_setup", Setup (pcie_ide_test_full_keyrefresh_ks0_setup g_teeio_fixed_key));
   ("pcie_ide_test_full_keyrefresh_ks0_run", Run (pcie_ide_keyrefresh_run_common g_teeio_fixed_key tries presses g_test_rounds g_test_interval));
   ("pcie_ide_test_full_keyrefresh_ks0_teardown", Teardown keyrefresh_teardown);
   ("pcie_ide_test_full_keyrefresh_ks1_setup", Setup (pcie_ide_test_full_keyrefresh_ks1_setup g_teeio_fixed_key));
   ("pcie_ide_test_full_keyrefresh_ks1_run", Run (pcie_ide_keyrefresh_run_common g_teeio_fixed_key tries presses g_test_rounds g_test_interval));
   ("pcie_ide_test_full_keyrefresh_ks1_teardown", Teardown keyrefresh_teardown)].

Definition pcie_ide_code : list (string * code) := config_code ++ group_code ++ case_code.

Close Scope string_scope.

(** The context here has no ids of configuration and class. *)
#[export] Instance pcie_code : TestCode (world D pcie_ide_test_group_context_t pcie_vars) :=
  table_code pcie_ide_code (λ _ g, g).

End pcie_code.
End PcieCode.
