(* ===== verification/PcieTestsSpec.v ===== *)
(** * The PCIe IDE tests, specified

    What a test function may report, whatever the device answers; the verdict
    of the K_SET_GO tests as a property of the device's answers; the search
    for the port index of the device. *)
From Stdlib Require Import ZArith Lia Ascii String.
From stdpp Require Import prelude gmap.
From S2P Require Import Prelude Utils KeyOrder Libspdm TestConfig Results Engine Hardware PcieIde Kcbar Doe IdeKm Ports Spdm Tests TestsSpec PcieTests PcieGroup PcieCode.

Open Scope Z_scope.
Open Scope teeio_scope.

Module PcieTestsSpec.
Import TestConfig Results Engine Hardware PcieIde Kcbar Doe IdeKm Ports Spdm Tests TestsSpec PcieTests PcieGroup PcieCode.

(** ** The K_SET_GO tests *)
Section tests.
Context {D : Type} `{Bus D} `{Clock D} `{Os D} `{Alloc (D * process)} `{Libspdm}.
Context `{IdeKmRequester (D * process)} `{IdeKmTester (D * process)} `{SpdmRequester (D * process)} `{DoeDiscovery (D * process)}.

#[local] Abbreviation State := (D * process)%type.
#[local] Abbreviation test := (Tests.test D pcie_ide_test_group_context_t pcie_vars).

#[local] Abbreviation record_test_at :=
  (TestsSpec.record_test_at (D := D) (G := pcie_ide_test_group_context_t) (V := pcie_vars)).

(** *** The exchanges *)

(** An answer is the acknowledgement of a request. *)
Definition acknowledged (request : ide_km_message) (answer : Z * Z * ide_km_message) : bool :=
  let '(status, size, response) := answer in
  negb (LIBSPDM_STATUS_IS_ERROR status) && (size =? sizeof_pci_ide_km_kp_ack_t) &&
  (km_object_id response =? PCI_IDE_KM_OBJECT_ID_K_SET_GOSTOP_ACK) &&
  (km_port_index response =? km_port_index request) && (km_stream_id response =? km_stream_id request) &&
  (km_key_sub_stream response =? km_key_sub_stream request).

(** A request is sent; is the answer its acknowledgement? *)
Definition exchange (session : Z) (request : ide_km_message) (size : Z) : io State bool :=
  let+ answer := pci_ide_km_send_receive_data session request size in ret (acknowledged request answer).

Lemma check_echo_at g cls id ok tested base request response (d : State) t :
  at_test g cls id ok tested t →
  ∃ t', check_echo cls id base request response (d, t) = Ok (tt, (d, t')) ∧
    at_test g cls id (ok && (km_port_index response =? km_port_index request) &&
      (km_stream_id response =? km_stream_id request) && (km_key_sub_stream response =? km_key_sub_stream request)) true t'.
Proof.
  intros Hat. unfold check_echo.
  edestruct record_test_at as (t1 & E1 & A1); [exact Hat|].
  edestruct record_test_at as (t2 & E2 & A2); [exact A1|].
  edestruct record_test_at as (t3 & E3 & A3); [exact A2|].
  exists t3. rewrite (bind_Ok _ _ _ _ _ E1), (bind_Ok _ _ _ _ _ E2). split; [exact E3|exact A3].
Qed.

Lemma k_set_simulates object_id size base session sid ks port info g cls id ok tested (d : State) t :
  at_test g cls id ok tested t →
  simulates g cls id (test_k_set object_id size base session sid ks port info cls id)
    (exchange session (k_set_request object_id sid ks port) size) d t
    (λ b _ ok' tested', ok' = ok && b ∧ tested' = true).
Proof.
  intros Hat. unfold test_k_set.
  destruct (record_separator_at g cls id ok tested info d t Hat) as (t1 & E1 & A1).
  eapply simulates_quiet; [exact E1|]. unfold exchange. set (request := k_set_request _ _ _ _).
  eapply simulates_bind; [apply (simulates_machine g cls id _ d t1 ok tested A1)|].
  intros a b d' t2 ok' tested' A2 (-> & -> & ->). destruct b as [[status rsize] response]. unfold acknowledged.
  unfold simulates, Hardware.ret at 1. unfold send_failed. destruct (LIBSPDM_STATUS_IS_ERROR status).
  { edestruct record_test_at as (t3 & E3 & A3); [exact A2|].
    exists tt, t3, (ok && false), true. split; [exact E3|]. split; [exact A3|]. done. }
  edestruct record_test_at as (t3 & E3 & A3); [exact A2|].
  rewrite (bind_Ok _ _ _ _ _ E3). clear E3. destruct (rsize =? sizeof_pci_ide_km_kp_ack_t); cbn [negb andb].
  2: { exists tt, t3, (ok && false), true. done. }
  edestruct record_test_at as (t4 & E4 & A4); [exact A3|].
  rewrite (bind_Ok _ _ _ _ _ E4).
  edestruct check_echo_at as (t5 & E5 & A5); [exact A4|].
  eexists tt, t5, _, _. split; [exact E5|]. split; [exact A5|]. by rewrite andb_true_r, !andb_assoc.
Qed.

(** *** The six starts and what depends on them *)

Definition stream_request (object_id : Z) (g : pcie_ide_test_group_context_t) (ks : Z) (s : Z * Z * bytes) : ide_km_message :=
  let '(direction, substream, _) := s in
  k_set_request object_id (stream_id g) (sub_stream_of ks direction substream) (device_port g).

(** The requests of some streams; has every one been acknowledged? *)
Definition exchange_all (object_id size : Z) (g : pcie_ide_test_group_context_t) (ks : Z) (streams : list (Z * Z * bytes))
    (ok : bool) : io State bool :=
  io_fold (λ s ok, let+ ack := exchange (session_id g) (stream_request object_id g ks s) size in ret (ok && ack)) streams ok.

(** The receivers of the device are started, then the root port transmits
    with the key set, then the transmitters are started; without an
    acknowledgement from every receiver the root port is left alone. *)
Definition starts_plan (g : pcie_ide_test_group_context_t) (ks select : Z) : io State bool :=
  let start := exchange_all PCI_IDE_KM_OBJECT_ID_K_SET_GO sizeof_pci_ide_km_k_set_go_t g ks in
  let+ ok := start rx_streams true in
  let+ _ := (if ok then set_rp_ide_key_set_select (kcbar g) (rp_stream_index g) select else ret tt) in
  start tx_streams ok.

(** The stream enabled in both ports, and its type; one kind of stream at a time. *)
Definition enable_plan (g : pcie_ide_test_group_context_t) : io State Z :=
  let up := upper_port g in
  let low := lower_port g in
  let ide_type := if top_type (top g) =? IDE_TEST_TOPOLOGY_TYPE_LINK_IDE then TEST_IDE_TYPE_LNK_IDE else TEST_IDE_TYPE_SEL_IDE in
  let+ _ := io_assert (negb (top_type (top g) =? IDE_TEST_TOPOLOGY_TYPE_SEL_LINK_IDE)) in
  let+ _ := enable_ide_stream_in_ecap (cfg_space_fd low) (ecap_offset low) ide_type (ide_id low) true in
  let+ _ := enable_rootport_ide_stream (cfg_space_fd up) (ecap_offset up) ide_type (ide_id up) (kcbar g) (rp_stream_index g) true in
  let+ _ := libspdm_sleep (10 * 1000) in
  ret ide_type.

(** The stream is enabled when every start was acknowledged; the result is
    whether both ports then have it secure. *)
Definition ksetgo_plan (g : pcie_ide_test_group_context_t) (ks select : Z) : io State bool :=
  let+ ok := starts_plan g ks select in
  if negb ok then ret false else
  let+ ide_type := enable_plan g in
  is_ide_stream_secure ide_type (cfg_space_fd (upper_port g)) (ecap_offset (upper_port g)) (ide_id (upper_port g))
    (cfg_space_fd (lower_port g)) (ecap_offset (lower_port g)) (ide_id (lower_port g)).

(** A loop over streams whose body exchanges one message. *)
Lemma exchange_all_simulates object_id size base g ks cls id streams ok tested d t :
  at_test g cls id ok tested t →
  simulates g cls id
    (io_fold (λ (s : Z * Z * bytes) _, let '(direction, substream, name) := s in
       test_k_set object_id size base (session_id g) (stream_id g) (sub_stream_of ks direction substream) (device_port g)
         (case_name_of ks name) cls id) streams tt)
    (exchange_all object_id size g ks streams ok) d t
    (λ b _ ok' tested', ok' = b ∧ tested' = tested || negb (bool_decide (streams = []))).
Proof.
  unfold exchange_all. revert ok tested d t. induction streams as [|[[direction substream] name] streams IH]; intros ok tested d t Hat.
  - apply (simulates_ret g cls id tt ok d t ok tested); [done|]. by rewrite orb_false_r.
  - cbn [io_fold]. eapply simulates_bind with (post := λ b _ ok' tested', ok' = b ∧ tested' = true).
    + apply simulates_map. eapply k_set_simulates, Hat.
    + intros [] b d' t' ok' tested' A (-> & ->). eapply simulates_weaken; [by apply IH|].
      intros b' [] ok' tested' (-> & ->). split; [done|]. by rewrite orb_true_r.
Qed.

Lemma starts_simulate g ks select cls id d t :
  at_test g cls id true false t →
  simulates g cls id (ksetgo_starts g ks select true cls id) (starts_plan g ks select) d t
    (λ b _ ok tested, ok = b ∧ tested = true).
Proof.
  intros Hat. unfold ksetgo_starts, starts_plan. cbv zeta.
  eapply simulates_bind; [eapply exchange_all_simulates; exact Hat|].
  intros [] b d' t1 ok tested A1 (-> & ->). cbn [orb negb bool_decide].
  eapply simulates_quiet; [eapply case_result_of_at; eassumption|].
  eapply simulates_bind with (post := λ _ _ ok' tested', ok' = b ∧ tested' = true).
  - destruct b; cbn [verdict_of negb]; case_decide; try done.
    + eapply simulates_weaken; [eapply simulates_machine; eassumption|]. intros [] [] ok' tested' (_ & -> & ->). done.
    + by apply (simulates_ret g cls id tt tt d' t1 false true).
  - intros [] [] d2 t2 ok' tested' A2 (-> & ->). eapply simulates_weaken; [eapply exchange_all_simulates; exact A2|].
    intros b' [] ok' tested' (-> & ->). done.
Qed.

Lemma ide_type_of_group_spec g d t :
  ide_type_of_group (D := D) (V := pcie_vars) g (d, t) =
  (let* _ := TEEIO_ASSERT (negb (top_type (top g) =? IDE_TEST_TOPOLOGY_TYPE_SEL_LINK_IDE)) in
   Ok (if top_type (top g) =? IDE_TEST_TOPOLOGY_TYPE_LINK_IDE then TEST_IDE_TYPE_LNK_IDE else TEST_IDE_TYPE_SEL_IDE, (d, t))).
Proof.
  unfold ide_type_of_group. destruct (Z.eqb_spec (top_type (top g)) IDE_TEST_TOPOLOGY_TYPE_LINK_IDE) as [->|_]; [done|].
  by destruct (top_type (top g) =? IDE_TEST_TOPOLOGY_TYPE_SEL_LINK_IDE).
Qed.

Lemma ksetgo_enable_no g cls id tested (d : State) t :
  at_test g cls id false tested t → ksetgo_enable g cls id (d, t) = Ok (None, (d, t)).
Proof. intros Hat. unfold ksetgo_enable. by rewrite (bind_Ok _ _ _ _ _ (case_result_of_at _ _ _ _ _ _ _ Hat)). Qed.

Lemma ksetgo_enable_yes g cls id d t :
  at_test g cls id true true t →
  simulates g cls id (ksetgo_enable g cls id) (enable_plan g) d t
    (λ ide_type a ok tested, a = Some ide_type ∧ ok = true ∧ tested = true).
Proof.
  intros Hat. unfold ksetgo_enable. eapply simulates_quiet; [eapply case_result_of_at; eassumption|].
  change (verdict_of true true) with TEEIO_TEST_RESULT_PASS. rewrite decide_True by done.
  unfold simulates, enable_plan, enable_stream, sleep, machine, io_assert, lift, Hardware.bind, Hardware.ret.
  rewrite ide_type_of_group_spec. destruct (TEEIO_ASSERT _) as [[]|e]; cbn [res_bind]; [|done].
  set (ide_type := if _ =? _ then _ else _). cbn [fst snd].
  destruct (enable_ide_stream_in_ecap _ _ _ _ _ d) as [[? d1]|e]; cbn [res_bind fst snd]; [|done].
  destruct (enable_rootport_ide_stream _ _ _ _ _ _ _ d1) as [[[] d2]|e]; cbn [res_bind fst snd libspdm_sleep]; [|done].
  by exists (Some ide_type), t, true, true.
Qed.

Lemma secure_report_simulates g cls id ide_type d t message :
  at_test g cls id true true t →
  simulates g cls id
    (let+ secure := stream_secure g ide_type in record_test cls id 6 secure (message secure))
    (is_ide_stream_secure ide_type (cfg_space_fd (upper_port g)) (ecap_offset (upper_port g)) (ide_id (upper_port g))
       (cfg_space_fd (lower_port g)) (ecap_offset (lower_port g)) (ide_id (lower_port g))) d t
    (λ b _ ok tested, ok = b ∧ tested = true).
Proof.
  intros Hat. unfold simulates, stream_secure, machine, Hardware.bind. cbn [fst snd].
  destruct (is_ide_stream_secure _ _ _ _ _ _ _ d) as [[b d']|e]; cbn [res_bind]; [|done].
  destruct (record_test_at g cls id true true 6 b (message b) d' t Hat) as (t' & E & A).
  by exists tt, t', b, true.
Qed.

(** C31: The verdict of the test KSetGo.1 is about the device.  On a fresh
    case the test does to the machine what [ksetgo_plan] says: the six
    K_SET_GO messages, the selection of the key set in the root port only if all
    receivers acknowledged, and the enabling of the stream only if all six
    messages were acknowledged.  The verdict is PASS when, after that, the
    stream is secure in both ports, and FAILED in every other case. *)
Theorem ksetgo_1_verdict g cls id (d : State) t :
  group t = g → at_case cls id true false (test_results t) →
  match ksetgo_plan g 0 PCIE_IDE_STREAM_KS0 d with
  | Stop e => pcie_ide_test_ksetgo_1_run cls id (d, t) = Stop e
  | Ok (secure, d') =>
      ∃ t', pcie_ide_test_ksetgo_1_run cls id (d, t) = Ok (tt, (d', t')) ∧ group t' = g ∧
        teeio_test_case_result cls id (test_results t') =
          Ok (if secure then TEEIO_TEST_RESULT_PASS else TEEIO_TEST_RESULT_FAILED)
  end.
Proof.
  intros Hg Hat0. assert (Hat : at_test g cls id true false t) by done.
  assert (Hs : simulates g cls id (pcie_ide_test_ksetgo_1_run cls id) (ksetgo_plan g 0 PCIE_IDE_STREAM_KS0) d t
    (λ b _ ok tested, ok = b ∧ tested = true)).
  2: { unfold simulates in Hs. destruct (ksetgo_plan _ _ _ d) as [[b d']|e]; [|done].
       destruct Hs as ([] & t' & ok & tested & E & [Hg' Hc] & -> & ->). exists t'. split_and!; [done..|].
       rewrite (case_result_at _ _ _ _ _ Hc). by destruct b. }
  unfold pcie_ide_test_ksetgo_1_run, ksetgo_plan.
  eapply simulates_quiet; [unfold get_group; cbn [snd]; by rewrite Hg|].
  eapply simulates_bind; [by apply starts_simulate|].
  intros [] ok d1 t1 ok' tested' A1 (-> & ->). destruct ok; cbn [negb].
  - eapply simulates_bind; [by apply ksetgo_enable_yes|].
    intros a ide_type d2 t2 ok' tested' A2 (-> & -> & ->). by apply secure_report_simulates.
  - eapply simulates_quiet; [by eapply ksetgo_enable_no|]. by apply (simulates_ret g cls id tt false d1 t1 false true).
Qed.

(** ** The search for the port index *)
Section port_index.
Context (g : pcie_ide_test_group_context_t) (q : IDE_PORT) (answers : Z → query_answer) (max : Z).

(** The device answers the queries below [k] without error, without reaching into the process, and
    always with the same last index. *)
Definition answering (k : Z) : Prop :=
  ∀ i d p, 0 ≤ i < k →
    (∃ status d', pci_ide_km_query (session_id g) i (d, p) = Ok (status, answers i, (d', p)) ∧ LIBSPDM_STATUS_IS_ERROR status = false) ∧
    answer_max_port_index (answers i) = max.

(** The query of index [k] comes back with an error. *)
Definition failing (k : Z) : Prop :=
  ∀ d p, ∃ status a d', pci_ide_km_query (session_id g) k (d, p) = Ok (status, a, (d', p)) ∧ LIBSPDM_STATUS_IS_ERROR status = true.

(** The indices that are asked for and name the lower port; the last one is
    taken. *)
Definition hit (i : Z) : bool := answers_for (port (lower_port g)) (answers i).
Definition hits : list Z := if hit 0 then [0] else List.filter hit (seqZ 1 max).

(** The port objects after the index [o] was stored in the lower port. *)
Definition indexed (o : option Z) (p : process) : process :=
  match o with
  | Some i => with_port_objects (<[lower_addr g := with_port_index i q]> (port_objects p)) p
  | None => p
  end.

Lemma set_port_index_indexed i o (d : D) p :
  port_objects p !! lower_addr g = Some q →
  set_port_index (lower_addr g) i (d, indexed o p) = Ok (tt, (d, indexed (Some i) p)).
Proof.
  intros Hq. unfold set_port_index, get_port, set_port, get_process, set_process, Hardware.bind, lift.
  cbn [res_bind fst snd]. destruct o as [j|]; cbn [indexed port_objects with_port_objects].
  - rewrite lookup_insert_eq. cbn [deref res_bind fst snd port_objects with_port_objects]. by rewrite insert_insert_eq.
  - by rewrite Hq.
Qed.

Lemma query_round_step k i o (d : D) p :
  answering k → 0 ≤ i < k → port_objects p !! lower_addr g = Some q → i < max + 1 →
  ∃ d', query_round g (port (lower_port g)) (i, max, bool_decide (is_Some o)) (d, indexed o p) =
    let o' := if hit i then Some i else o in
    Ok (inl (u8 (i + 1), max, bool_decide (is_Some o')), (d', indexed o' p)).
Proof.
  intros Ha Hik Hq Hi. unfold query_round. rewrite (proj2 (Z.ltb_lt _ _) Hi). cbn [negb].
  destruct (Ha i d (indexed o p) Hik) as [(status & d' & E & Hs) Hmax]. exists d'. rewrite (bind_Ok _ _ _ _ _ E), Hs.
  unfold hit. destruct (answers_for _ (answers i)).
  - rewrite (bind_Ok _ _ _ true (d', indexed (Some i) p)).
    + by rewrite Hmax, bool_decide_true.
    + by rewrite (bind_Ok _ _ _ _ _ (set_port_index_indexed i o d' p Hq)).
  - unfold Hardware.bind, Hardware.ret. cbn [res_bind]. by rewrite Hmax.
Qed.

Lemma hits_snoc i : 1 ≤ i → List.filter hit (seqZ 1 i) = List.filter hit (seqZ 1 (i - 1)) ++ (if hit i then [i] else []).
Proof.
  intros Hi. replace i with ((i - 1) + 1) at 1 by lia. rewrite seqZ_app by lia. rewrite List.filter_app.
  replace (seqZ (1 + (i - 1)) 1) with [i]; [by cbn; destruct (hit i)|].
  rewrite seqZ_cons by lia. replace (1 + (i - 1)) with i by lia. done.
Qed.

(** The last index below [i], and not 0, that names the port. *)
Definition found_below (i : Z) : option Z := last (List.filter hit (seqZ 1 (i - 1))).

(** [n] rounds from index [i] on. *)
Lemma query_steps k n m i (d : D) p :
  answering k → port_objects p !! lower_addr g = Some q → 1 ≤ i → i + Z.of_nat n ≤ k → i + Z.of_nat n ≤ max + 1 → k ≤ 255 →
  let state j := (j, max, bool_decide (is_Some (found_below j))) in
  ∃ d', io_while (Pos.of_succ_nat (n + m)) (query_round g (port (lower_port g))) (state i) (d, indexed (found_below i) p) =
    io_while (Pos.of_succ_nat m) (query_round g (port (lower_port g))) (state (i + Z.of_nat n)) (d', indexed (found_below (i + Z.of_nat n)) p).
Proof.
  intros Ha Hq. revert i d. induction n as [|n IH]; intros i d Hi Hk Hn Hk5 state.
  - exists d. by rewrite Z.add_0_r.
  - replace (Pos.of_succ_nat (S n + m)) with (Pos.succ (Pos.of_succ_nat (n + m))) by lia. rewrite io_while_succ.
    destruct (query_round_step k i (found_below i) d p Ha ltac:(lia) Hq ltac:(lia)) as (d1 & E). unfold state at 1. rewrite E. cbv zeta.
    assert (Ho : (if hit i then Some i else found_below i) = found_below (i + 1)).
    { unfold found_below. replace (i + 1 - 1) with i by lia. rewrite (hits_snoc i) by lia.
      destruct (hit i); [by rewrite last_snoc|by rewrite app_nil_r]. }
    rewrite Ho. unfold u8. rewrite Z.mod_small by lia.
    destruct (IH (i + 1) d1) as (d2 & E'); [lia..|]. exists d2.
    replace (i + 1 + Z.of_nat n) with (i + Z.of_nat (S n)) in E' by lia. exact E'.
Qed.

(** The loop comes to its end, or to the query that fails. *)
Lemma query_loop (d : D) p :
  answering (max + 1) → port_objects p !! lower_addr g = Some q → 0 ≤ max < 255 →
  ∃ d', io_while 256 (query_round g (port (lower_port g))) (1, max, false) (d, p) =
    Ok (bool_decide (is_Some (found_below (max + 1))), (d', indexed (found_below (max + 1)) p)).
Proof.
  intros Ha Hq Hm. destruct (query_steps (max + 1) (Z.to_nat max) (255 - Z.to_nat max) 1 d p Ha Hq) as (d' & E); [lia..|].
  replace (Z.to_nat max + (255 - Z.to_nat max))%nat with 255%nat in E by lia. exists d'.
  change 256%positive with (Pos.of_succ_nat 255). etransitivity; [exact E|]. replace (1 + Z.of_nat (Z.to_nat max)) with (max + 1) by lia.
  apply io_while_exit. unfold query_round. by rewrite (proj2 (Z.ltb_ge (max + 1) (max + 1))) by lia.
Qed.

Lemma query_loop_fails k (d : D) p :
  answering k → failing k → port_objects p !! lower_addr g = Some q → 1 ≤ k ≤ max → max ≤ 255 →
  ∃ d', io_while 256 (query_round g (port (lower_port g))) (1, max, false) (d, p) = Ok (false, (d', indexed (found_below k) p)).
Proof.
  intros Ha Hf Hq Hk Hm. destruct (query_steps k (Z.to_nat (k - 1)) (255 - Z.to_nat (k - 1)) 1 d p Ha Hq) as (d' & E); [lia..|].
  replace (Z.to_nat (k - 1) + (255 - Z.to_nat (k - 1)))%nat with 255%nat in E by lia.
  replace (1 + Z.of_nat (Z.to_nat (k - 1))) with k in E by lia.
  destruct (Hf d' (indexed (found_below k) p)) as (status & a & d2 & Ef & Hs). exists d2.
  change 256%positive with (Pos.of_succ_nat 255). etransitivity; [exact E|].
  apply io_while_exit. unfold query_round. rewrite (proj2 (Z.ltb_lt k (max + 1))) by lia. cbn [negb].
  rewrite (bind_Ok _ _ _ _ _ Ef), Hs. done.
Qed.

Lemma renew_ports_spec o (d : D) p :
  port_objects p !! lower_addr g = Some q → is_Some (port_objects p !! root_addr g) →
  is_Some (port_objects p !! upper_addr g) →
  ∃ g', renew_ports g (d, indexed o p) = Ok (g', (d, indexed o p)) ∧
    port (lower_port g') = match o with Some i => with_port_index i q | None => q end.
Proof.
  intros Hq Hr Hu. unfold renew_ports, get_port, get_process, Hardware.bind, lift, Hardware.ret. cbn [res_bind fst snd].
  assert (Hlive : ∀ a, is_Some (port_objects p !! a) → is_Some (port_objects (indexed o p) !! a)).
  { intros a Ha. destruct o; cbn [indexed port_objects with_port_objects]; [|done].
    destruct (decide (lower_addr g = a)) as [<-|Hne]; [rewrite lookup_insert_eq; by eexists|by rewrite lookup_insert_ne]. }
  destruct (Hlive _ Hr) as [r ->]. cbn [deref res_bind fst snd]. destruct (Hlive _ Hu) as [u ->]. cbn [deref res_bind fst snd].
  assert (port_objects (indexed o p) !! lower_addr g = Some (match o with Some i => with_port_index i q | None => q end)) as ->.
  { destruct o; cbn [indexed port_objects with_port_objects]; [by rewrite lookup_insert_eq|done]. }
  cbn [deref res_bind]. eexists. split; [reflexivity|]. done.
Qed.

Lemma query_never_ends fuel (d : D) p :
  answering 256 → port_objects p !! lower_addr g = Some q → max = 255 →
  io_while fuel (query_round g (port (lower_port g))) (1, 255, false) (d, p) = Stop NoFuel.
Proof.
  intros Ha Hq Hm. unfold io_while.
  apply (while_diverges _ (λ '(s, (d, p')), ∃ i o, s = (i, 255, bool_decide (is_Some o)) ∧ 0 ≤ i < 256 ∧ p' = indexed o p)).
  - intros [s [d1 p1]] (i & o & -> & Hi & ->). rewrite <- Hm.
    destruct (query_round_step 256 i o d1 p Ha ltac:(lia) Hq ltac:(lia)) as (d2 & ->). cbn [res_bind].
    eexists. split; [reflexivity|]. eexists _, _. split_and!; [done| | |done];
      unfold u8; pose proof (Z.mod_pos_bound (i + 1) (2 ^ 8)); lia.
  - by exists 1, None.
Qed.

(** After the first answer: what the loop, if it is entered, makes of it. *)
Lemma search_after_first k (d : D) p found o :
  answering k → 1 ≤ k → 0 ≤ max → port_objects p !! lower_addr g = Some q →
  is_Some (port_objects p !! root_addr g) → is_Some (port_objects p !! upper_addr g) → hit 0 = false →
  (∀ d1, ∃ d2, (if 0 <? max then io_while 256 (query_round g (port (lower_port g))) (1, max, false) else ret false) (d1, p) =
     Ok (found, (d2, indexed o p))) →
  ∃ d' g', ide_query_port_index g (d, p) = Ok (found, g', (d', indexed o p)) ∧
    port_index (port (lower_port g')) = default (port_index q) o.
Proof.
  intros Ha Hk Hm Hq Hr Hu Hno Hloop. destruct (Ha 0 d p ltac:(lia)) as [(status & d1 & E & Hs) Hmax].
  destruct (Hloop d1) as (d2 & Hl). exists d2. destruct (renew_ports_spec o d2 p Hq Hr Hu) as (g' & Hren & Hport). exists g'. split.
  - unfold ide_query_port_index. rewrite (bind_Ok _ _ _ _ _ E), Hs.
    change (answers_for (port (lower_port g)) (answers 0)) with (hit 0). rewrite Hno, Hmax.
    by rewrite (bind_Ok _ _ _ _ _ Hl), (bind_Ok _ _ _ _ _ Hren).
  - rewrite Hport. by destruct o.
Qed.

(** C32: The search for the port index of the device, at a device whose answers do not change with its
    state, all name the same last index [max] and leave the process alone.  The indices are asked
    one after the other, up to [max].  When all of these queries succeed, the index is
    the last one whose answer has the address of the port (0, if that
    matches, without asking on), it is stored in the port, and the search
    succeeds exactly if there is one; this holds for [max] below 255: with 255 the
    counter of eight bits never passes it, and the search does not end unless
    index 0 matches.  When a query that is asked fails, the search fails, whatever was found before, and
    the port keeps the last index found. *)
Theorem port_index_search (d : D) p :
  0 ≤ max ≤ 255 → port_objects p !! lower_addr g = Some q →
  is_Some (port_objects p !! root_addr g) → is_Some (port_objects p !! upper_addr g) →
  (answering (max + 1) → max < 255 ∨ hit 0 = true →
    ∃ d' g', ide_query_port_index g (d, p) = Ok (bool_decide (is_Some (last hits)), g', (d', indexed (last hits) p)) ∧
      port_index (port (lower_port g')) = default (port_index q) (last hits)) ∧
  (∀ k, answering k → failing k → 0 ≤ k ≤ max → k = 0 ∨ hit 0 = false →
    let found := last (List.filter hit (seqZ 1 (k - 1))) in
    ∃ d' g', ide_query_port_index g (d, p) = Ok (false, g', (d', indexed found p)) ∧
      (0 < k → port_index (port (lower_port g')) = default (port_index q) found)) ∧
  (answering 256 → max = 255 → hit 0 = false →
    ide_query_port_index g (d, p) = Stop NoFuel ∧
    ∀ fuel d1, io_while fuel (query_round g (port (lower_port g))) (1, 255, false) (d1, p) = Stop NoFuel).
Proof.
  intros Hm Hq Hr Hu. split; [|split].
  - intros Ha Hend. unfold hits. destruct (hit 0) eqn:Eh.
    + destruct (Ha 0 d p ltac:(lia)) as [(status & d1 & E & Hs) Hmax].
      exists d1. destruct (renew_ports_spec (Some 0) d1 p Hq Hr Hu) as (g' & Hren & Hport). exists g'. split; [|by rewrite Hport].
      unfold ide_query_port_index. rewrite (bind_Ok _ _ _ _ _ E), Hs.
      change (answers_for (port (lower_port g)) (answers 0)) with (hit 0). rewrite Eh, bind_assoc.
      rewrite (bind_Ok _ _ _ _ _ (set_port_index_indexed 0 None d1 p Hq)), bind_ret. by rewrite (bind_Ok _ _ _ _ _ Hren).
    + destruct Hend as [Hend|?]; [|done].
      apply (search_after_first (max + 1)); try done; [lia|lia|]. intros d1. destruct (Z.ltb_spec 0 max) as [Hpos|Hzero].
      * destruct (query_loop d1 p Ha Hq ltac:(lia)) as (d2 & E). exists d2. rewrite E. unfold found_below.
        by replace (max + 1 - 1) with max by lia.
      * exists d1. assert (max = 0) as -> by lia. done.
  - intros k Ha Hf Hk Hno found. destruct (decide (k = 0)) as [->|Hne].
    + destruct (Hf d p) as (status & a & d' & E & Hs). exists d', g. split; [|lia].
      unfold ide_query_port_index. by rewrite (bind_Ok _ _ _ _ _ E), Hs.
    + destruct Hno as [|Hno]; [done|].
      destruct (search_after_first k d p false found) as (d' & g' & E & Hp); try done; [lia|lia| |by exists d', g'].
      intros d1. rewrite (proj2 (Z.ltb_lt _ _)) by lia. apply query_loop_fails; try done; lia.
  - intros Ha H255 Hno. split; [|intros; by apply query_never_ends].
    destruct (Ha 0 d p ltac:(lia)) as [(status & d1 & E & Hs) Hmax].
    unfold ide_query_port_index. rewrite (bind_Ok _ _ _ _ _ E), Hs.
    change (answers_for (port (lower_port g)) (answers 0)) with (hit 0). rewrite Hno, Hmax, H255.
    by rewrite (bind_Stop _ _ _ NoFuel) by (by apply query_never_ends).
Qed.

End port_index.

End tests.

(** ** A model device

    It accepts every key and acknowledges every message; libspdm always
    succeeds.  The values are example values. *)
Definition model_requester {S : Type} : IdeKmRequester S := {|
  PCI_IDE_KM_KEY_SET_K0 := 0;
  PCI_IDE_KM_KEY_SET_K1 := 1;
  PCI_IDE_KM_KEY_DIRECTION_RX := 0;
  PCI_IDE_KM_KEY_DIRECTION_TX := 2;
  PCI_IDE_KM_KEY_SUB_STREAM_PR := 0;
  PCI_IDE_KM_KEY_SUB_STREAM_NPR := 0x10;
  PCI_IDE_KM_KEY_SUB_STREAM_CPL := 0x20;
  PCI_IDE_KM_OBJECT_ID_K_SET_GO := 4;
  PCI_IDE_KM_OBJECT_ID_K_SET_GOSTOP_ACK := 6;
  PCI_IDE_KM_KP_ACK_STATUS_SUCCESS := 0;
  sizeof_pci_ide_km_k_set_go_t := 8;
  sizeof_pci_ide_km_k_gostop_ack_t := 8;
  LIBSPDM_STATUS_INVALID_MSG_SIZE := 0x80010005;
  LIBSPDM_STATUS_INVALID_MSG_FIELD := 0x80010004;
  libspdm_get_random_number n := ret (true, replicate (Z.to_nat n) 0x5a);
  pci_ide_km_query _ port :=
    ret (0, {| answer_dev_func := 8 * port; answer_bus := 1; answer_segment := 0; answer_max_port_index := 2 |});
  pci_ide_km_key_prog _ _ _ _ _ _ := ret (0, 0);
  pci_ide_km_send_receive_data _ request _ :=
    ret (0, 8, k_set_request 6 (km_stream_id request) (km_key_sub_stream request) (km_port_index request));
  getchar := ret 113
|}.

Definition model_tester {S : Type} : IdeKmTester S := {|
  PCI_IDE_KM_OBJECT_ID_QUERY := 0;
  PCI_IDE_KM_OBJECT_ID_QUERY_RESP := 1;
  PCI_IDE_KM_OBJECT_ID_KEY_PROG := 2;
  PCI_IDE_KM_OBJECT_ID_KP_ACK := 3;
  PCI_IDE_KM_OBJECT_ID_K_SET_STOP := 5;
  PCI_IDE_KM_KP_ACK_STATUS_INCORRECT_LENGTH := 1;
  PCI_IDE_KM_KP_ACK_STATUS_UNSUPPORTED_PORT_INDEX := 2;
  PCI_IDE_KM_KP_ACK_STATUS_UNSUPPORTED_VALUE := 3;
  PCI_IDE_KM_KEY_SET_MASK := 1;
  PCI_IDE_KM_KEY_DIRECTION_MASK := 2;
  PCI_IDE_KM_KEY_SUB_STREAM_MASK := 0xf0;
  sizeof_pci_ide_km_query_t := 8;
  sizeof_pci_ide_km_query_resp_t := 12;
  sizeof_test_pci_ide_km_query_resp_t := 76;
  sizeof_test_pci_ide_km_key_prog_t := 48;
  sizeof_pci_ide_km_kp_ack_t := 8;
  sizeof_pci_ide_km_k_set_stop_t := 8
|}.

Definition example_port (typ dev : Z) : IDE_PORT :=
  {| port_id := 1; port_enabled := true; port_type := typ; port_name := []; port_bdf := []; port_segment := 0;
     port_bus := 1; port_device := dev; port_function := 0; port_index := 0 |}.

(** A port whose configuration space is open as [fd]. *)
Definition example_port_context (fd typ dev : Z) : ide_common_test_port_context_t :=
  {| port := example_port typ dev; cfg_space_fd := fd; ecap_offset := 0x100; doe_offset := 0; ide_cap := 0x3;
     mapped_kcbar_addr := 0x10000; kcbar_fd := 5; stream_cap := 0; ide_id := 0; rid_assoc1 := 0; rid_assoc2 := 0;
     addr_assoc1 := 0; addr_assoc2 := 0; addr_assoc3 := 0 |}.

Definition example_topology : IDE_TEST_TOPOLOGY :=
  {| top_id := 1; top_enabled := true; top_type := IDE_TEST_TOPOLOGY_TYPE_SEL_IDE;
     top_connection := IDE_TEST_CONNECT_DIRECT; top_root_port := 1; top_upper_port := 1; top_lower_port := 2;
     top_sw_conn1 := []; top_sw_conn2 := []; top_segment := 0; top_bus := 0; top_stream_id := 1 |}.

Definition example_group : pcie_ide_test_group_context_t :=
  {| top := example_topology; root_addr := 1; upper_addr := 1; lower_addr := 2;
     root_port := example_port IDE_PORT_TYPE_ROOTPORT 1; upper_port := example_port_context 3 IDE_PORT_TYPE_ROOTPORT 1;
     lower_port := example_port_context 4 IDE_PORT_TYPE_ENDPOINT 0; sw_conn1 := []; sw_conn2 := []; spdm_context := 0x1000;
     session_id := 1; stream_id := 1; rp_stream_index := 0; k_set := [[0; 1; 2]; [0; 1; 2]] |}.

(** The results before the first assertion of a case. *)
Definition fresh_case : ide_run_test_case_result_t :=
  {| case_class_name := bs "KSetGo"; case_name := bs "KSetGo.1"; class_id := 2; case_id := 1; case_passed := 0;
     case_failed := 0; config_item_result := []; assertion_result := [] |}.
Definition fresh_results : Results.state :=
  {| suites := [[{| config_name := bs "default"; config_id := 1; config_passed := 0; config_failed := 0;
       group_result := [{| group_name := bs "SelectiveIDE"; group_passed := 0; group_failed := 0; func_results := [];
         case_result := [fresh_case] |}] |}]];
     g_current_config_result := Some (0, 0)%nat; g_current_group_result := Some (0, 0, 0)%nat;
     g_current_case_result := Some (0, 0, 0, 0)%nat |}.

Definition example_test_state : pcie_test_state :=
  {| group := example_group; test_results := fresh_results; reports := []; skip_case := false;
     vars := {| m_keyprog_max_port := 0; mMaxPortIndex := 0; mKeySet := 0; m_spdm_session_1_session_y := 0 |} |}.

Lemma fresh_results_at : at_case 2 1 true false fresh_results.
Proof.
  split; [split; [repeat constructor|]|].
  - unfold pointers_ok. simpl. split_and!; try done; by eexists.
  - exists (0, 0, 0, 0)%nat, fresh_case. done.
Qed.

Definition example_process : process :=
  {| devices := []; doe_offset_in_use := 0; m_dev_fp := 0; port_objects := ∅; m_spdm_context := 0x1000;
     m_scratch_buffer := 0; m_requested_spdm_version := 0 |}.

(** Both ports have a stream that is secure. *)
Definition example_registers : memory :=
  [(Cfg 3 0x104, 2); (Cfg 3 0x114, 2); (Cfg 4 0x104, 2); (Cfg 4 0x114, 2)].

#[local] Existing Instance model_requester.
#[local] Existing Instance model_tester.

Definition after_starts : memory :=
  [(Cfg 3 0x110, 1); (Mmio 0x10004, 1); (Cfg 4 0x110, 1); (Mmio 0x10008, 1)] ++ example_registers.

Lemma ksetgo_1_verdict_witness :
  ∃ t', pcie_ide_test_ksetgo_1_run (D := memory) 2 1
          ((example_registers, example_process), example_test_state) = Ok (tt, ((after_starts, example_process), t')) ∧
        teeio_test_case_result 2 1 (test_results t') = Ok TEEIO_TEST_RESULT_PASS.
Proof.
  pose proof (ksetgo_1_verdict (D := memory) example_group 2 1 (example_registers, example_process)
    example_test_state
    eq_refl fresh_results_at) as Hv.
  replace (ksetgo_plan _ _ _ _) with (Ok (true, (after_starts, example_process))) in Hv by (vm_compute; reflexivity).
  destruct Hv as (t' & E & _ & Hr). exists t'. split; [exact E|exact Hr].
Defined.

(** The device is function 2.0 of bus 1; the third answer names it. *)
Definition search_group : pcie_ide_test_group_context_t :=
  with_lower (example_port_context 4 IDE_PORT_TYPE_ENDPOINT 2) example_group.
Definition search_process : process :=
  with_port_objects {[ 1 := example_port IDE_PORT_TYPE_ROOTPORT 1; 2 := example_port IDE_PORT_TYPE_ENDPOINT 2 ]} example_process.

Lemma port_index_search_witness :
  ∃ d' g' p', ide_query_port_index (D := memory) search_group (example_registers, search_process) = Ok (true, g', (d', p')) ∧
    port_index (port (lower_port g')) = 2.
Proof.
  destruct (port_index_search (D := memory) search_group (example_port IDE_PORT_TYPE_ENDPOINT 2)
    (λ port, {| answer_dev_func := 8 * port; answer_bus := 1; answer_segment := 0; answer_max_port_index := 2 |}) 2
    example_registers search_process) as [Hs _].
  - lia.
  - reflexivity.
  - by eexists.
  - by eexists.
  - destruct Hs as (d' & g' & E & Hp); [|left; lia|].
    { intros i d p _. split; [by exists 0, d|done]. } eexists d', g', _. split; [exact E|exact Hp].
Defined.

End PcieTestsSpec.
