(* ===== verification/PcieCodeSpec.v ===== *)
(** * What the functions of the PCIe IDE tests may report

    The engine's theorems ask of the code it calls that an assertion is
    reported under the ids of the current case.  Here it is shown of every function in the
    tables of the PCIe IDE library, whatever the device and libspdm do. *)
From Stdlib Require Import ZArith Lia Ascii String.
From stdpp Require Import prelude gmap.
From S2P Require Import Prelude Utils KeyOrder Libspdm TestConfig Results Engine Stops TestLib Hardware PcieIde Kcbar Doe IdeKm Ports Spdm Tests TestsSpec PcieTests PcieGroup PcieCode.

Open Scope Z_scope.
Open Scope teeio_scope.

Module PcieCodeSpec.
Import TestConfig Results Engine Stops Hardware PcieIde Kcbar Doe IdeKm Ports Spdm Tests TestsSpec PcieTests PcieGroup PcieCode.

Section code.
Context {D : Type} `{Bus D} `{Clock D} `{Os D} `{Alloc (D * process)} `{Libspdm}.
Context `{IdeKmRequester (D * process)} `{IdeKmTester (D * process)} `{SpdmRequester (D * process)} `{DoeDiscovery (D * process)}.
Context (g_teeio_fixed_key : bool) (tries presses : positive) (g_test_rounds g_test_interval : Z).

Lemma stop_streams_reports P g ks streams res : reports_only P (stop_streams g ks streams res).
Proof. revert res. induction streams as [|[[direction substream] name] streams IH]; intros res; cbn [stop_streams]; reports. Qed.
Hint Resolve stop_streams_reports : reports.

Ltac all_ok := repeat (apply Forall_cons; split; [cbn [code_ok snd]; reports|]); by apply Forall_nil.

Lemma config_code_ok : Forall (λ e : string * code D pcie_ide_test_group_context_t pcie_vars, code_ok (snd e)) config_code.
Proof. unfold config_code. all_ok. Qed.

Lemma group_code_ok : Forall (λ e : string * code D pcie_ide_test_group_context_t pcie_vars, code_ok (snd e)) group_code.
Proof. unfold group_code. all_ok. Qed.

Lemma case_code_ok :
  Forall (λ e : string * code D pcie_ide_test_group_context_t pcie_vars, code_ok (snd e))
    (case_code g_teeio_fixed_key tries presses g_test_rounds g_test_interval).
Proof. unfold case_code. all_ok. Qed.

Lemma pcie_ide_code_ok : 
  Forall (λ e, code_ok (snd e)) (pcie_ide_code g_teeio_fixed_key tries presses g_test_rounds g_test_interval).
Proof. unfold pcie_ide_code. rewrite !Forall_app. split; [apply config_code_ok|]. split; [apply group_code_ok|apply case_code_ok]. Qed.

#[local] Abbreviation the_code := (pcie_code g_teeio_fixed_key tries presses g_test_rounds g_test_interval).
#[local] Abbreviation table := (pcie_ide_code g_teeio_fixed_key tries presses g_test_rounds g_test_interval).

(** The functions the library registers, with the type of their pointer. *)
Definition pcie_registered : list (string * pointer_type) :=
  registered (concat TestLib.m_config_funcs) TestLib.m_group_funcs TestLib.m_pcie_ide_test_case_funcs.

Lemma pcie_well_typed : well_typed pcie_registered table = true.
Proof. vm_compute. reflexivity. Qed.

(** Every function that the PCIe IDE library registers has its
    definition here, and reports only what it is called for, whatever the device,
    libspdm and the machine do: a run function assertions of the case in its
    context, a configuration function results of configuration items, a group function results of
    the group, and the setups and teardowns of cases nothing.  The results
    that a function works with are those that come of its reports, in their
    order. *)
Theorem pcie_code_reports :
  (∀ f k, (f, k) ∈ pcie_registered → ∃ c, find_code f table = Some c ∧ pointer_type_of c = k) ∧
  ∀ f ctx st w o, the_code f ctx st w = Ok o →
    ∃ c, find_code f table = Some c ∧ Forall (may_report c ctx) (out_ops o) ∧
         replay (out_ops o) st = Ok (test_results (snd (out_world o))).
Proof.
  split; [intros f k; apply well_typed_find, pcie_well_typed|]. intros f ctx st w o. apply code_call, pcie_ide_code_ok.
Qed.

End code.
End PcieCodeSpec.
