(* ===== verification/PcieRun.v ===== *)
(** * A run of the PCIe IDE tests with the engine

    The services outside the repository instantiated with small models, and the
    run of two suites on a machine without an IDE capability. *)
From Stdlib Require Import ZArith Lia Ascii String.
From stdpp Require Import prelude gmap.
From S2P Require Import Prelude Utils KeyOrder Libspdm TestConfig Results Engine Stops TestLib Hardware PcieIde Kcbar Doe IdeKm Ports Spdm Tests TestsSpec PcieTests PcieGroup PcieCode PcieCodeSpec PcieTestsSpec PortsSpec.

Open Scope Z_scope.
Open Scope teeio_scope.

Module PcieRun.
Import TestConfig Results Engine Stops Hardware PcieIde Kcbar Doe IdeKm Ports Spdm Tests TestsSpec PcieTests PcieGroup PcieCode PcieCodeSpec.

(** ** A small run

    The machine of PortsSpec.v, where the scan finds the device but no IDE
    capability: the group's setup fails and says so, and the cases are
    recorded as not tested. *)
Definition model_alloc {S : Type} : Alloc S := {| malloc _ := Hardware.ret 0x1000; free _ := Hardware.ret tt |}.

Definition model_discovery {S : Type} : DoeDiscovery S := {|
  PCI_DOE_DATA_OBJECT_TYPE_DOE_DISCOVERY := 0; PCI_DOE_DATA_OBJECT_TYPE_SPDM := 1; PCI_DOE_DATA_OBJECT_TYPE_SECURED_SPDM := 2;
  pci_doe_discovery _ _ _ := Hardware.ret (0, [0; 1; 2])
|}.

(** libspdm that knows no algorithm and refuses to connect. *)
Definition model_spdm {S : Type} : SpdmRequester S := {|
  SPDM_MESSAGE_VERSION_10 := 0x10; SPDM_MESSAGE_VERSION_14 := 0x14; SPDM_VERSION_NUMBER_SHIFT_BIT := 8;
  SPDM_GET_CAPABILITIES_REQUEST_FLAGS_CERT_CAP := 2; SPDM_GET_CAPABILITIES_REQUEST_FLAGS_ENCRYPT_CAP := 0x40;
  SPDM_GET_CAPABILITIES_REQUEST_FLAGS_MAC_CAP := 0x80; SPDM_GET_CAPABILITIES_REQUEST_FLAGS_KEY_EX_CAP := 0x200;
  SPDM_GET_CAPABILITIES_REQUEST_FLAGS_ENCAP_CAP := 0x1000; SPDM_GET_CAPABILITIES_REQUEST_FLAGS_KEY_UPD_CAP := 0x4000;
  SPDM_GET_CAPABILITIES_REQUEST_FLAGS_CHUNK_CAP := 0x20000; SPDM_GET_CAPABILITIES_RESPONSE_FLAGS_MEAS_CAP := 0x18;
  SPDM_MEASUREMENT_SPECIFICATION_DMTF := 1; SPDM_ALGORITHMS_BASE_ASYM_ALGO_TPM_ALG_ECDSA_ECC_NIST_P384 := 0x80;
  SPDM_ALGORITHMS_BASE_ASYM_ALGO_TPM_ALG_ECDSA_ECC_NIST_P256 := 0x10; SPDM_ALGORITHMS_BASE_ASYM_ALGO_TPM_ALG_RSASSA_3072 := 4;
  SPDM_ALGORITHMS_BASE_HASH_ALGO_TPM_ALG_SHA_384 := 2; SPDM_ALGORITHMS_BASE_HASH_ALGO_TPM_ALG_SHA_256 := 1;
  SPDM_ALGORITHMS_PQC_ASYM_ALGO_ML_DSA_87 := 4; SPDM_ALGORITHMS_DHE_NAMED_GROUP_SECP_384_R1 := 0x10;
  SPDM_ALGORITHMS_DHE_NAMED_GROUP_SECP_256_R1 := 8; SPDM_ALGORITHMS_AEAD_CIPHER_SUITE_AES_256_GCM := 2;
  SPDM_ALGORITHMS_KEY_SCHEDULE_SPDM := 1; SPDM_ALGORITHMS_OPAQUE_DATA_FORMAT_1 := 2; SPDM_ALGORITHMS_KEM_ALG_ML_KEM_1024 := 4;
  SPDM_GET_MEASUREMENTS_REQUEST_ATTRIBUTES_GENERATE_SIGNATURE := 1;
  SPDM_GET_MEASUREMENTS_REQUEST_MEASUREMENT_OPERATION_ALL_MEASUREMENTS := 0xff;
  SPDM_GET_MEASUREMENTS_REQUEST_MEASUREMENT_OPERATION_TOTAL_NUMBER_OF_MEASUREMENTS := 0; SPDM_MAX_SLOT_COUNT := 8;
  LIBSPDM_MAX_CERT_CHAIN_SIZE := 0x1000; LIBSPDM_MAX_MEASUREMENT_RECORD_SIZE := 0x1000;
  LIBSPDM_STATUS_INVALID_STATE_PEER := 0x80010007; libspdm_get_context_size := 0x1000;
  libspdm_init_context _ := Hardware.ret tt; libspdm_register_functions _ := Hardware.ret tt;
  libspdm_get_sizeof_required_scratch_buffer _ := Hardware.ret 0x1000; libspdm_set_scratch_buffer _ _ _ := Hardware.ret tt;
  libspdm_set_data _ _ _ _ _ := Hardware.ret 0; libspdm_get_data _ _ _ _ := Hardware.ret (0, 0, 4);
  libspdm_init_connection _ := Hardware.ret 0x80040000; libspdm_get_certificate _ _ _ _ := Hardware.ret (0x80040000, []);
  libspdm_start_session _ _ _ := Hardware.ret (0x80040000, 0); libspdm_stop_session _ _ := Hardware.ret 0x80040000;
  libspdm_get_measurement _ _ _ _ _ _ := Hardware.ret {| m_status := 0x80040000; m_number := 0; m_length := 0; m_record := [] |}
|}.

#[local] Existing Instances PortsSpec.stack_bus PortsSpec.stack_clock PortsSpec.stack_os model_alloc model_discovery model_spdm PcieTestsSpec.model_requester PcieTestsSpec.model_tester.

(** Suites as they are prepared for a selective IDE topology and the classes Query and KSetGo. *)
Definition example_suites : list ide_run_test_suite_t :=
  let case cls name id setup run teardown check :=
    {| tc_class := cls; tc_name := name; tc_class_id := id; tc_case_id := 1; tc_signature := CASE_CONTEXT_SIGNATURE;
       tc_skip := false; config_check_required := check; run_func := Some run; setup_func := Some setup;
       teardown_func := Some teardown |} in
  let group cls cases :=
    {| tg_name := bs "group"; tg_signature := GROUP_CONTEXT_SIGNATURE; tg_case_class := cls; tg_context := example_context;
       test_case := cases; group_setup_func := Some "pcie_ide_test_group_setup_sel"%string;
       group_teardown_func := Some "pcie_ide_test_group_teardown_sel"%string |} in
  [{| ts_name := bs "TestSuite_1"; ts_signature := SUITE_CONTEXT_SIGNATURE; ts_suite_id := 1; ts_category := 0;
      test_group :=
        [group 0 [case (bs "Query") (bs "Query.1") 0 "pcie_ide_test_query_1_setup"%string "pcie_ide_test_query_1_run"%string
                    "pcie_ide_test_query_1_teardown"%string false];
         group 2 [case (bs "KSetGo") (bs "KSetGo.1") 2 "pcie_ide_test_ksetgo_1_setup"%string
                    "pcie_ide_test_ksetgo_1_run"%string "pcie_ide_test_ksetgo_1_teardown"%string true]];
      test_config :=
        [{| rtc_config_id := 1; rtc_name := bs "default"; rtc_signature := CONFIG_CONTEXT_SIGNATURE; rtc_top_type := 0;
            config_item :=
              [{| item_category := 0; item_type := 0;
                  enable_func := Some "pcie_ide_test_config_default_enable_common"%string;
                  disable_func := Some "pcie_ide_test_config_default_disable_common"%string;
                  support_func := Some "pcie_ide_test_config_default_support_common"%string;
                  check_func := Some "pcie_ide_test_config_default_check_common"%string |}] |}] |}].

Lemma example_suites_ready : Forall suite_ready example_suites.
Proof.
  constructor; [|constructor]. split; [done|]. split.
  - split; [done|]. split; [done|]. by constructor.
  - repeat (constructor; [split_and!; try done; by repeat constructor|]). constructor.
Qed.

Definition example_world : world PortsSpec.stack pcie_ide_test_group_context_t pcie_vars := (([], PortsSpec.example_process), PcieTestsSpec.example_test_state).

Definition example_run : res (unit * est) :=
  run_suites (H := pcie_code false 10 10 0 0) 0 example_suites (start example_world example_suites).

Definition example_end : est :=
  match example_run with Ok (_, e) => e | Stop _ => start example_world example_suites end.

Lemma example_run_ends : example_run = Ok (tt, example_end).
Proof. vm_compute. reflexivity. Qed.

(** So it is a run as the engine promises it. *)
Lemma example_run_protocol :
  suites_trace example_suites (es_trace example_end) ∧
  shape (es_results example_end) = [[(1, [[(0, 1)]; [(2, 1)]])]] ∧ counters_ok (es_results example_end).
Proof.
  exact (ended _ _ _ _ (suites_end_or_stop (pcie_code false 10 10 0 0) example_suites example_world example_suites_ready) example_run_ends).
Qed.

(** A run function on the machine of plain memory. *)
#[local] Existing Instances memory_bus memory_clock.
#[local] Instance memory_os : Os memory := {|
  os_open _ d := (-1, d); os_size _ d := (0, d); os_close _ d := d; os_keyp _ := None; os_map _ _ := None;
  os_unmap _ _ d := d; os_write_file _ _ d := d
|}.

#[local] Abbreviation example_call := (pcie_code (D := memory) false 10 10 0 0 "pcie_ide_test_ksetgo_1_run"%string (CtxCase 2 1)
  PcieTestsSpec.fresh_results
  ((PcieTestsSpec.example_registers, PcieTestsSpec.example_process), PcieTestsSpec.example_test_state)).

Lemma example_call_returns : ∃ o, example_call = Ok o ∧ length (out_ops o) = 37%nat.
Proof.
  assert (H : match example_call with Ok o => length (out_ops o) | Stop _ => 0%nat end = 37%nat) by (vm_compute; reflexivity).
  destruct example_call as [o|e]; [by exists o|discriminate].
Qed.

Lemma pcie_code_reports_witness :
  ∃ o, example_call = Ok o ∧ length (out_ops o) = 37%nat ∧ Forall (of_case 2 1) (out_ops o).
Proof.
  destruct example_call_returns as (o & E & Hl). exists o. split; [exact E|]. split; [exact Hl|].
  destruct (proj2 (pcie_code_reports (D := memory) false 10 10 0 0) _ _ _ _ _ E) as (c & _ & Hf & _).
  eapply Forall_impl; [exact Hf|]. intros op. apply may_report_case.
Defined.

End PcieRun.
