(* ===== verification/CxlIde.v ===== *)
(** * The CXL IDE registers (library/cxl_ide_lib/cxl_ide.c)

    The DVSECs of a configuration space, the memory-mapped block of the CXL
    capabilities behind the register locator, the registers of the root complex,
    and opening and closing of the ports.  Functions that print registers are
    their reads.  A scan and the opening of a configuration space are those of PCIe. *)
From Stdlib Require Import ZArith Lia Ascii String.
From stdpp Require Import prelude gmap.
From S2P Require Import Prelude Utils Libspdm TestConfig Hardware PcieIde Kcbar Doe Ports PcieGroup.

Open Scope Z_scope.
Open Scope teeio_scope.

Module CxlIde.
Import TestConfig Hardware PcieIde Kcbar Doe Ports.

(** ** Constants *)

Definition PCIE_CONFIG_SPACE_SIZE : Z := 0x1000.
Definition PCI_DVSCE_EXT_CAPABILITY_ID : Z := 0x0023.
Definition DVSEC_VENDOR_ID_CXL : Z := 0x1E98.
Definition MAX_IDE_TEST_DVSEC_COUNT : Z := 16.
Definition CXL_IDE_REG_BLOCK_MAX_COUNT : Z := 9.
Definition CXL_IO_REG_BLOCK_SIZE : Z := 0x1000.
Definition CXL_CACHEMEM_REG_BLOCK_SIZE : Z := 0x1000.
Definition CXL_LINK_ENC_KEYS_SLOT_NUM : Z := 4.
Definition sizeof_CXL_DVSEC_REGISTER_LOCATOR : Z := 12.

(* CXL_DVSEC_ID *)
Definition CXL_DVSEC_ID_PCIE_DVSEC_FOR_CXL_DEVICES : Z := 0.
Definition CXL_DVSEC_ID_CXL_EXTENSIONS_DVSEC_FOR_PORTS : Z := 0x3.
Definition CXL_DVSEC_ID_GPF_DVSEC_FOR_CXL_PORTS : Z := 0x4.
Definition CXL_DVSEC_ID_GPF_DVSEC_FOR_CXL_DEVICES : Z := 0x5.
Definition CXL_DVSEC_ID_PCIE_DVSEC_FOR_FLEX_BUS_PORT : Z := 0x7.
Definition CXL_DVSEC_ID_REGISTER_LOCATOR_DVSEC : Z := 0x8.

Definition CXL_DVSEC_REG_BLOCK_ID_COMPONENT_REG : Z := 0x01.
Definition CXL_CAPABILITY_ID_IDE_CAP : Z := 7.
Definition CXL_CAPABILITY_ID_NUM : Z := 17.
Definition CXL_IDE_STREAM_DIRECTION_RX : Z := 0.
Definition CXL_IDE_STREAM_DIRECTION_TX : Z := 1.
Definition INTEL_CXL_IDE_MODE_CONTAINMENT : Z := 1.
Definition INTEL_CXL_IDE_MODE_SKID : Z := 2.

Definition m_pcie_bar_offset : list Z := [0x10; 0x14; 0x18; 0x1C; 0x20; 0x24].

Definition mandatory_rootport_dvsec_id : list Z :=
  [CXL_DVSEC_ID_CXL_EXTENSIONS_DVSEC_FOR_PORTS; CXL_DVSEC_ID_GPF_DVSEC_FOR_CXL_PORTS;
   CXL_DVSEC_ID_PCIE_DVSEC_FOR_FLEX_BUS_PORT; CXL_DVSEC_ID_REGISTER_LOCATOR_DVSEC].
Definition mandatory_endpoint_dvsec_id : list Z :=
  [CXL_DVSEC_ID_PCIE_DVSEC_FOR_CXL_DEVICES; CXL_DVSEC_ID_GPF_DVSEC_FOR_CXL_DEVICES;
   CXL_DVSEC_ID_PCIE_DVSEC_FOR_FLEX_BUS_PORT; CXL_DVSEC_ID_REGISTER_LOCATOR_DVSEC].

(** ** Register layouts *)

(* CXL_DVS_HEADER1; CXL_DVS_HEADER2 is the id *)
Definition header1_vendor_id (raw : Z) : Z := get_bits 0 16 raw.
Definition header1_length (raw : Z) : Z := get_bits 20 12 raw.

(* CXL_REGISTER_OFFSET_LOW *)
Definition register_bir (raw : Z) : Z := get_bits 0 3 raw.
Definition register_block_id (raw : Z) : Z := get_bits 8 8 raw.
Definition register_block_offset_low (raw : Z) : Z := get_bits 16 16 raw.

(* CXL_CAPABILITY_HEADER, CXL_CAPABILITY_XXX_HEADER *)
Definition cxl_cap_id (raw : Z) : Z := get_bits 0 16 raw.
Definition cxl_cap_version (raw : Z) : Z := get_bits 16 4 raw.
Definition cache_mem_version (raw : Z) : Z := get_bits 20 4 raw.
Definition array_size (raw : Z) : Z := get_bits 24 8 raw.
Definition cap_pointer (raw : Z) : Z := get_bits 20 12 raw.

(* CXL_IDE_CAPABILITY, CXL_DEV_CAPABILITY *)
Definition cxl_ide_capable (raw : Z) : Z := get_bits 0 1 raw.
Definition mem_capable (raw : Z) : Z := get_bits 2 1 raw.

(* CXL_TRUNCATION_TRANSMIT_DELAY_CAPABILITY and _CONTROL *)
Definition rx_min_truncation_transmit_delay (raw : Z) : Z := get_bits 0 8 raw.
Definition rx_min_truncation_transmit_delay2 (raw : Z) : Z := get_bits 8 8 raw.
Definition tx_truncation_transmit_delay (raw : Z) : Z := get_bits 0 8 raw.

(** Offsets in [CXL_IDE_CAPABILITY_STRUCT]. *)
Definition ide_cap_control : Z := 4.
Definition ide_cap_status : Z := 8.
Definition ide_cap_error_status : Z := 12.
Definition key_refresh_time_capability : Z := 16.
Definition truncation_transmit_delay_capability : Z := 20.
Definition key_refresh_time_control : Z := 24.
Definition truncation_transmit_delay_control : Z := 28.
Definition key_refresh_time_capability2 : Z := 32.

(** Offsets in [CXL_DVSEC_FOR_DEVICE]. *)
Definition dev_capability : Z := 10.
Definition dev_capability2 : Z := 22.
Definition dev_capability3 : Z := 56.

(** Offsets in [INTEL_KEYP_CXL_ROOT_COMPLEX_KCBAR];
    [link_enc_global_config] is at 0. *)
Definition link_enc_control : Z := 8.
Definition tx_enc_keys : Z := 16.
Definition tx_iv : Z := 48.
Definition rx_enc_keys : Z := 56.
Definition rx_iv : Z := 88.

(** Bits of [INTEL_KEYP_CXL_LINK_ENC_CONTROL]. *)
Definition set_start_trigger (v raw : Z) : Z := set_bits 0 1 v raw.
Definition set_rxkey_valid (v raw : Z) : Z := set_bits 1 1 v raw.
Definition set_txkey_valid (v raw : Z) : Z := set_bits 2 1 v raw.
Definition set_txtransto_insecure_state (v raw : Z) : Z := set_bits 3 1 v raw.
Definition set_rxtransto_insecure_state (v raw : Z) : Z := set_bits 4 1 v raw.

(** ** Data *)

Record IDE_TEST_CXL_PCIE_DVSEC := { dvsec_offset : Z; dvsec_id : Z }.

(** An array and the number of its cells in use are the list of these cells. *)
Record CXL_PRIV_DATA_ECAP := { dvsecs : list IDE_TEST_CXL_PCIE_DVSEC; ecap_cap : Z; ecap_cap2 : Z; ecap_cap3 : Z }.

Record CXL_PRIV_DATA_MEMCACHE_REG_DATA := {
  mapped_fd : Z;
  mapped_memcache_reg_block : Z;
  cap_headers : list Z;
  cxl_ide_capability_struct_ptr : Z;
  memcache_ide_cap : Z
}.

Record CXL_PRIV_DATA_QUERY_RESP_DATA := {
  resp_max_port_index : Z;
  resp_dev_func_num : Z;
  resp_bus_num : Z;
  resp_segment : Z;
  resp_caps : Z;
  resp_ide_reg_block : list Z
}.

Record CXL_PRIV_DATA := {
  ecap : CXL_PRIV_DATA_ECAP;
  link_enc_global_config : Z;
  memcache : CXL_PRIV_DATA_MEMCACHE_REG_DATA;
  query_resp : CXL_PRIV_DATA_QUERY_RESP_DATA
}.

(** [memset(&cxl_data, 0, ...)] *)
Definition cleared_cxl_data : CXL_PRIV_DATA := {|
  ecap := {| dvsecs := []; ecap_cap := 0; ecap_cap2 := 0; ecap_cap3 := 0 |};
  link_enc_global_config := 0;
  memcache := {| mapped_fd := 0; mapped_memcache_reg_block := 0; cap_headers := [];
                 cxl_ide_capability_struct_ptr := 0; memcache_ide_cap := 0 |};
  query_resp := {| resp_max_port_index := 0; resp_dev_func_num := 0; resp_bus_num := 0; resp_segment := 0;
                   resp_caps := 0; resp_ide_reg_block := [] |}
|}.

(** A port context with its CXL data. *)
Record cxl_port_context_t := { base : ide_common_test_port_context_t; cxl_data : CXL_PRIV_DATA }.

Definition with_base (pc : ide_common_test_port_context_t) (c : cxl_port_context_t) : cxl_port_context_t :=
  {| base := pc; cxl_data := cxl_data c |}.
Definition with_cxl_data (d : CXL_PRIV_DATA) (c : cxl_port_context_t) : cxl_port_context_t := {| base := base c; cxl_data := d |}.
Definition with_ecap (e : CXL_PRIV_DATA_ECAP) (c : cxl_port_context_t) : cxl_port_context_t :=
  with_cxl_data {| ecap := e; link_enc_global_config := link_enc_global_config (cxl_data c); memcache := memcache (cxl_data c);
                   query_resp := query_resp (cxl_data c) |} c.
Definition with_memcache (m : CXL_PRIV_DATA_MEMCACHE_REG_DATA) (c : cxl_port_context_t) : cxl_port_context_t :=
  with_cxl_data {| ecap := ecap (cxl_data c); link_enc_global_config := link_enc_global_config (cxl_data c); memcache := m;
                   query_resp := query_resp (cxl_data c) |} c.
Definition with_query_resp (q : CXL_PRIV_DATA_QUERY_RESP_DATA) (c : cxl_port_context_t) : cxl_port_context_t :=
  with_cxl_data {| ecap := ecap (cxl_data c); link_enc_global_config := link_enc_global_config (cxl_data c);
                   memcache := memcache (cxl_data c); query_resp := q |} c.
Definition with_global_config (v : Z) (c : cxl_port_context_t) : cxl_port_context_t :=
  with_cxl_data {| ecap := ecap (cxl_data c); link_enc_global_config := v; memcache := memcache (cxl_data c);
                   query_resp := query_resp (cxl_data c) |} c.
Definition with_dvsecs (l : list IDE_TEST_CXL_PCIE_DVSEC) (e : CXL_PRIV_DATA_ECAP) : CXL_PRIV_DATA_ECAP :=
  {| dvsecs := l; ecap_cap := ecap_cap e; ecap_cap2 := ecap_cap2 e; ecap_cap3 := ecap_cap3 e |}.

(** The context of a CXL IDE or CXL TSP group: ports as in [Ports]. *)
Record cxl_ide_test_group_context_t := {
  cxl_category : Z;                  (* suite_context->test_category *)
  cxl_test_config : IDE_TEST_CONFIG; (* suite_context->test_config *)
  cxl_config_id : Z;
  cxl_case_class : Z;
  cxl_top : IDE_TEST_TOPOLOGY;
  cxl_root_addr : Z;
  cxl_upper_addr : Z;
  cxl_lower_addr : Z;
  cxl_root_port : IDE_PORT;
  cxl_upper_port : cxl_port_context_t;
  cxl_lower_port : cxl_port_context_t;
  cxl_sw_conn1 : list (Z * Z);
  cxl_spdm_context : Z;
  cxl_session_id : Z;
  cxl_stream_id : Z
}.

Definition with_cxl_ports (root : IDE_PORT) (upper lower : cxl_port_context_t) (g : cxl_ide_test_group_context_t)
    : cxl_ide_test_group_context_t :=
  {| cxl_category := cxl_category g; cxl_test_config := cxl_test_config g; cxl_config_id := cxl_config_id g;
     cxl_case_class := cxl_case_class g; cxl_top := cxl_top g; cxl_root_addr := cxl_root_addr g; cxl_upper_addr := cxl_upper_addr g;
     cxl_lower_addr := cxl_lower_addr g; cxl_root_port := root; cxl_upper_port := upper; cxl_lower_port := lower;
     cxl_sw_conn1 := cxl_sw_conn1 g; cxl_spdm_context := cxl_spdm_context g; cxl_session_id := cxl_session_id g;
     cxl_stream_id := cxl_stream_id g |}.
Definition with_cxl_session (ctx session : Z) (g : cxl_ide_test_group_context_t) : cxl_ide_test_group_context_t :=
  {| cxl_category := cxl_category g; cxl_test_config := cxl_test_config g; cxl_config_id := cxl_config_id g;
     cxl_case_class := cxl_case_class g; cxl_top := cxl_top g; cxl_root_addr := cxl_root_addr g;
     cxl_upper_addr := cxl_upper_addr g; cxl_lower_addr := cxl_lower_addr g; cxl_root_port := cxl_root_port g;
     cxl_upper_port := cxl_upper_port g; cxl_lower_port := cxl_lower_port g; cxl_sw_conn1 := cxl_sw_conn1 g;
     cxl_spdm_context := ctx; cxl_session_id := session; cxl_stream_id := cxl_stream_id g |}.
Definition with_cxl_stream (stream : Z) (g : cxl_ide_test_group_context_t) : cxl_ide_test_group_context_t :=
  {| cxl_category := cxl_category g; cxl_test_config := cxl_test_config g; cxl_config_id := cxl_config_id g;
     cxl_case_class := cxl_case_class g; cxl_top := cxl_top g; cxl_root_addr := cxl_root_addr g;
     cxl_upper_addr := cxl_upper_addr g; cxl_lower_addr := cxl_lower_addr g; cxl_root_port := cxl_root_port g;
     cxl_upper_port := cxl_upper_port g; cxl_lower_port := cxl_lower_port g; cxl_sw_conn1 := cxl_sw_conn1 g;
     cxl_spdm_context := cxl_spdm_context g; cxl_session_id := cxl_session_id g; cxl_stream_id := stream |}.
Definition with_cxl_ids (config_id case_class : Z) (g : cxl_ide_test_group_context_t) : cxl_ide_test_group_context_t :=
  {| cxl_category := cxl_category g; cxl_test_config := cxl_test_config g; cxl_config_id := config_id;
     cxl_case_class := case_class; cxl_top := cxl_top g; cxl_root_addr := cxl_root_addr g;
     cxl_upper_addr := cxl_upper_addr g; cxl_lower_addr := cxl_lower_addr g; cxl_root_port := cxl_root_port g;
     cxl_upper_port := cxl_upper_port g; cxl_lower_port := cxl_lower_port g; cxl_sw_conn1 := cxl_sw_conn1 g;
     cxl_spdm_context := cxl_spdm_context g; cxl_session_id := cxl_session_id g; cxl_stream_id := cxl_stream_id g |}.
Definition with_cxl_upper (c : cxl_port_context_t) (g : cxl_ide_test_group_context_t) : cxl_ide_test_group_context_t :=
  with_cxl_ports (cxl_root_port g) c (cxl_lower_port g) g.
Definition with_cxl_lower (c : cxl_port_context_t) (g : cxl_ide_test_group_context_t) : cxl_ide_test_group_context_t :=
  with_cxl_ports (cxl_root_port g) (cxl_upper_port g) c g.

(** ** What the operating system does for the register block *)
Class DevMem (D : Type) := {
  os_open_mem : D → Z * D;                         (* "/dev/mem": a descriptor, or -1 *)
  os_mmap : Z → Z → Z → D → option Z * D;          (* descriptor, size, physical address *)
  os_munmap : Z → Z → D → D                        (* address, size *)
}.

(** ** What libspdm offers to the key management

    The contents of the variables an answer goes to, and a buffer of key and
    IV as they are in memory. *)
Record cxl_query_answer := {
  cxl_dev_func : Z;
  cxl_bus : Z;
  cxl_segment : Z;
  cxl_max_port_index : Z;
  cxl_caps : Z;
  cxl_ide_reg_block : list Z
}.

Record key_buffer := { kb_key : bytes; kb_iv : bytes }.

Class CxlIdeKmRequester (D : Type) := {
  CXL_IDE_KM_KEY_DIRECTION_RX : Z;
  CXL_IDE_KM_KEY_DIRECTION_TX : Z;
  CXL_IDE_KM_KEY_IV_DEFAULT : Z;
  CXL_IDE_KM_KEY_IV_INITIAL : Z;
  CXL_IDE_KM_KEY_SUB_STREAM_CXL : Z;
  CXL_IDE_KM_KEY_MODE_SKID : Z;
  CXL_IDE_KM_KEY_MODE_CONTAINMENT : Z;
  CXL_IDE_KM_IDE_CAP_REG_BLOCK_MAX_COUNT : Z;
  (** the sizes of the members of [cxl_ide_km_aes_256_gcm_key_buffer_t] *)
  sizeof_kb_key : Z;
  sizeof_kb_iv : Z;
  (** session, port index, what the variables hold before; status, and what they hold after *)
  cxl_ide_km_query : Z → Z → cxl_query_answer → io D (Z * cxl_query_answer);
  (** session, stream id, sub-stream, port index, the buffer before; status and the buffer after *)
  cxl_ide_km_get_key : Z → Z → Z → Z → key_buffer → io D (Z * key_buffer);
  (** session, stream id, direction | IV | sub-stream, port index, buffer; status and acknowledge status *)
  cxl_ide_km_key_prog : Z → Z → Z → Z → key_buffer → io D (Z * Z);
  (** session, stream id, direction | mode | sub-stream, port index; status *)
  cxl_ide_km_key_set_go : Z → Z → Z → Z → io D Z;
  cxl_ide_km_key_set_stop : Z → Z → Z → Z → io D Z
}.

Definition zero_key_buffer {D} `{CxlIdeKmRequester D} : key_buffer :=
  {| kb_key := replicate (Z.to_nat sizeof_kb_key) 0; kb_iv := replicate (Z.to_nat sizeof_kb_iv) 0 |}.

(** ** DVSECs: the checks *)

Definition has_dvsec (l : list IDE_TEST_CXL_PCIE_DVSEC) (id : Z) : bool := existsb (λ v, dvsec_id v =? id) l.
Definition cxl_check_rootport_dvsecs (l : list IDE_TEST_CXL_PCIE_DVSEC) : bool := forallb (has_dvsec l) mandatory_rootport_dvsec_id.
Definition cxl_check_ep_dvsec (l : list IDE_TEST_CXL_PCIE_DVSEC) : bool := forallb (has_dvsec l) mandatory_endpoint_dvsec_id.
Definition find_dvsec (l : list IDE_TEST_CXL_PCIE_DVSEC) (id : Z) : option IDE_TEST_CXL_PCIE_DVSEC :=
  List.find (λ v, dvsec_id v =? id) l.
Definition find_ide_cap (headers : list Z) : option Z := List.find (λ h, cxl_cap_id h =? CXL_CAPABILITY_ID_IDE_CAP) headers.

Section registers.
Context {D : Type} `{Bus D}.

(** ** Registers of the root complex *)

(** The direction is the device's: what it receives, the root port sends. *)
Definition cxl_cfg_rp_link_enc_key_iv (kcbar direction key_slot : Z) (key : bytes) (key_size : Z) (iv : bytes) (iv_size : Z)
    : io D unit :=
  let+ _ := io_assert (key_slot <? CXL_LINK_ENC_KEYS_SLOT_NUM) in
  let+ _ := io_assert (key_size =? 32) in
  let '(enc_keys, txrx_iv) :=
    if direction =? CXL_IDE_STREAM_DIRECTION_RX then (kcbar + tx_enc_keys, kcbar + tx_iv)
    else (kcbar + rx_enc_keys, kcbar + rx_iv) in
  let iv_size := if 8 <? iv_size then 8 else iv_size in
  let+ _ := io_assert (iv_size =? 8) in
  let+ _ := reg_memcpy_dw_mmio enc_keys key_size key key_size in
  reg_memcpy_dw_mmio txrx_iv iv_size iv iv_size.

(** Read, change, write; where the code reads back, for the log. *)
Definition update_reg (addr : Z) (f : Z → Z) : io D unit :=
  let+ raw := mmio_read_reg32 addr in mmio_write_reg32 addr (f raw).
Definition update_reg_and_read (addr : Z) (f : Z → Z) : io D unit :=
  let+ _ := update_reg addr f in
  let+ _ := mmio_read_reg32 addr in
  ret tt.

Definition bool_bit (b : bool) : Z := if b then 1 else 0.

Definition cxl_cfg_rp_mode (kcbar mode : Z) : io D unit := update_reg kcbar (set_bits 1 5 mode).

Definition cxl_cfg_rp_txrx_key_valid (kcbar direction : Z) (valid : bool) : io D unit :=
  update_reg_and_read (kcbar + link_enc_control)
    (if direction =? CXL_IDE_STREAM_DIRECTION_RX then set_rxkey_valid (bool_bit valid) else set_txkey_valid (bool_bit valid)).

Definition cxl_cfg_rp_txrx_transto_insecure_state (kcbar direction : Z) (insecure_state : bool) : io D unit :=
  update_reg_and_read (kcbar + link_enc_control)
    (if direction =? CXL_IDE_STREAM_DIRECTION_RX then set_rxtransto_insecure_state (bool_bit insecure_state)
     else set_txtransto_insecure_state (bool_bit insecure_state)).

Definition cxl_cfg_rp_start_trigger (kcbar : Z) (start : bool) : io D unit :=
  update_reg_and_read (kcbar + link_enc_control) (set_start_trigger (bool_bit start)).

Definition cxl_cfg_rp_linkenc_enable (kcbar : Z) (enable : bool) : io D unit :=
  update_reg_and_read kcbar (set_bits 0 1 (bool_bit enable)).

Definition cxl_reset_ecap_registers : io D bool := ret true.

Definition cxl_reset_kcbar_registers (kcbar : Z) : io D bool :=
  let+ _ := update_reg_and_read (kcbar + link_enc_control) (λ raw,
    set_start_trigger 0 (set_txkey_valid 0 (set_rxkey_valid 0 (set_txtransto_insecure_state 0
      (set_rxtransto_insecure_state 0 raw))))) in
  ret true.

(** The reads for the log. *)
Definition read_all (addrs : list Z) : io D unit :=
  io_fold (λ addr _, let+ _ := mmio_read_reg32 addr in ret tt) addrs tt.

Definition cxl_dump_kcbar (kcbar : Z) : io D unit := read_all [kcbar; kcbar + link_enc_control].

Definition dump_ide_cap (headers : list Z) (block : Z) (offsets : list Z) : io D unit :=
  match find_ide_cap headers with
  | None => ret tt
  | Some h => read_all (map (λ off, block + cap_pointer h + off) offsets)
  end.
Definition cxl_dump_ide_capability (headers : list Z) (block : Z) : io D unit :=
  dump_ide_cap headers block
    [0; ide_cap_control; ide_cap_status; key_refresh_time_capability; key_refresh_time_capability2;
     truncation_transmit_delay_capability; key_refresh_time_control; truncation_transmit_delay_control; ide_cap_error_status].
Definition cxl_dump_ide_status (headers : list Z) (block : Z) : io D unit :=
  dump_ide_cap headers block [ide_cap_status; ide_cap_error_status; ide_cap_control].

(** ** The DVSECs of a configuration space

    As for the other walks, a list in a circle keeps the code walking;
    4096 rounds are enough for every other. *)
Definition dvsec_found (fd count walker : Z) (l : list IDE_TEST_CXL_PCIE_DVSEC) : io D (list IDE_TEST_CXL_PCIE_DVSEC) :=
  let+ _ := device_pci_read_32 walker fd in
  let+ header1 := device_pci_read_32 (u32 (walker + 4)) fd in
  let+ header2 := device_pci_read_16 (u32 (walker + 8)) fd in
  if header1_vendor_id header1 =? DVSEC_VENDOR_ID_CXL then
    let+ _ := io_assert (Z.of_nat (length l) <? count) in
    ret (l ++ [{| dvsec_offset := walker; dvsec_id := header2 |}])
  else ret l.

Definition dvsec_step (fd count : Z) (s : Z * list IDE_TEST_CXL_PCIE_DVSEC)
    : io D (Z * list IDE_TEST_CXL_PCIE_DVSEC + list IDE_TEST_CXL_PCIE_DVSEC) :=
  let '(walker, l) := s in
  if (walker <? PCIE_CONFIG_SPACE_SIZE) && negb (walker =? 0) then
    let+ cap_ext_header := device_pci_read_32 walker fd in
    let+ l := (if cap_id cap_ext_header =? PCI_DVSCE_EXT_CAPABILITY_ID then dvsec_found fd count walker l else ret l) in
    ret (inl (cap_next cap_ext_header, l))
  else ret (inr l).

Definition cxl_find_dvsec_in_config_space (fd count : Z) : io D (bool * list IDE_TEST_CXL_PCIE_DVSEC) :=
  let+ l := io_while 4096 (dvsec_step fd count) (PCIE_EXT_CAP_START, []) in
  ret (true, l).

(** The capabilities of a device; the other DVSECs hold none. *)
Definition cxl_populate_dev_caps_in_ecap (fd : Z) (e : CXL_PRIV_DATA_ECAP) : io D (bool * CXL_PRIV_DATA_ECAP) :=
  let+ _ := io_assert (negb (Z.of_nat (length (dvsecs e)) =? 0)) in
  match find_dvsec (dvsecs e) CXL_DVSEC_ID_PCIE_DVSEC_FOR_CXL_DEVICES with
  | None => ret (false, e)
  | Some v =>
      let+ cap := device_pci_read_16 (dvsec_offset v + dev_capability) fd in
      let+ cap2 := device_pci_read_16 (dvsec_offset v + dev_capability2) fd in
      let+ cap3 := device_pci_read_16 (dvsec_offset v + dev_capability3) fd in
      ret (true, {| dvsecs := dvsecs e; ecap_cap := cap; ecap_cap2 := cap2; ecap_cap3 := cap3 |})
  end.

(** ** The register block of the CXL capabilities *)

(** Every header is logged with the name of its capability. *)
Definition cxl_dump_cap_headers (headers : list Z) : io D unit :=
  io_fold (λ h _, io_assert (cxl_cap_id h <? CXL_CAPABILITY_ID_NUM)) headers tt.

Definition with_cap_headers (headers : list Z) (m : CXL_PRIV_DATA_MEMCACHE_REG_DATA) : CXL_PRIV_DATA_MEMCACHE_REG_DATA :=
  {| mapped_fd := mapped_fd m; mapped_memcache_reg_block := mapped_memcache_reg_block m; cap_headers := headers;
     cxl_ide_capability_struct_ptr := cxl_ide_capability_struct_ptr m; memcache_ide_cap := memcache_ide_cap m |}.
Definition with_ide_struct (ptr cap : Z) (m : CXL_PRIV_DATA_MEMCACHE_REG_DATA) : CXL_PRIV_DATA_MEMCACHE_REG_DATA :=
  {| mapped_fd := mapped_fd m; mapped_memcache_reg_block := mapped_memcache_reg_block m; cap_headers := cap_headers m;
     cxl_ide_capability_struct_ptr := ptr; memcache_ide_cap := cap |}.
Definition with_mapping (fd block : Z) (m : CXL_PRIV_DATA_MEMCACHE_REG_DATA) : CXL_PRIV_DATA_MEMCACHE_REG_DATA :=
  {| mapped_fd := fd; mapped_memcache_reg_block := block; cap_headers := cap_headers m;
     cxl_ide_capability_struct_ptr := cxl_ide_capability_struct_ptr m; memcache_ide_cap := memcache_ide_cap m |}.

Definition cxl_populate_memcache_reg_block (m : CXL_PRIV_DATA_MEMCACHE_REG_DATA)
    : io D (bool * CXL_PRIV_DATA_MEMCACHE_REG_DATA) :=
  let block := mapped_memcache_reg_block m in
  let+ _ := io_assert (negb (block =? 0)) in
  let+ cap_header := mmio_read_reg32 block in
  let+ _ := io_assert (cxl_cap_id cap_header =? 1) in
  let+ _ := io_assert (cxl_cap_version cap_header =? 1) in
  let+ _ := io_assert (cache_mem_version cap_header =? 1) in
  if CXL_CAPABILITY_ID_NUM <? array_size cap_header then ret (false, m) else
  let ptr := block + 4 in
  let+ headers := io_fold (λ i l, let+ raw := mmio_read_reg32 (ptr + i * 4) in ret (l ++ [raw]))
                    (seqZ 0 (array_size cap_header)) [] in
  let m := with_cap_headers headers m in
  let+ _ := cxl_dump_cap_headers headers in
  match find_ide_cap headers with
  | None => ret (false, m)
  | Some h =>
      let struct_ptr := block + cap_pointer h in
      let+ cap := mmio_read_reg32 struct_ptr in
      ret (true, with_ide_struct struct_ptr cap m)
  end.

(** ** Timing: what one side needs, the other side keeps *)

Definition cxl_get_key_refresh_cap_ptr (struct_ptr : Z) (pcie_flit_enabled : bool) : Z :=
  struct_ptr + (if pcie_flit_enabled then key_refresh_time_capability2 else key_refresh_time_capability).

Definition cxl_get_rx_min_truncation_delay (cap : Z) (pcie_flit_enabled : bool) : Z :=
  if pcie_flit_enabled then rx_min_truncation_transmit_delay2 cap else rx_min_truncation_transmit_delay cap.

(** The receiver's minimum at one register, the transmitter's value at
    another; both readings as fields of the registers. *)
Definition raise_to_minimum (cap_ptr ctrl_ptr : Z) (minimum current : Z → Z) : io D unit :=
  let+ cap := mmio_read_reg32 cap_ptr in
  let+ ctrl := mmio_read_reg32 ctrl_ptr in
  if current ctrl <? minimum cap then mmio_write_reg32 ctrl_ptr (minimum cap) else ret tt.

Definition ide_struct (c : cxl_port_context_t) : Z := cxl_ide_capability_struct_ptr (memcache (cxl_data c)).

Definition cxl_ide_set_key_refresh_control_reg (host dev : cxl_port_context_t) : io D bool :=
  let+ flit := pcie_check_flit_mode_enabled (base host) in
  if (ide_struct host =? 0) || (ide_struct dev =? 0) then ret false else
  let+ _ := raise_to_minimum (cxl_get_key_refresh_cap_ptr (ide_struct dev) flit) (ide_struct host + key_refresh_time_control)
              (λ raw, raw) (λ raw, raw) in
  let+ _ := raise_to_minimum (cxl_get_key_refresh_cap_ptr (ide_struct host) flit) (ide_struct dev + key_refresh_time_control)
              (λ raw, raw) (λ raw, raw) in
  ret true.

Definition cxl_ide_set_truncation_transmit_control_reg (host dev : cxl_port_context_t) : io D bool :=
  let+ flit := pcie_check_flit_mode_enabled (base host) in
  if (ide_struct host =? 0) || (ide_struct dev =? 0) then ret false else
  let minimum cap := cxl_get_rx_min_truncation_delay cap flit in
  let+ _ := raise_to_minimum (ide_struct dev + truncation_transmit_delay_capability)
              (ide_struct host + truncation_transmit_delay_control) minimum tx_truncation_transmit_delay in
  let+ _ := raise_to_minimum (ide_struct host + truncation_transmit_delay_capability)
              (ide_struct dev + truncation_transmit_delay_control) minimum tx_truncation_transmit_delay in
  ret true.
End registers.

Section cxl_ports.
Context {D : Type} `{Bus D} `{Clock D} `{Os D} `{DevMem D} `{Libspdm} `{DoeDiscovery (D * process)}.
Context `{CxlIdeKmRequester (D * process)}.

#[local] Abbreviation State := (D * process)%type.

(** ** Mapping *)

Definition open_mem : io State Z := λ s, let (fd, d) := os_open_mem (fst s) in Ok (fd, (d, snd s)).
Definition mmap (fd size addr : Z) : io State (option Z) := λ s, let (a, d) := os_mmap fd size addr (fst s) in Ok (a, (d, snd s)).
Definition munmap (addr size : Z) : io State unit := λ s, Ok (tt, (os_munmap addr size (fst s), snd s)).

(** Returns the mapped address, 0 for NULL, and [*mapped_fd].  The physical
    address is the bits of an [off_t]. *)
Definition cxl_map_bar_addr (cfg_space_fd bar offset_in_bar mapped_fd : Z) : io State (Z * Z) :=
  let+ bar_val := device_pci_read_32 bar cfg_space_fd in
  let is_64_bit := Z.land bar_val PCIE_MEM_BASE_ADDR_MASK =? PCIE_MEM_BASE_ADDR_64 in
  let map_size := CXL_CACHEMEM_REG_BLOCK_SIZE in
  let+ mem_fd := open_mem in
  if mem_fd =? -1 then ret (0, mapped_fd) else
  let+ target :=
    (if is_64_bit : bool then
       let+ bar_high := device_pci_read_32 (bar + 4) cfg_space_fd in
       let val64 := Z.lor (Z.shiftl bar_high 32) bar_val in
       ret (Z.land val64 (u64 (Z.lnot (map_size - 1))))
     else ret (Z.land bar_val (u64 (Z.lnot (map_size - 1))))) in
  let+ mem_ptr := mmap mem_fd map_size (u64 (target + u32 offset_in_bar + CXL_IO_REG_BLOCK_SIZE)) in
  match mem_ptr with
  | None => let+ _ := close mem_fd in ret (0, 0)
  | Some a => ret (a, mem_fd)
  end.

Definition cxl_unmap_memcache_reg_block (mapped_fd mapped_addr : Z) : io State unit :=
  if (0 <? mapped_fd) && negb (mapped_addr =? 0) then
    let+ _ := munmap mapped_addr CXL_CACHEMEM_REG_BLOCK_SIZE in close mapped_fd
  else ret tt.

(** One entry of the register locator: the offset moves on by [i * 8] from
    that of the entry before; the first block of component registers is mapped. *)
Definition reg_block_step (fd i offset : Z) : io State (Z + Z * Z) :=
  let offset := offset + i * 8 in
  let+ low := device_pci_read_32 offset fd in
  let+ high := device_pci_read_32 (offset + 4) fd in
  if negb (register_block_id low =? CXL_DVSEC_REG_BLOCK_ID_COMPONENT_REG) then ret (inl offset) else
  let+ bar := (let+ _ := io_assert (register_bir low <? 6) in lift (array_get m_pcie_bar_offset (register_bir low))) in
  let offset_in_bar := Z.lor (Z.shiftl high 32) (u32 (Z.shiftl (register_block_offset_low low) 16)) in
  let+ mapped := cxl_map_bar_addr fd bar offset_in_bar 0 in
  ret (inr mapped).

(** The result of reading the block's capabilities is not used. *)
Definition cxl_init_memcache_reg_block (fd : Z) (m : CXL_PRIV_DATA_MEMCACHE_REG_DATA) (l : list IDE_TEST_CXL_PCIE_DVSEC)
    : io State (bool * CXL_PRIV_DATA_MEMCACHE_REG_DATA) :=
  match find_dvsec l CXL_DVSEC_ID_REGISTER_LOCATOR_DVSEC with
  | None => ret (false, m)
  | Some v =>
      let+ _ := io_assert (negb (dvsec_offset v =? 0)) in
      let offset := dvsec_offset v in
      let+ header1 := device_pci_read_32 (offset + 4) fd in
      let+ header2 := device_pci_read_16 (offset + 8) fd in
      let offset := offset + 12 in
      let+ _ := io_assert (header1_vendor_id header1 =? DVSEC_VENDOR_ID_CXL) in
      let+ _ := io_assert (header2 =? CXL_DVSEC_ID_REGISTER_LOCATOR_DVSEC) in
      let length := header1_length header1 - sizeof_CXL_DVSEC_REGISTER_LOCATOR in
      let+ _ := io_assert (Z.rem length 8 =? 0) in
      let reg_block_cnt := Z.quot length 8 in
      let+ r := io_for (reg_block_step fd) (range 0 reg_block_cnt) offset in
      match r with
      | inl _ => ret (false, m)
      | inr (block, mapped_fd) =>
          if block =? 0 then ret (false, m) else
          let+ (_, m) := cxl_populate_memcache_reg_block (with_mapping mapped_fd block m) in
          ret (true, m)
      end
  end.

(** ** The root port *)

Definition cxl_clear_rootport_key_ivs (pc : ide_common_test_port_context_t) : io State unit :=
  let+ _ := io_assert (negb (mapped_kcbar_addr pc =? 0)) in
  let clear direction :=
    cxl_cfg_rp_link_enc_key_iv (mapped_kcbar_addr pc) direction 0 (kb_key zero_key_buffer) sizeof_kb_key
      (kb_iv zero_key_buffer) sizeof_kb_iv in
  let+ _ := clear CXL_IDE_KM_KEY_DIRECTION_TX in
  clear CXL_IDE_KM_KEY_DIRECTION_RX.

Definition on_base (f : ide_common_test_port_context_t → ide_common_test_port_context_t) (c : cxl_port_context_t) :
    cxl_port_context_t := with_base (f (base c)) c.

(** [goto InitRootPortFail], [goto OpenDevFail]: nothing is unmapped. *)
Definition fail_open (fd : Z) (c : cxl_port_context_t) : io State (bool * cxl_port_context_t) :=
  let+ _ := fail_port fd in ret (false, c).

Definition cxl_open_root_port (c : cxl_port_context_t) : io State (bool * cxl_port_context_t) :=
  let p := port (base c) in
  let+ _ := io_assert (port_type p =? IDE_PORT_TYPE_ROOTPORT) in
  let+ fd := open_configuration_space (port_bdf p) in
  if fd =? -1 then ret (false, c) else
  let c := on_base (with_cfg_space_fd fd) c in
  let+ _ := set_device fd (bs "cxl.host : " ++ port_bdf p) in
  let+ (found, l) := cxl_find_dvsec_in_config_space fd MAX_IDE_TEST_DVSEC_COUNT in
  if negb found then fail_open fd c else
  let c := with_ecap (with_dvsecs l (ecap (cxl_data c))) c in
  if negb (cxl_check_rootport_dvsecs l) then fail_open fd c else
  let+ (ok, m) := cxl_init_memcache_reg_block fd (memcache (cxl_data c)) l in
  let c := with_memcache m c in
  if negb ok then fail_open fd c else
  let+ _ := cxl_dump_ide_capability (cap_headers m) (mapped_memcache_reg_block m) in
  let c := on_base (with_ecap_offset 0) c in
  let+ (ok, pc) := keyp_of_machine (base c) INTEL_KEYP_PROTOCOL_TYPE_CXL_MEMCACHE in
  let c := with_base pc c in
  if negb ok then fail_open fd c else
  let+ config := mmio_read_reg32 (mapped_kcbar_addr pc) in
  ret (true, with_global_config config c).

Definition cxl_init_root_port (g : cxl_ide_test_group_context_t) : io State (bool * cxl_ide_test_group_context_t) :=
  let c := cxl_upper_port g in
  let+ _ := io_assert (port_type (port (base c)) =? IDE_PORT_TYPE_ROOTPORT) in
  let+ _ := io_assert (port_id (port (base c)) =? port_id (cxl_root_port g)) in
  let+ (ok, c) := cxl_open_root_port c in
  let g := with_cxl_upper c g in
  if negb ok then ret (false, g) else
  let+ _ := cxl_reset_kcbar_registers (mapped_kcbar_addr (base c)) in
  let+ _ := cxl_clear_rootport_key_ivs (base c) in
  ret (true, g).

Definition cxl_close_root_port (g : cxl_ide_test_group_context_t) : io State (bool * cxl_ide_test_group_context_t) :=
  let c := cxl_upper_port g in
  let pc := base c in
  let+ _ := cxl_reset_ecap_registers in
  let+ _ := cxl_reset_kcbar_registers (mapped_kcbar_addr pc) in
  let m := memcache (cxl_data c) in
  let+ _ := cxl_unmap_memcache_reg_block (mapped_fd m) (mapped_memcache_reg_block m) in
  let+ _ := (if 0 <? kcbar_fd pc then let+ _ := unmap_kcbar_addr (kcbar_fd pc) (mapped_kcbar_addr pc) in ret tt
             else ret tt) in
  let pc := with_kcbar pc 0 0 in
  let+ _ := (if 0 <? cfg_space_fd pc then fail_port (cfg_space_fd pc) else ret tt) in
  ret (true, with_cxl_upper {| base := with_cfg_space_fd 0 pc; cxl_data := cleared_cxl_data |} g).

(** ** The device *)

Definition cxl_open_dev_port (c : cxl_port_context_t) : io State (bool * cxl_port_context_t) :=
  let p := port (base c) in
  let+ _ := io_assert (port_type p =? IDE_PORT_TYPE_ENDPOINT) in
  let+ fd := open_configuration_space (port_bdf p) in
  if fd =? -1 then ret (false, c) else
  let c := on_base (with_cfg_space_fd fd) c in
  let+ _ := set_device fd (bs "cxl.dev : " ++ port_bdf p) in
  let+ (found, l) := cxl_find_dvsec_in_config_space fd MAX_IDE_TEST_DVSEC_COUNT in
  if negb found then fail_open fd c else
  let+ (_, e) := cxl_populate_dev_caps_in_ecap fd (with_dvsecs l (ecap (cxl_data c))) in
  let c := with_ecap e c in
  if negb (cxl_check_ep_dvsec l) then fail_open fd c else
  let+ (ok, m) := cxl_init_memcache_reg_block fd (memcache (cxl_data c)) l in
  let c := with_memcache m c in
  if negb ok then fail_open fd c else
  let+ _ := cxl_dump_ide_capability (cap_headers m) (mapped_memcache_reg_block m) in
  let+ _ := set_process (with_dev_fp fd) in
  let+ ok := init_pci_doe fd in
  if negb ok then fail_open fd c else
  let+ pr := get_process in
  ret (true, on_base (with_doe_offset (doe_offset_in_use pr)) c).

Definition cxl_category_ok (g : cxl_ide_test_group_context_t) : bool :=
  (cxl_category g =? TEEIO_TEST_CATEGORY_CXL_IDE) || (cxl_category g =? TEEIO_TEST_CATEGORY_CXL_TSP).

Definition cxl_init_dev_port (g : cxl_ide_test_group_context_t) : io State (bool * cxl_ide_test_group_context_t) :=
  let+ _ := io_assert (cxl_category_ok g) in
  let+ (ok, c) := cxl_open_dev_port (cxl_lower_port g) in
  ret (ok, with_cxl_lower c g).

Definition cxl_close_dev_port (c : cxl_port_context_t) : io State (bool * cxl_port_context_t) :=
  let pc := base c in
  let+ _ := cxl_reset_ecap_registers in
  let m := memcache (cxl_data c) in
  let+ _ := cxl_unmap_memcache_reg_block (mapped_fd m) (mapped_memcache_reg_block m) in
  let+ _ := (if 0 <? cfg_space_fd pc then fail_port (cfg_space_fd pc) else ret tt) in
  let+ _ := set_process (λ p, with_doe_in_use 0 (with_dev_fp 0 p)) in
  ret (true, {| base := with_cfg_space_fd 0 pc; cxl_data := cleared_cxl_data |}).

(** ** Scanning *)

(** The copies of the ports in the context follow the port objects. *)
Definition cxl_renew_ports (g : cxl_ide_test_group_context_t) : io State cxl_ide_test_group_context_t :=
  let+ root := get_port (cxl_root_addr g) in
  let+ upper := get_port (cxl_upper_addr g) in
  let+ lower := get_port (cxl_lower_addr g) in
  ret (with_cxl_ports root (on_base (with_port upper) (cxl_upper_port g)) (on_base (with_port lower) (cxl_lower_port g)) g).

Definition cxl_scan_devices (g : cxl_ide_test_group_context_t) : io State (bool * cxl_ide_test_group_context_t) :=
  let top := cxl_top g in
  let+ _ := io_assert (cxl_category_ok g) in
  let+ _ := io_assert ((top_connection top =? IDE_TEST_CONNECT_DIRECT) || (top_connection top =? IDE_TEST_CONNECT_SWITCH)) in
  let+ res := scan_devices_at_bus (cxl_root_addr g) (cxl_lower_addr g) (cxl_sw_conn1 g) (top_segment top) (top_bus top) in
  let+ _ :=
    (if res : bool then
       let+ root := get_port (cxl_root_addr g) in
       let+ upper := get_port (cxl_upper_addr g) in
       set_port (cxl_upper_addr g) (PcieGroup.with_bus_and_bdf root upper)
     else ret tt) in
  let+ g := cxl_renew_ports g in
  ret (res, g).
End cxl_ports.
End CxlIde.
