(* ===== verification/CxlIdeSpec.v ===== *)
(** * CXL IDE registers specified

    Which entries of a register locator are looked at, and what the timing
    registers hold after both sides were adapted to each other. *)
From Stdlib Require Import ZArith Lia.
From stdpp Require Import prelude gmap.
From S2P Require Import Prelude Libspdm TestConfig Hardware PcieIde PcieIdeSpec Kcbar Doe Ports PortsSpec CxlIde.

Open Scope Z_scope.
Open Scope teeio_scope.

Module CxlIdeSpec.
Import TestConfig Hardware PcieIde Ports CxlIde.

(** ** The register locator *)

(** The index of the entry that round [i] of the search reads: the offset
    grows by [8 * i] in that round. *)
Definition tri (i : Z) : Z := i * (i + 1) / 2.

Lemma tri_step i : tri i = tri (i - 1) + i.
Proof.
  unfold tri. replace (i * (i + 1)) with ((i - 1) * (i - 1 + 1) + i * 2) by lia. by rewrite Z.div_add by lia.
Qed.

Lemma tri_mono i j : 0 ≤ i ≤ j → tri i ≤ tri j.
Proof. intros Hij. unfold tri. apply Z.div_le_mono; nia. Qed.

Lemma tri_skips i : 0 ≤ i → tri i ≠ 2.
Proof.
  intros Hi. destruct (decide (i ≤ 1)).
  - assert (i = 0 ∨ i = 1) as [-> | ->] by lia; done.
  - pose proof (tri_mono 2 i ltac:(lia)). change (tri 2) with 3 in *. lia.
Qed.

Section locator.
Context {D : Type} `{Bus D} `{Os D} `{DevMem D}.
Context (fd off : Z) (low high : Z → Z).

#[local] Abbreviation State := (D * process)%type.

Definition is_component (low : Z) : bool := register_block_id low =? CXL_DVSEC_REG_BLOCK_ID_COMPONENT_REG.

(** The entries up to the last one a search of [n] rounds can read. *)
Definition entries (d : D) (n : Z) : Prop :=
  ∀ k, 0 ≤ k ≤ tri (n - 1) →
  reads d (Cfg fd (off + 8 * k)) 4 (low k) ∧ reads d (Cfg fd (off + 8 * k + 4)) 4 (high k).

(** The block an entry describes, mapped. *)
Definition map_entry (low high : Z) : io State (Z * Z) :=
  let+ bar := (let+ _ := io_assert (register_bir low <? 6) in lift (array_get m_pcie_bar_offset (register_bir low))) in
  cxl_map_bar_addr fd bar (Z.lor (Z.shiftl high 32) (u32 (Z.shiftl (register_block_offset_low low) 16))) 0.

Lemma read_entry {A} (k : Z → io State A) o d p w :
  0 < fd → reads d (Cfg fd o) 4 w → bind (device_pci_read_32 o fd) k (d, p) = k w (d, p).
Proof. intros Hfd [E Hw]. apply bind_read32; [done|]. split; [|done]. cbn [bus_read process_bus fst snd]. by rewrite E. Qed.

Lemma locator_loop m lo n d p :
  0 < fd → 0 ≤ lo → lo + Z.of_nat m ≤ n → entries d n →
  io_for (reg_block_step fd) (seqZ lo (Z.of_nat m)) (off + 8 * tri (lo - 1)) (d, p) =
  match List.find (λ i, is_component (low (tri i))) (seqZ lo (Z.of_nat m)) with
  | None => Ok (inl (off + 8 * tri (lo + Z.of_nat m - 1)), (d, p))
  | Some i => bind (map_entry (low (tri i)) (high (tri i))) (λ r, ret (inr r)) (d, p)
  end.
Proof.
  intros Hfd Hlo Hn He. revert lo Hlo Hn. induction m as [|m IH]; intros lo Hlo Hn.
  { cbn. by rewrite Z.add_0_r. }
  rewrite seqZ_cons by lia. replace (Z.pred (Z.of_nat (S m))) with (Z.of_nat m) by lia. cbn [io_for List.find].
  destruct (He (tri lo)) as [E1 E2].
  { split; [change 0 with (tri 0); apply tri_mono; lia|apply tri_mono; lia]. }
  unfold reg_block_step at 1. cbv zeta.
  replace (off + 8 * tri (lo - 1) + lo * 8) with (off + 8 * tri lo) by (rewrite (tri_step lo); lia).
  rewrite !bind_assoc, (read_entry _ _ _ _ _ Hfd E1), !bind_assoc, (read_entry _ _ _ _ _ Hfd E2).
  unfold is_component at 1. destruct (register_block_id (low (tri lo)) =? _); cbn [negb].
  - rewrite !bind_assoc. unfold map_entry. rewrite !bind_assoc. unfold bind. 
    destruct (io_assert _ (d, p)) as [[[] s]|]; cbn [res_bind]; [|done].
    destruct (lift _ s) as [[bar s']|]; cbn [res_bind]; [|done].
    by destruct (cxl_map_bar_addr _ _ _ _ s') as [[r s'']|].
  - specialize (IH (Z.succ lo) ltac:(lia) ltac:(lia)). replace (Z.succ lo - 1) with lo in IH by lia.
    rewrite bind_ret, IH.
    replace (Z.succ lo + Z.of_nat m - 1) with (lo + Z.of_nat (S m) - 1) by lia. done.
Qed.

(** What is done with the block of an entry. *)
Definition use_entry (low high : Z) (m : CXL_PRIV_DATA_MEMCACHE_REG_DATA) : io State (bool * CXL_PRIV_DATA_MEMCACHE_REG_DATA) :=
  let+ (block, mapped_fd) := map_entry low high in
  if block =? 0 then ret (false, m) else
  let+ (_, m) := cxl_populate_memcache_reg_block (with_mapping mapped_fd block m) in
  ret (true, m).

(** A configuration space with a register locator of [n] entries, the first
    of them at [off]. *)
Definition has_locator (d : D) (l : list IDE_TEST_CXL_PCIE_DVSEC) (n : Z) : Prop :=
  ∃ v header1, find_dvsec l CXL_DVSEC_ID_REGISTER_LOCATOR_DVSEC = Some v ∧ dvsec_offset v ≠ 0 ∧ off = dvsec_offset v + 12 ∧
    reads d (Cfg fd (dvsec_offset v + 4)) 4 header1 ∧ header1_vendor_id header1 = DVSEC_VENDOR_ID_CXL ∧
    header1_length header1 = sizeof_CXL_DVSEC_REGISTER_LOCATOR + 8 * n ∧
    reads d (Cfg fd (dvsec_offset v + 8)) 2 CXL_DVSEC_ID_REGISTER_LOCATOR_DVSEC.

(** The search for the component registers.  With a register locator of
    [n] entries the search makes [n] rounds, but round [i] reads entry
    [i * (i + 1) / 2]: it uses the first of these that describes component
    registers, and fails without one.  So entry 2 is never read: a locator
    whose only component registers are described there is refused; and from round
    [i] with [i * (i + 1) / 2 >= n] on the entry read is one behind the locator. *)
Theorem register_locator_search l m n d p :
  0 < fd → 0 ≤ n → has_locator d l n → entries d n →
  cxl_init_memcache_reg_block fd m l (d, p) =
    match List.find (λ i, is_component (low (tri i))) (seqZ 0 n) with
    | None => Ok (false, m, (d, p))
    | Some i => use_entry (low (tri i)) (high (tri i)) m (d, p)
    end ∧
  ((∀ k, 0 ≤ k → k ≠ 2 → is_component (low k) = false) →
   cxl_init_memcache_reg_block fd m l (d, p) = Ok (false, m, (d, p))).
Proof.
  intros Hfd Hn (v & h1 & Hv & Hv0 & Hoff & Eh1 & Hvendor & Hlen & Eh2) He.
  match goal with |- ?run = ?r ∧ _ => assert (E : run = r) end.
  { unfold cxl_init_memcache_reg_block. rewrite Hv, bind_assert, (proj2 (Z.eqb_neq _ _)) by done. cbn [negb].
    rewrite (read_entry _ _ _ _ _ Hfd Eh1).
    rewrite (bind_read16 (D := State) _ (d, p) _ _ CXL_DVSEC_ID_REGISTER_LOCATOR_DVSEC Hfd).
    2: { destruct Eh2 as [E Hw]. split; [|done]. cbn [bus_read process_bus fst snd]. by rewrite E. }
    rewrite Hvendor, Z.eqb_refl, bind_assert, Z.eqb_refl, bind_assert, Hlen.
    replace (sizeof_CXL_DVSEC_REGISTER_LOCATOR + 8 * n - sizeof_CXL_DVSEC_REGISTER_LOCATOR) with (n * 8) by lia.
    rewrite Z.rem_mul, Z.quot_mul, bind_assert by lia. cbn [Z.eqb]. rewrite <- Hoff.
    pose proof (locator_loop (Z.to_nat n) 0 n d p Hfd ltac:(lia) ltac:(lia) He) as Hl.
    rewrite Z2Nat.id in Hl by lia. change (tri (0 - 1)) with 0 in Hl. rewrite Z.mul_0_r, Z.add_0_r in Hl.
    unfold range. rewrite Z.sub_0_r. unfold bind at 1. rewrite Hl.
    destruct (List.find _ _) as [i|]; [|done]. unfold use_entry, bind.
    by destruct (map_entry _ _ (d, p)) as [[[block mfd] s]|e]. }
  split; [exact E|]. intros Hno. rewrite E.
  destruct (List.find _ _) as [i|] eqn:F; [|done]. apply find_some in F as [Hi Hc].
  apply list_elem_of_In, elem_of_seqZ in Hi. rewrite Hno in Hc; [done| |apply tri_skips; lia].
  change 0 with (tri 0). apply tri_mono. lia.
Qed.
End locator.

(** ** Timing registers on a machine of plain memory *)

(** The register at an address. *)
Definition register (m : memory) (a : Z) : Z := get_bits 0 32 (mem_peek m (Mmio a)).

Definition aligned (a : Z) : Prop := a mod 4 = 0.

Lemma aligned_dword a : aligned a → reg_dword (Mmio a) = (Mmio a, 0).
Proof. intros Ha. unfold reg_dword. rewrite Ha. by rewrite <- Z_div_exact_full_2 by (done || lia). Qed.

Lemma read_register {A} (k : Z → io memory A) m a : aligned a → bind (mmio_read_reg32 a) k m = k (register m a) m.
Proof.
  intros Ha. apply bind_Ok. unfold mmio_read_reg32, read_reg. cbn [bus_read memory_bus].
  rewrite aligned_dword by done. unfold register. change (8 * 0) with 0. change (8 * 4) with 32.
  rewrite Z.mod_small; [done|]. apply get_bits_range; lia.
Qed.

(** Writing a register changes this one only. *)
Definition written (a v : Z) (m m' : memory) : Prop :=
  register m' a = v ∧ ∀ b, aligned b → b ≠ a → register m' b = register m b.

Lemma write_register m a v : aligned a → 0 ≤ v < 2 ^ 32 → ∃ m', mmio_write_reg32 a v m = Ok (tt, m') ∧ written a v m m'.
Proof.
  intros Ha Hv. eexists. split; [reflexivity|]. cbn [bus_write memory_bus]. rewrite aligned_dword by done.
  split.
  - unfold register, mem_peek. cbn [List.find fst snd]. rewrite bool_decide_eq_true_2 by done. cbn [snd].
    change (8 * 0) with 0. change (8 * 4) with 32. rewrite get_set_bits_eq by lia. by apply Z.mod_small.
  - intros b Hb Hne. unfold register, mem_peek. cbn [List.find fst]. by rewrite bool_decide_eq_false_2 by congruence.
Qed.

(** The transmitter's field reaches the receiver's minimum; no other
    register changes. *)
Definition raised (ctrl_ptr minimum : Z) (current : Z → Z) (m m' : memory) : Prop :=
  current (register m' ctrl_ptr) = Z.max (current (register m ctrl_ptr)) minimum ∧
  ∀ b, aligned b → b ≠ ctrl_ptr → register m' b = register m b.

Lemma raise_raises cap_ptr ctrl_ptr minimum current m :
  aligned cap_ptr → aligned ctrl_ptr → 0 ≤ minimum (register m cap_ptr) < 2 ^ 32 →
  current (minimum (register m cap_ptr)) = minimum (register m cap_ptr) →
  ∃ m', raise_to_minimum cap_ptr ctrl_ptr minimum current m = Ok (tt, m') ∧
        raised ctrl_ptr (minimum (register m cap_ptr)) current m m'.
Proof.
  intros Hcap Hctrl Hmin Hcur. unfold raise_to_minimum. rewrite !read_register by done.
  destruct (Z.ltb_spec (current (register m ctrl_ptr)) (minimum (register m cap_ptr))) as [Hlt|Hge].
  - destruct (write_register m ctrl_ptr (minimum (register m cap_ptr)) Hctrl Hmin) as (m' & E & Hw & Ho).
    exists m'. split; [done|]. split; [|done]. rewrite Hw, Hcur. lia.
  - exists m. split; [done|]. split; [lia|done].
Qed.

(** Both directions, one after the other, between structures that do not
    overlap: each side's control ends up with the other's minimum. *)
Definition adapted (host dev cap_off ctrl_off : Z) (minimum current : Z → Z) (m m' : memory) : Prop :=
  current (register m' (host + ctrl_off)) =
    Z.max (current (register m (host + ctrl_off))) (minimum (register m (dev + cap_off))) ∧
  current (register m' (dev + ctrl_off)) =
    Z.max (current (register m (dev + ctrl_off))) (minimum (register m (host + cap_off))) ∧
  ∀ b, aligned b → b ≠ host + ctrl_off → b ≠ dev + ctrl_off → register m' b = register m b.

(** The structures of the two sides: registers of four bytes, 36 in all. *)
Definition apart (host dev : Z) : Prop := aligned host ∧ aligned dev ∧ (host + 36 ≤ dev ∨ dev + 36 ≤ host).

Lemma aligned_add a off : aligned a → off mod 4 = 0 → aligned (a + off).
Proof. unfold aligned. intros Ha Hoff. rewrite Z.add_mod, Ha, Hoff by lia. done. Qed.

Lemma raise_both host dev cap_off ctrl_off minimum current (m : memory) :
  apart host dev → 0 ≤ cap_off < 36 → 0 ≤ ctrl_off < 36 → cap_off ≠ ctrl_off → cap_off mod 4 = 0 → ctrl_off mod 4 = 0 →
  (∀ a, 0 ≤ minimum (register m a) < 2 ^ 32 ∧ current (minimum (register m a)) = minimum (register m a)) →
  ∃ m', (let+ _ := raise_to_minimum (dev + cap_off) (host + ctrl_off) minimum current in
         let+ _ := raise_to_minimum (host + cap_off) (dev + ctrl_off) minimum current in
         ret true) m = Ok (true, m') ∧ adapted host dev cap_off ctrl_off minimum current m m'.
Proof.
  intros (Ha & Hb & Hd) Hcap Hctrl Hne Hc4 Ht4 Hmin.
  assert (Al : ∀ a off, aligned a → off mod 4 = 0 → aligned (a + off)) by apply aligned_add.
  destruct (raise_raises (dev + cap_off) (host + ctrl_off) minimum current m) as (m1 & E1 & R1 & O1); auto; try apply Hmin.
  rewrite (bind_Ok _ _ _ _ _ E1).
  assert (K1 : register m1 (host + cap_off) = register m (host + cap_off)) by (apply O1; auto; lia).
  assert (K2 : register m1 (dev + ctrl_off) = register m (dev + ctrl_off)) by (apply O1; auto; lia).
  destruct (raise_raises (host + cap_off) (dev + ctrl_off) minimum current m1) as (m2 & E2 & R2 & O2);
    rewrite ?K1; auto; try apply Hmin.
  rewrite (bind_Ok _ _ _ _ _ E2). exists m2. split; [done|]. rewrite K1, K2 in R2. split_and!; [|done|].
  - rewrite O2 by (auto; lia). done.
  - intros b Hb' N1 N2. rewrite O2, O1 by done. done.
Qed.

(** The two fields a truncation delay can come from. *)
Lemma truncation_minimum cap flit :
  0 ≤ cxl_get_rx_min_truncation_delay cap flit < 2 ^ 8.
Proof. unfold cxl_get_rx_min_truncation_delay. destruct flit; apply get_bits_range; lia. Qed.

(** The timing of key refresh and truncation.  On a machine whose
    registers keep what is written, with the IDE capability structures of
    both ports at different places, both functions succeed: afterwards each
    side's control is the larger of what it was and what the other side's
    capability asks for in the flit mode of the host's link, and no
    other register has changed.  Without one of the structures both return
    false and write nothing. *)
Theorem timing_adapted host dev flit (m : memory) :
  pcie_check_flit_mode_enabled (base host) m = Ok (flit, m) →
  let h := ide_struct host in let v := ide_struct dev in
  if bool_decide (h = 0 ∨ v = 0) then
    cxl_ide_set_key_refresh_control_reg host dev m = Ok (false, m) ∧
    cxl_ide_set_truncation_transmit_control_reg host dev m = Ok (false, m)
  else apart h v →
    (∃ m', cxl_ide_set_key_refresh_control_reg host dev m = Ok (true, m') ∧
       adapted h v (if flit then key_refresh_time_capability2 else key_refresh_time_capability) key_refresh_time_control
         (λ raw, raw) (λ raw, raw) m m') ∧
    (∃ m', cxl_ide_set_truncation_transmit_control_reg host dev m = Ok (true, m') ∧
       adapted h v truncation_transmit_delay_capability truncation_transmit_delay_control
         (λ cap, cxl_get_rx_min_truncation_delay cap flit) tx_truncation_transmit_delay m m').
Proof.
  intros Hflit h v. unfold cxl_ide_set_key_refresh_control_reg, cxl_ide_set_truncation_transmit_control_reg.
  rewrite !(bind_Ok _ _ _ _ _ Hflit). fold h v.
  case_bool_decide as Hz.
  { destruct Hz as [-> | ->]; rewrite Z.eqb_refl, ?orb_true_r; done. }
  rewrite !(proj2 (Z.eqb_neq _ _)) by tauto. cbn [orb]. intros Hd. split.
  - unfold cxl_get_key_refresh_cap_ptr. set (cap_off := if flit then _ else _).
    apply raise_both; try done; try (unfold cap_off; by destruct flit).
    intros a. split; [|done]. apply get_bits_range; lia.
  - apply raise_both; try done. intros a. pose proof (truncation_minimum (register m a) flit) as Hr.
    split; [lia|]. unfold tx_truncation_transmit_delay. rewrite get_bits_mod by lia.
    change (2 ^ 0) with 1. rewrite Z.div_1_r. by apply Z.mod_small.
Qed.

(** ** Concrete machines *)

#[local] Instance memory_os : Os memory := {|
  os_open _ m := (3, m); os_size _ m := (0x1000, m); os_close _ m := m; os_keyp _ := None; os_map _ _ := None;
  os_unmap _ _ m := m; os_write_file _ _ m := m
|}.
#[local] Instance memory_dev_mem : DevMem memory := {|
  os_open_mem m := (5, m); os_mmap _ _ _ m := (Some 0x200000, m); os_munmap _ _ m := m
|}.

(** A locator of three entries; the component registers are in the last. *)
Definition example_locator : memory :=
  [(Cfg 3 0x204, 0x02401E98); (Cfg 3 0x208, 8); (Cfg 3 0x21c, 0x100)].

Lemma register_locator_search_witness :
  cxl_init_memcache_reg_block 3 (memcache cleared_cxl_data) [{| dvsec_offset := 0x200; dvsec_id := 8 |}] (example_locator, PortsSpec.example_process)
  = Ok (false, memcache cleared_cxl_data, (example_locator, PortsSpec.example_process)).
Proof.
  apply (register_locator_search 3 0x20c (λ k, if k =? 2 then 0x100 else 0) (λ _, 0) [{| dvsec_offset := 0x200; dvsec_id := 8 |}]
    (memcache cleared_cxl_data) 3 example_locator PortsSpec.example_process); [lia|lia| | |].
  - exists {| dvsec_offset := 0x200; dvsec_id := 8 |}, 0x02401E98. split_and!; try done; (split; [reflexivity|lia]).
  - intros k Hk. change (tri (3 - 1)) with 3 in Hk.
    assert (k = 0 ∨ k = 1 ∨ k = 2 ∨ k = 3) as [-> | [-> | [-> | ->]]] by lia; (split; split; [reflexivity|cbn; lia|reflexivity|cbn; lia]).
  - intros k _ Hk. cbv beta. by rewrite (proj2 (Z.eqb_neq _ _)).
Defined.

Definition example_side (struct_ptr : Z) : cxl_port_context_t :=
  with_memcache (with_ide_struct struct_ptr 1 (memcache cleared_cxl_data))
    {| base := PcieIdeSpec.example_context; cxl_data := cleared_cxl_data |}.

(** The host needs 7, the device 40; the device's control is already at 9. *)
Definition example_timing : memory :=
  [(Mmio 0x1010, 7); (Mmio 0x2010, 40); (Mmio 0x2018, 9)].

Lemma timing_adapted_witness :
  ∃ m', cxl_ide_set_key_refresh_control_reg (example_side 0x1000) (example_side 0x2000) example_timing = Ok (true, m') ∧
        register m' 0x1018 = 40 ∧ register m' 0x2018 = 9.
Proof.
  pose proof (timing_adapted (example_side 0x1000) (example_side 0x2000) false example_timing eq_refl) as Ht.
  cbv zeta in Ht. rewrite bool_decide_eq_false_2 in Ht by (vm_compute; intuition congruence).
  destruct (Ht ltac:(split_and!; [reflexivity|reflexivity|left; vm_compute; discriminate])) as [(m' & E & R1 & R2 & _) _].
  exists m'. split; [exact E|]. split; [rewrite R1 at 1|rewrite R2 at 1]; reflexivity.
Defined.
End CxlIdeSpec.
