(* ===== verification/CxlKm.v ===== *)
(** * CXL IDE key management (library/cxl_ide_test_lib/test_case/ide_km_common.c)

    Making keys, the set-up and the end of a CXL IDE stream, and the search for
    the port index of the device.  The handles of the SPDM and DOE
    contexts are part of the class of libspdm's operations. *)
From Stdlib Require Import ZArith Lia.
From stdpp Require Import prelude.
From S2P Require Import Prelude KeyOrder Libspdm TestConfig Hardware PcieIde Kcbar IdeKm Ports PcieTests PcieGroup CxlIde.

Open Scope Z_scope.
Open Scope teeio_scope.

Module CxlKm.
Import TestConfig Hardware PcieIde Kcbar IdeKm Ports CxlIde.

Definition CXL_IDE_CONFIGURATION_TYPE_GET_KEY : Z := 3.
Definition CXL_IDE_MODE_CONTAINMENT : Z := 0.
Definition CXL_IDE_MODE_SKID : Z := 1.
Definition CXL_BIT_MASK (n : Z) : Z := u32 (Z.shiftl 1 n).

(* CXL_QUERY_RESP_CAPS *)
Definition iv_generation_capable (raw : Z) : Z := get_bits 4 1 raw.
Definition ide_key_generation_capable (raw : Z) : Z := get_bits 5 1 raw.
Definition k_set_stop_capable (raw : Z) : Z := get_bits 6 1 raw.

Section key_management.
Context {D : Type} `{Bus D} `{Clock D} `{IdeKmRequester D} `{CxlIdeKmRequester D} `{Libspdm}.
Context (g_teeio_fixed_key : bool) (session_id : Z).

(** [CXL_IDE_KM_KEY_SUB_STREAM_CXL << 24] as the first dword of an IV. *)
Definition iv_prefix : Z := u32 (Z.shiftl CXL_IDE_KM_KEY_SUB_STREAM_CXL 24).

(** The IV written over the buffer's. *)
Definition gen_default_iv (kb : key_buffer) : res key_buffer :=
  let* _ := TEEIO_ASSERT (sizeof_kb_iv =? 12) in
  Ok {| kb_key := kb_key kb; kb_iv := le_bytes 4 iv_prefix ++ le_bytes 4 0 ++ le_bytes 4 1 |}.

Definition with_key (key : bytes) (kb : key_buffer) : key_buffer := {| kb_key := key; kb_iv := kb_iv kb |}.

(** Random bytes in the place of the key. *)
Definition cxl_random_key (kb : key_buffer) : io D (bool * key_buffer) :=
  let+ (result, key) := libspdm_get_random_number sizeof_kb_key in
  ret (result, if result : bool then with_key key kb else kb).

(** The key made by the device, and what the host makes of it. *)
Definition get_key_from_device (stream_id key_sub_stream port_index : Z) (kb : key_buffer) (key_gen_capable iv_gen_capable : bool)
    (cxl_ide_km_iv : Z) : io D (bool * key_buffer * Z) :=
  let kb := {| kb_key := kb_key kb; kb_iv := replicate (Z.to_nat sizeof_kb_iv) 0 |} in
  let+ (status, kb) := cxl_ide_km_get_key session_id stream_id key_sub_stream port_index kb in
  if LIBSPDM_STATUS_IS_ERROR status then ret (false, kb, cxl_ide_km_iv) else
  let+ (result, kb) := (if key_gen_capable then ret (true, kb) else cxl_random_key kb) in
  if negb result then ret (false, kb, cxl_ide_km_iv) else
  if iv_gen_capable then
    let+ iv0 := lift (load_le (kb_iv kb) 0 4) in
    if negb (iv0 =? iv_prefix) then let+ kb := lift (gen_default_iv kb) in ret (true, kb, CXL_IDE_KM_KEY_IV_DEFAULT)
    else ret (true, kb, CXL_IDE_KM_KEY_IV_INITIAL)
  else let+ kb := lift (gen_default_iv kb) in ret (true, kb, CXL_IDE_KM_KEY_IV_DEFAULT).

(** Returns its value, the buffer and [*cxl_ide_km_iv]. *)
Definition cxl_ide_generate_key (stream_id key_sub_stream port_index : Z) (kb : key_buffer)
    (key_gen_capable iv_gen_capable : bool) (direction cxl_ide_km_iv : Z) : io D (bool * key_buffer * Z) :=
  if negb (direction =? CXL_IDE_KM_KEY_DIRECTION_RX) && negb (direction =? CXL_IDE_KM_KEY_DIRECTION_TX)
  then ret (false, kb, cxl_ide_km_iv) else
  let+ kb := lift (gen_default_iv kb) in
  if g_teeio_fixed_key then
    let b := if direction =? CXL_IDE_KM_KEY_DIRECTION_RX then TEEIO_TEST_FIXED_RX_KEY_BYTE_VALUE
             else TEEIO_TEST_FIXED_TX_KEY_BYTE_VALUE in
    ret (true, with_key (replicate (Z.to_nat sizeof_kb_key) b) kb, CXL_IDE_KM_KEY_IV_DEFAULT)
  else if (key_gen_capable || iv_gen_capable) && (direction =? CXL_IDE_KM_KEY_DIRECTION_TX) then
    get_key_from_device stream_id key_sub_stream port_index kb key_gen_capable iv_gen_capable cxl_ide_km_iv
  else
    let+ (result, kb) := cxl_random_key kb in
    ret (result, kb, CXL_IDE_KM_KEY_IV_DEFAULT).

Definition cxl_stop_ide_stream (stream_id port_index : Z) : io D bool :=
  let+ status := cxl_ide_km_key_set_stop session_id stream_id
                   (Z.lor CXL_IDE_KM_KEY_DIRECTION_RX CXL_IDE_KM_KEY_SUB_STREAM_CXL) port_index in
  if LIBSPDM_STATUS_IS_ERROR status then ret false else
  let+ status := cxl_ide_km_key_set_stop session_id stream_id
                   (Z.lor CXL_IDE_KM_KEY_DIRECTION_TX CXL_IDE_KM_KEY_SUB_STREAM_CXL) port_index in
  ret (negb (LIBSPDM_STATUS_IS_ERROR status)).

(** Whether device keys and IVs are used: [None] when GET_KEY is asked for
    but the device does not have it. *)
Definition get_key_choice (caps config_bitmap : Z) : option (bool * bool) :=
  let key_gen_capable := negb g_teeio_fixed_key && (ide_key_generation_capable caps =? 1) in
  let iv_gen_capable := negb g_teeio_fixed_key && (iv_generation_capable caps =? 1) in
  let get_key := negb g_teeio_fixed_key && negb (Z.land config_bitmap (CXL_BIT_MASK CXL_IDE_CONFIGURATION_TYPE_GET_KEY) =? 0) in
  if key_gen_capable || iv_gen_capable then
    Some (if negb get_key then (false, false) else (key_gen_capable, iv_gen_capable))
  else if get_key then None else Some (key_gen_capable, iv_gen_capable).

(** A KEY_PROG message; an error stops the run.  The acknowledge status is only logged. *)
Definition prog_key (stream_id key_sub_stream port_index : Z) (kb : key_buffer) : io D unit :=
  let+ (status, kp_ack_status) := cxl_ide_km_key_prog session_id stream_id key_sub_stream port_index kb in
  let+ _ := io_assert (negb (LIBSPDM_STATUS_IS_ERROR status)) in
  (** [dump_key_iv_in_key_prog] *)
  let+ _ := io_assert (sizeof_kb_key / 4 =? 8) in
  io_assert ((sizeof_kb_iv / 4 =? 2) || (sizeof_kb_iv / 4 =? 3)).

(** From the buffer of a message to the registers of the root port; [keys]
    is overwritten. *)
Definition program_cxl_root_port (kcbar direction : Z) (kb : key_buffer) (keys : bytes) : io D bytes :=
  let+ (_, keys) := lift (KeyOrder.cxl_construct_rp_keys (Some (kb_key kb)) sizeof_kb_key (Some keys) PCIE_IDE_KEY_SIZE) in
  let+ (_, iv) := lift (KeyOrder.cxl_construct_rp_iv (kb_iv kb) sizeof_kb_iv (replicate 8 0) 8) in
  let+ _ := cxl_cfg_rp_link_enc_key_iv kcbar direction 0 keys PCIE_IDE_KEY_SIZE iv 8 in
  ret keys.

Definition set_go (stream_id key_sub_stream port_index : Z) : io D unit :=
  let+ status := cxl_ide_km_key_set_go session_id stream_id key_sub_stream port_index in
  io_assert (negb (LIBSPDM_STATUS_IS_ERROR status)).

(** The parameter [skip_ksetgo] and the context of the upper port are not used. *)
(** The starts of the receive and of the transmit key; the encryption is enabled unless keys are refreshed. *)
Definition cxl_start_stream (kcbar stream_id port_index ide_mode : Z) (key_refresh : bool) : io D bool :=
  let ide_km_mode := if ide_mode =? CXL_IDE_MODE_CONTAINMENT then CXL_IDE_KM_KEY_MODE_CONTAINMENT
                     else CXL_IDE_KM_KEY_MODE_SKID in
  let+ _ := set_go stream_id (Z.lor (Z.lor CXL_IDE_KM_KEY_DIRECTION_RX ide_km_mode) CXL_IDE_KM_KEY_SUB_STREAM_CXL)
              port_index in
  let+ _ := (if negb key_refresh then cxl_cfg_rp_linkenc_enable kcbar true else ret tt) in
  let+ _ := cxl_cfg_rp_start_trigger kcbar true in
  let+ _ := set_go stream_id (Z.lor (Z.lor CXL_IDE_KM_KEY_DIRECTION_TX ide_km_mode) CXL_IDE_KM_KEY_SUB_STREAM_CXL)
              port_index in
  let+ _ := libspdm_sleep (10 * 1000) in
  ret true.

Definition cxl_setup_ide_stream (kcbar stream_id port_index : Z) (lower_port : cxl_port_context_t)
    (config_bitmap ide_mode : Z) (key_refresh : bool) : io D bool :=
  match get_key_choice (resp_caps (query_resp (cxl_data lower_port))) config_bitmap with
  | None => ret false
  | Some (key_gen_capable, iv_gen_capable) =>
      let generate direction :=
        cxl_ide_generate_key stream_id CXL_IDE_KM_KEY_SUB_STREAM_CXL port_index zero_key_buffer key_gen_capable iv_gen_capable
          direction 0 in
      let+ (result, rx_key_buffer, cxl_ide_km_iv_rx) := generate CXL_IDE_KM_KEY_DIRECTION_RX in
      if negb result then ret false else
      let+ (result, tx_key_buffer, cxl_ide_km_iv_tx) := generate CXL_IDE_KM_KEY_DIRECTION_TX in
      if negb result then ret false else
      let+ _ := prog_key stream_id (Z.lor (Z.lor CXL_IDE_KM_KEY_DIRECTION_RX cxl_ide_km_iv_rx) CXL_IDE_KM_KEY_SUB_STREAM_CXL)
                  port_index rx_key_buffer in
      let+ _ := prog_key stream_id (Z.lor (Z.lor CXL_IDE_KM_KEY_DIRECTION_TX cxl_ide_km_iv_tx) CXL_IDE_KM_KEY_SUB_STREAM_CXL)
                  port_index tx_key_buffer in
      let+ keys := program_cxl_root_port kcbar CXL_IDE_KM_KEY_DIRECTION_TX tx_key_buffer (replicate 32 0) in
      let+ keys := program_cxl_root_port kcbar CXL_IDE_KM_KEY_DIRECTION_RX rx_key_buffer keys in
      let+ _ := cxl_cfg_rp_txrx_key_valid kcbar CXL_IDE_STREAM_DIRECTION_TX true in
      let+ _ := cxl_cfg_rp_txrx_key_valid kcbar CXL_IDE_STREAM_DIRECTION_RX true in
      cxl_start_stream kcbar stream_id port_index ide_mode key_refresh
  end.

(** The end of a stream; [stop] is a message the device may not have. *)
Definition cxl_teardown_ide_stream (kcbar stream_id port_index : Z) (lower_port : cxl_port_context_t) : io D bool :=
  let+ stopped :=
    (if k_set_stop_capable (resp_caps (query_resp (cxl_data lower_port))) =? 1
     then cxl_stop_ide_stream stream_id port_index else ret true) in
  if negb stopped then ret false else
  let+ _ := cxl_cfg_rp_txrx_transto_insecure_state kcbar CXL_IDE_STREAM_DIRECTION_RX true in
  let+ _ := cxl_cfg_rp_txrx_transto_insecure_state kcbar CXL_IDE_STREAM_DIRECTION_TX true in
  let+ _ := cxl_cfg_rp_linkenc_enable kcbar false in
  ret true.
End key_management.

Section port_index.
Context {D : Type} `{Libspdm} `{CxlIdeKmRequester (D * process)}.

#[local] Abbreviation State := (D * process)%type.

Definition no_answer (max_port_index : Z) : cxl_query_answer :=
  {| cxl_dev_func := 0; cxl_bus := 0; cxl_segment := 0; cxl_max_port_index := max_port_index; cxl_caps := 0;
     cxl_ide_reg_block := replicate (Z.to_nat CXL_IDE_KM_IDE_CAP_REG_BLOCK_MAX_COUNT) 0 |}.

Definition cxl_answers_for (p : IDE_PORT) (a : cxl_query_answer) : bool :=
  (cxl_dev_func a =? PcieTests.expected_dev_func p) && (cxl_bus a =? port_bus p) && (cxl_segment a =? u8 (port_segment p)).

(** Returns its value and [*max_port_index]. *)
Definition do_query_port_index (session_id : Z) (p : IDE_PORT) (port_index max_port_index : Z) : io State (bool * Z) :=
  let+ (status, answer) := cxl_ide_km_query session_id port_index (no_answer max_port_index) in
  ret (if LIBSPDM_STATUS_IS_ERROR status then false else cxl_answers_for p answer, cxl_max_port_index answer).

(** The indices from 1 on, in eight bits; with a last index of 255 the loop
    only ends when one matches. *)
Definition cxl_query_round (g : cxl_ide_test_group_context_t) (s : Z * Z) : io State (Z * Z + bool) :=
  let '(port_index, max_port_index) := s in
  if negb (port_index <=? max_port_index) then ret (inr false) else
  let+ (found, max_port_index) := do_query_port_index (cxl_session_id g) (port (base (cxl_lower_port g))) port_index max_port_index in
  if found : bool then let+ _ := PcieGroup.set_port_index (cxl_lower_addr g) port_index in ret (inr true)
  else ret (inl (u8 (port_index + 1), max_port_index)).

Definition cxl_ide_query_port_index (g : cxl_ide_test_group_context_t) : io State (bool * cxl_ide_test_group_context_t) :=
  let+ (found, max_port_index) := do_query_port_index (cxl_session_id g) (port (base (cxl_lower_port g))) 0 0 in
  if found : bool then ret (true, g) else
  let+ found := io_while 256 (cxl_query_round g) (1, max_port_index) in
  let+ g := cxl_renew_ports g in
  ret (found, g).
End port_index.
End CxlKm.
