(* ===== verification/CxlKmSpec.v ===== *)
(** * CXL IDE key management specified

    The set-up of a CXL IDE stream as a list of steps over the AES-GCM keys
    and IVs of its two directions. *)
From Stdlib Require Import ZArith Lia.
From stdpp Require Import prelude.
From S2P Require Import Prelude KeyOrder Libspdm TestConfig Hardware PcieIde PcieIdeSpec Kcbar KcbarSpec IdeKm IdeKmSpec CxlIde CxlKm.

Open Scope Z_scope.
Open Scope teeio_scope.

Module CxlKmSpec.
Import KeyOrder TestConfig Hardware PcieIde Kcbar KcbarSpec IdeKm IdeKmSpec CxlIde CxlKm.

(** What libspdm documents: the direction bit is 0 for RX, a buffer holds a
    key of 256 bits and an IV of 96, and a call that succeeds fills the buffer it is given. *)
Class CxlIdeKmLaws (D : Type) `{IdeKmRequester D} `{CxlIdeKmRequester D} `{Libspdm} : Prop := {
  direction_RX : CXL_IDE_KM_KEY_DIRECTION_RX = CXL_IDE_STREAM_DIRECTION_RX;
  direction_TX : CXL_IDE_KM_KEY_DIRECTION_TX ≠ CXL_IDE_STREAM_DIRECTION_RX;
  key_size : sizeof_kb_key = 32;
  iv_size : sizeof_kb_iv = 12;
  random_length n (d : D) key d' :
    0 ≤ n → libspdm_get_random_number n d = Ok (true, key, d') → Z.of_nat (length key) = n;
  get_key_length session stream sub port kb (d : D) status kb' d' :
    cxl_ide_km_get_key session stream sub port kb d = Ok (status, kb', d') → LIBSPDM_STATUS_IS_ERROR status = false →
    length (kb_key kb') = length (kb_key kb) ∧ length (kb_iv kb') = length (kb_iv kb)
}.

(** ** Steps *)

Inductive cxl_action : Type :=
| Tell (direction iv_kind : Z) (key iv : bytes)   (* KEY_PROG to the device *)
| Install (direction : Z) (key iv : bytes)        (* the registers of the root port's other side *)
| Valid (direction : Z)                           (* these are valid *)
| Start (direction : Z)                           (* K_SET_GO to the device *)
| Enable                                          (* encryption on the link *)
| Trigger                                         (* the root port switches to the keys *)
| Settle.                                         (* 10 ms *)

Section plan.
Context {D : Type} `{Bus D} `{Clock D} `{IdeKmRequester D} `{CxlIdeKmRequester D} `{Libspdm}.
Context (session_id kcbar stream_id port_index ide_mode : Z).

Definition mode : Z := if ide_mode =? CXL_IDE_MODE_CONTAINMENT then CXL_IDE_KM_KEY_MODE_CONTAINMENT else CXL_IDE_KM_KEY_MODE_SKID.

(** Where the root port keeps the keys of a direction of the device. *)
Definition key_regs (direction : Z) : Z := kcbar + if direction =? CXL_IDE_STREAM_DIRECTION_RX then tx_enc_keys else rx_enc_keys.
Definition iv_regs (direction : Z) : Z := kcbar + if direction =? CXL_IDE_STREAM_DIRECTION_RX then tx_iv else rx_iv.

(** A message must be answered without an error. *)
Definition no_error (status : Z) : io D unit := io_assert (negb (LIBSPDM_STATUS_IS_ERROR status)).

Definition perform (a : cxl_action) : io D unit :=
  match a with
  | Tell direction iv_kind key iv =>
      let+ (status, _) :=
        cxl_ide_km_key_prog session_id stream_id (Z.lor (Z.lor direction iv_kind) CXL_IDE_KM_KEY_SUB_STREAM_CXL) port_index
          {| kb_key := rev_in_dws key; kb_iv := rev_in_dws iv |} in
      no_error status
  | Install direction key iv => λ d,
      Ok (tt, write_dwords (iv_regs direction) 2 (cxl_rp_iv_of_aes iv)
                (write_dwords (key_regs direction) 8 (cxl_rp_keys_of_aes key) d))
  | Valid direction => cxl_cfg_rp_txrx_key_valid kcbar direction true
  | Start direction =>
      let+ status := cxl_ide_km_key_set_go session_id stream_id (Z.lor (Z.lor direction mode) CXL_IDE_KM_KEY_SUB_STREAM_CXL)
                       port_index in
      no_error status
  | Enable => cxl_cfg_rp_linkenc_enable kcbar true
  | Trigger => cxl_cfg_rp_start_trigger kcbar true
  | Settle => libspdm_sleep (10 * 1000)
  end.

Fixpoint run_plan (l : list cxl_action) : io D bool :=
  match l with [] => ret true | a :: l => let+ _ := perform a in run_plan l end.

(** Both keys go to the device, then to the root port; the device receives
    with its key before the root port sends with it. *)
Definition start_plan (rx_kind tx_kind : Z) (rx_key rx_iv tx_key tx_iv : bytes) (key_refresh : bool) : list cxl_action :=
  [Tell CXL_IDE_KM_KEY_DIRECTION_RX rx_kind rx_key rx_iv; Tell CXL_IDE_KM_KEY_DIRECTION_TX tx_kind tx_key tx_iv;
   Install CXL_IDE_KM_KEY_DIRECTION_TX tx_key tx_iv; Install CXL_IDE_KM_KEY_DIRECTION_RX rx_key rx_iv;
   Valid CXL_IDE_STREAM_DIRECTION_TX; Valid CXL_IDE_STREAM_DIRECTION_RX; Start CXL_IDE_KM_KEY_DIRECTION_RX] ++
  (if key_refresh then [] else [Enable]) ++ [Trigger; Start CXL_IDE_KM_KEY_DIRECTION_TX; Settle].

(** ** What the code does for a step *)
Context `{!CxlIdeKmLaws D}.

(** Key and IV of a buffer, in the order of AES-GCM. *)
Definition aes_key (kb : key_buffer) : bytes := rev_in_dws (kb_key kb).
Definition aes_iv (kb : key_buffer) : bytes := rev_in_dws (kb_iv kb).
Definition full (kb : key_buffer) : Prop := length (kb_key kb) = 32%nat ∧ length (kb_iv kb) = 12%nat.

Lemma aes_buffer kb : full kb → kb = {| kb_key := rev_in_dws (aes_key kb); kb_iv := rev_in_dws (aes_iv kb) |}.
Proof.
  intros [Hk Hi]. unfold aes_key, aes_iv.
  rewrite (rev_in_dws_involutive 8), (rev_in_dws_involutive 3) by done. by destruct kb.
Qed.

Lemma tell_step {B} direction kind kb (k j : unit → io D B) d :
  full kb → (∀ d', k tt d' = j tt d') →
  bind (prog_key session_id stream_id (Z.lor (Z.lor direction kind) CXL_IDE_KM_KEY_SUB_STREAM_CXL) port_index kb) k d
  = bind (perform (Tell direction kind (aes_key kb) (aes_iv kb))) j d.
Proof.
  intros Hf Hk. cbn [perform]. rewrite <- (aes_buffer kb) by done. unfold prog_key. rewrite !bind_assoc.
  apply bind_ext. intros [status ack] d1. cbv beta iota. unfold no_error. rewrite !bind_assoc, !bind_assert.
  destruct (negb _); [|done]. rewrite !key_size, !iv_size, !bind_assoc, !bind_assert. apply Hk.
Qed.

Lemma link_enc_key_iv_writes direction key iv d :
  length key = 32%nat → length iv = 8%nat →
  cxl_cfg_rp_link_enc_key_iv kcbar direction 0 key 32 iv 8 d
  = Ok (tt, write_dwords (iv_regs direction) 2 iv (write_dwords (key_regs direction) 8 key d)).
Proof.
  intros Hk Hi. unfold cxl_cfg_rp_link_enc_key_iv. rewrite !bind_assert. cbn [Z.ltb Z.compare Z.eqb Pos.eqb].
  unfold key_regs, iv_regs. destruct (direction =? CXL_IDE_STREAM_DIRECTION_RX); cbv beta iota; rewrite bind_assert.
  all: cbn [Z.ltb Z.compare Z.eqb Pos.eqb Pos.compare Pos.compare_cont].
  all: erewrite bind_Ok; [|apply (reg_memcpy_dw_mmio_writes _ 8); lia].
  all: apply (reg_memcpy_dw_mmio_writes _ 2); lia.
Qed.

Lemma install_step {B} direction kb keys (k : bytes → io D B) (j : unit → io D B) d :
  full kb → length keys = 32%nat →
  (∀ keys d', length keys = 32%nat → k keys d' = j tt d') →
  bind (program_cxl_root_port kcbar direction kb keys) k d
  = bind (perform (Install direction (aes_key kb) (aes_iv kb))) j d.
Proof.
  intros [Hkey Hiv] Hkeys Hk. cbn [perform]. unfold program_cxl_root_port.
  assert (La : length (aes_key kb) = 32%nat) by (unfold aes_key; by rewrite (length_rev_in_dws 8)).
  assert (Li : length (aes_iv kb) = 12%nat) by (unfold aes_iv; by rewrite (length_rev_in_dws 3)).
  pose proof (cxl_construct_rp_keys_aes 8 (aes_key kb) keys ltac:(lia) La Hkeys) as Ek.
  pose proof (cxl_construct_rp_iv_aes (aes_iv kb) (replicate 8 0) Li eq_refl) as Ei.
  unfold aes_key in Ek at 1. unfold aes_iv in Ei at 1.
  rewrite (rev_in_dws_involutive 8) in Ek by done. rewrite (rev_in_dws_involutive 3) in Ei by done.
  change (4 * Z.of_nat 8) with 32 in Ek. rewrite key_size, iv_size. change PCIE_IDE_KEY_SIZE with 32.
  rewrite bind_assoc, (bind_lift_Ok _ _ _ _ Ek), bind_assoc, (bind_lift_Ok _ _ _ _ Ei), bind_assoc.
  assert (Lr : length (cxl_rp_iv_of_aes (aes_iv kb)) = 8%nat)
    by (unfold cxl_rp_iv_of_aes; rewrite length_reverse, length_drop; lia).
  erewrite bind_Ok; [|by apply link_enc_key_iv_writes]. rewrite bind_ret. by apply Hk.
Qed.

(** ** The keys that are made *)

(** The root port wants every IV to start with the sub-stream. *)
Definition usable (kb : key_buffer) : Prop := full kb ∧ load_le (kb_iv kb) 0 4 = Ok iv_prefix.

Lemma default_iv_usable kb kb' : length (kb_key kb) = 32%nat → gen_default_iv kb = Ok kb' → usable kb' ∧ kb_key kb' = kb_key kb.
Proof.
  intros Hk. unfold gen_default_iv. rewrite iv_size. intros [= <-]. split; [|done]. split; [by split|].
  unfold load_le, load. rewrite (proj2 (in_object_true _ _ _)) by (cbn; lia). cbn [res_bind kb_iv].
  change (take _ (drop _ _)) with (take (length (le_bytes 4 iv_prefix)) (le_bytes 4 iv_prefix ++ le_bytes 4 0 ++ le_bytes 4 1)).
  rewrite take_app_length, le_le_bytes; [done|]. unfold iv_prefix, u32. apply Z.mod_pos_bound. lia.
Qed.

Lemma zero_key_full : full zero_key_buffer.
Proof. unfold full, zero_key_buffer. cbn. by rewrite key_size, iv_size. Qed.

Lemma random_key_full kb d r kb' d' :
  full kb → cxl_random_key kb d = Ok (r, kb', d') → full kb' ∧ kb_iv kb' = kb_iv kb.
Proof.
  intros [Hk Hi]. unfold cxl_random_key, bind. destruct (libspdm_get_random_number _ d) as [[[r' key] d1]|e] eqn:E; [|done].
  cbn [res_bind]. intros [= <- <- <-]. destruct r'; [|done]. apply random_length in E; [|by rewrite key_size]. rewrite key_size in E.
  split; [split; [cbn; lia|done]|done].
Qed.

Lemma device_key_usable sid sub port kb kg ig kind d kb' kind' d' :
  full kb → get_key_from_device session_id sid sub port kb kg ig kind d = Ok (true, kb', kind', d') → usable kb'.
Proof.
  intros [Hk Hi]. unfold get_key_from_device.
  set (kb0 := {| kb_key := kb_key kb; kb_iv := _ |}).
  assert (F0 : full kb0) by (split; [done|]; cbn; by rewrite iv_size).
  unfold bind at 1. destruct (cxl_ide_km_get_key _ _ _ _ _ d) as [[[status kb1] d1]|e] eqn:E; [|done]. cbn [res_bind].
  destruct (LIBSPDM_STATUS_IS_ERROR status) eqn:Es; [done|].
  destruct (get_key_length _ _ _ _ _ _ _ _ _ E Es) as [L1 L2].
  assert (F1 : full kb1) by (destruct F0; split; congruence). clear E L1 L2.
  unfold bind at 1.
  match goal with |- context [(if kg then ?a else ?b) d1] =>
    destruct ((if kg then a else b) d1) as [[[r kb2] d2]|e] eqn:E2; [|done] end. cbn [res_bind].
  destruct r; [|done].
  assert (F2 : full kb2) by (destruct kg; [by injection E2 as <- <-|by eapply random_key_full]).
  assert (G : ∀ d3 : D, (let+ kb := lift (gen_default_iv kb2) in ret (true, kb, CXL_IDE_KM_KEY_IV_DEFAULT)) d3 =
    Ok (true, kb', kind', d') → usable kb').
  { intros d3. unfold bind, lift. destruct (gen_default_iv kb2) as [kb3|] eqn:E3; [|done]. cbn [res_bind].
    intros [= -> _ _]. eapply (default_iv_usable kb2); [apply F2|done]. }
  cbn [negb]. destruct ig; [|apply G]. unfold bind at 1, lift at 1.
  destruct (load_le (kb_iv kb2) 0 4) as [iv0|] eqn:El; [|done]. cbn [res_bind].
  destruct (iv0 =? iv_prefix) eqn:Ei; [|apply G]. apply Z.eqb_eq in Ei as ->. cbn [negb]. by intros [= <- _ _].
Qed.

Lemma generated_key_usable fixed sid sub port kg ig direction kind d kb kind' d' :
  cxl_ide_generate_key fixed session_id sid sub port zero_key_buffer kg ig direction kind d = Ok (true, kb, kind', d') →
  usable kb.
Proof.
  unfold cxl_ide_generate_key. destruct (_ && _); [done|]. unfold bind at 1, lift at 1.
  destruct (gen_default_iv zero_key_buffer) as [kb0|] eqn:E0; [|done]. cbn [res_bind].
  destruct (default_iv_usable _ _ (proj1 zero_key_full) E0) as [U0 _].
  destruct fixed.
  { intros [= <- _ _]. destruct U0 as [[Hk Hi] Hp]. split; [|done]. split; [cbn; by rewrite key_size|done]. }
  destruct (_ && _); [apply device_key_usable; apply U0|].
  unfold bind. destruct (cxl_random_key kb0 d) as [[[r kb1] d1]|] eqn:E1; [|done]. cbn [res_bind].
  intros [= -> -> _ _]. destruct U0 as [F0 Hp]. destruct (random_key_full _ _ _ _ _ F0 E1) as [F1 Hi].
  split; [done|by rewrite Hi].
Qed.

(** C33: Setting up a CXL IDE stream.  When GET_KEY is asked for but the
    device does not have it, or a key cannot be made, the result is false and
    no key has been programmed.  Otherwise the keys and IVs made for the two
    directions have 32 and 12 bytes, every IV starts with the sub-stream, and the rest is the
    plan: both keys go to the device in the byte order of KEY_PROG, then to
    the registers of the root port's other side in the byte order that
    doc/key_byte_order.md gives for the same AES-GCM key and IV, they are made
    valid, the device receives before the root port switches, and the device
    sends after it; only a key refresh leaves the link encryption as it is.  The plan
    never returns false: a message with an error stops the run. *)
Theorem cxl_setup_follows_plan fixed lower config_bitmap key_refresh d :
  let setup := cxl_setup_ide_stream fixed session_id kcbar stream_id port_index lower config_bitmap ide_mode key_refresh in
  match get_key_choice fixed (resp_caps (query_resp (cxl_data lower))) config_bitmap with
  | None => setup d = Ok (false, d)
  | Some (key_gen, iv_gen) =>
      let generate direction :=
        cxl_ide_generate_key fixed session_id stream_id CXL_IDE_KM_KEY_SUB_STREAM_CXL port_index zero_key_buffer key_gen iv_gen
          direction 0 in
      (∀ kb kind d1, generate CXL_IDE_KM_KEY_DIRECTION_RX d = Ok (false, kb, kind, d1) → setup d = Ok (false, d1)) ∧
      ∀ rx rx_kind d1, generate CXL_IDE_KM_KEY_DIRECTION_RX d = Ok (true, rx, rx_kind, d1) →
        usable rx ∧
        (∀ kb kind d2, generate CXL_IDE_KM_KEY_DIRECTION_TX d1 = Ok (false, kb, kind, d2) → setup d = Ok (false, d2)) ∧
        ∀ tx tx_kind d2, generate CXL_IDE_KM_KEY_DIRECTION_TX d1 = Ok (true, tx, tx_kind, d2) →
          usable tx ∧
          setup d = run_plan (start_plan rx_kind tx_kind (aes_key rx) (aes_iv rx) (aes_key tx) (aes_iv tx) key_refresh) d2 ∧
          ∀ d', setup d ≠ Ok (false, d')
  end.
Proof.
  intros setup. unfold setup, cxl_setup_ide_stream, cxl_start_stream.
  destruct (get_key_choice _ _ _) as [[kg ig]|]; [|done].
  split; [intros kb kind d1 E; by rewrite (bind_Ok _ _ _ _ _ E)|].
  intros rx rxk d1 E1. pose proof (generated_key_usable _ _ _ _ _ _ _ _ _ _ _ _ E1) as Urx.
  rewrite (bind_Ok _ _ _ _ _ E1). cbv beta iota. cbn [negb]. split; [done|].
  split; [intros kb kind d2 E2; by rewrite (bind_Ok _ _ _ _ _ E2)|].
  intros tx txk d2 E2. pose proof (generated_key_usable _ _ _ _ _ _ _ _ _ _ _ _ E2) as Utx.
  rewrite (bind_Ok _ _ _ _ _ E2). cbv beta iota. cbn [negb]. split; [done|].
  assert (Hplan : ∀ l d d', run_plan l d ≠ Ok (false, d')).
  { induction l as [|a l IH]; intros d3 d'; cbn [run_plan]; [done|]. unfold bind.
    destruct (perform a d3) as [[[] d4]|e]; cbn [res_bind]; [apply IH|done]. }
  match goal with |- ?m d2 = ?p d2 ∧ _ => enough (E : m d2 = p d2) by (split; [exact E|intros d'; rewrite E; apply Hplan]) end.
  unfold start_plan. cbn [app run_plan].
  apply tell_step; [apply Urx|intros d3]. apply tell_step; [apply Utx|intros d4].
  apply install_step; [apply Utx|done|intros keys d5 Hkeys]. apply install_step; [apply Urx|done|intros keys' d6 _].
  do 2 (apply bind_ext; intros [] ?).
  apply bind_ext; intros [] ?. destruct key_refresh; cbn [app run_plan negb].
  - rewrite bind_ret. do 3 (apply bind_ext; intros [] ?). done.
  - do 4 (apply bind_ext; intros [] ?). done.
Qed.
End plan.

(** ** A device that answers

    The values of the constants are those of libspdm's cxl_idekm.h. *)
#[export] Instance obliging_cxl_device : CxlIdeKmRequester memory := {
  CXL_IDE_KM_KEY_DIRECTION_RX := 0;
  CXL_IDE_KM_KEY_DIRECTION_TX := 2;
  CXL_IDE_KM_KEY_IV_DEFAULT := 0;
  CXL_IDE_KM_KEY_IV_INITIAL := 8;
  CXL_IDE_KM_KEY_SUB_STREAM_CXL := 0x80;
  CXL_IDE_KM_KEY_MODE_SKID := 0;
  CXL_IDE_KM_KEY_MODE_CONTAINMENT := 4;
  CXL_IDE_KM_IDE_CAP_REG_BLOCK_MAX_COUNT := 9;
  sizeof_kb_key := 32;
  sizeof_kb_iv := 12;
  cxl_ide_km_query _ _ answer := ret (0, answer);
  cxl_ide_km_get_key _ _ _ _ kb := ret (0, kb);
  cxl_ide_km_key_prog _ _ _ _ _ := ret (0, 0);
  cxl_ide_km_key_set_go _ _ _ _ := ret 0;
  cxl_ide_km_key_set_stop _ _ _ _ := ret 0
}.

#[export] Instance obliging_cxl_laws : CxlIdeKmLaws memory.
Proof.
  constructor; try done.
  - intros n d key d' Hn [= <- <-]. rewrite length_replicate. lia.
  - by intros ? ? ? ? kb d status kb' d' [= <- <- <-].
Qed.

(** Random keys, containment mode, a first start: the registers of the root
    port's transmit side hold the device's receive key. *)
Lemma cxl_setup_follows_plan_witness :
  ∃ m, cxl_setup_ide_stream false 1 0x10000 0 0 {| base := PcieIdeSpec.example_context; cxl_data := cleared_cxl_data |} 1 0 false []
       = Ok (true, m) ∧
       mem_peek m (Mmio 0x10010) = 0x5a5a5a5a ∧ mem_peek m (Mmio 0x10000) = 1 ∧ mem_peek m (Mmio 0x10008) = 7.
Proof.
  pose proof (cxl_setup_follows_plan (D := memory) 1 0x10000 0 0 0 false
    {| base := PcieIdeSpec.example_context; cxl_data := cleared_cxl_data |} 1 false []) as Hp.
  change (get_key_choice false _ 1) with (Some (false, false)) in Hp. cbv beta iota zeta in Hp.
  destruct Hp as [_ Hp].
  destruct (Hp {| kb_key := replicate 32 0x5a; kb_iv := [0; 0; 0; 0x80; 0; 0; 0; 0; 1; 0; 0; 0] |} 0 [] eq_refl) as (_ & _ & Hq).
  destruct (Hq {| kb_key := replicate 32 0x5a; kb_iv := [0; 0; 0; 0x80; 0; 0; 0; 0; 1; 0; 0; 0] |} 0 [] eq_refl) as (_ & E & _).
  eexists. split; [etransitivity; [exact E|vm_compute; reflexivity]|]. vm_compute. auto.
Defined.
End CxlKmSpec.
