(* ===== verification/CxlTests.v ===== *)
(** * The CXL IDE test cases (library/cxl_ide_test_lib/test_case/)

    Test functions as in Tests.v, with the group's context of CXL IDE and the static
    variables of the test files.  Log output is left out. *)
From Stdlib Require Import ZArith Lia Ascii String.
From stdpp Require Import prelude gmap.
From S2P Require Import Prelude Utils Libspdm TestConfig Results Engine TestLib Hardware PcieIde Kcbar IdeKm Ports Spdm Tests PcieTests CxlIde CxlKm.

Open Scope Z_scope.
Open Scope teeio_scope.

Module CxlTests.
Import TestConfig Results Engine Hardware PcieIde Ports Spdm Tests IdeKm CxlIde CxlKm.

Definition CXL_IDE_MODE_MAX : Z := 2.
Definition CXL_IDE_MODE_SKID_MASK : Z := 0x2.
Definition CXL_IDE_MODE_CONTAINMENT_MASK : Z := 0x4.

(* CXL_QUERY_RESP_CAPS *)
Definition cxl_ide_cap_version (raw : Z) : Z := get_bits 0 4 raw.

(** ** What libspdm adds for the tests *)

(** The fields of the CXL_IDE_KM messages.  A request is filled with zeros before
    its fields are set; of a response only the fields of its kind are read. *)
Record cxl_km_message := {
  cm_object_id : Z;
  cm_stream_id : Z;
  cm_key_sub_stream : Z;
  cm_port_index : Z;
  cm_status : Z;
  cm_dev_func_num : Z;
  cm_bus_num : Z;
  cm_segment : Z;
  cm_max_port_index : Z;
  cm_caps : Z;
  cm_key_buffer : key_buffer
}.

Class CxlIdeKmTester (D : Type) := {
  CXL_IDE_KM_OBJECT_ID_QUERY : Z;
  CXL_IDE_KM_OBJECT_ID_QUERY_RESP : Z;
  CXL_IDE_KM_OBJECT_ID_KEY_PROG : Z;
  CXL_IDE_KM_OBJECT_ID_KP_ACK : Z;
  CXL_IDE_KM_OBJECT_ID_K_SET_GO : Z;
  CXL_IDE_KM_OBJECT_ID_K_SET_STOP : Z;
  CXL_IDE_KM_OBJECT_ID_K_SET_GOSTOP_ACK : Z;
  CXL_IDE_KM_OBJECT_ID_GET_KEY : Z;
  CXL_IDE_KM_OBJECT_ID_GET_KEY_ACK : Z;
  CXL_IDE_KM_KP_ACK_STATUS_SUCCESS : Z;
  CXL_IDE_KM_KP_ACK_STATUS_INVALID : Z;
  sizeof_cxl_ide_km_header_t : Z;
  sizeof_cxl_ide_km_query_t : Z;
  sizeof_cxl_ide_km_query_resp_t : Z;
  sizeof_cxl_ide_km_kp_ack_t : Z;
  sizeof_cxl_ide_km_get_key_t : Z;
  sizeof_cxl_ide_km_k_set_go_t : Z;
  sizeof_cxl_ide_km_k_set_stop_t : Z;
  sizeof_cxl_ide_km_k_gostop_ack_t : Z;
  (** session, request and its size; status, response size and response *)
  cxl_ide_km_send_receive_data : Z → cxl_km_message → Z → io D (Z * Z * cxl_km_message)
}.

(** ** The variables of the test files *)

(** An array of [CXL_QUERY_RESP_CAPS]; a cell not yet written is [None]. *)
Definition dev_caps_array : Type := list (option Z).

(** [m_dev_caps] is an array in the files of GetKey and KSetStop, and a pointer to
    allocated memory in those of KeyProg.7, 8 and 9. *)
Record cxl_vars := {
  cxl_mMaxPortIndex : Z;
  get_key_dev_caps : dev_caps_array;
  kset_stop_dev_caps : dev_caps_array;
  key_prog_dev_caps : gmap Z (Z * dev_caps_array)     (* by the number of the case; absent for NULL *)
}.

Definition with_cxl_query_max (i : Z) (v : cxl_vars) : cxl_vars :=
  {| cxl_mMaxPortIndex := i; get_key_dev_caps := get_key_dev_caps v; kset_stop_dev_caps := kset_stop_dev_caps v;
     key_prog_dev_caps := key_prog_dev_caps v |}.
Definition with_get_key_caps (l : dev_caps_array) (v : cxl_vars) : cxl_vars :=
  {| cxl_mMaxPortIndex := cxl_mMaxPortIndex v; get_key_dev_caps := l; kset_stop_dev_caps := kset_stop_dev_caps v;
     key_prog_dev_caps := key_prog_dev_caps v |}.
Definition with_kset_stop_caps (l : dev_caps_array) (v : cxl_vars) : cxl_vars :=
  {| cxl_mMaxPortIndex := cxl_mMaxPortIndex v; get_key_dev_caps := get_key_dev_caps v; kset_stop_dev_caps := l;
     key_prog_dev_caps := key_prog_dev_caps v |}.
Definition with_key_prog_caps (m : gmap Z (Z * dev_caps_array)) (v : cxl_vars) : cxl_vars :=
  {| cxl_mMaxPortIndex := cxl_mMaxPortIndex v; get_key_dev_caps := get_key_dev_caps v;
     kset_stop_dev_caps := kset_stop_dev_caps v; key_prog_dev_caps := m |}.

(** The variables before the first test. *)
Definition initial_cxl_vars : cxl_vars :=
  {| cxl_mMaxPortIndex := 0; get_key_dev_caps := replicate 256 (Some 0); kset_stop_dev_caps := replicate 256 (Some 0);
     key_prog_dev_caps := ∅ |}.

(** ** The parameters of the tests *)

(** [construct_test_port_index]: the list of the first [port_index_cnt] entries of [mPortIndex]. *)
Definition construct_test_port_index (max_port_index : Z) : list Z :=
  if max_port_index =? 0xff then [] else
  List.filter (λ port_index, Utils.Utils.is_power_of_two port_index || (port_index =? max_port_index + 1) || (port_index =? 0xff))
    (range (max_port_index + 1) 0x100).

Definition construct_test_stream_id : list Z :=
  List.filter (λ stream_id, Utils.Utils.is_power_of_two stream_id || (stream_id =? 1) || (stream_id =? 0xff)) (range 1 0x100).

Definition construct_test_sub_stream : list Z :=
  List.filter (λ sub_stream, negb (sub_stream =? 8) &&
      (Utils.Utils.is_power_of_two sub_stream || (sub_stream =? 0) || (sub_stream =? 7) || (sub_stream =? 9) || (sub_stream =? 15)))
    (range 0 16).

(** The string that is written to a buffer of [str_size] bytes. *)
Definition dump_binary_to_str (data str_size : Z) : res bytes :=
  let* _ := TEEIO_ASSERT (6 <=? str_size) in
  let str := bs "0b" ++ flat_map (λ i, dec (Z.land (Z.shiftr data i) 1)) [3; 2; 1; 0] in
  if strlen str + 1 <=? str_size then Ok str else Stop Undefined.

Section cases.
Context {D : Type} `{Bus D} `{Clock D} `{Os D} `{Alloc (D * process)} `{Libspdm}.
Context `{IdeKmRequester (D * process)} `{CxlIdeKmRequester (D * process)} `{CxlIdeKmTester (D * process)}.
Context (g_teeio_fixed_key : bool).

#[local] Abbreviation State := (D * process)%type.
#[local] Abbreviation test := (Tests.test D cxl_ide_test_group_context_t cxl_vars).

(** Of the structures in cxl_ide_test_internal.h. *)
Definition sizeof_cxl_ide_km_key_prog_teeio_t : Z := sizeof_cxl_ide_km_header_t + 2 + 1 + 1 + 1 + 1 + sizeof_kb_key + sizeof_kb_iv.
Definition sizeof_cxl_ide_km_get_key_ack_teeio_t : Z := sizeof_cxl_ide_km_key_prog_teeio_t.

Definition cxl_request (object_id sid key_sub_stream port_index : Z) : cxl_km_message :=
  {| cm_object_id := object_id; cm_stream_id := sid; cm_key_sub_stream := key_sub_stream; cm_port_index := port_index;
     cm_status := 0; cm_dev_func_num := 0; cm_bus_num := 0; cm_segment := 0; cm_max_port_index := 0; cm_caps := 0;
     cm_key_buffer := zero_key_buffer |}.
Definition cxl_key_prog_request (sid key_sub_stream port_index : Z) (kb : key_buffer) : cxl_km_message :=
  {| cm_object_id := CXL_IDE_KM_OBJECT_ID_KEY_PROG; cm_stream_id := sid; cm_key_sub_stream := key_sub_stream;
     cm_port_index := port_index; cm_status := 0; cm_dev_func_num := 0; cm_bus_num := 0; cm_segment := 0;
     cm_max_port_index := 0; cm_caps := 0; cm_key_buffer := kb |}.

(** ** What the tests share *)

Definition cxl_send_failed (cls id status : Z) : test unit :=
  record_test cls id 0 false (bs "cxl_ide_km_send_receive_data failed with 0x" ++ hex status).

(** "CxlIdeKmMessage.<field> = 0x<value>" *)
Definition cxl_message (field : bytes) (value : Z) : bytes := bs "CxlIdeKmMessage." ++ field ++ bs " = 0x" ++ hex value.
Definition cxl_message_size (size : Z) : bytes := bs "sizeof(CxlIdeKmMessage) = 0x" ++ hex size.

(** A request is sent; the first checks are of the size of the answer and of its
    object; [k] makes the others. *)
Definition cxl_exchange (session : Z) (request : cxl_km_message) (request_size : Z) (size_ok : Z → bool) (ack cls id : Z)
    (k : cxl_km_message → test unit) : test unit :=
  let+ (status, response_size, response) := machine (cxl_ide_km_send_receive_data session request request_size) in
  if LIBSPDM_STATUS_IS_ERROR status then cxl_send_failed cls id status else
  let+ _ := record_test cls id 1 (size_ok response_size) (cxl_message_size response_size) in
  if negb (size_ok response_size) then ret tt else
  let+ _ := record_test cls id 2 (cm_object_id response =? ack) (cxl_message (bs "ObjectID") (cm_object_id response)) in
  k response.

(** Port, stream and sub-stream of an acknowledgement. *)
Definition cxl_check_echo (cls id base : Z) (request response : cxl_km_message) : test unit :=
  let+ _ := record_test cls id base (cm_port_index response =? cm_port_index request)
              (cxl_message (bs "PortIndex") (cm_port_index response)) in
  let+ _ := record_test cls id (base + 1) (cm_stream_id response =? cm_stream_id request)
              (cxl_message (bs "StreamID") (cm_stream_id response)) in
  record_test cls id (base + 2) (cm_key_sub_stream response =? cm_key_sub_stream request)
    (cxl_message (bs "key_sub_stream") (cm_key_sub_stream response)).

(** [get_configuration_by_id] and the assert that there is one. *)
Definition cxl_configuration (g : cxl_ide_test_group_context_t) : test IDE_TEST_CONFIGURATION :=
  let+ c := lift (get_configuration_by_id (Some (cxl_test_config g)) (cxl_config_id g)) in
  match c with
  | None => lift (Stop AssertHang)
  | Some c => ret c
  end.

Definition cxl_kcbar (g : cxl_ide_test_group_context_t) : Z := mapped_kcbar_addr (base (cxl_upper_port g)).
Definition group_query_resp (g : cxl_ide_test_group_context_t) : CXL_PRIV_DATA_QUERY_RESP_DATA :=
  query_resp (cxl_data (cxl_lower_port g)).

(** [for(port_index = 0; port_index <= max_port_index; port_index++)] *)
Definition port_indices (g : cxl_ide_test_group_context_t) : list Z := range 0 (resp_max_port_index (group_query_resp g) + 1).
Definition for_ports (g : cxl_ide_test_group_context_t) (f : Z → test unit) : test unit :=
  io_fold (λ i _, f i) (port_indices g) tt.

Definition port_info (port_index : Z) : bytes := bs "  port_index = 0x" ++ hex2 port_index.

(** ** Keys *)

Definition cxl_ide_prepare_dynamic_keys (kb : key_buffer) : io State (bool * key_buffer * Z) :=
  let+ iv := lift (store (kb_iv kb) 0 (le_bytes 4 iv_prefix ++ le_bytes 4 0 ++ le_bytes 4 1)) in
  let+ (result, kb) := cxl_random_key {| kb_key := kb_key kb; kb_iv := iv |} in
  ret (result, kb, CXL_IDE_KM_KEY_IV_DEFAULT).

(** The sub-stream in the parameters is not used. *)
Definition cxl_ide_prepare_keys_with_get_key (session sid port_index : Z) (kb : key_buffer) (cxl_ide_km_iv : Z)
    : io State (bool * key_buffer * Z) :=
  let kb := {| kb_key := kb_key kb; kb_iv := replicate (length (kb_iv kb)) 0 |} in
  let+ (status, kb) := cxl_ide_km_get_key session sid CXL_IDE_KM_KEY_SUB_STREAM_CXL port_index kb in
  if LIBSPDM_STATUS_IS_ERROR status then ret (false, kb, cxl_ide_km_iv) else
  let+ iv0 := lift (load_le (kb_iv kb) 0 4) in
  if negb (iv0 =? iv_prefix) then ret (false, kb, cxl_ide_km_iv) else
  ret (true, kb, CXL_IDE_KM_KEY_IV_INITIAL).

(** The asserts of [dump_key_iv_in_key_prog]. *)
Definition dump_key_iv_in_key_prog : io State unit :=
  let+ _ := io_assert (sizeof_kb_key / 4 =? 8) in
  io_assert ((sizeof_kb_iv / 4 =? 2) || (sizeof_kb_iv / 4 =? 3)).

Definition cxl_sub_stream (direction x : Z) : Z := u8 (Z.lor (Z.lor direction x) CXL_IDE_KM_KEY_SUB_STREAM_CXL).

(** The result of [cxl_ide_get_dev_caps] and what it leaves of the array. *)
Definition dev_caps_step (session port_index : Z) (caps : dev_caps_array) : io State (dev_caps_array + bool * dev_caps_array) :=
  let+ (status, answer) := cxl_ide_km_query session port_index (no_answer 0) in
  if LIBSPDM_STATUS_IS_ERROR status then ret (inr (false, caps)) else
  let+ caps := lift (array_set caps port_index (Some (cxl_caps answer))) in
  ret (inl caps).
Definition cxl_ide_get_dev_caps (session max_port_index : Z) (caps : dev_caps_array) : io State (bool * dev_caps_array) :=
  let+ r := io_for (dev_caps_step session) (range 0 (max_port_index + 1)) caps in
  ret (match r with inl caps => (true, caps) | inr r => r end).

Definition caps_at (caps : dev_caps_array) (i : Z) : res Z :=
  let* c := array_get caps i in deref c.

(** [true] if one of the ports has the capability. *)
Definition any_port (capable : Z → bool) (caps : dev_caps_array) (max_port_index : Z) : res bool :=
  fold_res (λ i found, let* c := caps_at caps i in Ok (found || capable c)) (range 0 (max_port_index + 1)) false.

(** ** Query (test_case_query_1.c, test_case_query_2.c) *)

Definition test_cxl_ide_query (session port_index dev_func_num bus_num segment cls id : Z) : test unit :=
  let request := cxl_request CXL_IDE_KM_OBJECT_ID_QUERY 0 0 port_index in
  cxl_exchange session request sizeof_cxl_ide_km_query_t (λ size, negb (size =? sizeof_cxl_ide_km_query_resp_t))
    CXL_IDE_KM_OBJECT_ID_QUERY_RESP cls id (λ response,
    let+ _ := record_test cls id 3 (cm_port_index response =? cm_port_index request)
                (cxl_message (bs "PortIndex") (cm_port_index response)) in
    let+ _ := record_test cls id 4 (cm_port_index request <=? cm_max_port_index response)
                (cxl_message (bs "MaxPortIndex") (cm_max_port_index response)) in
    let+ _ := record_test cls id 5
                ((dev_func_num =? cm_dev_func_num response) && (bus_num =? cm_bus_num response) && (segment =? cm_segment response))
                (cxl_message (bs "DevFunc") (cm_dev_func_num response) ++ bs " && " ++ cxl_message (bs "Bus") (cm_bus_num response) ++
                 bs " && " ++ cxl_message (bs "Segment") (cm_segment response)) in
    record_test cls id 6 (cxl_ide_cap_version (cm_caps response) =? 1)
      (cxl_message (bs "CXL_IDE_Capability_Version") (cxl_ide_cap_version (cm_caps response)))).

(** The address of the device; the segment is 0. *)
Definition query_device (g : cxl_ide_test_group_context_t) (port_index cls id : Z) : test unit :=
  let p := port (base (cxl_lower_port g)) in
  test_cxl_ide_query (cxl_session_id g) port_index (PcieTests.expected_dev_func p) (u8 (port_bus p)) 0 cls id.

Definition cxl_ide_test_query_1_setup : test bool := ret true.
Definition cxl_ide_test_query_1_run (cls id : Z) : test unit :=
  let+ g := get_group in query_device g 0 cls id.

Definition cxl_ide_test_query_2_setup : test bool :=
  let+ g := get_group in
  let+ (status, answer) := machine (cxl_ide_km_query (cxl_session_id g) 0 (no_answer 0)) in
  if LIBSPDM_STATUS_IS_ERROR status then ret false else
  let+ _ := (if cxl_max_port_index answer =? 0 then modify with_skip else ret tt) in
  let+ _ := set_vars (with_cxl_query_max (cxl_max_port_index answer)) in
  ret true.

Definition cxl_ide_test_query_2_run (cls id : Z) : test unit :=
  let+ g := get_group in
  let+ v := get_vars in
  io_fold (λ i _,
    let+ _ := record_separator cls id (bs "port_index = " ++ dec i) in
    query_device g i cls id) (range 1 (cxl_mMaxPortIndex v + 1)) tt.

(** ** KeyProg.1 to 6 *)

(** The three functions that send KEY_PROG differ in the size they announce and the status they expect. *)
Definition test_cxl_key_prog_message (request_size expected session sid key_sub_stream port_index : Z) (kb : key_buffer)
    (cls id : Z) : test unit :=
  let request := cxl_key_prog_request (u8 sid) key_sub_stream port_index kb in
  cxl_exchange session request request_size (λ size, size =? sizeof_cxl_ide_km_kp_ack_t) CXL_IDE_KM_OBJECT_ID_KP_ACK cls id
    (λ response,
    let+ _ := record_test cls id 3 (cm_status response =? expected) (cxl_message (bs "Status") (cm_status response)) in
    cxl_check_echo cls id 4 request response).

Definition test_cxl_ide_key_prog_valid_params :=
  test_cxl_key_prog_message sizeof_cxl_ide_km_key_prog_teeio_t CXL_IDE_KM_KP_ACK_STATUS_SUCCESS.
Definition test_cxl_ide_key_prog2 (mCurrentRequestSize : Z) :=
  test_cxl_key_prog_message mCurrentRequestSize CXL_IDE_KM_KP_ACK_STATUS_INVALID.
Definition test_cxl_ide_key_prog_invalid_params :=
  test_cxl_key_prog_message sizeof_cxl_ide_km_key_prog_teeio_t CXL_IDE_KM_KP_ACK_STATUS_INVALID.

(** A function that tests one KEY_PROG: session, stream, sub-stream, port, buffer. *)
Definition cxl_ide_test_key_prog_t : Type := Z → Z → Z → Z → key_buffer → Z → Z → test unit.

(** Both directions are tested with the buffer of RX. *)
Definition test_cxl_ide_key_prog (session sid sub_stream port_index : Z) (case_info : bytes) (cls id : Z)
    (test_key_prog_func : cxl_ide_test_key_prog_t) : test unit :=
  let prepare_failed direction :=
    let+ _ := record_separator cls id case_info in
    record_test cls id 0 false (bs "cxl_ide_prepare_dynamic_keys for " ++ direction ++ bs " failed") in
  let+ (result, rx_key_buffer, cxl_ide_km_iv_rx) := machine (cxl_ide_prepare_dynamic_keys zero_key_buffer) in
  if negb result then prepare_failed (bs "RX") else
  let+ (result, tx_key_buffer, cxl_ide_km_iv_tx) := machine (cxl_ide_prepare_dynamic_keys zero_key_buffer) in
  if negb result then prepare_failed (bs "TX") else
  let+ _ := record_separator cls id (case_info ++ bs " RX") in
  let+ _ := test_key_prog_func session sid (u8 (Z.lor (Z.lor CXL_IDE_KM_KEY_DIRECTION_RX cxl_ide_km_iv_rx) sub_stream)) port_index
              rx_key_buffer cls id in
  let+ _ := record_separator cls id (case_info ++ bs " TX") in
  test_key_prog_func session sid (u8 (Z.lor (Z.lor CXL_IDE_KM_KEY_DIRECTION_TX cxl_ide_km_iv_tx) sub_stream)) port_index
    rx_key_buffer cls id.

Definition cxl_ide_test_key_prog_1_setup : test bool := ret true.
Definition cxl_ide_test_key_prog_1_run (cls id : Z) : test unit :=
  let+ g := get_group in
  let+ _ := cxl_configuration g in
  for_ports g (λ i,
    test_cxl_ide_key_prog (cxl_session_id g) 0 CXL_IDE_KM_KEY_SUB_STREAM_CXL i (port_info i) cls id
      test_cxl_ide_key_prog_valid_params).

(** [for(size = 8; size + 4 < sizeof(cxl_ide_km_key_prog_teeio_t); size += 4)] *)
Definition short_request_sizes : list Z :=
  map (λ k, 8 + 4 * k) (range 0 ((sizeof_cxl_ide_km_key_prog_teeio_t - 12 + 3) / 4)).

Definition cxl_ide_test_key_prog_2_setup : test bool := ret true.
Definition cxl_ide_test_key_prog_2_run (cls id : Z) : test unit :=
  let+ g := get_group in
  let+ _ := cxl_configuration g in
  for_ports g (λ i,
    io_fold (λ size _,
      test_cxl_ide_key_prog (cxl_session_id g) 0 CXL_IDE_KM_KEY_SUB_STREAM_CXL i (bs "  RequestSize=0x" ++ hex2 size) cls id
        (test_cxl_ide_key_prog2 size)) short_request_sizes tt).

Definition cxl_ide_test_key_prog_3_setup : test bool :=
  let+ g := get_group in
  let+ _ := (if resp_max_port_index (group_query_resp g) =? 0xff then modify with_skip else ret tt) in
  ret true.
Definition cxl_ide_test_key_prog_3_run (cls id : Z) : test unit :=
  let+ g := get_group in
  let+ _ := cxl_configuration g in
  let mPortIndex := construct_test_port_index (resp_max_port_index (group_query_resp g)) in
  let+ _ := io_assert (nonempty mPortIndex) in
  io_fold (λ port_index _,
    test_cxl_ide_key_prog (cxl_session_id g) 0 CXL_IDE_KM_KEY_SUB_STREAM_CXL port_index (port_info port_index) cls id
      test_cxl_ide_key_prog_invalid_params) mPortIndex tt.

Definition cxl_ide_test_key_prog_4_setup : test bool := ret true.
Definition cxl_ide_test_key_prog_4_run (cls id : Z) : test unit :=
  let+ g := get_group in
  let+ _ := cxl_configuration g in
  for_ports g (λ port_index,
    io_fold (λ sid _,
      test_cxl_ide_key_prog (cxl_session_id g) sid CXL_IDE_KM_KEY_SUB_STREAM_CXL port_index
        (port_info port_index ++ bs " stream_id=0x" ++ hex2 sid) cls id test_cxl_ide_key_prog_invalid_params)
      construct_test_stream_id tt).

Definition cxl_ide_test_key_prog_5_setup : test bool := ret true.
Definition cxl_ide_test_key_prog_5_run (cls id : Z) : test unit :=
  let+ g := get_group in
  let+ _ := cxl_configuration g in
  (** the log of [construct_test_sub_stream] *)
  let+ _ := io_fold (λ sub_stream _, let+ _ := lift (dump_binary_to_str sub_stream 8) in ret tt) construct_test_sub_stream tt in
  for_ports g (λ port_index,
    io_fold (λ sub_stream _,
      test_cxl_ide_key_prog (cxl_session_id g) 0 (Z.land (Z.shiftl sub_stream 4) 0xf0) port_index
        (port_info port_index ++ bs " sub_stream=0x" ++ hex2 sub_stream) cls id test_cxl_ide_key_prog_invalid_params)
      construct_test_sub_stream tt).

(** The preparation of a test failed. *)
Definition cxl_prepare_failed (cls id : Z) (case_info error_info : bytes) : test unit :=
  let+ _ := record_separator cls id case_info in record_test cls id 0 false error_info.

(** "<what> <direction> failed with status=0x<status>\n" *)
Definition failed_with (what : bytes) (digits : Z → bytes) (status : Z) : bytes :=
  what ++ bs " failed with status=0x" ++ digits status ++ [10].

(** KEY_PROG through libspdm; the acknowledge status is not looked at. *)
Definition key_prog_call (session direction iv_kind port_index : Z) (kb : key_buffer) : test Z :=
  let+ (status, _) := machine (cxl_ide_km_key_prog session 0 (cxl_sub_stream direction iv_kind) port_index kb) in
  ret status.

(** The keys programmed a second time; again TX with the buffer of RX. *)
Definition test_cxl_ide_key_prog_6 (session port_index cls id : Z) : test unit :=
  let fail := cxl_prepare_failed cls id (port_info port_index) in
  let+ (result, rx_key_buffer, cxl_ide_km_iv_rx) := machine (cxl_ide_prepare_dynamic_keys zero_key_buffer) in
  if negb result then fail (bs "cxl_ide_prepare_dynamic_keys for RX failed") else
  let+ (result, tx_key_buffer, cxl_ide_km_iv_tx) := machine (cxl_ide_prepare_dynamic_keys zero_key_buffer) in
  if negb result then fail (bs "cxl_ide_prepare_dynamic_keys for TX failed") else
  let+ status := key_prog_call session CXL_IDE_KM_KEY_DIRECTION_RX cxl_ide_km_iv_rx port_index rx_key_buffer in
  if LIBSPDM_STATUS_IS_ERROR status then fail (failed_with (bs "cxl_ide_km_key_prog RX") hex status) else
  let+ status := key_prog_call session CXL_IDE_KM_KEY_DIRECTION_TX cxl_ide_km_iv_tx port_index tx_key_buffer in
  if LIBSPDM_STATUS_IS_ERROR status then fail (failed_with (bs "cxl_ide_km_key_prog TX") hex status) else
  let+ _ := record_separator cls id (port_info port_index ++ bs " RX") in
  let+ _ := test_cxl_ide_key_prog_invalid_params session 0 (cxl_sub_stream CXL_IDE_KM_KEY_DIRECTION_RX cxl_ide_km_iv_rx)
              port_index rx_key_buffer cls id in
  let+ _ := record_separator cls id (port_info port_index ++ bs " TX") in
  test_cxl_ide_key_prog_invalid_params session 0 (cxl_sub_stream CXL_IDE_KM_KEY_DIRECTION_TX cxl_ide_km_iv_tx)
    port_index rx_key_buffer cls id.

Definition cxl_ide_test_key_prog_6_setup : test bool := ret true.
Definition cxl_ide_test_key_prog_6_run (cls id : Z) : test unit :=
  let+ g := get_group in
  let+ _ := cxl_configuration g in
  for_ports g (λ i, test_cxl_ide_key_prog_6 (cxl_session_id g) i cls id).

(** ** KeyProg.7 to 9: keys and IVs that the device generates *)

(** RX with a key of the host, TX as [prepare_tx] makes it from the buffer and the kind of
    IV of RX; RX is programmed, then [k] tests TX. *)
Definition cxl_tx_key_test (session port_index cls id : Z) (prepare_tx : key_buffer → Z → test (key_buffer * Z + bytes))
    (k : key_buffer → Z → test unit) : test unit :=
  let fail := cxl_prepare_failed cls id (port_info port_index) in
  let+ (result, rx_key_buffer, cxl_ide_km_iv_rx) := machine (cxl_ide_prepare_dynamic_keys zero_key_buffer) in
  if negb result then fail (bs "cxl_ide_prepare_dynamic_keys for RX failed") else
  let+ tx := prepare_tx rx_key_buffer cxl_ide_km_iv_rx in
  match tx with
  | inr error_info => fail error_info
  | inl (tx_key_buffer, cxl_ide_km_iv_tx) =>
      let+ status := key_prog_call session CXL_IDE_KM_KEY_DIRECTION_RX cxl_ide_km_iv_rx port_index rx_key_buffer in
      if LIBSPDM_STATUS_IS_ERROR status then fail (failed_with (bs "cxl_ide_km_key_prog RX") hex8 status) else
      k tx_key_buffer cxl_ide_km_iv_tx
  end.

Definition tx_from_get_key (session port_index : Z) : test (key_buffer * Z + bytes) :=
  let+ (result, kb, iv_kind) := machine (cxl_ide_prepare_keys_with_get_key session 0 port_index zero_key_buffer 0) in
  ret (if result : bool then inl (kb, iv_kind) else inr (bs "cxl_ide_prepare_keys_with_get_key for TX failed")).
Definition tx_from_host : test (key_buffer * Z + bytes) :=
  let+ (result, kb, iv_kind) := machine (cxl_ide_prepare_dynamic_keys zero_key_buffer) in
  ret (if result : bool then inl (kb, iv_kind) else inr (bs "cxl_ide_prepare_dynamic_keys for TX failed")).

Definition test_tx_key (session port_index iv_kind : Z) (kb : key_buffer) (cls id : Z) : test unit :=
  test_cxl_ide_key_prog_invalid_params session 0 (cxl_sub_stream CXL_IDE_KM_KEY_DIRECTION_TX iv_kind) port_index kb cls id.

(** [key[i] = ~key[i]] *)
Definition invert_key (kb : key_buffer) : key_buffer := {| kb_key := map (λ b, Z.lxor b 0xff) (kb_key kb); kb_iv := kb_iv kb |}.

(** A key that the device did not generate. *)
Definition test_cxl_ide_key_prog_7 (session port_index caps cls id : Z) : test unit :=
  cxl_tx_key_test session port_index cls id
    (λ rx iv_rx,
      let+ tx := tx_from_get_key session port_index in
      ret (match tx with
           | inl (kb, iv_tx) =>
               if iv_generation_capable caps =? 0 then inl ({| kb_key := kb_key kb; kb_iv := kb_iv rx |}, iv_rx) else inl (kb, iv_tx)
           | inr error_info => inr error_info
           end))
    (λ tx iv_tx,
      let+ _ := record_separator cls id (port_info port_index) in
      test_tx_key session port_index iv_tx (invert_key tx) cls id).

(** The three IVs that the device did not generate. *)
Definition test_ivs (iv : bytes) : res (list (bytes * bytes)) :=
  let* last := load_le iv 8 4 in
  let* less := store iv 8 (le_bytes 4 (u32 (last - 1))) in
  let* more := store iv 8 (le_bytes 4 (u32 (last + 1))) in
  Ok [(bs "IDE_IV = 0x1", le_bytes 4 0 ++ le_bytes 4 0 ++ le_bytes 4 1); (bs "GeneratedIV - 1", less); (bs "GeneratedIV + 1", more)].

Definition test_cxl_ide_key_prog_8 (session port_index caps cls id : Z) : test unit :=
  cxl_tx_key_test session port_index cls id
    (λ _ _,
      let+ tx := tx_from_get_key session port_index in
      match tx with
      | inl (kb, iv_tx) =>
          if ide_key_generation_capable caps =? 0 then
            let+ (_, temp, iv_tx) := machine (cxl_ide_prepare_dynamic_keys zero_key_buffer) in
            ret (inl ({| kb_key := kb_key temp; kb_iv := kb_iv kb |}, iv_tx))
          else ret (inl (kb, iv_tx))
      | inr error_info => ret (inr error_info)
      end)
    (λ tx iv_tx,
      let+ ivs := lift (test_ivs (kb_iv tx)) in
      let+ _ := machine dump_key_iv_in_key_prog in
      io_fold (λ '(name, iv) _,
        let+ _ := machine dump_key_iv_in_key_prog in
        let+ _ := record_separator cls id (port_info port_index ++ bs " " ++ name) in
        test_tx_key session port_index iv_tx {| kb_key := kb_key tx; kb_iv := iv |} cls id) ivs tt).

(** The initial IV with a device that cannot generate one. *)
Definition test_cxl_ide_key_prog_9 (session port_index caps cls id : Z) : test unit :=
  cxl_tx_key_test session port_index cls id
    (λ _ _, if ide_key_generation_capable caps =? 1 then tx_from_get_key session port_index else tx_from_host)
    (λ tx _,
      let+ _ := record_separator cls id (bs "  port_index= 0x" ++ hex2 port_index) in
      test_tx_key session port_index CXL_IDE_KM_KEY_IV_INITIAL tx cls id).

(** The array for the capabilities of all ports is allocated and filled;
    what [m_dev_caps] pointed to is lost.  Without memory the first store goes through NULL. *)
Definition load_dev_caps (n : Z) : test (option dev_caps_array) :=
  let+ g := get_group in
  let count := resp_max_port_index (group_query_resp g) + 1 in
  let+ addr := machine (malloc count) in
  if addr =? 0 then
    let+ _ := set_vars (λ v, with_key_prog_caps (delete n (key_prog_dev_caps v)) v) in
    let+ (ok, _) := machine (cxl_ide_get_dev_caps (cxl_session_id g) (count - 1) []) in
    if ok then lift (Stop Undefined) else ret None
  else
    let+ (ok, caps) := machine (cxl_ide_get_dev_caps (cxl_session_id g) (count - 1) (replicate (Z.to_nat count) None)) in
    let+ _ := set_vars (λ v, with_key_prog_caps (<[n := (addr, caps)]> (key_prog_dev_caps v)) v) in
    ret (if ok : bool then Some caps else None).

(** [skip] decides from the capabilities of the ports whether there is nothing to test. *)
Definition dev_caps_setup (caps : option dev_caps_array) (skip : dev_caps_array → Z → res bool) : test bool :=
  let+ g := get_group in
  match caps with
  | None => ret false
  | Some caps =>
      let+ s := lift (skip caps (resp_max_port_index (group_query_resp g))) in
      let+ _ := (if s : bool then modify with_skip else ret tt) in
      ret true
  end.

Definition no_port (capable : Z → bool) (caps : dev_caps_array) (max_port_index : Z) : res bool :=
  let* found := any_port capable caps max_port_index in Ok (negb found).

(** The ports whose capabilities are such are tested. *)
Definition for_capable_ports (g : cxl_ide_test_group_context_t) (caps : dev_caps_array) (capable : Z → bool) (f : Z → Z → test unit)
    : test unit :=
  for_ports g (λ i, let+ c := lift (caps_at caps i) in if capable c then f i c else ret tt).

(** [m_dev_caps] of KeyProg.[n] *)
Definition key_prog_caps (n : Z) : test dev_caps_array :=
  let+ v := get_vars in
  let+ (_, caps) := lift (deref (key_prog_dev_caps v !! n)) in
  ret caps.

Definition key_prog_run (n : Z) (capable : Z → bool) (f : Z → Z → Z → Z → Z → test unit) (cls id : Z) : test unit :=
  let+ g := get_group in
  let+ _ := cxl_configuration g in
  let+ caps := key_prog_caps n in
  for_capable_ports g caps capable (λ i c, f (cxl_session_id g) i c cls id).

Definition key_prog_teardown (n : Z) : test unit :=
  let+ v := get_vars in
  match key_prog_dev_caps v !! n with
  | Some (addr, _) =>
      let+ _ := machine (free addr) in
      set_vars (λ v, with_key_prog_caps (delete n (key_prog_dev_caps v)) v)
  | None => ret tt
  end.

Definition cxl_ide_test_key_prog_7_setup : test bool :=
  let+ caps := load_dev_caps 7 in dev_caps_setup caps (no_port (λ c, negb (ide_key_generation_capable c =? 0))).
Definition cxl_ide_test_key_prog_7_run : Z → Z → test unit :=
  key_prog_run 7 (λ c, ide_key_generation_capable c =? 1) test_cxl_ide_key_prog_7.
Definition cxl_ide_test_key_prog_7_teardown : test unit := key_prog_teardown 7.

Definition cxl_ide_test_key_prog_8_setup : test bool :=
  let+ caps := load_dev_caps 8 in dev_caps_setup caps (no_port (λ c, negb (iv_generation_capable c =? 0))).
Definition cxl_ide_test_key_prog_8_run : Z → Z → test unit :=
  key_prog_run 8 (λ c, iv_generation_capable c =? 1) test_cxl_ide_key_prog_8.
Definition cxl_ide_test_key_prog_8_teardown : test unit := key_prog_teardown 8.

(** Skipped if all ports can generate IVs. *)
Definition cxl_ide_test_key_prog_9_setup : test bool :=
  let+ caps := load_dev_caps 9 in dev_caps_setup caps (no_port (λ c, iv_generation_capable c =? 0)).
Definition cxl_ide_test_key_prog_9_run : Z → Z → test unit :=
  key_prog_run 9 (λ c, iv_generation_capable c =? 0) test_cxl_ide_key_prog_9.
Definition cxl_ide_test_key_prog_9_teardown : test unit := key_prog_teardown 9.

(** ** GetKey (test_case_get_key_1.c) *)

Definition test_cxl_ide_get_key (session port_index : Z) (case_info : bytes) (cls id : Z) : test unit :=
  let+ _ := record_separator cls id case_info in
  let request := cxl_request CXL_IDE_KM_OBJECT_ID_GET_KEY 0 CXL_IDE_KM_KEY_SUB_STREAM_CXL port_index in
  cxl_exchange session request sizeof_cxl_ide_km_get_key_t (λ size, size =? sizeof_cxl_ide_km_get_key_ack_teeio_t)
    CXL_IDE_KM_OBJECT_ID_GET_KEY_ACK cls id (λ response, cxl_check_echo cls id 3 request response).

(** The capabilities are stored in a static array. *)
Definition fill_dev_caps (get : cxl_vars → dev_caps_array) (put : dev_caps_array → cxl_vars → cxl_vars) : test (option dev_caps_array) :=
  let+ g := get_group in
  let+ v := get_vars in
  let+ (ok, caps) := machine (cxl_ide_get_dev_caps (cxl_session_id g) (resp_max_port_index (group_query_resp g)) (get v)) in
  let+ _ := set_vars (put caps) in
  ret (if ok : bool then Some caps else None).

Definition key_iv_capable (c : Z) : bool := negb (ide_key_generation_capable c =? 0) && negb (iv_generation_capable c =? 0).

Definition cxl_ide_test_get_key_1_setup : test bool :=
  let+ caps := fill_dev_caps get_key_dev_caps with_get_key_caps in dev_caps_setup caps (no_port key_iv_capable).
Definition cxl_ide_test_get_key_1_run (cls id : Z) : test unit :=
  let+ g := get_group in
  let+ _ := cxl_configuration g in
  let+ v := get_vars in
  for_capable_ports g (get_key_dev_caps v) (λ c, (ide_key_generation_capable c =? 1) && (iv_generation_capable c =? 1))
    (λ i _, test_cxl_ide_get_key (cxl_session_id g) i (port_info i) cls id).

(** ** KSetGo, KSetStop (test_case_kset_go_1.c, test_case_kset_stop_1.c) *)

(** Both ports have the mode. *)
Definition ide_mode_supported (ide_mode rp_ide_cap ep_ide_cap : Z) : bool :=
  let mask := if ide_mode =? CXL_IDE_MODE_SKID then CXL_IDE_MODE_SKID_MASK else CXL_IDE_MODE_CONTAINMENT_MASK in
  (cxl_ide_capable rp_ide_cap =? 1) && negb (Z.land rp_ide_cap mask =? 0) &&
  (cxl_ide_capable ep_ide_cap =? 1) && negb (Z.land ep_ide_cap mask =? 0).

(** The mode is set in the root port. *)
Definition enable_ide_mode (g : cxl_ide_test_group_context_t) (ide_mode : Z) : io State unit :=
  cxl_cfg_rp_mode (cxl_kcbar g)
    (if ide_mode =? CXL_IDE_MODE_CONTAINMENT then INTEL_CXL_IDE_MODE_CONTAINMENT else INTEL_CXL_IDE_MODE_SKID).

Definition rp_ide_cap (g : cxl_ide_test_group_context_t) : Z := memcache_ide_cap (memcache (cxl_data (cxl_upper_port g))).

Definition cxl_ide_check_and_enable_ide_mode (g : cxl_ide_test_group_context_t) (ide_mode port_index : Z) : io State bool :=
  let+ (status, answer) := cxl_ide_km_query (cxl_session_id g) port_index (no_answer 0) in
  if LIBSPDM_STATUS_IS_ERROR status then ret false else
  match cxl_ide_reg_block answer with
  | [] => ret false
  | ep_ide_cap :: _ =>
      if negb (ide_mode_supported ide_mode (rp_ide_cap g) ep_ide_cap) then ret false else
      let+ _ := enable_ide_mode g ide_mode in
      ret true
  end.

(** K_SET_GO and K_SET_STOP are checked alike. *)
Definition do_test_cxl_ide_kset (object_id request_size session port_index key_sub_stream cls id : Z) : test unit :=
  let request := cxl_request object_id 0 key_sub_stream port_index in
  cxl_exchange session request request_size (λ size, size =? sizeof_cxl_ide_km_k_gostop_ack_t)
    CXL_IDE_KM_OBJECT_ID_K_SET_GOSTOP_ACK cls id (λ response, cxl_check_echo cls id 3 request response).
Definition do_test_cxl_ide_kset_go := do_test_cxl_ide_kset CXL_IDE_KM_OBJECT_ID_K_SET_GO sizeof_cxl_ide_km_k_set_go_t.
Definition do_test_cxl_ide_kset_stop := do_test_cxl_ide_kset CXL_IDE_KM_OBJECT_ID_K_SET_STOP sizeof_cxl_ide_km_k_set_stop_t.

Definition mode_info (ide_mode port_index : Z) : res bytes :=
  let* name := array_get TestLib.m_cxl_ide_mode_names ide_mode in
  Ok (bs "  ide_mode = " ++ name ++ bs ", port_index = 0x" ++ hex2 port_index).

(** Fresh keys programmed in both directions; then [k]. *)
Definition with_cxl_keys (session port_index cls id : Z) (case_info : bytes) (k : test unit) : test unit :=
  let fail := cxl_prepare_failed cls id case_info in
  let+ (result, rx_key_buffer, cxl_ide_km_iv_rx) := machine (cxl_ide_prepare_dynamic_keys zero_key_buffer) in
  if negb result then fail (bs "cxl_ide_prepare_dynamic_keys for RX failed") else
  let+ (result, tx_key_buffer, cxl_ide_km_iv_tx) := machine (cxl_ide_prepare_dynamic_keys zero_key_buffer) in
  if negb result then fail (bs "cxl_ide_prepare_dynamic_keys for TX failed") else
  let+ status := key_prog_call session CXL_IDE_KM_KEY_DIRECTION_RX cxl_ide_km_iv_rx port_index rx_key_buffer in
  if LIBSPDM_STATUS_IS_ERROR status then fail (failed_with (bs "cxl_ide_km_key_prog RX") hex8 status) else
  let+ _ := machine dump_key_iv_in_key_prog in
  let+ status := key_prog_call session CXL_IDE_KM_KEY_DIRECTION_TX cxl_ide_km_iv_tx port_index tx_key_buffer in
  if LIBSPDM_STATUS_IS_ERROR status then fail (failed_with (bs "cxl_ide_km_key_prog TX") hex8 status) else
  let+ _ := machine dump_key_iv_in_key_prog in
  k.

Definition ide_km_mode (ide_mode : Z) : Z :=
  if ide_mode =? CXL_IDE_MODE_CONTAINMENT then CXL_IDE_KM_KEY_MODE_CONTAINMENT else CXL_IDE_KM_KEY_MODE_SKID.

Definition test_cxl_ide_kset_go (session port_index ide_mode cls id : Z) : test unit :=
  let+ case_info := lift (mode_info ide_mode port_index) in
  with_cxl_keys session port_index cls id case_info (
    let+ _ := record_separator cls id (case_info ++ bs " RX") in
    let+ _ := do_test_cxl_ide_kset_go session port_index (cxl_sub_stream CXL_IDE_KM_KEY_DIRECTION_RX (ide_km_mode ide_mode)) cls id in
    let+ _ := record_separator cls id (case_info ++ bs " TX") in
    do_test_cxl_ide_kset_go session port_index (cxl_sub_stream CXL_IDE_KM_KEY_DIRECTION_TX (ide_km_mode ide_mode)) cls id).

(** When a K_SET_GO fails the reported text is empty. *)
Definition test_cxl_ide_kset_stop (session port_index ide_mode cls id : Z) : test unit :=
  let+ case_info := lift (mode_info ide_mode port_index) in
  with_cxl_keys session port_index cls id case_info (
    let go direction := machine (cxl_ide_km_key_set_go session 0 (cxl_sub_stream direction (ide_km_mode ide_mode)) port_index) in
    let+ status := go CXL_IDE_KM_KEY_DIRECTION_RX in
    if LIBSPDM_STATUS_IS_ERROR status then cxl_prepare_failed cls id case_info [] else
    let+ status := go CXL_IDE_KM_KEY_DIRECTION_TX in
    if LIBSPDM_STATUS_IS_ERROR status then cxl_prepare_failed cls id case_info [] else
    let+ _ := record_separator cls id (case_info ++ bs " RX") in
    let+ _ := do_test_cxl_ide_kset_stop session port_index (cxl_sub_stream CXL_IDE_KM_KEY_DIRECTION_RX 0) cls id in
    let+ _ := record_separator cls id (case_info ++ bs " TX") in
    do_test_cxl_ide_kset_stop session port_index (cxl_sub_stream CXL_IDE_KM_KEY_DIRECTION_TX 0) cls id).

(** The modes that both ports have are tested one after the other. *)
Definition for_modes (g : cxl_ide_test_group_context_t) (port_index : Z) (f : Z → test unit) : test unit :=
  io_fold (λ ide_mode _,
    let+ enabled := machine (cxl_ide_check_and_enable_ide_mode g ide_mode port_index) in
    if negb enabled then ret tt else f ide_mode) (range CXL_IDE_MODE_CONTAINMENT CXL_IDE_MODE_MAX) tt.

Definition cxl_ide_test_kset_go_1_setup : test bool := ret true.
Definition cxl_ide_test_kset_go_1_run (cls id : Z) : test unit :=
  let+ g := get_group in
  let+ _ := cxl_configuration g in
  for_ports g (λ port_index,
    for_modes g port_index (λ ide_mode, test_cxl_ide_kset_go (cxl_session_id g) port_index ide_mode cls id)).

Definition cxl_ide_test_kset_stop_1_setup : test bool :=
  let+ caps := fill_dev_caps kset_stop_dev_caps with_kset_stop_caps in
  dev_caps_setup caps (no_port (λ c, negb (k_set_stop_capable c =? 0))).
Definition cxl_ide_test_kset_stop_1_run (cls id : Z) : test unit :=
  let+ g := get_group in
  let+ _ := cxl_configuration g in
  let+ v := get_vars in
  for_capable_ports g (kset_stop_dev_caps v) (λ c, negb (k_set_stop_capable c =? 0)) (λ port_index _,
    for_modes g port_index (λ ide_mode, test_cxl_ide_kset_stop (cxl_session_id g) port_index ide_mode cls id)).

(** ** A stream until a key is pressed, key refresh (test_case_full.c, test_case_keyrefresh.c) *)

(** [cxl_setup_ide_stream] with the fields of the group. *)
Definition setup_group_stream (configuration : IDE_TEST_CONFIGURATION) (key_refresh : bool) : test bool :=
  let+ g := get_group in
  machine (cxl_setup_ide_stream g_teeio_fixed_key (cxl_session_id g) (cxl_kcbar g) (cxl_stream_id g)
             (port_index (port (base (cxl_lower_port g)))) (cxl_lower_port g) (cfg_bit_map configuration)
             (cfg_ide_mode configuration) key_refresh).

(** The search for the port index, then the stream. *)
Definition cxl_stream_setup : test bool :=
  let+ g := get_group in
  let+ configuration := cxl_configuration g in
  let+ found := on_group cxl_ide_query_port_index in
  if negb found then ret false else setup_group_stream configuration false.

(** The registers of both ports are read for the log. *)
Definition dump_ports (g : cxl_ide_test_group_context_t) : io State unit :=
  let dump c := cxl_dump_ide_status (cap_headers (memcache (cxl_data c))) (mapped_memcache_reg_block (memcache (cxl_data c))) in
  let+ _ := cxl_dump_kcbar (cxl_kcbar g) in
  let+ _ := dump (cxl_upper_port g) in
  dump (cxl_lower_port g).

Definition cxl_stream_teardown : test unit :=
  let+ g := get_group in
  let+ _ := machine (cxl_teardown_ide_stream (cxl_session_id g) (cxl_kcbar g) (cxl_stream_id g)
                       (port_index (port (base (cxl_lower_port g)))) (cxl_lower_port g)) in
  ret tt.

Definition cxl_ide_test_full_ide_stream_setup : test bool := cxl_stream_setup.
Definition cxl_ide_test_full_ide_stream_run (cls id : Z) : test unit :=
  let+ g := get_group in
  let+ _ := machine (dump_ports g) in
  let+ _ := machine getchar in
  record_test cls id 1 true (bs "CXL-IDE Stream is setup.").
Definition cxl_ide_test_full_ide_stream_teardown : test unit := cxl_stream_teardown.

Definition cxl_ide_test_keyrefresh_setup : test bool := cxl_stream_setup.

(** [inr] is the value of [res] at the end; a failed search for the port index leaves it true. *)
Definition cxl_keyrefresh_round (configuration : IDE_TEST_CONFIGURATION) (_ : unit) : test (unit + bool) :=
  let+ g := get_group in
  let+ _ := machine (dump_ports g) in
  let+ cmd := machine getchar in
  if (cmd =? char "q") || (cmd =? char "Q") then ret (inr true) else
  let+ found := on_group cxl_ide_query_port_index in
  if negb found then ret (inr true) else
  let+ res := setup_group_stream configuration true in
  ret (if res : bool then inl tt else inr false).

(** [presses] bounds the rounds that a user asks for. *)
Definition cxl_ide_test_keyrefresh_run (presses : positive) (cls id : Z) : test unit :=
  let+ g := get_group in
  let+ configuration := cxl_configuration g in
  let+ res := io_while presses (cxl_keyrefresh_round configuration) tt in
  record_test cls id 1 res (if res then bs "CXL-IDE KeyRefresh succeeded." else bs "CXL-IDE KeyRefresh failed.").
Definition cxl_ide_test_keyrefresh_teardown : test unit := cxl_stream_teardown.

End cases.
End CxlTests.
