(* ===== verification/CxlGroup.v ===== *)
(** * The CXL IDE test group, its configurations, and the functions behind the pointers
    (library/cxl_ide_test_lib/test_group/, test_config/, cxl_ide_common.c) *)
From Stdlib Require Import ZArith Lia Ascii String.
From stdpp Require Import prelude gmap.
From S2P Require Import Prelude Utils Libspdm TestConfig Results Engine TestLib Hardware PcieIde Kcbar Doe IdeKm Ports Spdm Tests PcieGroup CxlIde CxlKm CxlTests.

Open Scope Z_scope.
Open Scope teeio_scope.

Module CxlGroup.
Import TestConfig Results Engine Hardware PcieIde Doe Ports Spdm Tests IdeKm CxlIde CxlKm CxlTests.

Definition CXL_MEM_IDE_TEST_CASE_QUERY : Z := 0.
Definition CXL_MEM_IDE_TEST_CASE_KSETGO : Z := 2.
Definition CXL_IDE_CONFIGURATION_TYPE_DEFAULT : Z := 0.
Definition CXL_IDE_CONFIGURATION_TYPE_PCRC_DISABLE : Z := 1.

(* CXL_IDE_CONTROL *)
Definition pcrc_disable (raw : Z) : Z := get_bits 0 1 raw.

Section cxl_group.
Context {D : Type} `{Bus D} `{Clock D} `{Os D} `{DevMem D} `{Alloc (D * process)} `{Libspdm} `{DoeDiscovery (D * process)}.
Context `{IdeKmRequester (D * process)} `{CxlIdeKmRequester (D * process)} `{CxlIdeKmTester (D * process)}.
Context `{SpdmRequester (D * process)}.
Context (g_teeio_fixed_key : bool) (presses : positive).

#[local] Abbreviation State := (D * process)%type.
#[local] Abbreviation test := (Tests.test D cxl_ide_test_group_context_t cxl_vars).

(** ** The query of the group's setup *)

(** The registers of the IDE capability in the answer: there are the first two, and IDE is there. *)
Definition cxl_check_device_ide_reg_block (ide_reg_block : list Z) : res bool :=
  let* _ := TEEIO_ASSERT (1 <? Z.of_nat (length ide_reg_block)) in
  let* ide_cap := array_get ide_reg_block 0 in
  Ok (negb (cxl_ide_capable ide_cap =? 0)).

(** What the answer leaves in the context of the lower port; the count of registers is checked only at the end. *)
Definition store_query_resp (a : cxl_query_answer) (ide_cap : Z) (c : cxl_port_context_t) : cxl_port_context_t :=
  let m := memcache (cxl_data c) in
  with_query_resp {| resp_max_port_index := cxl_max_port_index a; resp_dev_func_num := cxl_dev_func a; resp_bus_num := cxl_bus a;
                     resp_segment := cxl_segment a; resp_caps := cxl_caps a; resp_ide_reg_block := cxl_ide_reg_block a |}
    (with_memcache (with_ide_struct (cxl_ide_capability_struct_ptr m) ide_cap m) c).

Definition cxl_ide_query (g : cxl_ide_test_group_context_t) : io State (bool * cxl_ide_test_group_context_t) :=
  let+ (status, answer) := cxl_ide_km_query (cxl_session_id g) 0 (no_answer 0) in
  if LIBSPDM_STATUS_IS_ERROR status then ret (false, g) else
  let+ ok := lift (cxl_check_device_ide_reg_block (cxl_ide_reg_block answer)) in
  if negb ok then ret (false, g) else
  let+ ide_cap := lift (array_get (cxl_ide_reg_block answer) 0) in
  let+ _ := io_assert (Z.of_nat (length (cxl_ide_reg_block answer)) <=? CXL_IDE_REG_BLOCK_MAX_COUNT) in
  ret (true, with_cxl_lower (store_query_resp answer ide_cap (cxl_lower_port g)) g).

(** ** The group (test_group.c) *)

Definition check_and_enable_ide_mode (g : cxl_ide_test_group_context_t) : test bool :=
  let+ configuration := cxl_configuration g in
  let ide_mode := cfg_ide_mode configuration in
  let+ _ := io_assert ((ide_mode =? CXL_IDE_MODE_CONTAINMENT) || (ide_mode =? CXL_IDE_MODE_SKID)) in
  let ep_ide_cap := memcache_ide_cap (memcache (cxl_data (cxl_lower_port g))) in
  if negb (ide_mode_supported ide_mode (rp_ide_cap g) ep_ide_cap) then ret false else
  let+ _ := machine (enable_ide_mode g ide_mode) in
  ret true.

Definition cxl_direct_or_switch (g : cxl_ide_test_group_context_t) : bool :=
  (top_connection (cxl_top g) =? IDE_TEST_CONNECT_DIRECT) || (top_connection (cxl_top g) =? IDE_TEST_CONNECT_SWITCH).

(** A step on both ports that does not change their contexts. *)
Definition on_cxl_ports (f : cxl_port_context_t → cxl_port_context_t → io State bool) : test bool :=
  let+ g := get_group in machine (f (cxl_upper_port g) (cxl_lower_port g)).

(** What the class of the group's cases asks for once the session is there. *)
Definition query_and_mode : test bool :=
  let+ g := get_group in
  if cxl_case_class g =? CXL_MEM_IDE_TEST_CASE_QUERY then ret true else
  let+ ok := on_group cxl_ide_query in
  if negb ok then setup_failed (bs "CXL Query failed.") else
  if cxl_case_class g =? CXL_MEM_IDE_TEST_CASE_KSETGO then ret true else
  let+ g := get_group in
  let+ ok := check_and_enable_ide_mode g in
  if negb ok then setup_failed (bs "Check and enable IDE mode failed.") else ret true.

(** The check for a missing SPDM context compares the function [spdm_connect] with NULL,
    so a context of 0 is passed on. *)
Definition cxl_test_group_setup_common : test bool :=
  let+ ok := on_group cxl_scan_devices in
  if negb ok then setup_failed (bs "Scan device failed.") else
  let+ ok := on_group cxl_init_dev_port in
  if negb ok then setup_failed (bs "Initialize device port failed.") else
  let+ g := get_group in
  let+ _ := io_assert (cxl_direct_or_switch g) in
  let+ ok := on_group cxl_init_root_port in
  if negb ok then setup_failed (bs "Initialize root port failed.") else
  let+ ok := on_cxl_ports cxl_ide_set_key_refresh_control_reg in
  if negb ok then setup_failed (bs "Set Key Refresh Control registers failed.") else
  let+ ok := on_cxl_ports cxl_ide_set_truncation_transmit_control_reg in
  if negb ok then setup_failed (bs "Set Truncation transmit registers failed.") else
  let+ ctx := machine spdm_client_init in
  let+ (ok, session) := machine (spdm_connect ctx 0) in
  if negb ok then setup_failed (bs "Spdm connect failed.") else
  let+ g := get_group in
  let+ _ := put_group (with_cxl_session ctx session g) in
  let+ ok := query_and_mode in
  if negb ok then ret false else
  let+ g := get_group in
  let+ _ := put_group (with_cxl_stream 0 g) in
  let+ _ := record_group TEEIO_TEST_GROUP_FUNC_SETUP TEEIO_TEST_RESULT_PASS [] in
  ret true.

Definition cxl_close_session (g : cxl_ide_test_group_context_t) : io State (bool * cxl_ide_test_group_context_t) :=
  if cxl_spdm_context g =? 0 then ret (true, g) else
  let+ _ := spdm_stop (cxl_spdm_context g) (cxl_session_id g) in
  let+ _ := free (cxl_spdm_context g) in
  ret (true, with_cxl_session 0 0 g).

Definition cxl_close_device (g : cxl_ide_test_group_context_t) : io State (bool * cxl_ide_test_group_context_t) :=
  let+ (ok, c) := cxl_close_dev_port (cxl_lower_port g) in ret (ok, with_cxl_lower c g).

Definition cxl_test_group_teardown_common : test bool :=
  let+ _ := on_group cxl_close_session in
  let+ g := get_group in
  let+ _ := io_assert (cxl_direct_or_switch g) in
  let+ _ := on_group cxl_close_device in
  let+ _ := on_group cxl_close_root_port in
  let+ _ := record_group TEEIO_TEST_GROUP_FUNC_TEARDOWN TEEIO_TEST_RESULT_PASS [] in
  ret true.

Definition cxl_ide_test_group_setup : test bool := cxl_test_group_setup_common.
Definition cxl_ide_test_group_teardown : test bool := cxl_test_group_teardown_common.

(** ** Configurations (test_config_default.c, test_config_pcrc.c, test_config_get_key.c, test_config_ide_stop.c) *)

Definition cxl_ide_test_config_default_enable : test bool := ret true.
Definition cxl_ide_test_config_default_disable : test bool := ret true.
Definition cxl_ide_test_config_default_support : test bool :=
  let+ g := get_group in
  let ep_cxl_data := cxl_data (cxl_lower_port g) in
  let supported := (cxl_ide_capable (rp_ide_cap g) =? 1) && (cxl_ide_capable (memcache_ide_cap (memcache ep_cxl_data)) =? 1) &&
                   (mem_capable (ecap_cap (ecap ep_cxl_data)) =? 1) in
  let+ _ := record_config CXL_IDE_CONFIGURATION_TYPE_DEFAULT TEEIO_TEST_CONFIG_FUNC_SUPPORT supported in
  ret supported.
Definition cxl_ide_test_config_default_check : test bool := ret true.

(** The bit "PCRC Disable" of one port; written only when it changes. *)
Definition set_cxl_ide_pcrc_disable (c : cxl_port_context_t) (set : bool) : io State bool :=
  let m := memcache (cxl_data c) in
  match find_ide_cap (cap_headers m) with
  | None => ret false
  | Some h =>
      let ptr := mapped_memcache_reg_block m + cap_pointer h + ide_cap_control in
      let+ ide_control := mmio_read_reg32 ptr in
      let+ _ := (if set && (pcrc_disable ide_control =? 0) then mmio_write_reg32 ptr (set_bits 0 1 1 ide_control)
                 else if negb set && (pcrc_disable ide_control =? 1) then mmio_write_reg32 ptr (set_bits 0 1 0 ide_control)
                 else ret tt) in
      ret true
  end.

(** The root port, then the device. *)
Definition set_pcrc_disable_in_ports (set : bool) : test bool :=
  let f := if set then TEEIO_TEST_CONFIG_FUNC_ENABLE else TEEIO_TEST_CONFIG_FUNC_DISABLE in
  let failed := let+ _ := record_config CXL_IDE_CONFIGURATION_TYPE_PCRC_DISABLE f false in ret false in
  let+ g := get_group in
  let+ ok := machine (set_cxl_ide_pcrc_disable (cxl_upper_port g) set) in
  if negb ok then failed else
  let+ ok := machine (set_cxl_ide_pcrc_disable (cxl_lower_port g) set) in
  if negb ok then failed else
  let+ _ := record_config CXL_IDE_CONFIGURATION_TYPE_PCRC_DISABLE f true in
  ret true.

Definition cxl_ide_test_config_set_pcrc_disable : test bool := set_pcrc_disable_in_ports true.
Definition cxl_ide_test_config_unset_pcrc_disable : test bool := set_pcrc_disable_in_ports false.
Definition cxl_ide_test_config_pcrc_disable_support : test bool := ret true.
Definition cxl_ide_test_config_pcrc_disable_check : test bool := ret true.

Definition cxl_ide_test_config_get_key_enable : test bool := ret true.
Definition cxl_ide_test_config_get_key_disable : test bool := ret true.
Definition cxl_ide_test_config_get_key_support : test bool :=
  let+ g := get_group in
  if cxl_case_class g =? CXL_MEM_IDE_TEST_CASE_QUERY then ret true else
  let dev_caps := resp_caps (group_query_resp g) in
  let supported := g_teeio_fixed_key || key_iv_capable dev_caps in
  let+ _ := record_config CXL_IDE_CONFIGURATION_TYPE_GET_KEY TEEIO_TEST_CONFIG_FUNC_SUPPORT supported in
  ret supported.
Definition cxl_ide_test_config_get_key_check : test bool := ret true.

(** No function of the IDE stop configuration is implemented. *)
Definition cxl_ide_test_config_ide_stop : test bool := not_implemented false.

(** ** The functions behind the pointers *)

Open Scope string_scope.

#[local] Abbreviation code := (Tests.code D cxl_ide_test_group_context_t cxl_vars).

Definition cxl_config_code : list (string * code) :=
  [("cxl_ide_test_config_default_enable", Config cxl_ide_test_config_default_enable);
   ("cxl_ide_test_config_default_disable", Config cxl_ide_test_config_default_disable);
   ("cxl_ide_test_config_default_support", Config cxl_ide_test_config_default_support);
   ("cxl_ide_test_config_default_check", Config cxl_ide_test_config_default_check);
   ("cxl_ide_test_config_set_pcrc_disable", Config cxl_ide_test_config_set_pcrc_disable);
   ("cxl_ide_test_config_unset_pcrc_disable", Config cxl_ide_test_config_unset_pcrc_disable);
   ("cxl_ide_test_config_pcrc_disable_support", Config cxl_ide_test_config_pcrc_disable_support);
   ("cxl_ide_test_config_pcrc_disable_check", Config cxl_ide_test_config_pcrc_disable_check);
   ("cxl_ide_test_config_ide_stop_enable", Config cxl_ide_test_config_ide_stop);
   ("cxl_ide_test_config_ide_stop_disable", Config cxl_ide_test_config_ide_stop);
   ("cxl_ide_test_config_ide_stop_support", Config cxl_ide_test_config_ide_stop);
   ("cxl_ide_test_config_ide_stop_check", Config cxl_ide_test_config_ide_stop);
   ("cxl_ide_test_config_get_key_enable", Config cxl_ide_test_config_get_key_enable);
   ("cxl_ide_test_config_get_key_disable", Config cxl_ide_test_config_get_key_disable);
   ("cxl_ide_test_config_get_key_support", Config cxl_ide_test_config_get_key_support);
   ("cxl_ide_test_config_get_key_check", Config cxl_ide_test_config_get_key_check)].

Definition cxl_group_code : list (string * code) :=
  [("cxl_ide_test_group_setup", Group cxl_ide_test_group_setup);
   ("cxl_ide_test_group_teardown", Group cxl_ide_test_group_teardown)].

Definition cxl_case_code : list (string * code) :=
  [("cxl_ide_test_query_1_setup", Setup cxl_ide_test_query_1_setup);
   ("cxl_ide_test_query_1_run", Run cxl_ide_test_query_1_run);
   ("cxl_ide_test_query_1_teardown", Teardown no_teardown);
   ("cxl_ide_test_query_2_setup", Setup cxl_ide_test_query_2_setup);
   ("cxl_ide_test_query_2_run", Run cxl_ide_test_query_2_run);
   ("cxl_ide_test_query_2_teardown", Teardown no_teardown);
   ("cxl_ide_test_key_prog_1_setup", Setup cxl_ide_test_key_prog_1_setup);
   ("cxl_ide_test_key_prog_1_run", Run cxl_ide_test_key_prog_1_run);
   ("cxl_ide_test_key_prog_1_teardown", Teardown no_teardown);
   ("cxl_ide_test_key_prog_2_setup", Setup cxl_ide_test_key_prog_2_setup);
   ("cxl_ide_test_key_prog_2_run", Run cxl_ide_test_key_prog_2_run);
   ("cxl_ide_test_key_prog_2_teardown", Teardown no_teardown);
   ("cxl_ide_test_key_prog_3_setup", Setup cxl_ide_test_key_prog_3_setup);
   ("cxl_ide_test_key_prog_3_run", Run cxl_ide_test_key_prog_3_run);
   ("cxl_ide_test_key_prog_3_teardown", Teardown no_teardown);
   ("cxl_ide_test_key_prog_4_setup", Setup cxl_ide_test_key_prog_4_setup);
   ("cxl_ide_test_key_prog_4_run", Run cxl_ide_test_key_prog_4_run);
   ("cxl_ide_test_key_prog_4_teardown", Teardown no_teardown);
   ("cxl_ide_test_key_prog_5_setup", Setup cxl_ide_test_key_prog_5_setup);
   ("cxl_ide_test_key_prog_5_run", Run cxl_ide_test_key_prog_5_run);
   ("cxl_ide_test_key_prog_5_teardown", Teardown no_teardown);
   ("cxl_ide_test_key_prog_6_setup", Setup cxl_ide_test_key_prog_6_setup);
   ("cxl_ide_test_key_prog_6_run", Run cxl_ide_test_key_prog_6_run);
   ("cxl_ide_test_key_prog_6_teardown", Teardown no_teardown);
   ("cxl_ide_test_key_prog_7_setup", Setup cxl_ide_test_key_prog_7_setup);
   ("cxl_ide_test_key_prog_7_run", Run cxl_ide_test_key_prog_7_run);
   ("cxl_ide_test_key_prog_7_teardown", Teardown cxl_ide_test_key_prog_7_teardown);
   ("cxl_ide_test_key_prog_8_setup", Setup cxl_ide_test_key_prog_8_setup);
   ("cxl_ide_test_key_prog_8_run", Run cxl_ide_test_key_prog_8_run);
   ("cxl_ide_test_key_prog_8_teardown", Teardown cxl_ide_test_key_prog_8_teardown);
   ("cxl_ide_test_key_prog_9_setup", Setup cxl_ide_test_key_prog_9_setup);
   ("cxl_ide_test_key_prog_9_run", Run cxl_ide_test_key_prog_9_run);
   ("cxl_ide_test_key_prog_9_teardown", Teardown cxl_ide_test_key_prog_9_teardown);
   ("cxl_ide_test_kset_go_1_setup", Setup cxl_ide_test_kset_go_1_setup);
   ("cxl_ide_test_kset_go_1_run", Run cxl_ide_test_kset_go_1_run);
   ("cxl_ide_test_kset_go_1_teardown", Teardown no_teardown);
   ("cxl_ide_test_kset_stop_1_setup", Setup cxl_ide_test_kset_stop_1_setup);
   ("cxl_ide_test_kset_stop_1_run", Run cxl_ide_test_kset_stop_1_run);
   ("cxl_ide_test_kset_stop_1_teardown", Teardown no_teardown);
   ("cxl_ide_test_get_key_1_setup", Setup cxl_ide_test_get_key_1_setup);
   ("cxl_ide_test_get_key_1_run", Run cxl_ide_test_get_key_1_run);
   ("cxl_ide_test_get_key_1_teardown", Teardown no_teardown);
   ("cxl_ide_test_full_ide_stream_setup", Setup (cxl_ide_test_full_ide_stream_setup g_teeio_fixed_key));
   ("cxl_ide_test_full_ide_stream_run", Run cxl_ide_test_full_ide_stream_run);
   ("cxl_ide_test_full_ide_stream_teardown", Teardown cxl_ide_test_full_ide_stream_teardown);
   ("cxl_ide_test_keyrefresh_setup", Setup (cxl_ide_test_keyrefresh_setup g_teeio_fixed_key));
   ("cxl_ide_test_keyrefresh_run", Run (cxl_ide_test_keyrefresh_run g_teeio_fixed_key presses));
   ("cxl_ide_test_keyrefresh_teardown", Teardown cxl_ide_test_keyrefresh_teardown)].

Close Scope string_scope.

Definition cxl_ide_code : list (string * code) := cxl_config_code ++ cxl_group_code ++ cxl_case_code.

(** The ids that the engine puts into the context of the group before it calls. *)
Definition cxl_enter (ctx : context) (g : cxl_ide_test_group_context_t) : cxl_ide_test_group_context_t :=
  match ctx with
  | CtxGroup config_id case_class | CtxConfig config_id case_class => with_cxl_ids config_id case_class g
  | _ => g
  end.

Definition cxl_code : TestCode (world D cxl_ide_test_group_context_t cxl_vars) := table_code cxl_ide_code cxl_enter.

End cxl_group.
End CxlGroup.
