(* ===== verification/CxlCodeSpec.v ===== *)
(** * What the functions of the CXL IDE tests may report, and their runs *)

From Stdlib Require Import ZArith Lia Ascii String.
From stdpp Require Import prelude gmap.
From S2P Require Import Prelude Utils Libspdm TestConfig Results Engine TestLib Hardware PcieIde Kcbar Doe IdeKm Ports Spdm Tests TestsSpec PcieGroup CxlIde CxlKm CxlTests CxlGroup.

Open Scope Z_scope.
Open Scope teeio_scope.

Module CxlCodeSpec.
Import TestConfig Results Engine Hardware PcieIde Doe IdeKm Ports Spdm Tests TestsSpec CxlIde CxlKm CxlTests CxlGroup.

Section code.
Context {D : Type} `{Bus D} `{Clock D} `{Os D} `{DevMem D} `{Alloc (D * process)} `{Libspdm} `{DoeDiscovery (D * process)}.
Context `{IdeKmRequester (D * process)} `{CxlIdeKmRequester (D * process)} `{CxlIdeKmTester (D * process)}.
Context `{SpdmRequester (D * process)}.
Context (g_teeio_fixed_key : bool) (presses : positive).

#[local] Abbreviation table := (cxl_ide_code g_teeio_fixed_key presses).
#[local] Abbreviation the_code := (cxl_code g_teeio_fixed_key presses).
#[local] Abbreviation entry_ok :=
  (λ e : string * Tests.code D cxl_ide_test_group_context_t cxl_vars, code_ok (snd e)).

Ltac all_ok := repeat (apply Forall_cons; split; [cbn [code_ok snd]; reports|]); by apply Forall_nil.

Lemma cxl_config_code_ok : Forall entry_ok (cxl_config_code g_teeio_fixed_key).
Proof. unfold cxl_config_code. all_ok. Qed.

Lemma cxl_group_code_ok : Forall entry_ok cxl_group_code.
Proof. unfold cxl_group_code. all_ok. Qed.

Lemma cxl_case_code_ok : Forall entry_ok (cxl_case_code g_teeio_fixed_key presses).
Proof. unfold cxl_case_code. all_ok. Qed.

Lemma cxl_ide_code_ok : Forall entry_ok table.
Proof.
  unfold cxl_ide_code. rewrite !Forall_app.
  split; [apply cxl_config_code_ok|]. split; [apply cxl_group_code_ok|apply cxl_case_code_ok].
Qed.

End code.

End CxlCodeSpec.
