(* ===== verification/Typed.v ===== *)
(** * Calls through the function pointers are well typed
    The engine calls what the tables of a library hold without a check: a
    pointer that names nothing, or a function of another pointer type, is
    undefined behaviour.  Suites whose pointers are registered with their type never
    come to such a call, and the preparation makes such suites from the
    tables of a library. *)

From Stdlib Require Import ZArith Lia Ascii String.
From stdpp Require Import prelude.
From S2P Require Import Prelude TestConfig Results Engine TestLib Prepare Hardware Ports Tests TestsSpec.

Open Scope Z_scope.
Open Scope teeio_scope.

Module Typed.
Import TestConfig Results Engine Ports Tests TestsSpec.

(** ** Typed suites *)

Section types.
Context (reg : list (string * pointer_type)).

(** A pointer is null or registered with the type. *)
Definition typed_fptr (k : pointer_type) (f : fptr) : Prop := ∀ name, f = Some name → (name, k) ∈ reg.

Definition typed_item (it : ide_run_test_config_item_t) : Prop :=
  typed_fptr ConfigFunc (enable_func it) ∧ typed_fptr ConfigFunc (disable_func it) ∧
  typed_fptr ConfigFunc (support_func it) ∧ typed_fptr ConfigFunc (check_func it).
Definition typed_config (rtc : ide_run_test_config_t) : Prop := Forall typed_item (config_item rtc).
Definition typed_case (tc : ide_run_test_case_t) : Prop :=
  typed_fptr SetupFunc (setup_func tc) ∧ typed_fptr RunFunc (run_func tc) ∧ typed_fptr TeardownFunc (teardown_func tc).
Definition typed_group (tg : ide_run_test_group_t) : Prop :=
  typed_fptr GroupFunc (group_setup_func tg) ∧ typed_fptr GroupFunc (group_teardown_func tg) ∧
  Forall typed_case (test_case tg).
(** The cases of the SPDM category are called with a context of their own. *)
Definition typed_suite (ts : ide_run_test_suite_t) : Prop :=
  ts_category ts ≠ TEEIO_TEST_CATEGORY_SPDM ∧ Forall typed_group (test_group ts) ∧ Forall typed_config (test_config ts).

End types.

(** ** A run depends on registered calls only *)

(** Two computations of the engine do the same. *)
Definition same {W A} (m m' : M (W := W) A) : Prop := ∀ e, m e = m' e.

Lemma same_refl {W A} (m : M (W := W) A) : same m m.
Proof. done. Qed.
Lemma same_bind {W A B} (m m' : M (W := W) A) (k k' : A → M B) :
  same m m' → (∀ a, same (k a) (k' a)) → same (Engine.bind m k) (Engine.bind m' k').
Proof. intros Hm Hk e. unfold Engine.bind. rewrite Hm. destruct (m' e) as [r|]; [apply Hk|done]. Qed.

(** What is known of a value that was checked before. *)
Lemma same_lift {W A B} (r : res A) (k k' : A → M (W := W) B) :
  (∀ a, r = Ok a → same (k a) (k' a)) → same (Engine.bind (Engine.lift r) k) (Engine.bind (Engine.lift r) k').
Proof. intros Hk e. unfold Engine.bind, Engine.lift. destruct r as [a|]; [by apply Hk|done]. Qed.

Create HintDb same.
#[export] Hint Resolve same_refl : same.

Ltac same_step :=
  lazymatch goal with
  | |- same (Engine.bind (Engine.lift _) _) _ => apply same_lift; let E := fresh "E" in intros ? E; cbn [deref] in E; simplify_eq
  | |- same (Engine.bind _ _) (Engine.bind _ _) => apply same_bind; [|intros ?]
  | |- same (match ?x with _ => _ end) _ => destruct x eqn:?
  | |- _ => solve [eauto with same]
  end.
Ltac same := intros; repeat same_step.

Section run.
Context {W : Type} (c c' : TestCode W) (reg : list (string * pointer_type)).
(** The codes agree on the calls that respect the types. *)
Context (agree : ∀ f k ctx st w, (f, k) ∈ reg → passed_to k ctx = true → c f ctx st w = c' f ctx st w).

Lemma call_same k f ctx ev :
  typed_fptr reg k (Some f) → passed_to k ctx = true → same (call (H := c) f ctx ev) (call (H := c') f ctx ev).
Proof.
  intros Hf Hc. apply same_bind; [|intros r; apply same_refl].
  intros e. unfold invoke, call_func. by rewrite (agree f k) by auto.
Qed.
#[local] Hint Resolve call_same : same.
#[local] Hint Extern 1 (passed_to _ _ = true) => reflexivity : same.

Lemma items_same kind func cid cls items :
  Forall (λ it, typed_fptr reg ConfigFunc (func it)) items →
  same (run_config_items (H := c) kind func (CtxConfig cid cls) items) (run_config_items (H := c') kind func (CtxConfig cid cls) items).
Proof.
  induction items as [|it items IH]; intros Hf; cbn [run_config_items]; [same|].
  apply Forall_cons in Hf as [Hit Hf]. destruct (func it) as [f|] eqn:E; [|same].
  apply same_bind; [by eapply call_same|intros a].
  destruct items; [same|]. destruct (fst a); [by apply IH|same].
Qed.

Lemma typed_items_same kind func rtc cid cls :
  typed_config reg rtc → (∀ it, typed_item reg it → typed_fptr reg ConfigFunc (func it)) →
  same (run_config_items (H := c) kind func (CtxConfig cid cls) (config_item rtc))
    (run_config_items (H := c') kind func (CtxConfig cid cls) (config_item rtc)).
Proof. intros Ht Hf. apply items_same. eapply Forall_impl; [exact Ht|exact Hf]. Qed.

Section config.
Context (rtc : ide_run_test_config_t) (Hrtc : typed_config reg rtc) (cid cls : Z).
#[local] Abbreviation cctx := (CtxConfig cid cls).

Lemma support_same : same (do_run_test_config_support (H := c) rtc cctx) (do_run_test_config_support (H := c') rtc cctx).
Proof. apply typed_items_same; [done|]. by intros it (_ & _ & ? & _). Qed.
Lemma enable_same : same (do_run_test_config_enable (H := c) rtc cctx) (do_run_test_config_enable (H := c') rtc cctx).
Proof. apply typed_items_same; [done|]. by intros it (? & _). Qed.
Lemma disable_same : same (do_run_test_config_disable (H := c) rtc cctx) (do_run_test_config_disable (H := c') rtc cctx).
Proof. apply typed_items_same; [done|]. by intros it (_ & ? & _). Qed.
Lemma check_same : same (do_run_test_config_check (H := c) rtc cctx) (do_run_test_config_check (H := c') rtc cctx).
Proof. apply typed_items_same; [done|]. by intros it (_ & _ & _ & ?). Qed.
#[local] Hint Resolve support_same enable_same disable_same check_same : same.

Lemma test_case_done_same tc cls' id :
  typed_case reg tc → same (test_case_done (H := c) tc rtc (CtxCase cls' id) cctx) (test_case_done (H := c') tc rtc (CtxCase cls' id) cctx).
Proof. intros (_ & _ & Ht). unfold test_case_done. same. Qed.
#[local] Hint Resolve test_case_done_same : same.

Lemma case_same tc cat :
  typed_case reg tc → cat ≠ TEEIO_TEST_CATEGORY_SPDM →
  same (do_run_test_case (H := c) tc rtc cat cctx) (do_run_test_case (H := c') tc rtc cat cctx).
Proof.
  intros Ht Hcat. pose proof Ht as (Hs & Hr & _). unfold do_run_test_case, case_body.
  rewrite (proj2 (Z.eqb_neq _ _) Hcat). cbv zeta. same.
Qed.
#[local] Hint Resolve case_same : same.

Lemma cases_same tcs b pg cat :
  Forall (typed_case reg) tcs → cat ≠ TEEIO_TEST_CATEGORY_SPDM →
  same (run_cases (H := c) tcs b rtc pg cat cctx) (run_cases (H := c') tcs b rtc pg cat cctx).
Proof.
  intros Ht Hcat. induction Ht as [|tc tcs Ht Hts IH]; cbn [run_cases]; [same|]. unfold run_one_case. same.
Qed.

End config.

#[local] Hint Resolve cases_same : same.

Lemma group_same tg rtc pg cat :
  typed_group reg tg → typed_config reg rtc → cat ≠ TEEIO_TEST_CATEGORY_SPDM →
  same (do_run_test_group (H := c) tg rtc pg cat) (do_run_test_group (H := c') tg rtc pg cat).
Proof.
  intros (Hs & Hd & Hcs) Hr Hcat. unfold do_run_test_group. same_step. same_step. cbv zeta.
  destruct (test_case tg) as [|tc tcs]; [same|].
  destruct (group_setup_func tg) as [f|], (group_teardown_func tg) as [f'|]; same.
Qed.
#[local] Hint Resolve group_same : same.

Lemma groups_same tgs rtc pc cat :
  Forall (typed_group reg) tgs → typed_config reg rtc → cat ≠ TEEIO_TEST_CATEGORY_SPDM →
  same (run_groups (H := c) tgs rtc pc cat) (run_groups (H := c') tgs rtc pc cat).
Proof. intros Ht Hr Hcat. induction Ht as [|tg tgs Ht Hts IH]; cbn [run_groups]; unfold run_one_group; same. Qed.
#[local] Hint Resolve groups_same : same.

Lemma configs_same rtcs tgs s cat :
  Forall (typed_group reg) tgs → Forall (typed_config reg) rtcs → cat ≠ TEEIO_TEST_CATEGORY_SPDM →
  same (run_configs (H := c) rtcs tgs s cat) (run_configs (H := c') rtcs tgs s cat).
Proof.
  intros Ht Hr Hcat. revert tgs Ht.
  induction Hr as [|rtc rtcs Hr Hrs IH]; intros tgs Ht; cbn [run_configs]; unfold run_one_config; same.
Qed.
#[local] Hint Resolve configs_same : same.

Lemma suites_same s tss :
  Forall (typed_suite reg) tss → same (run_suites (H := c) s tss) (run_suites (H := c') s tss).
Proof.
  intros Ht. revert s. induction Ht as [|ts tss (Hcat & Hg & Hc) _ IH]; intros s; cbn [run_suites];
    unfold do_run_test_suite; same.
Qed.

End run.

(** ** Prepared suites are typed *)

Import TestLib Prepare.

Section prepared.
Context (reg : list (string * pointer_type)).

(** What a library hands out is registered. *)
Record typed_lib (lib : teeio_test_funcs_t) : Prop := {
  tl_config : ∀ get type i f, get_configuration_funcs_func lib = Some get → get type i = Ok f →
    typed_fptr reg ConfigFunc (cf_enable f) ∧ typed_fptr reg ConfigFunc (cf_disable f) ∧
    typed_fptr reg ConfigFunc (cf_support f) ∧ typed_fptr reg ConfigFunc (cf_check f);
  tl_group : ∀ get type f, get_group_funcs_func lib = Some get → get type = Ok f →
    typed_fptr reg GroupFunc (gf_setup f) ∧ typed_fptr reg GroupFunc (gf_teardown f);
  tl_case : ∀ get cls id f, get_case_funcs_func lib = Some get → get cls id = Ok f →
    typed_fptr reg SetupFunc (tf_setup f) ∧ typed_fptr reg RunFunc (tf_run f) ∧ typed_fptr reg TeardownFunc (tf_teardown f)
}.

Context (fs : list teeio_test_funcs_t) (lib : teeio_test_funcs_t) (category : Z).
Context (Hfs : array_get fs category = Ok lib) (Hlib : typed_lib lib).

Lemma config_item_typed items config_type type b items' :
  Forall (typed_item reg) items → alloc_run_test_config_item fs items config_type type category = Ok (b, items') →
  Forall (typed_item reg) items'.
Proof.
  intros Hi. unfold alloc_run_test_config_item. intros H. apply res_bind_Ok in H as (? & _ & H).
  apply res_bind_Ok in H as (? & _ & H). rewrite Hfs in H. cbn [res_bind] in H.
  destruct (get_configuration_funcs_func lib) as [get|] eqn:E; [|by injection H as <- <-].
  apply res_bind_Ok in H as (f & Hf & [= <- <-]). apply Forall_app_2; [done|]. constructor; [|done].
  by apply (tl_config _ Hlib get type config_type).
Qed.

Lemma config_bit_typed get_name bits type i st st' :
  Forall (typed_item reg) (fst st) → config_bit_step fs get_name bits type category i st = Ok st' →
  Forall (typed_item reg) (fst st').
Proof.
  destruct st as [items buf]. intros Hi. unfold config_bit_step. destruct (_ =? 0); [by intros [= <-]|]. intros H.
  apply res_bind_Ok in H as ([b items'] & Hc & H). apply res_bind_Ok in H as (? & _ & H).
  apply res_bind_Ok in H as (? & _ & H). apply res_bind_Ok in H as (? & _ & [= <-]). by eapply config_item_typed.
Qed.

Lemma suite_config_typed rts c topid config_id b rts' :
  ts_category rts = category → Forall (typed_config reg) (Engine.test_config rts) →
  alloc_run_test_config fs rts c topid config_id = Ok (b, rts') →
  test_group rts' = test_group rts ∧ Forall (typed_config reg) (Engine.test_config rts').
Proof.
  intros Hcat Hc. unfold alloc_run_test_config. intros H.
  apply res_bind_Ok in H as (? & _ & H). apply res_bind_Ok in H as (? & _ & H). apply res_bind_Ok in H as (? & _ & H).
  apply res_bind_Ok in H as (? & _ & H). apply res_bind_Ok in H as (? & _ & H). apply res_bind_Ok in H as (? & _ & H).
  apply res_bind_Ok in H as (? & _ & H). apply res_bind_Ok in H as (? & _ & H). apply res_bind_Ok in H as (? & _ & H).
  rewrite Hcat, Hfs in H. cbn [res_bind] in H.
  destruct (get_configuration_bitmask_func lib) as [gb|]; [|by injection H as <- <-].
  destruct (get_configuration_name_func lib) as [gn|]; [|by injection H as <- <-].
  apply res_bind_Ok in H as (mask & _ & H). apply res_bind_Ok in H as ([items buf] & Hi & H).
  apply res_bind_Ok in H as (? & _ & [= <- <-]). cbn. split; [done|].
  apply Forall_app_2; [done|]. constructor; [|done].
  refine (fold_res_inv (λ st, Forall (typed_item reg) (fst st)) _ _ ([], []) _ _ (Forall_nil_2 _) Hi).
  intros i st st' _. apply config_bit_typed.
Qed.

Lemma group_typed c topid cls tg :
  alloc_run_test_group fs category c topid cls = Ok (Some tg) → typed_group reg tg.
Proof.
  unfold alloc_run_test_group. intros H.
  do 10 (apply res_bind_Ok in H as (? & _ & H)). rewrite Hfs in H. cbn [res_bind] in H.
  destruct (get_group_funcs_func lib) as [get|] eqn:E; [|done].
  destruct (alloc_test_group_context_func lib); [|done].
  apply res_bind_Ok in H as (f & Hf & H). cbv zeta in H. do 2 (apply res_bind_Ok in H as (? & _ & H)).
  injection H as <-. destruct (tl_group _ Hlib get _ _ E Hf). by split_and!.
Qed.

Lemma case_typed tg cls id b tg' :
  typed_group reg tg → alloc_run_test_case fs category tg cls id = Ok (b, tg') → typed_group reg tg'.
Proof.
  intros Ht. unfold alloc_run_test_case. intros H. do 2 (apply res_bind_Ok in H as (? & _ & H)).
  rewrite Hfs in H. cbn [res_bind] in H.
  destruct (get_case_name_func lib) as [gn|]; [|by injection H as <- <-].
  destruct (get_case_funcs_func lib) as [get|] eqn:E; [|by injection H as <- <-].
  do 2 (apply res_bind_Ok in H as (? & _ & H)). apply res_bind_Ok in H as (f & Hf & [= <- <-]).
  destruct Ht as (Hs & Hd & Hc). split_and!; [done|done|]. apply Forall_app_2; [done|]. constructor; [|done].
  exact (tl_case _ Hlib get _ _ _ E Hf).
Qed.

Lemma class_typed c suite topid i rts rts' :
  suite_category suite = category → Forall (typed_group reg) (test_group rts) →
  alloc_class fs c suite topid i rts = Ok rts' →
  Forall (typed_group reg) (test_group rts') ∧ Engine.test_config rts' = Engine.test_config rts.
Proof.
  intros Hcat Hg. unfold alloc_class. rewrite Hcat. intros H. apply res_bind_Ok in H as (tc & _ & H).
  destruct (_ =? 0); [by injection H as <-|]. apply res_bind_Ok in H as (o & Ho & H).
  apply res_bind_Ok in H as (tg & Htg & H). destruct o as [tg0|]; [|done]. injection Htg as ->.
  apply res_bind_Ok in H as (tg' & Hf & [= <-]). cbn. split; [|done].
  apply Forall_app_2; [done|]. constructor; [|done].
  refine (fold_res_inv (typed_group reg) _ _ _ _ _ (group_typed _ _ _ _ Ho) Hf). intros j tg1 tg2 _ Ht Hs. apply res_bind_Ok in Hs as (id & _ & Hs).
  apply res_bind_Ok in Hs as ([b tg3] & Hr & [= <-]). by eapply case_typed.
Qed.

(** The category of a suite is that of its entry. *)
Lemma config_category rts c topid config_id b rts' :
  alloc_run_test_config fs rts c topid config_id = Ok (b, rts') → ts_category rts' = ts_category rts.
Proof.
  unfold alloc_run_test_config. intros H. do 9 (apply res_bind_Ok in H as (? & _ & H)).
  apply res_bind_Ok in H as (l & _ & H).
  destruct (get_configuration_bitmask_func l), (get_configuration_name_func l); try by injection H as <- <-.
  apply res_bind_Ok in H as (? & _ & H). apply res_bind_Ok in H as ([items buf] & _ & H).
  apply res_bind_Ok in H as (? & _ & H). by injection H as <- <-.
Qed.

Lemma class_category c suite topid i rts rts' :
  alloc_class fs c suite topid i rts = Ok rts' → ts_category rts' = ts_category rts.
Proof.
  unfold alloc_class. intros H. apply res_bind_Ok in H as (tc & _ & H). destruct (_ =? 0); [by injection H as <-|].
  do 3 (apply res_bind_Ok in H as (? & _ & H)). by injection H as <-.
Qed.

Lemma prepared_suites_typed c tss :
  category ≠ TEEIO_TEST_CATEGORY_SPDM → prepare_tests_data fs c = Ok tss →
  Forall (λ ts, ts_category ts = category → typed_suite reg ts) tss.
Proof.
  intros Hspdm. unfold prepare_tests_data. apply fold_res_inv; [|constructor].
  intros i chain chain' _ Hch. unfold prepare_suite. intros H. apply res_bind_Ok in H as (suite & _ & H).
  destruct (_ || _); [by injection H as <-|]. apply res_bind_Ok in H as (o & _ & H). destruct o as [top|]; [|by injection H as <-].
  cbv zeta in H. apply res_bind_Ok in H as ([b rts] & Hc & H). apply res_bind_Ok in H as (? & _ & H).
  apply res_bind_Ok in H as ([b' rts'] & Hcs & H). apply res_bind_Ok in H as (? & _ & [= <-]). cbn [snd] in *.
  apply Forall_app_2; [done|]. constructor; [|done]. pose proof (config_category _ _ _ _ _ _ Hc) as Hcat.
  unfold alloc_run_test_cases in Hcs. apply res_bind_Ok in Hcs as (rts1 & Hf & [= <- <-]).
  assert (ts_category rts1 = suite_category suite) as Hcat1.
  { refine (fold_res_inv (λ rts, ts_category rts = suite_category suite) _ _ _ _ _ Hcat Hf).
    intros j r1 r2 _ Hr Hs. by rewrite (class_category _ _ _ _ _ _ Hs). }
  intros Hsuite. rewrite Hsuite in Hcat1. symmetry in Hcat1.
  destruct (suite_config_typed (alloc_run_test_suite suite) _ _ _ _ _ Hcat1 (Forall_nil_2 _) Hc) as [Hg Ht]. split; [by rewrite Hsuite|].
  refine (fold_res_inv (λ rts, Forall (typed_group reg) (test_group rts) ∧ Forall (typed_config reg) (Engine.test_config rts)) _ _ _ _ _ _ Hf).
  - intros j r1 r2 _ [Hr1 Hr2] Hs. destruct (class_typed _ _ _ _ _ _ Hcat1 Hr1 Hs) as [Hr ->]. done.
  - rewrite Hg. split; [constructor|done].
Qed.

End prepared.

(** The tables of a library that looks its functions up in them. *)
Lemma in_pointers {A} (entry : A → list (string * pointer_type)) l f k name :
  f ∈ l → In (name, k) (entry f) → (name, k) ∈ flat_map entry l.
Proof. intros Hf Hn. apply list_elem_of_In, in_flat_map. exists f. split; [by apply list_elem_of_In|done]. Qed.

Ltac in_entry Hn := cbn [flat_map]; rewrite Hn; cbn [pointers]; rewrite !in_app_iff; cbn; tauto.

Lemma tables_typed configs groups cases lib :
  (∀ get type i f, get_configuration_funcs_func lib = Some get → get type i = Ok f → f ∈ configs) →
  (∀ get type f, get_group_funcs_func lib = Some get → get type = Ok f → f ∈ groups) →
  (∀ get cls id f, get_case_funcs_func lib = Some get → get cls id = Ok f → f ∈ flat_map tcs_funcs cases) →
  typed_lib (registered configs groups cases) lib.
Proof.
  intros Hc Hg Hk. unfold registered, typed_fptr. split.
  - intros get type i f Hget Hf. pose proof (Hc _ _ _ _ Hget Hf).
    split_and!; intros name Hn; apply elem_of_app; left; (eapply in_pointers; [eassumption|in_entry Hn]).
  - intros get type f Hget Hf. pose proof (Hg _ _ _ Hget Hf).
    split_and!; intros name Hn; apply elem_of_app; right; apply elem_of_app; left;
      (eapply in_pointers; [eassumption|in_entry Hn]).
  - intros get cls id f Hget Hf. pose proof (Hk _ _ _ _ Hget Hf).
    split_and!; intros name Hn; apply elem_of_app; right; apply elem_of_app; right;
      (eapply in_pointers; [eassumption|in_entry Hn]).
Qed.

(** ** The functions of a table and anything else *)

Section otherwise.
Context {D G V : Type} (table : list (string * code D G V)) (enter : context → G → G).

(** [other] is what happens at a call that respects no type. *)
Definition otherwise (other : TestCode (world D G V)) : TestCode (world D G V) := λ f ctx st w,
  match find_code f table with
  | Some c => match run_code c ctx with Some m => call_code m (begin_call enter ctx st) w | None => other f ctx st w end
  | None => other f ctx st w
  end.

Lemma otherwise_agrees reg other :
  well_typed reg table = true →
  ∀ f k ctx st w, (f, k) ∈ reg → passed_to k ctx = true → table_code table enter f ctx st w = otherwise other f ctx st w.
Proof.
  intros Ht f k ctx st w Hf Hc. destruct (well_typed_find _ _ _ _ Ht Hf) as (c & E & <-).
  destruct (run_code_typed c ctx Hc) as [m Em]. unfold table_code, otherwise. by rewrite E; cbn; rewrite Em.
Qed.

End otherwise.

End Typed.
