(* ===== verification/Tdisp.v ===== *)
(** * The TDISP tests (library/tdisp_test_lib/)
    The messages (tdisp_test_common.c), the test cases, the group and the
    configuration.  The cases follow one pattern: a setup brings the interface
    into a state and looks whether it is there, a run sends one message and checks
    the answer and the state after it, a teardown stops the interface.  Log output is left out. *)

From Stdlib Require Import ZArith Lia Ascii String.
From stdpp Require Import prelude gmap strings.
From S2P Require Import Prelude Utils Libspdm TestConfig Results Engine TestLib Hardware PcieIde Kcbar Doe IdeKm Ports Spdm Tests PcieTests PcieGroup.

Open Scope Z_scope.
Open Scope teeio_scope.

Module Tdisp.
Import TestConfig Results Engine Hardware PcieIde Kcbar Doe IdeKm Ports Spdm Tests PcieTests PcieGroup.

(** ** What libspdm adds for the tests *)

(** [pci_tdisp_responder_capabilities_t] *)
Record tdisp_caps := {
  dsm_caps : Z;
  req_msg_supported : bytes;
  lock_interface_flags_supported : Z;
  dev_addr_width : Z;
  num_req_this : Z;
  num_req_all : Z
}.

(** The fields of the requests; a request is filled with zeros before its
    fields are set. *)
Record tdisp_request := {
  rq_version : Z;
  rq_message_type : Z;
  rq_function_id : Z;
  rq_tsm_caps : Z;
  rq_flags : Z;
  rq_default_stream_id : Z;
  rq_mmio_reporting_offset : Z;
  rq_bind_p2p_address_mask : Z;
  rq_start_interface_nonce : bytes;
  rq_offset : Z;
  rq_length : Z
}.

(** The fields of the answers: what the buffer holds after the exchange. *)
Record tdisp_response := {
  rs_version : Z;
  rs_message_type : Z;
  rs_function_id : Z;
  rs_version_num_count : Z;
  rs_version_num_entry : Z;               (* the first *)
  rs_caps : tdisp_caps;
  rs_start_interface_nonce : bytes;
  rs_tdi_state : Z;
  rs_error_code : Z;
  rs_portion_length : Z;
  rs_remainder_length : Z;
  rs_report : bytes
}.

Class TdispRequester (D : Type) := {
  PCI_TDISP_MESSAGE_VERSION_10 : Z;
  PCI_TDISP_GET_VERSION : Z;
  PCI_TDISP_VERSION : Z;
  PCI_TDISP_GET_CAPABILITIES : Z;
  PCI_TDISP_CAPABILITIES : Z;
  PCI_TDISP_LOCK_INTERFACE_REQ : Z;
  PCI_TDISP_LOCK_INTERFACE_RSP : Z;
  PCI_TDISP_GET_DEVICE_INTERFACE_REPORT : Z;
  PCI_TDISP_DEVICE_INTERFACE_REPORT : Z;
  PCI_TDISP_GET_DEVICE_INTERFACE_STATE : Z;
  PCI_TDISP_DEVICE_INTERFACE_STATE : Z;
  PCI_TDISP_START_INTERFACE_REQ : Z;
  PCI_TDISP_START_INTERFACE_RSP : Z;
  PCI_TDISP_STOP_INTERFACE_REQ : Z;
  PCI_TDISP_STOP_INTERFACE_RSP : Z;
  PCI_TDISP_ERROR : Z;
  PCI_TDISP_ERROR_CODE_INVALID_REQUEST : Z;
  PCI_TDISP_ERROR_CODE_INVALID_INTERFACE_STATE : Z;
  PCI_TDISP_ERROR_CODE_INVALID_NONCE : Z;
  PCI_TDISP_INTERFACE_STATE_CONFIG_UNLOCKED : Z;
  PCI_TDISP_INTERFACE_STATE_CONFIG_LOCKED : Z;
  PCI_TDISP_INTERFACE_STATE_RUN : Z;
  PCI_TDISP_START_INTERFACE_NONCE_SIZE : nat;
  LIBTDISP_INTERFACE_REPORT_PORTION_LEN : Z;
  LIBTDISP_INTERFACE_REPORT_MAX_SIZE : nat;
  sizeof_pci_tdisp_header_t : Z;
  sizeof_pci_tdisp_version_number_t : Z;
  sizeof_pci_tdisp_get_version_request_t : Z;
  sizeof_pci_tdisp_get_capabilities_request_t : Z;
  sizeof_pci_tdisp_get_device_interface_state_request_t : Z;
  sizeof_pci_tdisp_lock_interface_request_t : Z;
  sizeof_pci_tdisp_start_interface_request_t : Z;
  sizeof_pci_tdisp_stop_interface_request_t : Z;
  sizeof_pci_tdisp_get_device_interface_report_request_t : Z;
  sizeof_pci_tdisp_capabilities_response_t : Z;
  sizeof_pci_tdisp_device_interface_state_response_t : Z;
  sizeof_pci_tdisp_lock_interface_response_t : Z;
  sizeof_pci_tdisp_start_interface_response_t : Z;
  sizeof_pci_tdisp_stop_interface_response_t : Z;
  sizeof_pci_tdisp_device_interface_report_response_t : Z;
  sizeof_pci_tdisp_error_response_t : Z;
  (** session, request, its size, size of the response buffer; status, size of the response, response *)
  pci_tdisp_send_receive_data : Z → tdisp_request → Z → Z → io D (Z * Z * tdisp_response)
}.

Definition TDISP_MMIO_REPORTING_OFFSET : Z := 0xD0000000.
Definition TDISP_REQUEST_SUPPORT_MSG_OFFSET : Z := 80.
(** TDISP_REQUEST_GET_VERSION to TDISP_REQUEST_STOP_INTERFACE *)
Definition tdisp_supported_messages : list Z := [81; 82; 83; 84; 85; 86; 87].

(** ** The static variables of the test files, by the name of the case *)
Record tdisp_static := {
  setup_success : bool;
  rsp_caps_flags : Z;          (* rsp_caps.lock_interface_flags_supported *)
  lock_nonce : bytes           (* lock_interface_response.start_interface_nonce *)
}.
Definition tdisp_vars : Type := gmap string tdisp_static.

Section tdisp.
Context {D : Type} `{Bus D} `{Clock D} `{Os D} `{Alloc (D * process)} `{Libspdm}.
Context `{IdeKmRequester (D * process)} `{IdeKmTester (D * process)} `{SpdmRequester (D * process)} `{DoeDiscovery (D * process)}.
Context `{TdispRequester (D * process)}.
(** [function_id]: of [g_tdisp_interface_id], which the INI file sets. *)
Context (g_teeio_fixed_key : bool) (function_id : Z).
#[local] Abbreviation State := (D * process)%type.
#[local] Abbreviation test := (Tests.test D pcie_ide_test_group_context_t tdisp_vars).

Definition zero_static : tdisp_static :=
  {| setup_success := false; rsp_caps_flags := 0; lock_nonce := replicate PCI_TDISP_START_INTERFACE_NONCE_SIZE 0 |}.

Definition static_of (name : string) : test tdisp_static := let+ v := get_vars in ret (default zero_static (v !! name)).
Definition set_static (name : string) (f : tdisp_static → tdisp_static) : test unit :=
  set_vars (λ v, <[name := f (default zero_static (v !! name))]> v).
Definition with_setup_success (b : bool) (s : tdisp_static) : tdisp_static :=
  {| setup_success := b; rsp_caps_flags := rsp_caps_flags s; lock_nonce := lock_nonce s |}.
Definition with_caps_flags (flags : Z) (s : tdisp_static) : tdisp_static :=
  {| setup_success := setup_success s; rsp_caps_flags := flags; lock_nonce := lock_nonce s |}.
Definition with_nonce (nonce : bytes) (s : tdisp_static) : tdisp_static :=
  {| setup_success := setup_success s; rsp_caps_flags := rsp_caps_flags s; lock_nonce := nonce |}.

(** ** The messages (tdisp_test_common.c, tdisp_test_internal.h) *)

Definition sizeof_pci_tdisp_version_response_mine_t : Z := sizeof_pci_tdisp_header_t + 1 + sizeof_pci_tdisp_version_number_t.
Definition sizeof_pci_tdisp_device_interface_report_response_mine_t : Z :=
  sizeof_pci_tdisp_header_t + 2 + 2 + LIBTDISP_INTERFACE_REPORT_PORTION_LEN.

Definition assert_context : test unit :=
  let+ g := get_group in
  let+ _ := io_assert (negb (spdm_context g =? 0)) in
  io_assert (negb (session_id g =? 0)).

(** The request of a type with all other fields zero. *)
Definition tdisp_message (message_type : Z) : tdisp_request :=
  {| rq_version := PCI_TDISP_MESSAGE_VERSION_10; rq_message_type := message_type; rq_function_id := function_id;
     rq_tsm_caps := 0; rq_flags := 0; rq_default_stream_id := 0; rq_mmio_reporting_offset := 0;
     rq_bind_p2p_address_mask := 0; rq_start_interface_nonce := replicate PCI_TDISP_START_INTERFACE_NONCE_SIZE 0;
     rq_offset := 0; rq_length := 0 |}.
Definition lock_message (flags : Z) : tdisp_request :=
  {| rq_version := PCI_TDISP_MESSAGE_VERSION_10; rq_message_type := PCI_TDISP_LOCK_INTERFACE_REQ; rq_function_id := function_id;
     rq_tsm_caps := 0; rq_flags := flags; rq_default_stream_id := 0;
     rq_mmio_reporting_offset := TDISP_MMIO_REPORTING_OFFSET;
     rq_bind_p2p_address_mask := 0; rq_start_interface_nonce := replicate PCI_TDISP_START_INTERFACE_NONCE_SIZE 0;
     rq_offset := 0; rq_length := 0 |}.
Definition start_message (nonce : bytes) : tdisp_request :=
  {| rq_version := PCI_TDISP_MESSAGE_VERSION_10; rq_message_type := PCI_TDISP_START_INTERFACE_REQ; rq_function_id := function_id;
     rq_tsm_caps := 0; rq_flags := 0; rq_default_stream_id := 0; rq_mmio_reporting_offset := 0;
     rq_bind_p2p_address_mask := 0; rq_start_interface_nonce := nonce; rq_offset := 0; rq_length := 0 |}.
Definition report_message (offset length : Z) : tdisp_request :=
  {| rq_version := PCI_TDISP_MESSAGE_VERSION_10; rq_message_type := PCI_TDISP_GET_DEVICE_INTERFACE_REPORT;
     rq_function_id := function_id; rq_tsm_caps := 0; rq_flags := 0; rq_default_stream_id := 0;
     rq_mmio_reporting_offset := 0; rq_bind_p2p_address_mask := 0;
     rq_start_interface_nonce := replicate PCI_TDISP_START_INTERFACE_NONCE_SIZE 0; rq_offset := offset; rq_length := length |}.

(** A message over the group's session: without error?, size of the answer, answer. *)
Definition tdisp_send (request : tdisp_request) (request_size response_size : Z) : test (bool * Z * tdisp_response) :=
  let+ g := get_group in
  let+ (status, size, response) := machine (pci_tdisp_send_receive_data (session_id g) request request_size response_size) in
  ret (negb (LIBSPDM_STATUS_IS_ERROR status), size, response).
(** With the asserts of the functions for one message. *)
Definition tdisp_test_exchange (request : tdisp_request) (request_size response_size : Z) : test (bool * Z * tdisp_response) :=
  let+ _ := assert_context in tdisp_send request request_size response_size.

Definition tdisp_test_get_version : test (bool * Z * tdisp_response) :=
  tdisp_test_exchange (tdisp_message PCI_TDISP_GET_VERSION) sizeof_pci_tdisp_get_version_request_t
    sizeof_pci_tdisp_version_response_mine_t.
Definition tdisp_test_get_capabilities : test (bool * Z * tdisp_response) :=
  tdisp_test_exchange (tdisp_message PCI_TDISP_GET_CAPABILITIES) sizeof_pci_tdisp_get_capabilities_request_t
    sizeof_pci_tdisp_capabilities_response_t.
Definition tdisp_test_get_state : test (bool * Z * tdisp_response) :=
  tdisp_test_exchange (tdisp_message PCI_TDISP_GET_DEVICE_INTERFACE_STATE)
    sizeof_pci_tdisp_get_device_interface_state_request_t sizeof_pci_tdisp_device_interface_state_response_t.
Definition tdisp_test_lock_interface (flags response_size : Z) : test (bool * Z * tdisp_response) :=
  tdisp_test_exchange (lock_message flags) sizeof_pci_tdisp_lock_interface_request_t response_size.
Definition tdisp_test_start_interface (start_interface_nonce : bytes) (response_size : Z) : test (bool * Z * tdisp_response) :=
  tdisp_test_exchange (start_message start_interface_nonce) sizeof_pci_tdisp_start_interface_request_t response_size.
Definition tdisp_test_stop_interface : test (bool * Z * tdisp_response) :=
  tdisp_test_exchange (tdisp_message PCI_TDISP_STOP_INTERFACE_REQ) sizeof_pci_tdisp_stop_interface_request_t
    sizeof_pci_tdisp_stop_interface_response_t.

(** [setup_ide_stream] for the stream 0 of port 0 (ide_test_common.c) *)
Definition tdisp_test_set_ide_stream (ks : Z) : test bool :=
  let+ _ := assert_context in
  let+ g := get_group in
  machine (setup_ide_stream (session_id g) g_teeio_fixed_key (mapped_kcbar_addr (upper_port g)) 0 ks (k_set g)
             (rp_stream_index g) 0 IDE_TEST_TOPOLOGY_TYPE_SEL_IDE (upper_port g) (lower_port g) false).

(** ** What the tests report *)

Definition tdisp_failed_status : bytes := bs "tdisp_send_receive_data".
(** "TdispMessage.<field> = 0x<value>" *)
Definition tdisp_field (field : bytes) (value : Z) : bytes := bs "TdispMessage." ++ field ++ bs " = 0x" ++ hex value.
Definition tdisp_message_size (size : Z) : bytes := bs "sizeof(TdispMessage) = 0x" ++ hex size.

(** Assertions 2 to 4: the header of an answer. *)
Definition check_header (message_type cls id : Z) (response : tdisp_response) : test unit :=
  let+ _ := record_test cls id 2 (rs_version response =? PCI_TDISP_MESSAGE_VERSION_10)
              (tdisp_field (bs "TDISPVersion") (rs_version response)) in
  let+ _ := record_test cls id 3 (rs_message_type response =? message_type)
              (tdisp_field (bs "MessageType") (rs_message_type response)) in
  record_test cls id 4 (rs_function_id response =? function_id) (tdisp_field (bs "INTERFACE_ID") (rs_function_id response)).

(** Assertions 0 to 4 of a run, then [k].  Some tests record assertion 0 only
    when it failed. *)
Definition tdisp_check (always : bool) (answer : bool * Z * tdisp_response) (size_expected message_type cls id : Z)
    (k : tdisp_response → test unit) : test unit :=
  let '(ok, size, response) := answer in
  let+ _ := (if always || negb ok then record_test cls id 0 ok tdisp_failed_status else ret tt) in
  if negb ok then ret tt else
  let+ _ := record_test cls id 1 (size =? size_expected) (tdisp_message_size size) in
  if negb (size =? size_expected) then ret tt else
  let+ _ := check_header message_type cls id response in
  k response.

(** The state after the message, as assertion [aid]. *)
Definition check_state (aid state cls id : Z) : test unit :=
  let+ (ok, _, response) := tdisp_test_get_state in
  if negb ok then record_test cls id aid false (bs "tdisp_test_get_state failed.") else
  record_test cls id aid (rs_tdi_state response =? state) (tdisp_field (bs "TDI_STATE") (rs_tdi_state response)).

(** Assertion 5 is the code of an error. *)
Definition check_error_code (code cls id : Z) (response : tdisp_response) : test unit :=
  record_test cls id 5 (rs_error_code response =? code) (tdisp_field (bs "ERROR_CODE") (rs_error_code response)).

(** ** The interface report *)

(** A buffer whose cells may not have been written yet. *)
Definition report_buffer : Type := list (option Z).
Definition copy_report (buf : report_buffer) (offset : Z) (data : bytes) : res report_buffer :=
  if (0 <=? offset) && (offset + Z.of_nat (length data) <=? Z.of_nat (length buf))
  then Ok (take (Z.to_nat offset) buf ++ map Some data ++ drop (Z.to_nat offset + length data) buf)
  else Stop Undefined.

Definition report_length_ok (size length : Z) (response : tdisp_response) : bool :=
  (sizeof_pci_tdisp_device_interface_report_response_t <=? size) && (rs_portion_length response <=? length) &&
  (size =? sizeof_pci_tdisp_device_interface_report_response_t + rs_portion_length response).

(** One round: offset, remainder, total length, buffer; or the result, the
    buffer and what is left in [*interface_report_size].  The offset and the remainder are 16 bits wide. *)
Definition report_round (cls id : Z) (s : Z * Z * Z * report_buffer)
    : test (Z * Z * Z * report_buffer + bool * report_buffer * Z) :=
  let '(offset, remainder_length, total_report_length, buf) := s in
  let capacity := Z.of_nat (length buf) in
  let request_length :=
    if offset =? 0 then LIBTDISP_INTERFACE_REPORT_PORTION_LEN
    else Z.min remainder_length LIBTDISP_INTERFACE_REPORT_PORTION_LEN in
  let+ (ok, size, response) :=
    tdisp_send (report_message offset request_length) sizeof_pci_tdisp_get_device_interface_report_request_t
      sizeof_pci_tdisp_device_interface_report_response_mine_t in
  if negb ok then let+ _ := record_test cls id 0 false tdisp_failed_status in ret (inr (false, buf, capacity)) else
  let+ _ := record_test cls id 1 (report_length_ok size request_length response) (tdisp_message_size size) in
  if negb (report_length_ok size request_length response) then ret (inr (false, buf, capacity)) else
  let portion := rs_portion_length response in
  let+ _ := check_header PCI_TDISP_DEVICE_INTERFACE_REPORT cls id response in
  let+ _ := record_test cls id 5 (negb (portion =? 0)) (tdisp_field (bs "PORTION_LENGTH") portion) in
  let total := if offset =? 0 then portion + rs_remainder_length response else total_report_length in
  if (offset =? 0) && (capacity <? total) then
    let+ _ := record_test cls id 6 false (bs "Not enough buffer size for interface report.") in
    ret (inr (false, buf, total))
  else if negb (offset =? 0) && negb (total =? u32 (offset + portion + rs_remainder_length response)) then
    let+ _ := record_test cls id 6 false (bs "total_report_length is not correct.") in
    ret (inr (false, buf, capacity))
  else
    let+ data := lift (load (rs_report response) 0 portion) in
    let+ buf := lift (copy_report buf offset data) in
    ret (if rs_remainder_length response =? 0 then inr (true, buf, total)
         else inl (u16 (offset + portion), rs_remainder_length response, total, buf)).

(** The loop goes on as long as the device says that bytes remain; [rounds] bounds it here. *)
Definition tdisp_test_get_interface_report (rounds : positive) (cls id : Z) (buf : report_buffer)
    : test (bool * report_buffer * Z) :=
  let+ _ := assert_context in
  io_while rounds (report_round cls id) (0, 0, 0, buf).

Definition fresh_report_buffer : report_buffer := replicate LIBTDISP_INTERFACE_REPORT_MAX_SIZE None.

(** ** Setups *)

(** The first two messages of a setup; [k] gets the flags for locking. *)
Definition setup_handshake (k : Z → test bool) : test bool :=
  let+ (ok, size, _) := tdisp_test_get_version in
  if negb (ok && (size =? sizeof_pci_tdisp_version_response_mine_t)) then ret false else
  let+ (ok, size, response) := tdisp_test_get_capabilities in
  if negb (ok && (size =? sizeof_pci_tdisp_capabilities_response_t)) then ret false else
  k (lock_interface_flags_supported (rs_caps response)).

(** Locking in a setup; [k] gets the nonce. *)
Definition setup_lock (flags : Z) (keep : bytes → test unit) (k : bytes → test bool) : test bool :=
  let+ ok := tdisp_test_set_ide_stream PCI_IDE_KM_KEY_SET_K0 in
  if negb ok then ret false else
  let+ (ok, size, response) := tdisp_test_lock_interface flags sizeof_pci_tdisp_lock_interface_response_t in
  let+ _ := keep (rs_start_interface_nonce response) in
  if negb (ok && (size =? sizeof_pci_tdisp_lock_interface_response_t)) then ret false else
  k (rs_start_interface_nonce response).

Definition setup_start (nonce : bytes) (k : test bool) : test bool :=
  let+ (ok, size, _) := tdisp_test_start_interface nonce sizeof_pci_tdisp_start_interface_response_t in
  if negb (ok && (size =? sizeof_pci_tdisp_start_interface_response_t)) then ret false else k.

Definition setup_stop (k : test bool) : test bool :=
  let+ (ok, size, _) := tdisp_test_stop_interface in
  if negb (ok && (size =? sizeof_pci_tdisp_stop_interface_response_t)) then ret false else k.

(** [return setup_success = b;] *)
Definition setup_done (name : string) (b : bool) : test bool :=
  let+ _ := set_static name (with_setup_success b) in ret b.

(** The case is skipped when the interface is not in [state]; otherwise [k] decides. *)
Definition setup_state_then (name : string) (state : Z) (k : test bool) : test bool :=
  let+ (ok, size, response) := tdisp_test_get_state in
  if negb (ok && (size =? sizeof_pci_tdisp_device_interface_state_response_t)) then ret false else
  if negb (rs_tdi_state response =? state) then let+ _ := modify with_skip in setup_done name true
  else let+ b := k in setup_done name b.
Definition setup_state (name : string) (state : Z) : test bool := setup_state_then name state (ret true).

Definition keep_flags (name : string) (flags : Z) : test unit := set_static name (with_caps_flags flags).
Definition keep_nonce (name : string) (nonce : bytes) : test unit := set_static name (with_nonce nonce).
Definition keep_nothing (nonce : bytes) : test unit := ret tt.

(** ** Teardowns *)

Definition tdisp_teardown (name : string) : test unit :=
  let+ s := static_of name in
  if negb (setup_success s) then ret tt else let+ _ := tdisp_test_stop_interface in ret tt.

(** ** Version, capabilities (test_case_version_1.c, test_case_capabilities_1.c) *)

Definition tdisp_test_version_1_setup : test bool := ret true.
Definition tdisp_test_version_1_run (cls id : Z) : test unit :=
  let+ _ := assert_context in
  let+ answer := tdisp_test_get_version in
  tdisp_check true answer sizeof_pci_tdisp_version_response_mine_t PCI_TDISP_VERSION cls id (λ response,
    let+ _ := record_test cls id 5 (rs_version_num_count response =? 1)
                (tdisp_field (bs "VERSION_NUM_COUNT") (rs_version_num_count response)) in
    record_test cls id 6 (rs_version_num_entry response =? PCI_TDISP_MESSAGE_VERSION_10)
      (tdisp_field (bs "VERSION_NUM_ENTRY[0]") (rs_version_num_entry response))).

Definition tdisp_test_capabilities_1_setup : test bool :=
  let+ (ok, _, _) := tdisp_test_get_version in ret ok.

(** A bit for every supported message. *)
Definition expected_supported_bits : Z :=
  foldr (λ m bits, Z.lor (Z.shiftl 1 (m - TDISP_REQUEST_SUPPORT_MSG_OFFSET)) bits) 0 tdisp_supported_messages.

(** The first two bytes of the 16, and all the others together. *)
Definition supported_bytes (supported : bytes) : res (Z * Z) :=
  let* first_two_bytes := load_le supported 0 2 in
  let* rest := load supported 2 14 in
  Ok (first_two_bytes, foldr Z.lor 0 rest).

Definition tdisp_test_capabilities_1_run (cls id : Z) : test unit :=
  let+ _ := assert_context in
  let+ answer := tdisp_test_get_capabilities in
  tdisp_check false answer sizeof_pci_tdisp_capabilities_response_t PCI_TDISP_CAPABILITIES cls id (λ response,
    let caps := rs_caps response in
    let+ _ := record_test cls id 5 (dsm_caps caps =? 0) (tdisp_field (bs "DSM_CAPS") (dsm_caps caps)) in
    let+ (first_two_bytes, the_rest) := lift (supported_bytes (req_msg_supported caps)) in
    let+ _ := record_test cls id 6 ((first_two_bytes =? expected_supported_bits) && (the_rest =? 0))
                (bs "(TdispMessage.REQ_MSGS_SUPPORTED[0..2] = 0x" ++ hex first_two_bytes ++
                 bs ") && (TdispMessage.REQ_MSGS_SUPPORTED[2..16] = 0x" ++ hex the_rest ++ bs ")") in
    let reserved := Z.land (lock_interface_flags_supported caps) 0xFFE0 in
    let+ _ := record_test cls id 7 (reserved =? 0)
                (bs "(TdispMessage.LOCK_INTERFACE_FLAGS_SUPPORTED & 0xFFE0) = 0x" ++ hex reserved) in
    let+ _ := record_test cls id 8 (52 <=? dev_addr_width caps) (tdisp_field (bs "DEV_ADDR_WIDTH") (dev_addr_width caps)) in
    let+ _ := record_test cls id 9 (0 <? num_req_this caps) (tdisp_field (bs "NUM_REQ_THIS") (num_req_this caps)) in
    record_test cls id 10 (0 <? num_req_all caps) (tdisp_field (bs "NUM_REQ_ALL") (num_req_all caps))).

(** ** LockInterface (test_case_lock_interface_1.c to _4.c) *)
(** Interface unlocked, then a stream for it. *)
Definition tdisp_test_lock_interface_1_setup : test bool :=
  setup_handshake (λ flags,
    let+ _ := keep_flags "lock_interface_1"%string flags in
    setup_state_then "lock_interface_1"%string PCI_TDISP_INTERFACE_STATE_CONFIG_UNLOCKED
      (tdisp_test_set_ide_stream PCI_IDE_KM_KEY_SET_K0)).
Definition tdisp_test_lock_interface_1_run (cls id : Z) : test unit :=
  let+ _ := assert_context in
  let+ s := static_of "lock_interface_1"%string in
  let+ answer := tdisp_test_lock_interface (rsp_caps_flags s) sizeof_pci_tdisp_lock_interface_response_t in
  tdisp_check true answer sizeof_pci_tdisp_lock_interface_response_t PCI_TDISP_LOCK_INTERFACE_RSP cls id (λ _,
    check_state 5 PCI_TDISP_INTERFACE_STATE_CONFIG_LOCKED cls id).

(** A request that the interface must refuse with [code] and stay in [state]. *)
Definition run_refused (always : bool) (answer : bool * Z * tdisp_response) (code state cls id : Z) : test unit :=
  tdisp_check always answer sizeof_pci_tdisp_error_response_t PCI_TDISP_ERROR cls id (λ response,
    let+ _ := check_error_code code cls id response in
    check_state 6 state cls id).
Definition lock_refused (name : string) (code state cls id : Z) : test unit :=
  let+ _ := assert_context in
  let+ s := static_of name in
  let+ answer := tdisp_test_lock_interface (rsp_caps_flags s) sizeof_pci_tdisp_error_response_t in
  run_refused true answer code state cls id.

(** Without a stream. *)
Definition tdisp_test_lock_interface_2_setup : test bool :=
  setup_handshake (λ flags,
    let+ _ := keep_flags "lock_interface_2"%string flags in
    setup_state "lock_interface_2"%string PCI_TDISP_INTERFACE_STATE_CONFIG_UNLOCKED).
Definition tdisp_test_lock_interface_2_run : Z → Z → test unit :=
  lock_refused "lock_interface_2"%string PCI_TDISP_ERROR_CODE_INVALID_REQUEST PCI_TDISP_INTERFACE_STATE_CONFIG_UNLOCKED.

(** Already locked. *)
Definition tdisp_test_lock_interface_3_setup : test bool :=
  setup_handshake (λ flags,
    let+ _ := keep_flags "lock_interface_3"%string flags in
    setup_lock flags keep_nothing (λ _,
    setup_state "lock_interface_3"%string PCI_TDISP_INTERFACE_STATE_CONFIG_LOCKED)).
Definition tdisp_test_lock_interface_3_run : Z → Z → test unit :=
  lock_refused "lock_interface_3"%string PCI_TDISP_ERROR_CODE_INVALID_INTERFACE_STATE PCI_TDISP_INTERFACE_STATE_CONFIG_LOCKED.

(** Running. *)
Definition tdisp_test_lock_interface_4_setup : test bool :=
  setup_handshake (λ flags,
    let+ _ := keep_flags "lock_interface_4"%string flags in
    setup_lock flags keep_nothing (λ nonce,
    setup_start nonce (
    setup_state "lock_interface_4"%string PCI_TDISP_INTERFACE_STATE_RUN))).
Definition tdisp_test_lock_interface_4_run : Z → Z → test unit :=
  lock_refused "lock_interface_4"%string PCI_TDISP_ERROR_CODE_INVALID_INTERFACE_STATE PCI_TDISP_INTERFACE_STATE_RUN.

(** ** DeviceReport (test_case_interface_report_1.c to _5.c) *)

(** Setups without variables for the run. *)
Definition setup_locked (name : string) : test bool :=
  setup_handshake (λ flags, setup_lock flags keep_nothing (λ _, setup_state name PCI_TDISP_INTERFACE_STATE_CONFIG_LOCKED)).
Definition setup_running (name : string) : test bool :=
  setup_handshake (λ flags, setup_lock flags keep_nothing (λ nonce,
    setup_start nonce (setup_state name PCI_TDISP_INTERFACE_STATE_RUN))).

Section report_cases.
Context (rounds : positive).

(** The report is read and the state stays. *)
Definition report_read (state cls id : Z) : test unit :=
  let+ _ := assert_context in
  let+ (ok, _, _) := tdisp_test_get_interface_report rounds cls id fresh_report_buffer in
  if negb ok then ret tt else check_state 6 state cls id.

Definition tdisp_test_interface_report_1_setup : test bool := setup_locked "interface_report_1"%string.
Definition tdisp_test_interface_report_1_run : Z → Z → test unit := report_read PCI_TDISP_INTERFACE_STATE_CONFIG_LOCKED.

Definition tdisp_test_interface_report_2_setup : test bool := setup_running "interface_report_2"%string.
Definition tdisp_test_interface_report_2_run : Z → Z → test unit := report_read PCI_TDISP_INTERFACE_STATE_RUN.

(** A single request, past the end or in the wrong state. *)
Definition report_refused (offset length code state cls id : Z) : test unit :=
  let+ _ := assert_context in
  let+ answer := tdisp_send (report_message offset length) sizeof_pci_tdisp_get_device_interface_report_request_t
                   sizeof_pci_tdisp_error_response_t in
  run_refused false answer code state cls id.

Definition tdisp_test_interface_report_3_setup : test bool := setup_locked "interface_report_3"%string.
Definition tdisp_test_interface_report_3_run : Z → Z → test unit :=
  report_refused 0xFFFF 1 PCI_TDISP_ERROR_CODE_INVALID_REQUEST PCI_TDISP_INTERFACE_STATE_CONFIG_LOCKED.

Definition tdisp_test_interface_report_4_setup : test bool :=
  setup_handshake (λ _, setup_state "interface_report_4"%string PCI_TDISP_INTERFACE_STATE_CONFIG_UNLOCKED).
Definition tdisp_test_interface_report_4_run : Z → Z → test unit :=
  report_refused 0 LIBTDISP_INTERFACE_REPORT_PORTION_LEN PCI_TDISP_ERROR_CODE_INVALID_INTERFACE_STATE
    PCI_TDISP_INTERFACE_STATE_CONFIG_UNLOCKED.

(** Bytes of the report, least significant first; the buffer is not
    compared with the length of the report. *)
Definition report_bytes (buf : report_buffer) (indices : list Z) : res Z :=
  let* l := fold_res (λ i acc, let* c := array_get buf (u32 i) in let* b := deref c in Ok (acc ++ [b])) indices [] in Ok (le l).

Definition report_word (buf : report_buffer) (i : Z) : res Z := report_bytes buf [i; i + 1; i + 2; i + 3].

Definition tdisp_test_interface_report_5_setup : test bool := setup_locked "interface_report_5"%string.
(** The message of assertion 6 has no value for its %x. *)
Definition tdisp_test_interface_report_5_run (cls id : Z) : test unit :=
  let+ _ := assert_context in
  let+ (ok, buf, buffer_size) := tdisp_test_get_interface_report rounds cls id fresh_report_buffer in
  if negb ok then ret tt else
  let+ interface_info := lift (report_bytes buf [0; 1]) in
  let+ mmio_range_count := lift (report_word buf 12) in
  let+ device_specific_info_len := lift (report_word buf (16 + mmio_range_count * 16)) in
  let res := buffer_size =? u32 (16 + mmio_range_count * 16 + 4 + device_specific_info_len) in
  let+ _ := record_test cls id 6 res (bs "sizeof(REPORT_BYTES) = 0x") in
  if negb res then ret tt else
  let reserved := Z.land interface_info 0xFFE0 in
  let+ _ := record_test cls id 7 (reserved =? 0) (bs "(REPORT_BYTES.INTERFACE_INFO & 0xFFE0) = 0x" ++ hex reserved) in
  io_fold (λ i _,
    let+ range_attributes := lift (report_word buf (16 + i * 16 + 12)) in
    let reserved := Z.land range_attributes 0xFFF0 in
    record_test cls id 8 (reserved =? 0)
      (bs "(REPORT_BYTES.MMIO_RANGE[i].RangeAttributes & 0xFFF0) = 0x" ++ hex reserved)) (seqZ 0 mmio_range_count) tt.

End report_cases.

(** ** DeviceState (test_case_interface_state_1.c to _4.c) *)

Definition state_run (state cls id : Z) : test unit :=
  let+ _ := assert_context in
  let+ answer := tdisp_test_get_state in
  tdisp_check true answer sizeof_pci_tdisp_device_interface_state_response_t PCI_TDISP_DEVICE_INTERFACE_STATE cls id
    (λ response, record_test cls id 5 (rs_tdi_state response =? state)
                   (tdisp_field (bs "TDI_STATE") (rs_tdi_state response))).

Definition tdisp_test_interface_state_1_setup : test bool := setup_handshake (λ _, setup_done "interface_state_1"%string true).
Definition tdisp_test_interface_state_1_run : Z → Z → test unit := state_run PCI_TDISP_INTERFACE_STATE_CONFIG_UNLOCKED.

Definition tdisp_test_interface_state_2_setup : test bool :=
  setup_handshake (λ flags, setup_lock flags keep_nothing (λ _, setup_done "interface_state_2"%string true)).
Definition tdisp_test_interface_state_2_run : Z → Z → test unit := state_run PCI_TDISP_INTERFACE_STATE_CONFIG_LOCKED.

Definition tdisp_test_interface_state_3_setup : test bool :=
  setup_handshake (λ flags, setup_lock flags keep_nothing (λ nonce, setup_start nonce (setup_done "interface_state_3"%string true))).
Definition tdisp_test_interface_state_3_run : Z → Z → test unit := state_run PCI_TDISP_INTERFACE_STATE_RUN.

Definition tdisp_test_interface_state_4_setup : test bool :=
  setup_handshake (λ flags, setup_lock flags keep_nothing (λ nonce,
    setup_start nonce (setup_stop (setup_done "interface_state_4"%string true)))).
Definition tdisp_test_interface_state_4_run : Z → Z → test unit := state_run PCI_TDISP_INTERFACE_STATE_CONFIG_UNLOCKED.

(** ** StartInterface (test_case_start_interface_1.c to _4.c) *)

Definition tdisp_test_start_interface_1_setup : test bool :=
  setup_handshake (λ flags, setup_lock flags (keep_nonce "start_interface_1"%string) (λ _,
    setup_state "start_interface_1"%string PCI_TDISP_INTERFACE_STATE_CONFIG_LOCKED)).
Definition tdisp_test_start_interface_1_run (cls id : Z) : test unit :=
  let+ _ := assert_context in
  let+ s := static_of "start_interface_1"%string in
  let+ answer := tdisp_test_start_interface (lock_nonce s) sizeof_pci_tdisp_start_interface_response_t in
  tdisp_check true answer sizeof_pci_tdisp_start_interface_response_t PCI_TDISP_START_INTERFACE_RSP cls id (λ _,
    check_state 5 PCI_TDISP_INTERFACE_STATE_RUN cls id).

Definition start_refused (name : string) (change : Z → Z) (code state cls id : Z) : test unit :=
  let+ _ := assert_context in
  let+ s := static_of name in
  let+ answer := tdisp_test_start_interface (map change (lock_nonce s)) sizeof_pci_tdisp_error_response_t in
  run_refused true answer code state cls id.

(** With all bits of the nonce changed. *)
Definition tdisp_test_start_interface_2_setup : test bool :=
  setup_handshake (λ flags, setup_lock flags (keep_nonce "start_interface_2"%string) (λ _,
    setup_state "start_interface_2"%string PCI_TDISP_INTERFACE_STATE_CONFIG_LOCKED)).
Definition tdisp_test_start_interface_2_run : Z → Z → test unit :=
  start_refused "start_interface_2"%string (λ b, Z.lxor b 0xff) PCI_TDISP_ERROR_CODE_INVALID_NONCE
    PCI_TDISP_INTERFACE_STATE_CONFIG_LOCKED.

(** Stopped. *)
Definition tdisp_test_start_interface_3_setup : test bool :=
  setup_handshake (λ flags, setup_lock flags (keep_nonce "start_interface_3"%string) (λ _,
    setup_stop (setup_state "start_interface_3"%string PCI_TDISP_INTERFACE_STATE_CONFIG_UNLOCKED))).
Definition tdisp_test_start_interface_3_run : Z → Z → test unit :=
  start_refused "start_interface_3"%string id PCI_TDISP_ERROR_CODE_INVALID_INTERFACE_STATE
    PCI_TDISP_INTERFACE_STATE_CONFIG_UNLOCKED.

(** Running. *)
Definition tdisp_test_start_interface_4_setup : test bool :=
  setup_handshake (λ flags, setup_lock flags (keep_nonce "start_interface_4"%string) (λ nonce,
    setup_start nonce (setup_state "start_interface_4"%string PCI_TDISP_INTERFACE_STATE_RUN))).
Definition tdisp_test_start_interface_4_run : Z → Z → test unit :=
  start_refused "start_interface_4"%string id PCI_TDISP_ERROR_CODE_INVALID_INTERFACE_STATE PCI_TDISP_INTERFACE_STATE_RUN.

(** ** StopInterface (test_case_stop_interface_1.c to _3.c) *)

Definition stop_run (cls id : Z) : test unit :=
  let+ _ := assert_context in
  let+ answer := tdisp_test_stop_interface in
  tdisp_check true answer sizeof_pci_tdisp_stop_interface_response_t PCI_TDISP_STOP_INTERFACE_RSP cls id (λ _,
    check_state 5 PCI_TDISP_INTERFACE_STATE_CONFIG_UNLOCKED cls id).

Definition tdisp_test_stop_interface_1_setup : test bool :=
  setup_handshake (λ flags,
    let+ _ := keep_flags "stop_interface_1"%string flags in
    setup_lock flags keep_nothing (λ nonce, setup_start nonce (setup_state "stop_interface_1"%string PCI_TDISP_INTERFACE_STATE_RUN))).
Definition tdisp_test_stop_interface_1_run : Z → Z → test unit := stop_run.

Definition tdisp_test_stop_interface_2_setup : test bool :=
  setup_handshake (λ flags,
    let+ _ := keep_flags "stop_interface_2"%string flags in
    setup_lock flags keep_nothing (λ _, setup_state "stop_interface_2"%string PCI_TDISP_INTERFACE_STATE_CONFIG_LOCKED)).
Definition tdisp_test_stop_interface_2_run : Z → Z → test unit := stop_run.

Definition tdisp_test_stop_interface_3_setup : test bool :=
  setup_handshake (λ _,
    let+ ok := tdisp_test_set_ide_stream PCI_IDE_KM_KEY_SET_K0 in
    if negb ok then ret false else setup_state "stop_interface_3"%string PCI_TDISP_INTERFACE_STATE_CONFIG_UNLOCKED).
Definition tdisp_test_stop_interface_3_run : Z → Z → test unit := stop_run.

(** ** The group (test_group.c)
    The steps are those of the PCIe IDE group, but nothing is recorded, and
    a failure to connect stops in an assert. *)

Definition tdisp_test_group_setup_sel : test bool :=
  let+ ok := on_group scan_devices in
  if negb ok then ret false else
  let+ ok := on_group init_dev_port in
  if negb ok then ret false else
  let+ ok := on_group open_upstream in
  if negb ok then ret false else
  let+ ctx := machine spdm_client_init in
  let+ _ := io_assert (negb (ctx =? 0)) in
  let+ (ok, session) := machine (spdm_connect ctx 0) in
  let+ _ := io_assert ok in
  let+ g := get_group in
  let+ _ := put_group (with_session ctx session g) in
  ret true.

Definition tdisp_test_group_teardown_sel : test bool :=
  let+ _ := on_group close_session in
  let+ _ := on_group close_device in
  let+ _ := on_group close_upstream in
  ret true.

(** ** The configuration (test_config_default.c): that of the PCIe IDE tests *)

Definition tdisp_test_config_default_enable_common : test bool := test_config_enable_common.
Definition tdisp_test_config_default_disable_common : test bool := ret true.
Definition tdisp_test_config_default_support_common : test bool := test_config_support_common.
Definition tdisp_test_config_default_check_common : test bool := test_config_check_common.

(** ** The functions behind the pointers *)

Section tables.
Context (rounds : positive).
Open Scope string_scope.
#[local] Abbreviation code := (Tests.code D pcie_ide_test_group_context_t tdisp_vars).

Definition tdisp_config_code : list (string * code) :=
  [("tdisp_test_config_default_enable_common", Config tdisp_test_config_default_enable_common);
   ("tdisp_test_config_default_disable_common", Config tdisp_test_config_default_disable_common);
   ("tdisp_test_config_default_support_common", Config tdisp_test_config_default_support_common);
   ("tdisp_test_config_default_check_common", Config tdisp_test_config_default_check_common)].

Definition tdisp_group_code : list (string * code) :=
  [("tdisp_test_group_setup_sel", Group tdisp_test_group_setup_sel);
   ("tdisp_test_group_teardown_sel", Group tdisp_test_group_teardown_sel)].

Definition tdisp_case_code : list (string * code) :=
  [("tdisp_test_version_1_setup", Setup tdisp_test_version_1_setup);
   ("tdisp_test_version_1_run", Run tdisp_test_version_1_run);
   ("tdisp_test_version_1_teardown", Teardown no_teardown);
   ("tdisp_test_capabilities_1_setup", Setup tdisp_test_capabilities_1_setup);
   ("tdisp_test_capabilities_1_run", Run tdisp_test_capabilities_1_run);
   ("tdisp_test_capabilities_1_teardown", Teardown no_teardown);
   ("tdisp_test_lock_interface_1_setup", Setup tdisp_test_lock_interface_1_setup);
   ("tdisp_test_lock_interface_1_run", Run tdisp_test_lock_interface_1_run);
   ("tdisp_test_lock_interface_1_teardown", Teardown (tdisp_teardown "lock_interface_1"));
   ("tdisp_test_lock_interface_2_setup", Setup tdisp_test_lock_interface_2_setup);
   ("tdisp_test_lock_interface_2_run", Run tdisp_test_lock_interface_2_run);
   ("tdisp_test_lock_interface_2_teardown", Teardown (tdisp_teardown "lock_interface_2"));
   ("tdisp_test_lock_interface_3_setup", Setup tdisp_test_lock_interface_3_setup);
   ("tdisp_test_lock_interface_3_run", Run tdisp_test_lock_interface_3_run);
   ("tdisp_test_lock_interface_3_teardown", Teardown (tdisp_teardown "lock_interface_3"));
   ("tdisp_test_lock_interface_4_setup", Setup tdisp_test_lock_interface_4_setup);
   ("tdisp_test_lock_interface_4_run", Run tdisp_test_lock_interface_4_run);
   ("tdisp_test_lock_interface_4_teardown", Teardown (tdisp_teardown "lock_interface_4"));
   ("tdisp_test_interface_report_1_setup", Setup tdisp_test_interface_report_1_setup);
   ("tdisp_test_interface_report_1_run", Run (tdisp_test_interface_report_1_run rounds));
   ("tdisp_test_interface_report_1_teardown", Teardown (tdisp_teardown "interface_report_1"));
   ("tdisp_test_interface_report_2_setup", Setup tdisp_test_interface_report_2_setup);
   ("tdisp_test_interface_report_2_run", Run (tdisp_test_interface_report_2_run rounds));
   ("tdisp_test_interface_report_2_teardown", Teardown (tdisp_teardown "interface_report_2"));
   ("tdisp_test_interface_report_3_setup", Setup tdisp_test_interface_report_3_setup);
   ("tdisp_test_interface_report_3_run", Run tdisp_test_interface_report_3_run);
   ("tdisp_test_interface_report_3_teardown", Teardown (tdisp_teardown "interface_report_3"));
   ("tdisp_test_interface_report_4_setup", Setup tdisp_test_interface_report_4_setup);
   ("tdisp_test_interface_report_4_run", Run tdisp_test_interface_report_4_run);
   ("tdisp_test_interface_report_4_teardown", Teardown (tdisp_teardown "interface_report_4"));
   ("tdisp_test_interface_report_5_setup", Setup tdisp_test_interface_report_5_setup);
   ("tdisp_test_interface_report_5_run", Run (tdisp_test_interface_report_5_run rounds));
   ("tdisp_test_interface_report_5_teardown", Teardown (tdisp_teardown "interface_report_5"));
   ("tdisp_test_interface_state_1_setup", Setup tdisp_test_interface_state_1_setup);
   ("tdisp_test_interface_state_1_run", Run tdisp_test_interface_state_1_run);
   ("tdisp_test_interface_state_1_teardown", Teardown (tdisp_teardown "interface_state_1"));
   ("tdisp_test_interface_state_2_setup", Setup tdisp_test_interface_state_2_setup);
   ("tdisp_test_interface_state_2_run", Run tdisp_test_interface_state_2_run);
   ("tdisp_test_interface_state_2_teardown", Teardown (tdisp_teardown "interface_state_2"));
   ("tdisp_test_interface_state_3_setup", Setup tdisp_test_interface_state_3_setup);
   ("tdisp_test_interface_state_3_run", Run tdisp_test_interface_state_3_run);
   ("tdisp_test_interface_state_3_teardown", Teardown (tdisp_teardown "interface_state_3"));
   ("tdisp_test_interface_state_4_setup", Setup tdisp_test_interface_state_4_setup);
   ("tdisp_test_interface_state_4_run", Run tdisp_test_interface_state_4_run);
   ("tdisp_test_interface_state_4_teardown", Teardown (tdisp_teardown "interface_state_4"));
   ("tdisp_test_start_interface_1_setup", Setup tdisp_test_start_interface_1_setup);
   ("tdisp_test_start_interface_1_run", Run tdisp_test_start_interface_1_run);
   ("tdisp_test_start_interface_1_teardown", Teardown (tdisp_teardown "start_interface_1"));
   ("tdisp_test_start_interface_2_setup", Setup tdisp_test_start_interface_2_setup);
   ("tdisp_test_start_interface_2_run", Run tdisp_test_start_interface_2_run);
   ("tdisp_test_start_interface_2_teardown", Teardown (tdisp_teardown "start_interface_2"));
   ("tdisp_test_start_interface_3_setup", Setup tdisp_test_start_interface_3_setup);
   ("tdisp_test_start_interface_3_run", Run tdisp_test_start_interface_3_run);
   ("tdisp_test_start_interface_3_teardown", Teardown (tdisp_teardown "start_interface_3"));
   ("tdisp_test_start_interface_4_setup", Setup tdisp_test_start_interface_4_setup);
   ("tdisp_test_start_interface_4_run", Run tdisp_test_start_interface_4_run);
   ("tdisp_test_start_interface_4_teardown", Teardown (tdisp_teardown "start_interface_4"));
   ("tdisp_test_stop_interface_1_setup", Setup tdisp_test_stop_interface_1_setup);
   ("tdisp_test_stop_interface_1_run", Run tdisp_test_stop_interface_1_run);
   ("tdisp_test_stop_interface_1_teardown", Teardown (tdisp_teardown "stop_interface_1"));
   ("tdisp_test_stop_interface_2_setup", Setup tdisp_test_stop_interface_2_setup);
   ("tdisp_test_stop_interface_2_run", Run tdisp_test_stop_interface_2_run);
   ("tdisp_test_stop_interface_2_teardown", Teardown (tdisp_teardown "stop_interface_2"));
   ("tdisp_test_stop_interface_3_setup", Setup tdisp_test_stop_interface_3_setup);
   ("tdisp_test_stop_interface_3_run", Run tdisp_test_stop_interface_3_run);
   ("tdisp_test_stop_interface_3_teardown", Teardown (tdisp_teardown "stop_interface_3"))].

Close Scope string_scope.

Definition tdisp_test_code : list (string * code) := tdisp_config_code ++ tdisp_group_code ++ tdisp_case_code.

(** Nothing in the context of the group is set by the engine that the tests use. *)
Definition tdisp_enter (ctx : context) (g : pcie_ide_test_group_context_t) : pcie_ide_test_group_context_t := g.
Definition tdisp_code : TestCode (world D pcie_ide_test_group_context_t tdisp_vars) := table_code tdisp_test_code tdisp_enter.
End tables.

End tdisp.

End Tdisp.
