(* ===== verification/TdispSpec.v ===== *)
(** * The TDISP tests, specified
    The verdict of a run as a property of the device's answers; the interface
    report put together from its portions; a device that follows the protocol
    passes every case. *)

From Stdlib Require Import ZArith Lia Ascii String.
From stdpp Require Import prelude gmap strings.
From S2P Require Import Prelude Utils Libspdm TestConfig Results Engine TestLib Hardware PcieIde Kcbar Doe IdeKm Ports Spdm Tests TestsSpec PcieTests PcieGroup Tdisp.

Open Scope Z_scope.
Open Scope teeio_scope.

Module TdispSpec.
Import TestConfig Results Engine Hardware PcieIde Kcbar Doe IdeKm Ports Spdm Tests TestsSpec PcieTests PcieGroup Tdisp.

Section tdisp.
Context {D : Type} `{Bus D} `{Clock D} `{Os D} `{Alloc (D * process)} `{Libspdm}.
Context `{IdeKmRequester (D * process)} `{IdeKmTester (D * process)} `{SpdmRequester (D * process)} `{DoeDiscovery (D * process)}.
Context `{TdispRequester (D * process)}.
Context (g_teeio_fixed_key : bool) (function_id : Z).
#[local] Abbreviation State := (D * process)%type.
#[local] Abbreviation test := (Tests.test D pcie_ide_test_group_context_t tdisp_vars).
#[local] Abbreviation test_state := (test_state pcie_ide_test_group_context_t tdisp_vars).
#[local] Abbreviation record_test_at :=
  (TestsSpec.record_test_at (D := D) (G := pcie_ide_test_group_context_t) (V := tdisp_vars)).
(** A group with a session. *)
Context (g : pcie_ide_test_group_context_t) (live : spdm_context g ≠ 0 ∧ session_id g ≠ 0).

Lemma assert_context_live (d : State) (t : test_state) : group t = g → assert_context (d, t) = Ok (tt, (d, t)).
Proof.
  intros Hg. unfold assert_context, Hardware.bind, get_group, io_assert, lift. cbn [res_bind snd]. rewrite Hg.
  destruct live as [Hc%Z.eqb_neq Hs%Z.eqb_neq]. by rewrite Hc, Hs.
Qed.

(** ** What a run asks of the device *)

(** Session, request, sizes of request and response: without error?, size, answer. *)
Definition exchanged (request : tdisp_request) (request_size response_size : Z) : io State (bool * Z * tdisp_response) :=
  let+ (status, size, response) := pci_tdisp_send_receive_data (session_id g) request request_size response_size in
  ret (negb (LIBSPDM_STATUS_IS_ERROR status), size, response).

Definition header_ok (message_type : Z) (r : tdisp_response) : bool :=
  (rs_version r =? PCI_TDISP_MESSAGE_VERSION_10) && (rs_message_type r =? message_type) && (rs_function_id r =? function_id).

Definition check_plan (answer : bool * Z * tdisp_response) (size_expected message_type : Z)
    (j : tdisp_response → io State bool) : io State bool :=
  let '(ok, size, response) := answer in
  if negb (ok && (size =? size_expected)) then ret false else
  let+ b := j response in ret (header_ok message_type response && b).

Definition state_plan (state : Z) : io State bool :=
  let+ (ok, _, response) :=
    exchanged (tdisp_message function_id PCI_TDISP_GET_DEVICE_INTERFACE_STATE)
      sizeof_pci_tdisp_get_device_interface_state_request_t sizeof_pci_tdisp_device_interface_state_response_t in
  ret (ok && (rs_tdi_state response =? state)).

#[local] Abbreviation sim cls id m plan d t ok :=
  (simulates g cls id (m : test _) plan d t (λ (b : bool) _ ok' tested', ok' = ok && b ∧ tested' = true)).

Lemma exchange_simulates cls id request rsize size (d : State) t ok tested :
  at_test g cls id ok tested t →
  simulates g cls id (tdisp_test_exchange request rsize size : test _) (exchanged request rsize size) d t
    (λ b a ok' tested', a = b ∧ ok' = ok ∧ tested' = tested).
Proof.
  intros Hat. unfold tdisp_test_exchange, tdisp_send. eapply simulates_quiet; [apply assert_context_live, Hat|].
  eapply simulates_quiet; [unfold get_group; cbn [snd]; by rewrite (proj1 Hat)|]. unfold exchanged.
  eapply simulates_bind; [eapply simulates_machine; exact Hat|].
  intros [[status n] r] b d' t' ok' tested' A (<- & -> & ->). by eapply simulates_ret.
Qed.

Lemma send_simulates cls id request rsize size (d : State) t ok tested :
  at_test g cls id ok tested t →
  simulates g cls id (tdisp_send request rsize size : test _) (exchanged request rsize size) d t
    (λ b a ok' tested', a = b ∧ ok' = ok ∧ tested' = tested).
Proof.
  intros Hat. unfold tdisp_send.
  eapply simulates_quiet; [unfold get_group; cbn [snd]; by rewrite (proj1 Hat)|]. unfold exchanged.
  eapply simulates_bind; [eapply simulates_machine; exact Hat|].
  intros [[status n] r] b d' t' ok' tested' A (<- & -> & ->). by eapply simulates_ret.
Qed.

(** One assertion, then the rest. *)
Lemma simulates_record {A B} cls id aid b message (k : unit → test A) (plan : io State B) d t ok tested post :
  at_test g cls id ok tested t →
  (∀ t', at_test g cls id (ok && b) true t' → simulates g cls id (k tt) plan d t' post) →
  simulates g cls id (Hardware.bind (record_test cls id aid b message) k) plan d t post.
Proof.
  intros Hat Hk. destruct (record_test_at g cls id ok tested aid b message d t Hat) as (t' & E & A').
  eapply simulates_quiet; [exact E|]. by apply Hk.
Qed.

(** The last assertion. *)
Lemma simulates_verdict cls id aid b message (d : State) t ok tested :
  at_test g cls id ok tested t → sim cls id (record_test cls id aid b message) (ret b) d t ok.
Proof.
  intros Hat. destruct (record_test_at g cls id ok tested aid b message d t Hat) as (t' & E & A').
  exists tt, t', (ok && b), true. done.
Qed.

Lemma check_state_simulates aid state cls id (d : State) t ok :
  at_test g cls id ok true t → sim cls id (check_state function_id aid state cls id) (state_plan state) d t ok.
Proof.
  intros Hat. unfold check_state, state_plan. eapply simulates_bind; [by apply exchange_simulates|].
  intros a b d' t' ok' tested' A (-> & -> & ->). destruct b as [[b n] r]. destruct b; cbn [negb andb];
    by eapply simulates_verdict.
Qed.

Lemma tdisp_check_simulates always answer size type cls id k j (d : State) t ok tested :
  at_test g cls id ok tested t →
  (∀ r t' ok', at_test g cls id ok' true t' → sim cls id (k r) (j r) d t' ok') →
  sim cls id (tdisp_check function_id always answer size type cls id k) (check_plan answer size type j) d t ok.
Proof.
  intros Hat Hk. destruct answer as [[b n] r]. unfold tdisp_check, check_plan.
  destruct b; cbn [negb andb orb].
  2: { rewrite orb_true_r. eapply simulates_record; [exact Hat|]. intros t' A.
       eapply simulates_ret; [exact A|]. by rewrite andb_false_r. }
  assert (Hrest : ∀ t tested, at_test g cls id ok tested t →
    sim cls id (let+ _ := record_test cls id 1 (n =? size) (tdisp_message_size n) in
                if negb (n =? size) then ret tt else
                let+ _ := check_header function_id type cls id r in k r)
      (if negb (n =? size) then ret false else let+ b := j r in ret (header_ok type r && b)) d t ok).
  { clear t tested Hat. intros t tested Hat. eapply simulates_record; [exact Hat|]. intros t1 A1.
    destruct (n =? size); cbn [negb]; [|eapply simulates_ret; [exact A1|done]].
    unfold check_header, header_ok.
    destruct (record_test_at g cls id _ _ 2 (rs_version r =? PCI_TDISP_MESSAGE_VERSION_10)
      (tdisp_field (bs "TDISPVersion") (rs_version r)) d t1 A1) as (t2 & E2 & A2).
    destruct (record_test_at g cls id _ _ 3 (rs_message_type r =? type)
      (tdisp_field (bs "MessageType") (rs_message_type r)) d t2 A2) as (t3 & E3 & A3).
    destruct (record_test_at g cls id _ _ 4 (rs_function_id r =? function_id)
      (tdisp_field (bs "INTERFACE_ID") (rs_function_id r)) d t3 A3) as (t4 & E4 & A4).
    eapply simulates_quiet; [by rewrite (bind_Ok _ _ _ _ _ E2), (bind_Ok _ _ _ _ _ E3)|].
    pose proof (Hk r t4 _ A4) as Hs. apply simulates_map. eapply simulates_weaken; [exact Hs|].
    intros b' [] ok' tested' (-> & ->). split; [|done]. by rewrite andb_true_r, !andb_assoc. }
  destruct always; cbn [orb].
  - eapply simulates_record; [exact Hat|]. intros t' A. rewrite andb_true_r in A. by apply (Hrest t' true).
  - eapply simulates_quiet; [done|]. by apply (Hrest t tested).
Qed.

(** ** Tests of one message
    The message, the answer that is expected (its size, its type, the code of an
    error), and the state of the interface afterwards. *)
Record expectation := {
  ex_request : tdisp_request;
  ex_request_size : Z;
  ex_size : Z;
  ex_type : Z;
  ex_code : option Z;
  ex_state : Z
}.

Definition code_ok (ex : expectation) (r : tdisp_response) : bool :=
  match ex_code ex with Some c => rs_error_code r =? c | None => true end.

(** Is everything as expected? *)
Definition message_plan (ex : expectation) : io State bool :=
  let+ answer := exchanged (ex_request ex) (ex_request_size ex) (ex_size ex) in
  check_plan answer (ex_size ex) (ex_type ex) (λ r, let+ b := state_plan (ex_state ex) in ret (code_ok ex r && b)).

(** The request is answered and the state is [state] after it. *)
Definition granted (request : tdisp_request) (request_size size type state : Z) : expectation :=
  {| ex_request := request; ex_request_size := request_size; ex_size := size; ex_type := type; ex_code := None;
     ex_state := state |}.
(** The request is refused with an error and the state is [state] after it. *)
Definition refused (request : tdisp_request) (request_size code state : Z) : expectation :=
  {| ex_request := request; ex_request_size := request_size; ex_size := sizeof_pci_tdisp_error_response_t;
     ex_type := PCI_TDISP_ERROR; ex_code := Some code; ex_state := state |}.

Definition static_in (name : string) (v : tdisp_vars) : tdisp_static := default zero_static (v !! name).

Definition lock_expected (name : string) (v : tdisp_vars) (code state : Z) : expectation :=
  refused (lock_message function_id (rsp_caps_flags (static_in name v))) sizeof_pci_tdisp_lock_interface_request_t code state.
Definition start_expected (name : string) (change : Z → Z) (v : tdisp_vars) (code state : Z) : expectation :=
  refused (start_message function_id (map change (lock_nonce (static_in name v)))) sizeof_pci_tdisp_start_interface_request_t
    code state.
Definition report_expected (offset length code state : Z) : expectation :=
  refused (report_message function_id offset length) sizeof_pci_tdisp_get_device_interface_report_request_t code state.
Definition stop_expected : expectation :=
  granted (tdisp_message function_id PCI_TDISP_STOP_INTERFACE_REQ) sizeof_pci_tdisp_stop_interface_request_t
    sizeof_pci_tdisp_stop_interface_response_t PCI_TDISP_STOP_INTERFACE_RSP PCI_TDISP_INTERFACE_STATE_CONFIG_UNLOCKED.

(** What the run functions of one message expect, by their names. *)
Definition expectations : list (string * (tdisp_vars → expectation)) :=
  [("tdisp_test_lock_interface_1_run"%string, λ v,
      granted (lock_message function_id (rsp_caps_flags (static_in "lock_interface_1" v)))
        sizeof_pci_tdisp_lock_interface_request_t sizeof_pci_tdisp_lock_interface_response_t
        PCI_TDISP_LOCK_INTERFACE_RSP PCI_TDISP_INTERFACE_STATE_CONFIG_LOCKED);
   ("tdisp_test_lock_interface_2_run"%string, λ v,
      lock_expected "lock_interface_2" v PCI_TDISP_ERROR_CODE_INVALID_REQUEST PCI_TDISP_INTERFACE_STATE_CONFIG_UNLOCKED);
   ("tdisp_test_lock_interface_3_run"%string, λ v,
      lock_expected "lock_interface_3" v PCI_TDISP_ERROR_CODE_INVALID_INTERFACE_STATE PCI_TDISP_INTERFACE_STATE_CONFIG_LOCKED);
   ("tdisp_test_lock_interface_4_run"%string, λ v,
      lock_expected "lock_interface_4" v PCI_TDISP_ERROR_CODE_INVALID_INTERFACE_STATE PCI_TDISP_INTERFACE_STATE_RUN);
   ("tdisp_test_interface_report_3_run"%string, λ _,
      report_expected 0xFFFF 1 PCI_TDISP_ERROR_CODE_INVALID_REQUEST PCI_TDISP_INTERFACE_STATE_CONFIG_LOCKED);
   ("tdisp_test_interface_report_4_run"%string, λ _,
      report_expected 0 LIBTDISP_INTERFACE_REPORT_PORTION_LEN PCI_TDISP_ERROR_CODE_INVALID_INTERFACE_STATE
        PCI_TDISP_INTERFACE_STATE_CONFIG_UNLOCKED);
   ("tdisp_test_start_interface_1_run"%string, λ v,
      granted (start_message function_id (lock_nonce (static_in "start_interface_1" v)))
        sizeof_pci_tdisp_start_interface_request_t sizeof_pci_tdisp_start_interface_response_t
        PCI_TDISP_START_INTERFACE_RSP PCI_TDISP_INTERFACE_STATE_RUN);
   ("tdisp_test_start_interface_2_run"%string, λ v,
      start_expected "start_interface_2" (λ b, Z.lxor b 0xff) v PCI_TDISP_ERROR_CODE_INVALID_NONCE
        PCI_TDISP_INTERFACE_STATE_CONFIG_LOCKED);
   ("tdisp_test_start_interface_3_run"%string, λ v,
      start_expected "start_interface_3" id v PCI_TDISP_ERROR_CODE_INVALID_INTERFACE_STATE
        PCI_TDISP_INTERFACE_STATE_CONFIG_UNLOCKED);
   ("tdisp_test_start_interface_4_run"%string, λ v,
      start_expected "start_interface_4" id v PCI_TDISP_ERROR_CODE_INVALID_INTERFACE_STATE PCI_TDISP_INTERFACE_STATE_RUN);
   ("tdisp_test_stop_interface_1_run"%string, λ _, stop_expected);
   ("tdisp_test_stop_interface_2_run"%string, λ _, stop_expected);
   ("tdisp_test_stop_interface_3_run"%string, λ _, stop_expected)].

Lemma static_of_vars name (d : State) (t : test_state) : static_of name (d, t) = Ok (static_in name (vars t), (d, t)).
Proof. done. Qed.

Lemma granted_simulates request rsize size type state cls id (d : State) t :
  at_test g cls id true false t →
  sim cls id (let+ answer := tdisp_test_exchange request rsize size in
              tdisp_check function_id true answer size type cls id (λ _, check_state function_id 5 state cls id))
    (message_plan (granted request rsize size type state)) d t true.
Proof.
  intros Hat. unfold message_plan. cbn [ex_request ex_request_size ex_size ex_type ex_state granted].
  eapply simulates_bind; [by apply exchange_simulates|]. intros a b d' t' ok tested A (-> & -> & ->).
  eapply tdisp_check_simulates; [exact A|]. intros r t1 ok1 A1. apply simulates_map.
  eapply simulates_weaken; [by apply check_state_simulates|]. intros b' [] ok' tested' (-> & ->). done.
Qed.

Lemma refused_simulates always (send : test (bool * Z * tdisp_response)) request rsize code state cls id (d : State) t :
  at_test g cls id true false t →
  simulates g cls id send (exchanged request rsize sizeof_pci_tdisp_error_response_t) d t
    (λ b a ok' tested', a = b ∧ ok' = true ∧ tested' = false) →
  sim cls id (let+ answer := send in run_refused function_id always answer code state cls id)
    (message_plan (refused request rsize code state)) d t true.
Proof.
  intros Hat Hsend. unfold message_plan, run_refused. cbn [ex_request ex_request_size ex_size ex_type ex_state refused].
  eapply simulates_bind; [exact Hsend|]. intros a b d' t' ok tested A (-> & -> & ->).
  eapply tdisp_check_simulates; [exact A|]. intros r t1 ok1 A1. apply simulates_map.
  eapply simulates_record; [exact A1|]. intros t2 A2.
  eapply simulates_weaken; [by apply check_state_simulates|]. intros b' [] ok' tested' (-> & ->).
  split; [|done]. unfold code_ok. cbn [ex_code refused]. by rewrite andb_assoc.
Qed.

Lemma tdisp_names rounds : NoDup (tdisp_test_code g_teeio_fixed_key function_id rounds).*1.
Proof. apply (bool_decide_unpack _). vm_compute. exact I. Qed.

Lemma message_runs_simulate rounds :
  Forall (λ e, ∃ r, find_code (fst e) (tdisp_test_code g_teeio_fixed_key function_id rounds) = Some (Run r) ∧
    ∀ cls id (d : State) t, at_test g cls id true false t → sim cls id (r cls id) (message_plan (snd e (vars t))) d t true)
    expectations.
Proof.
  unfold expectations.
  repeat (apply Forall_cons; split; [eexists; split; [cbn [fst]; in_table tdisp_names|]|]); [..|by apply Forall_nil].
  all: intros cls id d t Hat; cbn [fst snd]; unfold lock_expected, start_expected, report_expected, stop_expected.
  all: eapply simulates_quiet; [exact (assert_context_live d t (proj1 Hat))|]; cbv beta.
  all: unfold tdisp_test_lock_interface, tdisp_test_start_interface, stop_run, tdisp_test_stop_interface.
  all: lazymatch goal with |- simulates _ _ _ (Hardware.bind (static_of _) _) _ _ _ _ =>
         eapply simulates_quiet; [apply static_of_vars|]; cbv beta | _ => idtac end.
  all: lazymatch goal with
       | |- simulates _ _ _ _ (message_plan (granted _ _ _ _ _)) _ _ _ => by apply granted_simulates
       | |- simulates _ _ _ _ (message_plan (refused _ _ _ _)) _ _ _ => apply refused_simulates; [done|]
       | _ => idtac
       end.
  all: by first [apply exchange_simulates|apply send_simulates].
Qed.

(** ** The interface report, put together *)

Lemma copy_report_Ok buf offset data :
  0 ≤ offset → offset + Z.of_nat (length data) ≤ Z.of_nat (length buf) →
  ∃ buf', copy_report buf offset data = Ok buf' ∧ length buf' = length buf ∧
    take (Z.to_nat offset + length data) buf' = take (Z.to_nat offset) buf ++ map Some data.
Proof.
  intros Ho Hl. unfold copy_report. rewrite (proj2 (Z.leb_le _ _)) by done. rewrite (proj2 (Z.leb_le _ _)) by done.
  eexists. split; [done|]. split.
  - rewrite !length_app, length_map, length_take, length_drop. lia.
  - rewrite app_assoc. apply take_app_length'. rewrite length_app, length_map, length_take. lia.
Qed.

Section report.
(** The report [R] is served while the machine satisfies [serving], in
    portions that are not empty. *)
Context (R : bytes) (serving : State → Prop).
Definition serves_report : Prop := ∀ offset len s,
  serving s → 0 ≤ offset < Z.of_nat (length R) → 0 < len →
  ∃ status r s', pci_tdisp_send_receive_data (session_id g) (report_message function_id offset len)
      sizeof_pci_tdisp_get_device_interface_report_request_t sizeof_pci_tdisp_device_interface_report_response_mine_t s =
      Ok (status, sizeof_pci_tdisp_device_interface_report_response_t + rs_portion_length r, r, s') ∧
    LIBSPDM_STATUS_IS_ERROR status = false ∧ header_ok PCI_TDISP_DEVICE_INTERFACE_REPORT r = true ∧
    0 < rs_portion_length r ≤ len ∧
    offset + rs_portion_length r + rs_remainder_length r = Z.of_nat (length R) ∧ 0 ≤ rs_remainder_length r ∧
    load (rs_report r) 0 (rs_portion_length r) =
      Ok (take (Z.to_nat (rs_portion_length r)) (drop (Z.to_nat offset) R)) ∧
    serving s'.

Context (serves : serves_report) (portions : 0 < LIBTDISP_INTERFACE_REPORT_PORTION_LEN).
Context (R_some : 0 < Z.of_nat (length R)) (R_short : Z.of_nat (length R) < 2 ^ 16).

(** Before a round: [offset] bytes are in the buffer. *)
Definition report_so_far (capacity : nat) (s : Z * Z * Z * report_buffer) : Prop :=
  let '(offset, remainder_length, total_report_length, buf) := s in
  0 ≤ offset < Z.of_nat (length R) ∧ length buf = capacity ∧
  take (Z.to_nat offset) buf = map Some (take (Z.to_nat offset) R) ∧
  (offset ≠ 0 → remainder_length = Z.of_nat (length R) - offset ∧ total_report_length = Z.of_nat (length R)).

Definition report_done (capacity : nat) (r : bool * report_buffer * Z) : Prop :=
  let '(ok, buf, size) := r in
  ok = true ∧ size = Z.of_nat (length R) ∧ length buf = capacity ∧ take (length R) buf = map Some R.

Definition offset_of (s : Z * Z * Z * report_buffer) : Z := s.1.1.1.

Lemma report_round_serves cls id capacity s (d : State) t ok tested :
  (length R ≤ capacity)%nat → report_so_far capacity s → serving d → at_test g cls id ok tested t →
  ∃ r d' t', report_round function_id cls id s (d, t) = Ok (r, (d', t')) ∧ serving d' ∧ at_test g cls id ok true t' ∧
    match r with
    | inl s' => report_so_far capacity s' ∧ offset_of s < offset_of s'
    | inr b => report_done capacity b
    end.
Proof.
  destruct s as [[[offset rem] total] buf]. intros Hcap (Ho & Hlen & Htake & Hstep) Hd Hat.
  unfold report_round. set (len := if offset =? 0 then _ else _).
  assert (0 < len) as Hpos.
  { unfold len. destruct (Z.eqb_spec offset 0); [lia|]. destruct Hstep as [-> _]; lia. }
  destruct (serves offset len d Hd Ho Hpos) as (status & r & d' & E & Hs & Hh & Hp & Hsum & Hrem & Hload & Hd').
  unfold header_ok in Hh. apply andb_true_iff in Hh as [Hh Hh4]. apply andb_true_iff in Hh as [Hh2 Hh3].
  assert (report_length_ok (sizeof_pci_tdisp_device_interface_report_response_t + rs_portion_length r) len r = true) as Hok.
  { unfold report_length_ok. rewrite !andb_true_iff, !Z.leb_le, Z.eqb_eq. lia. }
  destruct (record_test_at g cls id _ _ 1 true
    (tdisp_message_size (sizeof_pci_tdisp_device_interface_report_response_t + rs_portion_length r)) d' t Hat) as (t1 & E1 & A1).
  destruct (record_test_at g cls id _ _ 2 true (tdisp_field (bs "TDISPVersion") (rs_version r)) d' t1 A1) as (t2 & E2 & A2).
  destruct (record_test_at g cls id _ _ 3 true (tdisp_field (bs "MessageType") (rs_message_type r)) d' t2 A2) as (t3 & E3 & A3).
  destruct (record_test_at g cls id _ _ 4 true (tdisp_field (bs "INTERFACE_ID") (rs_function_id r)) d' t3 A3) as (t4 & E4 & A4).
  destruct (record_test_at g cls id _ _ 5 true (tdisp_field (bs "PORTION_LENGTH") (rs_portion_length r)) d' t4 A4) as (t5 & E5 & A5).
  rewrite !andb_true_r in A5.
  assert (Esend : tdisp_send (report_message function_id offset len) sizeof_pci_tdisp_get_device_interface_report_request_t
    sizeof_pci_tdisp_device_interface_report_response_mine_t (d, t) =
    Ok ((true, sizeof_pci_tdisp_device_interface_report_response_t + rs_portion_length r, r), (d', t))).
  { unfold tdisp_send, get_group, machine, Hardware.bind, Hardware.ret. cbn [res_bind fst snd].
    rewrite (proj1 Hat), E. cbn [res_bind]. by rewrite Hs. }
  rewrite (bind_Ok _ _ _ _ _ Esend). cbn [negb]. rewrite Hok. rewrite (bind_Ok _ _ _ _ _ E1). cbn [negb].
  unfold check_header. rewrite Hh2, Hh3, Hh4.
  rewrite (bind_Ok _ _ (d', t1) tt (d', t4)) by (by rewrite (bind_Ok _ _ _ _ _ E2), (bind_Ok _ _ _ _ _ E3)).
  replace (rs_portion_length r =? 0) with false by (symmetry; apply Z.eqb_neq; lia). cbn [negb].
  rewrite (bind_Ok _ _ _ _ _ E5). set (total' := if offset =? 0 then _ else _).
  assert (total' = Z.of_nat (length R)) as Htotal.
  { unfold total'. destruct (Z.eqb_spec offset 0); [lia|]. by destruct Hstep. }
  rewrite Htotal, Hlen. rewrite (proj2 (Z.ltb_ge _ _)) by lia. rewrite andb_false_r.
  unfold u32. rewrite Hsum, Z.mod_small, Z.eqb_refl, andb_false_r by lia.
  rewrite Hload. unfold Hardware.bind at 1, lift at 1. cbn [res_bind].
  set (data := take _ _). assert (Z.of_nat (length data) = rs_portion_length r) as Hdata.
  { unfold data. rewrite length_take, length_drop. lia. }
  destruct (copy_report_Ok buf offset data) as (buf' & -> & Hlen' & Htake'); [lia..|].
  unfold Hardware.bind at 1, lift at 1. cbn [res_bind].
  assert (take (Z.to_nat (offset + rs_portion_length r)) buf' = map Some (take (Z.to_nat (offset + rs_portion_length r)) R)) as Hnew.
  { replace (Z.to_nat (offset + rs_portion_length r)) with (Z.to_nat offset + length data)%nat by lia.
    rewrite Htake', Htake, <- map_app. f_equal. unfold data. rewrite length_take, length_drop.
    rewrite (Nat.min_l (Z.to_nat (rs_portion_length r))) by lia. by rewrite <- take_take_drop. }
  eexists _, d', t5. split; [reflexivity|]. split; [done|]. split; [done|].
  destruct (Z.eqb_spec (rs_remainder_length r) 0) as [Hz|Hz].
  - split_and!; [done|done|congruence|]. replace (Z.to_nat (offset + rs_portion_length r)) with (length R) in Hnew by lia.
    by rewrite Hnew, take_ge.
  - unfold offset_of, u16. cbn [fst]. rewrite (Z.mod_small (offset + rs_portion_length r)) by lia.
    split; [|lia]. split_and!; [lia|lia|congruence|done|lia].
Qed.

(** The loop, from any round on. *)
Lemma report_loop cls id capacity p s (d : State) t tested :
  (length R ≤ capacity)%nat → Z.of_nat (length R) - offset_of s ≤ Z.pos p →
  report_so_far capacity s → serving d → at_test g cls id true tested t →
  ∃ b d' t', io_while p (report_round function_id cls id) s (d, t) = Ok (b, (d', t')) ∧
    report_done capacity b ∧ serving d' ∧ at_test g cls id true true t'.
Proof.
  intros Hbuf. revert s d t tested.
  induction p as [|p IH] using Pos.peano_ind; intros s d0 t0 tested0 Hm Hs Hd0 Hat0;
    destruct (report_round_serves cls id capacity s d0 t0 true tested0 Hbuf Hs Hd0 Hat0) as (r & d1 & t1 & E & Hd1 & A1 & Hr1).
  - rewrite io_while_one, E. destruct r as [s'|b]; [|by exists b, d1, t1].
    destruct s' as [[[o1 rm] tl] bf], Hr1 as [(Ho & _) Hlt]. cbn in Ho. unfold offset_of in *. cbn in Hlt. lia.
  - rewrite io_while_succ, E. destruct r as [s'|b]; [|by exists b, d1, t1].
    destruct Hr1 as [Hs' Hlt]. by apply (IH s' d1 t1 true); [lia|..].
Qed.

Lemma report_read_whole rounds cls id (buf : report_buffer) (d : State) t tested :
  Z.of_nat (length R) ≤ Z.pos rounds → (length R ≤ length buf)%nat → serving d → at_test g cls id true tested t →
  ∃ b d' t', tdisp_test_get_interface_report function_id rounds cls id buf (d, t) = Ok (b, (d', t')) ∧
    report_done (length buf) b ∧ serving d' ∧ at_test g cls id true true t'.
Proof.
  intros Hr Hbuf Hd Hat. unfold tdisp_test_get_interface_report.
  rewrite (bind_Ok _ _ _ _ _ (assert_context_live d t (proj1 Hat))).
  eapply report_loop; [done| |split_and!|done|exact Hat]; try done; unfold offset_of; cbn; lia.
Qed.

(** C18: The interface report is read whole from a device that serves it in
    portions that are not empty, whatever their sizes: with as many rounds as the
    report has bytes the loop ends, the buffer begins with the report, the
    length of the report is returned, and all assertions have passed. *)
Theorem report_reassembled rounds cls id (buf : report_buffer) (d : State) t tested :
  Z.of_nat (length R) ≤ Z.pos rounds → (length R ≤ length buf)%nat → serving d → at_test g cls id true tested t →
  ∃ buf' d' t', tdisp_test_get_interface_report function_id rounds cls id buf (d, t) =
      Ok ((true, buf', Z.of_nat (length R)), (d', t')) ∧
    length buf' = length buf ∧ take (length R) buf' = map Some R ∧ serving d' ∧ at_test g cls id true true t'.
Proof.
  intros Hr Hbuf Hd Hat.
  destruct (report_read_whole rounds cls id buf d t tested Hr Hbuf Hd Hat)
    as ([[ok buf'] size] & d' & t' & E & (-> & -> & Hl & Ht) & Hd' & A').
  by exists buf', d', t'.
Qed.

End report.

(** A device that answers with an empty portion and says that bytes remain. *)
Definition serves_nothing (serving : State → Prop) : Prop := ∀ s,
  serving s →
  ∃ status r s', pci_tdisp_send_receive_data (session_id g) (report_message function_id 0 LIBTDISP_INTERFACE_REPORT_PORTION_LEN)
      sizeof_pci_tdisp_get_device_interface_report_request_t sizeof_pci_tdisp_device_interface_report_response_mine_t s =
      Ok (status, sizeof_pci_tdisp_device_interface_report_response_t, r, s') ∧
    LIBSPDM_STATUS_IS_ERROR status = false ∧ rs_portion_length r = 0 ∧ 0 < rs_remainder_length r ≤ Z.of_nat LIBTDISP_INTERFACE_REPORT_MAX_SIZE ∧
    serving s'.

Lemma empty_round serving cls id rem tot (d : State) t ok tested :
  serves_nothing serving → 0 < LIBTDISP_INTERFACE_REPORT_PORTION_LEN → serving d → at_test g cls id ok tested t →
  ∃ rem' tot' d' t' ok', report_round function_id cls id (0, rem, tot, fresh_report_buffer) (d, t) =
      Ok (inl (0, rem', tot', fresh_report_buffer), (d', t')) ∧ serving d' ∧ at_test g cls id ok' true t'.
Proof.
  intros Hserve Hpos Hd Hat. destruct (Hserve d Hd) as (status & r & d' & E & Hs & Hp & Hrem & Hd').
  unfold report_round. cbn [Z.eqb].
  assert (Hok : report_length_ok sizeof_pci_tdisp_device_interface_report_response_t LIBTDISP_INTERFACE_REPORT_PORTION_LEN r = true).
  { unfold report_length_ok. rewrite !andb_true_iff, !Z.leb_le, Z.eqb_eq. lia. }
  destruct (record_test_at g cls id _ _ 1 true
    (tdisp_message_size sizeof_pci_tdisp_device_interface_report_response_t) d' t Hat) as (t1 & E1 & A1).
  destruct (record_test_at g cls id _ _ 2 (rs_version r =? PCI_TDISP_MESSAGE_VERSION_10)
    (tdisp_field (bs "TDISPVersion") (rs_version r)) d' t1 A1) as (t2 & E2 & A2).
  destruct (record_test_at g cls id _ _ 3 (rs_message_type r =? PCI_TDISP_DEVICE_INTERFACE_REPORT)
    (tdisp_field (bs "MessageType") (rs_message_type r)) d' t2 A2) as (t3 & E3 & A3).
  destruct (record_test_at g cls id _ _ 4 (rs_function_id r =? function_id)
    (tdisp_field (bs "INTERFACE_ID") (rs_function_id r)) d' t3 A3) as (t4 & E4 & A4).
  destruct (record_test_at g cls id _ _ 5 false (tdisp_field (bs "PORTION_LENGTH") 0) d' t4 A4) as (t5 & E5 & A5).
  assert (Esend : tdisp_send (report_message function_id 0 LIBTDISP_INTERFACE_REPORT_PORTION_LEN)
    sizeof_pci_tdisp_get_device_interface_report_request_t
    sizeof_pci_tdisp_device_interface_report_response_mine_t (d, t) =
    Ok ((true, sizeof_pci_tdisp_device_interface_report_response_t, r), (d', t))).
  { unfold tdisp_send, get_group, machine, Hardware.bind, Hardware.ret. cbn [res_bind fst snd].
    rewrite (proj1 Hat), E. cbn [res_bind]. by rewrite Hs. }
  rewrite (bind_Ok _ _ _ _ _ Esend). cbn [negb]. rewrite Hok. rewrite (bind_Ok _ _ _ _ _ E1). cbn [negb].
  unfold check_header.
  rewrite (bind_Ok _ _ (d', t1) tt (d', t4)) by (rewrite (bind_Ok _ _ _ _ _ E2), (bind_Ok _ _ _ _ _ E3); exact E4).
  rewrite Hp. cbn [Z.eqb negb andb]. rewrite (bind_Ok _ _ _ _ _ E5).
  assert (length fresh_report_buffer = LIBTDISP_INTERFACE_REPORT_MAX_SIZE) as Hlen by apply length_replicate.
  rewrite Hlen, (proj2 (Z.ltb_ge _ _)) by lia.
  assert (load (rs_report r) 0 0 = Ok []) as ->.
  { unfold load, in_object. cbn. by destruct (rs_report r). }
  assert (copy_report fresh_report_buffer 0 [] = Ok fresh_report_buffer) as Hcopy.
  { unfold copy_report. rewrite (proj2 (Z.leb_le (0 + _) _)) by (cbn [length]; lia). done. }
  unfold Hardware.bind, lift. cbn [res_bind]. rewrite Hcopy. cbn [res_bind]. rewrite (proj2 (Z.eqb_neq _ _)) by lia.
  eexists _, _, d', t5, _. split; [reflexivity|]. split; [done|exact A5].
Qed.

(** C34: Against a device that answers with empty portions the loop never ends:
    the failed assertion 5 does not leave it, and the offset stays. *)
Theorem report_empty_portions_never_end serving rounds cls id (d : State) t tested :
  serves_nothing serving → 0 < LIBTDISP_INTERFACE_REPORT_PORTION_LEN → serving d → at_test g cls id true tested t →
  tdisp_test_get_interface_report function_id rounds cls id fresh_report_buffer (d, t) = Stop NoFuel.
Proof.
  intros Hserve Hpos Hd Hat. unfold tdisp_test_get_interface_report.
  rewrite (bind_Ok _ _ _ _ _ (assert_context_live d t (proj1 Hat))).
  generalize 0 at 2 as rem. generalize 0 at 2 as tot. intros tot rem. revert tot rem d t tested Hd Hat. generalize true.
  induction rounds as [|p IH] using Pos.peano_ind; intros ok tot rem d t tested Hd Hat;
    destruct (empty_round serving cls id rem tot d t ok tested Hserve Hpos Hd Hat) as (rem' & tot' & d' & t' & ok' & E & Hd' & A').
  - by rewrite io_while_one, E.
  - rewrite io_while_succ, E. by eapply IH.
Qed.

(** C17: The verdict of the TDISP tests of one message is about the device.  On a
    fresh case such a test does to the machine what [message_plan] says for its
    expectation: one message, and if it is answered in the expected size, a question for the
    state.  The verdict is PASS when the answer's header, its error code
    and the state are as expected, and FAILED in every other case. *)
Theorem message_verdict rounds f ex cls id (d : State) t :
  (f, ex) ∈ expectations → group t = g → at_case cls id true false (test_results t) →
  ∃ r, find_code f (tdisp_test_code g_teeio_fixed_key function_id rounds) = Some (Run r) ∧
    match message_plan (ex (vars t)) d with
    | Stop e => r cls id (d, t) = Stop e
    | Ok (ok, d') =>
        ∃ t', r cls id (d, t) = Ok (tt, (d', t')) ∧
          teeio_test_case_result cls id (test_results t') =
            Ok (if ok then TEEIO_TEST_RESULT_PASS else TEEIO_TEST_RESULT_FAILED)
    end.
Proof.
  intros Hf Hg Hat. destruct (proj1 (Forall_forall _ _) (message_runs_simulate rounds) _ Hf) as (r & Hr & Hs). cbn [fst snd] in *.
  exists r. split; [exact Hr|]. specialize (Hs cls id d t (conj Hg Hat)). unfold simulates in Hs. destruct (message_plan _ d) as [[ok d']|e]; [|done].
  destruct Hs as ([] & t' & ok' & tested' & E & [_ Hc] & -> & ->). exists t'. split; [done|].
  rewrite (case_result_at _ _ _ _ _ Hc). by destruct ok.
Qed.

End tdisp.

End TdispSpec.
