(* ===== verification/TdispDevice.v ===== *)
(** * A device that follows TDISP passes the TDISP tests
    The protocol as a device promises it: an interface that is unlocked, with or
    without a stream, locked with a nonce, or running, and what each message
    answers and does in each state.  Against such a device every case of the library
    gets into its state, passes, and leaves the interface unlocked. *)

From Stdlib Require Import ZArith Lia Ascii String.
From stdpp Require Import prelude gmap strings.
From S2P Require Import Prelude Utils Libspdm TestConfig Results Engine TestLib Hardware PcieIde Kcbar Doe IdeKm Ports Spdm Tests TestsSpec PcieTests PcieGroup PcieTestsSpec PcieRun Tdisp TdispSpec.

Open Scope Z_scope.
Open Scope teeio_scope.

Module TdispDevice.
Import TestConfig Results Engine Hardware PcieIde Kcbar Doe IdeKm Ports Spdm Tests TestsSpec PcieTests PcieGroup Tdisp TdispSpec.

(** ** The protocol *)

Inductive tdi := Unlocked (stream : bool) | Locked (nonce : bytes) | Running.

Section device.
Context {D : Type} `{Bus D} `{Clock D} `{Os D} `{Alloc (D * process)} `{Libspdm}.
Context `{IdeKmRequester (D * process)} `{IdeKmTester (D * process)} `{SpdmRequester (D * process)} `{DoeDiscovery (D * process)}.
Context `{TdispRequester (D * process)}.
Context (g_teeio_fixed_key : bool) (function_id : Z) (g : pcie_ide_test_group_context_t).
#[local] Abbreviation State := (D * process)%type.
#[local] Abbreviation test := (Tests.test D pcie_ide_test_group_context_t tdisp_vars).
#[local] Abbreviation test_state := (test_state pcie_ide_test_group_context_t tdisp_vars).

Definition state_code (x : tdi) : Z :=
  match x with
  | Unlocked _ => PCI_TDISP_INTERFACE_STATE_CONFIG_UNLOCKED
  | Locked _ => PCI_TDISP_INTERFACE_STATE_CONFIG_LOCKED
  | Running => PCI_TDISP_INTERFACE_STATE_RUN
  end.

(** What the run of the capabilities test accepts: the bits of the messages it lists, and nothing more. *)
Definition capabilities_accepted (caps : tdisp_caps) : bool :=
  (dsm_caps caps =? 0) &&
  ((le (take 2 (req_msg_supported caps)) =? 0x00FE) && (foldr Z.lor 0 (drop 2 (req_msg_supported caps)) =? 0)) &&
  (Z.land (lock_interface_flags_supported caps) 0xFFE0 =? 0) && (52 <=? dev_addr_width caps) &&
  (0 <? num_req_this caps) && (0 <? num_req_all caps).

(** What doc/tdisp_test/TdispTestCase/2.TdispCapabilities.md asks for in the assertions 2.1.5 to 2.1.10. *)
Definition capabilities_documented (caps : tdisp_caps) : bool :=
  let bits := le (take 2 (req_msg_supported caps)) in
  (dsm_caps caps =? 0) &&
  ((Z.land bits 0x007F =? 0x007F) && (Z.land bits 0xF800 =? 0) && (foldr Z.lor 0 (drop 2 (req_msg_supported caps)) =? 0)) &&
  (Z.land (lock_interface_flags_supported caps) 0xFFE0 =? 0) && (52 <=? dev_addr_width caps) &&
  (0 <? num_req_this caps) && (0 <? num_req_all caps).

(** The two never agree: bit 0 is asked for in the documentation, and must not be set for the test. *)
Lemma documented_not_accepted caps : capabilities_documented caps = true → capabilities_accepted caps = false.
Proof.
  unfold capabilities_documented, capabilities_accepted. set (bits := le _).
  destruct (Z.eqb_spec bits 0x00FE) as [->|]; [|by rewrite andb_false_l, andb_false_r].
  change (Z.land 0x00FE 0x007F =? 0x007F) with false. by rewrite !andb_false_l, andb_false_r.
Qed.

(** The device is [alive], its interface in the state [tdi_of], its report is [R], its capabilities are [C]. *)
Context (alive : State → Prop) (tdi_of : State → tdi) (R : bytes) (C : tdisp_caps).

(** A message in the state [x] is answered: size, type, and what holds of the
    answer and of the state after it. *)
Definition answers (request : tdisp_request) (request_size response_size : Z) (x : tdi) (size type : Z)
    (Q : tdisp_response → tdi → Prop) : Prop := ∀ s,
  alive s → tdi_of s = x →
  ∃ status r s', pci_tdisp_send_receive_data (session_id g) request request_size response_size s = Ok (status, size, r, s') ∧
    LIBSPDM_STATUS_IS_ERROR status = false ∧ header_ok function_id type r = true ∧ alive s' ∧ Q r (tdi_of s').

(** A message is refused: the error [code], and nothing changes. *)
Definition refuses (request : tdisp_request) (request_size : Z) (x : tdi) (code : Z) : Prop :=
  answers request request_size sizeof_pci_tdisp_error_response_t x sizeof_pci_tdisp_error_response_t PCI_TDISP_ERROR
    (λ r x', rs_error_code r = code ∧ x' = x).

Definition lock_size : Z := sizeof_pci_tdisp_lock_interface_response_t.
Definition start_size : Z := sizeof_pci_tdisp_start_interface_response_t.

Record follows_tdisp : Prop := {
  d_version x : answers (tdisp_message function_id PCI_TDISP_GET_VERSION) sizeof_pci_tdisp_get_version_request_t
    sizeof_pci_tdisp_version_response_mine_t x sizeof_pci_tdisp_version_response_mine_t PCI_TDISP_VERSION
    (λ r x', rs_version_num_count r = 1 ∧ rs_version_num_entry r = PCI_TDISP_MESSAGE_VERSION_10 ∧ x' = x);
  d_capabilities x : answers (tdisp_message function_id PCI_TDISP_GET_CAPABILITIES)
    sizeof_pci_tdisp_get_capabilities_request_t sizeof_pci_tdisp_capabilities_response_t x
    sizeof_pci_tdisp_capabilities_response_t PCI_TDISP_CAPABILITIES (λ r x', rs_caps r = C ∧ x' = x);
  d_state x : answers (tdisp_message function_id PCI_TDISP_GET_DEVICE_INTERFACE_STATE)
    sizeof_pci_tdisp_get_device_interface_state_request_t sizeof_pci_tdisp_device_interface_state_response_t x
    sizeof_pci_tdisp_device_interface_state_response_t PCI_TDISP_DEVICE_INTERFACE_STATE
    (λ r x', rs_tdi_state r = state_code x ∧ x' = x);
  (** The IDE stream of the interface. *)
  d_stream b s : alive s → tdi_of s = Unlocked b →
    ∃ s', setup_ide_stream (session_id g) g_teeio_fixed_key (mapped_kcbar_addr (upper_port g)) 0 PCI_IDE_KM_KEY_SET_K0 (k_set g)
             (rp_stream_index g) 0 IDE_TEST_TOPOLOGY_TYPE_SEL_IDE (upper_port g) (lower_port g) false s = Ok (true, s') ∧
          alive s' ∧ tdi_of s' = Unlocked true;
  d_lock flags : answers (lock_message function_id flags) sizeof_pci_tdisp_lock_interface_request_t lock_size (Unlocked true)
    lock_size PCI_TDISP_LOCK_INTERFACE_RSP
    (λ r x', x' = Locked (rs_start_interface_nonce r) ∧ rs_start_interface_nonce r ≠ []);
  d_lock_without flags : refuses (lock_message function_id flags) sizeof_pci_tdisp_lock_interface_request_t (Unlocked false)
    PCI_TDISP_ERROR_CODE_INVALID_REQUEST;
  d_lock_again flags x : (∀ b, x ≠ Unlocked b) →
    refuses (lock_message function_id flags) sizeof_pci_tdisp_lock_interface_request_t x PCI_TDISP_ERROR_CODE_INVALID_INTERFACE_STATE;
  d_start nonce : answers (start_message function_id nonce) sizeof_pci_tdisp_start_interface_request_t start_size (Locked nonce)
    start_size PCI_TDISP_START_INTERFACE_RSP (λ _ x', x' = Running);
  d_start_nonce nonce nonce' : nonce' ≠ nonce →
    refuses (start_message function_id nonce') sizeof_pci_tdisp_start_interface_request_t (Locked nonce) PCI_TDISP_ERROR_CODE_INVALID_NONCE;
  d_start_again nonce x : (∀ n, x ≠ Locked n) →
    refuses (start_message function_id nonce) sizeof_pci_tdisp_start_interface_request_t x PCI_TDISP_ERROR_CODE_INVALID_INTERFACE_STATE;
  d_stop x : answers (tdisp_message function_id PCI_TDISP_STOP_INTERFACE_REQ) sizeof_pci_tdisp_stop_interface_request_t
    sizeof_pci_tdisp_stop_interface_response_t x sizeof_pci_tdisp_stop_interface_response_t PCI_TDISP_STOP_INTERFACE_RSP
    (λ _ x', ∃ b, x' = Unlocked b);
  d_report x : (∀ b, x ≠ Unlocked b) → serves_report function_id g R (λ s, alive s ∧ tdi_of s = x);
  d_report_past x : (∀ b, x ≠ Unlocked b) →
    refuses (report_message function_id 0xFFFF 1) sizeof_pci_tdisp_get_device_interface_report_request_t x
      PCI_TDISP_ERROR_CODE_INVALID_REQUEST;
  d_report_unlocked b :
    refuses (report_message function_id 0 LIBTDISP_INTERFACE_REPORT_PORTION_LEN)
      sizeof_pci_tdisp_get_device_interface_report_request_t (Unlocked b) PCI_TDISP_ERROR_CODE_INVALID_INTERFACE_STATE
}.

Context (follows : follows_tdisp) (live : spdm_context g ≠ 0 ∧ session_id g ≠ 0).

(** ** Exchanges *)

Lemma exchanged_answers request rsize cap x size type Q s :
  answers request rsize cap x size type Q → alive s → tdi_of s = x →
  ∃ r s', exchanged g request rsize cap s = Ok ((true, size, r), s') ∧ header_ok function_id type r = true ∧ alive s' ∧ Q r (tdi_of s').
Proof.
  intros Ha Hs Hx. destruct (Ha s Hs Hx) as (status & r & s' & E & He & Hh & Hs' & HQ). exists r, s'.
  unfold exchanged, Hardware.bind, Hardware.ret. rewrite E. cbn [res_bind]. by rewrite He.
Qed.

Lemma exchange_answers request rsize cap x size type Q s (t : test_state) :
  answers request rsize cap x size type Q → alive s → tdi_of s = x → group t = g →
  ∃ r s', tdisp_test_exchange request rsize cap (s, t) = Ok ((true, size, r), (s', t)) ∧ header_ok function_id type r = true ∧
    alive s' ∧ Q r (tdi_of s').
Proof.
  intros Ha Hs Hx Hg. destruct (Ha s Hs Hx) as (status & r & s' & E & He & Hh & Hs' & HQ). exists r, s'.
  unfold tdisp_test_exchange. rewrite (bind_Ok _ _ _ _ _ (assert_context_live g live s t Hg)).
  unfold tdisp_send, get_group, machine, Hardware.bind, Hardware.ret. cbn [res_bind fst snd]. rewrite Hg, E. cbn [res_bind].
  by rewrite He.
Qed.

(** ** Setups *)

(** From the variables [v] and the interface in [x], [m] returns true without
    asking to skip, and [Q] holds of interface and variables. *)
Definition sets_up (v : tdisp_vars) (x : tdi) (m : test bool) (Q : tdi → tdisp_vars → Prop) : Prop := ∀ s t,
  alive s → tdi_of s = x → group t = g → skip_case t = false → vars t = v →
  ∃ s' t', m (s, t) = Ok (true, (s', t')) ∧ alive s' ∧ group t' = g ∧ skip_case t' = false ∧ Q (tdi_of s') (vars t').

Ltac exchange H :=
  match goal with
  | Hs : alive ?s, Hx : tdi_of ?s = _, Hg : group ?t = g |- _ =>
      let r := fresh "r" in let s' := fresh "s" in let E := fresh "E" in let Hh := fresh "Hh" in
      let Hs' := fresh "Hs" in let HQ := fresh "HQ" in
      destruct (exchange_answers _ _ _ _ _ _ _ s t H Hs Hx Hg) as (r & s' & E & Hh & Hs' & HQ);
      rewrite (bind_Ok _ _ _ _ _ E); cbn [negb andb]; rewrite ?Z.eqb_refl; cbn [negb]
  end.

Lemma handshake_sets_up v x k Q : (∀ flags, sets_up v x (k flags) Q) → sets_up v x (setup_handshake function_id k) Q.
Proof.
  intros Hk s t Hs Hx Hg Hsk Hv. unfold setup_handshake, tdisp_test_get_version, tdisp_test_get_capabilities.
  exchange (d_version follows x). destruct HQ as (_ & _ & Hx').
  exchange (d_capabilities follows x). destruct HQ as (_ & Hx''). by apply Hk.
Qed.

Lemma keep_flags_sets_up v x name flags m Q :
  sets_up (<[name := with_caps_flags flags (static_in name v)]> v) x m Q →
  sets_up v x (let+ _ := keep_flags name flags in m) Q.
Proof. intros Hm s t Hs Hx Hg Hsk <-. by apply (Hm s (with_vars _ t)). Qed.

Lemma stream_set b s (t : test_state) :
  alive s → tdi_of s = Unlocked b → group t = g →
  ∃ s', tdisp_test_set_ide_stream g_teeio_fixed_key PCI_IDE_KM_KEY_SET_K0 (s, t) = Ok (true, (s', t)) ∧
    alive s' ∧ tdi_of s' = Unlocked true.
Proof.
  intros Hs Hx Hg. destruct (d_stream follows b s Hs Hx) as (s' & E & Hs' & Hx'). exists s'. split; [|done].
  unfold tdisp_test_set_ide_stream. rewrite (bind_Ok _ _ _ _ _ (assert_context_live g live s t Hg)).
  unfold get_group, machine, Hardware.bind. cbn [res_bind fst snd]. by rewrite Hg, E.
Qed.

Lemma lock_sets_up v b flags keep kv k Q :
  (∀ nonce (s : State) (t : test_state), keep nonce (s, t) = Ok (tt, (s, with_vars (kv nonce (vars t)) t))) →
  (∀ nonce, nonce ≠ [] → sets_up (kv nonce v) (Locked nonce) (k nonce) Q) →
  sets_up v (Unlocked b) (setup_lock g_teeio_fixed_key function_id flags keep k) Q.
Proof.
  intros Hkeep Hk s t Hs Hx Hg Hsk Hv. unfold setup_lock.
  destruct (stream_set b s t Hs Hx Hg) as (s1 & E1 & Hs1 & Hx1). rewrite (bind_Ok _ _ _ _ _ E1). cbn [negb]. unfold tdisp_test_lock_interface.
  exchange (d_lock follows flags).
  rewrite (bind_Ok _ _ _ _ _ (Hkeep _ _ _)). cbn [negb]. destruct HQ as [Hx' Hne].
  apply (Hk _ Hne s0 (with_vars _ t)); try done. cbn. by rewrite Hv.
Qed.

Lemma keep_nothing_vars nonce (s : State) (t : test_state) : keep_nothing nonce (s, t) = Ok (tt, (s, with_vars (vars t) t)).
Proof. by destruct t. Qed.

Lemma start_sets_up v nonce m Q : sets_up v Running m Q → sets_up v (Locked nonce) (setup_start function_id nonce m) Q.
Proof.
  intros Hm s t Hs Hx Hg Hsk Hv. unfold setup_start, tdisp_test_start_interface.
  exchange (d_start follows nonce). by apply Hm.
Qed.

Lemma stop_sets_up v x m Q : (∀ b, sets_up v (Unlocked b) m Q) → sets_up v x (setup_stop function_id m) Q.
Proof.
  intros Hm s t Hs Hx Hg Hsk Hv. unfold setup_stop, tdisp_test_stop_interface.
  exchange (d_stop follows x). destruct HQ as [b Hx']. by apply (Hm b).
Qed.

Lemma done_sets_up v x name (Q : tdi → tdisp_vars → Prop) :
  Q x (<[name := with_setup_success true (static_in name v)]> v) → sets_up v x (setup_done name true) Q.
Proof. intros HQ s t Hs <- Hg Hsk <-. by exists s, (with_vars (<[name := with_setup_success true (static_in name (vars t))]> (vars t)) t). Qed.

Lemma state_sets_up v x name state (Q : tdi → tdisp_vars → Prop) :
  state = state_code x → Q x (<[name := with_setup_success true (static_in name v)]> v) →
  sets_up v x (setup_state function_id name state) Q.
Proof.
  intros -> HQ s t Hs Hx Hg Hsk Hv. unfold setup_state, setup_state_then, tdisp_test_get_state.
  exchange (d_state follows x). destruct HQ0 as [Hst Hx']. rewrite Hst, Z.eqb_refl. cbn [negb].
  by eapply (done_sets_up v x name Q HQ s0 t).
Qed.

Lemma state_stream_sets_up v b name (Q : tdi → tdisp_vars → Prop) :
  Q (Unlocked true) (<[name := with_setup_success true (static_in name v)]> v) →
  sets_up v (Unlocked b) (setup_state_then function_id name PCI_TDISP_INTERFACE_STATE_CONFIG_UNLOCKED
    (tdisp_test_set_ide_stream g_teeio_fixed_key PCI_IDE_KM_KEY_SET_K0)) Q.
Proof.
  intros HQ s t Hs Hx Hg Hsk Hv. unfold setup_state_then, tdisp_test_get_state.
  exchange (d_state follows (Unlocked b)). destruct HQ0 as [Hst Hx']. rewrite Hst, Z.eqb_refl. cbn [negb].
  destruct (stream_set b s0 t Hs0 Hx' Hg) as (s1 & E1 & Hs1 & Hx1). rewrite (bind_Ok _ _ _ _ _ E1). by eapply (done_sets_up v (Unlocked true) name Q HQ s1 t).
Qed.

Lemma stream_sets_up v b m Q :
  sets_up v (Unlocked true) m Q →
  sets_up v (Unlocked b) (let+ ok := tdisp_test_set_ide_stream g_teeio_fixed_key PCI_IDE_KM_KEY_SET_K0 in
                          if negb ok then Hardware.ret false else m) Q.
Proof.
  intros Hm s t Hs Hx Hg Hsk Hv. destruct (stream_set b s t Hs Hx Hg) as (s1 & E1 & Hs1 & Hx1).
  rewrite (bind_Ok _ _ _ _ _ E1). by apply (Hm s1 t).
Qed.

(** ** Runs *)

(** From the variables [v] and the interface in [x], on a fresh case, the run ends with
    the verdict [ok], and [Q] holds of the interface. *)
Definition runs_to (ok : bool) (v : tdisp_vars) (x : tdi) (ru : Z → Z → test unit) (Q : tdi → Prop) : Prop := ∀ cls id s t,
  alive s → tdi_of s = x → vars t = v → at_test g cls id true false t →
  ∃ s' t', ru cls id (s, t) = Ok (tt, (s', t')) ∧ at_test g cls id ok true t' ∧ alive s' ∧ Q (tdi_of s').
Abbreviation runs_well := (runs_to true).

(** By what the run asks of the device. *)
Lemma planned_run {B} cls id (m : test B) plan (s : State) t s' :
  simulates g cls id m plan s t (λ b _ ok' tested', ok' = true && b ∧ tested' = true) → plan s = Ok (true, s') →
  ∃ a t', m (s, t) = Ok (a, (s', t')) ∧ at_test g cls id true true t'.
Proof. unfold simulates. intros Hs Hp. rewrite Hp in Hs. destruct Hs as (a & t' & ok & tested & E & A & -> & ->). by exists a, t'. Qed.

Lemma state_plan_holds s x :
  alive s → tdi_of s = x → ∃ s', state_plan function_id g (state_code x) s = Ok (true, s') ∧ alive s' ∧ tdi_of s' = x.
Proof.
  intros Hs Hx. destruct (exchanged_answers _ _ _ _ _ _ _ s (d_state follows x) Hs Hx) as (r & s' & E & _ & Hs' & Hst & Hx').
  exists s'. split; [|done]. unfold state_plan. rewrite (bind_Ok _ _ _ _ _ E), Hst, Z.eqb_refl. done.
Qed.

Lemma message_plan_holds ex x (Q : tdi → Prop) s :
  answers (ex_request ex) (ex_request_size ex) (ex_size ex) x (ex_size ex) (ex_type ex)
    (λ r x', TdispSpec.code_ok ex r = true ∧ state_code x' = ex_state ex ∧ Q x') →
  alive s → tdi_of s = x →
  ∃ s', message_plan function_id g ex s = Ok (true, s') ∧ alive s' ∧ Q (tdi_of s').
Proof.
  intros Ha Hs Hx. destruct (exchanged_answers _ _ _ _ _ _ _ s Ha Hs Hx) as (r & s1 & E & Hh & Hs1 & Hcode & Hst & HQ).
  destruct (state_plan_holds s1 (tdi_of s1) Hs1 eq_refl) as (s2 & E2 & Hs2 & Hx2). exists s2. rewrite Hx2. split; [|done].
  unfold message_plan. rewrite (bind_Ok _ _ _ _ _ E). unfold check_plan. rewrite Z.eqb_refl. cbn [andb negb].
  rewrite <- Hst, (bind_Ok _ _ s1 true s2) by (by rewrite (bind_Ok _ _ _ _ _ E2), Hcode).
  by rewrite Hh.
Qed.

(** The functions of [expectations]. *)
Lemma message_runs_well rounds f ex v x (Q : tdi → Prop) :
  In (f, ex) (expectations function_id) →
  answers (ex_request (ex v)) (ex_request_size (ex v)) (ex_size (ex v)) x (ex_size (ex v)) (ex_type (ex v))
    (λ r x', TdispSpec.code_ok (ex v) r = true ∧ state_code x' = ex_state (ex v) ∧ Q x') →
  ∃ ru, find_code f (tdisp_test_code g_teeio_fixed_key function_id rounds) = Some (Run ru) ∧ runs_well v x ru Q.
Proof.
  intros Hin Ha. pose proof (message_runs_simulate g_teeio_fixed_key function_id g live rounds) as Hall.
  destruct (proj1 (List.Forall_forall _ _) Hall _ Hin) as (ru & Hru & Hs). exists ru. split; [exact Hru|].
  intros cls id s t Hal Hx Hv Hat. destruct (message_plan_holds (ex v) x Q s Ha Hal Hx) as (s' & Hp & Hal' & HQ).
  specialize (Hs cls id s t Hat). cbn [snd] in Hs. rewrite Hv in Hs.
  destruct (planned_run _ _ _ _ _ _ _ Hs Hp) as ([] & t' & E & A). by exists s', t'.
Qed.

(** Assertions made without the machine, and the verdict after them. *)
Definition gives (cls id : Z) (ok : bool) (m : test unit) (s : State) (t : test_state) : Prop :=
  ∃ t', m (s, t) = Ok (tt, (s, t')) ∧ at_test g cls id ok true t'.

Lemma gives_record cls id aid ok b message s t tested :
  at_test g cls id ok tested t → gives cls id (ok && b) (record_test cls id aid b message) s t.
Proof. intros Hat. exact (record_test_at g cls id ok tested aid b message s t Hat). Qed.

(** An assertion that holds. *)
Lemma gives_pass cls id aid ok b message s t tested :
  at_test g cls id ok tested t → b = true → gives cls id ok (record_test cls id aid b message) s t.
Proof. intros Hat ->. rewrite <- (andb_true_r ok). by eapply gives_record. Qed.

Lemma gives_bind cls id ok ok' m (k : unit → test unit) s t :
  gives cls id ok m s t → (∀ t', at_test g cls id ok true t' → gives cls id ok' (k tt) s t') → gives cls id ok' (Hardware.bind m k) s t.
Proof.
  intros (t1 & E1 & A1) Hk. destruct (Hk t1 A1) as (t2 & E2 & A2). exists t2. by rewrite (bind_Ok _ _ _ _ _ E1).
Qed.

Lemma gives_lift {A} cls id ok (r : res A) a (k : A → test unit) s t :
  r = Ok a → gives cls id ok (k a) s t → gives cls id ok (Hardware.bind (lift r) k) s t.
Proof. intros -> Hk. exact Hk. Qed.

Lemma gives_fold cls id ok (f : Z → test unit) (b : Z → bool) lo n s t :
  at_test g cls id ok true t →
  (∀ ok i t, lo ≤ i < lo + n → at_test g cls id ok true t → gives cls id (ok && b i) (f i) s t) →
  gives cls id (ok && forallb b (seqZ lo n)) (io_fold (λ i _, f i) (seqZ lo n) tt) s t.
Proof.
  destruct (Z.leb_spec n 0); [rewrite seqZ_nil by lia; intros Hat _; exists t; by rewrite andb_true_r|].
  rewrite <- (Z2Nat.id n) by lia. generalize (Z.to_nat n) as k. intros k.
  revert ok lo t. induction k as [|k IH]; intros ok lo t Hat Hf; [exists t; by rewrite andb_true_r|].
  rewrite seqZ_cons by lia. cbn [io_fold forallb]. eapply gives_bind; [apply Hf; [lia|done]|]. intros t' Hat'.
  replace (Z.pred (Z.of_nat (S k))) with (Z.of_nat k) by lia. rewrite andb_assoc. apply IH; [done|]. intros. apply Hf; [lia|done].
Qed.

Lemma check_gives cls id ok always size type k r s t tested :
  at_test g cls id true tested t → header_ok function_id type r = true →
  (∀ t', at_test g cls id true true t' → gives cls id ok (k r) s t') →
  gives cls id ok (tdisp_check function_id always (true, size, r) size type cls id k) s t.
Proof.
  intros Hat Hh Hk. unfold header_ok in Hh. apply andb_true_iff in Hh as [Hh Hh4]. apply andb_true_iff in Hh as [Hh2 Hh3].
  assert (Hrest : ∀ t tested, at_test g cls id true tested t →
    gives cls id ok (let+ _ := record_test cls id 1 (size =? size) (tdisp_message_size size) in
      if negb (size =? size) then Hardware.ret tt else let+ _ := check_header function_id type cls id r in k r) s t).
  { clear t tested Hat. intros t tested Hat. rewrite Z.eqb_refl. cbn [negb].
    eapply gives_bind; [by eapply gives_pass|]. intros t1 A1. eapply gives_bind; [|done].
    unfold check_header. eapply gives_bind; [by eapply gives_pass|]. intros t2 A2.
    eapply gives_bind; [by eapply gives_pass|]. intros t3 A3. by eapply gives_pass. }
  unfold tdisp_check. cbn [negb orb]. destruct always; cbn [orb].
  - eapply gives_bind; [by eapply gives_pass|]. intros t' A. by eapply Hrest.
  - destruct (Hrest t tested Hat) as (t' & E & A). exists t'. split; [exact E|done].
Qed.

(** An answer that is looked at and nothing else. *)
Lemma answer_runs ok v x ru request rsize size type (Q : tdi → Prop) (holds : tdisp_response → Prop)
    (k : Z → Z → tdisp_response → test unit) always :
  (∀ cls id, ru cls id = (let+ _ := assert_context in let+ answer := tdisp_test_exchange request rsize size in
                          tdisp_check function_id always answer size type cls id (k cls id))) →
  (∀ cls id r s t, holds r → at_test g cls id true true t → gives cls id ok (k cls id r) s t) →
  answers request rsize size x size type (λ r x', holds r ∧ Q x') →
  runs_to ok v x ru Q.
Proof.
  intros Hru Hk Ha cls id s t Hs Hx Hv Hat. rewrite Hru.
  destruct (exchange_answers _ _ _ _ _ _ _ s t Ha Hs Hx (proj1 Hat)) as (r & s' & E & Hh & Hs' & Hr & HQ).
  rewrite (bind_Ok _ _ _ _ _ (assert_context_live g live s t (proj1 Hat))), (bind_Ok _ _ _ _ _ E).
  destruct (check_gives cls id ok always size type (k cls id) r s' t false Hat Hh) as (t' & E' & A').
  - intros t' A. by apply Hk.
  - by exists s', t'.
Qed.

(** *** The report *)

Context (rounds : positive) (portions : 0 < LIBTDISP_INTERFACE_REPORT_PORTION_LEN).
Context (R_some : 0 < Z.of_nat (length R)) (R_short : Z.of_nat (length R) < 2 ^ 16).
Context (R_fits : (length R ≤ LIBTDISP_INTERFACE_REPORT_MAX_SIZE)%nat) (R_rounds : Z.of_nat (length R) ≤ Z.pos rounds).

Lemma report_got x cls id s t :
  (∀ b, x ≠ Unlocked b) → alive s → tdi_of s = x → at_test g cls id true false t →
  ∃ buf s' t', tdisp_test_get_interface_report function_id rounds cls id fresh_report_buffer (s, t) =
      Ok ((true, buf, Z.of_nat (length R)), (s', t')) ∧
    take (length R) buf = map Some R ∧ alive s' ∧ tdi_of s' = x ∧ at_test g cls id true true t'.
Proof.
  intros Hx Hs Hx' Hat.
  destruct (report_read_whole function_id g live R _ (d_report follows x Hx) portions R_some R_short rounds cls id
    fresh_report_buffer s t false) as ([[ok buf] size] & s' & t' & E & (-> & -> & _ & Hb) & [Hs' Hx''] & A); [lia| |done|done|].
  - unfold fresh_report_buffer. rewrite length_replicate. lia.
  - by exists buf, s', t'.
Qed.

Lemma check_state_runs aid state cls id s t x :
  alive s → tdi_of s = x → state_code x = state → at_test g cls id true true t →
  ∃ s' t', check_state function_id aid state cls id (s, t) = Ok (tt, (s', t')) ∧ at_test g cls id true true t' ∧ alive s' ∧ tdi_of s' = x.
Proof.
  intros Hs Hx <- Hat. destruct (state_plan_holds s x Hs Hx) as (s' & E & Hs' & Hx').
  destruct (planned_run cls id _ _ s t s' (check_state_simulates function_id g live aid (state_code x) cls id s t true Hat) E)
    as ([] & t' & E' & A). by exists s', t'.
Qed.

Lemma report_read_runs_well v x state :
  (∀ b, x ≠ Unlocked b) → state_code x = state → runs_well v x (report_read function_id rounds state) (λ x', x' = x).
Proof.
  intros Hx Hst cls id s t Hs Hx' Hv Hat. unfold report_read.
  rewrite (bind_Ok _ _ _ _ _ (assert_context_live g live s t (proj1 Hat))).
  destruct (report_got x cls id s t Hx Hs Hx' Hat) as (buf & s1 & t1 & E & _ & Hs1 & Hx1 & A1).
  rewrite (bind_Ok _ _ _ _ _ E). cbn [negb]. by apply (check_state_runs 6 state cls id s1 t1 x).
Qed.

(** Fields of the report: [n] bytes at [i]. *)
Definition field (i n : Z) : Z := le (take (Z.to_nat n) (drop (Z.to_nat i) R)).
Definition mmio_ranges : Z := field 12 4.
(** The report holds the ranges it announces and the length of what follows them. *)
Record report_framed : Prop := {
  rf_bytes : Forall (λ b, 0 ≤ b < 256) R;
  rf_ranges : 16 + mmio_ranges * 16 + 4 ≤ Z.of_nat (length R)
}.

(** The assertions 4.5.1 to 4.5.3 of doc/tdisp_test/TdispTestCase/4.DeviceInterfaceReport.md, which the test makes. *)
Definition report_valid : bool :=
  (Z.of_nat (length R) =? 16 + mmio_ranges * 16 + 4 + field (16 + mmio_ranges * 16) 4) &&
  (Z.land (field 0 2) 0xFFE0 =? 0) &&
  forallb (λ i, Z.land (field (16 + i * 16 + 12) 4) 0xFFF0 =? 0) (seqZ 0 mmio_ranges).

Lemma le_bytes_range l : Forall (λ b, 0 ≤ b < 256) l → 0 ≤ le l < 256 ^ Z.of_nat (length l).
Proof.
  induction 1 as [|b l Hb _ IH]; cbn [le foldr length]; [simpl; lia|]. fold (le l).
  replace (Z.of_nat (S (length l))) with (Z.of_nat (length l) + 1) by lia. rewrite Z.pow_add_r by lia. lia.
Qed.

Lemma field_range i n : Forall (λ b, 0 ≤ b < 256) R → 0 ≤ field i (Z.of_nat n) < 256 ^ Z.of_nat n.
Proof.
  intros Hb. unfold field. rewrite Nat2Z.id. pose proof (le_bytes_range (take n (drop (Z.to_nat i) R))) as [Hlo Hhi].
  { by apply Forall_take, Forall_drop. }
  split; [done|]. eapply Z.lt_le_trans; [exact Hhi|]. apply Z.pow_le_mono_r; [lia|]. rewrite length_take. lia.
Qed.

Lemma report_cell buf i :
  take (length R) buf = map Some R → 0 ≤ i < Z.of_nat (length R) →
  ∃ b, array_get buf (u32 i) = Ok (Some b) ∧ R !! Z.to_nat i = Some b.
Proof.
  intros Hb Hi. destruct (lookup_lt_is_Some_2 R (Z.to_nat i)) as [b Hbi]; [lia|]. exists b. split; [|done].
  unfold u32. rewrite Z.mod_small by lia. apply array_get_Ok. split; [lia|].
  assert (map Some R !! Z.to_nat i = Some (Some b)) as Hm by (by rewrite list_lookup_fmap, Hbi).
  rewrite <- Hb in Hm. apply lookup_take_Some in Hm. by destruct Hm.
Qed.

Lemma report_bytes_field buf i n :
  take (length R) buf = map Some R → 0 ≤ i → 0 ≤ n → i + n ≤ Z.of_nat (length R) →
  report_bytes buf (seqZ i n) = Ok (field i n).
Proof.
  intros Hb Hi Hn Hl. unfold report_bytes, field.
  assert (Hloop : ∀ k acc j, 0 ≤ j → j + Z.of_nat k ≤ Z.of_nat (length R) →
    fold_res (λ i acc, let* c := array_get buf (u32 i) in let* b := deref c in Ok (acc ++ [b])) (seqZ j (Z.of_nat k)) acc =
    Ok (acc ++ take k (drop (Z.to_nat j) R))).
  { induction k as [|k IH]; intros acc j Hj Hk; [by rewrite app_nil_r|].
    rewrite seqZ_cons by lia. cbn [fold_res]. destruct (report_cell buf j Hb) as (b & -> & Hbj); [lia|]. cbn [res_bind deref].
    replace (Z.pred (Z.of_nat (S k))) with (Z.of_nat k) by lia. rewrite IH by lia.
    replace (Z.to_nat (Z.succ j)) with (S (Z.to_nat j)) by lia.
    rewrite (drop_S R b (Z.to_nat j) Hbj). cbn [take]. by rewrite <- app_assoc. }
  specialize (Hloop (Z.to_nat n) [] i Hi). rewrite Z2Nat.id in Hloop by lia. by rewrite Hloop.
Qed.

Lemma report_word_field buf i :
  take (length R) buf = map Some R → 0 ≤ i → i + 4 ≤ Z.of_nat (length R) → report_word buf i = Ok (field i 4).
Proof.
  intros Hb Hi Hl. rewrite <- (report_bytes_field buf i 4) by lia || done. unfold report_word.
  f_equal. rewrite !seqZ_cons by lia. rewrite seqZ_nil by lia. repeat f_equal; lia.
Qed.

Lemma report_5_runs v x :
  report_framed → (∀ b, x ≠ Unlocked b) →
  runs_to report_valid v x (tdisp_test_interface_report_5_run function_id rounds) (λ x', x' = x).
Proof.
  intros [Hbytes Hl] Hx cls id s t Hs Hx' _ Hat. unfold tdisp_test_interface_report_5_run.
  rewrite (bind_Ok _ _ _ _ _ (assert_context_live g live s t (proj1 Hat))).
  destruct (report_got x cls id s t Hx Hs Hx' Hat) as (buf & s1 & t1 & E & Hb & Hs1 & Hx1 & A1).
  rewrite (bind_Ok _ _ _ _ _ E). cbn [negb]. pose proof (field_range 12 4 Hbytes) as Hm. change (field 12 (Z.of_nat 4)) with mmio_ranges in Hm.
  pose proof (field_range (16 + mmio_ranges * 16) 4 Hbytes) as Hf. change (Z.of_nat 4) with 4 in *.
  match goal with |- ∃ s' t', ?m _ = _ ∧ _ => assert (gives cls id report_valid m s1 t1) as (t' & E' & A'); [|by exists s1, t'] end.
  eapply gives_lift; [exact (report_bytes_field buf 0 2 Hb ltac:(lia) ltac:(lia) ltac:(lia))|].
  eapply gives_lift; [exact (report_word_field buf 12 Hb ltac:(lia) ltac:(lia))|].
  change (field 12 4) with mmio_ranges.
  eapply gives_lift; [exact (report_word_field buf (16 + mmio_ranges * 16) Hb ltac:(lia) ltac:(lia))|]. cbv zeta.
  set (size := 16 + mmio_ranges * 16 + 4 + field (16 + mmio_ranges * 16) 4).
  assert (Hsize : (Z.of_nat (length R) =? u32 size) = (Z.of_nat (length R) =? size)).
  { unfold u32. destruct (decide (size < 2 ^ 32)); [rewrite Z.mod_small by lia; done|].
    replace (size mod 2 ^ 32) with (size - 2 ^ 32) by (rewrite <- (Z.mod_add size (-1)), Z.mod_small by lia; lia).
    destruct (Z.eqb_spec (Z.of_nat (length R)) (size - 2 ^ 32)), (Z.eqb_spec (Z.of_nat (length R)) size); lia. }
  rewrite Hsize. unfold report_valid. fold size.
  eapply gives_bind; [by eapply gives_record|]. cbn [andb]. intros t2 A2.
  destruct (Z.of_nat (length R) =? size) eqn:Esize; cbn [negb andb] in *; [|by exists t2].
  eapply gives_bind; [by eapply gives_record|]. intros t3 A3. rewrite andb_true_l in A3.
  apply gives_fold; [exact A3|]. intros ok i t4 Hi A4.
  eapply gives_lift; [exact (report_word_field buf (16 + i * 16 + 12) Hb ltac:(lia) ltac:(lia))|]. cbv zeta.
  by eapply gives_record.
Qed.

(** ** Cases *)

(** After the teardown, on the variables [v], the interface is unlocked. *)
Definition tears_down (v : tdisp_vars) (x : tdi) (te : test unit) : Prop := ∀ s t,
  alive s → tdi_of s = x → group t = g → vars t = v →
  ∃ s' t', te (s, t) = Ok (tt, (s', t')) ∧ alive s' ∧ ∃ b, tdi_of s' = Unlocked b.

Lemma teardown_stops v x name : setup_success (static_in name v) = true → tears_down v x (tdisp_teardown function_id name).
Proof.
  intros Hset s t Hs Hx Hg Hv. unfold tdisp_teardown. rewrite (bind_Ok _ _ _ _ _ (static_of_vars name s t)), Hv, Hset. cbn [negb].
  unfold tdisp_test_stop_interface.
  destruct (exchange_answers _ _ _ _ _ _ _ s t (d_stop follows x) Hs Hx Hg) as (r & s' & E & _ & Hs' & HQ).
  exists s', t. rewrite (bind_Ok _ _ _ _ _ E). done.
Qed.

Lemma nothing_torn_down v b : tears_down v (Unlocked b) no_teardown.
Proof. intros s t Hs Hx _ _. exists s, t. split; [done|]. split; [done|]. by exists b. Qed.

(** A case in the table: the setup succeeds and does not skip, the run ends with the verdict [ok], the teardown
    leaves the interface unlocked. *)
Definition case_ends (ok : bool) (f : TestLib.ide_test_case_funcs_t) (b : bool) : Prop :=
  ∃ n1 n2 n3 su ru te,
    TestLib.tf_setup f = Some n1 ∧ TestLib.tf_run f = Some n2 ∧ TestLib.tf_teardown f = Some n3 ∧
    find_code n1 (tdisp_test_code g_teeio_fixed_key function_id rounds) = Some (Setup su) ∧
    find_code n2 (tdisp_test_code g_teeio_fixed_key function_id rounds) = Some (Run ru) ∧
    find_code n3 (tdisp_test_code g_teeio_fixed_key function_id rounds) = Some (Teardown te) ∧
    ∀ v, sets_up v (Unlocked b) su (λ x v, runs_to ok v x ru (λ x', tears_down v x' te)).
Abbreviation case_passes := (case_ends true).

Lemma static_in_insert name (v : tdisp_vars) s : static_in name (<[name := s]> v) = s.
Proof. unfold static_in. by rewrite (lookup_insert_eq (M := gmap string) v). Qed.

(** The run of a message that is refused, or granted. *)
Lemma refused_run f ru ex v x request rsize code state (Q : tdi → Prop) :
  find_code f (tdisp_test_code g_teeio_fixed_key function_id rounds) = Some (Run ru) →
  In (f, ex) (expectations function_id) → ex v = refused request rsize code state →
  refuses request rsize x code → state_code x = state → Q x → runs_well v x ru Q.
Proof.
  intros Hru Hin Hex Hr Hst HQ. destruct (message_runs_well rounds f ex v x Q Hin) as (ru' & Hru' & Hw).
  - rewrite Hex. cbn [ex_request ex_request_size ex_size ex_type ex_state refused]. intros s Hs Hx.
    destruct (Hr s Hs Hx) as (status & r & s' & E & He & Hh & Hs' & Hc & Hx'). exists status, r, s'. split_and!; try done.
    + unfold TdispSpec.code_ok. cbn. by apply Z.eqb_eq.
    + by rewrite Hx'.
    + by rewrite Hx'.
  - rewrite Hru in Hru'. by injection Hru' as <-.
Qed.

Lemma granted_run f ru ex v x request rsize size type state (Q : tdi → Prop) (Q0 : tdisp_response → tdi → Prop) :
  find_code f (tdisp_test_code g_teeio_fixed_key function_id rounds) = Some (Run ru) →
  In (f, ex) (expectations function_id) → ex v = granted request rsize size type state →
  answers request rsize size x size type Q0 → (∀ r x', Q0 r x' → state_code x' = state ∧ Q x') → runs_well v x ru Q.
Proof.
  intros Hru Hin Hex Ha HQ. destruct (message_runs_well rounds f ex v x Q Hin) as (ru' & Hru' & Hw).
  - rewrite Hex. cbn [ex_request ex_request_size ex_size ex_type ex_state granted]. intros s Hs Hx.
    destruct (Ha s Hs Hx) as (status & r & s' & E & He & Hh & Hs' & Hq). exists status, r, s'.
    destruct (HQ _ _ Hq). by split_and!.
  - rewrite Hru in Hru'. by injection Hru' as <-.
Qed.

Ltac set_up :=
  intros v;
  repeat first
    [ apply handshake_sets_up; intros ?
    | progress cbv beta
    | match goal with |- sets_up _ _ (Hardware.bind (tdisp_test_set_ide_stream _ _) _) _ => apply stream_sets_up end
    | apply keep_flags_sets_up
    | eapply (lock_sets_up _ _ _ keep_nothing (λ _ v, v) _ _ keep_nothing_vars); intros ? ?
    | eapply (lock_sets_up _ _ _ (keep_nonce _) (λ n v, <[_ := with_nonce n (static_in _ v)]> v) _ _ (λ _ _ _, eq_refl)); intros ? ?
    | apply start_sets_up
    | apply stop_sets_up; intros ?
    | apply state_sets_up; [reflexivity|]
    | apply state_stream_sets_up
    | apply done_sets_up ].

Ltac in_expectations := unfold expectations; repeat first [left; reflexivity | right].
Ltac code := unfold TestLib.case_funcs; do 6 eexists;
  split; [reflexivity|]; split; [reflexivity|]; split; [reflexivity|];
  split; [in_table tdisp_names|]; split; [in_table tdisp_names|]; split; [in_table tdisp_names|].

(** The teardown of a case whose setup succeeded. *)
Ltac torn_down := apply teardown_stops; by rewrite static_in_insert.
(** The run function [f] of a case that is refused. *)
Ltac refused_by f := eapply (refused_run f); [in_table tdisp_names|in_expectations|reflexivity| |reflexivity|torn_down].
Ltac granted_by f := eapply (granted_run f); [in_table tdisp_names|in_expectations|reflexivity| |].

Lemma locked_not_unlocked n b : Locked n ≠ Unlocked b.
Proof. done. Qed.
Lemma running_not_unlocked b : Running ≠ Unlocked b.
Proof. done. Qed.

(** A nonce with all its bits changed is another one. *)
Lemma changed_nonce n : n ≠ [] → map (λ b, Z.lxor b 0xff) n ≠ n.
Proof.
  destruct n as [|b n]; [done|]. intros _ [= Hb _]. apply (f_equal (λ x, Z.lxor b x)) in Hb.
  rewrite <- Z.lxor_assoc, Z.lxor_nilpotent in Hb. discriminate Hb.
Qed.

Abbreviation passing l b := (Forall (λ f, case_passes f b) l).
Ltac cases := repeat (apply Forall_cons; split; [code; unfold setup_locked, setup_running; set_up|]); [..|by apply Forall_nil].

(** The tests that look at one answer only. *)
Lemma version_runs_well v x (Q : tdi → Prop) : Q x → runs_well v x (tdisp_test_version_1_run function_id) Q.
Proof.
  intros HQ. eapply (answer_runs _ _ _ _ _ _ _ _ _
    (λ r, rs_version_num_count r = 1 ∧ rs_version_num_entry r = PCI_TDISP_MESSAGE_VERSION_10)); [done|..].
  - intros cls id r s t [Hc He] Hat. eapply gives_bind; [eapply gives_pass; [exact Hat|by apply Z.eqb_eq]|].
    intros t' A. eapply gives_pass; [exact A|by apply Z.eqb_eq].
  - intros s Hs Hx. destruct (d_version follows _ s Hs Hx) as (status & r & s' & E & He & Hh & Hs' & Hc & He' & Hx').
    exists status, r, s'. by rewrite Hx'.
Qed.

Lemma state_runs_well v x state (Q : tdi → Prop) : state_code x = state → Q x → runs_well v x (state_run function_id state) Q.
Proof.
  intros <- HQ. eapply (answer_runs _ _ _ _ _ _ _ _ _ (λ r, rs_tdi_state r = state_code x)); [done|..].
  - intros cls id r s t Hst Hat. eapply gives_pass; [exact Hat|by apply Z.eqb_eq].
  - intros s Hs Hx. destruct (d_state follows _ s Hs Hx) as (status & r & s' & E & He & Hh & Hs' & Hst & Hx').
    exists status, r, s'. by rewrite Hx'.
Qed.

Lemma capabilities_runs v x (Q : tdi → Prop) :
  length (req_msg_supported C) = 16%nat → Q x → runs_to (capabilities_accepted C) v x (tdisp_test_capabilities_1_run function_id) Q.
Proof.
  intros Hlen HQ. eapply (answer_runs _ _ _ _ _ _ _ _ _ (λ r, rs_caps r = C)); [done|..].
  - intros cls id r s t Hc Hat. cbv beta zeta. rewrite Hc.
    eapply gives_bind; [by eapply gives_record|]. intros t1 A1.
    eapply gives_lift.
    { unfold supported_bytes, load_le, load, in_object. rewrite Hlen. cbn [res_bind]. rewrite drop_0. reflexivity. }
    cbv beta iota. change expected_supported_bits with 0x00FE. rewrite (take_ge (drop _ _)) by (rewrite length_drop; lia).
    eapply gives_bind; [by eapply gives_record|]. intros t2 A2.
    eapply gives_bind; [by eapply gives_record|]. intros t3 A3.
    eapply gives_bind; [by eapply gives_record|]. intros t4 A4.
    eapply gives_bind; [by eapply gives_record|]. intros t5 A5.
    by eapply gives_record.
  - intros s Hs Hx. destruct (d_capabilities follows _ s Hs Hx) as (status & r & s' & E & He & Hh & Hs' & Hc & Hx').
    exists status, r, s'. by rewrite Hx'.
Qed.

(** *** The setups of the first two *)
Lemma nothing_set_up v x (Q : tdi → tdisp_vars → Prop) : Q x v → sets_up v x (Hardware.ret true) Q.
Proof. intros HQ s t Hs <- Hg Hsk <-. by exists s, t. Qed.

Lemma version_asked v x (Q : tdi → tdisp_vars → Prop) : Q x v → sets_up v x (tdisp_test_capabilities_1_setup function_id) Q.
Proof.
  intros HQ s t Hs Hx Hg Hsk Hv. unfold tdisp_test_capabilities_1_setup, tdisp_test_get_version.
  exchange (d_version follows x). destruct HQ0 as (_ & _ & Hx'). exists s0, t. by rewrite Hx', Hv.
Qed.
Lemma version_cases_pass b : passing TestLib.m_tdisp_test_version_cases b.
Proof. cases. apply nothing_set_up, version_runs_well, nothing_torn_down. Qed.

Lemma capabilities_cases_end b :
  length (req_msg_supported C) = 16%nat →
  Forall (λ f, case_ends (capabilities_accepted C) f b) TestLib.m_tdisp_test_capabilities_cases.
Proof. intros Hlen. cases. apply version_asked, capabilities_runs; [done|apply nothing_torn_down]. Qed.

Lemma lock_interface_cases_pass b :
  Forall (λ f, (TestLib.tf_setup f = Some "tdisp_test_lock_interface_2_setup"%string → b = false) → case_passes f b)
    TestLib.m_tdisp_test_lock_interface_cases.
Proof.
  repeat (apply Forall_cons; split; [intros Hb; try specialize (Hb eq_refl); subst; code; unfold setup_locked, setup_running; set_up|]); [..|by apply Forall_nil].
  - granted_by "tdisp_test_lock_interface_1_run"%string; [apply (d_lock follows)|]. intros r x' [-> _]. split; [done|torn_down].
  - refused_by "tdisp_test_lock_interface_2_run"%string. apply (d_lock_without follows).
  - refused_by "tdisp_test_lock_interface_3_run"%string. by apply (d_lock_again follows).
  - refused_by "tdisp_test_lock_interface_4_run"%string. by apply (d_lock_again follows).
Qed.

(** A nonce is there as the setup left it. *)
Ltac kept_nonce := rewrite !static_in_insert; cbn [lock_nonce with_nonce with_setup_success].

Lemma runs_to_weaken ok v x ru (Q Q' : tdi → Prop) : (∀ x', Q x' → Q' x') → runs_to ok v x ru Q → runs_to ok v x ru Q'.
Proof. intros HQ Hr cls id s t Hs Hx Hv Hat. destruct (Hr cls id s t Hs Hx Hv Hat) as (s' & t' & E & A & Hs' & H'). exists s', t'. auto. Qed.

(** The verdict on a case: two of them judge what the device says of itself. *)
Definition case_verdict (f : TestLib.ide_test_case_funcs_t) : bool :=
  match TestLib.tf_run f with
  | Some run =>
      if String.eqb run "tdisp_test_capabilities_1_run" then capabilities_accepted C
      else if String.eqb run "tdisp_test_interface_report_5_run" then report_valid
      else true
  | None => true
  end.

Lemma interface_report_cases_end b :
  Forall (λ f, (TestLib.tf_run f = Some "tdisp_test_interface_report_5_run"%string → report_framed) → case_ends (case_verdict f) f b)
    TestLib.m_tdisp_test_interface_report_cases.
Proof.
  repeat (apply Forall_cons; split; [intros Hframed; code; unfold setup_locked, setup_running; set_up|]); [..|by apply Forall_nil].
  - eapply runs_to_weaken; [|by apply report_read_runs_well]. intros x' ->. torn_down.
  - eapply runs_to_weaken; [|by apply report_read_runs_well]. intros x' ->. torn_down.
  - refused_by "tdisp_test_interface_report_3_run"%string. by apply (d_report_past follows).
  - refused_by "tdisp_test_interface_report_4_run"%string. apply (d_report_unlocked follows).
  - eapply runs_to_weaken; [|by apply report_5_runs; [apply Hframed|]]. intros x' ->. torn_down.
Qed.

Lemma interface_state_cases_pass b : passing TestLib.m_tdisp_test_interface_state_cases b.
Proof. cases; (apply state_runs_well; [reflexivity|torn_down]). Qed.

Lemma start_interface_cases_pass b : passing TestLib.m_tdisp_test_start_interface_cases b.
Proof.
  cases.
  - granted_by "tdisp_test_start_interface_1_run"%string; [kept_nonce; apply (d_start follows)|]. intros r x' ->. split; [done|torn_down].
  - refused_by "tdisp_test_start_interface_2_run"%string. kept_nonce. by apply (d_start_nonce follows), changed_nonce.
  - refused_by "tdisp_test_start_interface_3_run"%string. by apply (d_start_again follows).
  - refused_by "tdisp_test_start_interface_4_run"%string. by apply (d_start_again follows).
Qed.

Lemma stop_interface_cases_pass b : passing TestLib.m_tdisp_test_stop_interface_cases b.
Proof.
  cases.
  - granted_by "tdisp_test_stop_interface_1_run"%string; [apply (d_stop follows)|]. intros r x' [b' ->]. split; [done|torn_down].
  - granted_by "tdisp_test_stop_interface_2_run"%string; [apply (d_stop follows)|]. intros r x' [b' ->]. split; [done|torn_down].
  - granted_by "tdisp_test_stop_interface_3_run"%string; [apply (d_stop follows)|]. intros r x' [b' ->]. split; [done|torn_down].
Qed.


End device.

(** ** A device

    A machine that is nothing but the interface: registers read as constants
    (the streams of both ports are secure), K_SET_GO gives the interface its stream, and the report
    has 20 bytes that are served 16 at a time. *)
#[local] Existing Instances PcieTestsSpec.model_requester PcieTestsSpec.model_tester PcieRun.model_alloc PcieRun.model_discovery PcieRun.model_spdm.

#[local] Instance model_bus : Bus tdi := {|
  bus_read r n d := (match r with Cfg _ off => if (off =? 0x104) || (off =? 0x114) then 2 else 0 | Mmio _ => 0 end, d);
  bus_write _ _ _ d := d
|}.
#[local] Instance model_clock : Clock tdi := {| sleep_for _ d := d |}.
#[local] Instance model_os : Os tdi := {|
  os_open _ d := (-1, d); os_size _ d := (0, d); os_close _ d := d; os_keyp _ := None; os_map _ _ := None;
  os_unmap _ _ d := d; os_write_file _ _ d := d
|}.

#[local] Instance model_keys : IdeKmRequester (tdi * process) := {|
  PCI_IDE_KM_KEY_SET_K0 := 0; PCI_IDE_KM_KEY_SET_K1 := 1; PCI_IDE_KM_KEY_DIRECTION_RX := 0; PCI_IDE_KM_KEY_DIRECTION_TX := 2;
  PCI_IDE_KM_KEY_SUB_STREAM_PR := 0; PCI_IDE_KM_KEY_SUB_STREAM_NPR := 0x10; PCI_IDE_KM_KEY_SUB_STREAM_CPL := 0x20;
  PCI_IDE_KM_OBJECT_ID_K_SET_GO := 4; PCI_IDE_KM_OBJECT_ID_K_SET_GOSTOP_ACK := 6; PCI_IDE_KM_KP_ACK_STATUS_SUCCESS := 0;
  sizeof_pci_ide_km_k_set_go_t := 8; sizeof_pci_ide_km_k_gostop_ack_t := 8;
  LIBSPDM_STATUS_INVALID_MSG_SIZE := 0x80010005; LIBSPDM_STATUS_INVALID_MSG_FIELD := 0x80010004;
  libspdm_get_random_number n := Hardware.ret (true, replicate (Z.to_nat n) 0x5a);
  pci_ide_km_query _ _ :=
    Hardware.ret (0, {| answer_dev_func := 0; answer_bus := 1; answer_segment := 0; answer_max_port_index := 0 |});
  pci_ide_km_key_prog _ _ _ _ _ _ := Hardware.ret (0, 0);
  pci_ide_km_send_receive_data _ request _ := λ '(x, p),
    Ok (0, 8, k_set_request 6 (km_stream_id request) (km_key_sub_stream request) (km_port_index request),
        (match x with Unlocked _ => Unlocked true | _ => x end, p));
  getchar := Hardware.ret 113
|}.

Definition model_nonce : bytes := replicate 32 0x5a.
Definition model_report : bytes := replicate 20 0.
Definition model_caps : tdisp_caps :=
  {| dsm_caps := 0; req_msg_supported := [0xfe; 0] ++ replicate 14 0; lock_interface_flags_supported := 0x1f; dev_addr_width := 52;
     num_req_this := 1; num_req_all := 1 |}.

Definition model_state (x : tdi) : Z := match x with Unlocked _ => 0 | Locked _ => 1 | Running => 2 end.
Definition model_response (x : tdi) (request : tdisp_request) (type error portion remainder : Z) : tdisp_response :=
  {| rs_version := 0x10; rs_message_type := type; rs_function_id := rq_function_id request; rs_version_num_count := 1;
     rs_version_num_entry := 0x10; rs_caps := model_caps; rs_start_interface_nonce := model_nonce; rs_tdi_state := model_state x;
     rs_error_code := error; rs_portion_length := portion; rs_remainder_length := remainder;
     rs_report := take (Z.to_nat portion) (drop (Z.to_nat (rq_offset request)) model_report) |}.

(** The answer with its size, and the state after it. *)
Definition model_answer (x : tdi) (request : tdisp_request) : Z * tdisp_response * tdi :=
  let answer size type x' := (size, model_response x request type 0 0 0, x') in
  let error code := (16, model_response x request 0x7f code 0 0, x) in
  let type := rq_message_type request in
  if type =? 0x81 then answer 18 0x01 x
  else if type =? 0x82 then answer 44 0x02 x
  else if type =? 0x83 then
    match x with Unlocked true => answer 48 0x03 (Locked model_nonce) | Unlocked false => error 1 | _ => error 4 end
  else if type =? 0x84 then
    match x with
    | Unlocked _ => error 4
    | _ => if rq_offset request <? 20 then
             let portion := Z.min 16 (Z.min (rq_length request) (20 - rq_offset request)) in
             (20 + portion, model_response x request 0x04 0 portion (20 - rq_offset request - portion), x)
           else error 1
    end
  else if type =? 0x85 then answer 17 0x05 x
  else if type =? 0x86 then
    match x with
    | Locked nonce => if decide (rq_start_interface_nonce request = nonce) then answer 16 0x06 Running else error 0x102
    | _ => error 4
    end
  else answer 16 0x07 (Unlocked false).

Definition libtdisp {S : Type} (exchange : tdisp_request → io S (Z * Z * tdisp_response)) : TdispRequester S := {|
  PCI_TDISP_MESSAGE_VERSION_10 := 0x10; PCI_TDISP_GET_VERSION := 0x81; PCI_TDISP_VERSION := 0x01;
  PCI_TDISP_GET_CAPABILITIES := 0x82; PCI_TDISP_CAPABILITIES := 0x02; PCI_TDISP_LOCK_INTERFACE_REQ := 0x83;
  PCI_TDISP_LOCK_INTERFACE_RSP := 0x03; PCI_TDISP_GET_DEVICE_INTERFACE_REPORT := 0x84; PCI_TDISP_DEVICE_INTERFACE_REPORT := 0x04;
  PCI_TDISP_GET_DEVICE_INTERFACE_STATE := 0x85; PCI_TDISP_DEVICE_INTERFACE_STATE := 0x05; PCI_TDISP_START_INTERFACE_REQ := 0x86;
  PCI_TDISP_START_INTERFACE_RSP := 0x06; PCI_TDISP_STOP_INTERFACE_REQ := 0x87; PCI_TDISP_STOP_INTERFACE_RSP := 0x07;
  PCI_TDISP_ERROR := 0x7f; PCI_TDISP_ERROR_CODE_INVALID_REQUEST := 1; PCI_TDISP_ERROR_CODE_INVALID_INTERFACE_STATE := 4;
  PCI_TDISP_ERROR_CODE_INVALID_NONCE := 0x102; PCI_TDISP_INTERFACE_STATE_CONFIG_UNLOCKED := 0;
  PCI_TDISP_INTERFACE_STATE_CONFIG_LOCKED := 1; PCI_TDISP_INTERFACE_STATE_RUN := 2; PCI_TDISP_START_INTERFACE_NONCE_SIZE := 32;
  LIBTDISP_INTERFACE_REPORT_PORTION_LEN := 16; LIBTDISP_INTERFACE_REPORT_MAX_SIZE := 64; sizeof_pci_tdisp_header_t := 16;
  sizeof_pci_tdisp_version_number_t := 1; sizeof_pci_tdisp_get_version_request_t := 16;
  sizeof_pci_tdisp_get_capabilities_request_t := 20; sizeof_pci_tdisp_get_device_interface_state_request_t := 16;
  sizeof_pci_tdisp_lock_interface_request_t := 36; sizeof_pci_tdisp_start_interface_request_t := 48;
  sizeof_pci_tdisp_stop_interface_request_t := 16; sizeof_pci_tdisp_get_device_interface_report_request_t := 20;
  sizeof_pci_tdisp_capabilities_response_t := 44; sizeof_pci_tdisp_device_interface_state_response_t := 17;
  sizeof_pci_tdisp_lock_interface_response_t := 48; sizeof_pci_tdisp_start_interface_response_t := 16;
  sizeof_pci_tdisp_stop_interface_response_t := 16; sizeof_pci_tdisp_device_interface_report_response_t := 20;
  sizeof_pci_tdisp_error_response_t := 16;
  pci_tdisp_send_receive_data _ request _ _ := exchange request
|}.

#[local] Instance model_tdisp : TdispRequester (tdi * process) :=
  libtdisp (λ request '(x, p), let '(size, response, x') := model_answer x request in Ok (0, size, response, (x', p))).

#[local] Abbreviation model_follows := (follows_tdisp (D := tdi) true 0 PcieTestsSpec.example_group (λ _, True) fst model_report model_caps).

Ltac answered := intros [x0 p] _ Hx; cbn in Hx; subst x0; eexists _, _, _; split; [reflexivity|]; split_and!; try done; by eexists.

Lemma model_device_follows : model_follows.
Proof.
  split; intros.
  - answered.
  - answered.
  - answered.
  - destruct s as [x p]. cbn in *. subst x. eexists. split; [vm_compute; reflexivity|done].
  - answered.
  - answered.
  - destruct x as [b| |]; [by destruct (H b)|answered..].
  - intros [x p] _ Hx. cbn in Hx. subst x. eexists _, _, _. split; [unfold pci_tdisp_send_receive_data, model_tdisp, libtdisp; cbn; rewrite decide_True by done; reflexivity|]. by split_and!.
  - intros [x p] _ Hx. cbn in Hx. subst x. eexists _, _, _. split; [unfold pci_tdisp_send_receive_data, model_tdisp, libtdisp; cbn; rewrite decide_False by done; reflexivity|]. by split_and!.
  - destruct x as [b|n|]; [answered|by destruct (H n)|answered].
  - answered.
  - intros offset len [x0 p] [_ Hx] Ho Hl. cbn in Hx. subst x0. cbn in Ho.
    set (portion := Z.min 16 (Z.min len (20 - offset))).
    assert (Hp : pci_tdisp_send_receive_data (session_id PcieTestsSpec.example_group) (report_message 0 offset len)
      sizeof_pci_tdisp_get_device_interface_report_request_t sizeof_pci_tdisp_device_interface_report_response_mine_t (x, p) =
      Ok (0, 20 + portion, model_response x (report_message 0 offset len) 0x04 0 portion (20 - offset - portion), (x, p))).
    { unfold pci_tdisp_send_receive_data, model_tdisp, libtdisp, model_answer. cbn [rq_message_type rq_offset rq_length report_message].
      rewrite (proj2 (Z.ltb_lt offset 20)) by lia. destruct x as [b| |]; [by destruct (H b)|done..]. }
    exists 0, (model_response x (report_message 0 offset len) 0x04 0 portion (20 - offset - portion)), (x, p). split; [exact Hp|]. cbn [rs_portion_length rs_remainder_length rs_report model_response]. split_and!; try done; try lia.
    + cbn. lia.
    + unfold load, in_object. rewrite length_take, length_drop. change (length model_report) with 20%nat.
      change (rq_offset (report_message 0 offset len)) with offset.
      rewrite (proj2 (Z.leb_le 0 0)), (proj2 (Z.leb_le 0 portion)), (proj2 (Z.leb_le _ _)) by lia. cbn [andb].
      change (Z.to_nat 0) with 0%nat. by rewrite drop_0, take_take, Nat.min_id.
  - destruct x as [b| |]; [by destruct (H b)|answered..].
  - answered.
Qed.

Lemma model_report_framed : report_framed model_report.
Proof. split; [by repeat constructor|vm_compute; discriminate]. Qed.


(** Capabilities as the documentation has them, which the test does not accept. *)
Definition documented_caps : tdisp_caps :=
  {| dsm_caps := 0; req_msg_supported := [0x7f; 0] ++ replicate 14 0; lock_interface_flags_supported := 0x1f; dev_addr_width := 52;
     num_req_this := 1; num_req_all := 1 |}.

Lemma documented_caps_fail : capabilities_documented documented_caps = true ∧ capabilities_accepted documented_caps = false.
Proof. split; [reflexivity|by apply documented_not_accepted]. Qed.

(** ** The device at work *)

Definition model_process : process :=
  {| devices := []; doe_offset_in_use := 0; m_dev_fp := 0; port_objects := ∅; m_spdm_context := 0x1000; m_scratch_buffer := 0;
     m_requested_spdm_version := 0 |}.
Definition model_test_state : test_state pcie_ide_test_group_context_t tdisp_vars :=
  {| group := PcieTestsSpec.example_group; test_results := PcieTestsSpec.fresh_results; reports := []; skip_case := false; vars := ∅ |}.

Lemma model_at_test : at_test PcieTestsSpec.example_group 2 1 true false model_test_state.
Proof. split; [done|exact PcieTestsSpec.fresh_results_at]. Qed.

(** 20 bytes in two portions. *)
Lemma report_reassembled_witness :
  ∃ buf d t, tdisp_test_get_interface_report (D := tdi) 0 20 2 1 fresh_report_buffer ((Running, model_process), model_test_state) =
      Ok ((true, buf, 20), (d, t)) ∧ take 20 buf = map Some (replicate 20 0).
Proof.
  destruct (report_reassembled (D := tdi) 0 PcieTestsSpec.example_group ltac:(done) model_report _
    (d_report _ _ _ _ _ _ _ model_device_follows Running ltac:(done)) ltac:(done) ltac:(done) ltac:(done) 20 2 1 fresh_report_buffer
    (Running, model_process) model_test_state false ltac:(cbn; lia) ltac:(cbn; lia) ltac:(done) model_at_test)
    as (buf & d & t & E & _ & Ht & _).
  exists buf, d, t. split; [exact E|exact Ht].
Defined.

(** Stopping a running interface passes; starting one that is unlocked is
    refused, but not for the nonce. *)
Lemma message_verdict_witness :
  (∃ r t, find_code "tdisp_test_stop_interface_1_run"%string (tdisp_test_code (D := tdi) true 0 20) = Some (Run r) ∧
     r 2 1 ((Running, model_process), model_test_state) = Ok (tt, ((Unlocked false, model_process), t)) ∧
     teeio_test_case_result 2 1 (test_results t) = Ok TEEIO_TEST_RESULT_PASS) ∧
  (∃ r t, find_code "tdisp_test_start_interface_2_run"%string (tdisp_test_code (D := tdi) true 0 20) = Some (Run r) ∧
     r 2 1 ((Unlocked true, model_process), model_test_state) = Ok (tt, ((Unlocked true, model_process), t)) ∧
     teeio_test_case_result 2 1 (test_results t) = Ok TEEIO_TEST_RESULT_FAILED).
Proof.
  split.
  - destruct (message_verdict (D := tdi) true 0 PcieTestsSpec.example_group ltac:(done) 20 "tdisp_test_stop_interface_1_run"%string
      (λ _, stop_expected 0) 2 1 (Running, model_process) model_test_state) as (r & Hr & Hv).
    + apply list_elem_of_In. cbn [In expectations]. tauto.
    + done.
    + exact PcieTestsSpec.fresh_results_at.
    + replace (message_plan _ _ _ _) with (@Ok (bool * (tdi * process)) (true, (Unlocked false, model_process))) in Hv by (vm_compute; reflexivity).
      destruct Hv as (t & E & Hp). exists r, t. split; [exact Hr|]. split; [exact E|exact Hp].
  - destruct (message_verdict (D := tdi) true 0 PcieTestsSpec.example_group ltac:(done) 20 "tdisp_test_start_interface_2_run"%string
      (λ v, start_expected 0 "start_interface_2"%string (λ b, Z.lxor b 0xff) v PCI_TDISP_ERROR_CODE_INVALID_NONCE
              PCI_TDISP_INTERFACE_STATE_CONFIG_LOCKED) 2 1 (Unlocked true, model_process) model_test_state) as (r & Hr & Hv).
    + apply list_elem_of_In. cbn [In expectations]. tauto.
    + done.
    + exact PcieTestsSpec.fresh_results_at.
    + replace (message_plan _ _ _ _) with (@Ok (bool * (tdi * process)) (false, (Unlocked true, model_process))) in Hv by (vm_compute; reflexivity).
      destruct Hv as (t & E & Hp). exists r, t. split; [exact Hr|]. split; [exact E|exact Hp].
Defined.

(** A device that announces 4 bytes and never sends one. *)
Definition silent_tdisp : TdispRequester (tdi * process) :=
  libtdisp (λ request s, Ok (0, 20, model_response Running request 0x04 0 0 4, s)).

Lemma report_empty_portions_never_end_witness :
  tdisp_test_get_interface_report (D := tdi) (H8 := silent_tdisp) 0 1000 2 1 (fresh_report_buffer (H8 := silent_tdisp))
    ((Running, model_process), model_test_state) = Stop NoFuel.
Proof.
  refine (report_empty_portions_never_end (D := tdi) (H8 := silent_tdisp) 0 PcieTestsSpec.example_group _ (λ _, True) 1000 2 1
    (Running, model_process) model_test_state false _ _ I model_at_test); [done| |done].
  intros [x p] _. eexists _, _, _. split; [reflexivity|]. split_and!; try done; cbn; lia.
Defined.

End TdispDevice.
