(* ===== verification/Tsp.v ===== *)
(** * The CXL TSP tests (library/cxl_tsp_test_lib/)
    The test cases, the group and the configuration.  Each case sends one message (the
    report as many as it has portions) and checks the answer.  Log output is left out. *)

From Stdlib Require Import ZArith Lia Ascii String.
From stdpp Require Import prelude gmap strings.
From S2P Require Import Prelude Utils Libspdm TestConfig Results Engine TestLib Hardware PcieIde Kcbar Doe IdeKm Ports Spdm Tests PcieGroup CxlIde CxlKm CxlTests CxlGroup.

Open Scope Z_scope.
Open Scope teeio_scope.

Module Tsp.
Import TestConfig Results Engine TestLib Hardware PcieIde Doe Ports Spdm Tests IdeKm CxlIde CxlKm CxlTests CxlGroup.

(* CXL_DEV_CAPABILITY *)
Definition tsp_capable (raw : Z) : Z := get_bits 12 1 raw.

(** ** What libspdm adds for the tests *)

(** [libcxltsp_device_capabilities_t] *)
Record tsp_caps := {
  memory_encryption_features_supported : Z;
  memory_encryption_algorithms_supported : Z;
  memory_encryption_number_of_range_based_keys : Z;
  te_state_change_and_access_control_features_supported : Z;
  supported_explicit_oob_te_state_granularity : Z;
  supported_explicit_ib_te_state_granularity : Z;
  configuration_features_supported : Z;
  caps_number_of_ckids : Z;
  number_of_secondary_sessions : Z
}.

(** [libcxltsp_device_configuration_t]; an entry is a granularity and a length index. *)
Record tsp_configuration := {
  memory_encryption_features_enable : Z;
  memory_encryption_algorithm_select : Z;
  te_state_change_and_access_control_features_enable : Z;
  explicit_oob_te_state_granularity : Z;
  configuration_features_enable : Z;
  ckid_base : Z;
  number_of_ckids : Z;
  explicit_ib_te_state_granularity_entry : list (Z * Z)
}.

(** [libcxltsp_device_2nd_session_info_t] *)
Record tsp_session_info := {
  configuration_validity_flags : Z;
  secondary_session_ckid_type : Z;
  secondary_session_psk_key_material : list bytes
}.

(** The fields of the requests; the others are zero. *)
Record tsp_request := {
  tq_version : Z;
  tq_op_code : Z;
  tq_configuration : tsp_configuration;
  tq_session_info : tsp_session_info;
  tq_offset : Z;
  tq_length : Z
}.

(** The fields of the answers: what the buffer holds after the exchange. *)
Record tsp_response := {
  tr_version : Z;
  tr_op_code : Z;
  tr_version_number_entry_count : Z;
  tr_version_number_entry : Z;            (* the first *)
  tr_caps : tsp_caps;
  tr_configuration : tsp_configuration;
  tr_current_tsp_state : Z;
  tr_error_code : Z;
  tr_error_data : Z;
  tr_portion_length : Z;
  tr_remainder_length : Z;
  tr_report : bytes
}.

Class TspRequester (D : Type) := {
  CXL_TSP_MESSAGE_VERSION_10 : Z;
  CXL_TSP_OPCODE_GET_TARGET_TSP_VERSION : Z;
  CXL_TSP_OPCODE_GET_TARGET_TSP_VERSION_RSP : Z;
  CXL_TSP_OPCODE_GET_TARGET_CAPABILITIES : Z;
  CXL_TSP_OPCODE_GET_TARGET_CAPABILITIES_RSP : Z;
  CXL_TSP_OPCODE_SET_TARGET_CONFIGURATION : Z;
  CXL_TSP_OPCODE_SET_TARGET_CONFIGURATION_RSP : Z;
  CXL_TSP_OPCODE_GET_TARGET_CONFIGURATION : Z;
  CXL_TSP_OPCODE_GET_TARGET_CONFIGURATION_RSP : Z;
  CXL_TSP_OPCODE_GET_TARGET_CONFIGURATION_REPORT : Z;
  CXL_TSP_OPCODE_GET_TARGET_CONFIGURATION_REPORT_RSP : Z;
  CXL_TSP_OPCODE_LOCK_TARGET_CONFIGURATION : Z;
  CXL_TSP_OPCODE_LOCK_TARGET_CONFIGURATION_RSP : Z;
  CXL_TSP_OPCODE_ERROR_RSP : Z;
  CXL_TSP_ERROR_CODE_ALREADY_LOCKED : Z;
  CXL_TSP_STATE_ERROR : Z;
  CXL_TSP_MEMORY_ENCRYPTION_FEATURES_SUPPORT_ENCRYPTION : Z;
  CXL_TSP_MEMORY_ENCRYPTION_FEATURES_SUPPORT_CKID_BASED_ENCRYPTION : Z;
  CXL_TSP_MEMORY_ENCRYPTION_FEATURES_SUPPORT_RANGE_BASED_ENCRYPTION : Z;
  CXL_TSP_MEMORY_ENCRYPTION_FEATURES_SUPPORT_INITIATOR_SUPPLIED_ENTROPY : Z;
  CXL_TSP_MEMORY_ENCRYPTION_FEATURES_SUPPORT_CKID_BASED_REQUIRED : Z;
  CXL_TSP_MEMORY_ENCRYPTION_FEATURES_ENABLE_ENCRYPTION : Z;
  CXL_TSP_MEMORY_ENCRYPTION_FEATURES_ENABLE_CKID_BASED_ENCRYPTION : Z;
  CXL_TSP_MEMORY_ENCRYPTION_FEATURES_ENABLE_RANGE_BASED_ENCRYPTION : Z;
  CXL_TSP_MEMORY_ENCRYPTION_ALGORITHMS_AES_XTS_128 : Z;
  CXL_TSP_MEMORY_ENCRYPTION_ALGORITHMS_AES_XTS_256 : Z;
  WRITE_ACCESS_CONTROL : Z;               (* CXL_TSP_TE_STATE_CHANGE_AND_ACCESS_CONTROL_FEATURES_... *)
  READ_ACCESS_CONTROL : Z;
  IMPLICIT_TE_STATE_CHANGE : Z;
  EXPLICIT_OOB_TE_STATE_CHANGE : Z;
  EXPLICIT_IB_TE_STATE_CHANGE : Z;
  EXPLICIT_TE_STATE_CHANGE_SANITIZE : Z;
  CXL_TSP_EXPLICIT_IB_TE_STATE_CHANGE_GRANULARITY_64B : Z;
  CXL_TSP_EXPLICIT_IB_TE_STATE_CHANGE_GRANULARITY_ENTIRE_MEMORY : Z;
  CXL_TSP_CONFIGURATION_FEATURES_ENABLE_LOCKED_TARGET_FW_UPDATE : Z;
  CXL_TSP_CONFIGURATION_FEATURES_SUPPORT_LOCKED_TARGET_FW_UPDATE : Z;
  CXL_TSP_CONFIGURATION_FEATURES_SUPPORT_TARGET_SUPPORT_ADDITIONAL_SPDM_SESSIONS : Z;
  CXL_TSP_2ND_SESSION_COUNT : nat;
  CXL_TSP_2ND_SESSION_KEY_MATERIAL_SIZE : Z;
  LIBCXLTSP_ERROR_MESSAGE_MAX_SIZE : Z;
  LIBCXLTSP_CONFIGURATION_REPORT_PORTION_LEN : Z;
  LIBCXLTSP_CONFIGURATION_REPORT_MAX_SIZE : nat;
  sizeof_cxl_tsp_header_t : Z;
  sizeof_cxl_tsp_version_number_t : Z;
  sizeof_cxl_tsp_get_target_tsp_version_req_t : Z;
  sizeof_cxl_tsp_get_target_capabilities_req_t : Z;
  sizeof_cxl_tsp_get_target_capabilities_rsp_t : Z;
  sizeof_cxl_tsp_set_target_configuration_req_t : Z;
  sizeof_cxl_tsp_set_target_configuration_rsp_t : Z;
  sizeof_cxl_tsp_get_target_configuration_req_t : Z;
  sizeof_cxl_tsp_get_target_configuration_rsp_t : Z;
  sizeof_cxl_tsp_get_target_configuration_report_req_t : Z;
  sizeof_cxl_tsp_get_target_configuration_report_rsp_t : Z;
  sizeof_cxl_tsp_lock_target_configuration_req_t : Z;
  sizeof_cxl_tsp_lock_target_configuration_rsp_t : Z;
  sizeof_cxl_tsp_error_rsp_t : Z;
  (** session, request, its size, size of the response buffer; status, size of the response, response *)
  cxl_tsp_send_receive_data : Z → tsp_request → Z → Z → io D (Z * Z * tsp_response);
  (** session; the status (and the capabilities) *)
  cxl_tsp_get_version : Z → io D Z;
  cxl_tsp_get_capabilities : Z → io D (Z * tsp_caps);
  cxl_tsp_lock_configuration : Z → io D Z
}.

(** ** The static variables: [m_device_capabilities] of the test files, by the case *)
Definition tsp_vars : Type := gmap string tsp_caps.

Section tsp.
Context {D : Type} `{Bus D} `{Clock D} `{Os D} `{DevMem D} `{Alloc (D * process)} `{Libspdm} `{DoeDiscovery (D * process)}.
Context `{IdeKmRequester (D * process)} `{CxlIdeKmRequester (D * process)} `{SpdmRequester (D * process)}.
Context `{TspRequester (D * process)}.

#[local] Abbreviation State := (D * process)%type.
#[local] Abbreviation test := (Tests.test D cxl_ide_test_group_context_t tsp_vars).

Definition zero_caps : tsp_caps :=
  {| memory_encryption_features_supported := 0; memory_encryption_algorithms_supported := 0;
     memory_encryption_number_of_range_based_keys := 0; te_state_change_and_access_control_features_supported := 0;
     supported_explicit_oob_te_state_granularity := 0; supported_explicit_ib_te_state_granularity := 0;
     configuration_features_supported := 0; caps_number_of_ckids := 0; number_of_secondary_sessions := 0 |}.
Definition zero_configuration : tsp_configuration :=
  {| memory_encryption_features_enable := 0; memory_encryption_algorithm_select := 0;
     te_state_change_and_access_control_features_enable := 0; explicit_oob_te_state_granularity := 0;
     configuration_features_enable := 0; ckid_base := 0; number_of_ckids := 0;
     explicit_ib_te_state_granularity_entry := replicate 8 (0, 0) |}.
Definition zero_session_info : tsp_session_info :=
  {| configuration_validity_flags := 0; secondary_session_ckid_type := 0;
     secondary_session_psk_key_material :=
       replicate CXL_TSP_2ND_SESSION_COUNT (replicate (Z.to_nat CXL_TSP_2ND_SESSION_KEY_MATERIAL_SIZE) 0) |}.

Definition caps_of (name : string) : test tsp_caps := let+ v := get_vars in ret (default zero_caps (v !! name)).
Definition set_caps (name : string) (caps : tsp_caps) : test unit := set_vars (λ v, <[name := caps]> v).

(** cxl_tsp_internal.h *)
Definition sizeof_teeio_cxl_tsp_get_target_tsp_version_rsp_mine_t : Z :=
  sizeof_cxl_tsp_header_t + 2 + 1 + sizeof_cxl_tsp_version_number_t.
Definition sizeof_teeio_cxl_tsp_get_target_configuration_report_rsp_mine_t : Z :=
  sizeof_cxl_tsp_header_t + 2 + 2 + 2 + LIBCXLTSP_CONFIGURATION_REPORT_PORTION_LEN.

(** A request of an operation with all other fields zero. *)
Definition tsp_message (op_code : Z) : tsp_request :=
  {| tq_version := CXL_TSP_MESSAGE_VERSION_10; tq_op_code := op_code; tq_configuration := zero_configuration;
     tq_session_info := zero_session_info; tq_offset := 0; tq_length := 0 |}.
Definition set_configuration_message (c : tsp_configuration) (s : tsp_session_info) : tsp_request :=
  {| tq_version := CXL_TSP_MESSAGE_VERSION_10; tq_op_code := CXL_TSP_OPCODE_SET_TARGET_CONFIGURATION; tq_configuration := c;
     tq_session_info := s; tq_offset := 0; tq_length := 0 |}.
Definition report_message (offset length : Z) : tsp_request :=
  {| tq_version := CXL_TSP_MESSAGE_VERSION_10; tq_op_code := CXL_TSP_OPCODE_GET_TARGET_CONFIGURATION_REPORT;
     tq_configuration := zero_configuration; tq_session_info := zero_session_info; tq_offset := offset; tq_length := length |}.

Definition tsp_send (request : tsp_request) (request_size response_size : Z) : test (Z * Z * tsp_response) :=
  let+ g := get_group in
  machine (cxl_tsp_send_receive_data (cxl_session_id g) request request_size response_size).

(** ** What the tests report *)

(** "TspMessage.<field> = 0x<value>" *)
Definition tsp_field (field : bytes) (value : Z) : bytes := bs "TspMessage." ++ field ++ bs " = 0x" ++ hex value.
Definition tsp_message_size (size : Z) : bytes := bs "sizeof(TspMessage) = 0x" ++ hex size.
Definition tsp_send_failed (status : Z) : bytes := bs "cxl_tsp_send_receive_data failed with 0x" ++ hex status.

(** Assertions 2 and 3: the header of an answer. *)
Definition check_tsp_header (op_code cls id : Z) (response : tsp_response) : test unit :=
  let+ _ := record_test cls id 2 (tr_op_code response =? op_code) (tsp_field (bs "Opcode") (tr_op_code response)) in
  record_test cls id 3 (tr_version response =? CXL_TSP_MESSAGE_VERSION_10) (tsp_field (bs "TSPVersion") (tr_version response)).

(** One message: assertion 0 when it failed, else assertions 1 to 3 on size, operation and version, then [k]. *)
Definition tsp_exchange (request : tsp_request) (request_size buffer_size size_expected op_code cls id : Z)
    (k : tsp_response → test unit) : test unit :=
  let+ (status, size, response) := tsp_send request request_size buffer_size in
  if LIBSPDM_STATUS_IS_ERROR status then record_test cls id 0 false (tsp_send_failed status) else
  let+ _ := record_test cls id 1 (size =? size_expected) (tsp_message_size size) in
  if negb (size =? size_expected) then ret tt else
  let+ _ := check_tsp_header op_code cls id response in
  k response.

(** ** Setups *)

(** GET_VERSION; then, where the test uses them, the capabilities. *)
Definition setup_version (k : test bool) : test bool :=
  let+ g := get_group in
  let+ status := machine (cxl_tsp_get_version (cxl_session_id g)) in
  if LIBSPDM_STATUS_IS_ERROR status then ret false else k.
Definition setup_capabilities (name : string) (k : test bool) : test bool :=
  let+ g := get_group in
  let+ _ := set_caps name zero_caps in
  let+ (status, caps) := machine (cxl_tsp_get_capabilities (cxl_session_id g)) in
  let+ _ := set_caps name caps in
  if LIBSPDM_STATUS_IS_ERROR status then ret false else k.

(** ** GetVersion (test_case_get_version_1.c) *)

Definition cxl_tsp_test_get_version_setup : test bool := ret true.
Definition cxl_tsp_test_get_version_run (cls id : Z) : test unit :=
  tsp_exchange (tsp_message CXL_TSP_OPCODE_GET_TARGET_TSP_VERSION) sizeof_cxl_tsp_get_target_tsp_version_req_t
    LIBCXLTSP_ERROR_MESSAGE_MAX_SIZE sizeof_teeio_cxl_tsp_get_target_tsp_version_rsp_mine_t
    CXL_TSP_OPCODE_GET_TARGET_TSP_VERSION_RSP cls id (λ response,
    let+ _ := record_test cls id 4 (tr_version_number_entry_count response =? 1)
                (tsp_field (bs "VersionNumberEntryCount") (tr_version_number_entry_count response)) in
    record_test cls id 5 (tr_version_number_entry response =? CXL_TSP_MESSAGE_VERSION_10)
      (tsp_field (bs "VersionNumberEntry[0]") (tr_version_number_entry response))).

(** ** GetCapabilities (test_case_get_caps_1.c) *)

Definition has (features bit : Z) : bool := negb (Z.land features bit =? 0).
(** "<field> = 0x<masked value>", and several of them *)
Definition tsp_fields (l : list (bytes * Z)) : bytes :=
  match l with
  | [] => []
  | (f, v) :: l => tsp_field f v ++ flat_map (λ '(f, v), bs ", " ++ tsp_field f v) l
  end.
Definition TE : bytes := bs "TEStateChangeAndAccessControlFeaturesSupported.".

Definition teeio_cxl_tsp_validate_capability (caps : tsp_caps) (cls id : Z) : test unit :=
  let memory_encryption_features_supported :=
    u16 (Z.land (memory_encryption_features_supported caps)
      (Z.lor (Z.lor (Z.lor (Z.lor CXL_TSP_MEMORY_ENCRYPTION_FEATURES_SUPPORT_ENCRYPTION
         CXL_TSP_MEMORY_ENCRYPTION_FEATURES_SUPPORT_CKID_BASED_ENCRYPTION)
         CXL_TSP_MEMORY_ENCRYPTION_FEATURES_SUPPORT_RANGE_BASED_ENCRYPTION)
         CXL_TSP_MEMORY_ENCRYPTION_FEATURES_SUPPORT_INITIATOR_SUPPLIED_ENTROPY)
         CXL_TSP_MEMORY_ENCRYPTION_FEATURES_SUPPORT_CKID_BASED_REQUIRED)) in
  let encryption := Z.land memory_encryption_features_supported CXL_TSP_MEMORY_ENCRYPTION_FEATURES_SUPPORT_ENCRYPTION in
  let+ _ := record_test cls id 4 (encryption =? 1) (tsp_field (bs "MemoryEncryptionFeaturesSupported.Encryption") encryption) in
  let memory_encryption_algorithms_supported :=
    u32 (Z.land (memory_encryption_algorithms_supported caps)
      (Z.lor CXL_TSP_MEMORY_ENCRYPTION_ALGORITHMS_AES_XTS_128 CXL_TSP_MEMORY_ENCRYPTION_ALGORITHMS_AES_XTS_256)) in
  let+ _ := record_test cls id 5 (negb (memory_encryption_algorithms_supported =? 0))
    (tsp_fields
      [(bs "MemoryEncryptionAlgorithmsSupported.AES-XTS-128",
        Z.land memory_encryption_algorithms_supported CXL_TSP_MEMORY_ENCRYPTION_ALGORITHMS_AES_XTS_128);
       (bs "MemoryEncryptionAlgorithmsSupported.AES-XTS-256",
        Z.land memory_encryption_algorithms_supported CXL_TSP_MEMORY_ENCRYPTION_ALGORITHMS_AES_XTS_256)]) in
  let range_based := Z.land memory_encryption_features_supported CXL_TSP_MEMORY_ENCRYPTION_FEATURES_SUPPORT_RANGE_BASED_ENCRYPTION in
  let keys := memory_encryption_number_of_range_based_keys caps in
  let+ _ := record_test cls id 6 (Bool.eqb (range_based =? 0) (keys =? 0))
    (tsp_fields [(bs "MemoryEncryptionFeaturesSupported.RangeBasedEncryption", range_based);
                 (bs "MemoryEncryptionNumberOfRangeBasedKeys", keys)]) in
  let te :=
    u16 (Z.land (te_state_change_and_access_control_features_supported caps)
      (Z.lor (Z.lor (Z.lor (Z.lor (Z.lor WRITE_ACCESS_CONTROL READ_ACCESS_CONTROL) IMPLICIT_TE_STATE_CHANGE)
         EXPLICIT_OOB_TE_STATE_CHANGE) EXPLICIT_IB_TE_STATE_CHANGE) EXPLICIT_TE_STATE_CHANGE_SANITIZE)) in
  let te_oob := (TE ++ bs "ExplicitOutOfBandTEStateChange", Z.land te EXPLICIT_OOB_TE_STATE_CHANGE) in
  let te_ib := (TE ++ bs "ExplicitInBandTEStateChange", Z.land te EXPLICIT_IB_TE_STATE_CHANGE) in
  let+ _ := record_test cls id 7
    (if has te WRITE_ACCESS_CONTROL then has te (Z.lor EXPLICIT_OOB_TE_STATE_CHANGE EXPLICIT_IB_TE_STATE_CHANGE) else true)
    (tsp_fields [(TE ++ bs "WriteAccessControl", Z.land te WRITE_ACCESS_CONTROL); te_oob; te_ib]) in
  let+ _ := record_test cls id 8
    (if has te READ_ACCESS_CONTROL
     then has te (Z.lor (Z.lor IMPLICIT_TE_STATE_CHANGE EXPLICIT_OOB_TE_STATE_CHANGE) EXPLICIT_IB_TE_STATE_CHANGE) else true)
    (tsp_fields [te_oob; te_ib]) in
  let ib_granularity := supported_explicit_ib_te_state_granularity caps in
  let+ _ := record_test cls id 9
    (if has te IMPLICIT_TE_STATE_CHANGE
     then has te EXPLICIT_IB_TE_STATE_CHANGE && has ib_granularity CXL_TSP_EXPLICIT_IB_TE_STATE_CHANGE_GRANULARITY_64B else true)
    (tsp_fields [(TE ++ bs "ImplicitTEStateChange", Z.land te IMPLICIT_TE_STATE_CHANGE); te_ib] ++
     bs ", (TspMessage.SupportedExplicitInBandTEStateGranularity & 0x1) = 0x" ++
     hex (Z.land ib_granularity CXL_TSP_EXPLICIT_IB_TE_STATE_CHANGE_GRANULARITY_64B)) in
  let+ _ := record_test cls id 10
    (if has te EXPLICIT_TE_STATE_CHANGE_SANITIZE
     then has te (Z.lor EXPLICIT_OOB_TE_STATE_CHANGE EXPLICIT_IB_TE_STATE_CHANGE) else true)
    (tsp_fields [(TE ++ bs "ExplicitTEStateChangeSanitize", Z.land te EXPLICIT_TE_STATE_CHANGE_SANITIZE); te_oob; te_ib]) in
  let oob_granularity := supported_explicit_oob_te_state_granularity caps in
  let+ _ := record_test cls id 11
    (if has te EXPLICIT_OOB_TE_STATE_CHANGE then negb (oob_granularity =? 0) else oob_granularity =? 0)
    (bs "spMessage." ++ fst te_oob ++ bs " = 0x" ++ hex (snd te_oob) ++
     bs ", " ++ tsp_field (bs "SupportedExplicitOutOfBandTEStateGranularity") oob_granularity) in
  let ib_known := Z.land ib_granularity (Z.lor 0x7FF CXL_TSP_EXPLICIT_IB_TE_STATE_CHANGE_GRANULARITY_ENTIRE_MEMORY) in
  let+ _ := record_test cls id 12
    (if has te EXPLICIT_IB_TE_STATE_CHANGE then negb (ib_known =? 0) else ib_granularity =? 0)
    (tsp_fields [te_ib] ++ bs ", (TspMessage.SupportedExplicitInBandTEStateGranularity & 0x800007FF) = 0x" ++ hex ib_known ++
     bs ", " ++ tsp_field (bs "SupportedExplicitInBandTEStateGranularity") ib_granularity) in
  let ckid_based := Z.land memory_encryption_features_supported CXL_TSP_MEMORY_ENCRYPTION_FEATURES_SUPPORT_CKID_BASED_ENCRYPTION in
  let ckids := caps_number_of_ckids caps in
  let+ _ := record_test cls id 13
    (if negb (ckid_based =? 0) then (2 <=? ckids) && (ckids <? 0x2000) else negb (ckids =? 0))
    (tsp_fields [(bs "MemoryEncryptionFeaturesSupported.CKIDBasedEncryption", ckid_based); (bs "NumberOfCKIDs", ckids)]) in
  let configuration_features_supported :=
    u16 (Z.land (configuration_features_supported caps)
      (Z.lor CXL_TSP_CONFIGURATION_FEATURES_SUPPORT_LOCKED_TARGET_FW_UPDATE
         CXL_TSP_CONFIGURATION_FEATURES_SUPPORT_TARGET_SUPPORT_ADDITIONAL_SPDM_SESSIONS)) in
  let additional :=
    Z.land configuration_features_supported CXL_TSP_CONFIGURATION_FEATURES_SUPPORT_TARGET_SUPPORT_ADDITIONAL_SPDM_SESSIONS in
  let sessions := number_of_secondary_sessions caps in
  record_test cls id 14
    (if additional =? 0 then sessions =? 0 else (0 <? sessions) && (sessions <=? 4))
    (tsp_fields [(bs "ConfigurationFeaturesSupported.TargetSupportsAdditionalSPDMSessions", additional);
                 (bs "NumberOfSecondarySessions", sessions)]).

Definition cxl_tsp_test_get_caps_setup : test bool := setup_version (ret true).
Definition cxl_tsp_test_get_caps_run (cls id : Z) : test unit :=
  tsp_exchange (tsp_message CXL_TSP_OPCODE_GET_TARGET_CAPABILITIES) sizeof_cxl_tsp_get_target_capabilities_req_t
    sizeof_cxl_tsp_get_target_capabilities_rsp_t sizeof_cxl_tsp_get_target_capabilities_rsp_t
    CXL_TSP_OPCODE_GET_TARGET_CAPABILITIES_RSP cls id (λ response, teeio_cxl_tsp_validate_capability (tr_caps response) cls id).

(** ** SetConfiguration (test_case_set_configuration_1.c) *)

Definition requested_configuration : tsp_configuration :=
  {| memory_encryption_features_enable := CXL_TSP_MEMORY_ENCRYPTION_FEATURES_ENABLE_ENCRYPTION;
     memory_encryption_algorithm_select := CXL_TSP_MEMORY_ENCRYPTION_ALGORITHMS_AES_XTS_256;
     te_state_change_and_access_control_features_enable :=
       Z.lor (Z.lor READ_ACCESS_CONTROL IMPLICIT_TE_STATE_CHANGE) EXPLICIT_IB_TE_STATE_CHANGE;
     explicit_oob_te_state_granularity := 0;
     configuration_features_enable := CXL_TSP_CONFIGURATION_FEATURES_ENABLE_LOCKED_TARGET_FW_UPDATE;
     ckid_base := 0; number_of_ckids := 0;
     explicit_ib_te_state_granularity_entry := (0, 0) :: replicate 7 (0, 0xFF) |}.

(** The switch over the number of secondary sessions. *)
Definition validity_flags (sessions : Z) : option Z :=
  if sessions =? 1 then Some 0x1 else if sessions =? 2 then Some 0x3 else if sessions =? 3 then Some 0x7
  else if sessions =? 4 then Some 0xf else None.

(** Random keys for the sessions that are used; [None] when there are none to be had. *)
Definition session_keys (flags : Z) (keys : list bytes) : io State (option (list bytes)) :=
  io_fold (λ index o,
    match o with
    | None => ret None
    | Some keys =>
        if Z.land flags (Z.shiftl 1 index) =? 0 then ret (Some keys) else
        let+ (result, key) := libspdm_get_random_number CXL_TSP_2ND_SESSION_KEY_MATERIAL_SIZE in
        ret (if result : bool then Some (<[Z.to_nat index := key]> keys) else None)
    end) (seqZ 0 (Z.of_nat CXL_TSP_2ND_SESSION_COUNT)) (Some keys).

Definition test_cxl_tsp_set_configuration (s : tsp_session_info) (cls id : Z) : test unit :=
  tsp_exchange (set_configuration_message requested_configuration s) sizeof_cxl_tsp_set_target_configuration_req_t
    LIBCXLTSP_ERROR_MESSAGE_MAX_SIZE sizeof_cxl_tsp_set_target_configuration_rsp_t
    CXL_TSP_OPCODE_SET_TARGET_CONFIGURATION_RSP cls id (λ _, ret tt).

Definition cxl_tsp_test_set_configuration_setup : test bool := setup_version (setup_capabilities "set_configuration"%string (ret true)).
Definition cxl_tsp_test_set_configuration_run (cls id : Z) : test unit :=
  let+ caps := caps_of "set_configuration"%string in
  let sessions := number_of_secondary_sessions caps in
  if negb (has (configuration_features_supported caps)
             CXL_TSP_CONFIGURATION_FEATURES_SUPPORT_TARGET_SUPPORT_ADDITIONAL_SPDM_SESSIONS)
  then test_cxl_tsp_set_configuration zero_session_info cls id else
  match validity_flags sessions with
  | None => record_test cls id 0 false (bs "device_capabilites.num_of_secondary_sessions is error - 0x" ++ hex sessions)
  | Some flags =>
      let+ keys := machine (session_keys flags (secondary_session_psk_key_material zero_session_info)) in
      match keys with
      | None => record_test cls id 0 false (bs "libspdm_get_random_number is error")
      | Some keys =>
          test_cxl_tsp_set_configuration
            {| configuration_validity_flags := flags; secondary_session_ckid_type := 0; secondary_session_psk_key_material := keys |}
            cls id
      end
  end.

(** ** GetConfiguration (test_case_get_configuration_1.c) *)

(** The length indices of the entries: at most 7, none twice; 0xff is no entry.
    The shift of a 32-bit 1 by 31 or more is not defined. *)
Definition length_index_step (s : bool * Z) (entry : Z * Z) : res (bool * Z) :=
  let '(ok, length_index_bit) := s in
  let length_index := snd entry in
  if length_index =? 0xff then Ok s else
  if 31 <=? length_index then Stop Undefined else
  let bit := Z.shiftl 1 length_index in
  Ok (ok && (length_index <=? 7) && (Z.land length_index_bit bit =? 0), u8 (Z.lor length_index_bit bit)).

(** Assertion 13; [ok] is still the verdict of assertion 12. *)
Definition check_length_indices (ok : bool) (c : tsp_configuration) : res (bool * bytes) :=
  let enabled := Z.land (te_state_change_and_access_control_features_enable c) EXPLICIT_IB_TE_STATE_CHANGE in
  if enabled =? 0 then Ok (false, tsp_field (bs "ExplicitInBandTEStateChange") enabled) else
  let entries := explicit_ib_te_state_granularity_entry c in
  let* (ok, _) := fold_res (λ entry s, length_index_step s entry) entries (ok, 0) in
  Ok (ok, bs "TspMessage.ExplicitInBandTEStateGranularityEntry[0~7]: " ++ flat_map (λ e, hex2 (snd e) ++ bs " ") entries).

(** The numbers that are compared are cut to 16 bits. *)
Definition enabled_supported (enabled supported : Z) : bool := u16 (Z.land enabled supported) =? enabled.
Definition CAPS : bytes := bs "GET_TARGET_TSP_CAPABILITIES_RSP.".

Definition check_configuration (caps : tsp_caps) (c : tsp_configuration) (state cls id : Z) : test unit :=
  let features := memory_encryption_features_enable c in
  let supported := Z.land features (memory_encryption_features_supported caps) in
  let+ _ := record_test cls id 4 (supported =? features)
    (bs "TspMessage.MemoryEncryptionFeaturesEnabled & " ++ CAPS ++ bs "MemoryEncryptionFeaturesSupported = 0x" ++ hex supported ++
     bs ", " ++ tsp_field (bs "MemoryEncryptionFeaturesEnabled") features) in
  let one := u16 (Z.lxor (Z.land features CXL_TSP_MEMORY_ENCRYPTION_FEATURES_ENABLE_CKID_BASED_ENCRYPTION)
                         (Z.land features CXL_TSP_MEMORY_ENCRYPTION_FEATURES_ENABLE_RANGE_BASED_ENCRYPTION)) in
  let+ _ := record_test cls id 5 (negb (one =? 0))
    (bs "(TspMessage.MemoryEncryptionFeaturesEnabled.CKIDBasedEncryption ^ TspMessage.MemoryEncryptionFeaturesEnabled.RangeBasedEncryption) = 0x" ++ hex one) in
  let algorithm := memory_encryption_algorithm_select c in
  let supported := Z.land algorithm (memory_encryption_algorithms_supported caps) in
  let+ _ := record_test cls id 6 (supported =? algorithm)
    (bs "TspMessage.MemoryEncryptionAlgorithmsSelected & " ++ CAPS ++ bs "MemoryEncryptionAlgorithmsSupported = 0x" ++ hex supported ++
     bs ", " ++ tsp_field (bs "MemoryEncryptionAlgorithmsSelected") algorithm) in
  let one := u16 (Z.lxor (Z.land algorithm CXL_TSP_MEMORY_ENCRYPTION_ALGORITHMS_AES_XTS_128)
                         (Z.land algorithm CXL_TSP_MEMORY_ENCRYPTION_ALGORITHMS_AES_XTS_256)) in
  let+ _ := record_test cls id 7 (negb (one =? 0))
    (bs "(TspMessage.MemoryEncryptionAlgorithmsSelected.AES-XTS-128 ^ TspMessage.MemoryEncryptionAlgorithmsSelected.AES-XTS-256) = 0x" ++ hex one) in
  let te := te_state_change_and_access_control_features_enable c in
  let te_supported := te_state_change_and_access_control_features_supported caps in
  let+ _ := record_test cls id 8 (enabled_supported te te_supported)
    (bs "(TspMessage.TEStateChangeAndAccessControlFeaturesEnabled & " ++ CAPS ++ bs "TEStateChangeAndAccessControlFeaturesSupported) = 0x" ++
     hex (u16 (Z.land te te_supported)) ++ bs ", " ++ tsp_field (bs "TEStateChangeAndAccessControlFeaturesEnabled") te) in
  let oob := explicit_oob_te_state_granularity c in
  let oob_supported := supported_explicit_oob_te_state_granularity caps in
  let+ _ := record_test cls id 9 (enabled_supported oob oob_supported)
    (bs "(TspMessage.ExplicitOutOfBandTEStateGranularityEnabled & " ++ CAPS ++ bs "SupportedExplicitOutOfBandTEStateGranularity) = 0x" ++
     hex (u16 (Z.land oob oob_supported)) ++ bs ", " ++ tsp_field (bs "ExplicitOutOfBandTEStateGranularityEnabled") oob) in
  (** assertion 10 carries the id 9 *)
  let conf := configuration_features_enable c in
  let conf_supported := Z.land (configuration_features_supported caps) 0x1 in
  let+ _ := record_test cls id 9 (enabled_supported conf conf_supported)
    (bs "(TspMessage.ConfigurationFeaturesEnabled & " ++ CAPS ++ bs "ConfigurationFeaturesSupported & 0x1) = 0x" ++
     hex (u16 (Z.land conf conf_supported)) ++ bs ", " ++ tsp_field (bs "ConfigurationFeaturesEnabled") conf) in
  let ckid_based := Z.land features CXL_TSP_MEMORY_ENCRYPTION_FEATURES_SUPPORT_CKID_BASED_ENCRYPTION in
  let+ _ := record_test cls id 11
    (if negb (ckid_based =? 0) then (ckid_base c <? 0x2000) && (ckid_base c + number_of_ckids c <? 0x2000) else true)
    (tsp_fields [(bs "MemoryEncryptionFeaturesEnabled.CKIDBaseRequired", ckid_based); (bs "CKIDBase", ckid_base c);
                 (bs "NumberOfCKIDs", number_of_ckids c)]) in
  let+ _ := record_test cls id 12 (state <=? CXL_TSP_STATE_ERROR) (tsp_field (bs "CurrentTSPState") state) in
  let+ (ok, message) := lift (check_length_indices (state <=? CXL_TSP_STATE_ERROR) c) in
  record_test cls id 13 ok message.

Definition cxl_tsp_test_get_configuration_setup : test bool := setup_version (setup_capabilities "get_configuration"%string (ret true)).
(** The size that is expected is that of GET_CAPABILITIES, the operation that of the request. *)
Definition cxl_tsp_test_get_configuration_run (cls id : Z) : test unit :=
  let+ caps := caps_of "get_configuration"%string in
  tsp_exchange (tsp_message CXL_TSP_OPCODE_GET_TARGET_CONFIGURATION) sizeof_cxl_tsp_get_target_configuration_req_t
    sizeof_cxl_tsp_get_target_configuration_rsp_t sizeof_cxl_tsp_get_target_capabilities_rsp_t
    CXL_TSP_OPCODE_GET_TARGET_CONFIGURATION cls id (λ response,
    check_configuration caps (tr_configuration response) (tr_current_tsp_state response) cls id).

(** ** GetConfigurationReport (test_case_get_configuration_report_1.c) *)

Section report.
(** What the variable [configuration_report_size] of the run function happens to hold; it is never set. *)
Context (unset_size : Z) (rounds : positive).

Definition copy_tsp_report (buf : bytes) (offset : Z) (data : bytes) : res bytes :=
  if (0 <=? offset) && (offset + Z.of_nat (length data) <=? Z.of_nat (length buf))
  then Ok (take (Z.to_nat offset) buf ++ data ++ drop (Z.to_nat offset + length data) buf)
  else Stop Undefined.

(** One round: offset, remainder, total length, number of the round, buffer; or the end of the
    function with what is in the buffer.  Offset and remainder are 16 bits wide. *)
Definition tsp_report_round (size cls id : Z) (s : Z * Z * Z * Z * bytes) : test (Z * Z * Z * Z * bytes + bytes) :=
  let '(offset, remainder_length, total_report_length, round, buf) := s in
  let request_length :=
    if offset =? 0 then LIBCXLTSP_CONFIGURATION_REPORT_PORTION_LEN
    else Z.min remainder_length LIBCXLTSP_CONFIGURATION_REPORT_PORTION_LEN in
  let+ _ := record_separator cls id (bs "TSP_GET_CONFIGURATION_REPORT round-" ++ dec round ++ [10]) in
  let+ (status, response_size, response) :=
    tsp_send (report_message offset request_length) sizeof_cxl_tsp_get_target_configuration_report_req_t
      sizeof_teeio_cxl_tsp_get_target_configuration_report_rsp_mine_t in
  if LIBSPDM_STATUS_IS_ERROR status then
    let+ _ := record_test cls id 0 false (tsp_send_failed status) in ret (inr buf) else
  let portion := tr_portion_length response in
  let size_ok := response_size =? sizeof_cxl_tsp_get_target_configuration_report_rsp_t + portion in
  let+ _ := record_test cls id 1 size_ok (tsp_message_size response_size) in
  if negb size_ok then ret (inr buf) else
  let+ _ := check_tsp_header CXL_TSP_OPCODE_GET_TARGET_CONFIGURATION_REPORT cls id response in
  let+ _ := record_test cls id 4 ((0 <? portion) && (portion <=? request_length)) (tsp_field (bs "PortionLength") portion) in
  let total := if offset =? 0 then portion + tr_remainder_length response else total_report_length in
  if (offset =? 0) && (size <? total) then
    let+ _ := record_test cls id 0 false (bs "Configuration report size too small - 0x" ++ hex size) in ret (inr buf)
  else if negb (offset =? 0) && negb (total =? u32 (offset + portion + tr_remainder_length response)) then
    let+ _ := record_test cls id 0 false (bs "Total report size mismatch - 0x" ++ hex total) in ret (inr buf)
  else
    let+ data := lift (load (tr_report response) 0 portion) in
    let+ buf := lift (copy_tsp_report buf offset data) in
    ret (if tr_remainder_length response =? 0 then inr buf
         else inl (u16 (offset + portion), tr_remainder_length response, total, round + 1, buf)).

Definition test_cxl_tsp_get_configuration_report (size cls id : Z) (buf : bytes) : test bytes :=
  io_while rounds (tsp_report_round size cls id) (0, 0, 0, 0, buf).

Definition cxl_tsp_test_get_configuration_report_setup : test bool :=
  setup_version (setup_capabilities "get_configuration_report"%string (ret true)).
Definition cxl_tsp_test_get_configuration_report_run (cls id : Z) : test unit :=
  let+ _ := test_cxl_tsp_get_configuration_report unset_size cls id (replicate LIBCXLTSP_CONFIGURATION_REPORT_MAX_SIZE 0) in
  ret tt.
End report.

(** ** LockConfiguration (test_case_lock_configuration_1.c, test_case_lock_configuration_2.c) *)

Definition cxl_tsp_test_lock_configuration_1_setup : test bool :=
  setup_version (setup_capabilities "lock_configuration_1"%string (ret true)).
(** Size and operation that are expected are those of the answer to GET_CAPABILITIES. *)
Definition cxl_tsp_test_lock_configuration_1_run (cls id : Z) : test unit :=
  tsp_exchange (tsp_message CXL_TSP_OPCODE_LOCK_TARGET_CONFIGURATION) sizeof_cxl_tsp_lock_target_configuration_req_t
    LIBCXLTSP_ERROR_MESSAGE_MAX_SIZE sizeof_cxl_tsp_get_target_capabilities_rsp_t
    CXL_TSP_OPCODE_GET_TARGET_CAPABILITIES_RSP cls id (λ _, ret tt).

(** The user presses a key. *)
Definition lock_teardown : test unit := let+ _ := machine getchar in ret tt.

Definition cxl_tsp_test_lock_configuration_2_setup : test bool :=
  setup_version (setup_capabilities "lock_configuration_2"%string (
    let+ g := get_group in
    let+ status := machine (cxl_tsp_lock_configuration (cxl_session_id g)) in
    ret (negb (LIBSPDM_STATUS_IS_ERROR status)))).
Definition cxl_tsp_test_lock_configuration_2_run (cls id : Z) : test unit :=
  tsp_exchange (tsp_message CXL_TSP_OPCODE_LOCK_TARGET_CONFIGURATION) sizeof_cxl_tsp_lock_target_configuration_req_t
    LIBCXLTSP_ERROR_MESSAGE_MAX_SIZE sizeof_cxl_tsp_error_rsp_t CXL_TSP_OPCODE_ERROR_RSP cls id (λ response,
    let+ _ := record_test cls id 4 (tr_error_code response =? CXL_TSP_ERROR_CODE_ALREADY_LOCKED)
                (tsp_field (bs "ErrorCode") (tr_error_code response)) in
    record_test cls id 5 (tr_error_data response =? 0) (tsp_field (bs "ErrorData") (tr_error_data response))).

(** ** The group (test_group/test_group.c)
    The context that was allocated ends before the stream id of the CXL IDE
    context it is used as; the stream id is not touched here. *)

Definition cxl_tsp_test_group_setup : test bool :=
  let+ ok := on_group cxl_scan_devices in
  if negb ok then setup_failed (bs "Scan device failed.") else
  let+ ok := on_group cxl_init_dev_port in
  if negb ok then setup_failed (bs "Initialize device port failed.") else
  let+ g := get_group in
  let+ _ := io_assert (cxl_direct_or_switch g) in
  let+ ok := on_group cxl_init_root_port in
  if negb ok then setup_failed (bs "Initialize root port failed.") else
  let+ ctx := machine spdm_client_init in
  let+ _ := io_assert (negb (ctx =? 0)) in
  let+ (ok, session) := machine (spdm_connect ctx 0) in
  if negb ok then setup_failed (bs "Spdm connect failed.") else
  let+ g := get_group in
  let+ _ := put_group (with_cxl_session ctx session g) in
  let+ _ := record_group TEEIO_TEST_GROUP_FUNC_SETUP TEEIO_TEST_RESULT_PASS [] in
  ret true.

Definition cxl_tsp_test_group_teardown : test bool :=
  let+ _ := on_group cxl_close_session in
  let+ g := get_group in
  let+ _ := io_assert (cxl_direct_or_switch g) in
  let+ _ := on_group cxl_close_device in
  let+ _ := on_group cxl_close_root_port in
  let+ _ := record_group TEEIO_TEST_GROUP_FUNC_TEARDOWN TEEIO_TEST_RESULT_PASS [] in
  ret true.

(** ** The configuration (test_config/test_config.c) *)

Definition cxl_tsp_test_config_common_enable : test bool := ret true.
Definition cxl_tsp_test_config_common_disable : test bool := ret true.
Definition cxl_tsp_test_config_common_support : test bool :=
  let+ g := get_group in
  let rp_cxl_data := cxl_data (cxl_upper_port g) in
  let ep_cxl_data := cxl_data (cxl_lower_port g) in
  let supported :=
    (cxl_ide_capable (memcache_ide_cap (memcache rp_cxl_data)) =? 1) && (cxl_ide_capable (memcache_ide_cap (memcache ep_cxl_data)) =? 1) &&
    (mem_capable (ecap_cap (ecap ep_cxl_data)) =? 1) && (tsp_capable (ecap_cap (ecap rp_cxl_data)) =? 1) &&
    (tsp_capable (ecap_cap (ecap ep_cxl_data)) =? 1) in
  let+ _ := record_config IDE_TEST_CONFIGURATION_TYPE_DEFAULT TEEIO_TEST_CONFIG_FUNC_SUPPORT supported in
  ret supported.
Definition cxl_tsp_test_config_common_check : test bool := ret true.

(** ** The functions behind the pointers *)

Section tables.
Context (unset_size : Z) (rounds : positive).
#[local] Open Scope string_scope.
#[local] Abbreviation code := (Tests.code D cxl_ide_test_group_context_t tsp_vars).

Definition tsp_config_code : list (string * code) :=
  [("cxl_tsp_test_config_common_enable", Config cxl_tsp_test_config_common_enable);
   ("cxl_tsp_test_config_common_disable", Config cxl_tsp_test_config_common_disable);
   ("cxl_tsp_test_config_common_support", Config cxl_tsp_test_config_common_support);
   ("cxl_tsp_test_config_common_check", Config cxl_tsp_test_config_common_check)].

Definition tsp_group_code : list (string * code) :=
  [("cxl_tsp_test_group_setup", Group cxl_tsp_test_group_setup);
   ("cxl_tsp_test_group_teardown", Group cxl_tsp_test_group_teardown)].

Definition tsp_case_code : list (string * code) :=
  [("cxl_tsp_test_get_version_setup", Setup cxl_tsp_test_get_version_setup);
   ("cxl_tsp_test_get_version_run", Run cxl_tsp_test_get_version_run);
   ("cxl_tsp_test_get_version_teardown", Teardown no_teardown);
   ("cxl_tsp_test_get_caps_setup", Setup cxl_tsp_test_get_caps_setup);
   ("cxl_tsp_test_get_caps_run", Run cxl_tsp_test_get_caps_run);
   ("cxl_tsp_test_get_caps_teardown", Teardown no_teardown);
   ("cxl_tsp_test_set_configuration_setup", Setup cxl_tsp_test_set_configuration_setup);
   ("cxl_tsp_test_set_configuration_run", Run cxl_tsp_test_set_configuration_run);
   ("cxl_tsp_test_set_configuration_teardown", Teardown no_teardown);
   ("cxl_tsp_test_get_configuration_setup", Setup cxl_tsp_test_get_configuration_setup);
   ("cxl_tsp_test_get_configuration_run", Run cxl_tsp_test_get_configuration_run);
   ("cxl_tsp_test_get_configuration_teardown", Teardown no_teardown);
   ("cxl_tsp_test_get_configuration_report_setup", Setup cxl_tsp_test_get_configuration_report_setup);
   ("cxl_tsp_test_get_configuration_report_run", Run (cxl_tsp_test_get_configuration_report_run unset_size rounds));
   ("cxl_tsp_test_get_configuration_report_teardown", Teardown no_teardown);
   ("cxl_tsp_test_lock_configuration_1_setup", Setup cxl_tsp_test_lock_configuration_1_setup);
   ("cxl_tsp_test_lock_configuration_1_run", Run cxl_tsp_test_lock_configuration_1_run);
   ("cxl_tsp_test_lock_configuration_1_teardown", Teardown lock_teardown);
   ("cxl_tsp_test_lock_configuration_2_setup", Setup cxl_tsp_test_lock_configuration_2_setup);
   ("cxl_tsp_test_lock_configuration_2_run", Run cxl_tsp_test_lock_configuration_2_run);
   ("cxl_tsp_test_lock_configuration_2_teardown", Teardown lock_teardown)].

Definition tsp_test_code : list (string * code) := tsp_config_code ++ tsp_group_code ++ tsp_case_code.
Definition tsp_code : TestCode (world D cxl_ide_test_group_context_t tsp_vars) := table_code tsp_test_code cxl_enter.
End tables.

End tsp.

End Tsp.
