(* ===== verification/TspSpec.v ===== *)
(** * The CXL TSP tests, specified
    What the functions may report; the verdict of a case of one message as a
    property of the device's answer; and the cases that no device passes that
    answers with the operation code of its own message. *)

From Stdlib Require Import ZArith Lia Ascii String Btauto.
From stdpp Require Import prelude gmap strings.
From S2P Require Import Prelude Utils Libspdm TestConfig Results Engine TestLib Hardware PcieIde Kcbar Doe IdeKm Ports Spdm Tests TestsSpec PcieGroup PcieTestsSpec PcieRun CxlIde CxlKm CxlTests CxlGroup Tsp.

Open Scope Z_scope.
Open Scope teeio_scope.

Module TspSpec.
Import TestConfig Results Engine Hardware PcieIde Doe Ports Spdm Tests TestsSpec IdeKm CxlIde CxlKm CxlTests CxlGroup Tsp.

Section tsp.
Context {D : Type} `{Bus D} `{Clock D} `{Os D} `{DevMem D} `{Alloc (D * process)} `{Libspdm} `{DoeDiscovery (D * process)}.
Context `{IdeKmRequester (D * process)} `{CxlIdeKmRequester (D * process)} `{SpdmRequester (D * process)}.
Context `{TspRequester (D * process)}.
Context (unset_size : Z) (rounds : positive).

#[local] Abbreviation State := (D * process)%type.
#[local] Abbreviation test := (Tests.test D cxl_ide_test_group_context_t tsp_vars).
#[local] Abbreviation test_state := (test_state cxl_ide_test_group_context_t tsp_vars).
#[local] Abbreviation table := (tsp_test_code unset_size rounds).
#[local] Abbreviation entry_ok := (λ e : string * Tests.code D cxl_ide_test_group_context_t tsp_vars, code_ok (snd e)).

(** ** Reports *)

Ltac all_ok := repeat (apply Forall_cons; split; [cbn [code_ok snd]; reports|]); by apply Forall_nil.

Lemma tsp_config_code_ok : Forall entry_ok tsp_config_code.
Proof. unfold tsp_config_code. all_ok. Qed.

Lemma tsp_group_code_ok : Forall entry_ok tsp_group_code.
Proof. unfold tsp_group_code. all_ok. Qed.

Lemma tsp_case_code_ok : Forall entry_ok (tsp_case_code unset_size rounds).
Proof. unfold tsp_case_code. all_ok. Qed.

Lemma tsp_test_code_ok : Forall entry_ok table.
Proof.
  unfold tsp_test_code. rewrite !Forall_app.
  split; [apply tsp_config_code_ok|]. split; [apply tsp_group_code_ok|apply tsp_case_code_ok].
Qed.

Lemma tsp_names : NoDup table.*1.
Proof. apply (bool_decide_unpack _). vm_compute. exact I. Qed.

(** ** The verdict of a case of one message *)

Context (g : cxl_ide_test_group_context_t).

(** [m] records assertions only, at least one, and all of them pass exactly when [b]. *)
Definition judges (cls id : Z) (m : test unit) (b : bool) : Prop := ∀ d t ok tested,
  at_test g cls id ok tested t → ∃ t', m (d, t) = Ok (tt, (d, t')) ∧ at_test g cls id (ok && b) true t'.

Lemma judges_record cls id aid b message : judges cls id (record_test cls id aid b message) b.
Proof. intros d t ok tested. apply record_test_at. Qed.

Lemma judges_then cls id aid b message m b' :
  judges cls id m b' → judges cls id (let+ _ := record_test cls id aid b message in m) (b && b').
Proof.
  intros Hm d t ok tested Hat. destruct (record_test_at g cls id ok tested aid b message d t Hat) as (t1 & E & A).
  destruct (Hm d t1 _ _ A) as (t2 & E2 & A2). exists t2. rewrite (bind_Ok _ _ _ _ _ E). split; [exact E2|].
  by rewrite andb_assoc.
Qed.

(** The message, the size and the operation code of the answer, and what is asked of the rest. *)
Record expectation := {
  ex_request : tsp_request;
  ex_request_size : Z;
  ex_buffer_size : Z;
  ex_size : Z;
  ex_op_code : Z;
  ex_holds : tsp_response → bool
}.

Definition answer_ok (e : expectation) (status size : Z) (r : tsp_response) : bool :=
  negb (LIBSPDM_STATUS_IS_ERROR status) && (size =? ex_size e) && (tr_op_code r =? ex_op_code e) &&
  (tr_version r =? CXL_TSP_MESSAGE_VERSION_10) && ex_holds e r.

Definition exchange_plan (e : expectation) : io State bool :=
  let+ (status, size, r) := cxl_tsp_send_receive_data (cxl_session_id g) (ex_request e) (ex_request_size e) (ex_buffer_size e) in
  ret (answer_ok e status size r).

Lemma exchange_follows cls id e k (d : State) t ok tested :
  at_test g cls id ok tested t → (∀ r, judges cls id (k r) (ex_holds e r) ∨ k r = ret tt ∧ ex_holds e r = true) →
  simulates g cls id
    (tsp_exchange (ex_request e) (ex_request_size e) (ex_buffer_size e) (ex_size e) (ex_op_code e) cls id k : test unit)
    (exchange_plan e) d t (λ b _ ok' tested', ok' = ok && b ∧ tested' = true).
Proof.
  intros Hat Hk. unfold simulates, exchange_plan, tsp_exchange.
  assert (Hsend : tsp_send (ex_request e) (ex_request_size e) (ex_buffer_size e) (d, t) =
    let* (a, d') := cxl_tsp_send_receive_data (cxl_session_id g) (ex_request e) (ex_request_size e) (ex_buffer_size e) d in Ok (a, (d', t))).
  { unfold tsp_send, get_group, machine, Hardware.bind. cbn [res_bind fst snd]. by rewrite (proj1 Hat). }
  destruct (cxl_tsp_send_receive_data _ _ _ _ d) as [[[[status size] r] d']|x] eqn:E; cbn [res_bind] in Hsend.
  2: { by rewrite (bind_Stop _ _ _ _ E), (bind_Stop _ _ _ _ Hsend). }
  rewrite (bind_Ok _ _ _ _ _ E), (bind_Ok _ _ _ _ _ Hsend). unfold ret at 1, answer_ok.
  destruct (LIBSPDM_STATUS_IS_ERROR status); cbn [negb andb].
  { destruct (record_test_at g cls id ok tested 0 false (tsp_send_failed status) d' t Hat) as (t1 & E1 & A1).
    by exists tt, t1, (ok && false), true. }
  destruct (record_test_at g cls id ok tested 1 (size =? ex_size e) (tsp_message_size size) d' t Hat) as (t1 & E1 & A1).
  rewrite (bind_Ok _ _ _ _ _ E1). destruct (size =? ex_size e); cbn [negb andb].
  2: { by exists tt, t1, (ok && false), true. }
  destruct (record_test_at g cls id _ _ 2 (tr_op_code r =? ex_op_code e) (tsp_field (bs "Opcode") (tr_op_code r)) d' t1 A1) as (t2 & E2 & A2).
  destruct (record_test_at g cls id _ _ 3 (tr_version r =? CXL_TSP_MESSAGE_VERSION_10)
    (tsp_field (bs "TSPVersion") (tr_version r)) d' t2 A2) as (t3 & E3 & A3).
  assert (Hh : check_tsp_header (ex_op_code e) cls id r (d', t1) = Ok (tt, (d', t3))).
  { unfold check_tsp_header. by rewrite (bind_Ok _ _ _ _ _ E2). }
  rewrite (bind_Ok _ _ _ _ _ Hh). rewrite andb_true_r in A3.
  destruct (Hk r) as [Hj|[-> ->]].
  - destruct (Hj d' t3 _ _ A3) as (t4 & E4 & A4). exists tt, t4. eexists _, true. split; [exact E4|]. split; [exact A4|].
    by rewrite !andb_assoc.
  - exists tt, t3. eexists _, true. split; [done|]. split; [exact A3|]. by rewrite andb_true_r, !andb_assoc.
Qed.

(** *** What the documentation asks of the capabilities
    (doc/tsp_test/TspTestCase/2.GetTargetTspCapabilitiesResponse.md) *)

(** The assertions 2.1.4 to 2.1.12 and 2.1.14, on the fields as the device sends them. *)
Definition documented_assertions (caps : tsp_caps) : list bool :=
  let encryption := has (u16 (memory_encryption_features_supported caps)) in
  let algorithm := has (u32 (memory_encryption_algorithms_supported caps)) in
  let te := has (u16 (te_state_change_and_access_control_features_supported caps)) in
  let configuration := has (u16 (configuration_features_supported caps)) in
  let keys := memory_encryption_number_of_range_based_keys caps in
  let ib := supported_explicit_ib_te_state_granularity caps in
  let oob := supported_explicit_oob_te_state_granularity caps in
  let sessions := number_of_secondary_sessions caps in
  [ (* 2.1.4 *) Z.land (u16 (memory_encryption_features_supported caps)) CXL_TSP_MEMORY_ENCRYPTION_FEATURES_SUPPORT_ENCRYPTION =? 1;
    (* 2.1.5 *) algorithm CXL_TSP_MEMORY_ENCRYPTION_ALGORITHMS_AES_XTS_128 || algorithm CXL_TSP_MEMORY_ENCRYPTION_ALGORITHMS_AES_XTS_256;
    (* 2.1.6 *) if encryption CXL_TSP_MEMORY_ENCRYPTION_FEATURES_SUPPORT_RANGE_BASED_ENCRYPTION then negb (keys =? 0) else keys =? 0;
    (* 2.1.7 *) implb (te WRITE_ACCESS_CONTROL) (te EXPLICIT_OOB_TE_STATE_CHANGE || te EXPLICIT_IB_TE_STATE_CHANGE);
    (* 2.1.8 *) implb (te READ_ACCESS_CONTROL)
                  (te IMPLICIT_TE_STATE_CHANGE || te EXPLICIT_OOB_TE_STATE_CHANGE || te EXPLICIT_IB_TE_STATE_CHANGE);
    (* 2.1.9 *) implb (te IMPLICIT_TE_STATE_CHANGE)
                  (te EXPLICIT_IB_TE_STATE_CHANGE && has ib CXL_TSP_EXPLICIT_IB_TE_STATE_CHANGE_GRANULARITY_64B);
    (* 2.1.10 *) implb (te EXPLICIT_TE_STATE_CHANGE_SANITIZE) (te EXPLICIT_OOB_TE_STATE_CHANGE || te EXPLICIT_IB_TE_STATE_CHANGE);
    (* 2.1.11 *) if te EXPLICIT_OOB_TE_STATE_CHANGE then negb (oob =? 0) else oob =? 0;
    (* 2.1.12 *) if te EXPLICIT_IB_TE_STATE_CHANGE
                 then has ib 0x7FF || has ib CXL_TSP_EXPLICIT_IB_TE_STATE_CHANGE_GRANULARITY_ENTIRE_MEMORY else ib =? 0;
    (* 2.1.14 *) if configuration CXL_TSP_CONFIGURATION_FEATURES_SUPPORT_TARGET_SUPPORT_ADDITIONAL_SPDM_SESSIONS
                 then (0 <? sessions) && (sessions <=? 4) else sessions =? 0 ].

Definition ckid_based (caps : tsp_caps) : bool :=
  has (u16 (memory_encryption_features_supported caps)) CXL_TSP_MEMORY_ENCRYPTION_FEATURES_SUPPORT_CKID_BASED_ENCRYPTION.

(** The assertion 2.1.13, and what the test has in its place: without encryption by CKIDs it wants some. *)
Definition ckids_documented (caps : tsp_caps) : bool :=
  if ckid_based caps then (2 <=? caps_number_of_ckids caps) && (caps_number_of_ckids caps <? 2 ^ 13) else caps_number_of_ckids caps =? 0.
Definition ckids_as_coded (caps : tsp_caps) : bool :=
  if ckid_based caps then (2 <=? caps_number_of_ckids caps) && (caps_number_of_ckids caps <? 2 ^ 13)
  else negb (caps_number_of_ckids caps =? 0).

Definition caps_documented (caps : tsp_caps) : bool := forallb (λ b, b) (documented_assertions caps) && ckids_documented caps.
Definition caps_as_coded (caps : tsp_caps) : bool := forallb (λ b, b) (documented_assertions caps) && ckids_as_coded caps.

(** The masks of the test do not hide a flag it looks at. *)
Lemma lor_eqb_0 a b : (Z.lor a b =? 0) = (a =? 0) && (b =? 0).
Proof.
  destruct (Z.eqb_spec (Z.lor a b) 0) as [E|E].
  - by apply Z.lor_eq_0_iff in E as [-> ->].
  - destruct (Z.eqb_spec a 0) as [->|]; [|done]. by destruct (Z.eqb_spec b 0) as [->|].
Qed.

Lemma land_mod_pow2 x m n : 0 ≤ n → Z.land x m mod 2 ^ n = Z.land (x mod 2 ^ n) m.
Proof. intros Hn. rewrite <- !Z.land_ones by done. by rewrite <- !Z.land_assoc, (Z.land_comm m). Qed.

Lemma land_masked x m f : Z.land m f = f → Z.land (Z.land x m) f = Z.land x f.
Proof. intros Hm. by rewrite <- Z.land_assoc, Hm. Qed.

Ltac in_mask := apply Z.bits_inj'; intros ? _; rewrite ?Z.land_spec, ?Z.lor_spec; btauto.
Ltac unmask := unfold u16, u32; rewrite !land_mod_pow2 by done;
  repeat match goal with |- context [Z.land (Z.land ?x ?m) ?f] => rewrite (land_masked x m f) by in_mask end.

(** Clause by clause, but for 2.1.13, which comes before 2.1.14. *)
Ltac same_bits := by rewrite ?Z.land_lor_distr_r, ?lor_eqb_0;
  repeat match goal with |- context [?a =? ?b] => destruct (a =? b) end.

Lemma validate_capability_judges caps cls id :
  judges cls id (teeio_cxl_tsp_validate_capability caps cls id) (caps_as_coded caps).
Proof.
  unfold teeio_cxl_tsp_validate_capability. cbv zeta.
  match goal with |- judges _ _ ?m ?b => evar (x : bool); assert (Hx : judges cls id m x) end.
  { repeat (apply judges_then). apply judges_record. }
  eapply eq_ind; [exact Hx|]. unfold x. clear x Hx.
  unfold caps_as_coded, documented_assertions, ckids_as_coded, ckid_based. cbn [forallb].
  rewrite andb_true_r, <- !andb_assoc. unfold has. unmask.
  do 9 (apply (f_equal2 andb); [same_bits|]). rewrite andb_comm. apply (f_equal2 andb); same_bits.
Qed.

(** *** What the documentation asks of the answers *)

Definition documented : list (string * expectation) :=
  [ (* 1.1 *) ("cxl_tsp_test_get_version_run"%string,
      {| ex_request := tsp_message CXL_TSP_OPCODE_GET_TARGET_TSP_VERSION; ex_request_size := sizeof_cxl_tsp_get_target_tsp_version_req_t;
         ex_buffer_size := LIBCXLTSP_ERROR_MESSAGE_MAX_SIZE; ex_size := sizeof_teeio_cxl_tsp_get_target_tsp_version_rsp_mine_t;
         ex_op_code := CXL_TSP_OPCODE_GET_TARGET_TSP_VERSION_RSP;
         ex_holds r := (tr_version_number_entry_count r =? 1) && (tr_version_number_entry r =? CXL_TSP_MESSAGE_VERSION_10) |});
   (* 2.1 *) ("cxl_tsp_test_get_caps_run"%string,
      {| ex_request := tsp_message CXL_TSP_OPCODE_GET_TARGET_CAPABILITIES; ex_request_size := sizeof_cxl_tsp_get_target_capabilities_req_t;
         ex_buffer_size := sizeof_cxl_tsp_get_target_capabilities_rsp_t; ex_size := sizeof_cxl_tsp_get_target_capabilities_rsp_t;
         ex_op_code := CXL_TSP_OPCODE_GET_TARGET_CAPABILITIES_RSP; ex_holds r := caps_documented (tr_caps r) |});
   (* 6.1 *) ("cxl_tsp_test_lock_configuration_1_run"%string,
      {| ex_request := tsp_message CXL_TSP_OPCODE_LOCK_TARGET_CONFIGURATION; ex_request_size := sizeof_cxl_tsp_lock_target_configuration_req_t;
         ex_buffer_size := LIBCXLTSP_ERROR_MESSAGE_MAX_SIZE; ex_size := sizeof_cxl_tsp_lock_target_configuration_rsp_t;
         ex_op_code := CXL_TSP_OPCODE_LOCK_TARGET_CONFIGURATION_RSP; ex_holds _ := true |});
   (* 6.2 *) ("cxl_tsp_test_lock_configuration_2_run"%string,
      {| ex_request := tsp_message CXL_TSP_OPCODE_LOCK_TARGET_CONFIGURATION; ex_request_size := sizeof_cxl_tsp_lock_target_configuration_req_t;
         ex_buffer_size := LIBCXLTSP_ERROR_MESSAGE_MAX_SIZE; ex_size := sizeof_cxl_tsp_error_rsp_t;
         ex_op_code := CXL_TSP_OPCODE_ERROR_RSP;
         ex_holds r := (tr_error_code r =? CXL_TSP_ERROR_CODE_ALREADY_LOCKED) && (tr_error_data r =? 0) |})].

(** The two departures of the tests: 2.1.13 in the capabilities, and the answer to the first
    LOCK_CONFIGURATION, which is compared with one to GET_CAPABILITIES. *)
Definition as_coded (f : string) (e : expectation) : expectation :=
  if String.eqb f "cxl_tsp_test_get_caps_run" then
    {| ex_request := ex_request e; ex_request_size := ex_request_size e; ex_buffer_size := ex_buffer_size e;
       ex_size := ex_size e; ex_op_code := ex_op_code e; ex_holds r := caps_as_coded (tr_caps r) |}
  else if String.eqb f "cxl_tsp_test_lock_configuration_1_run" then
    {| ex_request := ex_request e; ex_request_size := ex_request_size e; ex_buffer_size := ex_buffer_size e;
       ex_size := sizeof_cxl_tsp_get_target_capabilities_rsp_t; ex_op_code := CXL_TSP_OPCODE_GET_TARGET_CAPABILITIES_RSP;
       ex_holds := ex_holds e |}
  else e.

(** The answers on which the two differ. *)
Definition departs (f : string) (r : tsp_response) : Prop :=
  f = "cxl_tsp_test_get_caps_run"%string ∧ ckid_based (tr_caps r) = false ∨ f = "cxl_tsp_test_lock_configuration_1_run"%string.

(** An answer as documented is no answer as coded there, and the two are the same elsewhere. *)
Lemma departures f e :
  (f, e) ∈ documented → CXL_TSP_OPCODE_LOCK_TARGET_CONFIGURATION_RSP ≠ CXL_TSP_OPCODE_GET_TARGET_CAPABILITIES_RSP →
  ∀ status size r,
    (¬ departs f r → answer_ok (as_coded f e) status size r = answer_ok e status size r) ∧
    (departs f r → answer_ok e status size r = true → answer_ok (as_coded f e) status size r = false).
Proof.
  intros Hf Hcodes status size r. unfold departs. set_unfold in Hf. destruct Hf as [Hf|[Hf|[Hf|[Hf|[]]]]]; injection Hf as -> ->; cbn.
  - split; [done|]. by intros [[? _]|?].
  - unfold answer_ok, caps_as_coded, caps_documented, ckids_as_coded, ckids_documented. cbn. split.
    + destruct (ckid_based (tr_caps r)); [done|]. intros Hd. destruct Hd. by left.
    + intros [[_ ->]|?]; [|done]. rewrite !andb_true_iff. intros [_ [_ ->]]. by rewrite !andb_false_r.
  - unfold answer_ok. cbn. split; [intros Hd; destruct Hd; by right|]. intros _. rewrite !andb_true_iff, !Z.eqb_eq.
    intros [[[_ ->] _] _]. rewrite (proj2 (Z.eqb_neq _ _) Hcodes). by rewrite andb_false_r.
  - split; [done|]. by intros [[? _]|?].
Qed.

Lemma runs_follow :
  Forall (λ x, ∃ ru, find_code (fst x) table = Some (Run ru) ∧
    ∀ cls id (d : State) t, at_test g cls id true false t →
      simulates g cls id (ru cls id : test unit) (exchange_plan (as_coded (fst x) (snd x))) d t
        (λ b _ ok' tested', ok' = true && b ∧ tested' = true))
    documented.
Proof.
  repeat (apply Forall_cons; split); [..|by apply Forall_nil];
    (eexists; split; [in_table tsp_names|]; intros cls id d t Hat; cbn [fst snd]; unfold as_coded; cbn [String.eqb Ascii.eqb Bool.eqb];
     lazymatch goal with |- simulates _ _ _ _ (exchange_plan ?e) _ _ _ => apply (exchange_follows cls id e _ d t true false Hat) end; intros r).
  - left. apply judges_then, judges_record.
  - left. apply validate_capability_judges.
  - by right.
  - left. apply judges_then, judges_record.
Qed.

(** C19: The verdict of the CXL TSP tests of one message is about the device.  Of
    GET_VERSION, GET_CAPABILITIES and the two of LOCK_CONFIGURATION each sends its
    message and nothing else; on a fresh case the verdict is PASS when the answer has the
    size, operation code, version and content of the documented assertions (1.1, 2.1, 6.1 and 6.2 of doc/tsp_test), and FAILED in
    every other case, but for two departures.  Where the device has no encryption by CKIDs, the capabilities pass
    with a number of CKIDs other than 0 (2.1.13 asks for 0); and the first
    LOCK_CONFIGURATION passes on the size and operation code of an answer to GET_CAPABILITIES (6.1.1 and
    6.1.2 ask for its own).  When these two operation codes differ, a device whose answer is as
    documented fails both tests; on every other answer the verdict is the documented one.  Where the
    exchange stops, so does the test. *)
Theorem tsp_verdict f e cls id (d : State) t :
  (f, e) ∈ documented → group t = g → at_case cls id true false (test_results t) →
  (∃ ru, find_code f table = Some (Run ru) ∧
    match exchange_plan (as_coded f e) d with
    | Stop x => ru cls id (d, t) = Stop x
    | Ok (ok, d') => ∃ t', ru cls id (d, t) = Ok (tt, (d', t')) ∧
        teeio_test_case_result cls id (test_results t') = Ok (if ok then TEEIO_TEST_RESULT_PASS else TEEIO_TEST_RESULT_FAILED)
    end) ∧
  (CXL_TSP_OPCODE_LOCK_TARGET_CONFIGURATION_RSP ≠ CXL_TSP_OPCODE_GET_TARGET_CAPABILITIES_RSP → ∀ status size r,
    (¬ departs f r → answer_ok (as_coded f e) status size r = answer_ok e status size r) ∧
    (departs f r → answer_ok e status size r = true → answer_ok (as_coded f e) status size r = false)).
Proof.
  intros Hf Hg Hat. split; [|by intros; apply departures].
  destruct (proj1 (Forall_forall _ _) runs_follow _ Hf) as (ru & Hru & Hs). cbn [fst snd] in *.
  exists ru. split; [exact Hru|]. specialize (Hs cls id d t (conj Hg Hat)). unfold simulates in Hs.
  destruct (exchange_plan _ d) as [[ok d']|x]; [|done].
  destruct Hs as ([] & t' & ok' & tested' & E & [_ Hc] & -> & ->). exists t'. split; [done|].
  rewrite (case_result_at _ _ _ _ _ Hc). by destruct ok.
Qed.

(** ** Cases that are never passed *)

(** Where [m] returns, the case has failed. *)
Definition fails {A} (cls id : Z) (m : test A) (d : State) (t : test_state) : Prop := ∀ a d' t',
  m (d, t) = Ok (a, (d', t')) → ∃ tested, at_case cls id false tested (test_results t').

Lemma fails_after {A} cls id (m : test A) d t tested :
  at_test g cls id false tested t → reports_only (of_case cls id) m → fails cls id m d t.
Proof.
  intros [_ Hat] Hm a d' t' E. destruct (Hm _ _ _ _ _ E) as (ops & _ & Hf & Hr). by eapply failed_stays.
Qed.

Lemma fails_bind {A B} cls id (m : test A) (k : A → test B) d t :
  fails cls id m d t → (∀ a, reports_only (of_case cls id) (k a)) → fails cls id (Hardware.bind m k) d t.
Proof.
  intros Hm Hk b d' t'. unfold Hardware.bind. destruct (m (d, t)) as [[a [d1 t1]]|] eqn:E; cbn [res_bind]; [|done]. intros F.
  destruct (Hm _ _ _ E) as [tested A1]. destruct (Hk a _ _ _ _ _ F) as (ops & _ & Hf & Hr). by eapply failed_stays.
Qed.

Lemma fails_record {A} cls id ok tested aid message (k : unit → test A) d t :
  at_test g cls id ok tested t → (∀ a, reports_only (of_case cls id) (k a)) →
  fails cls id (Hardware.bind (record_test cls id aid false message) k) d t.
Proof.
  intros Hat Hk. apply fails_bind; [|exact Hk]. intros [] d' t' E.
  destruct (record_test_at g cls id ok tested aid false message d t Hat) as (t1 & E1 & [_ A1]).
  rewrite E1 in E. injection E as <- <-. rewrite andb_false_r in A1. by eexists.
Qed.

Lemma fails_next {A} cls id ok tested aid b message (k : unit → test A) d t :
  at_test g cls id ok tested t → (∀ t', at_test g cls id (ok && b) true t' → fails cls id (k tt) d t') →
  fails cls id (Hardware.bind (record_test cls id aid b message) k) d t.
Proof.
  intros Hat Hk. destruct (record_test_at g cls id ok tested aid b message d t Hat) as (t1 & E1 & A1).
  intros a d' t'. rewrite (bind_Ok _ _ _ _ _ E1). by apply (Hk t1 A1).
Qed.

(** The operation code of an answer without error is not the one the test compares it with. *)
Definition answers_otherwise (request : tsp_request) (request_size buffer_size op_code : Z) (d : State) : Prop :=
  ∀ status size r d', cxl_tsp_send_receive_data (cxl_session_id g) request request_size buffer_size d = Ok (status, size, r, d') →
    LIBSPDM_STATUS_IS_ERROR status = false → tr_op_code r ≠ op_code.

Lemma send_then_fails {A} cls id request rsize buffer (k : Z * Z * tsp_response → test A) d t ok tested :
  at_test g cls id ok tested t →
  (∀ status size r d', cxl_tsp_send_receive_data (cxl_session_id g) request rsize buffer d = Ok (status, size, r, d') →
     fails cls id (k (status, size, r)) d' t) →
  fails cls id (Hardware.bind (tsp_send request rsize buffer) k) d t.
Proof.
  intros Hat Hk a d' t'. unfold tsp_send, get_group, machine, Hardware.bind. cbn [res_bind fst snd]. rewrite (proj1 Hat).
  destruct (cxl_tsp_send_receive_data _ _ _ _ d) as [[[[status size] r] d1]|] eqn:E; cbn [res_bind]; [|done].
  by apply (Hk _ _ _ _ eq_refl).
Qed.

Lemma header_fails {A} cls id op r (k : unit → test A) d t ok tested :
  at_test g cls id ok tested t → tr_op_code r ≠ op → (∀ a, reports_only (of_case cls id) (k a)) →
  fails cls id (Hardware.bind (check_tsp_header op cls id r) k) d t.
Proof.
  intros Hat Hop%Z.eqb_neq Hk. apply fails_bind; [|exact Hk]. unfold check_tsp_header. rewrite Hop.
  eapply fails_record; [exact Hat|]. intros a. reports.
Qed.

Lemma exchange_fails cls id request rsize buffer size op k d t ok tested :
  at_test g cls id ok tested t → answers_otherwise request rsize buffer op d →
  (∀ r, reports_only (of_case cls id) (k r)) → fails cls id (tsp_exchange request rsize buffer size op cls id k) d t.
Proof.
  intros Hat Hop Hk. unfold tsp_exchange. eapply send_then_fails; [exact Hat|]. intros status n r d' E.
  destruct (LIBSPDM_STATUS_IS_ERROR status) eqn:Hs.
  - intros [] d1 t1 F. destruct (record_test_at g cls id ok tested 0 false (tsp_send_failed status) d' t Hat) as (t2 & E2 & [_ A2]).
    rewrite E2 in F. injection F as <- <-. rewrite andb_false_r in A2. by eexists.
  - eapply fails_next; [exact Hat|]. intros t1 A1. destruct (n =? size); cbn [negb].
    + eapply header_fails; [exact A1|by eapply Hop|]. intros _. apply Hk.
    + rewrite andb_false_r in A1. eapply fails_after; [exact A1|reports].
Qed.

Lemma round_reports size cls id s : reports_only (of_case cls id) (tsp_report_round size cls id s).
Proof. destruct s as [[[[o rm] tl] rd] buf]. unfold tsp_report_round. reports. Qed.

Lemma report_fails size cls id buf d t ok tested :
  at_test g cls id ok tested t →
  answers_otherwise (report_message 0 LIBCXLTSP_CONFIGURATION_REPORT_PORTION_LEN) sizeof_cxl_tsp_get_target_configuration_report_req_t
    sizeof_teeio_cxl_tsp_get_target_configuration_report_rsp_mine_t CXL_TSP_OPCODE_GET_TARGET_CONFIGURATION_REPORT d →
  fails cls id (test_cxl_tsp_get_configuration_report rounds size cls id buf) d t.
Proof.
  intros Hat Hop. unfold test_cxl_tsp_get_configuration_report.
  assert (Hround : fails cls id (tsp_report_round size cls id (0, 0, 0, 0, buf)) d t).
  { unfold tsp_report_round. cbn [Z.eqb]. set (info := _ ++ dec 0 ++ _).
    destruct (record_separator_at g cls id ok tested info d t Hat) as (t1 & E1 & A1).
    intros a d' t'. rewrite (bind_Ok _ _ _ _ _ E1). revert a d' t'.
    eapply send_then_fails; [exact A1|]. intros status n r d' E. destruct (LIBSPDM_STATUS_IS_ERROR status) eqn:Hs.
    - eapply fails_record; [exact A1|]. intros _. apply reports_ret.
    - eapply fails_next; [exact A1|]. intros t2 A2. destruct (n =? _); cbn [negb].
      + eapply header_fails; [exact A2|by eapply Hop|]. intros _. reports.
      + rewrite andb_false_r in A2. eapply fails_after; [exact A2|reports]. }
  intros a d' t'. destruct (Pos.succ_pred_or rounds) as [->|<-].
  - rewrite io_while_one. destruct (tsp_report_round _ _ _ _ (d, t)) as [[[s|b] [d1 t1]]|] eqn:E; try done.
    intros [= <- <- <-]. by apply (Hround _ _ _ E).
  - rewrite io_while_succ. destruct (tsp_report_round _ _ _ _ (d, t)) as [[[s|b] [d1 t1]]|] eqn:E; try done.
    + intros F. destruct (Hround _ _ _ E) as [tested' A1].
      destruct (reports_while (of_case cls id) (Pos.pred rounds) _ s (round_reports size cls id) _ _ _ _ _ F) as (ops & _ & Hf & Hr).
      by eapply failed_stays.
    + intros [= <- <- <-]. by apply (Hround _ _ _ E).
Qed.

(** The request of a case and the operation code its answer is compared with. *)
Definition misjudged : list (string * (tsp_request * Z * Z * Z)) :=
  [("cxl_tsp_test_lock_configuration_1_run"%string,
      (tsp_message CXL_TSP_OPCODE_LOCK_TARGET_CONFIGURATION, sizeof_cxl_tsp_lock_target_configuration_req_t,
       LIBCXLTSP_ERROR_MESSAGE_MAX_SIZE, CXL_TSP_OPCODE_GET_TARGET_CAPABILITIES_RSP));
   ("cxl_tsp_test_get_configuration_run"%string,
      (tsp_message CXL_TSP_OPCODE_GET_TARGET_CONFIGURATION, sizeof_cxl_tsp_get_target_configuration_req_t,
       sizeof_cxl_tsp_get_target_configuration_rsp_t, CXL_TSP_OPCODE_GET_TARGET_CONFIGURATION));
   ("cxl_tsp_test_get_configuration_report_run"%string,
      (report_message 0 LIBCXLTSP_CONFIGURATION_REPORT_PORTION_LEN, sizeof_cxl_tsp_get_target_configuration_report_req_t,
       sizeof_teeio_cxl_tsp_get_target_configuration_report_rsp_mine_t, CXL_TSP_OPCODE_GET_TARGET_CONFIGURATION_REPORT))].

Lemma misjudged_fail :
  Forall (λ '(f, (request, rsize, buffer, op)), ∃ ru, find_code f table = Some (Run ru) ∧
    ∀ cls id (d : State) t tested, at_test g cls id true tested t → answers_otherwise request rsize buffer op d →
      fails cls id (ru cls id : test unit) d t) misjudged.
Proof.
  repeat (apply Forall_cons; split); [..|by apply Forall_nil];
    (cbv beta iota; eexists; split; [in_table tsp_names|]; intros cls id d t tested Hat Hop).
  - apply (exchange_fails cls id _ _ _ _ _ _ d t true tested Hat Hop). intros r. reports.
  - unfold cxl_tsp_test_get_configuration_run. intros a d' t' E. rewrite (bind_Ok _ _ (d, t) _ (d, t) eq_refl) in E.
    eapply (exchange_fails cls id _ _ _ _ _ _ d t true tested Hat Hop); [|exact E]. intros r. reports.
  - unfold cxl_tsp_test_get_configuration_report_run. apply fails_bind; [by eapply report_fails|]. intros _. apply reports_ret.
Qed.

(** Three of the CXL TSP tests are passed by no device that answers with an
    operation code of its own.  LOCK_CONFIGURATION compares the answer
    with that of GET_CAPABILITIES, GET_CONFIGURATION and GET_CONFIGURATION_REPORT
    compare it with the request: where the answer has another code and the run returns,
    the verdict is FAILED, whatever else the answer holds. *)
Theorem protocol_answers_never_pass f request rsize buffer op cls id (d : State) t :
  (f, (request, rsize, buffer, op)) ∈ misjudged → group t = g → at_case cls id true false (test_results t) →
  answers_otherwise request rsize buffer op d →
  ∃ ru, find_code f table = Some (Run ru) ∧
    ∀ d' t', ru cls id (d, t) = Ok (tt, (d', t')) →
      teeio_test_case_result cls id (test_results t') = Ok TEEIO_TEST_RESULT_FAILED.
Proof.
  intros Hf Hg Hat Hop. destruct (proj1 (Forall_forall _ _) misjudged_fail _ Hf) as (ru & Hru & Hfail).
  exists ru. split; [exact Hru|]. intros d' t' E.
  destruct (Hfail cls id d t false (conj Hg Hat) Hop _ _ _ E) as [tested A]. by rewrite (case_result_at _ _ _ _ _ A).
Qed.

End tsp.

(** ** A device

    The machine is whether the configuration is locked.  The device answers
    GET_VERSION, reports itself in a portion, locks once, and refuses to be locked again. *)
#[local] Existing Instances PcieTestsSpec.model_requester PcieRun.model_alloc PcieRun.model_discovery PcieRun.model_spdm.

#[local] Instance model_bus : Bus bool := {| bus_read _ _ d := (0, d); bus_write _ _ _ d := d |}.
#[local] Instance model_clock : Clock bool := {| sleep_for _ d := d |}.
#[local] Instance model_os : Os bool := {|
  os_open _ d := (-1, d); os_size _ d := (0, d); os_close _ d := d; os_keyp _ := None; os_map _ _ := None;
  os_unmap _ _ d := d; os_write_file _ _ d := d
|}.
#[local] Instance model_dev_mem : DevMem bool := {| os_open_mem d := (-1, d); os_mmap _ _ _ d := (None, d); os_munmap _ _ d := d |}.

Definition model_cxl_requester {S : Type} : CxlIdeKmRequester S := {|
  CXL_IDE_KM_KEY_DIRECTION_RX := 0; CXL_IDE_KM_KEY_DIRECTION_TX := 2; CXL_IDE_KM_KEY_IV_DEFAULT := 0; CXL_IDE_KM_KEY_IV_INITIAL := 8;
  CXL_IDE_KM_KEY_SUB_STREAM_CXL := 0x80; CXL_IDE_KM_KEY_MODE_SKID := 0; CXL_IDE_KM_KEY_MODE_CONTAINMENT := 4;
  CXL_IDE_KM_IDE_CAP_REG_BLOCK_MAX_COUNT := 9; sizeof_kb_key := 32; sizeof_kb_iv := 12;
  cxl_ide_km_query _ _ answer := Hardware.ret (0, answer); cxl_ide_km_get_key _ _ _ _ kb := Hardware.ret (0, kb);
  cxl_ide_km_key_prog _ _ _ _ _ := Hardware.ret (0, 0); cxl_ide_km_key_set_go _ _ _ _ := Hardware.ret 0;
  cxl_ide_km_key_set_stop _ _ _ _ := Hardware.ret 0
|}.
#[local] Existing Instance model_cxl_requester.

Definition no_caps : tsp_caps :=
  {| memory_encryption_features_supported := 0; memory_encryption_algorithms_supported := 0;
     memory_encryption_number_of_range_based_keys := 0; te_state_change_and_access_control_features_supported := 0;
     supported_explicit_oob_te_state_granularity := 0; supported_explicit_ib_te_state_granularity := 0;
     configuration_features_supported := 0; caps_number_of_ckids := 0; number_of_secondary_sessions := 0 |}.
Definition no_configuration : tsp_configuration :=
  {| memory_encryption_features_enable := 0; memory_encryption_algorithm_select := 0;
     te_state_change_and_access_control_features_enable := 0; explicit_oob_te_state_granularity := 0;
     configuration_features_enable := 0; ckid_base := 0; number_of_ckids := 0; explicit_ib_te_state_granularity_entry := [] |}.

Definition model_response (op error portion : Z) : tsp_response :=
  {| tr_version := 0x10; tr_op_code := op; tr_version_number_entry_count := 1; tr_version_number_entry := 0x10;
     tr_caps := no_caps; tr_configuration := no_configuration; tr_current_tsp_state := 0; tr_error_code := error; tr_error_data := 0;
     tr_portion_length := portion; tr_remainder_length := 0; tr_report := replicate (Z.to_nat portion) 0 |}.

(** The operation codes of the answers are those of the requests less 0x80. *)
Definition model_exchange (request : tsp_request) : io (bool * process) (Z * Z * tsp_response) := λ '(locked, p),
  let op := tq_op_code request in
  if op =? 0x81 then Ok (0, 6, model_response 0x01 0 0, (locked, p))
  else if op =? 0x86 then
    if locked : bool then Ok (0, 12, model_response 0x7f 5 0, (true, p)) else Ok (0, 4, model_response 0x06 0 0, (true, p))
  else Ok (0, 18, model_response (op - 0x80) 0 8, (locked, p)).

Definition libtsp {S : Type} (exchange : tsp_request → io S (Z * Z * tsp_response)) : TspRequester S := {|
  CXL_TSP_MESSAGE_VERSION_10 := 0x10; CXL_TSP_OPCODE_GET_TARGET_TSP_VERSION := 0x81; CXL_TSP_OPCODE_GET_TARGET_TSP_VERSION_RSP := 0x01;
  CXL_TSP_OPCODE_GET_TARGET_CAPABILITIES := 0x82; CXL_TSP_OPCODE_GET_TARGET_CAPABILITIES_RSP := 0x02;
  CXL_TSP_OPCODE_SET_TARGET_CONFIGURATION := 0x83; CXL_TSP_OPCODE_SET_TARGET_CONFIGURATION_RSP := 0x03;
  CXL_TSP_OPCODE_GET_TARGET_CONFIGURATION := 0x84; CXL_TSP_OPCODE_GET_TARGET_CONFIGURATION_RSP := 0x04;
  CXL_TSP_OPCODE_GET_TARGET_CONFIGURATION_REPORT := 0x85; CXL_TSP_OPCODE_GET_TARGET_CONFIGURATION_REPORT_RSP := 0x05;
  CXL_TSP_OPCODE_LOCK_TARGET_CONFIGURATION := 0x86; CXL_TSP_OPCODE_LOCK_TARGET_CONFIGURATION_RSP := 0x06;
  CXL_TSP_OPCODE_ERROR_RSP := 0x7f; CXL_TSP_ERROR_CODE_ALREADY_LOCKED := 5; CXL_TSP_STATE_ERROR := 3;
  CXL_TSP_MEMORY_ENCRYPTION_FEATURES_SUPPORT_ENCRYPTION := 1; CXL_TSP_MEMORY_ENCRYPTION_FEATURES_SUPPORT_CKID_BASED_ENCRYPTION := 2;
  CXL_TSP_MEMORY_ENCRYPTION_FEATURES_SUPPORT_RANGE_BASED_ENCRYPTION := 4;
  CXL_TSP_MEMORY_ENCRYPTION_FEATURES_SUPPORT_INITIATOR_SUPPLIED_ENTROPY := 8;
  CXL_TSP_MEMORY_ENCRYPTION_FEATURES_SUPPORT_CKID_BASED_REQUIRED := 16; CXL_TSP_MEMORY_ENCRYPTION_FEATURES_ENABLE_ENCRYPTION := 1;
  CXL_TSP_MEMORY_ENCRYPTION_FEATURES_ENABLE_CKID_BASED_ENCRYPTION := 2; CXL_TSP_MEMORY_ENCRYPTION_FEATURES_ENABLE_RANGE_BASED_ENCRYPTION := 4;
  CXL_TSP_MEMORY_ENCRYPTION_ALGORITHMS_AES_XTS_128 := 1; CXL_TSP_MEMORY_ENCRYPTION_ALGORITHMS_AES_XTS_256 := 2;
  WRITE_ACCESS_CONTROL := 1; READ_ACCESS_CONTROL := 2; IMPLICIT_TE_STATE_CHANGE := 4; EXPLICIT_OOB_TE_STATE_CHANGE := 8;
  EXPLICIT_IB_TE_STATE_CHANGE := 16; EXPLICIT_TE_STATE_CHANGE_SANITIZE := 32;
  CXL_TSP_EXPLICIT_IB_TE_STATE_CHANGE_GRANULARITY_64B := 1; CXL_TSP_EXPLICIT_IB_TE_STATE_CHANGE_GRANULARITY_ENTIRE_MEMORY := 0x80000000;
  CXL_TSP_CONFIGURATION_FEATURES_ENABLE_LOCKED_TARGET_FW_UPDATE := 1; CXL_TSP_CONFIGURATION_FEATURES_SUPPORT_LOCKED_TARGET_FW_UPDATE := 1;
  CXL_TSP_CONFIGURATION_FEATURES_SUPPORT_TARGET_SUPPORT_ADDITIONAL_SPDM_SESSIONS := 2; CXL_TSP_2ND_SESSION_COUNT := 4;
  CXL_TSP_2ND_SESSION_KEY_MATERIAL_SIZE := 32; LIBCXLTSP_ERROR_MESSAGE_MAX_SIZE := 0x100; LIBCXLTSP_CONFIGURATION_REPORT_PORTION_LEN := 16;
  LIBCXLTSP_CONFIGURATION_REPORT_MAX_SIZE := 64; sizeof_cxl_tsp_header_t := 2; sizeof_cxl_tsp_version_number_t := 1;
  sizeof_cxl_tsp_get_target_tsp_version_req_t := 4; sizeof_cxl_tsp_get_target_capabilities_req_t := 4;
  sizeof_cxl_tsp_get_target_capabilities_rsp_t := 36; sizeof_cxl_tsp_set_target_configuration_req_t := 200;
  sizeof_cxl_tsp_set_target_configuration_rsp_t := 4; sizeof_cxl_tsp_get_target_configuration_req_t := 4;
  sizeof_cxl_tsp_get_target_configuration_rsp_t := 64; sizeof_cxl_tsp_get_target_configuration_report_req_t := 8;
  sizeof_cxl_tsp_get_target_configuration_report_rsp_t := 10; sizeof_cxl_tsp_lock_target_configuration_req_t := 4;
  sizeof_cxl_tsp_lock_target_configuration_rsp_t := 4; sizeof_cxl_tsp_error_rsp_t := 12;
  cxl_tsp_send_receive_data _ request _ _ := exchange request; cxl_tsp_get_version _ := Hardware.ret 0;
  cxl_tsp_get_capabilities _ := Hardware.ret (0, no_caps); cxl_tsp_lock_configuration _ := Hardware.ret 0
|}.
#[local] Instance model_tsp : TspRequester (bool * process) := libtsp model_exchange.

Definition model_port : cxl_port_context_t :=
  {| base := PcieTestsSpec.example_port_context 3 IDE_PORT_TYPE_ENDPOINT 1; cxl_data := cleared_cxl_data |}.
Definition model_group : cxl_ide_test_group_context_t :=
  {| cxl_category := TEEIO_TEST_CATEGORY_CXL_TSP; cxl_test_config := zero_config; cxl_config_id := 1; cxl_case_class := 5;
     cxl_top := PcieTestsSpec.example_topology; cxl_root_addr := 1; cxl_upper_addr := 1; cxl_lower_addr := 2;
     cxl_root_port := PcieTestsSpec.example_port IDE_PORT_TYPE_ROOTPORT 1; cxl_upper_port := model_port; cxl_lower_port := model_port;
     cxl_sw_conn1 := []; cxl_spdm_context := 0x1000; cxl_session_id := 1; cxl_stream_id := 0 |}.

Definition model_test_state : test_state cxl_ide_test_group_context_t tsp_vars :=
  {| group := model_group; test_results := PcieTestsSpec.fresh_results; reports := []; skip_case := false; vars := ∅ |}.

#[local] Abbreviation P := PcieTestsSpec.example_process.
#[local] Abbreviation run_of f ru := (find_code f (tsp_test_code (D := bool) 0 10) = Some (Run ru)).

(** The version is reported, and a locked configuration is not locked again. *)
Lemma tsp_verdict_witness :
  (∃ ru t, run_of "cxl_tsp_test_get_version_run"%string ru ∧
     ru 2 1 ((false, P), model_test_state) = Ok (tt, ((false, P), t)) ∧
     teeio_test_case_result 2 1 (test_results t) = Ok TEEIO_TEST_RESULT_PASS) ∧
  (∃ ru t, run_of "cxl_tsp_test_lock_configuration_2_run"%string ru ∧
     ru 2 1 ((false, P), model_test_state) = Ok (tt, ((true, P), t)) ∧
     teeio_test_case_result 2 1 (test_results t) = Ok TEEIO_TEST_RESULT_FAILED).
Proof.
  split.
  - pose proof (tsp_verdict (D := bool) 0 10 model_group _ _ 2 1 (false, P) model_test_state
      (list_elem_of_lookup_2 (documented (D := bool)) 0 _ eq_refl) eq_refl PcieTestsSpec.fresh_results_at) as [(ru & Hru & t & E & Hp) _].
    exists ru, t. split; [exact Hru|]. split; [exact E|exact Hp].
  - pose proof (tsp_verdict (D := bool) 0 10 model_group _ _ 2 1 (false, P) model_test_state
      (list_elem_of_lookup_2 (documented (D := bool)) 3 _ eq_refl) eq_refl PcieTestsSpec.fresh_results_at) as [(ru & Hru & t & E & Hp) _].
    exists ru, t. split; [exact Hru|]. split; [exact E|exact Hp].
Defined.

Lemma model_locks :
  ∃ t, cxl_tsp_test_lock_configuration_1_run (D := bool) 2 1 ((false, P), model_test_state) = Ok (tt, ((true, P), t)).
Proof. eexists. vm_compute. reflexivity. Qed.

(** The device locks its configuration as it should. *)
Lemma protocol_answers_never_pass_witness :
  ∃ t, cxl_tsp_test_lock_configuration_1_run (D := bool) 2 1 ((false, P), model_test_state) = Ok (tt, ((true, P), t)) ∧
     teeio_test_case_result 2 1 (test_results t) = Ok TEEIO_TEST_RESULT_FAILED.
Proof.
  destruct model_locks as [t E]. exists t. split; [exact E|].
  destruct (protocol_answers_never_pass (D := bool) 0 10 model_group _ _ _ _ _ 2 1 (false, P) model_test_state
    (list_elem_of_lookup_2 (misjudged (D := bool)) 0 _ eq_refl) eq_refl PcieTestsSpec.fresh_results_at) as (ru & Hru & Hv).
  { intros status size r d' [= <- <- <- <-] _. discriminate. }
  assert (Some (Run (cxl_tsp_test_lock_configuration_1_run (D := bool))) = Some (Run ru)) as Hc by (rewrite <- Hru; reflexivity).
  injection Hc as <-. exact (Hv _ _ E).
Defined.
End TspSpec.
