(* ===== verification/Libraries.v ===== *)
(** * The test libraries of the repository and the engine
    What a library promises to the engine, as a type class: its functions report only what
    they are called for, all that is registered has its definition, with the
    type of its pointer, and the library hands out nothing else.  The
    libraries of PCIe IDE, CXL IDE, CXL TSP and TDISP keep the promise; so
    no call of theirs goes wrong, and they pass or fail only what is reported as a test.
    The SPDM library's functions are in SpdmTests.v. *)

From Stdlib Require Import ZArith Lia Ascii String.
From stdpp Require Import prelude gmap strings.
From S2P Require Import Prelude Utils Libspdm TestConfig Results Engine Stops TestLib Prepare Hardware PcieIde Kcbar Doe IdeKm Ports PortsSpec Spdm Tests TestsSpec Typed PcieTests PcieGroup PcieCode PcieTestsSpec PcieCodeSpec PcieRun CxlIde CxlKm CxlTests CxlGroup CxlCodeSpec Tdisp TdispSpec TdispDevice Tsp TspSpec.

Open Scope Z_scope.
Open Scope teeio_scope.

Module Libraries.
Import TestConfig Results Engine Stops Hardware PcieIde Doe IdeKm Ports Spdm Tests TestsSpec Typed PcieTests PcieGroup PcieCode PcieCodeSpec CxlIde CxlKm CxlTests CxlGroup CxlCodeSpec Tdisp Tsp.

(** ** The promise *)

(** A library: its index among the registered ones, its functions, and what the engine
    sets in the group's context; its tables of pointers. *)
Class TestLibrary {D G V : Type} (category : nat) (table : list (string * code D G V)) (enter : context → G → G)
    (reg : list (string * pointer_type)) : Prop := {
  lib_handed_out : ∃ lib, (fst ∘ fst) <$> TestLib.own_libs !! category = Some lib ∧ typed_lib reg lib;
  lib_typed : well_typed reg table = true;
  lib_reports : Forall (λ e, code_ok (snd e)) table
}.

Section library.
Context {D G V : Type} (category : nat) (table : list (string * code D G V)) (enter : context → G → G).
Context (reg : list (string * pointer_type)) `{!TestLibrary category table enter reg}.

Lemma library_calls `{TestLib.SpdmResponder} fs c tss (other : TestCode (world D G V)) s e :
  TestLib.teeio_init_test_funcs = Ok fs → Prepare.prepare_tests_data fs c = Ok tss →
  Z.of_nat category ≠ TEEIO_TEST_CATEGORY_SPDM →
  let own := filter (λ ts, ts_category ts = Z.of_nat category) tss in
  run_suites (H := table_code table enter) s own e = run_suites (H := otherwise table enter other) s own e.
Proof.
  intros Hi Hp Hc. cbv zeta. destruct lib_handed_out as (lib & Hl & Ht).
  destruct (TestLib.own_libs !! category) as [l|] eqn:El; [|done]. injection Hl as <-.
  pose proof (TestLib.own_libs_registered fs Hi category l El) as Hreg.
  apply (suites_same (table_code table enter) (otherwise table enter other) reg).
  - intros f k ctx st w. apply otherwise_agrees, lib_typed.
  - apply Forall_forall. intros ts [Hcat Hts]%list_elem_of_filter.
    apply (proj1 (Forall_forall _ _) (prepared_suites_typed reg fs _ _ Hreg Ht c tss Hc Hp) ts Hts Hcat).
Qed.

Lemma library_call f ctx st w o :
  table_code table enter f ctx st w = Ok o →
  ∃ c, find_code f table = Some c ∧ Forall (may_report c ctx) (out_ops o) ∧ replay (out_ops o) st = Ok (test_results (snd (out_world o))).
Proof. apply code_call, lib_reports. Qed.

Lemma library_typed f ctx st w o : table_code table enter f ctx st w = Ok o → Forall op_typed (out_ops o).
Proof. intros (c & _ & Hf & _)%library_call. eapply Forall_impl; [exact Hf|]. intros op. apply may_report_typed. Qed.
End library.

(** ** The four libraries *)

Definition cxl_registered : list (string * pointer_type) :=
  registered TestLib.m_cxl_ide_config_funcs [TestLib.m_cxl_ide_group_funcs] TestLib.m_cxl_ide_test_case_funcs.
Definition tsp_registered : list (string * pointer_type) :=
  registered [TestLib.m_cxl_tsp_config_funcs] [TestLib.m_cxl_tsp_group_funcs] TestLib.m_cxl_tsp_test_case_funcs.
Definition tdisp_registered : list (string * pointer_type) :=
  registered [TestLib.m_tdisp_config_func] [TestLib.m_tdisp_group_func] TestLib.m_tdisp_test_case_funcs.

Lemma case_funcs_in num cases cls id f : TestLib.case_funcs_at num cases cls id = Ok f → f ∈ flat_map TestLib.tcs_funcs cases.
Proof.
  unfold TestLib.case_funcs_at. intros H. apply res_bind_Ok in H as (? & _ & H). apply res_bind_Ok in H as (tc & Htc & H).
  apply res_bind_Ok in H as (? & _ & H). apply array_get_Ok in Htc as [_ Htc], H as [_ H].
  apply list_elem_of_In, in_flat_map. exists tc.
  split; apply list_elem_of_In; by eapply list_elem_of_lookup_2.
Qed.

Lemma in_one {A B} (x : A) (m : res B) y : (let* _ := m in Ok x) = Ok y → y ∈ [x].
Proof. intros (? & _ & [= ->])%res_bind_Ok. by apply list_elem_of_singleton. Qed.

Lemma pcie_handed_out : typed_lib pcie_registered TestLib.pcie_ide_test_lib_register_test_suite_funcs.
Proof.
  apply tables_typed.
  - intros get type i f [= <-]. unfold TestLib.pcie_get_test_configuration_funcs. intros (? & _ & H)%res_bind_Ok.
    apply res_bind_Ok in H as (row & Hr & H). apply array_get_Ok in Hr as [_ Hr], H as [_ H].
    apply list_elem_of_In, in_concat. exists row. split; apply list_elem_of_In; by eapply list_elem_of_lookup_2.
  - intros get type f [= <-]. unfold TestLib.pcie_get_test_group_funcs. intros (? & _ & H)%res_bind_Ok.
    apply array_get_Ok in H as [_ H]. by eapply list_elem_of_lookup_2.
  - intros get cls id f [= <-]. apply case_funcs_in.
Qed.

Lemma cxl_handed_out : typed_lib cxl_registered TestLib.cxl_ide_test_lib_register_test_suite_funcs.
Proof.
  apply tables_typed.
  - intros get type i f [= <-]. unfold TestLib.cxl_get_test_configuration_funcs. intros (? & _ & H)%res_bind_Ok.
    apply array_get_Ok in H as [_ H]. by eapply list_elem_of_lookup_2.
  - intros get type f [= <-]. apply in_one.
  - intros get cls id f [= <-]. apply case_funcs_in.
Qed.

Lemma tsp_handed_out : typed_lib tsp_registered TestLib.cxl_tsp_test_lib_register_test_suite_funcs.
Proof.
  apply tables_typed.
  - intros get type i f [= <-] [= <-]. by apply list_elem_of_singleton.
  - intros get type f [= <-] [= <-]. by apply list_elem_of_singleton.
  - intros get cls id f [= <-]. apply case_funcs_in.
Qed.

Lemma tdisp_handed_out : typed_lib tdisp_registered TestLib.tdisp_test_lib_register_test_suite_funcs.
Proof.
  apply tables_typed.
  - intros get type i f [= <-]. apply in_one.
  - intros get type f [= <-]. apply in_one.
  - intros get cls id f [= <-]. apply case_funcs_in.
Qed.

Section libraries.
Context {D : Type} `{Bus D} `{Clock D} `{Os D} `{DevMem D} `{Alloc (D * process)} `{Libspdm} `{DoeDiscovery (D * process)}.
Context `{IdeKmRequester (D * process)} `{IdeKmTester (D * process)} `{SpdmRequester (D * process)}.
Context `{CxlIdeKmRequester (D * process)} `{CxlIdeKmTester (D * process)} `{TdispRequester (D * process)} `{TspRequester (D * process)}.
(** Command line and INI file, the bounds of loops that depend on the user or the device, what an unset variable holds. *)
Context (g_teeio_fixed_key : bool) (tries presses rounds : positive) (g_test_rounds g_test_interval function_id unset_size : Z).

Definition pcie_enter (ctx : context) (g : pcie_ide_test_group_context_t) : pcie_ide_test_group_context_t := g.
#[local] Abbreviation pcie_table := (pcie_ide_code (D := D) g_teeio_fixed_key tries presses g_test_rounds g_test_interval).
#[local] Abbreviation cxl_table := (cxl_ide_code (D := D) g_teeio_fixed_key presses).
#[local] Abbreviation tsp_table := (tsp_test_code (D := D) unset_size rounds).
#[local] Abbreviation tdisp_table := (tdisp_test_code (D := D) g_teeio_fixed_key function_id rounds).

#[export] Instance pcie_library : TestLibrary 0 pcie_table pcie_enter pcie_registered.
Proof. split; [eexists; split; [reflexivity|apply pcie_handed_out]|apply pcie_well_typed|apply pcie_ide_code_ok]. Qed.

#[export] Instance cxl_library : TestLibrary 1 cxl_table cxl_enter cxl_registered.
Proof. split; [eexists; split; [reflexivity|apply cxl_handed_out]|vm_compute; reflexivity|apply cxl_ide_code_ok]. Qed.

#[export] Instance tsp_library : TestLibrary 2 tsp_table cxl_enter tsp_registered.
Proof. split; [eexists; split; [reflexivity|apply tsp_handed_out]|vm_compute; reflexivity|apply TspSpec.tsp_test_code_ok]. Qed.

Ltac all_ok := repeat (apply Forall_cons; split; [cbn [code_ok snd]; reports|]); by apply Forall_nil.

Lemma tdisp_config_code_ok : Forall (λ e : string * code D pcie_ide_test_group_context_t tdisp_vars, code_ok (snd e)) tdisp_config_code.
Proof. unfold tdisp_config_code. all_ok. Qed.

Lemma tdisp_group_code_ok : Forall (λ e : string * code D pcie_ide_test_group_context_t tdisp_vars, code_ok (snd e)) tdisp_group_code.
Proof. unfold tdisp_group_code. all_ok. Qed.

Lemma tdisp_case_code_ok :
  Forall (λ e : string * code D pcie_ide_test_group_context_t tdisp_vars, code_ok (snd e)) (tdisp_case_code g_teeio_fixed_key function_id rounds).
Proof. unfold tdisp_case_code. all_ok. Qed.

#[export] Instance tdisp_library : TestLibrary 3 tdisp_table tdisp_enter tdisp_registered.
Proof.
  split; [eexists; split; [reflexivity|apply tdisp_handed_out]|vm_compute; reflexivity|].
  unfold tdisp_test_code. rewrite !Forall_app. split; [apply tdisp_config_code_ok|]. split; [apply tdisp_group_code_ok|apply tdisp_case_code_ok].
Qed.

(** A statement about each of the libraries. *)
Definition of_every_library
    (P : ∀ G V, nat → list (string * code D G V) → (context → G → G) → list (string * pointer_type) → Prop) : Prop :=
  P _ _ 0%nat pcie_table pcie_enter pcie_registered ∧ P _ _ 1%nat cxl_table cxl_enter cxl_registered ∧
  P _ _ 2%nat tsp_table cxl_enter tsp_registered ∧ P _ _ 3%nat tdisp_table tdisp_enter tdisp_registered.

(** C13: No call of the engine goes wrong in the suites of the four libraries other than
    SPDM (PCIe IDE, CXL IDE, CXL TSP and TDISP).  In the suites that are prepared
    from a configuration with the libraries registered, every pointer of such a library's
    suites names a function of the library with the type the pointer is
    called at: a run of them does the same whatever is done at a call of a pointer that
    names nothing or a function of another type. *)
Theorem no_call_goes_wrong `{TestLib.SpdmResponder} fs c tss :
  TestLib.teeio_init_test_funcs = Ok fs → Prepare.prepare_tests_data fs c = Ok tss →
  of_every_library (λ G V category table enter _, ∀ (other : TestCode (world D G V)) s e,
    let own := filter (λ ts, ts_category ts = Z.of_nat category) tss in
    run_suites (H := table_code table enter) s own e = run_suites (H := otherwise table enter other) s own e).
Proof.
  intros Hi Hp. split_and!; intros other s e; by eapply library_calls; [apply _|exact Hi|exact Hp|].
Qed.

(** C14: Every function that one of the four libraries other than SPDM (PCIe IDE, CXL IDE,
    CXL TSP and TDISP) registers has a definition of its
    pointer's type, and reports only what it is called for, whatever the device,
    libspdm and the machine do: a run function assertions of the case in its
    context, passed or failed only as a test, a configuration function results of configuration items, a group function
    results of the group, and the setups and teardowns of cases nothing.  The
    results that a function works with are those that come of its reports, in their order. *)
Theorem code_reports :
  of_every_library (λ G V _ table enter reg,
    (∀ f k, (f, k) ∈ reg → ∃ c, find_code f table = Some c ∧ pointer_type_of c = k) ∧
    ∀ f ctx st w o, table_code table enter f ctx st w = Ok o →
      ∃ c, find_code f table = Some c ∧ Forall (may_report c ctx) (out_ops o) ∧
           replay (out_ops o) st = Ok (test_results (snd (out_world o)))).
Proof.
  split_and!; (intros f k; apply well_typed_find) || (intros f ctx st w o; eapply library_call); apply lib_typed || apply _.
Qed.

(** They pass or fail only assertions of type TEST. *)
Lemma libraries_typed :
  of_every_library (λ G V _ table enter _, ∀ f ctx st w o,
    table_code table enter f ctx st w = Ok o → Forall op_typed (out_ops o)).
Proof.
  split_and!; intros f ctx st w o; eapply library_typed; apply _.
Qed.

End libraries.


(** ** A configuration with suites of two libraries *)
#[local] Existing Instances PortsSpec.stack_bus PortsSpec.stack_clock PortsSpec.stack_os PcieRun.model_alloc PcieRun.model_discovery
  PcieRun.model_spdm PcieTestsSpec.model_requester PcieTestsSpec.model_tester TspSpec.model_cxl_requester TestLib.one_case_each.
#[local] Instance stack_dev_mem : DevMem PortsSpec.stack := {| os_open_mem d := (-1, d); os_mmap _ _ _ d := (None, d); os_munmap _ _ d := d |}.
#[local] Instance silent_tdisp {S : Type} : TdispRequester S :=
  TdispDevice.libtdisp (λ request s, Ok (0x80010000, 0, TdispDevice.model_response TdispDevice.Running request 0 0 0 0, s)).
#[local] Instance silent_tsp {S : Type} : TspRequester S :=
  TspSpec.libtsp (λ request s, Ok (0x80010000, 0, TspSpec.model_response 0 0 0, s)).
#[local] Instance silent_cxl {S : Type} : CxlIdeKmTester S := {|
  CXL_IDE_KM_OBJECT_ID_QUERY := 0; CXL_IDE_KM_OBJECT_ID_QUERY_RESP := 1; CXL_IDE_KM_OBJECT_ID_KEY_PROG := 2;
  CXL_IDE_KM_OBJECT_ID_KP_ACK := 3; CXL_IDE_KM_OBJECT_ID_K_SET_GO := 4; CXL_IDE_KM_OBJECT_ID_K_SET_STOP := 5;
  CXL_IDE_KM_OBJECT_ID_K_SET_GOSTOP_ACK := 6; CXL_IDE_KM_OBJECT_ID_GET_KEY := 7; CXL_IDE_KM_OBJECT_ID_GET_KEY_ACK := 8;
  CXL_IDE_KM_KP_ACK_STATUS_SUCCESS := 0; CXL_IDE_KM_KP_ACK_STATUS_INVALID := 1; sizeof_cxl_ide_km_header_t := 2;
  sizeof_cxl_ide_km_query_t := 4; sizeof_cxl_ide_km_query_resp_t := 12; sizeof_cxl_ide_km_kp_ack_t := 8;
  sizeof_cxl_ide_km_get_key_t := 8; sizeof_cxl_ide_km_k_set_go_t := 8; sizeof_cxl_ide_km_k_set_stop_t := 8;
  sizeof_cxl_ide_km_k_gostop_ack_t := 8;
  cxl_ide_km_send_receive_data _ request _ := Hardware.ret (0x80010000, 0, request)
|}.

(** A suite of the PCIe IDE library and one of the TDISP library. *)
Definition two_suites : IDE_TEST_CONFIG :=
  let c := Prepare.example_test_config in
  let cfg := Prepare.example_cfg in
  {| main_config := main_config c; ports_config := ports_config c; switches_config := switches_config c;
     topologies_config := topologies_config c;
     configurations_config := {| configurations_cnt := 2; configurations :=
       cfg :: {| cfg_id := 2; cfg_enabled := true; cfg_type := 0; cfg_category := TEEIO_TEST_CATEGORY_TDISP; cfg_bit_map := 1;
                 cfg_ide_mode := 0 |} :: replicate 30 TestConfig.zero_configuration |};
     suites_config := {| suites_cnt := 2; test_suites :=
       Prepare.example_suite ::
       {| suite_id := 2; suite_enabled := true; suite_type := 0; suite_topology_id := 1; suite_configuration_id := 2;
          suite_category := TEEIO_TEST_CATEGORY_TDISP;
          suite_cases := {| cases_cnt := 1; cases_id := 1 :: replicate 31 0 |} :: replicate 31 zero_case |} ::
       replicate 30 zero_suite |} |}.

Definition prepared_suites : list ide_run_test_suite_t :=
  match Prepare.prepare_tests_data TestLib.example_registry two_suites with Ok tss => tss | Stop _ => [] end.
Definition of_tdisp : list ide_run_test_suite_t := filter (λ ts, ts_category ts = Z.of_nat 3) prepared_suites.

Lemma two_suites_prepared : Prepare.prepare_tests_data TestLib.example_registry two_suites = Ok prepared_suites.
Proof. vm_compute. reflexivity. Qed.

#[local] Abbreviation table := (tdisp_test_code (D := PortsSpec.stack) false 0 10).
Lemma no_call_goes_wrong_witness :
  map ts_category of_tdisp = [TEEIO_TEST_CATEGORY_TDISP] ∧
  ∀ other s e, run_suites (H := table_code table tdisp_enter) s of_tdisp e = run_suites (H := otherwise table tdisp_enter other) s of_tdisp e.
Proof.
  split; [vm_compute; reflexivity|]. intros other s e.
  destruct (no_call_goes_wrong (D := PortsSpec.stack) false 10 10 10 0 0 0 0 TestLib.example_registry two_suites prepared_suites
    TestLib.example_registry_eq two_suites_prepared) as (_ & _ & _ & Hc).
  exact (Hc other s e).
Defined.

(** A lock test that is called in its context. *)
Lemma lock_test_called :
  ∃ o, table_code table tdisp_enter "tdisp_test_lock_interface_1_run"%string (CtxCase 2 1) PcieTestsSpec.fresh_results
         (([], TdispDevice.model_process), TdispDevice.model_test_state) = Ok o ∧ length (out_ops o) = 1%nat.
Proof. eexists. split; vm_compute; reflexivity. Qed.

Lemma code_reports_witness :
  ∃ o, table_code table tdisp_enter "tdisp_test_lock_interface_1_run"%string (CtxCase 2 1) PcieTestsSpec.fresh_results
         (([], TdispDevice.model_process), TdispDevice.model_test_state) = Ok o ∧
       length (out_ops o) = 1%nat ∧ Forall (of_case 2 1) (out_ops o).
Proof.
  destruct lock_test_called as (o & E & Hl). exists o. split; [exact E|]. split; [exact Hl|].
  destruct (code_reports (D := PortsSpec.stack) false 10 10 10 0 0 0 0) as (_ & _ & _ & _ & Hc).
  destruct (Hc _ _ _ _ _ E) as (c & _ & Hf & _). eapply Forall_impl; [exact Hf|]. intros op. apply may_report_case.
Defined.

End Libraries.
