(* ===== verification/SpdmTests.v ===== *)
(** * The SPDM test library: configuration, group, and what the responder tests call
    (library/spdm_test_lib/test_config/, test_group/, spdm_test_common.c)

    The test cases are those of the responder conformance library, which
    reports through the functions modelled here.  The context of the group has
    the ports and the SPDM context of the PCIe IDE group, and no stream. *)
From Stdlib Require Import ZArith Lia Ascii String.
From stdpp Require Import prelude gmap.
From S2P Require Import Prelude Utils Libspdm TestConfig Results IniFile Engine TestLib Hardware PcieIde Kcbar Doe IdeKm Ports Spdm Tests PcieTests PcieGroup.

Open Scope Z_scope.
Open Scope teeio_scope.

Module SpdmTests.
Import TestConfig Results Engine Hardware PcieIde Doe IdeKm Ports Spdm Tests PcieTests PcieGroup.

Section spdm_tests.
Context {D : Type} `{Bus D} `{Clock D} `{Os D} `{Alloc (D * process)} `{Libspdm}.
Context `{SpdmRequester (D * process)} `{DoeDiscovery (D * process)} {V : Type}.
#[local] Abbreviation State := (D * process)%type.
#[local] Abbreviation group_t := pcie_ide_test_group_context_t.
#[local] Abbreviation test := (Tests.test D group_t V).

(** ** The group (test_group.c) *)

Definition spdm_scan_devices : group_t → io State (bool * group_t) := scan_devices.

Definition spdm_init_dev_port (g : group_t) : io State (bool * group_t) :=
  let+ (ok, pc) := open_dev_port (lower_port g) in ret (ok, with_lower pc g).

(** Only the descriptor is closed. *)
Definition close_cfg_space (pc : ide_common_test_port_context_t) : io State ide_common_test_port_context_t :=
  let+ _ := (if 0 <? cfg_space_fd pc then fail_port (cfg_space_fd pc) else ret tt) in
  ret (with_cfg_space_fd 0 pc).

Definition spdm_close_dev_port (pc : ide_common_test_port_context_t) : io State (bool * ide_common_test_port_context_t) :=
  let+ pc := close_cfg_space pc in
  let+ _ := set_process (λ p, with_doe_in_use 0 (with_dev_fp 0 p)) in
  ret (true, pc).

Definition spdm_init_root_port (g : group_t) : io State (bool * group_t) :=
  let+ (ok, pc) := open_root_port (upper_port g) in ret (ok, with_upper pc g).

Definition spdm_close_root_port (g : group_t) : io State (bool * group_t) :=
  let+ pc := close_cfg_space (upper_port g) in ret (true, with_upper pc g).

(** The context, or 0. *)
Definition spdm_init_client : io State Z :=
  let+ spdm_context := malloc libspdm_get_context_size in
  if spdm_context =? 0 then ret 0 else
  let+ _ := libspdm_init_context spdm_context in
  let+ _ := libspdm_register_functions spdm_context in
  let+ scratch_buffer_size := libspdm_get_sizeof_required_scratch_buffer spdm_context in
  let+ scratch_buffer := malloc scratch_buffer_size in
  if scratch_buffer =? 0 then let+ _ := free spdm_context in ret 0 else
  let+ _ := libspdm_set_scratch_buffer spdm_context scratch_buffer scratch_buffer_size in
  ret spdm_context.

Definition spdm_test_group_setup : test bool :=
  let+ ok := on_group spdm_scan_devices in
  if negb ok then setup_failed (bs "Scan device failed.") else
  let+ ok := on_group spdm_init_dev_port in
  if negb ok then setup_failed (bs "Initialize device port failed.") else
  let+ g := get_group in
  let+ _ := io_assert (direct_or_switch g) in
  let+ ok := on_group spdm_init_root_port in
  if negb ok then setup_failed (bs "Initialize root port failed.") else
  let+ ctx := machine spdm_init_client in
  if ctx =? 0 then setup_failed (bs "Initialize spdm failed.") else
  let+ g := get_group in
  let+ _ := put_group (with_session ctx (session_id g) g) in
  let+ _ := record_group TEEIO_TEST_GROUP_FUNC_SETUP TEEIO_TEST_RESULT_PASS [] in
  ret true.

Definition spdm_free_context (g : group_t) : io State (bool * group_t) :=
  if spdm_context g =? 0 then ret (true, g) else
  let+ _ := free (spdm_context g) in
  ret (true, with_session 0 0 g).

Definition spdm_close_device (g : group_t) : io State (bool * group_t) :=
  let+ (ok, pc) := spdm_close_dev_port (lower_port g) in ret (ok, with_lower pc g).

Definition spdm_test_group_teardown : test bool :=
  let+ _ := on_group spdm_free_context in
  let+ g := get_group in
  let+ _ := on_group spdm_close_device in
  let+ _ := (if direct_or_switch g then let+ _ := on_group spdm_close_root_port in ret tt
             else io_assert (negb (peer2peer g))) in
  let+ _ := record_group TEEIO_TEST_GROUP_FUNC_TEARDOWN TEEIO_TEST_RESULT_PASS [] in
  ret true.

(** ** The configuration (test_config.c) *)

Definition spdm_test_config_default_enable : test bool := ret true.
Definition spdm_test_config_default_disable : test bool := ret true.
Definition spdm_test_config_default_support : test bool := ret true.
Definition spdm_test_config_default_check : test bool := ret true.

(** ** What the responder tests call (spdm_test_common.c) *)

(** The formatted text, cut to the buffer. *)
Definition message_buffer (message : option bytes) : bytes :=
  take (Z.to_nat (Ini.MAX_LINE_LENGTH - 1)) (default [] message).

Definition common_test_record_test_assertion `{TestLib.SpdmResponder} (group_id case_id assertion_id : Z)
    (test_result : teeio_test_result_t) (message : option bytes) : test unit :=
  let case_class := TestLib.spdm_test_lib_get_case_class group_id in
  let+ _ := io_assert (case_class <? TestLib.SPDM_TEST_CASE_NUM) in
  record (RecAssertion case_class case_id assertion_id IDE_COMMON_TEST_CASE_ASSERTION_TYPE_TEST test_result
            (Some (message_buffer message))).

Definition common_test_run_test_suite : test unit := io_assert false.

Definition spdm_test_get_spdm_context_from_test_context : test Z :=
  let+ g := get_group in
  let+ _ := io_assert (negb (spdm_context g =? 0)) in
  ret (spdm_context g).

Definition spdm_config_code : list (string * Tests.code D group_t V) :=
  [("spdm_test_config_default_enable", Config spdm_test_config_default_enable);
   ("spdm_test_config_default_disable", Config spdm_test_config_default_disable);
   ("spdm_test_config_default_support", Config spdm_test_config_default_support);
   ("spdm_test_config_default_check", Config spdm_test_config_default_check)]%string.
Definition spdm_group_code : list (string * Tests.code D group_t V) :=
  [("spdm_test_group_setup", Group spdm_test_group_setup);
   ("spdm_test_group_teardown", Group spdm_test_group_teardown)]%string.
End spdm_tests.
End SpdmTests.
