(* ===== verification/GroupSpec.v ===== *)
(** * Group functions: their reports, and the memory of the SPDM group

    A group function of the PCIe IDE, CXL IDE, CXL TSP and SPDM libraries reports its
    verdict once; those of TDISP report nothing.  The SPDM group frees
    its context and keeps the scratch buffer. *)
From Stdlib Require Import ZArith Lia Ascii String.
From stdpp Require Import prelude gmap.
From S2P Require Import Prelude Utils Libspdm TestConfig Results Engine TestLib Hardware PcieIde Kcbar Doe IdeKm Ports PortsSpec Spdm Tests TestsSpec PcieTests PcieGroup PcieCode PcieTestsSpec PcieRun CxlIde CxlKm CxlTests CxlGroup Tdisp Tsp SpdmTests.

Open Scope Z_scope.
Open Scope teeio_scope.

Module GroupSpec.
Import TestConfig Results Engine Hardware PcieIde Doe IdeKm Ports Spdm Tests TestsSpec PcieTests PcieGroup PcieCode CxlIde CxlKm CxlTests CxlGroup Tdisp Tsp SpdmTests.

(** ** A group function reports its verdict *)

Section verdicts.
Context {D G V : Type}.
#[local] Abbreviation test := (Tests.test D G V).

(** It makes one report, of its own operation, whose result is the value returned. *)
Definition reports_verdict (f : teeio_test_group_func_t) (m : test bool) : Prop :=
  ∀ d t ok d' t', m (d, t) = Ok (ok, (d', t')) →
    ∃ message, reports t' = reports t ++ [RecGroup f (verdict ok) (Some message)].

(** It makes no report. *)
Definition quiet {A} (m : test A) : Prop :=
  ∀ d t a d' t', m (d, t) = Ok (a, (d', t')) → reports t' = reports t.

Lemma quiet_reports {A} (m : test A) : reports_only (λ _, False) m → quiet m.
Proof.
  intros Hm d t a d' t' Ho. destruct (Hm _ _ _ _ _ Ho) as (ops & -> & Hf & _).
  destruct Hf; [apply app_nil_r|done].
Qed.

Lemma verdict_after {A} f (m : test A) k : quiet m → (∀ a, reports_verdict f (k a)) → reports_verdict f (Hardware.bind m k).
Proof.
  intros Hm Hk d t ok d' t'. unfold Hardware.bind.
  destruct (m (d, t)) as [[a [d1 t1]]|e] eqn:E; [|done]. cbn [res_bind]. rewrite <- (Hm _ _ _ _ _ E). apply Hk.
Qed.

Lemma verdict_recorded f b message : reports_verdict f (let+ _ := record_group f (verdict b) message in ret b).
Proof.
  intros d t ok d' t'. unfold record_group, record, Hardware.bind, get_test, Hardware.lift, modify, ret.
  cbn [res_bind fst snd]. destruct (run_op _ _) as [[x st]|e]; [|done]. cbn [res_bind]. intros [= <- <- <-]. by exists message.
Qed.

(** A part of a setup that reports when it fails, and leaves the report to the rest when it does not. *)
Definition reports_failure (m : test bool) : Prop :=
  ∀ d t ok d' t', m (d, t) = Ok (ok, (d', t')) →
    if ok : bool then reports t' = reports t
    else ∃ message, reports t' = reports t ++ [RecGroup TEEIO_TEST_GROUP_FUNC_SETUP TEEIO_TEST_RESULT_FAILED (Some message)].

Lemma failure_after {A} (m : test A) k : quiet m → (∀ a, reports_failure (k a)) → reports_failure (Hardware.bind m k).
Proof.
  intros Hm Hk d t ok d' t'. unfold Hardware.bind.
  destruct (m (d, t)) as [[a [d1 t1]]|e] eqn:E; [|done]. cbn [res_bind]. rewrite <- (Hm _ _ _ _ _ E). apply Hk.
Qed.

Lemma failure_recorded message : reports_failure (setup_failed message).
Proof.
  intros d t ok d' t' Ho. assert (ok = false) as ->.
  { revert Ho. unfold setup_failed, record_group, record, Hardware.bind, get_test, Hardware.lift, modify, ret.
    cbn [res_bind fst snd]. destruct (run_op _ _) as [[x st]|e]; [|done]. cbn [res_bind]. congruence. }
  exact (verdict_recorded TEEIO_TEST_GROUP_FUNC_SETUP false message d t false d' t' Ho).
Qed.

Lemma failure_none : reports_failure (ret true).
Proof. by intros d t ok d' t' [= <- <- <-]. Qed.

Lemma verdict_part (m : test bool) k :
  reports_failure m → reports_verdict TEEIO_TEST_GROUP_FUNC_SETUP k →
  reports_verdict TEEIO_TEST_GROUP_FUNC_SETUP (let+ ok := m in if negb ok then ret false else k).
Proof.
  intros Hm Hk d t ok d' t'. unfold Hardware.bind.
  destruct (m (d, t)) as [[a [d1 t1]]|e] eqn:E; [|done]. cbn [res_bind]. pose proof (Hm _ _ _ _ _ E) as Hr.
  destruct a; cbn [negb].
  - rewrite <- Hr. apply Hk.
  - by intros [= <- <- <-].
Qed.
End verdicts.

Create HintDb verdicts.

(** Follows the steps of a group function. *)
Ltac step_quiet := apply quiet_reports; solve [reports].
Ltac verdicts :=
  intros; cbv beta zeta;
  lazymatch goal with
  | |- reports_verdict _ (match ?x with _ => _ end) => destruct x; verdicts
  | |- reports_failure (match ?x with _ => _ end) => destruct x; verdicts
  | |- reports_failure (setup_failed _) => apply failure_recorded
  | |- reports_failure (ret true) => apply failure_none
  | |- reports_verdict _ (setup_failed ?m) => exact (verdict_recorded _ false m)
  | |- reports_verdict ?f (Hardware.bind (record_group ?f TEEIO_TEST_RESULT_PASS ?m) _) => exact (verdict_recorded f true m)
  | |- reports_verdict _ (Hardware.bind _ _) =>
      first [apply verdict_after; [step_quiet|] | apply verdict_part; [solve [auto with verdicts]|]]; verdicts
  | |- reports_failure (Hardware.bind _ _) => apply failure_after; [step_quiet|]; verdicts
  end.

Section groups.
Context {D : Type} `{Bus D} `{Clock D} `{Os D} `{DevMem D} `{Alloc (D * process)} `{Libspdm} `{DoeDiscovery (D * process)}.
Context `{IdeKmRequester (D * process)} `{IdeKmTester (D * process)} `{SpdmRequester (D * process)}.
Context `{CxlIdeKmRequester (D * process)} `{CxlIdeKmTester (D * process)} `{TspRequester (D * process)}.

Lemma query_and_mode_reports : reports_failure (query_and_mode (D := D)).
Proof. unfold query_and_mode. verdicts. Qed.
#[local] Hint Resolve query_and_mode_reports : verdicts.

(** What a call of the setup and of the teardown of a group leaves in the report. *)
Definition call_reports {G V} (table : list (string * code D G V)) (reported : teeio_test_group_func_t → bool → list record_op → Prop)
    (gf : TestLib.ide_test_group_funcs_t) : Prop :=
  ∀ f op enter ctx st w o,
    (TestLib.gf_setup gf = Some f ∧ op = TEEIO_TEST_GROUP_FUNC_SETUP ∨
     TestLib.gf_teardown gf = Some f ∧ op = TEEIO_TEST_GROUP_FUNC_TEARDOWN) →
    table_code table enter f ctx st w = Ok o → reported op (out_ret o) (out_ops o).

Definition own_verdict (op : teeio_test_group_func_t) (ok : bool) (ops : list record_op) : Prop :=
  ∃ message, ops = [RecGroup op (verdict ok) (Some message)].
Definition nothing_reported (op : teeio_test_group_func_t) (ok : bool) (ops : list record_op) : Prop := ops = [].

Lemma calls_report {G V} table reported gf fs ft (setup teardown : Tests.test D G V bool) :
  TestLib.gf_setup gf = Some fs → TestLib.gf_teardown gf = Some ft →
  find_code fs table = Some (Tests.Group setup) → find_code ft table = Some (Tests.Group teardown) →
  (∀ d t ok d' t', reports t = [] → setup (d, t) = Ok (ok, (d', t')) → reported TEEIO_TEST_GROUP_FUNC_SETUP ok (reports t')) →
  (∀ d t ok d' t', reports t = [] → teardown (d, t) = Ok (ok, (d', t')) → reported TEEIO_TEST_GROUP_FUNC_TEARDOWN ok (reports t')) →
  call_reports table reported gf.
Proof.
  intros Hs Ht Fs Ft Rs Rt f op enter ctx st w o Hf. rewrite Hs, Ht in Hf. unfold table_code.
  assert (∀ g k m, find_code g table = Some (Tests.Group m) →
    (∀ d t ok d' t', reports t = [] → m (d, t) = Ok (ok, (d', t')) → reported k ok (reports t')) →
    (let* c := deref (find_code g table) in let* m := deref (run_code c ctx) in call_code m (begin_call enter ctx st) w) = Ok o →
    reported k (out_ret o) (out_ops o)) as Hcall.
  { intros g k m -> Hm. cbn [deref res_bind]. destruct ctx; cbn [run_code deref res_bind]; try done.
    unfold call_code. destruct (m _) as [[b [d' t']]|e] eqn:E; [|done]. cbn [res_bind snd]. intros [= <-].
    cbn [out_ret out_ops]. by eapply Hm; [|exact E]. }
  destruct Hf as [[[= <-] ->]|[[= <-] ->]]; eauto.
Qed.

Lemma verdicts_reported {G V} table gf fs ft (setup teardown : Tests.test D G V bool) :
  TestLib.gf_setup gf = Some fs → TestLib.gf_teardown gf = Some ft →
  find_code fs table = Some (Tests.Group setup) → find_code ft table = Some (Tests.Group teardown) →
  reports_verdict TEEIO_TEST_GROUP_FUNC_SETUP setup → reports_verdict TEEIO_TEST_GROUP_FUNC_TEARDOWN teardown →
  call_reports table own_verdict gf.
Proof.
  intros Hs Ht Fs Ft Rs Rt. apply (calls_report _ _ _ _ _ _ _ Hs Ht Fs Ft); intros d t ok d' t' Hr Ho.
  - destruct (Rs _ _ _ _ _ Ho) as (m & ->). rewrite Hr. by exists m.
  - destruct (Rt _ _ _ _ _ Ho) as (m & ->). rewrite Hr. by exists m.
Qed.

Lemma find_here {G V} f (c : code D G V) l : find_code f ((f, c) :: l) = Some c.
Proof. cbn. by rewrite decide_True. Qed.
Lemma find_next {G V} f g (c : code D G V) l : f ≠ g → find_code f ((g, c) :: l) = find_code f l.
Proof. intros Hfg. cbn. by rewrite decide_False. Qed.

Ltac found := repeat first [apply find_here | rewrite find_next by done].

(** The functions are found; then what they report. *)
Ltac own :=
  eapply verdicts_reported; [reflexivity|reflexivity|found|found| |].

Lemma pcie_setup_verdict {V} : reports_verdict TEEIO_TEST_GROUP_FUNC_SETUP (common_test_group_setup (D := D) (V := V)).
Proof. unfold common_test_group_setup. verdicts. Qed.
Lemma pcie_teardown_verdict {V} : reports_verdict TEEIO_TEST_GROUP_FUNC_TEARDOWN (common_test_group_teardown (D := D) (V := V)).
Proof. unfold common_test_group_teardown. verdicts. Qed.

Lemma not_implemented_verdict {G V} f b : reports_verdict f (not_implemented (D := D) (G := G) (V := V) b).
Proof. by intros d t ok d' t'. Qed.

Lemma pcie_groups_report : Forall (call_reports (group_code (D := D)) own_verdict) TestLib.m_group_funcs.
Proof.
  unfold TestLib.m_group_funcs, group_code.
  apply Forall_cons_2; [|apply Forall_cons_2; [|apply Forall_cons_2; [|apply Forall_nil_2]]].
  - own; [apply pcie_setup_verdict|apply pcie_teardown_verdict].
  - own; [apply pcie_setup_verdict|apply pcie_teardown_verdict].
  - own; apply not_implemented_verdict.
Qed.

Lemma cxl_setup_verdict : reports_verdict TEEIO_TEST_GROUP_FUNC_SETUP (cxl_test_group_setup_common (D := D)).
Proof. unfold cxl_test_group_setup_common. verdicts. Qed.
Lemma cxl_teardown_verdict : reports_verdict TEEIO_TEST_GROUP_FUNC_TEARDOWN (cxl_test_group_teardown_common (D := D)).
Proof. unfold cxl_test_group_teardown_common. verdicts. Qed.

Lemma cxl_group_reports : call_reports (cxl_group_code (D := D)) own_verdict TestLib.m_cxl_ide_group_funcs.
Proof. unfold cxl_group_code. own; [apply cxl_setup_verdict|apply cxl_teardown_verdict]. Qed.

Lemma tsp_group_reports : call_reports (tsp_group_code (D := D)) own_verdict TestLib.m_cxl_tsp_group_funcs.
Proof.
  unfold tsp_group_code. own; [unfold cxl_tsp_test_group_setup|unfold cxl_tsp_test_group_teardown]; verdicts.
Qed.

Lemma spdm_group_reports {V} : call_reports (spdm_group_code (D := D) (V := V)) own_verdict TestLib.m_spdm_test_group_funcs.
Proof.
  unfold spdm_group_code. own; [unfold spdm_test_group_setup|unfold spdm_test_group_teardown]; verdicts.
Qed.

Lemma tdisp_group_reports : call_reports (tdisp_group_code (D := D)) nothing_reported TestLib.m_tdisp_group_func.
Proof.
  unfold tdisp_group_code. eapply calls_report; [reflexivity|reflexivity|found|found| |];
    intros d t ok d' t' Hr Ho; unfold nothing_reported; rewrite <- Hr; revert Ho.
  - apply quiet_reports. unfold tdisp_test_group_setup_sel. reports.
  - apply quiet_reports. unfold tdisp_test_group_teardown_sel. reports.
Qed.

(** C37: A group function of the PCIe IDE, CXL IDE, CXL TSP and SPDM libraries makes
    exactly one report at every call that returns, under its own operation and with the
    value it returns as the result; the functions of the TDISP group report nothing. *)
Theorem group_verdicts_reported {V} :
  Forall (call_reports (group_code (D := D)) own_verdict) TestLib.m_group_funcs ∧
  call_reports (cxl_group_code (D := D)) own_verdict TestLib.m_cxl_ide_group_funcs ∧
  call_reports (tsp_group_code (D := D)) own_verdict TestLib.m_cxl_tsp_group_funcs ∧
  call_reports (spdm_group_code (D := D) (V := V)) own_verdict TestLib.m_spdm_test_group_funcs ∧
  call_reports (tdisp_group_code (D := D)) nothing_reported TestLib.m_tdisp_group_func.
Proof.
  split_and!; [apply pcie_groups_report|apply cxl_group_reports|apply tsp_group_reports|apply spdm_group_reports|
    apply tdisp_group_reports].
Qed.
End groups.

(** ** The memory of the SPDM group *)

(** What the group relies on: a block of the allocator is new, [free] gives it back, libspdm
    allocates nothing when it is handed its context and buffer, and closing a file allocates and frees nothing. *)
Class HeapLaws (D : Type) `{Os D} `{Alloc (D * process)} `{SpdmRequester (D * process)} := {
  blocks : D → gset Z;
  blocks_malloc n (s : D * process) p s' : malloc n s = Ok (p, s') →
    (p = 0 ∧ blocks (fst s') = blocks (fst s)) ∨ (p ≠ 0 ∧ p ∉ blocks (fst s) ∧ blocks (fst s') = ({[p]} ∪ blocks (fst s)));
  blocks_free p (s : D * process) u s' : free p s = Ok (u, s') → blocks (fst s') = blocks (fst s) ∖ {[p]};
  blocks_init ctx (s : D * process) u s' : libspdm_init_context ctx s = Ok (u, s') → blocks (fst s') = blocks (fst s);
  blocks_register ctx (s : D * process) u s' : libspdm_register_functions ctx s = Ok (u, s') → blocks (fst s') = blocks (fst s);
  blocks_required ctx (s : D * process) n s' :
    libspdm_get_sizeof_required_scratch_buffer ctx s = Ok (n, s') → blocks (fst s') = blocks (fst s);
  blocks_scratch ctx p n (s : D * process) u s' : libspdm_set_scratch_buffer ctx p n s = Ok (u, s') → blocks (fst s') = blocks (fst s);
  blocks_close fd (d : D) : blocks (os_close fd d) = blocks d
}.

Lemma given_back (B : gset Z) c : c ∉ B → ({[c]} ∪ B) ∖ {[c]} = B.
Proof. set_solver. Qed.
Lemma keeps_one (B : gset Z) c p : c ∉ B → p ∉ ({[c]} ∪ B) → p ∉ B ∧ ({[p]} ∪ ({[c]} ∪ B)) ∖ {[c]} = {[p]} ∪ B.
Proof. set_solver. Qed.

Section memory.
Context {D : Type} `{HeapLaws D} `{!Bus D} `{!Clock D} `{!Libspdm} `{!DoeDiscovery (D * process)} {V : Type}.
#[local] Abbreviation State := (D * process)%type.
#[local] Abbreviation heap := (λ s : State, blocks (fst s)).

Lemma client_blocks (s : State) ctx s1 :
  spdm_init_client s = Ok (ctx, s1) →
  if ctx =? 0 then heap s1 = heap s
  else ctx ∉ heap s ∧ ∃ scratch, scratch ≠ 0 ∧ scratch ∉ ({[ctx]} ∪ heap s) ∧ heap s1 = ({[scratch]} ∪ ({[ctx]} ∪ heap s)).
Proof.
  unfold spdm_init_client. intros Ho. apply bind_inv in Ho as (c & e1 & Hm & Ho). apply blocks_malloc in Hm.
  destruct (Z.eqb_spec c 0) as [->|Hc]; [injection Ho as <- <-; by destruct Hm as [[_ ->]|[? _]]|].
  destruct Hm as [[? _]|(_ & Hnew & Hb)]; [done|].
  apply bind_inv in Ho as (u2 & e2 & E2 & Ho). apply blocks_init in E2.
  apply bind_inv in Ho as (u3 & e3 & E3 & Ho). apply blocks_register in E3.
  apply bind_inv in Ho as (n & e4 & E4 & Ho). apply blocks_required in E4.
  apply bind_inv in Ho as (p & e5 & E5 & Ho). apply blocks_malloc in E5.
  destruct (Z.eqb_spec p 0) as [->|Hp]; apply bind_inv in Ho as (u6 & e6 & E6 & Ho); injection Ho as <- <-.
  - apply blocks_free in E6. destruct E5 as [[_ E5]|[? _]]; [|done]. cbn. rewrite E6, E5, E4, E3, E2, Hb. by apply given_back.
  - apply blocks_scratch in E6.
    destruct (Z.eqb_spec c 0); [done|]. destruct E5 as [[? _]|(_ & Hp' & Hb')]; [done|].
    cbn. rewrite E6, Hb'. rewrite E4, E3, E2, Hb in *. split; [done|]. by exists p.
Qed.

(** Closing a port leaves the heap as it is, and the client of the group. *)
Definition keeps {A} (m : io State A) : Prop := ∀ s a s', m s = Ok (a, s') → heap s' = heap s.

Lemma keeps_ret {A} (a : A) : keeps (ret a).
Proof. by intros s a' s' [= _ <-]. Qed.
Lemma keeps_bind {A B} (m : io State A) (k : A → io State B) : keeps m → (∀ a, keeps (k a)) → keeps (Hardware.bind m k).
Proof. intros Hm Hk s b s' Ho. apply bind_inv in Ho as (a & s1 & E & Ho). by rewrite (Hk a _ _ _ Ho), (Hm _ _ _ E). Qed.
Lemma keeps_lift {A} (r : res A) : keeps (lift r).
Proof. intros s a s' E. unfold Hardware.lift in E. destruct r; cbn [res_bind] in E; [by injection E as _ <-|done]. Qed.
Lemma keeps_process f : keeps (set_process f).
Proof. by intros s [] s' [= <-]. Qed.
Lemma keeps_close fd : keeps (close fd).
Proof. intros s [] s' [= <-]. apply blocks_close. Qed.
Lemma keeps_get_process : keeps get_process.
Proof. by intros s p s' [= _ <-]. Qed.

Ltac kept :=
  repeat first [ apply keeps_ret | apply keeps_process | apply keeps_close | apply keeps_get_process | apply keeps_lift
               | apply keeps_bind; [|intros ?]
               | match goal with |- keeps (if ?b then _ else _) => destruct b | |- keeps (let (_, _) := ?x in _) => destruct x end ].

Lemma close_cfg_space_keeps pc : keeps (close_cfg_space pc).
Proof. unfold close_cfg_space, fail_port, unset_device. kept. Qed.

Lemma close_device_keeps g s ok g' s' :
  spdm_close_device g s = Ok ((ok, g'), s') → heap s' = heap s ∧ spdm_context g' = spdm_context g ∧ session_id g' = session_id g.
Proof.
  unfold spdm_close_device. intros Ho. apply bind_inv in Ho as ([o pc] & s1 & E & Ho). injection Ho as <- <- <-. split; [|done].
  revert E. unfold spdm_close_dev_port. apply keeps_bind; [apply close_cfg_space_keeps|]. intros pc'. kept.
Qed.

Lemma close_root_keeps g s ok g' s' :
  spdm_close_root_port g s = Ok ((ok, g'), s') → heap s' = heap s ∧ spdm_context g' = spdm_context g ∧ session_id g' = session_id g.
Proof.
  unfold spdm_close_root_port. intros Ho. apply bind_inv in Ho as (pc & s1 & E & Ho). injection Ho as <- <- <-. split; [|done].
  by apply close_cfg_space_keeps in E.
Qed.

Lemma free_context_blocks g s ok g' s' :
  spdm_context g ≠ 0 → spdm_free_context g s = Ok ((ok, g'), s') →
  heap s' = heap s ∖ {[spdm_context g]} ∧ spdm_context g' = 0 ∧ session_id g' = 0.
Proof.
  intros Hne. unfold spdm_free_context. rewrite (proj2 (Z.eqb_neq _ _) Hne). intros Ho. apply bind_inv in Ho as (u & s1 & E & Ho).
  injection Ho as <- <- <-. split; [|done]. by apply blocks_free in E.
Qed.

#[local] Abbreviation test_state := (test_state pcie_ide_test_group_context_t V).

(** A computation on the group. *)
Lemma on_group_inv (m : pcie_ide_test_group_context_t → io State (bool * pcie_ide_test_group_context_t)) (s : State) (t : test_state) ok s' t' :
  on_group m (s, t) = Ok (ok, (s', t')) → ∃ g', m (group t) s = Ok ((ok, g'), s') ∧ group t' = g'.
Proof.
  unfold on_group. intros Ho. apply bind_inv in Ho as (g & [s1 t1] & [= <- <- <-] & Ho).
  apply bind_inv in Ho as ([ok1 g1] & [s2 t2] & E & Ho). unfold machine in E. cbn [fst snd] in E.
  destruct (m (group t) s) as [[[ok2 g2] s3]|]; cbn [res_bind] in E; [|done]. injection E as <- <- <- <-.
  apply bind_inv in Ho as ([] & [s4 t4] & [= <- <-] & Ho). injection Ho as <- <- <-. by exists g2.
Qed.

Lemma record_group_inv f r message (s : State) (t : test_state) s' t' :
  record_group f r message (s, t) = Ok (tt, (s', t')) → s' = s ∧ group t' = group t.
Proof.
  unfold record_group, record. intros Ho. apply bind_inv in Ho as (t1 & st & [= <- <-] & Ho).
  apply bind_inv in Ho as ([x y] & st & E & Ho). unfold Hardware.lift in E. destruct (run_op _ _); cbn [res_bind] in E; [|done].
  injection E as _ <-. by injection Ho as <- <-.
Qed.

(** C38: When the SPDM client cannot be made, nothing stays allocated.  When it
    is made and the group that has it as its context is torn down later, with the same blocks in use, the teardown of the group
    reports success, gives the context back, leaves the group without context and session, and one block,
    the scratch buffer of the client, stays allocated. *)
Theorem spdm_client_memory (s : State) ctx s1 :
  spdm_init_client s = Ok (ctx, s1) →
  if ctx =? 0 then blocks (fst s1) = blocks (fst s)
  else ∃ scratch, scratch ≠ 0 ∧ scratch ∉ blocks (fst s) ∧
    ∀ s2 (t : test_state) ok s3 t', blocks (fst s2) = blocks (fst s1) → spdm_context (group t) = ctx →
      spdm_test_group_teardown (s2, t) = Ok (ok, (s3, t')) →
      ok = true ∧ spdm_context (group t') = 0 ∧ session_id (group t') = 0 ∧ blocks (fst s3) = ({[scratch]} ∪ blocks (fst s)).
Proof.
  intros Hc. pose proof (client_blocks s ctx s1 Hc) as Hb. destruct (Z.eqb_spec ctx 0) as [|Hne]; [done|].
  destruct Hb as (Hctx & scratch & Hnz & Hs & Hb). destruct (keeps_one _ ctx scratch Hctx Hs) as [Hn E].
  exists scratch. split; [done|]. split; [done|]. intros s2 t ok s3 t' Hsame Hg Ho. unfold spdm_test_group_teardown in Ho.
  apply bind_inv in Ho as (ok1 & [e1 t1] & E1 & Ho). apply on_group_inv in E1 as (g1 & E1 & Hg1).
  apply free_context_blocks in E1 as (B1 & C1 & D1); [|by rewrite Hg].
  apply bind_inv in Ho as (g & [e1' t1'] & [= <- <- <-] & Ho).
  apply bind_inv in Ho as (ok2 & [e2 t2] & E2 & Ho). apply on_group_inv in E2 as (g2 & E2 & Hg2).
  apply close_device_keeps in E2 as (B2 & C2 & D2).
  apply bind_inv in Ho as ([] & [e3 t3] & E3 & Ho).
  assert (blocks (fst e3) = blocks (fst e2) ∧ spdm_context (group t3) = spdm_context (group t2) ∧
          session_id (group t3) = session_id (group t2)) as (B3 & C3 & D3).
  { destruct (direct_or_switch (group t1)).
    - apply bind_inv in E3 as (ok3 & [e4 t4] & E4 & E3). injection E3 as <- <-. apply on_group_inv in E4 as (g3 & E4 & ->).
      by apply close_root_keeps in E4.
    - unfold io_assert, Hardware.lift in E3. destruct (TEEIO_ASSERT _); cbn [res_bind] in E3; [|done]. by injection E3 as _ <- <-. }
  apply bind_inv in Ho as ([] & [e5 t5] & E5 & Ho). apply record_group_inv in E5 as [-> Hg5]. injection Ho as <- <- <-.
  rewrite Hg5, C3, D3, Hg2, C2, D2, Hg1, C1, D1. cbn in *. rewrite B3, B2, B1, Hg, Hsame, Hb. by rewrite E.
Qed.
End memory.

(** An allocator that hands out the numbers above those in use. *)
Definition live_blocks : Type := list Z.
#[local] Instance counting_alloc : Alloc (live_blocks * process) := {|
  malloc _ d := let a := 1 + foldr Z.max 0 (fst d) in Ok (a, (a :: fst d, snd d));
  free p d := Ok (tt, (filter (λ a, a ≠ p) (fst d), snd d))
|}.
#[local] Existing Instance PcieRun.model_spdm.

Lemma above_max l : Forall (λ a, a < 1 + foldr Z.max 0 l) l ∧ 0 ≤ foldr Z.max 0 l.
Proof.
  induction l as [|x l [IH H0]]; cbn; [split; [constructor|lia]|]. split; [|lia]. constructor; [lia|].
  eapply Forall_impl; [exact IH|]. cbn. lia.
Qed.

#[local] Instance counting_os : Os live_blocks := {|
  os_open _ d := (-1, d); os_size _ d := (0, d); os_close _ d := d; os_keyp _ := None; os_map _ _ := None;
  os_unmap _ _ d := d; os_write_file _ _ d := d
|}.
#[local] Instance counting_bus : Bus live_blocks := {| bus_read _ _ d := (0, d); bus_write _ _ _ d := d |}.
#[local] Instance counting_clock : Clock live_blocks := {| sleep_for _ d := d |}.

#[local] Instance counting_laws : HeapLaws live_blocks.
Proof.
  refine {| blocks d := list_to_set d : gset Z |}.
  - intros n d p d' [= <- <-]. right. destruct (above_max (fst d)) as [Hb H0]. split_and!; [lia| |done].
    rewrite elem_of_list_to_set. intros Hin. rewrite Forall_forall in Hb. specialize (Hb _ Hin). lia.
  - intros p d u d' [= _ <-]. cbn [fst]. apply set_eq. intros x.
    rewrite elem_of_difference, !elem_of_list_to_set, list_elem_of_filter. set_solver.
  - by intros ctx d u d' [= _ <-].
  - by intros ctx d u d' [= _ <-].
  - by intros ctx d u d' [= _ <-].
  - by intros ctx p n d u d' [= _ <-].
  - done.
Defined.

(** With block 7 in use, the context is block 8 and the buffer block 9, which stays. *)
Definition spdm_test_state : test_state pcie_ide_test_group_context_t unit :=
  {| group := with_session 8 1 PcieTestsSpec.example_group; test_results := PcieTestsSpec.fresh_results; reports := []; skip_case := false; vars := tt |}.

Lemma spdm_client_memory_witness :
  ∃ scratch s3 t', scratch ∉ blocks ([7] : live_blocks) ∧
    spdm_test_group_teardown (D := live_blocks) (([9; 8; 7], PcieTestsSpec.example_process), spdm_test_state) = Ok (true, (s3, t')) ∧
    spdm_context (group t') = 0 ∧ blocks (fst s3) = ({[scratch]} ∪ blocks ([7] : live_blocks)).
Proof.
  destruct (spdm_client_memory (D := live_blocks) (V := unit) ([7], PcieTestsSpec.example_process) 8 ([9; 8; 7], PcieTestsSpec.example_process))
    as (scratch & _ & Hn & Ht); [vm_compute; reflexivity|].
  edestruct (Ht ([9; 8; 7], PcieTestsSpec.example_process) spdm_test_state) as (Hok & Hc & _ & Hb);
    [reflexivity|reflexivity|vm_compute; reflexivity|].
  exists scratch. eexists _, _. split; [exact Hn|]. split; [vm_compute; reflexivity|]. split; [exact Hc|exact Hb].
Defined.
End GroupSpec.
