(* ===== verification/Layout.v ===== *)
(** * Layouts of packed C structures

    Where the compiler of the supported platform (little endian, bit fields from the
    least significant bit) puts the members of a structure under
    [#pragma pack(1)]: a bit field follows the bit before it, whatever its
    declared type; any other member starts at the next byte.  A register
    is a union of a raw integer with such structures, its views. *)
From Stdlib Require Import ZArith Lia String.
From stdpp Require Import prelude strings.
From S2P Require Import Prelude.

Open Scope Z_scope.

Module Layout.

(** ** Declarations *)

(** The bits of an integer type. *)
Definition uint8_t : Z := 8.
Definition uint16_t : Z := 16.
Definition uint32_t : Z := 32.
Definition uint64_t : Z := 64.

Inductive member :=
| Bits (type : Z) (name : string) (width : Z)   (* [type name : width] *)
| Member (size : Z) (name : string).            (* any other member, of that many bits *)

Definition structure : Type := list member.

(** The name of padding, and of a structure without a name. *)
Definition anonymous : string := EmptyString.

(** A union of [raw] and some structures. *)
Record register := { raw : Z; views : list (string * structure) }.

Definition member_name (m : member) : string := match m with Bits _ n _ | Member _ n => n end.
Definition member_width (m : member) : Z := match m with Bits _ _ w => w | Member s _ => s end.

(** What the compiler accepts: a bit field is not wider than its type. *)
Definition member_ok (m : member) : bool :=
  match m with Bits t _ w => (0 <=? w) && (w <=? t) | Member s _ => 0 <=? s end.

(** ** Places *)

Definition byte_up (off : Z) : Z := (off + 7) / 8 * 8.

(** The first bit of a member after [off] bits. *)
Definition start (off : Z) (m : member) : Z := match m with Bits _ _ _ => off | Member _ _ => byte_up off end.

(** The members with their first bit and their width. *)
Fixpoint place (off : Z) (s : structure) : list (string * (Z * Z)) :=
  match s with
  | [] => []
  | m :: s => (member_name m, (start off m, member_width m)) :: place (start off m + member_width m) s
  end.

(** The bit after the last member. *)
Fixpoint end_of (off : Z) (s : structure) : Z :=
  match s with [] => off | m :: s => end_of (start off m + member_width m) s end.

(** The bits of the structure; a last byte is filled up. *)
Definition struct_bits (s : structure) : Z := byte_up (end_of 0 s).

Fixpoint find_place (n : string) (l : list (string * (Z * Z))) : option (Z * Z) :=
  match l with [] => None | (n', p) :: l => if String.eqb n n' then Some p else find_place n l end.

Definition place_of (s : structure) (n : string) : option (Z * Z) := find_place n (place 0 s).

(** [sizeof] and [offsetof]; a member that does not exist has none. *)
Definition sizeof (s : structure) : Z := struct_bits s / 8.
Definition offsetof (s : structure) (n : string) : option Z := (λ p, fst p / 8) <$> place_of s n.

(** Reading and assigning a member of a structure over [raw]. *)
Definition get (s : structure) (n : string) (raw : Z) : Z :=
  match place_of s n with Some (lo, w) => get_bits lo w raw | None => 0 end.
Definition set (s : structure) (n : string) (v raw : Z) : Z :=
  match place_of s n with Some (lo, w) => set_bits lo w v raw | None => raw end.

(** A member of a register, in the first view of that name that has it. *)
Fixpoint find_member (v n : string) (l : list (string * structure)) : option (Z * Z) :=
  match l with
  | [] => None
  | (v', s) :: l =>
      match (if String.eqb v v' then place_of s n else None) with Some p => Some p | None => find_member v n l end
  end.
Definition read_member (r : register) (v n : string) (x : Z) : Z :=
  match find_member v n (views r) with Some (lo, w) => get_bits lo w x | None => 0 end.
Definition write_member (r : register) (v n : string) (value x : Z) : Z :=
  match find_member v n (views r) with Some (lo, w) => set_bits lo w value x | None => x end.

(** Types that fit, names that differ (padding has none), and nothing beyond the raw integer. *)
Definition names_of (s : structure) : list string := filter (λ n, n ≠ anonymous) (map member_name s).
Definition structure_ok (s : structure) : bool := forallb member_ok s && bool_decide (NoDup (names_of s)).
Definition register_ok (r : register) : bool :=
  forallb (λ v, structure_ok (snd v) && (end_of 0 (snd v) <=? raw r)) (views r).

(** ** Enumerations *)

(** Enumerators without a value follow the one before. *)
Fixpoint c_enum (next : Z) (l : list (string * option Z)) : list (string * Z) :=
  match l with
  | [] => []
  | (n, v) :: l => let v := default next v in (n, v) :: c_enum (v + 1) l
  end.
Fixpoint enumerator (n : string) (l : list (string * Z)) : option Z :=
  match l with [] => None | (n', v) :: l => if String.eqb n n' then Some v else enumerator n l end.

(** ** The members of a structure do not overlap *)

Lemma byte_up_spec off : off ≤ byte_up off < off + 8 ∧ byte_up off mod 8 = 0.
Proof. unfold byte_up. split; [|apply Z.mod_mul; lia]. pose proof (Z.div_mod (off + 7) 8). pose proof (Z.mod_pos_bound (off + 7) 8). lia. Qed.

Lemma start_le off m : off ≤ start off m.
Proof. destruct m; cbn; [lia|]. pose proof (byte_up_spec off). lia. Qed.

Lemma member_ok_width m : member_ok m = true → 0 ≤ member_width m.
Proof. destruct m; cbn; [intros [?%Z.leb_le _]%andb_true_iff|intros ?%Z.leb_le]; done. Qed.

(** A member lies between where its structure starts and ends. *)
Lemma place_within off s n lo w :
  forallb member_ok s = true → find_place n (place off s) = Some (lo, w) → off ≤ lo ∧ 0 ≤ w ∧ lo + w ≤ end_of off s.
Proof.
  revert off. induction s as [|m s IH]; intros off; cbn; [done|]. intros [Hm Hs]%andb_true_iff Hf.
  pose proof (start_le off m). pose proof (member_ok_width m Hm). assert (Hend : start off m + member_width m ≤ end_of (start off m + member_width m) s).
  { clear -Hs. revert Hs. generalize (start off m + member_width m). induction s as [|m' s IH]; cbn; [lia|].
    intros z [Hm Hs]%andb_true_iff. pose proof (start_le z m'). pose proof (member_ok_width m' Hm). specialize (IH (start z m' + member_width m') Hs). lia. }
  destruct (String.eqb n (member_name m)); [injection Hf as <- <-; lia|].
  destruct (IH _ Hs Hf) as (? & ? & ?). lia.
Qed.

Lemma place_disjoint off s f g lo w lo' w' :
  forallb member_ok s = true → f ≠ g →
  find_place f (place off s) = Some (lo, w) → find_place g (place off s) = Some (lo', w') →
  lo + w ≤ lo' ∨ lo' + w' ≤ lo.
Proof.
  revert off. induction s as [|m s IH]; intros off; cbn; [done|]. intros [Hm Hs]%andb_true_iff Hfg.
  destruct (String.eqb_spec f (member_name m)) as [->|Hf], (String.eqb_spec g (member_name m)) as [->|Hg]; try done.
  - intros [= <- <-] Hg'. destruct (place_within _ _ _ _ _ Hs Hg') as [? _]. by left.
  - intros Hf' [= <- <-]. destruct (place_within _ _ _ _ _ Hs Hf') as [? _]. by right.
  - by apply IH.
Qed.

(** What an assignment to a member does: the member gets the value, cut to
    its width; the other members, and the bits beyond the structure, stay. *)
Lemma get_set s f g v x lo w lo' w' :
  structure_ok s = true → place_of s f = Some (lo, w) → place_of s g = Some (lo', w') →
  get s g (set s f v x) = if decide (f = g) then v mod 2 ^ w else get s g x.
Proof.
  intros [Hs _]%andb_true_iff Hf Hg. unfold get, set. rewrite Hf, Hg.
  destruct (place_within _ _ _ _ _ Hs Hf) as (? & ? & _), (place_within _ _ _ _ _ Hs Hg) as (? & ? & _).
  destruct (decide (f = g)) as [->|Hne].
  - rewrite Hf in Hg. injection Hg as <- <-. by apply get_set_bits_eq.
  - apply get_set_bits_ne; try done. destruct (place_disjoint _ _ _ _ _ _ _ _ Hs Hne Hf Hg); [by right|by left].
Qed.

Lemma set_range s f v x n :
  structure_ok s = true → end_of 0 s ≤ n → 0 ≤ x < 2 ^ n → 0 ≤ set s f v x < 2 ^ n.
Proof.
  intros [Hs _]%andb_true_iff He Hx. unfold set. destruct (place_of s f) as [[lo w]|] eqn:Hf; [|done].
  destruct (place_within _ _ _ _ _ Hs Hf) as (? & ? & ?). apply set_bits_range; lia.
Qed.
End Layout.
