(* ===== verification/Registers.v ===== *)
(** * Registers and structures of the headers (include/pcie.h, include/intel_keyp.h, include/cxl.h)

    The declarations, member by member, under the names they have in
    the headers.  The accessors, sizes, offsets and constants that the other parts of the model use are those
    of the declarations, and an assignment to a field leaves the others alone. *)
From Stdlib Require Import ZArith Lia String.
From stdpp Require Import prelude strings.
From S2P Require Import Prelude Layout Hardware PcieIde Kcbar PcieGroup CxlIde CxlKm CxlTests CxlGroup Tsp.

Open Scope Z_scope.

Module Registers.
Import Layout.
Open Scope string_scope.

(** ** PCI Express (include/pcie.h) *)

Definition PCIE_CAP_ID : register := {| raw := uint32_t; views := [(anonymous,
    [Member uint16_t "id"; Bits uint16_t "version" 4; Bits uint16_t "next_cap_offset" 12])] |}.

Definition PCIE_IDE_CAP : register := {| raw := uint32_t; views := [(anonymous,
    [Bits uint8_t "lnk_ide_supported" 1; Bits uint8_t "sel_ide_supported" 1; Bits uint8_t "ft_supported" 1;
     Bits uint8_t "rsvd0" 1; Bits uint8_t "aggr_supported" 1; Bits uint8_t "pcrc_supported" 1;
     Bits uint8_t "ide_km_protocol_supported" 1; Bits uint8_t "sel_ide_cfg_req_supported" 1;
     Bits uint8_t "supported_algo" 5; Bits uint8_t "num_lnk_ide" 3; Member uint8_t "num_sel_ide";
     Member uint8_t "rsvd2"])] |}.

Definition PCIE_IDE_CTRL : register := {| raw := uint32_t; views := [(anonymous,
    [Bits uint32_t "rsvd0" 2; Bits uint32_t "ft_supported" 1])] |}.

Definition PCIE_LNK_IDE_STREAM_CTRL : register := {| raw := uint32_t; views := [(anonymous,
    [Bits uint8_t "enabled" 1; Bits uint8_t "rsvd0" 1; Bits uint8_t "tx_aggr_mode_npr" 2;
     Bits uint8_t "tx_aggr_mode_pr" 2; Bits uint8_t "tx_aggr_mode_cpl" 2; Bits uint16_t "pcrc_en" 1;
     Bits uint16_t "rsvd1" 5; Bits uint16_t "selected_algo" 5; Bits uint16_t "tc" 3; Bits uint16_t "rsvd2" 2;
     Member uint8_t "stream_id"])] |}.

Definition PCIE_LINK_IDE_STREAM_STATUS : register := {| raw := uint32_t; views := [(anonymous,
    [Bits uint32_t "state" 4; Bits uint32_t "rsvd" 27; Bits uint32_t "recv_intg_check_fail_msg" 1])] |}.

Definition PCIE_LNK_IDE_STREAM_REG_BLOCK : structure :=
  [Member (raw PCIE_LNK_IDE_STREAM_CTRL) "control"; Member (raw PCIE_LINK_IDE_STREAM_STATUS) "status"].

Definition PCIE_SEL_IDE_STREAM_CAP : register := {| raw := uint32_t; views := [(anonymous,
    [Bits uint32_t "num_addr_assoc_reg_blocks" 4; Bits uint32_t "rsvd" 28])] |}.

Definition PCIE_SEL_IDE_STREAM_CTRL : register := {| raw := uint32_t; views := [(anonymous,
    [Bits uint8_t "enabled" 1; Bits uint8_t "reserved0" 1; Bits uint8_t "tx_aggr_mode_npr" 2;
     Bits uint8_t "tx_aggr_mode_pr" 2; Bits uint8_t "tx_aggr_mode_cpl" 2; Bits uint16_t "pcrc_en" 1;
     Bits uint16_t "cfg_sel_ide" 1; Bits uint16_t "reserved1" 4; Bits uint16_t "algorithm" 5;
     Bits uint16_t "tc" 3; Bits uint16_t "default_stream" 1; Bits uint16_t "reserved2" 1;
     Member uint8_t "stream_id"])] |}.

Definition PCIE_SEL_IDE_STREAM_STATUS : register := {| raw := uint32_t; views := [(anonymous,
    [Bits uint32_t "state" 4; Bits uint32_t "rsvd" 27; Bits uint32_t "recv_intg_check_fail_msg" 1])] |}.

Definition PCIE_SEL_IDE_RID_ASSOC_1 : register := {| raw := uint32_t; views := [(anonymous,
    [Member uint8_t "rsvd0"; Member uint16_t "rid_limit"; Member uint8_t "rsvd1"])] |}.

Definition PCIE_SEL_IDE_RID_ASSOC_2 : register := {| raw := uint32_t; views := [(anonymous,
    [Bits uint8_t "valid" 1; Bits uint8_t "rsvd0" 7; Member uint16_t "rid_base"; Member uint8_t "segment_base"])] |}.

Definition PCIE_SEL_IDE_RID_ASSOC_REG_BLOCK : structure :=
  [Member (raw PCIE_SEL_IDE_RID_ASSOC_1) "rid_assoc1"; Member (raw PCIE_SEL_IDE_RID_ASSOC_2) "rid_assoc2"].

Definition PCIE_SEL_IDE_ADDR_ASSOC_1 : register := {| raw := uint32_t; views := [(anonymous,
    [Bits uint32_t "valid" 1; Bits uint32_t "rsvd" 7; Bits uint32_t "mem_base_lower" 12;
     Bits uint32_t "mem_limit_lower" 12])] |}.

Definition PCIE_SEL_IDE_ADDR_ASSOC_2 : register := {| raw := uint32_t; views := [(anonymous,
    [Member uint32_t "mem_limit_upper"])] |}.

Definition PCIE_SEL_IDE_ADDR_ASSOC_3 : register := {| raw := uint32_t; views := [(anonymous,
    [Member uint32_t "mem_base_upper"])] |}.

Definition PCIE_SEL_IDE_ADDR_ASSOC_REG_BLOCK : structure :=
  [Member (raw PCIE_SEL_IDE_ADDR_ASSOC_1) "addr_assoc1"; Member (raw PCIE_SEL_IDE_ADDR_ASSOC_2) "addr_assoc2";
   Member (raw PCIE_SEL_IDE_ADDR_ASSOC_3) "addr_assoc3"].

Definition PCIE_SEL_IDE_STREAM_REG_BLOCK : structure :=
  [Member (raw PCIE_SEL_IDE_STREAM_CAP) "capability"; Member (raw PCIE_SEL_IDE_STREAM_CTRL) "control";
   Member (raw PCIE_SEL_IDE_STREAM_STATUS) "status";
   Member (struct_bits PCIE_SEL_IDE_RID_ASSOC_REG_BLOCK) "rid_assoc_block"].

Definition PCIE_IDE_ECAP : structure :=
  [Member (raw PCIE_CAP_ID) "ide_ecap"; Member (raw PCIE_IDE_CAP) "ide_cap";
   Member (raw PCIE_IDE_CTRL) "ide_ctrl"].

Definition PCIE_CAP_LIST : register := {| raw := uint16_t; views := [(anonymous,
    [Member uint8_t "id"; Member uint8_t "next_cap_offset"])] |}.

Definition PCIE_CAP : register := {| raw := uint16_t; views := [(anonymous,
    [Bits uint16_t "cap_version" 4; Bits uint16_t "dev_port_type" 4; Bits uint16_t "slot_impl" 1;
     Bits uint16_t "interrupt_msg_number" 5; Bits uint16_t "undefined" 1; Bits uint16_t "flit_mode_supported" 1])] |}.

Definition PCIE_LINK_CAP : register := {| raw := uint32_t; views := [(anonymous,
    [Bits uint32_t "max_link_speed" 4; Bits uint32_t "max_link_width" 6; Bits uint32_t "aspm_support" 2;
     Bits uint32_t "l0s_exit_latency" 3; Bits uint32_t "l1_exit_latency" 3;
     Bits uint32_t "clock_power_management" 1; Bits uint32_t "surprise_down_error_reporting" 1;
     Bits uint32_t "dll_active_reporting" 1; Bits uint32_t "link_bandwidth_notification" 1;
     Bits uint32_t "aspm_optionality" 1; Bits uint32_t "rsvd" 1; Bits uint32_t "port_number" 8])] |}.

Definition PCIE_LINK_CTRL : register := {| raw := uint16_t; views := [(anonymous,
    [Bits uint16_t "aspm_control" 2; Bits uint16_t "ptm_propagation_delay_adaption_interpretation_b" 1;
     Bits uint16_t "read_completion_boundary" 1; Bits uint16_t "link_disable" 1; Bits uint16_t "retrain_link" 1;
     Bits uint16_t "common_clock_config" 1; Bits uint16_t "extended_synch" 1;
     Bits uint16_t "enable_clock_power_management" 1; Bits uint16_t "hardware_autonomous_width_disable" 1;
     Bits uint16_t "link_bandwidth_management_interrupt_enable" 1;
     Bits uint16_t "link_autonomous_bandwidth_interrupt_enable" 1; Bits uint16_t "sris_clocking" 1;
     Bits uint16_t "flit_mode_disable" 1; Bits uint16_t "drs_signaling_control" 2])] |}.

Definition PCIE_LINK_STATUS : register := {| raw := uint16_t; views := [(anonymous,
    [Bits uint16_t "current_link_speed" 4; Bits uint16_t "negotiated_link_width" 6; Bits uint16_t "undefined" 1;
     Bits uint16_t "link_training" 1; Bits uint16_t "slot_clock_config" 1;
     Bits uint16_t "data_link_layer_active" 1; Bits uint16_t "link_bandwidth_management_status" 1;
     Bits uint16_t "link_autonomous_bandwidth_status" 1])] |}.

Definition PCIE_LINK_STATUS2 : register := {| raw := uint16_t; views := [(anonymous,
    [Bits uint16_t "current_deemphasis_level" 1; Bits uint16_t "equalization_8gt_complete" 1;
     Bits uint16_t "equalization_8gt_phase1_successful" 1; Bits uint16_t "equalization_8gt_phase2_successful" 1;
     Bits uint16_t "equalization_8gt_phase3_successful" 1; Bits uint16_t "link_equalization_request_8gt" 1;
     Bits uint16_t "retimer_presence_detected" 1; Bits uint16_t "two_retimers_presence_detected" 1;
     Bits uint16_t "crosslink_resolution" 2; Bits uint16_t "flit_mode_status" 1; Bits uint16_t "rsvdz" 1;
     Bits uint16_t "downstream_component_presence" 3; Bits uint16_t "drs_message_received" 1])] |}.

Definition PCIE_DEVICE_STATUS3 : register := {| raw := uint32_t; views := [(anonymous,
    [Bits uint32_t "inital_link_width" 3; Bits uint32_t "segment_captured" 1;
     Bits uint32_t "remote_L0p_supported" 1; Bits uint32_t "rsvdz" 26])] |}.

(** ** Key programming of the root complex (include/intel_keyp.h) *)

Definition INTEL_KEYP_PROTOCOL_TYPE : list (string * Z) := c_enum 0
  [("INTEL_KEYP_PROTOCOL_TYPE_PCIE_CXLIO", Some 1); ("INTEL_KEYP_PROTOCOL_TYPE_CXL_MEMCACHE", Some 2)].

Definition INTEL_CXL_IDE_MODE : list (string * Z) := c_enum 0
  [("INTEL_CXL_IDE_MODE_RSVD", Some 0); ("INTEL_CXL_IDE_MODE_CONTAINMENT", None);
   ("INTEL_CXL_IDE_MODE_SKID", None); ("INTEL_CXL_IDE_MODE_MAX", None)].

Definition INTEL_KEYP_ACPI : structure :=
  [Member (uint8_t * 4) "signature"; Member uint32_t "length"; Member uint8_t "revision";
   Member uint8_t "check_sum"; Member (uint8_t * 6) "oem_id"; Member (uint8_t * 8) "oem_table_id";
   Member uint32_t "oem_revision"; Member uint32_t "creator_id"; Member uint32_t "creator_revision";
   Member uint32_t "rsvd"].

Definition INTEL_KEYP_KEY_CONFIGURATION_UNIT : structure :=
  [Member uint8_t "Type"; Member uint8_t "Rsvd"; Member uint16_t "Length"; Member uint8_t "ProtocolType";
   Member uint8_t "Version"; Member uint8_t "RootPortCount"; Member uint8_t "Flags";
   Member uint64_t "RegisterBaseAddr"].

Definition INTEL_KEYP_ROOT_PORT_INFORMATION_Bits : structure :=
  [Bits uint8_t "Function" 3; Bits uint8_t "Device" 5].

Definition INTEL_KEYP_ROOT_PORT_INFORMATION : structure :=
  [Member uint16_t "SegmentNumber"; Member uint8_t "Bus";
   Member (struct_bits INTEL_KEYP_ROOT_PORT_INFORMATION_Bits) "Bits"].

Definition INTEL_KEYP_PCIE_STREAM_CAP : register := {| raw := uint32_t; views := [(anonymous,
    [Bits uint32_t "num_stream_supported" 8; Bits uint32_t "rsvd" 2; Bits uint32_t "num_tx_key_slots" 10;
     Bits uint32_t "num_rx_key_slots" 10; Bits uint32_t "rsvd2" 2])] |}.

Definition INTEL_KEYP_STREAM_CONTROL : register := {| raw := uint32_t; views :=
   [(anonymous,
     [Bits uint32_t "en" 1; Bits uint32_t "rsvd" 23]);
    (anonymous,
     [Bits uint8_t anonymous 8; Bits uint16_t anonymous 16; Member uint8_t "stream_id"])] |}.

Definition INTEL_KEYP_STREAM_TXRX_CONTROL : register := {| raw := uint32_t; views :=
   [("stream_tx_control",
     [Bits uint32_t "key_set_select" 2; Bits uint32_t "rsvd_1" 6; Bits uint32_t "prime_key_set_0" 1;
      Bits uint32_t "rsvd_2" 7; Bits uint32_t "prime_key_set_1" 1]);
    ("stream_rx_control",
     [Bits uint32_t "rsvd_1" 8; Bits uint32_t "prime_key_set_0" 1; Bits uint32_t "rsvd_2" 7;
      Bits uint32_t "prime_key_set_1" 1]);
    ("common",
     [Member uint8_t "rsvd"; Bits uint8_t "prime_key_set_0" 1; Bits uint8_t "rsvd_2" 7;
      Bits uint8_t "prime_key_set_1" 1])] |}.

Definition INTEL_KEYP_STREAM_TXRX_STATUS : register := {| raw := uint32_t; views :=
   [("stream_tx_status",
     [Bits uint32_t "key_set_status" 2; Bits uint32_t "rsvd" 6; Bits uint32_t "ready_key_set_0" 1;
      Bits uint32_t "ready_key_set_1" 1]);
    ("stream_rx_status",
     [Bits uint32_t "last_rcvd_set_pr" 2; Bits uint32_t "last_rcvd_set_npr" 2; Bits uint32_t "last_rcvd_set_cpl" 2;
      Bits uint32_t "rsvd" 2; Bits uint32_t "ready_key_set_0" 1; Bits uint32_t "ready_key_set_1" 1]);
    ("common",
     [Bits uint32_t "rsvd" 8; Bits uint32_t "ready_key_set_0" 1; Bits uint32_t "ready_key_set_1" 1])] |}.

Definition INTEL_KEYP_STREAM_KEYSET_SLOT_ID : register := {| raw := uint32_t; views := [(anonymous,
    [Bits uint32_t "pr" 10; Bits uint32_t "npr" 10; Bits uint32_t "cpl" 10; Bits uint32_t "rsvd" 2])] |}.

Definition INTEL_KEYP_STREAM_CONFIG_REG_BLOCK : structure :=
  [Member (raw INTEL_KEYP_STREAM_CONTROL) "control"; Member (raw INTEL_KEYP_STREAM_TXRX_CONTROL) "tx_ctrl";
   Member (raw INTEL_KEYP_STREAM_TXRX_STATUS) "tx_status";
   Member (raw INTEL_KEYP_STREAM_TXRX_CONTROL) "rx_ctrl";
   Member (raw INTEL_KEYP_STREAM_TXRX_STATUS) "rx_status";
   Member (raw INTEL_KEYP_STREAM_KEYSET_SLOT_ID) "tx_key_set_0";
   Member (raw INTEL_KEYP_STREAM_KEYSET_SLOT_ID) "tx_key_set_1";
   Member (raw INTEL_KEYP_STREAM_KEYSET_SLOT_ID) "rx_key_set_0";
   Member (raw INTEL_KEYP_STREAM_KEYSET_SLOT_ID) "rx_key_set_1"].

Definition INTEL_KEYP_ROOT_COMPLEX_KCBAR : structure :=
  [Member (raw INTEL_KEYP_PCIE_STREAM_CAP) "capabilities";
   Member (struct_bits INTEL_KEYP_STREAM_CONFIG_REG_BLOCK) "stream_config_reg_block"].

Definition INTEL_KEYP_KEY_SLOT : register := {| raw := (uint8_t * 32); views :=
   [(anonymous,
     [Member (uint8_t * 32) "bytes"]);
    (anonymous,
     [Member (uint32_t * 8) "dwords"])] |}.

Definition INTEL_KEYP_IV_SLOT : register := {| raw := (uint8_t * 8); views :=
   [(anonymous,
     [Member (uint8_t * 8) "bytes"]);
    (anonymous,
     [Member (uint32_t * 2) "dwords"])] |}.

Definition INTEL_KEYP_CXL_LINK_ENC_GLOBAL_CONFIG : register := {| raw := uint32_t; views := [(anonymous,
    [Bits uint32_t "link_enc_enable" 1; Bits uint32_t "mode" 5; Bits uint32_t "algorithm" 6;
     Bits uint32_t "rsvd" 20])] |}.

Definition INTEL_KEYP_CXL_LINK_ENC_CONTROL : register := {| raw := uint32_t; views := [(anonymous,
    [Bits uint32_t "start_trigger" 1; Bits uint32_t "rxkey_valid" 1; Bits uint32_t "txkey_valid" 1;
     Bits uint32_t "txtransto_insecure_state" 1; Bits uint32_t "rxtransto_insecure_state" 1;
     Bits uint32_t "rsvd" 27])] |}.

Definition INTEL_KEYP_CXL_TXRX_ENCRYPTION_KEY : structure :=
  [Member uint64_t "link_enc_key"].

Definition INTEL_KEYP_CXL_TXRX_IV : structure :=
  [Member uint64_t "iv"].

Definition INTEL_KEYP_CXL_TXRX_ENC_KEYS_BLOCK : structure :=
  [Member (struct_bits INTEL_KEYP_CXL_TXRX_ENCRYPTION_KEY * 4) "keys"].

Definition INTEL_KEYP_CXL_ROOT_COMPLEX_KCBAR : structure :=
  [Member (raw INTEL_KEYP_CXL_LINK_ENC_GLOBAL_CONFIG) "link_enc_global_config"; Member uint32_t "rsvd0";
   Member (raw INTEL_KEYP_CXL_LINK_ENC_CONTROL) "link_enc_control"; Member uint32_t "rsvd1";
   Member (struct_bits INTEL_KEYP_CXL_TXRX_ENC_KEYS_BLOCK) "tx_enc_keys";
   Member (struct_bits INTEL_KEYP_CXL_TXRX_IV) "tx_iv";
   Member (struct_bits INTEL_KEYP_CXL_TXRX_ENC_KEYS_BLOCK) "rx_enc_keys";
   Member (struct_bits INTEL_KEYP_CXL_TXRX_IV) "rx_iv"].

(** ** CXL (include/cxl.h) *)

Definition CXL_DVS_HEADER1 : register := {| raw := uint32_t; views := [(anonymous,
    [Member uint16_t "vendor_id"; Bits uint16_t "revision" 4; Bits uint16_t "length" 12])] |}.

Definition CXL_DVS_HEADER2 : register := {| raw := uint16_t; views := [(anonymous,
    [Member uint16_t "id"])] |}.

Definition CXL_DEV_CAPABILITY : register := {| raw := uint16_t; views := [(anonymous,
    [Bits uint8_t "cache_capable" 1; Bits uint8_t "io_capable" 1; Bits uint8_t "mem_capable" 1;
     Bits uint8_t "mem_hwinit_mode" 1; Bits uint8_t "hdm_count" 2;
     Bits uint8_t "cache_writeback_and_invalidate_capable" 1; Bits uint8_t "cxl_reset_capable" 1;
     Bits uint8_t "cxl_reset_timeout" 3; Bits uint8_t "cxl_mem_clr_capable" 1; Bits uint8_t "tsp_capable" 1;
     Bits uint8_t "multiple_logical_device" 1; Bits uint8_t "viral_capable" 1;
     Bits uint8_t "pm_init_completion_reporting_capable" 1])] |}.

Definition CXL_DEV_CONTROL : register := {| raw := uint16_t; views := [(anonymous,
    [Bits uint8_t "cache_enable" 1; Bits uint8_t "io_enable" 1; Bits uint8_t "mem_enable" 1;
     Bits uint8_t "cache_sf_coverage" 5; Bits uint8_t "cache_sf_granularity" 3;
     Bits uint8_t "cache_clean_eviction" 1; Bits uint8_t "direct_p2p_mem_enable" 1; Bits uint8_t "rsvd0" 1;
     Bits uint8_t "viral_enable" 1; Bits uint8_t "rsvd1" 1])] |}.

Definition CXL_DEV_STATUS : register := {| raw := uint16_t; views := [(anonymous,
    [Bits uint16_t "rsvd0" 14; Bits uint16_t "viral_status" 1; Bits uint16_t "rsvd1" 1])] |}.

Definition CXL_DEV_CONTROL2 : register := {| raw := uint16_t; views := [(anonymous,
    [Bits uint16_t "disable_caching" 1; Bits uint16_t "initiate_cache_write_back_and_invalidation" 1;
     Bits uint16_t "initiate_cxl_reset" 1; Bits uint16_t "cxl_reset_mem_clr_enable" 1;
     Bits uint16_t "desired_volatile_hdm_state_after_hot_reset" 1; Bits uint16_t "modified_completion_enable" 1;
     Bits uint16_t "rsvd" 10])] |}.

Definition CXL_DEV_STATUS2 : register := {| raw := uint16_t; views := [(anonymous,
    [Bits uint16_t "cache_invalid" 1; Bits uint16_t "cxl_reset_complete" 1; Bits uint16_t "cxl_reset_error" 1;
     Bits uint16_t "volatile_hdm_preservation_error" 1; Bits uint16_t "rsvd" 11;
     Bits uint16_t "power_management_initialization_complete" 1])] |}.

Definition CXL_DEV_LOCK : register := {| raw := uint16_t; views := [(anonymous,
    [Bits uint16_t "config_lock" 15; Bits uint16_t "rsvd" 1])] |}.

Definition CXL_DEV_CAPABILITY2 : register := {| raw := uint16_t; views := [(anonymous,
    [Bits uint8_t "cache_size_unit" 4; Bits uint8_t "fallback_capability" 2;
     Bits uint8_t "modified_completion_capable" 1; Bits uint8_t "no_clean_writeback" 1; Member uint8_t "cache_size"])] |}.

Definition CXL_DEV_RANGE_SIZE_HIGH : register := {| raw := uint32_t; views := [(anonymous,
    [Member uint32_t "memory_size_high"])] |}.

Definition CXL_DEV_RANGE_SIZE_LOW : register := {| raw := uint32_t; views := [(anonymous,
    [Bits uint8_t "memory_info_valid" 1; Bits uint8_t "memory_active" 1; Bits uint8_t "media_type" 3;
     Bits uint8_t "memory_class" 3; Bits uint8_t "desired_interleave" 5; Bits uint8_t "memory_active_timeout" 3;
     Bits uint16_t "memory_active_degraded" 1; Bits uint16_t "rsvd" 11; Bits uint16_t "memory_size_low" 4])] |}.

Definition CXL_DEV_RANGE_BASE_HIGH : register := {| raw := uint32_t; views := [(anonymous,
    [Member uint32_t "memory_base_high"])] |}.

Definition CXL_DEV_RANGE_BASE_LOW : register := {| raw := uint32_t; views := [(anonymous,
    [Bits uint32_t "rsvd" 28; Bits uint32_t "memory_base_low" 4])] |}.

Definition CXL_DEV_CAPABILITY3 : register := {| raw := uint16_t; views := [(anonymous,
    [Bits uint16_t "default_volatile_hdm_state_after_cold_reset" 1;
     Bits uint16_t "default_volatile_hdm_state_after_warm_reset" 1;
     Bits uint16_t "default_volatile_hdm_state_after_hot_reset" 1;
     Bits uint16_t "volatile_hdm_state_after_hot_reset" 1; Bits uint16_t "direct_p2p_mem_capable" 1;
     Bits uint16_t "rsvd" 11])] |}.

Definition CXL_DEV_RANGE_SIZE : structure :=
  [Member (raw CXL_DEV_RANGE_SIZE_HIGH) "high"; Member (raw CXL_DEV_RANGE_SIZE_LOW) "low"].

Definition CXL_DEV_RANGE_BASE : structure :=
  [Member (raw CXL_DEV_RANGE_BASE_HIGH) "high"; Member (raw CXL_DEV_RANGE_BASE_LOW) "low"].

Definition CXL_DVSEC_COMMON_HEADER : structure :=
  [Member (raw PCIE_CAP_ID) "ide_ecap"; Member (raw CXL_DVS_HEADER1) "header1";
   Member (raw CXL_DVS_HEADER2) "header2"].

Definition CXL_DVSEC_FOR_DEVICE : structure :=
  [Member (struct_bits CXL_DVSEC_COMMON_HEADER) "common_header"; Member (raw CXL_DEV_CAPABILITY) "capability";
   Member (raw CXL_DEV_CONTROL) "control"; Member (raw CXL_DEV_STATUS) "status";
   Member (raw CXL_DEV_CONTROL2) "control2"; Member (raw CXL_DEV_STATUS2) "status2";
   Member (raw CXL_DEV_LOCK) "lock"; Member (raw CXL_DEV_CAPABILITY2) "capability2";
   Member (struct_bits CXL_DEV_RANGE_SIZE) "range1_size"; Member (struct_bits CXL_DEV_RANGE_BASE) "range1_base";
   Member (struct_bits CXL_DEV_RANGE_SIZE) "range2_size"; Member (struct_bits CXL_DEV_RANGE_BASE) "range2_base";
   Member (raw CXL_DEV_CAPABILITY3) "capability3"; Member uint16_t "rsvd"].

Definition CXL_DVSEC_FOR_PORTS : structure :=
  [Member (struct_bits CXL_DVSEC_COMMON_HEADER) "common_header"].

Definition CXL_GPF_DVSEC_FOR_PORTS : structure :=
  [Member (struct_bits CXL_DVSEC_COMMON_HEADER) "common_header"].

Definition CXL_GPF_DVSEC_FOR_DEVICES : structure :=
  [Member (struct_bits CXL_DVSEC_COMMON_HEADER) "common_header"].

Definition CXL_DVSEC_FOR_FLEX_BUS_PORT : structure :=
  [Member (struct_bits CXL_DVSEC_COMMON_HEADER) "common_header"].

Definition CXL_REGISTER_OFFSET_LOW : register := {| raw := uint32_t; views := [(anonymous,
    [Bits uint8_t "register_bir" 3; Bits uint8_t "rsvd" 5; Member uint8_t "register_block_id";
     Member uint16_t "register_block_offset_low"])] |}.

Definition CXL_REGISTER_OFFSET_HIGH : structure :=
  [Member uint32_t "register_block_offset_high"].

Definition CXL_REGISTER_BLOCK : structure :=
  [Member (raw CXL_REGISTER_OFFSET_LOW) "low"; Member (struct_bits CXL_REGISTER_OFFSET_HIGH) "high"].

Definition CXL_DVSEC_REGISTER_LOCATOR : structure :=
  [Member (struct_bits CXL_DVSEC_COMMON_HEADER) "common_header"; Member uint16_t "rsvd"].

Definition CXL_CAPABILITY_HEADER : register := {| raw := uint32_t; views := [(anonymous,
    [Member uint16_t "cap_id"; Bits uint8_t "cap_version" 4; Bits uint8_t "cache_mem_version" 4;
     Member uint8_t "array_size"])] |}.

Definition CXL_CAPABILITY_XXX_HEADER : register := {| raw := uint32_t; views := [(anonymous,
    [Member uint16_t "cap_id"; Bits uint16_t "cap_version" 4; Bits uint16_t "pointer" 12])] |}.

Definition CXL_IDE_CAPABILITY : register := {| raw := uint32_t; views := [(anonymous,
    [Bits uint32_t "cxl_ide_capable" 1; Bits uint32_t "supported_cxl_ide_modes" 16;
     Bits uint32_t "supported_algo" 5; Bits uint32_t "ide_stop_capable" 1; Bits uint32_t "lopt_ide_capable" 1;
     Bits uint32_t "rsvd" 8])] |}.

Definition CXL_IDE_CONTROL : register := {| raw := uint32_t; views := [(anonymous,
    [Bits uint32_t "pcrc_disable" 1; Bits uint32_t "ide_stop_enable" 1; Bits uint32_t "rsvd" 30])] |}.

Definition CXL_IDE_STATUS : register := {| raw := uint32_t; views := [(anonymous,
    [Bits uint8_t "rx_ide_status" 4; Bits uint8_t "tx_ide_status" 4; Member uint8_t "rsvd0";
     Member uint16_t "rsvd1"])] |}.

Definition CXL_IDE_ERROR_STATUS : register := {| raw := uint32_t; views := [(anonymous,
    [Bits uint8_t "rx_error_status" 4; Bits uint8_t "tx_error_status" 4;
     Bits uint8_t "unexpected_ide_stop_received" 1; Bits uint8_t "rsvd0" 7; Member uint16_t "rsvd1"])] |}.

Definition CXL_KEY_REFRESH_TIME_CAPABILITY : register := {| raw := uint32_t; views := [(anonymous,
    [Member uint32_t "rx_min_key_refresh_time"])] |}.

Definition CXL_TRUNCATION_TRANSMIT_DELAY_CAPABILITY : register := {| raw := uint32_t; views := [(anonymous,
    [Member uint8_t "rx_min_truncation_transmit_delay"; Member uint8_t "rx_min_truncation_transmit_delay2";
     Member uint16_t "rsvd"])] |}.

Definition CXL_KEY_REFRESH_TIME_CONTROL : register := {| raw := uint32_t; views := [(anonymous,
    [Member uint32_t "tx_key_refresh_time"])] |}.

Definition CXL_TRUNCATION_TRANSMIT_DELAY_CONTROL : register := {| raw := uint32_t; views := [(anonymous,
    [Member uint8_t "tx_truncation_transmit_delay"; Member uint8_t "rsvd0"; Member uint16_t "rsvd1"])] |}.

Definition CXL_KEY_REFRESH_TIME_CAPABILITY2 : register := {| raw := uint32_t; views := [(anonymous,
    [Member uint32_t "rx_min_key_refresh_time2"])] |}.

Definition CXL_IDE_CAPABILITY_STRUCT : structure :=
  [Member (raw CXL_IDE_CAPABILITY) "cap"; Member (raw CXL_IDE_CONTROL) "control";
   Member (raw CXL_IDE_STATUS) "status"; Member (raw CXL_IDE_ERROR_STATUS) "error_status";
   Member (raw CXL_KEY_REFRESH_TIME_CAPABILITY) "key_refresh_time_capability";
   Member (raw CXL_TRUNCATION_TRANSMIT_DELAY_CAPABILITY) "truncation_transmit_delay_capability";
   Member (raw CXL_KEY_REFRESH_TIME_CONTROL) "key_refresh_time_control";
   Member (raw CXL_TRUNCATION_TRANSMIT_DELAY_CONTROL) "truncation_transmit_delay_control";
   Member (raw CXL_KEY_REFRESH_TIME_CAPABILITY2) "key_refresh_time_capability2"].

Definition CXL_QUERY_RESP_CAPS : register := {| raw := uint8_t; views := [(anonymous,
    [Bits uint8_t "cxl_ide_cap_version" 4; Bits uint8_t "iv_generation_capable" 1;
     Bits uint8_t "ide_key_generation_capable" 1; Bits uint8_t "k_set_stop_capable" 1; Bits uint8_t "rsvd" 1])] |}.

Definition CXL_CAPABILITY_ID : list (string * Z) := c_enum 0
  [("CXL_CAPABILITY_ID_NULL", Some 0); ("CXL_CAPABILITY_ID_CAP", None); ("CXL_CAPABILITY_ID_RAS_CAP", None);
   ("CXL_CAPABILITY_ID_SECURITY_CAP", None); ("CXL_CAPABILITY_ID_LINK_CAP", None);
   ("CXL_CAPABILITY_ID_HDM_DECODER_CAP", None); ("CXL_CAPABILITY_ID_EXTENDED_SECURITY_CAP", None);
   ("CXL_CAPABILITY_ID_IDE_CAP", None); ("CXL_CAPABILITY_ID_SNOOP_FILTER_CAP", None);
   ("CXL_CAPABILITY_ID_TIMEOUT_ISOLATION_CAP", None); ("CXL_CAPABILITY_ID_CACHEMEM_EXTENDED_REG_CAP", None);
   ("CXL_CAPABILITY_ID_BI_ROUTE_TABLE_CAP", None); ("CXL_CAPABILITY_ID_BI_DECODER_CAP", None);
   ("CXL_CAPABILITY_ID_CACHE_ID_ROUTE_TABLE_CAP", None); ("CXL_CAPABILITY_ID_CACHE_ID_DECODER_TABLE_CAP", None);
   ("CXL_CAPABILITY_ID_EXTENDED_HDM_DECODE_CAP", None); ("CXL_CAPABILITY_ID_EXTENDED_METADATA_CAP", None);
   ("CXL_CAPABILITY_ID_NUM", None)].

Definition CXL_IDE_STREAM_DIRECTION : list (string * Z) := c_enum 0
  [("CXL_IDE_STREAM_DIRECTION_RX", Some 0); ("CXL_IDE_STREAM_DIRECTION_TX", None);
   ("CXL_IDE_STREAM_DIRECTION_NUM", None)].

Definition CXL_DVSEC_ID : list (string * Z) := c_enum 0
  [("CXL_DVSEC_ID_PCIE_DVSEC_FOR_CXL_DEVICES", Some 0); ("CXL_DVSEC_ID_NON_CXL_FUNCTION_MAP_DVSEC", Some 0x2);
   ("CXL_DVSEC_ID_CXL_EXTENSIONS_DVSEC_FOR_PORTS", Some 0x3);
   ("CXL_DVSEC_ID_GPF_DVSEC_FOR_CXL_PORTS", Some 0x4); ("CXL_DVSEC_ID_GPF_DVSEC_FOR_CXL_DEVICES", Some 0x5);
   ("CXL_DVSEC_ID_PCIE_DVSEC_FOR_FLEX_BUS_PORT", Some 0x7); ("CXL_DVSEC_ID_REGISTER_LOCATOR_DVSEC", Some 0x8);
   ("CXL_DVSEC_ID_MLD_DVSEC", Some 0x09); ("CXL_DVSEC_ID_PCIE_DVSEC_FOR_TEST_CAP", Some 0xA);
   ("CXL_DVSEC_IN_INVALID", Some 0xFF)].

Definition CXL_DVSEC_REG_BLOCK_ID : list (string * Z) := c_enum 0
  [("CXL_DVSEC_REG_BLOCK_ID_EMPTY", Some 0x00); ("CXL_DVSEC_REG_BLOCK_ID_COMPONENT_REG", Some 0x01);
   ("CXL_DVSEC_REG_BLOCK_ID_BAR_VIRT_ACL_REG", Some 0x02); ("CXL_DVSEC_REG_BLOCK_ID_CXL_DVE_REG", Some 0x03);
   ("CXL_DVSEC_REG_BLOCK_ID_CPMU_REG", Some 0x04); ("CXL_DVSEC_REG_BLOCK_ID_DVS_REG", Some 0xff)].

(** ** Bytes of a double word (scan_pcie.c, tdisp_test_internal.h) *)

Definition PCI_READ_DATA32 : register := {| raw := uint32_t; views := [(anonymous,
    [Member uint8_t "byte0"; Member uint8_t "byte1"; Member uint8_t "byte2"; Member uint8_t "byte3"])] |}.

Definition READ_DATA16 : register := {| raw := uint16_t; views := [(anonymous,
    [Member uint8_t "byte0"; Member uint8_t "byte1"])] |}.

Definition READ_DATA32 : register := {| raw := uint32_t; views := [(anonymous,
    [Member uint8_t "byte0"; Member uint8_t "byte1"; Member uint8_t "byte2"; Member uint8_t "byte3"])] |}.


(** ** What the model uses of them *)

Definition registers : list register :=
  [PCIE_CAP_ID; PCIE_IDE_CAP; PCIE_IDE_CTRL; PCIE_LNK_IDE_STREAM_CTRL; PCIE_LINK_IDE_STREAM_STATUS;
   PCIE_SEL_IDE_STREAM_CAP; PCIE_SEL_IDE_STREAM_CTRL; PCIE_SEL_IDE_STREAM_STATUS; PCIE_SEL_IDE_RID_ASSOC_1;
   PCIE_SEL_IDE_RID_ASSOC_2; PCIE_SEL_IDE_ADDR_ASSOC_1; PCIE_SEL_IDE_ADDR_ASSOC_2; PCIE_SEL_IDE_ADDR_ASSOC_3;
   PCIE_CAP_LIST; PCIE_CAP; PCIE_LINK_CAP; PCIE_LINK_CTRL; PCIE_LINK_STATUS; PCIE_LINK_STATUS2;
   PCIE_DEVICE_STATUS3; INTEL_KEYP_PCIE_STREAM_CAP; INTEL_KEYP_STREAM_CONTROL; INTEL_KEYP_STREAM_TXRX_CONTROL;
   INTEL_KEYP_STREAM_TXRX_STATUS; INTEL_KEYP_STREAM_KEYSET_SLOT_ID; INTEL_KEYP_KEY_SLOT; INTEL_KEYP_IV_SLOT;
   INTEL_KEYP_CXL_LINK_ENC_GLOBAL_CONFIG; INTEL_KEYP_CXL_LINK_ENC_CONTROL; CXL_DVS_HEADER1; CXL_DVS_HEADER2;
   CXL_DEV_CAPABILITY; CXL_DEV_CONTROL; CXL_DEV_STATUS; CXL_DEV_CONTROL2; CXL_DEV_STATUS2; CXL_DEV_LOCK;
   CXL_DEV_CAPABILITY2; CXL_DEV_RANGE_SIZE_HIGH; CXL_DEV_RANGE_SIZE_LOW; CXL_DEV_RANGE_BASE_HIGH;
   CXL_DEV_RANGE_BASE_LOW; CXL_DEV_CAPABILITY3; CXL_REGISTER_OFFSET_LOW; CXL_CAPABILITY_HEADER;
   CXL_CAPABILITY_XXX_HEADER; CXL_IDE_CAPABILITY; CXL_IDE_CONTROL; CXL_IDE_STATUS; CXL_IDE_ERROR_STATUS;
   CXL_KEY_REFRESH_TIME_CAPABILITY; CXL_TRUNCATION_TRANSMIT_DELAY_CAPABILITY; CXL_KEY_REFRESH_TIME_CONTROL;
   CXL_TRUNCATION_TRANSMIT_DELAY_CONTROL; CXL_KEY_REFRESH_TIME_CAPABILITY2; CXL_QUERY_RESP_CAPS; PCI_READ_DATA32;
   READ_DATA16; READ_DATA32].

Definition structures : list structure :=
  [PCIE_LNK_IDE_STREAM_REG_BLOCK; PCIE_SEL_IDE_RID_ASSOC_REG_BLOCK; PCIE_SEL_IDE_ADDR_ASSOC_REG_BLOCK;
   PCIE_SEL_IDE_STREAM_REG_BLOCK; PCIE_IDE_ECAP; INTEL_KEYP_ACPI; INTEL_KEYP_KEY_CONFIGURATION_UNIT;
   INTEL_KEYP_ROOT_PORT_INFORMATION_Bits; INTEL_KEYP_ROOT_PORT_INFORMATION; INTEL_KEYP_STREAM_CONFIG_REG_BLOCK;
   INTEL_KEYP_ROOT_COMPLEX_KCBAR; INTEL_KEYP_CXL_TXRX_ENCRYPTION_KEY; INTEL_KEYP_CXL_TXRX_IV;
   INTEL_KEYP_CXL_TXRX_ENC_KEYS_BLOCK; INTEL_KEYP_CXL_ROOT_COMPLEX_KCBAR; CXL_DEV_RANGE_SIZE; CXL_DEV_RANGE_BASE;
   CXL_DVSEC_COMMON_HEADER; CXL_DVSEC_FOR_DEVICE; CXL_DVSEC_FOR_PORTS; CXL_GPF_DVSEC_FOR_PORTS;
   CXL_GPF_DVSEC_FOR_DEVICES; CXL_DVSEC_FOR_FLEX_BUS_PORT; CXL_REGISTER_OFFSET_HIGH; CXL_REGISTER_BLOCK;
   CXL_DVSEC_REGISTER_LOCATOR; CXL_IDE_CAPABILITY_STRUCT].

(** Accessor, register, view and member. *)
Definition readers : list ((Z → Z) * (register * (string * string))) :=
  [(Hardware.cap_id, (PCIE_CAP_ID, (anonymous, "id"))); (Hardware.cap_version, (PCIE_CAP_ID, (anonymous, "version")));
   (Hardware.cap_next, (PCIE_CAP_ID, (anonymous, "next_cap_offset"))); (Hardware.list_id, (PCIE_CAP_LIST, (anonymous, "id")));
   (Hardware.list_next, (PCIE_CAP_LIST, (anonymous, "next_cap_offset")));
   (Hardware.lnk_ide_supported, (PCIE_IDE_CAP, (anonymous, "lnk_ide_supported")));
   (Hardware.sel_ide_supported, (PCIE_IDE_CAP, (anonymous, "sel_ide_supported")));
   (Hardware.ide_ft_supported, (PCIE_IDE_CAP, (anonymous, "ft_supported")));
   (Hardware.pcrc_supported, (PCIE_IDE_CAP, (anonymous, "pcrc_supported")));
   (Hardware.sel_ide_cfg_req_supported, (PCIE_IDE_CAP, (anonymous, "sel_ide_cfg_req_supported")));
   (Hardware.num_lnk_ide, (PCIE_IDE_CAP, (anonymous, "num_lnk_ide")));
   (Hardware.num_sel_ide, (PCIE_IDE_CAP, (anonymous, "num_sel_ide")));
   (Hardware.ctrl_enabled, (PCIE_LNK_IDE_STREAM_CTRL, (anonymous, "enabled")));
   (Hardware.ctrl_enabled, (PCIE_SEL_IDE_STREAM_CTRL, (anonymous, "enabled")));
   (Hardware.ctrl_pcrc_en, (PCIE_LNK_IDE_STREAM_CTRL, (anonymous, "pcrc_en")));
   (Hardware.ctrl_pcrc_en, (PCIE_SEL_IDE_STREAM_CTRL, (anonymous, "pcrc_en")));
   (Hardware.ctrl_cfg_sel_ide, (PCIE_SEL_IDE_STREAM_CTRL, (anonymous, "cfg_sel_ide")));
   (Hardware.ctrl_stream_id, (PCIE_LNK_IDE_STREAM_CTRL, (anonymous, "stream_id")));
   (Hardware.ctrl_stream_id, (PCIE_SEL_IDE_STREAM_CTRL, (anonymous, "stream_id")));
   (Hardware.num_addr_assoc_reg_blocks, (PCIE_SEL_IDE_STREAM_CAP, (anonymous, "num_addr_assoc_reg_blocks")));
   (Hardware.status_state, (PCIE_LINK_IDE_STREAM_STATUS, (anonymous, "state")));
   (Hardware.status_state, (PCIE_SEL_IDE_STREAM_STATUS, (anonymous, "state")));
   (Hardware.num_stream_supported, (INTEL_KEYP_PCIE_STREAM_CAP, (anonymous, "num_stream_supported")));
   (Hardware.num_tx_key_slots, (INTEL_KEYP_PCIE_STREAM_CAP, (anonymous, "num_tx_key_slots")));
   (Hardware.num_rx_key_slots, (INTEL_KEYP_PCIE_STREAM_CAP, (anonymous, "num_rx_key_slots")));
   (Hardware.stream_en, (INTEL_KEYP_STREAM_CONTROL, (anonymous, "en")));
   (Hardware.stream_stream_id, (INTEL_KEYP_STREAM_CONTROL, (anonymous, "stream_id")));
   (Hardware.key_set_select, (INTEL_KEYP_STREAM_TXRX_CONTROL, ("stream_tx_control", "key_set_select")));
   (Hardware.prime_key_set_0, (INTEL_KEYP_STREAM_TXRX_CONTROL, ("stream_tx_control", "prime_key_set_0")));
   (Hardware.prime_key_set_0, (INTEL_KEYP_STREAM_TXRX_CONTROL, ("stream_rx_control", "prime_key_set_0")));
   (Hardware.prime_key_set_0, (INTEL_KEYP_STREAM_TXRX_CONTROL, ("common", "prime_key_set_0")));
   (Hardware.prime_key_set_1, (INTEL_KEYP_STREAM_TXRX_CONTROL, ("stream_tx_control", "prime_key_set_1")));
   (Hardware.prime_key_set_1, (INTEL_KEYP_STREAM_TXRX_CONTROL, ("stream_rx_control", "prime_key_set_1")));
   (Hardware.prime_key_set_1, (INTEL_KEYP_STREAM_TXRX_CONTROL, ("common", "prime_key_set_1")));
   (Hardware.slot_pr, (INTEL_KEYP_STREAM_KEYSET_SLOT_ID, (anonymous, "pr")));
   (Hardware.slot_npr, (INTEL_KEYP_STREAM_KEYSET_SLOT_ID, (anonymous, "npr")));
   (Hardware.slot_cpl, (INTEL_KEYP_STREAM_KEYSET_SLOT_ID, (anonymous, "cpl")));
   (PcieGroup.ide_ctrl_ft_supported, (PCIE_IDE_CTRL, (anonymous, "ft_supported")));
   (PcieGroup.dll_active_reporting, (PCIE_LINK_CAP, (anonymous, "dll_active_reporting")));
   (PcieGroup.data_link_layer_active, (PCIE_LINK_STATUS, (anonymous, "data_link_layer_active")));
   (CxlIde.header1_vendor_id, (CXL_DVS_HEADER1, (anonymous, "vendor_id")));
   (CxlIde.header1_length, (CXL_DVS_HEADER1, (anonymous, "length")));
   (CxlIde.register_bir, (CXL_REGISTER_OFFSET_LOW, (anonymous, "register_bir")));
   (CxlIde.register_block_id, (CXL_REGISTER_OFFSET_LOW, (anonymous, "register_block_id")));
   (CxlIde.register_block_offset_low, (CXL_REGISTER_OFFSET_LOW, (anonymous, "register_block_offset_low")));
   (CxlIde.cxl_cap_id, (CXL_CAPABILITY_HEADER, (anonymous, "cap_id")));
   (CxlIde.cxl_cap_id, (CXL_CAPABILITY_XXX_HEADER, (anonymous, "cap_id")));
   (CxlIde.cxl_cap_version, (CXL_CAPABILITY_HEADER, (anonymous, "cap_version")));
   (CxlIde.cache_mem_version, (CXL_CAPABILITY_HEADER, (anonymous, "cache_mem_version")));
   (CxlIde.array_size, (CXL_CAPABILITY_HEADER, (anonymous, "array_size")));
   (CxlIde.cap_pointer, (CXL_CAPABILITY_XXX_HEADER, (anonymous, "pointer")));
   (CxlIde.cxl_ide_capable, (CXL_IDE_CAPABILITY, (anonymous, "cxl_ide_capable")));
   (CxlIde.mem_capable, (CXL_DEV_CAPABILITY, (anonymous, "mem_capable")));
   (CxlIde.rx_min_truncation_transmit_delay, (CXL_TRUNCATION_TRANSMIT_DELAY_CAPABILITY, (anonymous, "rx_min_truncation_transmit_delay")));
   (CxlIde.rx_min_truncation_transmit_delay2, (CXL_TRUNCATION_TRANSMIT_DELAY_CAPABILITY, (anonymous, "rx_min_truncation_transmit_delay2")));
   (CxlIde.tx_truncation_transmit_delay, (CXL_TRUNCATION_TRANSMIT_DELAY_CONTROL, (anonymous, "tx_truncation_transmit_delay")));
   (CxlKm.iv_generation_capable, (CXL_QUERY_RESP_CAPS, (anonymous, "iv_generation_capable")));
   (CxlKm.ide_key_generation_capable, (CXL_QUERY_RESP_CAPS, (anonymous, "ide_key_generation_capable")));
   (CxlKm.k_set_stop_capable, (CXL_QUERY_RESP_CAPS, (anonymous, "k_set_stop_capable")));
   (CxlTests.cxl_ide_cap_version, (CXL_QUERY_RESP_CAPS, (anonymous, "cxl_ide_cap_version")));
   (CxlGroup.pcrc_disable, (CXL_IDE_CONTROL, (anonymous, "pcrc_disable")));
   (Tsp.tsp_capable, (CXL_DEV_CAPABILITY, (anonymous, "tsp_capable")))].

Definition writers : list ((Z → Z → Z) * (register * (string * string))) :=
  [(CxlIde.set_start_trigger, (INTEL_KEYP_CXL_LINK_ENC_CONTROL, (anonymous, "start_trigger")));
   (CxlIde.set_rxkey_valid, (INTEL_KEYP_CXL_LINK_ENC_CONTROL, (anonymous, "rxkey_valid")));
   (CxlIde.set_txkey_valid, (INTEL_KEYP_CXL_LINK_ENC_CONTROL, (anonymous, "txkey_valid")));
   (CxlIde.set_txtransto_insecure_state, (INTEL_KEYP_CXL_LINK_ENC_CONTROL, (anonymous, "txtransto_insecure_state")));
   (CxlIde.set_rxtransto_insecure_state, (INTEL_KEYP_CXL_LINK_ENC_CONTROL, (anonymous, "rxtransto_insecure_state")))].

(** The sizes, offsets and enumerators that are written as numbers. *)
Definition numbers : list (option Z * Z) :=
  [(offsetof INTEL_KEYP_STREAM_CONFIG_REG_BLOCK "tx_ctrl", Kcbar.tx_ctrl);
   (offsetof INTEL_KEYP_STREAM_CONFIG_REG_BLOCK "tx_status", Kcbar.tx_status);
   (offsetof INTEL_KEYP_STREAM_CONFIG_REG_BLOCK "rx_ctrl", Kcbar.rx_ctrl);
   (offsetof INTEL_KEYP_STREAM_CONFIG_REG_BLOCK "rx_status", Kcbar.rx_status);
   (offsetof INTEL_KEYP_STREAM_CONFIG_REG_BLOCK "tx_key_set_0", Kcbar.tx_key_set_0);
   (offsetof INTEL_KEYP_STREAM_CONFIG_REG_BLOCK "tx_key_set_1", Kcbar.tx_key_set_1);
   (offsetof INTEL_KEYP_STREAM_CONFIG_REG_BLOCK "rx_key_set_0", Kcbar.rx_key_set_0);
   (offsetof INTEL_KEYP_STREAM_CONFIG_REG_BLOCK "rx_key_set_1", Kcbar.rx_key_set_1);
   (Some (sizeof INTEL_KEYP_STREAM_CONFIG_REG_BLOCK), PcieIde.sizeof_INTEL_KEYP_STREAM_CONFIG_REG_BLOCK);
   (Some (sizeof PCIE_SEL_IDE_STREAM_REG_BLOCK), PcieIde.sizeof_PCIE_SEL_IDE_STREAM_REG_BLOCK);
   (Some (sizeof PCIE_SEL_IDE_ADDR_ASSOC_REG_BLOCK), PcieIde.sizeof_PCIE_SEL_IDE_ADDR_ASSOC_REG_BLOCK);
   (Some (sizeof PCIE_LNK_IDE_STREAM_REG_BLOCK), PcieIde.LINK_IDE_REGISTER_BLOCK_SIZE);
   (Some (sizeof INTEL_KEYP_ACPI), Kcbar.sizeof_INTEL_KEYP_ACPI);
   (Some (sizeof INTEL_KEYP_KEY_CONFIGURATION_UNIT), Kcbar.sizeof_INTEL_KEYP_KEY_CONFIGURATION_UNIT);
   (Some (sizeof INTEL_KEYP_ROOT_PORT_INFORMATION), Kcbar.sizeof_INTEL_KEYP_ROOT_PORT_INFORMATION);
   (Some (sizeof CXL_DVSEC_REGISTER_LOCATOR), CxlIde.sizeof_CXL_DVSEC_REGISTER_LOCATOR);
   (offsetof CXL_IDE_CAPABILITY_STRUCT "control", CxlIde.ide_cap_control);
   (offsetof CXL_IDE_CAPABILITY_STRUCT "status", CxlIde.ide_cap_status);
   (offsetof CXL_IDE_CAPABILITY_STRUCT "error_status", CxlIde.ide_cap_error_status);
   (offsetof CXL_IDE_CAPABILITY_STRUCT "key_refresh_time_capability", CxlIde.key_refresh_time_capability);
   (offsetof CXL_IDE_CAPABILITY_STRUCT "truncation_transmit_delay_capability", CxlIde.truncation_transmit_delay_capability);
   (offsetof CXL_IDE_CAPABILITY_STRUCT "key_refresh_time_control", CxlIde.key_refresh_time_control);
   (offsetof CXL_IDE_CAPABILITY_STRUCT "truncation_transmit_delay_control", CxlIde.truncation_transmit_delay_control);
   (offsetof CXL_IDE_CAPABILITY_STRUCT "key_refresh_time_capability2", CxlIde.key_refresh_time_capability2);
   (offsetof CXL_DVSEC_FOR_DEVICE "capability", CxlIde.dev_capability);
   (offsetof CXL_DVSEC_FOR_DEVICE "capability2", CxlIde.dev_capability2);
   (offsetof CXL_DVSEC_FOR_DEVICE "capability3", CxlIde.dev_capability3);
   (offsetof INTEL_KEYP_CXL_ROOT_COMPLEX_KCBAR "link_enc_control", CxlIde.link_enc_control);
   (offsetof INTEL_KEYP_CXL_ROOT_COMPLEX_KCBAR "tx_enc_keys", CxlIde.tx_enc_keys);
   (offsetof INTEL_KEYP_CXL_ROOT_COMPLEX_KCBAR "tx_iv", CxlIde.tx_iv);
   (offsetof INTEL_KEYP_CXL_ROOT_COMPLEX_KCBAR "rx_enc_keys", CxlIde.rx_enc_keys);
   (offsetof INTEL_KEYP_CXL_ROOT_COMPLEX_KCBAR "rx_iv", CxlIde.rx_iv);
   (enumerator "INTEL_KEYP_PROTOCOL_TYPE_PCIE_CXLIO" INTEL_KEYP_PROTOCOL_TYPE, Kcbar.INTEL_KEYP_PROTOCOL_TYPE_PCIE_CXLIO);
   (enumerator "INTEL_KEYP_PROTOCOL_TYPE_CXL_MEMCACHE" INTEL_KEYP_PROTOCOL_TYPE, Kcbar.INTEL_KEYP_PROTOCOL_TYPE_CXL_MEMCACHE);
   (enumerator "CXL_DVSEC_ID_PCIE_DVSEC_FOR_CXL_DEVICES" CXL_DVSEC_ID, CxlIde.CXL_DVSEC_ID_PCIE_DVSEC_FOR_CXL_DEVICES);
   (enumerator "CXL_DVSEC_ID_CXL_EXTENSIONS_DVSEC_FOR_PORTS" CXL_DVSEC_ID, CxlIde.CXL_DVSEC_ID_CXL_EXTENSIONS_DVSEC_FOR_PORTS);
   (enumerator "CXL_DVSEC_ID_GPF_DVSEC_FOR_CXL_PORTS" CXL_DVSEC_ID, CxlIde.CXL_DVSEC_ID_GPF_DVSEC_FOR_CXL_PORTS);
   (enumerator "CXL_DVSEC_ID_GPF_DVSEC_FOR_CXL_DEVICES" CXL_DVSEC_ID, CxlIde.CXL_DVSEC_ID_GPF_DVSEC_FOR_CXL_DEVICES);
   (enumerator "CXL_DVSEC_ID_PCIE_DVSEC_FOR_FLEX_BUS_PORT" CXL_DVSEC_ID, CxlIde.CXL_DVSEC_ID_PCIE_DVSEC_FOR_FLEX_BUS_PORT);
   (enumerator "CXL_DVSEC_ID_REGISTER_LOCATOR_DVSEC" CXL_DVSEC_ID, CxlIde.CXL_DVSEC_ID_REGISTER_LOCATOR_DVSEC);
   (enumerator "CXL_DVSEC_REG_BLOCK_ID_COMPONENT_REG" CXL_DVSEC_REG_BLOCK_ID, CxlIde.CXL_DVSEC_REG_BLOCK_ID_COMPONENT_REG);
   (enumerator "CXL_CAPABILITY_ID_IDE_CAP" CXL_CAPABILITY_ID, CxlIde.CXL_CAPABILITY_ID_IDE_CAP);
   (enumerator "CXL_CAPABILITY_ID_NUM" CXL_CAPABILITY_ID, CxlIde.CXL_CAPABILITY_ID_NUM);
   (enumerator "CXL_IDE_STREAM_DIRECTION_RX" CXL_IDE_STREAM_DIRECTION, CxlIde.CXL_IDE_STREAM_DIRECTION_RX);
   (enumerator "CXL_IDE_STREAM_DIRECTION_TX" CXL_IDE_STREAM_DIRECTION, CxlIde.CXL_IDE_STREAM_DIRECTION_TX);
   (enumerator "INTEL_CXL_IDE_MODE_CONTAINMENT" INTEL_CXL_IDE_MODE, CxlIde.INTEL_CXL_IDE_MODE_CONTAINMENT);
   (enumerator "INTEL_CXL_IDE_MODE_SKID" INTEL_CXL_IDE_MODE, CxlIde.INTEL_CXL_IDE_MODE_SKID)].

(** The accessors of registers that the model of the libraries uses read and write the
    members that the headers declare, and its sizes, offsets and enumerators are those of the
    declared structures and enumerations. *)
Theorem model_follows_headers :
  Forall (λ '(f, (r, (v, n))), ∀ x, f x = read_member r v n x) readers ∧
  Forall (λ '(f, (r, (v, n))), ∀ value x, f value x = write_member r v n value x) writers ∧
  Forall (λ '(declared, used), declared = Some used) numbers.
Proof. split_and!; unfold readers, writers, numbers; repeat (apply Forall_cons; split; [reflexivity|]); by apply Forall_nil. Qed.

Lemma registers_ok : forallb register_ok registers && forallb structure_ok structures = true.
Proof. vm_compute. reflexivity. Qed.

(** In every register that the headers declare, an assignment to a member of a view keeps
    the raw value in its width, leaves every other member of the view as it was, and the
    member itself is then the value cut to the width of its field. *)
Theorem register_members_independent r v s f g lo w lo' w' value x :
  r ∈ registers → (v, s) ∈ views r → place_of s f = Some (lo, w) → place_of s g = Some (lo', w') →
  0 ≤ x < 2 ^ raw r →
  0 ≤ set s f value x < 2 ^ raw r ∧
  get s g (set s f value x) = if decide (f = g) then value mod 2 ^ w else get s g x.
Proof.
  intros Hr Hv Hf Hg Hx. destruct (andb_prop _ _ registers_ok) as [Hall _].
  rewrite forallb_forall in Hall. apply list_elem_of_In in Hr. specialize (Hall _ Hr).
  unfold register_ok in Hall. rewrite forallb_forall in Hall. apply list_elem_of_In in Hv. specialize (Hall _ Hv).
  apply andb_true_iff in Hall as [Hok Hend%Z.leb_le]. split; [by apply set_range|by eapply get_set].
Qed.

(** The enable bit of a stream of the root complex, and the bits after it. *)
Lemma register_members_independent_witness :
  let s := [Bits uint32_t "en" 1; Bits uint32_t "rsvd" 23] in
  0 ≤ set s "en" 3 0xff000000 < 2 ^ 32 ∧ get s "rsvd" (set s "en" 3 0xff000000) = get s "rsvd" 0xff000000.
Proof.
  refine (register_members_independent INTEL_KEYP_STREAM_CONTROL anonymous [Bits uint32_t "en" 1; Bits uint32_t "rsvd" 23] "en" "rsvd" 0 1 1 23 3 0xff000000
    _ _ eq_refl eq_refl _); [|by left|by vm_compute].
  apply list_elem_of_lookup_2 with 21%nat. reflexivity.
Defined.
End Registers.
