(* ===== verification/Clean.v ===== *)
(** * Freeing the tests (teeio_validator/ide_test.c, clean_test_cases to clean_tests_data)

    The prepared suites and their results are linked lists of [malloc]ed
    blocks.  The heap is a finite map from addresses to blocks, a block the
    pointers it holds, by field; a use of an address that is not allocated (a
    second [free] included) is undefined.  The layout of the tests on the heap
    is given by assertions of separation logic over such maps, and what each
    function frees by triples: the rest of the heap is not touched. *)
From Stdlib Require Import ZArith Lia Ascii String.
From stdpp Require Import prelude gmap strings.
From S2P Require Import Prelude TestConfig Results Engine.
Import Results Engine.

Open Scope Z_scope.
Open Scope teeio_scope.

Module Clean.

(** ** The heap *)

(** The fields of a block that the code reads here: pointers, and the signature of a context. *)
Definition block : Type := list (string * Z).
Abbreviation heap := (gmap Z block).

Fixpoint field_of (b : block) (f : string) : option Z :=
  match b with
  | [] => None
  | (g, v) :: b => if String.eqb g f then Some v else field_of b f
  end.

Definition NULL : Z := 0.

Definition M (A : Type) : Type := heap → res (A * heap).
Definition ret {A} (a : A) : M A := λ h, Ok (a, h).
Definition bind {A B} (m : M A) (k : A → M B) : M B := λ h, let* r := m h in k (fst r) (snd r).
Local Notation "x ⇐ m ;; k" := (bind m (λ x, k)) (at level 100, m at next level, right associativity).
Local Notation "m ;;; k" := (bind m (λ _, k)) (at level 100, right associativity).

(** [p->f] *)
Definition field (p : Z) (f : string) : M Z := λ h,
  let* b := deref (h !! p) in let* v := deref (field_of b f) in Ok (v, h).

(** [free(NULL)] does nothing. *)
Definition free (p : Z) : M unit := λ h,
  if p =? NULL then Ok (tt, h) else let* _ := deref (h !! p) in Ok (tt, delete p h).

Definition assert (b : bool) : M unit := λ h, let* _ := TEEIO_ASSERT b in Ok (tt, h).

(** [while(p) { ... }], the body giving the next [p].  Each of the loops here frees
    a block at every turn, so the number of blocks bounds its turns. *)
Definition turn (body : Z → M Z) (s : Z * heap) : res (Z * heap + heap) :=
  let '(p, h) := s in
  if p =? NULL then Ok (inr h) else let* r := body p h in Ok (inl r).
Definition while_ptr (body : Z → M Z) (p : Z) : M unit := λ h,
  let* h := while (turn body) (Pos.of_succ_nat (size h)) (p, h) in Ok (tt, h).

(** ** The functions *)

Definition clean_test_cases (test_case : Z) : M bool :=
  if test_case =? NULL then ret true else
  while_ptr (λ test_case,
    test_context ⇐ field test_case "test_context" ;;
    (if test_context =? NULL then ret tt else free test_context) ;;;
    next ⇐ field test_case "next" ;;
    free test_case ;;;
    ret next) test_case ;;;
  ret true.

Definition clean_test_groups (group : Z) : M bool :=
  if group =? NULL then ret true else
  while_ptr (λ group,
    test_case ⇐ field group "test_case" ;;
    clean_test_cases test_case ;;;
    test_context ⇐ field group "test_context" ;;
    (if test_context =? NULL then ret tt else free test_context) ;;;
    next ⇐ field group "next" ;;
    free group ;;;
    ret next) group ;;;
  ret true.

(** [ptr = result; result = result->next; free(ptr);] *)
Definition free_and_next (result : Z) : M Z :=
  next ⇐ field result "next" ;; free result ;;; ret next.

Definition clean_test_case_assertion_result (result : Z) : M bool :=
  while_ptr free_and_next result ;;; ret true.

Definition clean_test_config_item_result (result : Z) : M bool :=
  while_ptr free_and_next result ;;; ret true.

Definition clean_test_case_result (case_result : Z) : M bool :=
  while_ptr (λ case_result,
    assertion_result ⇐ field case_result "assertion_result" ;;
    clean_test_case_assertion_result assertion_result ;;;
    config_item_result ⇐ field case_result "config_item_result" ;;
    clean_test_config_item_result config_item_result ;;;
    next ⇐ field case_result "next" ;;
    free case_result ;;;
    ret next) case_result ;;;
  ret true.

Definition clean_test_group_results (group_result : Z) : M bool :=
  if group_result =? NULL then ret true else
  while_ptr (λ group_result,
    case_result ⇐ field group_result "case_result" ;;
    clean_test_case_result case_result ;;;
    next ⇐ field group_result "next" ;;
    free group_result ;;;
    ret next) group_result ;;;
  ret true.

Definition clean_test_config_items (config_item : Z) : M bool :=
  if config_item =? NULL then ret true else
  while_ptr free_and_next config_item ;;; ret true.

Definition clean_test_configs (config : Z) : M bool :=
  if config =? NULL then ret true else
  while_ptr (λ config,
    config_item ⇐ field config "config_item" ;;
    clean_test_config_items config_item ;;;
    test_context ⇐ field config "test_context" ;;
    (if test_context =? NULL then ret tt else free test_context) ;;;
    next ⇐ field config "next" ;;
    free config ;;;
    ret next) config ;;;
  ret true.

Definition clean_suite_context (context : Z) : M bool :=
  if context =? NULL then ret true else
  signature ⇐ field context "signature" ;;
  assert (signature =? SUITE_CONTEXT_SIGNATURE) ;;;
  config_result ⇐ field context "result" ;;
  while_ptr (λ config_result,
    group_result ⇐ field config_result "group_result" ;;
    clean_test_group_results group_result ;;;
    next ⇐ field config_result "next" ;;
    free config_result ;;;
    ret next) config_result ;;;
  free context ;;;
  ret true.

Definition clean_tests_data (test_suite : Z) : M bool :=
  if test_suite =? NULL then ret true else
  while_ptr (λ suite,
    test_group ⇐ field suite "test_group" ;;
    clean_test_groups test_group ;;;
    test_config ⇐ field suite "test_config" ;;
    clean_test_configs test_config ;;;
    test_context ⇐ field suite "test_context" ;;
    clean_suite_context test_context ;;;
    next ⇐ field suite "next" ;;
    free suite ;;;
    ret next) test_suite ;;;
  ret true.

(** ** Assertions on heaps *)

Definition hProp : Type := heap → Prop.
Definition emp : hProp := λ h, h = ∅.
Definition sep (P Q : hProp) : hProp := λ h, ∃ h1 h2, h = h1 ∪ h2 ∧ h1 ##ₘ h2 ∧ P h1 ∧ Q h2.
Definition pts (p : Z) (b : block) : hProp := λ h, p ≠ NULL ∧ h = {[p := b]}.
Definition some {A} (P : A → hProp) : hProp := λ h, ∃ a, P a h.
Local Infix "∗" := sep (at level 80, right associativity).

(** A linked list of nodes, from [p] on; [node x p next] owns all that hangs below the node. *)
Fixpoint chain {A} (node : A → Z → Z → hProp) (p : Z) (l : list A) : hProp :=
  match l with
  | [] => λ h, p = NULL ∧ emp h
  | x :: l => some (λ next, node x p next ∗ chain node next l)
  end.

Fixpoint seps {A} (P : A → hProp) (l : list A) : hProp :=
  match l with [] => emp | x :: l => P x ∗ seps P l end.

(** A context that is not looked into: null or one block. *)
Definition opt_block (p : Z) : hProp := λ h, (p = NULL ∧ emp h) ∨ pts p [] h.

(** ** The layout of the tests *)

Definition link {A} (_ : A) (p next : Z) : hProp := pts p [("next"%string, next)].

Definition case_at (_ : ide_run_test_case_t) (p next : Z) : hProp :=
  some (λ ctx, pts p [("test_context"%string, ctx); ("next"%string, next)] ∗ opt_block ctx).

(** The connections that hang in the context of a group. *)
Definition conns_at (gc : teeio_common_test_group_context_t) (c1 c2 : Z) : hProp :=
  chain link c1 (gc_sw_conn1 gc) ∗ chain link c2 (gc_sw_conn2 gc).

Definition group_at (tg : ide_run_test_group_t) (p next : Z) : hProp :=
  some (λ '(cases, ctx, c1, c2),
    pts p [("test_case"%string, cases); ("test_context"%string, ctx); ("next"%string, next)] ∗
    chain case_at cases (test_case tg) ∗
    pts ctx [("sw_conn1"%string, c1); ("sw_conn2"%string, c2)] ∗
    conns_at (tg_context tg) c1 c2).

Definition config_at (rtc : ide_run_test_config_t) (p next : Z) : hProp :=
  some (λ '(items, ctx),
    pts p [("config_item"%string, items); ("test_context"%string, ctx); ("next"%string, next)] ∗
    chain link items (config_item rtc) ∗
    opt_block ctx).

Definition case_result_at (cr : ide_run_test_case_result_t) (p next : Z) : hProp :=
  some (λ '(ars, items),
    pts p [("assertion_result"%string, ars); ("config_item_result"%string, items); ("next"%string, next)] ∗
    chain link ars (assertion_result cr) ∗
    chain link items (config_item_result cr)).

Definition group_result_at (gr : ide_run_test_group_result_t) (p next : Z) : hProp :=
  some (λ cases,
    pts p [("case_result"%string, cases); ("next"%string, next)] ∗
    chain case_result_at cases (case_result gr)).

Definition config_result_at (cr : ide_run_test_config_result_t) (p next : Z) : hProp :=
  some (λ groups,
    pts p [("group_result"%string, groups); ("next"%string, next)] ∗
    chain group_result_at groups (group_result cr)).

Definition suite_context_at (s : Z) (rs : list ide_run_test_config_result_t) (p : Z) : hProp :=
  some (λ r,
    pts p [("signature"%string, s); ("result"%string, r)] ∗ chain config_result_at r rs).

(** A suite with the results that hang in its context. *)
Definition suite_at (x : ide_run_test_suite_t * list ide_run_test_config_result_t) (p next : Z) : hProp :=
  some (λ '(groups, configs, ctx),
    pts p [("test_group"%string, groups); ("test_config"%string, configs); ("test_context"%string, ctx);
           ("next"%string, next)] ∗
    chain group_at groups (test_group (fst x)) ∗
    chain config_at configs (test_config (fst x)) ∗
    suite_context_at (ts_signature (fst x)) (snd x) ctx).

Definition suites_at (p : Z) (tss : list (ide_run_test_suite_t * list ide_run_test_config_result_t)) : hProp :=
  chain suite_at p tss.

(** What is left of a group, of a suite: the blocks of the switch connections. *)
Definition group_left (tg : ide_run_test_group_t) : hProp :=
  some (λ '(c1, c2), conns_at (tg_context tg) c1 c2).
Definition suite_left (x : ide_run_test_suite_t * list ide_run_test_config_result_t) : hProp :=
  seps group_left (test_group (fst x)).

Definition group_connections (tg : ide_run_test_group_t) : nat :=
  length (gc_sw_conn1 (tg_context tg)) + length (gc_sw_conn2 (tg_context tg)).
Definition switch_connections (tss : list (ide_run_test_suite_t * list ide_run_test_config_result_t)) : nat :=
  sum_list_with (λ x, sum_list_with group_connections (test_group (fst x))) tss.

(** ** The logic *)

Lemma sep_comm P Q h : (P ∗ Q) h → (Q ∗ P) h.
Proof.
  intros (h1 & h2 & -> & Hd & H1 & H2). exists h2, h1. by rewrite map_union_comm.
Qed.

Lemma sep_assoc P Q R h : (P ∗ (Q ∗ R)) h ↔ ((P ∗ Q) ∗ R) h.
Proof.
  split.
  - intros (h1 & ? & -> & Hd & H1 & h2 & h3 & -> & Hd' & H2 & H3).
    apply map_disjoint_union_r in Hd as [Hd1 Hd2].
    exists (h1 ∪ h2), h3. rewrite map_union_assoc, map_disjoint_union_l. split_and!; auto.
    by exists h1, h2.
  - intros (? & h3 & -> & Hd & (h1 & h2 & -> & Hd' & H1 & H2) & H3).
    apply map_disjoint_union_l in Hd as [Hd1 Hd2].
    exists h1, (h2 ∪ h3). rewrite map_union_assoc, map_disjoint_union_r. split_and!; auto.
    by exists h2, h3.
Qed.

Lemma sep_emp_elim P h : (emp ∗ P) h → P h.
Proof. intros (h1 & h2 & -> & Hd & -> & H2). by rewrite (left_id_L ∅ (∪)). Qed.

Lemma sep_emp_intro P h : P h → (P ∗ emp) h.
Proof.
  intros H. exists h, ∅. rewrite (right_id_L ∅ (∪)). split_and!; [done|apply map_disjoint_empty_r|done|done].
Qed.

(** [m] runs from any heap with a part [P], gives [v], and turns that part into [Q]. *)
Definition triple {A} (P : hProp) (m : M A) (v : A) (Q : hProp) : Prop :=
  ∀ h hf, P h → h ##ₘ hf → ∃ h', m (h ∪ hf) = Ok (v, h' ∪ hf) ∧ h' ##ₘ hf ∧ Q h'.

Lemma triple_conseq {A} P P' (m : M A) v Q Q' :
  (∀ h, P h → P' h) → (∀ h, Q' h → Q h) → triple P' m v Q' → triple P m v Q.
Proof. intros HP HQ Hm h hf H Hd. destruct (Hm h hf (HP _ H) Hd) as (h' & ? & ? & ?). eauto. Qed.

Lemma triple_ret {A} P (v : A) : triple P (ret v) v P.
Proof. intros h hf H Hd. exists h. done. Qed.

(** Sequence, the first part working on the left of the assertion. *)
Lemma triple_seq {A B} P R F (m : M A) v (k : A → M B) w Q :
  triple P m v R → triple (R ∗ F) (k v) w Q → triple (P ∗ F) (bind m k) w Q.
Proof.
  intros Hm Hk ? hf (h1 & h2 & -> & Hd12 & H1 & H2) Hd.
  apply map_disjoint_union_l in Hd as [Hd1 Hd2].
  destruct (Hm h1 (h2 ∪ hf) H1) as (h1' & E & Hd1' & HR).
  { by apply map_disjoint_union_r. }
  apply map_disjoint_union_r in Hd1' as [Hd1' Hd3].
  destruct (Hk (h1' ∪ h2) hf) as (h' & E' & Hd' & HQ).
  { by exists h1', h2. }
  { by apply map_disjoint_union_l. }
  exists h'. split_and!; auto. unfold bind. rewrite <- map_union_assoc, E. simpl.
  by rewrite map_union_assoc.
Qed.

(** The same, when the first part leaves nothing. *)
Lemma triple_seq_emp {A B} P F (m : M A) v (k : A → M B) w Q :
  triple P m v emp → triple F (k v) w Q → triple (P ∗ F) (bind m k) w Q.
Proof.
  intros Hm Hk. eapply triple_seq; [done|].
  eapply triple_conseq; [apply sep_emp_elim|done|done].
Qed.

Lemma triple_comm {A} P F (m : M A) v Q : triple (F ∗ P) m v Q → triple (P ∗ F) m v Q.
Proof. apply triple_conseq; auto using sep_comm. Qed.

(** The middle of three parts in front. *)
Lemma triple_swap {A} P P' F (m : M A) v Q : triple (P' ∗ P ∗ F) m v Q → triple (P ∗ P' ∗ F) m v Q.
Proof.
  apply triple_conseq; [|done]. intros h H. apply sep_assoc in H as (h1 & h2 & -> & Hd & H1 & H2).
  apply sep_assoc. exists h1, h2. split_and!; auto using sep_comm.
Qed.

Lemma triple_assoc {A} P P' F (m : M A) v Q : triple ((P ∗ P') ∗ F) m v Q → triple (P ∗ P' ∗ F) m v Q.
Proof. apply triple_conseq; [|done]. intros h. apply sep_assoc. Qed.

Lemma triple_assoc_l {A} P P' F (m : M A) v Q : triple (P ∗ P' ∗ F) m v Q → triple ((P ∗ P') ∗ F) m v Q.
Proof. apply triple_conseq; [|done]. intros h. apply sep_assoc. Qed.

Lemma triple_field {B} p b f v F (k : Z → M B) w Q :
  field_of b f = Some v → triple (pts p b ∗ F) (k v) w Q → triple (pts p b ∗ F) (bind (field p f) k) w Q.
Proof.
  intros Hf. apply triple_seq. intros h hf [Hp ->] Hd. exists {[p := b]}.
  unfold field. rewrite lookup_union_l', lookup_singleton_eq by (rewrite lookup_singleton_eq; eauto). simpl. by rewrite Hf.
Qed.

Lemma triple_free p b : triple (pts p b) (free p) tt emp.
Proof.
  intros h hf [Hp ->] Hd. exists ∅. unfold free. rewrite (proj2 (Z.eqb_neq _ _) Hp).
  rewrite lookup_union_l', lookup_singleton_eq by (rewrite lookup_singleton_eq; eauto). simpl.
  rewrite delete_union, delete_singleton_eq, !(left_id_L ∅ (∪)).
  rewrite delete_id by (by apply map_disjoint_singleton_l in Hd).
  split_and!; [done|apply map_disjoint_empty_l|done].
Qed.

(** The last part of an assertion: a frame that is empty. *)
Lemma triple_alone {A} P (m : M A) v Q : triple (P ∗ emp) m v Q → triple P m v Q.
Proof. apply triple_conseq; [apply sep_emp_intro|done]. Qed.

(** The common end of the bodies of the loops. *)
Lemma triple_next p b next F :
  field_of b "next" = Some next →
  triple (pts p b ∗ F) (next ⇐ field p "next" ;; free p ;;; ret next) next F.
Proof. intros Hf. eapply triple_field, triple_seq_emp, triple_ret; [done|]. apply triple_free. Qed.

Lemma triple_free_opt p : triple (opt_block p) (if p =? NULL then ret tt else free p) tt emp.
Proof.
  intros h hf [[-> He]|H] Hd; [exists h; split_and!; done|].
  rewrite (proj2 (Z.eqb_neq _ _) (proj1 H)). by eapply triple_free.
Qed.

(** A node is a block at least. *)
Definition owns {A} (node : A → Z → Z → hProp) : Prop := ∀ x p next h, node x p next h → p ≠ NULL ∧ h ≠ ∅.

Lemma pts_owns p b h : pts p b h → p ≠ NULL ∧ h ≠ ∅.
Proof. intros [Hp ->]. split; [done|]. apply map_non_empty_singleton. Qed.

Lemma sep_owns p b P h : (pts p b ∗ P) h → p ≠ NULL ∧ h ≠ ∅.
Proof.
  intros (h1 & h2 & -> & _ & H & _). apply pts_owns in H as [Hp He]. split; [done|].
  by apply map_positive_l_alt.
Qed.

Lemma chain_size {A} (node : A → Z → Z → hProp) p l h : owns node → chain node p l h → (length l ≤ size h)%nat.
Proof.
  intros Ho. revert p h. induction l as [|x l IH]; intros p h; simpl; [lia|].
  intros (next & h1 & h2 & -> & Hd & H1 & H2). rewrite map_size_disj_union by done.
  apply IH in H2. apply Ho in H1 as [_ He]. apply map_size_non_empty_iff in He. lia.
Qed.

(** A loop along a chain, from what its body does to one node. *)
Lemma iter_chain {A} (node : A → Z → Z → hProp) (left : A → hProp) body l :
  owns node →
  (∀ x p next, x ∈ l → triple (node x p next) (body p) next (left x)) →
  ∀ p n h hf, (length l < n)%nat → chain node p l h → h ##ₘ hf →
  ∃ h', iter_nat (turn body) n (p, h ∪ hf) = Ok (inr (h' ∪ hf)) ∧ h' ##ₘ hf ∧ seps left l h'.
Proof.
  intros Ho Hb. induction l as [|x l IH]; intros p [|n] h hf Hn; simpl; try lia.
  { intros [-> ->] Hd. exists ∅. split_and!; [done|done|done]. }
  intros (next & h1 & h2 & -> & Hd12 & H1 & H2) Hd.
  apply map_disjoint_union_l in Hd as [Hd1 Hd2].
  destruct (Ho _ _ _ _ H1) as [Hp _]. rewrite (proj2 (Z.eqb_neq _ _) Hp).
  destruct (Hb x p next ltac:(left) h1 (h2 ∪ hf) H1) as (h1' & E & Hd1' & HL).
  { by apply map_disjoint_union_r. }
  apply map_disjoint_union_r in Hd1' as [Hd1' Hd3].
  destruct (IH ltac:(intros; apply Hb; by right) next n h2 (h1' ∪ hf)) as (h' & E' & Hd' & HR).
  { simpl in Hn; lia. } { done. } { by apply map_disjoint_union_r. }
  apply map_disjoint_union_r in Hd' as [Hd4 Hd5].
  exists (h1' ∪ h'). split_and!.
  - rewrite <- map_union_assoc, E. simpl.
    replace (h1' ∪ (h2 ∪ hf)) with (h2 ∪ (h1' ∪ hf)).
    { rewrite E'. do 2 f_equal. by rewrite map_union_assoc, (map_union_comm h'). }
    by rewrite !map_union_assoc, (map_union_comm h2).
  - by apply map_disjoint_union_l.
  - by exists h1', h'.
Qed.

Lemma triple_loop {A} (node : A → Z → Z → hProp) (left : A → hProp) body p l :
  owns node →
  (∀ x p next, x ∈ l → triple (node x p next) (body p) next (left x)) →
  triple (chain node p l) (while_ptr body p) tt (seps left l).
Proof.
  intros Ho Hb h hf H Hd. pose proof (chain_size _ _ _ _ Ho H) as Hs.
  destruct (iter_chain node left body l Ho Hb p (S (size (h ∪ hf))) h hf) as (h' & E & Hd' & HL); auto.
  { rewrite map_size_disj_union by done. lia. }
  exists h'. split_and!; auto. unfold while_ptr, while.
  rewrite iter_until_nat, SuccNat2Pos.id_succ. by rewrite E.
Qed.

Lemma seps_emp {A} (l : list A) h : seps (λ _, emp) l h → emp h.
Proof. revert h. induction l as [|x l IH]; intros h; simpl; [done|]. intros H%sep_emp_elim. exact (IH _ H). Qed.

(** A loop that leaves nothing of its nodes, followed by [return true]. *)
Lemma triple_loop_true {A} (node : A → Z → Z → hProp) body p l :
  owns node →
  (∀ x p next, triple (node x p next) (body p) next emp) →
  triple (chain node p l) (while_ptr body p ;;; ret true) true emp.
Proof.
  intros Ho Hb. apply triple_alone.
  eapply triple_seq_emp; [|apply triple_ret].
  eapply triple_conseq; [done|apply (seps_emp l)|]. by apply triple_loop.
Qed.

(** [if(p == NULL) return true;] changes nothing, since the empty chain is null. *)
Lemma chain_guard {A B} (node : A → Z → Z → hProp) p l (m : M B) v Q :
  owns node →
  (l = [] → triple (chain node p l) (ret v) v Q) →
  triple (chain node p l) m v Q →
  triple (chain node p l) (if p =? NULL then ret v else m) v Q.
Proof.
  intros Ho H0 Hm h hf H. destruct (p =? NULL) eqn:E; [|by apply Hm].
  apply H0; [|done]. destruct l as [|x l]; [done|]. destruct H as (next & h1 & h2 & -> & _ & H1 & _).
  apply Ho in H1 as [Hp _]. lia.
Qed.

Lemma chain_guard_true {A} (node : A → Z → Z → hProp) p l (m : M bool) :
  owns node → triple (chain node p l) m true emp →
  triple (chain node p l) (if p =? NULL then ret true else m) true emp.
Proof.
  intros Ho. apply chain_guard; [done|]. intros -> h hf [_ ->] Hd. by apply triple_ret.
Qed.

Lemma link_owns {A} : owns (link (A := A)).
Proof. intros x p next h. apply pts_owns. Qed.

(** A triple from an existential. *)
Lemma triple_some {A B} (P : A → hProp) (m : M B) v Q : (∀ a, triple (P a) m v Q) → triple (some P) m v Q.
Proof. intros Hm h hf [a H]. by apply (Hm a). Qed.

(** ** What the functions free *)

Ltac next_field := eapply triple_field; [reflexivity|].

Lemma items_freed {A} p (l : list A) : triple (chain link p l) (while_ptr free_and_next p ;;; ret true) true emp.
Proof.
  apply triple_loop_true; [apply link_owns|]. intros x q next. by apply triple_alone, triple_next.
Qed.

Lemma case_owns : owns case_at.
Proof. intros x p next h [ctx H]. by eapply sep_owns. Qed.

Lemma cases_freed p l : triple (chain case_at p l) (clean_test_cases p) true emp.
Proof.
  unfold clean_test_cases. apply chain_guard_true, triple_loop_true; try apply case_owns.
  intros x q next. apply triple_some. intros ctx. next_field.
  apply triple_comm. eapply triple_seq_emp; [apply triple_free_opt|].
  by apply triple_alone, triple_next.
Qed.

Lemma config_owns : owns config_at.
Proof. intros x p next h [[items ctx] H]. by eapply sep_owns. Qed.

Lemma configs_freed p l : triple (chain config_at p l) (clean_test_configs p) true emp.
Proof.
  unfold clean_test_configs. apply chain_guard_true, triple_loop_true; try apply config_owns.
  intros x q next. apply triple_some. intros [items ctx]. next_field.
  apply triple_swap. eapply triple_seq_emp; [apply chain_guard_true, items_freed; apply link_owns|].
  next_field. apply triple_comm. eapply triple_seq_emp; [apply triple_free_opt|].
  by apply triple_alone, triple_next.
Qed.

Lemma case_result_owns : owns case_result_at.
Proof. intros x p next h [[ars items] H]. by eapply sep_owns. Qed.

Lemma case_results_freed p l : triple (chain case_result_at p l) (clean_test_case_result p) true emp.
Proof.
  apply triple_loop_true; [apply case_result_owns|].
  intros x q next. apply triple_some. intros [ars items]. next_field.
  apply triple_swap. eapply triple_seq_emp; [apply items_freed|].
  next_field. apply triple_comm. eapply triple_seq_emp; [apply items_freed|].
  by apply triple_alone, triple_next.
Qed.

Lemma group_result_owns : owns group_result_at.
Proof. intros x p next h [cases H]. by eapply sep_owns. Qed.

Lemma group_results_freed p l : triple (chain group_result_at p l) (clean_test_group_results p) true emp.
Proof.
  unfold clean_test_group_results. apply chain_guard_true, triple_loop_true; try apply group_result_owns.
  intros x q next. apply triple_some. intros cases. next_field.
  apply triple_comm. eapply triple_seq_emp; [apply case_results_freed|].
  by apply triple_alone, triple_next.
Qed.

Lemma config_result_owns : owns config_result_at.
Proof. intros x p next h [groups H]. by eapply sep_owns. Qed.

Lemma suite_context_freed rs p :
  triple (suite_context_at SUITE_CONTEXT_SIGNATURE rs p) (clean_suite_context p) true emp.
Proof.
  apply triple_some. intros r. unfold clean_suite_context.
  destruct (p =? NULL) eqn:Hp.
  { intros h hf (h1 & h2 & _ & _ & [Hn _] & _). lia. }
  next_field. rewrite Z.eqb_refl. next_field. apply triple_comm.
  eapply triple_seq_emp; [|apply triple_alone, triple_seq_emp with (v := tt); [apply triple_free|apply triple_ret]].
  eapply triple_conseq; [done|apply (seps_emp rs)|]. apply triple_loop; [apply config_result_owns|].
  intros x q next _. apply triple_some. intros groups. next_field.
  apply triple_comm. eapply triple_seq_emp; [apply group_results_freed|].
  by apply triple_alone, triple_next.
Qed.

Lemma triple_free_pts p b : triple (pts p b) (if p =? NULL then ret tt else free p) tt emp.
Proof.
  intros h hf [Hp H] Hd. rewrite (proj2 (Z.eqb_neq _ _) Hp). by apply (triple_free p b).
Qed.

(** [m; return true] when [m] leaves [Q]. *)
Lemma triple_then_true P (m : M unit) Q : triple P m tt Q → triple P (m ;;; ret true) true Q.
Proof.
  intros Hm. apply triple_alone. eapply triple_conseq; [done| |eapply triple_seq; [done|apply triple_ret]].
  intros h H. by apply sep_emp_elim, sep_comm.
Qed.

Lemma group_owns : owns group_at.
Proof. intros x p next h [[[[cases ctx] c1] c2] H]. by eapply sep_owns. Qed.

Lemma groups_freed p l : triple (chain group_at p l) (clean_test_groups p) true (seps group_left l).
Proof.
  unfold clean_test_groups. apply chain_guard; [apply group_owns| |].
  { intros -> h hf [_ ->] Hd. by apply triple_ret. }
  apply triple_then_true, triple_loop; [apply group_owns|].
  intros x q next _. apply triple_some. intros [[[cases ctx] c1] c2]. next_field.
  apply triple_swap. eapply triple_seq_emp; [apply cases_freed|].
  next_field. apply triple_swap. eapply triple_seq_emp; [apply triple_free_pts|].
  eapply triple_conseq; [done| |by apply triple_next].
  intros h H. by exists (c1, c2).
Qed.

Lemma suite_owns : owns suite_at.
Proof. intros x p next h [[[groups configs] ctx] H]. by eapply sep_owns. Qed.

Lemma suites_freed p tss :
  Forall (λ x, ts_signature (fst x) = SUITE_CONTEXT_SIGNATURE) tss →
  triple (suites_at p tss) (clean_tests_data p) true (seps suite_left tss).
Proof.
  intros Hs. unfold clean_tests_data. apply chain_guard; [apply suite_owns| |].
  { intros -> h hf [_ ->] Hd. by apply triple_ret. }
  apply triple_then_true, triple_loop; [apply suite_owns|].
  intros x q next Hx. apply triple_some. intros [[groups configs] ctx]. next_field.
  rewrite Forall_forall in Hs. rewrite (Hs x Hx).
  apply triple_swap. eapply triple_seq; [apply groups_freed|].
  apply triple_comm, triple_assoc_l. next_field.
  apply triple_swap, triple_assoc_l. eapply triple_seq_emp; [apply configs_freed|].
  apply triple_swap. next_field. apply triple_swap. eapply triple_seq_emp; [apply suite_context_freed|].
  by apply triple_next.
Qed.

(** What is left, by number. *)
Lemma link_size {A} p (l : list A) h : chain link p l h → size h = length l.
Proof.
  revert p h. induction l as [|x l IH]; intros p h; simpl.
  { intros [_ ->]. apply map_size_empty. }
  intros (next & h1 & h2 & -> & Hd & [_ ->] & H2). rewrite map_size_disj_union by done.
  by rewrite map_size_singleton, (IH _ _ H2).
Qed.

Lemma seps_size {A} (P : A → hProp) (f : A → nat) l h :
  (∀ x h, P x h → size h = f x) → seps P l h → size h = sum_list_with f l.
Proof.
  intros HP. revert h. induction l as [|x l IH]; intros h; simpl.
  { intros ->. apply map_size_empty. }
  intros (h1 & h2 & -> & Hd & H1 & H2). by rewrite map_size_disj_union, (HP _ _ H1), (IH _ H2).
Qed.

Lemma left_size tss h : seps suite_left tss h → size h = switch_connections tss.
Proof.
  apply seps_size. intros x h1. apply seps_size. intros tg h2 ([c1 c2] & h3 & h4 & -> & Hd & H3 & H4).
  by rewrite map_size_disj_union, (link_size _ _ _ H3), (link_size _ _ _ H4).
Qed.

(** ** Laying the tests out

    An allocator that never reuses an address: the next free address and the
    heap.  [alloc] is [malloc] with the fields the block is given. *)
Definition L (A : Type) : Type := Z * heap → A * (Z * heap).
Definition alloc (b : block) : L Z := λ '(n, h), (n, (n + 1, <[n := b]> h)).
Definition lret {A} (a : A) : L A := λ s, (a, s).
Definition lbind {A B} (m : L A) (k : A → L B) : L B := λ s, let '(a, s) := m s in k a s.
Local Notation "x ⟵ m ;; k" := (lbind m (λ x, k)) (at level 100, m at next level, right associativity).

(** A list from its end: each node is given the address of the next. *)
Fixpoint lay_chain {A} (node : A → Z → L Z) (l : list A) : L Z :=
  match l with
  | [] => lret NULL
  | x :: l => next ⟵ lay_chain node l ;; node x next
  end.

Definition lay_link {A} (_ : A) (next : Z) : L Z := alloc [("next"%string, next)].

Definition lay_case (_ : ide_run_test_case_t) (next : Z) : L Z :=
  ctx ⟵ alloc [] ;; alloc [("test_context"%string, ctx); ("next"%string, next)].

Definition lay_group (tg : ide_run_test_group_t) (next : Z) : L Z :=
  c2 ⟵ lay_chain lay_link (gc_sw_conn2 (tg_context tg)) ;;
  c1 ⟵ lay_chain lay_link (gc_sw_conn1 (tg_context tg)) ;;
  ctx ⟵ alloc [("sw_conn1"%string, c1); ("sw_conn2"%string, c2)] ;;
  cases ⟵ lay_chain lay_case (test_case tg) ;;
  alloc [("test_case"%string, cases); ("test_context"%string, ctx); ("next"%string, next)].

Definition lay_config (rtc : ide_run_test_config_t) (next : Z) : L Z :=
  ctx ⟵ alloc [] ;;
  items ⟵ lay_chain lay_link (config_item rtc) ;;
  alloc [("config_item"%string, items); ("test_context"%string, ctx); ("next"%string, next)].

Definition lay_case_result (cr : ide_run_test_case_result_t) (next : Z) : L Z :=
  items ⟵ lay_chain lay_link (config_item_result cr) ;;
  ars ⟵ lay_chain lay_link (assertion_result cr) ;;
  alloc [("assertion_result"%string, ars); ("config_item_result"%string, items); ("next"%string, next)].

Definition lay_group_result (gr : ide_run_test_group_result_t) (next : Z) : L Z :=
  cases ⟵ lay_chain lay_case_result (case_result gr) ;;
  alloc [("case_result"%string, cases); ("next"%string, next)].

Definition lay_config_result (cr : ide_run_test_config_result_t) (next : Z) : L Z :=
  groups ⟵ lay_chain lay_group_result (group_result cr) ;;
  alloc [("group_result"%string, groups); ("next"%string, next)].

Definition lay_suite (x : ide_run_test_suite_t * list ide_run_test_config_result_t) (next : Z) : L Z :=
  r ⟵ lay_chain lay_config_result (snd x) ;;
  ctx ⟵ alloc [("signature"%string, ts_signature (fst x)); ("result"%string, r)] ;;
  configs ⟵ lay_chain lay_config (test_config (fst x)) ;;
  groups ⟵ lay_chain lay_group (test_group (fst x)) ;;
  alloc [("test_group"%string, groups); ("test_config"%string, configs); ("test_context"%string, ctx); ("next"%string, next)].

(** The first suite and the heap. *)
Definition lay_suites (tss : list (ide_run_test_suite_t * list ide_run_test_config_result_t)) : Z * heap :=
  let '(p, (_, h)) := lay_chain lay_suite tss (1, ∅) in (p, h).

(** [m] adds a part with [P] to the heap, at addresses from the next free one on. *)
Definition lays {A} (m : L A) (P : A → hProp) : Prop :=
  ∀ n h, 0 < n → (∀ q, n ≤ q → h !! q = None) →
  ∃ a n' h', m (n, h) = (a, (n', h' ∪ h)) ∧ P a h' ∧ n ≤ n' ∧ ∀ q, q < n ∨ n' ≤ q → h' !! q = None.

Lemma lays_alloc b : lays (alloc b) (λ p, pts p b).
Proof.
  intros n h Hn Hh. exists n, (n + 1), {[n := b]}. split_and!.
  - unfold alloc. by rewrite insert_union_singleton_l.
  - split; [unfold NULL; lia|done].
  - lia.
  - intros q Hq. apply lookup_singleton_ne. lia.
Qed.

Lemma lays_bind {A B} (m : L A) (k : A → L B) P (Q : A → B → hProp) :
  lays m P → (∀ a, lays (k a) (Q a)) → lays (lbind m k) (λ b, some (λ a, Q a b ∗ P a)).
Proof.
  intros Hm Hk n h Hn Hh. destruct (Hm n h Hn Hh) as (a & n1 & h1 & E1 & H1 & Hn1 & Hd1).
  destruct (Hk a n1 (h1 ∪ h) ltac:(lia)) as (b & n2 & h2 & E2 & H2 & Hn2 & Hd2).
  { intros q Hq. apply lookup_union_None. split; [apply Hd1|apply Hh]; lia. }
  exists b, n2, (h2 ∪ h1). unfold lbind. rewrite E1, E2, map_union_assoc. split_and!; [done| |lia|].
  - exists a, h2, h1. split_and!; [done| |done|done].
    apply map_disjoint_spec. intros q x y Hx Hy.
    destruct (decide (q < n1)); [rewrite Hd2 in Hx by lia|rewrite Hd1 in Hy by lia]; done.
  - intros q Hq. apply lookup_union_None. split; [apply Hd2|apply Hd1]; lia.
Qed.

Lemma lays_conseq {A} (m : L A) (P Q : A → hProp) : lays m P → (∀ a h, P a h → Q a h) → lays m Q.
Proof.
  intros Hm HPQ n h Hn Hh. destruct (Hm n h Hn Hh) as (a & n' & h' & E & H & Hr). exists a, n', h'. eauto.
Qed.

Lemma lays_chain {A} (lay : A → Z → L Z) (node : A → Z → Z → hProp) l :
  (∀ x next, lays (lay x next) (λ p, node x p next)) → lays (lay_chain lay l) (λ p, chain node p l).
Proof.
  intros Hn. induction l as [|x l IH]; cbn [lay_chain].
  { intros n h Hn0 Hh. exists NULL, n, ∅. rewrite (left_id_L ∅ (∪)). split_and!; [done|done|lia|].
    intros q _. apply lookup_empty. }
  eapply lays_conseq; [apply (lays_bind _ _ _ _ IH (Hn x))|]. intros p h [next H]. by exists next.
Qed.

Lemma lays_links {A} (l : list A) : lays (lay_chain lay_link l) (λ p, chain link p l).
Proof. apply lays_chain. intros x next. apply lays_alloc. Qed.

Lemma sep_some {A} (P : A → hProp) Q h : (some P ∗ Q) h → ∃ a, (P a ∗ Q) h.
Proof. intros (h1 & h2 & E & Hd & [a H1] & H2). by exists a, h1, h2. Qed.

(** The addresses in front, and the parts in one row: a block laid out last comes first. *)
Ltac parts H :=
  repeat lazymatch type of H with
  | some _ _ => destruct H as [? H]; cbv beta in H
  | sep (some _) _ _ => apply sep_some in H as [? H]; cbv beta in H
  | sep (sep _ _) _ _ => apply sep_assoc in H
  end.
Ltac lay :=
  eapply lays_conseq;
  [repeat (eapply lays_bind; [solve [eauto using lays_alloc, lays_links, lays_chain]|intros ?]); apply lays_alloc
  |let H := fresh "Hp" in intros ? ? H; cbv beta in H; parts H].

Lemma lays_case x next : lays (lay_case x next) (λ p, case_at x p next).
Proof.
  lay. destruct Hp as (h1 & h2 & -> & Hd & H1 & H2). eexists _, h1, h2. split_and!; [done|done|exact H1|by right].
Qed.

Lemma lays_group x next : lays (lay_group x next) (λ p, group_at x p next).
Proof. pose proof lays_case. lay. exact (ex_intro _ (_, _, _, _) Hp). Qed.

Lemma lays_config x next : lays (lay_config x next) (λ p, config_at x p next).
Proof.
  lay. destruct Hp as (h1 & h2 & -> & Hd & H1 & h3 & h4 & -> & Hd' & H2 & H3). eexists (_, _), h1, (h3 ∪ h4).
  split_and!; [done|done|exact H1|]. exists h3, h4. split_and!; [done|done|exact H2|by right].
Qed.

Lemma lays_case_result x next : lays (lay_case_result x next) (λ p, case_result_at x p next).
Proof. lay. exact (ex_intro _ (_, _) Hp). Qed.

Lemma lays_group_result x next : lays (lay_group_result x next) (λ p, group_result_at x p next).
Proof. pose proof lays_case_result. lay. by eexists. Qed.

Lemma lays_config_result x next : lays (lay_config_result x next) (λ p, config_result_at x p next).
Proof. pose proof lays_group_result. lay. by eexists. Qed.

Lemma lays_suite x next : lays (lay_suite x next) (λ p, suite_at x p next).
Proof.
  pose proof lays_config_result. pose proof lays_config. pose proof lays_group. lay.
  destruct Hp as (h1 & h2 & -> & Hd & Hs & h3 & h4 & -> & Hd' & Hg & h5 & h6 & -> & Hd'' & Hc & Hr).
  eexists (_, _, _), h1, (h3 ∪ (h5 ∪ h6)). split_and!; [done|done|exact Hs|]. exists h3, (h5 ∪ h6). split_and!; [done|done|exact Hg|].
  exists h5, h6. split_and!; [done|done|exact Hc|]. eexists. exact Hr.
Qed.

(** The layout is the one the assertions describe. *)
Lemma suites_laid tss : let '(p, h) := lay_suites tss in suites_at p tss h.
Proof.
  destruct (lays_chain lay_suite suite_at tss lays_suite 1 ∅) as (p & n & h & E & H & _); [lia|intros; apply lookup_empty|].
  unfold lay_suites. rewrite E. by rewrite (right_id_L ∅ (∪)).
Qed.

(** ** What the cleaning frees *)

(** C7: [clean_tests_data], on a heap where the suites [tss] with their
    results are laid out from [p] on beside any other blocks [hf], frees each
    of their blocks once, uses no block after it is freed, and touches none of [hf];
    only the blocks of the switch connections remain, one per connection of
    a group ([clean_test_groups] frees the context they hang in). *)
Theorem clean_frees_the_tests tss p h hf :
  Forall (λ x, ts_signature (fst x) = SUITE_CONTEXT_SIGNATURE) tss →
  suites_at p tss h →
  h ##ₘ hf →
  ∃ left, clean_tests_data p (h ∪ hf) = Ok (true, left ∪ hf) ∧ left ##ₘ hf ∧
    seps suite_left tss left ∧ size left = switch_connections tss.
Proof.
  intros Hs H Hd. destruct (suites_freed p tss Hs h hf H Hd) as (left & E & Hl & HL).
  exists left. split_and!; auto using left_size.
Qed.

(** The blocks of a run, laid out and freed. *)
Lemma laid_tests_freed tss :
  Forall (λ x, ts_signature (fst x) = SUITE_CONTEXT_SIGNATURE) tss →
  ∃ left, (let '(p, h) := lay_suites tss in clean_tests_data p h) = Ok (true, left) ∧ size left = switch_connections tss.
Proof.
  intros Hs. pose proof (suites_laid tss) as H. destruct (lay_suites tss) as [p h].
  destruct (suites_freed p tss Hs h ∅ H (map_disjoint_empty_r h)) as (left & E & _ & HL). rewrite !(right_id_L ∅ (∪)) in E.
  exists left. split; [exact E|by apply left_size].
Qed.

Definition example_conn : ide_common_test_switch_internal_conn_context_t :=
  {| sc_switch_id := 1; sc_ups := gc_upper_port example_context; sc_dps := gc_lower_port example_context |}.

Definition example_tests : list (ide_run_test_suite_t * list ide_run_test_config_result_t) :=
  [({| ts_name := bs "TestSuite_1"; ts_signature := SUITE_CONTEXT_SIGNATURE; ts_suite_id := 1; ts_category := 0;
       test_group := [{| tg_name := bs "SelectiveIDE"; tg_signature := GROUP_CONTEXT_SIGNATURE; tg_case_class := 0;
                         tg_context := {| gc_top := gc_top example_context; gc_root_port := gc_root_port example_context;
                                          gc_upper_port := gc_upper_port example_context;
                                          gc_lower_port := gc_lower_port example_context;
                                          gc_sw_conn1 := [example_conn]; gc_sw_conn2 := [] |};
                         test_case := [example_test 1]; group_setup_func := None; group_teardown_func := None |}];
       test_config := [example_config 1] |},
    [{| config_name := bs "Default"; config_id := 1; config_passed := 1; config_failed := 0; group_result := [] |}])].

Lemma clean_frees_the_tests_witness :
  ∃ p h left, suites_at p example_tests h ∧ clean_tests_data p h = Ok (true, left) ∧ size left = 1%nat.
Proof.
  pose proof (suites_laid example_tests) as H. destruct (lay_suites example_tests) as [p h]. exists p, h.
  assert (Hs : Forall (λ x, ts_signature (fst x) = SUITE_CONTEXT_SIGNATURE) example_tests).
  { repeat constructor. }
  destruct (clean_frees_the_tests example_tests p h ∅ Hs H (map_disjoint_empty_r h)) as (left & E & _ & _ & Hn).
  rewrite !(right_id_L ∅ (∪)) in E. exists left. split; [exact H|]. split; [exact E|exact Hn].
Defined.

(** On a heap: a suite without groups, with one configuration, and a block of someone else. *)
Definition example_heap : heap :=
  {[1 := [("test_group", NULL); ("test_config", 3); ("test_context", 2); ("next", NULL)]%string;
    2 := [("signature", SUITE_CONTEXT_SIGNATURE); ("result", 5)]%string;
    3 := [("config_item", 4); ("test_context", NULL); ("next", NULL)]%string;
    4 := [("next", NULL)]%string;
    5 := [("group_result", NULL); ("next", NULL)]%string;
    9 := []]}.

Example example_heap_cleaned : clean_tests_data 1 example_heap = Ok (true, {[9 := []]}).
Proof. vm_compute. reflexivity. Qed.

(** A second call is undefined behaviour: the suites are gone. *)
Example cleaned_twice :
  (let* r := clean_tests_data 1 example_heap in clean_tests_data 1 (snd r)) = Stop Undefined.
Proof. vm_compute. reflexivity. Qed.
End Clean.
