(* ===== verification/Report.v ===== *)
(** * The report of a run (teeio_validator/ide_test.c, [print_test_results] and below)

    The report is printed twice, in detail and as a summary.  A printed line is
    a constructor with the values the format prints; [render] gives its text.
    [summary_of] computes the summary from the lines of the detailed report. *)
From Stdlib Require Import ZArith Lia Ascii String.
From stdpp Require Import prelude.
From S2P Require Import Prelude Utils IniFile Results TestConfig Engine TestLib.
Import TestConfig Engine TestLib Results.

Open Scope Z_scope.
Open Scope teeio_scope.

Module Report.

(** ** Lines *)

Definition m_test_case_result_str : list bytes := [bs "skipped"; bs "pass"; bs "fail"].
Definition m_test_config_result_str : list bytes := [bs "skipped"; bs "pass"; bs "fail"].
Definition m_assertion_result_str : list bytes := [bs "skipped"; bs "pass"; bs "fail"].
Definition m_config_item_operation_str : list bytes := [bs "support"; bs "enable"; bs "disable"; bs "check"].

Definition result_index (r : teeio_test_result_t) : nat :=
  match r with TEEIO_TEST_RESULT_NOT_TESTED => 0 | TEEIO_TEST_RESULT_PASS => 1 | TEEIO_TEST_RESULT_FAILED => 2 end.

Inductive line :=
| LTitle (detail : bool)
| LSuite (name category : bytes)
| LSuiteSum (name category : bytes) (passed failed : Z)
| LConfig (id : Z) (name : bytes)
| LGroupSetup (case_class : bytes) (r : teeio_test_result_t) (extra_data : bytes)
| LGroupSum (case_class : bytes) (passed failed : Z)
| LCase (name : bytes) (r : teeio_test_result_t)
| LCaseSum (name : bytes) (r : teeio_test_result_t) (passed failed : Z)
| LAssertion (cls id aid : Z) (r : teeio_test_result_t) (extra_data : bytes)
| LSeparator (extra_data : bytes)
| LCaseEnd
| LGroupTeardown (case_class : bytes) (r : teeio_test_result_t)
| LGroupEnd
| LConfigEnd
| LBlank.

(** The text, without the time stamp. *)
Definition render (l : line) : bytes :=
  let str (table : list bytes) r := nth (result_index r) table [] in
  match l with
  | LTitle true => bs " Print detailed results." ++ [10]
  | LTitle false => bs " Print summary results." ++ [10]
  | LSuite n c => bs " " ++ n ++ bs " (" ++ c ++ bs ")" ++ [10]
  | LSuiteSum n c p f => bs " " ++ n ++ bs " (" ++ c ++ bs ") - pass: " ++ dec p ++ bs ", fail: " ++ dec f ++ [10]
  | LConfig id n => bs "   Configuration_" ++ dec id ++ bs " (" ++ n ++ bs ")" ++ [10]
  | LGroupSetup c r x =>
      bs "     TestGroup (" ++ c ++ bs ") - setup " ++ str m_test_case_result_str r ++ bs " " ++ x ++ [10]
  | LGroupSum c p f => bs "     TestGroup (" ++ c ++ bs ") - pass: " ++ dec p ++ bs ", fail: " ++ dec f ++ [10]
  | LCase n r => bs "       TestCase " ++ n ++ bs ": " ++ str m_test_case_result_str r ++ [10]
  | LCaseSum n r p f =>
      bs "       TestCase " ++ n ++ bs ": " ++ str m_test_case_result_str r ++
      bs " (pass: " ++ dec p ++ bs ", fail: " ++ dec f ++ bs ")" ++ [10]
  | LAssertion cls id aid r x =>
      bs "           Assertion" ++ dec (cls + 1) ++ bs "." ++ dec id ++ bs "." ++ dec aid ++ bs ": - " ++
      str m_assertion_result_str r ++ bs " " ++ x ++ [10]
  | LSeparator x => bs "       " ++ x ++ [10]
  | LGroupTeardown c r => bs "     TestGroup (" ++ c ++ bs ") - teardown " ++ str m_test_case_result_str r ++ [10]
  | LCaseEnd | LGroupEnd | LConfigEnd | LBlank => [10]
  end.

(** ** The functions *)

Definition print_assertion (ar : ide_run_test_case_assertion_result_t) : list line :=
  match ar_type ar with
  | IDE_COMMON_TEST_CASE_ASSERTION_TYPE_TEST =>
      [LAssertion (ar_class_id ar) (ar_case_id ar) (ar_assertion_id ar) (ar_result ar) (ar_extra_data ar)]
  | IDE_COMMON_TEST_CASE_ASSERTION_TYPE_SEPARATOR => [LSeparator (ar_extra_data ar)]
  | IDE_COMMON_TEST_CASE_ASSERTION_TYPE_NA => []
  end.

Definition print_test_case_assertion_result (l : list ide_run_test_case_assertion_result_t) : list line :=
  flat_map print_assertion l.

(** One round of the loop over the cases of a group; the verdict is [printed_case_result]. *)
Definition print_case (detail : bool) (cr : ide_run_test_case_result_t) : list line :=
  let test_result := printed_case_result cr in
  if detail then
    LCase (case_name cr) test_result :: print_test_case_assertion_result (assertion_result cr) ++ [LCaseEnd]
  else [LCaseSum (case_name cr) test_result (case_passed cr) (case_failed cr)].

(** One round of the loop over the groups.  [case_result->class] is read of the first case. *)
Definition print_group (detail : bool) (gr : ide_run_test_group_result_t) : res (list line) :=
  let* first := deref (head (case_result gr)) in
  let case_class := case_class_name first in
  let cases := flat_map (print_case detail) (case_result gr) in
  if detail then
    let* setup := array_get (func_results gr) 0 in
    let* teardown := array_get (func_results gr) 1 in
    Ok (LGroupSetup case_class (func_result setup) (func_extra_data setup) :: cases ++
        [LGroupTeardown case_class (func_result teardown); LGroupEnd])
  else Ok (LGroupSum case_class (group_passed gr) (group_failed gr) :: cases ++ [LGroupEnd]).

(** The lines of the elements of a list, one after the other. *)
Fixpoint print_all {A} (print : A → res (list line)) (l : list A) : res (list line) :=
  match l with
  | [] => Ok []
  | x :: l => let* a := print x in let* b := print_all print l in Ok (a ++ b)
  end.

Definition print_config (detail : bool) (cr : ide_run_test_config_result_t) : res (list line) :=
  let* groups := print_all (print_group detail) (group_result cr) in
  Ok (LConfig (config_id cr) (config_name cr) :: groups ++ [LConfigEnd]).

(** One round of the loop over the suites: the suite, and the results in its context. *)
Definition print_suite (detail : bool) (x : ide_run_test_suite_t * list ide_run_test_config_result_t) : res (list line) :=
  let '(ts, results) := x in
  let* _ := TEEIO_ASSERT (ts_signature ts =? SUITE_CONTEXT_SIGNATURE) in
  let '(passed, failed) := test_suite_cases_statics results in
  let* category := array_get TEEIO_TEST_CATEGORY_NAMES (ts_category ts) in
  let* configs := print_all (print_config detail) results in
  Ok ((if detail then LSuite (ts_name ts) category else LSuiteSum (ts_name ts) category passed failed) :: configs).

Definition print_test_results (tss : list (ide_run_test_suite_t * list ide_run_test_config_result_t)) (detail : bool)
    : res (list line) :=
  let* suites := print_all (print_suite detail) tss in
  Ok (LBlank :: LTitle detail :: suites).

(** [%-18s] and [%10s] *)
Definition pad_right (w : nat) (s : bytes) : bytes := s ++ replicate (w - length s) 32.
Definition pad_left (w : nat) (s : bytes) : bytes := replicate (w - length s) 32 ++ s.

(** Nothing calls this function.  The operations of one phase are the first two or the last two. *)
Definition config_item_text (itr : ide_run_test_config_item_result_t) (phase1 : bool) : res bytes :=
  fold_res (λ i text,
    let* op := array_get m_config_item_operation_str i in
    let* r := array_get (results itr) i in
    let* result := array_get m_test_config_result_str (Z.of_nat (result_index r)) in
    Ok (text ++ pad_right 18 (op ++ bs ": " ++ result) ++ bs " "))
    (if phase1 then [0; 1] else [2; 3]) [].

(** The return value and the texts. *)
Definition print_test_config_item_result (m_teeio_test_funcs : list teeio_test_funcs_t) (test_category : Z)
    (config_item_result : list ide_run_test_config_item_result_t) (config_id : Z) (phase1 : bool) : res (bool * list bytes) :=
  match config_item_result with
  | [] => Ok (true, [])
  | _ =>
      let* test_funcs := array_get m_teeio_test_funcs test_category in
      match get_configuration_name_func test_funcs with
      | None => Ok (false, [])
      | Some get_name =>
          let* lines := fold_res (λ itr lines,
            let* buffer2 := config_item_text itr phase1 in
            let* name := get_name (config_item_id itr) in
            let* name := deref name in
            Ok (lines ++ [bs "          " ++ pad_left 10 name ++ bs ": - " ++ buffer2 ++ [10]]))
            config_item_result [bs "       Configuration_" ++ dec config_id ++ bs ":" ++ [10]] in
          Ok (true, lines)
      end
  end.

(** ** The summary, computed from the detailed report

    The lines are read from the last to the first; the numbers of passed and
    of failed assertions of the current suite, group and case are kept and
    written where its header comes. *)
Record tally := { t_suite : Z * Z; t_group : Z * Z; t_case : Z * Z; t_out : list line }.

Definition add_result (r : teeio_test_result_t) (pf : Z * Z) : Z * Z :=
  match r with
  | TEEIO_TEST_RESULT_PASS => (1 + fst pf, snd pf)
  | TEEIO_TEST_RESULT_FAILED => (fst pf, 1 + snd pf)
  | TEEIO_TEST_RESULT_NOT_TESTED => pf
  end.

Definition count_line (l : line) (t : tally) : tally :=
  match l with
  | LTitle _ => {| t_suite := (0, 0); t_group := (0, 0); t_case := (0, 0); t_out := LTitle false :: t_out t |}
  | LSuite n c =>
      {| t_suite := (0, 0); t_group := (0, 0); t_case := (0, 0);
         t_out := LSuiteSum n c (fst (t_suite t)) (snd (t_suite t)) :: t_out t |}
  | LGroupSetup c _ _ =>
      {| t_suite := t_suite t; t_group := (0, 0); t_case := (0, 0);
         t_out := LGroupSum c (fst (t_group t)) (snd (t_group t)) :: t_out t |}
  | LCase n r =>
      {| t_suite := t_suite t; t_group := t_group t; t_case := (0, 0);
         t_out := LCaseSum n r (fst (t_case t)) (snd (t_case t)) :: t_out t |}
  | LAssertion _ _ _ r _ =>
      {| t_suite := add_result r (t_suite t); t_group := add_result r (t_group t); t_case := add_result r (t_case t);
         t_out := t_out t |}
  | LSeparator _ | LCaseEnd | LGroupTeardown _ _ => t
  | l => {| t_suite := t_suite t; t_group := t_group t; t_case := t_case t; t_out := l :: t_out t |}
  end.

Definition no_tally : tally := {| t_suite := (0, 0); t_group := (0, 0); t_case := (0, 0); t_out := [] |}.
Definition count_lines (ls : list line) (t : tally) : tally := foldr count_line t ls.
Definition summary_of (ls : list line) : list line := t_out (count_lines ls no_tally).

(** ** Lemmas *)

(** Passed and failed assertions are those of type TEST. *)
Definition typed (ar : ide_run_test_case_assertion_result_t) : Prop :=
  ar_result ar = TEEIO_TEST_RESULT_NOT_TESTED ∨ ar_type ar = IDE_COMMON_TEST_CASE_ASSERTION_TYPE_TEST.

(** What [print_group] needs of a group. *)
Definition printable (gr : ide_run_test_group_result_t) : Prop :=
  case_result gr ≠ [] ∧ length (func_results gr) = 2%nat ∧
  Forall (λ cr, Forall typed (assertion_result cr)) (case_result gr).

Definition add (p q : Z * Z) : Z * Z := (fst p + fst q, snd p + snd q).
Definition case_totals (cr : ide_run_test_case_result_t) : Z * Z := (case_passed cr, case_failed cr).
Definition group_totals (gr : ide_run_test_group_result_t) : Z * Z := (group_passed gr, group_failed gr).
Definition config_totals (co : ide_run_test_config_result_t) : Z * Z := (config_passed co, config_failed co).

Lemma count_lines_app a b t : count_lines (a ++ b) t = count_lines a (count_lines b t).
Proof. apply foldr_app. Qed.

Lemma count_assertions l t :
  Forall typed l →
  count_lines (print_test_case_assertion_result l) t =
  let n := (count TEEIO_TEST_RESULT_PASS l, count TEEIO_TEST_RESULT_FAILED l) in
  {| t_suite := add n (t_suite t); t_group := add n (t_group t); t_case := add n (t_case t); t_out := t_out t |}.
Proof.
  unfold add. induction 1 as [|ar l Har _ IH]; [by destruct t as [[] [] [] ?]|].
  cbn [print_test_case_assertion_result flat_map]. change (flat_map print_assertion l) with (print_test_case_assertion_result l).
  rewrite count_lines_app, IH. unfold print_assertion, count in *. rewrite !filter_cons. destruct Har as [Hr|Ht].
  - rewrite Hr. rewrite !decide_False by done. by destruct (ar_type ar).
  - rewrite Ht. cbn. destruct (ar_result ar) eqn:E; cbn; repeat case_decide; try discriminate; try done;
      unfold add_result; cbn; rewrite ?Nat2Z.inj_succ; f_equal; f_equal; lia.
Qed.

(** The parts of the report, as the reader of its lines counts them. *)
Definition with_out (s g : Z * Z) (out : list line) : tally :=
  {| t_suite := s; t_group := g; t_case := (0, 0); t_out := out |}.

Lemma count_lines_cons l ls t : count_lines (l :: ls) t = count_line l (count_lines ls t).
Proof. done. Qed.

Lemma add_assoc a b c : add (add a b) c = add a (add b c).
Proof. unfold add. simpl. f_equal; lia. Qed.
Lemma add_0_l a : add (0, 0) a = a.
Proof. by destruct a. Qed.
Lemma add_0_r a : add a (0, 0) = a.
Proof. unfold add. destruct a. simpl. f_equal; lia. Qed.

Lemma count_case_lines cr s g out :
  case_ok cr → Forall typed (assertion_result cr) →
  count_lines (print_case true cr) (with_out s g out) =
  with_out (add (case_totals cr) s) (add (case_totals cr) g) (print_case false cr ++ out).
Proof.
  intros [Hp Hf] Ht. unfold print_case, case_totals.
  rewrite count_lines_cons, count_lines_app, (count_assertions _ _ Ht), <- Hp, <- Hf.
  unfold with_out, add. cbn. by rewrite !Z.add_0_r.
Qed.

(** [f]-totals of a list. *)
Definition totals {A} (f : A → Z * Z) (l : list A) : Z * Z := (sumZ (fst ∘ f) l, sumZ (snd ∘ f) l).

Lemma totals_nil {A} (f : A → Z * Z) : totals f [] = (0, 0).
Proof. done. Qed.

Lemma totals_cons {A} (f : A → Z * Z) x l : totals f (x :: l) = add (f x) (totals f l).
Proof. done. Qed.

Lemma count_cases_lines l s g out :
  Forall case_ok l → Forall (λ cr, Forall typed (assertion_result cr)) l →
  count_lines (flat_map (print_case true) l) (with_out s g out) =
  with_out (add (totals case_totals l) s) (add (totals case_totals l) g) (flat_map (print_case false) l ++ out).
Proof.
  intros Hok Ht. revert s g out. induction l as [|cr l IH]; intros s g out.
  { cbn. by rewrite !add_0_l. }
  apply Forall_cons in Hok as [Hc Hok], Ht as [Htc Ht]. cbn [flat_map].
  rewrite count_lines_app, IH, count_case_lines, totals_cons, !add_assoc by done. by rewrite <- app_assoc.
Qed.

Lemma count_group_lines gr s out :
  group_ok gr → printable gr →
  ∃ d b, print_group true gr = Ok d ∧ print_group false gr = Ok b ∧
    count_lines d (with_out s (0, 0) out) = with_out (add (group_totals gr) s) (0, 0) (b ++ out).
Proof.
  intros (Hok & Hp & Hf) (Hne & Hlen & Ht). unfold print_group.
  destruct (head (case_result gr)) as [first|] eqn:Eh; [|by destruct (case_result gr)].
  destruct (func_results gr) as [|f1 [|f2 [|f3 fl]]]; try discriminate.
  change (array_get [f1; f2] 0) with (Ok f1). change (array_get [f1; f2] 1) with (Ok f2). cbn [deref res_bind].
  eexists _, _. split; [done|]. split; [done|].
  rewrite count_lines_cons, count_lines_app. change (count_lines [_; _] (with_out s (0, 0) out)) with (with_out s (0, 0) (LGroupEnd :: out)).
  rewrite count_cases_lines by done.
  replace (totals case_totals (case_result gr)) with (group_totals gr).
  { rewrite add_0_r. unfold with_out. cbn. by rewrite <- app_assoc. }
  unfold group_totals, totals. by rewrite Hp, Hf.
Qed.

(** The lines of a list, from those of its elements. *)
Lemma count_all {A} (print print' : A → res (list line)) (f : A → Z * Z) l s out :
  (∀ x s out, x ∈ l → ∃ d b, print x = Ok d ∧ print' x = Ok b ∧
     count_lines d (with_out s (0, 0) out) = with_out (add (f x) s) (0, 0) (b ++ out)) →
  ∃ d b, print_all print l = Ok d ∧ print_all print' l = Ok b ∧
    count_lines d (with_out s (0, 0) out) = with_out (add (totals f l) s) (0, 0) (b ++ out).
Proof.
  revert s out. induction l as [|x l IH]; intros s out H.
  { exists [], []. rewrite totals_nil, add_0_l. done. }
  destruct (IH s out) as (d & b & Ed & Eb & Ec). { intros. apply H. by right. }
  destruct (H x (add (totals f l) s) (b ++ out)) as (d1 & b1 & Ed1 & Eb1 & Ec1). { by left. }
  exists (d1 ++ d), (b1 ++ b). cbn [print_all]. rewrite Ed, Eb, Ed1, Eb1. split_and!; [done..|].
  by rewrite count_lines_app, Ec, Ec1, totals_cons, add_assoc, app_assoc.
Qed.

Lemma count_config_lines co s out :
  config_ok co → Forall printable (group_result co) →
  ∃ d b, print_config true co = Ok d ∧ print_config false co = Ok b ∧
    count_lines d (with_out s (0, 0) out) = with_out (add (config_totals co) s) (0, 0) (b ++ out).
Proof.
  intros (Hok & Hp & Hf) Hpr. rewrite Forall_forall in Hok. rewrite Forall_forall in Hpr.
  destruct (count_all (print_group true) (print_group false) group_totals (group_result co) s (LConfigEnd :: out))
    as (d & b & Ed & Eb & Ec). { intros x s' out' Hx. apply count_group_lines; auto. }
  unfold print_config. rewrite Ed, Eb. eexists _, _. split; [done|]. split; [done|]. cbn [res_bind].
  rewrite count_lines_cons, count_lines_app.
  change (count_lines [LConfigEnd] (with_out s (0, 0) out)) with (with_out s (0, 0) (LConfigEnd :: out)). rewrite Ec.
  replace (totals group_totals (group_result co)) with (config_totals co).
  { unfold with_out. cbn. by rewrite <- app_assoc. }
  unfold config_totals, totals. by rewrite Hp, Hf.
Qed.

Lemma statics_totals cs : test_suite_cases_statics cs = totals config_totals cs.
Proof.
  unfold test_suite_cases_statics.
  assert (H : ∀ p f, fold_left (λ '(passed, failed) cr, (passed + config_passed cr, failed + config_failed cr)) cs (p, f)
    = add (p, f) (totals config_totals cs)).
  { induction cs as [|co cs IH]; intros p f; [by rewrite add_0_r|]. cbn [fold_left].
    rewrite IH, totals_cons, <- add_assoc. done. }
  by rewrite H, add_0_l.
Qed.

(** A suite that can be reported. *)
Definition reportable (x : ide_run_test_suite_t * list ide_run_test_config_result_t) : Prop :=
  ts_signature (fst x) = SUITE_CONTEXT_SIGNATURE ∧
  0 ≤ ts_category (fst x) < Z.of_nat (length TEEIO_TEST_CATEGORY_NAMES) ∧
  Forall config_ok (snd x) ∧ Forall (λ co, Forall printable (group_result co)) (snd x).

Lemma count_suite_lines x out :
  reportable x →
  ∃ d b, print_suite true x = Ok d ∧ print_suite false x = Ok b ∧
    count_lines d (with_out (0, 0) (0, 0) out) = with_out (0, 0) (0, 0) (b ++ out).
Proof.
  destruct x as [ts cs]. intros (Hs & Hcat & Hok & Hpr). cbn [fst snd] in *.
  rewrite Forall_forall in Hok. rewrite Forall_forall in Hpr.
  destruct (count_all (print_config true) (print_config false) config_totals cs (0, 0) out) as (d & b & Ed & Eb & Ec).
  { intros x s' out' Hx. apply count_config_lines; auto. }
  destruct (returns_get TEEIO_TEST_CATEGORY_NAMES (ts_category ts) Hcat) as [cat Ecat].
  unfold print_suite. rewrite Hs, Z.eqb_refl, statics_totals, Ecat, Ed, Eb. cbn [TEEIO_ASSERT res_bind].
  destruct (totals config_totals cs) as [p f] eqn:Et. eexists _, _. split; [done|]. split; [done|].
  rewrite count_lines_cons, Ec. unfold with_out. cbn. by rewrite !Z.add_0_r.
Qed.
(** ** Invariants of a run

    What holds of the results through every report and every allocation of
    a result holds of them through a run. *)
Section invariants.
Context {W : Type} `{TestCode W} (P : state → Prop) (op_fine : record_op → Prop).
Hypothesis code_fine : ∀ f ctx st w o, call_func f ctx st w = Ok o → Forall op_fine (out_ops o).
Hypothesis P_op : ∀ op st r, op_fine op → P st → run_op op st = Ok r → P (snd r).
Hypothesis P_config : ∀ s id name st r, P st → alloc_run_test_config_result s id name st = Ok r → P (snd r).
Hypothesis P_group : ∀ pc name st r, P st → alloc_run_test_group_result pc name st = Ok r → P (snd r).
Hypothesis P_case : ∀ pg n c i j st r, P st → alloc_run_test_case_result pg n c i j st = Ok r → P (snd r).
Hypothesis P_pointers : ∀ st st', suites st' = suites st → P st → P st'.

Definition pres {A} (m : M (W := W) A) : Prop := ∀ e a e', P (es_results e) → m e = Ok (a, e') → P (es_results e').

Lemma pres_ret {A} (a : A) : pres (ret a).
Proof. by intros e b e' HP [= <- <-]. Qed.

Lemma pres_lift {A} (r : res A) : pres (lift r).
Proof. intros e b e' HP Hr. apply res_bind_Ok in Hr as (a & _ & [= <- <-]). done. Qed.

Lemma pres_bind {A B} (m : M A) (k : A → M B) : pres m → (∀ a, pres (k a)) → pres (bind m k).
Proof. intros Hm Hk e b e' HP Hr. apply res_bind_Ok in Hr as ([a e1] & Hm1 & Hk1). exact (Hk a e1 b e' (Hm e a e1 HP Hm1) Hk1). Qed.

Lemma pres_invoke f ctx : pres (invoke f ctx).
Proof.
  intros e b e' HP Hr. apply res_bind_Ok in Hr as (o & Ho & Hr). apply res_bind_Ok in Hr as (st & Hst & [= _ <-]).
  cbn. apply code_fine in Ho.
  revert Ho. generalize (es_results e) HP st Hst. clear HP Hst. induction (out_ops o) as [|op ops IH]; intros st0 H0 st1 H1 Hf.
  { by injection H1 as <-. }
  apply Forall_cons in Hf as [Hop Hf]. simpl in H1. apply res_bind_Ok in H1 as (st2 & H2 & H1).
  apply res_bind_Ok in H2 as (r & Hr & [= <-]). eapply IH; [|exact H1|exact Hf]. eapply P_op; eauto.
Qed.

Lemma pres_log ev : pres (log ev).
Proof. by intros e u e' HP [= _ <-]. Qed.

Lemma pres_call f ctx ev : pres (call f ctx ev).
Proof.
  apply pres_bind; [apply pres_invoke|intros r]. apply pres_bind; [apply pres_log|intros _; apply pres_ret].
Qed.

(** An allocation, and the pointer to what was allocated. *)
Lemma pres_alloc {A B} (al : state → res (B * state)) (set : option B → state → state) (k : B → M A) :
  (∀ st r, P st → al st = Ok r → P (snd r)) → (∀ b st, suites (set b st) = suites st) → (∀ b, pres (k b)) →
  pres (bind get_results (λ st, bind (lift (al st)) (λ r,
    bind (put_results (set (Some (fst r)) (snd r))) (λ _, k (fst r))))).
Proof.
  intros Ha Hs Hk e a e' HP Hr. cbn in Hr. apply res_bind_Ok in Hr as ([r e1] & H1 & Hr).
  apply res_bind_Ok in H1 as (r1 & H1 & [= -> <-]). eapply Hk; [|exact Hr].
  cbn. eapply P_pointers; [apply Hs|]. eapply Ha; [exact HP|exact H1].
Qed.

Lemma pres_clear (set : state → state) : (∀ st, suites (set st) = suites st) →
  pres (bind get_results (λ st, put_results (set st))).
Proof. intros Hs e a e' HP [= _ <-]. cbn. by eapply P_pointers; [apply Hs|]. Qed.

Create HintDb pres.
#[local] Hint Resolve pres_ret pres_lift pres_invoke pres_call pres_bind : pres.

(** A step of the proof that a program preserves [P]. *)
Ltac pres_step :=
  lazymatch goal with
  | |- pres (bind _ _) => apply pres_bind; [|intros ?]
  | |- pres (if ?b then _ else _) => destruct b
  | |- pres (match ?o with Some _ => _ | None => _ end) => destruct o
  | |- pres (match ?l with [] => _ | _ => _ end) => destruct l
  | _ => solve [auto with pres]
  end.

Lemma pres_items kind func ctx items : pres (run_config_items kind func ctx items).
Proof.
  induction items as [|it items IH]; simpl; [apply pres_lift|]. destruct (func it) as [f|]; repeat pres_step; exact IH.
Qed.
#[local] Hint Resolve pres_items : pres.

Lemma pres_case tc rtc cat cctx : pres (do_run_test_case tc rtc cat cctx).
Proof.
  unfold do_run_test_case, spdm_test_get_spdm_context_from_test_context, case_body, test_case_done, do_run_test_config_support, do_run_test_config_enable,
    do_run_test_config_check, do_run_test_config_disable. repeat pres_step.
Qed.
#[local] Hint Resolve pres_case : pres.

Lemma pres_cases tcs setup rtc pg cat cctx : pres (run_cases tcs setup rtc pg cat cctx).
Proof.
  induction tcs as [|tc tcs IH]; simpl; [apply pres_ret|]. apply pres_bind; [|intros; exact IH].
  apply (pres_alloc (alloc_run_test_case_result pg _ _ _ _) set_current_case (λ _, _)); eauto.
  intros _. apply pres_bind; [repeat pres_step|]. intros _. by apply pres_clear.
Qed.
#[local] Hint Resolve pres_cases : pres.

Lemma pres_groups tgs rtc pc cat : pres (run_groups tgs rtc pc cat).
Proof.
  induction tgs as [|tg tgs IH]; simpl; [apply pres_ret|]. apply pres_bind; [|intros; exact IH].
  apply (pres_alloc (alloc_run_test_group_result pc _) set_current_group
           (λ pg, bind (do_run_test_group tg rtc pg cat) (λ _, bind get_results (λ st, put_results (set_current_group None st))))); eauto.
  intros pg. apply pres_bind; [|intros; by apply pres_clear]. unfold do_run_test_group. repeat pres_step.
Qed.

Lemma pres_configs rtcs tgs s cat : pres (run_configs rtcs tgs s cat).
Proof.
  revert tgs. induction rtcs as [|rtc rtcs IH]; intros tgs; simpl; [apply pres_ret|].
  apply pres_bind; [|intros; apply IH].
  apply (pres_alloc (alloc_run_test_config_result s _ _) set_current_config
           (λ pc, bind (run_groups tgs rtc pc cat) (λ _, bind get_results (λ st, put_results (set_current_config None st))))); eauto.
  intros pc. apply pres_bind; [apply pres_groups|intros; by apply pres_clear].
Qed.

Lemma pres_suites s tss : pres (run_suites s tss).
Proof.
  revert s. induction tss as [|ts tss IH]; intros s; simpl; [apply pres_ret|].
  apply pres_bind; [|intros; apply IH]. unfold do_run_test_suite.
  apply pres_bind; [apply pres_lift|]. intros _. apply pres_bind; [apply pres_configs|]. intros _. apply pres_ret.
Qed.
End invariants.

(** The groups of a result tree keep two function results and typed assertions. *)
Definition fine (gr : ide_run_test_group_result_t) : Prop :=
  length (func_results gr) = 2%nat ∧ Forall (λ cr, Forall typed (assertion_result cr)) (case_result gr).
Definition all_fine (st : state) : Prop := Forall (Forall (λ co, Forall fine (group_result co))) (suites st).

Lemma fine_on_config p f st :
  (∀ co, Forall fine (group_result co) → Forall fine (group_result (f co))) → all_fine st → all_fine (on_config p f st).
Proof.
  intros Hf H. destruct p as [s c]. unfold all_fine. simpl.
  apply Forall_alter_ok; [exact H|]. intros cs _ Hcs. apply Forall_alter_ok; [exact Hcs|]. intros co _. apply Hf.
Qed.

Lemma fine_on_group p f st : (∀ gr, fine gr → fine (f gr)) → all_fine st → all_fine (on_group p f st).
Proof. intros Hf. destruct p as [q g]. apply fine_on_config. intros co Hc. cbn.
  apply Forall_alter_ok; [exact Hc|]. intros gr _. apply Hf. Qed.

Lemma fine_on_case p f st :
  (∀ cr, Forall typed (assertion_result cr) → Forall typed (assertion_result (f cr))) → all_fine st → all_fine (on_case p f st).
Proof.
  intros Hf. destruct p as [q k]. apply fine_on_group. intros gr [Hl Hc]. split; [exact Hl|]. cbn.
  apply Forall_alter_ok; [exact Hc|]. intros cr _. apply Hf.
Qed.

Lemma fine_op op st r : op_typed op → all_fine st → run_op op st = Ok r → all_fine (snd r).
Proof.
  intros Hop Hst. destruct op as [cls id aid ty v msg|id f v|f v msg]; simpl.
  - unfold teeio_record_assertion_result. destruct (g_current_case_result st) as [p|]; [|done].
    destruct (get_case p st) as [cr|]; [|done]. cbn [deref res_bind]. destruct (_ || _); [done|].
    assert (Ha : ∀ ar, typed ar → all_fine (on_case p (append_assertion ar) st)).
    { intros ar Har. apply fine_on_case; [|done]. intros c Hc. cbn. by apply Forall_app_2, Forall_singleton. }
    destruct v; [intros [= <-]; by apply Ha| |]; repeat (intros Hr; apply res_bind_Ok in Hr as (? & _ & Hr); revert Hr);
      intros [= <-]; (apply fine_on_case; [done|]); (apply fine_on_group; [done|]); (apply fine_on_config; [done|]); by apply Ha.
  - unfold teeio_record_config_item_result. destruct (g_current_case_result st) as [p|]; [|by intros [= <-]].
    intros Hr. apply res_bind_Ok in Hr as (cr & _ & [= <-]). by apply fine_on_case.
  - unfold teeio_record_group_result. destruct (g_current_group_result st) as [p|]; [|by intros [= <-]].
    intros Hr. apply res_bind_Ok in Hr as (gr & _ & [= <-]). apply fine_on_group; [|done].
    intros g [Hl Hc]. split; [|done]. cbn. by rewrite length_alter.
Qed.

Lemma fine_run {W : Type} `{TestCode W} tss (w : W) u e :
  (∀ f ctx st w o, call_func f ctx st w = Ok o → Forall op_typed (out_ops o)) →
  run_suites 0 tss (start w tss) = Ok (u, e) → all_fine (es_results e).
Proof.
  intros Hcode. refine (pres_suites all_fine op_typed Hcode fine_op _ _ _ _ 0 tss (start w tss) u e _).
  - intros s id name st r Hst Hr. apply res_bind_Ok in Hr as (cs & _ & [= <-]). unfold all_fine. cbn.
    apply Forall_alter_ok; [exact Hst|]. intros l _ Hl. apply Forall_app_2; [done|]. by repeat constructor.
  - intros pc name st r Hst Hr. apply res_bind_Ok in Hr as (co & _ & [= <-]). apply fine_on_config; [|done].
    intros c Hc. cbn. apply Forall_app_2; [done|]. by repeat constructor.
  - intros pg n c i j st r Hst Hr. apply res_bind_Ok in Hr as (gr & _ & [= <-]). apply fine_on_group; [|done].
    intros g [Hl Hc]. split; [done|]. cbn. apply Forall_app_2; [done|]. by repeat constructor.
  - intros st st' E. unfold all_fine. by rewrite E.
  - unfold all_fine. cbn. apply Forall_replicate. constructor.
Qed.

(** The results of suites whose groups have cases. *)
Lemma shaped_nonempty tss st :
  Forall (λ ts, Forall (λ tg, test_case tg ≠ []) (test_group ts)) tss →
  shape st = map (λ ts, expected_configs (test_config ts) (test_group ts)) tss →
  Forall (Forall (λ co, Forall (λ gr, case_result gr ≠ []) (group_result co))) (suites st).
Proof.
  intros Hne Hsh. unfold shape in Hsh. revert tss Hne Hsh. induction (suites st) as [|cs l IH]; intros [|ts tss] Hne; try done.
  intros [= Hcs Hl]. apply Forall_cons in Hne as [Hts Hne]. constructor; [|by eapply IH].
  unfold expected_configs in Hcs. destruct (test_config ts) as [|rtc rtcs]; [by destruct cs|].
  destruct cs as [|co cs]; [done|]. injection Hcs as _ Hg Hcs. constructor.
  - clear -Hts Hg. revert Hg Hts. generalize (test_group ts). induction (group_result co) as [|gr grs IHg]; intros [|tg tgs]; try done.
    intros [= Hg Hgs] [Htg Htgs]%Forall_cons. constructor; [|by eapply IHg].
    intros E. unfold group_shape in Hg. rewrite E in Hg. by destruct (test_case tg).
  - clear -Hcs. revert rtcs Hcs. induction cs as [|co' cs IHc]; intros [|r rtcs]; try done. intros [= _ Hg Hcs].
    constructor; [|by eapply IHc]. by destruct (group_result co').
Qed.

(** What the suites need for the report: cases in every group, and a known category. *)
Definition suite_reports (ts : ide_run_test_suite_t) : Prop :=
  Forall (λ tg, test_case tg ≠ []) (test_group ts) ∧
  0 ≤ ts_category ts < Z.of_nat (length TEEIO_TEST_CATEGORY_NAMES).

Lemma reportable_results tss cs :
  Forall suite_ready tss → Forall suite_reports tss → length tss = length cs →
  Forall (Forall config_ok) cs → Forall (Forall (λ co, Forall fine (group_result co))) cs →
  Forall (Forall (λ co, Forall (λ gr, case_result gr ≠ []) (group_result co))) cs →
  Forall reportable (zip tss cs).
Proof.
  intros Hr Hs Hlen Hok Hf Hne. revert cs Hlen Hok Hf Hne.
  induction tss as [|ts tss IH]; intros [|c cs] Hlen Hok Hf Hne; try done.
  apply Forall_cons in Hr as [Hr1 Hr], Hs as [Hs1 Hs], Hok as [Hok1 Hok], Hf as [Hf1 Hf], Hne as [Hne1 Hne].
  constructor; [|apply IH; auto]. split_and!; [apply Hr1|apply Hs1|apply Hs1|done|].
  apply Forall_forall. intros co Hco. apply Forall_forall. intros gr Hgr. cbn [snd] in Hco.
  destruct (proj1 (Forall_forall _ _) (proj1 (Forall_forall _ _) Hf1 co Hco) gr Hgr) as [Hl Ht].
  split; [|by split]. exact (proj1 (Forall_forall _ _) (proj1 (Forall_forall _ _) Hne1 co Hco) gr Hgr).
Qed.

Lemma print_reportable l :
  Forall reportable l →
  ∃ d, print_test_results l true = Ok d ∧ print_test_results l false = Ok (summary_of d).
Proof.
  intros Hl. unfold print_test_results.
  assert (H : ∃ d b, print_all (print_suite true) l = Ok d ∧ print_all (print_suite false) l = Ok b ∧
    count_lines d no_tally = with_out (0, 0) (0, 0) b).
  { induction Hl as [|x l Hx _ (d & b & Ed & Eb & Ec)]; [by exists [], []|].
    destruct (count_suite_lines x b Hx) as (d1 & b1 & Ed1 & Eb1 & Ec1).
    exists (d1 ++ d), (b1 ++ b). cbn [print_all]. rewrite Ed, Eb, Ed1, Eb1. split_and!; [done..|].
    by rewrite count_lines_app, Ec, Ec1. }
  destruct H as (d & b & -> & -> & Ec). cbn [res_bind]. eexists. split; [done|].
  unfold summary_of. rewrite !count_lines_cons, Ec. done.
Qed.

(** The reports of a run that is not stopped. *)
Lemma run_is_reported {W : Type} `{TestCode W} tss (w : W) e :
  (∀ f ctx st w o, call_func f ctx st w = Ok o → Forall op_typed (out_ops o)) →
  Forall suite_ready tss → Forall suite_reports tss →
  run_suites 0 tss (start w tss) = Ok (tt, e) →
  shape (es_results e) = map (λ ts, expected_configs (test_config ts) (test_group ts)) tss → counters_ok (es_results e) →
  ∃ d, print_test_results (zip tss (suites (es_results e))) true = Ok d ∧
    print_test_results (zip tss (suites (es_results e))) false = Ok (summary_of d).
Proof.
  intros Hcode Hr Hs Hrun Hshape Hc. apply print_reportable, reportable_results; auto.
  - rewrite <- length_shape, Hshape. by rewrite length_map.
  - by eapply fine_run.
  - eapply shaped_nonempty; [|exact Hshape]. apply Forall_forall. intros ts Hts.
    exact (proj1 (proj1 (Forall_forall _ _) Hs ts Hts)).
Qed.

(** C6: after the run of prepared suites whose groups have cases, by test functions that pass or fail only
    assertions of type TEST, both reports are printed to the end, and the summary is the one a reader of
    the detailed report would make: every suite, group and case is
    listed in order, with the numbers of the passed and of the failed assertion lines below it. *)
Theorem summary_follows_details {W : Type} `{TestCode W} tss (w : W) :
  well_behaved (W := W) →
  (∀ f ctx st w o, call_func f ctx st w = Ok o → Forall op_typed (out_ops o)) →
  Forall suite_ready tss → Forall suite_reports tss →
  ∃ e d, run_suites 0 tss (start w tss) = Ok (tt, e) ∧
    print_test_results (zip tss (suites (es_results e))) true = Ok d ∧
    print_test_results (zip tss (suites (es_results e))) false = Ok (summary_of d).
Proof.
  intros Hwb Hcode Hr Hs.
  destruct (run_suites_spec Hwb tss 0 (start w tss) (length tss) (start_idle w tss) ltac:(lia) Hr)
    as (e & tr & Hrun & ([Hc _] & _) & Hsh & _ & _).
  assert (Hshape : shape (es_results e) = map (λ ts, expected_configs (test_config ts) (test_group ts)) tss).
  { apply list_eq. intros i. rewrite Hsh, start_shape, list_lookup_fmap, decide_True, Nat.sub_0_r by lia. by destruct (tss !! i). }
  destruct (run_is_reported tss w e Hcode Hr Hs Hrun Hshape Hc) as (d & Hd). by exists e, d.
Qed.

(** ** Witnesses *)

#[local] Existing Instance example_code.

Lemma summary_follows_details_witness :
  ∃ e d, run_suites 0 [Engine.example_suite] (start tt [Engine.example_suite]) = Ok (tt, e) ∧
    print_test_results (zip [Engine.example_suite] (suites (es_results e))) true = Ok d ∧
    print_test_results (zip [Engine.example_suite] (suites (es_results e))) false = Ok (summary_of d).
Proof.
  apply (summary_follows_details [Engine.example_suite] tt).
  - exact example_code_well_behaved.
  - intros f ctx st w o [= <-]. cbn [out_ops]. destruct ctx; try constructor.
    destruct (g_current_case_result st) as [p|]; [|constructor].
    destruct (get_case p st); [|constructor]. destruct (String.eqb f "run"); [|constructor]. constructor; [by right|constructor].
  - exact example_ready.
  - constructor; [|constructor]. split; [repeat constructor; discriminate|]. vm_compute. split; [discriminate|reflexivity].
Defined.

(** A report with a failure, as text. *)
Definition example_group : ide_run_test_group_result_t :=
  {| group_name := bs "SelectiveIDE"; group_passed := 1; group_failed := 1;
     func_results := replicate 2 {| func_result := TEEIO_TEST_RESULT_PASS; func_extra_data := [] |};
     case_result := [{| case_class_name := bs "Query"; case_name := bs "Query.1"; class_id := 0; case_id := 1;
       case_passed := 1; case_failed := 1; config_item_result := [];
       assertion_result := map (λ '(i, ty, r), {| ar_type := ty; ar_class_id := 0; ar_case_id := 1; ar_assertion_id := i;
                                                  ar_result := r; ar_extra_data := bs "x" |})
         [(1, IDE_COMMON_TEST_CASE_ASSERTION_TYPE_TEST, TEEIO_TEST_RESULT_PASS);
          (0, IDE_COMMON_TEST_CASE_ASSERTION_TYPE_SEPARATOR, TEEIO_TEST_RESULT_NOT_TESTED);
          (2, IDE_COMMON_TEST_CASE_ASSERTION_TYPE_TEST, TEEIO_TEST_RESULT_FAILED)] |}] |}.

Example example_group_detail :
  (let* ls := print_group true example_group in Ok (map render ls)) =
  Ok (map (λ s, s ++ [10]) [bs "     TestGroup (Query) - setup pass "; bs "       TestCase Query.1: fail";
     bs "           Assertion1.1.1: - pass x"; bs "       x"; bs "           Assertion1.1.2: - fail x"; [];
     bs "     TestGroup (Query) - teardown pass"; []]).
Proof. vm_compute. reflexivity. Qed.

Example example_group_summary :
  (let* ls := print_group false example_group in Ok (map render ls)) =
  Ok (map (λ s, s ++ [10]) [bs "     TestGroup (Query) - pass: 1, fail: 1";
     bs "       TestCase Query.1: fail (pass: 1, fail: 1)"; []]).
Proof. vm_compute. reflexivity. Qed.

(** A group without a case result cannot be printed: its class is read through a null pointer. *)
Example empty_group_not_printed detail n p f fs :
  print_group detail {| group_name := n; group_passed := p; group_failed := f; func_results := fs; case_result := [] |}
  = Stop Undefined.
Proof. reflexivity. Qed.
End Report.
