(* ===== verification/Cmdline.v ===== *)
(** * The command line (teeio_validator/cmdline.c; [validate_file_name] of library/helperlib/utils.c)

    [getopt] and [atoi] of the C library are defined as they behave on GNU
    systems; whether a file exists is a parameter.  The global variables the
    options set are the fields of one record. *)
From Stdlib Require Import ZArith Lia Ascii String.
From stdpp Require Import prelude.
From S2P Require Import Prelude Utils IniFile TestConfig ConfigDump.
Import CLib Utils TestConfig ConfigDump.

Open Scope Z_scope.
Open Scope teeio_scope.

Module Cmdline.

(** ** The C library *)

Definition LONG_MAX : Z := 2 ^ 63 - 1.
Definition LONG_MIN : Z := - 2 ^ 63.

(** [(int)strtol(nptr, NULL, 10)] *)
Definition atoi (nptr : bytes) : Z :=
  let '(neg, s) := split_sign (drop_spaces nptr) in
  let v := digits_value 10 (fst (span_digits 10 s)) in
  s32 (Z.max LONG_MIN (Z.min LONG_MAX (if neg then - v else v))).

(** The arguments that are left, and what is left of the one being read. *)
Record getopt_state := { rest : list bytes; nextchar : bytes }.

(** [None] is the return value -1; else the character returned and [optarg]. *)
Definition getopt_char (optstring : list (Z * bool)) (c : Z) (next : bytes) (rest : list bytes)
    : option (Z * bytes) * getopt_state :=
  match List.find (λ o, fst o =? c) optstring with
  | None => (Some (char "?", []), {| rest := rest; nextchar := next |})
  | Some (_, false) => (Some (c, []), {| rest := rest; nextchar := next |})
  | Some (_, true) =>
      match next, rest with
      | _ :: _, _ => (Some (c, next), {| rest := rest; nextchar := [] |})
      | [], a :: rest => (Some (c, a), {| rest := rest; nextchar := [] |})
      | [], [] => (Some (char "?", []), {| rest := []; nextchar := [] |})
      end
  end.

(** The next argument: "--" ends the options; an argument that is not an option is passed over. *)
Fixpoint getopt_arg (optstring : list (Z * bool)) (args : list bytes) : option (Z * bytes) * getopt_state :=
  match args with
  | [] => (None, {| rest := []; nextchar := [] |})
  | a :: args' =>
      if streq a (bs "--") then (None, {| rest := args; nextchar := [] |}) else
      match a with
      | d :: c :: next => if d =? char "-" then getopt_char optstring c next args' else getopt_arg optstring args'
      | _ => getopt_arg optstring args'
      end
  end.

Definition getopt (optstring : list (Z * bool)) (st : getopt_state) : option (Z * bytes) * getopt_state :=
  match nextchar st with
  | c :: next => getopt_char optstring c next (rest st)
  | [] => getopt_arg optstring (rest st)
  end.

(** The characters that are left to read, with one more per argument. *)
Definition arguments_size (args : list bytes) : nat := sum_list_with (λ a, S (length a)) args.

(** What is left to read gets shorter at every turn. *)
Definition left (st : getopt_state) : nat := arguments_size (rest st) + length (nextchar st).

(** *** The loop over the options

    [while ((opt = getopt(argc, argv, optstring)) != -1) switch (opt) ...]: [parse] is the [switch], [None] its [return false]. *)
Section options.
Context {O : Type} (optstring : list (Z * bool)) (parse : Z → bytes → O → res (option O)).

Definition option_turn_of (s : getopt_state * O) : res (getopt_state * O + bool * O) :=
  let '(st, o) := s in
  match getopt optstring st with
  | (None, _) => Ok (inr (true, o))
  | (Some (opt, optarg), st) =>
      let* r := parse opt optarg o in
      match r with
      | None => Ok (inr (false, o))
      | Some o => Ok (inl (st, o))
      end
  end.

(** Each turn reads a character at least. *)
Definition read_options (argv : list bytes) (o : O) : res (bool * O) :=
  while option_turn_of (Pos.of_succ_nat (arguments_size argv)) ({| rest := tail argv; nextchar := [] |}, o).

Lemma getopt_char_left c next args o st :
  getopt_char optstring c next args = (Some o, st) → (left st <= arguments_size args + length next)%nat.
Proof.
  unfold getopt_char, left. destruct (List.find _ _) as [[k [|]]|]; [|by intros [= _ <-]..].
  destruct next as [|x next]; [|intros [= _ <-]; simpl; lia].
  destruct args as [|a args]; intros [= _ <-]; simpl; lia.
Qed.

Lemma getopt_left st o st' : getopt optstring st = (Some o, st') → (left st' < left st)%nat.
Proof.
  unfold getopt. destruct (nextchar st) as [|c next] eqn:En.
  - unfold left at 2. rewrite En, Nat.add_0_r. generalize (rest st). intros args. induction args as [|a args IH]; [done|].
    cbn [getopt_arg]. destruct (streq a _); [done|]. change (arguments_size (a :: args)) with (S (length a) + arguments_size args)%nat.
    destruct a as [|d [|c next]]; [intros H%IH; lia..|]. destruct (d =? char "-"); [|intros H%IH; lia].
    intros H%getopt_char_left. simpl. lia.
  - intros H%getopt_char_left. unfold left at 2. rewrite En. simpl. lia.
Qed.

(** The loop ends, whatever the arguments are. *)
Lemma options_end prog argv o : (∀ opt arg o e, parse opt arg o ≠ Stop e) → returns (read_options (prog :: argv) o).
Proof.
  intros Hp. unfold read_options. cbn [tail].
  apply (while_total _ (λ _, True) (λ s, Z.of_nat (left (fst s)))); [|done|].
  - intros [st o'] _. unfold option_turn_of. destruct (getopt optstring st) as [[[opt arg]|] st'] eqn:Eg; [|done].
    destruct (parse opt arg o') as [[o''|]|e] eqn:Ep; cbn [res_bind]; [|done|].
    + split; [done|]. apply getopt_left in Eg. cbn [fst]. lia.
    + by apply Hp in Ep.
  - unfold left. simpl. change (sum_list_with _ (prog :: argv)) with (arguments_size (prog :: argv)). simpl. unfold arguments_size. lia.
Qed.
End options.

(** "f:t:c:s:l:g:b:n:e:kh" *)
Definition OPTIONS : list (Z * bool) :=
  map (λ s, (char s, true)) ["f"; "t"; "c"; "s"; "l"; "g"; "b"; "n"; "e"]%string ++
  map (λ s, (char s, false)) ["k"; "h"]%string.

(** ** The options *)

Definition MAX_FILE_NAME : Z := 256.
Definition MAX_CASE_NAME_LENGTH : Z := 32.

(** What the options set: parameters of [parse_cmdline_option] and global variables. *)
Record cmdline := {
  file_name : bytes;
  print_usage : bool;
  debug_level : Z;
  g_run_test_suite : bool;
  g_test_case : bytes;      (* the cells written by strncpy, up to a NUL *)
  g_top_id : Z;
  g_config_id : Z;
  g_scan_segment : Z;
  g_scan_bus : Z;
  g_test_rounds : Z;
  g_test_interval : Z;
  g_teeio_fixed_key : bool
}.

(** The values of teeio_validator.c and of the locals of [main]. *)
Definition no_options : cmdline :=
  {| file_name := []; print_usage := false; debug_level := TEEIO_DEBUG_NUM; g_run_test_suite := true; g_test_case := [];
     g_top_id := -1; g_config_id := -1; g_scan_segment := INVALID_SCAN_SEGMENT; g_scan_bus := INVALID_SCAN_BUS;
     g_test_rounds := 0; g_test_interval := 0; g_teeio_fixed_key := false |}.

Definition set_file (v : bytes) (o : cmdline) : cmdline :=
  {| file_name := v; print_usage := print_usage o; debug_level := debug_level o; g_run_test_suite := g_run_test_suite o;
     g_test_case := g_test_case o; g_top_id := g_top_id o; g_config_id := g_config_id o;
     g_scan_segment := g_scan_segment o; g_scan_bus := g_scan_bus o; g_test_rounds := g_test_rounds o;
     g_test_interval := g_test_interval o; g_teeio_fixed_key := g_teeio_fixed_key o |}.
Definition set_usage (o : cmdline) : cmdline :=
  {| file_name := file_name o; print_usage := true; debug_level := debug_level o; g_run_test_suite := g_run_test_suite o;
     g_test_case := g_test_case o; g_top_id := g_top_id o; g_config_id := g_config_id o;
     g_scan_segment := g_scan_segment o; g_scan_bus := g_scan_bus o; g_test_rounds := g_test_rounds o;
     g_test_interval := g_test_interval o; g_teeio_fixed_key := g_teeio_fixed_key o |}.
Definition set_level (v : Z) (o : cmdline) : cmdline :=
  {| file_name := file_name o; print_usage := print_usage o; debug_level := v; g_run_test_suite := g_run_test_suite o;
     g_test_case := g_test_case o; g_top_id := g_top_id o; g_config_id := g_config_id o;
     g_scan_segment := g_scan_segment o; g_scan_bus := g_scan_bus o; g_test_rounds := g_test_rounds o;
     g_test_interval := g_test_interval o; g_teeio_fixed_key := g_teeio_fixed_key o |}.
Definition set_case (v : bytes) (o : cmdline) : cmdline :=
  {| file_name := file_name o; print_usage := print_usage o; debug_level := debug_level o; g_run_test_suite := false;
     g_test_case := v; g_top_id := g_top_id o; g_config_id := g_config_id o;
     g_scan_segment := g_scan_segment o; g_scan_bus := g_scan_bus o; g_test_rounds := g_test_rounds o;
     g_test_interval := g_test_interval o; g_teeio_fixed_key := g_teeio_fixed_key o |}.
Definition set_top (v : Z) (o : cmdline) : cmdline :=
  {| file_name := file_name o; print_usage := print_usage o; debug_level := debug_level o; g_run_test_suite := g_run_test_suite o;
     g_test_case := g_test_case o; g_top_id := v; g_config_id := g_config_id o;
     g_scan_segment := g_scan_segment o; g_scan_bus := g_scan_bus o; g_test_rounds := g_test_rounds o;
     g_test_interval := g_test_interval o; g_teeio_fixed_key := g_teeio_fixed_key o |}.
Definition set_config (v : Z) (o : cmdline) : cmdline :=
  {| file_name := file_name o; print_usage := print_usage o; debug_level := debug_level o; g_run_test_suite := g_run_test_suite o;
     g_test_case := g_test_case o; g_top_id := g_top_id o; g_config_id := v;
     g_scan_segment := g_scan_segment o; g_scan_bus := g_scan_bus o; g_test_rounds := g_test_rounds o;
     g_test_interval := g_test_interval o; g_teeio_fixed_key := g_teeio_fixed_key o |}.
Definition set_segment (v : Z) (o : cmdline) : cmdline :=
  {| file_name := file_name o; print_usage := print_usage o; debug_level := debug_level o; g_run_test_suite := g_run_test_suite o;
     g_test_case := g_test_case o; g_top_id := g_top_id o; g_config_id := g_config_id o;
     g_scan_segment := v; g_scan_bus := g_scan_bus o; g_test_rounds := g_test_rounds o;
     g_test_interval := g_test_interval o; g_teeio_fixed_key := g_teeio_fixed_key o |}.
Definition set_bus (v : Z) (o : cmdline) : cmdline :=
  {| file_name := file_name o; print_usage := print_usage o; debug_level := debug_level o; g_run_test_suite := g_run_test_suite o;
     g_test_case := g_test_case o; g_top_id := g_top_id o; g_config_id := g_config_id o;
     g_scan_segment := g_scan_segment o; g_scan_bus := v; g_test_rounds := g_test_rounds o;
     g_test_interval := g_test_interval o; g_teeio_fixed_key := g_teeio_fixed_key o |}.
Definition set_rounds (v : Z) (o : cmdline) : cmdline :=
  {| file_name := file_name o; print_usage := print_usage o; debug_level := debug_level o; g_run_test_suite := g_run_test_suite o;
     g_test_case := g_test_case o; g_top_id := g_top_id o; g_config_id := g_config_id o;
     g_scan_segment := g_scan_segment o; g_scan_bus := g_scan_bus o; g_test_rounds := v;
     g_test_interval := g_test_interval o; g_teeio_fixed_key := g_teeio_fixed_key o |}.
Definition set_interval (v : Z) (o : cmdline) : cmdline :=
  {| file_name := file_name o; print_usage := print_usage o; debug_level := debug_level o; g_run_test_suite := g_run_test_suite o;
     g_test_case := g_test_case o; g_top_id := g_top_id o; g_config_id := g_config_id o;
     g_scan_segment := g_scan_segment o; g_scan_bus := g_scan_bus o; g_test_rounds := g_test_rounds o;
     g_test_interval := v; g_teeio_fixed_key := g_teeio_fixed_key o |}.
Definition set_fixed_key (o : cmdline) : cmdline :=
  {| file_name := file_name o; print_usage := print_usage o; debug_level := debug_level o; g_run_test_suite := g_run_test_suite o;
     g_test_case := g_test_case o; g_top_id := g_top_id o; g_config_id := g_config_id o;
     g_scan_segment := g_scan_segment o; g_scan_bus := g_scan_bus o; g_test_rounds := g_test_rounds o;
     g_test_interval := g_test_interval o; g_teeio_fixed_key := true |}.

Section cmdline.
(** [access(file_name, F_OK) != -1] *)
Context (exists_file : bytes → bool).

Definition validate_file_name (name : option bytes) : bool :=
  match name with
  | None => false
  | Some s => if MAX_FILE_NAME <? strlen s then false else exists_file s
  end.

(** [sprintf(file_name, "%s", optarg)] into [char[MAX_FILE_NAME]]. *)
Definition copy_file_name (s : bytes) : res bytes := if strlen s <? MAX_FILE_NAME then Ok s else Stop Undefined.

(** One [case] of the [switch]: [None] is [return false]. *)
Definition parse_option (opt : Z) (optarg : bytes) (o : cmdline) : res (option cmdline) :=
  if opt =? char "f" then
    if negb (validate_file_name (Some optarg)) then Ok None else
    let* s := copy_file_name optarg in Ok (Some (set_file s o))
  else if opt =? char "s" then Ok (Some (set_case (take (Z.to_nat MAX_CASE_NAME_LENGTH) optarg) o))
  else if opt =? char "t" then
    let v := atoi optarg in
    if (v <=? 0) || (MAX_TOPOLOGY_NUM <? v) then Ok None else Ok (Some (set_top v o))
  else if opt =? char "c" then
    let v := atoi optarg in
    if (v <=? 0) || (MAX_CONFIGURATION_NUM <? v) then Ok None else Ok (Some (set_config v o))
  else if opt =? char "g" then
    match convert_hex_str_to_uint16 (Some optarg) (Some 0) with
    | (true, Some data16) => Ok (Some (set_segment data16 o))
    | _ => Ok None
    end
  else if opt =? char "b" then
    match convert_hex_str_to_uint8 (Some optarg) (Some 0) with
    | (true, Some data8) => Ok (Some (set_bus data8 o))
    | _ => Ok None
    end
  else if opt =? char "l" then Ok (Some (set_level (get_ide_log_level_from_string (Some optarg)) o))
  else if opt =? char "n" then
    let v := atoi optarg in if v <=? 0 then Ok None else Ok (Some (set_rounds v o))
  else if opt =? char "e" then
    let v := atoi optarg in if v <=? 0 then Ok None else Ok (Some (set_interval v o))
  else if opt =? char "k" then Ok (Some (set_fixed_key o))
  else if opt =? char "h" then Ok (Some (set_usage o))
  else Ok None.

Definition option_turn : getopt_state * cmdline → res (getopt_state * cmdline + bool * cmdline) := option_turn_of OPTIONS parse_option.

(** The text of the command line that is printed first, and where the loop over it stops. *)
Fixpoint raw_command_line (argv : list bytes) (buf : bytes) : bytes :=
  match argv with
  | [] => buf
  | a :: argv => if Ini.MAX_LINE_LENGTH <=? strlen buf + strlen a + 1 then buf
                 else raw_command_line argv (buf ++ a ++ bs " ")
  end.

Definition parse_cmdline_option (argv : list bytes) : res (bool * cmdline) :=
  let* _ := TEEIO_ASSERT (nonempty argv) in read_options OPTIONS parse_option argv no_options.

(** ** The loop ends *)

Lemma parse_option_Stop opt arg o e :
  (∀ s, exists_file s = true → strlen s ≠ MAX_FILE_NAME) → parse_option opt arg o ≠ Stop e.
Proof.
  intros Hf. unfold parse_option, copy_file_name, validate_file_name.
  destruct (opt =? char "f"); [|repeat case_match; congruence].
  destruct (Z.ltb_spec MAX_FILE_NAME (strlen arg)); [done|]. destruct (exists_file arg) eqn:E; [|done].
  specialize (Hf arg E). rewrite (proj2 (Z.ltb_lt _ _)) by lia. done.
Qed.

(** Reading the command line ends on any arguments, with its fuel: every turn of the loop reads a
    character, and no option stops it but "-f" with the name of an existing file of exactly 256
    characters, which [validate_file_name] lets through although the buffer has no room for its NUL. *)
Theorem command_line_is_read argv :
  argv ≠ [] → (∀ s, exists_file s = true → strlen s ≠ MAX_FILE_NAME) →
  returns (parse_cmdline_option argv).
Proof.
  intros Hne Hf. destruct argv as [|prog argv]; [done|]. unfold parse_cmdline_option. cbn [nonempty TEEIO_ASSERT res_bind].
  apply options_end. intros opt arg o e. by apply parse_option_Stop.
Qed.

(** ** The options of the usage are understood *)

(** An option with its value, as the usage lists them. *)
Inductive choice :=
| ChFile (s : bytes) | ChCase (s : bytes) | ChTop (n : Z) | ChConfig (n : Z) | ChLevel (i : Z)
| ChSegment (n : Z) | ChBus (n : Z) | ChRounds (n : Z) | ChInterval (n : Z) | ChFixedKey | ChHelp.

(** The letter and, if the option has one, the text of its value. *)
Definition letter (c : choice) : Z :=
  char (match c with
        | ChFile _ => "f" | ChCase _ => "s" | ChTop _ => "t" | ChConfig _ => "c" | ChLevel _ => "l" | ChSegment _ => "g"
        | ChBus _ => "b" | ChRounds _ => "n" | ChInterval _ => "e" | ChFixedKey => "k" | ChHelp => "h"
        end).
Definition value (c : choice) : option bytes :=
  match c with
  | ChFile s | ChCase s => Some s
  | ChTop n | ChConfig n | ChRounds n | ChInterval n => Some (dec n)
  | ChLevel i => Some (nth (Z.to_nat i) m_ide_log_level [])
  | ChSegment n => Some (bs "0x" ++ PcieHelper.hex_fixed 4 n)
  | ChBus n => Some (bs "0x" ++ PcieHelper.hex_fixed 2 n)
  | ChFixedKey | ChHelp => None
  end.

(** As two arguments, or in one. *)
Definition words (c : choice * bool) : list bytes :=
  match value (fst c) with
  | None => [[char "-"; letter (fst c)]]
  | Some v => if snd c && nonempty v then [char "-" :: letter (fst c) :: v] else [[char "-"; letter (fst c)]; v]
  end.

Definition valid (c : choice) : Prop :=
  match c with
  | ChFile s => strlen s < MAX_FILE_NAME ∧ exists_file s = true
  | ChCase s => strlen s < MAX_CASE_NAME_LENGTH
  | ChTop n => 0 < n ≤ MAX_TOPOLOGY_NUM
  | ChConfig n => 0 < n ≤ MAX_CONFIGURATION_NUM
  | ChLevel i => 0 ≤ i < TEEIO_DEBUG_NUM
  | ChSegment n => 0 ≤ n ≤ UINT16_MAX
  | ChBus n => 0 ≤ n ≤ UINT8_MAX
  | ChRounds n | ChInterval n => 0 < n < 2 ^ 31
  | ChFixedKey | ChHelp => True
  end.

Definition choose (c : choice) : cmdline → cmdline :=
  match c with
  | ChFile s => set_file s | ChCase s => set_case s | ChTop n => set_top n | ChConfig n => set_config n
  | ChLevel i => set_level i | ChSegment n => set_segment n | ChBus n => set_bus n | ChRounds n => set_rounds n
  | ChInterval n => set_interval n | ChFixedKey => set_fixed_key | ChHelp => set_usage
  end.

(** *** Numbers *)

Lemma dec_digits_spec fuel n acc :
  0 ≤ n < 10 ^ Z.of_nat fuel → fuel ≠ O →
  ∃ ds, dec_digits fuel n acc = ds ++ acc ∧ ds ≠ [] ∧ forallb (λ c, (48 <=? c) && (c <? 58)) ds = true ∧
    digits_value 10 ds = n.
Proof.
  revert n acc. induction fuel as [|fuel IH]; intros n acc Hn Hf; [done|]. cbn [dec_digits]. change (char "0") with 48.
  assert (Hm : 0 ≤ n mod 10 < 10) by (apply Z.mod_pos_bound; lia).
  assert (Hd : (48 <=? 48 + n mod 10) && (48 + n mod 10 <? 58) = true).
  { rewrite andb_true_iff, Z.leb_le, Z.ltb_lt. lia. }
  assert (Hv : digit_val (48 + n mod 10) = n mod 10).
  { unfold digit_val. rewrite (proj2 (andb_true_iff _ _)) by (rewrite !Z.leb_le; lia). lia. }
  destruct (Z.ltb_spec n 10) as [Hs|Hs].
  - exists [48 + n mod 10]. split_and!; [done|done|cbn [forallb]; by rewrite Hd|].
    unfold digits_value. cbn [fold_left]. rewrite Hv, Z.mod_small; lia.
  - destruct (IH (n / 10) ((48 + n mod 10) :: acc)) as (ds & -> & Hne & Hds & Hval).
    { rewrite Nat2Z.inj_succ, Z.pow_succ_r in Hn by lia. split; [apply Z.div_pos; lia|]. apply Z.div_lt_upper_bound; lia. }
    { intros ->. simpl in Hn. lia. }
    exists (ds ++ [48 + n mod 10]). rewrite <- app_assoc. split_and!; [done|by destruct ds| |].
    + rewrite forallb_app, Hds. cbn [forallb]. by rewrite Hd.
    + rewrite PcieHelper.digits_value_app, Hval, Hv. pose proof (Z.div_mod n 10). lia.
Qed.

Lemma atoi_dec n : 0 ≤ n < 2 ^ 31 → atoi (dec n) = n.
Proof.
  intros Hn. unfold dec. rewrite (proj2 (Z.ltb_ge _ _)) by lia.
  destruct (dec_digits_spec 20 n []) as (ds & -> & Hne & Hds & Hv); [simpl; lia|done|]. rewrite app_nil_r.
  destruct ds as [|c ds]; [done|]. pose proof Hds as Hc. cbn [forallb] in Hc.
  apply andb_true_iff in Hc as [[Hc1 Hc2]%andb_true_iff _]. rewrite Z.leb_le in Hc1. rewrite Z.ltb_lt in Hc2.
  unfold atoi.
  replace (drop_spaces (c :: ds)) with (c :: ds).
  2: { simpl. unfold isspace. rewrite (proj2 (Z.eqb_neq c 32)), (proj2 (Z.leb_gt c 13)) by lia. by rewrite andb_false_r. }
  replace (split_sign (c :: ds)) with (false, c :: ds).
  2: { simpl. by rewrite (proj2 (Z.eqb_neq c 45)), (proj2 (Z.eqb_neq c 43)) by lia. }
  rewrite span_digits_all; cbn [fst].
  - rewrite Hv. unfold LONG_MAX, LONG_MIN. rewrite Z.min_r, Z.max_r by lia. by apply s32_small.
  - rewrite forallb_forall in Hds |- *. intros x Hx. specialize (Hds x Hx). apply andb_true_iff in Hds as [H1 H2].
    rewrite Z.leb_le in H1. rewrite Z.ltb_lt in *. unfold digit_val.
    rewrite (proj2 (andb_true_iff _ _)) by (rewrite !Z.leb_le; lia). lia.
Qed.

Lemma hex_value_fixed max w n :
  (0 < w)%nat → 0 ≤ n < 16 ^ Z.of_nat w → n ≤ max → hex_value max (bs "0x" ++ PcieHelper.hex_fixed w n) = Some n.
Proof.
  intros Hw Hn Hm. destruct (PcieHelper.hex_fixed_value w n) as [Hd Hv]. rewrite Z.mod_small in Hv by done.
  cbn [app bs map list_ascii_of_string]. unfold hex_value. cbv zeta. rewrite Hd, Hv, (proj2 (Z.leb_le _ _) Hm).
  pose proof (PcieHelper.hex_fixed_length w n). destruct (PcieHelper.hex_fixed w n); [simpl in *; lia|]. done.
Qed.

(** *** The loop *)

(** Comparisons of option letters. *)
Ltac letters :=
  repeat match goal with
  | |- context [char ?a =? char ?b] => first [change (char a =? char b) with true | change (char a =? char b) with false]; cbv iota
  end.

Lemma level_read i : 0 ≤ i < TEEIO_DEBUG_NUM → get_ide_log_level_from_string (Some (nth (Z.to_nat i) m_ide_log_level [])) = i.
Proof.
  intros Hi. assert (Hin : i ∈ seqZ 0 4) by (apply elem_of_seqZ; exact Hi). clear Hi.
  repeat (apply elem_of_cons in Hin as [->|Hin]; [done|]). by apply elem_of_nil in Hin.
Qed.

Lemma parse_choice c o :
  valid c → parse_option (letter c) (from_option id [] (value c)) o = Ok (Some (choose c o)).
Proof.
  intros Hv. destruct c; cbn [value from_option id choose valid] in *; unfold parse_option, letter; cbv beta iota; letters;
    unfold MAX_TOPOLOGY_NUM, MAX_CONFIGURATION_NUM, UINT16_MAX, UINT8_MAX in *.
  - destruct Hv as [Hl He]. unfold validate_file_name, copy_file_name. cbn [negb].
    rewrite (proj2 (Z.ltb_ge _ _)), He, (proj2 (Z.ltb_lt _ _)) by lia. done.
  - rewrite take_ge; [done|]. unfold strlen, MAX_CASE_NAME_LENGTH in *. lia.
  - rewrite atoi_dec, (proj2 (Z.leb_gt _ _)), (proj2 (Z.ltb_ge _ _)) by lia. done.
  - rewrite atoi_dec, (proj2 (Z.leb_gt _ _)), (proj2 (Z.ltb_ge _ _)) by lia. done.
  - by rewrite level_read.
  - rewrite (proj1 (convert_hex_str_spec _ _)), hex_value_fixed; [done|lia|change (16 ^ Z.of_nat 4) with (2 ^ 16); lia|unfold UINT16_MAX; lia].
  - rewrite (proj1 (proj2 (convert_hex_str_spec _ _))), hex_value_fixed; [done|lia|change (16 ^ Z.of_nat 2) with (2 ^ 8); lia|unfold UINT8_MAX; lia].
  - rewrite atoi_dec, (proj2 (Z.leb_gt _ _)) by lia. done.
  - rewrite atoi_dec, (proj2 (Z.leb_gt _ _)) by lia. done.
  - done.
  - done.
Qed.

Lemma letter_known c : List.find (λ o, fst o =? letter c) OPTIONS = Some (letter c, is_some (value c)) ∧ letter c ≠ char "-".
Proof. by destruct c. Qed.

Lemma getopt_dash x next args :
  x ≠ char "-" → getopt OPTIONS {| rest := (char "-" :: x :: next) :: args; nextchar := [] |} = getopt_char OPTIONS x next args.
Proof.
  intros Hx. unfold getopt. cbn [nextchar rest getopt_arg]. destruct (streq _ _) eqn:E.
  - apply streq_true in E. by injection E as -> _.
  - by rewrite Z.eqb_refl.
Qed.

Lemma getopt_words c args :
  getopt OPTIONS {| rest := words c ++ args; nextchar := [] |} =
  (Some (letter (fst c), from_option id [] (value (fst c))), {| rest := args; nextchar := [] |}).
Proof.
  destruct c as [c attached]. unfold words. cbn [fst snd]. destruct (letter_known c) as [Hf Hd].
  destruct (value c) as [v|]; cbn [is_some from_option id] in *.
  - destruct (attached && nonempty v) eqn:Ea; cbn [app]; rewrite getopt_dash by done; unfold getopt_char; rewrite Hf; [|done].
    apply andb_true_iff in Ea as [_ Ev]. by destruct v.
  - cbn [app]. rewrite getopt_dash by done. unfold getopt_char. by rewrite Hf.
Qed.

Lemma options_read cs o n :
  Forall (λ c, valid (fst c)) cs → (length cs < n)%nat →
  iter_nat option_turn n ({| rest := flat_map words cs; nextchar := [] |}, o) =
  Ok (inr (true, fold_left (λ o c, choose (fst c) o) cs o)).
Proof.
  intros Hv. revert o n. induction Hv as [|c cs Hc _ IH]; intros o [|n] Hn; simpl in Hn; try lia; [done|].
  cbn [flat_map iter_nat]. unfold option_turn at 1, option_turn_of. rewrite getopt_words, (parse_choice _ _ Hc). cbn [res_bind again fold_left].
  apply IH. lia.
Qed.

Lemma words_size c : (1 ≤ arguments_size (words c))%nat.
Proof. unfold words. repeat case_match; simpl; lia. Qed.

Lemma words_bound cs : (length cs ≤ arguments_size (flat_map words cs))%nat.
Proof.
  induction cs as [|c cs IH]; [done|]. cbn [flat_map length]. unfold arguments_size in *. rewrite sum_list_with_app.
  pose proof (words_size c). unfold arguments_size in *. lia.
Qed.

(** C35: the options of the usage, in any order and number, each with its value as the next
    argument or in the same one, are understood: the file name, the case, the level and the numbers printed in
    decimal (hexadecimal for segment and bus) come back as they are, a later option of the same letter replaces
    the earlier one, and "-s" alone turns the run of the suites off. *)
Theorem options_are_understood prog cs :
  Forall (λ c, valid (fst c)) cs →
  parse_cmdline_option (prog :: flat_map words cs) = Ok (true, fold_left (λ o c, choose (fst c) o) cs no_options).
Proof.
  intros Hv. unfold parse_cmdline_option, read_options. cbn [nonempty TEEIO_ASSERT res_bind tail]. unfold while. fold option_turn.
  rewrite iter_until_nat, SuccNat2Pos.id_succ. fold option_turn. rewrite options_read; [done|done|].
  change (arguments_size (prog :: flat_map words cs)) with (S (length prog) + arguments_size (flat_map words cs))%nat.
  pose proof (words_bound cs). lia.
Qed.
End cmdline.

(** ** The usage *)

Definition usage : list bytes :=
  map (λ s, bs s ++ [10])
    [""; "Usage:"; "  teeio_validator -f ide_test.ini"; "  teeio_validator -f ide_test.ini -t 1 -c 1 -s Test.IdeStream";
     ""; "Options:";
     "  -f <ide_test.ini>   : The file name of test configuration. For example ide_test.ini";
     "  -t <top_id>         : topology id which is to be tested. For example 1";
     "  -c <config_id>      : configuration id which is to be tested. For example 1";
     "  -s <test_case>      : Test case to be tested. For example Test.IdeStream";
     "  -l <debug_level>    : Set debug level. error/warn/info/verbose";
     "  -g <scan_segment>   : Segment number in hex format. For example 0x0";
     "  -b <scan_bus>       : Bus number in hex format. For example 0x1a";
     "  -e <test_interval>  : test interval of 2 rounds.";
     "  -n <test_rounds>    : test rounds of a case.";
     "  -k                  : Use fixed IDE Key for debug purpose.";
     "  -h                  : Display this usage"]%string.

(** ** Witnesses *)

Lemma command_line_is_read_witness :
  returns (parse_cmdline_option (λ s, streq s (bs "a.ini")) [bs "teeio_validator"; bs "-f"; bs "a.ini"; bs "-x"]).
Proof.
  apply (command_line_is_read (λ s, streq s (bs "a.ini"))); [discriminate|]. intros s E. apply streq_true in E as ->. discriminate.
Defined.

(** The second line of the usage. *)
Definition usage_choices : list (choice * bool) :=
  [(ChFile (bs "ide_test.ini"), false); (ChTop 1, false); (ChConfig 1, false); (ChCase (bs "Test.IdeStream"), false)].

Lemma options_are_understood_witness :
  parse_cmdline_option (λ s, streq s (bs "ide_test.ini"))
    (map bs ["teeio_validator"; "-f"; "ide_test.ini"; "-t"; "1"; "-c"; "1"; "-s"; "Test.IdeStream"]%string) =
  Ok (true, set_case (bs "Test.IdeStream") (set_config 1 (set_top 1 (set_file (bs "ide_test.ini") no_options)))).
Proof.
  apply (options_are_understood (λ s, streq s (bs "ide_test.ini")) (bs "teeio_validator") usage_choices).
  repeat constructor; vm_compute; discriminate.
Defined.

(** A name of 256 characters overruns the buffer. *)
Example long_file_name :
  parse_cmdline_option (λ _, true) [bs "teeio_validator"; bs "-f"; replicate 256 97] = Stop Undefined.
Proof. vm_compute. reflexivity. Qed.

(** Numbers are cut to 32 bits, and what follows the digits is not looked at. *)
Example wrapped_numbers :
  map (λ s, parse_cmdline_option (λ _, true) [bs "teeio_validator"; bs "-t"; bs s]) ["4294967297"; "2x"]%string =
  [Ok (true, set_top 1 no_options); Ok (true, set_top 2 no_options)].
Proof. vm_compute. reflexivity. Qed.

(** An unknown log level is read as "warn". *)
Example unknown_level :
  parse_cmdline_option (λ _, true) [bs "teeio_validator"; bs "-l"; bs "debug"] = Ok (true, set_level TEEIO_DEBUG_WARN no_options).
Proof. vm_compute. reflexivity. Qed.
End Cmdline.
