(* ===== verification/Main.v ===== *)
(** * The program (teeio_validator/teeio_validator.c; [run] of ide_test.c)

    From the arguments to the exit code: the command line, the INI file, the
    choice of a single case, the run and its two reports.  The file system is
    given by three parameters (which names exist, what they hold, and whether
    the log and the packet file open); the test functions by the class of the
    engine.  For the end of the run the suites and their results are laid out on the heap of Clean.v and freed. *)
From Stdlib Require Import ZArith Lia Ascii String.
From stdpp Require Import prelude.
From S2P Require Import Prelude Utils Libspdm IniFile Results TestConfig Engine Stops TestLib Prepare ConfigDump ConfigParse ConfigWf Pipeline Clean Report Cmdline.
Import TestConfig TestLib Prepare ConfigParse ConfigWf Pipeline Report Cmdline.

Open Scope Z_scope.
Open Scope teeio_scope.

Module Main.

(** The loop runs over the number of configurations, not over the cells they are in. *)
Definition get_test_category_from_configuration (test_config : IDE_TEST_CONFIG) (config_id : Z) : res Z :=
  let gs := configurations_config test_config in
  let* r := for_each (λ i (_ : unit), let* g := array_get (configurations gs) i in
                        Ok (if cfg_id g =? config_id then inr (cfg_category g) else inl tt))
              (seqZ 0 (configurations_cnt gs)) tt in
  Ok (match r with inr category => category | inl _ => TEEIO_TEST_CATEGORY_MAX end).

(** The array as a string: without a NUL among its cells it has no end. *)
Definition test_case_string (g_test_case : bytes) : res bytes :=
  if strlen g_test_case <? MAX_CASE_NAME_LENGTH then Ok g_test_case else Stop Undefined.

(** From the check of the options to the configuration with the one case; [None] is [goto MainDone]. *)
Definition select_case (fs : list teeio_test_funcs_t) (o : cmdline) (c : IDE_TEST_CONFIG) : res (option IDE_TEST_CONFIG) :=
  if (g_top_id o =? -1) || (g_config_id o =? -1) then Ok None else
  if negb (nonempty (g_test_case o)) then Ok None else
  let* g_test_category := get_test_category_from_configuration c (g_config_id o) in
  if g_test_category =? TEEIO_TEST_CATEGORY_MAX then Ok None else
  let* test_case := test_case_string (g_test_case o) in
  let* valid := is_valid_test_case fs (Some test_case) g_test_category in
  if negb valid then Ok None else
  let* r := update_test_config_with_given_top_config_id fs c (g_top_id o) (g_config_id o) (Some test_case) g_test_category in
  Ok (if fst r then Some (snd r) else None).

Section main.
Context `{SpdmResponder} `{Libspdm} {W : Type} `{code : Engine.TestCode W}.

(** The suites that ran, the state after the run, the lines of the two reports, and the blocks that are not freed. *)
Record run_report := {
  rr_suites : list Engine.ide_run_test_suite_t;
  rr_end : Engine.est (W := W);
  rr_detail : list line;
  rr_summary : list line;
  rr_left : Clean.heap
}.

Definition run (fs : list teeio_test_funcs_t) (test_config : IDE_TEST_CONFIG) (w : W) : res run_report :=
  let* run_test_suite := prepare_tests_data fs test_config in
  let* r := Engine.run_suites 0 run_test_suite (Engine.start w run_test_suite) in
  let results := zip run_test_suite (Results.suites (Engine.es_results (snd r))) in
  let* detail := print_test_results results true in
  let* summary := print_test_results results false in
  let '(p, h) := Clean.lay_suites results in
  let* left := Clean.clean_tests_data p h in
  Ok {| rr_suites := run_test_suite; rr_end := snd r; rr_detail := detail; rr_summary := summary; rr_left := snd left |}.

Context (exists_file : bytes → bool) (read_file : bytes → option bytes) (log_opens pcap_opens : bool).

(** How [teeio_spdm_set_version] (Spdm.v) changes the state of the test functions. *)
Context (set_version : Z → W → W).

(** What [main] leaves behind: its value, whether the usage was printed, and the run, if it came to it. *)
Record main_end := { main_ret : Z; main_usage : bool; main_report : option run_report }.

Definition done_with (ret : Z) (usage : bool) : res main_end :=
  Ok {| main_ret := ret; main_usage := usage; main_report := None |}.

Definition env_of (o : cmdline) : parse_env :=
  {| ConfigParse.g_scan_segment := g_scan_segment o; ConfigParse.g_scan_bus := g_scan_bus o;
     ConfigParse.g_run_test_suite := g_run_test_suite o |}.

Definition main (argv : list bytes) (w : W) : res main_end :=
  if negb log_opens then done_with (-1) false else
  let* fs := teeio_init_test_funcs in
  let* p := parse_cmdline_option exists_file argv in
  let '(ok, o) := p in
  if negb ok then done_with (-1) true else
  if print_usage o then done_with 0 true else
  if negb (nonempty (file_name o)) then done_with (-1) true else
  let* r := parse_ide_test_init fs (env_of o) zero_config 0 (read_file (file_name o)) in
  let '(ok, ide_test_config, _) := r in
  if negb ok then done_with (-1) false else
  let w := set_version (spdm_version (main_config ide_test_config)) w in
  let* selected := if g_run_test_suite o then Ok (Some ide_test_config) else select_case fs o ide_test_config in
  match selected with
  | None => done_with (-1) false
  | Some ide_test_config =>
      if pcap_enable (main_config ide_test_config) && negb pcap_opens then done_with (-1) false else
      let* report := run fs ide_test_config w in
      Ok {| main_ret := 0; main_usage := false; main_report := Some report |}
  end.

(** ** A planned configuration is run and reported *)

Definition typed_code : Prop :=
  ∀ f ctx st w o, Engine.call_func f ctx st w = Ok o → Forall Engine.op_typed (Engine.out_ops o).

(** What is left of a run of a configuration: the records planned for its
    runnable suites, two reports that agree, and on the heap the blocks of the switch connections only. *)
Record reported (c : IDE_TEST_CONFIG) (r : run_report) : Prop := {
  rp_shape : Results.shape (Engine.es_results (rr_end r)) =
    map planned_report (filter (λ s, runnable c s = true) (test_suites (suites_config c)));
  rp_detail : print_test_results (zip (rr_suites r) (Results.suites (Engine.es_results (rr_end r)))) true = Ok (rr_detail r);
  rp_summary : rr_summary r = summary_of (rr_detail r);
  rp_left : size (rr_left r) = Clean.switch_connections (zip (rr_suites r) (Results.suites (Engine.es_results (rr_end r))))
}.

(** How the run of a configuration ends: it is reported, or stopped by a call
    of a test function, after calls with which a run of its suites starts. *)
Inductive run_outcome (fs : list teeio_test_funcs_t) (c : IDE_TEST_CONFIG) : res run_report → Prop :=
| outcome_reported r : reported c r → run_outcome fs c (Ok r)
| outcome_stopped tss f ctx (e : Engine.est (W := W)) stop tr :
    prepare_tests_data fs c = Ok tss → Engine.invoke f ctx e = Stop stop →
    Engine.suites_trace tss tr → Engine.es_trace e `prefix_of` tr → run_outcome fs c (Stop stop).

(** [main] comes to the run of a configuration and returns 0 after it. *)
Definition main_comes_to (argv : list bytes) (w : W) (result : res run_report) : Prop :=
  main argv w = (let* r := result in Ok {| main_ret := 0; main_usage := false; main_report := Some r |}).

Lemma prepared_reports fs c s top bits ts :
  length fs = 5%nat → suite_plan fs c s top bits → prepared s top bits ts → suite_reports ts.
Proof.
  intros Hlen Hp [_ Hcat _ _ Hg _]. split.
  - assert (Hne : Forall (λ g, snd g ≠ []) (planned_groups s)).
    { unfold planned_groups. apply Forall_forall. intros g Hin. apply list_elem_of_omap in Hin as ([k tc] & Hin & Hpl).
      unfold plan_of in Hpl. cbn [snd fst] in Hpl. destruct (Z.eqb_spec (cases_cnt tc) 0) as [|Hz]; [done|]. injection Hpl as <-.
      cbn [snd]. apply elem_of_zip_r in Hin. pose proof (proj1 (Forall_forall _ _) (sp_counts _ _ _ _ _ Hp) tc Hin) as Hc.
      cbv beta in Hc. unfold selected. intros E. apply (f_equal length) in E. rewrite length_take in E. simpl in E. lia. }
    rewrite <- Hg in Hne. apply Forall_forall. intros tg Htg E.
    apply (proj1 (Forall_forall _ _) Hne (group_plan tg)).
    + by apply list_elem_of_In, in_map, list_elem_of_In.
    + unfold group_plan. simpl. by rewrite E.
  - destruct (sp_cfg _ _ _ _ _ Hp) as (cfg & lib & _ & _ & _ & Hlib & _). apply array_get_Ok in Hlib as [Hl0 Hl].
    apply lookup_lt_Some in Hl. rewrite Hcat. change (length TEEIO_TEST_CATEGORY_NAMES) with 5%nat. lia.
Qed.

Lemma run_planned fs c (w : W) :
  typed_code → length fs = 5%nat → plan_ok fs c →
  run_outcome fs c (run fs c w) ∧ (Engine.well_behaved (W := W) → ∃ r, run fs c w = Ok r).
Proof.
  intros Hty Hlen Hplan.
  destruct (plan_is_prepared fs c Hplan) as (tss & Hprep & Hready & Hall & Hsh).
  assert (Hrep : Forall suite_reports tss).
  { apply Forall_forall. intros ts Hts. apply list_elem_of_lookup in Hts as [i Hits].
    destruct (Forall2_lookup_r _ _ _ _ _ Hall Hits) as (s & _ & top & bits & Hsp & Hpr). by eapply prepared_reports. }
  assert (Hend : ∀ e, Engine.run_suites 0 tss (Engine.start w tss) = Ok (tt, e) → ∃ r, run fs c w = Ok r ∧ reported c r).
  { intros e E. destruct (Stops.ended code tss _ e (Stops.suites_end_or_stop code tss w Hready) E) as (_ & Hshape & Hc).
    destruct (run_is_reported tss w e Hty Hready Hrep E Hshape Hc) as (d & Hd & Hs).
    destruct (Clean.laid_tests_freed (zip tss (Results.suites (Engine.es_results e)))) as (left & Hl & Hn).
    { apply Forall_forall. intros [ts rs] Hin. apply elem_of_zip_l in Hin. by apply (proj1 (Forall_forall _ _) Hready). }
    unfold run. rewrite Hprep. cbn [res_bind]. rewrite E. cbn [res_bind snd]. rewrite Hd, Hs. cbn [res_bind].
    destruct (Clean.lay_suites _) as [p h]. rewrite Hl. cbn [res_bind snd].
    eexists. split; [done|]. split; [by rewrite <- Hsh|done|done|done]. }
  split.
  - pose proof (Stops.suites_end_or_stop code tss w Hready) as Hrun. remember (Engine.run_suites _ _ _) as result eqn:Er.
    destruct Hrun as [e _ _ _|f ctx e stop tr Hcall Ht Hpre].
    + destruct (Hend e eq_refl) as (r & -> & Hr). by apply outcome_reported.
    + unfold run. rewrite Hprep. cbn [res_bind]. rewrite <- Er. by eapply outcome_stopped.
  - intros Hwb. destruct (Engine.run_suites_spec Hwb tss 0 (Engine.start w tss) (length tss) (Engine.start_idle w tss)
      ltac:(lia) Hready) as (e & _ & E & _). destruct (Hend e E) as (r & Hr & _). by exists r.
Qed.

Lemma registered_five fs : teeio_init_test_funcs = Ok fs → length fs = 5%nat.
Proof. intros Hi. apply res_bind_Ok in Hi as (spdm & _ & Hf). by injection Hf as <-. Qed.

(** C4: With options that name a file and neither ask for the usage nor for a single case, when the parser accepts
    the file, its libraries serve the suites, and the log file opens and so does the packet file if the file asks for one,
    [main] comes to the run of the suites of the file, from the state that has
    the SPDM version the file asks for, and returns 0 after it.  Of the test functions it is assumed that they
    pass or fail only assertions of type TEST, as those of the libraries do.  The run is reported, or it is stopped
    by a call of a test function after calls with which a run of the suites starts; it is reported when the test
    functions always return and report only the current case ([Engine.well_behaved]).  A
    reported run leaves the planned records of every runnable suite, in order, a detailed report printed to the
    end and the summary that its lines give, and on the heap nothing but the blocks of the switch connections. *)
Theorem main_runs_the_file argv o data fs c tdisp (w : W) :
  typed_code → log_opens = true →
  parse_cmdline_option exists_file argv = Ok (true, o) → print_usage o = false → g_run_test_suite o = true →
  file_name o ≠ [] → read_file (file_name o) = Some data → teeio_init_test_funcs = Ok fs →
  parse_ide_test_init fs (env_of o) zero_config 0 (Some data) = Ok (true, c, tdisp) → servable fs c = true →
  (pcap_enable (main_config c) = true → pcap_opens = true) →
  let result := run fs c (set_version (spdm_version (main_config c)) w) in
  main_comes_to argv w result ∧ run_outcome fs c result ∧ (Engine.well_behaved (W := W) → ∃ r, result = Ok r).
Proof.
  intros Hty Hlog Hcmd Hu Hs Hf Hd Hi Hp Hserv Hpcap result.
  destruct (parse_file_wf _ _ _ _ _ _ Hi Hp) as [Hwf _].
  split; [|by apply run_planned; [|by apply registered_five|by apply servable_plan]].
  unfold main_comes_to, main. rewrite Hlog, Hi, Hcmd. cbn [negb res_bind].
  rewrite Hu. destruct (file_name o) as [|x f] eqn:Ef; [done|]. cbn [nonempty negb]. rewrite Hd, Hp. cbn [res_bind negb].
  rewrite Hs. cbn [res_bind]. destruct (pcap_enable _); [rewrite Hpcap by done|]; done.
Qed.

(** ** A single case *)

(** The category is found when the number of the configuration is within their count. *)
Lemma category_found fs c id g :
  wf_configurations fs (configurations_config c) → get_configuration_by_id (Some c) id = Ok (Some g) →
  id ≤ configurations_cnt (configurations_config c) ≤ MAX_CONFIGURATION_NUM →
  get_test_category_from_configuration c id = Ok (cfg_category g).
Proof.
  intros [Hlen Hwf] Hg Hid. unfold get_configuration_by_id in Hg. destruct (Z.leb_spec id 0); [done|].
  destruct (find_cell_Some _ _ _ _ Hg) as ([Hq%Z.eqb_eq _]%andb_true_iff & i & Hi & Hx).
  assert (Hpos : id = Z.of_nat i + 1) by (destruct (Hwf i g Hx ltac:(lia)) as (E & _); lia).
  unfold get_test_category_from_configuration. set (gs := configurations (configurations_config c)) in *.
  set (n := configurations_cnt (configurations_config c)) in *. unfold MAX_CONFIGURATION_NUM in *.
  assert (Hloop : ∀ k m, (k + m)%nat = Z.to_nat n → (k ≤ i)%nat →
    for_each (λ i (_ : unit), let* g := array_get gs i in Ok (if cfg_id g =? id then inr (cfg_category g) else inl tt))
      (seqZ (Z.of_nat k) (Z.of_nat m)) tt = Ok (inr (cfg_category g))).
  { intros k m. revert k. induction m as [|m IH]; intros k Hm Hk; [lia|].
    rewrite seqZ_cons by lia. cbn [for_each].
    destruct (lookup_lt_is_Some_2 gs k ltac:(lia)) as [x Hk'].
    rewrite (array_get_nat _ _ _ Hk'). cbn [res_bind]. destruct (Z.eqb_spec (cfg_id x) id) as [E|E].
    - assert (k = i) as -> by (destruct (Hwf k x Hk' ltac:(lia)) as (E' & _); lia).
      rewrite Hx in Hk'. by injection Hk' as <-.
    - replace (Z.succ (Z.of_nat k)) with (Z.of_nat (S k)) by lia.
      replace (Z.pred (Z.of_nat (S m))) with (Z.of_nat m) by lia. apply IH; [lia|].
      destruct (decide (k = i)) as [->|]; [|lia]. rewrite Hx in Hk'. injection Hk' as <-. lia. }
  specialize (Hloop 0%nat (Z.to_nat n) ltac:(lia) ltac:(lia)). rewrite Z2Nat.id in Hloop by lia.
  change (Z.of_nat 0) with 0 in Hloop. by rewrite Hloop.
Qed.
(** What the tables of the libraries say of a class, by evaluation: its number is its place, and its cases fit an array. *)
Definition table_ok (l : teeio_test_funcs_t * list ide_test_case_name_t * ide_test_case_name_t) : bool :=
  forallb (λ i, match snd (fst l) !! Z.to_nat i with
                | Some x => (tn_class_id x =? i) && (Z.of_nat (length (case_names x)) <=? MAX_CASE_ID)
                | None => true
                end) (seqZ 0 8) && (Z.of_nat (length (snd (fst l))) <=? 8).

Lemma own_tables_ok : Forall (λ l, table_ok l = true) own_libs.
Proof. repeat constructor; vm_compute; reflexivity. Qed.

(** A case string that resolves names a class and a case the library serves. *)
Lemma resolved_case_served fs cat lib tbl e s x idx :
  teeio_init_test_funcs = Ok fs → own_libs !! cat = Some (lib, tbl, e) → strlen s < Ini.MAX_LINE_LENGTH →
  get_test_case_from_string fs (Some s) (Z.of_nat cat) = Ok (Some x, idx) →
  ∃ k j, (k < 8)%nat ∧ tn_class_id x = Z.of_nat k ∧ idx = Some (Z.of_nat j) ∧ Z.of_nat j + 1 ≤ MAX_CASE_ID ∧
    serves_case lib (Z.of_nat k) (Z.of_nat j + 1).
Proof.
  intros Hi Hl Hs Hg. destruct (case_strings_resolved fs cat lib tbl e s Hi Hl Hs) as (o & idx' & Hg' & Ho).
  rewrite Hg in Hg'. injection Hg' as <- <-.
  destruct Ho as (class & name & j & f & get_funcs & _ & Hx & Hc & -> & Hn & Hgf & Hf & _).
  apply list_elem_of_lookup in Hx as [k Hk]. pose proof (proj1 (Forall_lookup _ _) own_tables_ok _ _ Hl) as Ht.
  apply andb_true_iff in Ht as [Hall Hlen%Z.leb_le]. cbn [fst snd] in *. pose proof (lookup_lt_Some _ _ _ Hk) as Hlt.
  pose proof (forallb_range _ _ _ Hall (Z.of_nat k) ltac:(lia)) as Hent. cbv beta in Hent. rewrite Nat2Z.id, Hk in Hent.
  apply andb_true_iff in Hent as [Hid%Z.eqb_eq Hmax%Z.leb_le]. apply lookup_lt_Some in Hn.
  exists k, j. split_and!; [lia|done|done|lia|].
  pose proof (proj1 (Forall_lookup _ _) own_libs_tables _ _ Hl) as (get_name & Hgn & Htab & _).
  exists get_name, get_funcs, x, class, f. split_and!; try done.
  - apply Htab. by apply lookup_app_l_Some.
  - replace (Z.of_nat j + 1 - 1) with (Z.of_nat j) by lia. by rewrite <- Hid.
Qed.

(** The suite made for a single case. *)
Definition one_case_suite (type top_id config_id category k id : Z) : IDE_TEST_SUITE :=
  {| suite_id := 1; suite_enabled := true; suite_type := type; suite_topology_id := top_id;
     suite_configuration_id := config_id; suite_category := category;
     suite_cases := <[Z.to_nat k := {| cases_cnt := 1; cases_id := <[0%nat := id]> (replicate 32 0) |}]> (replicate 32 zero_case) |}.
Definition one_case_config (c : IDE_TEST_CONFIG) (s : IDE_TEST_SUITE) : IDE_TEST_CONFIG :=
  set_suites c {| suites_cnt := 1; test_suites := s :: replicate 31 zero_suite |}.

Lemma update_to_one_case fs c top_id config_id s cat top g x j k :
  suites_config c = suites_config zero_config → (k < 8)%nat → tn_class_id x = Z.of_nat k →
  get_topology_by_id (Some c) top_id = Ok (Some top) → get_configuration_by_id (Some c) config_id = Ok (Some g) →
  get_test_case_from_string fs (Some s) cat = Ok (Some x, Some j) →
  update_test_config_with_given_top_config_id fs c top_id config_id (Some s) cat =
  Ok (true, one_case_config c (one_case_suite (top_type top) top_id config_id cat (Z.of_nat k) (j + 1))).
Proof.
  intros Hz Hk Hid Ht Hg Hs. unfold update_test_config_with_given_top_config_id. rewrite Ht, Hg. cbn [res_bind].
  rewrite Hs. cbn [res_bind]. rewrite Hz, Hid. unfold one_case_config, one_case_suite. rewrite Nat2Z.id.
  do 8 (destruct k as [|k]; [reflexivity|]). lia.
Qed.

Lemma one_case_plan fs c top_id config_id top g lib tbl e j k :
  teeio_init_test_funcs = Ok fs → wf_config fs c → (k < 8)%nat → 0 ≤ j → j + 1 ≤ MAX_CASE_ID →
  get_topology_by_id (Some c) top_id = Ok (Some top) → get_configuration_by_id (Some c) config_id = Ok (Some g) →
  cfg_type g = top_type top → own_libs !! Z.to_nat (cfg_category g) = Some (lib, tbl, e) →
  configuration_served lib (cfg_type g) (cfg_bit_map g) = true → serves_case lib (Z.of_nat k) (j + 1) →
  plan_ok fs (one_case_config c (one_case_suite (top_type top) top_id config_id (cfg_category g) (Z.of_nat k) (j + 1))).
Proof.
  intros Hi Hwf Hk Hj0 Hj Ht Hg Htype Hlib Hserved Hcase. set (s0 := one_case_suite _ _ _ _ _ _).
  pose proof Hwf as [_ _ (Htl & _ & _) _ _]. split; [done|]. split; [done|].
  intros s Hs Hrun. apply elem_of_cons in Hs as [->|Hs].
  2: { apply elem_of_replicate in Hs as [-> _]. done. }
  destruct (found_configuration fs c Hwf _ _ Hg) as (i & Hgwf & Hgid).
  destruct (Hgwf Hgid) as (_ & Hty & Hcat & Hns & _ & Hbit & _).
  pose proof (found_topology fs c Hwf _ _ Ht) as [Ht1 Ht2 Ht3 Ht4 Ht5 Ht6].
  pose proof (proj1 (Forall_lookup _ _) own_libs_checked _ _ Hlib) as Hcheck. cbn [fst] in Hcheck.
  apply andb_true_iff in Hcheck as [Htypes _].
  destruct (lib_serves lib (cfg_type g) (cfg_bit_map g) (forallb_range _ _ _ Htypes (cfg_type g) ltac:(lia)) Hserved Hbit)
    as [(bits & Hbits) Hgroup].
  exists top, bits. split; [exact Ht|split; assumption| | |].
  - exists g, lib. rewrite Htype in *. split_and!; try done.
    + intros Hz. by rewrite Hz, Z.bits_0 in Hbit.
    + pose proof (own_libs_registered fs Hi _ _ Hlib) as Hreg. rewrite Z2Nat.id in Hreg by lia. exact Hreg.
    + intros i' tc id Htc Hsel. unfold s0, one_case_suite in Htc. cbn [suite_cases] in Htc. rewrite Nat2Z.id in Htc.
      destruct (decide (i' = k)) as [->|Hne].
      * rewrite list_lookup_insert_eq in Htc by (rewrite length_replicate; lia). injection Htc as <-.
        unfold selected in Hsel. cbn in Hsel. apply list_elem_of_singleton in Hsel as ->. split; [lia|done].
      * rewrite list_lookup_insert_ne in Htc by done. apply lookup_replicate in Htc as [-> _]. cbn in Hsel. by apply elem_of_nil in Hsel.
  - cbn [s0 one_case_suite suite_cases]. by rewrite length_insert.
  - cbn [s0 one_case_suite suite_cases]. apply Forall_insert; [by apply Forall_replicate|]. cbn. lia.
Qed.

(** The choice of the case. *)
Lemma select_one_case fs o c top g x j k :
  wf_config fs c → suites_config c = suites_config zero_config → (k < 8)%nat → tn_class_id x = Z.of_nat k →
  0 ≤ cfg_category g < TEEIO_TEST_CATEGORY_MAX →
  get_topology_by_id (Some c) (g_top_id o) = Ok (Some top) →
  get_configuration_by_id (Some c) (g_config_id o) = Ok (Some g) →
  g_config_id o ≤ configurations_cnt (configurations_config c) ≤ MAX_CONFIGURATION_NUM →
  g_test_case o ≠ [] → strlen (g_test_case o) < MAX_CASE_NAME_LENGTH →
  get_test_case_from_string fs (Some (g_test_case o)) (cfg_category g) = Ok (Some x, Some j) →
  select_case fs o c =
  Ok (Some (one_case_config c (one_case_suite (top_type top) (g_top_id o) (g_config_id o) (cfg_category g) (Z.of_nat k) (j + 1)))).
Proof.
  intros Hwf Hz Hk Hid Hcat Ht Hg Hcnt Hne Hlen Hres.
  unfold select_case. assert (g_top_id o ≠ -1) by (intros E; rewrite E in Ht; done).
  assert (g_config_id o ≠ -1) by (intros E; rewrite E in Hg; done).
  rewrite !(proj2 (Z.eqb_neq _ _)) by done. cbn [orb]. replace (nonempty (g_test_case o)) with true by (by destruct (g_test_case o)). cbn [negb].
  rewrite (category_found fs c _ g) by (done || apply Hwf). cbn [res_bind].
  rewrite (proj2 (Z.eqb_neq _ _)) by lia. unfold test_case_string. rewrite (proj2 (Z.ltb_lt _ _) Hlen). cbn [res_bind].
  unfold is_valid_test_case. rewrite Hres. cbn [res_bind fst is_some negb].
  by rewrite (update_to_one_case fs c _ _ _ _ top g x _ k Hz Hk Hid Ht Hg Hres).
Qed.

(** C5: "-t", "-c" and "-s" run one case: when the topology and the configuration are in the file, enabled and of one
    type, the configuration is served by its library and its number does not exceed the number of configurations, the case string
    resolves to a class and a case of the library, and the log file opens and so does the packet file if the file asks for one,
    [main] comes to the run of a configuration that is the file's with other suites, and returns 0
    after it.  The plan of these suites is one group with one record: that case, under that configuration.
    Of the test functions it is assumed that they
    pass or fail only assertions of type TEST, as those of the libraries do.  The run is reported, with
    the planned record and reports that agree, or it is stopped
    by a call of a test function; it is reported when the test functions always return and
    report only the current case ([Engine.well_behaved]). *)
Theorem main_runs_one_case argv o data fs c tdisp top g lib tbl e x idx (w : W) :
  typed_code → log_opens = true →
  parse_cmdline_option exists_file argv = Ok (true, o) → print_usage o = false → g_run_test_suite o = false →
  file_name o ≠ [] → read_file (file_name o) = Some data → teeio_init_test_funcs = Ok fs →
  parse_ide_test_init fs (env_of o) zero_config 0 (Some data) = Ok (true, c, tdisp) →
  (pcap_enable (main_config c) = true → pcap_opens = true) →
  get_topology_by_id (Some c) (g_top_id o) = Ok (Some top) →
  get_configuration_by_id (Some c) (g_config_id o) = Ok (Some g) → cfg_type g = top_type top →
  g_config_id o ≤ configurations_cnt (configurations_config c) ≤ MAX_CONFIGURATION_NUM →
  own_libs !! Z.to_nat (cfg_category g) = Some (lib, tbl, e) →
  configuration_served lib (cfg_type g) (cfg_bit_map g) = true →
  g_test_case o ≠ [] → strlen (g_test_case o) < MAX_CASE_NAME_LENGTH →
  get_test_case_from_string fs (Some (g_test_case o)) (cfg_category g) = Ok (Some x, Some idx) →
  ∃ suites, let c' := set_suites c suites in let result := run fs c' (set_version (spdm_version (main_config c)) w) in
    map planned_report (filter (λ s, runnable c' s = true) (test_suites suites)) = [[(g_config_id o, [[(tn_class_id x, idx + 1)]])]] ∧
    main_comes_to argv w result ∧ run_outcome fs c' result ∧ (Engine.well_behaved (W := W) → ∃ r, result = Ok r).
Proof.
  intros Hty Hlog Hcmd Hu Hs Hf Hd Hi Hp Hpcap Ht Hg Htype Hcnt Hlib Hserved Hne Hlen Hres.
  destruct (parse_file_wf _ _ _ _ _ _ Hi Hp) as [Hwf _]. pose proof (parse_file_no_suites _ _ _ _ _ _ Hi Hp Hs) as Hz.
  destruct (found_configuration fs c Hwf _ _ Hg) as (i & Hgwf & Hgid). destruct (Hgwf Hgid) as (_ & _ & Hcat & Hns & _).
  assert (Hlen' : strlen (g_test_case o) < Ini.MAX_LINE_LENGTH) by (unfold MAX_CASE_NAME_LENGTH, Ini.MAX_LINE_LENGTH in *; lia).
  pose proof Hres as Hres'. rewrite <- (Z2Nat.id (cfg_category g)) in Hres' by lia.
  destruct (resolved_case_served fs _ lib tbl e _ x _ Hi Hlib Hlen' Hres') as (k & j & Hk & Hid & [= ->] & Hj & Hcase).
  pose proof (one_case_plan fs c (g_top_id o) (g_config_id o) top g lib tbl e (Z.of_nat j) k Hi Hwf Hk ltac:(lia) Hj
    Ht Hg Htype Hlib Hserved Hcase) as Hplan.
  eexists {| suites_cnt := 1; test_suites := _ :: _ |}. cbv zeta. split; [|split; [|apply run_planned; [done|by apply registered_five|exact Hplan]]].
  - rewrite Hid. cbn [test_suites]. rewrite filter_cons_True.
    2: { unfold runnable. cbn [one_case_suite suite_id suite_enabled suite_topology_id].
         match goal with |- context [get_topology_by_id ?a ?b] => change (get_topology_by_id a b) with (get_topology_by_id (Some c) (g_top_id o)) end.
         by rewrite Ht. }
    replace (filter _ (replicate 31 zero_suite)) with (@nil IDE_TEST_SUITE) by done. cbn [map].
    do 8 (destruct k as [|k]; [reflexivity|]). lia.
  - unfold main_comes_to, main. rewrite Hlog, Hi, Hcmd. cbn [negb res_bind].
    rewrite Hu. destruct (file_name o) as [|y f] eqn:Ef; [done|]. cbn [nonempty negb]. rewrite Hd, Hp. cbn [res_bind negb].
    rewrite Hs. erewrite (select_one_case fs o c top g x) by eauto. cbn [res_bind].
    change (main_config (set_suites c _)) with (main_config c). destruct (pcap_enable _); [rewrite Hpcap by done|]; done.
Qed.

(** ** The exit code *)

(** [main] returns 0 when it showed the usage on request or came to the run, whatever the tests reported. *)
Lemma exit_code argv (w : W) m :
  main argv w = Ok m → (main_ret m = 0 ∨ main_ret m = -1) ∧ (main_report m ≠ None → main_ret m = 0) ∧
  (main_ret m = 0 → main_report m ≠ None ∨ main_usage m = true).
Proof.
  unfold main, done_with. destruct (negb log_opens); [by intros [= <-]; split_and!; [right| |]|].
  intros Hm. apply res_bind_Ok in Hm as (fs & _ & Hm). apply res_bind_Ok in Hm as ([ok o] & _ & Hm).
  destruct (negb ok); [by injection Hm as <-; split_and!; [right| |]|].
  destruct (print_usage o); [by injection Hm as <-; split_and!; [left| |right]|].
  destruct (negb _); [by injection Hm as <-; split_and!; [right| |]|].
  apply res_bind_Ok in Hm as ([[ok' c] t] & _ & Hm). destruct (negb ok'); [by injection Hm as <-; split_and!; [right| |]|].
  apply res_bind_Ok in Hm as ([c'|] & _ & Hm); [|by injection Hm as <-; split_and!; [right| |]].
  destruct (_ && _); [by injection Hm as <-; split_and!; [right| |]|].
  apply res_bind_Ok in Hm as (r & _ & [= <-]). split_and!; [by left|done|by left].
Qed.
End main.

(** ** Witnesses *)

#[local] Existing Instance one_case_each.
#[local] Existing Instance Engine.example_code.

Definition example_exists (s : bytes) : bool := streq s (bs "ide_test.ini").
Definition example_read (s : bytes) : option bytes := if example_exists s then Some example_ini else None.
Definition example_argv : list bytes := map bs ["teeio_validator"; "-f"; "ide_test.ini"]%string.
Definition example_options : cmdline := set_file (bs "ide_test.ini") no_options.

Lemma example_typed : typed_code (W := unit).
Proof.
  intros f ctx st w o [= <-]. cbn [Engine.out_ops]. destruct ctx; try constructor.
  destruct (Results.g_current_case_result st) as [p|]; [|constructor].
  destruct (Results.get_case p st); [|constructor]. destruct (String.eqb f "run"); [|constructor]. constructor; [by right|constructor].
Qed.

Lemma main_runs_the_file_witness :
  ∃ r, main example_exists example_read true false (λ _ w, w) example_argv tt =
      Ok {| main_ret := 0; main_usage := false; main_report := Some r |} ∧
    run example_registry example_parsed tt = Ok r ∧ reported example_parsed r.
Proof.
  destruct (main_runs_the_file example_exists example_read true false (λ _ w, w) example_argv example_options example_ini example_registry
           example_parsed 0 tt example_typed eq_refl) as (Hm & Ho & Hr).
  - vm_compute. reflexivity.
  - reflexivity.
  - reflexivity.
  - discriminate.
  - reflexivity.
  - exact example_registry_eq.
  - exact example_accepted.
  - vm_compute. reflexivity.
  - intros E. vm_compute in E. discriminate E.
  - destruct (Hr Engine.example_code_well_behaved) as [r Er]. unfold main_comes_to in Hm. rewrite Er in Hm, Ho.
    exists r. split; [exact Hm|]. split; [exact Er|]. by inversion Ho.
Defined.

Definition one_case_argv : list bytes :=
  map bs ["teeio_validator"; "-f"; "ide_test.ini"; "-t"; "1"; "-c"; "1"; "-s"; "KSetGo.4"]%string.
Definition one_case_options : cmdline :=
  set_case (bs "KSetGo.4") (set_config 1 (set_top 1 (set_file (bs "ide_test.ini") no_options))).
Definition one_case_parsed : IDE_TEST_CONFIG :=
  match parse_ide_test_init example_registry (env_of one_case_options) zero_config 0 (Some example_ini) with
  | Ok (_, c, _) => c
  | Stop _ => zero_config
  end.
Definition one_case_top : IDE_TEST_TOPOLOGY :=
  match get_topology_by_id (Some one_case_parsed) 1 with Ok (Some t) => t | _ => zero_topology end.
Definition one_case_configuration : IDE_TEST_CONFIGURATION :=
  match get_configuration_by_id (Some one_case_parsed) 1 with Ok (Some g) => g | _ => zero_configuration end.

Lemma main_runs_one_case_witness :
  ∃ r, main example_exists example_read true false (λ _ w, w) one_case_argv tt = Ok {| main_ret := 0; main_usage := false; main_report := Some r |} ∧
    Results.shape (Engine.es_results (rr_end r)) = [[(1, [[(2, 4)]])]].
Proof.
  destruct (main_runs_one_case example_exists example_read true false (λ _ w, w) one_case_argv one_case_options example_ini example_registry
    one_case_parsed 0 one_case_top one_case_configuration pcie_ide_test_lib_register_test_suite_funcs
    (take 6 m_test_case_names) (end_of_names IDE_COMMON_TEST_CASE_NUM) (case_name "KSetGo" "1,2,3,4" 2) 3 tt
    example_typed eq_refl) as (suites & Hplan & Hm & Ho & Hr).
  - vm_compute. reflexivity.
  - reflexivity.
  - reflexivity.
  - discriminate.
  - reflexivity.
  - exact example_registry_eq.
  - vm_compute. reflexivity.
  - intros E. vm_compute in E. discriminate E.
  - vm_compute. reflexivity.
  - vm_compute. reflexivity.
  - vm_compute. reflexivity.
  - vm_compute. split; discriminate.
  - reflexivity.
  - vm_compute. reflexivity.
  - discriminate.
  - vm_compute. reflexivity.
  - vm_compute. reflexivity.
  - destruct (Hr Engine.example_code_well_behaved) as [r Er]. unfold main_comes_to in Hm. rewrite Er in Hm, Ho.
    exists r. split; [exact Hm|]. inversion Ho as [r' [Hsh _ _ _]|]. etransitivity; [exact Hsh|exact Hplan].
Defined.

(** A configuration numbered beyond their count is refused with "-c", though the file has it. *)
Definition sparse_ini : bytes := bs
"[Main]
debug_level = info
[Ports]
rootport_1 = 02.0
endpoint_1 = 00.0
[Topology_1]
type = selective_ide
connection = direct
bus = 0xd9
path1 = rootport_1,endpoint_1
stream_id = 1
[Configuration_2]
type = selective_ide
pcrc = 1
".
Definition sparse_options : cmdline :=
  set_case (bs "KSetGo.4") (set_config 2 (set_top 1 (set_file (bs "ide_test.ini") no_options))).

Example sparse_configuration_refused :
  match parse_ide_test_init example_registry (env_of sparse_options) zero_config 0 (Some sparse_ini) with
  | Ok (true, c, _) =>
      (get_test_category_from_configuration c 2,
       match get_configuration_by_id (Some c) 2 with Ok (Some g) => Some (cfg_category g) | _ => None end)
  | _ => (Stop Undefined, None)
  end = (Ok TEEIO_TEST_CATEGORY_MAX, Some TEEIO_TEST_CATEGORY_PCIE_IDE).
Proof. vm_compute. reflexivity. Qed.

(** A case name of 32 characters or more is left without its NUL. *)
Example long_case_name fs c top config :
  0 < top → 0 < config → get_test_category_from_configuration c config = Ok TEEIO_TEST_CATEGORY_PCIE_IDE →
  select_case fs (set_case (replicate 32 97) (set_config config (set_top top no_options))) c = Stop Undefined.
Proof.
  intros Ht Hc Hg. unfold select_case. cbn [g_top_id g_config_id g_test_case set_case set_config set_top].
  rewrite !(proj2 (Z.eqb_neq _ _)) by lia. cbn [orb nonempty replicate negb]. by rewrite Hg.
Qed.
End Main.
