(* ===== verification/Files.v ===== *)
(** * The log and the packet file (library/debuglib, library/helperlib/pcap.c, the openers and the
      dumps of library/helperlib/utils.c, the files of library/spdmlib/support.c)

    A file is its content and the room that is left on the disk.  Time stamps
    and which files open are parameters.  The headers of the packet file are
    declared outside the repository: their bytes are a class, with what the format promises a
    reader as its laws. *)
From Stdlib Require Import ZArith Lia Ascii String.
From stdpp Require Import prelude.
From S2P Require Import Prelude Utils IniFile KeyOrder ConfigDump.
Import ConfigDump.

Open Scope Z_scope.
Open Scope teeio_scope.

Module Files.

(** ** Files *)

Record FILE := { content : bytes; room : Z }.

(** [fwrite(data, 1, size, file)]: what fits is written. *)
Definition fwrite (data : bytes) (f : FILE) : Z * FILE :=
  let n := Z.min (strlen data) (Z.max 0 (room f)) in
  (n, {| content := content f ++ take (Z.to_nat n) data; room := room f - n |}).

(** ** The packet file *)

Record pcap_global_header_t := {
  magic_number : Z; version_major : Z; version_minor : Z; this_zone : Z; sig_figs : Z; snap_len : Z; network : Z
}.
Record pcap_packet_header_t := { ts_sec : Z; ts_usec : Z; incl_len : Z; orig_len : Z }.

(** industry_standard/pcap.h, link_type_ex.h and command.h. *)
Class PcapFormat := {
  PCAP_GLOBAL_HEADER_MAGIC : Z;
  PCAP_GLOBAL_HEADER_VERSION_MAJOR : Z;
  PCAP_GLOBAL_HEADER_VERSION_MINOR : Z;
  LINKTYPE_MCTP : Z;
  LINKTYPE_PCI_DOE : Z;
  SOCKET_TRANSPORT_TYPE_MCTP : Z;
  SOCKET_TRANSPORT_TYPE_PCI_DOE : Z;
  global_bytes : pcap_global_header_t → bytes;
  packet_bytes : pcap_packet_header_t → bytes;
  sizeof_pcap_packet_header_t : nat;
  read_incl_len : bytes → Z
}.

(** A packet header has one size, and a reader finds the length field in it. *)
Class PcapReadable `{PcapFormat} : Prop := {
  packet_size h : length (packet_bytes h) = sizeof_pcap_packet_header_t;
  packet_size_pos : (0 < sizeof_pcap_packet_header_t)%nat;
  packet_len h : 0 ≤ incl_len h < 2 ^ 32 → read_incl_len (packet_bytes h) = incl_len h
}.

Definition PCAP_PACKET_MAX_SIZE : Z := 0x00010000.

Section pcap.
Context `{PcapFormat}.

(** [m_pcap_file]: [None] is [NULL].  [disk] is the file [fopen] gives, [None] when it fails. *)
Definition open_pcap_packet_file (pcap_file_name : option bytes) (transport_layer : Z) (disk : option FILE)
    (m_pcap_file : option FILE) : bool * option FILE :=
  match pcap_file_name with
  | None => (false, m_pcap_file)
  | Some _ =>
      let header network :=
        {| magic_number := PCAP_GLOBAL_HEADER_MAGIC; version_major := PCAP_GLOBAL_HEADER_VERSION_MAJOR;
           version_minor := PCAP_GLOBAL_HEADER_VERSION_MINOR; this_zone := 0; sig_figs := 0;
           snap_len := PCAP_PACKET_MAX_SIZE; network := network |} in
      let go network :=
        match disk with
        | None => (false, None)
        | Some f =>
            let data := global_bytes (header network) in
            let '(n, f) := fwrite data f in
            if negb (n =? strlen data) then (false, None) else (true, Some f)
        end in
      if transport_layer =? SOCKET_TRANSPORT_TYPE_MCTP then go LINKTYPE_MCTP
      else if transport_layer =? SOCKET_TRANSPORT_TYPE_PCI_DOE then go LINKTYPE_PCI_DOE
      else (false, m_pcap_file)
  end.

Definition close_pcap_packet_file (m_pcap_file : option FILE) : option FILE := None.

(** A write that closes the file when it falls short: the file to go on with. *)
Definition write_or_close (data : bytes) (f : FILE) : FILE + FILE :=
  let '(n, f) := fwrite data f in if n =? strlen data then inl f else inr f.

(** The new [m_pcap_file], and the file as it is on the disk. *)
Definition append_pcap_packet_data (rawtime : Z) (header data : bytes) (m_pcap_file : option FILE)
    : option FILE * option FILE :=
  match m_pcap_file with
  | None => (None, None)
  | Some f =>
      let total_size := strlen header + strlen data in
      let pcap_packet_header :=
        {| ts_sec := u32 rawtime; ts_usec := 0;
           incl_len := u32 (if PCAP_PACKET_MAX_SIZE <? total_size then PCAP_PACKET_MAX_SIZE else total_size);
           orig_len := u32 total_size |} in
      match write_or_close (packet_bytes pcap_packet_header) f with
      | inr f => (close_pcap_packet_file (Some f), Some f)
      | inl f =>
          match (if strlen header =? 0 then inl f else write_or_close header f) with
          | inr f => (close_pcap_packet_file (Some f), Some f)
          | inl f =>
              match write_or_close data f with
              | inr f => (close_pcap_packet_file (Some f), Some f)
              | inl f => (Some f, Some f)
              end
          end
      end
  end.

(** The packets of a run, one after the other: the file that is open in the end, and what is on the disk. *)
Definition append_packets (ps : list (Z * bytes)) (st : option FILE * option FILE) : option FILE * option FILE :=
  fold_left (λ st p, let r := append_pcap_packet_data (fst p) [] (snd p) (fst st) in
                     (fst r, match snd r with Some f => Some f | None => snd st end)) ps st.

(** ** A reader of the file *)

(** The packets after the global header: the header, then as many bytes as it says. *)
Fixpoint read_packets (fuel : nat) (s : bytes) : list bytes :=
  match fuel, s with
  | S fuel, _ :: _ =>
      let n := Z.to_nat (read_incl_len (take sizeof_pcap_packet_header_t s)) in
      let s := drop sizeof_pcap_packet_header_t s in
      take n s :: read_packets fuel (drop n s)
  | _, _ => []
  end.

(** The record of one packet. *)
Definition packet_record (p : Z * bytes) : bytes :=
  packet_bytes {| ts_sec := u32 (fst p); ts_usec := 0; incl_len := u32 (Z.min PCAP_PACKET_MAX_SIZE (strlen (snd p)));
                  orig_len := u32 (strlen (snd p)) |} ++ snd p.

Lemma fwrite_all data f :
  strlen data ≤ room f → fwrite data f = (strlen data, {| content := content f ++ data; room := room f - strlen data |}).
Proof.
  intros Hr. unfold fwrite. assert (0 ≤ strlen data) by (unfold strlen; lia).
  rewrite Z.max_r, Z.min_l by lia. unfold strlen. rewrite Nat2Z.id, firstn_all. done.
Qed.

Lemma write_all data f :
  strlen data ≤ room f → write_or_close data f = inl {| content := content f ++ data; room := room f - strlen data |}.
Proof. intros Hr. unfold write_or_close. rewrite fwrite_all by done. by rewrite Z.eqb_refl. Qed.

(** A write keeps what is there and adds a part of the data. *)
Lemma write_prefix data f :
  match write_or_close data f with
  | inl f' => content f' = content f ++ data
  | inr f' => ∃ k, content f' = content f ++ take k data
  end.
Proof.
  unfold write_or_close, fwrite. set (n := Z.min _ _). destruct (Z.eqb_spec n (strlen data)) as [->|]; cbn [content].
  - unfold strlen. by rewrite Nat2Z.id, firstn_all.
  - by eexists.
Qed.

Lemma min_if a b : (if a <? b then a else b) = Z.min a b.
Proof. destruct (Z.ltb_spec a b); lia. Qed.

Lemma append_all p f :
  strlen (packet_record p) ≤ room f →
  append_pcap_packet_data (fst p) [] (snd p) (Some f) =
  let f' := {| content := content f ++ packet_record p; room := room f - strlen (packet_record p) |} in (Some f', Some f').
Proof.
  intros Hr. unfold append_pcap_packet_data, packet_record in *. rewrite min_if. change (strlen []) with 0. rewrite Z.add_0_l.
  set (h := packet_bytes _) in *. assert (Hl : strlen (h ++ snd p) = strlen h + strlen (snd p)).
  { unfold strlen. rewrite length_app. lia. }
  assert (0 ≤ strlen (snd p) ∧ 0 ≤ strlen h) as [? ?] by (unfold strlen; lia).
  rewrite (write_all h) by lia. cbn [Z.eqb]. rewrite (write_all (snd p)) by (cbn [room]; lia). cbn [content room].
  rewrite <- app_assoc, Hl. by replace (room f - strlen h - strlen (snd p)) with (room f - (strlen h + strlen (snd p))) by lia.
Qed.

Lemma append_packets_all ps f :
  strlen (concat (map packet_record ps)) ≤ room f →
  ∃ f', append_packets ps (Some f, Some f) = (Some f', Some f') ∧ content f' = content f ++ concat (map packet_record ps).
Proof.
  revert f. induction ps as [|p ps IH]; intros f Hr; cbn [map concat] in *.
  { exists f. by rewrite app_nil_r. }
  assert (Hl : strlen (packet_record p ++ concat (map packet_record ps)) =
               strlen (packet_record p) + strlen (concat (map packet_record ps))) by (unfold strlen; rewrite length_app; lia).
  assert (0 ≤ strlen (concat (map packet_record ps))) by (unfold strlen; lia).
  cbn [append_packets fold_left fst snd]. rewrite append_all by lia. cbn [fst snd].
  destruct (IH {| content := content f ++ packet_record p; room := room f - strlen (packet_record p) |}) as (f' & E & Ec).
  { cbn [room]. lia. }
  exists f'. split; [exact E|]. rewrite Ec. cbn [content]. by rewrite <- app_assoc.
Qed.

Lemma read_packet_records `{!PcapReadable} ps fuel :
  Forall (λ p, strlen (snd p) ≤ PCAP_PACKET_MAX_SIZE) ps → (length ps ≤ fuel)%nat →
  read_packets fuel (concat (map packet_record ps)) = map snd ps.
Proof.
  intros Hs. revert fuel. induction Hs as [|p ps Hp _ IH]; intros fuel Hf; [by destruct fuel|].
  destruct fuel as [|fuel]; [simpl in Hf; lia|]. cbn [map concat]. unfold packet_record at 1.
  set (h := {| ts_sec := _ |}). pose proof (packet_size h) as Hsz. pose proof packet_size_pos as Hpos.
  rewrite <- app_assoc. cbn [read_packets].
  destruct (packet_bytes h ++ snd p ++ concat (map packet_record ps)) as [|x s] eqn:Es.
  { apply (f_equal length) in Es. rewrite length_app, Hsz in Es. simpl in Es. lia. }
  rewrite <- Es. clear Es. rewrite <- Hsz. rewrite take_app_length, drop_app_length.
  assert (Hlen : read_incl_len (packet_bytes h) = strlen (snd p)).
  { assert (0 ≤ strlen (snd p)) by (unfold strlen; lia). unfold PCAP_PACKET_MAX_SIZE in *.
    assert (E : incl_len h = strlen (snd p)).
    { cbn [incl_len h]. rewrite Z.min_r by done. unfold u32. apply Z.mod_small. lia. }
    rewrite packet_len; rewrite E; [done|lia]. }
  rewrite Hlen. unfold strlen. rewrite Nat2Z.id, take_app_length, drop_app_length, IH; [done|]. simpl in Hf. lia.
Qed.

(** The header of a file of DOE packets. *)
Definition doe_header : pcap_global_header_t :=
  {| magic_number := PCAP_GLOBAL_HEADER_MAGIC; version_major := PCAP_GLOBAL_HEADER_VERSION_MAJOR;
     version_minor := PCAP_GLOBAL_HEADER_VERSION_MINOR; this_zone := 0; sig_figs := 0;
     snap_len := PCAP_PACKET_MAX_SIZE; network := LINKTYPE_PCI_DOE |}.

Lemma open_doe name disk :
  SOCKET_TRANSPORT_TYPE_PCI_DOE ≠ SOCKET_TRANSPORT_TYPE_MCTP →
  strlen (global_bytes doe_header) ≤ room disk →
  open_pcap_packet_file (Some name) SOCKET_TRANSPORT_TYPE_PCI_DOE (Some disk) None =
  (true, Some {| content := content disk ++ global_bytes doe_header; room := room disk - strlen (global_bytes doe_header) |}).
Proof.
  intros Hne Hr. unfold open_pcap_packet_file. rewrite (proj2 (Z.eqb_neq _ _) Hne), Z.eqb_refl.
  cbv zeta beta. fold doe_header. rewrite fwrite_all by done. by rewrite Z.eqb_refl.
Qed.

(** C36: packets of at most 65536 bytes come back from the packet file of a run when the disk has room:
    a fresh file opens, and after the global header a reader that follows the length fields finds exactly the packets
    that were sent and received, in order. *)
Theorem packets_come_back `{!PcapReadable} ps name disk :
  SOCKET_TRANSPORT_TYPE_PCI_DOE ≠ SOCKET_TRANSPORT_TYPE_MCTP →
  content disk = [] →
  strlen (global_bytes doe_header) + strlen (concat (map packet_record ps)) ≤ room disk →
  Forall (λ p, strlen (snd p) ≤ PCAP_PACKET_MAX_SIZE) ps →
  ∃ f f' records,
    open_pcap_packet_file (Some name) SOCKET_TRANSPORT_TYPE_PCI_DOE (Some disk) None = (true, Some f) ∧
    append_packets ps (Some f, Some f) = (Some f', Some f') ∧
    content f' = global_bytes doe_header ++ records ∧ read_packets (length ps) records = map snd ps.
Proof.
  intros Hne He Hr Hs. assert (0 ≤ strlen (concat (map packet_record ps))) by (unfold strlen; lia).
  set (f := {| content := content disk ++ global_bytes doe_header; room := room disk - strlen (global_bytes doe_header) |}).
  destruct (append_packets_all ps f) as (f' & E & Ec); [cbn [room f]; lia|].
  exists f, f', (concat (map packet_record ps)). split_and!; [apply (open_doe name disk Hne); lia|exact E| |by apply read_packet_records].
  rewrite Ec. cbn [content f]. by rewrite He.
Qed.

(** Without room the file is a part of what was to be written, and it is closed: nothing is added after the gap. *)
Lemma append_prefix p f :
  match append_pcap_packet_data (fst p) [] (snd p) (Some f) with
  | (Some f', d) => d = Some f' ∧ content f' = content f ++ packet_record p
  | (None, d) => ∃ f' k, d = Some f' ∧ content f' = content f ++ take k (packet_record p)
  end.
Proof.
  unfold append_pcap_packet_data, packet_record. rewrite min_if. change (strlen []) with 0. rewrite Z.add_0_l.
  set (h := packet_bytes _). pose proof (write_prefix h f) as H1. destruct (write_or_close h f) as [f1|f1]; cbn [Z.eqb close_pcap_packet_file].
  - pose proof (write_prefix (snd p) f1) as H2. destruct (write_or_close (snd p) f1) as [f2|f2]; cbn [close_pcap_packet_file].
    + split; [done|]. by rewrite H2, H1, app_assoc.
    + destruct H2 as [k H2]. exists f2, (length h + k)%nat. split; [done|].
      by rewrite H2, H1, take_app_add, app_assoc.
  - destruct H1 as [k H1]. exists f1, (Nat.min k (length h)). split; [done|]. rewrite H1, take_app_le by lia. by rewrite <- take_take, firstn_all.
Qed.

Lemma append_closed ps d : append_packets ps (None, d) = (None, d).
Proof. induction ps as [|p ps IH]; [done|]. exact IH. Qed.

(** Whatever room the disk has, the packet file is a prefix of what was to be written, and after the first write
    that falls short the file is closed and nothing more is added. *)
Theorem packet_file_is_prefix ps f :
  ∃ st f' k, append_packets ps (Some f, Some f) = (st, Some f') ∧
    content f' = content f ++ take k (concat (map packet_record ps)) ∧ (st = None ∨ st = Some f').
Proof.
  revert f. induction ps as [|p ps IH]; intros f.
  { exists (Some f), f, 0%nat. split_and!; [done| |by right]. by rewrite app_nil_r. }
  pose proof (append_prefix p f) as H1. cbn [append_packets fold_left fst snd map concat].
  destruct (append_pcap_packet_data _ _ _ _) as [[f1|] d].
  - destruct H1 as [-> E1]. destruct (IH f1) as (st & f' & k & E & Ec & Hst). exists st, f', (length (packet_record p) + k)%nat.
    split_and!; [exact E| |exact Hst]. by rewrite Ec, E1, take_app_add, app_assoc.
  - destruct H1 as (f1 & k & -> & E1). exists None, f1, (Nat.min k (length (packet_record p))). split_and!; [apply append_closed| |by left].
    rewrite E1, take_app_le by lia. by rewrite <- take_take, firstn_all.
Qed.
End pcap.

(** ** The log *)

Definition IDE_MAX_LOG_MESSAGE_LENGTH : Z := 1024.

(** The console, and the log file if it is open. *)
Record log := { console : bytes; m_logfile : option bytes }.

(** [printf], and [fprintf] to the log if there is one. *)
Definition log_text (text : bytes) (l : log) : log :=
  {| console := console l ++ text; m_logfile := (λ f, f ++ text) <$> m_logfile l |}.
(** [vsnprintf] into the buffer. *)
Definition log_buffer (message : bytes) : bytes := take (Z.to_nat (IDE_MAX_LOG_MESSAGE_LENGTH - 1)) message.

Definition teeio_debug_print (timestamp : bytes) (g_debug_level debug_level : Z) (message : bytes) (l : log) : res log :=
  if g_debug_level <? debug_level then Ok l else
  let* level := get_ide_log_level_string debug_level in
  Ok (log_text (bs "[" ++ timestamp ++ bs "][" ++ level ++ bs "] " ++ log_buffer message) l).

Definition teeio_print (timestamp message : bytes) (l : log) : log :=
  log_text (bs "[" ++ timestamp ++ bs "] " ++ log_buffer message) l.

(** libspdm's messages; which levels are built in is libspdm's. *)
Definition libspdm_debug_print (LIBSPDM_DEBUG_LEVEL_CONFIG : Z) (g_libspdm_log : bool) (error_level : Z) (message : bytes) (l : log) : log :=
  if negb g_libspdm_log then l
  else if Z.land error_level LIBSPDM_DEBUG_LEVEL_CONFIG =? 0 then l
  else log_text (log_buffer message) l.

(** [opens] tells whether [fopen] succeeds; an open log is closed first. *)
Definition log_file_init (opens : bool) (l : log) : bool * log :=
  if opens then (true, {| console := console l; m_logfile := Some [] |})
  else (false, {| console := console l; m_logfile := None |}).

(** The test is the wrong way round: [fclose(NULL)] without a log, and nothing with one. *)
Definition log_file_close (l : log) : res log :=
  match m_logfile l with None => Stop Undefined | Some _ => Ok l end.

(** ** Hexadecimal dumps *)

Definition COLUME_SIZE : Z := 16.

Definition hex04 (n : Z) : bytes := replicate (4 - length (hex n)) (char "0") ++ hex n.

(** One [sprintf] at [index * 3]. *)
Definition dump_hex_array_to_str (array : bytes) (array_size str_size : Z) : res bytes :=
  let* _ := TEEIO_ASSERT (array_size * 3 <=? str_size) in
  fold_res (λ index str,
    let* b := array_get array index in
    let* t := print_at str_size (index * 3) (hex02 b ++ (if index =? array_size - 1 then [] else bs " ")) in
    Ok (take (Z.to_nat (index * 3)) str ++ t)) (seqZ 0 array_size) [].

Definition dump_line (data : bytes) (i size : Z) : res bytes :=
  let* one_line_buffer := dump_hex_array_to_str (drop (Z.to_nat (i * COLUME_SIZE)) data) size (COLUME_SIZE * 3) in
  Ok (hex04 (i * COLUME_SIZE) ++ bs ": " ++ one_line_buffer ++ [10]).

(** The messages. *)
Definition dump_hex_array (data : bytes) (size : Z) : res (list bytes) :=
  let count := size / COLUME_SIZE in
  let left := size mod COLUME_SIZE in
  let* lines := fold_res (λ i lines, let* l := dump_line data i COLUME_SIZE in Ok (lines ++ [l])) (seqZ 0 count) [] in
  if left =? 0 then Ok lines else
  let* l := dump_line data count left in Ok (lines ++ [l]).

(** library/spdmlib/support.c *)
Definition libspdm_dump_hex_str (buffer : bytes) : list bytes := map hex02 buffer.
Definition dump_data (buffer : bytes) : list bytes := map (λ b, hex02 b ++ bs " ") buffer.
Definition dump_hex (data : bytes) : list bytes :=
  let size := strlen data in
  let count := size / 32 in
  let left := size mod 32 in
  let row i n := (hex04 (i * 32) ++ bs ": ") :: dump_data (take (Z.to_nat n) (drop (Z.to_nat (i * 32)) data)) ++ [[10]] in
  concat (map (λ i, row i 32) (seqZ 0 count)) ++ (if left =? 0 then [] else row count left).

(** [file] is what [fopen] gives; [malloc_ok] tells whether there is memory for it. *)
Definition libspdm_read_input_file (file : option bytes) (malloc_ok : bool) : bool * option bytes :=
  match file with
  | None => (false, None)
  | Some data => if malloc_ok then (true, Some data) else (false, None)
  end.

Definition libspdm_write_output_file (disk : option FILE) (file_data : bytes) : bool * option FILE :=
  match disk with
  | None => (false, None)
  | Some f =>
      if strlen file_data =? 0 then (true, Some f) else
      let '(n, f) := fwrite file_data f in (n =? strlen file_data, Some f)
  end.
(** ** Witnesses *)

(** Little-endian words. *)
Fixpoint le (n : nat) (x : Z) : bytes := match n with O => [] | S n => x mod 256 :: le n (x / 256) end.
Fixpoint le_value (s : bytes) : Z := match s with [] => 0 | b :: s => b + 256 * le_value s end.

Lemma le_length n x : length (le n x) = n.
Proof. revert x. induction n as [|n IH]; intros x; [done|]. simpl. by rewrite IH. Qed.

Lemma le_value_le n x : le_value (le n x) = x mod 256 ^ Z.of_nat n.
Proof.
  revert x. induction n as [|n IH]; intros x; [by rewrite Z.mod_1_r|]. cbn [le le_value]. rewrite IH.
  rewrite Nat2Z.inj_succ, Z.pow_succ_r by lia. rewrite Z.rem_mul_r by lia. lia.
Qed.

(** The format as the tools that read such files know it. *)
#[local] Instance example_format : PcapFormat := {|
  PCAP_GLOBAL_HEADER_MAGIC := 0xa1b2c3d4; PCAP_GLOBAL_HEADER_VERSION_MAJOR := 2; PCAP_GLOBAL_HEADER_VERSION_MINOR := 4;
  LINKTYPE_MCTP := 291; LINKTYPE_PCI_DOE := 292; SOCKET_TRANSPORT_TYPE_MCTP := 1; SOCKET_TRANSPORT_TYPE_PCI_DOE := 2;
  global_bytes h := le 4 (magic_number h) ++ le 2 (version_major h) ++ le 2 (version_minor h) ++ le 4 (this_zone h) ++
                    le 4 (sig_figs h) ++ le 4 (snap_len h) ++ le 4 (network h);
  packet_bytes h := le 4 (ts_sec h) ++ le 4 (ts_usec h) ++ le 4 (incl_len h) ++ le 4 (orig_len h);
  sizeof_pcap_packet_header_t := 16;
  read_incl_len s := le_value (take 4 (drop 8 s))
|}.

#[local] Instance example_readable : PcapReadable.
Proof.
  split.
  - intros h. cbn [packet_bytes example_format]. by rewrite !length_app, !le_length.
  - cbn. lia.
  - intros h Hh. cbn [packet_bytes read_incl_len example_format].
    replace (drop 8 (le 4 (ts_sec h) ++ le 4 (ts_usec h) ++ le 4 (incl_len h) ++ le 4 (orig_len h)))
      with (le 4 (incl_len h) ++ le 4 (orig_len h)) by done.
    rewrite take_app_length' by (by rewrite le_length). rewrite le_value_le. apply Z.mod_small. exact Hh.
Qed.

Definition example_packets : list (Z * bytes) := [(1700000000, [1; 2; 3; 4]); (1700000001, []); (1700000002, [5; 6; 7; 8])].

Lemma packets_come_back_witness :
  ∃ f f' records,
    open_pcap_packet_file (Some (bs "a.pcap")) SOCKET_TRANSPORT_TYPE_PCI_DOE (Some {| content := []; room := 1000 |}) None = (true, Some f) ∧
    append_packets example_packets (Some f, Some f) = (Some f', Some f') ∧
    content f' = global_bytes doe_header ++ records ∧ read_packets 3 records = [[1; 2; 3; 4]; []; [5; 6; 7; 8]].
Proof.
  apply (packets_come_back example_packets (bs "a.pcap") {| content := []; room := 1000 |}).
  - discriminate.
  - reflexivity.
  - vm_compute. discriminate.
  - repeat constructor; vm_compute; discriminate.
Defined.

(** A longer packet is written whole under a length that is cut: the reader loses its way after it. *)
Example long_packet_misread :
  match append_packets [(0, replicate (Pos.to_nat 65537) 7); (0, [1])] (Some {| content := []; room := 100000 |}, None) with
  | (Some f, _) => map (λ p, length p =? Pos.to_nat 65536)%nat (read_packets 2 (content f)) = [true; false] ∧
                   nth 1 (read_packets 2 (content f)) [] ≠ [1]
  | _ => False
  end.
Proof. vm_compute. split; [reflexivity|discriminate]. Qed.

(** The log that was opened is still open after [log_file_close]. *)
Example log_stays_open l : let l' := snd (log_file_init true l) in log_file_close l' = Ok l' ∧ m_logfile l' ≠ None.
Proof. by split. Qed.

Example dump_of_twenty :
  dump_hex_array (map Z.of_nat (seq 0 20)) 20 =
  Ok [bs "0000: 00 01 02 03 04 05 06 07 08 09 0a 0b 0c 0d 0e 0f" ++ [10]; bs "0010: 10 11 12 13" ++ [10]].
Proof. vm_compute. reflexivity. Qed.
End Files.
