(* ===== verification/Tools.v ===== *)
(** * The two small programs (teeio_validator/tools/ide_common.c, lside.c,
    setide.c; include/ide_tools.h)

    [lside] prints the IDE registers of the devices of a topology, [setide]
    clears them.  Both parse the INI file and open ports with the code of the
    validator, linked with functions of their own that do nothing.  What is printed is
    the list of the lines. *)
From Stdlib Require Import ZArith Lia Ascii String.
From stdpp Require Import prelude gmap.
From S2P Require Import Prelude Utils Libspdm TestConfig TestLib ConfigDump ConfigParse Hardware PcieIde Kcbar Doe Ports Layout Registers PcieIdeSpec Cmdline.
Import Layout Registers PcieIdeSpec CLib Utils TestConfig TestLib ConfigDump ConfigParse Hardware PcieIde Kcbar Doe Ports Utils.PcieHelper Cmdline.

Open Scope list_scope.
Open Scope Z_scope.
Open Scope teeio_scope.

Module Tools.

(** ** Ports by address

    Address 0 is NULL; the sixteen cells of the configuration's array of ports come first, then
    sixteen for each cell of the array of switches. *)

Definition config_port_cells (c : IDE_TEST_CONFIG) : list (Z * IDE_PORT) := zip (seqZ 1 16) (ports (ports_config c)).
Definition switch_cells (c : IDE_TEST_CONFIG) : list (Z * IDE_SWITCH) := zip (seqZ 0 16) (switches (switches_config c)).
Definition switch_port_cells (i : Z) (sw : IDE_SWITCH) : list (Z * IDE_PORT) := zip (seqZ (17 + 16 * i) 16) (sw_ports sw).

Definition config_objects (c : IDE_TEST_CONFIG) : gmap Z IDE_PORT :=
  list_to_map (config_port_cells c ++ flat_map (λ s, switch_port_cells (fst s) (snd s)) (switch_cells c)).

Definition address_of {A} (r : res (option (Z * A))) : res Z :=
  let* p := r in Ok (match p with Some (addr, _) => addr | None => 0 end).

(** The look-ups of [TestConfig] with the place of the cell. *)
Definition port_address_by_id (c : IDE_TEST_CONFIG) (id : Z) : res Z :=
  if id <=? 0 then Ok 0 else
  address_of (find_cell (λ x, (port_id (snd x) =? id) && port_enabled (snd x)) (Z.to_nat (ports_cnt (ports_config c)))
                        (config_port_cells c)).
Definition switch_cell_by_id (c : IDE_TEST_CONFIG) (id : Z) : res (option (Z * IDE_SWITCH)) :=
  if id <=? 0 then Ok None else
  find_cell (λ x, (sw_id (snd x) =? id) && sw_enabled (snd x)) (Z.to_nat (switches_cnt (switches_config c))) (switch_cells c).
Definition port_address_in_switch (cell : Z * IDE_SWITCH) (id : Z) : res Z :=
  if id <=? 0 then Ok 0 else
  address_of (find_cell (λ x, port_enabled (snd x) && (port_id (snd x) =? id)) (Z.to_nat (sw_ports_cnt (snd cell)))
                        (switch_port_cells (fst cell) (snd cell))).

(** ** Topologies (ide_common.c) *)

(** [ide_common_test_switch_internal_conn_context_t] *)
Record conn_context := { ctx_switch_id : Z; ctx_ups : Z; ctx_dps : Z }.

Fixpoint alloc_switch_internal_conn_context (c : IDE_TEST_CONFIG) (conn : list IDE_SWITCH_INTERNAL_CONNECTION)
    : res (list conn_context) :=
  match conn with
  | [] => Ok []
  | x :: conn =>
      let* sw := switch_cell_by_id c (conn_switch_id x) in
      let* _ := TEEIO_ASSERT (is_some sw) in
      let* sw := deref sw in
      let* ups_port := port_address_in_switch sw (conn_ups_port x) in
      let* dps_port := port_address_in_switch sw (conn_dps_port x) in
      let* _ := TEEIO_ASSERT (negb (ups_port =? 0) && negb (dps_port =? 0)) in
      let* rest := alloc_switch_internal_conn_context c conn in
      Ok ({| ctx_switch_id := conn_switch_id x; ctx_ups := ups_port; ctx_dps := dps_port |} :: rest)
  end.

Definition scan_conn (l : list conn_context) : list (Z * Z) := map (λ x, (ctx_ups x, ctx_dps x)) l.

(** [memset(context, 0, ...); context->port = port;] *)
Definition port_context (p : IDE_PORT) : ide_common_test_port_context_t :=
  {| port := p; cfg_space_fd := 0; ecap_offset := 0; doe_offset := 0; ide_cap := 0; mapped_kcbar_addr := 0; kcbar_fd := 0;
     stream_cap := 0; ide_id := 0; rid_assoc1 := 0; rid_assoc2 := 0; addr_assoc1 := 0; addr_assoc2 := 0; addr_assoc3 := 0 |}.

(** The context of the upper port is [None] when it is the one of the root port. *)
Record DEVCIES_CONTEXT := {
  root_port_context : ide_common_test_port_context_t;
  upper_port_context : option ide_common_test_port_context_t;
  lower_port_context : ide_common_test_port_context_t;
  dc_sw_conn1 : list conn_context;
  dc_sw_conn2 : list conn_context
}.

(** The functions the programs define for the linker: [pcie_doe_init_request],
    [is_doe_error_asserted], [trigger_doe_abort], [libspdm_sleep], and those of the test libraries. *)
Definition stub_funcs : list teeio_test_funcs_t :=
  replicate 5 {| get_configuration_name_func := None; get_configuration_priv_names_func := None;
                 parse_configuration_priv_name_func := None; get_configuration_bitmask_func := None;
                 get_configuration_funcs_func := None; get_group_funcs_func := None; get_case_funcs_func := None;
                 get_case_name_func := None; alloc_test_group_context_func := None;
                 check_configuration_bitmap_func := Some (λ bitmap, (true, bitmap)) |}.

(** ** Output *)

Definition shown (l : list (string * Z)) : bytes :=
  match l with
  | [] => []
  | (n, v) :: l => fold_left (λ s x, s ++ bs ", " ++ bs (fst x) ++ bs "=" ++ hex (snd x)) l (bs n ++ bs "=" ++ hex v)
  end.
Definition reg_line (label : string) (raw : Z) (in_parentheses : bytes) : bytes :=
  bs label ++ hex_fixed 8 raw ++ bs " (" ++ in_parentheses ++ bs ")".

Definition cap_member (n : string) (raw : Z) : Z := read_member PCIE_IDE_CAP anonymous n raw.
Definition cap_features (raw : Z) : bytes :=
  shown [("lnk_ide", cap_member "lnk_ide_supported" raw); ("sel_ide", cap_member "sel_ide_supported" raw);
         ("ft", cap_member "ft_supported" raw); ("aggr", cap_member "aggr_supported" raw);
         ("pcrc", cap_member "pcrc_supported" raw); ("alog", cap_member "supported_algo" raw);
         ("sel_ide_cfg_req", cap_member "sel_ide_cfg_req_supported" raw)]%string.
Definition cap_numbers (raw : Z) : bytes :=
  shown [("num_lnk_ide", cap_member "num_lnk_ide" raw); ("num_sel_ide", cap_member "num_sel_ide" raw)]%string.
Definition ctrl_line (label : string) (raw : Z) : bytes :=
  reg_line label raw (shown [("ft_supported", read_member PCIE_IDE_CTRL anonymous "ft_supported" raw)]%string).

Definition stream_ctrl_line (raw : Z) : bytes :=
  let member n := read_member PCIE_SEL_IDE_STREAM_CTRL anonymous n raw in
  reg_line "      stream_ctrl : " raw
    (shown [("enabled", member "enabled"); ("pcrc_en", member "pcrc_en"); ("cfg_sel_ide", member "cfg_sel_ide");
            ("stream_id", member "stream_id")]%string).
Definition stream_status_line (raw : Z) : bytes :=
  let member n := read_member PCIE_SEL_IDE_STREAM_STATUS anonymous n raw in
  reg_line "      stream_stats: " raw
    (shown [("state", member "state"); ("recv_intg_check_fail_msg", member "recv_intg_check_fail_msg")]%string).

Definition header_lines (cap_id ide_cap ide_ctrl : Z) : list bytes :=
  [bs "  IDE Extended Cap:"; bs "    cap_id        : " ++ hex_fixed 8 cap_id;
   bs "    ide_cap       : " ++ hex_fixed 8 ide_cap; bs "                  : " ++ cap_features ide_cap;
   bs "                  : " ++ cap_numbers ide_cap; ctrl_line "    ide_ctrl      : " ide_ctrl; []].
Definition link_lines (id stream_ctrl stream_status : Z) : list bytes :=
  [bs "    ide_id " ++ dec id ++ bs "      : LinkIDE"; stream_ctrl_line stream_ctrl; stream_status_line stream_status].
Definition selective_lines (id stream_cap stream_ctrl stream_status : Z) : list bytes :=
  [bs "    ide_id " ++ dec id ++ bs "      : SelectiveIDE";
   bs "      stream_cap  : " ++ hex_fixed 8 stream_cap ++ bs " (num_addr_assoc_reg_blocks=" ++
     dec (read_member PCIE_SEL_IDE_STREAM_CAP anonymous "num_addr_assoc_reg_blocks" stream_cap) ++ bs ")";
   stream_ctrl_line stream_ctrl; stream_status_line stream_status; []].

(** [NUM_SEL_IDE_ISSUE] *)
Definition num_sel_ide_issue (num_sel_ide : Z) : Z := if 4 <? num_sel_ide then num_sel_ide - 1 else num_sel_ide.

(** ** Registers of a port *)
Section registers.
Context {D : Type} `{Bus D}.

(** *** lside *)

Definition dump_link (fd i : Z) (s : Z * list bytes) : io D (Z * list bytes) :=
  let '(offset, out) := s in
  let offset := u32 (offset + 4) in
  let+ stream_ctrl := device_pci_read_32 offset fd in
  let offset := u32 (offset + 4) in
  let+ stream_status := device_pci_read_32 offset fd in
  ret (offset, out ++ link_lines i stream_ctrl stream_status).

(** The registers of one address association block are passed over. *)
Definition dump_selective (fd num_lnk_ide i : Z) (s : Z * list bytes) : io D (Z * list bytes) :=
  let '(offset, out) := s in
  let offset := u32 (offset + 4) in
  let+ stream_cap := device_pci_read_32 offset fd in
  let offset := u32 (offset + 4) in
  let+ stream_ctrl := device_pci_read_32 offset fd in
  let offset := u32 (offset + 4) in
  let+ stream_status := device_pci_read_32 offset fd in
  ret (u32 (offset + 4 * 5), out ++ selective_lines (i + num_lnk_ide) stream_cap stream_ctrl stream_status).

Definition lside_dump_ecap (fd ide_ecap_offset : Z) : io D (list bytes) :=
  let offset := ide_ecap_offset in
  let+ cap_id := device_pci_read_32 offset fd in
  let offset := u32 (offset + 4) in
  let+ ide_cap := device_pci_read_32 offset fd in
  let offset := u32 (offset + 4) in
  let+ ide_ctrl := device_pci_read_32 offset fd in
  let num_lnk_ide := lnk_count ide_cap in
  let+ (offset, out) := io_fold (dump_link fd) (range 0 num_lnk_ide) (offset, header_lines cap_id ide_cap ide_ctrl) in
  let num_sel_ide := num_sel_ide_issue (sel_count ide_cap) in
  let+ (_, out) := io_fold (dump_selective fd num_lnk_ide) (range 0 num_sel_ide) (offset, out ++ [[]]) in
  ret out.

Definition dump_stream (kcbar_ptr rp_stream_index : Z) (out : list bytes) : io D (list bytes) :=
  let block := stream_config_reg_block kcbar_ptr rp_stream_index in
  let+ stream_control := mmio_read_reg32 block in
  let+ tx_control := mmio_read_reg32 (block + tx_ctrl) in
  let+ tx_st := mmio_read_reg32 (block + tx_status) in
  let+ rx_control := mmio_read_reg32 (block + rx_ctrl) in
  let+ rx_st := mmio_read_reg32 (block + rx_status) in
  let ctrl v n raw := (n, read_member INTEL_KEYP_STREAM_TXRX_CONTROL v n raw) in
  let status v n raw := (n, read_member INTEL_KEYP_STREAM_TXRX_STATUS v n raw) in
  ret (out ++
    [bs "    stream_" ++ [char "a" + rp_stream_index] ++ bs "         :";
     reg_line "      stream_control : " stream_control
       (shown [("enable", read_member INTEL_KEYP_STREAM_CONTROL anonymous "en" stream_control);
               ("stream_id", read_member INTEL_KEYP_STREAM_CONTROL anonymous "stream_id" stream_control)]%string);
     reg_line "      tx_control     : " tx_control
       (shown (map (λ n, ctrl "stream_tx_control" n tx_control) ["key_set_select"; "prime_key_set_0"; "prime_key_set_1"])%string);
     reg_line "      tx_status      : " tx_st
       (shown (map (λ n, status "stream_tx_status" n tx_st) ["key_set_status"; "ready_key_set_0"; "ready_key_set_1"])%string);
     reg_line "      rx_control     : " rx_control
       (shown (map (λ n, ctrl "stream_rx_control" n rx_control) ["prime_key_set_0"; "prime_key_set_1"])%string);
     reg_line "      rx_status      : " rx_st
       (shown (map (λ n, status "stream_rx_status" n rx_st) ["ready_key_set_0"; "ready_key_set_1"])%string); []]).

Definition lside_dump_kcbar (kcbar_ptr : Z) : io D (list bytes) :=
  let+ stream_cap := mmio_read_reg32 kcbar_ptr in
  let num n := bs n ++ bs "=" ++ dec (read_member INTEL_KEYP_PCIE_STREAM_CAP anonymous n stream_cap) in
  let out :=
    [bs "  Intel IDE Key Configuration Unit Register Block:";
     reg_line "    stream_cap       : " stream_cap
       (num "num_stream_supported"%string ++ bs ", " ++ num "num_tx_key_slots"%string ++ bs ", " ++ num "num_rx_key_slots"%string); []] in
  io_fold (dump_stream kcbar_ptr) (range 0 (num_stream_supported stream_cap + 1)) out.

Definition port_line (kind : string) (p : IDE_PORT) : bytes :=
  bs kind ++ bs " - " ++ port_name p ++ bs "(" ++ port_bdf p ++ bs ").".

Definition dump_root_port (pc : ide_common_test_port_context_t) : io D (list bytes) :=
  let+ ecap := lside_dump_ecap (cfg_space_fd pc) (ecap_offset pc) in
  let+ kcbar := lside_dump_kcbar (mapped_kcbar_addr pc) in
  ret ([] :: port_line "RootPort" (port pc) :: ecap ++ kcbar).

(** *** setide *)

(** What the calls return is only printed. *)
Definition clear_link (pc : ide_common_test_port_context_t) (i : Z) (_ : unit) : io D unit :=
  let+ _ := setup_ide_ecap_regs (cfg_space_fd pc) TEST_IDE_TYPE_LNK_IDE i (ecap_offset pc) 0 0 0 0 0 0 in ret tt.
Definition clear_selective (pc : ide_common_test_port_context_t) (num_lnk_ide i : Z) (_ : unit) : io D unit :=
  let+ _ := setup_ide_ecap_regs (cfg_space_fd pc) TEST_IDE_TYPE_SEL_IDE (i + num_lnk_ide) (ecap_offset pc) 0 0 0 0 0 0 in ret tt.

Definition clear_ecap (pc : ide_common_test_port_context_t) : io D bool :=
  let num_lnk_ide := lnk_count (ide_cap pc) in
  let+ _ := io_fold (clear_link pc) (range 0 num_lnk_ide) tt in
  let num_sel_ide := num_sel_ide_issue (sel_count (ide_cap pc)) in
  let+ _ := io_fold (clear_selective pc num_lnk_ide) (range 0 num_sel_ide) tt in
  ret true.

Definition clear_kcbar (pc : ide_common_test_port_context_t) : io D bool :=
  let+ r := io_for (λ i _, let+ ok := initialize_kcbar_registers (mapped_kcbar_addr pc) 0 i in
                           ret (if ok : bool then inl tt else inr tt))
              (range 0 (num_stream_supported (stream_cap pc) + 1)) tt in
  ret (match r with inl _ => true | inr _ => false end).

Definition clear_root_port (pc : ide_common_test_port_context_t) : io D bool :=
  let+ ok := clear_kcbar pc in
  if negb ok then ret false else
  let+ ok := clear_ecap pc in
  if negb ok then ret false else ret true.

Definition clear_dev_port (pc : ide_common_test_port_context_t) : io D bool :=
  let+ ok := clear_ecap pc in
  if negb ok then ret false else ret true.
End registers.

(** ** The programs *)

(** What the options set. *)
Record tool_options := {
  ide_test_ini_file : bytes;
  to_print_usage : bool;
  tool_debug_level : Z;
  tool_top_id : Z;
  tool_scan_bus : Z
}.
Definition no_tool_options : tool_options :=
  {| ide_test_ini_file := []; to_print_usage := false; tool_debug_level := TEEIO_DEBUG_WARN; tool_top_id := 0;
     tool_scan_bus := INVALID_SCAN_BUS |}.

(** "f:t:l:b:h", and with "c" for setide *)
Definition lside_options : list (Z * bool) :=
  [(char "f", true); (char "t", true); (char "l", true); (char "b", true); (char "h", false)].
Definition setide_options : list (Z * bool) :=
  [(char "f", true); (char "t", true); (char "l", true); (char "b", true); (char "c", false); (char "h", false)].

Section options.
Context (exists_file : bytes → bool).

Definition parse_tool_option (opt : Z) (optarg : bytes) (o : tool_options) : res (option tool_options) :=
  if opt =? char "f" then
    if negb (validate_file_name exists_file (Some optarg)) then Ok None else
    let* s := copy_file_name optarg in
    Ok (Some {| ide_test_ini_file := s; to_print_usage := to_print_usage o; tool_debug_level := tool_debug_level o;
                tool_top_id := tool_top_id o; tool_scan_bus := tool_scan_bus o |})
  else if opt =? char "t" then
    let v := atoi optarg in
    if (v <=? 0) || (MAX_TOPOLOGY_NUM <? v) then Ok None else
    Ok (Some {| ide_test_ini_file := ide_test_ini_file o; to_print_usage := to_print_usage o;
                tool_debug_level := tool_debug_level o; tool_top_id := v; tool_scan_bus := tool_scan_bus o |})
  else if opt =? char "l" then
    Ok (Some {| ide_test_ini_file := ide_test_ini_file o; to_print_usage := to_print_usage o;
                tool_debug_level := get_ide_log_level_from_string (Some optarg); tool_top_id := tool_top_id o;
                tool_scan_bus := tool_scan_bus o |})
  else if opt =? char "b" then
    match convert_hex_str_to_uint8 (Some optarg) (Some 0) with
    | (true, Some data8) =>
        Ok (Some {| ide_test_ini_file := ide_test_ini_file o; to_print_usage := to_print_usage o;
                    tool_debug_level := tool_debug_level o; tool_top_id := tool_top_id o; tool_scan_bus := data8 |})
    | _ => Ok None
    end
  else if opt =? char "h" then
    Ok (Some {| ide_test_ini_file := ide_test_ini_file o; to_print_usage := true; tool_debug_level := tool_debug_level o;
                tool_top_id := tool_top_id o; tool_scan_bus := tool_scan_bus o |})
  else Ok None.

(** "-c" sets [g_ide_operation] to the value it has from the start. *)
Definition parse_setide_option (opt : Z) (optarg : bytes) (o : tool_options) : res (option tool_options) :=
  if opt =? char "c" then Ok (Some o) else parse_tool_option opt optarg o.

Definition lside_cmdline (argv : list bytes) : res (bool * tool_options) :=
  let* _ := TEEIO_ASSERT (negb (Nat.eqb (length argv) 0)) in
  read_options lside_options parse_tool_option argv no_tool_options.
Definition setide_cmdline (argv : list bytes) : res (bool * tool_options) :=
  let* _ := TEEIO_ASSERT (negb (Nat.eqb (length argv) 0)) in
  read_options setide_options parse_setide_option argv no_tool_options.
End options.

Section programs.
Context {D : Type} `{Bus D} `{Os D} `{Libspdm}.

#[local] Abbreviation State := (D * process)%type.

Definition tool_open_dev_port : ide_common_test_port_context_t → io State (bool * ide_common_test_port_context_t) :=
  open_dev_port_with (init_pci_doe_with
    (try_doe_with (λ _ _, ret tt) (λ _, ret tt) (λ _ _, ret false) (λ _ _ _, ret true))).

(** [free(upper_port)] is of a cell of the configuration. *)
Definition scan_open_failed (upper_context : bool) (root_addr upper_addr : Z) : io State (option DEVCIES_CONTEXT) :=
  if upper_context && negb (upper_addr =? root_addr) then lift (Stop Undefined) else ret None.

Definition scan_open_devices_in_top (c : IDE_TEST_CONFIG) (top_id : Z) : io State (option DEVCIES_CONTEXT) :=
  let+ top := lift (get_topology_by_id (Some c) top_id) in
  match top with None => ret None | Some top =>
  let+ root_addr := lift (port_address_by_id c (top_root_port top)) in
  let+ upper_addr := lift (port_address_by_id c (top_upper_port top)) in
  let+ lower_addr := lift (port_address_by_id c (top_lower_port top)) in
  let same_id (b : bool) :=
    let+ root := get_port root_addr in
    let+ upper := get_port upper_addr in
    io_assert (Bool.eqb (port_id root =? port_id upper) b) in
  let alloc conn := lift (alloc_switch_internal_conn_context c conn) in
  let+ (sw_conn1, sw_conn2) :=
    (if top_connection top =? IDE_TEST_CONNECT_SWITCH then
       let+ _ := same_id true in let+ c1 := alloc (top_sw_conn1 top) in ret (c1, [])
     else if top_connection top =? IDE_TEST_CONNECT_P2P then
       let+ _ := same_id false in
       let+ c1 := alloc (top_sw_conn1 top) in let+ c2 := alloc (top_sw_conn2 top) in ret (c1, c2)
     else if top_connection top =? IDE_TEST_CONNECT_DIRECT then let+ _ := same_id true in ret ([], [])
     else ret ([], [])) in
  let scan addr conn := scan_devices_at_bus root_addr addr (scan_conn conn) (top_segment top) (top_bus top) in
  let+ found :=
    (if (top_connection top =? IDE_TEST_CONNECT_DIRECT) || (top_connection top =? IDE_TEST_CONNECT_SWITCH) then
       scan lower_addr sw_conn1
     else if top_connection top =? IDE_TEST_CONNECT_P2P then
       let+ found := scan upper_addr sw_conn1 in
       if negb found then ret false else scan lower_addr sw_conn2
     else ret false) in
  if negb found then scan_open_failed false root_addr upper_addr else
  let+ root := get_port root_addr in
  let+ (ok, root_ctx) := open_root_port (port_context root) in
  if negb ok then scan_open_failed false root_addr upper_addr else
  let+ (ok, upper_ctx) :=
    (if top_connection top =? IDE_TEST_CONNECT_P2P then
       let+ (ok, pc) := tool_open_dev_port (port_context root) in ret (ok, Some pc)
     else ret (true, None)) in
  if negb ok then scan_open_failed true root_addr upper_addr else
  let+ lower := get_port lower_addr in
  let+ (ok, lower_ctx) := tool_open_dev_port (port_context lower) in
  if negb ok then scan_open_failed true root_addr upper_addr else
  ret (Some {| root_port_context := root_ctx; upper_port_context := upper_ctx; lower_port_context := lower_ctx;
               dc_sw_conn1 := sw_conn1; dc_sw_conn2 := sw_conn2 |})
  end.

(** [None] is the result [false]. *)
Definition read_ide_cap_ctrl_register (addr : Z) : io State (option (Z * Z)) :=
  let+ _ := io_assert (negb (addr =? 0)) in
  let+ port := get_port addr in
  let+ fd := open_configuration_space (port_bdf port) in
  if fd =? -1 then ret None else
  let+ ecap_offset := get_extended_cap_offset fd PCI_IDE_EXT_CAPABILITY_ID in
  let+ r :=
    (if ecap_offset =? 0 then ret None else
     let offset := u32 (ecap_offset + 4) in
     let+ ide_cap := device_pci_read_32 offset fd in
     let offset := u32 (offset + 4) in
     let+ ide_ctrl := device_pci_read_32 offset fd in
     ret (Some (ide_cap, ide_ctrl))) in
  let+ _ := close fd in
  ret r.

(** *** lside *)

(** The lines of one port of a switch; [None] ends the walk. *)
Definition dump_sw_port (label : string) (addr : Z) : io State (option (list bytes)) :=
  let+ r := read_ide_cap_ctrl_register addr in
  match r with
  | None => ret None
  | Some (ide_cap, ide_ctrl) =>
      let+ p := get_port addr in
      ret (Some [bs label ++ port_name p ++ bs " (" ++ port_bdf p ++ bs ")";
                 bs "    ide_cap       : " ++ hex_fixed 8 ide_cap;
                 bs "                  : " ++ cap_features ide_cap ++ bs ", " ++ cap_numbers ide_cap;
                 ctrl_line "    ide_ctrl      : " ide_ctrl; []])
  end.

Fixpoint dump_sw_conn (conn : list conn_context) : io State (bool * list bytes) :=
  match conn with
  | [] => ret (true, [])
  | x :: conn =>
      let head := [bs "Switch_" ++ dec (ctx_switch_id x)] in
      let+ ups := dump_sw_port "  Ups             : " (ctx_ups x) in
      match ups with None => ret (false, head) | Some ups =>
      let+ dps := dump_sw_port "  Dps             : " (ctx_dps x) in
      match dps with None => ret (false, head ++ ups) | Some dps =>
      let+ (ok, rest) := dump_sw_conn conn in
      ret (ok, head ++ ups ++ dps ++ rest)
      end end
  end.

Definition dump_device (pc : ide_common_test_port_context_t) : io State (list bytes) :=
  let+ out := lside_dump_ecap (cfg_space_fd pc) (ecap_offset pc) in
  ret ([] :: port_line "Device" (port pc) :: out).

Definition list_devices_in_top (dc : DEVCIES_CONTEXT) : io State (list bytes) :=
  let+ root := dump_root_port (root_port_context dc) in
  let+ (_, conn1) := dump_sw_conn (dc_sw_conn1 dc) in
  let+ (_, conn2) := dump_sw_conn (dc_sw_conn2 dc) in
  let+ upper := (match upper_port_context dc with Some pc => dump_device pc | None => ret [] end) in
  let+ lower := dump_device (lower_port_context dc) in
  ret (root ++ conn1 ++ conn2 ++ upper ++ lower).

(** *** setide *)

Definition clear_ft_supported_in_ide_ctrl (addr : Z) : io State bool :=
  let+ _ := io_assert (negb (addr =? 0)) in
  let+ port := get_port addr in
  let+ fd := open_configuration_space (port_bdf port) in
  if fd =? -1 then ret false else
  let+ ecap_offset := get_extended_cap_offset fd PCI_IDE_EXT_CAPABILITY_ID in
  let+ r :=
    (if ecap_offset =? 0 then ret false else
     let offset := u32 (ecap_offset + 8) in
     let+ ide_ctrl := device_pci_read_32 offset fd in
     let+ _ := device_pci_write_32 offset (write_member PCIE_IDE_CTRL anonymous "ft_supported" 0 ide_ctrl) fd in
     ret true) in
  let+ _ := close fd in
  ret r.

Definition clear_ft_supported_in_sw_conn (conn : list conn_context) : io State bool :=
  let+ _ := io_fold (λ x _, let+ _ := clear_ft_supported_in_ide_ctrl (ctx_ups x) in
                            let+ _ := clear_ft_supported_in_ide_ctrl (ctx_dps x) in ret tt) conn tt in
  ret true.

Definition clear_devices_in_top (dc : DEVCIES_CONTEXT) : io State bool :=
  let+ _ := clear_root_port (root_port_context dc) in
  let+ _ := clear_ft_supported_in_sw_conn (dc_sw_conn1 dc) in
  let+ _ := clear_ft_supported_in_sw_conn (dc_sw_conn2 dc) in
  let+ _ := (match upper_port_context dc with Some pc => clear_dev_port pc | None => ret true end) in
  let+ _ := clear_dev_port (lower_port_context dc) in
  ret true.

(** *** main

    The two functions differ in the options and in what is done with the open
    devices.  Returned are the exit code, whether the usage was printed, and what [operate] returned. *)
Context (exists_file : bytes → bool) (read_file : bytes → option bytes).

Definition tool_env (o : tool_options) : parse_env :=
  {| ConfigParse.g_scan_segment := INVALID_SCAN_SEGMENT; ConfigParse.g_scan_bus := tool_scan_bus o;
     ConfigParse.g_run_test_suite := false |}.

Definition tool_main {R} (cmdline : list bytes → res (bool * tool_options)) (operate : DEVCIES_CONTEXT → io State R)
    (argv : list bytes) : io State (Z * bool * option R) :=
  let+ (ok, o) := lift (cmdline argv) in
  if negb ok then ret (-1, true, None) else
  if to_print_usage o then ret (0, true, None) else
  if negb (nonempty (ide_test_ini_file o)) then ret (0, true, None) else
  let+ (ok, c, _) := lift (parse_ide_test_init stub_funcs (tool_env o) zero_config 0 (read_file (ide_test_ini_file o))) in
  if negb ok then ret (-1, false, None) else
  let+ _ := set_process (with_port_objects (config_objects c)) in
  let+ devices_context := scan_open_devices_in_top c (tool_top_id o) in
  match devices_context with
  | None => ret (0, false, None)
  | Some devices_context => let+ r := operate devices_context in ret (0, false, Some r)
  end.

Definition lside_main : list bytes → io State (Z * bool * option (list bytes)) :=
  tool_main (lside_cmdline exists_file) list_devices_in_top.
Definition setide_main : list bytes → io State (Z * bool * option bool) :=
  tool_main (setide_cmdline exists_file) clear_devices_in_top.
End programs.

(** ** What lside prints *)

Fixpoint links_text (id : Z) (l : list lnk_block) : list bytes :=
  match l with [] => [] | b :: l => link_lines id (lb_ctrl b) (lb_status b) ++ links_text (id + 1) l end.
Fixpoint selectives_text (id : Z) (l : list sel_block) : list bytes :=
  match l with
  | [] => []
  | b :: l => selective_lines id (sb_cap b) (sb_ctrl b) (sb_status b) ++ selectives_text (id + 1) l
  end.

(** How many of the selective streams are shown and cleared: the last is left out when there are more than four. *)
Definition shown_count {A} (sels : list A) : nat :=
  if (4 <? length sels)%nat then (length sels - 1)%nat else length sels.

Lemma links_text_concat id l :
  links_text id l = concat (imap (λ i b, link_lines (id + Z.of_nat i) (lb_ctrl b) (lb_status b)) l).
Proof.
  revert id. induction l as [|b l IH]; intros id; [done|]. cbn [links_text imap concat]. rewrite Z.add_0_r. f_equal.
  rewrite IH. f_equal. apply imap_ext. intros i x _. unfold compose. f_equal. lia.
Qed.

Lemma selectives_text_concat id l :
  selectives_text id l = concat (imap (λ i b, selective_lines (id + Z.of_nat i) (sb_cap b) (sb_ctrl b) (sb_status b)) l).
Proof.
  revert id. induction l as [|b l IH]; intros id; [done|]. cbn [selectives_text imap concat]. rewrite Z.add_0_r. f_equal.
  rewrite IH. f_equal. apply imap_ext. intros i x _. unfold compose. f_equal. lia.
Qed.

Section lside_output.
Context {D : Type} `{Bus D}.
Context (d : D) (fd : Z) (Hfd : 0 < fd).

Lemma dump_links l off k out :
  0 ≤ off → off + 8 * Z.of_nat (length l) < 4096 → lnk_at d fd (off + 4) l →
  io_fold (dump_link fd) (seqZ k (Z.of_nat (length l))) (off, out) d =
  Ok ((off + 8 * Z.of_nat (length l), out ++ links_text k l), d).
Proof.
  revert off k out. induction l as [|b l IH]; intros off k out Hoff He Hl.
  { simpl. by rewrite Z.add_0_r, app_nil_r. }
  destruct Hl as (Hc & Hs & Hl). cbn [length] in *. rewrite seqZ_cons by lia. cbn [io_fold].
  replace (Z.pred (Z.of_nat (S (length l)))) with (Z.of_nat (length l)) by lia.
  unfold dump_link at 1. cbv zeta. rewrite (u32_id (off + 4)), (u32_id (off + 4 + 4)) by lia.
  rewrite bind_assoc, (bind_read32 _ _ _ _ _ Hfd Hc), bind_assoc, (bind_read32 _ _ _ _ _ Hfd Hs), bind_ret.
  replace (off + 4 + 4) with (off + 8) in * by lia. rewrite IH by (done || lia || (by replace (off + 8 + 4) with (off + 4 + 8) by lia)).
  cbn [links_text]. rewrite <- app_assoc. by replace (off + 8 + 8 * Z.of_nat (length l)) with (off + 8 * Z.of_nat (S (length l))) by lia.
Qed.

Lemma dump_selectives l num_lnk off k out :
  0 ≤ off → off + 32 * Z.of_nat (length l) < 4096 → sel_at d fd (off + 4) l → forallb one_addr_block l = true →
  ∃ off', io_fold (dump_selective fd num_lnk) (seqZ k (Z.of_nat (length l))) (off, out) d =
  Ok ((off', out ++ selectives_text (k + num_lnk) l), d).
Proof.
  revert off k out. induction l as [|b l IH]; intros off k out Hoff He Hl Ho.
  { exists off. simpl. by rewrite app_nil_r. }
  destruct Hl as (Hp & Hc & Hs & Hl). cbn [length] in *. rewrite seqZ_cons by lia. cbn [io_fold].
  apply andb_true_iff in Ho as [Hb%Z.eqb_eq Ho]. unfold sel_size in Hl. rewrite Hb in Hl.
  destruct (IH (off + 32) (Z.succ k) (out ++ selective_lines (k + num_lnk) (sb_cap b) (sb_ctrl b) (sb_status b)))
    as [off' E]; [lia|lia| |done|].
  { by replace (off + 32 + 4) with (off + 4 + (20 + 12 * 1)) by lia. }
  exists off'. replace (Z.pred (Z.of_nat (S (length l)))) with (Z.of_nat (length l)) by lia.
  unfold dump_selective at 1. cbv zeta.
  rewrite (u32_id (off + 4)), (u32_id (off + 4 + 4)), (u32_id (off + 4 + 4 + 4)), u32_id by lia.
  rewrite bind_assoc, (bind_read32 _ _ _ _ _ Hfd Hp), bind_assoc, (bind_read32 _ _ _ _ _ Hfd Hc), bind_assoc.
  replace (off + 4 + 8) with (off + 4 + 4 + 4) in Hs by lia. rewrite (bind_read32 _ _ _ _ _ Hfd Hs), bind_ret.
  replace (off + 4 + 4 + 4 + 4 * 5) with (off + 32) by lia. rewrite E. cbn [selectives_text].
  rewrite <- app_assoc. by replace (Z.succ k + num_lnk) with (k + num_lnk + 1) by lia.
Qed.
End lside_output.

Lemma length_shown {A} (sels : list A) : length (take (shown_count sels) sels) = shown_count sels.
Proof. unfold shown_count. rewrite length_take. destruct (Nat.ltb_spec 4 (length sels)); lia. Qed.

Lemma shown_le {A} (sels : list A) :
  Z.of_nat (length (take (shown_count sels) sels)) = num_sel_ide_issue (Z.of_nat (length sels)).
Proof.
  rewrite length_shown. unfold shown_count, num_sel_ide_issue.
  destruct (Nat.ltb_spec 4 (length sels)), (Z.ltb_spec 4 (Z.of_nat (length sels))); lia.
Qed.

Lemma sel_sizes_take k l : sel_sizes (take k l) ≤ sel_sizes l.
Proof. rewrite <- (take_drop k l) at 2. rewrite sel_sizes_app. pose proof (sel_sizes_nonneg (drop k l)). lia. Qed.

Lemma lside_ecap_lines {D} `{Bus D} (d : D) fd e cap lnks sels id ctrl :
  ide_ecap_at d fd e cap lnks sels → reads d (Cfg fd e) 4 id → reads d (Cfg fd (e + 8)) 4 ctrl →
  forallb one_addr_block (take (shown_count sels) sels) = true →
  lside_dump_ecap fd e d =
  Ok (header_lines id cap ctrl ++ links_text 0 lnks ++ [[]] ++
      selectives_text (Z.of_nat (length lnks)) (take (shown_count sels) sels), d).
Proof.
  intros [Hfd He Hcap Hl Hs Hla Hsa Hend] Hid Hctrl Hone. pose proof (sel_sizes_nonneg sels).
  unfold lside_dump_ecap. cbv zeta. rewrite (bind_read32 _ _ _ _ _ Hfd Hid), (u32_id (e + 4)) by lia.
  rewrite (bind_read32 _ _ _ _ _ Hfd Hcap), (u32_id (e + 4 + 4)) by lia.
  replace (e + 4 + 4) with (e + 8) by lia. rewrite (bind_read32 _ _ _ _ _ Hfd Hctrl).
  unfold range. rewrite <- Hl, <- Hs, !Z.sub_0_r.
  rewrite (bind_Ok _ _ _ _ _ (dump_links d fd Hfd lnks (e + 8) 0 _ ltac:(lia) ltac:(lia) ltac:(by replace (e + 8 + 4) with (e + 12) by lia))).
  pose proof (shown_le sels) as Hn. pose proof (sel_sizes_take (shown_count sels) sels) as Ht.
  rewrite (sel_sizes_ones _ Hone) in Ht. rewrite <- Hn.
  destruct (dump_selectives d fd Hfd (take (shown_count sels) sels) (Z.of_nat (length lnks)) (e + 8 + 8 * Z.of_nat (length lnks)) 0
              ((header_lines id cap ctrl ++ links_text 0 lnks) ++ [[]])) as [off' E]; [lia|lia| |done|].
  - rewrite <- (take_drop (shown_count sels) sels), sel_at_app in Hsa. destruct Hsa as [Hsa _].
    by replace (e + 8 + 8 * Z.of_nat (length lnks) + 4) with (e + 12 + 8 * Z.of_nat (length lnks)) by lia.
  - rewrite (bind_Ok _ _ _ _ _ E). unfold ret. by rewrite <- !app_assoc.
Qed.

(** What the accessors read of a shown stream. *)
Lemma link_registers_read {D} `{Bus D} (d : D) fd e cap lnks sels i b :
  ide_ecap_at d fd e cap lnks sels → lnks !! i = Some b →
  read_ide_stream_ctrl_in_ecap fd TEST_IDE_TYPE_LNK_IDE (Z.of_nat i) e d = Ok (lb_ctrl b, d) ∧
  read_ide_stream_status_in_ecap fd TEST_IDE_TYPE_LNK_IDE (Z.of_nat i) e d = Ok (lb_status b, d).
Proof.
  intros Hecap Hb. pose proof (lookup_lt_Some _ _ _ Hb) as Hlt.
  pose proof (control_register_updates d fd e cap lnks sels TEST_IDE_TYPE_LNK_IDE (Z.of_nat i) Hecap ltac:(lia) true (or_intror eq_refl)) as Hc.
  unfold stream_regs, addressable in Hc. cbn [Z.eqb TEST_IDE_TYPE_LNK_IDE Pos.eqb] in Hc. rewrite Nat2Z.id, Hb in Hc.
  cbn [fmap option_fmap option_map] in Hc.
  rewrite (proj2 (Z.ltb_lt _ _)) in Hc by lia. destruct Hc as (_ & _ & _ & Hc & _ & Hs & _). by split.
Qed.

Lemma selective_registers_read {D} `{Bus D} (d : D) fd e cap lnks sels j b :
  ide_ecap_at d fd e cap lnks sels → forallb one_addr_block (take (shown_count sels) sels) = true →
  take (shown_count sels) sels !! j = Some b →
  sels !! j = Some b ∧
  read_ide_stream_ctrl_in_ecap fd TEST_IDE_TYPE_SEL_IDE (Z.of_nat (length lnks) + Z.of_nat j) e d = Ok (sb_ctrl b, d) ∧
  read_ide_stream_status_in_ecap fd TEST_IDE_TYPE_SEL_IDE (Z.of_nat (length lnks) + Z.of_nat j) e d = Ok (sb_status b, d).
Proof.
  intros Hecap Hone [Hb Hj]%lookup_take_Some. pose proof (lookup_lt_Some _ _ _ Hb) as Hlt. set (i := Z.of_nat (length lnks) + Z.of_nat j).
  pose proof (control_register_updates d fd e cap lnks sels TEST_IDE_TYPE_SEL_IDE i Hecap ltac:(lia) true (or_introl eq_refl)) as Hc.
  unfold stream_regs, addressable in Hc. cbn [Z.eqb TEST_IDE_TYPE_SEL_IDE TEST_IDE_TYPE_LNK_IDE] in Hc.
  replace (Z.to_nat (i - Z.of_nat (length lnks))) with j in Hc by lia. rewrite Hb in Hc.
  cbn [fmap option_fmap option_map] in Hc. rewrite (proj2 (Z.leb_le _ _)), (proj2 (Z.ltb_lt _ _)) in Hc by lia.
  assert (Hpre : forallb one_addr_block (take j sels) = true).
  { rewrite <- (take_drop j (take (shown_count sels) sels)), take_take, Nat.min_l, forallb_app in Hone by lia.
    by apply andb_true_iff in Hone as [? _]. }
  rewrite Hpre in Hc. destruct Hc as (_ & _ & _ & Hc & _ & Hs & _). by split_and!.
Qed.

(** C40: Of a capability within the configuration space whose shown selective blocks have one address
    association block each, [lside] prints exactly the three registers of
    its header, then one paragraph per link stream, in order, an empty line, and one paragraph per
    selective stream, in order, all of them but the last when there are more than four.  The paragraph of a stream shows its
    number and the control and
    status registers that the validator's own accessors read for it, and of a selective stream its capability register. *)
Theorem lside_shows_streams {D} `{Bus D} (d : D) fd e cap lnks sels id ctrl :
  ide_ecap_at d fd e cap lnks sels → reads d (Cfg fd e) 4 id → reads d (Cfg fd (e + 8)) 4 ctrl →
  forallb one_addr_block (take (shown_count sels) sels) = true →
  ∃ link_paragraphs selective_paragraphs,
    lside_dump_ecap fd e d =
      Ok (header_lines id cap ctrl ++ concat link_paragraphs ++ [[]] ++ concat selective_paragraphs, d) ∧
    length link_paragraphs = length lnks ∧
    length selective_paragraphs = (if (4 <? length sels)%nat then (length sels - 1)%nat else length sels) ∧
    (∀ i par, link_paragraphs !! i = Some par → ∃ c s,
       read_ide_stream_ctrl_in_ecap fd TEST_IDE_TYPE_LNK_IDE (Z.of_nat i) e d = Ok (c, d) ∧
       read_ide_stream_status_in_ecap fd TEST_IDE_TYPE_LNK_IDE (Z.of_nat i) e d = Ok (s, d) ∧
       par = link_lines (Z.of_nat i) c s) ∧
    (∀ j par, selective_paragraphs !! j = Some par → ∃ b c s, let i := Z.of_nat (length lnks) + Z.of_nat j in
       sels !! j = Some b ∧
       read_ide_stream_ctrl_in_ecap fd TEST_IDE_TYPE_SEL_IDE i e d = Ok (c, d) ∧
       read_ide_stream_status_in_ecap fd TEST_IDE_TYPE_SEL_IDE i e d = Ok (s, d) ∧
       par = selective_lines i (sb_cap b) c s).
Proof.
  intros Hecap Hid Hctrl Hone. eexists _, _. split.
  { rewrite (lside_ecap_lines d fd e cap lnks sels id ctrl Hecap Hid Hctrl Hone), links_text_concat, selectives_text_concat. done. }
  split; [apply length_imap|]. split; [rewrite length_imap; apply length_shown|]. split.
  - intros i par (b & Hb & ->)%list_lookup_imap_Some. apply (link_registers_read d fd e cap lnks sels i b Hecap) in Hb as [Hc Hs].
    by exists (lb_ctrl b), (lb_status b).
  - intros j par (b & Hb & ->)%list_lookup_imap_Some.
    pose proof (selective_registers_read d fd e cap lnks sels j b Hecap Hone Hb) as (Hx & Hc & Hs).
    by exists b, (sb_ctrl b), (sb_status b).
Qed.

Lemma lside_shows_streams_witness :
  ∃ links selectives, lside_dump_ecap 3 0x200 example_machine =
      Ok (header_lines 0x00010030 0x00010003 0 ++ concat links ++ [[]] ++ concat selectives, example_machine) ∧
    length links = 1%nat ∧ length selectives = 2%nat.
Proof.
  destruct (lside_shows_streams example_machine 3 0x200 0x00010003 example_lnks example_sels 0x00010030 0 example_ecap
    ltac:(solve_reads) ltac:(solve_reads) ltac:(reflexivity)) as (links & sels & E & Hl & Hs & _).
  exists links, sels. split; [exact E|]. split; [exact Hl|exact Hs].
Defined.

(** ** What setide leaves behind, on a machine of plain memory *)

Definition value (m : memory) (r : reg) : Z := get_bits 0 32 (mem_peek m r).
Definition whole (r : reg) : Prop := reg_dword r = (r, 0).

(** The registers of a list are 0, the others as before. *)
Definition zeroed (W : list reg) (m m' : memory) : Prop :=
  ∀ r, whole r → value m' r = if bool_decide (r ∈ W) then 0 else value m r.

Lemma whole_cfg fd off : off mod 4 = 0 → whole (Cfg fd off).
Proof. intros E. unfold whole, reg_dword. rewrite E. by rewrite <- Z_div_exact_full_2 by (done || lia). Qed.
Lemma whole_mmio a : a mod 4 = 0 → whole (Mmio a).
Proof. intros E. unfold whole, reg_dword. rewrite E. by rewrite <- Z_div_exact_full_2 by (done || lia). Qed.

Lemma reads_value m r : whole r → reads m r 4 (value m r).
Proof.
  intros Hr. unfold reads. cbn [bus_read memory_bus]. rewrite Hr. split; [done|]. apply get_bits_range; lia.
Qed.

Lemma zeroed_refl m : zeroed [] m m.
Proof. intros r _. by rewrite bool_decide_eq_false_2 by apply not_elem_of_nil. Qed.

Lemma zeroed_app W V m m' m'' : zeroed W m m' → zeroed V m' m'' → zeroed (W ++ V) m m''.
Proof.
  intros H1 H2 r Hr. rewrite (H2 r Hr), (H1 r Hr). destruct (decide (r ∈ V)) as [Hv|Hv].
  - rewrite !bool_decide_eq_true_2; [done| |done]. apply elem_of_app. by right.
  - rewrite (bool_decide_eq_false_2 (r ∈ V)) by done. destruct (decide (r ∈ W)) as [Hw|Hw].
    + rewrite !bool_decide_eq_true_2; [done| |done]. apply elem_of_app. by left.
    + rewrite !bool_decide_eq_false_2; [done| |done]. intros [|]%elem_of_app; done.
Qed.

Lemma zeroed_write r m : whole r → zeroed [r] m (bus_write r 4 0 m).
Proof.
  intros Hr r' _. cbn [bus_write memory_bus]. rewrite Hr. unfold value, mem_peek at 1. cbn [List.find fst].
  destruct (decide (r = r')) as [<-|Hne].
  - rewrite bool_decide_eq_true_2 by done. rewrite (bool_decide_eq_true_2 (r ∈ [r])) by (by apply list_elem_of_singleton).
    cbn [snd]. change (8 * 0) with 0. change (8 * 4) with 32. by rewrite get_set_bits_eq by lia.
  - rewrite bool_decide_eq_false_2 by done. rewrite bool_decide_eq_false_2 by (intros E%list_elem_of_singleton; congruence). done.
Qed.

Lemma zeroed_writes l m : Forall whole l → zeroed l m (fold_left (λ m r, bus_write r 4 0 m) l m).
Proof.
  intros Hl. revert m. induction Hl as [|r l Hr Hl IH]; intros m; [apply zeroed_refl|]. cbn [fold_left].
  eapply (zeroed_app [r]); [by apply zeroed_write|apply IH].
Qed.

Lemma zeroed_keeps W m m' r : zeroed W m m' → whole r → r ∉ W → value m' r = value m r.
Proof. intros Hz Hr Hn. by rewrite (Hz r Hr), bool_decide_eq_false_2. Qed.

(** A loop of which every turn clears some registers. *)
Lemma zeroed_loop (P : memory → Prop) (body : Z → unit → io memory unit) (regs : Z → list reg) k n m :
  P m →
  (∀ i m, k ≤ i < k + Z.of_nat n → P m → ∃ m', body i tt m = Ok (tt, m') ∧ zeroed (regs i) m m' ∧ P m') →
  ∃ m', io_fold body (seqZ k (Z.of_nat n)) tt m = Ok (tt, m') ∧ zeroed (flat_map regs (seqZ k (Z.of_nat n))) m m' ∧ P m'.
Proof.
  revert k m. induction n as [|n IH]; intros k m Hm Hb.
  { exists m. split; [done|]. split; [apply zeroed_refl|done]. }
  rewrite seqZ_cons by lia. replace (Z.pred (Z.of_nat (S n))) with (Z.of_nat n) by lia. cbn [io_fold flat_map].
  destruct (Hb k m ltac:(lia) Hm) as (m1 & E1 & Hz1 & Hm1). rewrite (bind_Ok _ _ _ _ _ E1).
  destruct (IH (Z.succ k) m1 Hm1) as (m2 & E2 & Hz2 & Hm2); [intros i m' Hi; apply Hb; lia|].
  exists m2. split; [done|]. split; [by eapply zeroed_app|done].
Qed.

Fixpoint lnks_in (m : memory) (fd off : Z) (n : nat) : list lnk_block :=
  match n with
  | O => []
  | S n => {| lb_ctrl := value m (Cfg fd off); lb_status := value m (Cfg fd (off + 4)) |} :: lnks_in m fd (off + 8) n
  end.
Fixpoint sels_in (m : memory) (fd off : Z) (n : nat) : list sel_block :=
  match n with
  | O => []
  | S n => {| sb_cap := value m (Cfg fd off); sb_ctrl := value m (Cfg fd (off + 4)); sb_status := value m (Cfg fd (off + 8)) |}
           :: sels_in m fd (off + 32) n
  end.

(** A capability, on a register boundary, with one address association block for each selective stream. *)
Record plain_ecap (fd e cap : Z) (m : memory) : Prop := {
  pe_fd : 0 < fd;
  pe_low : 0 ≤ e;
  pe_aligned : e mod 4 = 0;
  pe_cap : value m (Cfg fd (e + 4)) = cap;
  pe_blocks : ∀ i, 0 ≤ i < sel_count cap →
    num_addr_assoc_reg_blocks (value m (Cfg fd (e + 12 + 8 * lnk_count cap + 32 * i))) = 1;
  pe_end : e + 12 + 8 * lnk_count cap + 32 * sel_count cap ≤ 4096
}.

Lemma counts_nonneg cap : 0 ≤ lnk_count cap ∧ 0 ≤ sel_count cap.
Proof.
  unfold lnk_count, sel_count, num_lnk_ide, num_sel_ide.
  pose proof (get_bits_range 13 3 cap). pose proof (get_bits_range 16 8 cap).
  destruct (_ =? 1), (_ =? 1); lia.
Qed.

Lemma shift_aligned e x : e mod 4 = 0 → (e + 4 * x) mod 4 = 0.
Proof. intros E. rewrite (Z.mul_comm 4), Z.mod_add by lia. done. Qed.

Lemma aligned_plus e x : e mod 4 = 0 → x mod 4 = 0 → (e + x) mod 4 = 0.
Proof. intros E F. by rewrite Z.add_mod, E, F by lia. Qed.

Lemma lnks_in_at m fd off n : off mod 4 = 0 → lnk_at m fd off (lnks_in m fd off n).
Proof.
  revert off. induction n as [|n IH]; intros off Ho; [done|]. split_and!.
  - by apply reads_value, whole_cfg.
  - by apply reads_value, whole_cfg, aligned_plus.
  - by apply IH, aligned_plus.
Qed.

Lemma length_lnks_in m fd off n : length (lnks_in m fd off n) = n.
Proof. revert off. induction n; intros; simpl; congruence. Qed.
Lemma length_sels_in m fd off n : length (sels_in m fd off n) = n.
Proof. revert off. induction n; intros; simpl; congruence. Qed.

Lemma sels_in_at m fd off n :
  off mod 4 = 0 →
  (∀ i, 0 ≤ i < Z.of_nat n → num_addr_assoc_reg_blocks (value m (Cfg fd (off + 32 * i))) = 1) →
  sel_at m fd off (sels_in m fd off n) ∧ forallb one_addr_block (sels_in m fd off n) = true.
Proof.
  revert off. induction n as [|n IH]; intros off Ho Hb; [done|].
  pose proof (Hb 0 ltac:(lia)) as H0. replace (off + 32 * 0) with off in H0 by lia.
  destruct (IH (off + 32)) as [Hs Hone]; [by apply aligned_plus| |].
  { intros i Hi. replace (off + 32 + 32 * i) with (off + 32 * (i + 1)) by lia. apply Hb. lia. }
  split; [|cbn [sels_in forallb]; rewrite Hone; unfold one_addr_block; cbn [sb_cap]; by rewrite H0].
  cbn [sels_in sel_at sb_cap sb_ctrl sb_status]. split_and!.
  - by apply reads_value, whole_cfg.
  - by apply reads_value, whole_cfg, aligned_plus.
  - by apply reads_value, whole_cfg, aligned_plus.
  - unfold sel_size. cbn [sb_cap]. by rewrite H0.
Qed.

Section setide.
Context (fd e cap : Z).

#[local] Abbreviation num_lnk := (lnk_count cap).
#[local] Abbreviation sel_block_at i := (e + 12 + 8 * num_lnk + 32 * i).

Lemma plain_ecap_at m :
  plain_ecap fd e cap m → ∃ lnks sels, ide_ecap_at m fd e cap lnks sels ∧ forallb one_addr_block sels = true.
Proof.
  intros [Hfd He Ha Hc Hb Hend]. destruct (counts_nonneg cap) as [Hl Hs].
  assert (Hla : (e + 12 + 8 * num_lnk) mod 4 = 0).
  { apply aligned_plus; [by apply aligned_plus|]. Z.to_euclidean_division_equations. lia. }
  destruct (sels_in_at m fd (e + 12 + 8 * num_lnk) (Z.to_nat (sel_count cap)) Hla) as [Hsa Hone].
  { intros i Hi. apply Hb. lia. }
  exists (lnks_in m fd (e + 12) (Z.to_nat num_lnk)), (sels_in m fd (e + 12 + 8 * num_lnk) (Z.to_nat (sel_count cap))).
  split; [|done]. constructor; rewrite ?length_lnks_in, ?length_sels_in, ?Z2Nat.id by done; try done.
  - rewrite <- Hc. by apply reads_value, whole_cfg, aligned_plus.
  - by apply lnks_in_at, aligned_plus.
  - rewrite (sel_sizes_ones _ Hone), length_sels_in, Z2Nat.id by done. done.
Qed.

Lemma plain_ecap_zeroed W m m' :
  plain_ecap fd e cap m → zeroed W m m' → Cfg fd (e + 4) ∉ W →
  (∀ i, 0 ≤ i < sel_count cap → Cfg fd (sel_block_at i) ∉ W) → plain_ecap fd e cap m'.
Proof.
  intros [Hfd He Ha Hc Hb Hend] Hz H4 Hs. constructor; try done.
  - rewrite <- Hc. apply (zeroed_keeps _ _ _ _ Hz); [|done]. by apply whole_cfg, aligned_plus.
  - intros i Hi. rewrite (zeroed_keeps _ _ _ _ Hz); [by apply Hb| |by apply Hs].
    apply whole_cfg. replace (sel_block_at i) with (e + 4 * (3 + 2 * num_lnk + 8 * i)) by lia. by apply shift_aligned.
Qed.

(** The registers of a stream that setide writes. *)
Definition link_registers (i : Z) : list reg := [Cfg fd (e + 12 + 8 * i)].
Definition selective_registers (i : Z) : list reg := map (λ off, Cfg fd (sel_block_at i + off)) [12; 16; 20; 24; 28; 4].

Lemma setup_clears ide_type id regs m :
  plain_ecap fd e cap m → 0 ≤ id →
  (ide_type = TEST_IDE_TYPE_LNK_IDE ∧ id < num_lnk ∧ regs = link_registers id ∨
   ide_type = TEST_IDE_TYPE_SEL_IDE ∧ num_lnk ≤ id < num_lnk + sel_count cap ∧ regs = selective_registers (id - num_lnk)) →
  ∃ m', setup_ide_ecap_regs fd ide_type id e 0 0 0 0 0 0 m = Ok (true, m') ∧ zeroed regs m m'.
Proof.
  intros Hm Hid Hty. destruct (plain_ecap_at m Hm) as (lnks & sels & Hecap & Hone). destruct Hm as [Hfd He Ha _ _ Hend].
  pose proof (ecap_lnks _ _ _ _ _ _ Hecap) as Hl. pose proof (ecap_sels _ _ _ _ _ _ Hecap) as Hs. destruct (counts_nonneg cap).
  destruct Hty as [(-> & Hlt & ->)|(-> & Hlt & ->)].
  - pose proof (setup_ide_ecap_regs_writes m fd e cap lnks sels TEST_IDE_TYPE_LNK_IDE id Hecap Hid 0 0 0 0 0 0 (or_intror eq_refl)) as E.
    unfold addressable, block_offset, ctrl_pos in E. cbn [Z.eqb TEST_IDE_TYPE_LNK_IDE TEST_IDE_TYPE_SEL_IDE Pos.eqb] in E.
    eexists. split; [apply E; apply Z.ltb_lt; lia|]. rewrite Z.add_0_r. apply zeroed_write, whole_cfg.
    replace (e + 12 + 8 * id) with (e + 4 * (3 + 2 * id)) by lia. by apply shift_aligned.
  - pose proof (setup_ide_ecap_regs_writes m fd e cap lnks sels TEST_IDE_TYPE_SEL_IDE id Hecap Hid 0 0 0 0 0 0 (or_introl eq_refl)) as E.
    unfold addressable, block_offset, ctrl_pos in E. cbn [Z.eqb TEST_IDE_TYPE_LNK_IDE TEST_IDE_TYPE_SEL_IDE] in E.
    set (j := Z.to_nat (id - Z.of_nat (length lnks))) in *.
    assert (Hpre : forallb one_addr_block (take j sels) = true).
    { rewrite <- (take_drop j sels), forallb_app in Hone. by apply andb_true_iff in Hone as [? _]. }
    rewrite Hpre, (proj2 (Z.leb_le _ _)), (proj2 (Z.ltb_lt _ _)) in E by lia.
    rewrite (sel_sizes_ones _ Hpre), length_take, Nat.min_l in E by lia.
    exists (fold_left (λ m r, bus_write r 4 0 m) (selective_registers (id - num_lnk)) m). split.
    + rewrite E by done. unfold selective_registers. cbn [map fold_left].
      replace (e + 12 + 8 * Z.of_nat (length lnks) + 32 * Z.of_nat j) with (sel_block_at (id - num_lnk)) by lia.
      by rewrite <- !(Z.add_assoc (sel_block_at (id - num_lnk))).
    + apply zeroed_writes, Forall_map, Forall_forall. intros x Hx. apply whole_cfg, aligned_plus.
      * replace (sel_block_at (id - num_lnk)) with (e + 4 * (3 + 2 * num_lnk + 8 * (id - num_lnk))) by lia. by apply shift_aligned.
      * repeat (apply elem_of_cons in Hx as [->|Hx]; [done|]). by apply elem_of_nil in Hx.
Qed.

(** The registers of a capability that setide writes: not those of the last selective stream when there are more than four. *)
Definition ecap_registers : list reg :=
  flat_map link_registers (range 0 num_lnk) ++
  flat_map selective_registers (range 0 (if 4 <? sel_count cap then sel_count cap - 1 else sel_count cap)).

Ltac not_written := intros Hin; repeat (apply elem_of_cons in Hin as [[=]|Hin]; [lia|]); by apply elem_of_nil in Hin.

Lemma clear_ecap_spec pc m :
  cfg_space_fd pc = fd → ecap_offset pc = e → ide_cap pc = cap → plain_ecap fd e cap m →
  ∃ m', clear_ecap pc m = Ok (true, m') ∧ zeroed ecap_registers m m'.
Proof.
  intros Hf Ho Hc Hm. destruct (counts_nonneg cap) as [Hl Hs].
  assert (Hn : 0 ≤ num_sel_ide_issue (sel_count cap) ≤ sel_count cap)
    by (unfold num_sel_ide_issue; destruct (Z.ltb_spec 4 (sel_count cap)); lia).
  unfold clear_ecap, ecap_registers, range. cbv zeta. change (if 4 <? sel_count cap then _ else _) with (num_sel_ide_issue (sel_count cap)).
  rewrite Hc, !Z.sub_0_r.
  destruct (zeroed_loop (plain_ecap fd e cap) (clear_link pc) link_registers 0 (Z.to_nat num_lnk) m Hm) as (m1 & E1 & Hz1 & Hm1).
  { intros i m0 Hi Hm0. unfold clear_link. rewrite Hf, Ho.
    destruct (setup_clears TEST_IDE_TYPE_LNK_IDE i _ m0 Hm0 ltac:(lia) ltac:(left; split_and!; [done|lia|reflexivity])) as (m' & E & Hz).
    exists m'. rewrite (bind_Ok _ _ _ _ _ E). split; [done|]. split; [done|].
    eapply plain_ecap_zeroed; [done|exact Hz| |intros j Hj]; unfold link_registers; not_written. }
  destruct (zeroed_loop (plain_ecap fd e cap) (clear_selective pc num_lnk) selective_registers 0
    (Z.to_nat (num_sel_ide_issue (sel_count cap))) m1 Hm1) as (m2 & E2 & Hz2 & _).
  { intros i m0 Hi Hm0. unfold clear_selective. rewrite Hf, Ho.
    destruct (setup_clears TEST_IDE_TYPE_SEL_IDE (i + num_lnk) (selective_registers i) m0 Hm0 ltac:(lia)) as (m' & E & Hz).
    { right. split_and!; [done|lia|lia|]. by replace (i + num_lnk - num_lnk) with i by lia. }
    exists m'. rewrite (bind_Ok _ _ _ _ _ E). split; [done|]. split; [done|].
    eapply plain_ecap_zeroed; [done|exact Hz| |intros j Hj]; unfold selective_registers; cbn [map]; not_written. }
  rewrite !Z2Nat.id in * by lia. exists m2. rewrite (bind_Ok _ _ _ _ _ E1), (bind_Ok _ _ _ _ _ E2). split; [done|].
  by eapply zeroed_app.
Qed.

(** The registers of a stream of the root complex. *)
Definition kcbar_registers (kcbar i : Z) : list reg :=
  map (λ off, Mmio (stream_config_reg_block kcbar i + off)) [tx_ctrl; rx_ctrl; tx_key_set_0; tx_key_set_1; rx_key_set_0; rx_key_set_1] ++
  [Mmio (stream_config_reg_block kcbar i)].

Lemma initialize_clears kcbar i m :
  kcbar mod 4 = 0 →
  ∃ m', initialize_kcbar_registers kcbar 0 i m = Ok (true, m') ∧ zeroed (kcbar_registers kcbar i) m m'.
Proof.
  intros Hk. exists (fold_left (λ m r, bus_write r 4 0 m) (kcbar_registers kcbar i) m). split; [reflexivity|].
  assert (Hb : stream_config_reg_block kcbar i mod 4 = 0).
  { unfold stream_config_reg_block, sizeof_INTEL_KEYP_STREAM_CONFIG_REG_BLOCK.
    replace (kcbar + 4 + 36 * i) with (kcbar + 4 * (1 + 9 * i)) by lia. by apply shift_aligned. }
  apply zeroed_writes. unfold kcbar_registers. cbn [map app].
  repeat (apply Forall_cons_2; [apply whole_mmio; first [exact Hb|by apply aligned_plus]|]). apply Forall_nil_2.
Qed.

Lemma io_for_fold {D} (body : Z → unit → io D (unit + unit)) (f : Z → unit → io D unit) l d :
  (∀ i d, body i tt d = (let+ _ := f i tt in ret (inl tt)) d) →
  io_for body l tt d = (let+ _ := io_fold f l tt in ret (inl tt)) d.
Proof.
  intros Hb. revert d. induction l as [|i l IH]; intros d; [done|]. cbn [io_for io_fold].
  unfold bind at 1. rewrite (Hb i d). unfold bind, ret at 1. destruct (f i tt d) as [[[] d']|]; [|done]. cbn [res_bind].
  apply IH.
Qed.
End setide.

(** C39: On a machine of plain memory, setide sets the registers of a root port to 0, when its capability
    lies on a dword boundary within the 4096 bytes of the configuration space and every selective stream of it has
    exactly one address association block, and its key configuration block is on a dword boundary: of every stream of the root
    complex the control, transmit, receive and key set registers, of every link stream of the capability the control
    register, and of the selective streams, but for the last when there are more than four, the control and the
    association registers.  Every other register keeps its value. *)
Theorem setide_clears_root_port pc m :
  plain_ecap (cfg_space_fd pc) (ecap_offset pc) (ide_cap pc) m → mapped_kcbar_addr pc mod 4 = 0 →
  ∃ m', clear_root_port pc m = Ok (true, m') ∧
    zeroed (flat_map (kcbar_registers (mapped_kcbar_addr pc)) (range 0 (num_stream_supported (stream_cap pc) + 1)) ++
            ecap_registers (cfg_space_fd pc) (ecap_offset pc) (ide_cap pc)) m m'.
Proof.
  intros Hm Hk. set (n := num_stream_supported (stream_cap pc) + 1).
  assert (Hn : 0 ≤ n) by (unfold n, num_stream_supported; pose proof (get_bits_range 0 8 (stream_cap pc)); lia).
  unfold clear_root_port, clear_kcbar. fold n. set (clear i := λ _ : unit, let+ _ := initialize_kcbar_registers (D := memory) (mapped_kcbar_addr pc) 0 i in ret tt).
  destruct (zeroed_loop (plain_ecap (cfg_space_fd pc) (ecap_offset pc) (ide_cap pc)) clear (kcbar_registers (mapped_kcbar_addr pc))
    0 (Z.to_nat n) m Hm) as (m1 & E1 & Hz1 & Hm1).
  { intros i m0 Hi Hm0. destruct (initialize_clears (mapped_kcbar_addr pc) i m0 Hk) as (m' & E & Hz).
    exists m'. unfold clear. rewrite (bind_Ok _ _ _ _ _ E). split; [done|]. split; [done|].
    eapply plain_ecap_zeroed; [done|exact Hz| |intros j Hj]; unfold kcbar_registers; cbn [map app];
      intros Hin; repeat (apply elem_of_cons in Hin as [[=]|Hin]); by apply elem_of_nil in Hin. }
  destruct (clear_ecap_spec _ _ _ pc m1 eq_refl eq_refl eq_refl Hm1) as (m2 & E2 & Hz2).
  rewrite Z2Nat.id in * by lia. unfold range. rewrite Z.sub_0_r. exists m2. split; [|by eapply zeroed_app].
  rewrite bind_assoc, (bind_Ok _ _ m (inl tt) m1).
  - rewrite bind_ret. cbn [negb]. by rewrite (bind_Ok _ _ _ _ _ E2).
  - rewrite (io_for_fold _ clear) by (intros i d; reflexivity). by rewrite (bind_Ok _ _ _ _ _ E1).
Qed.

Lemma setide_clears_root_port_witness :
  ∃ m', clear_root_port example_context example_machine = Ok (true, m') ∧ value m' (Cfg 3 0x218) = 0 ∧
    value m' (Cfg 3 0x214) = 1 ∧ value example_machine (Cfg 3 0x218) = 0x07000001.
Proof.
  destruct (setide_clears_root_port example_context example_machine) as (m' & E & Hz).
  - constructor; [done..|reflexivity| |done]. intros i Hi.
    assert (Hin : i ∈ seqZ 0 2) by (apply elem_of_seqZ; exact Hi). clear Hi.
    repeat (apply elem_of_cons in Hin as [->|Hin]; [reflexivity|]). by apply elem_of_nil in Hin.
  - reflexivity.
  - exists m'. split; [exact E|]. rewrite (Hz (Cfg 3 0x218)), (Hz (Cfg 3 0x214)) by reflexivity. split_and!; vm_compute; reflexivity.
Defined.

(** ** Opening the ports of a topology *)

Section opening.
Context {D : Type} `{Bus D} `{Os D}.

Lemma opened_root_type (pc : ide_common_test_port_context_t) s ok pc' s' :
  open_root_port (D := D) pc s = Ok ((ok, pc'), s') → port_type (port pc) = IDE_PORT_TYPE_ROOTPORT.
Proof.
  unfold open_root_port. rewrite bind_assert. by destruct (Z.eqb_spec (port_type (port pc)) IDE_PORT_TYPE_ROOTPORT).
Qed.

Lemma opened_device_type (pc : ide_common_test_port_context_t) s ok pc' s' :
  tool_open_dev_port (D := D) pc s = Ok ((ok, pc'), s') → port_type (port pc) = IDE_PORT_TYPE_ENDPOINT.
Proof.
  unfold tool_open_dev_port, open_dev_port_with. rewrite bind_assert.
  by destruct (Z.eqb_spec (port_type (port pc)) IDE_PORT_TYPE_ENDPOINT).
Qed.

(** A topology of two endpoints below one root port is never opened: the context of the upper port is made for the root
    port, so the run stops at an assertion if it gets that far. *)
Lemma p2p_never_opens c id top s r s' :
  get_topology_by_id (Some c) id = Ok (Some top) → top_connection top = IDE_TEST_CONNECT_P2P →
  scan_open_devices_in_top (D := D) c id s = Ok (r, s') → r = None.
Proof.
  intros Ht Hp. unfold scan_open_devices_in_top. rewrite Ht, (bind_lift_Ok _ _ _ _ eq_refl).
  intros (root_addr & s1 & _ & E)%bind_inv. apply bind_inv in E as (upper_addr & s2 & _ & E).
  apply bind_inv in E as (lower_addr & s3 & _ & E). cbv zeta in E. rewrite Hp in E.
  apply bind_inv in E as ([c1 c2] & s4 & _ & E). apply bind_inv in E as (found & s5 & _ & E).
  unfold scan_open_failed in E. destruct (negb found); [by injection E as <- _|].
  apply bind_inv in E as (root & s6 & _ & E). apply bind_inv in E as ([ok ctx] & s7 & Eroot & E).
  apply opened_root_type in Eroot. destruct (negb ok); [by injection E as <- _|].
  apply bind_inv in E as ([ok' ctx'] & s8 & Eup & _). apply bind_inv in Eup as ([ok'' pc] & s9 & Eup & _).
  apply opened_device_type in Eup. cbn [port port_context] in *. rewrite Eroot in Eup. done.
Qed.

(** Outside of it the upper port has the context of the root port, which is open as a
    root port, the lower port is open as an endpoint, and nothing is freed that is used. *)
Lemma opened_topology c id top s dc s' :
  get_topology_by_id (Some c) id = Ok (Some top) → scan_open_devices_in_top (D := D) c id s = Ok (Some dc, s') →
  upper_port_context dc = None.
Proof.
  intros Ht. unfold scan_open_devices_in_top. rewrite Ht, (bind_lift_Ok _ _ _ _ eq_refl).
  intros Eall. pose proof Eall as (root_addr & s1 & _ & E)%bind_inv. apply bind_inv in E as (upper_addr & s2 & _ & E).
  apply bind_inv in E as (lower_addr & s3 & _ & E). cbv zeta in E.
  apply bind_inv in E as ([c1 c2] & s4 & _ & E). apply bind_inv in E as (found & s5 & _ & E).
  unfold scan_open_failed in E. destruct (negb found); [done|].
  apply bind_inv in E as (root & s6 & _ & E). apply bind_inv in E as ([ok ctx] & s7 & Eroot & E).
  apply opened_root_type in Eroot. destruct (negb ok); [done|].
  apply bind_inv in E as ([ok' ctx'] & s8 & Eup & E). destruct (Z.eqb_spec (top_connection top) IDE_TEST_CONNECT_P2P).
  - apply bind_inv in Eup as ([ok'' pc] & s9 & Eup & _). apply opened_device_type in Eup. cbn [port port_context] in *.
    rewrite Eroot in Eup. done.
  - injection Eup as <- <- <-. cbn [negb] in E. apply bind_inv in E as (lower & s9 & _ & E).
    apply bind_inv in E as ([ok'' lctx] & s10 & _ & E). destruct (negb ok''); [|by injection E as <- _].
    destruct (_ && _); [done|]. by injection E.
Qed.
End opening.

(** ** The command line and the exit code *)

Lemma tool_option_Stop exists_file opt arg o e :
  (∀ s, exists_file s = true → strlen s ≠ MAX_FILE_NAME) → parse_tool_option exists_file opt arg o ≠ Stop e.
Proof.
  intros Hf. unfold parse_tool_option, copy_file_name, validate_file_name.
  destruct (opt =? char "f"); [|repeat case_match; congruence].
  destruct (Z.ltb_spec MAX_FILE_NAME (strlen arg)); [done|]. destruct (exists_file arg) eqn:E; [|done].
  specialize (Hf arg E). rewrite (proj2 (Z.ltb_lt _ _)) by lia. done.
Qed.

Lemma tool_cmdlines_end exists_file prog argv :
  (∀ s, exists_file s = true → strlen s ≠ MAX_FILE_NAME) →
  returns (lside_cmdline exists_file (prog :: argv)) ∧ returns (setide_cmdline exists_file (prog :: argv)).
Proof.
  intros Hf. unfold lside_cmdline, setide_cmdline. cbn [length Nat.eqb negb TEEIO_ASSERT res_bind].
  split; apply options_end; intros opt arg o e; [by apply tool_option_Stop|].
  unfold parse_setide_option. destruct (opt =? char "c"); [done|by apply tool_option_Stop].
Qed.

(** The exit code is 0 whether or not the devices were found. *)
Lemma tool_exit_code {D} `{Bus D} `{Os D} `{Libspdm} {R} read_file cmdline (operate : DEVCIES_CONTEXT → io (D * process) R) argv s ret usage r s' :
  tool_main read_file cmdline operate argv s = Ok ((ret, usage, r), s') →
  ret = 0 ∨ ret = -1 ∧ r = None.
Proof.
  unfold tool_main. intros ([ok o] & s1 & _ & E)%bind_inv. destruct (negb ok); [injection E as <- _ <- _; by right|].
  destruct (to_print_usage o); [injection E as <- _ _ _; by left|].
  destruct (negb (nonempty _)); [injection E as <- _ _ _; by left|].
  apply bind_inv in E as ([[ok' c] t] & s2 & _ & E). destruct (negb ok'); [injection E as <- _ <- _; by right|].
  apply bind_inv in E as ([] & s3 & _ & E). apply bind_inv in E as ([dc|] & s4 & _ & E); [|injection E as <- _ _ _; by left].
  apply bind_inv in E as (x & s5 & _ & E). injection E as <- _ _ _. by left.
Qed.

(** A selective stream without address association blocks: lside reads the stream after it twelve bytes too far and shows
    it as not in use. *)
Lemma lside_assumes_one_block :
  let d : memory := [(Cfg 3 0x204, 0x00010002); (Cfg 3 0x210, 0); (Cfg 3 0x220, 1); (Cfg 3 0x224, 0x09000001)] in
  let sels := [{| sb_cap := 0; sb_ctrl := 0; sb_status := 0 |}; {| sb_cap := 1; sb_ctrl := 0x09000001; sb_status := 0 |}] in
  ide_ecap_at d 3 0x200 0x00010002 [] sels ∧
  lside_dump_ecap 3 0x200 d = Ok (header_lines 0 0x00010002 0 ++ [[]] ++ selective_lines 0 0 0 0 ++ selective_lines 1 0 0 0, d).
Proof. split; [|vm_compute; reflexivity]. constructor; try done; simpl; split_and?; solve_reads. Qed.

(** At a selective stream that has other than one address association block setide stops at an assertion. *)
Lemma setide_needs_one_block :
  let m : memory := [(Cfg 3 0x204, 0x00010002); (Cfg 3 0x20c, 2); (Cfg 3 0x210, 1)] in
  let pc := {| port := example_port; cfg_space_fd := 3; ecap_offset := 0x200; doe_offset := 0; ide_cap := 0x00010002;
               mapped_kcbar_addr := 0; kcbar_fd := 0; stream_cap := 0; ide_id := 0; rid_assoc1 := 0; rid_assoc2 := 0;
               addr_assoc1 := 0; addr_assoc2 := 0; addr_assoc3 := 0 |} in
  clear_dev_port pc m = Stop AssertHang.
Proof. vm_compute. reflexivity. Qed.

(** Of five selective streams the last keeps its enable bit. *)
Lemma setide_leaves_the_fifth :
  let m : memory := map (λ i, (Cfg 3 (0x20c + 32 * i), 1)) (seqZ 0 5) ++ map (λ i, (Cfg 3 (0x210 + 32 * i), 0x07000001)) (seqZ 0 5) in
  let pc := {| port := example_port; cfg_space_fd := 3; ecap_offset := 0x200; doe_offset := 0; ide_cap := 0x00040002;
               mapped_kcbar_addr := 0; kcbar_fd := 0; stream_cap := 0; ide_id := 0; rid_assoc1 := 0; rid_assoc2 := 0;
               addr_assoc1 := 0; addr_assoc2 := 0; addr_assoc3 := 0 |} in
  match clear_dev_port pc ((Cfg 3 0x204, 0x00040002) :: m) with
  | Ok (true, m') => map (λ i, value m' (Cfg 3 (0x210 + 32 * i))) (seqZ 0 5) = [0; 0; 0; 0; 0x07000001]
  | _ => False
  end.
Proof. vm_compute. reflexivity. Qed.

End Tools.
